(* ===== verification/_CoqProject ===== *)
-Q . S2P
Prelude.v
GoStrings.v
GoFloat.v
Errors.v
Context.v
Interleave.v
Breaker.v
ClientBucket.v
HedgeBucket.v
Retry.v
Http.v
RateLimit.v
Adaptive.v
Balancer.v
ConsistentHash.v
Batching.v
Auth.v
Tenant.v
Observe.v
Routing.v
Compression.v
Streams.v
GrpcHandler.v
Gateway.v
Health.v
Sniffer.v
Transports.v
Server.v
Ast.v
Lexer.v
ProtoParser.v
ProtoSyntax.v
ThriftParser.v
ThriftSyntax.v
Checker.v
Linter.v
Transpiler.v
Wire.v
GoText.v
GenCommon.v
FlatBuf.v
GenGo.v
GenRust.v
GenNode.v
GenPython.v
GenJava.v
GenCpp.v
OpenApi.v
GoFiles.v
Scaffold.v
Mux.v
Json.v
OpenApiText.v
Cli.v
Terminal.v
Project.v
SchemaController.v
WireThrift.v
Transcode.v
Service.v
NodeClient.v
ThriftRpc.v
PyCodec.v
Resolver.v
Debug.v
Helpers.v
Config.v
Messaging.v
Examples.v
DashboardPage.v
Dashboard.v
ServerRun.v
BenchServer.v
ProfileGen.v
Operator.v
OperatorTypes.v
OperatorMain.v
