(* ===== verification/Prelude.v ===== *)
(** * Helix RPC: verification library

    Helix is an RPC framework in Go: a server runtime that speaks gRPC, gRPC-Web,
    JSON/REST, server-sent events, web-sockets and Thrift on one port (under
    src/runtimes/go), and a compiler from protobuf and Thrift schemas to code (under
    src/compiler).  This library models the Go runtime and the compiler and proves
    their main guarantees.  It is a shallow embedding: Go
    functions are Rocq functions, mutable objects are records passed explicitly,
    [(value, error)] pairs are the type [res], and a Go panic is a value.

    ** The parts and the files that model them

    Foundations.  [Prelude] has results, machine integers (values in [Z] with
    [wrapU]/[wrapS] written out), bytes, Go's unordered map iteration ([MapIter]),
    hint databases and tactics.  [GoStrings] has Go's string functions and
    [strconv]; [GoFloat] the float64 operations the program uses, on the Standard
    Library's executable binary64; [Http] the response writer (with the header snapshot of
    the first write), big-endian integers and base64; [Interleave] a generic machine
    for threads whose atomic steps interleave, with invariants by rule induction;
    [GoText] string builders, [fmt.Sprintf] and literals with Go's escapes, and a
    theory of balanced brackets in text; [GoFiles] path functions and a file system
    with permissions; [Json] JSON values, their text and the decoder; [Mux] the request
    multiplexer of net/http.

    Requests.  [Errors] (errors.go), [Context] (metadata.go, deadline.go: the
    grpc-timeout parser and the context), [Routing] (splitPath and matchREST of
    grpc_handler.go), [Compression] (compression.go), [Streams] (the three
    ServerStream implementations of grpc_handler.go and websocket.go), [GrpcHandler]
    (GRPCHandler: registration, the interceptor chain and ServeHTTP with its JSON,
    SSE, web-socket, streaming and unary branches), [Gateway] (what an interceptor
    sees behind the handler), [Health] (health.go on top of [GrpcHandler]), [Auth]
    (auth.go), [Tenant] (tenant_gateway.go), [Observe] (metrics.go with its HTTP
    middleware, logging.go, telemetry.go).

    Resilience.  [Breaker], [HedgeBucket] and [Retry] (retry.go: circuit breaker,
    hedging bucket, retry and hedging), [ClientBucket], [RateLimit] and [Adaptive]
    (ratelimit.go: token bucket, per-client and Redis limiters, adaptive concurrency
    limit), [Balancer] and [ConsistentHash] (balancer.go, client_pool.go,
    consistent_hash.go), [Resolver] (resolver.go, resolver_dns.go,
    resolver_consul.go, composed with the balancers), [Batching] (batching.go).

    Connections.  [Sniffer] (sniffer.go), [Transports] (shm_transport.go,
    quic_transport.go), [Server] (the channel listener, Thrift connections and
    Shutdown of grpc_handler.go and thrift_handler.go; the pool of client_pool.go),
    [ServerRun] (NewServer, registration and Start of grpc_handler.go: which endpoints a
    server mounts, what a start opens and closes).

    Compiler.  [Ast] (ast.go), [Lexer] and [ProtoParser] (proto_parser.go),
    [ThriftParser] (thrift_parser.go), [ProtoSyntax] and [ThriftSyntax] (the surface
    syntax, its printing and its meaning, as specifications of the parsers),
    [Checker] (checker.go), [Linter] (linter.go), [Transpiler]
    (thrift_transpiler.go), [Wire] and [WireThrift] (what the code printed by
    go_generator.go does: the protobuf codec, the lazy accessors, the transcoder to
    Thrift compact), [Transcode] (what that transcoder's output means), [FlatBuf]
    (what the FlatBuffers methods printed by the Go, Node and Python generators do),
    [PyCodec] (what the printed Python decoder does), [Service] (what the printed
    Register functions and binders do, on the request handler), [NodeClient] (what the
    printed TypeScript client does, against the Go server), [ThriftRpc] (the pattern of the
    Thrift methods the Go generator prints, over any lawful Thrift protocol, and the
    connection loop around them), [ProfileGen] (the Thrift methods of the committed
    generated code, tests/go/generated/test.pb.go, statement by statement: the current
    generator prints Read with a brace too many, so its output does not compile).
    [GenCommon], [GenGo], [GenRust], [GenNode], [GenPython], [GenJava] and [GenCpp]
    are the generators themselves, as the text they print, one definition per part of
    the Go function; [OpenApi] is the document of openapi_generator.go and its JSON
    text, [OpenApiText] what a JSON decoder reads from this text.  [Cli] is main.go: flags, every
    subcommand and exit codes in a small monad over files, output and typed answers;
    [Terminal] the text of what is printed; [Scaffold] the project templates; [Project]
    a program logic for commands and what a scaffolded project is good for.
    [SchemaController] is k8s/controller.go.

    Around the runtime.  [Debug] (debug.go: the counter registry with its pointers and
    locks, the snapshot, the handler that forces the breaker), [DashboardPage] and
    [Dashboard] (debug_ui.go: the page as text, the script as a function on its elements,
    and the debug endpoints over HTTP), [Config] (config.go: decoding the configuration
    file), [Helpers] (cache.go, crypto/vault.go, the reload loop of config.go,
    db_helpers.go, ebpf.go), [Messaging] (rabbitmq.go, crypto/kms.go, the Kafka bridge and
    the Kong plugin under src/integrations), [Examples] (the example servers under
    src/examples and src/benchmarks), [BenchServer] (benchmarks/helix_server.go as a whole
    program, from its schema to its answers).

    Operator.  [Operator] is the reconcile loop of the Kubernetes operator
    (helixservice_controller.go) over a model of the API server's store; [OperatorTypes]
    its types and generated deep copies over a heap, [OperatorMain] its start-up
    (cmd/main.go).

    ** How the parts interact

    A connection is classified by [Sniffer] and handed to the HTTP server or to a
    Thrift processor ([Server]; [ProfileGen] runs the loop with the generated processor).
    [GrpcHandler.ServeHTTP] routes a request
    ([Routing]), builds its context and metadata ([Context]), decodes it, runs the
    interceptors in order and writes the response; messages enter through the class
    [Message], which says what the handler needs of a codec (the generated one is
    [Wire]).  The interceptors of [Auth], [RateLimit], [Tenant] and [Observe] have the
    handler's interceptor type, and effects on the outside world go through a world
    type with the classes [HasClock] and [Has].  [Retry] drives the operations of
    [Breaker] and [HedgeBucket]; [RateLimit] and [Tenant] keep [ClientBucket]s;
    balancers are instances of one class in [Balancer].  The parsers produce the
    [Ast] that [Checker], [Linter], [Wire] and the generators consume; [Cli] reads a
    schema, runs them and writes what they return.  [Debug] acts on the breaker and
    reads the balancer.  [Service] registers generated methods with [GrpcHandler], and
    [NodeClient] calls them; [ServerRun] mounts the handlers of [Dashboard] and [Health]
    on a [Mux]; the script of [Dashboard] reads what its endpoints answer.

    ** What the theorems show

    - Generated services: a gRPC or REST call to a generated service runs the
      implementation on exactly the message the client encoded and returns its answer; the
      event reader of the TypeScript client yields, for each message the server sent and
      however the network cuts them, the object the class of the output type makes of it;
      the client reaches a unary method without an HTTP rule exactly in package v1.  A
      Thrift connection of the committed generated service answers every call in order
      under its sequence number, up to the first that fails, and the committed struct
      exchanges the fields it shares with any other version.  The benchmark server answers
      every user's profile.
    - Requests: interceptors nest in order; REST patterns and
      their parameters round-trip and the first matching route wins; streams keep
      messages and their order; the health service answers what was set; timeouts
      are read exactly; no request without an accepted token and the required claims
      reaches a handler, and keys are not confused between
      algorithm families.
    - Limits: a client whose requests come one after the other on a clock that does not run
      backwards never gets more than its tokens plus the refill; simultaneous requests on a
      bucket refilled at that instant get exactly the tokens there are in every
      interleaving, and two counterexamples show that without these conditions more are
      granted; clients and tenants do not affect one another; the
      concurrency limit and the hedging bucket stay in bounds under every
      interleaving.
    - Resilience: the breaker trips, stays open and recovers exactly as configured under
      its normal operations run one after the other; a retry makes its attempts in order up
      to the first success, error that is not retried, end of the context or of the
      attempts, and returns exactly that outcome; hedges follow their contract; waits are
      bounded.
    - Balancing: least-connections is minimal, round-robin is fair, and adding or
      removing a node of the hash ring moves only that node's keys; batches answer
      each request once and in order.
    - Connections: a server mounts exactly the endpoints its configuration enables, and a
      failed start leaves nothing open; the pool never shares a connection, closed
      meanwhile or not; Shutdown refuses new Thrift connections; the sniffer loses no byte; stream data arrives in order.
    - Compiler: both parsers compute the meaning of every well-formed file and always
      return; the compatibility check decides compatibility for all parsed schemas;
      the linter and the transpiler do what they announce; the generated codec
      round-trips, fills exactly the computed size, and lazy access agrees with full
      decoding, for structs with maps or oneofs as for the others.
    - Generators: the TypeScript, Java, C++ and Python text is balanced for every
      schema with balanced names; the FlatBuffers the Go code writes are read back,
      and for structs without binary fields Python writes the same bytes, TypeScript too as
      long as its integers are exact as doubles; the Python decoder reads what the
      Go code writes when field numbers are positions, and always returns; what the
      generated transcoder to Thrift compact writes is read as the fields that are set,
      under their numbers exactly when no field follows a string, while a struct with maps
      or oneofs gets an error and the committed transcoder keeps every number; every
      reference of the OpenAPI document resolves, and its text is JSON in which every
      method stands under its route with its request and response messages.
    - Commands: generate writes the generator's text or says why not, with every other
      file unchanged; the exit code of diff, and the last line it prints, decide compatibility; a project made by init is
      accepted by generate for every language; the schema controller takes each
      event once and in order and leaves no temporary file.
    - Debug counters are exact under every interleaving, the debug endpoint forces
      the breaker as announced, the dashboard shows what the registry counted, a
      configuration file loads field for field, and the Vault cache holds the last secret
      read; the Kafka bridge broadcasts every record as one event.
    - Operator: reconciling converges in one step and touches no other deployment; deep
      copies are equal and share no memory; the start-up is secure unless told otherwise.
    - Several theorems pin down behaviour that is wrong: streaming methods bypass the
      interceptors, crafted lengths make the generated decoders loop or panic, the Go
      and Rust text is unbalanced, the documented service name gives a schema that does
      not parse, cache keys of different methods coincide, and others named in the
      files under "Properties".

    ** Bounds and fuel

    Loops over data are structural.  Loops that are not run on fuel, and the fuel is
    shown to be enough: the parsers use the number of tokens plus one
    ([parseAST_total], [thrift_parseAST_total]), the lexer the number of characters
    ([lex_fuel]), varints ten rounds (a 64-bit value has ten groups of seven bits),
    binary search the length of the ring.  [Unmarshal] runs as many rounds as bytes;
    every round that moves forward consumes one, and [Wire] shows inputs for which no
    number of rounds is enough; the Python decoder, whose rounds all move forward, runs
    as many as bytes and this is shown to be enough; a Thrift [Read] takes at most one
    field for each byte that remains ([struct_Read_ok]).  The watch loops of main.go and
    config.go run over the finite list of rounds the environment plays.  Go's [int]
    has 64 bits.

    ** Parameters

    Code outside the repository enters as arguments: the JWT library, gzip, Redis,
    JSON, web-socket and Thrift libraries, the clock, random numbers and the order of
    map iteration.  Hypotheses about them state documented behaviour (a codec
    restores what it compressed, iteration visits every entry once), and every
    theorem that has one is applied to a concrete instance in its witness.
    [strings.ToLower] and related functions are modelled on ASCII letters.

    In the file system, [..] is taken lexically and there are no links; a write truncates
    the file before it writes, and when the disk is full leaves a prefix of the data
    ([short_write] says how much fits).

    ** Not modelled

    What the Rust, Java and C++ text does when it runs, and the parts of the Go,
    TypeScript and Python text other than the codecs, services and the client named
    above, such as the React hooks, the Python transcoder and the reading half of the
    TypeScript FlatBuffers codec.  The container entry point, a Dockerfile with the
    extension of Go, and the event interfaces of event_helpers.go, which have no
    implementation. *)
From Stdlib Require Export ZArith Lia.
From Stdlib Require Export Strings.Byte.
From Stdlib Require Strings.String.
From stdpp Require Export base tactics gmap strings list sets fin_maps relations sorting.

#[global] Open Scope Z_scope.
#[global] Arguments String.append !_ _ / : simpl nomatch.

Declare Scope helix_scope.
Delimit Scope helix_scope with helix.

(** ** Results: Go's [(value, error)] pairs where an error excludes a value *)
Inductive res (E A : Type) : Type :=
| Ok (a : A)
| Err (e : E).
Arguments Ok {E A} a.
Arguments Err {E A} e.

Definition res_bind {E A B} (c : res E A) (k : A -> res E B) : res E B :=
  match c with Ok a => k a | Err e => Err e end.

Notation "'let?' x ':=' c 'in' k" := (res_bind c (fun x => k))
  (at level 10, x pattern, c at level 100, k at level 200,
   format "'let?'  x  ':='  c  'in' '//' k") : helix_scope.
#[global] Open Scope helix_scope.

Definition is_ok {E A} (r : res E A) : bool :=
  match r with Ok _ => true | Err _ => false end.

(** ** Machine integers: values are kept in [Z], the wrap-around is explicit *)
Definition wrapU (w z : Z) : Z := z mod 2 ^ w.
Definition wrapS (w z : Z) : Z := (z + 2 ^ (w - 1)) mod 2 ^ w - 2 ^ (w - 1).

Abbreviation u8 := (wrapU 8).
Abbreviation u16 := (wrapU 16).
Abbreviation u32 := (wrapU 32).
Abbreviation u64 := (wrapU 64).
Abbreviation i16 := (wrapS 16).
Abbreviation i32 := (wrapS 32).
Abbreviation i64 := (wrapS 64).

Definition in_u (w z : Z) : Prop := 0 <= z < 2 ^ w.
Definition in_s (w z : Z) : Prop := - 2 ^ (w - 1) <= z < 2 ^ (w - 1).

Lemma pow2_split (w : Z) : 0 < w -> 2 ^ w = 2 * 2 ^ (w - 1).
Proof. intros. rewrite <- Z.pow_succ_r by lia. f_equal. lia. Qed.

Lemma pow2_pos (w : Z) : 0 <= w -> 0 < 2 ^ w.
Proof. intros. apply Z.pow_pos_nonneg; lia. Qed.

Lemma wrapU_range (w z : Z) : 0 <= w -> in_u w (wrapU w z).
Proof. intros. apply Z.mod_pos_bound, pow2_pos; done. Qed.

Lemma wrapU_id (w z : Z) : in_u w z -> wrapU w z = z.
Proof. intros. by apply Z.mod_small. Qed.

Lemma wrapS_range (w z : Z) : 0 < w -> in_s w (wrapS w z).
Proof.
  intros Hw. unfold in_s, wrapS.
  pose proof (Z.mod_pos_bound (z + 2 ^ (w - 1)) (2 ^ w) (pow2_pos w ltac:(lia))).
  rewrite (pow2_split w Hw) in *. lia.
Qed.

Lemma wrapS_id (w z : Z) : 0 < w -> in_s w z -> wrapS w z = z.
Proof.
  intros Hw Hz. unfold in_s, wrapS in *.
  rewrite Z.mod_small; [lia|]. rewrite (pow2_split w Hw). lia.
Qed.

(** Signed and unsigned views of a word determine each other. *)
Lemma wrapS_wrapU (w z : Z) : 0 < w -> wrapS w (wrapU w z) = wrapS w z.
Proof.
  intros. unfold wrapS, wrapU. f_equal.
  apply Zplus_mod_idemp_l.
Qed.

Lemma wrapU_wrapS (w z : Z) : 0 < w -> wrapU w (wrapS w z) = wrapU w z.
Proof.
  intros. unfold wrapS, wrapU.
  rewrite Zminus_mod_idemp_l. f_equal. lia.
Qed.

(** Ranges at the widths the program uses, in closed form for [lia]. *)
Lemma in_s64 z : in_s 64 z <-> - 9223372036854775808 <= z < 9223372036854775808.
Proof. reflexivity. Qed.
Lemma in_s32 z : in_s 32 z <-> - 2147483648 <= z < 2147483648.
Proof. reflexivity. Qed.
Lemma in_u32 z : in_u 32 z <-> 0 <= z < 4294967296.
Proof. reflexivity. Qed.
Lemma in_u64 z : in_u 64 z <-> 0 <= z < 18446744073709551616.
Proof. reflexivity. Qed.

(** [words]: rewrite the machine-width side conditions in scope into plain
    inequalities and finish with [lia]. *)
Ltac words :=
  repeat match goal with
  | H : context [in_s 64 _] |- _ => rewrite in_s64 in H
  | H : context [in_s 32 _] |- _ => rewrite in_s32 in H
  | H : context [in_u 32 _] |- _ => rewrite in_u32 in H
  | H : context [in_u 64 _] |- _ => rewrite in_u64 in H
  end;
  rewrite ?in_s64, ?in_s32, ?in_u32, ?in_u64;
  try lia.

(** Case analysis on the boolean integer tests of the models, keeping the
    propositional facts. *)
Ltac zcases :=
  repeat match goal with
  | |- context [Z.ltb ?a ?b] => destruct (Z.ltb_spec a b)
  | |- context [Z.leb ?a ?b] => destruct (Z.leb_spec a b)
  | |- context [Z.eqb ?a ?b] => destruct (Z.eqb_spec a b)
  | H : context [Z.ltb ?a ?b] |- _ => destruct (Z.ltb_spec a b)
  | H : context [Z.leb ?a ?b] |- _ => destruct (Z.leb_spec a b)
  | H : context [Z.eqb ?a ?b] |- _ => destruct (Z.eqb_spec a b)
  end.

(** ** Bytes *)
Abbreviation bytes := (list byte).

Definition byte_to_Z (b : byte) : Z := Z.of_N (Byte.to_N b).
Definition byte_of_Z (z : Z) : byte :=
  match Byte.of_N (Z.to_N (u8 z)) with Some b => b | None => x00 end.

Lemma byte_to_Z_range b : 0 <= byte_to_Z b < 256.
Proof. unfold byte_to_Z. pose proof (Byte.to_N_bounded b). lia. Qed.

Lemma byte_to_of_Z z : byte_to_Z (byte_of_Z z) = u8 z.
Proof.
  unfold byte_to_Z, byte_of_Z.
  pose proof (wrapU_range 8 z ltac:(lia)) as H. unfold in_u in H.
  change (2 ^ 8) with 256 in H.
  destruct (Byte.of_N (Z.to_N (u8 z))) as [b|] eqn:E.
  - apply Byte.to_of_N in E. lia.
  - apply Byte.of_N_None_iff in E. lia.
Qed.

Lemma byte_of_to_Z b : byte_of_Z (byte_to_Z b) = b.
Proof.
  unfold byte_of_Z. rewrite wrapU_id by (apply byte_to_Z_range).
  unfold byte_to_Z. by rewrite N2Z.id, Byte.of_to_N.
Qed.

#[global] Instance byte_eq_dec : EqDecision byte := Byte.byte_eq_dec.

Lemma byte_to_Z_inj b1 b2 : byte_to_Z b1 = byte_to_Z b2 -> b1 = b2.
Proof. intros H. by rewrite <- (byte_of_to_Z b1), H, byte_of_to_Z. Qed.

(** [[]byte(s)] and [string(b)]. *)
Definition to_bytes (s : string) : bytes := String.list_byte_of_string s.
Definition of_bytes (b : bytes) : string := String.string_of_list_byte b.

Lemma of_to_bytes s : of_bytes (to_bytes s) = s.
Proof. apply String.string_of_list_byte_of_string. Qed.
Lemma to_of_bytes b : to_bytes (of_bytes b) = b.
Proof. apply String.list_byte_of_string_of_list_byte. Qed.
Lemma to_bytes_app s t : to_bytes (s +:+ t) = to_bytes s ++ to_bytes t.
Proof.
  unfold to_bytes, String.list_byte_of_string. induction s as [|a s IH]; [done|].
  cbn [String.append String.list_ascii_of_string List.map app]. by f_equal.
Qed.

(** ** Iteration over Go maps

    [for k, v := range m] visits every entry once in an unspecified order.
    A loop of the program is modelled against any [MapIter]: [range_map site m]
    is the sequence of entries the loop at [site] sees. *)
Class MapIter : Type := {
  range_map : forall {K} `{Countable K} {A}, nat -> gmap K A -> list (K * A);
  range_map_perm : forall {K} `{Countable K} {A} (site : nat) (m : gmap K A),
    range_map site m ≡ₚ map_to_list m
}.

(** The order used to run the definitions on concrete inputs. *)
#[export] Instance canonical_iter : MapIter | 100 := {|
  range_map K _ _ A _ m := map_to_list m;
  range_map_perm K _ _ A _ m := Permutation_refl _
|}.

Section range_map.
Context `{MapIter} `{Countable K} {A : Type}.
Implicit Types m : gmap K A.

Lemma elem_of_range_map site m k v : (k, v) ∈ range_map site m <-> m !! k = Some v.
Proof. rewrite range_map_perm. apply elem_of_map_to_list. Qed.

Lemma range_map_empty site : range_map site (∅ : gmap K A) = [].
Proof. apply Permutation_nil_r. by rewrite range_map_perm, map_to_list_empty. Qed.

Lemma range_map_nil_inv site m : range_map site m = [] -> m = ∅.
Proof.
  intros E. apply map_to_list_empty_iff, Permutation_nil_r.
  by rewrite <- (range_map_perm site m), E.
Qed.
End range_map.

(** ** Lists *)
Lemma forallb_True_iff {A} (f : A -> bool) (l : list A) :
  forallb f l = true <-> forall x, x ∈ l -> f x = true.
Proof.
  rewrite List.forallb_forall. by setoid_rewrite list_elem_of_In.
Qed.

Lemma foldl_invariant {A B} (P : A -> Prop) (f : A -> B -> A) (l : list B) (a : A) :
  P a -> (forall a b, P a -> b ∈ l -> P (f a b)) -> P (foldl f a l).
Proof.
  revert a. induction l as [|b l IH]; intros a Ha Hf; [done|]; cbn.
  apply IH.
  - apply Hf; [done|apply list_elem_of_here].
  - intros a' b' ? ?. apply Hf; [done|]. by apply list_elem_of_further.
Qed.

(** ** Runs of a step relation *)
Lemma rtc_invariant {S} (R : S -> S -> Prop) (P : S -> Prop) (s s' : S) :
  rtc R s s' -> P s -> (forall x y, P x -> R x y -> P y) -> P s'.
Proof. induction 1 as [|x y z Hxy _ IH]; [done|]. intros Hx Hstep. eauto. Qed.

(** ** Proof automation of the library *)
Create HintDb helix.
Create Rewrite HintDb helix.
#[export] Hint Resolve wrapU_range wrapS_range byte_to_Z_range pow2_pos : helix.
#[export] Hint Rewrite @byte_to_of_Z @byte_of_to_Z of_to_bytes to_of_bytes : helix.
