(* ===== verification/GoStrings.v ===== *)
(** * Go's string functions and [strconv], as the program uses them

    Go strings are byte sequences; they are Stdlib strings (sequences of 8-bit
    characters) here.  [strings.ToLower]/[ToUpper]/[EqualFold] are modelled on
    the ASCII letters: the program applies them to HTTP header names, HTTP
    verbs and encoding names.  Bytes outside ASCII are left unchanged. *)
From S2P Require Import Prelude.
From Stdlib Require Export Ascii.


(** ** Slicing *)
Fixpoint str_take (n : nat) (s : string) : string :=
  match n, s with
  | S n', String c s' => String c (str_take n' s')
  | _, _ => ""
  end.

Fixpoint str_drop (n : nat) (s : string) : string :=
  match n, s with
  | S n', String _ s' => str_drop n' s'
  | _, _ => s
  end.

(** [s[i:j]] for [i <= j <= len(s)]. *)
Definition slice (s : string) (i j : nat) : string := str_take (j - i) (str_drop i s).

Definition HasPrefix (s prefix : string) : bool :=
  (String.length prefix <=? String.length s)%nat &&
  bool_decide (str_take (String.length prefix) s = prefix).

Definition HasSuffix (s suffix : string) : bool :=
  (String.length suffix <=? String.length s)%nat &&
  bool_decide (str_drop (String.length s - String.length suffix) s = suffix).

Definition TrimPrefix (s prefix : string) : string :=
  if HasPrefix s prefix then str_drop (String.length prefix) s else s.

Fixpoint Contains (s sub : string) : bool :=
  HasPrefix s sub ||
  match s with "" => false | String _ s' => Contains s' sub end.

(** ** Case mapping (ASCII) *)
Definition is_upper (c : ascii) : bool :=
  (65 <=? nat_of_ascii c)%nat && (nat_of_ascii c <=? 90)%nat.
Definition is_lower (c : ascii) : bool :=
  (97 <=? nat_of_ascii c)%nat && (nat_of_ascii c <=? 122)%nat.
Definition is_digit (c : ascii) : bool :=
  (48 <=? nat_of_ascii c)%nat && (nat_of_ascii c <=? 57)%nat.

Definition lower_char (c : ascii) : ascii :=
  if is_upper c then ascii_of_nat (nat_of_ascii c + 32) else c.
Definition upper_char (c : ascii) : ascii :=
  if is_lower c then ascii_of_nat (nat_of_ascii c - 32) else c.

Fixpoint str_map (f : ascii -> ascii) (s : string) : string :=
  match s with "" => "" | String c s' => String (f c) (str_map f s') end.

(** Text written with apostrophes for double quotes. *)
Definition dq (s : string) : string :=
  str_map (fun c => if Ascii.eqb c "'" then "034"%char else c) s.

Definition ToLower (s : string) : string := str_map lower_char s.
Definition ToUpper (s : string) : string := str_map upper_char s.
Definition EqualFold (s t : string) : bool := bool_decide (ToLower s = ToLower t).

(** ** Trimming and splitting *)
Fixpoint trim_left (p : ascii -> bool) (s : string) : string :=
  match s with
  | "" => ""
  | String c s' => if p c then trim_left p s' else s
  end.

Fixpoint trim_right (p : ascii -> bool) (s : string) : string :=
  match s with
  | "" => ""
  | String c s' =>
      match trim_right p s' with
      | "" => if p c then "" else String c ""
      | r => String c r
      end
  end.

(** [strings.Trim(s, string(c))] *)
Definition Trim (s : string) (c : ascii) : string :=
  trim_right (Ascii.eqb c) (trim_left (Ascii.eqb c) s).

Definition is_space (c : ascii) : bool :=
  (nat_of_ascii c =? 32)%nat || ((9 <=? nat_of_ascii c)%nat && (nat_of_ascii c <=? 13)%nat).

(** [strings.TrimSpace] on ASCII white space. *)
Definition TrimSpace (s : string) : string := trim_right is_space (trim_left is_space s).

(** [strings.Split(s, string(c))] *)
Fixpoint Split (s : string) (c : ascii) : list string :=
  match s with
  | "" => [""]
  | String a s' =>
      if Ascii.eqb a c then "" :: Split s' c
      else match Split s' c with
           | [] => [String a ""]
           | h :: t => String a h :: t
           end
  end.

(** [strings.SplitN(s, string(c), 2)]: at most one cut, at the first separator. *)
Fixpoint cut_at (s : string) (c : ascii) : option (string * string) :=
  match s with
  | "" => None
  | String a s' =>
      if Ascii.eqb a c then Some ("", s')
      else match cut_at s' c with
           | Some (x, y) => Some (String a x, y)
           | None => None
           end
  end.

Definition SplitN2 (s : string) (c : ascii) : list string :=
  match cut_at s c with Some (x, y) => [x; y] | None => [s] end.

(** [strings.Join(parts, string(c))] *)
Fixpoint Join (parts : list string) (sep : string) : string :=
  match parts with
  | [] => ""
  | [p] => p
  | p :: ps => p +:+ sep +:+ Join ps sep
  end.

(** ** [strconv] *)
Definition digit_val (c : ascii) : option Z :=
  if is_digit c then Some (Z.of_nat (nat_of_ascii c) - 48) else None.
Definition digit_char (d : Z) : ascii := ascii_of_nat (Z.to_nat (d + 48)).

Fixpoint itoa_go (fuel : nat) (n : Z) (acc : string) : string :=
  match fuel with
  | O => acc
  | S f =>
      let acc' := String (digit_char (n mod 10)) acc in
      if n <? 10 then acc' else itoa_go f (n / 10) acc'
  end.

(** [strconv.Itoa], also [%d]: one round per decimal digit; a number of at most
    [log2 n + 1] bits has at most that many digits. *)
Definition Itoa (z : Z) : string :=
  let n := Z.abs z in
  let s := itoa_go (S (Z.to_nat (Z.log2 n))) n "" in
  if z <? 0 then String "-" s else s.

Inductive num_error := ErrSyntax | ErrRange.

(** The digit loop of [strconv.ParseUint(s, 10, 64)]. *)
Fixpoint parse_uint (n : Z) (s : string) : res num_error Z :=
  match s with
  | "" => Ok n
  | String c s' =>
      match digit_val c with
      | None => Err ErrSyntax
      | Some d => if 2 ^ 64 - 1 <? n * 10 + d then Err ErrRange else parse_uint (n * 10 + d) s'
      end
  end.

Definition ParseUint (s : string) : res num_error Z :=
  match s with "" => Err ErrSyntax | _ => parse_uint 0 s end.

Definition strip_sign (s : string) : bool * string :=
  match s with
  | String c s' =>
      if Ascii.eqb c "+" then (false, s')
      else if Ascii.eqb c "-" then (true, s') else (false, s)
  | "" => (false, s)
  end.

(** [strconv.ParseInt(s, 10, 64)]: the value and the error, if any.  On a range
    error the value is the nearest representable number. *)
Definition ParseInt (s : string) : Z * option num_error :=
  match s with
  | "" => (0, Some ErrSyntax)
  | _ =>
      let '(neg, digits) := strip_sign s in
      match ParseUint digits with
      | Err ErrSyntax => (0, Some ErrSyntax)
      | Err ErrRange => (if neg then - 2 ^ 63 else 2 ^ 63 - 1, Some ErrRange)
      | Ok un =>
          if negb neg && (2 ^ 63 <=? un) then (2 ^ 63 - 1, Some ErrRange)
          else if neg && (2 ^ 63 <? un) then (- 2 ^ 63, Some ErrRange)
          else (if neg then - un else un, None)
      end
  end.

(** [strconv.Atoi] on a 64-bit platform. *)
Definition Atoi := ParseInt.

(** ** Go's [%q] on text of one-byte characters *)
Definition hex_digit (n : Z) : ascii :=
  ascii_of_nat (Z.to_nat (if n <? 10 then n + 48 else n + 87)).

Definition quote_char (c : ascii) : string :=
  let n := Z.of_nat (nat_of_ascii c) in
  if n =? 34 then String "\" (String "034" "")
  else if n =? 92 then "\\"
  else if n =? 7 then "\a" else if n =? 8 then "\b" else if n =? 12 then "\f"
  else if n =? 10 then "\n" else if n =? 13 then "\r" else if n =? 9 then "\t"
  else if n =? 11 then "\v"
  else if (n <? 32) || (127 <=? n) then
    "\x" +:+ String (hex_digit (n / 16)) (String (hex_digit (n mod 16)) "")
  else String c "".

Fixpoint quote_body (s : string) : string :=
  match s with "" => "" | String c s' => quote_char c +:+ quote_body s' end.

Definition Quote (s : string) : string := String "034" (quote_body s) +:+ String "034" "".

(** ** Lemmas: append, slices, prefixes and suffixes *)
Fixpoint str_forall (p : ascii -> bool) (s : string) : bool :=
  match s with "" => true | String c s' => p c && str_forall p s' end.

Lemma str_app_nil_r s : s +:+ "" = s.
Proof. induction s; cbn; congruence. Qed.

Lemma str_app_assoc s t u : (s +:+ t) +:+ u = s +:+ t +:+ u.
Proof. induction s; cbn; congruence. Qed.

Lemma str_length_app s t :
  String.length (s +:+ t) = (String.length s + String.length t)%nat.
Proof. induction s; cbn; congruence. Qed.

Lemma str_take_app s t : str_take (String.length s) (s +:+ t) = s.
Proof. induction s; cbn; [by destruct t|congruence]. Qed.

Lemma str_drop_app s t : str_drop (String.length s) (s +:+ t) = t.
Proof. induction s; cbn; [by destruct t|done]. Qed.

Lemma str_take_drop n s : str_take n s +:+ str_drop n s = s.
Proof. revert s. induction n; intros [|c s]; cbn; [done..|]. by rewrite IHn. Qed.

Lemma str_drop_length n s : String.length (str_drop n s) = (String.length s - n)%nat.
Proof. revert s. induction n; intros [|c s]; cbn; done. Qed.

Lemma str_take_length n s : String.length (str_take n s) = Nat.min n (String.length s).
Proof. revert s. induction n; intros [|c s]; cbn; [done..|]. by rewrite IHn. Qed.

Lemma str_forall_app p s t : str_forall p (s +:+ t) = str_forall p s && str_forall p t.
Proof. induction s; cbn; [done|]. by rewrite IHs, andb_assoc. Qed.

Lemma str_forall_impl (p q : ascii -> bool) s :
  (forall c, p c = true -> q c = true) -> str_forall p s = true -> str_forall q s = true.
Proof.
  intros Hpq. induction s as [|c s IH]; [done|]. cbn. rewrite !andb_true_iff. intros [? ?]. auto.
Qed.

Lemma HasPrefix_iff s p : HasPrefix s p = true <-> exists r, s = p +:+ r.
Proof.
  unfold HasPrefix. rewrite andb_true_iff, Nat.leb_le, bool_decide_eq_true. split.
  - intros [_ E]. exists (str_drop (String.length p) s). rewrite <- E at 1.
    by rewrite str_take_drop.
  - intros [r ->]. rewrite str_take_app, str_length_app. split; [lia|done].
Qed.

Lemma HasSuffix_iff s p : HasSuffix s p = true <-> exists r, s = r +:+ p.
Proof.
  unfold HasSuffix. rewrite andb_true_iff, Nat.leb_le, bool_decide_eq_true. split.
  - intros [_ E]. exists (str_take (String.length s - String.length p) s).
    rewrite <- (str_take_drop (String.length s - String.length p) s) at 1. by rewrite E.
  - intros [r ->]. rewrite str_length_app. split; [lia|].
    replace (String.length r + String.length p - String.length p)%nat
      with (String.length r) by lia.
    apply str_drop_app.
Qed.

Lemma TrimPrefix_app p s : TrimPrefix (p +:+ s) p = s.
Proof.
  unfold TrimPrefix. replace (HasPrefix _ _) with true
    by (symmetry; apply HasPrefix_iff; eauto).
  apply str_drop_app.
Qed.

(** ** Lemmas: splitting and joining *)
Lemma Split_nonempty s c : Split s c <> [].
Proof. destruct s as [|a s]; cbn; [done|]. case_match; [done|]. by case_match. Qed.

Lemma Split_no_sep s c : str_forall (fun a => negb (Ascii.eqb a c)) s = true -> Split s c = [s].
Proof.
  induction s as [|a s IH]; cbn; [done|].
  intros [H1 H2]%andb_true_iff. apply negb_true_iff in H1. by rewrite H1, IH.
Qed.

Lemma Split_app s c t :
  str_forall (fun a => negb (Ascii.eqb a c)) s = true ->
  Split (s +:+ String c t) c = s :: Split t c.
Proof.
  induction s as [|a s IH]; cbn.
  - intros _. by rewrite Ascii.eqb_refl.
  - intros [H1 H2]%andb_true_iff. apply negb_true_iff in H1. by rewrite H1, IH.
Qed.

(** Joining with a separator that occurs in no part, then splitting, gives the
    parts back. *)
Lemma Split_Join parts c :
  parts <> [] ->
  Forall (fun p => str_forall (fun a => negb (Ascii.eqb a c)) p = true) parts ->
  Split (Join parts (String c "")) c = parts.
Proof.
  intros Hne. induction 1 as [|p ps Hp Hps IH]; [done|].
  destruct ps as [|q ps].
  - cbn. by apply Split_no_sep.
  - change (Join (p :: q :: ps) (String c ""))
      with (p +:+ String c (Join (q :: ps) (String c ""))).
    rewrite Split_app by done. by rewrite IH.
Qed.

(** ** Lemmas: decimal printing and parsing *)
Lemma digit_val_char d : 0 <= d < 10 -> digit_val (digit_char d) = Some d.
Proof.
  intros H. assert (d = 0 \/ d = 1 \/ d = 2 \/ d = 3 \/ d = 4 \/ d = 5 \/ d = 6
    \/ d = 7 \/ d = 8 \/ d = 9) as Hd by lia.
  destruct_or! Hd; subst; reflexivity.
Qed.

Lemma is_digit_char d : 0 <= d < 10 -> is_digit (digit_char d) = true.
Proof.
  intros H. pose proof (digit_val_char d H) as E. unfold digit_val in E.
  by destruct (is_digit _).
Qed.

Lemma itoa_go_digits fuel n acc :
  0 <= n -> str_forall is_digit acc = true -> str_forall is_digit (itoa_go fuel n acc) = true.
Proof.
  revert n acc. induction fuel as [|f IH]; intros n acc Hn Hacc; cbn; [done|].
  assert (str_forall is_digit (String (digit_char (n mod 10)) acc) = true).
  { cbn. rewrite is_digit_char, Hacc by (apply Z.mod_pos_bound; lia). done. }
  case_match; [done|]. apply IH; [apply Z.div_pos; lia|done].
Qed.

Lemma parse_uint_itoa_go fuel n acc :
  0 <= n < 2 ^ 64 -> n < 10 ^ Z.of_nat fuel ->
  (0 < fuel)%nat -> parse_uint 0 (itoa_go fuel n acc) = parse_uint n acc.
Proof.
  revert n acc. induction fuel as [|f IH]; intros n acc Hn Hf Hpos; [lia|]. cbn [itoa_go].
  pose proof (Z.mod_pos_bound n 10 ltac:(lia)) as Hm.
  pose proof (Z.div_mod n 10 ltac:(lia)) as Hdm.
  destruct (Z.ltb_spec n 10).
  - cbn [parse_uint]. rewrite digit_val_char by done.
    rewrite (Z.mod_small n 10) by lia. destruct (Z.ltb_spec (2^64-1) (0 * 10 + n)); [lia|].
    done.
  - rewrite Nat2Z.inj_succ, Z.pow_succ_r in Hf by lia.
    assert (0 < f)%nat by (destruct f; [cbn in Hf; lia|lia]).
    rewrite IH; [|split; [apply Z.div_pos; lia|]; apply Z.div_lt_upper_bound; lia
      |apply Z.div_lt_upper_bound; lia|done].
    cbn [parse_uint]. rewrite digit_val_char by done.
    replace (n / 10 * 10 + n mod 10) with n by lia.
    destruct (Z.ltb_spec (2^64-1) n); [lia|done].
Qed.

Lemma itoa_fuel n : 0 <= n -> n < 10 ^ Z.of_nat (S (Z.to_nat (Z.log2 n))).
Proof.
  intros Hn. pose proof (Z.log2_nonneg n).
  rewrite Nat2Z.inj_succ, Z2Nat.id by done.
  apply Z.lt_le_trans with (2 ^ Z.succ (Z.log2 n)).
  - destruct (Z.eq_dec n 0) as [->|]; [done|]. apply Z.log2_spec. lia.
  - apply Z.pow_le_mono_l. lia.
Qed.

Lemma itoa_go_nonempty fuel n acc : itoa_go (S fuel) n acc <> "".
Proof.
  assert (forall f m a, a <> "" -> itoa_go f m a <> "") as H.
  { induction f as [|f IH]; cbn; [done|]. intros. case_match; [done|]. by apply IH. }
  cbn. case_match; [done|]. by apply H.
Qed.

Lemma Itoa_nonneg n : 0 <= n -> Itoa n = itoa_go (S (Z.to_nat (Z.log2 n))) n "".
Proof.
  intros. unfold Itoa. rewrite Z.abs_eq by done.
  destruct (Z.ltb_spec n 0); [lia|done].
Qed.

Lemma Itoa_digits n : 0 <= n -> str_forall is_digit (Itoa n) = true.
Proof. intros. rewrite Itoa_nonneg by done. by apply itoa_go_digits. Qed.

Lemma Itoa_nonempty n : 0 <= n -> Itoa n <> "".
Proof. intros. rewrite Itoa_nonneg by done. apply itoa_go_nonempty. Qed.

Lemma ParseUint_Itoa n : 0 <= n < 2 ^ 64 -> ParseUint (Itoa n) = Ok n.
Proof.
  intros Hn. pose proof (Itoa_nonempty n ltac:(lia)) as Hne. unfold ParseUint.
  destruct (Itoa n) eqn:E; [done|]. rewrite <- E, Itoa_nonneg by lia.
  rewrite parse_uint_itoa_go; [done|lia|apply itoa_fuel; lia|lia].
Qed.

Lemma digits_head_nosign s :
  s <> "" -> str_forall is_digit s = true -> strip_sign s = (false, s).
Proof.
  destruct s as [|c s]; [done|]. cbn. intros _ [Hc _]%andb_true_iff.
  destruct (Ascii.eqb_spec c "+") as [->|]; [done|].
  destruct (Ascii.eqb_spec c "-") as [->|]; [done|]. done.
Qed.

Lemma Itoa_neg z : z < 0 -> Itoa z = String "-" (Itoa (- z)).
Proof.
  intros. unfold Itoa. rewrite Z.abs_neq, (Z.abs_eq (- z)) by lia.
  destruct (Z.ltb_spec z 0); [|lia]. destruct (Z.ltb_spec (- z) 0); [lia|done].
Qed.

Lemma ParseInt_sign (neg : bool) (s digits : string) (un : Z) :
  s <> "" -> strip_sign s = (neg, digits) -> ParseUint digits = Ok un ->
  in_s 64 (if neg then - un else un) ->
  ParseInt s = (if neg then - un else un, None).
Proof.
  intros Hne Hs Hp Hr. unfold ParseInt. destruct s as [|c s]; [done|].
  rewrite Hs, Hp. words.
  destruct neg; cbn [negb andb].
  - destruct (Z.ltb_spec (2 ^ 63) un); [lia|done].
  - destruct (Z.leb_spec (2 ^ 63) un); [lia|done].
Qed.

(** Every 64-bit integer is read back from its decimal form. *)
Lemma ParseInt_Itoa z : in_s 64 z -> ParseInt (Itoa z) = (z, None).
Proof.
  intros Hz. destruct (Z.ltb_spec z 0) as [Hneg|Hpos].
  - rewrite Itoa_neg by done.
    rewrite (ParseInt_sign true _ (Itoa (- z)) (- z)); [f_equal; lia|done|done| |].
    + apply ParseUint_Itoa. words.
    + by rewrite Z.opp_involutive.
  - rewrite (ParseInt_sign false _ (Itoa z) z); [done| | | |done].
    + by apply Itoa_nonempty.
    + apply digits_head_nosign; [by apply Itoa_nonempty|by apply Itoa_digits].
    + apply ParseUint_Itoa. words.
Qed.

#[export] Hint Rewrite str_length_app str_app_assoc str_app_nil_r : helix.
