(* ===== verification/GoFloat.v ===== *)
(** * Go's [float64] arithmetic

    [float64] is IEEE-754 binary64.  It is modelled with the Standard Library's
    executable specification of that format ([SpecFloat]: 53 bits of precision,
    maximal exponent 1024, rounding to nearest even), so the models that do
    floating-point arithmetic compute the very values the program computes. *)
From S2P Require Import Prelude GoStrings.
From Stdlib Require Import Floats.SpecFloat.

Definition f64 : Type := spec_float.

Definition f64_of_Z (z : Z) : f64 := binary_normalize 53 1024 z 0 false.
Definition f64_add : f64 -> f64 -> f64 := SFadd 53 1024.
Definition f64_sub : f64 -> f64 -> f64 := SFsub 53 1024.
Definition f64_mul : f64 -> f64 -> f64 := SFmul 53 1024.
Definition f64_div : f64 -> f64 -> f64 := SFdiv 53 1024.
Definition f64_ltb : f64 -> f64 -> bool := SFltb.
Definition f64_leb : f64 -> f64 -> bool := SFleb.

(** A decimal constant [n / d] with [n] and [d] exactly representable: the
    correctly rounded quotient is the float the constant denotes. *)
Definition f64_const (n d : Z) : f64 := f64_div (f64_of_Z n) (f64_of_Z d).

(** The magnitude of a finite float, rounded towards zero. *)
Definition f64_trunc (m : positive) (e : Z) : Z :=
  if 0 <=? e then Z.pos m * 2 ^ e else Z.pos m / 2 ^ (- e).

(** [int64(x)].  Conversion of an unrepresentable value is implementation
    defined in Go; this is the result of the gc compiler on amd64. *)
Definition i64_of_f64 (x : f64) : Z :=
  match x with
  | S754_zero _ => 0
  | S754_finite s m e =>
      let z := if s then - f64_trunc m e else f64_trunc m e in
      if bool_decide (- 2 ^ 63 <= z) && bool_decide (z < 2 ^ 63) then z else - 2 ^ 63
  | S754_infinity _ | S754_nan => - 2 ^ 63
  end.

(** Rounding [n / d] to the nearest integer, ties to even. *)
Definition round_half_even (n d : Z) : Z :=
  let q := n / d in
  let r := n mod d in
  if 2 * r <? d then q
  else if d <? 2 * r then q + 1
  else if Z.even q then q else q + 1.

Fixpoint pad_zeros (n : nat) (s : string) : string :=
  match n with O => s | S n' => String "0" (pad_zeros n' s) end.

(** [fmt.Sprintf("%.<n>f", x)] *)
Definition fmt_f (n : nat) (x : f64) : string :=
  match x with
  | S754_nan => "NaN"
  | S754_infinity s => if s then "-Inf" else "+Inf"
  | S754_zero s => (if s then "-" else "") +:+
                   (if (n =? 0)%nat then "0" else "0." +:+ pad_zeros n "")
  | S754_finite s m e =>
      let scaled := if 0 <=? e then Z.pos m * 2 ^ e * 10 ^ Z.of_nat n
                    else round_half_even (Z.pos m * 10 ^ Z.of_nat n) (2 ^ (- e)) in
      let ip := Itoa (scaled / 10 ^ Z.of_nat n) in
      let fp := Itoa (scaled mod 10 ^ Z.of_nat n) in
      (if s then "-" else "") +:+ ip +:+
      (if (n =? 0)%nat then ""
       else "." +:+ pad_zeros (n - String.length fp) fp)
  end.

Lemma i64_of_f64_range x : in_s 64 (i64_of_f64 x).
Proof.
  unfold i64_of_f64. destruct x; words.
  match goal with |- context [if ?b then _ else _] => destruct b eqn:E end; [|lia].
  apply andb_true_iff in E as [E1%bool_decide_eq_true E2%bool_decide_eq_true]. lia.
Qed.

(** Sanity checks of the number format on known values. *)
Example f64_tenth_sum : fmt_f 2 (f64_add (f64_const 1 10) (f64_const 2 10)) = "0.30".
Proof. reflexivity. Qed.
Example f64_trunc_neg : i64_of_f64 (f64_const (-7) 2) = -3.
Proof. reflexivity. Qed.
Example f64_int_roundtrip : i64_of_f64 (f64_of_Z 123456789) = 123456789.
Proof. reflexivity. Qed.
