(* ===== verification/Errors.v ===== *)
(** * Errors and metadata ([runtimes/go/errors.go], [runtimes/go/metadata.go])

    Go's [error] interface as an inductive type: the program's own [HelixError],
    the sentinel errors it compares with, errors built from a string, wrapped
    and joined errors.  A nil error is [None] of an [option error]. *)
From S2P Require Import Prelude GoStrings.

(** ** Error codes (errors.go:10-23) *)
Definition CodeOK : Z := 0.
Definition CodeInvalidArgument : Z := 3.
Definition CodeNotFound : Z := 5.
Definition CodeAlreadyExists : Z := 6.
Definition CodePermissionDenied : Z := 7.
Definition CodeResourceExhausted : Z := 8.
Definition CodeUnimplemented : Z := 12.
Definition CodeInternal : Z := 13.
Definition CodeUnavailable : Z := 14.
Definition CodeUnauthenticated : Z := 16.

Inductive error :=
| HelixError (Code : Z) (Message : string)
| ErrorString (s : string)
| WrapError (prefix : string) (e : error)
| JoinError (e1 e2 : error)
| ErrEOF
| ErrUnexpectedEOF
| ErrClosed
| ErrCanceled
| ErrDeadlineExceeded.

(** [err.Error()] *)
Fixpoint Error (e : error) : string :=
  match e with
  | HelixError c m => "helix error: code=" +:+ Itoa c +:+ " message=" +:+ m
  | ErrorString s => s
  | WrapError p e' => p +:+ Error e'
  | JoinError e1 e2 => Error e1 +:+ String "010" (Error e2)
  | ErrEOF => "EOF"
  | ErrUnexpectedEOF => "unexpected EOF"
  | ErrClosed => "use of closed network connection"
  | ErrCanceled => "context canceled"
  | ErrDeadlineExceeded => "context deadline exceeded"
  end.

Definition NewError (code : Z) (message : string) : error := HelixError code message.

(** [errors.As(err, &he)]: the first [HelixError] of the error tree, in
    depth-first order. *)
Fixpoint as_helix (e : error) : option (Z * string) :=
  match e with
  | HelixError c m => Some (c, m)
  | WrapError _ e' => as_helix e'
  | JoinError e1 e2 => match as_helix e1 with Some r => Some r | None => as_helix e2 end
  | _ => None
  end.

(** ** Status mappings *)
Definition MapToHTTPStatus (code : Z) : Z :=
  if code =? CodeOK then 200
  else if code =? CodeInvalidArgument then 400
  else if code =? CodeNotFound then 404
  else if code =? CodeAlreadyExists then 409
  else if code =? CodePermissionDenied then 403
  else if code =? CodeResourceExhausted then 429
  else if code =? CodeUnimplemented then 501
  else if code =? CodeInternal then 500
  else if code =? CodeUnavailable then 503
  else if code =? CodeUnauthenticated then 401
  else 500.

(** The type ids of a Thrift [TApplicationException] the program uses. *)
Inductive thrift_kind := UNKNOWN_METHOD | PROTOCOL_ERROR | INTERNAL_ERROR.

Definition ToThriftException (err : option error) : option (thrift_kind * string) :=
  match err with
  | None => None
  | Some (HelixError code msg) =>
      if code =? CodeUnimplemented then Some (UNKNOWN_METHOD, msg)
      else if code =? CodeInvalidArgument then Some (PROTOCOL_ERROR, msg)
      else Some (INTERNAL_ERROR, msg)
  | Some e => Some (INTERNAL_ERROR, Error e)
  end.

Definition ToGRPCStatus (err : option error) : string * string :=
  match err with
  | None => ("0", "")
  | Some (HelixError code msg) => (Itoa code, msg)
  | Some e => ("13", Error e)
  end.

(** ** Metadata (metadata.go): lower-cased keys to value lists *)
Abbreviation MD := (gmap string (list string)).

Section metadata.
Context `{MapIter}.

(** [New]: the entries are stored in iteration order, so of two keys that
    differ only in case the one visited last wins. *)
Definition MD_New (m : gmap string string) : MD :=
  foldl (fun md '(k, v) => <[ToLower k := [v]]> md) ∅ (range_map 0 m).
End metadata.

Definition MD_Get (md : MD) (key : string) : list string :=
  default [] (md !! ToLower key).

Definition MD_Set (md : MD) (key : string) (values : list string) : MD :=
  <[ToLower key := values]> md.

(** ** Theorems *)
Lemma lower_char_idem c : lower_char (lower_char c) = lower_char c.
Proof. by destruct c as [[] [] [] [] [] [] [] []]. Qed.

Lemma ToLower_idem s : ToLower (ToLower s) = ToLower s.
Proof. unfold ToLower. induction s; cbn; [done|]. by rewrite lower_char_idem, IHs. Qed.
