(* ===== verification/Context.v ===== *)
(** * Request contexts and deadlines ([runtimes/go/deadline.go], the context
    accessors of [metadata.go] and [auth.go])

    A [context.Context] is an immutable chain of values with a deadline; the
    program stores three values in it: the metadata, the JWT claims and the
    tenant id.  Time is explicit: [now] is the clock reading, in nanoseconds. *)
From S2P Require Import Prelude GoStrings GoFloat Errors.

(** JSON values, as the program exchanges them with its JSON libraries. *)
Inductive json :=
| JNull
| JBool (b : bool)
| JNum (x : f64)
| JStr (s : string)
| JArr (xs : list json)
| JObj (fields : list (string * json)).

Abbreviation MapClaims := (gmap string json).

Record context := {
  ctx_md : option MD;
  ctx_claims : option MapClaims;
  ctx_tenant : option string;
  ctx_deadline : option Z
}.

Definition Background : context :=
  {| ctx_md := None; ctx_claims := None; ctx_tenant := None; ctx_deadline := None |}.

(** [NewContext] / [FromContext] (metadata.go) *)
Definition NewContext (ctx : context) (md : MD) : context :=
  {| ctx_md := Some md; ctx_claims := ctx_claims ctx;
     ctx_tenant := ctx_tenant ctx; ctx_deadline := ctx_deadline ctx |}.
(** A missing value yields the zero value of the map type, which reads as an
    empty map, and [false]. *)
Definition FromContext (ctx : context) : MD * bool :=
  match ctx_md ctx with Some md => (md, true) | None => (∅, false) end.

(** [contextWithClaims] / [ClaimsFromContext] (auth.go) *)
Definition contextWithClaims (ctx : context) (claims : MapClaims) : context :=
  {| ctx_md := ctx_md ctx; ctx_claims := Some claims;
     ctx_tenant := ctx_tenant ctx; ctx_deadline := ctx_deadline ctx |}.
Definition ClaimsFromContext (ctx : context) : MapClaims * bool :=
  match ctx_claims ctx with Some c => (c, true) | None => (∅, false) end.

Definition contextWithTenant (ctx : context) (t : string) : context :=
  {| ctx_md := ctx_md ctx; ctx_claims := ctx_claims ctx;
     ctx_tenant := Some t; ctx_deadline := ctx_deadline ctx |}.

(** [context.WithTimeout(ctx, d)] at time [now]: a deadline is never postponed. *)
Definition WithTimeout (now : Z) (ctx : context) (d : Z) : context :=
  let dl := now + d in
  {| ctx_md := ctx_md ctx; ctx_claims := ctx_claims ctx; ctx_tenant := ctx_tenant ctx;
     ctx_deadline := match ctx_deadline ctx with
                     | Some p => Some (Z.min p dl)
                     | None => Some dl
                     end |}.

(** ** [parseGRPCTimeout]: durations are [int64] nanoseconds *)
Definition Nanosecond : Z := 1.
Definition Microsecond : Z := 1000.
Definition Millisecond : Z := 1000000.
Definition Second : Z := 1000000000.
Definition Minute : Z := 60 * Second.
Definition Hour : Z := 60 * Minute.

Definition timeout_unit (c : ascii) : option Z :=
  if Ascii.eqb c "n" then Some Nanosecond
  else if Ascii.eqb c "u" then Some Microsecond
  else if Ascii.eqb c "m" then Some Millisecond
  else if Ascii.eqb c "S" then Some Second
  else if Ascii.eqb c "M" then Some Minute
  else if Ascii.eqb c "H" then Some Hour
  else None.

Definition parseGRPCTimeout (val : string) : Z * bool :=
  if (String.length val <? 2)%nat then (0, false)
  else
    match str_drop (String.length val - 1) val with
    | String unit _ =>
        let numStr := str_take (String.length val - 1) val in
        let '(num, err) := ParseInt numStr in
        match err with
        | Some _ => (0, false)
        | None =>
            match timeout_unit unit with
            | Some scale => (i64 (num * scale), true)
            | None => (0, false)
            end
        end
    | "" => (0, false)
    end.

(** ** [contextWithDeadlineFromHeaders]: the first header, in map order, that
    names a well-formed timeout sets the deadline. *)
Section deadline.
Context `{MapIter}.

Fixpoint deadline_loop (now : Z) (ctx : context) (hs : list (string * list string)) : context :=
  match hs with
  | [] => ctx
  | (k, vals) :: hs' =>
      if bool_decide (ToLower k = "grpc-timeout") then
        match vals with
        | v :: _ =>
            let '(d, ok) := parseGRPCTimeout v in
            if (ok : bool) then WithTimeout now ctx d else deadline_loop now ctx hs'
        | [] => deadline_loop now ctx hs'
        end
      else deadline_loop now ctx hs'
  end.

Definition contextWithDeadlineFromHeaders (now : Z) (ctx : context)
    (headers : gmap string (list string)) : context :=
  deadline_loop now ctx (range_map 1 headers).
End deadline.

(** ** Lemmas *)
Lemma str_last_app s c :
  str_drop (String.length (s +:+ String c "") - 1) (s +:+ String c "") = String c "" /\
  str_take (String.length (s +:+ String c "") - 1) (s +:+ String c "") = s.
Proof.
  rewrite str_length_app. cbn [String.length].
  replace (String.length s + 1 - 1)%nat with (String.length s) by lia.
  by rewrite str_drop_app, str_take_app.
Qed.

(** The value [parseGRPCTimeout] computes on a decimal number and a unit. *)
Lemma parseGRPCTimeout_value (n : Z) (c : ascii) (scale : Z) :
  0 <= n < 2 ^ 63 -> timeout_unit c = Some scale ->
  parseGRPCTimeout (Itoa n +:+ String c "") = (i64 (n * scale), true).
Proof.
  intros Hn Hc. unfold parseGRPCTimeout.
  destruct (str_last_app (Itoa n) c) as [-> ->].
  pose proof (Itoa_nonempty n ltac:(lia)).
  destruct (Nat.ltb_spec (String.length (Itoa n +:+ String c "")) 2) as [Hl|].
  { rewrite str_length_app in Hl. cbn in Hl. destruct (Itoa n); cbn in *; [done|lia]. }
  rewrite ParseInt_Itoa by (words). by rewrite Hc.
Qed.

Lemma deadline_loop_shape now ctx hs :
  deadline_loop now ctx hs = ctx \/
  exists k v vs d, (k, v :: vs) ∈ hs /\ ToLower k = "grpc-timeout" /\
    parseGRPCTimeout v = (d, true) /\ deadline_loop now ctx hs = WithTimeout now ctx d.
Proof.
  induction hs as [|[k vals] hs IH]; [by left|]. cbn [deadline_loop].
  assert (Hrec : deadline_loop now ctx hs = ctx \/
    exists k' v vs d, (k', v :: vs) ∈ (k, vals) :: hs /\ ToLower k' = "grpc-timeout" /\
      parseGRPCTimeout v = (d, true) /\ deadline_loop now ctx hs = WithTimeout now ctx d).
  { destruct IH as [IH|(k' & v & vs & d & Hin & ?)]; [by left|right].
    exists k', v, vs, d. split; [by apply list_elem_of_further|done]. }
  case_bool_decide as Hk; [|done].
  destruct vals as [|v vs]; [done|].
  destruct (parseGRPCTimeout v) as [d []] eqn:E; [right|done].
  exists k, v, vs, d. split; [apply list_elem_of_here|done].
Qed.

Lemma deadline_loop_found now ctx hs k v vs d :
  (k, v :: vs) ∈ hs -> ToLower k = "grpc-timeout" -> parseGRPCTimeout v = (d, true) ->
  exists d', deadline_loop now ctx hs = WithTimeout now ctx d' /\
    exists k' v' vs', (k', v' :: vs') ∈ hs /\ ToLower k' = "grpc-timeout" /\
      parseGRPCTimeout v' = (d', true).
Proof.
  intros Hin Hk Hp. induction hs as [|[k0 vals0] hs IH]; [by apply elem_of_nil in Hin|].
  cbn [deadline_loop].
  assert (Hrec : (k, v :: vs) ∈ hs -> exists d', deadline_loop now ctx hs = WithTimeout now ctx d' /\
    exists k' v' vs', (k', v' :: vs') ∈ (k0, vals0) :: hs /\ ToLower k' = "grpc-timeout" /\
      parseGRPCTimeout v' = (d', true)).
  { intros (d' & ? & k' & v' & vs' & ? & ?)%IH. exists d'. split; [done|].
    exists k', v', vs'. split; [by apply list_elem_of_further|done]. }
  apply elem_of_cons in Hin as [[= <- <-]|Hin].
  - rewrite bool_decide_true by done. rewrite Hp. exists d. split; [done|].
    exists k, v, vs. split; [apply list_elem_of_here|done].
  - case_bool_decide; [|by apply Hrec].
    destruct vals0 as [|v0 vs0]; [by apply Hrec|].
    destruct (parseGRPCTimeout v0) as [d0 []] eqn:E; [|by apply Hrec].
    exists d0. split; [done|]. exists k0, v0, vs0. split; [apply list_elem_of_here|done].
Qed.

(** ** Properties *)

(** a [grpc-timeout] header made of a decimal count and a unit letter is read
    as exactly that duration whenever the duration fits in an [int64] of
    nanoseconds. *)
Theorem grpc_timeout_exact (n : Z) (c : ascii) (scale : Z) :
  0 <= n -> timeout_unit c = Some scale -> n * scale < 2 ^ 63 ->
  parseGRPCTimeout (Itoa n +:+ String c "") = (n * scale, true).
Proof.
  intros Hn Hc Hb.
  assert (1 <= scale) as Hs.
  { unfold timeout_unit in Hc. repeat case_match; simplify_eq; done. }
  rewrite (parseGRPCTimeout_value n c scale); [|nia|done].
  rewrite wrapS_id; [done|lia|]. words.
Qed.

Lemma grpc_timeout_exact_witness :
  parseGRPCTimeout "250m" = (250000000, true).
Proof. apply (grpc_timeout_exact 250 "m" Millisecond); [lia|reflexivity|reflexivity]. Defined.

(** the 8-digit timeout [99999999H], which the gRPC wire format allows, is
    accepted with a negative duration (the multiplication wraps around), so the
    request's deadline lies in the past. *)
Theorem grpc_timeout_overflow :
  parseGRPCTimeout "99999999H" = (-8934885074191032320, true) /\
  forall now ctx, ctx_deadline ctx = None ->
    ctx_deadline (WithTimeout now ctx (fst (parseGRPCTimeout "99999999H"))) =
      Some (now - 8934885074191032320).
Proof.
  assert (parseGRPCTimeout "99999999H" = (-8934885074191032320, true)) as ->
    by (vm_compute; reflexivity).
  split; [done|]. intros now ctx Hd. unfold WithTimeout. cbn. by rewrite Hd.
Qed.

(** when exactly one spelling of the [grpc-timeout] header is present and its
    first value is well formed, the request context gets that timeout, whatever
    the iteration order over the header map and whatever the other headers. *)
Theorem deadline_from_headers `{MapIter} (now : Z) (ctx : context)
    (headers : gmap string (list string)) (k v : string) (vs : list string) (d : Z) :
  headers !! k = Some (v :: vs) -> ToLower k = "grpc-timeout" ->
  parseGRPCTimeout v = (d, true) ->
  (forall k', ToLower k' = "grpc-timeout" -> is_Some (headers !! k') -> k' = k) ->
  contextWithDeadlineFromHeaders now ctx headers = WithTimeout now ctx d.
Proof.
  intros Hk Hl Hp Huniq. unfold contextWithDeadlineFromHeaders.
  destruct (deadline_loop_found now ctx (range_map 1 headers) k v vs d)
    as (d' & -> & k' & v' & vs' & Hin & Hl' & Hp'); [by apply elem_of_range_map|done..|].
  apply elem_of_range_map in Hin.
  assert (k' = k) as -> by (apply Huniq; eauto).
  rewrite Hk in Hin. injection Hin as <- <-. congruence.
Qed.

Lemma deadline_from_headers_witness :
  contextWithDeadlineFromHeaders 5 Background {["Grpc-Timeout" := ["3S"]; "Accept" := ["x"]]}
    = WithTimeout 5 Background (3 * Second).
Proof.
  apply (deadline_from_headers 5 Background _ "Grpc-Timeout" "3S" []);
    [reflexivity|reflexivity|vm_compute; reflexivity|].
  intros k' Hk' [v Hv].
  rewrite lookup_insert, lookup_singleton in Hv.
  repeat case_decide; subst; try done; discriminate.
Defined.
