(* ===== verification/Interleave.v ===== *)
(** * Interleaved goroutines over shared atomics

    Lock-free code is modelled by the atomic instructions it executes: a program
    counter [Pc] per goroutine and a function [micro now s pc] giving the effect
    of the next instruction on the shared state [s] and the new counter.  A
    [system] step lets any goroutine run one instruction; the clock never goes
    backwards. *)
From S2P Require Import Prelude.

Record system (St Pc : Type) := Sys { shared : St; threads : list Pc; clock : Z }.
Arguments Sys {St Pc} shared threads clock.
Arguments shared {St Pc} s.
Arguments threads {St Pc} s.
Arguments clock {St Pc} s.

Section interleave.
Context {St Pc : Type} (micro : Z -> St -> Pc -> St * Pc).

Inductive sys_step : system St Pc -> system St Pc -> Prop :=
| sys_step_thread s th i pc s' pc' now now' :
    th !! i = Some pc -> now <= now' -> micro now' s pc = (s', pc') ->
    sys_step (Sys s th now) (Sys s' (<[i := pc']> th) now').

(** A step in which time stands still. *)
Lemma sys_step_now s th i pc s' pc' now :
  th !! i = Some pc -> micro now s pc = (s', pc') ->
  sys_step (Sys s th now) (Sys s' (<[i := pc']> th) now).
Proof. intros. eapply sys_step_thread; [done|lia|done]. Qed.

(** One goroutine running alone for [n] instructions at a fixed time. *)
Fixpoint run_alone (n : nat) (now : Z) (s : St) (pc : Pc) : St * Pc :=
  match n with
  | O => (s, pc)
  | S n' => let '(s', pc') := micro now s pc in run_alone n' now s' pc'
  end.

(** A schedule: which goroutine runs an instruction next, and what the clock shows then. *)
Fixpoint play (schedule : list (nat * Z)) (x : system St Pc) : system St Pc :=
  match schedule with
  | [] => x
  | (i, now) :: schedule =>
      play schedule (match threads x !! i with
        | Some pc => if clock x <=? now then let '(s, pc) := micro now (shared x) pc in Sys s (<[i := pc]> (threads x)) now else x
        | None => x
        end)
  end.

Lemma play_run schedule x : rtc sys_step x (play schedule x).
Proof.
  revert x. induction schedule as [|[i now] schedule IH]; intros [s th clk]; cbn [play]; [apply rtc_refl|]. cbn [threads clock shared].
  destruct (th !! i) as [pc|] eqn:Hi; [|apply IH]. destruct (Z.leb_spec clk now); [|apply IH].
  destruct (micro now s pc) as [s' pc'] eqn:E. eapply rtc_l; [|apply IH]. by eapply sys_step_thread.
Qed.

(** Invariants over runs: it is enough to consider the instruction executed. *)
Lemma sys_invariant (P : St -> list Pc -> Z -> Prop) (a b : system St Pc) :
  rtc sys_step a b ->
  (forall s th i pc s' pc' now now',
     P s th now -> th !! i = Some pc -> now <= now' -> micro now' s pc = (s', pc') ->
     P s' (<[i := pc']> th) now') ->
  P (shared a) (threads a) (clock a) -> P (shared b) (threads b) (clock b).
Proof.
  intros Hrun Hstep Ha.
  apply (rtc_invariant sys_step (fun x => P (shared x) (threads x) (clock x)) a b Hrun Ha).
  intros x y Hx Hxy. destruct Hxy. cbn in *. eauto.
Qed.
End interleave.

(** ** Weights of a pool of goroutines *)
Fixpoint sum_weights {Pc} (w : Pc -> Z) (th : list Pc) : Z :=
  match th with [] => 0 | pc :: th' => w pc + sum_weights w th' end.

Lemma sum_weights_insert {Pc} (w : Pc -> Z) (th : list Pc) i pc pc' :
  th !! i = Some pc ->
  sum_weights w (<[i := pc']> th) = sum_weights w th - w pc + w pc'.
Proof.
  revert i. induction th as [|p th IH]; intros [|i]; csimpl; intros; simplify_eq; [lia|].
  rewrite (IH i) by done. lia.
Qed.

Lemma sum_weights_replicate {Pc} (w : Pc -> Z) n pc :
  sum_weights w (replicate n pc) = Z.of_nat n * w pc.
Proof. induction n as [|n IH]; [done|]. cbn. lia. Qed.

Lemma sum_weights_nonneg {Pc} (w : Pc -> Z) th :
  (forall pc, 0 <= w pc) -> 0 <= sum_weights w th.
Proof. intros Hw. induction th as [|p th IH]; cbn; [lia|]. specialize (Hw p). lia. Qed.

Lemma sum_weights_elem {Pc} (w : Pc -> Z) th pc :
  (forall pc, 0 <= w pc) -> pc ∈ th -> w pc <= sum_weights w th.
Proof.
  intros Hw. induction 1 as [p th|p q th _ IH]; cbn.
  - pose proof (sum_weights_nonneg w th Hw). lia.
  - specialize (Hw q). lia.
Qed.

Lemma Forall_insert_lookup {A} (P : A -> Prop) (l : list A) i x :
  Forall P l -> P x -> Forall P (<[i := x]> l).
Proof. intros. by apply Forall_insert. Qed.
