(* ===== verification/Breaker.v ===== *)
(** * Circuit breaker ([runtimes/go/retry.go], first part)

    The breaker is a record of four atomics and three configuration fields.
    Each method is modelled twice:
    - as a function on the whole record (one caller at a time), and
    - as a sequence of atomic instructions ([cb_pc], [cb_micro]), so that
      several goroutines can interleave ([cb_step]).
    [run_*] lemmas show that a method running alone computes the function. *)
From S2P Require Import Prelude GoStrings Interleave.

Inductive CircuitState := CircuitClosed | CircuitOpen | CircuitHalfOpen.

#[export] Instance CircuitState_eq_dec : EqDecision CircuitState.
Proof. solve_decision. Defined.

Definition CircuitState_String (cs : CircuitState) : string :=
  match cs with
  | CircuitClosed => "CLOSED"
  | CircuitOpen => "OPEN"
  | CircuitHalfOpen => "HALF-OPEN"
  end.

Record CircuitBreaker := {
  cb_state : CircuitState;
  failures : Z;
  successes : Z;
  lastOpenTime : Z;
  MaxFailures : Z;
  OpenTimeout : Z;
  HalfOpenProbes : Z
}.

Definition set_state (s : CircuitState) (cb : CircuitBreaker) : CircuitBreaker :=
  {| cb_state := s; failures := failures cb; successes := successes cb;
     lastOpenTime := lastOpenTime cb; MaxFailures := MaxFailures cb;
     OpenTimeout := OpenTimeout cb; HalfOpenProbes := HalfOpenProbes cb |}.
Definition set_failures (n : Z) (cb : CircuitBreaker) : CircuitBreaker :=
  {| cb_state := cb_state cb; failures := n; successes := successes cb;
     lastOpenTime := lastOpenTime cb; MaxFailures := MaxFailures cb;
     OpenTimeout := OpenTimeout cb; HalfOpenProbes := HalfOpenProbes cb |}.
Definition set_successes (n : Z) (cb : CircuitBreaker) : CircuitBreaker :=
  {| cb_state := cb_state cb; failures := failures cb; successes := n;
     lastOpenTime := lastOpenTime cb; MaxFailures := MaxFailures cb;
     OpenTimeout := OpenTimeout cb; HalfOpenProbes := HalfOpenProbes cb |}.
Definition set_lastOpenTime (t : Z) (cb : CircuitBreaker) : CircuitBreaker :=
  {| cb_state := cb_state cb; failures := failures cb; successes := successes cb;
     lastOpenTime := t; MaxFailures := MaxFailures cb;
     OpenTimeout := OpenTimeout cb; HalfOpenProbes := HalfOpenProbes cb |}.

Definition NewCircuitBreaker (maxFailures openTimeout halfOpenProbes : Z) : CircuitBreaker :=
  {| cb_state := CircuitClosed; failures := 0; successes := 0; lastOpenTime := 0;
     MaxFailures := maxFailures; OpenTimeout := openTimeout;
     HalfOpenProbes := halfOpenProbes |}.

(** [time.Since(t)]: the difference saturates at the bounds of [time.Duration]. *)
Definition Since (now t : Z) : Z := Z.max (- 2 ^ 63) (Z.min (2 ^ 63 - 1) (now - t)).

(** ** The methods, one caller at a time *)
Definition Allow (now : Z) (cb : CircuitBreaker) : CircuitBreaker * bool :=
  match cb_state cb with
  | CircuitClosed => (cb, true)
  | CircuitOpen =>
      if OpenTimeout cb <=? Since now (lastOpenTime cb)
      then (set_successes 0 (set_state CircuitHalfOpen cb), true)
      else (cb, false)
  | CircuitHalfOpen => (cb, true)
  end.

Definition RecordSuccess (cb : CircuitBreaker) : CircuitBreaker :=
  match cb_state cb with
  | CircuitHalfOpen =>
      let probes := i64 (successes cb + 1) in
      let cb := set_successes probes cb in
      if HalfOpenProbes cb <=? probes
      then set_failures 0 (set_state CircuitClosed cb)
      else cb
  | CircuitClosed => set_failures 0 cb
  | CircuitOpen => cb
  end.

Definition ForceOpen (now : Z) (cb : CircuitBreaker) : CircuitBreaker :=
  set_lastOpenTime now (set_state CircuitOpen cb).

Definition ForceClose (cb : CircuitBreaker) : CircuitBreaker :=
  set_failures 0 (set_state CircuitClosed cb).

Definition RecordFailure (now : Z) (cb : CircuitBreaker) : CircuitBreaker :=
  let f := i64 (failures cb + 1) in
  let cb := set_failures f cb in
  if MaxFailures cb <=? f then
    match cb_state cb with
    | CircuitClosed | CircuitHalfOpen => set_lastOpenTime now (set_state CircuitOpen cb)
    | CircuitOpen => cb
    end
  else cb.

(** ** The methods as atomic instructions *)
Inductive cb_pc :=
(* Allow *)
| AllowLoadState
| AllowLoadOpened                (* state read: open *)
| AllowCompare (opened : Z)      (* lastOpenTime read *)
| AllowCAS
| AllowResetSuccesses
(* RecordSuccess *)
| SuccessLoadState
| SuccessAdd
| SuccessStoreClosed
| SuccessResetFailures
(* RecordFailure *)
| FailureAdd
| FailureCASClosed
| FailureCASHalfOpen
| FailureStoreTime
(* ForceOpen / ForceClose *)
| ForceOpenStore
| ForceOpenTime
| ForceCloseStore
| ForceCloseFailures
(* returned *)
| Done (r : bool).

(** One atomic instruction.  [now] is the clock at that moment. *)
Definition cb_micro (now : Z) (cb : CircuitBreaker) (pc : cb_pc) : CircuitBreaker * cb_pc :=
  match pc with
  | AllowLoadState =>
      (cb, match cb_state cb with
           | CircuitClosed => Done true
           | CircuitOpen => AllowLoadOpened
           | CircuitHalfOpen => Done true
           end)
  | AllowLoadOpened => (cb, AllowCompare (lastOpenTime cb))
  | AllowCompare opened =>
      (cb, if OpenTimeout cb <=? Since now opened then AllowCAS else Done false)
  | AllowCAS =>
      if bool_decide (cb_state cb = CircuitOpen)
      then (set_state CircuitHalfOpen cb, AllowResetSuccesses)
      else (cb, Done true)
  | AllowResetSuccesses => (set_successes 0 cb, Done true)
  | SuccessLoadState =>
      (cb, match cb_state cb with
           | CircuitHalfOpen => SuccessAdd
           | CircuitClosed => SuccessResetFailures
           | CircuitOpen => Done true
           end)
  | SuccessAdd =>
      let probes := i64 (successes cb + 1) in
      (set_successes probes cb,
       if HalfOpenProbes cb <=? probes then SuccessStoreClosed else Done true)
  | SuccessStoreClosed => (set_state CircuitClosed cb, SuccessResetFailures)
  | SuccessResetFailures => (set_failures 0 cb, Done true)
  | FailureAdd =>
      let f := i64 (failures cb + 1) in
      (set_failures f cb, if MaxFailures cb <=? f then FailureCASClosed else Done true)
  | FailureCASClosed =>
      if bool_decide (cb_state cb = CircuitClosed)
      then (set_state CircuitOpen cb, FailureStoreTime)
      else (cb, FailureCASHalfOpen)
  | FailureCASHalfOpen =>
      if bool_decide (cb_state cb = CircuitHalfOpen)
      then (set_state CircuitOpen cb, FailureStoreTime)
      else (cb, Done true)
  | FailureStoreTime => (set_lastOpenTime now cb, Done true)
  | ForceOpenStore => (set_state CircuitOpen cb, ForceOpenTime)
  | ForceOpenTime => (set_lastOpenTime now cb, Done true)
  | ForceCloseStore => (set_state CircuitClosed cb, ForceCloseFailures)
  | ForceCloseFailures => (set_failures 0 cb, Done true)
  | Done r => (cb, Done r)
  end.

(** Several goroutines, each inside one method call. *)
Abbreviation cb_run := (run_alone cb_micro).
Abbreviation cb_step := (sys_step cb_micro).

(** ** The instruction sequences compute the methods *)
Lemma run_Allow now cb :
  cb_run 5 now cb AllowLoadState =
  (fst (Allow now cb), Done (snd (Allow now cb))).
Proof.
  unfold Allow, run_alone, cb_micro. destruct cb as [[] f s t mf ot hp]; cbn; [done| |done].
  destruct (ot <=? Since now t); done.
Qed.

Lemma run_RecordSuccess now cb :
  cb_run 4 now cb SuccessLoadState = (RecordSuccess cb, Done true).
Proof.
  unfold RecordSuccess, run_alone, cb_micro. destruct cb as [[] f s t mf ot hp]; cbn; [done..|].
  destruct (hp <=? i64 (s + 1)); done.
Qed.

Lemma run_RecordFailure now cb :
  cb_run 4 now cb FailureAdd = (RecordFailure now cb, Done true).
Proof.
  unfold RecordFailure, run_alone, cb_micro. destruct cb as [st f s t mf ot hp]; cbn.
  destruct (mf <=? i64 (f + 1)); [|done]. by destruct st.
Qed.

Lemma run_ForceOpen now cb :
  cb_run 2 now cb ForceOpenStore = (ForceOpen now cb, Done true).
Proof. done. Qed.

Lemma run_ForceClose now cb :
  cb_run 2 now cb ForceCloseStore = (ForceClose cb, Done true).
Proof. done. Qed.

(** ** Sequences of calls *)
Inductive cb_op := OpAllow | OpSuccess | OpFailure.

Definition cb_exec (now : Z) (cb : CircuitBreaker) (op : cb_op) : CircuitBreaker * option bool :=
  match op with
  | OpAllow => let '(cb', b) := Allow now cb in (cb', Some b)
  | OpSuccess => (RecordSuccess cb, None)
  | OpFailure => (RecordFailure now cb, None)
  end.

(** A trace of timed calls; the answers of the [Allow] calls are collected. *)
Fixpoint cb_trace (cb : CircuitBreaker) (ops : list (Z * cb_op)) : CircuitBreaker * list bool :=
  match ops with
  | [] => (cb, [])
  | (now, op) :: ops' =>
      let '(cb', r) := cb_exec now cb op in
      let '(cb'', rs) := cb_trace cb' ops' in
      (cb'', match r with Some b => b :: rs | None => rs end)
  end.

Definition same_config (a b : CircuitBreaker) : Prop :=
  MaxFailures a = MaxFailures b /\ OpenTimeout a = OpenTimeout b /\
  HalfOpenProbes a = HalfOpenProbes b.

(** [n] failures in a row, at the given times. *)
Fixpoint fail_all (times : list Z) (cb : CircuitBreaker) : CircuitBreaker :=
  match times with
  | [] => cb
  | t :: ts => fail_all ts (RecordFailure t cb)
  end.

Fixpoint succeed_n (n : nat) (cb : CircuitBreaker) : CircuitBreaker :=
  match n with O => cb | S n' => succeed_n n' (RecordSuccess cb) end.

(** ** Lemmas *)
Lemma Since_lt now t d : 0 < d < 2 ^ 63 -> (Since now t < d <-> now - t < d).
Proof. unfold Since. lia. Qed.

Lemma RecordFailure_config now cb : same_config cb (RecordFailure now cb).
Proof. unfold RecordFailure, same_config. repeat case_match; done. Qed.

Lemma cb_exec_config now cb op : same_config cb (fst (cb_exec now cb op)).
Proof.
  destruct op; cbn; [|unfold RecordSuccess, same_config; repeat case_match; done
    |apply RecordFailure_config].
  unfold Allow, same_config. repeat case_match; simplify_eq/=; done.
Qed.

Lemma fail_all_config ts cb : same_config cb (fail_all ts cb).
Proof.
  revert cb. induction ts as [|t ts IH]; intros cb; [done|]. cbn.
  destruct (RecordFailure_config t cb) as (?&?&?), (IH (RecordFailure t cb)) as (?&?&?).
  split; [congruence|split; congruence].
Qed.

(** Below the threshold failures are only counted. *)
Lemma fail_all_below ts cb :
  cb_state cb = CircuitClosed -> 0 <= failures cb ->
  failures cb + Z.of_nat (length ts) < MaxFailures cb < 2 ^ 63 ->
  cb_state (fail_all ts cb) = CircuitClosed /\
  failures (fail_all ts cb) = failures cb + Z.of_nat (length ts).
Proof.
  revert cb. induction ts as [|t ts IH]; intros cb Hs Hf Hb.
  { cbn. split; [done|]. lia. }
  cbn [fail_all length] in *.
  assert (RecordFailure t cb = set_failures (failures cb + 1) cb) as ->.
  { unfold RecordFailure. rewrite wrapS_id; [|lia|words].
    cbn. destruct (Z.leb_spec (MaxFailures cb) (failures cb + 1)); [lia|done]. }
  destruct (IH (set_failures (failures cb + 1) cb)) as [H1 H2]; cbn in *; [done|lia|lia|].
  split; [done|]. lia.
Qed.

Lemma succeed_n_below n cb :
  cb_state cb = CircuitHalfOpen -> 0 <= successes cb ->
  successes cb + Z.of_nat n < HalfOpenProbes cb < 2 ^ 63 ->
  succeed_n n cb = set_successes (successes cb + Z.of_nat n) cb.
Proof.
  revert cb. induction n as [|n IH]; intros cb Hs Hf Hb.
  { cbn. rewrite Z.add_0_r. by destruct cb. }
  cbn [succeed_n].
  assert (RecordSuccess cb = set_successes (successes cb + 1) cb) as ->.
  { unfold RecordSuccess. rewrite Hs. rewrite wrapS_id; [|lia|words].
    cbn. destruct (Z.leb_spec (HalfOpenProbes cb) (successes cb + 1)); [lia|done]. }
  rewrite IH; cbn; [|done|lia..]. unfold set_successes. cbn. f_equal. lia.
Qed.

(** The invariant of every sequence of [Allow]/[RecordSuccess]/[RecordFailure]
    calls: a breaker that is not closed keeps at least [MaxFailures] counted
    failures, so a single failed probe re-opens it. *)
Definition cb_inv (budget : Z) (cb : CircuitBreaker) : Prop :=
  0 <= failures cb <= budget /\
  (cb_state cb <> CircuitClosed -> MaxFailures cb <= failures cb).

Lemma cb_exec_inv budget now cb op :
  0 <= budget < 2 ^ 63 - 1 -> cb_inv budget cb ->
  cb_inv (budget + 1) (fst (cb_exec now cb op)).
Proof.
  intros Hb [Hf Hs]. destruct op; cbn.
  - unfold Allow. destruct (cb_state cb) eqn:E; [|destruct (_ <=? _)|];
      (split; cbn; [lia|]); intros ?; apply Hs; congruence.
  - unfold RecordSuccess. repeat case_match; (split; cbn; [lia|]);
      intros ?; first [done|apply Hs; congruence].
  - unfold RecordFailure. rewrite wrapS_id; [|lia|words]. cbn.
    destruct (Z.leb_spec (MaxFailures cb) (failures cb + 1)); [repeat case_match|];
      (split; cbn; [lia|]); intros Hne; [lia..|].
    specialize (Hs Hne). lia.
Qed.

Lemma cb_trace_inv budget cb ops :
  0 <= budget -> budget + Z.of_nat (length ops) < 2 ^ 63 - 1 -> cb_inv budget cb ->
  cb_inv (budget + Z.of_nat (length ops)) (fst (cb_trace cb ops)).
Proof.
  revert budget cb. induction ops as [|[now op] ops IH]; intros budget cb Hb Hl Hinv.
  { cbn. by rewrite Z.add_0_r. }
  cbn [cb_trace length] in *.
  pose proof (cb_exec_inv budget now cb op ltac:(lia) Hinv) as H1.
  destruct (cb_exec now cb op) as [cb' r]. cbn in H1.
  specialize (IH (budget + 1) cb' ltac:(lia) ltac:(lia) H1).
  destruct (cb_trace cb' ops) as [cb'' rs]. cbn [fst] in *.
  by replace (budget + Z.of_nat (S (length ops)))
    with (budget + 1 + Z.of_nat (length ops)) by lia.
Qed.

Lemma cb_trace_config cb ops : same_config cb (fst (cb_trace cb ops)).
Proof.
  revert cb. induction ops as [|[now op] ops IH]; intros cb; [done|]. cbn.
  pose proof (cb_exec_config now cb op) as (?&?&?).
  destruct (cb_exec now cb op) as [cb' r]. cbn in *. specialize (IH cb') as (?&?&?).
  destruct (cb_trace cb' ops) as [cb'' rs]. cbn in *. split; [congruence|split; congruence].
Qed.

(** ** Properties *)

(** a closed breaker with no counted failure stays closed through
    [MaxFailures - 1] consecutive failures and is opened by the next one, which
    becomes its opening time. *)
Theorem breaker_trips_exactly (cb : CircuitBreaker) (ts : list Z) (t : Z) :
  cb_state cb = CircuitClosed -> failures cb = 0 -> MaxFailures cb < 2 ^ 63 ->
  Z.of_nat (S (length ts)) = MaxFailures cb ->
  cb_state (fail_all ts cb) = CircuitClosed /\
  cb_state (RecordFailure t (fail_all ts cb)) = CircuitOpen /\
  lastOpenTime (RecordFailure t (fail_all ts cb)) = t.
Proof.
  intros Hs Hf Hm Hl.
  destruct (fail_all_below ts cb Hs ltac:(lia) ltac:(lia)) as [H1 H2].
  destruct (fail_all_config ts cb) as (Hc & _ & _).
  split; [done|]. unfold RecordFailure. cbn. rewrite H2, wrapS_id, H1; [|lia|words].
  destruct (Z.leb_spec (MaxFailures (fail_all ts cb)) (failures cb + Z.of_nat (length ts) + 1));
    [done|lia].
Qed.

Lemma breaker_trips_exactly_witness :
  cb_state (RecordFailure 30 (fail_all [10; 20] (NewCircuitBreaker 3 100 2))) = CircuitOpen.
Proof.
  apply (breaker_trips_exactly (NewCircuitBreaker 3 100 2) [10; 20] 30); reflexivity.
Defined.

(** C15: an open breaker refuses every request until [OpenTimeout] has passed
    since it opened: over any sequence of [Allow], [RecordSuccess] and
    [RecordFailure] calls, one after the other, made before that moment every [Allow] answers
    false and the breaker stays open with the same opening time.  [ForceClose] admits at
    once, and concurrent recordings can close the breaker ([breaker_race_closes_open]). *)
Theorem breaker_open_until_timeout (cb : CircuitBreaker) (ops : list (Z * cb_op)) :
  cb_state cb = CircuitOpen -> 0 < OpenTimeout cb < 2 ^ 63 ->
  Forall (fun '(now, _) => now - lastOpenTime cb < OpenTimeout cb) ops ->
  cb_state (fst (cb_trace cb ops)) = CircuitOpen /\
  lastOpenTime (fst (cb_trace cb ops)) = lastOpenTime cb /\
  Forall (fun answer => answer = false) (snd (cb_trace cb ops)).
Proof.
  revert cb. induction ops as [|[now op] ops IH]; intros cb Hs Ht Hops; [done|].
  inversion_clear Hops as [|? ? Hnow Hrest]. cbn [cb_trace].
  assert (exists f r, cb_exec now cb op = (set_failures f cb, r) /\
            (r = None \/ r = Some false)) as (f & r & E & Hr).
  { destruct op; cbn.
    - unfold Allow. rewrite Hs. apply Since_lt in Hnow; [|done].
      destruct (Z.leb_spec (OpenTimeout cb) (Since now (lastOpenTime cb))); [lia|].
      exists (failures cb), (Some false). by destruct cb; auto.
    - unfold RecordSuccess. rewrite Hs. exists (failures cb), None. by destruct cb; auto.
    - unfold RecordFailure. cbn. rewrite Hs. exists (i64 (failures cb + 1)), None.
      split; [by case_match|by left]. }
  rewrite E.
  destruct (IH (set_failures f cb)) as (H1 & H2 & H3); [done|done|done|].
  destruct (cb_trace (set_failures f cb) ops) as [cb'' rs]. cbn in *.
  split_and!; [done..|]. destruct Hr as [->| ->]; [done|by constructor].
Qed.

Lemma breaker_open_until_timeout_witness :
  snd (cb_trace (ForceOpen 5 (NewCircuitBreaker 3 100 2))
         [(6, OpAllow); (7, OpFailure); (104, OpAllow)]) = [false; false].
Proof.
  pose proof (breaker_open_until_timeout (ForceOpen 5 (NewCircuitBreaker 3 100 2))
    [(6, OpAllow); (7, OpFailure); (104, OpAllow)]) as H.
  destruct H as (_ & _ & H); [reflexivity|cbn; lia|repeat constructor; cbn; lia|reflexivity].
Defined.

(** C32: recovery.  Once [OpenTimeout] has elapsed the next [Allow] admits a probe
    and half-opens the breaker; it stays half-open through [HalfOpenProbes - 1]
    successes and the next success closes it with the failure count reset. *)
Theorem breaker_recovers (cb : CircuitBreaker) (now : Z) (n : nat) :
  cb_state cb = CircuitOpen -> 0 < OpenTimeout cb < 2 ^ 63 ->
  OpenTimeout cb <= now - lastOpenTime cb ->
  Z.of_nat (S n) = HalfOpenProbes cb -> HalfOpenProbes cb < 2 ^ 63 ->
  snd (Allow now cb) = true /\
  cb_state (succeed_n n (fst (Allow now cb))) = CircuitHalfOpen /\
  cb_state (succeed_n (S n) (fst (Allow now cb))) = CircuitClosed /\
  failures (succeed_n (S n) (fst (Allow now cb))) = 0.
Proof.
  intros Hs Ht Hnow Hn Hp. unfold Allow. rewrite Hs.
  destruct (Z.leb_spec (OpenTimeout cb) (Since now (lastOpenTime cb))) as [_|H].
  2:{ apply Since_lt in H; [lia|done]. }
  cbn [fst snd]. set (cb1 := set_successes 0 (set_state CircuitHalfOpen cb)).
  assert (Hlast : forall m c, succeed_n (S m) c = RecordSuccess (succeed_n m c)).
  { induction m as [|m IHm]; intros c; [done|]. apply (IHm (RecordSuccess c)). }
  rewrite Hlast, (succeed_n_below n cb1); [|done|done|cbn; lia]. cbn.
  unfold RecordSuccess. cbn. rewrite wrapS_id; [|lia|words].
  zcases; [|lia]. by split_and!.
Qed.

Lemma breaker_recovers_witness :
  cb_state (succeed_n 2 (fst (Allow 200 (ForceOpen 5 (NewCircuitBreaker 3 100 2))))) = CircuitClosed.
Proof.
  apply (breaker_recovers (ForceOpen 5 (NewCircuitBreaker 3 100 2)) 200 1);
    cbn; first [reflexivity|lia].
Defined.

(** in every state that requests reach from a fresh breaker (any sequence of
    [Allow], [RecordSuccess], [RecordFailure] calls), one failure while half-open
    re-opens the circuit at the time of that failure. *)
Theorem half_open_failure_reopens (mf ot hp now : Z) (ops : list (Z * cb_op)) :
  Z.of_nat (length ops) < 2 ^ 62 ->
  let cb := fst (cb_trace (NewCircuitBreaker mf ot hp) ops) in
  cb_state cb = CircuitHalfOpen ->
  cb_state (RecordFailure now cb) = CircuitOpen /\
  lastOpenTime (RecordFailure now cb) = now.
Proof.
  intros Hl cb Hs.
  assert (cb_inv (0 + Z.of_nat (length ops)) cb) as [Hf Hm].
  { apply cb_trace_inv; [lia|lia|]. split; cbn; [lia|done]. }
  unfold RecordFailure. cbn. rewrite wrapS_id, Hs; [|lia|words].
  specialize (Hm ltac:(congruence)).
  destruct (Z.leb_spec (MaxFailures cb) (failures cb + 1)); [done|lia].
Qed.

Lemma half_open_failure_reopens_witness :
  cb_state (RecordFailure 300 (fst (cb_trace (NewCircuitBreaker 1 100 2)
    [(1, OpFailure); (200, OpAllow)]))) = CircuitOpen.
Proof.
  apply (half_open_failure_reopens 1 100 2 300 [(1, OpFailure); (200, OpAllow)]);
    vm_compute; reflexivity.
Defined.

(** a half-open breaker admits every request: any number of [Allow] calls in a
    row answer true, with no limit of one probe at a time. *)
Theorem half_open_admits_all (cb : CircuitBreaker) (times : list Z) :
  cb_state cb = CircuitHalfOpen ->
  cb_trace cb (map (fun t => (t, OpAllow)) times) = (cb, map (fun _ => true) times).
Proof.
  intros Hs. induction times as [|t ts IH]; [done|]. cbn [map cb_trace cb_exec].
  unfold Allow. rewrite Hs. by rewrite IH.
Qed.

Lemma half_open_admits_all_witness :
  snd (cb_trace (fst (Allow 200 (ForceOpen 5 (NewCircuitBreaker 3 100 2))))
        [(200, OpAllow); (200, OpAllow)]) = [true; true].
Proof.
  pose proof (half_open_admits_all (fst (Allow 200 (ForceOpen 5 (NewCircuitBreaker 3 100 2))))
    [200; 200] eq_refl) as H. exact (f_equal snd H).
Defined.

(** under interleaving the timeout is not guaranteed: with one goroutine
    recording a success and one recording a failure on a half-open breaker, the
    failure can open the circuit and the late store of the success closes it
    again although no time has passed. *)
Theorem breaker_race_closes_open (cb : CircuitBreaker) (now : Z) :
  cb_state cb = CircuitHalfOpen ->
  HalfOpenProbes cb <= i64 (successes cb + 1) -> MaxFailures cb <= i64 (failures cb + 1) ->
  exists opened closed,
    rtc cb_step (Sys cb [SuccessLoadState; FailureAdd] now) opened /\
    cb_state (shared opened) = CircuitOpen /\ lastOpenTime (shared opened) = now /\
    rtc cb_step opened closed /\
    cb_state (shared closed) = CircuitClosed /\ clock closed = now.
Proof.
  intros Hs Hp Hm.
  set (cb1 := set_successes (i64 (successes cb + 1)) cb).
  set (cb2 := set_lastOpenTime now (set_state CircuitOpen
                (set_failures (i64 (failures cb + 1)) cb1))).
  exists (Sys cb2 [SuccessStoreClosed; Done true] now).
  exists (Sys (set_failures 0 (set_state CircuitClosed cb2)) [Done true; Done true] now).
  split_and!; try done.
  - eapply rtc_l; [eapply (sys_step_now _ _ _ 0%nat); [reflexivity|cbn; rewrite Hs; done]|].
    eapply rtc_l; [eapply (sys_step_now _ _ _ 0%nat); [reflexivity|cbn; rewrite (proj2 (Z.leb_le _ _) Hp); done]|].
    eapply rtc_l; [eapply (sys_step_now _ _ _ 1%nat); [reflexivity|cbn; rewrite (proj2 (Z.leb_le _ _) Hm); done]|].
    eapply rtc_l; [eapply (sys_step_now _ _ _ 1%nat); [reflexivity|cbn; rewrite Hs; done]|].
    eapply rtc_l; [eapply (sys_step_now _ _ _ 1%nat); [reflexivity|cbn; rewrite Hs; done]|].
    eapply rtc_l; [eapply (sys_step_now _ _ _ 1%nat); reflexivity|]. done.
  - eapply rtc_l; [eapply (sys_step_now _ _ _ 0%nat); reflexivity|].
    eapply rtc_l; [eapply (sys_step_now _ _ _ 0%nat); reflexivity|]. done.
Qed.

Lemma breaker_race_closes_open_witness :
  exists opened closed,
    rtc cb_step (Sys (fst (cb_trace (NewCircuitBreaker 1 100 1)
                             [(1, OpFailure); (200, OpAllow)]))
                   [SuccessLoadState; FailureAdd] 200) opened /\
    cb_state (shared opened) = CircuitOpen /\ lastOpenTime (shared opened) = 200 /\
    rtc cb_step opened closed /\
    cb_state (shared closed) = CircuitClosed /\ clock closed = 200.
Proof.
  apply (breaker_race_closes_open (fst (cb_trace (NewCircuitBreaker 1 100 1)
    [(1, OpFailure); (200, OpAllow)])) 200); vm_compute; [reflexivity|discriminate|discriminate].
Defined.
