(* ===== verification/ClientBucket.v ===== *)
(** * Per-client token bucket ([runtimes/go/ratelimit.go], [clientBucket])

    Tokens are counted in nano-tokens in an atomic [int64].  [allow] is modelled
    as a function for one caller and as its atomic instructions for concurrent
    callers. *)
From S2P Require Import Prelude GoStrings GoFloat Interleave.

Definition nanoToken : Z := 1000000000.

Record clientBucket := {
  tokens : Z;
  lastSeen : Z;
  capacity : Z;
  refillNs : Z
}.

Definition set_tokens (n : Z) (b : clientBucket) : clientBucket :=
  {| tokens := n; lastSeen := lastSeen b; capacity := capacity b; refillNs := refillNs b |}.
Definition set_lastSeen (t : Z) (b : clientBucket) : clientBucket :=
  {| tokens := tokens b; lastSeen := t; capacity := capacity b; refillNs := refillNs b |}.

Definition newClientBucket (now : Z) (rps : f64) (burst : Z) : clientBucket :=
  let cap := i64_of_f64 (f64_mul (f64_of_Z burst) (f64_of_Z nanoToken)) in
  {| tokens := cap; lastSeen := now; capacity := cap; refillNs := i64_of_f64 rps |}.

(** The refill of [elapsed] nanoseconds, clamped to the capacity. *)
Definition refilled (b : clientBucket) (refill cur : Z) : Z :=
  let next := i64 (cur + refill) in
  if capacity b <? next then capacity b else next.

(** [allow], one caller at a time: the remaining whole tokens and the verdict.
    Go's integer division truncates towards zero. *)
Definition allow (now : Z) (b : clientBucket) : clientBucket * (Z * bool) :=
  let last := lastSeen b in
  let b := set_lastSeen now b in
  let elapsed := i64 (now - last) in
  let b := if 0 <? elapsed
           then set_tokens (refilled b (i64 (elapsed * refillNs b)) (tokens b)) b
           else b in
  let cur := tokens b in
  if cur <? nanoToken then (b, (Z.quot cur nanoToken, false))
  else (set_tokens (i64 (cur - nanoToken)) b, (Z.quot cur nanoToken - 1, true)).

(** ** Atomic instructions of [allow] *)
Inductive allow_pc :=
| ANow
| ASwap (now : Z)
| ARefillLoad (refill : Z)
| ARefillCAS (refill cur : Z)
| AConsumeLoad
| AConsumeCAS (cur : Z)
| ADone (remaining : Z) (ok : bool).

Definition allow_micro (clk : Z) (b : clientBucket) (pc : allow_pc) : clientBucket * allow_pc :=
  match pc with
  | ANow => (b, ASwap clk)
  | ASwap now =>
      let elapsed := i64 (now - lastSeen b) in
      (set_lastSeen now b,
       if 0 <? elapsed then ARefillLoad (i64 (elapsed * refillNs b)) else AConsumeLoad)
  | ARefillLoad refill => (b, ARefillCAS refill (tokens b))
  | ARefillCAS refill cur =>
      if tokens b =? cur then (set_tokens (refilled b refill cur) b, AConsumeLoad)
      else (b, ARefillLoad refill)
  | AConsumeLoad =>
      (b, if tokens b <? nanoToken then ADone (Z.quot (tokens b) nanoToken) false
          else AConsumeCAS (tokens b))
  | AConsumeCAS cur =>
      if tokens b =? cur
      then (set_tokens (i64 (cur - nanoToken)) b, ADone (Z.quot cur nanoToken - 1) true)
      else (b, AConsumeLoad)
  | ADone r ok => (b, ADone r ok)
  end.

Abbreviation allow_step := (sys_step allow_micro).

Lemma run_allow now b :
  run_alone allow_micro 6 now b ANow =
  let '(b', (r, ok)) := allow now b in (b', ADone r ok).
Proof.
  destruct b as [tk ls cap rf]. unfold allow, run_alone. cbn [allow_micro].
  cbn [lastSeen refillNs tokens set_lastSeen set_tokens].
  destruct (0 <? i64 (now - ls)).
  - cbn [allow_micro tokens set_tokens set_lastSeen]. rewrite Z.eqb_refl. cbn [allow_micro tokens set_tokens].
    change (tokens (set_tokens ?x ?y)) with x.
    destruct (_ <? nanoToken); [done|]. cbn [allow_micro]. 
    change (tokens (set_tokens ?x ?y)) with x. rewrite Z.eqb_refl. done.
  - cbn [allow_micro tokens set_lastSeen].
    destruct (tk <? nanoToken); [done|]. cbn [allow_micro tokens]. rewrite Z.eqb_refl. done.
Qed.

(** ** Sequences of calls *)
Fixpoint allow_all (times : list Z) (b : clientBucket) : clientBucket * Z :=
  match times with
  | [] => (b, 0)
  | t :: ts =>
      let '(b', (_, ok)) := allow t b in
      let '(b'', n) := allow_all ts b' in
      (b'', (if (ok : bool) then 1 else 0) + n)
  end.

(** Times never decrease from [t0] on and stay below [t1]. *)
Fixpoint monotone_until (t0 t1 : Z) (times : list Z) : Prop :=
  match times with
  | [] => t0 <= t1
  | t :: ts => t0 <= t /\ monotone_until t t1 ts
  end.

(** The arithmetic of a bucket used for a span of time does not overflow. *)
Definition no_overflow (b : clientBucket) (span : Z) : Prop :=
  0 <= refillNs b /\ 0 <= span < 2 ^ 63 /\ capacity b + span * refillNs b < 2 ^ 63.

Definition bucket_ok (b : clientBucket) : Prop := 0 <= tokens b <= capacity b.

(** ** Lemmas *)
Definition available (now : Z) (b : clientBucket) : Z :=
  Z.min (capacity b) (tokens b + (now - lastSeen b) * refillNs b).

Lemma allow_spec now b :
  bucket_ok b -> lastSeen b <= now -> no_overflow b (now - lastSeen b) ->
  allow now b =
    if available now b <? nanoToken
    then (set_tokens (available now b) (set_lastSeen now b),
          (available now b / nanoToken, false))
    else (set_tokens (available now b - nanoToken) (set_lastSeen now b),
          (available now b / nanoToken - 1, true)).
Proof.
  intros [Hb1 Hb2] Ht (Hr & Hspan & Hov). unfold allow, available, nanoToken.
  cbn [set_lastSeen lastSeen refillNs tokens capacity].
  rewrite (wrapS_id 64 (now - lastSeen b)) by (words).
  assert (0 <= (now - lastSeen b) * refillNs b) by nia.
  rewrite (wrapS_id 64 ((now - lastSeen b) * refillNs b)) by (words).
  set (el := (now - lastSeen b) * refillNs b) in *.
  assert (forall x, 0 <= x -> Z.quot x 1000000000 = x / 1000000000) as Hq
    by (intros; apply Z.quot_div_nonneg; lia).
  destruct (Z.ltb_spec 0 (now - lastSeen b)).
  - unfold refilled. cbn [capacity set_tokens tokens set_lastSeen].
    rewrite (wrapS_id 64 (tokens b + el)) by (words).
    assert ((if capacity b <? tokens b + el then capacity b else tokens b + el)
            = Z.min (capacity b) (tokens b + el)) as -> by (zcases; lia).
    rewrite Hq by lia. rewrite wrapS_id by (words). done.
  - assert (el = 0) as -> by (unfold el; nia).
    rewrite Z.min_r by lia. change (tokens (set_lastSeen now b)) with (tokens b). rewrite Z.add_0_r, Hq by lia.
    rewrite wrapS_id by (words). unfold set_tokens, set_lastSeen. cbn. done.
Qed.

Lemma allow_all_cons t ts b :
  allow_all (t :: ts) b =
  (fst (allow_all ts (fst (allow t b))),
   (if snd (snd (allow t b)) then 1 else 0) + snd (allow_all ts (fst (allow t b)))).
Proof. cbn. destruct (allow t b) as [b' [r ok]]. cbn. by destruct (allow_all ts b'). Qed.

Lemma monotone_until_le t0 t1 ts : monotone_until t0 t1 ts -> t0 <= t1.
Proof. revert t0. induction ts as [|t ts IH]; cbn; intros t0; [done|]. intros [? ?%IH]. lia. Qed.

(** Conservation: what one call grants is paid from the tokens and the refill. *)
Lemma allow_conserves now b :
  bucket_ok b -> lastSeen b <= now -> no_overflow b (now - lastSeen b) ->
  let '(b', (_, ok)) := allow now b in
  bucket_ok b' /\ lastSeen b' = now /\ capacity b' = capacity b /\ refillNs b' = refillNs b /\
  tokens b' + (if ok then nanoToken else 0) <= tokens b + (now - lastSeen b) * refillNs b.
Proof.
  intros Hb Ht Hov. rewrite allow_spec by done.
  destruct Hb as [Hb1 Hb2], Hov as (Hr & Hspan & Hov).
  assert (0 <= available now b <= capacity b) by (unfold available; nia).
  assert (available now b <= tokens b + (now - lastSeen b) * refillNs b)
    by (unfold available; lia).
  unfold bucket_ok, nanoToken in *. destruct (Z.ltb_spec (available now b) 1000000000); cbn; lia.
Qed.

(** ** Properties *)

(** C12: rate limit, for callers that come one after the other, while the clock does not
    go back and the arithmetic stays within 64 bits: the requests a bucket admits
    from now until [t1] are paid by the tokens it holds and by the refill rate,
    at most [tokens + rate * elapsed].  Concurrent callers can exceed it
    ([out_of_order_refills_twice]). *)
Theorem rate_limit_bound (b : clientBucket) (times : list Z) (t1 : Z) :
  bucket_ok b -> monotone_until (lastSeen b) t1 times -> no_overflow b (t1 - lastSeen b) ->
  snd (allow_all times b) * nanoToken <= tokens b + (t1 - lastSeen b) * refillNs b.
Proof.
  revert b. induction times as [|t ts IH]; intros b Hb Hm Hov.
  { cbn in *. destruct Hb, Hov as (?&?&?). nia. }
  destruct Hm as [Ht Hm]. pose proof (monotone_until_le _ _ _ Hm) as Ht1.
  destruct Hov as (Hr & Hspan & Hov).
  assert (no_overflow b (t - lastSeen b)) as Hov1 by (split; [done|split; [lia|nia]]).
  rewrite allow_all_cons. cbn [snd].
  pose proof (allow_conserves t b Hb Ht Hov1) as Hc.
  destruct (allow t b) as [b' [r ok]]. destruct Hc as (Hb' & Hl & Hcap & Hrf & Hle). cbn [fst snd].
  specialize (IH b' Hb'). rewrite Hl, Hrf in IH.
  assert (no_overflow b' (t1 - t)) as Hov2
    by (unfold no_overflow; rewrite Hrf, Hcap; split; [done|split; [lia|nia]]).
  specialize (IH Hm Hov2). destruct ok; lia.
Qed.

Lemma rate_limit_bound_witness :
  snd (allow_all [0; 0; 0; 500000000] (newClientBucket 0 (f64_of_Z 2) 2)) * nanoToken
    <= 2 * nanoToken + 500000000 * 2.
Proof.
  apply (rate_limit_bound (newClientBucket 0 (f64_of_Z 2) 2) [0; 0; 0; 500000000] 500000000).
  - vm_compute; split; discriminate.
  - vm_compute; repeat split; discriminate.
  - vm_compute; repeat split; discriminate.
Defined.

(** exactness of one admission: with a sane bucket and no overflow, [allow]
    answers true exactly when the refilled, clamped bucket holds a whole token,
    takes exactly that token, and reports the whole tokens left. *)
Theorem allow_exact (now : Z) (b : clientBucket) :
  bucket_ok b -> lastSeen b <= now -> no_overflow b (now - lastSeen b) ->
  let '(b', (remaining, ok)) := allow now b in
  (ok = true <-> nanoToken <= available now b) /\
  tokens b' = available now b - (if ok then nanoToken else 0) /\
  lastSeen b' = now /\ remaining = tokens b' / nanoToken.
Proof.
  intros Hb Ht Hov. rewrite allow_spec by done. unfold nanoToken.
  destruct (Z.ltb_spec (available now b) 1000000000) as [H|H]; cbn.
  - split_and!; [|lia|done|done]. split; [done|lia].
  - split_and!; [|lia|done|].
    + by split.
    + replace (available now b) with ((available now b - 1000000000) + 1 * 1000000000) at 1 by lia.
      rewrite Z.div_add by lia. lia.
Qed.

Lemma allow_exact_witness :
  snd (snd (allow 10 (newClientBucket 0 (f64_of_Z 2) 2))) = true.
Proof.
  pose proof (allow_exact 10 (newClientBucket 0 (f64_of_Z 2) 2)) as H.
  destruct (allow 10 (newClientBucket 0 (f64_of_Z 2) 2)) as [b' [r ok]] eqn:E.
  apply H; clear; vm_compute; repeat split; discriminate.
Defined.

(** a bucket whose rate truncates to zero (any [RequestsPerSecond] below one)
    never refills: once it holds less than a token every later request is
    refused, however long the client waits. *)
Theorem fractional_rate_starves (b : clientBucket) (times : list Z) :
  refillNs b = 0 -> 0 <= tokens b < nanoToken -> tokens b <= capacity b < 2 ^ 63 ->
  snd (allow_all times b) = 0.
Proof.
  revert b. induction times as [|t ts IH]; intros b Hr Ht Hc; [done|].
  rewrite allow_all_cons. cbn [snd].
  assert (fst (allow t b) = set_lastSeen t b /\ snd (snd (allow t b)) = false) as [-> ->].
  { unfold allow. cbn [set_lastSeen refillNs tokens]. rewrite Hr, Z.mul_0_r.
    change (i64 0) with 0. unfold refilled. cbn [capacity set_lastSeen].
    rewrite Z.add_0_r, (wrapS_id 64 (tokens b)) by (unfold nanoToken in *; words).
    destruct (Z.ltb_spec (capacity b) (tokens b)); [lia|].
    destruct (0 <? _); cbn [tokens set_tokens set_lastSeen];
      (destruct (Z.ltb_spec (tokens b) nanoToken); [|lia]); by destruct b. }
  rewrite IH; [done|done..].
Qed.

Lemma fractional_rate_starves_witness :
  snd (allow_all [1000000000000; 3600000000000000]
        (fst (allow 0 (newClientBucket 0 (f64_const 1 2) 1)))) = 0.
Proof.
  apply (fractional_rate_starves (fst (allow 0 (newClientBucket 0 (f64_const 1 2) 1))));
    vm_compute; first [reflexivity|split; first [reflexivity|discriminate]].
Defined.

(** a client limited to a million requests per second that stays idle for
    three hours is refused: the refill product wraps around in 64 bits and the
    bucket becomes negative. *)
Theorem idle_refill_overflows :
  let b := newClientBucket 0 (f64_of_Z 1000000) 100 in
  let '(b', (_, ok)) := allow (3 * 3600 * 1000000000) b in
  ok = false /\ tokens b = 100 * nanoToken /\ tokens b' < - 2 ^ 62.
Proof. vm_compute. repeat split; discriminate. Qed.

(** ** Concurrent callers at one instant *)
Section burst.
Context (b0 : clientBucket) (t : Z).

Definition is_grant (pc : allow_pc) : Z := match pc with ADone _ true => 1 | _ => 0 end.
Definition is_denial (pc : allow_pc) : Z := match pc with ADone _ false => 1 | _ => 0 end.
Definition granted : list allow_pc -> Z := sum_weights is_grant.
Definition denied : list allow_pc -> Z := sum_weights is_denial.
Definition finished (pc : allow_pc) : bool := match pc with ADone _ _ => true | _ => false end.

(** Where a goroutine can be while the clock still shows [t]. *)
Definition burst_pc_ok (pc : allow_pc) : Prop :=
  match pc with
  | ASwap now => now = t
  | ARefillLoad _ | ARefillCAS _ _ => False
  | AConsumeCAS cur => nanoToken <= cur < 2 ^ 63
  | _ => True
  end.

Definition burst_inv (s : clientBucket) (th : list allow_pc) : Prop :=
  lastSeen s = t /\ Forall burst_pc_ok th /\ 0 <= tokens s < 2 ^ 63 /\
  granted th * nanoToken + tokens s = tokens b0 /\
  (0 < denied th -> tokens s < nanoToken).

Lemma burst_inv_step s th i pc s' pc' :
  burst_inv s th -> th !! i = Some pc -> allow_micro t s pc = (s', pc') ->
  burst_inv s' (<[i := pc']> th).
Proof.
  intros (Hl & Hpc & Htk & Hsum & Hden) Hi Hm.
  pose proof (Forall_lookup_1 _ _ _ _ Hpc Hi) as Hok.
  assert (Hgoal : lastSeen s' = t -> burst_pc_ok pc' -> 0 <= tokens s' <= tokens s ->
    tokens s' = tokens s - nanoToken * (is_grant pc' - is_grant pc) ->
    is_denial pc' <= is_denial pc \/ tokens s' < nanoToken ->
    burst_inv s' (<[i := pc']> th)).
  { intros Hl' Hok' Hle Htok Hd. split; [done|]. split; [by apply Forall_insert|].
    unfold granted, denied in *. rewrite !(sum_weights_insert _ _ i pc pc') by done.
    unfold nanoToken in *. split_and!; [lia..|]. intros ?.
    destruct Hd; [|done]. specialize (Hden ltac:(lia)). lia. }
  destruct pc as [|now| | | |cur|r ok]; cbn in Hm, Hok; simplify_eq; try done.
  - apply Hgoal; cbn; [done|done|lia|lia|lia].
  - rewrite Hl, Z.sub_diag in *. change (i64 0) with 0 in *. cbn in *.
    apply Hgoal; cbn; [done|done|lia|lia|lia].
  - destruct (Z.ltb_spec (tokens s') nanoToken);
      apply Hgoal; cbn; [done|done|lia|lia|lia|done|lia|lia|lia|lia].
  - destruct (Z.eqb_spec (tokens s) cur) as [<-|]; simplify_eq.
    + apply Hgoal; cbn; [done|done|..]; rewrite ?wrapS_id by (unfold nanoToken in *; words);
        unfold nanoToken in *; lia.
    + apply Hgoal; cbn; [done|done|lia|lia|lia].
  - apply Hgoal; [done|done|lia|lia|lia].
Qed.
End burst.

Lemma burst_run b t n sys :
  0 <= tokens b < 2 ^ 63 -> lastSeen b = t ->
  rtc allow_step (Sys b (replicate n ANow) t) sys ->
  t <= clock sys /\ length (threads sys) = n /\
  (clock sys = t -> burst_inv b t (shared sys) (threads sys)).
Proof.
  intros Hb Hl Hrun.
  apply (sys_invariant allow_micro (fun s th now => t <= now /\ length th = n /\
           (now = t -> burst_inv b t s th)) _ _ Hrun); cbn.
  - intros s th i pc s' pc' now now' (Hnow & Hlen & Hinv) Hi Hle Hm.
    split; [lia|]. split; [by rewrite length_insert|]. intros ->.
    eapply burst_inv_step; [apply Hinv; lia|done|done].
  - split; [lia|]. split; [apply length_replicate|]. intros _.
    split_and!; [done| |lia..| |].
    + by apply Forall_replicate.
    + unfold granted. rewrite sum_weights_replicate. cbn. lia.
    + unfold denied. rewrite sum_weights_replicate. cbn. lia.
Qed.

Lemma all_finished_count th :
  forallb finished th = true -> granted th + denied th = Z.of_nat (length th).
Proof.
  unfold granted, denied. induction th as [|pc th IH]; [done|]. cbn [forallb length sum_weights].
  intros [Hf Hth]%andb_true_iff. specialize (IH Hth). destruct pc as [| | | | | |r []]; try done;
    cbn [is_grant is_denial]; lia.
Qed.

Lemma denied_nonneg th : 0 <= denied th.
Proof. apply sum_weights_nonneg. by intros [| | | | | |r []]. Qed.

(** C13: concurrent burst on a refilled bucket.  When [n] goroutines call [allow] while the
    clock shows one instant, on a bucket whose last refill is that instant
    ([lastSeen b = t]), then in every interleaving of their
    atomic instructions in which all of them return, exactly
    [min n (tokens / 1e9)] are admitted: no token is spent twice and none is
    lost.  On a bucket that was idle before the burst this fails
    ([idle_burst_extra_grant]). *)
Theorem concurrent_burst_exact (b : clientBucket) (t : Z) (n : nat)
    (final : system clientBucket allow_pc) :
  0 <= tokens b < 2 ^ 63 -> lastSeen b = t ->
  rtc allow_step (Sys b (replicate n ANow) t) final ->
  clock final = t -> forallb finished (threads final) = true ->
  granted (threads final) = Z.min (Z.of_nat n) (tokens b / nanoToken).
Proof.
  intros Hb Hl Hrun Hclk Hfin.
  destruct (burst_run b t n final Hb Hl Hrun) as (_ & Hlen & Hinv).
  destruct (Hinv Hclk) as (_ & _ & Htk & Hsum & Hden).
  pose proof (all_finished_count _ Hfin) as Hcount. rewrite Hlen in Hcount.
  pose proof (denied_nonneg (threads final)) as Hd.
  unfold nanoToken in *.
  assert (granted (threads final) <= tokens b / 1000000000) as Hup
    by (apply Z.div_le_lower_bound; lia).
  destruct (Z.eq_dec (denied (threads final)) 0) as [E|E]; [lia|].
  specialize (Hden ltac:(lia)).
  assert (granted (threads final) = tokens b / 1000000000)
    by (apply Z.div_unique with (r := tokens (shared final)); lia).
  lia.
Qed.

Lemma concurrent_burst_exact_witness :
  granted [ADone 0 true; ADone 0 false] = Z.min 2 (nanoToken / nanoToken).
Proof.
  apply (concurrent_burst_exact {| tokens := nanoToken; lastSeen := 0; capacity := nanoToken;
            refillNs := 1 |} 0 2
    (Sys {| tokens := 0; lastSeen := 0; capacity := nanoToken; refillNs := 1 |}
         [ADone 0 true; ADone 0 false] 0)); [cbn; unfold nanoToken; lia|done| |done|done].
  eapply rtc_l; [eapply (sys_step_now _ _ _ 0%nat); reflexivity|].
  eapply rtc_l; [eapply (sys_step_now _ _ _ 1%nat); reflexivity|].
  eapply rtc_l; [eapply (sys_step_now _ _ _ 0%nat); reflexivity|].
  eapply rtc_l; [eapply (sys_step_now _ _ _ 0%nat); reflexivity|].
  eapply rtc_l; [eapply (sys_step_now _ _ _ 1%nat); reflexivity|].
  eapply rtc_l; [eapply (sys_step_now _ _ _ 1%nat); reflexivity|].
  eapply rtc_l; [eapply (sys_step_now _ _ _ 0%nat); reflexivity|].
  eapply rtc_l; [eapply (sys_step_now _ _ _ 1%nat); reflexivity|].
  eapply rtc_l; [eapply (sys_step_now _ _ _ 1%nat); reflexivity|].
  apply rtc_refl.
Defined.

(** ** Outside those hypotheses

    The clock is read, [lastSeen] swapped and the refill credited in separate atomic steps. *)

(** The callers that read the clock at 1 s and at 2 s swap in the opposite order: [lastSeen]
    goes back to 1 s, and a third caller is credited the second from 1 s to 2 s once more.
    Three requests are admitted where [tokens + rate * elapsed] pays for two. *)
Definition empty_bucket : clientBucket :=
  {| tokens := 0; lastSeen := 0; capacity := 10 * nanoToken; refillNs := 1 |}.

Theorem out_of_order_refills_twice :
  exists final, rtc allow_step (Sys empty_bucket [ANow; ANow; ANow] 0) final /\
    clock final = 2 * nanoToken /\ forallb finished (threads final) = true /\
    granted (threads final) * nanoToken > tokens empty_bucket + (clock final - lastSeen empty_bucket) * refillNs empty_bucket.
Proof.
  pose (schedule := (0%nat, nanoToken) :: ((fun i : nat => (i, 2 * nanoToken)) <$> [1; 1; 0; 2; 2; 1; 1; 2; 2; 0; 0; 1; 1; 2; 2]%nat)).
  exists (play allow_micro schedule (Sys empty_bucket [ANow; ANow; ANow] 0)). split; [apply play_run|]. vm_compute. done.
Qed.

(** Two simultaneous callers of a full bucket of one token that was idle for a second: the
    second caller finds nothing to refill and takes the token before the first caller's
    refill is credited, which then pays for the first.  Both are admitted; one after the
    other, only one of them would be. *)
Theorem idle_burst_extra_grant :
  let b := {| tokens := nanoToken; lastSeen := 0; capacity := nanoToken; refillNs := 1 |} in
  exists final, rtc allow_step (Sys b [ANow; ANow] nanoToken) final /\
    clock final = nanoToken /\ forallb finished (threads final) = true /\
    granted (threads final) = 2 /\ snd (allow_all [nanoToken; nanoToken] b) = 1.
Proof.
  intros b. pose (schedule := (fun i : nat => (i, nanoToken)) <$> [0; 1; 0; 1; 1; 1; 0; 0; 0; 0]%nat).
  exists (play allow_micro schedule (Sys b [ANow; ANow] nanoToken)). split; [apply play_run|]. vm_compute. done.
Qed.
