(* ===== verification/HedgeBucket.v ===== *)
(** * Token bucket for hedged requests ([runtimes/go/retry.go], [TokenBucket])

    Same representation as the client bucket, but [Consume] reads the time of
    the last refill with a plain load and writes it back with a compare-and-swap
    whose result is ignored. *)
From S2P Require Import Prelude GoStrings GoFloat Interleave.

Record TokenBucket := {
  tb_tokens : Z;
  tb_capacity : Z;
  refillRate : Z;
  lastRefill : Z
}.

Definition set_tb_tokens (n : Z) (b : TokenBucket) : TokenBucket :=
  {| tb_tokens := n; tb_capacity := tb_capacity b; refillRate := refillRate b;
     lastRefill := lastRefill b |}.
Definition set_lastRefill (t : Z) (b : TokenBucket) : TokenBucket :=
  {| tb_tokens := tb_tokens b; tb_capacity := tb_capacity b; refillRate := refillRate b;
     lastRefill := t |}.

Definition NewTokenBucket (now : Z) (capacity ratePerSecond : f64) : TokenBucket :=
  let capNano := i64_of_f64 (f64_mul capacity (f64_of_Z 1000000000)) in
  let rate := i64_of_f64 ratePerSecond in
  let rate := if (rate =? 0) && f64_ltb (f64_of_Z 0) ratePerSecond then 1 else rate in
  {| tb_tokens := capNano; tb_capacity := capNano; refillRate := rate; lastRefill := now |}.

Definition NewHedgingTokenBucket (now : Z) (burstCapacity : Z) (hedgesPerSecond : f64) : TokenBucket :=
  let capNano := i64 (burstCapacity * 1000000000) in
  let rate := i64_of_f64 (f64_div (f64_mul hedgesPerSecond (f64_of_Z 1000000000))
                                  (f64_of_Z 1000000000)) in
  let rate := if (rate =? 0) && f64_ltb (f64_of_Z 0) hedgesPerSecond then 1 else rate in
  {| tb_tokens := capNano; tb_capacity := capNano; refillRate := rate; lastRefill := now |}.

Definition oneToken : Z := 1000000000.

Definition tb_next (b : TokenBucket) (cur refill : Z) : Z :=
  let next := i64 (cur + refill) in
  if tb_capacity b <? next then tb_capacity b else next.

(** [Consume], one caller at a time. *)
Definition Consume (now : Z) (b : TokenBucket) : TokenBucket * bool :=
  let elapsed := i64 (now - lastRefill b) in
  let refill := i64 (elapsed * refillRate b) in
  let b := if (0 <? elapsed) && (0 <? refill)
           then set_lastRefill now (set_tb_tokens (tb_next b (tb_tokens b) refill) b)
           else b in
  let cur := tb_tokens b in
  if cur <? oneToken then (b, false)
  else (set_tb_tokens (i64 (cur - oneToken)) b, true).

(** ** Atomic instructions *)
Inductive consume_pc :=
| CNow
| CLoadLast (now : Z)
| CRefillLoad (now last refill : Z)
| CRefillCAS (now last refill cur : Z)
| CStampCAS (now last : Z)
| CTakeLoad
| CTakeCAS (cur : Z)
| CDone (ok : bool).

Definition consume_micro (clk : Z) (b : TokenBucket) (pc : consume_pc) : TokenBucket * consume_pc :=
  match pc with
  | CNow => (b, CLoadLast clk)
  | CLoadLast now =>
      let last := lastRefill b in
      let elapsed := i64 (now - last) in
      let refill := i64 (elapsed * refillRate b) in
      (b, if (0 <? elapsed) && (0 <? refill) then CRefillLoad now last refill else CTakeLoad)
  | CRefillLoad now last refill => (b, CRefillCAS now last refill (tb_tokens b))
  | CRefillCAS now last refill cur =>
      if tb_tokens b =? cur
      then (set_tb_tokens (tb_next b cur refill) b, CStampCAS now last)
      else (b, CRefillLoad now last refill)
  | CStampCAS now last =>
      (if lastRefill b =? last then set_lastRefill now b else b, CTakeLoad)
  | CTakeLoad =>
      (b, if tb_tokens b <? oneToken then CDone false else CTakeCAS (tb_tokens b))
  | CTakeCAS cur =>
      if tb_tokens b =? cur then (set_tb_tokens (i64 (cur - oneToken)) b, CDone true)
      else (b, CTakeLoad)
  | CDone ok => (b, CDone ok)
  end.

Abbreviation consume_step := (sys_step consume_micro).

Lemma run_Consume now b :
  run_alone consume_micro 7 now b CNow =
  let '(b', ok) := Consume now b in (b', CDone ok).
Proof.
  destruct b as [tk cap rate last]. unfold Consume, run_alone. cbn [consume_micro lastRefill refillRate].
  destruct ((0 <? i64 (now - last)) && (0 <? i64 (i64 (now - last) * rate))).
  - cbn [consume_micro tb_tokens]. rewrite Z.eqb_refl. cbn [consume_micro set_tb_tokens lastRefill].
    rewrite Z.eqb_refl. cbn [consume_micro set_lastRefill tb_tokens set_tb_tokens].
    destruct (_ <? oneToken); [done|]. cbn [consume_micro tb_tokens]. by rewrite Z.eqb_refl.
  - cbn [consume_micro tb_tokens]. destruct (tk <? oneToken); [done|].
    cbn [consume_micro tb_tokens]. by rewrite Z.eqb_refl.
Qed.

(** ** The token count under interleaving *)
Definition tb_ok (b : TokenBucket) : Prop := 0 <= tb_tokens b <= tb_capacity b.

(** The refill computed from any pair of clock readings of the run fits. *)
Definition tb_span_ok (b : TokenBucket) (t0 t1 : Z) : Prop :=
  0 <= refillRate b /\ t1 - t0 < 2 ^ 63 /\ tb_capacity b + (t1 - t0) * refillRate b < 2 ^ 63.

Section bounds.
Context (b0 : TokenBucket) (t0 t1 : Z) (Hspan : tb_span_ok b0 t0 t1).

Definition in_run (clk x : Z) : Prop := t0 <= x <= clk.

Definition consume_pc_ok (clk : Z) (pc : consume_pc) : Prop :=
  match pc with
  | CLoadLast now => in_run clk now
  | CRefillLoad now _ refill | CRefillCAS now _ refill _ =>
      in_run clk now /\ 0 < refill <= (t1 - t0) * refillRate b0
  | CStampCAS now _ => in_run clk now
  | CTakeCAS cur => oneToken <= cur
  | _ => True
  end.

Definition tb_inv (s : TokenBucket) (th : list consume_pc) (clk : Z) : Prop :=
  t0 <= clk /\
  (clk <= t1 ->
   tb_ok s /\ tb_capacity s = tb_capacity b0 /\ refillRate s = refillRate b0 /\
   in_run clk (lastRefill s) /\ Forall (consume_pc_ok clk) th).

Lemma consume_pc_ok_mono clk clk' pc :
  clk <= clk' -> consume_pc_ok clk pc -> consume_pc_ok clk' pc.
Proof. unfold consume_pc_ok, in_run. destruct pc; intros; lia. Qed.

Lemma tb_inv_step s th i pc s' pc' clk clk' :
  tb_inv s th clk -> th !! i = Some pc -> clk <= clk' ->
  consume_micro clk' s pc = (s', pc') -> tb_inv s' (<[i := pc']> th) clk'.
Proof.
  intros [Ht0 Hinv] Hi Hclk Hm. split; [lia|]. intros Hle.
  destruct (Hinv ltac:(lia)) as (Hok & Hcap & Hrate & Hlast & Hpcs). clear Hinv.
  pose proof (Forall_lookup_1 _ _ _ _ Hpcs Hi) as Hpc.
  destruct Hspan as (Hr & Hd & Hov). unfold in_run, tb_ok in *.
  assert (Hgoal : tb_ok s' -> tb_capacity s' = tb_capacity b0 -> refillRate s' = refillRate b0 ->
    in_run clk' (lastRefill s') -> consume_pc_ok clk' pc' ->
    tb_ok s' /\ tb_capacity s' = tb_capacity b0 /\ refillRate s' = refillRate b0 /\
    in_run clk' (lastRefill s') /\ Forall (consume_pc_ok clk') (<[i := pc']> th)).
  { intros. do 4 (split; [done|]).
    apply Forall_insert; [|done].
    eapply Forall_impl; [exact Hpcs|]. intros; by eapply consume_pc_ok_mono. }
  unfold tb_ok, in_run in *.
  destruct pc as [|now|now last refill|now last refill cur|now last| |cur|ok];
    cbn in Hm, Hpc; unfold in_run in Hpc; simplify_eq.
  - apply Hgoal; cbn; unfold in_run; try done; lia.
  - apply Hgoal; try done; [lia|].
    destruct ((0 <? _) && _) eqn:E; [|done]. apply andb_true_iff in E as [E1 E2].
    apply Z.ltb_lt in E1, E2. rewrite (wrapS_id 64 (now - lastRefill s')) in * by words.
    rewrite Hrate in *. assert ((now - lastRefill s') * refillRate b0 <= (t1 - t0) * refillRate b0) by nia.
    rewrite wrapS_id in * by (words; nia). cbn. unfold in_run. lia.
  - apply Hgoal; cbn; unfold in_run; try done; lia.
  - destruct (Z.eqb_spec (tb_tokens s) cur) as [<-|]; simplify_eq.
    + assert (tb_next s (tb_tokens s) refill
              = Z.min (tb_capacity s) (tb_tokens s + refill)) as E.
      { unfold tb_next. rewrite wrapS_id by words. zcases; lia. }
      apply Hgoal; cbn; unfold in_run; rewrite ?E; try done; lia.
    + apply Hgoal; cbn; unfold in_run; try done; lia.
  - destruct (lastRefill s =? last); apply Hgoal; cbn; unfold in_run; try done; lia.
  - apply Hgoal; try done; [lia|]. destruct (Z.ltb_spec (tb_tokens s') oneToken); done.
  - destruct (Z.eqb_spec (tb_tokens s) cur) as [<-|]; simplify_eq.
    + unfold oneToken in *.
      apply Hgoal; cbn; unfold in_run; rewrite ?wrapS_id by (words; nia); try done; lia.
    + apply Hgoal; cbn; unfold in_run; try done; lia.
  - apply Hgoal; try done; lia.
Qed.
End bounds.

(** ** Properties *)

(** whatever the interleaving of any number of [Consume] calls, the token count
    stays between zero and the capacity as long as the refill of the elapsed time
    fits in 64 bits. *)
Theorem hedge_bucket_in_bounds (b : TokenBucket) (n : nat) (t0 t1 : Z)
    (final : system TokenBucket consume_pc) :
  tb_ok b -> lastRefill b = t0 -> tb_span_ok b t0 t1 ->
  rtc consume_step (Sys b (replicate n CNow) t0) final -> clock final <= t1 ->
  0 <= tb_tokens (shared final) <= tb_capacity b.
Proof.
  intros Hok Hl Hspan Hrun Hclk.
  assert (tb_inv b t0 t1 (shared final) (threads final) (clock final)) as [_ Hinv].
  { apply (sys_invariant consume_micro (tb_inv b t0 t1) _ _ Hrun).
    - intros. by eapply tb_inv_step.
    - split; cbn; [lia|]. intros _. do 3 (split; [done|]). unfold in_run.
      split; [lia|by apply Forall_replicate]. }
  destruct (Hinv Hclk) as ([? ?] & Hc & _). lia.
Qed.

Lemma hedge_bucket_in_bounds_witness :
  0 <= tb_tokens (NewHedgingTokenBucket 0 5 (f64_of_Z 10)) <=
       tb_capacity (NewHedgingTokenBucket 0 5 (f64_of_Z 10)).
Proof.
  apply (hedge_bucket_in_bounds (NewHedgingTokenBucket 0 5 (f64_of_Z 10)) 2 0 1000
    (Sys (NewHedgingTokenBucket 0 5 (f64_of_Z 10)) [CLoadLast 7; CNow] 7));
    [vm_compute; split; discriminate|reflexivity|vm_compute; repeat split; discriminate| |cbn; lia].
  eapply rtc_l; [eapply (sys_step_thread _ _ _ 0%nat _ _ _ 0 7); [reflexivity| |reflexivity]; lia|].
  apply rtc_refl.
Defined.

(** two goroutines that call [Consume] concurrently can both add the refill of
    the same time span: on an empty bucket, one second after the last refill at
    a rate of one token per second, some interleaving admits both although only
    one token has accrued. *)
Theorem hedge_double_refill (t : Z) :
  exists final,
    rtc consume_step
      (Sys {| tb_tokens := 0; tb_capacity := 5 * oneToken; refillRate := 1; lastRefill := t |}
           [CNow; CNow] (t + oneToken)) final /\
    threads final = [CDone true; CDone true] /\ clock final = t + oneToken.
Proof.
  set (b n l := {| tb_tokens := n; tb_capacity := 5 * oneToken; refillRate := 1; lastRefill := l |}).
  exists (Sys (b 0 (t + oneToken)) [CDone true; CDone true] (t + oneToken)).
  split; [|done].
  assert (Hload : forall n, consume_micro (t + oneToken) (b n t) (CLoadLast (t + oneToken))
            = (b n t, CRefillLoad (t + oneToken) t oneToken)).
  { intros n. cbn. replace (t + oneToken - t) with oneToken by lia. done. }
  eapply rtc_l; [eapply (sys_step_now _ _ _ 0%nat); reflexivity|].
  eapply rtc_l; [eapply (sys_step_now _ _ _ 1%nat); reflexivity|].
  eapply rtc_l; [eapply (sys_step_now _ _ _ 0%nat); [reflexivity|apply (Hload 0)]|].
  eapply rtc_l; [eapply (sys_step_now _ _ _ 1%nat); [reflexivity|apply (Hload 0)]|].
  eapply rtc_l; [eapply (sys_step_now _ _ _ 0%nat); reflexivity|].
  eapply rtc_l; [eapply (sys_step_now _ _ _ 0%nat); reflexivity|].
  eapply rtc_l; [eapply (sys_step_now _ _ _ 1%nat); reflexivity|].
  eapply rtc_l; [eapply (sys_step_now _ _ _ 1%nat); reflexivity|].
  eapply rtc_l; [eapply (sys_step_now _ _ _ 0%nat); [reflexivity|cbn; rewrite Z.eqb_refl; reflexivity]|].
  eapply rtc_l; [eapply (sys_step_now _ _ _ 1%nat); [reflexivity|]|].
  { cbn. destruct (Z.eqb_spec (t + oneToken) t) as [E|_]; [unfold oneToken in E; lia|reflexivity]. }
  eapply rtc_l; [eapply (sys_step_now _ _ _ 0%nat); reflexivity|].
  eapply rtc_l; [eapply (sys_step_now _ _ _ 0%nat); reflexivity|].
  eapply rtc_l; [eapply (sys_step_now _ _ _ 1%nat); reflexivity|].
  eapply rtc_l; [eapply (sys_step_now _ _ _ 1%nat); reflexivity|].
  apply rtc_refl.
Qed.
