(* ===== verification/Retry.v ===== *)
(** * Retry and hedging ([runtimes/go/retry.go], [ExecuteWithRetry])

    The operation, the random source and the timer are an environment over a
    world [W] that is threaded through the calls.  A run yields its outcome and
    the sequence of calls and sleeps it made. *)
From S2P Require Import Prelude GoStrings GoFloat Errors Breaker HedgeBucket.

Record RetryPolicy := {
  MaxAttempts : Z;
  InitialBackoff : Z;
  MaxBackoff : Z;
  BackoffMultiplier : f64;
  RetryableErrors : option (error -> bool);
  HedgeDelay : Z;
  HedgeBucket : option TokenBucket;
  Breaker : option CircuitBreaker
}.

Definition DefaultRetryPolicy (now : Z) : RetryPolicy := {|
  MaxAttempts := 3;
  InitialBackoff := 100 * 1000000;
  MaxBackoff := 2 * 1000000000;
  BackoffMultiplier := f64_of_Z 2;
  RetryableErrors := None;
  HedgeDelay := 0;
  HedgeBucket := Some (NewHedgingTokenBucket now 5 (f64_of_Z 10));
  Breaker := Some (NewCircuitBreaker 5 (30 * 1000000000) 2)
|}.

(** What a call can end in: a returned pair, or the panic of [rand.Int63n] on a
    non-positive bound. *)
Inductive outcome (T : Type) :=
| Returned (v : T) (err : option error)
| Panicked.
Arguments Returned {T} v err.
Arguments Panicked {T}.

Inductive retry_event :=
| EvCall (err : option error)
| EvSleep (d : Z).

Section retry.
Context {W T : Type} (zero : T).

(** The environment: the operation, [rand.Int63n], the wait for [time.After(d)]
    or the end of the context (whose error is returned), and the clock. *)
Record retry_env := {
  operation : W -> W * (T * option error);
  rand_Int63n : W -> Z -> W * Z;
  sleep_or_done : W -> Z -> W * option error;
  time_Now : W -> Z
}.
Context (env : retry_env).

Definition next_backoff (policy : RetryPolicy) (backoff : Z) : Z :=
  let next := i64_of_f64 (f64_mul (f64_of_Z backoff) (BackoffMultiplier policy)) in
  if MaxBackoff policy <? next then MaxBackoff policy else next.

Record retry_run := {
  rr_world : W;
  rr_breaker : option CircuitBreaker;
  rr_events : list retry_event;
  rr_outcome : outcome T
}.

(** The loop of [executeRetriesOnly] with [left] attempts to go. *)
Fixpoint retry_loop (policy : RetryPolicy) (left : nat) (backoff : Z) (lastErr : option error)
    (w : W) (br : option CircuitBreaker) : retry_run :=
  match left with
  | O => {| rr_world := w; rr_breaker := br; rr_events := []; rr_outcome := Returned zero lastErr |}
  | S left' =>
      let '(w, (result, err)) := operation env w in
      match err with
      | None =>
          {| rr_world := w; rr_breaker := RecordSuccess <$> br; rr_events := [EvCall None];
             rr_outcome := Returned result None |}
      | Some e =>
          let br := RecordFailure (time_Now env w) <$> br in
          let stop o := {| rr_world := w; rr_breaker := br; rr_events := [EvCall (Some e)];
                           rr_outcome := o |} in
          if match RetryableErrors policy with Some f => negb (f e) | None => false end
          then stop (Returned result (Some e))
          else if (left' =? 0)%nat then stop (Returned zero (Some e))
          else if backoff <=? 0 then stop Panicked
          else
            let '(w, jitter) := rand_Int63n env w backoff in
            let '(w, done) := sleep_or_done env w jitter in
            match done with
            | Some ce =>
                {| rr_world := w; rr_breaker := br;
                   rr_events := [EvCall (Some e); EvSleep jitter];
                   rr_outcome := Returned zero (Some ce) |}
            | None =>
                let r := retry_loop policy left' (next_backoff policy backoff) (Some e) w br in
                {| rr_world := rr_world r; rr_breaker := rr_breaker r;
                   rr_events := EvCall (Some e) :: EvSleep jitter :: rr_events r;
                   rr_outcome := rr_outcome r |}
            end
      end
  end.

Definition executeRetriesOnly (policy : RetryPolicy) (w : W) (br : option CircuitBreaker) : retry_run :=
  retry_loop policy (Z.to_nat (MaxAttempts policy)) (InitialBackoff policy) None w br.

(** ** Lemmas *)
Definition calls (evs : list retry_event) : Z :=
  foldr (fun e n => match e with EvCall _ => 1 + n | EvSleep _ => n end) 0 evs.

Definition sleeps (evs : list retry_event) : list Z :=
  foldr (fun e l => match e with EvSleep d => d :: l | EvCall _ => l end) [] evs.

(** ** What a run promises *)
Definition retryable (policy : RetryPolicy) (e : error) : bool :=
  match RetryableErrors policy with Some f => f e | None => true end.

(** [k] attempts were made and each is followed by another: its call failed with a retryable
    error, which the breaker recorded, and the wait drawn from its backoff was slept. *)
Inductive retried (policy : RetryPolicy) :
    nat -> Z -> W -> option CircuitBreaker -> list retry_event -> Z -> W -> option CircuitBreaker -> Prop :=
| retried_none backoff w br : retried policy 0 backoff w br [] backoff w br
| retried_more k backoff w br w1 v e w2 jitter w3 evs backoff' w' br' :
    operation env w = (w1, (v, Some e)) -> retryable policy e = true -> 0 < backoff ->
    rand_Int63n env w1 backoff = (w2, jitter) -> sleep_or_done env w2 jitter = (w3, None) ->
    retried policy k (next_backoff policy backoff) w3 (RecordFailure (time_Now env w1) <$> br) evs backoff' w' br' ->
    retried policy (S k) backoff w br (EvCall (Some e) :: EvSleep jitter :: evs) backoff' w' br'.

(** The attempt that ends the run, with [left] attempts still allowed after it. *)
Inductive last_attempt (policy : RetryPolicy) (left : nat) (backoff : Z) (w : W) (br : option CircuitBreaker) : retry_run -> Prop :=
| ends_success w1 v :
    operation env w = (w1, (v, None)) ->
    last_attempt policy left backoff w br
      {| rr_world := w1; rr_breaker := RecordSuccess <$> br; rr_events := [EvCall None]; rr_outcome := Returned v None |}
| ends_permanent w1 v e :
    operation env w = (w1, (v, Some e)) -> retryable policy e = false ->
    last_attempt policy left backoff w br
      {| rr_world := w1; rr_breaker := RecordFailure (time_Now env w1) <$> br; rr_events := [EvCall (Some e)];
         rr_outcome := Returned v (Some e) |}
| ends_exhausted w1 v e :
    operation env w = (w1, (v, Some e)) -> retryable policy e = true -> left = 0%nat ->
    last_attempt policy left backoff w br
      {| rr_world := w1; rr_breaker := RecordFailure (time_Now env w1) <$> br; rr_events := [EvCall (Some e)];
         rr_outcome := Returned zero (Some e) |}
| ends_panic w1 v e :
    operation env w = (w1, (v, Some e)) -> retryable policy e = true -> (0 < left)%nat -> backoff <= 0 ->
    last_attempt policy left backoff w br
      {| rr_world := w1; rr_breaker := RecordFailure (time_Now env w1) <$> br; rr_events := [EvCall (Some e)];
         rr_outcome := Panicked |}
| ends_context w1 v e w2 jitter w3 ce :
    operation env w = (w1, (v, Some e)) -> retryable policy e = true -> (0 < left)%nat -> 0 < backoff ->
    rand_Int63n env w1 backoff = (w2, jitter) -> sleep_or_done env w2 jitter = (w3, Some ce) ->
    last_attempt policy left backoff w br
      {| rr_world := w3; rr_breaker := RecordFailure (time_Now env w1) <$> br;
         rr_events := [EvCall (Some e); EvSleep jitter]; rr_outcome := Returned zero (Some ce) |}.

Definition after_events (evs : list retry_event) (r : retry_run) : retry_run :=
  {| rr_world := rr_world r; rr_breaker := rr_breaker r; rr_events := evs ++ rr_events r; rr_outcome := rr_outcome r |}.

Lemma retry_loop_run policy left backoff lastErr w br :
  exists k evs backoff' w' br' last,
    (k <= left)%nat /\ retried policy k backoff w br evs backoff' w' br' /\
    last_attempt policy (left - k) backoff' w' br' last /\
    retry_loop policy (S left) backoff lastErr w br = after_events evs last.
Proof.
  revert backoff lastErr w br. induction left as [|left IH]; intros backoff lastErr w br.
  all: match goal with |- context [retry_loop _ (S ?m)] => remember m as n eqn:En end; cbn [retry_loop]; subst n.
  all: destruct (operation env w) as [w1 [v [e|]]] eqn:Eop;
    [|exists 0%nat, [], backoff, w, br; eexists; (split_and!; [lia|constructor|by eapply ends_success|reflexivity])].
  all: assert (match RetryableErrors policy with Some f => negb (f e) | None => false end = negb (retryable policy e)) as ->
    by (unfold retryable; by destruct (RetryableErrors policy)).
  all: destruct (retryable policy e) eqn:Er; cbn [negb];
    [|exists 0%nat, [], backoff, w, br; eexists; (split_and!; [lia|constructor|by eapply ends_permanent|reflexivity])].
  - cbn [Nat.eqb]. exists 0%nat, [], backoff, w, br. eexists. split_and!; [lia|constructor|by eapply ends_exhausted|reflexivity].
  - cbn [Nat.eqb]. destruct (Z.leb_spec backoff 0).
    { exists 0%nat, [], backoff, w, br. eexists. split_and!; [lia|constructor|eapply ends_panic; eauto; lia|reflexivity]. }
    destruct (rand_Int63n env w1 backoff) as [w2 jitter] eqn:Erand. destruct (sleep_or_done env w2 jitter) as [w3 [ce|]] eqn:Es.
    { exists 0%nat, [], backoff, w, br. eexists. split_and!; [lia|constructor|eapply ends_context; eauto; lia|reflexivity]. }
    destruct (IH (next_backoff policy backoff) (Some e) w3 (RecordFailure (time_Now env w1) <$> br))
      as (k & evs & b' & w' & br' & last & Hk & Hre & Hlast & E).
    exists (S k), (EvCall (Some e) :: EvSleep jitter :: evs), b', w', br', last.
    split_and!; [lia|by eapply retried_more|done|]. by rewrite E.
Qed.

Lemma retried_calls policy k backoff w br evs backoff' w' br' :
  retried policy k backoff w br evs backoff' w' br' ->
  calls evs = Z.of_nat k /\ backoff' = Nat.iter k (next_backoff policy) backoff.
Proof.
  induction 1 as [|k backoff w br w1 v e w2 jitter w3 evs backoff' w' br' _ _ _ _ _ _ [IHc IHb]]; [done|]. split.
  - unfold calls in *. cbn. lia.
  - by rewrite Nat.iter_succ_r.
Qed.

Lemma last_attempt_calls policy left backoff w br r : last_attempt policy left backoff w br r -> calls (rr_events r) = 1.
Proof. by destruct 1. Qed.

Lemma calls_app l1 l2 : calls (l1 ++ l2) = calls l1 + calls l2.
Proof. unfold calls. induction l1 as [|[] l1 IH]; cbn; lia. Qed.

Lemma retry_loop_sleeps policy left backoff lastErr w br B :
  (forall w n, 0 < n -> 0 <= snd (rand_Int63n env w n) < n) ->
  backoff <= B -> MaxBackoff policy <= B ->
  Forall (fun d => 0 <= d < B) (sleeps (rr_events (retry_loop policy left backoff lastErr w br))).
Proof.
  intros Hrand. revert backoff lastErr w br.
  induction left as [|left IH]; intros * Hb HB; [done|]. cbn [retry_loop].
  destruct (operation env w) as [w1 [result [e|]]]; [|done].
  destruct (match RetryableErrors policy with Some f => negb (f e) | None => false end); [done|].
  destruct (left =? 0)%nat; [done|]. destruct (Z.leb_spec backoff 0); [done|].
  specialize (Hrand w1 backoff ltac:(lia)).
  destruct (rand_Int63n env w1 backoff) as [w2 j]. cbn in Hrand.
  destruct (sleep_or_done env w2 j) as [w3 [ce|]]; cbn; constructor; [lia|done|lia|].
  apply IH; [|done]. unfold next_backoff. zcases; lia.
Qed.
End retry.
Arguments retry_env W T : clear implicits.
Arguments retry_run W T : clear implicits.

(** ** Hedging: [executeWithHedging]

    The function blocks in [select] statements; what becomes ready next is an
    event.  The two goroutines report their results on a channel of capacity
    two; the hedged one is only started once a token was taken. *)
Inductive hedge_event (T : Type) :=
| PrimaryDone (v : T) (err : option error)
| HedgeDone (v : T) (err : option error)
| TimerFired (now : Z)
| CtxDone (e : error).
Arguments PrimaryDone {T} v err.
Arguments HedgeDone {T} v err.
Arguments TimerFired {T} now.
Arguments CtxDone {T} e.

Inductive hedge_phase (T : Type) :=
| HSelect
| HWaitPrimary
| HRaceFirst
| HRaceSecond (e1 : error)
| HReturned (v : T) (err : option error).
Arguments HSelect {T}.
Arguments HWaitPrimary {T}.
Arguments HRaceFirst {T}.
Arguments HRaceSecond {T} e1.
Arguments HReturned {T} v err.

Record hedge_state (T : Type) := {
  h_phase : hedge_phase T;
  h_bucket : option TokenBucket;
  h_started : Z   (* goroutines started so far *)
}.
Arguments h_phase {T} h.
Arguments h_bucket {T} h.
Arguments h_started {T} h.

Section hedging.
Context {T : Type} (zero : T).

Definition hedge_init (policy : RetryPolicy) : hedge_state T :=
  {| h_phase := HSelect; h_bucket := HedgeBucket policy; h_started := 1 |}.

Definition can_hedge (now : Z) (bucket : option TokenBucket) : option TokenBucket * bool :=
  match bucket with
  | None => (None, true)
  | Some b => let '(b', ok) := Consume now b in (Some b', ok)
  end.

Definition in_phase (s : hedge_state T) (p : hedge_phase T) : hedge_state T :=
  {| h_phase := p; h_bucket := h_bucket s; h_started := h_started s |}.

Definition hedge_step (s : hedge_state T) (ev : hedge_event T) : hedge_state T :=
  match h_phase s, ev with
  | HSelect, PrimaryDone v err => in_phase s (HReturned v err)
  | HSelect, TimerFired now =>
      let '(bucket, ok) := can_hedge now (h_bucket s) in
      if ok then {| h_phase := HRaceFirst; h_bucket := bucket; h_started := h_started s + 1 |}
      else {| h_phase := HWaitPrimary; h_bucket := bucket; h_started := h_started s |}
  | HSelect, CtxDone e => in_phase s (HReturned zero (Some e))
  | HWaitPrimary, PrimaryDone v err => in_phase s (HReturned v err)
  | HWaitPrimary, CtxDone e => in_phase s (HReturned zero (Some e))
  | HRaceFirst, (PrimaryDone v None | HedgeDone v None) => in_phase s (HReturned v None)
  | HRaceFirst, (PrimaryDone v (Some e) | HedgeDone v (Some e)) => in_phase s (HRaceSecond e)
  | HRaceSecond e1, (PrimaryDone v None | HedgeDone v None) => in_phase s (HReturned v None)
  | HRaceSecond e1, (PrimaryDone v (Some e2) | HedgeDone v (Some e2)) =>
      in_phase s (HReturned zero (Some (JoinError e1 e2)))
  | _, _ => s
  end.

Definition hedge_run (s : hedge_state T) (evs : list (hedge_event T)) : hedge_state T :=
  foldl hedge_step s evs.

(** The results that arrived, in order. *)
Fixpoint results (evs : list (hedge_event T)) : list (T * option error) :=
  match evs with
  | [] => []
  | (PrimaryDone v err | HedgeDone v err) :: evs' => (v, err) :: results evs'
  | _ :: evs' => results evs'
  end.

(** The answer of a race: the first success, or both errors. *)
Definition race_answer (rs : list (T * option error)) : option (T * option error) :=
  match rs with
  | (v, None) :: _ => Some (v, None)
  | (_, Some e1) :: (v, None) :: _ => Some (v, None)
  | (_, Some e1) :: (_, Some e2) :: _ => Some (zero, Some (JoinError e1 e2))
  | _ => None
  end.

Definition returned (s : hedge_state T) : option (T * option error) :=
  match h_phase s with HReturned v err => Some (v, err) | _ => None end.

Lemma hedge_run_returned s evs v err :
  h_phase s = HReturned v err -> hedge_run s evs = s.
Proof.
  revert s. induction evs as [|ev evs IH]; intros s Hs; [done|]. cbn.
  assert (hedge_step s ev = s) as -> by (unfold hedge_step; rewrite Hs; by destruct ev).
  by apply IH.
Qed.

Lemma hedge_run_second s e1 evs :
  h_phase s = HRaceSecond e1 ->
  returned (hedge_run s evs) =
  match results evs with
  | (v, None) :: _ => Some (v, None)
  | (_, Some e2) :: _ => Some (zero, Some (JoinError e1 e2))
  | [] => None
  end.
Proof.
  revert s. induction evs as [|ev evs IH]; intros s Hs; cbn.
  { unfold returned. by rewrite Hs. }
  unfold hedge_step. rewrite Hs.
  destruct ev as [v [e|]|v [e|]| |]; cbn; try by apply IH.
  all: erewrite hedge_run_returned by reflexivity; done.
Qed.

Lemma hedge_run_first s evs :
  h_phase s = HRaceFirst -> returned (hedge_run s evs) = race_answer (results evs).
Proof.
  revert s. induction evs as [|ev evs IH]; intros s Hs; cbn.
  { unfold returned. by rewrite Hs. }
  unfold hedge_step. rewrite Hs.
  destruct ev as [v [e|]|v [e|]| |]; cbn; try by apply IH.
  all: first [erewrite hedge_run_returned by reflexivity; done
             |rewrite (hedge_run_second _ e) by reflexivity].
  all: by destruct (results evs) as [|[v' [e'|]] rs].
Qed.

Lemma hedge_step_started s ev :
  h_started (hedge_step s ev) =
  h_started s + match h_phase s, ev with
                | HSelect, TimerFired now => if snd (can_hedge now (h_bucket s)) then 1 else 0
                | _, _ => 0
                end.
Proof.
  unfold hedge_step. destruct (h_phase s), ev as [? []|? []|now|]; cbn; try lia.
  destruct (can_hedge now (h_bucket s)) as [b []]; cbn; lia.
Qed.

Lemma hedge_run_race_started s evs :
  h_phase s <> HSelect -> h_started (hedge_run s evs) = h_started s.
Proof.
  revert s. induction evs as [|ev evs IH]; intros s Hs; [done|]. cbn.
  assert (h_phase (hedge_step s ev) <> HSelect).
  { unfold hedge_step. destruct (h_phase s) eqn:E, ev as [? []|? []|now|]; cbn; rewrite ?E; done. }
  rewrite IH, hedge_step_started by done. destruct (h_phase s); [done|lia..].
Qed.
End hedging.

(** ** [ExecuteWithRetry] *)
Inductive execution (W T : Type) :=
| Rejected (w : W) (br : option CircuitBreaker) (v : T) (err : error)
| RetriesOnly (r : retry_run W T)
| Hedged (br : option CircuitBreaker) (s : hedge_state T).
Arguments Rejected {W T} w br v err.
Arguments RetriesOnly {W T} r.
Arguments Hedged {W T} br s.

Definition breaker_allow (now : Z) (br : option CircuitBreaker) : option CircuitBreaker * bool :=
  match br with
  | Some b => let '(b', ok) := Allow now b in (Some b', ok)
  | None => (None, true)
  end.

Definition ExecuteWithRetry {W T} (zero : T) (env : retry_env W T) (policy : RetryPolicy) (w : W)
  : execution W T :=
  let '(br, ok) := breaker_allow (time_Now env w) (Breaker policy) in
  if negb ok then Rejected w br zero (ErrorString "circuit open: too many recent failures")
  else if 0 <? HedgeDelay policy then Hedged br (hedge_init policy)
  else RetriesOnly (executeRetriesOnly zero env policy w br).

(** ** Properties *)

(** C16: the retry contract, in full.  For a positive [MaxAttempts] a run makes [n] calls of
    the operation, [1 <= n <= MaxAttempts].  The first [n - 1] each failed with a retryable
    error, and each was followed by a wait drawn below its backoff, [InitialBackoff]
    multiplied and capped once for every earlier retry.  The last one ends the run: a
    success is returned as it is, with a nil error; an error that is not retryable is returned
    with the value the operation gave; the error of the last attempt allowed is returned with
    the zero value; if the context ends during the wait its error is returned, with the zero
    value; and [rand.Int63n] panics when the backoff is not positive and an attempt is left.
    The breaker records every call once, and the world is what these steps make of it. *)
Theorem retry_contract {W T} (zero : T) (env : retry_env W T) (policy : RetryPolicy) (w : W)
    (br : option CircuitBreaker) :
  1 <= MaxAttempts policy ->
  exists (n : nat) evs w' br' last,
    1 <= Z.of_nat n <= MaxAttempts policy /\
    let backoff := Nat.iter (n - 1) (next_backoff policy) (InitialBackoff policy) in
    retried env policy (n - 1) (InitialBackoff policy) w br evs backoff w' br' /\
    last_attempt zero env policy (Z.to_nat (MaxAttempts policy) - n) backoff w' br' last /\
    executeRetriesOnly zero env policy w br = after_events evs last /\
    calls (rr_events (executeRetriesOnly zero env policy w br)) = Z.of_nat n.
Proof.
  intros Hm. unfold executeRetriesOnly. destruct (Z.to_nat (MaxAttempts policy)) as [|left] eqn:El; [lia|].
  destruct (retry_loop_run zero env policy left (InitialBackoff policy) None w br)
    as (k & evs & b & w' & br' & last & Hk & Hre & Hlast & E).
  destruct (retried_calls _ _ _ _ _ _ _ _ _ _ Hre) as [Hc ->]. exists (S k), evs, w', br', last.
  replace (S k - 1)%nat with k by lia. replace (S left - S k)%nat with (left - k)%nat by lia. cbv zeta.
  rewrite E. split_and!; [lia|lia|done|done|done|]. unfold after_events. cbn [rr_events].
  rewrite calls_app, Hc, (last_attempt_calls _ _ _ _ _ _ _ _ Hlast). lia.
Qed.

(** A concrete environment: an operation that fails [w] more times, jitter one
    below the bound, and a context that never ends. *)
Definition flaky_env : retry_env Z Z := {|
  operation w := if 0 <? w then (w - 1, (0, Some (ErrorString "boom"))) else (w, (42, None));
  rand_Int63n w n := (w, n - 1);
  sleep_or_done w d := (w, None);
  time_Now w := 0
|}.

Definition plain_policy : RetryPolicy := {|
  MaxAttempts := 3; InitialBackoff := 100; MaxBackoff := 2000; BackoffMultiplier := f64_of_Z 2;
  RetryableErrors := None; HedgeDelay := 0; HedgeBucket := None; Breaker := None |}.

(** The third call succeeds. *)
Lemma retry_contract_witness :
  exists (n : nat) evs w' br' last,
    1 <= Z.of_nat n <= 3 /\
    let backoff := Nat.iter (n - 1) (next_backoff plain_policy) 100 in
    retried flaky_env plain_policy (n - 1) 100 2 None evs backoff w' br' /\
    last_attempt 0 flaky_env plain_policy (3 - n) backoff w' br' last /\
    executeRetriesOnly 0 flaky_env plain_policy 2 None = after_events evs last /\
    calls (rr_events (executeRetriesOnly 0 flaky_env plain_policy 2 None)) = Z.of_nat n.
Proof. apply (retry_contract 0 flaky_env plain_policy 2 None). cbn. lia. Defined.

Example retry_default_run :
  rr_outcome (executeRetriesOnly 0 flaky_env (DefaultRetryPolicy 0) 2 None) = Returned 42 None /\
  sleeps (rr_events (executeRetriesOnly 0 flaky_env (DefaultRetryPolicy 0) 2 None))
    = [99999999; 199999999].
Proof. vm_compute. done. Qed.

(** every wait between attempts is a full-jitter backoff: non-negative and
    below the larger of the initial and the maximal backoff, for any random
    source that respects the bound of [rand.Int63n]. *)
Theorem retry_sleeps_bounded {W T} (zero : T) (env : retry_env W T) (policy : RetryPolicy) (w : W)
    (br : option CircuitBreaker) :
  (forall w n, 0 < n -> 0 <= snd (rand_Int63n env w n) < n) ->
  Forall (fun d => 0 <= d < Z.max (InitialBackoff policy) (MaxBackoff policy))
    (sleeps (rr_events (executeRetriesOnly zero env policy w br))).
Proof.
  intros Hrand. unfold executeRetriesOnly.
  apply retry_loop_sleeps; [done|apply Z.le_max_l|apply Z.le_max_r].
Qed.

Lemma retry_sleeps_bounded_witness :
  Forall (fun d => 0 <= d < 2000)
    (sleeps (rr_events (executeRetriesOnly 0 flaky_env plain_policy 2 None))).
Proof.
  pose proof (retry_sleeps_bounded 0 flaky_env plain_policy 2 None) as H.
  apply H. intros w n Hn. cbn. lia.
Defined.

(** degenerate policies.  A policy that allows no attempt returns the zero
    value with a nil error without calling the operation; a policy whose initial
    backoff is not positive panics after the first retryable failure if another
    attempt is allowed. *)
Theorem retry_degenerate {W T} (zero : T) (env : retry_env W T) (policy : RetryPolicy) (w : W)
    (br : option CircuitBreaker) :
  (MaxAttempts policy <= 0 ->
     rr_outcome (executeRetriesOnly zero env policy w br) = Returned zero None /\
     rr_events (executeRetriesOnly zero env policy w br) = []) /\
  (2 <= MaxAttempts policy -> InitialBackoff policy <= 0 -> RetryableErrors policy = None ->
   forall w' v e, operation env w = (w', (v, Some e)) ->
     rr_outcome (executeRetriesOnly zero env policy w br) = Panicked).
Proof.
  unfold executeRetriesOnly. split.
  - intros Hm. replace (Z.to_nat (MaxAttempts policy)) with 0%nat by lia. done.
  - intros Hm Hb Hr w' v e Hop.
    destruct (Z.to_nat (MaxAttempts policy)) as [|[|left]] eqn:E; [lia|lia|].
    cbn [retry_loop]. rewrite Hop, Hr. cbn.
    destruct (Z.leb_spec (InitialBackoff policy) 0); [done|lia].
Qed.

Lemma retry_degenerate_witness :
  rr_outcome (executeRetriesOnly 0 flaky_env
    {| MaxAttempts := 2; InitialBackoff := 0; MaxBackoff := 0; BackoffMultiplier := f64_of_Z 2;
       RetryableErrors := None; HedgeDelay := 0; HedgeBucket := None; Breaker := None |} 1 None)
    = Panicked.
Proof.
  refine (proj2 (retry_degenerate 0 flaky_env _ 1 None) _ _ _ 0 0 (ErrorString "boom") _);
    cbn; first [reflexivity|lia].
Defined.

(** while the circuit is open and its timeout has not elapsed,
    [ExecuteWithRetry] returns the circuit-open error without calling the
    operation, starting a goroutine or changing the world. *)
Theorem open_breaker_fast_fails {W T} (zero : T) (env : retry_env W T) (policy : RetryPolicy) (w : W)
    (b : CircuitBreaker) :
  Breaker policy = Some b -> cb_state b = CircuitOpen -> 0 < OpenTimeout b < 2 ^ 63 ->
  time_Now env w - lastOpenTime b < OpenTimeout b ->
  ExecuteWithRetry zero env policy w =
    Rejected w (Some b) zero (ErrorString "circuit open: too many recent failures").
Proof.
  intros Hb Hs Ht Hnow. unfold ExecuteWithRetry, breaker_allow, Allow. rewrite Hb, Hs.
  apply Since_lt in Hnow; [|done].
  destruct (Z.leb_spec (OpenTimeout b) (Since (time_Now env w) (lastOpenTime b))); [lia|done].
Qed.

Definition open_policy : RetryPolicy := {|
  MaxAttempts := 3; InitialBackoff := 1; MaxBackoff := 1; BackoffMultiplier := f64_of_Z 2;
  RetryableErrors := None; HedgeDelay := 0; HedgeBucket := None;
  Breaker := Some (ForceOpen 0 (NewCircuitBreaker 5 30 2)) |}.

Lemma open_breaker_fast_fails_witness :
  ExecuteWithRetry 0 flaky_env open_policy 2 =
    Rejected 2 (Some (ForceOpen 0 (NewCircuitBreaker 5 30 2))) 0
      (ErrorString "circuit open: too many recent failures").
Proof.
  apply (open_breaker_fast_fails 0 flaky_env open_policy 2 (ForceOpen 0 (NewCircuitBreaker 5 30 2)));
    cbn; first [reflexivity|lia].
Defined.

(** hedging.  Once the hedge delay has passed and a token was taken, the answer
    is the first successful result to arrive, or both errors joined in arrival
    order, regardless of timers and of the context; exactly two attempts were
    started.  Without a token no second attempt is started. *)
Theorem hedge_race {T} (zero : T) (policy : RetryPolicy) (now : Z) (evs : list (hedge_event T)) :
  let s := hedge_run zero (hedge_init policy) (TimerFired now :: evs) in
  if snd (can_hedge now (HedgeBucket policy))
  then returned s = race_answer zero (results evs) /\ h_started s = 2
  else h_started s = 1.
Proof.
  cbn. unfold hedge_step. cbn.
  destruct (can_hedge now (HedgeBucket policy)) as [b []]; cbn.
  - split; [by apply hedge_run_first|].
    etransitivity; [by apply (hedge_run_race_started zero)|done].
  - etransitivity; [by apply (hedge_run_race_started zero)|done].
Qed.
