(* ===== verification/Http.v ===== *)
(** * HTTP and interceptors: what the runtime uses of [net/http], and the
    interceptor types of [runtimes/go/grpc_handler.go]

    Handlers run in a world [W] threaded through every call; a component keeps
    its state in the world through a [Has] instance, and reads the clock through
    [HasClock].  [interface{}] values are a type [V] whose dynamic interfaces are
    given by [Message]. *)
From S2P Require Import Prelude GoStrings GoFloat Errors Context.

(** ** State of a component inside the world *)
Class Has (W S : Type) := {
  get : W -> S;
  put : S -> W -> W;
  get_put : forall s w, get (put s w) = s;
  put_put : forall s s' w, put s (put s' w) = put s w
}.
Class HasClock (W : Type) := { now_of : W -> Z }.

#[export] Instance Has_self W : Has W W | 50.
Proof. refine {| get w := w; put s _ := s |}; done. Defined.

(** ** Headers *)
Abbreviation Header := (gmap string (list string)).

Definition is_token_char (c : ascii) : bool :=
  is_upper c || is_lower c || is_digit c ||
  existsb (Ascii.eqb c) ["!"; "#"; "$"; "%"; "&"; "'"; "*"; "+"; "-"; "."; "^"; "_"; "`"; "|"; "~"]%char.

Fixpoint canonical_go (up : bool) (s : string) : string :=
  match s with
  | "" => ""
  | String c s' =>
      String (if up then upper_char c else lower_char c) (canonical_go (Ascii.eqb c "-") s')
  end.

(** [textproto.CanonicalMIMEHeaderKey] *)
Definition CanonicalHeaderKey (s : string) : string :=
  if str_forall is_token_char s then canonical_go true s else s.

Definition Header_Get (h : Header) (key : string) : string :=
  match h !! CanonicalHeaderKey key with Some (v :: _) => v | _ => "" end.
Definition Header_Set (key value : string) (h : Header) : Header :=
  <[CanonicalHeaderKey key := [value]]> h.

(** ** Requests *)
Record body := { b_data : bytes; b_end : option error  (* [None]: EOF *) }.

Record Request := {
  r_method : string;
  r_path : string;
  r_query : gmap string (list string);
  r_header : Header;
  r_remote : string;
  r_ctx : context;
  r_body : body
}.

(** [io.ReadFull(body, buf)] with a buffer of [n] bytes. *)
Definition ReadFull (b : body) (n : nat) : body * res error bytes :=
  if (n <=? length (b_data b))%nat then
    ({| b_data := drop n (b_data b); b_end := b_end b |}, Ok (take n (b_data b)))
  else
    ({| b_data := []; b_end := b_end b |},
     Err (match b_end b, b_data b with
          | Some e, _ => e
          | None, [] => ErrEOF
          | None, _ => ErrUnexpectedEOF
          end)).

(** [io.ReadAll(body)]: the data read so far and an error other than EOF. *)
Definition ReadAll (b : body) : body * (bytes * option error) :=
  ({| b_data := []; b_end := b_end b |}, (b_data b, b_end b)).

(** ** Response writers

    The header map can be changed at any time, but the response carries the
    snapshot taken by the first [WriteHeader] (or by the first [Write]).
    [rw_fail] is the error every write returns once the peer is gone. *)
Record ResponseWriter := {
  rw_header : Header;
  rw_sent : option (Z * Header);
  rw_body : bytes;
  rw_fail : option error
}.

Definition new_writer : ResponseWriter :=
  {| rw_header := ∅; rw_sent := None; rw_body := []; rw_fail := None |}.

Definition set_header (key value : string) (w : ResponseWriter) : ResponseWriter :=
  {| rw_header := Header_Set key value (rw_header w); rw_sent := rw_sent w;
     rw_body := rw_body w; rw_fail := rw_fail w |}.

Definition WriteHeader (code : Z) (w : ResponseWriter) : ResponseWriter :=
  match rw_sent w with
  | Some _ => w
  | None => {| rw_header := rw_header w; rw_sent := Some (code, rw_header w);
               rw_body := rw_body w; rw_fail := rw_fail w |}
  end.

Definition Write (data : bytes) (w : ResponseWriter) : ResponseWriter * option error :=
  let w := WriteHeader 200 w in
  match rw_fail w with
  | Some e => (w, Some e)
  | None => ({| rw_header := rw_header w; rw_sent := rw_sent w;
                rw_body := rw_body w ++ data; rw_fail := None |}, None)
  end.

(** A write whose result is dropped. *)
Definition Write_ (data : bytes) (w : ResponseWriter) : ResponseWriter := fst (Write data w).

(** What the client sees. *)
Definition response (w : ResponseWriter) : Z * Header * bytes :=
  match rw_sent w with
  | Some (code, h) => (code, h, rw_body w)
  | None => (200, rw_header w, rw_body w)
  end.

(** [http.Error(w, msg, code)] *)
Definition http_Error (msg : string) (code : Z) (w : ResponseWriter) : ResponseWriter :=
  let w := set_header "Content-Type" "text/plain; charset=utf-8" w in
  let w := set_header "X-Content-Type-Options" "nosniff" w in
  Write_ (to_bytes (msg +:+ String "010" "")) (WriteHeader code w).

Definition HTTPHandler (W : Type) := ResponseWriter -> Request -> W -> W * ResponseWriter.

(** ** Messages and interceptors (grpc_handler.go:29-51)

    A type assertion to an interface the dynamic type does not implement is
    [None].  JSON goes through two libraries, [sonic] and (for web sockets)
    [encoding/json], which work by reflection on the dynamic type: their entry
    points are fields as well. *)
Class Message (V : Type) := {
  as_ProtoMarshaler : V -> option (res error bytes);
  as_ProtoUnmarshaler : V -> option (bytes -> res error V);
  as_FlatBuffersMarshaler : V -> option bytes;
  as_FlatBuffersUnmarshaler : V -> option (bytes -> res error V);
  json_Unmarshal : bytes -> V -> res error V;
  json_Encode : V -> res error bytes;
  stdjson_Unmarshal : bytes -> V -> res error V;
  stdjson_Marshal : V -> res error bytes
}.

Record UnaryServerInfo := { FullMethod : string }.

Definition UnaryHandler (W V : Type) := context -> V -> W -> W * res error V.
Definition UnaryServerInterceptor (W V : Type) :=
  context -> V -> UnaryServerInfo -> UnaryHandler W V -> W -> W * res error V.

(** ** Base64 (the standard alphabet with padding) *)
Definition b64_char (n : Z) : byte :=
  byte_of_Z (if n <? 26 then n + 65 else if n <? 52 then n + 71 else if n <? 62 then n - 4
             else if n =? 62 then 43 else 47).

Definition b64_val (b : byte) : option Z :=
  let c := byte_to_Z b in
  if (65 <=? c) && (c <=? 90) then Some (c - 65)
  else if (97 <=? c) && (c <=? 122) then Some (c - 71)
  else if (48 <=? c) && (c <=? 57) then Some (c + 4)
  else if c =? 43 then Some 62
  else if c =? 47 then Some 63
  else None.

Definition b64_pad : byte := byte_of_Z 61.

Fixpoint base64_Encode (l : bytes) : bytes :=
  match l with
  | [] => []
  | [a] =>
      let n := byte_to_Z a * 16 in
      [b64_char (n / 64); b64_char (n mod 64); b64_pad; b64_pad]
  | [a; b] =>
      let n := (byte_to_Z a * 256 + byte_to_Z b) * 4 in
      [b64_char (n / 4096); b64_char (n / 64 mod 64); b64_char (n mod 64); b64_pad]
  | a :: b :: c :: l' =>
      let n := (byte_to_Z a * 256 + byte_to_Z b) * 256 + byte_to_Z c in
      b64_char (n / 262144) :: b64_char (n / 4096 mod 64) ::
      b64_char (n / 64 mod 64) :: b64_char (n mod 64) :: base64_Encode l'
  end.

Definition ErrCorruptBase64 : error := ErrorString "illegal base64 data".

(** Decoding, group by group; what was decoded before a corrupt group is
    delivered, and the rest of the stream is the error. *)
Fixpoint base64_groups (l : bytes) : bytes * option error :=
  match l with
  | [] => ([], None)
  | a :: b :: c :: d :: l' =>
      match b64_val a, b64_val b, b64_val c, b64_val d with
      | Some x, Some y, Some z, Some t =>
          let n := ((x * 64 + y) * 64 + z) * 64 + t in
          let '(out, e) := base64_groups l' in
          (byte_of_Z (n / 65536) :: byte_of_Z (n / 256 mod 256) :: byte_of_Z (n mod 256) :: out, e)
      | Some x, Some y, Some z, None =>
          if bool_decide (d = b64_pad /\ l' = []) then
            let n := (x * 64 + y) * 64 + z in
            ([byte_of_Z (n / 1024); byte_of_Z (n / 4 mod 256)], None)
          else ([], Some ErrCorruptBase64)
      | Some x, Some y, None, None =>
          if bool_decide (c = b64_pad /\ d = b64_pad /\ l' = []) then
            ([byte_of_Z ((x * 64 + y) / 16)], None)
          else ([], Some ErrCorruptBase64)
      | _, _, _, _ => ([], Some ErrCorruptBase64)
      end
  | _ => ([], Some ErrUnexpectedEOF)
  end.

Definition is_newline (b : byte) : bool :=
  (byte_to_Z b =? 10) || (byte_to_Z b =? 13).

(** [base64.NewDecoder(base64.StdEncoding, body)]: line breaks are skipped. *)
Definition base64_NewDecoder (b : body) : body :=
  let '(out, e) := base64_groups (List.filter (fun x => negb (is_newline x)) (b_data b)) in
  {| b_data := out; b_end := match e with Some _ => e | None => b_end b end |}.

(** ** Big-endian words *)
Definition PutUint32 (n : Z) : bytes :=
  [byte_of_Z (n / 16777216); byte_of_Z (n / 65536); byte_of_Z (n / 256); byte_of_Z n].

Definition Uint32 (l : bytes) : Z :=
  match l with
  | a :: b :: c :: d :: _ =>
      ((byte_to_Z a * 256 + byte_to_Z b) * 256 + byte_to_Z c) * 256 + byte_to_Z d
  | _ => 0
  end.

(** ** Lemmas *)
Lemma Uint32_PutUint32 n l : in_u 32 n -> Uint32 (PutUint32 n ++ l) = n.
Proof.
  intros Hn. unfold Uint32, PutUint32. cbn. rewrite !byte_to_of_Z. unfold wrapU.
  words. change (2 ^ 8) with 256.
  pose proof (Z.div_mod n 256). pose proof (Z.div_mod (n / 256) 256).
  pose proof (Z.div_mod (n / 65536) 256).
  rewrite (Z.mod_small (n / 16777216)) by (split; [apply Z.div_pos|apply Z.div_lt_upper_bound]; lia).
  replace (n / 16777216) with (n / 65536 / 256) by (rewrite Z.div_div by lia; f_equal; lia).
  replace (n / 65536) with (n / 256 / 256) in * by (rewrite Z.div_div by lia; f_equal; lia).
  lia.
Qed.

Lemma Uint32_range l : in_u 32 (Uint32 l).
Proof.
  words. destruct l as [|a [|b [|c [|d l]]]]; cbn; try lia.
  pose proof (byte_to_Z_range a). pose proof (byte_to_Z_range b).
  pose proof (byte_to_Z_range c). pose proof (byte_to_Z_range d). lia.
Qed.

Lemma PutUint32_length n : length (PutUint32 n) = 4%nat.
Proof. done. Qed.

Lemma ReadFull_app (d rest : bytes) e :
  ReadFull {| b_data := d ++ rest; b_end := e |} (length d)
  = ({| b_data := rest; b_end := e |}, Ok d).
Proof.
  unfold ReadFull. cbn. rewrite length_app.
  destruct (Nat.leb_spec (length d) (length d + length rest)); [|lia].
  by rewrite drop_app_length, take_app_length.
Qed.

(** Once the status line is sent nothing but body bytes can be added. *)
Lemma WriteHeader_sent code w : exists c h, rw_sent (WriteHeader code w) = Some (c, h).
Proof. unfold WriteHeader. destruct (rw_sent w) as [[c h]|] eqn:E; rewrite ?E; eauto. Qed.

Lemma set_header_sent k v w : rw_sent (set_header k v w) = rw_sent w.
Proof. done. Qed.

Lemma Write_sent data w c h :
  rw_sent w = Some (c, h) -> rw_sent (fst (Write data w)) = Some (c, h).
Proof. intros E. unfold Write, WriteHeader. rewrite E. by destruct (rw_fail w). Qed.

(** The alphabet decodes to itself, and contains neither padding nor a line break. *)
Lemma b64_val_char n : 0 <= n < 64 -> b64_val (b64_char n) = Some n.
Proof.
  intros Hn. assert (exists k : nat, (k < 64)%nat /\ n = Z.of_nat k) as (k & Hk & ->).
  { exists (Z.to_nat n). lia. }
  clear Hn. do 64 (destruct k as [|k]; [reflexivity|]). lia.
Qed.

Lemma b64_char_not_newline n : 0 <= n < 64 -> is_newline (b64_char n) = false.
Proof.
  intros Hn. assert (exists k : nat, (k < 64)%nat /\ n = Z.of_nat k) as (k & Hk & ->).
  { exists (Z.to_nat n). lia. }
  clear Hn. do 64 (destruct k as [|k]; [reflexivity|]). lia.
Qed.

(** Induction by groups of three bytes. *)
Lemma bytes_ind3 (P : bytes -> Prop) :
  P [] -> (forall a, P [a]) -> (forall a b, P [a; b]) ->
  (forall a b c l, P l -> P (a :: b :: c :: l)) -> forall l, P l.
Proof.
  intros H0 H1 H2 H3.
  refine (fix go (l : bytes) : P l :=
    match l with
    | [] => H0 | [a] => H1 a | [a; b] => H2 a b
    | a :: b :: c :: l' => H3 a b c l' (go l') end).
Qed.

Ltac digits64 :=
  Z.to_euclidean_division_equations; lia.

Lemma base64_no_newline l :
  List.filter (fun x => negb (is_newline x)) (base64_Encode l) = base64_Encode l.
Proof.
  induction l as [|a|a b|a b c l IH] using bytes_ind3; cbn -[Z.mul Z.add Z.div Z.modulo b64_char b64_pad is_newline];
  repeat (rewrite b64_char_not_newline; [cbn -[Z.mul Z.add Z.div Z.modulo b64_char b64_pad is_newline]|
    first [pose proof (byte_to_Z_range a)|idtac]; first [pose proof (byte_to_Z_range b)|idtac];
    first [pose proof (byte_to_Z_range c)|idtac]; digits64]); try reflexivity.
  by rewrite IH.
Qed.

Lemma base64_roundtrip l : base64_groups (base64_Encode l) = (l, None).
Proof.
  induction l as [|a|a b|a b c l IH] using bytes_ind3; cbn -[Z.mul Z.add Z.div Z.modulo b64_char b64_pad b64_val].
  - done.
  - pose proof (byte_to_Z_range a). rewrite !b64_val_char by digits64.
    change (b64_val b64_pad) with (@None Z). cbn -[Z.mul Z.add Z.div Z.modulo].
    f_equal. f_equal. apply byte_to_Z_inj. rewrite byte_to_of_Z.
    unfold wrapU. change (2 ^ 8) with 256. digits64.
  - pose proof (byte_to_Z_range a). pose proof (byte_to_Z_range b). rewrite !b64_val_char by digits64.
    change (b64_val b64_pad) with (@None Z). cbn -[Z.mul Z.add Z.div Z.modulo].
    f_equal. f_equal; [|f_equal]; apply byte_to_Z_inj; rewrite byte_to_of_Z;
    unfold wrapU; change (2 ^ 8) with 256; digits64.
  - pose proof (byte_to_Z_range a). pose proof (byte_to_Z_range b). pose proof (byte_to_Z_range c).
    rewrite !b64_val_char by digits64. rewrite IH.
    f_equal. f_equal; [|f_equal; [|f_equal]]; apply byte_to_Z_inj; rewrite byte_to_of_Z;
    unfold wrapU; change (2 ^ 8) with 256; digits64.
Qed.

Lemma base64_NewDecoder_encode l e :
  base64_NewDecoder {| b_data := base64_Encode l; b_end := e |} = {| b_data := l; b_end := e |}.
Proof. unfold base64_NewDecoder. cbn. by rewrite base64_no_newline, base64_roundtrip. Qed.
