(* ===== verification/RateLimit.v ===== *)
(** * Rate limiters ([runtimes/go/ratelimit.go])

    The in-memory limiter (a bucket per client key), its interceptor and its HTTP
    middleware, and the Redis-backed limiter with its token-bucket script. *)
From S2P Require Import Prelude GoStrings GoFloat Errors Context Http ClientBucket.

Record RateLimitConfig := {
  RequestsPerSecond : f64;
  BurstSize : Z;
  KeyFunc : option (Request -> string);
  ErrorMessage : string
}.

Record RateLimiter := {
  rl_cfg : RateLimitConfig;
  rl_buckets : gmap string clientBucket
}.

(** The text before the last colon. *)
Fixpoint before_last_colon (s : string) : option string :=
  match s with
  | "" => None
  | String c s' =>
      match before_last_colon s' with
      | Some r => Some (String c r)
      | None => if Ascii.eqb c ":" then Some "" else None
      end
  end.

Definition ipKeyFunc (r : Request) : string :=
  match before_last_colon (r_remote r) with Some h => h | None => r_remote r end.

Definition max_ (a b : Z) : Z := if b <? a then a else b.
Definition max64 (a b : Z) : Z := if b <? a then a else b.

(** The defaults both constructors apply. *)
Definition rl_defaults (cfg : RateLimitConfig) : RateLimitConfig := {|
  RequestsPerSecond := RequestsPerSecond cfg;
  BurstSize := if BurstSize cfg =? 0 then max_ 1 (i64_of_f64 (RequestsPerSecond cfg)) else BurstSize cfg;
  KeyFunc := match KeyFunc cfg with Some f => Some f | None => Some ipKeyFunc end;
  ErrorMessage := if bool_decide (ErrorMessage cfg = "")
                  then dq "{'error':'rate limit exceeded','code':14}" else ErrorMessage cfg
|}.

Definition NewRateLimiter (cfg : RateLimitConfig) : RateLimiter :=
  {| rl_cfg := rl_defaults cfg; rl_buckets := ∅ |}.

(** [bucket(key)]: the stored bucket, or a fresh one stored under the key. *)
Definition bucket (now : Z) (key : string) (rl : RateLimiter) : RateLimiter * clientBucket :=
  match rl_buckets rl !! key with
  | Some b => (rl, b)
  | None =>
      let b := newClientBucket now (RequestsPerSecond (rl_cfg rl)) (BurstSize (rl_cfg rl)) in
      ({| rl_cfg := rl_cfg rl; rl_buckets := <[key := b]> (rl_buckets rl) |}, b)
  end.

(** [rl.Allow(key)]: the bucket is shared by reference, so its new contents are
    stored back. *)
Definition rl_Allow (now : Z) (key : string) (rl : RateLimiter) : RateLimiter * (Z * bool) :=
  let '(rl, b) := bucket now key rl in
  let '(b', v) := allow now b in
  ({| rl_cfg := rl_cfg rl; rl_buckets := <[key := b']> (rl_buckets rl) |}, v).

(** The key of the interceptors: [md[":remote-addr"]], else
    [md["x-forwarded-for"]], else ["unknown"]. *)
Definition rl_key (md : MD) : string :=
  match md !! ":remote-addr" with
  | Some (ip :: _) => ip
  | _ => match md !! "x-forwarded-for" with
         | Some (fwd :: _) => fwd
         | _ => "unknown"
         end
  end.

Definition rl_retry_after (digits : nat) (cfg : RateLimitConfig) : string :=
  fmt_f digits (f64_div (f64_of_Z 1) (RequestsPerSecond cfg)).

Definition rl_error (cfg : RateLimitConfig) : error :=
  HelixError CodeUnavailable
    ("rate limit exceeded; retry after " +:+ rl_retry_after 0 cfg +:+ "s").

(** The answer of both middlewares once the verdict is known. *)
Definition rl_respond {W} (cfg : RateLimitConfig) (v : Z * bool) (next : HTTPHandler W)
    (w : ResponseWriter) (r : Request) (world : W) : W * ResponseWriter :=
  let '(remaining, ok) := v in
  let w := set_header "X-RateLimit-Limit" (Itoa (BurstSize cfg)) w in
  let w := set_header "X-RateLimit-Remaining" (Itoa (max64 0 remaining)) w in
  if (ok : bool) then next w r world
  else
    let w := set_header "Retry-After" (rl_retry_after 3 cfg) w in
    let w := set_header "Content-Type" "application/json" w in
    (world, Write_ (to_bytes (ErrorMessage cfg)) (WriteHeader 429 w)).

Definition rl_key_of (cfg : RateLimitConfig) (r : Request) : string :=
  match KeyFunc cfg with Some f => f r | None => ipKeyFunc r end.

Section limiter.
Context {W V : Type} `{HasClock W} `{Has W RateLimiter}.

Definition rl_Interceptor : UnaryServerInterceptor W V := fun ctx req info handler w =>
  let md := fst (FromContext ctx) in
  let '(rl, (remaining, ok)) := rl_Allow (now_of w) (rl_key md) (get w) in
  let w := put rl w in
  if (ok : bool) then handler ctx req w else (w, Err (rl_error (rl_cfg rl))).

Definition rl_HTTPMiddleware (next : HTTPHandler W) : HTTPHandler W := fun rw r w =>
  let rl : RateLimiter := get w in
  let '(rl, v) := rl_Allow (now_of w) (rl_key_of (rl_cfg rl) r) rl in
  rl_respond (rl_cfg rl) v next rw r (put rl w).
End limiter.

(** ** The Redis limiter

    The script of the source, on Lua numbers (binary64).  A stored value expires
    [ttl] seconds after it was set; [setex] refuses a time to live that is not a
    positive integer. *)
Record redis_store := { rs_values : gmap string (f64 * Z) (* value, expiry in seconds *) }.

Definition redis_get (now : Z) (st : redis_store) (key : string) : option f64 :=
  match rs_values st !! key with
  | Some (v, expiry) => if now <? expiry then Some v else None
  | None => None
  end.

Definition redis_set (now ttl : Z) (key : string) (v : f64) (st : redis_store) : redis_store :=
  {| rs_values := <[key := (v, now + ttl)]> (rs_values st) |}.

(** [math.ceil] as an integer, when it is one. *)
Definition f64_ceil (x : f64) : option Z :=
  match x with
  | SpecFloat.S754_zero _ => Some 0
  | SpecFloat.S754_finite s m e =>
      let v := if s then Z.neg m else Z.pos m in
      Some (if 0 <=? e then v * 2 ^ e else - ((- v) / 2 ^ (- e)))
  | _ => None
  end.

Definition lua_max (a b : f64) : f64 := if f64_ltb a b then b else a.
Definition lua_min (a b : f64) : f64 := if f64_ltb b a then b else a.

(** [clock] is the server's clock in seconds, for expiry; [now] is the time the
    caller passes.  The result is the pair the script returns, numbers truncated
    to integers as Redis does for Lua results. *)
Definition luaTokenBucket (clock : Z) (key : string) (rate burst now : f64) (st : redis_store)
  : redis_store * res error (Z * Z) :=
  let tokens_key := key +:+ ":tokens" in
  let timestamp_key := key +:+ ":ts" in
  let last_tokens := default burst (redis_get clock st tokens_key) in
  let last_refreshed := default (f64_of_Z 0) (redis_get clock st timestamp_key) in
  let delta := lua_max (f64_of_Z 0) (f64_sub now last_refreshed) in
  let filled_tokens := lua_min burst (f64_add last_tokens (f64_mul delta rate)) in
  let allowed := f64_leb (f64_of_Z 1) filled_tokens in
  let new_tokens := if allowed then f64_sub filled_tokens (f64_of_Z 1) else filled_tokens in
  match f64_ceil (f64_div burst rate) with
  | Some ttl =>
      if 0 <? ttl then
        let st := redis_set clock ttl tokens_key new_tokens st in
        let st := redis_set clock ttl timestamp_key now st in
        (st, Ok (i64_of_f64 new_tokens, if allowed then 1 else 0))
      else (st, Err (ErrorString "ERR invalid expire time in 'setex' command"))
  | None => (st, Err (ErrorString "ERR value is not an integer or out of range"))
  end.

(** The reply of [Result()] as the Go code inspects it. *)
Inductive redis_reply :=
| RInt (n : Z)
| ROther
| RList (vals : list redis_reply).

(** The client: [run] sends the script and yields the reply or an error (the
    store and the network are behind it). *)
Section redis.
Context {W V : Type} `{HasClock W}.
Context (run : RateLimitConfig -> string -> f64 -> W -> W * res error redis_reply).

Definition NewRedisRateLimiter (cfg : RateLimitConfig) : RateLimitConfig := rl_defaults cfg.

Definition redis_Allow (cfg : RateLimitConfig) (key : string) (w : W) : W * (Z * bool) :=
  let now := f64_div (f64_of_Z (now_of w)) (f64_of_Z 1000000000) in
  match run cfg ("ratelimit:" +:+ key) now w with
  | (w, Err _) => (w, (0, false))
  | (w, Ok (RList [RInt newTokens; RInt isAllowed])) => (w, (newTokens, isAllowed =? 1))
  | (w, Ok _) => (w, (0, false))
  end.

Definition redis_Interceptor (cfg : RateLimitConfig) : UnaryServerInterceptor W V :=
  fun ctx req info handler w =>
  let '(w, (remaining, ok)) := redis_Allow cfg (rl_key (fst (FromContext ctx))) w in
  if (ok : bool) then handler ctx req w else (w, Err (rl_error cfg)).

Definition redis_HTTPMiddleware (cfg : RateLimitConfig) (next : HTTPHandler W) : HTTPHandler W :=
  fun rw r w =>
  let '(w, v) := redis_Allow cfg (rl_key_of cfg r) w in
  rl_respond cfg v next rw r w.
End redis.

(** A server that runs the script on a store of its own. *)
Record redis_world := { rw_clock : Z; rw_store : redis_store; rw_down : bool }.
#[export] Instance redis_clock : HasClock redis_world := {| now_of := rw_clock |}.

Definition run_script (cfg : RateLimitConfig) (key : string) (now : f64) (w : redis_world)
  : redis_world * res error redis_reply :=
  if rw_down w then (w, Err (ErrorString "dial tcp: connection refused"))
  else
    match luaTokenBucket (rw_clock w / 1000000000) key (RequestsPerSecond cfg)
            (f64_of_Z (BurstSize cfg)) now (rw_store w) with
    | (st, Ok (n, a)) =>
        ({| rw_clock := rw_clock w; rw_store := st; rw_down := false |}, Ok (RList [RInt n; RInt a]))
    | (st, Err e) =>
        ({| rw_clock := rw_clock w; rw_store := st; rw_down := false |}, Err e)
    end.

(** ** Lemmas *)
Lemma rl_Allow_bucket now key rl :
  let b := default (newClientBucket now (RequestsPerSecond (rl_cfg rl)) (BurstSize (rl_cfg rl)))
             (rl_buckets rl !! key) in
  rl_Allow now key rl =
    ({| rl_cfg := rl_cfg rl; rl_buckets := <[key := fst (allow now b)]> (rl_buckets rl) |},
     snd (allow now b)).
Proof.
  cbn. unfold rl_Allow, bucket. destruct (rl_buckets rl !! key) as [b|]; cbn.
  - by destruct (allow now b) as [b' v].
  - destruct (allow _ _) as [b' v]. cbn. by rewrite insert_insert_eq.
Qed.

(** A run of requests [(time, key)] and the verdicts. *)
Fixpoint rl_trace (rl : RateLimiter) (reqs : list (Z * string)) : list (string * (Z * bool)) :=
  match reqs with
  | [] => []
  | (t, k) :: reqs' => let '(rl', v) := rl_Allow t k rl in (k, v) :: rl_trace rl' reqs'
  end.

(** What one client sees if it is alone with its bucket. *)
Fixpoint bucket_trace (b : clientBucket) (times : list Z) : list (Z * bool) :=
  match times with
  | [] => []
  | t :: ts => let '(b', v) := allow t b in v :: bucket_trace b' ts
  end.

Definition of_key {A} (k : string) (l : list (string * A)) : list A :=
  snd <$> filter (fun p => fst p = k) l.
Definition times_of (k : string) (l : list (Z * string)) : list Z :=
  fst <$> filter (fun p => snd p = k) l.

Lemma rl_trace_of_key rl reqs k b :
  rl_buckets rl !! k = Some b ->
  of_key k (rl_trace rl reqs) = bucket_trace b (times_of k reqs).
Proof.
  revert rl b. induction reqs as [|[t k'] reqs IH]; intros rl b Hb; [done|].
  unfold of_key, times_of. cbn [rl_trace].
  destruct (rl_Allow t k' rl) as [rl' v] eqn:E. rewrite !filter_cons. cbn.
  rewrite rl_Allow_bucket in E. injection E as <- <-.
  destruct (decide (k' = k)) as [->|Hne]; cbn.
  - rewrite Hb. cbn. destruct (allow t b) as [b' v']. cbn. f_equal.
    apply IH. cbn. apply lookup_insert_eq.
  - apply IH. cbn. by rewrite lookup_insert_ne.
Qed.

(** ** Properties *)

(** clients are isolated.  Whatever other clients send in between, the verdicts
    and remaining counts a client sees are those of its own bucket, created full
    at its first request, serving its requests alone. *)
Theorem clients_isolated (rl : RateLimiter) (reqs : list (Z * string)) (k : string) (t : Z) (ts : list Z) :
  rl_buckets rl !! k = None -> times_of k reqs = t :: ts ->
  of_key k (rl_trace rl reqs) =
    bucket_trace (newClientBucket t (RequestsPerSecond (rl_cfg rl)) (BurstSize (rl_cfg rl))) (t :: ts).
Proof.
  revert rl. induction reqs as [|[t' k'] reqs IH]; intros rl Hk Hts; [done|].
  unfold of_key. cbn [rl_trace]. destruct (rl_Allow t' k' rl) as [rl' v] eqn:E.
  rewrite rl_Allow_bucket in E. injection E as <- <-.
  unfold times_of in Hts. rewrite filter_cons. rewrite filter_cons in Hts. cbn in Hts |- *.
  destruct (decide (k' = k)) as [->|Hne]; cbn in *.
  - injection Hts as -> <-. rewrite Hk. cbn. destruct (allow _ _) as [b' v'] eqn:Ea. cbn.
    f_equal. apply rl_trace_of_key. cbn. apply lookup_insert_eq.
  - apply (IH {| rl_cfg := rl_cfg rl; rl_buckets := _ |}); [|done]. cbn. by rewrite lookup_insert_ne.
Qed.

Definition demo_limiter : RateLimiter := NewRateLimiter
  {| RequestsPerSecond := f64_of_Z 2; BurstSize := 1; KeyFunc := None; ErrorMessage := "" |}.

Lemma clients_isolated_witness :
  of_key "b" (rl_trace demo_limiter [(0, "a"); (1, "b"); (2, "a"); (3, "b")])
    = bucket_trace (newClientBucket 1 (f64_of_Z 2) 1) [1; 3].
Proof.
  apply (clients_isolated demo_limiter [(0, "a"); (1, "b"); (2, "a"); (3, "b")] "b" 1 [3]);
    reflexivity.
Defined.

(** the limiter's interceptor.  A refused request never reaches the handler and
    answers [Unavailable]; an admitted one is exactly the handler's run on the
    world with the bucket charged. *)
Theorem rl_interceptor_gate {W V} `{HasClock W} `{Has W RateLimiter}
    (ctx : context) (req : V) (info : UnaryServerInfo) (handler : UnaryHandler W V) (w : W) :
  let '(rl, (_, ok)) := rl_Allow (now_of w) (rl_key (fst (FromContext ctx))) (get w) in
  rl_Interceptor ctx req info handler w =
    if (ok : bool) then handler ctx req (put rl w) else (put rl w, Err (rl_error (rl_cfg rl))).
Proof.
  unfold rl_Interceptor. by destruct (rl_Allow _ _ _) as [rl [r ok]].
Qed.

(** the limiter can be evaded.  The interceptor only falls back to the
    [x-forwarded-for] header the caller wrote, so a caller that sends a new value
    with every request is always admitted, at any rate. *)
Theorem forwarded_for_evades (rl : RateLimiter) (reqs : list (Z * string)) :
  nanoToken <= capacity (newClientBucket 0 (RequestsPerSecond (rl_cfg rl)) (BurstSize (rl_cfg rl))) < 2 ^ 63 ->
  NoDup (snd <$> reqs) -> (forall k, k ∈ snd <$> reqs -> rl_buckets rl !! k = None) ->
  Forall (fun kv => snd (snd kv) = true) (rl_trace rl reqs).
Proof.
  revert rl. induction reqs as [|[t k] reqs IH]; intros rl Hcap Hnd Hfresh; [constructor|].
  cbn [rl_trace]. destruct (rl_Allow t k rl) as [rl' v] eqn:E.
  rewrite rl_Allow_bucket in E. injection E as <- <-. cbn in Hnd, Hfresh.
  apply NoDup_cons in Hnd as [Hk Hnd].
  rewrite (Hfresh k) by apply list_elem_of_here. cbn [default option_fmap]. constructor.
  - cbn. set (b := newClientBucket t _ _).
    assert (capacity b = tokens b /\ lastSeen b = t /\ nanoToken <= tokens b) as (Hc & Hl & Ht).
    { split_and!; [done|done|]. exact (proj1 Hcap). }
    unfold allow. rewrite Hl, Z.sub_diag. cbn [Z.ltb].
    change (0 <? i64 0) with false. cbn [set_lastSeen tokens].
    destruct (Z.ltb_spec (tokens b) nanoToken); [lia|done].
  - apply IH; cbn; [done|done|]. intros k' Hk'.
    rewrite lookup_insert_ne by congruence. apply Hfresh. by apply list_elem_of_further.
Qed.

Lemma forwarded_for_evades_witness :
  Forall (fun kv => snd (snd kv) = true) (rl_trace demo_limiter [(0, "1.1.1.1"); (0, "1.1.1.2"); (0, "1.1.1.3")]).
Proof.
  apply (forwarded_for_evades demo_limiter [(0, "1.1.1.1"); (0, "1.1.1.2"); (0, "1.1.1.3")]).
  - vm_compute. split; [discriminate|reflexivity].
  - vm_compute. repeat constructor; set_solver.
  - intros k _. reflexivity.
Defined.

(** the Redis limiter fails closed: when the script's run fails or its reply has
    another shape than two integers, the request is refused and the handler is
    not called; the only replies that admit a request are pairs whose second
    component is one. *)
Theorem redis_fails_closed {W V} `{HasClock W}
    (run : RateLimitConfig -> string -> f64 -> W -> W * res error redis_reply)
    (cfg : RateLimitConfig) (ctx : context) (req : V) (info : UnaryServerInfo)
    (handler : UnaryHandler W V) (w : W) :
  let key := rl_key (fst (FromContext ctx)) in
  let '(w', reply) := run cfg ("ratelimit:" +:+ key)
                          (f64_div (f64_of_Z (now_of w)) (f64_of_Z 1000000000)) w in
  (exists n, reply = Ok (RList [RInt n; RInt 1]) /\
     redis_Interceptor run cfg ctx req info handler w = handler ctx req w') \/
  ((forall n, reply <> Ok (RList [RInt n; RInt 1])) /\
     redis_Interceptor run cfg ctx req info handler w = (w', Err (rl_error cfg))).
Proof.
  cbn. unfold redis_Interceptor, redis_Allow.
  destruct (run _ _ _ w) as [w' reply].
  destruct reply as [[n| |[|[n| |] [|[a| |] [|]]]]|e]; try (right; split; [intros ?; discriminate|done]).
  destruct (Z.eqb_spec a 1) as [->|Ha]; [left; by exists n|].
  right. split; [|done]. intros n' [= _ ->]. done.
Qed.

Example redis_demo :
  let cfg := NewRedisRateLimiter {| RequestsPerSecond := f64_of_Z 1; BurstSize := 2; KeyFunc := None; ErrorMessage := "" |} in
  let w := {| rw_clock := 5000000000; rw_store := {| rs_values := ∅ |}; rw_down := false |} in
  let '(w, v1) := redis_Allow run_script cfg "k" w in
  let '(w, v2) := redis_Allow run_script cfg "k" w in
  let '(w, v3) := redis_Allow run_script cfg "k" w in
  (v1, v2, v3) = ((1, true), (0, true), (0, false)).
Proof. vm_compute. done. Qed.
