(* ===== verification/Adaptive.v ===== *)
(** * Adaptive concurrency limiter ([runtimes/go/ratelimit.go],
    [AdaptiveConcurrencyLimiter])

    [Acquire] is a compare-and-swap loop; [Release] decrements the counter
    atomically and then adjusts the limit under a mutex, which is one atomic step
    for every other goroutine. *)
From S2P Require Import Prelude GoStrings GoFloat Errors Context Http Interleave.

Record AdaptiveConcurrencyLimiter := {
  limit : Z;
  minLimit : Z;
  maxLimit : Z;
  rttNoLoad : Z;
  rttActual : Z;
  activeRequests : Z;
  alpha : f64;
  beta : f64
}.

Definition NewAdaptiveConcurrencyLimiter (initialLimit minLimit maxLimit : Z)
  : AdaptiveConcurrencyLimiter := {|
  limit := initialLimit; minLimit := minLimit; maxLimit := maxLimit;
  rttNoLoad := 0; rttActual := 0; activeRequests := 0;
  alpha := f64_of_Z 3; beta := f64_of_Z 6 |}.

Definition set_active (n : Z) (a : AdaptiveConcurrencyLimiter) : AdaptiveConcurrencyLimiter := {|
  limit := limit a; minLimit := minLimit a; maxLimit := maxLimit a; rttNoLoad := rttNoLoad a;
  rttActual := rttActual a; activeRequests := n; alpha := alpha a; beta := beta a |}.

Definition Acquire (a : AdaptiveConcurrencyLimiter) : AdaptiveConcurrencyLimiter * bool :=
  if limit a <=? activeRequests a then (a, false)
  else (set_active (i32 (activeRequests a + 1)) a, true).

(** The limit after a measurement: one up below [alpha] queued requests, one down
    above [beta]. *)
Definition adjusted (a : AdaptiveConcurrencyLimiter) (noLoad actual : Z) : Z :=
  let limitFloat := f64_of_Z (limit a) in
  let expected := f64_mul limitFloat (f64_div (f64_of_Z noLoad) (f64_of_Z actual)) in
  let queue := f64_sub limitFloat expected in
  if f64_ltb queue (alpha a) then
    (if limit a <? maxLimit a then i32 (limit a + 1) else limit a)
  else if f64_ltb (beta a) queue then
    (if minLimit a <? limit a then i32 (limit a - 1) else limit a)
  else limit a.

Definition updateLimit (rtt : Z) (a : AdaptiveConcurrencyLimiter) : AdaptiveConcurrencyLimiter :=
  let noLoad := if (rttNoLoad a =? 0) || (rtt <? rttNoLoad a) then rtt else rttNoLoad a in
  let actual :=
    if rttActual a =? 0 then rtt
    else i64_of_f64 (f64_add (f64_mul (f64_const 9 10) (f64_of_Z (rttActual a)))
                             (f64_mul (f64_const 1 10) (f64_of_Z rtt))) in
  {| limit := adjusted a noLoad actual; minLimit := minLimit a; maxLimit := maxLimit a;
     rttNoLoad := noLoad; rttActual := actual; activeRequests := activeRequests a;
     alpha := alpha a; beta := beta a |}.

Definition Release (rtt : Z) (a : AdaptiveConcurrencyLimiter) : AdaptiveConcurrencyLimiter :=
  updateLimit rtt (set_active (i32 (activeRequests a - 1)) a).

Definition Limit (a : AdaptiveConcurrencyLimiter) : Z := limit a.

Definition acl_error : error :=
  HelixError CodeResourceExhausted "concurrency limit exceeded (adaptive)".

(** [Interceptor]: the measured time is the clock difference around the handler. *)
Definition acl_Interceptor {W V} `{HasClock W} `{Has W AdaptiveConcurrencyLimiter}
  : UnaryServerInterceptor W V := fun ctx req info handler w =>
  let '(a, ok) := Acquire (get w) in
  if (ok : bool) then
    let w := put a w in
    let start := now_of w in
    let '(w, result) := handler ctx req w in
    (put (Release (now_of w - start) (get w)) w, result)
  else (w, Err acl_error).

(** ** Concurrent requests

    A goroutine of the interceptor: it loads the counter, then the limit, swaps,
    runs the handler for some time, decrements and updates. *)
Inductive acl_pc :=
| QStart
| QActive (active : Z)
| QSwap (active lim : Z)
| QRunning (start : Z)
| QReleased (rtt : Z)
| QDone (ok : bool).

Definition acl_micro (now : Z) (a : AdaptiveConcurrencyLimiter) (pc : acl_pc)
  : AdaptiveConcurrencyLimiter * acl_pc :=
  match pc with
  | QStart => (a, QActive (activeRequests a))
  | QActive active =>
      (a, if limit a <=? active then QDone false else QSwap active (limit a))
  | QSwap active lim =>
      if activeRequests a =? active then (set_active (i32 (active + 1)) a, QRunning now)
      else (a, QStart)
  | QRunning start => (set_active (i32 (activeRequests a - 1)) a, QReleased (now - start))
  | QReleased rtt => (updateLimit rtt a, QDone true)
  | QDone ok => (a, QDone ok)
  end.

(** ** Lemmas *)
Definition limits_ok (a : AdaptiveConcurrencyLimiter) : Prop :=
  0 <= minLimit a <= limit a /\ limit a <= maxLimit a /\ maxLimit a < 2 ^ 31.

Lemma adjusted_bounds a noLoad actual :
  limits_ok a -> minLimit a <= adjusted a noLoad actual <= maxLimit a /\
                 Z.abs (adjusted a noLoad actual - limit a) <= 1.
Proof.
  intros (?&?&?). unfold adjusted. zcases;
  repeat match goal with |- context [if ?b then _ else _] => destruct b end;
  rewrite ?wrapS_id by words; lia.
Qed.

Definition holding (pc : acl_pc) : Z := match pc with QRunning _ => 1 | _ => 0 end.

(** A pending swap saw a counter below the maximal limit. *)
Definition acl_pc_ok (m : Z) (pc : acl_pc) : Prop :=
  match pc with QSwap active lim => active < lim <= m | _ => True end.

Definition acl_inv (lo hi : Z) (a : AdaptiveConcurrencyLimiter) (th : list acl_pc) (_ : Z) : Prop :=
  limits_ok a /\ minLimit a = lo /\ maxLimit a = hi /\
  activeRequests a = sum_weights holding th /\ activeRequests a <= hi /\ Forall (acl_pc_ok hi) th.

Lemma holding_nonneg pc : 0 <= holding pc.
Proof. destruct pc; cbn; lia. Qed.

Lemma acl_inv_step lo hi a th i pc a' pc' now now' :
  acl_inv lo hi a th now -> th !! i = Some pc -> now <= now' -> acl_micro now' a pc = (a', pc') ->
  acl_inv lo hi a' (<[i := pc']> th) now'.
Proof.
  intros ((Hl1 & Hl2 & Hm) & <- & <- & Hact & Hle & Hok) Hi _ Hstep.
  pose proof (Forall_lookup_1 _ _ _ _ Hok Hi) as Hpc.
  pose proof (sum_weights_nonneg holding th holding_nonneg) as Hnn.
  pose proof (sum_weights_elem holding th pc holding_nonneg (list_elem_of_lookup_2 _ _ _ Hi)) as Hel.
  assert (Hgoal : forall b pc'', pc' = pc'' -> a' = b -> limits_ok b ->
    minLimit b = minLimit a -> maxLimit b = maxLimit a -> acl_pc_ok (maxLimit a) pc'' ->
    activeRequests b = activeRequests a - holding pc + holding pc'' ->
    activeRequests b <= maxLimit a -> acl_inv (minLimit a) (maxLimit a) a' (<[i := pc']> th) now').
  { intros b pc'' -> -> ????? Hb. unfold acl_inv. rewrite (sum_weights_insert _ _ _ pc) by done.
    split_and!; [done|done|done|lia|done|]. by apply Forall_insert. }
  destruct pc as [|active|active lim|start|rtt|ok]; cbn in Hstep, Hpc, Hel, Hgoal.
  - injection Hstep as <- <-. apply (Hgoal a _ eq_refl eq_refl); cbn; done || lia.
  - injection Hstep as <- <-. apply (Hgoal a _ eq_refl eq_refl); zcases; cbn; done || lia.
  - destruct (Z.eqb_spec (activeRequests a) active) as [<-|]; injection Hstep as <- <-.
    + assert (i32 (activeRequests a + 1) = activeRequests a + 1) as E by (apply wrapS_id; words).
      apply (Hgoal _ _ eq_refl eq_refl); cbn; rewrite ?E; done || lia.
    + apply (Hgoal a _ eq_refl eq_refl); cbn; done || lia.
  - injection Hstep as <- <-.
    assert (i32 (activeRequests a - 1) = activeRequests a - 1) as E by (apply wrapS_id; words).
    apply (Hgoal _ _ eq_refl eq_refl); cbn; rewrite ?E; done || lia.
  - injection Hstep as <- <-. apply (Hgoal _ _ eq_refl eq_refl); try (cbn; done || lia).
    unfold limits_ok, updateLimit; cbn.
    match goal with |- context [adjusted a ?x ?y] =>
      pose proof (adjusted_bounds a x y ltac:(done)) end. lia.
  - injection Hstep as <- <-. apply (Hgoal a _ eq_refl eq_refl); cbn; done || lia.
Qed.

(** ** Properties *)

(** C26: concurrency control.  Whatever the interleaving of any number of requests
    and whatever latencies are measured, the counter is exactly the number of
    requests inside the handler, it never exceeds the maximal limit, and the
    limit stays between its bounds. *)
Theorem concurrency_bounded (initial lo hi : Z) (n : nat) (a : AdaptiveConcurrencyLimiter)
    (th : list acl_pc) (t0 t1 : Z) :
  0 <= lo <= initial -> initial <= hi < 2 ^ 31 ->
  rtc (sys_step acl_micro)
    (Sys (NewAdaptiveConcurrencyLimiter initial lo hi) (replicate n QStart) t0) (Sys a th t1) ->
  activeRequests a = sum_weights holding th /\ 0 <= activeRequests a <= hi /\ lo <= limit a <= hi.
Proof.
  intros Hlo Hhi Hrun.
  pose proof (sys_invariant acl_micro (acl_inv lo hi) _ _ Hrun) as Hinv. cbn in Hinv.
  destruct Hinv as ((?&?&?) & <- & <- & Hact & Hle & _).
  - intros. by eapply acl_inv_step.
  - unfold acl_inv, limits_ok. cbn. rewrite sum_weights_replicate. cbn.
    split_and!; try done; try lia. by apply Forall_replicate.
  - pose proof (sum_weights_nonneg holding th holding_nonneg). split_and!; lia.
Qed.

Lemma concurrency_bounded_witness :
  exists a th, rtc (sys_step acl_micro)
    (Sys (NewAdaptiveConcurrencyLimiter 1 1 4) (replicate 2 QStart) 0) (Sys a th 0) /\
    activeRequests a = 1 /\ 0 <= activeRequests a <= 4.
Proof.
  assert (Hrun : rtc (sys_step acl_micro)
    (Sys (NewAdaptiveConcurrencyLimiter 1 1 4) (replicate 2 QStart) 0)
    (Sys (set_active 1 (NewAdaptiveConcurrencyLimiter 1 1 4)) [QRunning 0; QStart] 0)).
  { eapply rtc_l; [eapply (sys_step_now _ _ _ 0%nat); reflexivity|].
    eapply rtc_l; [eapply (sys_step_now _ _ _ 0%nat); reflexivity|].
    eapply rtc_l; [eapply (sys_step_now _ _ _ 0%nat); reflexivity|]. apply rtc_refl. }
  eexists _, _. split; [exact Hrun|]. split; [reflexivity|].
  refine (proj1 (proj2 (concurrency_bounded 1 1 4 2 _ _ 0 0 _ _ Hrun))); lia.
Defined.

