(* ===== verification/Balancer.v ===== *)
(** * Client-side load balancing ([runtimes/go/balancer.go], the interface and the
    round-robin balancer of [client_pool.go])

    [Balancer] is the interface every balancer implements, with what its clients
    rely on: a choice is one of the targets, and only an empty list is refused. *)
From S2P Require Import Prelude GoStrings Errors.

Definition ErrNoTargets : error := ErrorString "no targets available for load balancing".

Class Balancer (B : Type) := {
  bal_ok : B -> Prop;
  Next : list string -> B -> B * res error string;
  Next_empty : forall b, Next [] b = (b, Err ErrNoTargets);
  Next_in : forall b ts, bal_ok b -> ts <> [] ->
    bal_ok (fst (Next ts b)) /\ exists t, snd (Next ts b) = Ok t /\ t ∈ ts
}.

(** ** Round robin *)
Record RoundRobinBalancer := { counter : Z }.

Definition NewRoundRobinBalancer : RoundRobinBalancer := {| counter := 0 |}.

Definition rr_Next (targets : list string) (b : RoundRobinBalancer)
  : RoundRobinBalancer * res error string :=
  match targets with
  | [] => (b, Err ErrNoTargets)
  | t0 :: _ =>
      let val := u64 (counter b + 1) in
      let idx := u64 (val - 1) mod Z.of_nat (length targets) in
      ({| counter := val |}, Ok (nth (Z.to_nat idx) targets t0))
  end.

(** ** Least connections *)
Record LeastConnBalancer := {
  lc_index : gmap string nat;
  lc_keys : list string;
  lc_eps : list Z   (* in-flight requests per endpoint *)
}.

Definition NewLeastConnBalancer : LeastConnBalancer :=
  {| lc_index := ∅; lc_keys := []; lc_eps := [] |}.

Section register.
Context `{MapIter}.

(** The loop over the new targets in [Register]. *)
Fixpoint register_new (targets : list string) (m : gmap string nat) (keys : list string) (eps : list Z)
  : gmap string nat * list string * list Z :=
  match targets with
  | [] => (m, keys, eps)
  | t :: ts =>
      match m !! t with
      | Some _ => register_new ts m keys eps
      | None => register_new ts (<[t := length eps]> m) (keys ++ [t]) (eps ++ [0])
      end
  end.

Definition Register (targets : list string) (b : LeastConnBalancer) : LeastConnBalancer :=
  let '(m, keys, eps) :=
    register_new targets (lc_index b) (fst <$> range_map 2 (lc_index b)) (lc_eps b) in
  {| lc_index := m; lc_keys := keys; lc_eps := eps |}.

(** The registration loop at the start of [Next]: one target at a time. *)
Fixpoint register_missing (targets : list string) (b : LeastConnBalancer) : LeastConnBalancer :=
  match targets with
  | [] => b
  | t :: ts =>
      register_missing ts (match lc_index b !! t with Some _ => b | None => Register [t] b end)
  end.

(** [eps[idx.m[t]].active]; a missing key reads index zero. *)
Definition ep_active (b : LeastConnBalancer) (t : string) : Z :=
  nth (default 0%nat (lc_index b !! t)) (lc_eps b) 0.

(** The selection loop: [(selected, minActive)] over the targets. *)
Definition lc_pick (b : LeastConnBalancer) (targets : list string) : string * Z :=
  foldl (fun '(selected, minActive) t =>
    let cur := ep_active b t in
    if (minActive <? 0) || (cur <? minActive) then (t, cur) else (selected, minActive))
    ("", -1) targets.

Definition add_active (d : Z) (t : string) (b : LeastConnBalancer) : LeastConnBalancer :=
  let i := default 0%nat (lc_index b !! t) in
  {| lc_index := lc_index b; lc_keys := lc_keys b;
     lc_eps := <[i := i64 (nth i (lc_eps b) 0 + d)]> (lc_eps b) |}.

Definition lc_Next (targets : list string) (b : LeastConnBalancer)
  : LeastConnBalancer * res error string :=
  match targets with
  | [] => (b, Err ErrNoTargets)
  | _ =>
      let b := register_missing targets b in
      let '(selected, _) := lc_pick b targets in
      (add_active 1 selected b, Ok selected)
  end.

Definition Done (target : string) (b : LeastConnBalancer) : LeastConnBalancer :=
  match lc_index b !! target with Some _ => add_active (-1) target b | None => b end.

Definition ActiveConns (target : string) (b : LeastConnBalancer) : Z :=
  match lc_index b !! target with Some i => nth i (lc_eps b) 0 | None => 0 end.

(** ** Lemmas *)

(** Well-formed: every registered target has an endpoint of its own. *)
Definition lc_ok (b : LeastConnBalancer) : Prop :=
  (forall t i, lc_index b !! t = Some i -> (i < length (lc_eps b))%nat) /\
  (forall t t' i, lc_index b !! t = Some i -> lc_index b !! t' = Some i -> t = t').

Lemma Register_one b t :
  lc_index b !! t = None ->
  lc_index (Register [t] b) = <[t := length (lc_eps b)]> (lc_index b) /\
  lc_eps (Register [t] b) = lc_eps b ++ [0].
Proof. intros E. unfold Register. cbn. by rewrite E. Qed.

Lemma ActiveConns_Register t b t' :
  lc_ok b -> lc_index b !! t = None -> ActiveConns t' (Register [t] b) = ActiveConns t' b.
Proof.
  intros [Hlt _] E. destruct (Register_one b t E) as [Hi He]. unfold ActiveConns. rewrite Hi, He.
  destruct (decide (t = t')) as [<-|Hne].
  - rewrite lookup_insert_eq, E. rewrite app_nth2 by lia. by rewrite Nat.sub_diag.
  - rewrite lookup_insert_ne by done. destruct (lc_index b !! t') as [i|] eqn:Ei; [|done].
    apply app_nth1. by eapply Hlt.
Qed.

Lemma Register_ok t b : lc_ok b -> lc_index b !! t = None -> lc_ok (Register [t] b).
Proof.
  intros [Hlt Hinj] E. destruct (Register_one b t E) as [Hi He].
  split; rewrite Hi; [rewrite He, length_app; cbn|].
  - intros t' i [[-> <-]|[_ H']]%lookup_insert_Some; [lia|]. apply Hlt in H'. lia.
  - intros t1 t2 i [[-> <-]|[? H1]]%lookup_insert_Some [[-> ?]|[? H2]]%lookup_insert_Some;
      [done|apply Hlt in H2; lia|subst; apply Hlt in H1; lia|by eapply Hinj].
Qed.

Lemma register_missing_spec ts b :
  lc_ok b ->
  lc_ok (register_missing ts b) /\
  (forall t, ActiveConns t (register_missing ts b) = ActiveConns t b) /\
  (forall t, t ∈ ts \/ is_Some (lc_index b !! t) -> is_Some (lc_index (register_missing ts b) !! t)).
Proof.
  revert b. induction ts as [|t ts IH]; intros b Hb; cbn.
  { split_and!; [done|done|]. intros t [?%elem_of_nil|?]; done. }
  destruct (lc_index b !! t) as [i|] eqn:E.
  - destruct (IH b Hb) as (? & ? & Hs). split_and!; [done|done|].
    intros t' [[->|?]%elem_of_cons|?]; apply Hs; eauto.
  - destruct (IH _ (Register_ok t b Hb E)) as (? & Ha & Hs). split_and!; [done| |].
    + intros t'. rewrite Ha. by apply ActiveConns_Register.
    + intros t' Ht'. apply Hs. destruct (Register_one b t E) as [-> _].
      destruct (decide (t = t')) as [<-|?]; [right; rewrite lookup_insert_eq; eauto|].
      rewrite lookup_insert_ne by done. rewrite elem_of_cons in Ht'. naive_solver.
Qed.

Lemma ep_active_registered b t :
  is_Some (lc_index b !! t) -> ep_active b t = ActiveConns t b.
Proof. intros [i E]. unfold ep_active, ActiveConns. by rewrite E. Qed.

Lemma add_active_ok d t b : lc_ok b -> lc_ok (add_active d t b).
Proof. intros [Hlt Hinj]. split; cbn; [|done]. rewrite length_insert. done. Qed.

Lemma ActiveConns_add d t b t' :
  lc_ok b -> is_Some (lc_index b !! t) ->
  ActiveConns t' (add_active d t b)
  = if decide (t' = t) then i64 (ActiveConns t b + d) else ActiveConns t' b.
Proof.
  intros [Hlt Hinj] [i E]. unfold ActiveConns, add_active. cbn. rewrite E. cbn.
  pose proof (Hlt _ _ E) as Hi. case_decide as Hd; [subst; rewrite E|].
  - rewrite !nth_lookup, list_lookup_insert_eq by done. done.
  - destruct (lc_index b !! t') as [j|] eqn:Ej; [|done].
    rewrite !nth_lookup, list_lookup_insert_ne; [done|]. intros ->. by apply Hd, (Hinj _ _ j).
Qed.

(** The selection over non-negative counts is a minimum. *)
Lemma lc_pick_min b ts sel m :
  Forall (fun t => 0 <= ep_active b t) ts ->
  (m < 0 /\ ts <> [] \/ 0 <= m /\ m = ep_active b sel) ->
  let '(s, m') := foldl (fun '(selected, minActive) t =>
    let cur := ep_active b t in
    if (minActive <? 0) || (cur <? minActive) then (t, cur) else (selected, minActive)) (sel, m) ts in
  m' = ep_active b s /\ (s ∈ ts \/ (0 <= m /\ s = sel)) /\
  Forall (fun t => m' <= ep_active b t) ts /\ (0 <= m -> m' <= m).
Proof.
  revert sel m. induction ts as [|t ts IH]; intros sel m Hnn Hm; cbn.
  { destruct Hm as [[_ []]|[? ->]]; [done|]. split_and!; [done|by right|constructor|lia]. }
  apply Forall_cons in Hnn as [Ht Hnn]. cbn.
  destruct ((m <? 0) || (ep_active b t <? m)) eqn:Ec.
  - specialize (IH t (ep_active b t) Hnn ltac:(right; done)).
    destruct (foldl _ _ ts) as [s m']. destruct IH as (-> & Hs & Hf & Hle).
    split_and!; [done| |constructor; [lia|done]|].
    + left. destruct Hs as [?|[_ ->]]; set_solver.
    + apply orb_true_iff in Ec as [?%Z.ltb_lt|?%Z.ltb_lt]; lia.
  - apply orb_false_iff in Ec as [?%Z.ltb_ge ?%Z.ltb_ge].
    destruct Hm as [[? _]|[? ->]]; [lia|].
    specialize (IH sel (ep_active b sel) Hnn ltac:(right; done)).
    destruct (foldl _ _ ts) as [s m']. destruct IH as (-> & Hs & Hf & Hle).
    split_and!; [done| |constructor; [lia|done]|done]. destruct Hs as [?|[? ->]]; [left; set_solver|by right].
Qed.

Lemma lc_pick_in b ts : ts <> [] -> fst (lc_pick b ts) ∈ ts.
Proof.
  destruct ts as [|t ts]; [done|]. intros _. unfold lc_pick. cbn.
  assert (Hin : forall l s m, fst (foldl (fun '(selected, minActive) t =>
    let cur := ep_active b t in
    if (minActive <? 0) || (cur <? minActive) then (t, cur) else (selected, minActive)) (s, m) l)
    ∈ s :: l).
  { induction l as [|x l IH]; intros s m; cbn; [set_solver|].
    destruct (_ || _); [specialize (IH x (ep_active b x))|specialize (IH s m)]; set_solver. }
  apply Hin.
Qed.

Lemma lc_pick_spec b ts :
  Forall (fun t => 0 <= ep_active b t) ts -> ts <> [] ->
  fst (lc_pick b ts) ∈ ts /\
  Forall (fun t => ep_active b (fst (lc_pick b ts)) <= ep_active b t) ts.
Proof.
  intros Hnn Hne. split; [by apply lc_pick_in|]. unfold lc_pick.
  pose proof (lc_pick_min b ts "" (-1) Hnn ltac:(left; split; [lia|done])) as Hmin.
  destruct (foldl _ _ ts) as [s m]. by destruct Hmin as (-> & _ & ? & _).
Qed.

Lemma lc_Next_step b t ts :
  lc_Next (t :: ts) b =
  let b' := register_missing (t :: ts) b in
  let s := fst (lc_pick b' (t :: ts)) in (add_active 1 s b', Ok s).
Proof. unfold lc_Next. cbn zeta. by destruct (lc_pick _ _). Qed.

#[export] Program Instance LeastConn_Balancer : Balancer LeastConnBalancer :=
  {| bal_ok := lc_ok; Next := lc_Next |}.
Next Obligation. done. Qed.
Next Obligation.
  intros b [|t ts] Hb Hne; [done|]. rewrite lc_Next_step. cbn [fst snd].
  split; [|eexists; split; [done|by apply lc_pick_in]].
  by apply add_active_ok, register_missing_spec.
Qed.

(** ** Properties *)

(** least connections.  When no count is negative, [Next] chooses a target of
    the list none of whose rivals has fewer requests in flight, and adds exactly
    one to that target's count and nothing to any other. *)
Theorem least_conn_minimal (b : LeastConnBalancer) (targets : list string) :
  lc_ok b -> targets <> [] -> (forall t, 0 <= ActiveConns t b < 2 ^ 63 - 1) ->
  exists s, snd (lc_Next targets b) = Ok s /\ s ∈ targets /\
    (forall t, t ∈ targets -> ActiveConns s b <= ActiveConns t b) /\
    (forall t, ActiveConns t (fst (lc_Next targets b))
               = ActiveConns t b + if decide (t = s) then 1 else 0).
Proof.
  intros Hb Hne Hnn. destruct targets as [|t0 ts]; [done|]. rewrite lc_Next_step. cbn zeta.
  destruct (register_missing_spec (t0 :: ts) b Hb) as (Hok & Hact & Hreg).
  set (b' := register_missing (t0 :: ts) b) in *. cbn [fst snd].
  assert (Hep : forall t, t ∈ t0 :: ts -> ep_active b' t = ActiveConns t b).
  { intros t Ht. rewrite ep_active_registered by auto. apply Hact. }
  destruct (lc_pick_spec b' (t0 :: ts)) as [Hs Hf]; [|done|].
  { apply Forall_forall. intros t Ht. rewrite Hep by done. apply Hnn. }
  set (s := fst (lc_pick b' (t0 :: ts))) in *.
  exists s. split_and!; [done|done| |].
  - intros t Ht. rewrite Forall_forall in Hf. specialize (Hf t Ht). by rewrite !Hep in Hf.
  - intros t. rewrite ActiveConns_add by auto. rewrite !Hact. specialize (Hnn s).
    case_decide as Hd; [subst; rewrite wrapS_id by words; done|lia].
Qed.
End register.

Definition busy_balancer : LeastConnBalancer :=
  fst (lc_Next ["a"] (register_missing ["a"; "b"] NewLeastConnBalancer)).

Lemma busy_balancer_ok : lc_ok busy_balancer.
Proof.
  refine (proj1 (Next_in (register_missing ["a"; "b"] NewLeastConnBalancer) ["a"] _ _)); [|done].
  apply register_missing_spec. by split.
Qed.

Lemma busy_balancer_counts t : 0 <= ActiveConns t busy_balancer < 2 ^ 63 - 1.
Proof.
  unfold ActiveConns, busy_balancer. cbn -[Z.pow].
  change (2 ^ 63 - 1) with 9223372036854775807.
  destruct (_ !! t) as [[|[|[|i]]]|]; cbn; vm_compute; split; done || discriminate.
Qed.

Lemma least_conn_minimal_witness :
  exists s, snd (lc_Next ["a"; "b"] busy_balancer) = Ok s /\ s ∈ ["a"; "b"].
Proof.
  destruct (least_conn_minimal busy_balancer ["a"; "b"] busy_balancer_ok) as (s & ? & ? & _).
  - done.
  - exact busy_balancer_counts.
  - by exists s.
Defined.

(** one [Done] too many inverts the choice.  With the count of [a] at minus one
    and [b] busy, the sentinel test [minActive < 0] stays true after the first
    target and the busy target [b] is chosen. *)
Theorem extra_done_picks_busy :
  let b := Done "a" (Done "a" busy_balancer) in
  let b := fst (lc_Next ["b"] (fst (lc_Next ["b"] b))) in
  ActiveConns "a" b = -1 /\ ActiveConns "b" b = 2 /\ snd (lc_Next ["a"; "b"] b) = Ok "b".
Proof. vm_compute. done. Qed.

(** ** Round robin: lemmas and property *)
#[export] Program Instance RoundRobin_Balancer : Balancer RoundRobinBalancer :=
  {| bal_ok _ := True; Next := rr_Next |}.
Next Obligation. done. Qed.
Next Obligation.
  intros b [|t ts] _ Hne; [done|]. split; [done|]. eexists. split; [reflexivity|].
  apply list_elem_of_In, nth_In. cbn [length].
  match goal with |- context [Z.modulo ?x ?y] => pose proof (Z.mod_pos_bound x y) end. lia.
Qed.

Fixpoint rr_run (n : nat) (targets : list string) (b : RoundRobinBalancer) : list string :=
  match n with
  | O => []
  | S n' => match rr_Next targets b with
            | (b', Ok t) => t :: rr_run n' targets b'
            | (b', Err _) => rr_run n' targets b'
            end
  end.

Lemma rr_run_seq n targets b t0 :
  targets <> [] -> 0 <= counter b -> counter b + Z.of_nat n < 2 ^ 64 ->
  rr_run n targets b =
  (fun i => nth (Z.to_nat ((counter b + Z.of_nat i) mod Z.of_nat (length targets))) targets t0) <$> seq 0 n.
Proof.
  intros Hne. revert b. induction n as [|n IH]; intros b H0 Hb; [done|].
  destruct targets as [|t ts]; [done|]. cbn [rr_run rr_Next].
  rewrite !(wrapU_id 64) by (words; rewrite ?(wrapU_id 64) by words; lia).
  replace (counter b + 1 - 1) with (counter b) by lia.
  rewrite IH by (cbn; lia). cbn [seq fmap list_fmap]. f_equal.
  - replace (counter b + Z.of_nat 0) with (counter b) by lia. apply nth_indep. cbn.
    match goal with |- context [Z.modulo ?x ?y] => pose proof (Z.mod_pos_bound x y) end. lia.
  - rewrite <- seq_shift, <- list_fmap_compose. apply list_fmap_ext. intros i x _. cbn [counter compose].
    do 3 f_equal. lia.
Qed.

Lemma rr_rotation (ts : list string) (t0 : string) (c : Z) :
  ts <> [] -> 0 <= c ->
  ((fun i => nth (Z.to_nat ((c + Z.of_nat i) mod Z.of_nat (length ts))) ts t0) <$> seq 0 (length ts))
  = let k := Z.to_nat (c mod Z.of_nat (length ts)) in drop k ts ++ take k ts.
Proof.
  intros Hne Hc. cbn zeta. set (n := length ts).
  assert (0 < n)%nat as Hn by (subst n; destruct ts; [done|cbn; lia]).
  pose proof (Z.mod_pos_bound c (Z.of_nat n) ltac:(lia)) as Hk.
  set (k := Z.to_nat (c mod Z.of_nat n)).
  apply list_eq. intros i. rewrite list_lookup_fmap.
  destruct (decide (i < n)%nat) as [Hi|Hi].
  - rewrite lookup_seq_lt by done. cbn.
    assert (Hmod : (c + Z.of_nat i) mod Z.of_nat n =
      if decide (k + i < n)%nat then Z.of_nat (k + i) else Z.of_nat (k + i - n)).
    { rewrite <- Z.add_mod_idemp_l by lia. case_decide.
      - rewrite Z.mod_small; lia.
      - symmetry. apply Z.mod_unique with 1; lia. }
    rewrite Hmod. rewrite nth_lookup. case_decide as Hd; rewrite Nat2Z.id.
    + rewrite lookup_app_l by (rewrite length_drop; fold n; lia). rewrite lookup_drop.
      destruct (lookup_lt_is_Some_2 ts (k + i) Hd) as [x ->]. done.
    + rewrite lookup_app_r by (rewrite length_drop; fold n; lia). rewrite length_drop. fold n.
      rewrite lookup_take_lt by lia. replace (i - (n - k))%nat with (k + i - n)%nat by lia.
      destruct (lookup_lt_is_Some_2 ts (k + i - n)) as [x ->]; [fold n; lia|]. done.
  - rewrite lookup_seq_ge by lia. symmetry. apply lookup_ge_None_2.
    rewrite length_app, length_drop, length_take. fold n. lia.
Qed.

(** round robin is fair: as long as the 64-bit counter does not wrap, any
    [length targets] consecutive calls choose every target exactly once. *)
Theorem round_robin_fair (b : RoundRobinBalancer) (targets : list string) :
  0 <= counter b -> counter b + Z.of_nat (length targets) < 2 ^ 64 ->
  rr_run (length targets) targets b ≡ₚ targets.
Proof.
  intros H0 Hw. destruct targets as [|t ts] eqn:E; [done|]. rewrite <- E in *.
  rewrite (rr_run_seq _ _ _ t), rr_rotation by (subst; done). cbn zeta.
  rewrite Permutation_app_comm. by rewrite take_drop.
Qed.

Lemma round_robin_fair_witness :
  rr_run 3 ["a"; "b"; "c"] {| counter := 7 |} ≡ₚ ["a"; "b"; "c"].
Proof. apply (round_robin_fair {| counter := 7 |} ["a"; "b"; "c"]); cbn; lia. Defined.

(** Every balancer of the interface answers with one of the targets. *)
Lemma balancer_member {B} `{Balancer B} (b : B) (t : string) (ts : list string) :
  bal_ok b -> exists s, snd (Next (t :: ts) b) = Ok s /\ s ∈ t :: ts.
Proof. intros Hb. by apply Next_in. Qed.
