(* ===== verification/ConsistentHash.v ===== *)
(** * Consistent hashing ([runtimes/go/consistent_hash.go])

    The ring is a sorted list of 32-bit hashes of virtual nodes; [hashMap] gives
    the owner of a hash.  [crc32.ChecksumIEEE] and [sort.Search] are written out. *)
From S2P Require Import Prelude GoStrings Errors Balancer.

(** ** CRC-32 (IEEE 802.3, reflected) *)
Fixpoint crc_bits (n : nat) (crc : Z) : Z :=
  match n with
  | O => crc
  | S n' =>
      crc_bits n' (if Z.testbit crc 0 then Z.lxor (Z.shiftr crc 1) 0xEDB88320 else Z.shiftr crc 1)
  end.

Definition ChecksumIEEE (data : bytes) : Z :=
  Z.lxor 0xFFFFFFFF
    (foldl (fun crc b => crc_bits 8 (Z.lxor crc (byte_to_Z b))) 0xFFFFFFFF data).

Example crc32_check : ChecksumIEEE (to_bytes "123456789") = 0xCBF43926.
Proof. vm_compute. reflexivity. Qed.

(** ** [sort.Search]: binary search for the first index where [f] holds *)
Fixpoint search_loop (fuel : nat) (f : nat -> bool) (i j : nat) : nat :=
  match fuel with
  | O => i
  | S fuel' =>
      if (i <? j)%nat then
        let h := ((i + j) / 2)%nat in
        if f h then search_loop fuel' f i h else search_loop fuel' f (S h) j
      else i
  end.

Definition sort_Search (n : nat) (f : nat -> bool) : nat := search_loop n f 0 n.

(** ** The balancer *)
Record ConsistentHashBalancer := {
  replicas : Z;
  ring : list Z;
  hashMap : gmap Z string;
  registered : gset string
}.

Definition NewConsistentHashBalancer (replicas : Z) : ConsistentHashBalancer :=
  {| replicas := if replicas <=? 0 then 50 else replicas; ring := []; hashMap := ∅; registered := ∅ |}.

Definition vnode_hash (node : string) (i : nat) : Z :=
  ChecksumIEEE (to_bytes (node +:+ "#" +:+ Itoa (Z.of_nat i))).

(** The loop over the replicas of a node. *)
Definition add_vnodes (node : string) (b : ConsistentHashBalancer) : ConsistentHashBalancer :=
  foldl (fun b i =>
    let hash := vnode_hash node i in
    {| replicas := replicas b; ring := ring b ++ [hash];
       hashMap := <[hash := node]> (hashMap b); registered := registered b |})
    {| replicas := replicas b; ring := ring b; hashMap := hashMap b;
       registered := {[node]} ∪ registered b |}
    (seq 0 (Z.to_nat (replicas b))).

Definition add_node (b : ConsistentHashBalancer) (node : string) : ConsistentHashBalancer :=
  if bool_decide (node ∈ registered b) then b else add_vnodes node b.

Definition sort_ring (b : ConsistentHashBalancer) : ConsistentHashBalancer :=
  {| replicas := replicas b; ring := merge_sort Z.le (ring b);
     hashMap := hashMap b; registered := registered b |}.

Definition Add (nodes : list string) (b : ConsistentHashBalancer) : ConsistentHashBalancer :=
  sort_ring (foldl add_node b nodes).

(** The owner of a hash; a missing map entry reads as the empty string. *)
Definition owner (m : gmap Z string) (h : Z) : string := default "" (m !! h).

(** The loop of [Remove]: the entry of a hash is deleted as soon as one
    occurrence of it was dropped. *)
Fixpoint remove_loop (node : string) (hs : list Z) (m : gmap Z string) : list Z * gmap Z string :=
  match hs with
  | [] => ([], m)
  | h :: hs' =>
      if bool_decide (owner m h = node) then remove_loop node hs' (delete h m)
      else let '(r, m') := remove_loop node hs' m in (h :: r, m')
  end.

Definition Remove (node : string) (b : ConsistentHashBalancer) : ConsistentHashBalancer :=
  if bool_decide (node ∈ registered b) then
    let '(newRing, m) := remove_loop node (ring b) (hashMap b) in
    {| replicas := replicas b; ring := newRing; hashMap := m;
       registered := registered b ∖ {[node]} |}
  else b.

(** The lazy registration at the start of [NextWithKey]. *)
Definition register_targets (targets : list string) (b : ConsistentHashBalancer)
  : ConsistentHashBalancer :=
  let b' := foldl add_node b targets in
  if forallb (fun t => bool_decide (t ∈ registered b)) targets then b' else sort_ring b'.

(** The walk along the ring from [idx]; [fuel] is the length of the ring, after
    which the walk is back at its start. *)
Fixpoint walk (fuel : nat) (b : ConsistentHashBalancer) (targets : list string) (idx start : nat)
  : option string :=
  match fuel with
  | O => None
  | S fuel' =>
      let node := owner (hashMap b) (nth idx (ring b) 0) in
      if bool_decide (node ∈ targets) then Some node
      else
        let idx := (S idx mod length (ring b))%nat in
        if (idx =? start)%nat then None else walk fuel' b targets idx start
  end.

Definition NextWithKey (targets : list string) (key : string) (b : ConsistentHashBalancer)
  : ConsistentHashBalancer * res error string :=
  match targets with
  | [] => (b, Err ErrNoTargets)
  | t0 :: _ =>
      let b := register_targets targets b in
      match ring b with
      | [] => (b, Ok t0)
      | _ =>
          let hash := ChecksumIEEE (to_bytes key) in
          let idx := sort_Search (length (ring b)) (fun i => hash <=? nth i (ring b) 0) in
          let idx := if (idx =? length (ring b))%nat then 0%nat else idx in
          (b, Ok (default t0 (walk (length (ring b)) b targets idx idx)))
      end
  end.

Definition ch_Next (targets : list string) (b : ConsistentHashBalancer)
  : ConsistentHashBalancer * res error string := NextWithKey targets "default-key" b.

(** ** Lemmas: binary search *)
Lemma search_loop_spec fuel f n i j :
  (forall a b, (a <= b < n)%nat -> f a = true -> f b = true) ->
  (i <= j <= n)%nat -> (j - i <= fuel)%nat ->
  (forall a, (a < i)%nat -> f a = false) -> (forall a, (j <= a < n)%nat -> f a = true) ->
  let r := search_loop fuel f i j in
  (r <= n)%nat /\ (forall a, (a < r)%nat -> f a = false) /\ (forall a, (r <= a < n)%nat -> f a = true).
Proof.
  intros Hmono. revert i j. induction fuel as [|fuel IH]; intros i j Hij Hf Hlo Hhi; cbn [search_loop].
  { assert (i = j) as <- by lia. split_and!; [lia|done|done]. }
  destruct (Nat.ltb_spec i j); [|assert (i = j) as <- by lia; split_and!; [lia|done|done]].
  assert (i <= (i + j) / 2 < j)%nat as Hh.
  { pose proof (Nat.div_mod (i + j) 2). pose proof (Nat.mod_upper_bound (i + j) 2). lia. }
  destruct (f ((i + j) / 2)%nat) eqn:Efh.
  - apply IH; [lia|lia|done|]. intros a Ha. apply (Hmono ((i + j) / 2)%nat a); [lia|done].
  - apply IH; [lia|lia| |done]. intros a Ha.
    destruct (f a) eqn:Efa; [|done]. by rewrite (Hmono a ((i + j) / 2)%nat) in Efh by (done || lia).
Qed.

(** ** Lemmas: sorted rings *)
Lemma sorted_lookup (l : list Z) i j x y :
  StronglySorted Z.le l -> l !! i = Some x -> l !! j = Some y -> (i <= j)%nat -> x <= y.
Proof.
  intros Hs. revert i j. induction Hs as [|a l Hs IH Ha]; intros i j Hi Hj Hij; [done|].
  destruct i as [|i], j as [|j]; cbn in *; simplify_eq; [lia| |lia|].
  - by eapply Forall_lookup_1 in Ha.
  - eapply IH; [done..|lia].
Qed.

Lemma lookup_nth_Z (l : list Z) i : (i < length l)%nat -> l !! i = Some (nth i l 0).
Proof.
  intros Hi. rewrite nth_lookup. by destruct (lookup_lt_is_Some_2 l i Hi) as [x ->].
Qed.

(** On a sorted ring the search splits it into the hashes below and from [h] on. *)
Lemma sort_Search_split (l : list Z) (h : Z) :
  StronglySorted Z.le l ->
  let idx := sort_Search (length l) (fun i => h <=? nth i l 0) in
  (idx <= length l)%nat /\ Forall (fun x => x < h) (take idx l) /\ Forall (fun x => h <= x) (drop idx l).
Proof.
  intros Hs.
  destruct (search_loop_spec (length l) (fun i => h <=? nth i l 0) (length l) 0 (length l))
    as (Hle & Hlo & Hhi); [|lia|lia|lia|lia|].
  { intros a b Hab Ha%Z.leb_le. apply Z.leb_le.
    pose proof (sorted_lookup l a b _ _ Hs (lookup_nth_Z l a ltac:(lia)) (lookup_nth_Z l b ltac:(lia))
      ltac:(lia)). lia. }
  unfold sort_Search. set (r := search_loop _ _ 0 _) in *. cbn zeta in *. split_and!; [done| |].
  - apply Forall_lookup. intros i x [Hi Hr]%lookup_take_Some. specialize (Hlo i Hr).
    rewrite nth_lookup, Hi in Hlo. by apply Z.leb_gt in Hlo.
  - apply Forall_lookup. intros i x Hi. rewrite lookup_drop in Hi.
    specialize (Hhi (r + i)%nat). rewrite nth_lookup, Hi in Hhi. apply Z.leb_le, Hhi.
    apply lookup_lt_Some in Hi. lia.
Qed.

(** ** Lemmas: the walk is a search along the rotated ring *)
Definition rotated (idx : nat) (l : list Z) : list Z := drop idx l ++ take idx l.

Lemma rotated_nth (l : list Z) start k :
  (start < length l)%nat -> (k < length l)%nat ->
  nth k (rotated start l) 0 = nth ((start + k) mod length l) l 0.
Proof.
  intros Hs Hk. unfold rotated. rewrite !nth_lookup. f_equal.
  destruct (decide (k < length l - start)%nat).
  - rewrite lookup_app_l by (rewrite length_drop; lia).
    by rewrite lookup_drop, Nat.mod_small by lia.
  - rewrite lookup_app_r by (rewrite length_drop; lia). rewrite length_drop, lookup_take_lt by lia.
    f_equal. rewrite <- (Nat.mod_unique (start + k) (length l) 1 (start + k - length l)); lia.
Qed.

Lemma rotated_length idx l : (idx <= length l)%nat -> length (rotated idx l) = length l.
Proof. intros. unfold rotated. rewrite length_app, length_drop, length_take. lia. Qed.

Definition owned_by (m : gmap Z string) (targets : list string) (h : Z) : bool :=
  bool_decide (owner m h ∈ targets).

Lemma walk_find b ts start k :
  (start < length (ring b))%nat -> (k < length (ring b))%nat ->
  walk (length (ring b) - k) b ts ((start + k) mod length (ring b)) start
  = owner (hashMap b) <$> find (owned_by (hashMap b) ts) (drop k (rotated start (ring b))).
Proof.
  intros Hs. remember (length (ring b) - k)%nat as fuel eqn:Ef. revert k Ef.
  induction fuel as [|fuel IH]; intros k Ef Hk; [lia|]. cbn [walk].
  rewrite <- rotated_nth by lia.
  assert (Hcons : drop k (rotated start (ring b))
          = nth k (rotated start (ring b)) 0 :: drop (S k) (rotated start (ring b))).
  { apply drop_S, lookup_nth_Z. rewrite rotated_length; lia. }
  rewrite Hcons. cbn [find]. unfold owned_by at 1.
  case_bool_decide as Hd; [done|].
  assert (Hmod : (S ((start + k) mod length (ring b)) mod length (ring b)
    = (start + S k) mod length (ring b))%nat).
  { rewrite <- Nat.add_1_l, Nat.Div0.add_mod_idemp_r. f_equal. lia. }
  rewrite Hmod. destruct (Nat.eqb_spec ((start + S k) mod length (ring b)) start) as [E|E].
  - assert (S k = length (ring b)) as ->.
    { destruct (decide (S k = length (ring b))); [done|]. exfalso.
      destruct (decide (start + S k < length (ring b))%nat).
      - rewrite Nat.mod_small in E; lia.
      - rewrite <- (Nat.mod_unique (start + S k) (length (ring b)) 1 (start + S k - length (ring b))) in E; lia. }
    rewrite drop_ge by (rewrite rotated_length; lia). done.
  - apply IH; [lia|]. destruct (decide (S k = length (ring b))) as [Hk'|]; [|lia].
    exfalso. apply E. rewrite Hk'. rewrite <- (Nat.mod_unique (start + length (ring b)) (length (ring b)) 1 start); lia.
Qed.

(** Clockwise from [k]: the hashes from [k] on, then those below it. *)
Definition before (k h h' : Z) : Prop :=
  (k <= h /\ (h' < k \/ h <= h')) \/ (h < k /\ h' < k /\ h <= h').

Lemma before_antisym k h h' : before k h h' -> before k h' h -> h = h'.
Proof. unfold before. lia. Qed.

(** What the clockwise search finds: the nearest hash that satisfies [P]. *)
Definition nearest (k : Z) (l : list Z) (P : Z -> bool) (r : option Z) : Prop :=
  match r with
  | Some h => h ∈ l /\ P h = true /\ forall h', h' ∈ l -> P h' = true -> before k h h'
  | None => forall h, h ∈ l -> P h = false
  end.

Lemma nearest_unique k l P r r' : nearest k l P r -> nearest k l P r' -> r = r'.
Proof.
  destruct r as [h|], r' as [h'|]; cbn; [| | |done].
  - intros (Hl & Hp & Hm) (Hl' & Hp' & Hm'). f_equal. by eapply before_antisym; eauto.
  - intros (Hl & Hp & _) Hn. rewrite (Hn h Hl) in Hp. done.
  - intros Hn (Hl & Hp & _). rewrite (Hn h' Hl) in Hp. done.
Qed.

Lemma sorted_find_nearest k l P :
  StronglySorted (before k) l -> nearest k l P (find P l).
Proof.
  induction 1 as [|a l _ IH Ha]; cbn; [by intros h ?%elem_of_nil|].
  destruct (P a) eqn:Ea.
  - split_and!; [set_solver|done|]. intros h' [->|Hh']%elem_of_cons _.
    + unfold before. lia.
    + rewrite Forall_forall in Ha. by apply Ha.
  - destruct (find P l) as [h|]; cbn in *.
    + destruct IH as (? & ? & Hm). split_and!; [set_solver|done|].
      intros h' [->|Hh']%elem_of_cons Hp; [congruence|auto].
    + intros h [->|?]%elem_of_cons; auto.
Qed.

Lemma StronglySorted_app_intro {A} (R : relation A) (l1 l2 : list A) :
  StronglySorted R l1 -> StronglySorted R l2 ->
  (forall x y, x ∈ l1 -> y ∈ l2 -> R x y) -> StronglySorted R (l1 ++ l2).
Proof.
  induction 1 as [|a l1 _ IH Ha]; intros H2 H12; cbn; [done|]. constructor.
  - apply IH; [done|]. intros x y ? ?. apply H12; set_solver.
  - apply Forall_app. split; [done|]. apply Forall_forall. intros y Hy. apply H12; set_solver.
Qed.

Lemma StronglySorted_impl {A} (R S : relation A) (l : list A) :
  StronglySorted R l -> (forall x y, x ∈ l -> y ∈ l -> R x y -> S x y) -> StronglySorted S l.
Proof.
  induction 1 as [|a l _ IH Ha]; intros HRS; constructor.
  - apply IH. intros ????. apply HRS; set_solver.
  - apply Forall_forall. intros x Hx. rewrite Forall_forall in Ha. apply HRS; [set_solver..|by apply Ha].
Qed.

Lemma StronglySorted_parts (l : list Z) n :
  StronglySorted Z.le l -> StronglySorted Z.le (take n l) /\ StronglySorted Z.le (drop n l).
Proof.
  intros Hs. revert n. induction Hs as [|a l Hs IH Ha]; intros [|n]; cbn; try (split; by constructor).
  destruct (IH n) as [? ?]. split; [|done]. constructor; [done|]. by apply Forall_take.
Qed.

Lemma rotated_sorted k idx l :
  StronglySorted Z.le l -> Forall (fun x => x < k) (take idx l) -> Forall (fun x => k <= x) (drop idx l) ->
  StronglySorted (before k) (rotated idx l).
Proof.
  intros Hs Ht Hd. destruct (StronglySorted_parts l idx Hs) as [Hst Hsd].
  rewrite Forall_forall in Ht, Hd. unfold rotated. apply StronglySorted_app_intro.
  - eapply StronglySorted_impl; [done|]. intros x y Hx Hy ?. apply Hd in Hx, Hy. unfold before. lia.
  - eapply StronglySorted_impl; [done|]. intros x y Hx Hy ?. apply Ht in Hx, Hy. unfold before. lia.
  - intros x y Hx Hy. apply Hd in Hx. apply Ht in Hy. unfold before. lia.
Qed.

Lemma nearest_perm k l l' P r : l ≡ₚ l' -> nearest k l P r -> nearest k l' P r.
Proof.
  intros Hp. destruct r as [h|]; cbn.
  - intros (? & ? & Hm). rewrite <- Hp. split_and!; [done..|]. intros h'. rewrite <- Hp. apply Hm.
  - intros Hn h. rewrite <- Hp. apply Hn.
Qed.

(** The contract of [NextWithKey] on a sorted ring: the owner of the nearest
    virtual node, clockwise from the key's hash, that belongs to a target. *)
Lemma NextWithKey_nearest b t0 ts key :
  StronglySorted Z.le (ring (register_targets (t0 :: ts) b)) ->
  let b' := register_targets (t0 :: ts) b in
  exists r, nearest (ChecksumIEEE (to_bytes key)) (ring b') (owned_by (hashMap b') (t0 :: ts)) r /\
    NextWithKey (t0 :: ts) key b = (b', Ok (default t0 (owner (hashMap b') <$> r))).
Proof.
  intros Hs. cbn zeta. unfold NextWithKey. set (b' := register_targets (t0 :: ts) b) in *.
  destruct (ring b') as [|h0 l] eqn:Er.
  { exists None. split; [by intros h ?%elem_of_nil|done]. }
  rewrite <- Er in *. set (k := ChecksumIEEE (to_bytes key)).
  destruct (sort_Search_split (ring b') k Hs) as (Hle & Ht & Hd).
  set (idx := sort_Search _ _) in *. set (i := if (idx =? length (ring b'))%nat then 0%nat else idx).
  assert (Hi : (i < length (ring b'))%nat /\ StronglySorted (before k) (rotated i (ring b'))).
  { assert (0 < length (ring b'))%nat by (rewrite Er; cbn; lia).
    subst i. destruct (Nat.eqb_spec idx (length (ring b'))) as [E|E].
    - split; [done|]. unfold rotated. rewrite drop_0, app_nil_r. rewrite E, take_ge in Ht by done.
      rewrite Forall_forall in Ht. eapply StronglySorted_impl; [done|].
      intros x y Hx Hy ?. apply Ht in Hx, Hy. unfold before. lia.
    - split; [lia|]. by apply rotated_sorted. }
  destruct Hi as [Hi Hsort].
  exists (find (owned_by (hashMap b') (t0 :: ts)) (rotated i (ring b'))). split.
  - eapply nearest_perm, sorted_find_nearest, Hsort. unfold rotated.
    rewrite Permutation_app_comm. by rewrite take_drop.
  - do 2 f_equal. f_equal.
    pose proof (walk_find b' (t0 :: ts) i 0 Hi ltac:(lia)) as Hw.
    rewrite Nat.add_0_r, Nat.mod_small, Nat.sub_0_r in Hw by done. exact Hw.
Qed.

(** ** Lemmas: registration and removal *)
Lemma sort_ring_sorted b : StronglySorted Z.le (ring (sort_ring b)).
Proof. apply StronglySorted_merge_sort; apply _. Qed.

Lemma elem_of_sort_ring h b : h ∈ ring (sort_ring b) <-> h ∈ ring b.
Proof. cbn. by rewrite merge_sort_Permutation. Qed.

(** What registering one node changes. *)
Definition grows (node : string) (b b' : ConsistentHashBalancer) : Prop :=
  (forall h, h ∈ ring b -> h ∈ ring b') /\
  (forall h, owner (hashMap b') h = owner (hashMap b) h \/ owner (hashMap b') h = node) /\
  (forall h, h ∈ ring b' -> h ∈ ring b \/ owner (hashMap b') h = node).

Lemma add_vnodes_grows node b : grows node b (add_vnodes node b).
Proof.
  unfold add_vnodes. generalize (seq 0 (Z.to_nat (replicas b))). intros l.
  set (b0 := {| replicas := replicas b; ring := ring b; hashMap := hashMap b;
                registered := {[node]} ∪ registered b |}).
  assert (grows node b b0) as Hg by (split_and!; cbn; auto). revert Hg.
  generalize b0. clear b0. induction l as [|i l IH]; intros b0 Hg; [done|]. cbn. apply IH.
  destruct Hg as (H1 & H2 & H3). split_and!; cbn [ring hashMap]; unfold owner in *.
  - intros h Hh. apply elem_of_app. left. auto.
  - intros h. destruct (decide (h = vnode_hash node i)) as [->|?].
    + right. by rewrite lookup_insert_eq.
    + rewrite lookup_insert_ne by done. auto.
  - intros h. rewrite elem_of_app, list_elem_of_singleton.
    destruct (decide (h = vnode_hash node i)) as [->|Hne].
    + right. by rewrite lookup_insert_eq.
    + rewrite lookup_insert_ne by done. intros [Hh| ->]; [auto|done].
Qed.

Lemma add_vnodes_registered node b : registered (add_vnodes node b) = {[node]} ∪ registered b.
Proof.
  unfold add_vnodes.
  set (b0 := {| replicas := replicas b; ring := ring b; hashMap := hashMap b;
                registered := {[node]} ∪ registered b |}).
  change ({[node]} ∪ registered b) with (registered b0). generalize b0. clear b0.
  induction (seq 0 (Z.to_nat (replicas b))) as [|i l IH]; intros b0; [done|]. cbn. by rewrite IH.
Qed.

Lemma foldl_add_registered ts b :
  registered (foldl add_node b ts) = registered b ∪ list_to_set ts.
Proof.
  revert b. induction ts as [|t ts IH]; intros b; cbn; [set_solver|]. rewrite IH. unfold add_node.
  case_bool_decide; [set_solver|]. rewrite add_vnodes_registered. set_solver.
Qed.

Lemma foldl_add_known ts b :
  (forall t, t ∈ ts -> t ∈ registered b) -> foldl add_node b ts = b.
Proof.
  induction ts as [|t ts IH]; intros Hr; [done|]. cbn. unfold add_node at 2.
  rewrite bool_decide_true by set_solver. apply IH. set_solver.
Qed.

Lemma register_known ts b :
  (forall t, t ∈ ts -> t ∈ registered b) -> register_targets ts b = b.
Proof.
  intros Hr. unfold register_targets. rewrite foldl_add_known by done.
  destruct (forallb _ ts) eqn:E; [done|]. exfalso.
  apply not_true_iff_false in E. apply E, forallb_True_iff. intros t Ht.
  apply bool_decide_eq_true_2. auto.
Qed.

Lemma register_one ts x b :
  (forall t, t ∈ ts -> t ∈ registered b) -> x ∉ registered b ->
  register_targets (ts ++ [x]) b = sort_ring (add_vnodes x b).
Proof.
  intros Hr Hx. unfold register_targets. rewrite foldl_app, (foldl_add_known ts) by done. cbn.
  unfold add_node. rewrite bool_decide_false by done.
  rewrite forallb_app. cbn. rewrite bool_decide_false by done. by rewrite andb_false_r.
Qed.

Lemma register_targets_sorted ts b :
  StronglySorted Z.le (ring b) -> StronglySorted Z.le (ring (register_targets ts b)).
Proof.
  intros Hs. destruct (forallb (fun t => bool_decide (t ∈ registered b)) ts) eqn:E.
  - rewrite register_known; [done|]. intros t Ht. rewrite forallb_True_iff in E.
    specialize (E t Ht). by apply bool_decide_eq_true_1 in E.
  - unfold register_targets. rewrite E. apply sort_ring_sorted.
Qed.

Lemma remove_loop_spec node hs m :
  node <> "" ->
  let '(r, m') := remove_loop node hs m in
  sublist r hs /\
  (forall h, owner m' h = owner m h \/ (owner m h = node /\ owner m' h = "")) /\
  (forall h, h ∈ hs -> owner m h = node -> owner m' h = "") /\
  (forall h, h ∈ hs -> owner m h <> node -> h ∈ r).
Proof.
  intros Hne. revert m. induction hs as [|h hs IH]; intros m; cbn.
  { split_and!; [done|auto|by intros ? ?%elem_of_nil..]. }
  case_bool_decide as Hd.
  - specialize (IH (delete h m)). destruct (remove_loop node hs (delete h m)) as [r m'].
    destruct IH as (Hsub & Hmap & Hdel & Hkeep).
    assert (Hown : forall x, owner (delete h m) x = if decide (x = h) then "" else owner m x).
    { intros x. unfold owner. case_decide; [subst; by rewrite lookup_delete_eq|by rewrite lookup_delete_ne]. }
    split_and!.
    + by apply sublist_cons.
    + intros x. specialize (Hmap x). rewrite Hown in Hmap. case_decide; subst; naive_solver.
    + intros x Hx Ho. destruct (decide (x = h)) as [->|Hxh].
      * specialize (Hmap h). rewrite Hown, decide_True in Hmap by done. naive_solver.
      * apply Hdel; [set_solver|]. by rewrite Hown, decide_False.
    + intros x Hx Ho. destruct (decide (x = h)) as [->|Hxh]; [done|].
      apply Hkeep; [set_solver|]. by rewrite Hown, decide_False.
  - specialize (IH m). destruct (remove_loop node hs m) as [r m'].
    destruct IH as (Hsub & Hmap & Hdel & Hkeep). split_and!.
    + by apply sublist_skip.
    + done.
    + intros x [->|Hx]%elem_of_cons Ho; [done|auto].
    + intros x [->|Hx]%elem_of_cons Ho; [set_solver|]. apply elem_of_cons. auto.
Qed.

Lemma sublist_sorted (l l' : list Z) :
  sublist l l' -> StronglySorted Z.le l' -> StronglySorted Z.le l.
Proof.
  induction 1 as [|x l l' Hsub IH|x l l' Hsub IH]; intros Hs; [done| |]; inversion Hs; subst.
  - constructor; [auto|]. rewrite Forall_forall in *. eauto using elem_of_sublist.
  - auto.
Qed.

Lemma filter_keeps_all {A} (P : A -> Prop) `{forall x, Decision (P x)} (l : list A) :
  (forall x, x ∈ l -> P x) -> filter P l = l.
Proof.
  induction l as [|a l IH]; intros Hp; [done|].
  rewrite filter_cons_True by set_solver. f_equal. apply IH. set_solver.
Qed.

(** The interface's promise. *)
Lemma NextWithKey_in b ts key :
  StronglySorted Z.le (ring b) -> ts <> [] ->
  StronglySorted Z.le (ring (fst (NextWithKey ts key b))) /\
  exists t, snd (NextWithKey ts key b) = Ok t /\ t ∈ ts.
Proof.
  intros Hs Hne. destruct ts as [|t0 ts]; [done|].
  pose proof (register_targets_sorted (t0 :: ts) b Hs) as Hs'.
  destruct (NextWithKey_nearest b t0 ts key Hs') as (r & Hr & ->). cbn [fst snd].
  split; [done|]. eexists. split; [done|]. destruct r as [h|]; cbn; [|set_solver].
  destruct Hr as (_ & Hp & _). by apply bool_decide_eq_true_1 in Hp.
Qed.

#[export] Program Instance ConsistentHash_Balancer : Balancer ConsistentHashBalancer :=
  {| bal_ok b := StronglySorted Z.le (ring b); Next := ch_Next |}.
Next Obligation. done. Qed.
Next Obligation. intros b ts Hb Hne. by apply NextWithKey_in. Qed.

(** ** Properties *)

(** C14: removing a node moves only that node's keys.  If the key was served by
    another node than the removed one, it is served by the same node after
    [Remove], with the node dropped from the targets. *)
Theorem remove_minimal_disruption (b : ConsistentHashBalancer) (ts : list string) (key node n : string) :
  StronglySorted Z.le (ring b) -> (forall t, t ∈ ts -> t ∈ registered b) ->
  node <> "" -> "" ∉ ts -> (exists h, h ∈ ring b /\ owner (hashMap b) h ∈ ts) ->
  snd (NextWithKey ts key b) = Ok n -> n <> node ->
  snd (NextWithKey (filter (fun t => t <> node) ts) key (Remove node b)) = Ok n.
Proof.
  intros Hs Hreg Hne Hemp (h0 & Hh0 & Ho0) Hn Hnn. destruct ts as [|t0 ts]; [by apply elem_of_nil in Ho0|].
  destruct (NextWithKey_nearest b t0 ts key) as (r & Hr & Hres).
  { by rewrite register_known. }
  rewrite Hres in Hn. rewrite register_known in Hr, Hn by done. cbn [snd] in Hn.
  destruct r as [h|]; [|by specialize (Hr h0 Hh0); apply bool_decide_eq_false_1 in Hr].
  cbn in Hn. injection Hn as Hn. destruct Hr as (Hl & Hp & Hmin).
  apply bool_decide_eq_true_1 in Hp. rewrite Hn in Hp.
  set (ts' := filter (fun t => t <> node) (t0 :: ts)).
  assert (Hin : n ∈ ts') by (apply list_elem_of_filter; done).
  unfold Remove. destruct (decide (node ∈ registered b)) as [Hnode|Hnode]; cycle 1.
  { rewrite bool_decide_false by done. unfold ts'.
    assert (node ∉ t0 :: ts) as Hout by (intros ?; apply Hnode; auto).
    assert (filter (fun t => t <> node) (t0 :: ts) = t0 :: ts) as ->.
    { apply filter_keeps_all. intros t Ht ->. done. }
    rewrite Hres. rewrite register_known by done. cbn. by rewrite Hn. }
  rewrite bool_decide_true by done.
  pose proof (remove_loop_spec node (ring b) (hashMap b) Hne) as Hrem.
  destruct (remove_loop node (ring b) (hashMap b)) as [r' m'].
  destruct Hrem as (Hsub & Hmap & Hdel & Hkeep).
  set (b' := {| replicas := replicas b; ring := r'; hashMap := m'; registered := registered b ∖ {[node]} |}).
  assert (Hreg' : forall t, t ∈ ts' -> t ∈ registered b').
  { intros t [? ?]%list_elem_of_filter. cbn. apply elem_of_difference. split; [auto|set_solver]. }
  destruct ts' as [|t1 ts1] eqn:Ets; [by apply elem_of_nil in Hin|].
  destruct (NextWithKey_nearest b' t1 ts1 key) as (r2 & Hr2 & ->).
  { rewrite register_known by done. cbn. by eapply sublist_sorted. }
  rewrite register_known in Hr2 |- * by done. cbn [snd ring hashMap b'] in *.
  assert (Hkept : owner m' h = n).
  { destruct (Hmap h) as [->|[Ho _]]; [done|]. congruence. }
  rewrite (nearest_unique _ _ _ r2 (Some h) Hr2); [cbn; by rewrite Hkept|].
  split_and!.
  - apply Hkeep; [done|]. by rewrite Hn.
  - apply bool_decide_eq_true_2. by rewrite Hkept.
  - intros h' Hh' Hp'%bool_decide_eq_true_1. apply Hmin; [by eapply elem_of_sublist|].
    apply bool_decide_eq_true_2. rewrite <- Ets in Hp'. unfold ts' in *.
    apply list_elem_of_filter in Hp' as [_ Hp']. destruct (Hmap h') as [<-|[_ E]]; [done|].
    rewrite E in Hp'. done.
Qed.

Definition demo_ring : ConsistentHashBalancer := Add ["a"; "b"; "c"] (NewConsistentHashBalancer 2).

Lemma remove_minimal_disruption_witness :
  exists n, snd (NextWithKey ["a"; "b"; "c"] "user-42" demo_ring) = Ok n /\
  snd (NextWithKey ["b"; "c"] "user-42" (Remove "a" demo_ring)) = Ok n.
Proof.
  eexists. split; [vm_compute; reflexivity|].
  apply (remove_minimal_disruption demo_ring ["a"; "b"; "c"] "user-42" "a").
  - apply sort_ring_sorted.
  - intros t Ht. change (registered demo_ring) with (registered (foldl add_node (NewConsistentHashBalancer 2) ["a"; "b"; "c"])).
    rewrite foldl_add_registered. set_solver.
  - done.
  - set_solver.
  - exists (vnode_hash "a" 0). vm_compute. split; repeat constructor.
  - vm_compute. reflexivity.
  - done.
Defined.

(** adding a node only takes keys over: with a new target on the ring, a key is
    served either by the new node or by the node that served it before. *)
Theorem add_minimal_disruption (b : ConsistentHashBalancer) (ts : list string) (key x n n' : string) :
  StronglySorted Z.le (ring b) -> (forall t, t ∈ ts -> t ∈ registered b) -> x ∉ registered b ->
  (exists h, h ∈ ring b /\ owner (hashMap b) h ∈ ts) ->
  snd (NextWithKey ts key b) = Ok n -> snd (NextWithKey (ts ++ [x]) key b) = Ok n' ->
  n' = x \/ n' = n.
Proof.
  intros Hs Hreg Hx (h0 & Hh0 & Ho0) Hn Hn'. destruct ts as [|t0 ts]; [by apply elem_of_nil in Ho0|].
  destruct (NextWithKey_nearest b t0 ts key) as (r & Hr & Hres); [by rewrite register_known|].
  rewrite Hres in Hn. rewrite register_known in Hr, Hn by done.
  destruct r as [h|]; [|by specialize (Hr h0 Hh0); apply bool_decide_eq_false_1 in Hr].
  destruct Hr as (Hl & Hp%bool_decide_eq_true_1 & Hmin). cbn in Hn. injection Hn as Hn.
  pose proof (register_one (t0 :: ts) x b Hreg Hx) as Hone.
  destruct (NextWithKey_nearest b t0 (ts ++ [x]) key) as (r2 & Hr2 & Hres2).
  { change (t0 :: ts ++ [x]) with ((t0 :: ts) ++ [x]). rewrite Hone. apply sort_ring_sorted. }
  change (t0 :: ts ++ [x]) with ((t0 :: ts) ++ [x]) in Hr2, Hres2. rewrite Hres2 in Hn'.
  rewrite Hone in Hr2, Hn'. cbn [snd] in Hn'. injection Hn' as Hn'.
  destruct (add_vnodes_grows x b) as (Hring & Hown & Hnew).
  set (m' := hashMap (add_vnodes x b)) in *. change (hashMap (sort_ring (add_vnodes x b))) with m' in *.
  assert (Hold : owned_by m' ((t0 :: ts) ++ [x]) h = true).
  { apply bool_decide_eq_true_2. destruct (Hown h) as [->| ->]; set_solver. }
  destruct r2 as [h2|]; cycle 1.
  { specialize (Hr2 h ltac:(apply elem_of_sort_ring; auto)). congruence. }
  destruct Hr2 as (Hl2 & Hp2%bool_decide_eq_true_1 & Hmin2). cbn in Hn'.
  rewrite elem_of_sort_ring in Hl2.
  destruct (decide (owner m' h2 = x)) as [E|E]; [left; congruence|right].
  destruct (Hown h2) as [E2|?]; [|done].
  assert (h2 ∈ ring b) as Hb2 by (destruct (Hnew h2 Hl2); done).
  assert (h = h2) as <-; [|congruence].
  apply (before_antisym (ChecksumIEEE (to_bytes key))).
  - apply Hmin; [done|]. apply bool_decide_eq_true_2. rewrite E2 in Hp2, E.
    apply elem_of_app in Hp2 as [?|?%list_elem_of_singleton]; [done|congruence].
  - apply Hmin2; [|done]. apply elem_of_sort_ring. auto.
Qed.

Lemma add_minimal_disruption_witness :
  exists n n', snd (NextWithKey ["a"; "b"; "c"] "user-7" demo_ring) = Ok n /\
    snd (NextWithKey ["a"; "b"; "c"; "d"] "user-7" demo_ring) = Ok n' /\ (n' = "d" \/ n' = n).
Proof.
  eexists _, _. split; [vm_compute; reflexivity|]. split; [vm_compute; reflexivity|].
  apply (add_minimal_disruption demo_ring ["a"; "b"; "c"] "user-7" "d").
  - apply sort_ring_sorted.
  - intros t Ht. change (registered demo_ring) with (registered (foldl add_node (NewConsistentHashBalancer 2) ["a"; "b"; "c"])).
    rewrite foldl_add_registered. set_solver.
  - change (registered demo_ring) with (registered (foldl add_node (NewConsistentHashBalancer 2) ["a"; "b"; "c"])).
    rewrite foldl_add_registered. set_solver.
  - exists (vnode_hash "a" 0). vm_compute. split; repeat constructor.
  - vm_compute. reflexivity.
  - vm_compute. reflexivity.
Defined.
