(* ===== verification/Batching.v ===== *)
(** * Dynamic batching ([runtimes/go/batching.go])

    The scheduler goroutine is a machine over two kinds of events: a request
    arrives on the channel, or the timer of the current batch fires.  A flush
    runs the batch handler once and answers every request of the batch. *)
From S2P Require Import Prelude GoStrings Errors.

Section batching.
Context {W V : Type}.
(** The batch handler, called with a background context. *)
Context (handler : list V -> W -> W * res error (list V)).

(** A request is identified by its response channel. *)
Record batchRequest := { br_id : nat; br_req : V }.

Inductive batchResponse := BatchResp (resp : V) | BatchErr (err : error).

Record BatchScheduler := {
  bs_max : Z;
  bs_batch : list batchRequest;
  bs_timer : bool;     (* [timerChan] is not nil *)
  bs_world : W;
  bs_answers : list (nat * batchResponse);   (* responses sent, oldest first *)
  bs_flushes : list (list batchRequest)      (* batches handled, oldest first *)
}.

Definition NewBatchScheduler (maxBatchSize : Z) (w : W) : BatchScheduler :=
  {| bs_max := maxBatchSize; bs_batch := []; bs_timer := false; bs_world := w;
     bs_answers := []; bs_flushes := [] |}.

Definition count_error (n m : nat) : error :=
  ErrorString ("batch handler returned " +:+ Itoa (Z.of_nat n) +:+ " responses for "
               +:+ Itoa (Z.of_nat m) +:+ " requests").

(** The answers of one batch. *)
Definition answers (batch : list batchRequest) (r : res error (list V))
  : list (nat * batchResponse) :=
  match r with
  | Err e => (fun br => (br_id br, BatchErr e)) <$> batch
  | Ok resps =>
      if (length resps =? length batch)%nat
      then zip (br_id <$> batch) (BatchResp <$> resps)
      else (fun br => (br_id br, BatchErr (count_error (length resps) (length batch)))) <$> batch
  end.

Definition flush (s : BatchScheduler) : BatchScheduler :=
  match bs_batch s with
  | [] => s
  | batch =>
      let '(w, r) := handler (br_req <$> batch) (bs_world s) in
      {| bs_max := bs_max s; bs_batch := []; bs_timer := false; bs_world := w;
         bs_answers := bs_answers s ++ answers batch r;
         bs_flushes := bs_flushes s ++ [batch] |}
  end.

(** A request taken from the channel: the first of a batch arms the timer; a full
    batch is flushed at once. *)
Definition on_request (s : BatchScheduler) (br : batchRequest) : BatchScheduler :=
  let s := {| bs_max := bs_max s; bs_batch := bs_batch s ++ [br];
              bs_timer := true; bs_world := bs_world s;
              bs_answers := bs_answers s; bs_flushes := bs_flushes s |} in
  if bs_max s <=? Z.of_nat (length (bs_batch s)) then flush s else s.

Inductive batch_event := Arrive (br : batchRequest) | TimerFires.

(** The timer channel is only listened to while a batch is pending. *)
Definition batch_step (s : BatchScheduler) (ev : batch_event) : BatchScheduler :=
  match ev with
  | Arrive br => on_request s br
  | TimerFires => if bs_timer s then flush s else s
  end.

Definition batch_run (s : BatchScheduler) (evs : list batch_event) : BatchScheduler :=
  foldl batch_step s evs.

(** [Invoke]'s final select: the answer that arrived on the request's channel, or
    the error of a context that ended. *)
Definition invoke_result (id : nat) (ctx_done : option error) (s : BatchScheduler)
  : option (res error V) :=
  match list_find (fun p => fst p = id) (bs_answers s) with
  | Some (_, (_, BatchResp v)) => Some (Ok v)
  | Some (_, (_, BatchErr e)) => Some (Err e)
  | None => match ctx_done with Some e => Some (Err e) | None => None end
  end.

(** ** Lemmas *)
Definition arrived (evs : list batch_event) : list batchRequest :=
  omap (fun ev => match ev with Arrive br => Some br | TimerFires => None end) evs.

Lemma answers_ids batch r : fst <$> answers batch r = br_id <$> batch.
Proof.
  unfold answers. destruct r as [resps|e].
  - destruct (Nat.eqb_spec (length resps) (length batch)) as [E|E].
    + apply fst_zip. by rewrite !length_fmap, E.
    + rewrite <- list_fmap_compose. done.
  - rewrite <- list_fmap_compose. done.
Qed.

(** What holds between events, [seen] being the requests taken so far. *)
Record batch_inv (m : Z) (seen : list batchRequest) (s : BatchScheduler) : Prop := {
  bi_max : bs_max s = m;
  bi_fifo : concat (bs_flushes s) ++ bs_batch s = seen;
  bi_answers : fst <$> bs_answers s = br_id <$> concat (bs_flushes s);
  bi_size : Forall (fun b => 1 <= Z.of_nat (length b) <= Z.max 1 m) (bs_flushes s);
  bi_pending : bs_batch s = [] \/ Z.of_nat (length (bs_batch s)) < m;
  bi_timer : bs_timer s = negb (bool_decide (bs_batch s = []))
}.

Lemma flush_inv m seen s :
  bs_max s = m -> concat (bs_flushes s) ++ bs_batch s = seen ->
  fst <$> bs_answers s = br_id <$> concat (bs_flushes s) ->
  Forall (fun b => 1 <= Z.of_nat (length b) <= Z.max 1 m) (bs_flushes s) ->
  bs_batch s <> [] -> Z.of_nat (length (bs_batch s)) <= Z.max 1 m ->
  batch_inv m seen (flush s) /\ bs_batch (flush s) = [].
Proof.
  intros Hm Hfifo Hans Hsize Hne Hle. unfold flush. destruct (bs_batch s) as [|br batch] eqn:E; [done|].
  destruct (handler _ _) as [w r]. split; [|done]. split; cbn [bs_max bs_batch bs_flushes bs_answers bs_timer].
  - done.
  - by rewrite concat_app, app_nil_r; cbn [concat]; rewrite app_nil_r.
  - rewrite fmap_app, Hans, answers_ids, concat_app, fmap_app. cbn [concat]. by rewrite app_nil_r.
  - apply Forall_app. split; [done|]. constructor; [cbn in *; lia|done].
  - by left.
  - done.
Qed.

Lemma batch_step_inv m seen s ev :
  batch_inv m seen s -> batch_inv m (seen ++ arrived [ev]) (batch_step s ev).
Proof.
  intros [Hm Hfifo Hans Hsize Hpend Htimer]. destruct ev as [br|]; cbn [batch_step arrived omap list_omap].
  - unfold on_request. cbn [bs_max bs_batch].
    set (s1 := {| bs_max := _ |}).
    assert (Hlen : Z.of_nat (length (bs_batch s ++ [br])) <= Z.max 1 m).
    { rewrite length_app. cbn. destruct Hpend as [->|]; cbn; lia. }
    destruct (Z.leb_spec (bs_max s) (Z.of_nat (length (bs_batch s ++ [br])))) as [Hb|Hb].
    + apply flush_inv; cbn; [done| |done|done| |done].
      * by rewrite app_assoc, Hfifo.
      * intros Habs. by apply app_eq_nil in Habs as [_ ?].
    + split; cbn; [done|by rewrite app_assoc, Hfifo|done|done|right; lia|]. by destruct (bs_batch s).
  - rewrite app_nil_r. destruct (bs_timer s) eqn:Et.
    + apply flush_inv; [done|done|done|done| |].
      * intros E. rewrite E in Htimer. done.
      * destruct Hpend as [E|]; [|lia]. rewrite E. cbn. lia.
    + split; done || congruence.
Qed.

Lemma batch_run_inv m seen s evs :
  batch_inv m seen s -> batch_inv m (seen ++ arrived evs) (batch_run s evs).
Proof.
  revert seen s. induction evs as [|ev evs IH]; intros seen s Hs; cbn.
  { by rewrite app_nil_r. }
  pose proof (IH _ _ (batch_step_inv m seen s ev Hs)) as H.
  rewrite <- app_assoc in H. unfold arrived in *. rewrite <- omap_app in H. exact H.
Qed.

Lemma batch_init_inv m w : batch_inv m [] (NewBatchScheduler m w).
Proof. split; cbn; first [done|by left|by constructor]. Qed.

(** ** Properties *)


(** the wait window bounds the delay: whatever happened before, when the timer
    of a pending batch fires no request stays unanswered. *)
Theorem timer_answers_all (m : Z) (w : W) (evs : list batch_event) :
  let s := batch_run (NewBatchScheduler m w) (evs ++ [TimerFires]) in
  bs_batch s = [] /\ fst <$> bs_answers s = br_id <$> arrived evs.
Proof.
  cbn. pose proof (batch_run_inv m [] _ evs (batch_init_inv m w)) as Hinv.
  unfold batch_run in *. rewrite foldl_app. cbn.
  set (s := foldl batch_step (NewBatchScheduler m w) evs) in *.
  pose proof (batch_step_inv m _ s TimerFires Hinv) as Hinv'. cbn in Hinv'. rewrite app_nil_r in Hinv'.
  assert (Hempty : bs_batch (batch_step s TimerFires) = []).
  { cbn. rewrite (bi_timer _ _ _ Hinv). case_bool_decide as E; cbn; [done|].
    unfold flush. destruct (bs_batch s); [done|]. by destruct (handler _ _). }
  split; [done|]. rewrite (bi_answers _ _ _ Hinv'). f_equal.
  pose proof (bi_fifo _ _ _ Hinv') as Hf. cbn in Hempty, Hf. rewrite Hempty, app_nil_r in Hf. done.
Qed.

(** positions are kept: when the handler returns one response per request, the
    [i]-th request of the batch receives the [i]-th response. *)
Theorem batch_positions (s : BatchScheduler) (w : W) (resps : list V) (i : nat) (br : batchRequest) (v : V) :
  handler (br_req <$> bs_batch s) (bs_world s) = (w, Ok resps) ->
  length resps = length (bs_batch s) -> bs_batch s !! i = Some br -> resps !! i = Some v ->
  bs_answers (flush s) !! (length (bs_answers s) + i)%nat = Some (br_id br, BatchResp v).
Proof.
  intros Hh Hlen Hi Hv. unfold flush. destruct (bs_batch s) as [|br0 batch] eqn:E; [done|].
  rewrite Hh. cbn [bs_answers]. rewrite lookup_app_r by lia.
  replace (length (bs_answers s) + i - length (bs_answers s))%nat with i by lia.
  unfold answers. rewrite Hlen, Nat.eqb_refl. apply lookup_zip_with_Some.
  exists (br_id br), (BatchResp v). split_and!; [done| |]; by rewrite list_lookup_fmap, ?Hi, ?Hv.
Qed.
End batching.
Arguments batchRequest V : clear implicits.
Arguments batchResponse V : clear implicits.
Arguments BatchScheduler W V : clear implicits.
Arguments batch_event V : clear implicits.

(** A handler that doubles every request. *)
Definition double_handler (l : list Z) (n : nat) : nat * res error (list Z) :=
  (S n, Ok ((fun x => 2 * x) <$> l)).

Definition pending_two : BatchScheduler nat Z :=
  batch_run double_handler (NewBatchScheduler 3 0%nat)
    [Arrive {| br_id := 0; br_req := 5 |}; Arrive {| br_id := 1; br_req := 7 |}].

Lemma batch_positions_witness :
  bs_answers (flush double_handler pending_two) !! 1%nat = Some (1%nat, BatchResp 14).
Proof.
  apply (batch_positions double_handler pending_two 1%nat [10; 14] 1 {| br_id := 1; br_req := 7 |});
    reflexivity.
Defined.
