(* ===== verification/Auth.v ===== *)
(** * Authentication ([runtimes/go/auth.go])

    The JWT library is a parameter: [jwt_Parse raw keyFunc options w] either fails or
    yields a token; the options are the ones the interceptor passes to it.  Everything
    the interceptors decide around it is written out. *)
From S2P Require Import Prelude GoStrings GoFloat Errors Context Http.

(** ** Tokens *)
Inductive signing_method := SigningMethodHMAC | SigningMethodRSA | SigningMethodECDSA | SigningMethodOther.

Inductive jwt_key := KeySecret (k : bytes) | KeyRSA (pem : bytes) | KeyEC (pem : bytes).

Inductive jwt_error := ErrTokenExpired (msg : string) | ErrTokenOther (msg : string).
Definition jwt_error_msg (e : jwt_error) : string :=
  match e with ErrTokenExpired m | ErrTokenOther m => m end.

(** [token.Claims] is [MapClaims] or something else, with [token.Valid]. *)
Record Token := { tok_claims : option MapClaims; tok_valid : bool }.

(** The options of a parse: the algorithms a token may be signed with, and that a token
    without an expiry is refused. *)
Inductive parser_option := WithValidMethods (methods : list string) | WithExpirationRequired.

(** A key function sees the signing method and the [alg] header. *)
Definition Keyfunc := signing_method -> string -> res error jwt_key.

Record JWTAuthConfig := {
  SecretKey : bytes;
  PublicKeyPEM : bytes;
  Algorithms : list string;
  RequiredClaims : list string;
  TokenExtractor : option (Header -> res error string)
}.

Definition unauthenticated (msg : string) : error := HelixError CodeUnauthenticated msg.

Definition defaultBearerExtractor (headers : Header) : res error string :=
  let auth := Header_Get headers "Authorization" in
  if bool_decide (auth = "") then
    let key := Header_Get headers "X-API-Key" in
    if bool_decide (key = "") then Err (unauthenticated "missing Authorization header") else Ok key
  else
    match SplitN2 auth " " with
    | [scheme; token] =>
        if EqualFold scheme "bearer" then Ok token
        else Err (unauthenticated "malformed Authorization header; expected 'Bearer <token>'")
    | _ => Err (unauthenticated "malformed Authorization header; expected 'Bearer <token>'")
    end.

(** [buildKeyFunc]; the PEM parsers are part of the JWT library. *)
Definition buildKeyFunc (parseRSA parseEC : bytes -> res error jwt_key) (cfg : JWTAuthConfig) : Keyfunc :=
  fun method alg =>
  match PublicKeyPEM cfg with
  | _ :: _ =>
      match method with
      | SigningMethodRSA => parseRSA (PublicKeyPEM cfg)
      | SigningMethodECDSA => parseEC (PublicKeyPEM cfg)
      | _ => Err (ErrorString ("unexpected signing method: " +:+ alg))
      end
  | [] =>
      match method with
      | SigningMethodHMAC => Ok (KeySecret (SecretKey cfg))
      | _ => Err (ErrorString ("unexpected signing method: " +:+ alg))
      end
  end.

Definition effective_algorithms (cfg : JWTAuthConfig) : list string :=
  match Algorithms cfg with
  | [] => match PublicKeyPEM cfg with _ :: _ => ["RS256"; "ES256"] | [] => ["HS256"] end
  | l => l
  end.

(** [headers.Add] for every metadata value. *)
Definition add_header (h : Header) (k v : string) : Header :=
  <[CanonicalHeaderKey k := default [] (h !! CanonicalHeaderKey k) ++ [v]]> h.

Section jwt.
Context {W V : Type} `{MapIter}.
Context (jwt_Parse : string -> Keyfunc -> list parser_option -> W -> res jwt_error Token).
Context (parseRSA parseEC : bytes -> res error jwt_key).

Definition headers_of_md (md : MD) : Header :=
  foldl (fun h '(k, vs) => foldl (fun h v => add_header h k v) h vs) ∅ (range_map 3 md).

(** The required-claims loop: the first missing claim, if any. *)
Fixpoint missing_claim (required : list string) (claims : MapClaims) : option string :=
  match required with
  | [] => None
  | r :: rs => match claims !! r with Some _ => missing_claim rs claims | None => Some r end
  end.

(** The checks of the interceptor, up to the call of the handler. *)
Definition jwt_authenticate (cfg : JWTAuthConfig) (ctx : context) (w : W) : res error MapClaims :=
  let headers := headers_of_md (fst (FromContext ctx)) in
  let extract := match TokenExtractor cfg with Some f => f | None => defaultBearerExtractor end in
  let? rawToken := extract headers in
  match jwt_Parse rawToken (buildKeyFunc parseRSA parseEC cfg)
          [WithValidMethods (effective_algorithms cfg); WithExpirationRequired] w with
  | Err (ErrTokenExpired _) => Err (unauthenticated "token expired")
  | Err e => Err (unauthenticated ("invalid token: " +:+ jwt_error_msg e))
  | Ok token =>
      match tok_claims token, tok_valid token with
      | Some claims, true =>
          match missing_claim (RequiredClaims cfg) claims with
          | Some r => Err (HelixError CodePermissionDenied ("missing required claim " +:+ Quote r))
          | None => Ok claims
          end
      | _, _ => Err (unauthenticated "invalid token claims")
      end
  end.

Definition NewJWTAuthInterceptor (cfg : JWTAuthConfig) : UnaryServerInterceptor W V :=
  fun ctx req info handler w =>
  match jwt_authenticate cfg ctx w with
  | Err e => (w, Err e)
  | Ok claims => handler (contextWithClaims ctx claims) req w
  end.

End jwt.

Definition with_ctx (r : Request) (ctx : context) : Request :=
  {| r_method := r_method r; r_path := r_path r; r_query := r_query r; r_header := r_header r;
     r_remote := r_remote r; r_ctx := ctx; r_body := r_body r |}.

(** The error answer of [NewJWTMiddleware]. *)
Definition jwt_respond (e : error) (rw : ResponseWriter) : ResponseWriter :=
  match as_helix e with
  | Some (code, msg) =>
      let rw := set_header "Content-Type" "application/json" rw in
      let rw := WriteHeader (MapToHTTPStatus code) rw in
      Write_ (to_bytes (dq "{'error':" +:+ Quote msg +:+ dq ",'code':" +:+ Itoa code +:+ "}")) rw
  | None => http_Error (Error e) 401 rw
  end.

Section jwt_middleware.
Context {W : Type} `{MapIter}.
Context (jwt_Parse : string -> Keyfunc -> list parser_option -> W * ResponseWriter -> res jwt_error Token).
Context (parseRSA parseEC : bytes -> res error jwt_key).

(** [NewJWTMiddleware]: the interceptor with a handler that serves the request;
    the handler writes to [w], so the writer is part of its world. *)
Definition NewJWTMiddleware (cfg : JWTAuthConfig) (next : HTTPHandler W) : HTTPHandler W :=
  fun rw r w =>
  let handler : UnaryHandler (W * ResponseWriter) unit := fun ctx req '(w, rw) =>
    (next rw (with_ctx r ctx) w, Ok tt) in
  match NewJWTAuthInterceptor jwt_Parse parseRSA parseEC cfg (r_ctx r) tt
          {| FullMethod := "" |} handler (w, rw) with
  | ((w, rw), Ok _) => (w, rw)
  | ((w, rw), Err e) => (w, jwt_respond e rw)
  end.
End jwt_middleware.

(** ** API keys *)
Definition api_key (md : MD) : string :=
  match md !! "x-api-key" with
  | Some (v :: _) => TrimPrefix v "Bearer "
  | _ => match md !! "authorization" with
         | Some (v :: _) => TrimPrefix v "Bearer "
         | _ => ""
         end
  end.

Definition NewAPIKeyInterceptor {W V} (validKeys : gmap string string) : UnaryServerInterceptor W V :=
  fun ctx req info handler w =>
  let key := api_key (fst (FromContext ctx)) in
  if bool_decide (key = "") then (w, Err (unauthenticated "missing API key"))
  else match validKeys !! key with
       | None => (w, Err (unauthenticated "invalid API key"))
       | Some _ => handler ctx req w
       end.

(** ** Lemmas *)
Lemma missing_claim_None required claims :
  missing_claim required claims = None <-> Forall (fun r => is_Some (claims !! r)) required.
Proof.
  induction required as [|r rs IH]; cbn; [done|]. rewrite Forall_cons, <- IH.
  destruct (claims !! r) as [c|] eqn:E; split.
  - intros. by split; [eexists|].
  - by intros [_ ?].
  - done.
  - by intros [[] _].
Qed.

Lemma headers_of_md_empty `{MapIter} : headers_of_md ∅ = ∅.
Proof. unfold headers_of_md. by rewrite range_map_empty. Qed.

(** ** Properties *)

(** C2: no bypass.  The handler behind the JWT interceptor runs only for a token
    the extractor found, the library accepted under the configured algorithms and
    key function and with an expiry required, whose claims are valid and contain every
    required claim; it then runs on a context carrying exactly those claims.  In every other case the
    request is rejected with an error and the world is untouched. *)
Theorem jwt_no_bypass {W V} `{MapIter}
    (jwt_Parse : string -> Keyfunc -> list parser_option -> W -> res jwt_error Token)
    (parseRSA parseEC : bytes -> res error jwt_key) (cfg : JWTAuthConfig)
    (ctx : context) (req : V) (info : UnaryServerInfo) (handler : UnaryHandler W V) (w : W) :
  let run := NewJWTAuthInterceptor jwt_Parse parseRSA parseEC cfg ctx req info handler w in
  let extract := match TokenExtractor cfg with Some f => f | None => defaultBearerExtractor end in
  (exists raw claims,
     extract (headers_of_md (fst (FromContext ctx))) = Ok raw /\
     jwt_Parse raw (buildKeyFunc parseRSA parseEC cfg)
         [WithValidMethods (effective_algorithms cfg); WithExpirationRequired] w
       = Ok {| tok_claims := Some claims; tok_valid := true |} /\
     Forall (fun r => is_Some (claims !! r)) (RequiredClaims cfg) /\
     run = handler (contextWithClaims ctx claims) req w) \/
  (exists e, run = (w, Err e)).
Proof.
  cbn. unfold NewJWTAuthInterceptor, jwt_authenticate.
  destruct (match TokenExtractor cfg with Some f => f | None => defaultBearerExtractor end _)
    as [raw|e] eqn:Ex; cbn; [|right; by eexists].
  destruct (jwt_Parse _ _ _ _) as [[claims valid]|e] eqn:Ep; [|right; destruct e; by eexists].
  destruct claims as [claims|]; cbn; [|right; by eexists].
  destruct valid; [|right; by eexists].
  destruct (missing_claim (RequiredClaims cfg) claims) as [r|] eqn:Em; [right; by eexists|].
  left. exists raw, claims. split_and!; [done|done| |done]. by apply missing_claim_None.
Qed.

(** key confusion is impossible: with a public key configured no HMAC token is
    given a key, and without one only HMAC tokens are, with the configured secret. *)
Theorem keyfunc_no_confusion (parseRSA parseEC : bytes -> res error jwt_key) (cfg : JWTAuthConfig)
    (m : signing_method) (alg : string) (k : jwt_key) :
  buildKeyFunc parseRSA parseEC cfg m alg = Ok k ->
  (PublicKeyPEM cfg = [] /\ m = SigningMethodHMAC /\ k = KeySecret (SecretKey cfg)) \/
  (PublicKeyPEM cfg <> [] /\
    (m = SigningMethodRSA /\ parseRSA (PublicKeyPEM cfg) = Ok k \/
     m = SigningMethodECDSA /\ parseEC (PublicKeyPEM cfg) = Ok k)).
Proof.
  unfold buildKeyFunc. destruct (PublicKeyPEM cfg) as [|b pem].
  - destruct m; intros [= <-]. by left.
  - destruct m; intros E; try done; right; (split; [done|]); auto.
Qed.

Definition hmac_config : JWTAuthConfig :=
  {| SecretKey := to_bytes "s"; PublicKeyPEM := []; Algorithms := []; RequiredClaims := ["sub"];
     TokenExtractor := None |}.

Lemma keyfunc_no_confusion_witness :
  PublicKeyPEM hmac_config = [] /\ SigningMethodHMAC = SigningMethodHMAC /\
    KeySecret (to_bytes "s") = KeySecret (SecretKey hmac_config).
Proof.
  destruct (keyfunc_no_confusion (fun p => Ok (KeyRSA p)) (fun p => Ok (KeyEC p)) hmac_config
    SigningMethodHMAC "HS256" (KeySecret (to_bytes "s")) eq_refl) as [H|[H _]]; [exact H|].
  destruct (H eq_refl).
Defined.

(** the REST middleware rejects every request of a server without the
    interceptor chain: it reads the token from the request's metadata, which only
    the RPC handler fills in, so with a bearer token in the HTTP headers the
    answer is 401 whatever the token, and the next handler is not called. *)
Theorem jwt_middleware_rejects_all {W} `{MapIter}
    (jwt_Parse : string -> Keyfunc -> list parser_option -> W * ResponseWriter -> res jwt_error Token)
    (parseRSA parseEC : bytes -> res error jwt_key)
    (cfg : JWTAuthConfig) (next : HTTPHandler W) (r : Request) (w : W) :
  TokenExtractor cfg = None -> ctx_md (r_ctx r) = None ->
  exists rw, NewJWTMiddleware jwt_Parse parseRSA parseEC cfg next new_writer r w = (w, rw) /\
    fst (fst (response rw)) = 401.
Proof.
  intros Hx Hm. eexists. unfold NewJWTMiddleware, NewJWTAuthInterceptor, jwt_authenticate.
  unfold FromContext. rewrite Hx, Hm. cbn [fst]. rewrite headers_of_md_empty. cbn. split; reflexivity.
Qed.

Definition rest_request : Request := {|
  r_method := "GET"; r_path := "/v1/users"; r_query := ∅;
  r_header := {["Authorization" := ["Bearer abc"]]}; r_remote := "1.2.3.4:5";
  r_ctx := Background; r_body := {| b_data := []; b_end := None |} |}.

Lemma jwt_middleware_rejects_all_witness :
  exists rw, NewJWTMiddleware (fun _ _ _ _ => Ok {| tok_claims := Some ∅; tok_valid := true |})
      (fun p => Ok (KeyRSA p)) (fun p => Ok (KeyEC p)) hmac_config
      (fun rw r (w : nat) => (S w, WriteHeader 200 rw)) new_writer rest_request 0%nat = (0%nat, rw) /\
    fst (fst (response rw)) = 401.
Proof. apply jwt_middleware_rejects_all; reflexivity. Defined.

(** API keys.  The handler behind the API-key interceptor runs exactly when the
    key taken from [x-api-key], or else from [authorization], is not empty and
    configured; otherwise the request is refused as unauthenticated. *)
Theorem api_key_gate {W V} (validKeys : gmap string string) (ctx : context) (req : V)
    (info : UnaryServerInfo) (handler : UnaryHandler W V) (w : W) :
  let key := api_key (fst (FromContext ctx)) in
  let run := NewAPIKeyInterceptor validKeys ctx req info handler w in
  if decide (key <> "" /\ is_Some (validKeys !! key)) then run = handler ctx req w
  else exists msg, run = (w, Err (HelixError CodeUnauthenticated msg)).
Proof.
  cbn. unfold NewAPIKeyInterceptor. case_bool_decide as E.
  - rewrite decide_False by naive_solver. by eexists.
  - destruct (validKeys !! api_key (fst (FromContext ctx))) as [v|] eqn:Ev.
    + by rewrite decide_True by eauto.
    + rewrite decide_False by (intros [_ []]; done). by eexists.
Qed.
