(* ===== verification/Tenant.v ===== *)
(** * Multi-tenant rate limiting ([runtimes/go/tenant_gateway.go]) *)
From S2P Require Import Prelude GoStrings GoFloat Errors Context Http ClientBucket RateLimit Auth.

Record TenantConfig := { tc_rps : f64; tc_burst : Z }.

Record MultiTenantRateLimiter := {
  mt_limiters : gmap string RateLimiter;
  mt_default : TenantConfig
}.

Definition NewMultiTenantRateLimiter (defaultLimit : TenantConfig) : MultiTenantRateLimiter :=
  {| mt_limiters := ∅; mt_default := defaultLimit |}.

(** The limiter of a tenant, created from its first configuration (or from the
    default when the rate is not positive). *)
Definition tenant_limiter (m : MultiTenantRateLimiter) (tenantID : string) (cfg : TenantConfig)
  : RateLimiter :=
  match mt_limiters m !! tenantID with
  | Some l => l
  | None =>
      let cfg := if f64_leb (tc_rps cfg) (f64_of_Z 0) then mt_default m else cfg in
      NewRateLimiter {| RequestsPerSecond := tc_rps cfg; BurstSize := tc_burst cfg;
                        KeyFunc := Some (fun _ => tenantID); ErrorMessage := "" |}
  end.

(** The admission of one request of a tenant. *)
Definition tenant_allow (now : Z) (tenantID : string) (cfg : TenantConfig) (m : MultiTenantRateLimiter)
  : MultiTenantRateLimiter * bool :=
  let '(l, (_, ok)) := rl_Allow now tenantID (tenant_limiter m tenantID cfg) in
  ({| mt_limiters := <[tenantID := l]> (mt_limiters m); mt_default := mt_default m |}, ok).

Section tenants.
Context {W : Type} `{HasClock W} `{Has W MultiTenantRateLimiter}.
Context (tenantFn : Request -> res error (string * TenantConfig)).

Definition tenant_HTTPMiddleware (next : HTTPHandler W) : HTTPHandler W := fun rw r w =>
  match tenantFn r with
  | Err _ => (w, http_Error (dq "{'error':'unauthorized tenant','code':16}") 401 rw)
  | Ok (tenantID, cfg) =>
      if bool_decide (tenantID = "") then next rw r w
      else
        let '(m, ok) := tenant_allow (now_of w) tenantID cfg (get w) in
        let w := put m w in
        if (ok : bool) then next rw (with_ctx r (contextWithTenant (r_ctx r) tenantID)) w
        else
          let rw := WriteHeader 429 (set_header "Content-Type" "application/json" rw) in
          (w, Write_ (to_bytes (dq "{'error':'rate limit exceeded for tenant','code':14}")) rw)
  end.
End tenants.

(** A run of requests [(time, tenant, configuration)] and the verdicts. *)
Fixpoint tenant_trace (m : MultiTenantRateLimiter) (reqs : list (Z * string * TenantConfig))
  : list (string * bool) :=
  match reqs with
  | [] => []
  | (t, id, cfg) :: reqs' =>
      let '(m', ok) := tenant_allow t id cfg m in (id, ok) :: tenant_trace m' reqs'
  end.

(** ** Lemmas *)
Definition tenant_times (id : string) (reqs : list (Z * string * TenantConfig)) : list Z :=
  (fun '(t, _, _) => t) <$> filter (fun '(_, i, _) => i = id) reqs.

Lemma tenant_trace_known m reqs id l b :
  mt_limiters m !! id = Some l -> rl_buckets l !! id = Some b ->
  of_key id (tenant_trace m reqs) = snd <$> bucket_trace b (tenant_times id reqs).
Proof.
  revert m l b. induction reqs as [|[[t id'] cfg] reqs IH]; intros m l b Hl Hb; [done|].
  unfold of_key, tenant_times. cbn [tenant_trace].
  destruct (tenant_allow t id' cfg m) as [m' ok] eqn:E. rewrite !filter_cons. cbn.
  unfold tenant_allow, tenant_limiter in E. destruct (decide (id' = id)) as [->|Hne].
  - rewrite Hl, rl_Allow_bucket, Hb in E. cbn in E. cbn [fmap list_fmap bucket_trace].
    destruct (allow t b) as [b' [r ok']] eqn:Ea. rewrite ?Ea in E. cbn in E. injection E as <- <-. cbn [fst snd fmap list_fmap]. f_equal.
    eapply (IH _ _ b'); [apply lookup_insert_eq|]. cbn. apply lookup_insert_eq.
  - destruct (rl_Allow _ _ _) as [l' [r ok']]. injection E as <- <-.
    apply (IH _ l b); cbn; [by rewrite lookup_insert_ne|done].
Qed.

(** ** Properties *)

(** tenants are isolated, and a tenant's limit is fixed by its first request.
    Whatever other tenants send and whatever configuration the lookup returns
    later, the verdicts a tenant sees are those of one bucket built from the
    configuration of its first request. *)
Theorem tenant_isolated (m : MultiTenantRateLimiter) (t : Z) (id : string) (cfg : TenantConfig)
    (reqs : list (Z * string * TenantConfig)) :
  mt_limiters m !! id = None ->
  let c := rl_cfg (tenant_limiter m id cfg) in
  of_key id (tenant_trace m ((t, id, cfg) :: reqs)) =
    snd <$> bucket_trace (newClientBucket t (RequestsPerSecond c) (BurstSize c)) (t :: tenant_times id reqs).
Proof.
  intros Hm. cbn zeta. cbn [tenant_trace]. destruct (tenant_allow t id cfg m) as [m' ok] eqn:E.
  unfold of_key. rewrite filter_cons_True by done. cbn [fmap list_fmap].
  unfold tenant_allow in E. rewrite rl_Allow_bucket in E.
  assert (rl_buckets (tenant_limiter m id cfg) !! id = None) as Hb.
  { unfold tenant_limiter. by rewrite Hm. }
  rewrite Hb in E. cbn in E. cbn [bucket_trace].
  destruct (allow _ _) as [b' [r ok']] eqn:Ea in E. rewrite Ea. cbn in E. injection E as <- <-. cbn [fst snd fmap list_fmap]. f_equal.
  eapply tenant_trace_known; [apply lookup_insert_eq|]. cbn. apply lookup_insert_eq.
Qed.

Lemma tenant_isolated_witness :
  let small := {| tc_rps := f64_of_Z 1; tc_burst := 1 |} in
  let large := {| tc_rps := f64_of_Z 100; tc_burst := 100 |} in
  of_key "a" (tenant_trace (NewMultiTenantRateLimiter small) [(0, "a", small); (1, "b", large); (2, "a", large)])
    = [true; false].
Proof.
  etransitivity; [apply (tenant_isolated (NewMultiTenantRateLimiter
    {| tc_rps := f64_of_Z 1; tc_burst := 1 |}) 0 "a"); reflexivity|]. vm_compute. reflexivity.
Defined.

(** the middleware.  An unknown tenant is refused with 401, an empty tenant id
    is served without any limit, and a refused tenant gets 429 without reaching
    the next handler; an admitted one reaches it with its id in the context. *)
Theorem tenant_middleware_gate {W} `{HasClock W} `{Has W MultiTenantRateLimiter}
    (tenantFn : Request -> res error (string * TenantConfig)) (next : HTTPHandler W)
    (r : Request) (w : W) :
  let run := tenant_HTTPMiddleware tenantFn next new_writer r w in
  match tenantFn r with
  | Err _ => fst run = w /\ fst (fst (response (snd run))) = 401
  | Ok ("", _) => run = next new_writer r w
  | Ok (id, cfg) =>
      let '(m, ok) := tenant_allow (now_of w) id cfg (get w) in
      if (ok : bool)
      then run = next new_writer (with_ctx r (contextWithTenant (r_ctx r) id)) (put m w)
      else fst run = put m w /\ fst (fst (response (snd run))) = 429
  end.
Proof.
  cbn. unfold tenant_HTTPMiddleware. destruct (tenantFn r) as [[[|c id] cfg]|e]; [done| |done].
  cbn [bool_decide]. rewrite bool_decide_false by done.
  destruct (tenant_allow _ _ _ _) as [m []]; done.
Qed.
