(* ===== verification/Observe.v ===== *)
(** * Observability interceptors ([runtimes/go/metrics.go], [telemetry.go],
    [logging.go]) *)
From S2P Require Import Prelude GoStrings GoFloat Errors Context Http Auth.

(** ** Metrics: the Prometheus vectors, keyed by their label values *)
Record Metrics := {
  HelixRequestsTotal : gmap (string * string * string) Z;
  HelixRequestDurationSeconds : gmap (string * string) (list Z);  (* observations, ns *)
  HelixErrorsTotal : gmap (string * string) Z;
  HelixActiveConnections : gmap string Z
}.

Definition no_metrics : Metrics :=
  {| HelixRequestsTotal := ∅; HelixRequestDurationSeconds := ∅; HelixErrorsTotal := ∅;
     HelixActiveConnections := ∅ |}.

Definition inc {K} `{Countable K} (k : K) (m : gmap K Z) : gmap K Z :=
  <[k := default 0 (m !! k) + 1]> m.

Definition RecordRequestMetrics (method path : string) (status duration : Z) (m : Metrics) : Metrics := {|
  HelixRequestsTotal := inc (method, path, Itoa status) (HelixRequestsTotal m);
  HelixRequestDurationSeconds :=
    <[(method, path) := default [] (HelixRequestDurationSeconds m !! (method, path)) ++ [duration]]>
      (HelixRequestDurationSeconds m);
  HelixErrorsTotal :=
    if 400 <=? status then inc (method, path) (HelixErrorsTotal m) else HelixErrorsTotal m;
  HelixActiveConnections := HelixActiveConnections m |}.

Definition RecordActiveConnections (backend : string) (count : Z) (m : Metrics) : Metrics := {|
  HelixRequestsTotal := HelixRequestsTotal m;
  HelixRequestDurationSeconds := HelixRequestDurationSeconds m;
  HelixErrorsTotal := HelixErrorsTotal m;
  HelixActiveConnections := <[backend := count]> (HelixActiveConnections m) |}.

(** The status a result is recorded under. *)
Definition metrics_status {V} (result : res error V) : Z :=
  match result with
  | Ok _ => 200
  | Err e => match as_helix e with Some (code, _) => MapToHTTPStatus code | None => 500 end
  end.

Definition MetricsInterceptor {W V} `{HasClock W} `{Has W Metrics} : UnaryServerInterceptor W V :=
  fun ctx req info handler w =>
  let start := now_of w in
  let '(w, result) := handler ctx req w in
  let duration := now_of w - start in
  (put (RecordRequestMetrics "POST" (FullMethod info) (metrics_status result) duration (get w)) w, result).

(** ** The HTTP middleware

    A handler is what it calls on its writer, and whether it panics after that. *)
Inductive writer_op := OpHeader (key value : string) | OpWriteHeader (code : Z) | OpWrite (data : bytes).
Record handler_run := { hr_ops : list writer_op; hr_panicked : bool }.
Definition http_program (W : Type) := Request -> W -> W * handler_run.

Definition writer_exec (rw : ResponseWriter) (op : writer_op) : ResponseWriter :=
  match op with
  | OpHeader key value => set_header key value rw
  | OpWriteHeader code => WriteHeader code rw
  | OpWrite data => Write_ data rw
  end.

(** The wrapper overrides one method of the writer it embeds. *)
Record statusResponseWriter := { sw_ResponseWriter : ResponseWriter; sw_status : Z }.
Definition status_exec (sw : statusResponseWriter) (op : writer_op) : statusResponseWriter := {|
  sw_ResponseWriter := writer_exec (sw_ResponseWriter sw) op;
  sw_status := match op with OpWriteHeader code => code | _ => sw_status sw end
|}.

(** The deferred recording also runs when the handler panics. *)
Definition HTTPMetricsMiddleware {W} `{HasClock W} `{Has W Metrics} (next : http_program W)
    (rw : ResponseWriter) (r : Request) (w : W) : W * ResponseWriter * bool :=
  let start := now_of w in
  let '(w, run) := next r w in
  let sw := foldl status_exec {| sw_ResponseWriter := rw; sw_status := 200 |} (hr_ops run) in
  let duration := now_of w - start in
  (put (RecordRequestMetrics (r_method r) (r_path r) (sw_status sw) duration (get w)) w, sw_ResponseWriter sw, hr_panicked run).

(** ** Logging: a record per request *)
Record log_entry := { le_method : string; le_status : string; le_ms : Z; le_trace : string }.
Record Log := { log_entries : list log_entry }.

Definition log_trace_id (ctx : context) : string :=
  match MD_Get (fst (FromContext ctx)) "traceparent" with v :: _ => v | [] => "" end.

Definition LoggingInterceptor {W V} `{HasClock W} `{Has W Log} : UnaryServerInterceptor W V :=
  fun ctx req info handler w =>
  let start := now_of w in
  let '(w, result) := handler ctx req w in
  let entry := {| le_method := FullMethod info;
                  le_status := if is_ok result then "success" else "error";
                  le_ms := Z.quot (now_of w - start) 1000000;
                  le_trace := log_trace_id ctx |} in
  (put {| log_entries := log_entries (get w) ++ [entry] |} w, result).

(** ** Telemetry: sampling and one span per sampled request *)
Inductive SamplingStrategy := SampleAll | SampleNone | SampleProbabilistic.
Record TelemetryConfig := { TracerName : string; Strategy : SamplingStrategy; SampleRate : f64 }.

Definition DefaultTelemetryConfig (tracerName : string) : TelemetryConfig :=
  {| TracerName := tracerName; Strategy := SampleProbabilistic; SampleRate := f64_const 1 100 |}.

(** [buildSampler]: [rand] is the next draw of [rand.Float64]. *)
Definition buildSampler (cfg : TelemetryConfig) (rand : f64) : bool :=
  match Strategy cfg with
  | SampleAll => true
  | SampleNone => false
  | SampleProbabilistic =>
      if f64_leb (SampleRate cfg) (f64_of_Z 0) then false
      else if f64_leb (f64_of_Z 1) (SampleRate cfg) then true
      else f64_ltb rand (SampleRate cfg)
  end.

Inductive span_status := SpanOk | SpanError (msg : string).
Record Span := { sp_name : string; sp_rpc_method : string; sp_status : span_status; sp_ended : bool }.

Record Telemetry := { tel_rand : list f64; tel_spans : list Span }.

Definition next_rand (t : Telemetry) : Telemetry * f64 :=
  match tel_rand t with
  | [] => (t, f64_of_Z 0)
  | x :: xs => ({| tel_rand := xs; tel_spans := tel_spans t |}, x)
  end.

(** The propagator and the tracer enrich the context; they belong to
    OpenTelemetry and are parameters. *)
Section telemetry.
Context {W V : Type} `{MapIter} `{Has W Telemetry}.
Context (Extract : context -> Header -> context) (start_ctx : context -> string -> context).

Definition TelemetryInterceptor (cfg : TelemetryConfig) : UnaryServerInterceptor W V :=
  fun ctx req info handler w =>
  let '(t, x) := next_rand (get w) in
  let w := put t w in
  if negb (buildSampler cfg x) then handler ctx req w
  else
    let '(md, ok) := FromContext ctx in
    let ctx := if (ok : bool) then Extract ctx (headers_of_md md) else ctx in
    let ctx := start_ctx ctx (FullMethod info) in
    let '(w, result) := handler ctx req w in
    let st := match result with Ok _ => SpanOk | Err e => SpanError (Error e) end in
    let span := {| sp_name := FullMethod info; sp_rpc_method := FullMethod info;
                   sp_status := st; sp_ended := true |} in
    let t : Telemetry := get w in
    (put {| tel_rand := tel_rand t; tel_spans := tel_spans t ++ [span] |} w, result).
End telemetry.

(** ** Lemmas *)
Lemma inc_lookup {K} `{Countable K} (k k' : K) m :
  default 0 (inc k m !! k') = default 0 (m !! k') + if decide (k = k') then 1 else 0.
Proof.
  unfold inc. case_decide as E; [subst; by rewrite lookup_insert_eq|].
  rewrite lookup_insert_ne by done. lia.
Qed.

(** The requests recorded for a method, over all statuses. *)
Definition total_requests (m : Metrics) : Z :=
  map_fold (fun _ n acc => n + acc) 0 (HelixRequestsTotal m).

Lemma map_fold_sum_insert {K} `{Countable K} (k : K) (n : Z) (m : gmap K Z) :
  map_fold (fun _ n acc => n + acc) 0 (<[k := n]> m)
  = n - default 0 (m !! k) + map_fold (fun _ n acc => n + acc) 0 m.
Proof.
  assert (Hins : forall (x : Z) (m' : gmap K Z), m' !! k = None ->
    map_fold (fun _ n acc => n + acc) 0 (<[k := x]> m') = x + map_fold (fun _ n acc => n + acc) 0 m').
  { intros x m' Hm'. apply map_fold_insert_L; [intros; lia|done]. }
  destruct (m !! k) as [v|] eqn:E; cbn.
  - rewrite <- (insert_delete_id m k v E) at 2. rewrite <- insert_delete_eq.
    rewrite !Hins by apply lookup_delete_eq. lia.
  - rewrite Hins by done. lia.
Qed.

(** ** Properties *)

(** the metrics and logging interceptors are transparent: they return exactly
    the handler's result on exactly the handler's arguments, and afterwards
    record exactly one request under the status of that result. *)
Theorem metrics_transparent {W V} `{HasClock W} `{Has W Metrics} (ctx : context) (req : V)
    (info : UnaryServerInfo) (handler : UnaryHandler W V) (w : W) :
  let '(w1, result) := handler ctx req w in
  let '(w2, result') := MetricsInterceptor ctx req info handler w in
  let key := ("POST", FullMethod info, Itoa (metrics_status result)) in
  result' = result /\ (exists m, w2 = put m w1) /\
  total_requests (get w2) = total_requests (get w1) + 1 /\
  default 0 (HelixRequestsTotal (get w2) !! key) = default 0 (HelixRequestsTotal (get w1) !! key) + 1.
Proof.
  unfold MetricsInterceptor. destruct (handler ctx req w) as [w1 result].
  cbn zeta. rewrite get_put. split_and!; [done|by eexists| |].
  - unfold total_requests. cbn [RecordRequestMetrics HelixRequestsTotal]. unfold inc.
    rewrite map_fold_sum_insert. lia.
  - cbn [RecordRequestMetrics HelixRequestsTotal]. rewrite inc_lookup, decide_True by done. done.
Qed.

(** A handler that sets the status at most once, before any body. *)
Definition sets_no_status (op : writer_op) : bool := match op with OpWriteHeader _ => false | _ => true end.
Fixpoint status_first (ops : list writer_op) : bool :=
  match ops with
  | [] => true
  | OpHeader _ _ :: ops => status_first ops
  | _ :: ops => forallb sets_no_status ops
  end.

Lemma status_exec_writer ops sw :
  sw_ResponseWriter (foldl status_exec sw ops) = foldl writer_exec (sw_ResponseWriter sw) ops.
Proof. revert sw. induction ops as [|op ops IH]; intros sw; [done|]. cbn [foldl]. by rewrite IH. Qed.

Lemma status_kept ops sw code h : rw_sent (sw_ResponseWriter sw) = Some (code, h) -> sw_status sw = code ->
  forallb sets_no_status ops = true ->
  sw_status (foldl status_exec sw ops) = fst (fst (response (sw_ResponseWriter (foldl status_exec sw ops)))).
Proof.
  revert sw. induction ops as [|op ops IH]; intros sw Hs Hc Hops; cbn [foldl]; [unfold response; by rewrite Hs|].
  cbn in Hops. apply andb_true_iff in Hops as [Hop Hops]. apply IH; [|by destruct op|done].
  destruct op as [k v| |data]; [done|done|]. cbn. unfold Write_, Write, WriteHeader. rewrite Hs. by destruct (rw_fail (sw_ResponseWriter sw)).
Qed.

Lemma status_sent ops sw : rw_sent (sw_ResponseWriter sw) = None -> sw_status sw = 200 -> status_first ops = true ->
  sw_status (foldl status_exec sw ops) = fst (fst (response (sw_ResponseWriter (foldl status_exec sw ops)))).
Proof.
  revert sw. induction ops as [|op ops IH]; intros sw Hs Hc Hops; cbn [foldl]; [unfold response; by rewrite Hs|].
  destruct op as [k v|code|data]; cbn in Hops; [by apply IH|..].
  - eapply (status_kept _ _ code); [|done|done]. cbn. unfold WriteHeader. by rewrite Hs.
  - eapply (status_kept _ _ 200); [|done|done]. cbn. unfold Write_, Write, WriteHeader. rewrite Hs. cbn.
    by destruct (rw_fail (sw_ResponseWriter sw)).
Qed.

(** the HTTP middleware is transparent and records every request once: the handler
    writes the same response and panics just the same, and one request is counted for the
    verb and the path, under the status the client sees when the handler sets it at most
    once and before the body. *)
Theorem middleware_records {W} `{HasClock W} `{Has W Metrics} (next : http_program W) (rw : ResponseWriter)
    (r : Request) (w : W) :
  rw_sent rw = None -> status_first (hr_ops (snd (next r w))) = true ->
  let '(w1, run) := next r w in
  let '(w2, rw', panicked) := HTTPMetricsMiddleware next rw r w in
  let key := (r_method r, r_path r, Itoa (fst (fst (response rw')))) in
  rw' = foldl writer_exec rw (hr_ops run) /\ panicked = hr_panicked run /\
  total_requests (get w2) = total_requests (get w1) + 1 /\
  default 0 (HelixRequestsTotal (get w2) !! key) = default 0 (HelixRequestsTotal (get w1) !! key) + 1.
Proof.
  intros Hs Hf. unfold HTTPMetricsMiddleware. destruct (next r w) as [w1 run]. cbn zeta. rewrite get_put.
  split_and!; [apply status_exec_writer|done| |].
  - unfold total_requests. cbn [RecordRequestMetrics HelixRequestsTotal]. unfold inc. rewrite map_fold_sum_insert. lia.
  - cbn [RecordRequestMetrics HelixRequestsTotal]. rewrite <- status_sent by done. rewrite inc_lookup, decide_True by done. done.
Qed.

#[local] Instance metrics_clock : HasClock Metrics := {| now_of _ := 0 |}.
Definition get_page : Request := {|
  r_method := "GET"; r_path := "/page"; r_query := ∅; r_header := ∅; r_remote := ""; r_ctx := Background;
  r_body := {| b_data := []; b_end := None |} |}.

Lemma middleware_records_witness :
  let next : http_program Metrics := fun _ w => (w, {| hr_ops := [OpWriteHeader 404; OpWrite [x61]]; hr_panicked := false |}) in
  let '(w2, _, _) := HTTPMetricsMiddleware next new_writer get_page no_metrics in
  HelixRequestsTotal w2 !! ("GET", "/page", "404") = Some 1 /\ total_requests w2 = 1.
Proof.
  cbn zeta. pose proof (middleware_records (W := Metrics) (fun _ w => (w, {| hr_ops := [OpWriteHeader 404; OpWrite [x61]]; hr_panicked := false |}))
    new_writer get_page no_metrics eq_refl eq_refl) as (_ & _ & Ht & _).
  split; [reflexivity|exact Ht].
Defined.

(** the middleware trusts [WriteHeader].  A status set after the body has gone out is
    recorded though the client has seen 200, and a handler that panics before it answers is
    counted as a success. *)
Theorem middleware_status_wrong :
  let late : http_program Metrics := fun _ w => (w, {| hr_ops := [OpWrite [x61]; OpWriteHeader 500]; hr_panicked := false |}) in
  let panics : http_program Metrics := fun _ w => (w, {| hr_ops := []; hr_panicked := true |}) in
  (let '(w, rw, _) := HTTPMetricsMiddleware late new_writer get_page no_metrics in
   fst (fst (response rw)) = 200 /\ HelixRequestsTotal w !! ("GET", "/page", "500") = Some 1) /\
  (let '(w, _, panicked) := HTTPMetricsMiddleware panics new_writer get_page no_metrics in
   panicked = true /\ HelixRequestsTotal w !! ("GET", "/page", "200") = Some 1 /\ HelixErrorsTotal w = ∅).
Proof. cbn zeta. split; vm_compute; repeat split; reflexivity. Qed.
