(* ===== verification/Routing.v ===== *)
(** * REST routing ([runtimes/go/grpc_handler.go], [matchREST] and [splitPath]) *)
From S2P Require Import Prelude GoStrings.

Record RESTRoute := {
  rt_Method : string;
  rt_Pattern : string;
  rt_PathParts : list string;
  rt_HandlerPath : string
}.

Definition splitPath (path : string) : list string :=
  let trimmed := Trim path "/" in
  if bool_decide (trimmed = "") then [] else Split trimmed "/".

(** The route [RegisterRESTRoute] appends. *)
Definition newRESTRoute (method pattern handlerPath : string) : RESTRoute :=
  {| rt_Method := ToUpper method; rt_Pattern := pattern;
     rt_PathParts := splitPath pattern; rt_HandlerPath := handlerPath |}.

(** A segment [{name}] of a pattern. *)
Definition param_name (part : string) : option string :=
  if HasPrefix part "{" && HasSuffix part "}"
  then Some (slice part 1 (String.length part - 1)) else None.

(** The loop over the segments of one route: the bound parameters, or [None] as
    soon as a literal segment differs. *)
Fixpoint match_parts (parts reqParts : list string) (params : gmap string string)
  : option (gmap string string) :=
  match parts, reqParts with
  | [], _ => Some params
  | p :: ps, q :: qs =>
      match param_name p with
      | Some name => match_parts ps qs (<[name := q]> params)
      | None => if bool_decide (p = q) then match_parts ps qs params else None
      end
  | _ :: _, [] => None
  end.

Definition match_route (method : string) (reqParts : list string) (r : RESTRoute)
  : option (gmap string string) :=
  if bool_decide (rt_Method r = method) && (length (rt_PathParts r) =? length reqParts)%nat
  then match_parts (rt_PathParts r) reqParts ∅ else None.

Fixpoint match_routes (method : string) (reqParts : list string) (routes : list RESTRoute)
  : option (RESTRoute * gmap string string) :=
  match routes with
  | [] => None
  | r :: rs =>
      match match_route method reqParts r with
      | Some params => Some (r, params)
      | None => match_routes method reqParts rs
      end
  end.

Definition matchREST (method path : string) (routes : list RESTRoute)
  : option (RESTRoute * gmap string string) :=
  match_routes (ToUpper method) (splitPath path) routes.

(** ** Specification: which routes match a request *)
Definition segment_ok (part q : string) : Prop := is_Some (param_name part) \/ part = q.

Definition route_matches (method path : string) (r : RESTRoute) : Prop :=
  rt_Method r = ToUpper method /\ Forall2 segment_ok (rt_PathParts r) (splitPath path).

(** A pattern filled in with values for its parameters. *)
Definition expand_part (env : string -> string) (part : string) : string :=
  match param_name part with Some name => env name | None => part end.
Definition expand (env : string -> string) (parts : list string) : string :=
  "/" +:+ Join (expand_part env <$> parts) "/".

(** A usable path segment: not empty and without a slash. *)
Definition seg_char (a : ascii) : bool := negb (Ascii.eqb a "/").
Definition segment (s : string) : Prop := s <> "" /\ str_forall seg_char s = true.

(** ** Lemmas *)
Lemma eqb_slash a : seg_char a = true -> Ascii.eqb "/" a = false.
Proof. unfold seg_char. rewrite negb_true_iff. rewrite Ascii.eqb_sym. done. Qed.

Lemma trim_right_app p s t : trim_right p t = t -> t <> "" -> trim_right p (s +:+ t) = s +:+ t.
Proof.
  intros Ht Hne. induction s as [|c s IH]; [done|]. cbn. rewrite IH.
  by destruct s, t.
Qed.

Lemma trim_right_segment s : str_forall seg_char s = true -> trim_right (Ascii.eqb "/") s = s.
Proof.
  induction s as [|c s IH]; [done|]. cbn [trim_right str_forall]. intros [Hc Hs]%andb_true_iff.
  rewrite IH by done. rewrite (eqb_slash c Hc). by destruct s.
Qed.

Lemma Join_trim parts :
  parts <> [] -> Forall segment parts ->
  trim_right (Ascii.eqb "/") (Join parts "/") = Join parts "/" /\
  exists c s, Join parts "/" = String c s /\ seg_char c = true.
Proof.
  intros Hne. induction 1 as [|p ps [Hp Hpc] Hps IH]; [done|].
  assert (exists c s, p = String c s /\ seg_char c = true) as (c & s & -> & Hc).
  { destruct p as [|c s]; [done|]. cbn in Hpc. apply andb_true_iff in Hpc as [? _]. eauto. }
  destruct ps as [|q ps].
  { cbn [Join]. split; [by apply trim_right_segment|eauto]. }
  destruct IH as [Ht (c' & s' & E & _)]; [done|].
  change (Join (String c s :: q :: ps) "/") with ((String c s) +:+ ("/" +:+ Join (q :: ps) "/")).
  split; [|cbn; eauto]. apply trim_right_app; [|done].
  apply trim_right_app; [done|]. by rewrite E.
Qed.

Lemma splitPath_Join parts :
  parts <> [] -> Forall segment parts -> splitPath ("/" +:+ Join parts "/") = parts.
Proof.
  intros Hne Hs. destruct (Join_trim parts Hne Hs) as [Ht (c & s & E & Hc)].
  unfold splitPath, Trim. cbn [String.append trim_left].
  change (Ascii.eqb "/" "/") with true. cbn iota.
  rewrite E. cbn [trim_left]. rewrite (eqb_slash c Hc), <- E, Ht.
  rewrite bool_decide_false by (rewrite E; done).
  apply Split_Join; [done|]. eapply Forall_impl; [done|]. by intros x [_ ?].
Qed.

Lemma match_parts_spec parts req params :
  length parts = length req ->
  is_Some (match_parts parts req params) <-> Forall2 segment_ok parts req.
Proof.
  revert req params. induction parts as [|p ps IH]; intros [|q qs] params Hlen; cbn; try done.
  injection Hlen as Hlen. rewrite Forall2_cons. unfold segment_ok at 1.
  destruct (param_name p) as [name|] eqn:E.
  - rewrite IH by done. split; [intros; split; [left; eauto|done]|by intros [_ ?]].
  - case_bool_decide as Hpq.
    + rewrite IH by done. split; [intros; split; [by right|done]|by intros [_ ?]].
    + split; [by intros []|]. intros [[[]|?] _]; done.
Qed.

Lemma match_route_spec method path r :
  is_Some (match_route (ToUpper method) (splitPath path) r) <-> route_matches method path r.
Proof.
  unfold match_route, route_matches. case_bool_decide as Em; cbn; cycle 1.
  { split; [by intros []|]. by intros [? _]. }
  destruct (Nat.eqb_spec (length (rt_PathParts r)) (length (splitPath path))) as [El|El].
  - rewrite match_parts_spec by done. naive_solver.
  - split; [by intros []|]. intros [_ ?%Forall2_length]. done.
Qed.

(** The parameters a successful match binds. *)
Lemma match_parts_expand env parts params :
  exists params', match_parts parts (expand_part env <$> parts) params = Some params' /\
    (forall name, name ∈ omap param_name parts -> params' !! name = Some (env name)) /\
    (forall name, name ∉ omap param_name parts -> params' !! name = params !! name).
Proof.
  revert params. induction parts as [|p ps IH]; intros params.
  { exists params. split_and!; [done|by intros ? ?%elem_of_nil|done]. }
  rewrite fmap_cons. cbn [match_parts].
  change (omap param_name (p :: ps)) with
    (match param_name p with Some x => x :: omap param_name ps | None => omap param_name ps end).
  assert (Hx : expand_part env p = match param_name p with Some name => env name | None => p end) by done.
  rewrite Hx. clear Hx. destruct (param_name p) as [n|] eqn:E.
  - destruct (IH (<[n := env n]> params)) as (params' & -> & Hin & Hout).
    exists params'. split_and!; [done| |].
    + intros name [->|?]%elem_of_cons; [|auto].
      destruct (decide (n ∈ omap param_name ps)); [auto|].
      rewrite Hout by done. apply lookup_insert_eq.
    + intros name [Hne ?]%not_elem_of_cons. rewrite Hout by done. by apply lookup_insert_ne.
  - rewrite bool_decide_true by done. apply IH.
Qed.

(** ** Properties *)

(** routing picks the first registered route that matches.  [matchREST] finds a
    route exactly when some registered route matches the method (ignoring case)
    and the path segment by segment, and it is the earliest one. *)
Theorem matchREST_first (method path : string) (routes : list RESTRoute) :
  match matchREST method path routes with
  | Some (r, _) =>
      exists before after, routes = before ++ r :: after /\ route_matches method path r /\
        Forall (fun r' => ~ route_matches method path r') before
  | None => Forall (fun r' => ~ route_matches method path r') routes
  end.
Proof.
  unfold matchREST. induction routes as [|r rs IH]; cbn; [constructor|].
  pose proof (match_route_spec method path r) as Hr.
  destruct (match_route _ _ r) as [params|].
  - exists [], rs. split_and!; [done|by apply Hr|constructor].
  - assert (~ route_matches method path r) as Hn by (rewrite <- Hr; by intros []).
    destruct (match_routes _ _ rs) as [[r' ps']|].
    + destruct IH as (b & a & -> & ? & ?). exists (r :: b), a. split_and!; [done|done|by constructor].
    + by constructor.
Qed.

(** routing round trip.  A pattern filled in with values that are usable path
    segments is matched by the route of that pattern, and every parameter is
    bound to its value. *)
Theorem route_roundtrip (method pattern handlerPath : string) (env : string -> string) :
  splitPath pattern <> [] -> Forall segment (expand_part env <$> splitPath pattern) ->
  exists params,
    matchREST method (expand env (splitPath pattern)) [newRESTRoute method pattern handlerPath]
      = Some (newRESTRoute method pattern handlerPath, params) /\
    forall name, name ∈ omap param_name (splitPath pattern) -> params !! name = Some (env name).
Proof.
  intros Hne Hs. destruct (match_parts_expand env (splitPath pattern) ∅) as (params & Hm & Hin & _).
  exists params. split; [|done]. unfold matchREST, expand. rewrite splitPath_Join; [|by destruct (splitPath pattern)|done].
  cbn [match_routes]. unfold match_route. cbn [newRESTRoute rt_Method rt_PathParts].
  rewrite bool_decide_true by done. rewrite length_fmap, Nat.eqb_refl. cbn. by rewrite Hm.
Qed.

Lemma route_roundtrip_witness :
  exists params,
    matchREST "get" (expand (fun n => if bool_decide (n = "id") then "42" else "7") ["v1"; "users"; "{id}"; "posts"; "{p}"])
      [newRESTRoute "get" "/v1/users/{id}/posts/{p}" "/svc/Get"]
      = Some (newRESTRoute "get" "/v1/users/{id}/posts/{p}" "/svc/Get", params) /\
    forall name, name ∈ ["id"; "p"] -> params !! name = Some (if bool_decide (name = "id") then "42" else "7").
Proof.
  apply (route_roundtrip "get" "/v1/users/{id}/posts/{p}" "/svc/Get"); [done|].
  vm_compute. repeat constructor; discriminate.
Defined.
