(* ===== verification/Compression.v ===== *)
(** * Payload compression ([runtimes/go/compression.go])

    The DEFLATE codec itself is a parameter; the registry and the error wrapping
    around it are written out. *)
From S2P Require Import Prelude GoStrings Errors.

Record Compressor := {
  c_Name : string;
  c_Compress : bytes -> res error bytes;
  c_Decompress : bytes -> res error bytes
}.

(** What [compress/gzip] does: write everything, close, open a reader, read all. *)
Record gzip_codec := {
  gz_Write : bytes -> option error;
  gz_Close : bytes -> res error bytes;
  gz_NewReader : bytes -> option error;
  gz_ReadAll : bytes -> res error bytes
}.

Definition GzipCompressor (gz : gzip_codec) : Compressor := {|
  c_Name := "gzip";
  c_Compress data :=
    match gz_Write gz data with
    | Some e => Err (WrapError "gzip compress: " e)
    | None => match gz_Close gz data with
              | Err e => Err (WrapError "gzip close: " e)
              | Ok out => Ok out
              end
    end;
  c_Decompress data :=
    match gz_NewReader gz data with
    | Some e => Err (WrapError "gzip reader: " e)
    | None => match gz_ReadAll gz data with
              | Err e => Err (WrapError "gzip decompress: " e)
              | Ok out => Ok out
              end
    end
|}.

Abbreviation registry := (gmap string Compressor).

Definition compressorRegistry (gz : gzip_codec) : registry := {["gzip" := GzipCompressor gz]}.

Definition RegisterCompressor (c : Compressor) (reg : registry) : registry := <[c_Name c := c]> reg.

Definition getCompressor (reg : registry) (name : string) : option Compressor :=
  reg !! TrimSpace (ToLower name).

(** A compressor whose decoder undoes its encoder. *)
Definition lossless (c : Compressor) : Prop :=
  forall data out, c_Compress c data = Ok out -> c_Decompress c out = Ok data.

(** What the program relies on of the codec: what [Close] produced opens and reads
    back. *)
Definition gzip_sound (gz : gzip_codec) : Prop :=
  forall data out, gz_Write gz data = None -> gz_Close gz data = Ok out ->
    gz_NewReader gz out = None /\ gz_ReadAll gz out = Ok data.

Lemma GzipCompressor_lossless gz : gzip_sound gz -> lossless (GzipCompressor gz).
Proof.
  intros Hs data out. cbn. destruct (gz_Write gz data) eqn:Ew; [done|].
  destruct (gz_Close gz data) as [out'|] eqn:Ec; [|done]. intros [= <-].
  destruct (Hs _ _ Ew Ec) as [-> ->]. done.
Qed.

(** A codec that stores the data behind a marker byte. *)
Definition stored_codec : gzip_codec := {|
  gz_Write _ := None;
  gz_Close data := Ok (x1f :: data);
  gz_NewReader data := match data with x1f :: _ => None | _ => Some (ErrorString "gzip: invalid header") end;
  gz_ReadAll data := Ok (tail data)
|}.

Lemma stored_codec_sound : gzip_sound stored_codec.
Proof. intros data out _ [= <-]. done. Qed.
