(* ===== verification/Streams.v ===== *)
(** * Server streams ([runtimes/go/grpc_handler.go] and [websocket.go])

    A stream handler is a program over the [ServerStream] interface: it receives,
    sends, reads and changes the world, and returns an error or nil.  The three
    implementations of the interface are instances of [ServerStream]. *)
From S2P Require Import Prelude GoStrings Errors Context Http.

Inductive stream_prog (W V : Type) :=
| SReturn (err : option error)
| SRecv (v : V) (k : res error V -> stream_prog W V)
| SSend (v : V) (k : option error -> stream_prog W V)
| SGet (k : W -> stream_prog W V)
| SPut (w : W) (k : stream_prog W V).
Arguments SReturn {W V} err.
Arguments SRecv {W V} v k.
Arguments SSend {W V} v k.
Arguments SGet {W V} k.
Arguments SPut {W V} w k.

(** The interface: [S] is the state behind the stream. *)
Class ServerStream (S V : Type) := {
  Recv : V -> S -> S * res error V;
  Send : V -> S -> S * option error
}.

Fixpoint run_stream {W V S} `{ServerStream S V} (p : stream_prog W V) (s : S) (w : W)
  : S * W * option error :=
  match p with
  | SReturn err => (s, w, err)
  | SRecv v k => let '(s', r) := Recv v s in run_stream (k r) s' w
  | SSend v k => let '(s', e) := Send v s in run_stream (k e) s' w
  | SGet k => run_stream (k w) s w
  | SPut w' k => run_stream k s w'
  end.

Definition unmarshal_error (iface : string) : error :=
  ErrorString ("type does not implement " +:+ iface).

Section streams.
Context {V : Type} `{Message V}.

(** Decoding and encoding with the codec of the stream. *)
Definition decode_with (codec : string) (v : V) (payload : bytes) : res error V :=
  if bool_decide (codec = "flatbuffers") then
    match as_FlatBuffersUnmarshaler v with
    | None => Err (unmarshal_error "FlatBuffersUnmarshaler")
    | Some f => f payload
    end
  else
    match as_ProtoUnmarshaler v with
    | None => Err (unmarshal_error "ProtoUnmarshaler")
    | Some f => f payload
    end.

Definition encode_with (codec : string) (v : V) : res error bytes :=
  if bool_decide (codec = "flatbuffers") then
    match as_FlatBuffersMarshaler v with
    | None => Err (unmarshal_error "FlatBuffersMarshaler")
    | Some out => Ok out
    end
  else
    match as_ProtoMarshaler v with
    | None => Err (unmarshal_error "ProtoMarshaler")
    | Some r => r
    end.

(** A length-prefixed message: flag byte, 32-bit length, payload. *)
Definition frame (flag : Z) (payload : bytes) : bytes :=
  byte_of_Z flag :: PutUint32 (u32 (Z.of_nat (length payload))) ++ payload.

(** Reading one frame: its flag and payload. *)
Definition read_frame (b : body) : body * res error (Z * bytes) :=
  match ReadFull b 5 with
  | (b, Err e) => (b, Err e)
  | (b, Ok header) =>
      match ReadFull b (Z.to_nat (Uint32 (tail header))) with
      | (b, Err e) => (b, Err e)
      | (b, Ok payload) => (b, Ok (byte_to_Z (hd x00 header), payload))
      end
  end.

(** *** [serverStream] *)
Record serverStream := { ss_w : ResponseWriter; ss_body : body; ss_codec : string }.

Definition ss_Recv (v : V) (s : serverStream) : serverStream * res error V :=
  match read_frame (ss_body s) with
  | (b, Err e) => ({| ss_w := ss_w s; ss_body := b; ss_codec := ss_codec s |}, Err e)
  | (b, Ok (_, payload)) =>
      ({| ss_w := ss_w s; ss_body := b; ss_codec := ss_codec s |}, decode_with (ss_codec s) v payload)
  end.

Definition ss_Send (v : V) (s : serverStream) : serverStream * option error :=
  match encode_with (ss_codec s) v with
  | Err e => (s, Some e)
  | Ok payload =>
      let header := byte_of_Z 0 :: PutUint32 (u32 (Z.of_nat (length payload))) in
      match Write header (ss_w s) with
      | (w, Some e) => ({| ss_w := w; ss_body := ss_body s; ss_codec := ss_codec s |}, Some e)
      | (w, None) =>
          let '(w, e) := Write payload w in
          ({| ss_w := w; ss_body := ss_body s; ss_codec := ss_codec s |}, e)
      end
  end.

#[export] Instance serverStream_stream : ServerStream serverStream V :=
  {| Recv := ss_Recv; Send := ss_Send |}.

(** *** [sseServerStream]: one JSON request, then server-sent events *)
Record sseServerStream := { sse_w : ResponseWriter; sse_payload : bytes; sse_read : bool }.

Definition sse_Recv (v : V) (s : sseServerStream) : sseServerStream * res error V :=
  if sse_read s then (s, Err ErrEOF)
  else ({| sse_w := sse_w s; sse_payload := sse_payload s; sse_read := true |},
        json_Unmarshal (sse_payload s) v).

(** The encoder's trailing newline is cut off. *)
Definition cut_newline (l : bytes) : bytes :=
  match last l with
  | Some b => if byte_to_Z b =? 10 then take (length l - 1) l else l
  | None => l
  end.

Definition sse_with (s : sseServerStream) (w : ResponseWriter) : sseServerStream :=
  {| sse_w := w; sse_payload := sse_payload s; sse_read := sse_read s |}.

Definition sse_Send (v : V) (s : sseServerStream) : sseServerStream * option error :=
  match json_Encode v with
  | Err e => (s, Some e)
  | Ok serialized =>
      match Write (to_bytes "data: ") (sse_w s) with
      | (w, Some e) => (sse_with s w, Some e)
      | (w, None) =>
          match Write (cut_newline serialized) w with
          | (w, Some e) => (sse_with s w, Some e)
          | (w, None) =>
              let '(w, e) := Write [x0a; x0a] w in (sse_with s w, e)
          end
      end
  end.

#[export] Instance sseServerStream_stream : ServerStream sseServerStream V :=
  {| Recv := sse_Recv; Send := sse_Send |}.

(** *** [WebSocketStream]: JSON text messages over a web-socket connection, whose
    library is a parameter. *)
Record websocket (C : Type) := {
  ws_IsUpgrade : Request -> bool;
  ws_Upgrade : ResponseWriter -> Request -> ResponseWriter * res error C;
  ws_ReadMessage : C -> C * res error bytes;
  ws_WriteMessage : bytes -> C -> C * option error
}.
Arguments ws_IsUpgrade {C} w.
Arguments ws_Upgrade {C} w.
Arguments ws_ReadMessage {C} w.
Arguments ws_WriteMessage {C} w.

Record WebSocketStream (C : Type) := { wss_conn : C }.
Arguments wss_conn {C} w.

Definition ws_Recv {C} (lib : websocket C) (v : V) (s : WebSocketStream C)
  : WebSocketStream C * res error V :=
  match ws_ReadMessage lib (wss_conn s) with
  | (c, Err e) => ({| wss_conn := c |}, Err e)
  | (c, Ok data) => ({| wss_conn := c |}, stdjson_Unmarshal data v)
  end.

Definition ws_Send {C} (lib : websocket C) (v : V) (s : WebSocketStream C)
  : WebSocketStream C * option error :=
  match stdjson_Marshal v with
  | Err e => (s, Some e)
  | Ok data => let '(c, e) := ws_WriteMessage lib data (wss_conn s) in ({| wss_conn := c |}, e)
  end.

Definition WebSocketStream_stream {C} (lib : websocket C) : ServerStream (WebSocketStream C) V :=
  {| Recv := ws_Recv lib; Send := ws_Send lib |}.

(** ** Lemmas *)
Lemma ReadFull_5 flag payload rest e :
  ReadFull {| b_data := frame flag payload ++ rest; b_end := e |} 5
  = ({| b_data := payload ++ rest; b_end := e |},
     Ok (byte_of_Z flag :: PutUint32 (u32 (Z.of_nat (length payload))))).
Proof.
  unfold frame. change 5%nat with (length (byte_of_Z flag :: PutUint32 (u32 (Z.of_nat (length payload))))).
  change ((byte_of_Z flag :: PutUint32 (u32 (Z.of_nat (length payload))) ++ payload) ++ rest)
    with ((byte_of_Z flag :: PutUint32 (u32 (Z.of_nat (length payload)))) ++ payload ++ rest).
  apply ReadFull_app.
Qed.

(** Framing round trip. *)
Lemma read_frame_app flag payload rest e :
  in_u 8 flag -> in_u 32 (Z.of_nat (length payload)) ->
  read_frame {| b_data := frame flag payload ++ rest; b_end := e |}
  = ({| b_data := rest; b_end := e |}, Ok (flag, payload)).
Proof.
  intros Hf Hl. unfold read_frame. rewrite ReadFull_5. cbn [tail hd].
  rewrite <- (app_nil_r (PutUint32 _)), Uint32_PutUint32 by (by rewrite wrapU_id).
  rewrite wrapU_id, Nat2Z.id, ReadFull_app by done. by rewrite byte_to_of_Z, wrapU_id.
Qed.

Lemma ss_Send_frame v payload s :
  encode_with (ss_codec s) v = Ok payload -> rw_fail (ss_w s) = None ->
  exists w, ss_Send v s = ({| ss_w := w; ss_body := ss_body s; ss_codec := ss_codec s |}, None) /\
    rw_body w = rw_body (ss_w s) ++ frame 0 payload /\ rw_fail w = None.
Proof.
  intros He Hf. unfold ss_Send. rewrite He. unfold Write.
  assert (Hwh : forall c w, rw_fail (WriteHeader c w) = rw_fail w /\ rw_body (WriteHeader c w) = rw_body w).
  { intros c w. unfold WriteHeader. by destruct (rw_sent w). }
  destruct (Hwh 200 (ss_w s)) as [H1 H2]. rewrite H1, Hf. cbn [rw_fail].
  set (w1 := {| rw_header := _ |}). destruct (Hwh 200 w1) as [H3 H4]. rewrite H3. cbn [w1 rw_fail].
  eexists. split; [done|]. cbn. rewrite H4. cbn. rewrite H2. split; [|done].
  unfold frame. by rewrite <- app_assoc.
Qed.

(** Sending a list of messages, stopping at the first error. *)
Fixpoint send_all (vs : list V) (s : serverStream) : serverStream * option error :=
  match vs with
  | [] => (s, None)
  | v :: vs' => match ss_Send v s with (s', None) => send_all vs' s' | r => r end
  end.

Lemma send_all_frames vs payloads s :
  Forall2 (fun v p => encode_with (ss_codec s) v = Ok p) vs payloads -> rw_fail (ss_w s) = None ->
  exists s', send_all vs s = (s', None) /\
    rw_body (ss_w s') = rw_body (ss_w s) ++ concat (frame 0 <$> payloads).
Proof.
  intros Hv. revert s Hv. intros s. remember (ss_codec s) as codec eqn:Ec. intros Hv. revert s Ec.
  induction Hv as [|v p vs ps Hvp Hv IH]; intros s Ec Hf; cbn.
  { exists s. by rewrite app_nil_r. }
  destruct (ss_Send_frame v p s ltac:(by rewrite <- Ec) Hf) as (w & -> & Hb & Hf').
  destruct (IH {| ss_w := w; ss_body := ss_body s; ss_codec := ss_codec s |} Ec Hf') as (s' & -> & Hs').
  exists s'. split; [done|]. rewrite Hs'. cbn. by rewrite Hb, <- app_assoc.
Qed.

(** Receiving [n] messages. *)
Fixpoint recv_n (n : nat) (v : V) (s : serverStream) : list (res error V) :=
  match n with
  | O => []
  | S n' => let '(s', r) := ss_Recv v s in r :: recv_n n' v s'
  end.

Lemma recv_frames payloads v codec w e :
  Forall (fun p => in_u 32 (Z.of_nat (length p))) payloads ->
  recv_n (length payloads) v
    {| ss_w := w; ss_body := {| b_data := concat (frame 0 <$> payloads); b_end := e |}; ss_codec := codec |}
  = (decode_with codec v <$> payloads).
Proof.
  induction 1 as [|p ps Hp _ IH]; [done|]. cbn [length recv_n fmap list_fmap concat].
  unfold ss_Recv. cbn [ss_body ss_w ss_codec]. rewrite read_frame_app by (done || words). f_equal. exact IH.
Qed.
End streams.
Arguments wss_conn {C} w.
Arguments ws_IsUpgrade {C} w.
Arguments ws_Upgrade {C} w.
Arguments ws_ReadMessage {C} w.
Arguments ws_WriteMessage {C} w.

(** ** Properties *)

(** streaming round trip.  The bytes a server stream writes for a sequence of
    messages, read by a peer with the same codec, are decoded to the same
    messages in the same order, for any message type whose codec decodes what it
    encodes. *)
Theorem stream_roundtrip {V} `{Message V} (codec : string) (vs : list V) (payloads : list bytes)
    (v0 : V) (e : option error) :
  Forall2 (fun v p => encode_with codec v = Ok p /\ decode_with codec v0 p = Ok v /\
                      in_u 32 (Z.of_nat (length p))) vs payloads ->
  exists s, send_all vs {| ss_w := new_writer; ss_body := {| b_data := []; b_end := e |}; ss_codec := codec |}
              = (s, None) /\
    recv_n (length vs) v0
      {| ss_w := new_writer; ss_body := {| b_data := rw_body (ss_w s); b_end := None |}; ss_codec := codec |}
      = Ok <$> vs.
Proof.
  intros Hv.
  destruct (send_all_frames vs payloads {| ss_w := new_writer; ss_body := {| b_data := []; b_end := e |};
    ss_codec := codec |}) as (s & Hs & Hb); [|done|].
  { eapply Forall2_impl; [exact Hv|]. by intros v p (? & _). }
  exists s. split; [done|]. rewrite Hb. cbn [rw_body new_writer ss_w app].
  rewrite (Forall2_length _ _ _ Hv), recv_frames.
  - clear -Hv. induction Hv as [|v p vs ps (_ & Hd & _) _ IH]; [done|]. cbn. by rewrite Hd, IH.
  - eapply Forall2_Forall_r; [exact Hv|]. apply Forall_true. by intros v p (_ & _ & ?).
Qed.

(** Byte strings as messages. *)
#[export] Instance raw_message : Message bytes | 100 := {|
  as_ProtoMarshaler v := Some (Ok v);
  as_ProtoUnmarshaler v := Some (fun p => Ok p);
  as_FlatBuffersMarshaler v := None;
  as_FlatBuffersUnmarshaler v := None;
  json_Unmarshal p v := Ok p;
  json_Encode v := Ok (v ++ [x0a]);
  stdjson_Unmarshal p v := Ok p;
  stdjson_Marshal v := Ok v
|}.

Lemma stream_roundtrip_witness :
  exists s, send_all [to_bytes "ab"; to_bytes ""; to_bytes "c"]
      {| ss_w := new_writer; ss_body := {| b_data := []; b_end := None |}; ss_codec := "proto" |} = (s, None) /\
    recv_n 3 ([] : bytes)
      {| ss_w := new_writer; ss_body := {| b_data := rw_body (ss_w s); b_end := None |}; ss_codec := "proto" |}
      = Ok <$> [to_bytes "ab"; to_bytes ""; to_bytes "c"].
Proof.
  apply (stream_roundtrip "proto" [to_bytes "ab"; to_bytes ""; to_bytes "c"]
    [to_bytes "ab"; to_bytes ""; to_bytes "c"] []).
  repeat constructor; vm_compute; first [reflexivity|discriminate].
Defined.
