(* ===== verification/GrpcHandler.v ===== *)
(** * The request handler ([runtimes/go/grpc_handler.go], [GRPCHandler])

    One handler serves gRPC, gRPC-Web, REST/JSON, server-sent events and web
    sockets.  [ServeHTTP] is composed, as in the source, of the routing, the JSON
    branch, the streaming branches and the framed unary branch. *)
From S2P Require Import Prelude GoStrings GoFloat Errors Context Http Routing Compression Streams.

(** A decoder receives the function that fills a message from the request body;
    the body is consumed by reading, so it is threaded through. *)
Definition dec_fun (V : Type) := V -> body -> body * res error V.

Record MethodInfo (W V : Type) := {
  mi_Decoder : dec_fun V -> body -> body * res error V;
  mi_Handler : UnaryHandler W V;
  mi_Binder : option (V -> gmap string string -> res error V);
  mi_IsStreaming : bool;
  mi_StreamHandler : context -> stream_prog W V
}.
Arguments mi_Decoder {W V} m.
Arguments mi_Handler {W V} m.
Arguments mi_Binder {W V} m.
Arguments mi_IsStreaming {W V} m.
Arguments mi_StreamHandler {W V} m.

Record GRPCHandler (W V : Type) := {
  gh_methods : gmap string (MethodInfo W V);
  gh_restRoutes : list RESTRoute;
  gh_interceptors : list (UnaryServerInterceptor W V);
  gh_chained : option (UnaryServerInterceptor W V);
  gh_debugMux : HTTPHandler W
}.
Arguments gh_methods {W V} g.
Arguments gh_restRoutes {W V} g.
Arguments gh_interceptors {W V} g.
Arguments gh_chained {W V} g.
Arguments gh_debugMux {W V} g.

(** An interceptor around a handler: the closure both chain functions return. *)
Definition nest {W V} (info : UnaryServerInfo) (i : UnaryServerInterceptor W V) (k : UnaryHandler W V)
  : UnaryHandler W V := fun ctx req w => i ctx req info k w.

Section registration.
Context {W V : Type}.

Definition NewGRPCHandler (mux : HTTPHandler W) : GRPCHandler W V :=
  {| gh_methods := ∅; gh_restRoutes := []; gh_interceptors := []; gh_chained := None; gh_debugMux := mux |}.

Definition RegisterMethod (path : string) (m : MethodInfo W V) (h : GRPCHandler W V) : GRPCHandler W V :=
  {| gh_methods := <[path := m]> (gh_methods h); gh_restRoutes := gh_restRoutes h;
     gh_interceptors := gh_interceptors h; gh_chained := gh_chained h; gh_debugMux := gh_debugMux h |}.

Definition RegisterRESTRoute (method pattern handlerPath : string) (h : GRPCHandler W V) : GRPCHandler W V :=
  {| gh_methods := gh_methods h;
     gh_restRoutes := gh_restRoutes h ++ [newRESTRoute method pattern handlerPath];
     gh_interceptors := gh_interceptors h; gh_chained := gh_chained h; gh_debugMux := gh_debugMux h |}.

(** [getChainHandler(interceptors, curr, info, final)]; [fuel] counts the
    interceptors after [curr]. *)
Fixpoint getChainHandler (fuel : nat) (interceptors : list (UnaryServerInterceptor W V)) (curr : nat)
    (info : UnaryServerInfo) (finalHandler : UnaryHandler W V) : UnaryHandler W V :=
  match fuel with
  | O => finalHandler
  | S fuel' =>
      if (S curr =? length interceptors)%nat then finalHandler
      else
        match interceptors !! S curr with
        | Some i => nest info i (getChainHandler fuel' interceptors (S curr) info finalHandler)
        | None => finalHandler
        end
  end.

Definition chainInterceptors (interceptors : list (UnaryServerInterceptor W V))
  : option (UnaryServerInterceptor W V) :=
  match interceptors with
  | [] => None
  | [i] => Some i
  | i0 :: _ => Some (fun ctx req info handler w =>
      i0 ctx req info (getChainHandler (length interceptors) interceptors 0 info handler) w)
  end.

Definition AddInterceptor (i : UnaryServerInterceptor W V) (h : GRPCHandler W V) : GRPCHandler W V :=
  let all := gh_interceptors h ++ [i] in
  {| gh_methods := gh_methods h; gh_restRoutes := gh_restRoutes h; gh_interceptors := all;
     gh_chained := chainInterceptors all; gh_debugMux := gh_debugMux h |}.

(** The call of a handler through the chain, as both unary branches make it. *)
Definition call_chain (h : GRPCHandler W V) (methodPath : string) (m : MethodInfo W V)
    (ctx : context) (req : V) (w : W) : W * res error V :=
  match gh_chained h with
  | Some chained => chained ctx req {| FullMethod := methodPath |} (mi_Handler m) w
  | None => mi_Handler m ctx req w
  end.
End registration.

(** ** gRPC-Web framing *)
Definition crlf : string := String "013" (String "010" "").

Definition web_content_type (isText : bool) : string :=
  if isText then "application/grpc-web-text" else "application/grpc-web".

Definition web_encode (isText : bool) (out : bytes) : bytes :=
  if isText then base64_Encode out else out.

Definition trailers (status msg : string) : string :=
  "grpc-status: " +:+ status +:+ crlf +:+ "grpc-message: " +:+ msg +:+ crlf.

Definition writeGrpcWebError (isText : bool) (status msg : string) (rw : ResponseWriter) : ResponseWriter :=
  let rw := set_header "Content-Type" (web_content_type isText) rw in
  let out := frame 128 (to_bytes (trailers status msg)) in
  Write_ (web_encode isText out) (WriteHeader 200 rw).

(** A gRPC error without a body. *)
Definition write_grpc_status (status msg : string) (rw : ResponseWriter) : ResponseWriter :=
  WriteHeader 200 (set_header "grpc-message" msg (set_header "grpc-status" status rw)).

Section serve.
Context {W V C : Type} `{MapIter} `{Message V} `{HasClock W}.
Context (reg : registry) (ws : websocket C) (ws_respond : C -> ResponseWriter -> ResponseWriter).
(** [sonic.Marshal] of the error object of an event stream. *)
Context (json_error : string -> string).

Definition is_debug_path (path : string) : bool :=
  HasPrefix path "/__helix/" || bool_decide (path = "/metrics") || bool_decide (path = "/metrics/").

(** The method path of a request and its path parameters; query values are stored
    over them. *)
Definition resolve (h : GRPCHandler W V) (r : Request) : string * gmap string string :=
  match matchREST (r_method r) (r_path r) (gh_restRoutes h) with
  | Some (route, params) =>
      (rt_HandlerPath route,
       foldl (fun ps '(k, vs) => match vs with v :: _ => <[k := v]> ps | [] => ps end)
         params (range_map 4 (r_query r)))
  | None => (r_path r, ∅)
  end.

Definition metadata_of (headers : Header) : MD :=
  foldl (fun md '(k, v) => <[ToLower k := v]> md) ∅ (range_map 5 headers).

Definition request_context (now : Z) (r : Request) : context :=
  contextWithDeadlineFromHeaders now (NewContext (r_ctx r) (metadata_of (r_header r))) (r_header r).

(** An empty JSON body reads as an empty object. *)
Definition json_payload (payload : bytes) : bytes :=
  match payload with [] => to_bytes "{}" | _ => payload end.

Definition json_dec : dec_fun V := fun v b =>
  match ReadAll b with
  | (b, (payload, Some e)) =>
      match e with ErrEOF => (b, json_Unmarshal (json_payload payload) v) | _ => (b, Err e) end
  | (b, (payload, None)) => (b, json_Unmarshal (json_payload payload) v)
  end.

(** *** JSON *)
Definition serve_json (h : GRPCHandler W V) (methodPath : string) (m : MethodInfo W V)
    (params : gmap string string) (ctx : context) (b : body) (rw : ResponseWriter) (w : W)
  : W * ResponseWriter :=
  match mi_Decoder m json_dec b with
  | (_, Err e) => (w, http_Error ("failed to decode request: " +:+ Error e) 400 rw)
  | (_, Ok req) =>
      let bound := match mi_Binder m with
                   | Some bind => if bool_decide (params = ∅) then Ok req else bind req params
                   | None => Ok req
                   end in
      match bound with
      | Err e => (w, http_Error ("failed to bind path parameters: " +:+ Error e) 400 rw)
      | Ok req =>
          match call_chain h methodPath m ctx req w with
          | (w, Err e) => (w, http_Error ("method execution failed: " +:+ Error e) 500 rw)
          | (w, Ok resp) =>
              match json_Encode resp with
              | Err _ => (w, http_Error "failed to marshal json response" 500 rw)
              | Ok out =>
                  (w, Write_ out (WriteHeader 200 (set_header "Content-Type" "application/json" rw)))
              end
          end
      end
  end.

(** *** Streams *)
Definition serve_sse (m : MethodInfo W V) (ctx : context) (b : body) (rw : ResponseWriter) (w : W)
  : W * ResponseWriter :=
  match ReadAll b with
  | (_, (payload, err)) =>
      match (match err with Some ErrEOF => None | e => e end) with
      | Some e => (w, http_Error (Error e) 400 rw)
      | None =>
          let rw := set_header "Content-Type" "text/event-stream" rw in
          let rw := set_header "Cache-Control" "no-cache" rw in
          let rw := set_header "Connection" "keep-alive" rw in
          let rw := WriteHeader 200 rw in
          let s := {| sse_w := rw; sse_payload := json_payload payload; sse_read := false |} in
          let '(s, w, err) := run_stream (mi_StreamHandler m ctx) s w in
          let rw := match err with
                    | Some e => Write_ (to_bytes ("data: " +:+ json_error (Error e)) ++ [x0a; x0a]) (sse_w s)
                    | None => sse_w s
                    end in
          (w, Write_ (to_bytes "data: [DONE]" ++ [x0a; x0a]) rw)
      end
  end.

(** The stream value is built without its codec, and the status is set on the
    header map after the header was sent. *)
Definition serve_stream (m : MethodInfo W V) (ctx : context) (b : body) (rw : ResponseWriter) (w : W)
  : W * ResponseWriter :=
  let rw := WriteHeader 200 (set_header "Content-Type" "application/grpc" rw) in
  let s := {| ss_w := rw; ss_body := b; ss_codec := "" |} in
  let '(s, w, err) := run_stream (mi_StreamHandler m ctx) s w in
  match err with
  | Some e => (w, set_header "grpc-message" (Error e) (set_header "grpc-status" "13" (ss_w s)))
  | None => (w, set_header "grpc-status" "0" (ss_w s))
  end.

Definition serve_websocket (m : MethodInfo W V) (r : Request) (rw : ResponseWriter) (w : W)
  : W * ResponseWriter :=
  match ws_Upgrade ws rw r with
  | (rw, Err e) => (w, http_Error ("failed to upgrade to websocket: " +:+ Error e) 400 rw)
  | (rw, Ok conn) =>
      let _ := WebSocketStream_stream ws : ServerStream (WebSocketStream C) V in
      let '(s, w, _) := run_stream (mi_StreamHandler m (r_ctx r)) {| wss_conn := conn |} w in
      (w, ws_respond (wss_conn s) rw)
  end.

(** *** Framed unary calls (gRPC and gRPC-Web) *)
Definition unary_dec (codec grpcEncoding : string) : dec_fun V := fun v b =>
  match read_frame b with
  | (b, Err e) => (b, Err e)
  | (b, Ok (flag, payload)) =>
      let plain :=
        if (flag =? 1) && negb (bool_decide (grpcEncoding = "")) then
          match getCompressor reg grpcEncoding with
          | Some c => match c_Decompress c payload with
                      | Err e => Err (WrapError "failed to decompress payload: " e)
                      | Ok p => Ok p
                      end
          | None => Ok payload
          end
        else Ok payload in
      (b, let? p := plain in decode_with codec v p)
  end.

(** The compression of a response: the flag and the payload. *)
Definition compress_response (grpcEncoding : string) (payload : bytes) : Z * bytes :=
  if bool_decide (grpcEncoding = "") then (0, payload)
  else match getCompressor reg grpcEncoding with
       | Some c => match c_Compress c payload with Ok out => (1, out) | Err _ => (0, payload) end
       | None => (0, payload)
       end.

Definition write_unary (isWeb isText : bool) (grpcEncoding : string) (payload : bytes) (rw : ResponseWriter)
  : ResponseWriter :=
  let '(flag, respPayload) := compress_response grpcEncoding payload in
  let buf := frame flag respPayload in
  let with_encoding rw := if flag =? 1 then set_header "grpc-encoding" grpcEncoding rw else rw in
  if isWeb then
    let rw := with_encoding (set_header "Content-Type" (web_content_type isText) rw) in
    let out := buf ++ frame 128 (to_bytes (trailers "0" "")) in
    Write_ (web_encode isText out) (WriteHeader 200 rw)
  else
    let rw := with_encoding (set_header "Content-Type" "application/grpc" rw) in
    Write_ buf (WriteHeader 200 (set_header "grpc-status" "0" rw)).

Definition unary_error (isWeb isText : bool) (status msg : string) (rw : ResponseWriter) : ResponseWriter :=
  if isWeb then writeGrpcWebError isText status msg rw else write_grpc_status status msg rw.

Definition serve_unary (h : GRPCHandler W V) (methodPath : string) (m : MethodInfo W V)
    (codec grpcEncoding : string) (isWeb isText : bool) (ctx : context) (b : body)
    (rw : ResponseWriter) (w : W) : W * ResponseWriter :=
  let fail := unary_error isWeb isText in
  match mi_Decoder m (unary_dec codec grpcEncoding) b with
  | (_, Err e) => (w, fail "3" (Error e) rw)
  | (_, Ok req) =>
      match call_chain h methodPath m ctx req w with
      | (w, Err e) => (w, fail "13" (Error e) rw)
      | (w, Ok resp) =>
          match as_ProtoMarshaler resp with
          | None => (w, fail "13" "response does not implement ProtoMarshaler" rw)
          | Some (Err e) => (w, fail "13" (Error e) rw)
          | Some (Ok payload) => (w, write_unary isWeb isText grpcEncoding payload rw)
          end
      end
  end.

(** *** [ServeHTTP] *)
Definition ServeHTTP (h : GRPCHandler W V) : HTTPHandler W := fun rw r w =>
  if is_debug_path (r_path r) then gh_debugMux h rw r w
  else
    let '(methodPath, params) := resolve h r in
    match gh_methods h !! methodPath with
    | None => (w, write_grpc_status "12" ("path " +:+ r_path r +:+ " not found") rw)
    | Some m =>
        let ctx := request_context (now_of w) r in
        let contentType := Header_Get (r_header r) "Content-Type" in
        let grpcEncoding := Header_Get (r_header r) "grpc-encoding" in
        let isText := Contains contentType "application/grpc-web-text" in
        let isWeb := isText || Contains contentType "application/grpc-web" in
        let isFlatBuffers := Contains contentType "application/x-flatbuffers"
                             || Contains contentType "application/grpc+flatbuffers" in
        let codec := if isFlatBuffers then "flatbuffers" else "proto" in
        let b := if isText then base64_NewDecoder (r_body r) else r_body r in
        if ws_IsUpgrade ws r && mi_IsStreaming m then serve_websocket m r rw w
        else
          let contentType := if bool_decide (contentType = "") then "application/json" else contentType in
          let isJSON := Contains contentType "application/json" in
          if isJSON && negb (mi_IsStreaming m) then serve_json h methodPath m params ctx b rw w
          else if mi_IsStreaming m then
            if Contains (Header_Get (r_header r) "Accept") "text/event-stream" || isJSON
            then serve_sse m ctx b rw w
            else serve_stream m ctx b rw w
          else serve_unary h methodPath m codec grpcEncoding isWeb isText ctx b rw w
    end.
End serve.

(** ** Lemmas *)
Lemma chain_from {W V} (interceptors : list (UnaryServerInterceptor W V)) info final fuel curr :
  (length interceptors <= curr + fuel)%nat -> (curr < length interceptors)%nat ->
  getChainHandler fuel interceptors curr info final
  = foldr (nest info) final (drop (S curr) interceptors).
Proof.
  revert curr. induction fuel as [|fuel IH]; intros curr Hf Hc; [lia|]. cbn [getChainHandler].
  destruct (Nat.eqb_spec (S curr) (length interceptors)) as [E|E].
  - rewrite drop_ge by lia. done.
  - destruct (lookup_lt_is_Some_2 interceptors (S curr)) as [i Hi]; [lia|].
    rewrite (drop_S _ _ _ Hi), Hi. cbn [foldr]. rewrite IH by lia. done.
Qed.

(** The query overlay of [resolve]. *)
Lemma overlay_lookup (l : list (string * list string)) (ps : gmap string string) k :
  NoDup (l.*1) ->
  foldl (fun ps '(k, vs) => match vs with v :: _ => <[k := v]> ps | [] => ps end) ps l !! k
  = match list_to_map (M := gmap string (list string)) l !! k with
    | Some (v :: _) => Some v
    | _ => ps !! k
    end.
Proof.
  revert ps. induction l as [|[k' vs] l IH]; intros ps Hnd; [done|].
  cbn [fmap list_fmap fst] in Hnd. apply NoDup_cons in Hnd as [Hk' Hnd]. cbn [foldl]. rewrite IH by done.
  cbn [list_to_map foldr]. change (list_to_map ((k', vs) :: l)) with (<[k' := vs]> (list_to_map l : gmap string (list string))).
  destruct (decide (k' = k)) as [->|Hne].
  - rewrite lookup_insert_eq. apply not_elem_of_list_to_map_1 in Hk' as ->.
    destruct vs; [done|]. by rewrite lookup_insert_eq.
  - rewrite lookup_insert_ne by done. destruct (list_to_map l !! k) as [[|v vs']|]; [|done|];
      destruct vs; rewrite ?lookup_insert_ne; done.
Qed.

Lemma run_stream_sent {W V} `{Message V} (p : stream_prog W V) (s : serverStream) (w : W) c hd :
  rw_sent (ss_w s) = Some (c, hd) ->
  rw_sent (ss_w (fst (fst (run_stream p s w)))) = Some (c, hd).
Proof.
  revert s w. induction p as [err|v k IH|v k IH|k IH|w' k IH]; intros s w Hs; cbn; [done| | |auto|auto].
  - unfold ss_Recv. destruct (read_frame (ss_body s)) as [b [[f pl]|e]]; apply IH; done.
  - unfold ss_Send. destruct (encode_with _ _) as [pl|e]; [|by apply IH].
    pose proof (Write_sent (byte_of_Z 0 :: PutUint32 (u32 (Z.of_nat (length pl)))) (ss_w s) c hd Hs) as H1.
    destruct (Write _ (ss_w s)) as [w1 [e|]]; [by apply IH|]. cbn in H1.
    pose proof (Write_sent pl w1 c hd H1) as H2.
    destruct (Write pl w1) as [w2 e]. apply IH. done.
Qed.

Lemma compress_response_length reg enc payload flag out :
  compress_response reg enc payload = (flag, out) -> flag = 0 \/ flag = 1.
Proof.
  unfold compress_response. case_bool_decide; [intros [= <- _]; auto|].
  destruct (getCompressor reg enc) as [c|]; [|intros [= <- _]; auto].
  destruct (c_Compress c payload); intros [= <- _]; auto.
Qed.

(** A peer that frames with [compress_response] is understood by [unary_dec]. *)
Lemma unary_dec_compress {V} `{Message V} reg codec enc (v : V) payload flag data e :
  compress_response reg enc payload = (flag, data) ->
  (forall c, getCompressor reg enc = Some c -> lossless c) ->
  in_u 32 (Z.of_nat (length data)) ->
  snd (unary_dec reg codec enc v {| b_data := frame flag data; b_end := e |}) = decode_with codec v payload.
Proof.
  intros Hc Hl Hlen. unfold unary_dec. rewrite <- (app_nil_r (frame flag data)).
  rewrite read_frame_app; [|destruct (compress_response_length _ _ _ _ _ Hc) as [->| ->]; by vm_compute|done].
  cbn [snd]. unfold compress_response in Hc. case_bool_decide as He.
  - injection Hc as <- <-. done.
  - destruct (getCompressor reg enc) as [c|]; cycle 1.
    { injection Hc as <- <-. done. }
    destruct (c_Compress c payload) as [out|] eqn:Eo; injection Hc as <- <-; [|done].
    cbn. by rewrite (Hl c eq_refl _ _ Eo).
Qed.

(** ** Requests of a gRPC client *)
Definition grpc_headers (enc : string) : Header :=
  <["Grpc-Encoding" := [enc]]> {["Content-Type" := ["application/grpc"]]}.

Definition grpc_request (path enc : string) (data : bytes) : Request := {|
  r_method := "POST"; r_path := path; r_query := ∅; r_header := grpc_headers enc;
  r_remote := ""; r_ctx := Background; r_body := {| b_data := data; b_end := None |} |}.

Section properties.
Context {W V C : Type} `{MapIter} `{Message V} `{HasClock W}.
Context (reg : registry) (ws : websocket C) (ws_respond : C -> ResponseWriter -> ResponseWriter).
Context (json_error : string -> string).
Abbreviation serve := (ServeHTTP reg ws ws_respond json_error).

(** A framed request of a plain gRPC client reaches the unary branch. *)
Lemma serve_grpc_unary (h : GRPCHandler W V) path m enc data w rw :
  is_debug_path path = false -> matchREST "POST" path (gh_restRoutes h) = None ->
  gh_methods h !! path = Some m -> mi_IsStreaming m = false ->
  serve h rw (grpc_request path enc data) w =
  serve_unary reg h path m "proto" enc false false
    (request_context (now_of w) (grpc_request path enc data)) {| b_data := data; b_end := None |} rw w.
Proof.
  intros Hd Hr Hm Hs. unfold ServeHTTP, resolve. cbn [r_path r_method grpc_request].
  rewrite Hd, Hr, Hm. cbn [r_header r_body grpc_request].
  assert (Header_Get (grpc_headers enc) "Content-Type" = "application/grpc") as Hct.
  { unfold Header_Get, grpc_headers. cbn [CanonicalHeaderKey].
    change (CanonicalHeaderKey "Content-Type") with "Content-Type".
    rewrite lookup_insert_ne by done. by rewrite lookup_singleton_eq. }
  assert (Header_Get (grpc_headers enc) "grpc-encoding" = enc) as Hge.
  { unfold Header_Get, grpc_headers. change (CanonicalHeaderKey "grpc-encoding") with "Grpc-Encoding".
    by rewrite lookup_insert_eq. }
  rewrite Hct, Hge, Hs, andb_false_r. reflexivity.
Qed.
End properties.

(** ** Properties *)

(** C25: interceptors nest in registration order: the chain of any number of
    interceptors is the first one wrapped around the second, and so on around the
    handler. *)
Theorem interceptor_chain_order {W V} (interceptors : list (UnaryServerInterceptor W V))
    (ctx : context) (req : V) (info : UnaryServerInfo) (handler : UnaryHandler W V) (w : W) :
  match chainInterceptors interceptors with
  | None => interceptors = []
  | Some c => c ctx req info handler w
              = foldr (nest info) handler interceptors ctx req w
  end.
Proof.
  unfold chainInterceptors. destruct interceptors as [|i0 [|i1 rest]]; [done|done|].
  rewrite chain_from by (cbn; lia). done.
Qed.

(** a unary gRPC call, end to end.  For a registered, non-streaming method with
    the generated one-message decoder, a client that frames its request (compressed
    when a codec is registered for the encoding) gets the handler's response: status
    200, [grpc-status: 0], and one frame that the same decoder reads back as the
    marshalled response.  The handler runs behind the interceptor chain on exactly
    the decoded request. *)
Theorem grpc_unary_call {W V C} `{MapIter} `{Message V} `{HasClock W}
    (reg : registry) (ws : websocket C) (ws_respond : C -> ResponseWriter -> ResponseWriter)
    (json_error : string -> string) (h : GRPCHandler W V) (path enc : string) (m : MethodInfo W V)
    (v0 req resp v1 : V) (payload out data data' : bytes) (flag flag' : Z) (w w' : W) :
  is_debug_path path = false -> matchREST "POST" path (gh_restRoutes h) = None ->
  gh_methods h !! path = Some m -> mi_IsStreaming m = false ->
  mi_Decoder m = (fun dec b => dec v0 b) ->
  (forall c, getCompressor reg enc = Some c -> lossless c) ->
  compress_response reg enc payload = (flag, data) ->
  compress_response reg enc out = (flag', data') ->
  in_u 32 (Z.of_nat (length data)) -> in_u 32 (Z.of_nat (length data')) ->
  decode_with "proto" v0 payload = Ok req ->
  call_chain h path m (request_context (now_of w) (grpc_request path enc (frame flag data))) req w
    = (w', Ok resp) ->
  as_ProtoMarshaler resp = Some (Ok out) ->
  exists rw, ServeHTTP reg ws ws_respond json_error h new_writer
               (grpc_request path enc (frame flag data)) w = (w', rw) /\
    fst (fst (response rw)) = 200 /\ Header_Get (snd (fst (response rw))) "grpc-status" = "0" /\
    snd (unary_dec reg "proto" enc v1 {| b_data := snd (response rw); b_end := None |})
      = decode_with "proto" v1 out.
Proof.
  intros Hd Hr Hm Hs Hdec Hl Ec Eo Hlen Hlen' Hreq Hcall Hmar.
  rewrite (serve_grpc_unary reg ws ws_respond json_error h path m) by done.
  unfold serve_unary. rewrite Hdec.
  pose proof (unary_dec_compress reg "proto" enc v0 payload flag data None Ec Hl Hlen) as Hu.
  destruct (unary_dec reg "proto" enc v0 _) as [b' rq]. cbn in Hu. rewrite Hreq in Hu. subst rq.
  rewrite Hcall, Hmar. eexists. split; [done|]. unfold write_unary. rewrite Eo.
  split_and!.
  - by destruct (flag' =? 1).
  - destruct (flag' =? 1); reflexivity.
  - rewrite <- (unary_dec_compress reg "proto" enc v1 out flag' data' None Eo Hl Hlen').
    by destruct (flag' =? 1).
Qed.

(** A concrete server: raw byte messages, a store-only codec, one echo method. *)
Definition no_websocket : websocket unit := {|
  ws_IsUpgrade _ := false; ws_Upgrade rw _ := (rw, Err ErrClosed);
  ws_ReadMessage c := (c, Err ErrEOF); ws_WriteMessage _ c := (c, Some ErrClosed) |}.

Definition echo_method : MethodInfo Z bytes := {|
  mi_Decoder := fun dec b => dec [] b;
  mi_Handler := fun ctx req w => (w + 1, Ok (req ++ to_bytes "!"));
  mi_Binder := None; mi_IsStreaming := false;
  mi_StreamHandler := fun _ => SReturn None |}.

#[local] Instance Z_clock : HasClock Z := {| now_of w := w |}.

Definition echo_handler : GRPCHandler Z bytes :=
  RegisterMethod "/echo.Echo/Say" echo_method (NewGRPCHandler (fun rw _ w => (w, rw))).

Lemma grpc_unary_call_witness :
  exists rw, ServeHTTP (compressorRegistry stored_codec) no_websocket (fun _ rw => rw) (fun s => s)
      echo_handler new_writer
      (grpc_request "/echo.Echo/Say" "gzip" (frame 1 (x1f :: to_bytes "hi"))) 5 = (6, rw) /\
    fst (fst (response rw)) = 200 /\ Header_Get (snd (fst (response rw))) "grpc-status" = "0" /\
    snd (unary_dec (compressorRegistry stored_codec) "proto" "gzip" ([] : bytes)
           {| b_data := snd (response rw); b_end := None |}) = decode_with "proto" [] (to_bytes "hi!").
Proof.
  apply (grpc_unary_call (compressorRegistry stored_codec) no_websocket (fun _ rw => rw) (fun s => s)
    echo_handler "/echo.Echo/Say" "gzip" echo_method [] (to_bytes "hi") (to_bytes "hi!") []
    (to_bytes "hi") (to_bytes "hi!") (x1f :: to_bytes "hi") (x1f :: to_bytes "hi!") 1 1 5 6);
    try reflexivity.
  - intros c. cbn. intros [= <-]. apply GzipCompressor_lossless, stored_codec_sound.
  - by vm_compute.
  - by vm_compute.
Defined.

(** streaming methods are not guarded.  Whatever interceptors (authentication,
    rate limits) are added, a request for a streaming method is served exactly as
    without them. *)
Theorem streaming_skips_interceptors {W V C} `{MapIter} `{Message V} `{HasClock W}
    (reg : registry) (ws : websocket C) (ws_respond : C -> ResponseWriter -> ResponseWriter)
    (json_error : string -> string) (h : GRPCHandler W V) (added : list (UnaryServerInterceptor W V))
    (m : MethodInfo W V) (rw : ResponseWriter) (r : Request) (w : W) :
  gh_methods h !! fst (resolve h r) = Some m -> mi_IsStreaming m = true ->
  ServeHTTP reg ws ws_respond json_error (foldr AddInterceptor h added) rw r w
  = ServeHTTP reg ws ws_respond json_error h rw r w.
Proof.
  intros Hm Hs.
  assert (Hsame : gh_methods (foldr AddInterceptor h added) = gh_methods h /\
                  gh_debugMux (foldr AddInterceptor h added) = gh_debugMux h /\
                  gh_restRoutes (foldr AddInterceptor h added) = gh_restRoutes h).
  { induction added as [|i added IH]; [done|]. cbn. exact IH. }
  destruct Hsame as (Hs1 & Hs2 & Hs3). unfold ServeHTTP. unfold resolve in *. rewrite Hs1, Hs2, Hs3.
  destruct (is_debug_path _); [done|].
  destruct (match matchREST _ _ _ with Some _ => _ | None => _ end) as [mp ps]. cbn in Hm. rewrite Hm.
  rewrite Hs, !andb_true_r, !andb_false_r. done.
Qed.

(** the status of a gRPC stream never reaches the client.  Whatever the stream
    handler does and returns, the response carries the status line and the header
    sent at the start, without a [grpc-status]. *)
Theorem stream_status_lost {W V} `{Message V} (m : MethodInfo W V) (ctx : context) (b : body) (w : W) :
  let rw := snd (serve_stream m ctx b new_writer w) in
  fst (response rw) = (200, {["Content-Type" := ["application/grpc"]]}) /\
  Header_Get (snd (fst (response rw))) "grpc-status" = "".
Proof.
  cbn zeta.
  assert (Hf : fst (response (snd (serve_stream m ctx b new_writer w)))
               = (200, {["Content-Type" := ["application/grpc"]]})); [|by rewrite Hf].
  unfold serve_stream.
  set (s := {| ss_w := WriteHeader 200 _; ss_body := b; ss_codec := "" |}).
  assert (rw_sent (ss_w s) = Some (200, {["Content-Type" := ["application/grpc"]]} : Header)) as Hs0
    by (vm_compute; reflexivity).
  pose proof (run_stream_sent (mi_StreamHandler m ctx) s w _ _ Hs0) as Hsent.
  destruct (run_stream _ s w) as [[s' w'] err]. cbn [fst] in Hsent.
  unfold response. destruct err; cbn [snd set_header rw_sent]; by rewrite Hsent.
Qed.

(** the code of an error is lost.  Whatever error the chain or the handler
    returns, also one with a code of its own, a gRPC client sees status 13 and a
    JSON client sees 500. *)
Theorem error_code_lost {W V} `{Message V} (reg : registry) (h : GRPCHandler W V) (path : string)
    (m : MethodInfo W V) (codec enc : string) (params : gmap string string) (ctx : context) (b b' : body)
    (req : V) (w w' : W) (e : error) :
  mi_Binder m = None -> call_chain h path m ctx req w = (w', Err e) ->
  (mi_Decoder m (unary_dec reg codec enc) b = (b', Ok req) ->
     Header_Get (snd (fst (response (snd (serve_unary reg h path m codec enc false false ctx b new_writer w)))))
       "grpc-status" = "13") /\
  (mi_Decoder m json_dec b = (b', Ok req) ->
     fst (fst (response (snd (serve_json h path m params ctx b new_writer w)))) = 500).
Proof.
  intros Hb Hc. split; intros Hd.
  - unfold serve_unary. rewrite Hd, Hc. reflexivity.
  - unfold serve_json. rewrite Hd, Hb, Hc. reflexivity.
Qed.

Definition denying_handler : GRPCHandler Z bytes :=
  AddInterceptor (fun ctx req info k w => (w, Err (HelixError CodeUnauthenticated "missing API key"))) echo_handler.

Lemma error_code_lost_witness :
  Header_Get (snd (fst (response (snd (serve_unary ∅ denying_handler "/echo.Echo/Say" echo_method "proto" ""
    false false Background {| b_data := frame 0 []; b_end := None |} new_writer 0))))) "grpc-status" = "13" /\
  fst (ToGRPCStatus (Some (HelixError CodeUnauthenticated "missing API key"))) = "16".
Proof.
  split; [|reflexivity].
  refine (proj1 (error_code_lost ∅ denying_handler "/echo.Echo/Say" echo_method "proto" "" ∅ Background
    {| b_data := frame 0 []; b_end := None |} {| b_data := []; b_end := None |} [] 0 0
    (HelixError CodeUnauthenticated "missing API key") _ _) _); reflexivity.
Defined.

(** gRPC-Web errors are readable: the body of an error answer, after base64
    decoding in text mode, is one trailer frame with the status and the message. *)
Theorem grpc_web_error_readable (isText : bool) (status msg : string) :
  in_u 32 (Z.of_nat (length (to_bytes (trailers status msg)))) ->
  let out := snd (response (writeGrpcWebError isText status msg new_writer)) in
  let b := {| b_data := out; b_end := None |} in
  read_frame (if isText then base64_NewDecoder b else b)
    = ({| b_data := []; b_end := None |}, Ok (128, to_bytes (trailers status msg))).
Proof.
  intros Hlen. cbn zeta. set (t := to_bytes (trailers status msg)) in *.
  assert (Hout : snd (response (writeGrpcWebError isText status msg new_writer)) = web_encode isText (frame 128 t))
    by reflexivity.
  rewrite Hout. unfold web_encode.
  destruct isText; rewrite ?base64_NewDecoder_encode; rewrite <- (app_nil_r (frame 128 t));
    apply read_frame_app; done || by vm_compute.
Qed.

Lemma grpc_web_error_readable_witness :
  read_frame (base64_NewDecoder
    {| b_data := snd (response (writeGrpcWebError true "3" "bad" new_writer)); b_end := None |})
    = ({| b_data := []; b_end := None |}, Ok (128, to_bytes (trailers "3" "bad"))).
Proof. apply (grpc_web_error_readable true "3" "bad"). vm_compute. split; [discriminate|reflexivity]. Defined.

(** query values override path parameters: whatever value the path binds to a
    parameter, a query value of the same name replaces it. *)
Theorem query_overrides_path {W V} `{MapIter} (h : GRPCHandler W V) (r : Request) (route : RESTRoute)
    (params : gmap string string) (k v : string) (vs : list string) :
  matchREST (r_method r) (r_path r) (gh_restRoutes h) = Some (route, params) ->
  r_query r !! k = Some (v :: vs) ->
  snd (resolve h r) !! k = Some v.
Proof.
  intros Hm Hq. unfold resolve. rewrite Hm. cbn [snd].
  rewrite overlay_lookup.
  - assert (list_to_map (range_map 4 (r_query r)) = r_query r) as ->; [|by rewrite Hq].
    rewrite <- (list_to_map_to_list (r_query r)) at 2. apply list_to_map_proper; [|apply range_map_perm].
    rewrite range_map_perm. apply NoDup_fst_map_to_list.
  - rewrite range_map_perm. apply NoDup_fst_map_to_list.
Qed.

Definition user_handler : GRPCHandler Z bytes :=
  RegisterRESTRoute "GET" "/v1/users/{id}" "/users.Users/Get" echo_handler.

Definition user_request : Request := {|
  r_method := "GET"; r_path := "/v1/users/42"; r_query := {["id" := ["7"]]}; r_header := ∅;
  r_remote := ""; r_ctx := Background; r_body := {| b_data := []; b_end := None |} |}.

Lemma query_overrides_path_witness : snd (resolve user_handler user_request) !! "id" = Some "7".
Proof.
  apply (query_overrides_path user_handler user_request
    (newRESTRoute "GET" "/v1/users/{id}" "/users.Users/Get") {["id" := "42"]} "id" "7" []); reflexivity.
Defined.

Definition feed_method : MethodInfo Z bytes := {|
  mi_Decoder := fun dec b => dec [] b;
  mi_Handler := fun ctx req w => (w, Err ErrClosed);
  mi_Binder := None; mi_IsStreaming := true;
  mi_StreamHandler := fun _ => SSend (to_bytes "secret") (fun e => SReturn e) |}.

Definition feed_handler : GRPCHandler Z bytes :=
  RegisterMethod "/feed.Feed/Watch" feed_method (NewGRPCHandler (fun rw _ w => (w, rw))).

Lemma streaming_skips_interceptors_witness :
  ServeHTTP ∅ no_websocket (fun _ rw => rw) (fun s => s)
    (AddInterceptor (fun ctx req info k w => (w, Err (HelixError CodeUnauthenticated "no"))) feed_handler)
    new_writer (grpc_request "/feed.Feed/Watch" "" []) 0
  = ServeHTTP ∅ no_websocket (fun _ rw => rw) (fun s => s) feed_handler
      new_writer (grpc_request "/feed.Feed/Watch" "" []) 0.
Proof.
  apply (streaming_skips_interceptors ∅ no_websocket (fun _ rw => rw) (fun s => s) feed_handler
    [fun ctx req info k w => (w, Err (HelixError CodeUnauthenticated "no"))] feed_method); reflexivity.
Defined.
