(* ===== verification/Gateway.v ===== *)
(** * The rate limiter behind the RPC handler

    What the rate-limit interceptor sees of a request served by the handler: its
    key is computed from the metadata, which [ServeHTTP] fills from the request
    headers only. *)
From S2P Require Import Prelude GoStrings GoFloat Errors Context Http ClientBucket RateLimit Routing Compression Streams GrpcHandler.

(** ** Lemmas *)
Lemma metadata_fold_lookup (l : list (string * list string)) (md : MD) k :
  foldl (fun md '(h, v) => <[ToLower h := v]> md) md l !! k
  = match last (filter (fun p => ToLower (fst p) = k) l) with
    | Some (_, v) => Some v
    | None => md !! k
    end.
Proof.
  induction l as [|[h v] l IH] using rev_ind; [done|].
  rewrite foldl_app, filter_app. cbn [foldl]. rewrite filter_cons, filter_nil. cbn [fst].
  case_decide as E.
  - rewrite last_snoc. rewrite E. apply lookup_insert_eq.
  - rewrite app_nil_r, lookup_insert_ne by done. exact IH.
Qed.

Lemma metadata_of_lookup `{MapIter} (headers : Header) (k : string) :
  (forall h, ToLower h = k -> is_Some (headers !! h) -> False) -> metadata_of headers !! k = None.
Proof.
  intros Hno. unfold metadata_of. rewrite metadata_fold_lookup.
  destruct (last _) as [[h v]|] eqn:E; [|apply lookup_empty].
  exfalso. apply last_Some_elem_of, list_elem_of_filter in E as [Hk Hin].
  apply elem_of_range_map in Hin. apply (Hno h Hk). by eexists.
Qed.

Lemma metadata_of_unique `{MapIter} (headers : Header) (h k : string) :
  ToLower h = k -> (forall h', ToLower h' = k -> is_Some (headers !! h') -> h' = h) ->
  metadata_of headers !! k = headers !! h.
Proof.
  intros Hk Hu. unfold metadata_of. rewrite metadata_fold_lookup.
  destruct (last _) as [[h' v]|] eqn:E.
  - apply last_Some_elem_of, list_elem_of_filter in E as [Hk' Hin].
    apply elem_of_range_map in Hin. rewrite <- (Hu h' Hk' ltac:(by eexists)). done.
  - rewrite lookup_empty. destruct (headers !! h) as [v|] eqn:Eh; [|done]. exfalso.
    apply last_None in E. assert (Hin : (h, v) ∈ filter (fun p => ToLower (fst p) = k) (range_map 5 headers)).
    { apply list_elem_of_filter. split; [done|]. by apply elem_of_range_map. }
    rewrite E in Hin. by apply elem_of_nil in Hin.
Qed.

(** ** Properties *)

(** the limiter's key is chosen by the caller.  For a request whose only
    forwarding header is [X-Forwarded-For] and which (like every HTTP request)
    has no header [:remote-addr], the key under which the interceptor charges it is
    the value of that header, or the shared key [unknown] without one; the peer
    address plays no part. *)
Theorem limiter_key_from_headers `{MapIter} (now : Z) (r : Request) :
  (forall h, ToLower h = ":remote-addr" -> r_header r !! h = None) ->
  (forall h, ToLower h = "x-forwarded-for" -> is_Some (r_header r !! h) -> h = "X-Forwarded-For") ->
  rl_key (fst (FromContext (request_context now r)))
  = match r_header r !! "X-Forwarded-For" with Some (v :: _) => v | _ => "unknown" end.
Proof.
  intros Hno Hu.
  assert (Hmd : fst (FromContext (request_context now r)) = metadata_of (r_header r)).
  { unfold request_context, contextWithDeadlineFromHeaders. generalize (range_map 1 (r_header r)).
    intros l. induction l as [|[k vals] l IH]; [done|]. cbn [deadline_loop].
    case_bool_decide; [|exact IH]. destruct vals as [|v vals]; [exact IH|].
    destruct (parseGRPCTimeout v) as [d []]; [done|exact IH]. }
  rewrite Hmd. unfold rl_key. rewrite metadata_of_lookup.
  - by rewrite (metadata_of_unique _ "X-Forwarded-For").
  - intros h Hh [v Hv]. by rewrite Hno in Hv.
Qed.

Definition spoofed_request : Request := {|
  r_method := "POST"; r_path := "/svc/M"; r_query := ∅;
  r_header := {["X-Forwarded-For" := ["203.0.113.9"]]}; r_remote := "198.51.100.1:4711";
  r_ctx := Background; r_body := {| b_data := []; b_end := None |} |}.

Lemma limiter_key_from_headers_witness :
  rl_key (fst (FromContext (request_context 0 spoofed_request))) = "203.0.113.9".
Proof.
  apply (limiter_key_from_headers 0 spoofed_request).
  - intros h Hh. cbn [r_header spoofed_request]. apply lookup_singleton_None. intros <-. by vm_compute in Hh.
  - intros h _ [v Hv]. cbn [r_header spoofed_request] in Hv.
    by apply lookup_singleton_Some in Hv as [<- _].
Defined.
