(* ===== verification/Health.v ===== *)
(** * Health checking ([runtimes/go/health.go])

    The checker's state, its two message types with their hand-written protobuf
    code, and the method it registers with the RPC handler. *)
From S2P Require Import Prelude GoStrings GoFloat Errors Context Http Routing Compression Streams GrpcHandler.

Definition HealthUnknown : Z := 0.
Definition HealthServing : Z := 1.
Definition HealthNotServing : Z := 2.

Record HealthChecker := { statuses : gmap string Z }.

Definition NewHealthChecker : HealthChecker := {| statuses := {["" := HealthServing]} |}.

Definition SetServingStatus (service : string) (status : Z) (hc : HealthChecker) : HealthChecker :=
  {| statuses := <[service := status]> (statuses hc) |}.

Definition Check (service : string) (hc : HealthChecker) : Z :=
  match statuses hc !! service with Some s => s | None => HealthUnknown end.

(** ** Messages *)

(** The loop of [healthCheckRequest.Unmarshal]: bytes are skipped until a tag
    [0x0a]; the byte after it is the length. *)
Fixpoint health_scan (service : string) (data : bytes) : string :=
  match data with
  | [] => service
  | tag :: rest =>
      if byte_to_Z tag =? 10 then
        match rest with
        | [] => service
        | l :: rest' =>
            let n := Z.to_nat (byte_to_Z l) in
            if (n <=? length rest')%nat then of_bytes (take n rest') else service
        end
      else health_scan service rest
  end.

Definition health_Marshal (status : Z) : bytes :=
  if status =? 0 then [] else [x08; byte_of_Z status].

Inductive health_msg := healthCheckRequest (Service : string) | healthCheckResponse (Status : Z).

(** JSON by reflection on the two structs is the library's. *)
Class health_json := {
  hj_Unmarshal : bytes -> health_msg -> res error health_msg;
  hj_Marshal : health_msg -> res error bytes
}.

#[export] Instance health_message `{health_json} : Message health_msg := {|
  as_ProtoMarshaler v :=
    match v with healthCheckResponse s => Some (Ok (health_Marshal s)) | _ => None end;
  as_ProtoUnmarshaler v :=
    match v with
    | healthCheckRequest s => Some (fun data => Ok (healthCheckRequest (health_scan s data)))
    | _ => None
    end;
  as_FlatBuffersMarshaler _ := None;
  as_FlatBuffersUnmarshaler _ := None;
  json_Unmarshal := hj_Unmarshal;
  json_Encode v := let? out := hj_Marshal v in Ok (out ++ [x0a]);
  stdjson_Unmarshal := hj_Unmarshal;
  stdjson_Marshal := hj_Marshal
|}.

(** The health messages among the messages of a server. *)
Class HealthMessages (V : Type) `{Message V} := {
  hm_in : health_msg -> V;
  hm_out : V -> option health_msg;
  hm_out_in : forall m, hm_out (hm_in m) = Some m;
  hm_unmarshal : forall s, as_ProtoUnmarshaler (hm_in (healthCheckRequest s)) =
    Some (fun data => Ok (hm_in (healthCheckRequest (health_scan s data))));
  hm_marshal : forall s, as_ProtoMarshaler (hm_in (healthCheckResponse s)) = Some (Ok (health_Marshal s))
}.

#[export] Instance health_self `{health_json} : HealthMessages health_msg.
Proof. refine {| hm_in m := m; hm_out m := Some m |}; done. Defined.

Definition health_path : string := "/grpc.health.v1.Health/Check".

Section method.
Context {W V : Type} `{Has W HealthChecker} `{HealthMessages V}.

(** The registered method; a request of another dynamic type is impossible, since
    the decoder only makes health requests. *)
Definition health_method : MethodInfo W V := {|
  mi_Decoder := fun dec b => dec (hm_in (healthCheckRequest "")) b;
  mi_Handler := fun ctx req w =>
    match hm_out req with
    | Some (healthCheckRequest s) => (w, Ok (hm_in (healthCheckResponse (Check s (get w)))))
    | _ => (w, Err (ErrorString "interface conversion: interface {} is not *runtime.healthCheckRequest"))
    end;
  mi_Binder := None;
  mi_IsStreaming := false;
  mi_StreamHandler := fun _ => SReturn None
|}.

Definition RegisterHealthMethods (h : GRPCHandler W V) : GRPCHandler W V :=
  RegisterMethod health_path health_method h.
End method.

(** ** Lemmas *)

(** The protobuf encoding of the request: field 1, length-delimited, with the
    length as a varint. *)
Fixpoint varint (fuel : nat) (n : Z) : bytes :=
  match fuel with
  | O => []
  | S fuel' =>
      if n <? 128 then [byte_of_Z n] else byte_of_Z (n mod 128 + 128) :: varint fuel' (n / 128)
  end.

Definition proto_health_request (service : string) : bytes :=
  x0a :: varint 10 (Z.of_nat (length (to_bytes service))) ++ to_bytes service.

Lemma health_scan_encoded s0 service :
  (length (to_bytes service) < 128)%nat -> health_scan s0 (proto_health_request service) = service.
Proof.
  intros Hlen. unfold proto_health_request. cbn [health_scan varint].
  change (byte_to_Z x0a =? 10) with true. cbn iota.
  destruct (Z.ltb_spec (Z.of_nat (length (to_bytes service))) 128); [|lia]. cbn [app].
  rewrite byte_to_of_Z, wrapU_id, Nat2Z.id by (unfold in_u; change (2 ^ 8) with 256; lia).
  rewrite Nat.leb_refl, firstn_all. apply of_to_bytes.
Qed.

(** A health request through the handler, whatever else is registered. *)
Lemma serve_health {W V C} `{MapIter} `{HasClock W} `{Has W HealthChecker} `{HealthMessages V}
    (reg : registry) (ws : websocket C) (ws_respond : C -> ResponseWriter -> ResponseWriter)
    (json_error : string -> string) (h : GRPCHandler W V) (service : string) (w : W) :
  gh_chained h = None -> matchREST "POST" health_path (gh_restRoutes h) = None ->
  gh_methods h !! health_path = Some health_method -> (length (to_bytes service) < 128)%nat ->
  exists rw, ServeHTTP reg ws ws_respond json_error h new_writer
      (grpc_request health_path "" (frame 0 (proto_health_request service))) w = (w, rw) /\
    response rw = (200, <["Grpc-Status" := ["0"]]> {["Content-Type" := ["application/grpc"]]},
                   frame 0 (health_Marshal (Check service (get w)))).
Proof.
  intros Hc Hr Hm Hlen.
  rewrite (serve_grpc_unary reg ws ws_respond json_error h health_path health_method);
    [|reflexivity|done|done|reflexivity].
  unfold serve_unary. cbn [mi_Decoder health_method]. unfold unary_dec.
  assert (Hl : in_u 32 (Z.of_nat (length (proto_health_request service)))).
  { unfold proto_health_request. cbn [varint].
    destruct (Z.ltb_spec (Z.of_nat (length (to_bytes service))) 128); [|lia].
    cbn [length app]. words. }
  rewrite <- (app_nil_r (frame 0 _)), read_frame_app by (done || by vm_compute).
  cbn [decode_with res_bind]. change (0 =? 1) with false. cbn [andb].
  unfold decode_with. rewrite bool_decide_false by done. rewrite hm_unmarshal. cbn [res_bind].
  rewrite health_scan_encoded by done. unfold call_chain. rewrite Hc.
  cbn [mi_Handler health_method]. rewrite hm_out_in. cbn [res_bind]. rewrite hm_marshal.
  eexists. split; [reflexivity|]. reflexivity.
Qed.

(** ** Properties *)

(** health checks, end to end.  On a server that registered the health methods,
    a gRPC client asking for a service (with a name below 128 bytes) is answered
    with the protobuf encoding of the status last set for it, or of [Unknown];
    the world is not changed. *)
Theorem health_check_end_to_end {W C} `{MapIter} `{HasClock W} `{Has W HealthChecker} `{health_json}
    (reg : registry) (ws : websocket C) (ws_respond : C -> ResponseWriter -> ResponseWriter)
    (json_error : string -> string) (h : GRPCHandler W health_msg) (service : string) (w : W) :
  gh_chained h = None -> gh_restRoutes h = [] ->
  (length (to_bytes service) < 128)%nat ->
  exists rw, ServeHTTP reg ws ws_respond json_error (RegisterHealthMethods h) new_writer
      (grpc_request health_path "" (frame 0 (proto_health_request service))) w = (w, rw) /\
    response rw = (200, <["Grpc-Status" := ["0"]]> {["Content-Type" := ["application/grpc"]]},
                   frame 0 (health_Marshal (Check service (get w)))).
Proof.
  intros Hc Hr Hlen. apply serve_health; [done|cbn; by rewrite Hr|apply lookup_insert_eq|done].
Qed.

#[local] Instance unit_json : health_json := {|
  hj_Unmarshal _ v := Ok v; hj_Marshal _ := Ok (to_bytes "{}") |}.
#[local] Instance hc_clock : HasClock HealthChecker := {| now_of _ := 0 |}.

Definition degraded : HealthChecker := SetServingStatus "db" HealthNotServing NewHealthChecker.

Lemma health_check_end_to_end_witness :
  exists rw, ServeHTTP ∅ no_websocket (fun _ rw => rw) (fun s => s)
      (RegisterHealthMethods (NewGRPCHandler (fun rw _ w => (w, rw)))) new_writer
      (grpc_request health_path "" (frame 0 (proto_health_request "db"))) degraded = (degraded, rw) /\
    snd (response rw) = frame 0 [x08; x02].
Proof.
  destruct (health_check_end_to_end ∅ no_websocket (fun _ rw => rw) (fun s => s)
    (NewGRPCHandler (fun rw _ w => (w, rw))) "db" degraded) as (rw & Hs & Hr);
    [reflexivity|reflexivity|cbn; lia|].
  exists rw. split; [exact Hs|]. rewrite Hr. vm_compute. reflexivity.
Defined.

(** service names of 128 bytes and more are misread: the length is a two-byte
    varint, whose first byte is taken as the whole length. *)
Theorem health_long_name_misread :
  let name := of_bytes (replicate 130 x61) in
  let data := proto_health_request name in
  health_scan "" data = String "001" (of_bytes (replicate 129 x61)) /\ health_scan "" data <> name.
Proof. vm_compute. split; [reflexivity|discriminate]. Qed.
