(* ===== verification/Sniffer.v ===== *)
(** * Protocol sniffing ([runtimes/go/sniffer.go])

    A connection is the bytes that arrive before the sniff timeout and the whole
    stream behind them.  Peeking does not consume: the handler a connection is
    routed to reads the stream from its first byte. *)
From S2P Require Import Prelude GoStrings Errors.

Record conn := {
  c_early : nat;      (* bytes available before the sniff deadline *)
  c_stream : bytes    (* everything the peer sends *)
}.

Inductive route :=
| ToGRPC (stream : bytes)
| ToThrift (stream : bytes) (isCompact : bool)
| Closed.

(** [br.Peek(8)], then [br.Peek(4)]. *)
Definition peek (c : conn) : option bytes :=
  let avail := take (c_early c) (c_stream c) in
  if (8 <=? length avail)%nat then Some (take 8 avail)
  else if (4 <=? length avail)%nat then Some (take 4 avail)
  else None.

Definition at_ (l : bytes) (i : nat) : Z := byte_to_Z (nth i l x00).

Definition is_http_verb (m0 m1 m2 : Z) : bool :=
  ((m0 =? 71) && (m1 =? 69) && (m2 =? 84)) ||   (* GET *)
  ((m0 =? 80) && (m1 =? 79) && (m2 =? 83)) ||   (* POS *)
  ((m0 =? 80) && (m1 =? 85) && (m2 =? 84)) ||   (* PUT *)
  ((m0 =? 68) && (m1 =? 69) && (m2 =? 76)).     (* DEL *)

(** The classification of a connection that is not TLS. *)
Definition classify (magic stream : bytes) : route :=
  let n := length magic in
  if (4 <=? n)%nat && bool_decide (take 4 magic = to_bytes "PRI ") then ToGRPC stream
  else if (1 <=? n)%nat && (at_ magic 0 =? 130) then ToThrift stream true
  else if (2 <=? n)%nat && (at_ magic 0 =? 128) && (at_ magic 1 =? 1) then ToThrift stream false
  else if (6 <=? n)%nat && (at_ magic 0 =? 0) && (at_ magic 1 =? 0) && (at_ magic 4 =? 130)
  then ToThrift stream true
  else if (6 <=? n)%nat && (at_ magic 0 =? 0) && (at_ magic 1 =? 0)
          && (at_ magic 4 =? 128) && (at_ magic 5 =? 1)
  then ToThrift stream false
  else if (3 <=? n)%nat && is_http_verb (at_ magic 0) (at_ magic 1) (at_ magic 2) then ToGRPC stream
  else Closed.

Section sniff.
(** The TLS library: with a configuration, the handshake on the raw stream yields
    the decrypted connection or fails. *)
Context (handshake : option (conn -> option conn)).

(** [sniffAndRoute]; a TLS connection is sniffed again after the handshake, [depth]
    bounds the nesting of TLS inside TLS. *)
Fixpoint sniffAndRoute (depth : nat) (c : conn) : route :=
  match peek c with
  | None => Closed
  | Some magic =>
      match handshake with
      | Some hs =>
          if (at_ magic 0 =? 22) then
            match hs c with
            | None => Closed
            | Some inner => match depth with O => Closed | S d => sniffAndRoute d inner end
            end
          else classify magic (c_stream c)
      | None => classify magic (c_stream c)
      end
  end.

(** ** Lemmas *)
Lemma peek_some c : (4 <= c_early c)%nat -> (4 <= length (c_stream c))%nat ->
  exists n, (4 <= n)%nat /\ peek c = Some (take n (c_stream c)).
Proof.
  intros He Hl. unfold peek. rewrite length_take.
  destruct (Nat.leb_spec 8 (Nat.min (c_early c) (length (c_stream c)))).
  - exists 8%nat. split; [lia|]. f_equal. rewrite take_take. f_equal. lia.
  - destruct (Nat.leb_spec 4 (Nat.min (c_early c) (length (c_stream c)))); [|lia].
    exists 4%nat. split; [lia|]. f_equal. rewrite take_take. f_equal. lia.
Qed.

(** A connection whose first byte is not a TLS handshake is classified on what was
    peeked. *)
Lemma sniff_plain depth c b rest :
  (4 <= c_early c)%nat -> (4 <= length (c_stream c))%nat -> c_stream c = b :: rest -> byte_to_Z b <> 22 ->
  exists n, (4 <= n)%nat /\ sniffAndRoute depth c = classify (take n (c_stream c)) (c_stream c).
Proof.
  intros He Hl Hs Hb. destruct (peek_some c He Hl) as (n & Hn & Hp).
  exists n. split; [done|]. destruct depth; cbn [sniffAndRoute]; rewrite Hp, Hs;
  (destruct handshake as [hs|]; [|done]); destruct n as [|n]; try lia; cbn [take at_ nth];
  unfold at_; cbn [nth]; destruct (Z.eqb_spec (byte_to_Z b) 22); done.
Qed.
End sniff.

(** Deciding the classification on a known prefix. *)
Ltac sniff_prefix :=
  let n := fresh "n" in let Hn := fresh "Hn" in
  match goal with
  | |- context [sniffAndRoute ?hs ?d ?c] =>
      destruct (sniff_plain hs d c) with (b := hd x00 (c_stream c)) (rest := tail (c_stream c))
        as (n & Hn & ->); [cbn; lia|cbn; lia|reflexivity|vm_compute; discriminate|]
  end;
  do 4 (destruct n as [|n]; [lia|]); cbn [c_stream];
  unfold classify; cbn [take length app to_bytes String.list_byte_of_string];
  cbn; rewrite ?firstn_O, ?andb_false_r; reflexivity.

(** ** Properties *)

(** every supported protocol is recognised from its opening bytes, whatever
    follows and whether or not TLS is configured, and is handed its stream from
    the first byte: the HTTP/2 preface, the HTTP/1.1 verbs GET, POST, PUT and DELETE,
    and unframed Thrift in both encodings. *)
Theorem sniff_routes (handshake : option (conn -> option conn)) (depth early : nat) (rest : bytes) (a b : byte) :
  (4 <= early)%nat ->
  let at_start p := {| c_early := early; c_stream := to_bytes p ++ rest |} in
  sniffAndRoute handshake depth (at_start "PRI * HTTP/2.0") = ToGRPC (to_bytes "PRI * HTTP/2.0" ++ rest) /\
  sniffAndRoute handshake depth (at_start "GET /") = ToGRPC (to_bytes "GET /" ++ rest) /\
  sniffAndRoute handshake depth (at_start "POST /") = ToGRPC (to_bytes "POST /" ++ rest) /\
  sniffAndRoute handshake depth (at_start "PUT /") = ToGRPC (to_bytes "PUT /" ++ rest) /\
  sniffAndRoute handshake depth (at_start "DELETE /") = ToGRPC (to_bytes "DELETE /" ++ rest) /\
  (let s := x82 :: x21 :: a :: b :: rest in
   sniffAndRoute handshake depth {| c_early := early; c_stream := s |} = ToThrift s true) /\
  (let s := x80 :: x01 :: a :: b :: rest in
   sniffAndRoute handshake depth {| c_early := early; c_stream := s |} = ToThrift s false).
Proof. intros He. cbn zeta. split_and!; sniff_prefix. Qed.

Lemma sniff_routes_witness :
  sniffAndRoute None 0 {| c_early := 100; c_stream := to_bytes "GET /" ++ to_bytes "users HTTP/1.1" |}
    = ToGRPC (to_bytes "GET /users HTTP/1.1").
Proof. refine (proj1 (proj2 (sniff_routes None 0 100 (to_bytes "users HTTP/1.1") x00 x00 _))). lia. Defined.

(** HTTP/1.1 requests with the verbs PATCH, HEAD and OPTIONS are not recognised:
    the connection is closed whatever follows. *)
Theorem sniff_closes_verbs (handshake : option (conn -> option conn)) (depth early : nat) (rest : bytes) :
  (4 <= early)%nat ->
  let at_start p := {| c_early := early; c_stream := to_bytes p ++ rest |} in
  sniffAndRoute handshake depth (at_start "PATCH /") = Closed /\
  sniffAndRoute handshake depth (at_start "HEAD /") = Closed /\
  sniffAndRoute handshake depth (at_start "OPTIONS /") = Closed.
Proof. intros He. cbn zeta. split_and!; sniff_prefix. Qed.

Lemma sniff_closes_verbs_witness :
  sniffAndRoute None 0 {| c_early := 100; c_stream := to_bytes "PATCH /" ++ to_bytes "v1/users/1" |} = Closed.
Proof. refine (proj1 (sniff_closes_verbs None 0 100 (to_bytes "v1/users/1") _)). lia. Defined.

(** framed Thrift.  A framed message is recognised when its first eight bytes
    arrive in time and the frame is shorter than 64 KiB; a longer frame, or a frame
    whose 4-byte length arrives alone before the deadline, is closed. *)
Theorem sniff_framed (handshake : option (conn -> option conn)) (depth early : nat) (l2 l3 a b c : byte)
    (rest : bytes) :
  (8 <= early)%nat ->
  (let s := x00 :: x00 :: l2 :: l3 :: x80 :: x01 :: a :: b :: rest in
   sniffAndRoute handshake depth {| c_early := early; c_stream := s |} = ToThrift s false) /\
  (let s := x00 :: x00 :: l2 :: l3 :: x82 :: c :: a :: b :: rest in
   sniffAndRoute handshake depth {| c_early := early; c_stream := s |} = ToThrift s true) /\
  (let s := x00 :: x01 :: l2 :: l3 :: x80 :: x01 :: a :: b :: rest in
   sniffAndRoute handshake depth {| c_early := early; c_stream := s |} = Closed) /\
  (let s := x00 :: x00 :: l2 :: l3 :: x80 :: x01 :: a :: b :: rest in
   sniffAndRoute handshake depth {| c_early := 4; c_stream := s |} = Closed).
Proof.
  intros He. cbn zeta.
  do 8 (destruct early as [|early]; [lia|]).
  split_and!; destruct depth; destruct handshake; reflexivity.
Qed.

Lemma sniff_framed_witness :
  sniffAndRoute None 0 {| c_early := 4; c_stream := [x00; x00; x00; x0c; x80; x01; x00; x01] |} = Closed.
Proof. refine (proj2 (proj2 (proj2 (sniff_framed None 0 8 x00 x0c x00 x01 x00 [] _)))). lia. Defined.
