(* ===== verification/Transports.v ===== *)
(** * Alternative transports ([runtimes/go/shm_transport.go],
    [runtimes/go/quic_transport.go])

    A shared-memory connection: data goes through a mapping both ends see, and an
    8-byte (offset, length) notification through a signalling socket.  A
    datagram transport: packets tagged with a stream id are demultiplexed into
    virtual connections. *)
From S2P Require Import Prelude GoStrings Errors Http.

(** ** Shared memory *)

(** One direction of a pair of connections: the mapping, and the signal bytes that
    were written and not yet read. *)
Record SHMConn := { mmapData : bytes; signal : bytes }.

Inductive shm_result (A : Type) := ShmOk (a : A) | ShmErr (e : error) | ShmPanic.
Arguments ShmOk {A} a.
Arguments ShmErr {A} e.
Arguments ShmPanic {A}.

(** The mapping after a [copy] to its start. *)
Definition overwrite (data mem : bytes) : bytes := data ++ drop (length data) mem.

(** [sent] is the error of the signalling socket: the mapping has been written by then. *)
Definition shm_Write (sent : option error) (b : bytes) (c : SHMConn) : SHMConn * shm_result Z :=
  let len := u32 (Z.of_nat (length b)) in
  if Z.of_nat (length (mmapData c)) <? len then
    (c, ShmErr (ErrorString ("data length exceeds shm capacity: " +:+ Itoa len +:+ " > "
                             +:+ Itoa (Z.of_nat (length (mmapData c))))))
  else
    let mem := overwrite (take (Z.to_nat len) b) (mmapData c) in
    match sent with
    | Some e => ({| mmapData := mem; signal := signal c |}, ShmErr e)
    | None => ({| mmapData := mem; signal := signal c ++ PutUint32 0 ++ PutUint32 len |}, ShmOk (Z.of_nat (length b)))
    end.

(** [ioReadFull] on what the socket's reads return, one chunk after the other, until it
    ends. *)
Fixpoint ioReadFull (chunks : list bytes) (n : nat) : list bytes * res error bytes :=
  match n, chunks with
  | O, _ => (chunks, Ok [])
  | _, [] => ([], Err ErrEOF)
  | _, c :: chunks =>
      if (n <=? length c)%nat then (drop n c :: chunks, Ok (take n c))
      else match ioReadFull chunks (n - length c) with
           | (chunks, Ok data) => (chunks, Ok (c ++ data))
           | (chunks, Err e) => (chunks, Err e)
           end
  end.

(** [Read(b)] with a buffer of [n] bytes: the bytes copied into it.  The sum of
    offset and length is computed in 32 bits; slicing panics when the bounds are
    out of order or out of range. *)
Definition shm_Read (n : nat) (c : SHMConn) : SHMConn * shm_result bytes :=
  match ioReadFull [signal c] 8 with
  | (_, Err e) => ({| mmapData := mmapData c; signal := [] |}, ShmErr e)
  | (rest, Ok header) =>
      let c := {| mmapData := mmapData c; signal := concat rest |} in
      let offset := Uint32 (take 4 header) in
      let len := Uint32 (drop 4 header) in
      let sum := u32 (offset + len) in
      let size := Z.of_nat (length (mmapData c)) in
      if size <? sum then
        (c, ShmErr (ErrorString ("shm read out of bounds: offset=" +:+ Itoa offset +:+ " length="
                                 +:+ Itoa len +:+ " mmap_size=" +:+ Itoa size)))
      else if sum <? offset then (c, ShmPanic)
      else
        let data := take (Z.to_nat len) (drop (Z.to_nat offset) (mmapData c)) in
        (c, ShmOk (take n data))
  end.

(** ** Mapping the file

    The files by path, and how many descriptors are open.  The answers of the operating
    system are inputs. *)
Record shm_files := { sf_files : gmap string bytes; sf_open : Z }.
Record shm_answers := { sa_open : option error; sa_truncate : option error; sa_mmap : option error }.

(** A file cut or extended to [size] bytes. *)
Definition resize (size : nat) (data : bytes) : bytes := take size data ++ replicate (size - length data) x00.

(** A connection maps the file of that path: every mapping of it is the same memory. *)
Definition NewSHMConn (shmPath : string) (size : nat) (isOwner : bool) (a : shm_answers) (fs : shm_files)
  : shm_files * res error string :=
  let opened f := {| sf_files := f; sf_open := sf_open fs + 1 |} in
  let closed f := {| sf_files := f; sf_open := sf_open fs |} in
  match sa_open a with
  | Some e => (fs, Err e)
  | None =>
      let f := if isOwner then <[shmPath := []]> (sf_files fs) else sf_files fs in   (* O_TRUNC *)
      match (if isOwner then sa_truncate a else None) with
      | Some e => (closed f, Err e)
      | None =>
          let f := if isOwner then alter (resize size) shmPath f else f in
          match sa_mmap a with
          | Some e => (closed f, Err e)
          | None => (opened f, Ok shmPath)
          end
      end
  end.

(** [Close] returns the error of the signalling connection. *)
Definition shm_Close (closed : option error) (fs : shm_files) : shm_files * option error :=
  ({| sf_files := sf_files fs; sf_open := sf_open fs - 1 |}, closed).

Record SHMListener := { sl_shmPath : string; sl_shmSize : nat }.
Definition NewSHMListener (shmPath : string) (shmSize : nat) : SHMListener := {| sl_shmPath := shmPath; sl_shmSize := shmSize |}.
Definition shm_Accept (accepted : option error) (a : shm_answers) (l : SHMListener) (fs : shm_files) : shm_files * res error string :=
  match accepted with
  | Some e => (fs, Err e)
  | None => NewSHMConn (sl_shmPath l) (sl_shmSize l) true a fs
  end.

(** The other platform has no shared memory. *)
Definition shm_unsupported : error := ErrorString "shared memory transport (SHM) is not supported on Windows".
Definition windows_NewSHMConn (shmPath : string) (size : nat) (isOwner : bool) (fs : shm_files) : shm_files * res error string :=
  (fs, Err shm_unsupported).
Definition windows_Accept (l : SHMListener) (fs : shm_files) : shm_files * res error string := (fs, Err shm_unsupported).

(** A connection on its mapping. *)
Definition on_map (path : string) (signal : bytes) (fs : shm_files) : SHMConn :=
  {| mmapData := default [] (sf_files fs !! path); signal := signal |}.

(** ** Datagram streams *)
Record QUICStreamConn := {
  qs_id : Z;
  qs_queue : list bytes;     (* [readChan], capacity 256 *)
  qs_closed : bool;
  qs_leftover : bytes
}.

Definition new_stream (id : Z) : QUICStreamConn :=
  {| qs_id := id; qs_queue := []; qs_closed := false; qs_leftover := [] |}.

(** [Read] with a buffer of [n] bytes; [None]: it blocks.  When a packet is queued and
    the stream is closed, the select takes either case: [prefer_closed] decides. *)
Definition qs_Read (prefer_closed : bool) (n : nat) (c : QUICStreamConn)
  : option (QUICStreamConn * res error bytes) :=
  match qs_leftover c with
  | _ :: _ =>
      Some ({| qs_id := qs_id c; qs_queue := qs_queue c; qs_closed := qs_closed c;
               qs_leftover := drop n (qs_leftover c) |}, Ok (take n (qs_leftover c)))
  | [] =>
      match qs_queue c with
      | packet :: q =>
          if qs_closed c && prefer_closed then Some (c, Err ErrClosed)
          else Some ({| qs_id := qs_id c; qs_queue := q; qs_closed := qs_closed c;
                        qs_leftover := drop n packet |}, Ok (take n packet))
      | [] => if qs_closed c then Some (c, Err ErrClosed) else None
      end
  end.

(** The packet a [Write] sends. *)
Definition qs_packet (id : Z) (payload : bytes) : bytes := PutUint32 id ++ payload.

Definition qs_Close (c : QUICStreamConn) : QUICStreamConn :=
  {| qs_id := qs_id c; qs_queue := qs_queue c; qs_closed := true; qs_leftover := qs_leftover c |}.

Record QUICTransportListener := {
  ql_streams : list string;   (* [streams]: keys of connections to accept *)
  ql_closed : bool;
  ql_active : gmap string QUICStreamConn
}.

Definition NewQUICTransportListener : QUICTransportListener :=
  {| ql_streams := []; ql_closed := false; ql_active := ∅ |}.

Definition stream_key (remote : string) (id : Z) : string := remote +:+ ":" +:+ Itoa id.

(** [sConn.readChan <- payload] when there is room; otherwise the packet is dropped. *)
Definition enqueue (payload : bytes) (c : QUICStreamConn) : QUICStreamConn :=
  if (length (qs_queue c) <? 256)%nat then
    {| qs_id := qs_id c; qs_queue := qs_queue c ++ [payload]; qs_closed := qs_closed c;
       qs_leftover := qs_leftover c |}
  else c.

(** One iteration of [readLoop] on a received datagram. *)
Definition on_datagram (remote : string) (packet : bytes) (l : QUICTransportListener)
  : QUICTransportListener :=
  if (length packet <? 4)%nat then l
  else
    let id := Uint32 packet in
    let key := stream_key remote id in
    let payload := drop 4 packet in
    match ql_active l !! key with
    | Some c =>
        {| ql_streams := ql_streams l; ql_closed := ql_closed l;
           ql_active := <[key := enqueue payload c]> (ql_active l) |}
    | None =>
        {| ql_streams := ql_streams l ++ [key]; ql_closed := ql_closed l;
           ql_active := <[key := enqueue payload (new_stream id)]> (ql_active l) |}
    end.

(** [Accept]; [None]: it blocks. *)
Definition ql_Accept (prefer_closed : bool) (l : QUICTransportListener)
  : option (QUICTransportListener * res error string) :=
  match ql_streams l with
  | k :: ks =>
      if ql_closed l && prefer_closed then Some (l, Err ErrClosed)
      else Some ({| ql_streams := ks; ql_closed := ql_closed l; ql_active := ql_active l |}, Ok k)
  | [] => if ql_closed l then Some (l, Err ErrClosed) else None
  end.

Definition ql_Close (l : QUICTransportListener) : QUICTransportListener :=
  if ql_closed l then l
  else {| ql_streams := ql_streams l; ql_closed := true; ql_active := qs_Close <$> ql_active l |}.

(** ** Lemmas *)

(** What a stream still holds for its reader. *)
Definition pending (c : QUICStreamConn) : bytes := qs_leftover c ++ concat (qs_queue c).

Lemma qs_Read_pending pc n c c' data :
  qs_Read pc n c = Some (c', Ok data) -> data ++ pending c' = pending c.
Proof.
  unfold qs_Read, pending. destruct (qs_leftover c) as [|x l] eqn:El.
  - destruct (qs_queue c) as [|p q] eqn:Eq; [by destruct (qs_closed c)|].
    destruct (qs_closed c && pc); [done|]. intros [= <- <-]. cbn [qs_leftover qs_queue concat].
    by rewrite app_assoc, take_drop.
  - intros [= <- <-]. cbn [qs_leftover qs_queue]. by rewrite app_assoc, take_drop.
Qed.

Fixpoint read_all (sizes : list nat) (c : QUICStreamConn) : QUICStreamConn * bytes :=
  match sizes with
  | [] => (c, [])
  | n :: ns =>
      match qs_Read false n c with
      | Some (c', Ok data) => let '(c'', rest) := read_all ns c' in (c'', data ++ rest)
      | _ => (c, [])
      end
  end.

Lemma read_all_pending sizes c :
  let '(c', data) := read_all sizes c in data ++ pending c' = pending c.
Proof.
  revert c. induction sizes as [|n ns IH]; intros c; cbn [read_all]; [done|].
  destruct (qs_Read false n c) as [[c' [data|e]]|] eqn:E; [|done|done].
  apply qs_Read_pending in E. specialize (IH c'). destruct (read_all ns c') as [c'' rest].
  by rewrite <- app_assoc, IH.
Qed.

Lemma qs_packet_id id p : in_u 32 id -> Uint32 (qs_packet id p) = id.
Proof. apply Uint32_PutUint32. Qed.

Lemma qs_packet_length id p : (length (qs_packet id p) <? 4)%nat = false.
Proof. apply Nat.ltb_ge. cbn. lia. Qed.

Lemma on_datagram_payload remote id payload l :
  in_u 32 id ->
  (forall c, ql_active l !! stream_key remote id = Some c -> (length (qs_queue c) < 256)%nat) ->
  exists c, ql_active (on_datagram remote (qs_packet id payload) l) !! stream_key remote id = Some c /\
    pending c = default [] (pending <$> ql_active l !! stream_key remote id) ++ payload /\
    qs_queue c = default [] (qs_queue <$> ql_active l !! stream_key remote id) ++ [payload].
Proof.
  intros Hid Hroom. unfold on_datagram.
  rewrite qs_packet_length, qs_packet_id by done.
  change (drop 4 (qs_packet id payload)) with payload.
  destruct (ql_active l !! stream_key remote id) as [c|] eqn:E; cbn [ql_active].
  - exists (enqueue payload c). split; [by rewrite lookup_insert_eq|]. unfold enqueue, pending.
    specialize (Hroom c eq_refl). apply Nat.ltb_lt in Hroom. rewrite Hroom. cbn.
    rewrite concat_app. cbn. by rewrite app_nil_r, app_assoc.
  - exists (enqueue payload (new_stream id)). split; [by rewrite lookup_insert_eq|].
    unfold enqueue, pending. cbn. by rewrite app_nil_r.
Qed.

(** The datagrams of one peer stream, delivered in order. *)
Definition deliver (remote : string) (id : Z) (payloads : list bytes) (l : QUICTransportListener)
  : QUICTransportListener :=
  foldl (fun l p => on_datagram remote (qs_packet id p) l) l payloads.

Lemma deliver_pending remote id payloads :
  in_u 32 id -> (length payloads <= 256)%nat -> payloads <> [] ->
  exists c, ql_active (deliver remote id payloads NewQUICTransportListener) !! stream_key remote id = Some c /\
    pending c = concat payloads /\ qs_queue c = payloads.
Proof.
  intros Hid. induction payloads as [|p ps IH] using rev_ind; intros Hlen Hne; [done|].
  rewrite length_app in Hlen. cbn in Hlen. unfold deliver. rewrite foldl_app. cbn [foldl].
  fold (deliver remote id ps NewQUICTransportListener).
  destruct (decide (ps = [])) as [->|Hps].
  - destruct (on_datagram_payload remote id p NewQUICTransportListener Hid) as (c & Hc & Hp & Hq).
    { intros c. cbn. by rewrite lookup_empty. }
    exists c. split; [done|]. cbn in Hp, Hq. rewrite lookup_empty in Hp, Hq. cbn in *.
    by rewrite app_nil_r.
  - destruct IH as (c & Hc & Hp & Hq); [lia|done|].
    destruct (on_datagram_payload remote id p (deliver remote id ps NewQUICTransportListener) Hid)
      as (c' & Hc' & Hp' & Hq').
    { intros c0. rewrite Hc. intros [= <-]. rewrite Hq. lia. }
    exists c'. split; [done|]. rewrite Hc in Hp', Hq'. cbn in Hp', Hq'. rewrite Hp', Hq', Hp, Hq.
    rewrite concat_app. cbn. by rewrite app_nil_r.
Qed.

(** ** Properties *)

(** datagram streams deliver a byte stream.  The payloads one peer stream sends
    (at most the queue's 256 between reads), read with buffers of any sizes, come
    out as a prefix of their concatenation, and what was not read stays pending:
    nothing is lost, duplicated or reordered. *)
Theorem quic_stream_bytes (remote : string) (id : Z) (payloads : list bytes) (sizes : list nat) :
  in_u 32 id -> (length payloads <= 256)%nat -> payloads <> [] ->
  exists c, ql_active (deliver remote id payloads NewQUICTransportListener) !! stream_key remote id = Some c /\
    let '(c', data) := read_all sizes c in data ++ pending c' = concat payloads.
Proof.
  intros Hid Hlen Hne. destruct (deliver_pending remote id payloads Hid Hlen Hne) as (c & Hc & Hp & _).
  exists c. split; [done|]. pose proof (read_all_pending sizes c) as Hr.
  destruct (read_all sizes c) as [c' data]. by rewrite Hr, Hp.
Qed.

Lemma quic_stream_bytes_witness :
  exists c, ql_active (deliver "10.0.0.1:9" 7 [to_bytes "hello "; to_bytes "world"] NewQUICTransportListener)
      !! stream_key "10.0.0.1:9" 7 = Some c /\
    let '(c', data) := read_all [4; 4; 3]%nat c in data ++ pending c' = to_bytes "hello world".
Proof.
  destruct (quic_stream_bytes "10.0.0.1:9" 7 [to_bytes "hello "; to_bytes "world"] [4; 4; 3]%nat)
    as (c & Hc & Hd); [vm_compute; split; [discriminate|reflexivity]|cbn; lia|done|].
  exists c. split; [exact Hc|exact Hd].
Defined.

(** a stream cannot be reopened.  Once the accepted connection of a peer stream
    was closed, its entry stays in the table: later packets of the same stream id
    are never offered to [Accept] and end up in the queue of the closed
    connection. *)
Theorem quic_closed_stream_unreachable (l : QUICTransportListener) (remote : string) (id : Z)
    (c : QUICStreamConn) (payloads : list bytes) :
  in_u 32 id -> ql_active l !! stream_key remote id = Some (qs_Close c) ->
  let l' := deliver remote id payloads l in
  ql_streams l' = ql_streams l /\
  exists c', ql_active l' !! stream_key remote id = Some c' /\ qs_closed c' = true.
Proof.
  intros Hid. cbn zeta. unfold deliver.
  generalize (qs_Close c) (eq_refl : qs_closed (qs_Close c) = true). clear c. intros c Hcl Hc.
  revert l c Hcl Hc. induction payloads as [|p ps IH]; intros l c Hcl Hc; cbn [foldl]; [eauto|].
  assert (Hstep : ql_streams (on_datagram remote (qs_packet id p) l) = ql_streams l /\
    ql_active (on_datagram remote (qs_packet id p) l) !! stream_key remote id = Some (enqueue p c)).
  { unfold on_datagram.
    rewrite qs_packet_length, qs_packet_id by done. rewrite Hc. cbn [ql_streams ql_active].
    by rewrite lookup_insert_eq. }
  destruct Hstep as [Hs Ha].
  destruct (IH (on_datagram remote (qs_packet id p) l) (enqueue p c)) as [-> ?]; [|done|by rewrite Hs].
  unfold enqueue. by destruct (_ <? 256)%nat.
Qed.

Lemma quic_closed_stream_unreachable_witness :
  let l := {| ql_streams := []; ql_closed := false;
              ql_active := {[stream_key "p" 1 := qs_Close (new_stream 1)]} |} in
  ql_streams (deliver "p" 1 [to_bytes "again"] l) = [].
Proof.
  refine (proj1 (quic_closed_stream_unreachable _ "p" 1 (new_stream 1) [to_bytes "again"] _ _)).
  - vm_compute. split; [discriminate|reflexivity].
  - reflexivity.
Defined.

(** shared memory round trip.  A message that fits the mapping, read before the
    next write into a buffer that is large enough, is received unchanged. *)
Theorem shm_roundtrip (c : SHMConn) (b : bytes) (n : nat) :
  signal c = [] -> (length b <= length (mmapData c))%nat -> Z.of_nat (length (mmapData c)) < 2 ^ 32 ->
  (length b <= n)%nat ->
  snd (shm_Read n (fst (shm_Write None b c))) = ShmOk b.
Proof.
  intros Hs Hl Hsz Hn. unfold shm_Write. rewrite wrapU_id by (unfold in_u; lia).
  destruct (Z.ltb_spec (Z.of_nat (length (mmapData c))) (Z.of_nat (length b))); [lia|].
  cbn [fst]. unfold shm_Read. cbn [signal mmapData]. rewrite Hs. cbn [app].
  change (ioReadFull [PutUint32 0 ++ PutUint32 (Z.of_nat (length b))] 8)
    with ([[] : bytes], Ok (PutUint32 0 ++ PutUint32 (Z.of_nat (length b))) : res error bytes). cbn iota.
  cbn [mmapData concat].
  change (take 4 (PutUint32 0 ++ PutUint32 (Z.of_nat (length b)))) with (PutUint32 0 ++ []).
  change (drop 4 (PutUint32 0 ++ PutUint32 (Z.of_nat (length b)))) with (PutUint32 (Z.of_nat (length b)) ++ []).
  rewrite !Uint32_PutUint32 by (unfold in_u; lia). rewrite wrapU_id by (unfold in_u; lia).
  unfold overwrite. rewrite Nat2Z.id, firstn_all.
  rewrite length_app, length_drop.
  destruct (Z.ltb_spec (Z.of_nat (length b + (length (mmapData c) - length b))) (0 + Z.of_nat (length b))); [lia|].
  destruct (Z.ltb_spec (0 + Z.of_nat (length b)) 0); [lia|]. cbn [snd]. rewrite drop_0.
  rewrite take_app_length. by rewrite take_ge.
Qed.

Lemma shm_roundtrip_witness :
  snd (shm_Read 64 (fst (shm_Write None (to_bytes "ping") {| mmapData := replicate 16 x00; signal := [] |})))
    = ShmOk (to_bytes "ping").
Proof. apply shm_roundtrip; cbn; first [reflexivity|lia]. Defined.

(** shared memory hazards.  Two messages written before the first is read
    overwrite each other (the first read returns the second message's bytes); a read
    buffer shorter than the message loses the rest; and a peer's notification
    whose offset and length overflow 32 bits passes the bounds check and panics. *)
Theorem shm_hazards :
  let c := {| mmapData := replicate 16 x00; signal := [] |} in
  (snd (shm_Read 64 (fst (shm_Write None (to_bytes "BBBB") (fst (shm_Write None (to_bytes "AAAA") c)))))
     = ShmOk (to_bytes "BBBB")) /\
  (let '(c', r) := shm_Read 2 (fst (shm_Write None (to_bytes "ABCD") c)) in
   r = ShmOk (to_bytes "AB") /\ snd (shm_Read 2 c') = ShmErr ErrEOF) /\
  snd (shm_Read 64 {| mmapData := replicate 16 x00; signal := PutUint32 4294967295 ++ PutUint32 2 |}) = ShmPanic.
Proof. vm_compute. done. Qed.

(** reading a header does not depend on how the socket delivers it: the bytes come out in
    order, whatever the chunks, and a socket that ends early is an error. *)
Theorem ioReadFull_stream (chunks : list bytes) (n : nat) :
  match ioReadFull chunks n with
  | (rest, Ok data) => length data = n /\ data ++ concat rest = concat chunks
  | (_, Err e) => e = ErrEOF /\ (length (concat chunks) < n)%nat
  end.
Proof.
  revert n. induction chunks as [|c chunks IH]; intros [|n]; cbn [ioReadFull concat]; try done.
  { split; [done|cbn; lia]. }
  destruct (Nat.leb_spec (S n) (length c)) as [Hle|Hgt].
  - split; [rewrite length_take; lia|]. cbn [concat]. by rewrite app_assoc, take_drop.
  - specialize (IH (S n - length c)%nat). destruct (ioReadFull chunks _) as [rest [data|e]]; cbn beta iota in *.
    + destruct IH as [Hl Hc]. rewrite length_app, <- app_assoc, Hc. split; [lia|done].
    + destruct IH as [-> Hl]. rewrite length_app. split; [done|lia].
Qed.

(** opening a shared-memory connection leaks no descriptor: exactly a success leaves one
    more open, with a mapping of the requested size, which closing gives back. *)
Theorem shm_open_exact (path : string) (size : nat) (owner : bool) (a : shm_answers) (fs : shm_files) (closed : option error) :
  let '(fs', result) := NewSHMConn path size owner a fs in
  sf_open fs' = sf_open fs + (if is_ok result then 1 else 0) /\
  (is_ok result = true -> owner = true -> sf_files fs' !! path = Some (replicate size x00)) /\
  (is_ok result = true -> sf_open (fst (shm_Close closed fs')) = sf_open fs).
Proof.
  unfold NewSHMConn. destruct (sa_open a); [cbn; split_and!; [lia|done|done]|]. destruct owner.
  - destruct (sa_truncate a); [cbn; split_and!; [lia|done|done]|]. destruct (sa_mmap a); cbn; (split_and!; [lia| |try done; lia]); [done|].
    intros _ _. rewrite lookup_alter_eq, lookup_insert_eq. cbn. unfold resize. by rewrite firstn_nil, Nat.sub_0_r.
  - destruct (sa_mmap a); cbn; split_and!; try done; lia.
Qed.

(** a new connection wipes the others.  All connections of a listener map one file, which
    accepting a connection truncates: a message that was written to an earlier connection
    and not read yet is read as zeros. *)
Theorem shm_accept_wipes (l : SHMListener) (fs : shm_files) (b : bytes) (n : nat) :
  Z.of_nat (sl_shmSize l) < 2 ^ 32 -> (length b <= sl_shmSize l)%nat -> (length b <= n)%nat ->
  length (default [] (sf_files fs !! sl_shmPath l)) = sl_shmSize l ->
  let c := fst (shm_Write None b (on_map (sl_shmPath l) [] fs)) in
  let fs1 := {| sf_files := <[sl_shmPath l := mmapData c]> (sf_files fs); sf_open := sf_open fs |} in
  let '(fs2, accepted) := shm_Accept None {| sa_open := None; sa_truncate := None; sa_mmap := None |} l fs1 in
  accepted = Ok (sl_shmPath l) /\
  snd (shm_Read n (on_map (sl_shmPath l) (signal c) fs1)) = ShmOk b /\
  snd (shm_Read n (on_map (sl_shmPath l) (signal c) fs2)) = ShmOk (replicate (length b) x00).
Proof.
  intros Hsz Hl Hn Hlen. cbn zeta.
  set (c := fst (shm_Write None b (on_map (sl_shmPath l) [] fs))).
  assert (mmapData (on_map (sl_shmPath l) [] fs) = default [] (sf_files fs !! sl_shmPath l)) as Em by done.
  assert (signal c = PutUint32 0 ++ PutUint32 (Z.of_nat (length b))) as Hs.
  { unfold c, shm_Write. rewrite wrapU_id by (unfold in_u; lia). rewrite Em, Hlen.
    destruct (Z.ltb_spec (Z.of_nat (sl_shmSize l)) (Z.of_nat (length b))); [lia|done]. }
  unfold shm_Accept, NewSHMConn. cbn [sa_open sa_truncate sa_mmap sf_files sf_open]. split; [done|]. split.
  - replace (on_map (sl_shmPath l) (signal c) _) with c; [apply shm_roundtrip; [done|by rewrite Em, Hlen|by rewrite Em, Hlen|done]|].
    unfold on_map. cbn [sf_files]. rewrite lookup_insert_eq. by destruct c.
  - set (z := replicate (length b) x00). set (c0 := {| mmapData := replicate (sl_shmSize l) x00; signal := [] |}).
    assert (length z = length b) as Hz by apply length_replicate.
    rewrite <- (shm_roundtrip c0 z n); [|done|cbn; rewrite length_replicate, Hz; lia|cbn; rewrite length_replicate; lia|lia].
    do 2 f_equal. unfold shm_Write, c0, on_map. cbn [mmapData signal]. rewrite length_replicate, Hz, wrapU_id by (unfold in_u; lia).
    destruct (Z.ltb_spec (Z.of_nat (sl_shmSize l)) (Z.of_nat (length b))); [lia|]. cbn [fst]. rewrite Hs. cbn [app]. f_equal.
    cbn [sf_files]. rewrite lookup_alter_eq, lookup_insert_eq. cbn [fmap option_fmap option_map default]. unfold resize.
    rewrite firstn_nil, Nat.sub_0_r. cbn [app]. unfold overwrite. rewrite Nat2Z.id, take_ge by lia. rewrite Hz. unfold z.
    rewrite drop_replicate, <- replicate_add. unfold id. f_equal. lia.
Qed.

Lemma shm_accept_wipes_witness :
  let l := NewSHMListener "/dev/shm/helix" 16 in
  let fs := {| sf_files := {["/dev/shm/helix" := replicate 16 x00]}; sf_open := 1 |} in
  snd (shm_Read 64 (on_map "/dev/shm/helix" (PutUint32 0 ++ PutUint32 4)
    (fst (shm_Accept None {| sa_open := None; sa_truncate := None; sa_mmap := None |} l
      {| sf_files := {["/dev/shm/helix" := to_bytes "ping" ++ replicate 12 x00]}; sf_open := 1 |}))))
  = ShmOk [x00; x00; x00; x00].
Proof.
  intros l fs. pose proof (shm_accept_wipes l fs (to_bytes "ping") 64 ltac:(reflexivity) ltac:(cbn; lia) ltac:(cbn; lia) ltac:(reflexivity)) as (_ & _ & H).
  exact H.
Defined.
