(* ===== verification/Server.v ===== *)
(** * Server life cycle and connection pool ([runtimes/go/grpc_handler.go], [Server] and
    [ChannelListener]; [runtimes/go/client_pool.go]; [runtimes/go/thrift_handler.go])

    Shutdown runs concurrently with the connection callbacks of the sniffer: both
    are modelled by their atomic steps. *)
From S2P Require Import Prelude GoStrings Errors Interleave.

(** ** [ChannelListener] *)
Record ChannelListener := { cl_conns : list nat; cl_closed : bool }.

Definition NewChannelListener : ChannelListener := {| cl_conns := []; cl_closed := false |}.

(** [Accept]; [None]: it blocks; with a queued connection on a closed listener the
    select takes either case. *)
Definition cl_Accept (prefer_closed : bool) (l : ChannelListener)
  : option (ChannelListener * res error nat) :=
  match cl_conns l with
  | c :: cs =>
      if cl_closed l && prefer_closed then Some (l, Err ErrClosed)
      else Some ({| cl_conns := cs; cl_closed := cl_closed l |}, Ok c)
  | [] => if cl_closed l then Some (l, Err ErrClosed) else None
  end.

Definition cl_Close (l : ChannelListener) : ChannelListener :=
  if cl_closed l then l else {| cl_conns := cl_conns l; cl_closed := true |}.

(** ** Thrift connections ([HandleThriftConnection])

    The processor loop: it ends at the first error or when the processor declines;
    the connection is closed in every case.  [process] is one call of the
    registered processor. *)
Section thrift.
Context {W : Type} (process : W -> W * (bool * option error)).

Inductive thrift_end := ThriftError (e : error) | ThriftDone.

Fixpoint thrift_loop (fuel : nat) (w : W) : option (W * thrift_end) :=
  match fuel with
  | O => None
  | S fuel' =>
      match process w with
      | (w', (_, Some e)) => Some (w', ThriftError e)
      | (w', (true, None)) => thrift_loop fuel' w'
      | (w', (false, None)) => Some (w', ThriftDone)
      end
  end.

(** A processor that declines after its input is used up ends the loop. *)
Lemma thrift_loop_ends (measure : W -> nat) w :
  (forall w w', process w = (w', (true, None)) -> (measure w' < measure w)%nat) ->
  exists r, thrift_loop (S (measure w)) w = Some r.
Proof.
  intros Hdec. remember (S (measure w)) as fuel eqn:Ef. assert (Hle : (measure w < fuel)%nat) by lia.
  clear Ef. revert w Hle. induction fuel as [|fuel IH]; intros w Hle; [lia|]. cbn.
  destruct (process w) as [w' [[] [e|]]] eqn:E; eauto.
  apply IH. specialize (Hdec _ _ E). lia.
Qed.
End thrift.

(** ** Shutdown against the Thrift callback of [Start]

    Shared state: the [inShutdown] flag (under the mutex), the wait group's
    counter, and what happened to the listeners. *)
Record server_state := {
  inShutdown : bool;
  activeConns : Z;
  listenersClosed : bool
}.

Definition NewServerState : server_state :=
  {| inShutdown := false; activeConns := 0; listenersClosed := false |}.

Definition set_conns (n : Z) (s : server_state) : server_state :=
  {| inShutdown := inShutdown s; activeConns := n; listenersClosed := listenersClosed s |}.

Inductive srv_pc :=
(* the callback for one Thrift connection and one registered processor *)
| TCheck
| TAdd
| TRun
| TDone
| TClosed
(* [Shutdown] *)
| SMark
| SCloseListeners
| SWait
| SDone
| SAlready.

Definition srv_micro (now : Z) (s : server_state) (pc : srv_pc) : server_state * srv_pc :=
  match pc with
  | TCheck => (s, if inShutdown s then TClosed else TAdd)
  | TAdd => (set_conns (activeConns s + 1) s, TRun)
  | TRun => (set_conns (activeConns s - 1) s, TDone)
  | SMark =>
      if inShutdown s then (s, SAlready)
      else ({| inShutdown := true; activeConns := activeConns s; listenersClosed := listenersClosed s |},
            SCloseListeners)
  | SCloseListeners =>
      ({| inShutdown := inShutdown s; activeConns := activeConns s; listenersClosed := true |}, SWait)
  | SWait => (s, if activeConns s =? 0 then SDone else SWait)
  | TDone | TClosed | SDone | SAlready => (s, pc)
  end.

Abbreviation srv_step := (sys_step srv_micro).

(** ** The connection pool *)
Record ClientConnPool := { cp_max : nat; cp_idle : list nat; cp_closed : bool }.

Definition NewClientConnPool (maxIdle : nat) : ClientConnPool :=
  {| cp_max := maxIdle; cp_idle := []; cp_closed := false |}.

Inductive pool_result :=
| Conn (c : nat)
| NilConn           (* a nil connection with a nil error *)
| DialErr (e : error).

(** [Get]: an idle connection, or a new one from [dial]. *)
Definition cp_Get (dial : res error nat) (p : ClientConnPool) : ClientConnPool * pool_result :=
  match cp_idle p with
  | c :: cs => ({| cp_max := cp_max p; cp_idle := cs; cp_closed := cp_closed p |}, Conn c)
  | [] =>
      if cp_closed p then (p, NilConn)
      else (p, match dial with Ok c => Conn c | Err e => DialErr e end)
  end.

(** [Put]: back to the pool, or closed when the pool is full; sending on the
    closed channel panics ([None]). *)
Definition cp_Put (c : nat) (p : ClientConnPool) : option (ClientConnPool * bool) :=
  if cp_closed p then None
  else if (length (cp_idle p) <? cp_max p)%nat
  then Some ({| cp_max := cp_max p; cp_idle := cp_idle p ++ [c]; cp_closed := false |}, false)
  else Some (p, true).

(** [Close], run on its own; a second one panics. *)
Definition cp_Close (p : ClientConnPool) : option ClientConnPool :=
  if cp_closed p then None else Some {| cp_max := cp_max p; cp_idle := []; cp_closed := true |}.

(** The pool and its clients: [use] are the connections they hold, [next] the next
    connection the dialler makes.  [Close] closes the channel and then takes the idle
    connections out of it one by one, while other goroutines may still get one. *)
Record pool_state := { ps_pool : ClientConnPool; ps_use : list nat; ps_next : nat }.

Inductive pool_step : pool_state -> pool_state -> Prop :=
| pool_get p use next p' c :
    cp_Get (Ok next) p = (p', Conn c) ->
    pool_step {| ps_pool := p; ps_use := use; ps_next := next |}
              {| ps_pool := p'; ps_use := c :: use; ps_next := S next |}
| pool_put p use1 c use2 next p' dropped :
    cp_Put c p = Some (p', dropped) ->
    pool_step {| ps_pool := p; ps_use := use1 ++ c :: use2; ps_next := next |}
              {| ps_pool := p'; ps_use := use1 ++ use2; ps_next := next |}
| pool_drop p use1 c use2 next :        (* a client closes a connection itself *)
    pool_step {| ps_pool := p; ps_use := use1 ++ c :: use2; ps_next := next |}
              {| ps_pool := p; ps_use := use1 ++ use2; ps_next := next |}
| pool_close max idle use next :        (* [close(p.conns)] *)
    pool_step {| ps_pool := {| cp_max := max; cp_idle := idle; cp_closed := false |}; ps_use := use; ps_next := next |}
              {| ps_pool := {| cp_max := max; cp_idle := idle; cp_closed := true |}; ps_use := use; ps_next := next |}
| pool_drain max c idle use next :      (* the loop of [Close] *)
    pool_step {| ps_pool := {| cp_max := max; cp_idle := c :: idle; cp_closed := true |}; ps_use := use; ps_next := next |}
              {| ps_pool := {| cp_max := max; cp_idle := idle; cp_closed := true |}; ps_use := use; ps_next := next |}.

(** ** Lemmas *)
Definition pool_inv (m : nat) (s : pool_state) : Prop :=
  NoDup (cp_idle (ps_pool s) ++ ps_use s) /\ cp_max (ps_pool s) = m /\
  (length (cp_idle (ps_pool s)) <= m)%nat /\
  Forall (fun c => (c < ps_next s)%nat) (cp_idle (ps_pool s) ++ ps_use s).

Lemma pool_inv_step m s s' : pool_inv m s -> pool_step s s' -> pool_inv m s'.
Proof.
  intros (Hnd & Hm & Hlen & Hlt) Hstep.
  destruct Hstep as [p use next p' c Hg|p u1 c u2 next p' d Hp|p u1 c u2 next|max idle use next|max c idle use next]; cbn in *.
  - unfold cp_Get in Hg. destruct (cp_idle p) as [|c0 cs] eqn:Ei.
    + destruct (cp_closed p); [done|]. injection Hg as <- <-. unfold pool_inv. cbn. rewrite Ei. cbn in *.
      split_and!; [|done|lia|].
      * apply NoDup_cons. split; [|done]. intros Hin. rewrite Forall_forall in Hlt.
        specialize (Hlt _ Hin). lia.
      * constructor; [lia|]. eapply Forall_impl; [done|]. cbn. lia.
    + injection Hg as <- <-. unfold pool_inv. cbn in *.
      assert (Hperm : cs ++ c0 :: use ≡ₚ c0 :: cs ++ use) by solve_Permutation.
      split_and!; [by rewrite Hperm|done|lia|]. rewrite Hperm. eapply Forall_impl; [done|]. cbn. lia.
  - unfold cp_Put in Hp. destruct (cp_closed p); [done|].
    destruct (Nat.ltb_spec (length (cp_idle p)) (cp_max p)) as [Hl|Hl]; injection Hp as <- <-.
    + unfold pool_inv. cbn.
      assert (Hperm : (cp_idle p ++ [c]) ++ u1 ++ u2 ≡ₚ cp_idle p ++ u1 ++ c :: u2) by solve_Permutation.
      split_and!; [by rewrite Hperm|done|rewrite length_app; cbn; lia|by rewrite Hperm].
    + unfold pool_inv. cbn. split_and!; [|done|lia|].
      * eapply sublist_NoDup; [exact Hnd|]. apply sublist_app; [done|]. apply sublist_app; [done|]. by apply sublist_cons.
      * rewrite !Forall_app, Forall_cons in *. naive_solver.
  - unfold pool_inv. cbn. rewrite !Forall_app, Forall_cons in *. split_and!; [|done|done|naive_solver..].
    eapply sublist_NoDup; [exact Hnd|]. apply sublist_app; [done|]. apply sublist_app; [done|]. by apply sublist_cons.
  - done.
  - unfold pool_inv. cbn. apply NoDup_cons in Hnd as [_ Hnd]. apply Forall_cons in Hlt as [_ Hlt].
    split_and!; [done|done|lia|done].
Qed.

(** The steps of [Close] with nobody in between. *)
Lemma pool_close_run p p' use next : cp_Close p = Some p' ->
  rtc pool_step {| ps_pool := p; ps_use := use; ps_next := next |} {| ps_pool := p'; ps_use := use; ps_next := next |}.
Proof.
  destruct p as [max idle closed]. unfold cp_Close. cbn. destruct closed; [done|]. intros [= <-].
  eapply rtc_l; [apply pool_close|]. induction idle as [|c idle IH]; [done|]. eapply rtc_l; [apply pool_drain|exact IH].
Qed.

(** ** Properties *)

(** C35: a pooled connection has one owner.  Whatever clients get and put back (each
    only what it holds), whatever they close themselves, and whenever the pool is closed
    meanwhile, no connection is ever idle and in use, or used twice, at
    the same time, and the pool keeps at most [maxIdle] idle connections. *)
Theorem pool_exclusive (maxIdle : nat) (s : pool_state) :
  rtc pool_step {| ps_pool := NewClientConnPool maxIdle; ps_use := []; ps_next := 0 |} s ->
  NoDup (cp_idle (ps_pool s) ++ ps_use s) /\ (length (cp_idle (ps_pool s)) <= maxIdle)%nat.
Proof.
  intros Hrun.
  assert (Hinv : pool_inv maxIdle s).
  { eapply (rtc_invariant pool_step (pool_inv maxIdle)); [exact Hrun| |].
    - unfold pool_inv. cbn. split_and!; [constructor|done|lia|constructor].
    - intros. by eapply pool_inv_step. }
  destruct Hinv as (? & _ & ? & _). done.
Qed.

Lemma pool_exclusive_witness :
  exists s, rtc pool_step {| ps_pool := NewClientConnPool 1; ps_use := []; ps_next := 0 |} s /\
    ps_use s = [0%nat] /\ NoDup (cp_idle (ps_pool s) ++ ps_use s).
Proof.
  assert (Hrun : rtc pool_step {| ps_pool := NewClientConnPool 1; ps_use := []; ps_next := 0 |}
    {| ps_pool := NewClientConnPool 1; ps_use := [0%nat]; ps_next := 1 |}).
  { eapply rtc_once. by apply pool_get. }
  eexists. split; [exact Hrun|]. split; [reflexivity|]. exact (proj1 (pool_exclusive 1 _ Hrun)).
Defined.

(** a client that puts back one connection twice breaks the ownership: the pool hands it
    to the next two clients. *)
Theorem double_put_shares (c : nat) (dial : res error nat) :
  exists p1 p2 p3 p4, cp_Put c (NewClientConnPool 2) = Some (p1, false) /\ cp_Put c p1 = Some (p2, false) /\
    cp_Get dial p2 = (p3, Conn c) /\ cp_Get dial p3 = (p4, Conn c).
Proof. do 4 eexists. split_and!; reflexivity. Qed.

(** a closed pool misbehaves: [Get] hands out a nil connection without an error,
    and [Put] and a second [Close] panic. *)
Theorem closed_pool (p : ClientConnPool) (dial : res error nat) (c : nat) :
  match cp_Close p with
  | Some p' => snd (cp_Get dial p') = NilConn /\ cp_Put c p' = None /\ cp_Close p' = None
  | None => cp_closed p = true
  end.
Proof. unfold cp_Close. destruct (cp_closed p) eqn:E; done. Qed.

(** C36: once a shutdown has begun no new Thrift connection is served: a callback
    that has not yet passed its check closes the connection, in every
    interleaving. *)
Theorem shutdown_refuses_new (s s' : server_state) (n : nat) (th th' : list srv_pc) (t t' : Z) :
  inShutdown s = true -> rtc srv_step (Sys s (replicate n TCheck ++ th) t) (Sys s' th' t') ->
  Forall (fun pc => pc = TCheck \/ pc = TClosed) (take n th').
Proof.
  intros Hs Hrun.
  assert (Hinv : inShutdown s' = true /\ (n <= length th')%nat /\
                 Forall (fun pc => pc = TCheck \/ pc = TClosed) (take n th')); [|naive_solver].
  apply (sys_invariant srv_micro (fun s th _ => inShutdown s = true /\ (n <= length th)%nat /\
    Forall (fun pc => pc = TCheck \/ pc = TClosed) (take n th)) _ _ Hrun); cbn.
  - intros s0 th0 i pc s1 pc' now now' (Hin & Hlen & Hf) Hi _ Hm.
    assert (inShutdown s1 = true) as ->.
    { destruct pc; cbn in Hm; rewrite ?Hin in Hm; by injection Hm as <- _. }
    split_and!; [done|by rewrite length_insert|].
    destruct (decide (i < n)%nat) as [Hlt|Hge].
    + rewrite take_insert_lt by done. apply Forall_insert; [done|].
      assert (Hpc : pc = TCheck \/ pc = TClosed).
      { apply (Forall_lookup_1 _ _ i pc Hf). by rewrite lookup_take_lt. }
      destruct Hpc as [->| ->]; cbn in Hm; rewrite ?Hin in Hm; injection Hm as _ <-; auto.
    + rewrite take_insert_ge by lia. done.
  - split_and!; [done|rewrite length_app, length_replicate; lia|].
    rewrite take_app_le by (rewrite length_replicate; lia).
    rewrite take_ge by (rewrite length_replicate; lia). apply Forall_replicate. by left.
Qed.

Lemma shutdown_refuses_new_witness :
  exists s' th', rtc srv_step
    (Sys {| inShutdown := true; activeConns := 0; listenersClosed := false |} (replicate 1 TCheck ++ [SWait]) 0)
    (Sys s' th' 0) /\ th' = [TClosed; SWait] /\
    Forall (fun pc => pc = TCheck \/ pc = TClosed) (take 1 th').
Proof.
  assert (Hrun : rtc srv_step
    (Sys {| inShutdown := true; activeConns := 0; listenersClosed := false |} (replicate 1 TCheck ++ [SWait]) 0)
    (Sys {| inShutdown := true; activeConns := 0; listenersClosed := false |} [TClosed; SWait] 0)).
  { eapply rtc_l; [eapply (sys_step_now _ _ _ 0%nat); reflexivity|]. apply rtc_refl. }
  eexists _, _. split; [exact Hrun|]. split; [reflexivity|].
  refine (shutdown_refuses_new _ _ 1 [SWait] _ 0 0 _ Hrun). reflexivity.
Defined.

(** shutdown can miss a connection.  The callback checks the flag under the
    mutex but joins the wait group after releasing it: in this interleaving
    [Shutdown] returns while a connection is about to be served, and it is served
    afterwards. *)
Theorem shutdown_race :
  exists s s', rtc srv_step (Sys NewServerState [TCheck; SMark] 0) (Sys s [TAdd; SDone] 0) /\
    rtc srv_step (Sys s [TAdd; SDone] 0) (Sys s' [TRun; SDone] 0) /\
    inShutdown s' = true /\ activeConns s' = 1.
Proof.
  eexists _, _. split; [|split].
  - eapply rtc_l; [eapply (sys_step_now _ _ _ 0%nat); reflexivity|].
    eapply rtc_l; [eapply (sys_step_now _ _ _ 1%nat); reflexivity|].
    eapply rtc_l; [eapply (sys_step_now _ _ _ 1%nat); reflexivity|].
    eapply rtc_l; [eapply (sys_step_now _ _ _ 1%nat); reflexivity|]. apply rtc_refl.
  - eapply rtc_l; [eapply (sys_step_now _ _ _ 0%nat); reflexivity|]. apply rtc_refl.
  - done.
Qed.
