(* ===== verification/Ast.v ===== *)
(** * The unified AST ([compiler/ast/ast.go]) *)
From S2P Require Import Prelude GoStrings.

Inductive Type_ :=
| TypeInt32 | TypeInt64 | TypeString | TypeBinary | TypeBool | TypeDouble | TypeVoid
| TypeMap | TypeList | TypeStruct | TypeEnum.

#[export] Instance Type_eq_dec : EqDecision Type_.
Proof. solve_decision. Defined.

(** The text of a kind, as used in messages. *)
Definition Type_string (t : Type_) : string :=
  match t with
  | TypeInt32 => "T_INT32" | TypeInt64 => "T_INT64" | TypeString => "T_STRING"
  | TypeBinary => "T_BINARY" | TypeBool => "T_BOOL" | TypeDouble => "T_DOUBLE"
  | TypeVoid => "T_VOID" | TypeMap => "T_MAP" | TypeList => "T_LIST"
  | TypeStruct => "T_STRUCT" | TypeEnum => "T_ENUM"
  end.

Inductive TypeNode := mkType {
  tn_Kind : Type_;
  tn_Name : string;
  tn_KeyType : option TypeNode;
  tn_ValueType : option TypeNode
}.

Definition scalar (k : Type_) : TypeNode := mkType k "" None None.
Definition structType (name : string) : TypeNode := mkType TypeStruct name None None.
Definition listType (v : TypeNode) : TypeNode := mkType TypeList "" None (Some v).
Definition mapType (k v : TypeNode) : TypeNode := mkType TypeMap "" (Some k) (Some v).

(** The default value of a field is never set by the parsers and is left out. *)
Record FieldNode := { fn_Name : string; fn_ID : Z; fn_Type : TypeNode; fn_Optional : bool }.

Record StructNode := { sn_Name : string; sn_Fields : list FieldNode; sn_HasFallback : bool }.

Record EnumNode := { en_Name : string; en_Values : gmap string Z }.

Record MethodNode := {
  mn_Name : string;
  mn_InputType : string;
  mn_OutputType : string;
  mn_ClientStreaming : bool;
  mn_ServerStreaming : bool;
  mn_RESTMethod : string;
  mn_RESTPath : string
}.

Record ServiceNode := { sv_Name : string; sv_Methods : list MethodNode }.

Record AST := {
  Namespace : string;
  Enums : list EnumNode;
  Structs : list StructNode;
  Services : list ServiceNode
}.

Definition empty_ast : AST := {| Namespace := ""; Enums := []; Structs := []; Services := [] |}.
