(* ===== verification/Lexer.v ===== *)
(** * The lexer ([compiler/parser/proto_parser.go], [nextToken]) *)
From S2P Require Import Prelude GoStrings.

Inductive token :=
| TokEOF
| TokIdent (val : string)
| TokInt (val : string)
| TokString (val : string)
| TokPunct (val : ascii).

#[export] Instance token_eq_dec : EqDecision token.
Proof. solve_decision. Defined.

(** [p.tok.val]: the text of a token. *)
Definition tok_val (t : token) : string :=
  match t with
  | TokEOF => ""
  | TokIdent s | TokInt s | TokString s => s
  | TokPunct c => String c ""
  end.

(** [unicode.IsLetter] on a byte, which is read as a Latin-1 character. *)
Definition is_letter (c : ascii) : bool :=
  let n := nat_of_ascii c in
  is_upper c || is_lower c ||
  (n =? 170)%nat || (n =? 181)%nat || (n =? 186)%nat ||
  ((192 <=? n)%nat && negb (n =? 215)%nat && negb (n =? 247)%nat).

Definition is_ident_start (c : ascii) : bool := is_letter c || Ascii.eqb c "_".
Definition is_ident_char (c : ascii) : bool :=
  is_letter c || is_digit c || Ascii.eqb c "_" || Ascii.eqb c ".".
Definition is_ws (c : ascii) : bool :=
  Ascii.eqb c " " || Ascii.eqb c "009" || Ascii.eqb c "010" || Ascii.eqb c "013".
Definition is_quote (c : ascii) : bool := Ascii.eqb c "034" || Ascii.eqb c "'".

(** The longest prefix whose characters satisfy [p], and the rest. *)
Fixpoint span (p : ascii -> bool) (s : string) : string * string :=
  match s with
  | "" => ("", "")
  | String c s' => if p c then let '(a, b) := span p s' in (String c a, b) else ("", s)
  end.

Definition skipWhitespace (s : string) : string := snd (span is_ws s).

(** Without its first character: the closing quote, when there is one. *)
Definition skip1 (s : string) : string := match s with "" => "" | String _ s' => s' end.

(** [nextToken] on the rest of the input; the recursion skips comments. *)
Fixpoint nextToken (fuel : nat) (s : string) : token * string :=
  match fuel with
  | O => (TokEOF, "")
  | S fuel' =>
      match skipWhitespace s with
      | "" => (TokEOF, "")
      | String ch s' =>
          if is_ident_start ch then
            let '(a, b) := span is_ident_char (String ch s') in (TokIdent a, b)
          else if is_digit ch || Ascii.eqb ch "-" then
            let '(a, b) := span is_digit s' in (TokInt (String ch a), b)
          else if is_quote ch then
            let '(a, b) := span (fun c => negb (Ascii.eqb c ch)) s' in (TokString a, skip1 b)
          else
            match s' with
            | String c2 s'' =>
                if Ascii.eqb ch "/" && Ascii.eqb c2 "/"
                then nextToken fuel' (snd (span (fun c => negb (Ascii.eqb c "010")) s''))
                else (TokPunct ch, s')
            | "" => (TokPunct ch, s')
            end
      end
  end.

(** The tokens the parser sees, in order, up to the end of the input. *)
Fixpoint lex (fuel : nat) (s : string) : list token :=
  match fuel with
  | O => []
  | S fuel' =>
      match nextToken (S (String.length s)) s with
      | (TokEOF, _) => []
      | (t, rest) => t :: lex fuel' rest
      end
  end.

Definition tokens_of (s : string) : list token := lex (S (String.length s)) s.

(** ** Lemmas *)
Lemma span_app p s : fst (span p s) +:+ snd (span p s) = s.
Proof.
  induction s as [|c s IH]; [done|]. cbn. destruct (p c); [|done].
  destruct (span p s) as [a b]. cbn in *. by rewrite IH.
Qed.

Lemma span_length p s : (String.length (snd (span p s)) <= String.length s)%nat.
Proof.
  rewrite <- (span_app p s) at 2. rewrite str_length_app. lia.
Qed.

Lemma span_all p a b :
  str_forall p a = true -> (b = "" \/ exists c b', b = String c b' /\ p c = false) ->
  span p (a +:+ b) = (a, b).
Proof.
  intros Ha Hb. induction a as [|c a IH]; cbn.
  - destruct Hb as [->|(c & b' & -> & Hc)]; [done|]. cbn. by rewrite Hc.
  - cbn in Ha. apply andb_true_iff in Ha as [Hc Ha]. by rewrite Hc, IH.
Qed.

Lemma skip1_length s : (String.length (skip1 s) <= String.length s)%nat.
Proof. destruct s; cbn; lia. Qed.

(** Every token but the end consumes input. *)
Lemma nextToken_consumes fuel s t rest :
  nextToken fuel s = (t, rest) -> t <> TokEOF -> (String.length rest < String.length s)%nat.
Proof.
  revert s. induction fuel as [|fuel IH]; intros s; cbn [nextToken]; [intros [= <- _]; done|].
  pose proof (span_length is_ws s) as Hws. unfold skipWhitespace.
  destruct (snd (span is_ws s)) as [|ch s'] eqn:Es; [intros [= <- _]; done|]. cbn in Hws.
  destruct (is_ident_start ch) eqn:Ei.
  { cbn [span]. assert (is_ident_char ch = true) as ->.
    { unfold is_ident_start, is_ident_char in *. apply orb_true_iff in Ei as [->| ->]; [done|].
      by rewrite !orb_true_r. }
    pose proof (span_length is_ident_char s') as Hl. destruct (span is_ident_char s') as [a b]. cbn in Hl.
    intros [= <- <-] _. lia. }
  destruct (is_digit ch || Ascii.eqb ch "-").
  { pose proof (span_length is_digit s') as Hl. destruct (span is_digit s') as [a b]. cbn in Hl.
    intros [= <- <-] _. lia. }
  destruct (is_quote ch).
  { pose proof (span_length (fun c => negb (Ascii.eqb c ch)) s') as Hl.
    destruct (span _ s') as [a b]. cbn in Hl. pose proof (skip1_length b).
    intros [= <- <-] _. lia. }
  destruct s' as [|c2 s'']; [intros [= <- <-] _; cbn in *; lia|].
  destruct (Ascii.eqb ch "/" && Ascii.eqb c2 "/").
  - intros Hn Ht. specialize (IH _ Hn Ht).
    pose proof (span_length (fun c => negb (Ascii.eqb c "010")) s''). cbn in Hws. lia.
  - intros [= <- <-] _. cbn in *. lia.
Qed.

(** More fuel than characters does not change a token. *)
Lemma nextToken_fuel f1 f2 s :
  (String.length s < f1)%nat -> (String.length s < f2)%nat -> nextToken f1 s = nextToken f2 s.
Proof.
  revert f2 s. induction f1 as [|f1 IH]; intros f2 s H1 H2; [lia|]. destruct f2 as [|f2]; [lia|].
  cbn [nextToken]. pose proof (span_length is_ws s) as Hws. unfold skipWhitespace.
  destruct (snd (span is_ws s)) as [|ch s'] eqn:Es; [done|]. cbn in Hws.
  destruct (is_ident_start ch); [done|]. destruct (_ || _); [done|]. destruct (is_quote ch); [done|].
  destruct s' as [|c2 s'']; [done|]. destruct (_ && _); [|done].
  pose proof (span_length (fun c => negb (Ascii.eqb c "010")) s''). cbn in Hws. apply IH; lia.
Qed.

Lemma lex_fuel f1 f2 s :
  (String.length s < f1)%nat -> (String.length s < f2)%nat -> lex f1 s = lex f2 s.
Proof.
  revert f2 s. induction f1 as [|f1 IH]; intros f2 s H1 H2; [lia|]. destruct f2 as [|f2]; [lia|].
  cbn [lex]. destruct (nextToken (S (String.length s)) s) as [t rest] eqn:En.
  destruct (decide (t = TokEOF)) as [->|Ht]; [done|].
  pose proof (nextToken_consumes _ _ _ _ En Ht). rewrite (IH f2 rest) by lia. by destruct t.
Qed.

(** ** Printing tokens *)
Definition print_token (t : token) : string :=
  match t with
  | TokEOF => ""
  | TokIdent s | TokInt s => s
  | TokString s => String "034" s +:+ String "034" ""
  | TokPunct c => String c ""
  end.

(** Tokens separated by spaces. *)
Fixpoint render (ts : list token) : string :=
  match ts with [] => "" | t :: ts' => print_token t +:+ String " " (render ts') end.

Definition is_punct (c : ascii) : bool :=
  negb (is_ws c || is_ident_start c || is_digit c || Ascii.eqb c "-" || is_quote c || Ascii.eqb c "/").

(** Tokens the lexer can produce and print back. *)
Definition valid_token (t : token) : bool :=
  match t with
  | TokEOF => false
  | TokIdent "" => false
  | TokIdent (String c s) => is_ident_start c && str_forall is_ident_char s
  | TokInt "" => false
  | TokInt (String c s) => (is_digit c || Ascii.eqb c "-") && str_forall is_digit s
  | TokString s => str_forall (fun c => negb (Ascii.eqb c "034")) s
  | TokPunct c => is_punct c
  end.

Lemma skipWhitespace_nows c s : is_ws c = false -> skipWhitespace (String c s) = String c s.
Proof. intros H. unfold skipWhitespace. cbn. by rewrite H. Qed.

Lemma char_classes c :
  (is_ident_start c = true -> is_ws c = false) /\
  (is_digit c || Ascii.eqb c "-" = true -> is_ws c = false /\ is_ident_start c = false) /\
  (is_ident_start c = true -> is_ident_char c = true) /\
  is_digit " " = false /\ is_ident_char " " = false.
Proof. destruct c as [[] [] [] [] [] [] [] []]; vm_compute; split_and!; intros; done. Qed.

Lemma nextToken_space s : nextToken (S (String.length (String " " s))) (String " " s)
  = nextToken (S (String.length s)) s.
Proof.
  cbn [String.length]. rewrite (nextToken_fuel _ (S (S (String.length s))) s) by lia.
  cbn [nextToken]. unfold skipWhitespace. cbn [span].
  change (is_ws " ") with true. cbn iota. by destruct (span is_ws s).
Qed.

Lemma nextToken_print t s :
  valid_token t = true ->
  nextToken (S (String.length (print_token t +:+ String " " s))) (print_token t +:+ String " " s)
  = (t, String " " s).
Proof.
  intros Hv. destruct t as [|[|c a]|[|c a]|a|c]; try done; cbn [print_token valid_token] in *.
  - apply andb_true_iff in Hv as [Hc Ha]. destruct (char_classes c) as (Hw & _ & Hic & _ & Hsp).
    cbn [String.append nextToken]. rewrite skipWhitespace_nows by auto. rewrite Hc.
    cbn [span]. rewrite Hic by done. rewrite span_all; [done|done|]. right. by exists " "%char, s.
  - apply andb_true_iff in Hv as [Hc Ha]. destruct (char_classes c) as (_ & Hd & _ & Hsp & _).
    destruct (Hd Hc) as [Hw Hi]. cbn [String.append nextToken]. rewrite skipWhitespace_nows by auto.
    rewrite Hi, Hc. rewrite span_all; [done|done|]. right. by exists " "%char, s.
  - cbn [String.append nextToken]. rewrite skipWhitespace_nows by reflexivity.
    change (is_ident_start "034") with false. change (is_digit "034" || Ascii.eqb "034" "-") with false.
    change (is_quote "034") with true. cbn iota. rewrite str_app_assoc. cbn [String.append].
    rewrite span_all; [done|done|]. right. by exists "034"%char, (String " " s).
  - unfold is_punct in Hv. apply negb_true_iff in Hv. rewrite !orb_false_iff in Hv.
    destruct Hv as [[[[[Hw Hi] Hd] Hm] Hq] Hs].
    cbn [String.append nextToken]. rewrite skipWhitespace_nows by done. rewrite Hi, Hd, Hm, Hq, Hs. done.
Qed.

Lemma print_token_nonempty t : valid_token t = true -> (0 < String.length (print_token t))%nat.
Proof. destruct t as [|[|c a]|[|c a]|a|c]; cbn; try done; lia. Qed.

(** Lexing printed tokens gives them back. *)
Lemma lex_render ts fuel :
  Forall (fun t => valid_token t = true) ts -> (String.length (render ts) < fuel)%nat ->
  lex fuel (render ts) = ts.
Proof.
  intros Hts. revert fuel. induction Hts as [|t ts Ht Hts IH]; intros fuel Hf.
  { destruct fuel; [lia|]. reflexivity. }
  destruct fuel as [|fuel]; [lia|]. cbn [render] in *. cbn [lex].
  rewrite nextToken_print by done. rewrite str_length_app in Hf. cbn [String.length] in Hf.
  pose proof (print_token_nonempty t Ht).
  assert (lex fuel (String " " (render ts)) = ts) as ->; [|by destruct t].
  rewrite <- (IH (S fuel)) at 2 by lia. rewrite (lex_fuel fuel (S fuel)) by (cbn; lia).
  cbn [lex]. by rewrite nextToken_space.
Qed.

Lemma tokens_of_render ts :
  Forall (fun t => valid_token t = true) ts -> tokens_of (render ts) = ts.
Proof. intros Hts. apply lex_render; [done|lia]. Qed.
