(* ===== verification/ProtoParser.v ===== *)
(** * The protobuf parser ([compiler/parser/proto_parser.go])

    The parser's state is the list of tokens still to be read; the current token
    is its head, and the end of the list is the end of the input.  Every loop
    runs on fuel given by the number of tokens; [POutOfFuel] is shown to be
    unreachable. *)
From S2P Require Import Prelude GoStrings Ast Lexer.

Inductive parse_error := PErr (msg : string) | POutOfFuel.

Abbreviation presult A := (res parse_error (A * list token)).

Definition cur (ts : list token) : token := hd TokEOF ts.
Definition cur_val (ts : list token) : string := tok_val (cur ts).
Definition at_punct (c : ascii) (ts : list token) : bool := bool_decide (cur ts = TokPunct c).
Definition at_ident (s : string) (ts : list token) : bool := bool_decide (cur ts = TokIdent s).
Definition at_end (ts : list token) : bool := bool_decide (ts = []).

Definition expect (c : ascii) (msg : string) (ts : list token) : presult unit :=
  if at_punct c ts then Ok (tt, tail ts) else Err (PErr msg).
Definition expect_ident (msg : string) (ts : list token) : presult string :=
  match ts with TokIdent s :: ts' => Ok (s, ts') | _ => Err (PErr msg) end.
Definition expect_int (msg : string) (ts : list token) : presult string :=
  match ts with TokInt s :: ts' => Ok (s, ts') | _ => Err (PErr msg) end.
Definition expect_string (msg : string) (ts : list token) : presult string :=
  match ts with TokString s :: ts' => Ok (s, ts') | _ => Err (PErr msg) end.

(** [strconv.Atoi] with its error dropped, then [int32(...)]. *)
Definition int32_of (s : string) : Z := i32 (fst (Atoi s)).

(** ** Types *)
Fixpoint parse_type (fuel : nat) (tStr : string) : TypeNode :=
  match fuel with
  | O => structType tStr
  | S fuel' =>
      let tStr := TrimSpace tStr in
      let n := String.length tStr in
      let scalar_or_struct :=
        if bool_decide (tStr = "int32") || bool_decide (tStr = "i32") then scalar TypeInt32
        else if bool_decide (tStr = "int64") || bool_decide (tStr = "i64") then scalar TypeInt64
        else if bool_decide (tStr = "string") then scalar TypeString
        else if bool_decide (tStr = "bytes") || bool_decide (tStr = "binary") then scalar TypeBinary
        else if bool_decide (tStr = "bool") then scalar TypeBool
        else if bool_decide (tStr = "double") then scalar TypeDouble
        else structType tStr in
      if HasPrefix tStr "list<" && HasSuffix tStr ">" then
        listType (parse_type fuel' (slice tStr 5 (n - 1)))
      else if HasPrefix tStr "map<" && HasSuffix tStr ">" then
        match SplitN2 (slice tStr 4 (n - 1)) "," with
        | [k; v] => mapType (parse_type fuel' k) (parse_type fuel' v)
        | _ => scalar_or_struct
        end
      else scalar_or_struct
  end.

Definition parseTypeNode (tStr : string) : TypeNode := parse_type (S (String.length tStr)) tStr.

(** ** Statements *)
Definition parseSyntax (ts : list token) : presult unit :=
  let ts := tail ts in
  let? (_, ts) := expect "=" "expected '=' after syntax" ts in
  let? (_, ts) := expect_string "expected string after syntax =" ts in
  expect ";" "expected ';' after syntax definition" ts.

Definition parsePackage (ts : list token) : presult string :=
  let ts := tail ts in
  let? (pkg, ts) := expect_ident "expected identifier after package" ts in
  let? (_, ts) := expect ";" "expected ';' after package definition" ts in
  Ok (pkg, ts).

(** Skip to a closing brace (or the end), without consuming it. *)
Fixpoint skip_to_brace (ts : list token) : list token :=
  match ts with
  | [] => []
  | t :: ts' => if bool_decide (t = TokPunct "}") then ts else skip_to_brace ts'
  end.

(** After [oneof]: the block name and the block are skipped. *)
Definition skip_oneof (ts : list token) : list token :=
  let ts := match cur ts with TokIdent _ => tail ts | _ => ts end in
  if at_punct "{" ts then tail (skip_to_brace (tail ts)) else ts.

(** After [map]: the type text, and the tokens after it. *)
Definition map_type (ts : list token) : string * list token :=
  if at_punct "<" ts then
    let ts := tail ts in
    let keyType := cur_val ts in
    let ts := tail ts in
    if at_punct "," ts then
      let ts := tail ts in
      let valueType := cur_val ts in
      let ts := tail ts in
      if at_punct ">" ts then ("map<" +:+ keyType +:+ "," +:+ valueType +:+ ">", tail ts)
      else ("map", ts)
    else ("map", ts)
  else ("map", ts).

(** The type of a field: [(optional, text, is a map, rest)]; the current token is
    the identifier [first]. *)
Definition field_type (first : string) (ts : list token) : bool * string * bool * list token :=
  let '(optional, typeName, ts) :=
    if bool_decide (first = "optional") then let ts := tail ts in (true, cur_val ts, ts)
    else if bool_decide (first = "repeated") then
      let ts := tail ts in (false, "list<" +:+ cur_val ts +:+ ">", ts)
    else (false, first, ts) in
  if bool_decide (typeName = "map") then
    let '(typeName, ts) := map_type (tail ts) in (optional, typeName, true, ts)
  else (optional, typeName, false, tail ts).

(** One field: the node and whether the struct needs the fallback. *)
Definition parse_field (first : string) (ts : list token) : presult (FieldNode * bool) :=
  let '(optional, typeName, isMap, ts) := field_type first ts in
  let? (fieldName, ts) := expect_ident ("expected field name identifier after type " +:+ typeName) ts in
  let? (_, ts) := expect "=" ("expected '=' after field name " +:+ fieldName) ts in
  let? (tag, ts) := expect_int ("expected integer tag for field " +:+ fieldName) ts in
  let? (_, ts) := expect ";" ("expected ';' after field " +:+ fieldName +:+ " definition") ts in
  let fType := parseTypeNode typeName in
  Ok (({| fn_Name := fieldName; fn_ID := int32_of tag; fn_Type := fType; fn_Optional := optional |},
       isMap || bool_decide (tn_Kind fType = TypeMap)), ts).

Fixpoint message_loop (fuel : nat) (fields : list FieldNode) (fallback : bool) (ts : list token)
  : presult (list FieldNode * bool) :=
  match fuel with
  | O => Err POutOfFuel
  | S fuel' =>
      if at_end ts || at_punct "}" ts then Ok ((fields, fallback), ts)
      else
        match cur ts with
        | TokIdent first =>
            if bool_decide (first = "oneof") then message_loop fuel' fields true (skip_oneof (tail ts))
            else
              let? ((f, fb), ts) := parse_field first ts in
              message_loop fuel' (fields ++ [f]) (fallback || fb) ts
        | _ => message_loop fuel' fields fallback (tail ts)
        end
  end.

Definition parseMessage (ts : list token) : presult StructNode :=
  let ts := tail ts in
  let? (name, ts) := expect_ident "expected identifier for message name" ts in
  let? (_, ts) := expect "{" ("expected '{' after message " +:+ name) ts in
  let? ((fields, fallback), ts) := message_loop (S (length ts)) [] false ts in
  let? (_, ts) := expect "}" ("expected '}' to close message " +:+ name) ts in
  Ok ({| sn_Name := name; sn_Fields := fields; sn_HasFallback := fallback |}, ts).

Definition parse_enum_value (key : string) (ts : list token) : presult Z :=
  let ts := tail ts in
  let? (_, ts) := expect "=" ("expected '=' after enum key " +:+ key) ts in
  let? (v, ts) := expect_int ("expected integer value for enum key " +:+ key) ts in
  let? (_, ts) := expect ";" ("expected ';' after enum key " +:+ key) ts in
  Ok (int32_of v, ts).

Fixpoint enum_loop (fuel : nat) (values : gmap string Z) (ts : list token) : presult (gmap string Z) :=
  match fuel with
  | O => Err POutOfFuel
  | S fuel' =>
      if at_end ts || at_punct "}" ts then Ok (values, ts)
      else
        match cur ts with
        | TokIdent key =>
            let? (v, ts) := parse_enum_value key ts in enum_loop fuel' (<[key := v]> values) ts
        | _ => enum_loop fuel' values (tail ts)
        end
  end.

Definition parseEnum (ts : list token) : presult EnumNode :=
  let ts := tail ts in
  let? (name, ts) := expect_ident "expected identifier for enum name" ts in
  let? (_, ts) := expect "{" ("expected '{' after enum " +:+ name) ts in
  let? (values, ts) := enum_loop (S (length ts)) ∅ ts in
  let? (_, ts) := expect "}" ("expected '}' to close enum " +:+ name) ts in
  Ok ({| en_Name := name; en_Values := values |}, ts).

(** *** Methods and their HTTP options *)

(** The body of a [google.api.http] option: every [verb : "path"] pair replaces the
    route. *)
Fixpoint http_rule_loop (fuel : nat) (rest : string * string) (ts : list token)
  : presult (string * string) :=
  match fuel with
  | O => Err POutOfFuel
  | S fuel' =>
      if at_end ts || at_punct "}" ts then Ok (rest, ts)
      else
        match cur ts with
        | TokIdent verb =>
            let ts := tail ts in
            if at_punct ":" ts then
              let ts := tail ts in
              match cur ts with
              | TokString path => http_rule_loop fuel' (ToUpper verb, path) (tail ts)
              | _ => http_rule_loop fuel' rest ts
              end
            else http_rule_loop fuel' rest ts
        | _ => http_rule_loop fuel' rest (tail ts)
        end
  end.

(** After [option]: nested tests, each consuming its token when it holds. *)
Definition http_option (rest : string * string) (ts : list token) : presult (string * string) :=
  let inner :=
    if at_punct "(" ts then
      let ts := tail ts in
      if at_ident "google.api.http" ts then
        let ts := tail ts in
        if at_punct ")" ts then
          let ts := tail ts in
          if at_punct "=" ts then
            let ts := tail ts in
            if at_punct "{" ts then
              let ts := tail ts in
              let? (rest, ts) := http_rule_loop (S (length ts)) rest ts in
              Ok (rest, if at_punct "}" ts then tail ts else ts)
            else Ok (rest, ts)
          else Ok (rest, ts)
        else Ok (rest, ts)
      else Ok (rest, ts)
    else Ok (rest, ts) in
  let? (rest, ts) := inner in
  Ok (rest, if at_punct ";" ts then tail ts else ts).

Fixpoint option_loop (fuel : nat) (rest : string * string) (ts : list token) : presult (string * string) :=
  match fuel with
  | O => Err POutOfFuel
  | S fuel' =>
      if at_end ts || at_punct "}" ts then Ok (rest, ts)
      else if at_ident "option" ts then
        let? (rest, ts) := http_option rest (tail ts) in option_loop fuel' rest ts
      else option_loop fuel' rest (tail ts)
  end.

Definition stream_mark (ts : list token) : bool * list token :=
  if at_ident "stream" ts then (true, tail ts) else (false, ts).

Definition parse_method (ts : list token) : presult MethodNode :=
  let ts := tail ts in
  let? (name, ts) := expect_ident "expected method name identifier" ts in
  let? (_, ts) := expect "(" ("expected '(' after method " +:+ name) ts in
  let '(cs, ts) := stream_mark ts in
  let? (input, ts) := expect_ident ("expected input type for method " +:+ name) ts in
  let? (_, ts) := expect ")" ("expected ')' after input type of method " +:+ name) ts in
  let? (_, ts) := (if at_ident "returns" ts then Ok (tt, tail ts)
                   else Err (PErr ("expected 'returns' keyword for method " +:+ name))) in
  let? (_, ts) := expect "(" ("expected '(' before output type of method " +:+ name) ts in
  let '(ss, ts) := stream_mark ts in
  let? (output, ts) := expect_ident ("expected output type for method " +:+ name) ts in
  let? (_, ts) := expect ")" ("expected ')' after output type of method " +:+ name) ts in
  let? ((restMethod, restPath), ts) :=
    (if at_punct ";" ts then Ok (("", ""), tail ts)
     else if at_punct "{" ts then
       let? (rest, ts) := option_loop (S (length ts)) ("", "") (tail ts) in
       let? (_, ts) := expect "}" ("expected closing brace '}' for method " +:+ name) ts in
       Ok (rest, ts)
     else Ok (("", ""), ts)) in
  Ok ({| mn_Name := name; mn_InputType := input; mn_OutputType := output; mn_ClientStreaming := cs;
         mn_ServerStreaming := ss; mn_RESTMethod := restMethod; mn_RESTPath := restPath |}, ts).

Fixpoint service_loop (fuel : nat) (methods : list MethodNode) (ts : list token)
  : presult (list MethodNode) :=
  match fuel with
  | O => Err POutOfFuel
  | S fuel' =>
      if at_end ts || at_punct "}" ts then Ok (methods, ts)
      else if at_ident "rpc" ts then
        let? (m, ts) := parse_method ts in service_loop fuel' (methods ++ [m]) ts
      else service_loop fuel' methods (tail ts)
  end.

Definition parseService (ts : list token) : presult ServiceNode :=
  let ts := tail ts in
  let? (name, ts) := expect_ident "expected identifier for service name" ts in
  let? (_, ts) := expect "{" ("expected '{' after service " +:+ name) ts in
  let? (methods, ts) := service_loop (S (length ts)) [] ts in
  let? (_, ts) := expect "}" ("expected '}' to close service " +:+ name) ts in
  Ok ({| sv_Name := name; sv_Methods := methods |}, ts).

(** ** The file *)
Definition with_namespace (ns : string) (a : AST) : AST :=
  {| Namespace := ns; Enums := Enums a; Structs := Structs a; Services := Services a |}.
Definition add_struct (s : StructNode) (a : AST) : AST :=
  {| Namespace := Namespace a; Enums := Enums a; Structs := Structs a ++ [s]; Services := Services a |}.
Definition add_enum (e : EnumNode) (a : AST) : AST :=
  {| Namespace := Namespace a; Enums := Enums a ++ [e]; Structs := Structs a; Services := Services a |}.
Definition add_service (s : ServiceNode) (a : AST) : AST :=
  {| Namespace := Namespace a; Enums := Enums a; Structs := Structs a; Services := Services a ++ [s] |}.

Fixpoint parseAST (fuel : nat) (a : AST) (ts : list token) : res parse_error AST :=
  match fuel with
  | O => Err POutOfFuel
  | S fuel' =>
      match ts with
      | [] => Ok a
      | TokIdent kw :: _ =>
          if bool_decide (kw = "syntax") then
            let? (_, ts) := parseSyntax ts in parseAST fuel' a ts
          else if bool_decide (kw = "package") then
            let? (pkg, ts) := parsePackage ts in parseAST fuel' (with_namespace pkg a) ts
          else if bool_decide (kw = "message") then
            let? (s, ts) := parseMessage ts in parseAST fuel' (add_struct s a) ts
          else if bool_decide (kw = "enum") then
            let? (e, ts) := parseEnum ts in parseAST fuel' (add_enum e a) ts
          else if bool_decide (kw = "service") then
            let? (s, ts) := parseService ts in parseAST fuel' (add_service s a) ts
          else parseAST fuel' a (tail ts)
      | _ :: ts' => parseAST fuel' a ts'
      end
  end.

Definition ParseProto (content : string) : res parse_error AST :=
  let ts := tokens_of content in parseAST (S (length ts)) empty_ast ts.

(** ** Lemmas: consumption and fuel *)

(** The parser succeeded with at most [n] tokens left, or failed with a message. *)
Definition fits {A} (n : nat) (r : presult A) : Prop :=
  match r with
  | Ok (_, ts) => (length ts <= n)%nat
  | Err POutOfFuel => False
  | Err (PErr _) => True
  end.

Lemma fits_bind {A B} n (c : presult A) (k : A * list token -> presult B) m :
  fits m c -> (forall a ts, (length ts <= m)%nat -> fits n (k (a, ts))) -> fits n (res_bind c k).
Proof. destruct c as [[a ts]|[msg|]]; cbn; auto. Qed.

Lemma fits_mono {A} n m (r : presult A) : fits n r -> (n <= m)%nat -> fits m r.
Proof. destruct r as [[a ts]|[msg|]]; cbn; [lia|done|done]. Qed.

Lemma tail_length {A} (l : list A) : (length (tail l) <= length l)%nat.
Proof. destruct l; cbn; lia. Qed.

Lemma expect_fits c msg ts : fits (pred (length ts)) (expect c msg ts).
Proof. unfold expect, at_punct, cur. destruct ts as [|t ts]; cbn; case_bool_decide; cbn; lia || done. Qed.
Lemma expect_ident_fits msg ts : fits (pred (length ts)) (expect_ident msg ts).
Proof. destruct ts as [|[] ts]; cbn; lia || done. Qed.
Lemma expect_int_fits msg ts : fits (pred (length ts)) (expect_int msg ts).
Proof. destruct ts as [|[] ts]; cbn; lia || done. Qed.
Lemma expect_string_fits msg ts : fits (pred (length ts)) (expect_string msg ts).
Proof. destruct ts as [|[] ts]; cbn; lia || done. Qed.

Create HintDb parser.
#[export] Hint Resolve expect_fits expect_ident_fits expect_int_fits expect_string_fits : parser.

(** One step of a parser: use what is known of the first call, and go on. *)
Ltac pstep :=
  match goal with
  | |- fits _ (let? (_, _) := ?c in _) =>
      eapply fits_bind; [solve [eauto with parser]|intros ? ? ?; cbn beta iota]
  end.
Ltac pdone :=
  repeat match goal with |- context [tail ?l] => pose proof (tail_length l); generalize dependent (tail l); intros end;
  cbn in *; lia.

Lemma parseSyntax_fits ts : fits (pred (length ts)) (parseSyntax ts).
Proof.
  unfold parseSyntax. repeat pstep. eapply fits_mono; [apply expect_fits|].
  pose proof (tail_length ts). destruct ts; cbn in *; lia.
Qed.

Lemma parsePackage_fits ts : fits (pred (length ts)) (parsePackage ts).
Proof.
  unfold parsePackage. repeat pstep. cbn. destruct ts; cbn in *; lia.
Qed.

Lemma skip_to_brace_length ts : (length (skip_to_brace ts) <= length ts)%nat.
Proof. induction ts as [|t ts IH]; cbn; [lia|]. case_bool_decide; cbn; lia. Qed.

Lemma skip_oneof_length ts : (length (skip_oneof ts) <= length ts)%nat.
Proof.
  unfold skip_oneof.
  set (ts1 := match cur ts with TokIdent _ => tail ts | _ => ts end).
  assert ((length ts1 <= length ts)%nat) as H1.
  { subst ts1. pose proof (tail_length ts). destruct (cur ts); lia. }
  destruct (at_punct "{" ts1); [|done].
  pose proof (tail_length (skip_to_brace (tail ts1))). pose proof (skip_to_brace_length (tail ts1)).
  pose proof (tail_length ts1). lia.
Qed.

Lemma map_type_length ts : (length (snd (map_type ts)) <= length ts)%nat.
Proof.
  unfold map_type. pose proof (tail_length ts). pose proof (tail_length (tail ts)).
  pose proof (tail_length (tail (tail ts))). pose proof (tail_length (tail (tail (tail ts)))).
  pose proof (tail_length (tail (tail (tail (tail ts))))).
  repeat (case_match; cbn [snd]; try lia).
Qed.

Lemma field_type_length first ts :
  ts <> [] -> (length (snd (field_type first ts)) <= pred (length ts))%nat.
Proof.
  intros Hne. unfold field_type.
  assert (Ht : forall l : list token, (length (tail l) <= pred (length l))%nat) by (intros []; cbn; lia).
  destruct (if bool_decide (first = "optional") then _ else _) as [[o tn] ts1] eqn:E.
  assert (Hl : (length ts1 <= length ts)%nat).
  { repeat case_bool_decide; injection E as <- <- <-; pose proof (tail_length ts); lia. }
  clear E. case_bool_decide; cbn [snd]; [|pose proof (Ht ts1); lia].
  pose proof (map_type_length (tail ts1)) as Hm. destruct (map_type (tail ts1)) as [tn' ts2]. cbn in *.
  pose proof (Ht ts1). lia.
Qed.

Lemma parse_field_fits first ts : ts <> [] -> fits (pred (length ts)) (parse_field first ts).
Proof.
  intros Hne. unfold parse_field. pose proof (field_type_length first ts Hne) as Hl.
  destruct (field_type first ts) as [[[o tn] im] ts1]. cbn in Hl. repeat pstep. cbn. lia.
Qed.

Lemma at_end_cons ts : at_end ts = false -> ts <> [].
Proof. unfold at_end. by case_bool_decide. Qed.

Lemma tail_lt {A} (l : list A) : l <> [] -> (length (tail l) < length l)%nat.
Proof. destruct l; [done|]. cbn. lia. Qed.

Lemma message_loop_fits fuel fields fb ts :
  (length ts < fuel)%nat -> fits (length ts) (message_loop fuel fields fb ts).
Proof.
  revert fields fb ts. induction fuel as [|fuel IH]; intros fields fb ts Hf; [lia|]. cbn [message_loop].
  destruct (at_end ts || at_punct "}" ts) eqn:Ee; [cbn; lia|].
  apply orb_false_iff in Ee as [Ee%at_end_cons _]. pose proof (tail_lt ts Ee) as Ht.
  assert (Hskip : fits (length ts) (message_loop fuel fields fb (tail ts))).
  { eapply fits_mono; [apply IH; lia|lia]. }
  destruct (cur ts); try exact Hskip. case_bool_decide.
  - pose proof (skip_oneof_length (tail ts)). eapply fits_mono; [apply IH; lia|lia].
  - eapply fits_bind; [by apply parse_field_fits|]. intros [f fb'] ts' Hl. cbn beta iota.
    eapply fits_mono; [apply IH; lia|lia].
Qed.

Lemma enum_loop_fits fuel vals ts :
  (length ts < fuel)%nat -> fits (length ts) (enum_loop fuel vals ts).
Proof.
  revert vals ts. induction fuel as [|fuel IH]; intros vals ts Hf; [lia|]. cbn [enum_loop].
  destruct (at_end ts || at_punct "}" ts) eqn:Ee; [cbn; lia|].
  apply orb_false_iff in Ee as [Ee%at_end_cons _]. pose proof (tail_lt ts Ee) as Ht.
  assert (Hskip : fits (length ts) (enum_loop fuel vals (tail ts))).
  { eapply fits_mono; [apply IH; lia|lia]. }
  destruct (cur ts); try exact Hskip.
  eapply (fits_bind _ _ _ (pred (length ts))).
  - unfold parse_enum_value. repeat pstep. cbn. lia.
  - intros v ts' Hl. eapply fits_mono; [apply IH; lia|lia].
Qed.

Lemma http_rule_loop_fits fuel rest ts :
  (length ts < fuel)%nat -> fits (length ts) (http_rule_loop fuel rest ts).
Proof.
  revert rest ts. induction fuel as [|fuel IH]; intros rest ts Hf; [lia|]. cbn [http_rule_loop].
  destruct (at_end ts || at_punct "}" ts) eqn:Ee; [cbn; lia|].
  apply orb_false_iff in Ee as [Ee%at_end_cons _]. pose proof (tail_lt ts Ee) as Ht.
  assert (Hskip : forall r l, (length l <= length (tail ts))%nat -> fits (length ts) (http_rule_loop fuel r l)).
  { intros r l Hl. eapply fits_mono; [apply IH; lia|lia]. }
  pose proof (tail_length (tail ts)). pose proof (tail_length (tail (tail ts))).
  destruct (cur ts); try (apply Hskip; lia).
  destruct (at_punct ":" (tail ts)); [|apply Hskip; lia].
  destruct (cur (tail (tail ts))); apply Hskip; lia.
Qed.

Lemma http_option_fits rest ts : fits (length ts) (http_option rest ts).
Proof.
  unfold http_option.
  pose proof (tail_length ts). pose proof (tail_length (tail ts)).
  pose proof (tail_length (tail (tail ts))). pose proof (tail_length (tail (tail (tail ts)))).
  pose proof (tail_length (tail (tail (tail (tail ts))))).
  assert (Hend : forall A (a : A) l, (length l <= length ts)%nat ->
    fits (length ts) (Ok (a, if at_punct ";" l then tail l else l) : presult A)).
  { intros A a l Hl. pose proof (tail_length l). cbn. destruct (at_punct ";" l); lia. }
  eapply (fits_bind _ _ _ (length ts)); [|intros r l Hl; by apply Hend].
  repeat match goal with |- fits _ (if ?b then _ else _) => destruct b end; try (cbn; lia).
  eapply fits_bind; [apply http_rule_loop_fits; lia|]. intros r l Hl. cbn beta iota.
  pose proof (tail_length l). cbn. destruct (at_punct "}" l); lia.
Qed.

Lemma option_loop_fits fuel rest ts :
  (length ts < fuel)%nat -> fits (length ts) (option_loop fuel rest ts).
Proof.
  revert rest ts. induction fuel as [|fuel IH]; intros rest ts Hf; [lia|]. cbn [option_loop].
  destruct (at_end ts || at_punct "}" ts) eqn:Ee; [cbn; lia|].
  apply orb_false_iff in Ee as [Ee%at_end_cons _]. pose proof (tail_lt ts Ee) as Ht.
  destruct (at_ident "option" ts).
  - eapply fits_bind; [apply http_option_fits|]. intros r l Hl. eapply fits_mono; [apply IH; lia|lia].
  - eapply fits_mono; [apply IH; lia|lia].
Qed.

Lemma stream_mark_length ts : (length (snd (stream_mark ts)) <= length ts)%nat.
Proof. unfold stream_mark. pose proof (tail_length ts). destruct (at_ident "stream" ts); cbn; lia. Qed.

Lemma parse_method_fits ts : ts <> [] -> fits (pred (length ts)) (parse_method ts).
Proof.
  intros Hne. pose proof (tail_lt ts Hne). unfold parse_method. do 2 pstep.
  match goal with |- context [stream_mark ?l] => pose proof (stream_mark_length l); destruct (stream_mark l) as [cs l1] end.
  cbn [snd] in *. do 2 pstep.
  eapply (fits_bind _ _ _ (pred (length ts))).
  { match goal with |- context [at_ident "returns" ?l] =>
      pose proof (tail_length l); destruct (at_ident "returns" l) end; cbn; [lia|done]. }
  intros _ l2 Hl2. cbn beta iota. pstep.
  match goal with |- context [stream_mark ?l] => pose proof (stream_mark_length l); destruct (stream_mark l) as [ss l3] end.
  cbn [snd] in *. do 2 pstep.
  match goal with |- fits _ (res_bind (if at_punct ";" ?l then _ else _) _) => rename l into l4 end.
  eapply (fits_bind _ _ _ (length l4)).
  - pose proof (tail_length l4). destruct (at_punct ";" l4); [cbn; lia|]. destruct (at_punct "{" l4); [|cbn; lia].
    eapply fits_bind; [apply option_loop_fits; lia|]. intros r l5 Hl5. cbn beta iota. pstep. cbn. lia.
  - intros [rm rp] l5 Hl5. cbn. lia.
Qed.

Lemma service_loop_fits fuel ms ts :
  (length ts < fuel)%nat -> fits (length ts) (service_loop fuel ms ts).
Proof.
  revert ms ts. induction fuel as [|fuel IH]; intros ms ts Hf; [lia|]. cbn [service_loop].
  destruct (at_end ts || at_punct "}" ts) eqn:Ee; [cbn; lia|].
  apply orb_false_iff in Ee as [Ee%at_end_cons _]. pose proof (tail_lt ts Ee) as Ht.
  destruct (at_ident "rpc" ts).
  - eapply fits_bind; [by apply parse_method_fits|]. intros m l Hl. eapply fits_mono; [apply IH; lia|lia].
  - eapply fits_mono; [apply IH; lia|lia].
Qed.

#[export] Hint Extern 1 (fits _ (message_loop _ _ _ _)) => apply message_loop_fits; lia : parser.
#[export] Hint Extern 1 (fits _ (enum_loop _ _ _)) => apply enum_loop_fits; lia : parser.
#[export] Hint Extern 1 (fits _ (service_loop _ _ _)) => apply service_loop_fits; lia : parser.

Lemma parseMessage_fits ts : ts <> [] -> fits (pred (length ts)) (parseMessage ts).
Proof.
  intros Hne. pose proof (tail_lt ts Hne). unfold parseMessage. do 2 pstep.
  eapply fits_bind; [apply message_loop_fits; lia|]. intros [fs fb] l Hl. cbn beta iota. pstep. cbn. lia.
Qed.

Lemma parseEnum_fits ts : ts <> [] -> fits (pred (length ts)) (parseEnum ts).
Proof. intros Hne. pose proof (tail_lt ts Hne). unfold parseEnum. repeat pstep. cbn. lia. Qed.

Lemma parseService_fits ts : ts <> [] -> fits (pred (length ts)) (parseService ts).
Proof. intros Hne. pose proof (tail_lt ts Hne). unfold parseService. repeat pstep. cbn. lia. Qed.

(** A statement that fits, followed by a total continuation, is total. *)
Lemma statement_total {A B} n (r : presult A) (k : A * list token -> res parse_error B) :
  fits n r -> (forall x l, (length l <= n)%nat -> k (x, l) <> Err POutOfFuel) ->
  res_bind r k <> Err POutOfFuel.
Proof. intros Hr Hk. destruct r as [[x l]|[msg|]]; cbn in *; [by apply Hk|done|done]. Qed.

Lemma parseAST_total fuel a ts :
  (length ts < fuel)%nat -> parseAST fuel a ts <> Err POutOfFuel.
Proof.
  revert a ts. induction fuel as [|fuel IH]; intros a ts Hf; [lia|]. cbn [parseAST].
  destruct ts as [|t ts]; [done|]. cbn in Hf.
  destruct t; try (apply IH; lia).
  repeat (case_bool_decide;
    [eapply statement_total; [first [apply parseSyntax_fits|apply parsePackage_fits|by apply parseMessage_fits
                          |by apply parseEnum_fits|by apply parseService_fits]
                   |intros; apply IH; cbn in *; lia]|]).
  apply IH. cbn. lia.
Qed.

(** ** Properties *)

(** C39: the parser always returns: on every input text, [ParseProto] gives an AST or
    one of its own error messages. *)
Theorem ParseProto_total (content : string) :
  (exists a, ParseProto content = Ok a) \/ (exists msg, ParseProto content = Err (PErr msg)).
Proof.
  unfold ParseProto. set (ts := tokens_of content).
  pose proof (parseAST_total (S (length ts)) empty_ast ts ltac:(lia)) as H.
  destruct (parseAST (S (length ts)) empty_ast ts) as [a|[msg|]]; [left|right|]; eauto. done.
Qed.
