(* ===== verification/ProtoSyntax.v ===== *)
(** * What protobuf files mean: the supported surface syntax and the correctness of
    the parser ([compiler/parser/proto_parser.go])

    A file is a sequence of statements.  [print_file] writes it as text and
    [denote] gives the AST it stands for, independently of the parser; the main
    theorem says that [ParseProto] computes the one from the other. *)
From S2P Require Import Prelude GoStrings Ast Lexer ProtoParser.

Inductive pbase := PInt32 | PInt64 | PString | PBytes | PBool | PDouble | PNamed (n : string).
Inductive pfield_type := POne (optional : bool) (b : pbase) | PRepeated (b : pbase) | PMap (k v : pbase).
Record pfield := { pf_type : pfield_type; pf_name : string; pf_id : Z }.
Record pmethod := {
  pm_name : string;
  pm_client_stream : bool;
  pm_input : string;
  pm_server_stream : bool;
  pm_output : string;
  pm_http : option (string * string)    (* verb and path *)
}.
Inductive pitem :=
| ISyntax (s : string)
| IPackage (n : string)
| IMessage (n : string) (fields : list pfield)
| IEnum (n : string) (values : list (string * Z))
| IService (n : string) (methods : list pmethod).

(** ** Printing *)
Definition base_text (b : pbase) : string :=
  match b with
  | PInt32 => "int32" | PInt64 => "int64" | PString => "string" | PBytes => "bytes"
  | PBool => "bool" | PDouble => "double" | PNamed n => n
  end.

Definition type_tokens (t : pfield_type) : list token :=
  match t with
  | POne true b => [TokIdent "optional"; TokIdent (base_text b)]
  | POne false b => [TokIdent (base_text b)]
  | PRepeated b => [TokIdent "repeated"; TokIdent (base_text b)]
  | PMap k v => [TokIdent "map"; TokPunct "<"; TokIdent (base_text k); TokPunct ",";
                 TokIdent (base_text v); TokPunct ">"]
  end.

Definition field_tokens (f : pfield) : list token :=
  type_tokens (pf_type f) ++ [TokIdent (pf_name f); TokPunct "="; TokInt (Itoa (pf_id f)); TokPunct ";"].

Definition value_tokens (kv : string * Z) : list token :=
  [TokIdent (fst kv); TokPunct "="; TokInt (Itoa (snd kv)); TokPunct ";"].

Definition stream_tokens (s : bool) : list token := if s then [TokIdent "stream"] else [].

Definition http_tokens (h : option (string * string)) : list token :=
  match h with
  | None => [TokPunct ";"]
  | Some (verb, path) =>
      [TokPunct "{"; TokIdent "option"; TokPunct "("; TokIdent "google.api.http"; TokPunct ")";
       TokPunct "="; TokPunct "{"; TokIdent verb; TokPunct ":"; TokString path; TokPunct "}";
       TokPunct ";"; TokPunct "}"]
  end.

Definition method_tokens (m : pmethod) : list token :=
  [TokIdent "rpc"; TokIdent (pm_name m); TokPunct "("] ++ stream_tokens (pm_client_stream m) ++
  [TokIdent (pm_input m); TokPunct ")"; TokIdent "returns"; TokPunct "("] ++
  stream_tokens (pm_server_stream m) ++ [TokIdent (pm_output m); TokPunct ")"] ++ http_tokens (pm_http m).

Definition item_tokens (i : pitem) : list token :=
  match i with
  | ISyntax s => [TokIdent "syntax"; TokPunct "="; TokString s; TokPunct ";"]
  | IPackage n => [TokIdent "package"; TokIdent n; TokPunct ";"]
  | IMessage n fs => [TokIdent "message"; TokIdent n; TokPunct "{"] ++ concat (field_tokens <$> fs) ++ [TokPunct "}"]
  | IEnum n vs => [TokIdent "enum"; TokIdent n; TokPunct "{"] ++ concat (value_tokens <$> vs) ++ [TokPunct "}"]
  | IService n ms => [TokIdent "service"; TokIdent n; TokPunct "{"] ++ concat (method_tokens <$> ms) ++ [TokPunct "}"]
  end.

Definition print_file (items : list pitem) : string := render (concat (item_tokens <$> items)).

(** ** Meaning *)
Definition base_node (b : pbase) : TypeNode :=
  match b with
  | PInt32 => scalar TypeInt32 | PInt64 => scalar TypeInt64 | PString => scalar TypeString
  | PBytes => scalar TypeBinary | PBool => scalar TypeBool | PDouble => scalar TypeDouble
  | PNamed n => structType n
  end.

Definition field_node (f : pfield) : FieldNode := {|
  fn_Name := pf_name f; fn_ID := pf_id f;
  fn_Type := match pf_type f with
             | POne _ b => base_node b
             | PRepeated b => listType (base_node b)
             | PMap k v => mapType (base_node k) (base_node v)
             end;
  fn_Optional := match pf_type f with POne o _ => o | _ => false end |}.

Definition is_map (f : pfield) : bool := match pf_type f with PMap _ _ => true | _ => false end.

Definition method_node (m : pmethod) : MethodNode := {|
  mn_Name := pm_name m; mn_InputType := pm_input m; mn_OutputType := pm_output m;
  mn_ClientStreaming := pm_client_stream m; mn_ServerStreaming := pm_server_stream m;
  mn_RESTMethod := match pm_http m with Some (verb, _) => ToUpper verb | None => "" end;
  mn_RESTPath := match pm_http m with Some (_, path) => path | None => "" end |}.

Definition denote_item (a : AST) (i : pitem) : AST :=
  match i with
  | ISyntax _ => a
  | IPackage n => with_namespace n a
  | IMessage n fs => add_struct {| sn_Name := n; sn_Fields := field_node <$> fs;
                                   sn_HasFallback := existsb is_map fs |} a
  | IEnum n vs => add_enum {| en_Name := n; en_Values := foldl (fun m kv => <[fst kv := snd kv]> m) ∅ vs |} a
  | IService n ms => add_service {| sv_Name := n; sv_Methods := method_node <$> ms |} a
  end.

Definition denote (items : list pitem) : AST := foldl denote_item empty_ast items.

(** ** Well-formed files: identifiers, 32-bit numbers, printable strings *)
Definition ident (s : string) : bool := valid_token (TokIdent s).
Definition text (s : string) : bool := valid_token (TokString s).
Definition reserved : list string :=
  ["int32"; "i32"; "int64"; "i64"; "string"; "bytes"; "binary"; "bool"; "double";
   "optional"; "repeated"; "map"; "oneof"; "stream"].
Definition type_name (s : string) : bool := ident s && negb (existsb (String.eqb s) reserved).
Definition int32_ok (z : Z) : bool := (- 2 ^ 31 <=? z) && (z <? 2 ^ 31).
Definition wf_base (b : pbase) : bool := match b with PNamed n => type_name n | _ => true end.
Definition wf_type (t : pfield_type) : bool :=
  match t with POne _ b | PRepeated b => wf_base b | PMap k v => wf_base k && wf_base v end.
Definition wf_field (f : pfield) : bool := wf_type (pf_type f) && ident (pf_name f) && int32_ok (pf_id f).
Definition wf_method (m : pmethod) : bool :=
  ident (pm_name m) && type_name (pm_input m) && type_name (pm_output m) &&
  match pm_http m with Some (verb, path) => ident verb && text path | None => true end.
Definition wf_item (i : pitem) : bool :=
  match i with
  | ISyntax s => text s
  | IPackage n => ident n
  | IMessage n fs => ident n && forallb wf_field fs
  | IEnum n vs => ident n && forallb (fun kv => ident (fst kv) && int32_ok (snd kv)) vs
  | IService n ms => ident n && forallb wf_method ms
  end.

(** ** Lemmas: type names *)
Lemma trim_left_id p s : str_forall (fun c => negb (p c)) s = true -> trim_left p s = s.
Proof. destruct s as [|c s]; [done|]. cbn. intros [H _]%andb_true_iff. by apply negb_true_iff in H as ->. Qed.

Lemma trim_right_id p s : str_forall (fun c => negb (p c)) s = true -> trim_right p s = s.
Proof.
  induction s as [|c s IH]; [done|]. cbn. intros [H Hs]%andb_true_iff. rewrite IH by done.
  apply negb_true_iff in H as ->. by destruct s.
Qed.

Lemma TrimSpace_id s : str_forall (fun c => negb (is_space c)) s = true -> TrimSpace s = s.
Proof. intros H. unfold TrimSpace. by rewrite trim_left_id, trim_right_id. Qed.

(** Characters of identifiers are not spaces, brackets or commas. *)
Definition plain (c : ascii) : bool :=
  negb (is_space c) && negb (Ascii.eqb c "<") && negb (Ascii.eqb c ">") && negb (Ascii.eqb c ",").

Lemma ident_plain c : is_ident_char c = true -> plain c = true.
Proof. destruct c as [[] [] [] [] [] [] [] []]; vm_compute; done. Qed.

Lemma ident_chars s : ident s = true -> str_forall is_ident_char s = true /\ s <> "".
Proof.
  unfold ident. destruct s as [|c s]; [done|]. cbn [valid_token]. intros [Hc Hs]%andb_true_iff.
  split; [|done]. cbn. rewrite Hs, andb_true_r. by apply char_classes.
Qed.

Lemma type_name_ident s : type_name s = true -> ident s = true.
Proof. unfold type_name. by intros [? _]%andb_true_iff. Qed.

Lemma type_name_not s r : type_name s = true -> r ∈ reserved -> s <> r.
Proof.
  unfold type_name. intros [_ H]%andb_true_iff Hr ->. apply negb_true_iff in H.
  apply not_true_iff_false in H. apply H. apply existsb_exists. exists r. split; [|apply String.eqb_refl].
  by apply list_elem_of_In.
Qed.

Lemma base_plain b : wf_base b = true -> str_forall plain (base_text b) = true.
Proof.
  destruct b as [| | | | | |n]; cbn; try reflexivity. intros H%type_name_ident%ident_chars.
  eapply str_forall_impl; [|exact (proj1 H)]. apply ident_plain.
Qed.

Lemma HasPrefix_plain s p c : str_forall plain s = true -> plain c = false -> HasPrefix s (p +:+ String c "") = false.
Proof.
  intros Hs Hc. apply not_true_iff_false. intros [r ->]%HasPrefix_iff.
  rewrite !str_forall_app in Hs. cbn in Hs. rewrite Hc in Hs.
  by rewrite andb_false_r in Hs.
Qed.

Lemma parse_base fuel b : wf_base b = true -> parse_type (S fuel) (base_text b) = base_node b.
Proof.
  intros Hw. cbn [parse_type].
  rewrite TrimSpace_id.
  2:{ eapply str_forall_impl; [|by apply base_plain]. unfold plain. intros c. rewrite !andb_true_iff. tauto. }
  rewrite (HasPrefix_plain _ "list" "<"), (HasPrefix_plain _ "map" "<") by (done || by apply base_plain).
  cbn [andb].
  destruct b as [| | | | | |n]; [reflexivity..|]. cbn [base_text base_node] in *.
  rewrite !bool_decide_false; [done|..]; apply (type_name_not n _ Hw); vm_compute; repeat constructor.
Qed.

Lemma slice_middle p s q :
  slice (p +:+ s +:+ q) (String.length p) (String.length (p +:+ s +:+ q) - String.length q) = s.
Proof.
  unfold slice. rewrite str_drop_app, !str_length_app.
  replace (String.length p + (String.length s + String.length q) - String.length q - String.length p)%nat
    with (String.length s) by lia. apply str_take_app.
Qed.

Lemma plain_no_space s : str_forall plain s = true -> str_forall (fun c => negb (is_space c)) s = true.
Proof. apply str_forall_impl. unfold plain. intros c. rewrite !andb_true_iff. tauto. Qed.

Lemma parse_list_text u : str_forall plain u = true ->
  parseTypeNode ("list<" +:+ u +:+ ">") = listType (parse_type (S (S (S (S (S (String.length (u +:+ ">"))))))) u).
Proof.
  intros Hp. unfold parseTypeNode. cbn [parse_type].
  set (t := "list<" +:+ u +:+ ">").
  assert (TrimSpace t = t) as ->.
  { apply TrimSpace_id. subst t. rewrite !str_forall_app, (plain_no_space u) by done. done. }
  assert (HasPrefix t "list<" = true) as -> by (apply HasPrefix_iff; eauto).
  assert (HasSuffix t ">" = true) as ->.
  { apply HasSuffix_iff. exists ("list<" +:+ u). subst t. by rewrite str_app_assoc. }
  cbn [andb]. f_equal.
  pose proof (slice_middle "list<" u ">") as Hs. cbn [String.length] in Hs. fold t in Hs.
  by rewrite Hs.
Qed.

Lemma parse_list b : wf_base b = true ->
  parseTypeNode ("list<" +:+ base_text b +:+ ">") = listType (base_node b).
Proof. intros Hw. rewrite parse_list_text by by apply base_plain. f_equal. by apply parse_base. Qed.

Lemma cut_at_first k v c :
  str_forall (fun a => negb (Ascii.eqb a c)) k = true -> cut_at (k +:+ String c v) c = Some (k, v).
Proof.
  induction k as [|a k IH]; cbn; [by rewrite Ascii.eqb_refl|].
  intros [Ha Hk]%andb_true_iff. apply negb_true_iff in Ha as ->. by rewrite IH.
Qed.

Lemma parse_map k v : wf_base k = true -> wf_base v = true ->
  parseTypeNode ("map<" +:+ base_text k +:+ "," +:+ base_text v +:+ ">") = mapType (base_node k) (base_node v).
Proof.
  intros Hk Hv. pose proof (base_plain k Hk) as Hpk. pose proof (base_plain v Hv) as Hpv.
  unfold parseTypeNode. cbn [parse_type].
  set (t := "map<" +:+ base_text k +:+ "," +:+ base_text v +:+ ">").
  assert (TrimSpace t = t) as ->.
  { apply TrimSpace_id. subst t. rewrite !str_forall_app, (plain_no_space (base_text k)), (plain_no_space (base_text v)) by done. done. }
  assert (HasPrefix t "list<" = false) as ->.
  { apply not_true_iff_false. intros [r E]%HasPrefix_iff. subst t. discriminate E. }
  assert (HasPrefix t "map<" = true) as -> by (apply HasPrefix_iff; eauto).
  assert (HasSuffix t ">" = true) as ->.
  { apply HasSuffix_iff. exists ("map<" +:+ base_text k +:+ "," +:+ base_text v). subst t.
    by rewrite !str_app_assoc. }
  cbn [andb].
  pose proof (slice_middle "map<" (base_text k +:+ "," +:+ base_text v) ">") as Hs.
  cbn [String.length] in Hs. rewrite !str_app_assoc in Hs. fold t in Hs. rewrite Hs.
  unfold SplitN2. change ("," +:+ base_text v) with (String "," (base_text v)).
  rewrite cut_at_first.
  - subst t. cbn [String.append String.length]. by rewrite !parse_base.
  - eapply str_forall_impl; [|exact Hpk]. unfold plain. intros c. rewrite !andb_true_iff. tauto.
Qed.

Lemma parse_one b : wf_base b = true -> parseTypeNode (base_text b) = base_node b.
Proof. apply parse_base. Qed.

Lemma int32_Itoa z : int32_ok z = true -> int32_of (Itoa z) = z.
Proof.
  unfold int32_ok. rewrite andb_true_iff, Z.leb_le, Z.ltb_lt. intros Hz.
  unfold int32_of, Atoi. rewrite ParseInt_Itoa by words. cbn [fst]. apply wrapS_id; words.
Qed.

(** ** Lemmas: the statements *)
Lemma expect_ok c msg ts : expect c msg (TokPunct c :: ts) = Ok (tt, ts).
Proof. unfold expect, at_punct. cbn. by rewrite bool_decide_true. Qed.

Lemma at_punct_ok c ts : at_punct c (TokPunct c :: ts) = true.
Proof. unfold at_punct. cbn. by rewrite bool_decide_true. Qed.

Lemma at_punct_ident c s ts : at_punct c (TokIdent s :: ts) = false.
Proof. unfold at_punct. cbn. by rewrite bool_decide_false. Qed.

Lemma at_ident_ok s ts : at_ident s (TokIdent s :: ts) = true.
Proof. unfold at_ident. cbn. by rewrite bool_decide_true. Qed.

Lemma at_ident_other s s' ts : s <> s' -> at_ident s (TokIdent s' :: ts) = false.
Proof. intros. unfold at_ident. cbn. rewrite bool_decide_false; [done|]. by intros [= ->]. Qed.

Lemma at_end_cons_false (t : token) ts : at_end (t :: ts) = false.
Proof. unfold at_end. by rewrite bool_decide_false. Qed.

Ltac ptoks := rewrite ?expect_ok, ?at_punct_ok, ?at_punct_ident, ?at_ident_ok, ?at_end_cons_false;
  cbn [res_bind expect_ident expect_int expect_string orb tail].

Definition modifiers : list string := ["optional"; "repeated"; "map"; "oneof"; "stream"].

Lemma modifiers_reserved r : r ∈ modifiers -> r ∈ reserved.
Proof. intros H. unfold reserved, modifiers in *. do 9 right. exact H. Qed.

Lemma base_text_not b r : wf_base b = true -> r ∈ modifiers -> base_text b <> r.
Proof.
  intros Hw Hr. destruct b as [| | | | | |n];
    [intros <-; revert Hr; apply (bool_decide_unpack (_ ∉ modifiers)); vm_compute; exact I..|].
  apply (type_name_not n r Hw), modifiers_reserved, Hr.
Qed.

Ltac modifier := solve [unfold modifiers; repeat constructor].
Ltac not_reserved := first [done | apply base_text_not; [done|modifier] | eapply type_name_not; [done|apply modifiers_reserved; modifier]].

Definition field_first (f : pfield) : string :=
  match pf_type f with
  | POne true _ => "optional" | POne false b => base_text b | PRepeated _ => "repeated" | PMap _ _ => "map"
  end.

Lemma field_tokens_first f : exists ts, field_tokens f = TokIdent (field_first f) :: ts.
Proof. unfold field_tokens, field_first. destruct (pf_type f) as [[] b|b|k v]; cbn; eauto. Qed.

(** The result of [field_type] on a printed type. *)
Definition type_text (t : pfield_type) : string :=
  match t with
  | POne _ b => base_text b
  | PRepeated b => "list<" +:+ base_text b +:+ ">"
  | PMap k v => "map<" +:+ base_text k +:+ "," +:+ base_text v +:+ ">"
  end.

Lemma field_type_ok f rest :
  wf_type (pf_type f) = true ->
  field_type (field_first f) (type_tokens (pf_type f) ++ rest)
  = (fn_Optional (field_node f), type_text (pf_type f), is_map f, rest).
Proof.
  intros Hw. unfold field_type, field_first, is_map. destruct f as [ft fname fid]. cbn [pf_type] in *.
  destruct ft as [[] b|b|k v]; cbn [type_tokens app tail cur_val cur hd tok_val fn_Optional field_node type_text] in *.
  - rewrite bool_decide_true by done. rewrite bool_decide_false by not_reserved. done.
  - rewrite !bool_decide_false by not_reserved. done.
  - rewrite bool_decide_false, bool_decide_true, bool_decide_false by done. done.
  - apply andb_true_iff in Hw as [Hk Hv]. rewrite !bool_decide_false, bool_decide_true by done.
    unfold map_type. cbn [tail]. ptoks. cbn [cur_val cur hd tok_val]. ptoks. done.
Qed.

Lemma type_text_parse t : wf_type t = true ->
  parseTypeNode (type_text t) = match t with
                                | POne _ b => base_node b
                                | PRepeated b => listType (base_node b)
                                | PMap k v => mapType (base_node k) (base_node v)
                                end.
Proof.
  destruct t as [o b|b|k v]; cbn [type_text wf_type]; [apply parse_one|apply parse_list|].
  intros [? ?]%andb_true_iff. by apply parse_map.
Qed.

Lemma parse_field_ok f rest :
  wf_field f = true ->
  parse_field (field_first f) (field_tokens f ++ rest) = Ok ((field_node f, is_map f), rest).
Proof.
  unfold wf_field. rewrite !andb_true_iff. intros [[Ht Hn] Hi]. unfold parse_field, field_tokens.
  rewrite <- app_assoc, field_type_ok by done. cbn [app]. ptoks. ptoks. ptoks.
  rewrite type_text_parse, int32_Itoa by done.
  assert (is_map f || bool_decide (tn_Kind (fn_Type (field_node f)) = TypeMap) = is_map f) as E.
  { unfold is_map. destruct f as [[o []|b|k v] fname fid]; reflexivity. }
  unfold field_node in *. cbn [fn_Type] in E. rewrite E. done.
Qed.

Lemma message_loop_ok fs acc fb rest fuel :
  forallb wf_field fs = true -> (length fs < fuel)%nat ->
  message_loop fuel acc fb (concat (field_tokens <$> fs) ++ TokPunct "}" :: rest)
  = Ok ((acc ++ (field_node <$> fs), fb || existsb is_map fs), TokPunct "}" :: rest).
Proof.
  revert acc fb fuel. induction fs as [|f fs IH]; intros acc fb fuel Hw Hf; (destruct fuel as [|fuel]; [lia|]).
  { cbn [fmap list_fmap concat app message_loop existsb]. ptoks. by rewrite app_nil_r, orb_false_r. }
  cbn [forallb] in Hw. apply andb_true_iff in Hw as [Hwf Hw]. rewrite fmap_cons. cbn [concat length] in *.
  rewrite <- app_assoc. cbn [message_loop].
  destruct (field_tokens_first f) as [ts Hts].
  set (more := concat (field_tokens <$> fs) ++ TokPunct "}" :: rest).
  assert (at_end (field_tokens f ++ more) || at_punct "}" (field_tokens f ++ more) = false) as ->.
  { rewrite Hts. cbn [app]. by ptoks. }
  assert (cur (field_tokens f ++ more) = TokIdent (field_first f)) as -> by (by rewrite Hts).
  rewrite bool_decide_false.
  2:{ unfold field_first, wf_field in *. destruct (pf_type f) as [[] b|b|k v]; try done.
      rewrite !andb_true_iff in Hwf. destruct Hwf as [[? _] _]. not_reserved. }
  rewrite parse_field_ok by done. cbn [res_bind].
  etransitivity; [apply IH; [done|lia]|]. cbn [existsb]. by rewrite <- app_assoc, orb_assoc.
Qed.

Lemma enum_loop_ok vs acc rest fuel :
  forallb (fun kv => ident (fst kv) && int32_ok (snd kv)) vs = true -> (length vs < fuel)%nat ->
  enum_loop fuel acc (concat (value_tokens <$> vs) ++ TokPunct "}" :: rest)
  = Ok (foldl (fun m kv => <[fst kv := snd kv]> m) acc vs, TokPunct "}" :: rest).
Proof.
  revert acc fuel. induction vs as [|[k z] vs IH]; intros acc fuel Hw Hf; (destruct fuel as [|fuel]; [lia|]).
  { cbn [fmap list_fmap concat app enum_loop foldl]. by ptoks. }
  cbn [forallb fst snd] in Hw. rewrite !andb_true_iff in Hw. destruct Hw as [[Hk Hz] Hw].
  rewrite fmap_cons. cbn [concat length foldl] in *.
  rewrite <- app_assoc. cbn [enum_loop value_tokens fst snd app]. ptoks. cbn [cur hd].
  unfold parse_enum_value. cbn [tail]. ptoks. ptoks. rewrite int32_Itoa by done. apply IH; [done|lia].
Qed.

Lemma stream_mark_ok s n rest :
  n <> "stream" -> stream_mark (stream_tokens s ++ TokIdent n :: rest) = (s, TokIdent n :: rest).
Proof.
  intros Hn. unfold stream_mark. destruct s; cbn [stream_tokens app].
  - by ptoks.
  - by rewrite at_ident_other.
Qed.


Lemma http_option_ok verb path rest :
  http_option ("", "") (TokPunct "(" :: TokIdent "google.api.http" :: TokPunct ")" :: TokPunct "=" :: TokPunct "{" ::
    TokIdent verb :: TokPunct ":" :: TokString path :: TokPunct "}" :: TokPunct ";" :: rest)
  = Ok ((ToUpper verb, path), rest).
Proof. unfold http_option. do 9 (ptoks; cbn [tail length http_rule_loop cur hd]). by ptoks. Qed.

Lemma option_loop_ok fuel verb path rest :
  option_loop (S (S fuel)) ("", "") (TokIdent "option" :: TokPunct "(" :: TokIdent "google.api.http" :: TokPunct ")" ::
    TokPunct "=" :: TokPunct "{" :: TokIdent verb :: TokPunct ":" :: TokString path :: TokPunct "}" :: TokPunct ";" ::
    TokPunct "}" :: rest) = Ok ((ToUpper verb, path), TokPunct "}" :: rest).
Proof.
  assert (Hclosed : option_loop (S fuel) (ToUpper verb, path) (TokPunct "}" :: rest)
                    = Ok ((ToUpper verb, path), TokPunct "}" :: rest)) by (cbn [option_loop]; by ptoks).
  remember (S fuel) as n. cbn [option_loop]. ptoks. by rewrite http_option_ok.
Qed.

Lemma parse_method_ok m rest :
  wf_method m = true -> parse_method (method_tokens m ++ rest) = Ok (method_node m, rest).
Proof.
  unfold wf_method. rewrite !andb_true_iff. intros [[[Hn Hi] Ho] Hh].
  unfold parse_method, method_tokens. repeat (rewrite <- app_assoc; cbn [app tail]).
  do 2 ptoks. rewrite stream_mark_ok by not_reserved. do 4 ptoks.
  rewrite stream_mark_ok by not_reserved. do 3 ptoks.
  destruct m as [mname cs inp ss out [[verb path]|]]; cbn [pm_http http_tokens app] in *; [|by ptoks].
  unfold at_punct at 1. cbn [cur hd]. rewrite bool_decide_false by done. ptoks.
  cbn [length]. rewrite option_loop_ok. by do 2 ptoks.
Qed.

Lemma method_tokens_first m : exists ts, method_tokens m = TokIdent "rpc" :: ts.
Proof. unfold method_tokens. cbn [app]. eauto. Qed.

Lemma service_loop_ok ms acc rest fuel :
  forallb wf_method ms = true -> (length ms < fuel)%nat ->
  service_loop fuel acc (concat (method_tokens <$> ms) ++ TokPunct "}" :: rest)
  = Ok (acc ++ (method_node <$> ms), TokPunct "}" :: rest).
Proof.
  revert acc fuel. induction ms as [|m ms IH]; intros acc fuel Hw Hf; (destruct fuel as [|fuel]; [lia|]).
  { cbn [fmap list_fmap concat app service_loop]. ptoks. by rewrite app_nil_r. }
  cbn [forallb] in Hw. apply andb_true_iff in Hw as [Hwm Hw]. rewrite fmap_cons. cbn [concat length] in *.
  rewrite <- app_assoc. cbn [service_loop].
  destruct (method_tokens_first m) as [ts Hts].
  set (more := concat (method_tokens <$> ms) ++ TokPunct "}" :: rest).
  assert (at_end (method_tokens m ++ more) || at_punct "}" (method_tokens m ++ more) = false) as ->.
  { rewrite Hts. cbn [app]. by ptoks. }
  assert (at_ident "rpc" (method_tokens m ++ more) = true) as -> by (rewrite Hts; cbn [app]; by ptoks).
  rewrite parse_method_ok by done. cbn [res_bind].
  etransitivity; [apply IH; [done|lia]|]. by rewrite <- app_assoc.
Qed.

(** A printed list is at least as long as the list it prints. *)
Lemma concat_length_ge {A} (f : A -> list token) (xs : list A) :
  (forall x, (1 <= length (f x))%nat) -> (length xs <= length (concat (f <$> xs)))%nat.
Proof.
  intros Hf. induction xs as [|x xs IH]; [done|]. cbn. rewrite length_app. specialize (Hf x). lia.
Qed.

Lemma printed_fuel {A} (f : A -> list token) (xs : list A) rest :
  (forall x, exists t ts, f x = t :: ts) ->
  (length xs < S (length (concat (f <$> xs) ++ TokPunct "}" :: rest)))%nat.
Proof.
  intros Hf. rewrite length_app. pose proof (concat_length_ge f xs) as Hl. cbn.
  assert (length xs <= length (concat (f <$> xs)))%nat; [|lia].
  apply Hl. intros x. destruct (Hf x) as (t & ts & ->). cbn. lia.
Qed.

Lemma parse_item_ok i fuel a rest :
  wf_item i = true ->
  parseAST (S fuel) a (item_tokens i ++ rest) = parseAST fuel (denote_item a i) rest.
Proof.
  intros Hw. destruct i as [s|n|n fs|n vs|n ms]; cbn [wf_item item_tokens app parseAST denote_item] in *;
    repeat first [rewrite bool_decide_true by done | rewrite bool_decide_false by done].
  - unfold parseSyntax. cbn [tail]. by do 3 ptoks.
  - unfold parsePackage. cbn [tail]. by do 3 ptoks.
  - apply andb_true_iff in Hw as [Hn Hw]. unfold parseMessage. cbn [tail]. do 2 ptoks. rewrite <- app_assoc. cbn [app].
    rewrite message_loop_ok; [|done|]; [by do 2 ptoks|].
    apply printed_fuel. intros f. destruct (field_tokens_first f); eauto.
  - apply andb_true_iff in Hw as [Hn Hw]. unfold parseEnum. cbn [tail]. do 2 ptoks. rewrite <- app_assoc. cbn [app].
    rewrite enum_loop_ok; [|done|]; [by do 2 ptoks|].
    apply printed_fuel. intros kv. unfold value_tokens; eauto.
  - apply andb_true_iff in Hw as [Hn Hw]. unfold parseService. cbn [tail]. do 2 ptoks. rewrite <- app_assoc. cbn [app].
    rewrite service_loop_ok; [|done|]; [by do 2 ptoks|].
    apply printed_fuel. intros m. destruct (method_tokens_first m); eauto.
Qed.

Lemma parse_items_ok items fuel a :
  forallb wf_item items = true -> (length items < fuel)%nat ->
  parseAST fuel a (concat (item_tokens <$> items)) = Ok (foldl denote_item a items).
Proof.
  revert fuel a. induction items as [|i items IH]; intros fuel a Hw Hf; (destruct fuel as [|fuel]; [lia|]); [done|].
  cbn [forallb] in Hw. apply andb_true_iff in Hw as [Hi Hw]. cbn [length] in Hf.
  rewrite fmap_cons. cbn [concat foldl]. rewrite parse_item_ok by done. apply IH; [done|lia].
Qed.

(** ** Printed tokens lex back *)
Lemma Itoa_token z : valid_token (TokInt (Itoa z)) = true.
Proof.
  destruct (decide (z < 0)) as [Hz|Hz].
  - rewrite Itoa_neg by done. cbn. apply Itoa_digits. lia.
  - pose proof (Itoa_digits z ltac:(lia)) as Hd. pose proof (Itoa_nonempty z ltac:(lia)) as Hn.
    destruct (Itoa z) as [|c s]; [done|]. cbn in *. apply andb_true_iff in Hd as [-> ->]. done.
Qed.

Definition printable (ts : list token) : Prop := Forall (fun t => valid_token t = true) ts.

Lemma printable_concat {A} (f : A -> list token) (p : A -> bool) xs :
  (forall x, p x = true -> printable (f x)) -> forallb p xs = true -> printable (concat (f <$> xs)).
Proof.
  intros Hf Hxs. induction xs as [|x xs IH]; [constructor|]. cbn in Hxs.
  apply andb_true_iff in Hxs as [Hx Hxs]. rewrite fmap_cons. apply Forall_app. split; [by apply Hf|by apply IH].
Qed.

Ltac printable := unfold printable; rewrite ?Forall_app; repeat split;
  repeat first [apply Forall_nil_2 | apply Forall_cons_2]; try first [reflexivity | assumption | apply Itoa_token].

Lemma base_token b : wf_base b = true -> valid_token (TokIdent (base_text b)) = true.
Proof. destruct b; try reflexivity. apply type_name_ident. Qed.

Lemma field_printable f : wf_field f = true -> printable (field_tokens f).
Proof.
  unfold wf_field, field_tokens. rewrite !andb_true_iff. intros [[Ht Hn] Hi].
  destruct (pf_type f) as [[] b|b|k v]; cbn [wf_type type_tokens] in *; rewrite ?andb_true_iff in Ht;
    printable; apply base_token; tauto.
Qed.

Lemma method_printable m : wf_method m = true -> printable (method_tokens m).
Proof.
  unfold wf_method, method_tokens. rewrite !andb_true_iff. intros [[[Hn Hi%type_name_ident] Ho%type_name_ident] Hh].
  destruct (pm_http m) as [[verb path]|]; rewrite ?andb_true_iff in Hh; [destruct Hh as [Hv Hp]|];
    destruct (pm_client_stream m), (pm_server_stream m); cbn [stream_tokens http_tokens]; printable.
Qed.

Lemma item_printable i : wf_item i = true -> printable (item_tokens i).
Proof.
  destruct i as [s|n|n fs|n vs|n ms]; cbn [wf_item item_tokens]; rewrite ?andb_true_iff; intros Hw.
  - printable.
  - printable.
  - destruct Hw as [Hn Hw]. printable. eapply printable_concat; [apply field_printable|done].
  - destruct Hw as [Hn Hw]. printable. eapply printable_concat; [|exact Hw].
    intros [k z] [Hk Hz]%andb_true_iff. unfold value_tokens. printable.
  - destruct Hw as [Hn Hw]. printable. eapply printable_concat; [apply method_printable|done].
Qed.

Lemma item_tokens_cons i : exists t ts, item_tokens i = t :: ts.
Proof. destruct i; cbn [item_tokens app]; eauto. Qed.

(** ** Properties *)

(** C4: the protobuf parser computes the AST a file stands for.  For every list of
    well-formed statements (syntax, package, messages with scalar, named, optional,
    repeated and map fields, enums, services with unary and streaming methods and
    HTTP routes), parsing the printed file succeeds with exactly the namespace,
    structs, enums and services in the order they are written. *)
Theorem proto_parser_correct (items : list pitem) (Hw : forallb wf_item items = true) :
  ParseProto (print_file items) = Ok (denote items).
Proof.
  unfold ParseProto, print_file. rewrite tokens_of_render.
  - apply parse_items_ok; [done|]. apply Nat.lt_succ_r, concat_length_ge.
    intros i. destruct (item_tokens_cons i) as (t & ts & ->). cbn. lia.
  - eapply printable_concat; [apply item_printable|done].
Qed.

Definition sample_file : list pitem := [
  ISyntax "proto3"; IPackage "shop.v1";
  IMessage "Item" [ {| pf_type := POne true PString; pf_name := "sku"; pf_id := 1 |};
                    {| pf_type := PRepeated (PNamed "Tag"); pf_name := "tags"; pf_id := 2 |};
                    {| pf_type := PMap PString PInt64; pf_name := "stock"; pf_id := 3 |} ];
  IEnum "Color" [("RED", 0); ("BLUE", -1)];
  IService "Shop" [ {| pm_name := "Get"; pm_client_stream := false; pm_input := "Item"; pm_server_stream := true;
                       pm_output := "Item"; pm_http := Some ("get", "/v1/items/{sku}") |} ] ].

Lemma proto_parser_correct_witness :
  forallb wf_item sample_file = true /\ ParseProto (print_file sample_file) = Ok (denote sample_file).
Proof. split; [vm_compute; reflexivity|apply proto_parser_correct; vm_compute; reflexivity]. Defined.

(** in an HTTP option the last [name: "text"] pair wins, whatever its name: the
    usual [post: "/v1/items" body: "*"] gives the route method BODY and path "*",
    and the POST route is lost. *)
Theorem http_body_clobbers_route :
  match ParseProto (dq "service S { rpc M(A) returns (B) { option (google.api.http) = { post: '/v1/items' body: '*' }; } }") with
  | Ok a => match Services a with
            | [ {| sv_Methods := [m] |} ] => mn_RESTMethod m = "BODY" /\ mn_RESTPath m = "*"
            | _ => False
            end
  | Err _ => False
  end.
Proof. vm_compute. split; reflexivity. Qed.
