(* ===== verification/ThriftParser.v ===== *)
(** * The Thrift parser ([compiler/parser/thrift_parser.go])

    The parser shares the lexer and the type reader of the protobuf parser, and is
    modelled in the same way: the state is the list of tokens still to be read. *)
From S2P Require Import Prelude GoStrings Ast Lexer ProtoParser.

Definition at_delim (ts : list token) : bool := at_punct ";" ts || at_punct "," ts.
Definition skip_delim (ts : list token) : list token := if at_delim ts then tail ts else ts.

Definition parseNamespace (ts : list token) : presult string :=
  let ts := tail ts in
  let? (_, ts) := expect_ident "expected language target or '*' after namespace" ts in
  expect_ident "expected namespace identifier" ts.

(** ** Structs *)

(** [optional] and [required] before a field's type. *)
Definition requiredness (ts : list token) : bool * list token :=
  if at_ident "optional" ts then (true, tail ts)
  else if at_ident "required" ts then (false, tail ts)
  else (false, ts).

(** The parameters after [list] and [map]. *)
Definition type_params (typeName : string) (ts : list token) : presult string :=
  if bool_decide (typeName = "list") && at_punct "<" ts then
    let? (subType, ts) := expect_ident "expected list item type" (tail ts) in
    let? (_, ts) := expect ">" "expected '>' to close list type" ts in
    Ok ("list<" +:+ subType +:+ ">", ts)
  else if bool_decide (typeName = "map") && at_punct "<" ts then
    let ts := tail (tail ts) in
    let ts := if at_punct "," ts then tail ts else ts in
    let ts := tail ts in
    Ok ("map", if at_punct ">" ts then tail ts else ts)
  else Ok (typeName, ts).

Definition thrift_field (name idText : string) (ts : list token) : presult (FieldNode * bool) :=
  let fieldId := fst (Atoi idText) in
  let ts := tail ts in
  let? (_, ts) := expect ":" ("expected ':' after field ID " +:+ Itoa fieldId +:+ " in struct " +:+ name) ts in
  let '(optional, ts) := requiredness ts in
  let? (typeName, ts) := expect_ident ("expected type name for field in struct " +:+ name) ts in
  let? (typeName, ts) := type_params typeName ts in
  let? (fieldName, ts) := expect_ident ("expected field name identifier in struct " +:+ name) ts in
  let ts := skip_delim ts in
  let fType := parseTypeNode typeName in
  Ok (({| fn_Name := fieldName; fn_ID := i32 fieldId; fn_Type := fType; fn_Optional := optional |},
       bool_decide (tn_Kind fType = TypeMap)), ts).

Fixpoint struct_loop (fuel : nat) (name : string) (fields : list FieldNode) (fallback : bool) (ts : list token)
  : presult (list FieldNode * bool) :=
  match fuel with
  | O => Err POutOfFuel
  | S fuel' =>
      if at_end ts || at_punct "}" ts then Ok ((fields, fallback), ts)
      else
        match cur ts with
        | TokInt idText =>
            let? ((f, fb), ts) := thrift_field name idText ts in
            struct_loop fuel' name (fields ++ [f]) (fallback || fb) ts
        | _ => struct_loop fuel' name fields fallback (tail ts)
        end
  end.

Definition parseStruct (ts : list token) : presult StructNode :=
  let ts := tail ts in
  let? (name, ts) := expect_ident "expected identifier for struct name" ts in
  let? (_, ts) := expect "{" ("expected '{' after struct " +:+ name) ts in
  let? ((fields, fallback), ts) := struct_loop (S (length ts)) name [] false ts in
  let? (_, ts) := expect "}" ("expected '}' to close struct " +:+ name) ts in
  Ok ({| sn_Name := name; sn_Fields := fields; sn_HasFallback := fallback |}, ts).

(** ** Enums: values count up from the last explicit one, in 32 bits *)
Definition thrift_enum_value (key : string) (currentVal : Z) (ts : list token) : presult Z :=
  let ts := tail ts in
  let? (v, ts) :=
    (if at_punct "=" ts then
       let? (text, ts) := expect_int ("expected integer value for enum key " +:+ key) (tail ts) in
       Ok (int32_of text, ts)
     else Ok (currentVal, ts)) in
  Ok (v, skip_delim ts).

Fixpoint thrift_enum_loop (fuel : nat) (values : gmap string Z) (currentVal : Z) (ts : list token)
  : presult (gmap string Z) :=
  match fuel with
  | O => Err POutOfFuel
  | S fuel' =>
      if at_end ts || at_punct "}" ts then Ok (values, ts)
      else
        match cur ts with
        | TokIdent key =>
            let? (v, ts) := thrift_enum_value key currentVal ts in
            thrift_enum_loop fuel' (<[key := v]> values) (i32 (v + 1)) ts
        | _ => thrift_enum_loop fuel' values currentVal (tail ts)
        end
  end.

Definition thrift_parseEnum (ts : list token) : presult EnumNode :=
  let ts := tail ts in
  let? (name, ts) := expect_ident "expected identifier for enum name" ts in
  let? (_, ts) := expect "{" ("expected '{' after enum " +:+ name) ts in
  let? (values, ts) := thrift_enum_loop (S (length ts)) ∅ 0 ts in
  let? (_, ts) := expect "}" ("expected '}' to close enum " +:+ name) ts in
  Ok ({| en_Name := name; en_Values := values |}, ts).

(** ** Services *)
Definition param_id (ts : list token) : list token :=
  match cur ts with
  | TokInt _ => let ts := tail ts in if at_punct ":" ts then tail ts else ts
  | _ => ts
  end.
Definition param_name (ts : list token) : list token :=
  match cur ts with TokIdent _ => tail ts | _ => ts end.

Definition thrift_method (name outputType : string) (ts : list token) : presult MethodNode :=
  let ts := tail ts in
  let? (methodName, ts) := expect_ident ("expected method name identifier in service " +:+ name) ts in
  let? (_, ts) := expect "(" ("expected '(' after method name " +:+ methodName) ts in
  let? (inputType, ts) :=
    expect_ident ("expected input type in method " +:+ methodName +:+ " arguments") (param_id ts) in
  let? (_, ts) := expect ")" ("expected ')' after arguments of method " +:+ methodName) (param_name ts) in
  Ok ({| mn_Name := methodName; mn_InputType := inputType; mn_OutputType := outputType;
         mn_ClientStreaming := false; mn_ServerStreaming := false; mn_RESTMethod := ""; mn_RESTPath := "" |},
      skip_delim ts).

Fixpoint thrift_service_loop (fuel : nat) (name : string) (methods : list MethodNode) (ts : list token)
  : presult (list MethodNode) :=
  match fuel with
  | O => Err POutOfFuel
  | S fuel' =>
      if at_end ts || at_punct "}" ts then Ok (methods, ts)
      else
        match cur ts with
        | TokIdent outputType =>
            let? (m, ts) := thrift_method name outputType ts in
            thrift_service_loop fuel' name (methods ++ [m]) ts
        | _ => thrift_service_loop fuel' name methods (tail ts)
        end
  end.

Definition thrift_parseService (ts : list token) : presult ServiceNode :=
  let ts := tail ts in
  let? (name, ts) := expect_ident "expected identifier for service name" ts in
  let? (_, ts) := expect "{" ("expected '{' after service " +:+ name) ts in
  let? (methods, ts) := thrift_service_loop (S (length ts)) name [] ts in
  let? (_, ts) := expect "}" ("expected '}' to close service " +:+ name) ts in
  Ok ({| sv_Name := name; sv_Methods := methods |}, ts).

(** ** The file *)
Definition first_namespace (ns : string) (a : AST) : AST :=
  if bool_decide (Namespace a = "") then with_namespace ns a else a.
Definition force_fallback (s : StructNode) : StructNode :=
  {| sn_Name := sn_Name s; sn_Fields := sn_Fields s; sn_HasFallback := true |}.

Fixpoint thrift_parseAST (fuel : nat) (a : AST) (ts : list token) : res parse_error AST :=
  match fuel with
  | O => Err POutOfFuel
  | S fuel' =>
      match ts with
      | [] => Ok a
      | TokIdent kw :: _ =>
          if bool_decide (kw = "namespace") then
            let? (ns, ts) := parseNamespace ts in thrift_parseAST fuel' (first_namespace ns a) ts
          else if bool_decide (kw = "struct") || bool_decide (kw = "union") || bool_decide (kw = "exception") then
            let? (s, ts) := parseStruct ts in
            let s := if bool_decide (kw = "union") || bool_decide (kw = "exception") then force_fallback s else s in
            thrift_parseAST fuel' (add_struct s a) ts
          else if bool_decide (kw = "enum") then
            let? (e, ts) := thrift_parseEnum ts in thrift_parseAST fuel' (add_enum e a) ts
          else if bool_decide (kw = "service") then
            let? (s, ts) := thrift_parseService ts in thrift_parseAST fuel' (add_service s a) ts
          else thrift_parseAST fuel' a (tail ts)
      | _ :: ts' => thrift_parseAST fuel' a ts'
      end
  end.

Definition ParseThrift (content : string) : res parse_error AST :=
  let ts := tokens_of content in thrift_parseAST (S (length ts)) empty_ast ts.

(** ** Lemmas: consumption and fuel *)
Lemma skip_delim_length ts : (length (skip_delim ts) <= length ts)%nat.
Proof. unfold skip_delim. pose proof (tail_length ts). destruct (at_delim ts); lia. Qed.

Lemma requiredness_length ts : (length (snd (requiredness ts)) <= length ts)%nat.
Proof.
  unfold requiredness. pose proof (tail_length ts).
  destruct (at_ident "optional" ts), (at_ident "required" ts); cbn; lia.
Qed.

Lemma tail_if_length (b : bool) (ts : list token) : (length (if b then tail ts else ts) <= length ts)%nat.
Proof. pose proof (tail_length ts). destruct b; lia. Qed.

Lemma param_id_length ts : (length (param_id ts) <= length ts)%nat.
Proof.
  unfold param_id. pose proof (tail_length ts). pose proof (tail_if_length (at_punct ":" (tail ts)) (tail ts)).
  destruct (cur ts); lia.
Qed.

Lemma param_name_length ts : (length (param_name ts) <= length ts)%nat.
Proof. unfold param_name. pose proof (tail_length ts). destruct (cur ts); lia. Qed.

Lemma type_params_fits tn ts : fits (length ts) (type_params tn ts).
Proof.
  unfold type_params. pose proof (tail_length ts). destruct (_ && _).
  - repeat pstep. cbn. lia.
  - destruct (_ && _); [|cbn; lia]. unfold fits. set (ts1 := tail (tail ts)).
    pose proof (tail_length (tail ts)). pose proof (tail_if_length (at_punct "," ts1) ts1).
    set (ts2 := if at_punct "," ts1 then tail ts1 else ts1) in *. pose proof (tail_length ts2).
    pose proof (tail_if_length (at_punct ">" (tail ts2)) (tail ts2)). subst ts1. lia.
Qed.
#[export] Hint Resolve type_params_fits : parser.

Lemma parseNamespace_fits ts : ts <> [] -> fits (pred (length ts)) (parseNamespace ts).
Proof.
  intros Hne. pose proof (tail_lt ts Hne). unfold parseNamespace. pstep.
  eapply fits_mono; [apply expect_ident_fits|]. lia.
Qed.

Lemma thrift_field_fits name idText ts : ts <> [] -> fits (pred (length ts)) (thrift_field name idText ts).
Proof.
  intros Hne. pose proof (tail_lt ts Hne). unfold thrift_field. pstep.
  match goal with |- context [requiredness ?l] =>
    pose proof (requiredness_length l); destruct (requiredness l) as [o l1] end.
  cbn [snd] in *. repeat pstep.
  match goal with |- context [skip_delim ?l] => pose proof (skip_delim_length l) end. cbn. lia.
Qed.

Lemma thrift_enum_value_fits key cv ts : ts <> [] -> fits (pred (length ts)) (thrift_enum_value key cv ts).
Proof.
  intros Hne. pose proof (tail_lt ts Hne). unfold thrift_enum_value.
  eapply (fits_bind _ _ _ (length (tail ts))).
  - destruct (at_punct "=" (tail ts)); [|cbn; lia]. pstep. pose proof (tail_length (tail ts)). cbn. lia.
  - intros v l Hl. pose proof (skip_delim_length l). cbn. lia.
Qed.

Lemma thrift_method_fits name out ts : ts <> [] -> fits (pred (length ts)) (thrift_method name out ts).
Proof.
  intros Hne. pose proof (tail_lt ts Hne). unfold thrift_method. do 2 pstep.
  match goal with |- context [param_id ?l] => pose proof (param_id_length l) end. pstep.
  match goal with |- context [param_name ?l] => pose proof (param_name_length l) end. pstep.
  match goal with |- context [skip_delim ?l] => pose proof (skip_delim_length l) end. cbn. lia.
Qed.

(** The three block loops have one shape. *)
Ltac block_loop IH :=
  match goal with
  | |- fits _ (if at_end ?ts || at_punct "}" ?ts then _ else _) =>
      let E := fresh "E" in
      destruct (at_end ts || at_punct "}" ts) eqn:E; [cbn; lia|];
      apply orb_false_iff in E as [E%at_end_cons _]; pose proof (tail_lt ts E);
      destruct (cur ts); try (eapply fits_mono; [apply IH; lia|lia])
  end.

Lemma struct_loop_fits fuel name fields fb ts :
  (length ts < fuel)%nat -> fits (length ts) (struct_loop fuel name fields fb ts).
Proof.
  revert fields fb ts. induction fuel as [|fuel IH]; intros fields fb ts Hf; [lia|]. cbn [struct_loop].
  block_loop IH. eapply fits_bind; [by apply thrift_field_fits|]. intros [f b] l Hl.
  eapply fits_mono; [apply IH; lia|lia].
Qed.

Lemma thrift_enum_loop_fits fuel values cv ts :
  (length ts < fuel)%nat -> fits (length ts) (thrift_enum_loop fuel values cv ts).
Proof.
  revert values cv ts. induction fuel as [|fuel IH]; intros values cv ts Hf; [lia|]. cbn [thrift_enum_loop].
  block_loop IH. eapply fits_bind; [by apply thrift_enum_value_fits|]. intros v l Hl.
  eapply fits_mono; [apply IH; lia|lia].
Qed.

Lemma thrift_service_loop_fits fuel name ms ts :
  (length ts < fuel)%nat -> fits (length ts) (thrift_service_loop fuel name ms ts).
Proof.
  revert ms ts. induction fuel as [|fuel IH]; intros ms ts Hf; [lia|]. cbn [thrift_service_loop].
  block_loop IH. eapply fits_bind; [by apply thrift_method_fits|]. intros m l Hl.
  eapply fits_mono; [apply IH; lia|lia].
Qed.

#[export] Hint Extern 1 (fits _ (struct_loop _ _ _ _ _)) => apply struct_loop_fits; lia : parser.
#[export] Hint Extern 1 (fits _ (thrift_enum_loop _ _ _ _)) => apply thrift_enum_loop_fits; lia : parser.
#[export] Hint Extern 1 (fits _ (thrift_service_loop _ _ _ _)) => apply thrift_service_loop_fits; lia : parser.

Lemma parseStruct_fits ts : ts <> [] -> fits (pred (length ts)) (parseStruct ts).
Proof.
  intros Hne. pose proof (tail_lt ts Hne). unfold parseStruct. do 2 pstep.
  eapply fits_bind; [apply struct_loop_fits; lia|]. intros [fs fb] l Hl. cbn beta iota. pstep. cbn. lia.
Qed.

Lemma thrift_parseEnum_fits ts : ts <> [] -> fits (pred (length ts)) (thrift_parseEnum ts).
Proof. intros Hne. pose proof (tail_lt ts Hne). unfold thrift_parseEnum. repeat pstep. cbn. lia. Qed.

Lemma thrift_parseService_fits ts : ts <> [] -> fits (pred (length ts)) (thrift_parseService ts).
Proof. intros Hne. pose proof (tail_lt ts Hne). unfold thrift_parseService. repeat pstep. cbn. lia. Qed.

Lemma thrift_parseAST_total fuel a ts :
  (length ts < fuel)%nat -> thrift_parseAST fuel a ts <> Err POutOfFuel.
Proof.
  revert a ts. induction fuel as [|fuel IH]; intros a ts Hf; [lia|]. cbn [thrift_parseAST].
  destruct ts as [|t ts]; [done|]. cbn in Hf.
  destruct t; try (apply IH; lia).
  case_bool_decide; [eapply statement_total; [by apply parseNamespace_fits|intros; apply IH; cbn in *; lia]|].
  destruct (_ || _); [eapply statement_total; [by apply parseStruct_fits|intros; apply IH; cbn in *; lia]|].
  case_bool_decide; [eapply statement_total; [by apply thrift_parseEnum_fits|intros; apply IH; cbn in *; lia]|].
  case_bool_decide; [eapply statement_total; [by apply thrift_parseService_fits|intros; apply IH; cbn in *; lia]|].
  apply IH. cbn. lia.
Qed.
