(* ===== verification/ThriftSyntax.v ===== *)
(** * What Thrift files mean: the supported surface syntax and the correctness of the
    parser ([compiler/parser/thrift_parser.go])

    As for protobuf files, [print_thrift] writes a file, [denote_thrift] says which
    AST it stands for, and the main theorem relates the two through
    [ParseThrift]. *)
From S2P Require Import Prelude GoStrings Ast Lexer ProtoParser ProtoSyntax ThriftParser.

Inductive tbase := TI32 | TI64 | TString | TBinary | TBool | TDouble | TNamed (n : string).
Inductive ttype := TOne (b : tbase) | TList (b : tbase).
Inductive tdelim := DNone | DSemi | DComma.
Record tfield := { tf_id : Z; tf_req : option bool; tf_type : ttype; tf_name : string; tf_delim : tdelim }.
Record tvalue := { tv_key : string; tv_val : option Z; tv_delim : tdelim }.
Record tmethod := {
  tm_output : string; tm_name : string; tm_param_id : option Z; tm_input : string;
  tm_param_name : option string; tm_delim : tdelim
}.
Inductive tblock := BStruct | BUnion | BException.
Inductive titem :=
| TNamespace (lang n : string)
| TStruct (k : tblock) (n : string) (fields : list tfield)
| TEnum (n : string) (values : list tvalue)
| TService (n : string) (methods : list tmethod).

(** ** Printing *)
Definition tbase_text (b : tbase) : string :=
  match b with
  | TI32 => "i32" | TI64 => "i64" | TString => "string" | TBinary => "binary"
  | TBool => "bool" | TDouble => "double" | TNamed n => n
  end.
Definition delim_tokens (d : tdelim) : list token :=
  match d with DNone => [] | DSemi => [TokPunct ";"] | DComma => [TokPunct ","] end.
Definition req_tokens (r : option bool) : list token :=
  match r with
  | Some true => [TokIdent "optional"] | Some false => [TokIdent "required"] | None => []
  end.
Definition ttype_tokens (t : ttype) : list token :=
  match t with
  | TOne b => [TokIdent (tbase_text b)]
  | TList b => [TokIdent "list"; TokPunct "<"; TokIdent (tbase_text b); TokPunct ">"]
  end.
Definition tfield_tokens (f : tfield) : list token :=
  [TokInt (Itoa (tf_id f)); TokPunct ":"] ++ req_tokens (tf_req f) ++ ttype_tokens (tf_type f) ++
  [TokIdent (tf_name f)] ++ delim_tokens (tf_delim f).
Definition tvalue_tokens (v : tvalue) : list token :=
  [TokIdent (tv_key v)] ++
  match tv_val v with Some z => [TokPunct "="; TokInt (Itoa z)] | None => [] end ++ delim_tokens (tv_delim v).
Definition tmethod_tokens (m : tmethod) : list token :=
  [TokIdent (tm_output m); TokIdent (tm_name m); TokPunct "("] ++
  match tm_param_id m with Some z => [TokInt (Itoa z); TokPunct ":"] | None => [] end ++
  [TokIdent (tm_input m)] ++
  match tm_param_name m with Some n => [TokIdent n] | None => [] end ++
  [TokPunct ")"] ++ delim_tokens (tm_delim m).
Definition block_text (k : tblock) : string :=
  match k with BStruct => "struct" | BUnion => "union" | BException => "exception" end.
Definition titem_tokens (i : titem) : list token :=
  match i with
  | TNamespace lang n => [TokIdent "namespace"; TokIdent lang; TokIdent n]
  | TStruct k n fs =>
      [TokIdent (block_text k); TokIdent n; TokPunct "{"] ++ concat (tfield_tokens <$> fs) ++ [TokPunct "}"]
  | TEnum n vs => [TokIdent "enum"; TokIdent n; TokPunct "{"] ++ concat (tvalue_tokens <$> vs) ++ [TokPunct "}"]
  | TService n ms =>
      [TokIdent "service"; TokIdent n; TokPunct "{"] ++ concat (tmethod_tokens <$> ms) ++ [TokPunct "}"]
  end.
Definition print_thrift (items : list titem) : string := render (concat (titem_tokens <$> items)).

(** ** Meaning *)
Definition tbase_node (b : tbase) : TypeNode :=
  match b with
  | TI32 => scalar TypeInt32 | TI64 => scalar TypeInt64 | TString => scalar TypeString
  | TBinary => scalar TypeBinary | TBool => scalar TypeBool | TDouble => scalar TypeDouble
  | TNamed n => structType n
  end.
Definition tfield_node (f : tfield) : FieldNode := {|
  fn_Name := tf_name f; fn_ID := tf_id f;
  fn_Type := match tf_type f with TOne b => tbase_node b | TList b => listType (tbase_node b) end;
  fn_Optional := match tf_req f with Some o => o | None => false end |}.
Definition tmethod_node (m : tmethod) : MethodNode := {|
  mn_Name := tm_name m; mn_InputType := tm_input m; mn_OutputType := tm_output m;
  mn_ClientStreaming := false; mn_ServerStreaming := false; mn_RESTMethod := ""; mn_RESTPath := "" |}.

(** A value without a number is one more than the value before it. *)
Definition value_step (acc : gmap string Z * Z) (v : tvalue) : gmap string Z * Z :=
  let z := default (snd acc) (tv_val v) in (<[tv_key v := z]> (fst acc), i32 (z + 1)).
Definition enum_values (vs : list tvalue) : gmap string Z := fst (foldl value_step (∅, 0) vs).

Definition denote_titem (a : AST) (i : titem) : AST :=
  match i with
  | TNamespace _ n => if bool_decide (Namespace a = "") then with_namespace n a else a
  | TStruct k n fs => add_struct {| sn_Name := n; sn_Fields := tfield_node <$> fs;
                                    sn_HasFallback := match k with BStruct => false | _ => true end |} a
  | TEnum n vs => add_enum {| en_Name := n; en_Values := enum_values vs |} a
  | TService n ms => add_service {| sv_Name := n; sv_Methods := tmethod_node <$> ms |} a
  end.
Definition denote_thrift (items : list titem) : AST := foldl denote_titem empty_ast items.

(** ** Well-formed files *)
Definition ttype_name (s : string) : bool :=
  type_name s && negb (existsb (String.eqb s) ["required"; "list"]).
Definition wf_tbase (b : tbase) : bool := match b with TNamed n => ttype_name n | _ => true end.
Definition wf_tfield (f : tfield) : bool :=
  int32_ok (tf_id f) && ident (tf_name f) && match tf_type f with TOne b | TList b => wf_tbase b end.
Definition wf_tvalue (v : tvalue) : bool :=
  ident (tv_key v) && match tv_val v with Some z => int32_ok z | None => true end.
Definition wf_tmethod (m : tmethod) : bool :=
  ident (tm_output m) && ident (tm_name m) && ident (tm_input m) &&
  match tm_param_name m with Some n => ident n | None => true end.
Definition wf_titem (i : titem) : bool :=
  match i with
  | TNamespace lang n => ident lang && ident n
  | TStruct _ n fs => ident n && forallb wf_tfield fs
  | TEnum n vs => ident n && forallb wf_tvalue vs
  | TService n ms => ident n && forallb wf_tmethod ms
  end.

(** ** Lemmas: types *)
Lemma ttype_name_type s : ttype_name s = true -> type_name s = true.
Proof. unfold ttype_name. by intros [? _]%andb_true_iff. Qed.

Lemma tbase_plain b : wf_tbase b = true -> str_forall plain (tbase_text b) = true.
Proof.
  destruct b as [| | | | | |n]; cbn; try reflexivity. intros H%ttype_name_type%type_name_ident%ident_chars.
  eapply str_forall_impl; [|exact (proj1 H)]. apply ident_plain.
Qed.

Lemma parse_tbase fuel b : wf_tbase b = true -> parse_type (S fuel) (tbase_text b) = tbase_node b.
Proof.
  intros Hw. pose proof (tbase_plain b Hw) as Hp. cbn [parse_type].
  rewrite TrimSpace_id by by apply plain_no_space.
  rewrite (HasPrefix_plain _ "list" "<"), (HasPrefix_plain _ "map" "<") by done. cbn [andb].
  destruct b as [| | | | | |n]; [reflexivity..|]. cbn [tbase_text tbase_node] in *.
  apply ttype_name_type in Hw.
  rewrite !bool_decide_false; [done|..]; apply (type_name_not n _ Hw); vm_compute; repeat constructor.
Qed.

Definition ttype_text (t : ttype) : string :=
  match t with TOne b => tbase_text b | TList b => "list<" +:+ tbase_text b +:+ ">" end.

Lemma ttype_parse t :
  match t with TOne b | TList b => wf_tbase b end = true ->
  parseTypeNode (ttype_text t) = match t with TOne b => tbase_node b | TList b => listType (tbase_node b) end.
Proof.
  destruct t as [b|b]; intros Hw; cbn [ttype_text]; [by apply parse_tbase|].
  rewrite parse_list_text by by apply tbase_plain. f_equal. by apply parse_tbase.
Qed.

Lemma tbase_not b r : wf_tbase b = true -> r ∈ ["optional"; "required"; "list"; "map"] -> tbase_text b <> r.
Proof.
  intros Hw Hr. destruct b as [| | | | | |n];
    [intros <-; revert Hr; apply (bool_decide_unpack (_ ∉ _)); vm_compute; exact I..|].
  cbn in *. intros ->. revert Hw Hr. rewrite !elem_of_cons, elem_of_nil.
  intros Hw [->|[->|[->|[->|[]]]]]; discriminate Hw.
Qed.

Ltac not_keyword := solve [apply tbase_not; [done|repeat constructor]].

Lemma type_params_ok t nm rest :
  match t with TOne b | TList b => wf_tbase b end = true ->
  (let? (tn, ts) := expect_ident nm (ttype_tokens t ++ rest) in type_params tn ts) = Ok (ttype_text t, rest).
Proof.
  intros Hw. destruct t as [b|b]; cbn [ttype_tokens app expect_ident res_bind]; unfold type_params.
  - rewrite !bool_decide_false by not_keyword. done.
  - rewrite bool_decide_true by done. by do 3 ptoks.
Qed.

(** ** Lemmas: the statements *)
Lemma at_delim_ident s ts : at_delim (TokIdent s :: ts) = false.
Proof. unfold at_delim. by ptoks. Qed.
Lemma at_punct_int c s ts : at_punct c (TokInt s :: ts) = false.
Proof. unfold at_punct. cbn. by rewrite bool_decide_false. Qed.
Lemma at_punct_other c c' ts : c <> c' -> at_punct c (TokPunct c' :: ts) = false.
Proof. intros. unfold at_punct. cbn. rewrite bool_decide_false; [done|]. by intros [= ->]. Qed.
Lemma at_delim_brace ts : at_delim (TokPunct "}" :: ts) = false.
Proof. unfold at_delim. by rewrite !at_punct_other. Qed.

Lemma skip_delim_ok d rest : at_delim rest = false -> skip_delim (delim_tokens d ++ rest) = rest.
Proof.
  intros Hr. unfold skip_delim. destruct d; cbn [delim_tokens app].
  - by rewrite Hr.
  - unfold at_delim. by ptoks.
  - unfold at_delim. rewrite at_punct_ok, orb_true_r. done.
Qed.

Lemma requiredness_ok r b rest :
  wf_tbase b = true ->
  requiredness (req_tokens r ++ TokIdent (tbase_text b) :: rest)
  = (match r with Some o => o | None => false end, TokIdent (tbase_text b) :: rest).
Proof.
  intros Hw. unfold requiredness. destruct r as [[]|]; cbn [req_tokens app].
  - by ptoks.
  - rewrite at_ident_other by done. by ptoks.
  - rewrite !at_ident_other; [done|apply not_eq_sym; not_keyword..].
Qed.

Lemma requiredness_list r rest :
  requiredness (req_tokens r ++ TokIdent "list" :: rest)
  = (match r with Some o => o | None => false end, TokIdent "list" :: rest).
Proof.
  unfold requiredness. destruct r as [[]|]; cbn [req_tokens app]; [by ptoks| |by rewrite !at_ident_other].
  rewrite at_ident_other by done. by ptoks.
Qed.

Lemma requiredness_type r t rest :
  match t with TOne b | TList b => wf_tbase b end = true ->
  requiredness (req_tokens r ++ ttype_tokens t ++ rest)
  = (match r with Some o => o | None => false end, ttype_tokens t ++ rest).
Proof. destruct t; cbn [ttype_tokens app]; intros; [by apply requiredness_ok|by apply requiredness_list]. Qed.

Lemma thrift_field_ok name f rest :
  wf_tfield f = true -> at_delim rest = false ->
  thrift_field name (Itoa (tf_id f)) (tfield_tokens f ++ rest) = Ok ((tfield_node f, false), rest).
Proof.
  unfold wf_tfield. rewrite !andb_true_iff. intros [[Hi Hn] Ht] Hr. unfold thrift_field, tfield_tokens.
  repeat (rewrite <- app_assoc; cbn [app tail]). ptoks.
  rewrite requiredness_type by done.
  pose proof (type_params_ok (tf_type f) ("expected type name for field in struct " +:+ name)
    (TokIdent (tf_name f) :: delim_tokens (tf_delim f) ++ rest) Ht) as Htp.
  set (e := expect_ident ("expected type name for field in struct " +:+ name)
    (ttype_tokens (tf_type f) ++ TokIdent (tf_name f) :: delim_tokens (tf_delim f) ++ rest)) in *.
  destruct e as [[tn ts]|]; [|done]. cbn [res_bind] in Htp |- *. rewrite Htp. ptoks.
  rewrite skip_delim_ok, ttype_parse by done.
  unfold tfield_node. repeat f_equal.
  - by apply int32_Itoa.
  - destruct (tf_type f) as [[]|[]]; reflexivity.
Qed.

(** What follows a printed block entry is not a delimiter. *)
Lemma after_entry {A} (f : A -> list token) (p : token -> bool) xs rest :
  (forall x, exists t ts, f x = t :: ts /\ p t = true) ->
  (forall t ts, p t = true -> at_delim (t :: ts) = false) ->
  at_delim (concat (f <$> xs) ++ TokPunct "}" :: rest) = false.
Proof.
  intros Hf Hp. destruct xs as [|x xs]; [apply at_delim_brace|].
  rewrite fmap_cons. cbn [concat]. destruct (Hf x) as (t & ts & -> & Ht). cbn [app]. by apply Hp.
Qed.

Lemma struct_loop_ok name fs acc rest fuel :
  forallb wf_tfield fs = true -> (length fs < fuel)%nat ->
  struct_loop fuel name acc false (concat (tfield_tokens <$> fs) ++ TokPunct "}" :: rest)
  = Ok ((acc ++ (tfield_node <$> fs), false), TokPunct "}" :: rest).
Proof.
  revert acc fuel. induction fs as [|f fs IH]; intros acc fuel Hw Hf; (destruct fuel as [|fuel]; [lia|]).
  { cbn [fmap list_fmap concat app struct_loop]. ptoks. by rewrite app_nil_r. }
  cbn [forallb] in Hw. apply andb_true_iff in Hw as [Hwf Hw]. rewrite fmap_cons. cbn [concat length] in *.
  rewrite <- app_assoc. cbn [struct_loop].
  set (more := concat (tfield_tokens <$> fs) ++ TokPunct "}" :: rest).
  assert (at_end (tfield_tokens f ++ more) || at_punct "}" (tfield_tokens f ++ more) = false) as ->.
  { unfold tfield_tokens. cbn [app]. ptoks. by rewrite at_punct_int. }
  change (cur (tfield_tokens f ++ more)) with (TokInt (Itoa (tf_id f))). cbn iota.
  rewrite thrift_field_ok; [|done|].
  - cbn [res_bind orb]. etransitivity; [apply IH; [done|lia]|]. by rewrite <- app_assoc.
  - apply (after_entry _ (fun t => match t with TokInt _ => true | _ => false end)).
    + intros x. unfold tfield_tokens. cbn [app]. eauto.
    + by intros [] ts Ht.
Qed.

Lemma ident_entry t ts : match t with TokIdent _ => true | _ => false end = true -> at_delim (t :: ts) = false.
Proof. by destruct t. Qed.

Lemma after_ident_entry {A} (f : A -> list token) xs rest :
  (forall x, exists s ts, f x = TokIdent s :: ts) ->
  at_delim (concat (f <$> xs) ++ TokPunct "}" :: rest) = false.
Proof.
  intros Hf. apply (after_entry _ (fun t => match t with TokIdent _ => true | _ => false end)).
  - intros x. destruct (Hf x) as (s & ts & ->). eauto.
  - apply ident_entry.
Qed.

Lemma at_eq_delim d rest : at_punct "=" rest = false -> at_punct "=" (delim_tokens d ++ rest) = false.
Proof. intros. destruct d; cbn [delim_tokens app]; [done|by rewrite at_punct_other..]. Qed.

Lemma thrift_enum_value_ok v c rest :
  wf_tvalue v = true -> at_delim rest = false -> at_punct "=" rest = false ->
  thrift_enum_value (tv_key v) c (tvalue_tokens v ++ rest) = Ok (default c (tv_val v), rest).
Proof.
  unfold wf_tvalue. rewrite andb_true_iff. intros [Hk Hz] Hr He. unfold thrift_enum_value, tvalue_tokens.
  repeat (rewrite <- app_assoc; cbn [app tail]).
  destruct (tv_val v) as [z|]; cbn [app].
  - do 2 ptoks. rewrite skip_delim_ok, int32_Itoa by done. done.
  - rewrite at_eq_delim by done. cbn [res_bind]. by rewrite skip_delim_ok.
Qed.

Lemma tvalue_first v : exists s ts, tvalue_tokens v = TokIdent s :: ts.
Proof. unfold tvalue_tokens. cbn [app]. eauto. Qed.

Lemma after_value_eq vs rest : at_punct "=" (concat (tvalue_tokens <$> vs) ++ TokPunct "}" :: rest) = false.
Proof. destruct vs as [|v vs]; [reflexivity|]. unfold tvalue_tokens. cbn [fmap list_fmap concat app]. by ptoks. Qed.

Lemma thrift_enum_loop_ok vs acc c rest fuel :
  forallb wf_tvalue vs = true -> (length vs < fuel)%nat ->
  thrift_enum_loop fuel acc c (concat (tvalue_tokens <$> vs) ++ TokPunct "}" :: rest)
  = Ok (fst (foldl value_step (acc, c) vs), TokPunct "}" :: rest).
Proof.
  revert acc c fuel. induction vs as [|v vs IH]; intros acc c fuel Hw Hf; (destruct fuel as [|fuel]; [lia|]).
  { cbn [fmap list_fmap concat app thrift_enum_loop foldl]. by ptoks. }
  cbn [forallb] in Hw. apply andb_true_iff in Hw as [Hwv Hw]. rewrite fmap_cons. cbn [concat length foldl] in *.
  rewrite <- app_assoc. cbn [thrift_enum_loop].
  pose proof (after_ident_entry tvalue_tokens vs rest tvalue_first) as Hd. pose proof (after_value_eq vs rest) as He.
  set (more := concat (tvalue_tokens <$> vs) ++ TokPunct "}" :: rest) in *.
  assert (at_end (tvalue_tokens v ++ more) || at_punct "}" (tvalue_tokens v ++ more) = false) as ->.
  { unfold tvalue_tokens. cbn [app]. by ptoks. }
  change (cur (tvalue_tokens v ++ more)) with (TokIdent (tv_key v)). cbn iota.
  rewrite thrift_enum_value_ok by done. cbn [res_bind]. apply IH; [done|lia].
Qed.

Lemma thrift_method_ok name m rest :
  at_delim rest = false ->
  thrift_method name (tm_output m) (tmethod_tokens m ++ rest) = Ok (tmethod_node m, rest).
Proof.
  intros Hr. unfold thrift_method, tmethod_tokens.
  repeat (rewrite <- app_assoc; cbn [app tail]). do 2 ptoks.
  set (more := delim_tokens (tm_delim m) ++ rest).
  assert (Hn : param_name (match tm_param_name m with Some n => [TokIdent n] | None => [] end
                           ++ TokPunct ")" :: more) = TokPunct ")" :: more)
    by (destruct (tm_param_name m); reflexivity).
  destruct (tm_param_id m) as [z|]; cbn [app]; unfold param_id; cbn [cur hd tail]; do 2 ptoks;
    rewrite Hn; ptoks; unfold more; by rewrite skip_delim_ok.
Qed.

Lemma tmethod_first m : exists s ts, tmethod_tokens m = TokIdent s :: ts.
Proof. unfold tmethod_tokens. cbn [app]. eauto. Qed.

Lemma thrift_service_loop_ok name ms acc rest fuel :
  (length ms < fuel)%nat ->
  thrift_service_loop fuel name acc (concat (tmethod_tokens <$> ms) ++ TokPunct "}" :: rest)
  = Ok (acc ++ (tmethod_node <$> ms), TokPunct "}" :: rest).
Proof.
  revert acc fuel. induction ms as [|m ms IH]; intros acc fuel Hf; (destruct fuel as [|fuel]; [lia|]).
  { cbn [fmap list_fmap concat app thrift_service_loop]. ptoks. by rewrite app_nil_r. }
  rewrite fmap_cons. cbn [concat length] in *. rewrite <- app_assoc. cbn [thrift_service_loop].
  pose proof (after_ident_entry tmethod_tokens ms rest tmethod_first) as Hd.
  set (more := concat (tmethod_tokens <$> ms) ++ TokPunct "}" :: rest) in *.
  assert (at_end (tmethod_tokens m ++ more) || at_punct "}" (tmethod_tokens m ++ more) = false) as ->.
  { unfold tmethod_tokens. cbn [app]. by ptoks. }
  change (cur (tmethod_tokens m ++ more)) with (TokIdent (tm_output m)). cbn iota.
  rewrite thrift_method_ok by done. cbn [res_bind].
  etransitivity; [apply IH; lia|]. by rewrite <- app_assoc.
Qed.

Lemma parse_titem_ok i fuel a rest :
  wf_titem i = true ->
  thrift_parseAST (S fuel) a (titem_tokens i ++ rest) = thrift_parseAST fuel (denote_titem a i) rest.
Proof.
  intros Hw. destruct i as [lang n|k n fs|n vs|n ms]; cbn [wf_titem titem_tokens app thrift_parseAST denote_titem] in *.
  - rewrite bool_decide_true by done. reflexivity.
  - apply andb_true_iff in Hw as [Hn Hw].
    assert (Hs : parseStruct (TokIdent (block_text k) :: TokIdent n :: TokPunct "{" ::
      (concat (tfield_tokens <$> fs) ++ [TokPunct "}"]) ++ rest)
      = Ok ({| sn_Name := n; sn_Fields := tfield_node <$> fs; sn_HasFallback := false |}, rest)).
    { unfold parseStruct. cbn [tail]. do 2 ptoks. rewrite <- app_assoc. cbn [app].
      rewrite struct_loop_ok; [by do 2 ptoks|done|]. apply printed_fuel. intros f. unfold tfield_tokens. cbn [app]. eauto. }
    rewrite Hs. cbn [res_bind]. destruct k; reflexivity.
  - apply andb_true_iff in Hw as [Hn Hw].
    repeat first [rewrite bool_decide_true by done | rewrite bool_decide_false by done].
    unfold thrift_parseEnum. cbn [tail orb]. do 2 ptoks. rewrite <- app_assoc. cbn [app].
    rewrite thrift_enum_loop_ok; [by do 2 ptoks|done|]. apply printed_fuel. intros v. unfold tvalue_tokens. cbn [app]. eauto.
  - apply andb_true_iff in Hw as [Hn Hw].
    repeat first [rewrite bool_decide_true by done | rewrite bool_decide_false by done].
    unfold thrift_parseService. cbn [tail orb]. do 2 ptoks. rewrite <- app_assoc. cbn [app].
    rewrite thrift_service_loop_ok; [by do 2 ptoks|]. apply printed_fuel. intros m. unfold tmethod_tokens. cbn [app]. eauto.
Qed.

Lemma parse_titems_ok items fuel a :
  forallb wf_titem items = true -> (length items < fuel)%nat ->
  thrift_parseAST fuel a (concat (titem_tokens <$> items)) = Ok (foldl denote_titem a items).
Proof.
  revert fuel a. induction items as [|i items IH]; intros fuel a Hw Hf; (destruct fuel as [|fuel]; [lia|]); [done|].
  cbn [forallb] in Hw. apply andb_true_iff in Hw as [Hi Hw]. cbn [length] in Hf.
  rewrite fmap_cons. cbn [concat foldl]. rewrite parse_titem_ok by done. apply IH; [done|lia].
Qed.

Lemma tbase_token b : wf_tbase b = true -> valid_token (TokIdent (tbase_text b)) = true.
Proof. destruct b; try reflexivity. cbn [wf_tbase]. by intros H%ttype_name_type%type_name_ident. Qed.

Lemma delim_printable d : printable (delim_tokens d).
Proof. destruct d; cbn [delim_tokens]; printable. Qed.

Lemma tfield_printable f : wf_tfield f = true -> printable (tfield_tokens f).
Proof.
  unfold wf_tfield, tfield_tokens. rewrite !andb_true_iff. intros [[Hi Hn] Ht].
  destruct (tf_req f) as [[]|], (tf_type f) as [b|b]; cbn [req_tokens ttype_tokens]; printable;
    (by apply tbase_token) || apply delim_printable.
Qed.

Lemma tvalue_printable v : wf_tvalue v = true -> printable (tvalue_tokens v).
Proof.
  unfold wf_tvalue, tvalue_tokens. rewrite !andb_true_iff. intros [Hk Hz].
  destruct (tv_val v); printable; apply delim_printable.
Qed.

Lemma tmethod_printable m : wf_tmethod m = true -> printable (tmethod_tokens m).
Proof.
  unfold wf_tmethod, tmethod_tokens. rewrite !andb_true_iff. intros [[[Ho Hn] Hi] Hp].
  destruct (tm_param_id m), (tm_param_name m); printable; apply delim_printable.
Qed.

Lemma titem_printable i : wf_titem i = true -> printable (titem_tokens i).
Proof.
  destruct i as [lang n|k n fs|n vs|n ms]; cbn [wf_titem titem_tokens]; rewrite ?andb_true_iff; intros [Hn Hw].
  - printable.
  - destruct k; cbn [block_text]; printable; (eapply printable_concat; [apply tfield_printable|done]).
  - printable. eapply printable_concat; [apply tvalue_printable|done].
  - printable. eapply printable_concat; [apply tmethod_printable|done].
Qed.

(** ** Properties *)

(** C23: the Thrift parser computes the AST a file stands for: the first namespace,
    structs, unions and exceptions with their fields (the last two marked for the
    fallback codec), enums whose unnumbered values count up from the previous one
    with 32-bit wrap-around, and services, whatever optional delimiters, parameter
    numbers and parameter names are written. *)
Theorem thrift_parser_correct (items : list titem) (Hw : forallb wf_titem items = true) :
  ParseThrift (print_thrift items) = Ok (denote_thrift items).
Proof.
  unfold ParseThrift, print_thrift. rewrite tokens_of_render.
  - apply parse_titems_ok; [done|]. apply Nat.lt_succ_r, concat_length_ge.
    intros i. destruct i; cbn; lia.
  - eapply printable_concat; [apply titem_printable|done].
Qed.

Definition sample_thrift : list titem := [
  TNamespace "go" "shop"; TNamespace "java" "com.shop";
  TStruct BStruct "Item" [
    {| tf_id := 1; tf_req := Some true; tf_type := TOne TI64; tf_name := "sku"; tf_delim := DSemi |};
    {| tf_id := 2; tf_req := None; tf_type := TList (TNamed "Tag"); tf_name := "tags"; tf_delim := DNone |} ];
  TStruct BException "Missing" [];
  TEnum "Color" [ {| tv_key := "RED"; tv_val := None; tv_delim := DComma |};
                  {| tv_key := "BLUE"; tv_val := Some 7; tv_delim := DNone |};
                  {| tv_key := "GREEN"; tv_val := None; tv_delim := DNone |} ];
  TService "Shop" [ {| tm_output := "Item"; tm_name := "get"; tm_param_id := Some 1; tm_input := "Item";
                       tm_param_name := Some "req"; tm_delim := DComma |} ] ].

Lemma thrift_parser_correct_witness :
  forallb wf_titem sample_thrift = true /\
  ParseThrift (print_thrift sample_thrift) = Ok (denote_thrift sample_thrift) /\
  enum_values [ {| tv_key := "BLUE"; tv_val := Some 7; tv_delim := DNone |};
                {| tv_key := "GREEN"; tv_val := None; tv_delim := DNone |} ] !! "GREEN" = Some 8.
Proof.
  split; [vm_compute; reflexivity|]. split; [|vm_compute; reflexivity].
  apply thrift_parser_correct. vm_compute. reflexivity.
Defined.

(** the Thrift parser always returns, on every input text: an AST or one of its
    own error messages. *)
Theorem ParseThrift_total (content : string) :
  (exists a, ParseThrift content = Ok a) \/ (exists msg, ParseThrift content = Err (PErr msg)).
Proof.
  unfold ParseThrift. set (ts := tokens_of content).
  pose proof (thrift_parseAST_total (S (length ts)) empty_ast ts ltac:(lia)) as H.
  destruct (thrift_parseAST (S (length ts)) empty_ast ts) as [a|[msg|]]; [left|right|]; eauto. done.
Qed.

(** what the Thrift parser does not keep: a [map<string, i64>] field becomes a
    field of a struct type named "map", without the fallback mark that the protobuf
    parser gives to maps, and the key and value types are lost; and [namespace *],
    which its error message offers, is refused. *)
Theorem thrift_maps_and_star_lost :
  ParseThrift "struct S { 1: map<string, i64> m }"
  = Ok (add_struct {| sn_Name := "S"; sn_HasFallback := false;
                      sn_Fields := [ {| fn_Name := "m"; fn_ID := 1; fn_Type := structType "map"; fn_Optional := false |} ] |}
          empty_ast) /\
  ParseThrift "namespace * shop" = Err (PErr "expected language target or '*' after namespace").
Proof. split; vm_compute; reflexivity. Qed.
