(* ===== verification/Checker.v ===== *)
(** * The schema compatibility checker ([compiler/compat/checker.go])

    Each message of the report is a [finding] that keeps the values the code
    formats; [None] stands for a nil dereference while a type is formatted, which
    ends the comparison with a panic. *)
From S2P Require Import Prelude GoStrings Ast Lexer ProtoParser ThriftParser.

Inductive message :=
| REMOVED_struct (s : string)
| REMOVED_field (s f : string)
| CHANGED_tag (s f : string) (old new : Z)
| CHANGED_type (s f : string) (old new : string)
| CHANGED_to_required (s f : string)
| ADDED_required_field (s f : string)
| ADDED_optional_field (s f : string)
| ADDED_struct (s : string)
| REMOVED_enum (e : string)
| REMOVED_enum_value (e v : string)
| CHANGED_enum_value (e v : string) (old new : Z)
| ADDED_enum_value (e v : string)
| ADDED_enum (e : string)
| REMOVED_service (s : string)
| REMOVED_method (s m : string)
| CHANGED_input (s m old new : string)
| CHANGED_output (s m old new : string)
| CHANGED_client_streaming (s m : string)
| CHANGED_server_streaming (s m : string)
| ADDED_method (s m : string)
| ADDED_service (s : string).

Inductive finding := Breaking (m : message) | Safe (m : message).

Record CompatReport := { cr_Breaking : list message; cr_Safe : list message; cr_HasBreaking : bool }.

Definition empty_report : CompatReport := {| cr_Breaking := []; cr_Safe := []; cr_HasBreaking := false |}.

Definition report (r : CompatReport) (f : finding) : CompatReport :=
  match f with
  | Breaking m => {| cr_Breaking := cr_Breaking r ++ [m]; cr_Safe := cr_Safe r; cr_HasBreaking := true |}
  | Safe m => {| cr_Breaking := cr_Breaking r; cr_Safe := cr_Safe r ++ [m]; cr_HasBreaking := cr_HasBreaking r |}
  end.

(** ** Types *)
Fixpoint typesEqual (t1 t2 : TypeNode) : bool :=
  bool_decide (tn_Kind t1 = tn_Kind t2) && bool_decide (tn_Name t1 = tn_Name t2) &&
  match tn_KeyType t1, tn_KeyType t2 with
  | Some k1, Some k2 => typesEqual k1 k2
  | None, None => true
  | _, _ => false
  end &&
  match tn_ValueType t1, tn_ValueType t2 with
  | Some v1, Some v2 => typesEqual v1 v2
  | None, None => true
  | _, _ => false
  end.

Fixpoint formatType (t : TypeNode) : option string :=
  match tn_Kind t with
  | TypeStruct | TypeEnum => Some (tn_Name t)
  | TypeMap =>
      match tn_KeyType t, tn_ValueType t with
      | Some k, Some v =>
          match formatType k, formatType v with
          | Some sk, Some sv => Some ("map<" +:+ sk +:+ ", " +:+ sv +:+ ">")
          | _, _ => None
          end
      | _, _ => None
      end
  | TypeList =>
      match tn_ValueType t with
      | Some v => match formatType v with Some sv => Some ("list<" +:+ sv +:+ ">") | None => None end
      | None => None
      end
  | k => Some (Type_string k)
  end.

(** ** Indexing by name: the last declaration wins *)
Definition index_by {A} (name : A -> string) (l : list A) : gmap string A :=
  foldl (fun m x => <[name x := x]> m) ∅ l.

(** A message reported when a condition holds. *)
Definition when (b : bool) (f : option finding) : list (option finding) := if b then [f] else [].
Definition breaking_if (b : bool) (m : message) : list (option finding) := when b (Some (Breaking m)).

Section diff.
Context `{MapIter}.

Definition diff_field (name : string) (newFields : gmap string FieldNode) (kv : string * FieldNode)
  : list (option finding) :=
  let '(fName, oldField) := kv in
  match newFields !! fName with
  | None => [Some (Breaking (REMOVED_field name fName))]
  | Some newField =>
      breaking_if (negb (fn_ID oldField =? fn_ID newField)) (CHANGED_tag name fName (fn_ID oldField) (fn_ID newField)) ++
      when (negb (typesEqual (fn_Type oldField) (fn_Type newField)))
        (match formatType (fn_Type oldField), formatType (fn_Type newField) with
         | Some o, Some n => Some (Breaking (CHANGED_type name fName o n))
         | _, _ => None
         end) ++
      breaking_if (fn_Optional oldField && negb (fn_Optional newField)) (CHANGED_to_required name fName)
  end.

Definition added_field (name : string) (oldFields : gmap string FieldNode) (kv : string * FieldNode)
  : list (option finding) :=
  let '(fName, newField) := kv in
  match oldFields !! fName with
  | Some _ => []
  | None => [Some (if negb (fn_Optional newField) then Breaking (ADDED_required_field name fName)
                   else Safe (ADDED_optional_field name fName))]
  end.

Definition diff_struct (newStructs : gmap string StructNode) (kv : string * StructNode) : list (option finding) :=
  let '(name, oldStruct) := kv in
  match newStructs !! name with
  | None => [Some (Breaking (REMOVED_struct name))]
  | Some newStruct =>
      let oldFields := index_by fn_Name (sn_Fields oldStruct) in
      let newFields := index_by fn_Name (sn_Fields newStruct) in
      (range_map 1 oldFields ≫= diff_field name newFields) ++
      (range_map 2 newFields ≫= added_field name oldFields)
  end.

(** Names present in the new schema only. *)
Definition added {A B} (msg : string -> message) (olds : gmap string A) (kv : string * B) : list (option finding) :=
  match olds !! fst kv with Some _ => [] | None => [Some (Safe (msg (fst kv)))] end.

Definition diff_value (name : string) (newValues : gmap string Z) (kv : string * Z) : list (option finding) :=
  let '(valName, oldVal) := kv in
  match newValues !! valName with
  | None => [Some (Breaking (REMOVED_enum_value name valName))]
  | Some newVal => breaking_if (negb (oldVal =? newVal)) (CHANGED_enum_value name valName oldVal newVal)
  end.

Definition diff_enum (newEnums : gmap string EnumNode) (kv : string * EnumNode) : list (option finding) :=
  let '(name, oldEnum) := kv in
  match newEnums !! name with
  | None => [Some (Breaking (REMOVED_enum name))]
  | Some newEnum =>
      (range_map 4 (en_Values oldEnum) ≫= diff_value name (en_Values newEnum)) ++
      (range_map 5 (en_Values newEnum) ≫= added (ADDED_enum_value name) (en_Values oldEnum))
  end.

Definition diff_method (name : string) (newMethods : gmap string MethodNode) (kv : string * MethodNode)
  : list (option finding) :=
  let '(mName, oldMethod) := kv in
  match newMethods !! mName with
  | None => [Some (Breaking (REMOVED_method name mName))]
  | Some newMethod =>
      breaking_if (negb (bool_decide (mn_InputType oldMethod = mn_InputType newMethod)))
        (CHANGED_input name mName (mn_InputType oldMethod) (mn_InputType newMethod)) ++
      breaking_if (negb (bool_decide (mn_OutputType oldMethod = mn_OutputType newMethod)))
        (CHANGED_output name mName (mn_OutputType oldMethod) (mn_OutputType newMethod)) ++
      breaking_if (xorb (mn_ClientStreaming oldMethod) (mn_ClientStreaming newMethod))
        (CHANGED_client_streaming name mName) ++
      breaking_if (xorb (mn_ServerStreaming oldMethod) (mn_ServerStreaming newMethod))
        (CHANGED_server_streaming name mName)
  end.

Definition diff_service (newServices : gmap string ServiceNode) (kv : string * ServiceNode)
  : list (option finding) :=
  let '(name, oldSvc) := kv in
  match newServices !! name with
  | None => [Some (Breaking (REMOVED_service name))]
  | Some newSvc =>
      let oldMethods := index_by mn_Name (sv_Methods oldSvc) in
      let newMethods := index_by mn_Name (sv_Methods newSvc) in
      (range_map 7 oldMethods ≫= diff_method name newMethods) ++
      (range_map 8 newMethods ≫= added (ADDED_method name) oldMethods)
  end.

(** Every message, in the order the loops produce it. *)
Definition diff_findings (oldAST newAST : AST) : list (option finding) :=
  let oldStructs := index_by sn_Name (Structs oldAST) in
  let newStructs := index_by sn_Name (Structs newAST) in
  let oldEnums := index_by en_Name (Enums oldAST) in
  let newEnums := index_by en_Name (Enums newAST) in
  let oldServices := index_by sv_Name (Services oldAST) in
  let newServices := index_by sv_Name (Services newAST) in
  (range_map 0 oldStructs ≫= diff_struct newStructs) ++
  (range_map 3 newStructs ≫= added ADDED_struct oldStructs) ++
  (range_map 6 oldEnums ≫= diff_enum newEnums) ++
  (range_map 9 newEnums ≫= added ADDED_enum oldEnums) ++
  (range_map 10 oldServices ≫= diff_service newServices) ++
  (range_map 11 newServices ≫= added ADDED_service oldServices).

(** [None] is a panic. *)
Definition DiffASTs (oldAST newAST : AST) : option CompatReport :=
  match mapM id (diff_findings oldAST newAST) with
  | Some fs => Some (foldl report empty_report fs)
  | None => None
  end.
End diff.

(** ** What compatibility means *)
Definition field_compat (o n : FieldNode) : Prop :=
  fn_ID o = fn_ID n /\ fn_Type o = fn_Type n /\ (fn_Optional o = true -> fn_Optional n = true).

(** [R] relates every entry of the old map to an entry of the new one. *)
Definition kept {A} (R : A -> A -> Prop) (olds news : gmap string A) : Prop :=
  forall k o, olds !! k = Some o -> exists n, news !! k = Some n /\ R o n.

Definition struct_compat (o n : StructNode) : Prop :=
  let olds := index_by fn_Name (sn_Fields o) in
  let news := index_by fn_Name (sn_Fields n) in
  kept field_compat olds news /\
  (forall k f, news !! k = Some f -> olds !! k = None -> fn_Optional f = true).

Definition enum_compat (o n : EnumNode) : Prop := en_Values o ⊆ en_Values n.

Definition method_compat (o n : MethodNode) : Prop :=
  mn_InputType o = mn_InputType n /\ mn_OutputType o = mn_OutputType n /\
  mn_ClientStreaming o = mn_ClientStreaming n /\ mn_ServerStreaming o = mn_ServerStreaming n.

Definition service_compat (o n : ServiceNode) : Prop :=
  kept method_compat (index_by mn_Name (sv_Methods o)) (index_by mn_Name (sv_Methods n)).

Definition compatible (old new : AST) : Prop :=
  kept struct_compat (index_by sn_Name (Structs old)) (index_by sn_Name (Structs new)) /\
  kept enum_compat (index_by en_Name (Enums old)) (index_by en_Name (Enums new)) /\
  kept service_compat (index_by sv_Name (Services old)) (index_by sv_Name (Services new)).

(** Every type of the schema can be formatted: maps have a key and a value type,
    lists a value type. *)
Definition formattable (a : AST) : Prop :=
  forall s f, s ∈ Structs a -> f ∈ sn_Fields s -> formatType (fn_Type f) <> None.

(** ** Lemmas *)
Fixpoint type_size (t : TypeNode) : nat :=
  S (match tn_KeyType t with Some k => type_size k | None => 0 end +
     match tn_ValueType t with Some v => type_size v | None => 0 end).

Lemma typesEqual_spec t1 t2 : typesEqual t1 t2 = true <-> t1 = t2.
Proof.
  revert t2. induction t1 as [t1 IH] using (induction_ltof1 _ type_size). intros t2. unfold ltof in IH.
  destruct t1 as [k1 n1 kt1 vt1], t2 as [k2 n2 kt2 vt2]. cbn [typesEqual tn_Kind tn_Name tn_KeyType tn_ValueType].
  rewrite !andb_true_iff, !bool_decide_eq_true. split.
  - intros [[[-> ->] Hk] Hv]. f_equal.
    + destruct kt1, kt2; try done. f_equal. apply IH; [cbn; lia|done].
    + destruct vt1, vt2; try done. f_equal. apply IH; [cbn; lia|done].
  - intros [= <- <- <- <-]. split_and!; [done|done|..].
    + destruct kt1; [|done]. apply IH; [cbn; lia|done].
    + destruct vt1; [|done]. apply IH; [cbn; lia|done].
Qed.

(** Only harmless findings. *)
Definition calm (l : list (option finding)) : Prop :=
  Forall (fun x => match x with Some (Safe _) => True | _ => False end) l.

Lemma calm_app l1 l2 : calm (l1 ++ l2) <-> calm l1 /\ calm l2.
Proof. apply Forall_app. Qed.

Lemma calm_when b x : calm (when b x) <-> (b = true -> calm [x]).
Proof. unfold when. destruct b; [naive_solver|]. split; [done|constructor]. Qed.

Lemma calm_breaking_if b m : calm (breaking_if b m) <-> b = false.
Proof.
  unfold breaking_if. rewrite calm_when. destruct b; split; try done.
  intros Hc. specialize (Hc eq_refl). inversion Hc; done.
Qed.

Lemma not_calm_breaking m : ~ calm [Some (Breaking m)].
Proof. intros Hc. inversion Hc; done. Qed.

Lemma calm_range `{MapIter} {A} site (m : gmap string A) f :
  calm (range_map site m ≫= f) <-> forall k v, m !! k = Some v -> calm (f (k, v)).
Proof.
  unfold calm. rewrite Forall_bind, Forall_forall. split.
  - intros Hf k v Hkv. apply (Hf (k, v)). by apply elem_of_range_map.
  - intros Hf [k v] Hkv. apply Hf. by apply elem_of_range_map in Hkv.
Qed.

Lemma calm_added {A B} msg (olds : gmap string A) (kv : string * B) : calm (added msg olds kv).
Proof. unfold added. destruct (olds !! _); repeat constructor. Qed.

(** A loop that looks every old entry up in the new map and compares the two. *)
Lemma calm_kept `{MapIter} {A} (R : A -> A -> Prop) site (olds news : gmap string A) f :
  (forall k o, news !! k = None -> ~ calm (f (k, o))) ->
  (forall k o n, news !! k = Some n -> calm (f (k, o)) <-> R o n) ->
  calm (range_map site olds ≫= f) <-> kept R olds news.
Proof.
  intros Hnone Hsome. rewrite calm_range. unfold kept. split; intros Hall k o Ho; specialize (Hall k o Ho).
  - destruct (news !! k) as [n|] eqn:E; [|by destruct (Hnone k o E)]. exists n. split; [done|]. by apply (Hsome k o n).
  - destruct Hall as (n & Hn & HR). by apply (Hsome k o n Hn).
Qed.

Lemma calm_field name news k o n :
  news !! k = Some n -> calm (diff_field name news (k, o)) <-> field_compat o n.
Proof.
  intros E. unfold diff_field. rewrite E, !calm_app, !calm_breaking_if, calm_when. unfold field_compat.
  rewrite negb_false_iff, Z.eqb_eq, negb_true_iff, <- typesEqual_spec.
  assert (Hfmt : calm [match formatType (fn_Type o), formatType (fn_Type n) with
                       | Some o', Some n' => Some (Breaking (CHANGED_type name k o' n'))
                       | _, _ => None
                       end] <-> False).
  { split; [|done]. destruct (formatType (fn_Type o)), (formatType (fn_Type n)); intros Hc; inversion Hc; done. }
  rewrite Hfmt. destruct (typesEqual (fn_Type o) (fn_Type n)), (fn_Optional o), (fn_Optional n); cbn; naive_solver.
Qed.

Lemma calm_struct `{MapIter} news k o n :
  news !! k = Some n -> calm (diff_struct news (k, o)) <-> struct_compat o n.
Proof.
  intros E. unfold diff_struct. rewrite E, calm_app.
  rewrite (calm_kept field_compat _ _ (index_by fn_Name (sn_Fields n))).
  - unfold struct_compat. rewrite calm_range. apply and_iff_compat_l. split; intros Hall x f Hx.
    + intros Hnone. specialize (Hall x f Hx). unfold added_field in Hall. rewrite Hnone in Hall.
      destruct (fn_Optional f); [done|]. by apply not_calm_breaking in Hall.
    + specialize (Hall x f Hx). unfold added_field. destruct (_ !! x) eqn:Eo; [constructor|].
      rewrite Hall by done. repeat constructor.
  - intros x fo En. unfold diff_field. rewrite En. apply not_calm_breaking.
  - intros x fo fn En. by apply calm_field.
Qed.

Lemma kept_eq_subseteq (olds news : gmap string Z) : kept (fun o n => o = n) olds news <-> olds ⊆ news.
Proof. unfold kept. rewrite map_subseteq_spec. naive_solver. Qed.

Lemma calm_enum `{MapIter} news k o n :
  news !! k = Some n -> calm (diff_enum news (k, o)) <-> enum_compat o n.
Proof.
  intros E. unfold diff_enum. rewrite E, calm_app. unfold enum_compat. rewrite <- kept_eq_subseteq.
  rewrite (calm_kept (fun o n => o = n) _ _ (en_Values n)).
  - rewrite calm_range. split; [tauto|]. intros. split; [done|]. intros. apply calm_added.
  - intros x z En. unfold diff_value. rewrite En. apply not_calm_breaking.
  - intros x z z' En. unfold diff_value. rewrite En, calm_breaking_if, negb_false_iff. apply Z.eqb_eq.
Qed.

Lemma xorb_false_iff_eq a b : xorb a b = false <-> a = b.
Proof. destruct a, b; done. Qed.

Lemma calm_method name news k o n :
  news !! k = Some n -> calm (diff_method name news (k, o)) <-> method_compat o n.
Proof.
  intros E. unfold diff_method, method_compat. rewrite E, !calm_app, !calm_breaking_if.
  rewrite !negb_false_iff, !bool_decide_eq_true, !xorb_false_iff_eq. tauto.
Qed.

Lemma calm_service `{MapIter} news k o n :
  news !! k = Some n -> calm (diff_service news (k, o)) <-> service_compat o n.
Proof.
  intros E. unfold diff_service, service_compat. rewrite E, calm_app.
  rewrite (calm_kept method_compat _ _ (index_by mn_Name (sv_Methods n))).
  - rewrite calm_range. split; [tauto|]. intros. split; [done|]. intros. apply calm_added.
  - intros x m En. unfold diff_method. rewrite En. apply not_calm_breaking.
  - intros x m m' En. by apply calm_method.
Qed.

Lemma calm_findings `{MapIter} old new : calm (diff_findings old new) <-> compatible old new.
Proof.
  unfold diff_findings, compatible. rewrite !calm_app, !(calm_range _ _ (added _ _)).
  rewrite (calm_kept struct_compat _ _ (index_by sn_Name (Structs new))),
    (calm_kept enum_compat _ _ (index_by en_Name (Enums new))),
    (calm_kept service_compat _ _ (index_by sv_Name (Services new))).
  - split; [tauto|]. intros. split_and!; try tauto; intros; apply calm_added.
  - intros k o En. unfold diff_service. rewrite En. apply not_calm_breaking.
  - intros k o n En. by apply calm_service.
  - intros k o En. unfold diff_enum. rewrite En. apply not_calm_breaking.
  - intros k o n En. by apply calm_enum.
  - intros k o En. unfold diff_struct. rewrite En. apply not_calm_breaking.
  - intros k o n En. by apply calm_struct.
Qed.

(** *** The report *)
Lemma index_by_elem {A} (name : A -> string) l k x :
  index_by name l !! k = Some x -> x ∈ l /\ name x = k.
Proof.
  unfold index_by. intros Hx.
  assert (Hgen : forall m : gmap string A, foldl (fun m x => <[name x := x]> m) m l !! k = Some x ->
    (x ∈ l /\ name x = k) \/ m !! k = Some x).
  { clear Hx. induction l as [|y l IH]; intros m; cbn; [by right|]. intros [[? ?]|Hm]%IH; [left; split; [by right|done]|].
    destruct (decide (name y = k)) as [<-|]; simplify_map_eq; [left; split; [left|done]|by right]. }
  destruct (Hgen ∅ Hx) as [?|?]; [done|]. by simplify_map_eq.
Qed.

Lemma no_panic_range `{MapIter} {A} site (m : gmap string A) f :
  (forall k v, m !! k = Some v -> None ∉ f (k, v)) -> (None : option finding) ∉ range_map site m ≫= f.
Proof.
  intros Hf. rewrite list_elem_of_bind. intros ([k v] & Hin & Hkv). apply elem_of_range_map in Hkv. by apply (Hf k v).
Qed.

Lemma no_panic_added {A B} msg (olds : gmap string A) (kv : string * B) : None ∉ added msg olds kv.
Proof. unfold added. destruct (olds !! _); set_solver. Qed.

Lemma no_panic_breaking b m : None ∉ breaking_if b m.
Proof. unfold breaking_if, when. destruct b; set_solver. Qed.

Lemma no_panic_field name news k o :
  formatType (fn_Type o) <> None -> (forall n, news !! k = Some n -> formatType (fn_Type n) <> None) ->
  None ∉ diff_field name news (k, o).
Proof.
  intros Ho Hn. unfold diff_field. destruct (news !! k) as [n|] eqn:E; [|set_solver]. specialize (Hn n eq_refl).
  rewrite !not_elem_of_app. split_and!; [apply no_panic_breaking| |apply no_panic_breaking].
  unfold when. destruct (negb _); [|set_solver].
  destruct (formatType (fn_Type o)), (formatType (fn_Type n)); set_solver.
Qed.

Lemma no_panic `{MapIter} old new :
  formattable old -> formattable new -> None ∉ diff_findings old new.
Proof.
  intros Ho Hn. unfold diff_findings. rewrite !not_elem_of_app.
  split_and!; apply no_panic_range; intros k v Hv; try apply no_panic_added.
  - unfold diff_struct. destruct (index_by sn_Name (Structs new) !! k) as [n|] eqn:En; [|set_solver].
    apply index_by_elem in Hv as [Hv _]. apply index_by_elem in En as [En _].
    rewrite not_elem_of_app. split; apply no_panic_range; intros x f Hf; apply index_by_elem in Hf as [Hf _].
    + apply no_panic_field; [by apply (Ho v)|]. intros f' [Hf' _]%index_by_elem. by apply (Hn n).
    + unfold added_field. destruct (index_by fn_Name (sn_Fields v) !! x); [set_solver|]. destruct (fn_Optional f); set_solver.
  - unfold diff_enum. destruct (index_by en_Name (Enums new) !! k) as [n|]; [|set_solver]. rewrite not_elem_of_app.
    split; apply no_panic_range; intros x z Hz; [|apply no_panic_added].
    unfold diff_value. destruct (en_Values n !! x); [apply no_panic_breaking|set_solver].
  - unfold diff_service. destruct (index_by sv_Name (Services new) !! k) as [n|]; [|set_solver]. rewrite not_elem_of_app.
    split; apply no_panic_range; intros x m Hm; [|apply no_panic_added].
    unfold diff_method. destruct (index_by mn_Name (sv_Methods n) !! x); [|set_solver].
    rewrite !not_elem_of_app. split_and!; apply no_panic_breaking.
Qed.

Definition is_breaking (f : finding) : bool := match f with Breaking _ => true | Safe _ => false end.

Lemma report_breaking fs r :
  cr_HasBreaking (foldl report r fs) = cr_HasBreaking r || existsb is_breaking fs /\
  (cr_Breaking (foldl report r fs) = [] <-> cr_Breaking r = [] /\ existsb is_breaking fs = false).
Proof.
  revert r. induction fs as [|[m|m] fs IH]; intros r; cbn [foldl existsb is_breaking].
  - split; [by rewrite orb_false_r|]. cbn. tauto.
  - destruct (IH (report r (Breaking m))) as [-> ->]. cbn. rewrite orb_true_r. split; [done|].
    split; [intros [E _]; by apply app_nil in E as [_ ?]|by intros [_ ?]].
  - destruct (IH (report r (Safe m))) as [-> ->]. done.
Qed.

Lemma mapM_id_some (l : list (option finding)) : None ∉ l -> exists fs, mapM id l = Some fs /\ l = Some <$> fs.
Proof.
  induction l as [|[x|] l IH]; intros Hl; [by exists []| |set_solver].
  destruct IH as (fs & Hfs & ->); [set_solver|]. exists (x :: fs). cbn. rewrite Hfs. done.
Qed.

Lemma calm_no_breaking fs : calm (Some <$> fs) <-> existsb is_breaking fs = false.
Proof.
  unfold calm. rewrite Forall_fmap. induction fs as [|[m|m] fs IH]; cbn [existsb is_breaking orb].
  - split; [done|constructor].
  - rewrite Forall_cons. cbn. naive_solver.
  - rewrite Forall_cons, IH. cbn. naive_solver.
Qed.

Lemma diff_decides `{MapIter} old new :
  formattable old -> formattable new ->
  exists r, DiffASTs old new = Some r /\ (cr_HasBreaking r = true <-> cr_Breaking r <> []) /\
    (cr_HasBreaking r = false <-> compatible old new).
Proof.
  intros Ho Hn. destruct (mapM_id_some _ (no_panic _ _ Ho Hn)) as (fs & Hfs & E).
  exists (foldl report empty_report fs). unfold DiffASTs. rewrite Hfs. split; [done|].
  rewrite <- calm_findings, E, calm_no_breaking.
  destruct (report_breaking fs empty_report) as [-> ->]. cbn. destruct (existsb is_breaking fs); naive_solver.
Qed.

(** *** Schemas that come from the parsers are formattable *)
Lemma parse_type_format fuel s : formatType (parse_type fuel s) <> None.
Proof.
  revert s. induction fuel as [|fuel IH]; intros s; [done|]. cbn [parse_type].
  set (base := if _ || _ then scalar TypeInt32 else _).
  assert (Hb : formatType base <> None).
  { subst base. repeat match goal with |- context [if ?b then _ else _] => destruct b end; done. }
  destruct (_ && _).
  - cbn. specialize (IH (slice (TrimSpace s) 5 (String.length (TrimSpace s) - 1))).
    destruct (formatType (parse_type fuel _)); done.
  - destruct (_ && _); [|done]. destruct (SplitN2 _ _) as [|k [|v [|]]]; try done.
    cbn. pose proof (IH k). pose proof (IH v).
    destruct (formatType (parse_type fuel k)), (formatType (parse_type fuel v)); done.
Qed.

Definition good_field (f : FieldNode) : Prop := formatType (fn_Type f) <> None.
Definition good_struct (s : StructNode) : Prop := Forall good_field (sn_Fields s).

(** A successful parser's value satisfies [P]. *)
Definition yields {A} (P : A -> Prop) (r : presult A) : Prop :=
  match r with Ok (a, _) => P a | Err _ => True end.

Lemma yields_bind {A B} (P : B -> Prop) (c : presult A) (k : A * list token -> presult B) :
  (forall a ts, yields P (k (a, ts))) -> yields P (res_bind c k).
Proof. destruct c as [[a ts]|]; cbn; auto. Qed.

Lemma yields_bind_with {A B} (Q : A -> Prop) (P : B -> Prop) (c : presult A) (k : A * list token -> presult B) :
  yields Q c -> (forall a ts, Q a -> yields P (k (a, ts))) -> yields P (res_bind c k).
Proof. destruct c as [[a ts]|]; cbn; auto. Qed.

Ltac yields_step := apply yields_bind; intros ? ?; cbn beta iota.

Lemma parse_field_good first ts : yields (fun r => good_field (fst r)) (parse_field first ts).
Proof.
  unfold parse_field. destruct (field_type first ts) as [[[o tn] im] ts1].
  do 4 yields_step. exact (parse_type_format _ _).
Qed.

Lemma message_loop_good fuel fs fb ts :
  Forall good_field fs -> yields (fun r => Forall good_field (fst r)) (message_loop fuel fs fb ts).
Proof.
  revert fs fb ts. induction fuel as [|fuel IH]; intros fs fb ts Hfs; [done|]. cbn [message_loop].
  destruct (_ || _); [done|]. destruct (cur ts); auto. case_bool_decide; auto.
  eapply yields_bind_with; [apply parse_field_good|]. intros [f b] l Hf. apply IH.
  apply Forall_app. split; [done|]. by constructor.
Qed.

Lemma parseMessage_good ts : yields good_struct (parseMessage ts).
Proof.
  unfold parseMessage. do 2 yields_step. eapply yields_bind_with; [by apply message_loop_good|].
  intros [fs fb] l Hfs. cbn beta iota. yields_step. exact Hfs.
Qed.

Lemma thrift_field_good name idText ts : yields (fun r => good_field (fst r)) (thrift_field name idText ts).
Proof.
  unfold thrift_field. yields_step. destruct (requiredness _) as [o l]. do 3 yields_step. exact (parse_type_format _ _).
Qed.

Lemma struct_loop_good fuel name fs fb ts :
  Forall good_field fs -> yields (fun r => Forall good_field (fst r)) (struct_loop fuel name fs fb ts).
Proof.
  revert fs fb ts. induction fuel as [|fuel IH]; intros fs fb ts Hfs; [done|]. cbn [struct_loop].
  destruct (_ || _); [done|]. destruct (cur ts); auto.
  eapply yields_bind_with; [apply thrift_field_good|]. intros [f b] l Hf. apply IH.
  apply Forall_app. split; [done|]. by constructor.
Qed.

Lemma parseStruct_good ts : yields good_struct (parseStruct ts).
Proof.
  unfold parseStruct. do 2 yields_step. eapply yields_bind_with; [by apply struct_loop_good|].
  intros [fs fb] l Hfs. cbn beta iota. yields_step. exact Hfs.
Qed.

Definition good_ast (r : res parse_error AST) : Prop :=
  match r with Ok a => Forall good_struct (Structs a) | Err _ => True end.

Lemma good_ast_bind {A} (Q : A -> Prop) (c : presult A) (k : A * list token -> res parse_error AST) :
  yields Q c -> (forall a ts, Q a -> good_ast (k (a, ts))) -> good_ast (res_bind c k).
Proof. destruct c as [[a ts]|]; cbn; auto. Qed.

Lemma good_snoc s l : Forall good_struct l -> good_struct s -> Forall good_struct (l ++ [s]).
Proof. intros. apply Forall_app. split; [done|]. by constructor. Qed.

Lemma yields_True {A} (r : presult A) : yields (fun _ => True) r.
Proof. by destruct r as [[]|]. Qed.

Lemma parseAST_good fuel a ts : Forall good_struct (Structs a) -> good_ast (parseAST fuel a ts).
Proof.
  revert a ts. induction fuel as [|fuel IH]; intros a ts Ha; [done|]. cbn [parseAST].
  destruct ts as [|t ts]; [done|]. destruct t as [|kw| | |]; auto.
  do 2 (case_bool_decide; [eapply good_ast_bind; [apply yields_True|intros; by apply IH]|]).
  case_bool_decide; [eapply good_ast_bind; [apply parseMessage_good|intros; by apply IH, good_snoc]|].
  do 2 (case_bool_decide; [eapply good_ast_bind; [apply yields_True|intros; by apply IH]|]).
  by apply IH.
Qed.

Lemma thrift_parseAST_good fuel a ts : Forall good_struct (Structs a) -> good_ast (thrift_parseAST fuel a ts).
Proof.
  revert a ts. induction fuel as [|fuel IH]; intros a ts Ha; [done|]. cbn [thrift_parseAST].
  destruct ts as [|t ts]; [done|]. destruct t as [|kw| | |]; auto.
  case_bool_decide.
  { eapply good_ast_bind; [apply yields_True|]. intros ns l _. apply IH. unfold first_namespace. by case_bool_decide. }
  destruct (_ || _).
  { eapply good_ast_bind; [apply parseStruct_good|]. intros s l Hs. apply IH, good_snoc; [done|].
    by destruct (_ || _). }
  do 2 (case_bool_decide; [eapply good_ast_bind; [apply yields_True|intros; by apply IH]|]).
  by apply IH.
Qed.

(** Schemas the compiler reads from disk. *)
Definition parsed (a : AST) : Prop := exists content, ParseProto content = Ok a \/ ParseThrift content = Ok a.

Lemma parsed_formattable a : parsed a -> formattable a.
Proof.
  intros (content & Hp).
  assert (Hg : Forall good_struct (Structs a)).
  { destruct Hp as [E|E].
    - pose proof (parseAST_good (S (length (tokens_of content))) empty_ast (tokens_of content) ltac:(constructor)) as Hg.
      unfold ParseProto in E. by rewrite E in Hg.
    - pose proof (thrift_parseAST_good (S (length (tokens_of content))) empty_ast (tokens_of content) ltac:(constructor)) as Hg.
      unfold ParseThrift in E. by rewrite E in Hg. }
  intros s f Hs Hf. rewrite Forall_forall in Hg. specialize (Hg s Hs). unfold good_struct in Hg.
  rewrite Forall_forall in Hg. by apply Hg.
Qed.

(** ** Properties *)

(** C5: the compatibility gate decides backward compatibility.  For any two schemas
    that either parser produces, and whatever order Go iterates its maps in, the
    comparison finishes without a panic; it flags a breaking change exactly when it
    lists one, and it flags none exactly when the new schema is compatible: every old
    struct, field, enum, enum value, service and method is still there, fields keep
    their tag and type and stay optional if they were, added fields are optional, enum
    numbers are unchanged, and methods keep their types and streaming modes. *)
Theorem compat_gate_decides `{MapIter} (old new : AST) (Ho : parsed old) (Hn : parsed new) :
  exists r, DiffASTs old new = Some r /\ (cr_HasBreaking r = true <-> cr_Breaking r <> []) /\
    (cr_HasBreaking r = false <-> compatible old new).
Proof. apply diff_decides; by apply parsed_formattable. Qed.

Definition old_text : string := "message M { string a = 1; optional int32 b = 2; } enum E { X = 0; }".
Definition new_text : string := "message M { string a = 1; optional int32 b = 2; optional bool c = 3; } enum E { X = 0; Y = 1; }".
Definition ast_of (c : string) : AST := match ParseProto c with Ok a => a | Err _ => empty_ast end.

Lemma compat_gate_decides_witness :
  parsed (ast_of old_text) /\ parsed (ast_of new_text) /\
  (exists r, DiffASTs (ast_of old_text) (ast_of new_text) = Some r /\ (cr_HasBreaking r = true <-> cr_Breaking r <> []) /\
    (cr_HasBreaking r = false <-> compatible (ast_of old_text) (ast_of new_text))) /\
  option_map cr_HasBreaking (DiffASTs (ast_of old_text) (ast_of new_text)) = Some false /\
  option_map cr_HasBreaking (DiffASTs (ast_of new_text) (ast_of old_text)) = Some true.
Proof.
  assert (parsed (ast_of old_text)) by (exists old_text; left; vm_compute; reflexivity).
  assert (parsed (ast_of new_text)) by (exists new_text; left; vm_compute; reflexivity).
  split; [done|]. split; [done|]. split; [by apply compat_gate_decides|]. split; vm_compute; reflexivity.
Defined.
