(* ===== verification/Linter.v ===== *)
(** * The schema linter ([compiler/linter/linter.go])

    The report is a list of messages; a message keeps the values it formats. *)
From S2P Require Import Prelude GoStrings Ast.

Definition is_alnum (c : ascii) : bool := is_upper c || is_lower c || is_digit c.

(** [^[A-Z][a-zA-Z0-9]*$] *)
Definition isPascalCase (s : string) : bool :=
  match s with "" => false | String c s' => is_upper c && str_forall is_alnum s' end.

(** [^[a-z][a-z0-9_]*$] *)
Definition isSnakeCase (s : string) : bool :=
  match s with
  | "" => false
  | String c s' => is_lower c && str_forall (fun c => is_lower c || is_digit c || Ascii.eqb c "_") s'
  end.

Inductive lint :=
| EnumCase (e : string)
| EnumValueCase (v e : string)
| StructCase (s : string)
| FieldCase (f s : string)
| FieldID (f s : string) (id : Z)
| ServiceCase (s : string)
| ServiceSuffix (s : string)
| MethodCase (m s : string).

Definition unless (ok : bool) (l : lint) : list lint := if ok then [] else [l].

Section lint.
Context `{MapIter}.

Definition lint_enum (e : EnumNode) : list lint :=
  unless (isPascalCase (en_Name e)) (EnumCase (en_Name e)) ++
  (range_map 0 (en_Values e) ≫= fun kv =>
     unless (isPascalCase (fst kv) || isSnakeCase (fst kv)) (EnumValueCase (fst kv) (en_Name e))).

Definition lint_struct (s : StructNode) : list lint :=
  unless (isPascalCase (sn_Name s)) (StructCase (sn_Name s)) ++
  (sn_Fields s ≫= fun f =>
     unless (isSnakeCase (fn_Name f)) (FieldCase (fn_Name f) (sn_Name s)) ++
     unless (negb (fn_ID f <=? 0)) (FieldID (fn_Name f) (sn_Name s) (fn_ID f))).

Definition lint_service (s : ServiceNode) : list lint :=
  unless (isPascalCase (sv_Name s)) (ServiceCase (sv_Name s)) ++
  unless (HasSuffix (sv_Name s) "Service") (ServiceSuffix (sv_Name s)) ++
  (sv_Methods s ≫= fun m => unless (isPascalCase (mn_Name m)) (MethodCase (mn_Name m) (sv_Name s))).

Definition Lint (tree : AST) : list lint :=
  (Enums tree ≫= lint_enum) ++ (Structs tree ≫= lint_struct) ++ (Services tree ≫= lint_service).
End lint.

(** ** Lemmas *)
Lemma elem_of_unless ok l x : x ∈ unless ok l <-> ok = false /\ x = l.
Proof. unfold unless. destruct ok; set_solver. Qed.

Lemma elem_lint_enum `{MapIter} e x :
  x ∈ lint_enum e <->
  (isPascalCase (en_Name e) = false /\ x = EnumCase (en_Name e)) \/
  (exists v z, en_Values e !! v = Some z /\ isPascalCase v = false /\ isSnakeCase v = false /\
     x = EnumValueCase v (en_Name e)).
Proof.
  unfold lint_enum. rewrite elem_of_app, elem_of_unless, list_elem_of_bind. apply or_iff_compat_l. split.
  - intros ([v z] & Hx & Hv%elem_of_range_map). apply elem_of_unless in Hx as [[? ?]%orb_false_iff ->]. by exists v, z.
  - intros (v & z & Hv & H1 & H2 & ->). exists (v, z). split; [|by apply elem_of_range_map].
    apply elem_of_unless. cbn. by rewrite H1, H2.
Qed.

Lemma elem_lint_struct s x :
  x ∈ lint_struct s <->
  (isPascalCase (sn_Name s) = false /\ x = StructCase (sn_Name s)) \/
  (exists f, f ∈ sn_Fields s /\
     ((isSnakeCase (fn_Name f) = false /\ x = FieldCase (fn_Name f) (sn_Name s)) \/
      (fn_ID f <= 0 /\ x = FieldID (fn_Name f) (sn_Name s) (fn_ID f)))).
Proof.
  unfold lint_struct. rewrite elem_of_app, elem_of_unless, list_elem_of_bind. apply or_iff_compat_l.
  split; intros (f & Hx & Hf); exists f; revert Hx Hf; rewrite elem_of_app, !elem_of_unless, negb_false_iff, Z.leb_le; tauto.
Qed.

Lemma elem_lint_service s x :
  x ∈ lint_service s <->
  (isPascalCase (sv_Name s) = false /\ x = ServiceCase (sv_Name s)) \/
  ((~ exists p, sv_Name s = p +:+ "Service") /\ x = ServiceSuffix (sv_Name s)) \/
  (exists m, m ∈ sv_Methods s /\ isPascalCase (mn_Name m) = false /\ x = MethodCase (mn_Name m) (sv_Name s)).
Proof.
  unfold lint_service. rewrite !elem_of_app, !elem_of_unless, list_elem_of_bind, <- HasSuffix_iff, not_true_iff_false.
  do 2 apply or_iff_compat_l. split; intros (m & Hx & Hm); exists m; revert Hx Hm; rewrite elem_of_unless; tauto.
Qed.

(** ** Properties *)

(** the linter reports exactly the violations of the naming rules: each message it
    can produce is in the report if and only if the schema has the offending
    declaration, whatever order Go iterates the enum values in.  An enum value may be
    PascalCase or snake_case, a field must be snake_case with a positive number, and a
    service must also end in Service. *)
Theorem lint_exact `{MapIter} (tree : AST) (l : lint) :
  l ∈ Lint tree <->
  match l with
  | EnumCase n => exists e, e ∈ Enums tree /\ n = en_Name e /\ isPascalCase n = false
  | EnumValueCase v n => exists e z, e ∈ Enums tree /\ n = en_Name e /\ en_Values e !! v = Some z /\
      isPascalCase v = false /\ isSnakeCase v = false
  | StructCase n => exists s, s ∈ Structs tree /\ n = sn_Name s /\ isPascalCase n = false
  | FieldCase f n => exists s x, s ∈ Structs tree /\ n = sn_Name s /\ x ∈ sn_Fields s /\ f = fn_Name x /\
      isSnakeCase f = false
  | FieldID f n id => exists s x, s ∈ Structs tree /\ n = sn_Name s /\ x ∈ sn_Fields s /\ f = fn_Name x /\
      id = fn_ID x /\ id <= 0
  | ServiceCase n => exists s, s ∈ Services tree /\ n = sv_Name s /\ isPascalCase n = false
  | ServiceSuffix n => exists s, s ∈ Services tree /\ n = sv_Name s /\ ~ exists p, n = p +:+ "Service"
  | MethodCase m n => exists s x, s ∈ Services tree /\ n = sv_Name s /\ x ∈ sv_Methods s /\ m = mn_Name x /\
      isPascalCase m = false
  end.
Proof.
  unfold Lint. rewrite !elem_of_app, !list_elem_of_bind.
  setoid_rewrite elem_lint_enum. setoid_rewrite elem_lint_struct. setoid_rewrite elem_lint_service.
  destruct l; naive_solver.
Qed.
