(* ===== verification/Transpiler.v ===== *)
(** * The Thrift to protobuf transpiler ([compiler/compat/thrift_transpiler.go])

    The transpiler works line by line with three regular expressions; each is
    modelled by a function that consumes the pieces of the expression in order.
    The pieces of each expression are over disjoint character classes, so the
    greedy match is the only one. *)
From S2P Require Import Prelude GoStrings Lexer Ast ProtoParser.

(** [\s] and [\w] *)
Definition rx_space (c : ascii) : bool := is_ws c || Ascii.eqb c "012".
Definition rx_word (c : ascii) : bool := is_upper c || is_lower c || is_digit c || Ascii.eqb c "_".

Definition rx_star (p : ascii -> bool) (s : string) : string * string := span p s.
Definition rx_plus (p : ascii -> bool) (s : string) : option (string * string) :=
  match span p s with ("", _) => None | r => Some r end.
Definition rx_char (c : ascii) (s : string) : option string :=
  match s with String a s' => if Ascii.eqb a c then Some s' else None | "" => None end.
(** A word without regard to case. *)
Definition rx_fold (w s : string) : option string :=
  if bool_decide (ToLower (str_take (String.length w) s) = w) then Some (str_drop (String.length w) s) else None.

(** [(?i)^\s*struct\s+(\w+)\s*\{] *)
Definition structStartRx (line : string) : option string :=
  match rx_fold "struct" (snd (rx_star rx_space line)) with
  | None => None
  | Some s =>
      match rx_plus rx_space s with
      | None => None
      | Some (_, s) =>
          match rx_plus rx_word s with
          | None => None
          | Some (name, s) =>
              match rx_char "{" (snd (rx_star rx_space s)) with Some _ => Some name | None => None end
          end
      end
  end.

(** [^\s*\}\s*] *)
Definition structEndRx (line : string) : bool :=
  match rx_char "}" (snd (rx_star rx_space line)) with Some _ => true | None => false end.

(** [^\s*(\d+)\s*:\s*(\w+)\s+(\w+)(?:\s*,|;)?]; the groups are number, type, name. *)
Definition fieldRx (line : string) : option (string * string * string) :=
  match rx_plus is_digit (snd (rx_star rx_space line)) with
  | None => None
  | Some (fieldID, s) =>
      match rx_char ":" (snd (rx_star rx_space s)) with
      | None => None
      | Some s =>
          match rx_plus rx_word (snd (rx_star rx_space s)) with
          | None => None
          | Some (fieldType, s) =>
              match rx_plus rx_space s with
              | None => None
              | Some (_, s) =>
                  match rx_plus rx_word s with
                  | None => None
                  | Some (fieldName, _) => Some (fieldID, fieldType, fieldName)
                  end
              end
          end
      end
  end.

Definition mapThriftTypeToProto (t : string) : string :=
  let t := ToLower t in
  if bool_decide (t = "i16") || bool_decide (t = "i32") then "int32"
  else if bool_decide (t = "i64") then "int64"
  else if bool_decide (t = "string") then "string"
  else if bool_decide (t = "double") then "double"
  else if bool_decide (t = "bool") then "bool"
  else if bool_decide (t = "binary") then "bytes"
  else "string".

Definition nl : string := String "010" "".

Definition proto_header : string :=
  "// Automatically transpiled from Thrift by Helix RPC. DO NOT EDIT." +:+ nl +:+
  dq "syntax = 'proto3';" +:+ nl +:+ nl +:+ "package helix.migrated;" +:+ nl +:+ nl.

(** The loop's state: inside a struct, and the text written so far. *)
Definition transpile_line (st : bool * string) (line : string) : bool * string :=
  let '(inStruct, sb) := st in
  let trimmed := TrimSpace line in
  if bool_decide (trimmed = "") || HasPrefix trimmed "#" || HasPrefix trimmed "//" then st
  else if negb inStruct then
    match structStartRx line with
    | Some structName => (true, sb +:+ "message " +:+ structName +:+ " {" +:+ nl)
    | None => st
    end
  else if structEndRx line then (false, sb +:+ "}" +:+ nl +:+ nl)
  else
    match fieldRx line with
    | Some (fieldID, fieldType, fieldName) =>
        (true, sb +:+ "    " +:+ mapThriftTypeToProto fieldType +:+ " " +:+ fieldName +:+ " = " +:+ fieldID +:+ ";" +:+ nl)
    | None => st
    end.

Definition TranspileThriftToProto (thriftContent : string) : string :=
  snd (foldl transpile_line (false, proto_header) (Split thriftContent "010")).

(** ** What the transpiler is for: structs of scalar fields *)
Record sfield := { sf_id : Z; sf_type : string; sf_name : string }.
Record sstruct := { ss_name : string; ss_fields : list sfield }.

Definition thrift_lines (s : sstruct) : list string :=
  ["struct " +:+ ss_name s +:+ " {"] ++
  ((fun f => "  " +:+ Itoa (sf_id f) +:+ ": " +:+ sf_type f +:+ " " +:+ sf_name f +:+ ";") <$> ss_fields s) ++ ["}"].
Definition thrift_text (ss : list sstruct) : string := Join (concat (thrift_lines <$> ss)) nl.

Definition proto_field (f : sfield) : string :=
  "    " +:+ mapThriftTypeToProto (sf_type f) +:+ " " +:+ sf_name f +:+ " = " +:+ Itoa (sf_id f) +:+ ";" +:+ nl.
Definition proto_message (s : sstruct) : string :=
  "message " +:+ ss_name s +:+ " {" +:+ nl +:+ String.concat "" (proto_field <$> ss_fields s) +:+ "}" +:+ nl +:+ nl.

Definition word (s : string) : bool := negb (String.eqb s "") && str_forall rx_word s.
Definition wf_sfield (f : sfield) : bool := (0 <=? sf_id f) && word (sf_type f) && word (sf_name f).
Definition wf_sstruct (s : sstruct) : bool := word (ss_name s) && forallb wf_sfield (ss_fields s).

(** ** Lemmas: the expressions *)
Lemma rx_classes c :
  (rx_word c = true -> rx_space c = false /\ is_space c = false /\ Ascii.eqb c "010" = false) /\
  (is_digit c = true -> rx_space c = false /\ is_space c = false /\ rx_word c = true).
Proof. destruct c as [[] [] [] [] [] [] [] []]; vm_compute; split_and!; intros; done. Qed.

(** A non-empty word, followed by a character of another class. *)
Lemma rx_plus_ok p w c s : w <> "" -> str_forall p w = true -> p c = false ->
  rx_plus p (w +:+ String c s) = Some (w, String c s).
Proof.
  intros Hw Hp Hc. unfold rx_plus. rewrite span_all; [|done|right; eauto].
  by destruct w.
Qed.

Lemma word_cons s : word s = true -> exists c s', s = String c s' /\ rx_word c = true /\ str_forall rx_word s = true.
Proof.
  unfold word. destruct s as [|c s']; [done|]. cbn. intros [Hc Hs]%andb_true_iff.
  exists c, s'. split_and!; [done|done|]. by rewrite Hc, Hs.
Qed.

Lemma span_stop p c s : p c = false -> span p (String c s) = ("", String c s).
Proof. intros H. cbn. by rewrite H. Qed.

(** Skipping white space before a word, one space at a time. *)
Lemma skip_space w s : word w = true -> snd (rx_star rx_space (w +:+ s)) = w +:+ s.
Proof.
  intros (c & w' & -> & Hc & _)%word_cons. cbn. destruct (rx_classes c) as [H _]. destruct (H Hc) as [-> _]. done.
Qed.
Lemma skip_one_space w s : word w = true -> snd (rx_star rx_space (String " " (w +:+ s))) = w +:+ s.
Proof.
  intros Hw. pose proof (skip_space w s Hw) as H. unfold rx_star in *. cbn [span].
  change (rx_space " ") with true. cbn iota. by destruct (span rx_space (w +:+ s)).
Qed.
Lemma plus_one_space w s : word w = true -> rx_plus rx_space (String " " (w +:+ s)) = Some (" ", w +:+ s).
Proof.
  intros (c & w' & -> & Hc & _)%word_cons. destruct (rx_classes c) as [H _]. destruct (H Hc) as [Hs _].
  unfold rx_plus. cbn. by rewrite Hs.
Qed.

Lemma digits_word z : 0 <= z -> word (Itoa z) = true.
Proof.
  intros Hz. unfold word. rewrite andb_true_iff, negb_true_iff, String.eqb_neq. split; [by apply Itoa_nonempty|].
  eapply str_forall_impl; [|by apply Itoa_digits]. intros c Hc. by apply rx_classes.
Qed.

Lemma structStart_ok n : word n = true -> structStartRx ("struct " +:+ n +:+ " {") = Some n.
Proof.
  intros Hn. unfold structStartRx.
  change (snd (rx_star rx_space ("struct " +:+ n +:+ " {"))) with ("struct " +:+ n +:+ " {").
  change (rx_fold "struct" ("struct " +:+ n +:+ " {")) with (Some (String " " (n +:+ " {"))).
  cbn iota. rewrite plus_one_space by done.
  pose proof (word_cons n Hn) as (c & n' & E & _ & Hall).
  rewrite (rx_plus_ok rx_word n " " "{"); [done|by rewrite E|done|done].
Qed.

Lemma fieldRx_ok f :
  wf_sfield f = true ->
  fieldRx ("  " +:+ Itoa (sf_id f) +:+ ": " +:+ sf_type f +:+ " " +:+ sf_name f +:+ ";")
  = Some (Itoa (sf_id f), sf_type f, sf_name f).
Proof.
  unfold wf_sfield. rewrite !andb_true_iff, Z.leb_le. intros [[Hi Ht] Hn].
  pose proof (digits_word _ Hi) as Hd. pose proof (Itoa_digits _ Hi) as Hdig. pose proof (Itoa_nonempty _ Hi) as Hne.
  destruct (word_cons _ Ht) as (ct & t' & Et & _ & Hallt). destruct (word_cons _ Hn) as (cn & n' & En & _ & Halln).
  unfold fieldRx.
  assert (Hsp : forall w s, word w = true -> snd (rx_star rx_space ("  " +:+ w +:+ s)) = w +:+ s).
  { intros w s Hw. pose proof (skip_one_space w s Hw) as H. unfold rx_star in *. cbn [String.append span] in *.
    change (rx_space " ") with true in *. cbn iota in *. by destruct (span rx_space (w +:+ s)). }
  rewrite Hsp by done. cbn [String.append].
  rewrite (rx_plus_ok is_digit _ ":"); [|done|done|done]. cbn iota.
  rewrite (span_stop rx_space ":") by done. cbn [snd rx_char]. rewrite Ascii.eqb_refl.
  rewrite skip_one_space by done.
  rewrite (rx_plus_ok rx_word _ " "); [|by rewrite Et|done|done].
  rewrite plus_one_space by done. rewrite (rx_plus_ok rx_word _ ";"); [done|by rewrite En|done|done].
Qed.

(** ** Lemmas: the lines *)
Lemma trim_right_head p c s : p c = false -> exists s', trim_right p (String c s) = String c s'.
Proof. intros Hc. cbn. rewrite Hc. destruct (trim_right p s); eauto. Qed.

(** A line that starts (after [TrimSpace]) with [c] is neither blank nor a comment. *)
Lemma code_line c s :
  is_space c = false -> c <> "#"%char -> c <> "/"%char ->
  bool_decide (trim_right is_space (String c s) = "") || HasPrefix (trim_right is_space (String c s)) "#" ||
  HasPrefix (trim_right is_space (String c s)) "//" = false.
Proof.
  intros Hc H1 H2. destruct (trim_right_head is_space c s Hc) as [s' ->].
  rewrite bool_decide_false by done.
  assert (forall d p, c <> d -> HasPrefix (String c s') (String d p) = false) as Hp.
  { intros d p Hd. apply not_true_iff_false. intros [r E]%HasPrefix_iff. cbn in E. congruence. }
  rewrite !Hp by done. done.
Qed.

Lemma start_line sb n :
  word n = true ->
  transpile_line (false, sb) ("struct " +:+ n +:+ " {") = (true, sb +:+ "message " +:+ n +:+ " {" +:+ nl).
Proof.
  intros Hn. unfold transpile_line, TrimSpace.
  change (trim_left is_space ("struct " +:+ n +:+ " {")) with (String "s" ("truct " +:+ n +:+ " {")).
  rewrite code_line by done. cbn [negb]. by rewrite structStart_ok.
Qed.

Lemma field_line sb f :
  wf_sfield f = true ->
  transpile_line (true, sb) ("  " +:+ Itoa (sf_id f) +:+ ": " +:+ sf_type f +:+ " " +:+ sf_name f +:+ ";")
  = (true, sb +:+ proto_field f).
Proof.
  intros Hf. pose proof (fieldRx_ok f Hf) as Hrx. revert Hf. unfold wf_sfield. rewrite !andb_true_iff, Z.leb_le.
  intros [[Hi _] _]. pose proof (Itoa_digits _ Hi) as Hd. pose proof (Itoa_nonempty _ Hi) as Hn.
  unfold transpile_line. rewrite Hrx. unfold TrimSpace, structEndRx, rx_star, proto_field.
  set (rest := ": " +:+ _). destruct (Itoa (sf_id f)) as [|c s]; [done|]. cbn in Hd. apply andb_true_iff in Hd as [Hc _].
  destruct (rx_classes c) as [_ H]. destruct (H Hc) as (Hsp & His & _).
  assert (c <> "#"%char /\ c <> "/"%char /\ Ascii.eqb c "}" = false) as (H1 & H2 & H3).
  { destruct c as [[] [] [] [] [] [] [] []]; done. }
  cbn [String.append trim_left]. change (is_space " ") with true. cbn iota. rewrite His.
  rewrite code_line by done. cbn [negb span]. change (rx_space " ") with true. cbn iota. rewrite Hsp. cbn [snd rx_char].
  by rewrite H3.
Qed.

Lemma concat_cons x xs : String.concat "" (x :: xs) = x +:+ String.concat "" xs.
Proof. destruct xs; [|done]. symmetry. apply str_app_nil_r. Qed.

Lemma field_lines fs sb :
  forallb wf_sfield fs = true ->
  foldl transpile_line (true, sb)
    ((fun f => "  " +:+ Itoa (sf_id f) +:+ ": " +:+ sf_type f +:+ " " +:+ sf_name f +:+ ";") <$> fs)
  = (true, sb +:+ String.concat "" (proto_field <$> fs)).
Proof.
  revert sb. induction fs as [|f fs IH]; intros sb Hw; [cbn; by rewrite str_app_nil_r|].
  cbn [forallb] in Hw. apply andb_true_iff in Hw as [Hf Hw]. rewrite !fmap_cons, concat_cons. cbn [foldl].
  rewrite field_line, IH by done. by rewrite str_app_assoc.
Qed.

Lemma end_line sb : transpile_line (true, sb) "}" = (false, sb +:+ "}" +:+ nl +:+ nl).
Proof. reflexivity. Qed.

Lemma struct_lines s sb :
  wf_sstruct s = true ->
  foldl transpile_line (false, sb) (thrift_lines s) = (false, sb +:+ proto_message s).
Proof.
  unfold wf_sstruct. intros [Hn Hf]%andb_true_iff. unfold thrift_lines. rewrite !foldl_app. cbn [foldl].
  rewrite start_line, field_lines, end_line by done. unfold proto_message. by rewrite !str_app_assoc.
Qed.

Lemma all_lines ss sb :
  forallb wf_sstruct ss = true ->
  foldl transpile_line (false, sb) (concat (thrift_lines <$> ss))
  = (false, sb +:+ String.concat "" (proto_message <$> ss)).
Proof.
  revert sb. induction ss as [|s ss IH]; intros sb Hw; [cbn; by rewrite str_app_nil_r|].
  cbn [forallb] in Hw. apply andb_true_iff in Hw as [Hs Hw].
  rewrite !fmap_cons, concat_cons. cbn [concat]. rewrite foldl_app, struct_lines, IH by done.
  by rewrite str_app_assoc.
Qed.

Definition no_nl (s : string) : bool := str_forall (fun a => negb (Ascii.eqb a "010")) s.

Lemma word_no_nl s : word s = true -> no_nl s = true.
Proof.
  intros (c & s' & -> & _ & Hall)%word_cons. eapply str_forall_impl; [|exact Hall].
  intros d Hd. apply rx_classes in Hd as (_ & _ & ->). done.
Qed.

Lemma lines_no_nl s : wf_sstruct s = true -> Forall (fun p => no_nl p = true) (thrift_lines s).
Proof.
  unfold wf_sstruct. intros [Hn Hf]%andb_true_iff. unfold thrift_lines.
  rewrite !Forall_app, !Forall_singleton, Forall_fmap. unfold no_nl. split_and!; [|apply Forall_forall|done].
  - rewrite !str_forall_app. pose proof (word_no_nl _ Hn) as H. unfold no_nl in H. by rewrite H.
  - intros f Hin. rewrite forallb_True_iff in Hf. specialize (Hf f Hin). unfold wf_sfield in Hf.
    rewrite !andb_true_iff, Z.leb_le in Hf. destruct Hf as [[Hi%digits_word%word_no_nl Ht%word_no_nl] Hm%word_no_nl].
    unfold no_nl in *. cbn [compose]. rewrite !str_forall_app, Hi, Ht, Hm. done.
Qed.

(** ** Properties *)

(** on files of structs with plain fields (number, type word, name word), one per
    line, the transpiler writes one message per struct in order, with every field, its
    number unchanged and its type mapped, after the fixed header. *)
Theorem transpile_structs (ss : list sstruct) (Hne : ss <> []) (Hw : forallb wf_sstruct ss = true) :
  TranspileThriftToProto (thrift_text ss) = proto_header +:+ String.concat "" (proto_message <$> ss).
Proof.
  unfold TranspileThriftToProto, thrift_text, nl. rewrite Split_Join.
  - by rewrite all_lines.
  - destruct ss; [done|]. cbn. done.
  - apply Forall_concat, Forall_fmap, Forall_forall. intros s Hs. apply lines_no_nl.
    rewrite forallb_True_iff in Hw. by apply Hw.
Qed.

Definition sample_structs : list sstruct := [
  {| ss_name := "Item"; ss_fields := [ {| sf_id := 1; sf_type := "i64"; sf_name := "sku" |};
                                       {| sf_id := 2; sf_type := "binary"; sf_name := "photo" |} ] |} ].

(** The text it writes is read back by the protobuf parser with the expected fields. *)
Lemma transpile_structs_witness :
  sample_structs <> [] /\ forallb wf_sstruct sample_structs = true /\
  TranspileThriftToProto (thrift_text sample_structs) = proto_header +:+ String.concat "" (proto_message <$> sample_structs) /\
  ParseProto (TranspileThriftToProto (thrift_text sample_structs))
  = Ok (add_struct {| sn_Name := "Item"; sn_HasFallback := false; sn_Fields := [
          {| fn_Name := "sku"; fn_ID := 1; fn_Type := scalar TypeInt64; fn_Optional := false |};
          {| fn_Name := "photo"; fn_ID := 2; fn_Type := scalar TypeBinary; fn_Optional := false |} ] |}
        (with_namespace "helix.migrated" empty_ast)).
Proof.
  split; [done|]. split; [vm_compute; reflexivity|]. split; [|vm_compute; reflexivity].
  apply transpile_structs; [done|vm_compute; reflexivity].
Defined.

(** fields the transpiler gets wrong: [required] is taken for the type (and becomes
    string) and the type for the name; a list field is dropped without a word; a field
    of struct type becomes a string. *)
Theorem transpile_loses_fields :
  snd (transpile_line (true, "") "  1: required i64 sku;") = "    string i64 = 1;" +:+ nl /\
  transpile_line (true, "") "  2: list<i64> ids;" = (true, "") /\
  snd (transpile_line (true, "") "  3: Item item;") = "    string item = 3;" +:+ nl.
Proof. repeat split; vm_compute; reflexivity. Qed.
