(* ===== verification/Wire.v ===== *)
(** * The generated protobuf codec ([compiler/codegen/go_generator.go])

    The Go code generator writes, for every struct, a codec whose text depends only
    on the struct's fields.  The definitions below are what that code does, with the
    field list as a parameter: [ProtoSize], [MarshalTo], [Unmarshal], the lazy
    accessors over [fastScanField], and the varint helpers they share.

    A message is the list of its field values, in the order of the field list.
    Buffers are byte lists and every index is checked: an index out of range is
    [Panic].  Loops that can run forever on hostile input run on fuel. *)
From S2P Require Import Prelude GoStrings Ast.

Inductive wire_error :=
| UnexpectedEOF
| WrongWireType (w : Z) (field : string)
| EndGroup
| UnhandledWireType
| FieldNotFound
| UnsupportedLazy
| UnsupportedTranspile
| Panic
| OutOfFuel.

(** Kinds other than int32, int64 and string have no codec; their value is [VOther]. *)
Inductive value := VInt (z : Z) | VStr (b : bytes) | VOther.

#[export] Instance value_eq_dec : EqDecision value.
Proof. solve_decision. Defined.

Abbreviation message := (list value).

(** ** Varints *)
Definition put (buf : bytes) (offset : nat) (b : Z) : res wire_error bytes :=
  if (offset <? length buf)%nat then Ok (<[offset := byte_of_Z b]> buf) else Err Panic.

(** A 64-bit value takes at most ten rounds. *)
Fixpoint write_varint (fuel : nat) (buf : bytes) (offset : nat) (v : Z) : res wire_error (bytes * nat) :=
  match fuel with
  | O => Err OutOfFuel
  | S fuel' =>
      if 128 <=? v then
        let? buf := put buf offset (Z.lor (Z.land v 127) 128) in
        write_varint fuel' buf (S offset) (Z.shiftr v 7)
      else let? buf := put buf offset v in Ok (buf, S offset)
  end.
Definition writeVarint (buf : bytes) (offset : nat) (v : Z) := write_varint 10 buf offset v.

Fixpoint read_varint (rest : bytes) (offset : Z) (shift v : Z) : res wire_error (Z * Z) :=
  match rest with
  | [] => Err UnexpectedEOF
  | b :: rest' =>
      let b := byte_to_Z b in
      let v := Z.lor v (u64 (Z.shiftl (Z.land b 127) shift)) in
      if Z.land b 128 =? 0 then Ok (v, offset + 1) else read_varint rest' (offset + 1) (shift + 7) v
  end.
Definition readVarint (buf : bytes) (offset : Z) : res wire_error (Z * Z) :=
  if Z.of_nat (length buf) <=? offset then Err UnexpectedEOF
  else if offset <? 0 then Err Panic
  else read_varint (drop (Z.to_nat offset) buf) offset 0 0.

Fixpoint size_varint (fuel : nat) (v : Z) : Z :=
  match fuel with O => 0 | S fuel' => if 0 <? v then 1 + size_varint fuel' (Z.shiftr v 7) else 0 end.
Definition sizeOfVarint (v : Z) : Z := if v =? 0 then 1 else size_varint 10 v.

(** [buf[i:j]] *)
Definition sub_slice (buf : bytes) (i j : Z) : res wire_error bytes :=
  if (0 <=? i) && (i <=? j) && (j <=? Z.of_nat (length buf))
  then Ok (take (Z.to_nat (j - i)) (drop (Z.to_nat i) buf)) else Err Panic.

(** ** Names of the generated struct fields *)
Definition capitalize (s : string) : string :=
  match s with "" => "" | String c s' => ToUpper (String c "") +:+ s' end.
Definition toCamelCase (s : string) : string :=
  Join ((fun part => if bool_decide (part = "id") then "ID" else capitalize part) <$> Split s "_") "".

(** ** Encoding *)

Definition field_size (f : FieldNode) (v : value) : Z :=
  match tn_Kind (fn_Type f), v with
  | (TypeInt32 | TypeInt64), VInt z => if z =? 0 then 0 else 1 + sizeOfVarint (u64 z)
  | TypeString, VStr s =>
      let n := Z.of_nat (length s) in if 0 <? n then 1 + sizeOfVarint (u64 n) + n else 0
  | _, _ => 0
  end.
Definition ProtoSize (fields : list FieldNode) (x : message) : Z :=
  foldr Z.add 0 (zip_with field_size fields x).

(** The constant the generator computes: [(f.ID << 3) | int32(wireType)]. *)
Definition tagVal (f : FieldNode) : Z :=
  let wireType := match tn_Kind (fn_Type f) with TypeString | TypeBinary => 2 | _ => 0 end in
  Z.lor (i32 (Z.shiftl (fn_ID f) 3)) wireType.

(** [copy(dAtA[i:], s)] *)
Definition copy_at (buf : bytes) (i : nat) (s : bytes) : bytes * nat :=
  let n := Nat.min (length s) (length buf - i) in
  (take i buf ++ take n s ++ drop (i + n) buf, (i + n)%nat).

Definition marshal_field (f : FieldNode) (v : value) (buf : bytes) (i : nat) : res wire_error (bytes * nat) :=
  match tn_Kind (fn_Type f), v with
  | (TypeInt32 | TypeInt64), VInt z =>
      if z =? 0 then Ok (buf, i)
      else let? buf := put buf i (tagVal f) in writeVarint buf (S i) (u64 z)
  | TypeString, VStr s =>
      if (0 <? length s)%nat then
        let? buf := put buf i (tagVal f) in
        let? (buf, i) := writeVarint buf (S i) (u64 (Z.of_nat (length s))) in
        Ok (copy_at buf i s)
      else Ok (buf, i)
  | _, _ => Ok (buf, i)
  end.

Fixpoint MarshalTo (fields : list FieldNode) (x : message) (buf : bytes) (i : nat)
  : res wire_error (bytes * nat) :=
  match fields, x with
  | f :: fields', v :: x' =>
      let? (buf, i) := marshal_field f v buf i in MarshalTo fields' x' buf i
  | _, _ => Ok (buf, i)
  end.

Definition Marshal (fields : list FieldNode) (x : message) : res wire_error bytes :=
  let buf := replicate (Z.to_nat (ProtoSize fields x)) x00 in
  let? (buf, _) := MarshalTo fields x buf 0 in Ok buf.

(** ** Decoding *)
Fixpoint field_index (fields : list FieldNode) (num : Z) : option (nat * FieldNode) :=
  match fields with
  | [] => None
  | f :: fields' =>
      if fn_ID f =? num then Some (0%nat, f)
      else match field_index fields' num with Some (n, g) => Some (S n, g) | None => None end
  end.

(** [int(length)] added to an index, in 64 bits. *)
Definition advance (iNdEx v : Z) : Z := i64 (iNdEx + i64 v).

Definition unmarshal_known (dAtA : bytes) (f : FieldNode) (wireType iNdEx : Z)
  : res wire_error (option value * Z) :=
  match tn_Kind (fn_Type f) with
  | TypeInt32 | TypeInt64 =>
      if negb (wireType =? 0) then Err (WrongWireType wireType (toCamelCase (fn_Name f)))
      else
        let? (v, iNdEx) := readVarint dAtA iNdEx in
        Ok (Some (VInt (if bool_decide (tn_Kind (fn_Type f) = TypeInt32) then i32 v else i64 v)), iNdEx)
  | TypeString =>
      if negb (wireType =? 2) then Err (WrongWireType wireType (toCamelCase (fn_Name f)))
      else
        let? (stringLen, iNdEx) := readVarint dAtA iNdEx in
        let postIndex := advance iNdEx stringLen in
        if (postIndex <? 0) || (Z.of_nat (length dAtA) <? postIndex) then Err UnexpectedEOF
        else let? s := sub_slice dAtA iNdEx postIndex in Ok (Some (VStr s), postIndex)
  | _ => Ok (None, iNdEx)
  end.

Definition unmarshal_skip (dAtA : bytes) (wireType iNdEx : Z) : res wire_error Z :=
  let? (v, iNdEx) := readVarint dAtA iNdEx in
  if wireType =? 0 then Ok iNdEx
  else if wireType =? 2 then Ok (advance iNdEx v)
  else Err UnhandledWireType.

(** One round of the loop. *)
Definition unmarshal_step (fields : list FieldNode) (dAtA : bytes) (x : message) (iNdEx : Z)
  : res wire_error (message * Z) :=
  let? (i, iNdEx) := readVarint dAtA iNdEx in
  let fieldNum := i32 (Z.shiftr i 3) in
  let wireType := Z.land i 7 in
  if wireType =? 4 then Err EndGroup
  else
    match field_index fields fieldNum with
    | Some (n, f) =>
        let? (v, iNdEx) := unmarshal_known dAtA f wireType iNdEx in
        Ok (match v with Some v => <[n := v]> x | None => x end, iNdEx)
    | None => let? iNdEx := unmarshal_skip dAtA wireType iNdEx in Ok (x, iNdEx)
    end.

Fixpoint unmarshal_loop (fuel : nat) (fields : list FieldNode) (dAtA : bytes) (x : message) (iNdEx : Z)
  : res wire_error message :=
  if Z.of_nat (length dAtA) <=? iNdEx then Ok x
  else
    match fuel with
    | O => Err OutOfFuel
    | S fuel' =>
        let? (x, iNdEx) := unmarshal_step fields dAtA x iNdEx in
        unmarshal_loop fuel' fields dAtA x iNdEx
    end.

(** The zero value of a struct. *)
Definition zero_value (f : FieldNode) : value :=
  match tn_Kind (fn_Type f) with
  | TypeInt32 | TypeInt64 => VInt 0
  | TypeString => VStr []
  | _ => VOther
  end.
Definition Reset (fields : list FieldNode) : message := zero_value <$> fields.

(** As many rounds as bytes: enough for any input whose rounds move forward. *)
Definition Unmarshal (fields : list FieldNode) (x : message) (dAtA : bytes) : res wire_error message :=
  unmarshal_loop (length dAtA) fields dAtA x 0.

(** ** Lazy accessors *)
Fixpoint fast_scan (fuel : nat) (dAtA : bytes) (target iNdEx : Z) : res wire_error (bytes * Z) :=
  if Z.of_nat (length dAtA) <=? iNdEx then Err FieldNotFound
  else
    match fuel with
    | O => Err OutOfFuel
    | S fuel' =>
        let? (i, iNdEx) := readVarint dAtA iNdEx in
        let fieldNum := i32 (Z.shiftr i 3) in
        let wireType := Z.land i 7 in
        if fieldNum =? target then
          if wireType =? 2 then
            let? (len, iNdEx) := readVarint dAtA iNdEx in
            let postIndex := advance iNdEx len in
            if (postIndex <? 0) || (Z.of_nat (length dAtA) <? postIndex) then Err UnexpectedEOF
            else let? s := sub_slice dAtA iNdEx postIndex in Ok (s, wireType)
          else if wireType =? 0 then
            let? (_, iNdEx') := readVarint dAtA iNdEx in
            let? s := sub_slice dAtA iNdEx iNdEx' in Ok (s, wireType)
          else Err UnhandledWireType
        else if wireType =? 0 then
          let? (_, iNdEx) := readVarint dAtA iNdEx in fast_scan fuel' dAtA target iNdEx
        else if wireType =? 2 then
          let? (len, iNdEx) := readVarint dAtA iNdEx in fast_scan fuel' dAtA target (advance iNdEx len)
        else Err UnhandledWireType
    end.
Definition fastScanField (dAtA : bytes) (target : Z) : res wire_error (bytes * Z) :=
  fast_scan (length dAtA) dAtA target 0.

(** The accessor of a field of a struct without maps and oneofs. *)
Definition lazy_get (f : FieldNode) (raw : bytes) : res wire_error value :=
  let? (b, _) := fastScanField raw (fn_ID f) in
  match tn_Kind (fn_Type f) with
  | TypeInt32 => let? (v, _) := readVarint b 0 in Ok (VInt (i32 v))
  | TypeInt64 => let? (v, _) := readVarint b 0 in Ok (VInt (i64 v))
  | TypeString => Ok (VStr b)
  | _ => Err UnsupportedLazy
  end.

(** [Unmarshal] with the state of the message when it returns, also with an error. *)
Fixpoint unmarshal_state (fuel : nat) (fields : list FieldNode) (dAtA : bytes) (x : message) (iNdEx : Z)
  : message * res wire_error unit :=
  if Z.of_nat (length dAtA) <=? iNdEx then (x, Ok tt)
  else
    match fuel with
    | O => (x, Err OutOfFuel)
    | S fuel' =>
        match unmarshal_step fields dAtA x iNdEx with
        | Ok (x, iNdEx) => unmarshal_state fuel' fields dAtA x iNdEx
        | Err e => (x, Err e)
        end
    end.

(** The lazy form of a struct is its bytes or, when the struct has a map or a oneof, what
    [NewLazy] could decode of them; an error of that decoding is dropped, a panic is not. *)
Inductive lazy_struct := LazyRaw (raw : bytes) | LazyDecoded (decoded : message).

Definition NewLazy (str : StructNode) (raw : bytes) : res wire_error lazy_struct :=
  if sn_HasFallback str then
    match unmarshal_state (length raw) (sn_Fields str) raw (Reset (sn_Fields str)) 0 with
    | (_, Err Panic) => Err Panic
    | (_, Err OutOfFuel) => Err OutOfFuel
    | (decoded, _) => Ok (LazyDecoded decoded)
    end
  else Ok (LazyRaw raw).

(** The accessor of the [i]-th field [f]. *)
Definition lazy_accessor (i : nat) (f : FieldNode) (x : lazy_struct) : res wire_error value :=
  match x with
  | LazyRaw raw => lazy_get f raw
  | LazyDecoded decoded => Ok (nth i decoded VOther)
  end.

(** ** The wire format, independently of the buffers *)
Fixpoint varint_bytes (fuel : nat) (v : Z) : bytes :=
  match fuel with
  | O => []
  | S fuel' =>
      if 128 <=? v then byte_of_Z (v mod 128 + 128) :: varint_bytes fuel' (v / 128) else [byte_of_Z v]
  end.
Abbreviation varint := (varint_bytes 10).

Definition encode_field (f : FieldNode) (v : value) : bytes :=
  match tn_Kind (fn_Type f), v with
  | (TypeInt32 | TypeInt64), VInt z => if z =? 0 then [] else byte_of_Z (tagVal f) :: varint (u64 z)
  | TypeString, VStr s =>
      if (0 <? length s)%nat then byte_of_Z (tagVal f) :: varint (u64 (Z.of_nat (length s))) ++ s else []
  | _, _ => []
  end.
Definition encode (fields : list FieldNode) (x : message) : bytes := concat (zip_with encode_field fields x).

(** ** Lemmas: bits *)
Lemma lor_add a b s : 0 <= s -> 0 <= a < 2 ^ s -> Z.lor a (Z.shiftl b s) = a + b * 2 ^ s.
Proof.
  intros Hs Ha. assert (Z.land a (Z.shiftl b s) = 0) as E.
  { apply Z.bits_inj'. intros n Hn. rewrite Z.land_spec, Z.bits_0, Z.shiftl_spec by done.
    destruct (Z.lt_ge_cases n s).
    - rewrite (Z.testbit_neg_r b) by lia. apply andb_false_r.
    - rewrite <- (Z.mod_small a (2 ^ s)) by done. by rewrite Z.mod_pow2_bits_high by lia. }
  rewrite <- Z.lxor_lor by done. rewrite <- Z.add_nocarry_lxor by done. by rewrite Z.shiftl_mul_pow2.
Qed.

Lemma land_127 v : Z.land v 127 = v mod 128.
Proof. change 127 with (Z.ones 7). by rewrite Z.land_ones. Qed.

Lemma byte_cont b :
  Z.land (byte_to_Z b) 127 = byte_to_Z b mod 128 /\ (Z.land (byte_to_Z b) 128 =? 0) = (byte_to_Z b <? 128).
Proof. destruct b; split; reflexivity. Qed.

Lemma cont_byte v : Z.lor (Z.land v 127) 128 = v mod 128 + 128.
Proof.
  rewrite land_127. pose proof (Z.mod_pos_bound v 128 ltac:(lia)).
  change 128 with (Z.shiftl 1 7) at 2. rewrite lor_add by lia. lia.
Qed.

Lemma u8_small z : 0 <= z < 256 -> u8 z = z.
Proof. intros. by apply wrapU_id. Qed.

(** ** Lemmas: varints *)
Lemma varint_pos fuel v : (0 < length (varint_bytes (S fuel) v))%nat.
Proof. cbn. case_match; cbn; lia. Qed.

Lemma put_ok pre h rest b : put (pre ++ h :: rest) (length pre) b = Ok (pre ++ byte_of_Z b :: rest).
Proof.
  unfold put. rewrite (proj2 (Nat.ltb_lt _ _)) by (rewrite length_app; cbn; lia).
  by rewrite insert_app_r_alt, Nat.sub_diag by lia.
Qed.

Lemma write_varint_ok fuel pre hole post v :
  0 <= v < 2 ^ (7 * Z.of_nat fuel) -> (0 < fuel)%nat -> length hole = length (varint_bytes fuel v) ->
  write_varint fuel (pre ++ hole ++ post) (length pre) v
  = Ok (pre ++ varint_bytes fuel v ++ post, (length pre + length (varint_bytes fuel v))%nat).
Proof.
  revert pre hole v. induction fuel as [|fuel IH]; intros pre hole v Hv Hf Hl; [lia|].
  cbn [write_varint varint_bytes] in *. destruct (Z.leb_spec 128 v) as [Hv'|Hv'].
  - destruct hole as [|h hole]; [done|]. cbn [app length] in *. rewrite put_ok. cbn [res_bind].
    rewrite cont_byte. rewrite Z.shiftr_div_pow2 by lia. change (2 ^ 7) with 128.
    assert (0 < fuel)%nat. { destruct fuel; [|lia]. change (7 * Z.of_nat 1) with 7 in Hv. lia. }
    specialize (IH (pre ++ [byte_of_Z (v mod 128 + 128)]) hole (v / 128)).
    rewrite <- app_assoc, length_app in IH. cbn [app length] in IH.
    replace (length pre + 1)%nat with (S (length pre)) in IH by lia. rewrite IH; [|..|lia].
    + rewrite <- app_assoc. cbn. do 2 f_equal. lia.
    + split; [apply Z.div_pos; lia|]. apply Z.div_lt_upper_bound; [lia|].
      replace (7 * Z.of_nat (S fuel)) with (7 + 7 * Z.of_nat fuel) in Hv by lia.
      rewrite Z.pow_add_r in Hv by lia. lia.
    + done.
  - destruct hole as [|h [|? hole]]; try done. cbn [app]. rewrite put_ok. cbn [res_bind length]. do 2 f_equal. lia.
Qed.

Lemma read_varint_ok fuel v post off shift acc :
  0 <= v < 2 ^ (7 * Z.of_nat fuel) -> (0 < fuel)%nat -> 0 <= shift -> 0 <= acc < 2 ^ shift -> v * 2 ^ shift < 2 ^ 64 ->
  read_varint (varint_bytes fuel v ++ post) off shift acc
  = Ok (acc + v * 2 ^ shift, off + Z.of_nat (length (varint_bytes fuel v))).
Proof.
  revert v off shift acc. induction fuel as [|fuel IH]; intros v off shift acc Hv Hf Hs Ha Hb; [lia|].
  assert (Hp : 0 < 2 ^ shift) by (apply Z.pow_pos_nonneg; lia).
  assert (Hstep : forall d, 0 <= d <= v -> Z.lor acc (u64 (Z.shiftl d shift)) = acc + d * 2 ^ shift).
  { intros d Hd. rewrite wrapU_id; [by apply lor_add|]. rewrite Z.shiftl_mul_pow2 by lia. split; nia. }
  cbn [varint_bytes]. destruct (Z.leb_spec 128 v) as [Hv'|Hv']; cbn [app read_varint].
  - pose proof (Z.mod_pos_bound v 128 ltac:(lia)) as Hm. pose proof (Z.div_mod v 128 ltac:(lia)) as Hdm.
    destruct (byte_cont (byte_of_Z (v mod 128 + 128))) as [-> ->]. rewrite byte_to_of_Z, u8_small by lia.
    rewrite (proj2 (Z.ltb_ge _ _)) by lia.
    replace ((v mod 128 + 128) mod 128) with (v mod 128)
      by (apply (Z.mod_unique_pos _ _ 1); lia).
    assert (0 < fuel)%nat. { destruct fuel; [|lia]. change (7 * Z.of_nat 1) with 7 in Hv. lia. }
    rewrite Hstep by lia. rewrite IH; [|..].
    + f_equal. f_equal; [|cbn [length]; lia]. rewrite Z.pow_add_r by lia. change (2 ^ 7) with 128. nia.
    + split; [apply Z.div_pos; lia|]. apply Z.div_lt_upper_bound; [lia|].
      replace (7 * Z.of_nat (S fuel)) with (7 + 7 * Z.of_nat fuel) in Hv by lia.
      rewrite Z.pow_add_r in Hv by lia. lia.
    + done.
    + lia.
    + rewrite Z.pow_add_r by lia. change (2 ^ 7) with 128. nia.
    + rewrite Z.pow_add_r by lia. change (2 ^ 7) with 128. nia.
  - destruct (byte_cont (byte_of_Z v)) as [-> ->]. rewrite byte_to_of_Z, u8_small by lia.
    rewrite (proj2 (Z.ltb_lt _ _)) by lia. rewrite Z.mod_small by lia. rewrite Hstep by lia. cbn. f_equal.
Qed.

Lemma u64_fits v : 0 <= u64 v < 2 ^ (7 * Z.of_nat 10).
Proof. pose proof (wrapU_range 64 v ltac:(lia)) as H. unfold in_u in H. change (2 ^ 64) with 18446744073709551616 in H. cbn. lia. Qed.

Lemma readVarint_ok pre v post :
  in_u 64 v ->
  readVarint (pre ++ varint v ++ post) (Z.of_nat (length pre)) = Ok (v, Z.of_nat (length pre + length (varint v))).
Proof.
  intros Hv. unfold readVarint. pose proof (varint_pos 9 v).
  rewrite (proj2 (Z.leb_gt _ _)) by (rewrite !length_app; lia). rewrite (proj2 (Z.ltb_ge _ _)) by lia.
  rewrite Nat2Z.id, drop_app_length. rewrite read_varint_ok; [|..].
  - do 2 f_equal; lia.
  - rewrite <- (wrapU_id 64 v) by done. apply u64_fits.
  - lia.
  - lia.
  - cbn. lia.
  - unfold in_u in Hv. lia.
Qed.

Lemma size_varint_length fuel v : 0 < v < 2 ^ (7 * Z.of_nat fuel) -> size_varint fuel v = Z.of_nat (length (varint_bytes fuel v)).
Proof.
  revert v. induction fuel as [|fuel IH]; intros v Hv; [cbn in Hv; lia|].
  cbn [size_varint varint_bytes]. rewrite (proj2 (Z.ltb_lt 0 v)) by lia. rewrite Z.shiftr_div_pow2 by lia. change (2 ^ 7) with 128.
  destruct (Z.leb_spec 128 v) as [Hv'|Hv'].
  - cbn [length]. rewrite IH; [lia|]. split; [apply Z.div_str_pos; lia|]. apply Z.div_lt_upper_bound; [lia|].
    replace (7 * Z.of_nat (S fuel)) with (7 + 7 * Z.of_nat fuel) in Hv by lia.
    rewrite Z.pow_add_r in Hv by lia. lia.
  - rewrite Z.div_small by lia. destruct fuel; cbn; lia.
Qed.

Lemma sizeOfVarint_length v : sizeOfVarint (u64 v) = Z.of_nat (length (varint (u64 v))).
Proof.
  unfold sizeOfVarint. pose proof (u64_fits v). destruct (Z.eqb_spec (u64 v) 0) as [->|]; [reflexivity|].
  apply size_varint_length. lia.
Qed.

(** ** Lemmas: encoding fills the buffer exactly *)
Lemma copy_at_ok pre hole post s :
  length hole = length s -> copy_at (pre ++ hole ++ post) (length pre) s = (pre ++ s ++ post, (length pre + length s)%nat).
Proof.
  intros Hl. unfold copy_at. rewrite !length_app.
  replace (Nat.min (length s) (length pre + (length hole + length post) - length pre)) with (length s) by lia.
  rewrite take_app_length, firstn_all. f_equal.
  rewrite <- Hl, (app_assoc pre hole), <- length_app, drop_app_length. done.
Qed.

Lemma writeVarint_ok pre hole post v :
  length hole = length (varint (u64 v)) ->
  writeVarint (pre ++ hole ++ post) (length pre) (u64 v)
  = Ok (pre ++ varint (u64 v) ++ post, (length pre + length (varint (u64 v)))%nat).
Proof. intros. apply write_varint_ok; [apply u64_fits|lia|done]. Qed.

(** The same, one byte further: after the tag. *)
Lemma writeVarint_tag pre t hole post v :
  length hole = length (varint (u64 v)) ->
  writeVarint (pre ++ t :: hole ++ post) (S (length pre)) (u64 v)
  = Ok (pre ++ t :: varint (u64 v) ++ post, S (length pre + length (varint (u64 v)))).
Proof.
  intros Hl. pose proof (writeVarint_ok (pre ++ [t]) hole post v Hl) as H.
  rewrite <- !app_assoc, length_app in H. cbn [app length] in H.
  replace (length pre + 1)%nat with (S (length pre)) in H by lia. by rewrite H.
Qed.

Lemma split_hole {A} n m (hole : list A) :
  length hole = (n + m)%nat -> exists h1 h2, hole = h1 ++ h2 /\ length h1 = n /\ length h2 = m.
Proof.
  intros Hl. exists (take n hole), (drop n hole). rewrite take_drop, length_take, length_drop. split; [done|lia].
Qed.

Lemma marshal_int f z pre hole post :
  is_Some (match tn_Kind (fn_Type f) with TypeInt32 | TypeInt64 => Some tt | _ => None end) ->
  length hole = length (encode_field f (VInt z)) ->
  marshal_field f (VInt z) (pre ++ hole ++ post) (length pre)
  = Ok (pre ++ encode_field f (VInt z) ++ post, (length pre + length (encode_field f (VInt z)))%nat).
Proof.
  intros [[] Hk] Hl. assert (Hm : forall b i, marshal_field f (VInt z) b i =
    if z =? 0 then Ok (b, i) else let? b := put b i (tagVal f) in writeVarint b (S i) (u64 z))
    by (intros; unfold marshal_field; destruct (tn_Kind (fn_Type f)); done).
  assert (He : encode_field f (VInt z) = if z =? 0 then [] else byte_of_Z (tagVal f) :: varint (u64 z))
    by (unfold encode_field; destruct (tn_Kind (fn_Type f)); done).
  rewrite Hm, He in *. destruct (z =? 0).
  - destruct hole; [|done]. cbn. by rewrite Nat.add_0_r.
  - destruct hole as [|h hole]; [done|]. cbn [length app] in Hl |- *. rewrite put_ok. cbn [res_bind].
    rewrite writeVarint_tag by lia. do 2 f_equal. lia.
Qed.

Lemma marshal_string f s pre hole post :
  tn_Kind (fn_Type f) = TypeString ->
  length hole = length (encode_field f (VStr s)) ->
  marshal_field f (VStr s) (pre ++ hole ++ post) (length pre)
  = Ok (pre ++ encode_field f (VStr s) ++ post, (length pre + length (encode_field f (VStr s)))%nat).
Proof.
  intros Hk Hl. unfold marshal_field, encode_field in *. rewrite Hk in *. destruct (0 <? length s)%nat.
  - destruct hole as [|h hole]; [done|]. cbn [length app] in Hl |- *. rewrite length_app in Hl.
    apply Nat.succ_inj, split_hole in Hl as (h1 & h2 & -> & Hl1 & Hl2).
    rewrite put_ok. cbn [res_bind]. rewrite <- app_assoc, writeVarint_tag by done. cbn [res_bind].
    set (vs := varint (u64 (Z.of_nat (length s)))) in *.
    pose proof (copy_at_ok (pre ++ byte_of_Z (tagVal f) :: vs) h2 post s Hl2) as Hc.
    rewrite <- !app_assoc, length_app in Hc. cbn [app length] in Hc.
    replace (length pre + S (length vs))%nat with (S (length pre + length vs)) in Hc by lia.
    rewrite Hc. rewrite length_app, <- ?app_assoc. do 2 f_equal. lia.
  - destruct hole; [|done]. cbn. by rewrite Nat.add_0_r.
Qed.

Lemma marshal_field_ok f v pre hole post :
  length hole = length (encode_field f v) ->
  marshal_field f v (pre ++ hole ++ post) (length pre)
  = Ok (pre ++ encode_field f v ++ post, (length pre + length (encode_field f v))%nat).
Proof.
  intros Hl. destruct (tn_Kind (fn_Type f)) eqn:Ek, v as [z|s|];
    try (apply marshal_int; [rewrite Ek; by eexists|done]); try (by apply marshal_string);
    unfold marshal_field, encode_field in *; rewrite Ek in *; (destruct hole; [|done]); cbn; by rewrite Nat.add_0_r.
Qed.

Lemma MarshalTo_ok fields x pre hole post :
  length hole = length (encode fields x) ->
  MarshalTo fields x (pre ++ hole ++ post) (length pre)
  = Ok (pre ++ encode fields x ++ post, (length pre + length (encode fields x))%nat).
Proof.
  unfold encode. revert x pre hole. induction fields as [|f fields IH]; intros x pre hole Hl;
    [|destruct x as [|v x]]; cbn [zip_with concat MarshalTo] in *;
    try (destruct hole; [|done]; cbn; by rewrite Nat.add_0_r).
  rewrite length_app in Hl. apply split_hole in Hl as (h1 & h2 & -> & Hl1 & Hl2).
  rewrite <- app_assoc, marshal_field_ok by done. cbn [res_bind].
  pose proof (IH x (pre ++ encode_field f v) h2 Hl2) as H. rewrite length_app in H.
  rewrite <- !app_assoc in H. rewrite H. rewrite length_app, <- ?app_assoc. do 2 f_equal. lia.
Qed.

Lemma field_size_length f v : field_size f v = Z.of_nat (length (encode_field f v)).
Proof.
  unfold field_size, encode_field. destruct (tn_Kind (fn_Type f)), v as [z|s|]; try done;
    try (destruct (z =? 0); [done|]; cbn [length]; rewrite sizeOfVarint_length; lia).
  destruct (Z.ltb_spec 0 (Z.of_nat (length s))).
  - rewrite (proj2 (Nat.ltb_lt 0 (length s))) by lia. cbn [length]. rewrite length_app, sizeOfVarint_length. lia.
  - by rewrite (proj2 (Nat.ltb_ge 0 (length s))) by lia.
Qed.

Lemma ProtoSize_length fields x : ProtoSize fields x = Z.of_nat (length (encode fields x)).
Proof.
  unfold ProtoSize, encode. revert x. induction fields as [|f fields IH]; intros x; [done|]. destruct x as [|v x]; [done|].
  cbn [zip_with foldr concat]. rewrite IH, length_app, field_size_length. lia.
Qed.

Lemma Marshal_encode fields x : Marshal fields x = Ok (encode fields x).
Proof.
  unfold Marshal. rewrite ProtoSize_length, Nat2Z.id.
  pose proof (MarshalTo_ok fields x [] (replicate (length (encode fields x)) x00) []) as H.
  rewrite !app_nil_r in H. cbn [app length] in H. rewrite H by apply length_replicate. done.
Qed.

(** ** Lemmas: decoding *)

(** Messages the codec is made for: distinct field numbers from 1 to 15 and values of
    their field's type. *)
Definition value_fits (f : FieldNode) (v : value) : Prop :=
  match tn_Kind (fn_Type f), v with
  | TypeInt32, VInt z => in_s 32 z
  | TypeInt64, VInt z => in_s 64 z
  | TypeString, VStr _ => True
  | (TypeInt32 | TypeInt64 | TypeString), _ => False
  | _, v => v = VOther
  end.
Definition wf_fields (fields : list FieldNode) : Prop :=
  NoDup (fn_ID <$> fields) /\ Forall (fun f => 1 <= fn_ID f <= 15) fields.

Definition wire_type (f : FieldNode) : Z :=
  match tn_Kind (fn_Type f) with TypeString | TypeBinary => 2 | _ => 0 end.

Lemma tag_value f : 1 <= fn_ID f <= 15 ->
  tagVal f = fn_ID f * 8 + wire_type f /\ 0 <= tagVal f < 128 /\
  i32 (Z.shiftr (tagVal f) 3) = fn_ID f /\ Z.land (tagVal f) 7 = wire_type f.
Proof.
  intros Hid. unfold tagVal. fold (wire_type f).
  assert (Hw : wire_type f = 0 \/ wire_type f = 2) by (unfold wire_type; destruct (tn_Kind (fn_Type f)); auto).
  assert (Hn : exists n : nat, fn_ID f = Z.of_nat n /\ (n <= 15)%nat) by (exists (Z.to_nat (fn_ID f)); lia).
  destruct Hn as (n & -> & Hn). do 16 (destruct n as [|n]; [destruct Hw as [-> | ->]; vm_compute; split_and!; done|]). lia.
Qed.

Lemma tag_varint f : 1 <= fn_ID f <= 15 -> varint (tagVal f) = [byte_of_Z (tagVal f)].
Proof. intros (_ & Ht & _)%tag_value. cbn [varint_bytes]. by rewrite (proj2 (Z.leb_gt 128 _)) by lia. Qed.

Lemma read_tag f pre rest :
  1 <= fn_ID f <= 15 ->
  readVarint (pre ++ byte_of_Z (tagVal f) :: rest) (Z.of_nat (length pre)) = Ok (tagVal f, Z.of_nat (S (length pre))).
Proof.
  intros Hid. pose proof (readVarint_ok pre (tagVal f) rest) as H. rewrite tag_varint in H by done. cbn [app length] in H.
  rewrite H; [do 2 f_equal; lia|]. destruct (tag_value f Hid) as (_ & Ht & _). split; [lia|].
  change (2 ^ 64) with 18446744073709551616. lia.
Qed.

Lemma readVarint_after pre t v rest :
  readVarint (pre ++ t :: varint (u64 v) ++ rest) (Z.of_nat (S (length pre)))
  = Ok (u64 v, Z.of_nat (S (length pre) + length (varint (u64 v)))).
Proof.
  pose proof (readVarint_ok (pre ++ [t]) (u64 v) rest (wrapU_range 64 v ltac:(lia))) as H.
  rewrite <- app_assoc, length_app in H. cbn [app length] in H.
  by replace (length pre + 1)%nat with (S (length pre)) in H by lia.
Qed.

Lemma wrapS_wrapU64 w z : 0 < w <= 64 -> wrapS w (u64 z) = wrapS w z.
Proof.
  intros Hw. unfold wrapS, wrapU. f_equal.
  rewrite Z.add_mod, (Z.add_mod z) by (apply Z.pow_nonzero; lia). do 2 f_equal.
  apply Z.mod_mod_divide.
  exists (2 ^ (64 - w)). rewrite <- Z.pow_add_r by lia. f_equal. lia.
Qed.

Lemma sub_slice_ok pre s post :
  sub_slice (pre ++ s ++ post) (Z.of_nat (length pre)) (Z.of_nat (length pre + length s)) = Ok s.
Proof.
  unfold sub_slice. rewrite !length_app.
  repeat (rewrite (proj2 (Z.leb_le _ _)) by lia). cbn [andb]. f_equal.
  rewrite Nat2Z.id, drop_app_length. replace (Z.to_nat _) with (length s) by lia. apply take_app_length.
Qed.

Lemma advance_ok n v : (n + v <= 2 ^ 63 - 1)%Z -> 0 <= n -> 0 <= v -> advance n (u64 v) = n + v.
Proof.
  intros. assert (in_s 64 v) by (words; lia). assert (in_s 64 (n + v)) by (words; lia).
  unfold advance. rewrite wrapS_wrapU64 by lia. rewrite (wrapS_id 64 v) by (lia || done). by apply wrapS_id.
Qed.

(** The rest of a string field, after its tag. *)
Lemma read_string pre t s post :
  Z.of_nat (length (pre ++ t :: varint (u64 (Z.of_nat (length s))) ++ s ++ post)) < 2 ^ 63 ->
  let dAtA := pre ++ t :: varint (u64 (Z.of_nat (length s))) ++ s ++ post in
  let at_ := Z.of_nat (S (length pre) + length (varint (u64 (Z.of_nat (length s))))) in
  readVarint dAtA (Z.of_nat (S (length pre))) = Ok (u64 (Z.of_nat (length s)), at_) /\
  advance at_ (u64 (Z.of_nat (length s))) = at_ + Z.of_nat (length s) /\
  ((at_ + Z.of_nat (length s) <? 0) || (Z.of_nat (length dAtA) <? at_ + Z.of_nat (length s)) = false) /\
  sub_slice dAtA at_ (at_ + Z.of_nat (length s)) = Ok s.
Proof.
  intros Hl. cbn zeta. rewrite !length_app in *. cbn [length] in *. rewrite !length_app in *.
  split_and!.
  - apply readVarint_after.
  - apply advance_ok; lia.
  - rewrite orb_false_iff. split; apply Z.ltb_ge; lia.
  - set (vs := varint (u64 (Z.of_nat (length s)))) in *.
    pose proof (sub_slice_ok (pre ++ t :: vs) s post) as H. rewrite <- app_assoc, length_app in H. cbn [app length] in H.
    rewrite <- H. f_equal; lia.
Qed.

(** A field that was written is read back, whatever is around it. *)
Lemma unmarshal_known_ok f v pre post :
  1 <= fn_ID f <= 15 -> value_fits f v -> encode_field f v <> [] ->
  Z.of_nat (length (pre ++ encode_field f v ++ post)) < 2 ^ 63 ->
  unmarshal_known (pre ++ encode_field f v ++ post) f (wire_type f) (Z.of_nat (S (length pre)))
  = Ok (Some v, Z.of_nat (length pre + length (encode_field f v))).
Proof.
  intros Hid Hfit Hne Hlen. unfold unmarshal_known, wire_type, value_fits, encode_field in *.
  destruct (tn_Kind (fn_Type f)) eqn:Ek, v as [z|s|]; try done;
    try (destruct (z =? 0); [done|]; cbn [app negb Z.eqb]; rewrite readVarint_after; cbn [res_bind length];
         rewrite ?bool_decide_true, ?bool_decide_false by done; rewrite wrapS_wrapU64, wrapS_id by (lia || done);
         do 2 f_equal; lia).
  destruct (Nat.ltb_spec 0 (length s)); [|done]. cbn [app negb Z.eqb] in *. rewrite <- app_assoc in *.
  destruct (read_string _ _ _ _ Hlen) as (Hr & Ha & Hb & Hs). cbn zeta in *.
  change (2 =? 2) with true. cbn [negb]. rewrite Hr. cbn [res_bind]. rewrite Ha, Hb, Hs. cbn [res_bind length].
  rewrite length_app. do 2 f_equal. lia.
Qed.

Lemma encode_field_tag f v : encode_field f v <> [] -> exists rest, encode_field f v = byte_of_Z (tagVal f) :: rest.
Proof.
  unfold encode_field. destruct (tn_Kind (fn_Type f)), v as [z|s|]; try done;
    try (destruct (z =? 0); [done|]; eauto). destruct (0 <? length s)%nat; [eauto|done].
Qed.

Lemma unmarshal_step_ok fields n f v x pre post :
  field_index fields (fn_ID f) = Some (n, f) -> 1 <= fn_ID f <= 15 -> value_fits f v -> encode_field f v <> [] ->
  Z.of_nat (length (pre ++ encode_field f v ++ post)) < 2 ^ 63 ->
  unmarshal_step fields (pre ++ encode_field f v ++ post) x (Z.of_nat (length pre))
  = Ok (<[n := v]> x, Z.of_nat (length pre + length (encode_field f v))).
Proof.
  intros Hix Hid Hfit Hne Hlen. pose proof (unmarshal_known_ok f v pre post Hid Hfit Hne Hlen) as Hk.
  destruct (encode_field_tag f v Hne) as [rest Hr].
  unfold unmarshal_step. rewrite Hr in *. cbn [app] in *. rewrite read_tag by done. cbn [res_bind].
  destruct (tag_value f Hid) as (_ & _ & -> & ->).
  assert ((wire_type f =? 4) = false) as -> by (unfold wire_type; destruct (tn_Kind (fn_Type f)); done).
  rewrite Hix, Hk. done.
Qed.

Lemma field_index_ok fs1 f fs2 :
  NoDup (fn_ID <$> (fs1 ++ f :: fs2)) -> field_index (fs1 ++ f :: fs2) (fn_ID f) = Some (length fs1, f).
Proof.
  induction fs1 as [|g fs1 IH]; cbn; intros Hnd; [by rewrite Z.eqb_refl|].
  apply NoDup_cons in Hnd as [Hg Hnd]. rewrite (proj2 (Z.eqb_neq _ _)); [by rewrite IH|].
  intros E. apply Hg. rewrite E, fmap_app. set_solver.
Qed.

(** A value that is not written is the zero value. *)
Lemma encode_nil_zero f v : value_fits f v -> encode_field f v = [] -> v = zero_value f.
Proof.
  unfold value_fits, encode_field, zero_value. destruct (tn_Kind (fn_Type f)), v as [z|s|]; try done;
    try (destruct (Z.eqb_spec z 0) as [->|]; done).
  intros _. destruct s; [done|]. cbn. done.
Qed.

Lemma encode_snoc fs f x v : length fs = length x -> encode (fs ++ [f]) (x ++ [v]) = encode fs x ++ encode_field f v.
Proof.
  intros Hl. unfold encode. rewrite zip_with_app by done. rewrite concat_app. cbn. by rewrite app_nil_r.
Qed.

Lemma unmarshal_loop_ok fuel fs1 fs2 x1 x2 :
  wf_fields (fs1 ++ fs2) -> Forall2 value_fits fs1 x1 -> Forall2 value_fits fs2 x2 ->
  (length (encode fs2 x2) <= fuel)%nat ->
  Z.of_nat (length (encode fs1 x1 ++ encode fs2 x2)) < 2 ^ 63 ->
  unmarshal_loop fuel (fs1 ++ fs2) (encode fs1 x1 ++ encode fs2 x2) (x1 ++ Reset fs2) (Z.of_nat (length (encode fs1 x1)))
  = Ok (x1 ++ x2).
Proof.
  revert fuel fs1 x1 x2. induction fs2 as [|f fs2 IH]; intros fuel fs1 x1 x2 Hwf H1 H2 Hfuel Hlen.
  { apply Forall2_nil_inv_l in H2 as ->. destruct fuel; cbn; rewrite app_nil_r, (proj2 (Z.leb_le _ _)) by lia; done. }
  apply Forall2_cons_inv_l in H2 as (v & x2' & Hv & H2 & ->). rename x2' into x2.
  assert (Henc : encode (f :: fs2) (v :: x2) = encode_field f v ++ encode fs2 x2) by done.
  assert (Hsnoc : encode (fs1 ++ [f]) (x1 ++ [v]) = encode fs1 x1 ++ encode_field f v).
  { apply encode_snoc. by eapply Forall2_length. }
  rewrite Henc in *. specialize (IH fuel (fs1 ++ [f]) (x1 ++ [v]) x2) as IHf.
  destruct (decide (encode_field f v = [])) as [Enil|Hne].
  - rewrite Hsnoc, Enil, app_nil_r in IHf. rewrite Enil in *. cbn [app] in *.
    rewrite <- !app_assoc in IHf. cbn [app] in IHf.
    change (Reset (f :: fs2)) with (zero_value f :: Reset fs2). rewrite <- (encode_nil_zero f v Hv Enil).
    apply IHf; [done| |done|done|done]. apply Forall2_app; [done|]. by repeat constructor.
  - clear IHf. destruct (encode_field_tag f v Hne) as [r Hr].
    destruct fuel as [|fuel]; [rewrite Hr in Hfuel; cbn in Hfuel; lia|].
    cbn [unmarshal_loop]. rewrite (proj2 (Z.leb_gt _ _)) by (rewrite !length_app, Hr; cbn; lia).
    destruct Hwf as [Hnd Hids]. assert (Hid : 1 <= fn_ID f <= 15).
    { rewrite Forall_app, Forall_cons in Hids. tauto. }
    rewrite (unmarshal_step_ok _ (length fs1) f v); [|by apply field_index_ok|done|done|done|done].
    cbn [res_bind]. change (Reset (f :: fs2)) with (zero_value f :: Reset fs2).
    rewrite (Forall2_length _ _ _ H1), insert_app_r_alt, Nat.sub_diag by lia. cbn [list_insert insert].
    specialize (IH fuel (fs1 ++ [f]) (x1 ++ [v]) x2).
    rewrite Hsnoc, <- !app_assoc in IH. cbn [app] in IH. rewrite <- length_app.
    apply IH; [done| |done| |done].
    + apply Forall2_app; [done|]. constructor; [done|constructor].
    + rewrite length_app, Hr in Hfuel. cbn in Hfuel. lia.
Qed.

(** *** Scanning *)

(** The scan skips a written field with another number. *)
Lemma fast_scan_skip fuel f v pre post target :
  1 <= fn_ID f <= 15 -> value_fits f v -> encode_field f v <> [] -> fn_ID f <> target ->
  Z.of_nat (length (pre ++ encode_field f v ++ post)) < 2 ^ 63 ->
  fast_scan (S fuel) (pre ++ encode_field f v ++ post) target (Z.of_nat (length pre))
  = fast_scan fuel (pre ++ encode_field f v ++ post) target (Z.of_nat (length pre + length (encode_field f v))).
Proof.
  intros Hid Hfit Hne Hnt Hlen. destruct (encode_field_tag f v Hne) as [r Hr].
  destruct (tag_value f Hid) as (_ & _ & Hf & Hw).
  cbn [fast_scan]. rewrite (proj2 (Z.leb_gt _ _)) by (rewrite !length_app, Hr; cbn; lia).
  assert (Htag : readVarint (pre ++ encode_field f v ++ post) (Z.of_nat (length pre)) = Ok (tagVal f, Z.of_nat (S (length pre))))
    by (rewrite Hr; by apply read_tag).
  rewrite Htag. cbn [res_bind]. rewrite Hf, Hw. rewrite (proj2 (Z.eqb_neq _ _)) by done. clear Hr Htag Hf Hw.
  unfold wire_type, value_fits, encode_field in *.
  destruct (tn_Kind (fn_Type f)) eqn:Ek, v as [z|s|]; try done;
    try (destruct (z =? 0); [done|]; cbn [app Z.eqb]; rewrite readVarint_after; cbn [res_bind length]; f_equal; lia).
  destruct (Nat.ltb_spec 0 (length s)); [|done]. cbn [app Z.eqb] in *. rewrite <- app_assoc in *.
  destruct (read_string _ _ _ _ Hlen) as (Hr & Ha & _ & _). cbn zeta in *.
  change (2 =? 0) with false. change (2 =? 2) with true. cbn iota. rewrite Hr. cbn [res_bind]. rewrite Ha.
  cbn [length]. rewrite length_app. f_equal. lia.
Qed.

(** At the field itself, the lazy accessor reads the value. *)
Lemma lazy_hit f v pre post fuel :
  1 <= fn_ID f <= 15 -> value_fits f v -> encode_field f v <> [] ->
  Z.of_nat (length (pre ++ encode_field f v ++ post)) < 2 ^ 63 ->
  exists b w, fast_scan (S fuel) (pre ++ encode_field f v ++ post) (fn_ID f) (Z.of_nat (length pre)) = Ok (b, w) /\
    match tn_Kind (fn_Type f) with
    | TypeInt32 => let? (v, _) := readVarint b 0 in Ok (VInt (i32 v))
    | TypeInt64 => let? (v, _) := readVarint b 0 in Ok (VInt (i64 v))
    | TypeString => Ok (VStr b)
    | _ => Err UnsupportedLazy
    end = Ok v.
Proof.
  intros Hid Hfit Hne Hlen. destruct (encode_field_tag f v Hne) as [r Hr].
  destruct (tag_value f Hid) as (_ & _ & Hf & Hw).
  cbn [fast_scan]. rewrite (proj2 (Z.leb_gt _ _)) by (rewrite !length_app, Hr; cbn; lia).
  assert (Htag : readVarint (pre ++ encode_field f v ++ post) (Z.of_nat (length pre)) = Ok (tagVal f, Z.of_nat (S (length pre))))
    by (rewrite Hr; by apply read_tag).
  rewrite Htag. cbn [res_bind]. rewrite Hf, Hw, Z.eqb_refl. clear Hr Htag Hf Hw.
  assert (Hint : forall z, exists b w,
    (let? (_, iNdEx') := readVarint (pre ++ byte_of_Z (tagVal f) :: varint (u64 z) ++ post) (Z.of_nat (S (length pre))) in
     let? s := sub_slice (pre ++ byte_of_Z (tagVal f) :: varint (u64 z) ++ post) (Z.of_nat (S (length pre))) iNdEx' in
     Ok (s, 0)) = Ok (b, w) /\ readVarint b 0 = Ok (u64 z, Z.of_nat (length (varint (u64 z))))).
  { intros z. exists (varint (u64 z)), 0. rewrite readVarint_after. cbn [res_bind].
    pose proof (sub_slice_ok (pre ++ [byte_of_Z (tagVal f)]) (varint (u64 z)) post) as Hs.
    rewrite <- app_assoc, length_app in Hs. cbn [app length] in Hs.
    replace (length pre + 1)%nat with (S (length pre)) in Hs by lia. rewrite Hs. split; [done|].
    pose proof (readVarint_ok [] (u64 z) [] (wrapU_range 64 z ltac:(lia))) as Hv. by rewrite app_nil_r in Hv. }
  unfold wire_type, value_fits, encode_field in *.
  destruct (tn_Kind (fn_Type f)) eqn:Ek, v as [z|s|]; try done;
    try (destruct (z =? 0); [done|]; cbn [app Z.eqb]; destruct (Hint z) as (b & w & -> & Hb); exists b, w;
         split; [done|]; rewrite Hb; cbn [res_bind]; rewrite wrapS_wrapU64, wrapS_id by (lia || done); done).
  destruct (Nat.ltb_spec 0 (length s)); [|done]. cbn [app Z.eqb] in *. rewrite <- app_assoc in *.
  destruct (read_string _ _ _ _ Hlen) as (Hr & Ha & Hb & Hs). cbn zeta in *.
  change (2 =? 2) with true. cbn iota. rewrite Hr. cbn [res_bind]. rewrite Ha, Hb, Hs. cbn [res_bind]. eauto.
Qed.

Lemma fast_scan_end fuel dAtA target iNdEx : Z.of_nat (length dAtA) <= iNdEx -> fast_scan fuel dAtA target iNdEx = Err FieldNotFound.
Proof. intros H. destruct fuel; cbn; by rewrite (proj2 (Z.leb_le _ _)). Qed.

Lemma encode_cons f fs v x : encode (f :: fs) (v :: x) = encode_field f v ++ encode fs x.
Proof. done. Qed.


(** The scan either stops at a written field with the target number or finds none. *)
Lemma scan_fields fuel fs1 x1 fs2 x2 t :
  Forall (fun f => 1 <= fn_ID f <= 15) fs2 -> length fs1 = length x1 -> Forall2 value_fits fs2 x2 ->
  (length (encode fs2 x2) <= fuel)%nat -> Z.of_nat (length (encode fs1 x1 ++ encode fs2 x2)) < 2 ^ 63 ->
  let all := encode fs1 x1 ++ encode fs2 x2 in
  (exists i f v pre post fuel', fs2 !! i = Some f /\ x2 !! i = Some v /\ fn_ID f = t /\ encode_field f v <> [] /\
     all = pre ++ encode_field f v ++ post /\
     fast_scan fuel all t (Z.of_nat (length (encode fs1 x1))) = fast_scan (S fuel') all t (Z.of_nat (length pre))) \/
  (fast_scan fuel all t (Z.of_nat (length (encode fs1 x1))) = Err FieldNotFound /\
   forall i f v, fs2 !! i = Some f -> x2 !! i = Some v -> fn_ID f = t -> encode_field f v = []).
Proof.
  revert fuel fs1 x1 x2. induction fs2 as [|f fs2 IH]; intros fuel fs1 x1 x2 Hids Hl1 H2 Hfuel Hlen; cbn zeta.
  { right. apply Forall2_nil_inv_l in H2 as ->. split; [|done].
    apply fast_scan_end. rewrite length_app. cbn. lia. }
  apply Forall2_cons_inv_l in H2 as (v & x2' & Hv & H2 & ->). rename x2' into x2.
  apply Forall_cons in Hids as [Hid Hids]. rewrite encode_cons in *.
  assert (Hl1' : length (fs1 ++ [f]) = length (x1 ++ [v])) by (rewrite !length_app; cbn; lia).
  pose proof (encode_snoc fs1 f x1 v Hl1) as Hsnoc.
  assert (Hnext : forall fuel', (length (encode fs2 x2) <= fuel')%nat ->
    (fn_ID f = t -> encode_field f v = []) ->
    fast_scan fuel (encode fs1 x1 ++ encode_field f v ++ encode fs2 x2) t (Z.of_nat (length (encode fs1 x1)))
    = fast_scan fuel' (encode fs1 x1 ++ encode_field f v ++ encode fs2 x2) t
        (Z.of_nat (length (encode fs1 x1 ++ encode_field f v))) ->
    (exists i f' v' pre post fuel'', (f :: fs2) !! i = Some f' /\ (v :: x2) !! i = Some v' /\ fn_ID f' = t /\
       encode_field f' v' <> [] /\ encode fs1 x1 ++ encode_field f v ++ encode fs2 x2 = pre ++ encode_field f' v' ++ post /\
       fast_scan fuel (encode fs1 x1 ++ encode_field f v ++ encode fs2 x2) t (Z.of_nat (length (encode fs1 x1)))
       = fast_scan (S fuel'') (encode fs1 x1 ++ encode_field f v ++ encode fs2 x2) t (Z.of_nat (length pre))) \/
    (fast_scan fuel (encode fs1 x1 ++ encode_field f v ++ encode fs2 x2) t (Z.of_nat (length (encode fs1 x1)))
       = Err FieldNotFound /\
     forall i f' v', (f :: fs2) !! i = Some f' -> (v :: x2) !! i = Some v' -> fn_ID f' = t -> encode_field f' v' = [])).
  { intros fuel' Hf' Hhere ->. specialize (IH fuel' (fs1 ++ [f]) (x1 ++ [v]) x2 Hids Hl1' H2 Hf').
    rewrite Hsnoc, <- app_assoc in IH. destruct (IH Hlen) as [(i & f' & v' & pre & post & n & ? & ? & ?)|[Hnf Hall]].
    - left. exists (S i), f', v', pre, post, n. done.
    - right. split; [done|]. intros [|i] f' v'; cbn; [intros [= <-] [= <-]; done|apply Hall]. }
  destruct (decide (encode_field f v = [])) as [Enil|Hne].
  { apply (Hnext fuel); [rewrite Enil in Hfuel; done|done|]. by rewrite Enil, app_nil_r. }
  destruct (encode_field_tag f v Hne) as [r Hr].
  destruct fuel as [|fuel]; [rewrite Hr in Hfuel; cbn in Hfuel; lia|].
  destruct (decide (fn_ID f = t)) as [Ht|Ht].
  - left. exists 0%nat, f, v, (encode fs1 x1), (encode fs2 x2), fuel. done.
  - apply (Hnext fuel); [rewrite length_app, Hr in Hfuel; cbn in Hfuel; lia|done|].
    rewrite fast_scan_skip by done. by rewrite length_app.
Qed.

(** ** Properties *)


Definition sample_fields : list FieldNode := [
  {| fn_Name := "user_id"; fn_ID := 1; fn_Type := scalar TypeInt64; fn_Optional := false |};
  {| fn_Name := "name"; fn_ID := 2; fn_Type := scalar TypeString; fn_Optional := false |};
  {| fn_Name := "delta"; fn_ID := 15; fn_Type := scalar TypeInt32; fn_Optional := false |} ].
Definition sample_message : message := [VInt 300; VStr (to_bytes "ada"); VInt (-1)].

Lemma sample_wf : wf_fields sample_fields.
Proof.
  split; [apply (bool_decide_unpack (NoDup _)); vm_compute; exact I|].
  repeat constructor; cbn; lia.
Qed.
Lemma sample_fits : Forall2 value_fits sample_fields sample_message.
Proof. repeat constructor; cbn; words. Qed.


(** The scan finds a field that is on the wire and misses a zero value. *)
Lemma lazy_get_agrees (fields : list FieldNode) (x : message) (i : nat) (f : FieldNode) (v : value)
  (Hwf : wf_fields fields) (Hfit : Forall2 value_fits fields x) (Hlen : ProtoSize fields x < 2 ^ 63)
  (Hf : fields !! i = Some f) (Hv : x !! i = Some v) :
  lazy_get f (encode fields x) = if bool_decide (v = zero_value f) then Err FieldNotFound else Ok v.
Proof.
  rewrite ProtoSize_length in *.
  destruct Hwf as [Hnd Hids]. unfold lazy_get, fastScanField.
  assert (Hfv : value_fits f v) by (by eapply Forall2_lookup_lr).
  destruct (scan_fields (length (encode fields x)) [] [] fields x (fn_ID f) Hids eq_refl Hfit ltac:(lia) Hlen)
    as [(j & f' & v' & pre & post & n & Hf' & Hv' & Eid & Hne & Hall & Hscan)|[Hnf Hall]]; cbn [app length encode zip_with concat] in *.
  - assert (j = i) as ->.
    { apply (NoDup_lookup (fn_ID <$> fields) j i (fn_ID f)); [done|..]; rewrite list_lookup_fmap.
      - rewrite Hf'. cbn. by rewrite Eid.
      - by rewrite Hf. }
    simplify_eq. rewrite bool_decide_false.
    + change (Z.of_nat 0) with 0 in Hscan. rewrite Hscan, Hall.
      rewrite Forall_forall in Hids. apply list_elem_of_lookup_2, Hids in Hf.
      destruct (lazy_hit f v pre post n Hf Hfv Hne) as (b & w & -> & Hb); [by rewrite <- Hall|]. exact Hb.
    + intros ->. apply Hne. unfold encode_field, zero_value. by destruct (tn_Kind (fn_Type f)).
  - change (Z.of_nat 0) with 0 in Hnf. rewrite Hnf. cbn [res_bind]. rewrite bool_decide_true; [done|].
    eapply encode_nil_zero; [done|]. by eapply Hall.
Qed.

Lemma decode_encoded (fields : list FieldNode) (x : message) :
  wf_fields fields -> Forall2 value_fits fields x -> ProtoSize fields x < 2 ^ 63 ->
  Marshal fields x = Ok (encode fields x) /\ Unmarshal fields (Reset fields) (encode fields x) = Ok x.
Proof.
  intros Hwf Hfit Hlen. rewrite Marshal_encode, ProtoSize_length in *. split; [done|].
  apply (unmarshal_loop_ok _ [] fields [] x); [done|constructor|done|lia|done].
Qed.

Lemma unmarshal_state_loop fuel fields data x i x' :
  unmarshal_loop fuel fields data x i = Ok x' -> unmarshal_state fuel fields data x i = (x', Ok tt).
Proof.
  revert x i. induction fuel as [|fuel IH]; intros x i; cbn; (case_match; [by intros [= ->]|]); [done|].
  destruct (unmarshal_step fields data x i) as [[y k]|e]; [apply IH|done].
Qed.

(** C24: the lazy accessors and full decoding.  Take any struct with field numbers from 1 to
    15 and any message of it.  If the struct has a map or a oneof, [NewLazy] decodes at once,
    and every accessor returns the value of its field with no error.  Otherwise the accessor
    scans the bytes: it returns the value of a field that is not its zero value, and the error
    "field not found" for a zero value, which is not on the wire and which full decoding does
    give.  Fields are those the codec has code for: int32, int64 and string. *)
Theorem lazy_accessor_agrees (str : StructNode) (x : message) (i : nat) (f : FieldNode) (v : value)
  (Hwf : wf_fields (sn_Fields str)) (Hfit : Forall2 value_fits (sn_Fields str) x) (Hlen : ProtoSize (sn_Fields str) x < 2 ^ 63)
  (Hf : sn_Fields str !! i = Some f) (Hv : x !! i = Some v) (Hcodec : v <> VOther) :
  exists data lazy, Marshal (sn_Fields str) x = Ok data /\ NewLazy str data = Ok lazy /\
    Unmarshal (sn_Fields str) (Reset (sn_Fields str)) data = Ok x /\
    lazy_accessor i f lazy = if sn_HasFallback str then Ok v
                             else if bool_decide (v = zero_value f) then Err FieldNotFound else Ok v.
Proof.
  destruct (decode_encoded (sn_Fields str) x Hwf Hfit Hlen) as [Hm Hu]. exists (encode (sn_Fields str) x).
  unfold NewLazy. destruct (sn_HasFallback str).
  - exists (LazyDecoded x). split_and!; [done| |done|].
    + unfold Unmarshal in Hu. by rewrite (unmarshal_state_loop _ _ _ _ _ _ Hu).
    + cbn. by rewrite (nth_lookup_Some _ _ _ _ Hv).
  - eexists. split_and!; [done|reflexivity|done|]. by apply (lazy_get_agrees _ x i).
Qed.

(** A struct with a oneof, and one without. *)
Definition sample_struct (fallback : bool) : StructNode := {| sn_Name := "Sample"; sn_Fields := sample_fields; sn_HasFallback := fallback |}.
Definition name_field : FieldNode := {| fn_Name := "name"; fn_ID := 2; fn_Type := scalar TypeString; fn_Optional := false |}.

Lemma lazy_accessor_agrees_witness :
  (exists data lazy, Marshal sample_fields sample_message = Ok data /\ NewLazy (sample_struct false) data = Ok lazy /\
    Unmarshal sample_fields (Reset sample_fields) data = Ok sample_message /\
    lazy_accessor 1 name_field lazy = Ok (VStr (to_bytes "ada"))) /\
  (exists data lazy, Marshal sample_fields (Reset sample_fields) = Ok data /\ NewLazy (sample_struct true) data = Ok lazy /\
    Unmarshal sample_fields (Reset sample_fields) data = Ok (Reset sample_fields) /\
    lazy_accessor 1 name_field lazy = Ok (VStr [])).
Proof.
  split.
  - apply (lazy_accessor_agrees (sample_struct false) sample_message 1 name_field (VStr (to_bytes "ada")));
      [apply sample_wf|apply sample_fits|vm_compute; reflexivity|reflexivity..|discriminate].
  - apply (lazy_accessor_agrees (sample_struct true) (Reset sample_fields) 1 name_field (VStr []));
      [apply sample_wf|repeat constructor; cbn; words|vm_compute; reflexivity|reflexivity..|discriminate].
Defined.

(** Hostile messages: an unknown length-delimited field of length 2^64 - 11, which
    moves the index back to 0, and a string field of length 2^64 - 1. *)
Definition back_to_start : bytes := byte_of_Z 66 :: varint (2 ^ 64 - 11).
Definition negative_length : bytes := byte_of_Z 18 :: varint (2 ^ 64 - 1).

Lemma back_to_start_step (x : message) : unmarshal_step sample_fields back_to_start x 0 = Ok (x, 0).
Proof. vm_compute. reflexivity. Qed.

(** lengths are not checked when fields are skipped, and the check for known fields
    misses negative lengths.  On an 11-byte message [Unmarshal] never finishes (no
    number of rounds is enough, and the same holds for a lazy scan), and on another it
    slices out of range, which is a panic. *)
Theorem hostile_lengths (x : message) :
  (forall rounds, unmarshal_loop rounds sample_fields back_to_start x 0 = Err OutOfFuel) /\
  (forall rounds, fast_scan rounds back_to_start 1 0 = Err OutOfFuel) /\
  Unmarshal sample_fields x negative_length = Err Panic.
Proof.
  split_and!.
  - induction rounds as [|n IH]; [reflexivity|]. cbn [unmarshal_loop].
    change (Z.of_nat (length back_to_start) <=? 0) with false. cbn iota. by rewrite back_to_start_step.
  - induction rounds as [|n IH]; [reflexivity|]. cbn [fast_scan].
    change (Z.of_nat (length back_to_start) <=? 0) with false. cbn iota.
    change (readVarint back_to_start 0) with (Ok (66, 1) : res wire_error (Z * Z)). cbn -[fast_scan]. exact IH.
  - vm_compute. reflexivity.
Qed.

Definition int_field (id : Z) (k : Type_) : FieldNode :=
  {| fn_Name := "f"; fn_ID := id; fn_Type := scalar k; fn_Optional := false |}.

(** what the generated codec cannot carry.  A field number from 16 to 31 needs a
    two-byte tag but gets one byte, so its own output is refused on the way back; bool
    fields are never written, and a bool written by another protobuf implementation makes
    the whole message fail. *)
Theorem codec_gaps :
  Marshal [int_field 16 TypeInt32] [VInt 5] = Ok [byte_of_Z 128; byte_of_Z 5] /\
  Unmarshal [int_field 16 TypeInt32] [VInt 0] [byte_of_Z 128; byte_of_Z 5] = Err UnexpectedEOF /\
  (forall v, encode_field (int_field 1 TypeBool) v = []) /\
  Unmarshal [int_field 1 TypeBool] [VOther] [byte_of_Z 8; byte_of_Z 1] = Err UnexpectedEOF.
Proof. split_and!; [vm_compute; reflexivity..|by intros []|vm_compute; reflexivity]. Qed.
