(* ===== verification/GoText.v ===== *)
(** * Emitted source text: literals, [strings.Builder], [fmt.Sprintf] and bracket nesting

    The code generators of [compiler/codegen] append string literals and
    [fmt.Sprintf] results to a [strings.Builder].  A builder is modelled by the
    list of the strings written to it and its result by their concatenation
    ([cat]); a loop over a slice writes one piece per element ([each], [each_i]).

    Literals of this development in scope [go_scope] are read like Go's interpreted
    literals: [\n], [\t] and [\\] are the usual escapes, [\q] is a double quote, and
    a backslash before any other character stands for that character.

    The second half is the theory the generators' theorems share: [scan] matches the
    brackets of a text against a stack of the open ones, [neutral] texts leave every
    stack as it is, and [brk] is the compositional judgement the tactic [nest] proves
    for a generator body. *)
From S2P Require Import Prelude GoStrings.

(** ** Text and literals *)
Definition text : Type := string.
#[export] Instance text_eq_dec : EqDecision text := String.eq_dec.

Fixpoint unescape (l : list byte) : list byte :=
  match l with
  | "\"%byte :: c :: l' =>
      match c with
      | "n"%byte => x0a
      | "t"%byte => x09
      | "q"%byte => x22
      | _ => c
      end :: unescape l'
  | c :: l' => c :: unescape l'
  | [] => []
  end.
Definition go_parse (l : list byte) : string := String.string_of_list_byte (unescape l).
Definition go_print (s : string) : list byte := String.list_byte_of_string s.

Declare Scope go_scope.
Delimit Scope go_scope with go.
Bind Scope go_scope with text.
String Notation string go_parse go_print : go_scope.

(** ** [strings.Builder] *)
Fixpoint cat (pieces : list text) : text :=
  match pieces with [] => EmptyString | p :: ps => String.append p (cat ps) end.

(** [for _, x := range l] and [for i, x := range l]. *)
Definition each {A} (l : list A) (f : A -> text) : text := cat (f <$> l).
Definition each_i {A} (l : list A) (f : nat -> A -> text) : text := cat (imap f l).

(** ** [fmt.Sprintf] on strings and integers *)
Inductive garg := GS (s : text) | GD (z : Z).

Fixpoint hex_go (fuel : nat) (n : Z) (acc : string) : string :=
  match fuel with
  | O => acc
  | S f =>
      let d := n mod 16 in
      let acc' := String (ascii_of_nat (Z.to_nat (if d <? 10 then d + 48 else d + 87))) acc in
      if n <? 16 then acc' else hex_go f (n / 16) acc'
  end.
Definition Hex (z : Z) : string :=
  let s := hex_go (S (Z.to_nat (Z.log2 (Z.abs z)))) (Z.abs z) "" in
  if z <? 0 then String "-" s else s.

(** A verb applied to an operand of the wrong type prints the operand in
    parentheses after the verb, as Go does. *)
Definition fmt_arg (verb : ascii) (a : garg) : string :=
  match a with
  | GS s =>
      if Ascii.eqb verb "s" then s
      else String "%" (String "!" (String verb (cat ["(string="%go; s; ")"%go])))
  | GD z =>
      if Ascii.eqb verb "d" then Itoa z
      else if Ascii.eqb verb "x" then Hex z
      else String "%" (String "!" (String verb (cat ["(int="%go; Itoa z; ")"%go])))
  end.

Fixpoint sprintf (f : text) (args : list garg) : text :=
  match f with
  | EmptyString => EmptyString
  | String "%" (String verb f') =>
      if Ascii.eqb verb "%" then String "%" (sprintf f' args)
      else match args with
           | [] => String "%" (String "!" (String verb (String.append "(MISSING)" (sprintf f' []))))
           | a :: args' => String.append (fmt_arg verb a) (sprintf f' args')
           end
  | String c f' => String c (sprintf f' args)
  end.
Arguments sprintf _%_go _%_list_scope.
Arguments GS _%_go.

Example sprintf_example :
  sprintf "\tbuf[%d] = 0x%x // %s %d%%\n" [GD 12; GD 26; GS "name"; GD (-3)]
  = "\tbuf[12] = 0x1a // name -3%\n"%go.
Proof. reflexivity. Qed.

(** ** Names *)

(** [strings.ReplaceAll(s, string(a), string(b))] for one-byte strings. *)
Definition ReplaceAll (s : string) (a b : ascii) : string :=
  str_map (fun c => if Ascii.eqb c a then b else c) s.

(** [strings.Title]: ASCII letters, digits and the underscore are not separators. *)
Definition word_char (c : ascii) : bool :=
  is_upper c || is_lower c || is_digit c || Ascii.eqb c "_" || (128 <=? nat_of_ascii c)%nat.
Fixpoint title_go (prev : bool) (s : string) : string :=
  match s with
  | EmptyString => EmptyString
  | String c s' => String (if prev then c else upper_char c) (title_go (word_char c) s')
  end.
Definition Title (s : string) : string := title_go false s.

(** ** Brackets *)
Inductive bracket := Paren | Square | Curly.
#[export] Instance bracket_eq_dec : EqDecision bracket.
Proof. solve_decision. Defined.

Inductive mark := Open_ (b : bracket) | Close_ (b : bracket) | Plain.
Definition mark_of (c : ascii) : mark :=
  match c with
  | "("%char => Open_ Paren | ")"%char => Close_ Paren
  | "["%char => Open_ Square | "]"%char => Close_ Square
  | "{"%char => Open_ Curly | "}"%char => Close_ Curly
  | _ => Plain
  end.

(** The stack of open brackets after the text; [None] when a closing bracket meets
    an empty stack or a bracket of another kind. *)
Fixpoint scan (s : string) (st : list bracket) : option (list bracket) :=
  match s with
  | EmptyString => Some st
  | String c s' =>
      match mark_of c with
      | Plain => scan s' st
      | Open_ b => scan s' (b :: st)
      | Close_ b =>
          match st with
          | b' :: st' => if bool_decide (b = b') then scan s' st' else None
          | [] => None
          end
      end
  end.

(** Every bracket of the text is closed by its own kind, and nothing else is. *)
Definition nested (s : string) : bool := bool_decide (scan s [] = Some []).
Definition neutral (s : string) : Prop := scan s [] = Some [].
Definition neutral_arg (a : garg) : Prop := match a with GS s => neutral s | GD _ => True end.

Lemma scan_app s t st : scan (String.append s t) st = scan s st ≫= scan t.
Proof.
  revert st. induction s as [|c s IH]; intros st; [done|].
  change (String.append (String c s) t) with (String c (String.append s t)). cbn [scan].
  destruct (mark_of c) as [b|b|]; [apply IH| |apply IH].
  destruct st as [|b' st]; [done|]. case_bool_decide; [apply IH|done].
Qed.

Lemma scan_frame s st st' k : scan s st = Some st' -> scan s (st ++ k) = Some (st' ++ k).
Proof.
  revert st. induction s as [|c s IH]; intros st; cbn; [by intros [= <-]|].
  destruct (mark_of c) as [b|b|]; [apply (IH (b :: st))| |apply IH].
  destruct st as [|b' st]; [done|]; cbn. case_bool_decide; [apply IH|done].
Qed.

Lemma neutral_scan s st : neutral s -> scan s st = Some st.
Proof. intros H. exact (scan_frame s [] [] st H). Qed.

Lemma neutral_app s t : neutral s -> neutral t -> neutral (String.append s t).
Proof. unfold neutral. intros Hs Ht. by rewrite scan_app, Hs. Qed.

Lemma scan_cons c s st : scan (String c s) st = scan (String c "") st ≫= scan s.
Proof. exact (scan_app (String c "") s st). Qed.

(** Characters that are not brackets. *)
Definition plain (s : string) : bool := str_forall (fun c => match mark_of c with Plain => true | _ => false end) s.

Lemma plain_scan s st : plain s = true -> scan s st = Some st.
Proof.
  induction s as [|c s IH]; [done|]; cbn. destruct (mark_of c); [done..|]. apply IH.
Qed.

Lemma digit_plain s : str_forall is_digit s = true -> plain s = true.
Proof.
  apply str_forall_impl. intros c Hc.
  destruct c as [[] [] [] [] [] [] [] []]; vm_compute in Hc |- *; done.
Qed.

Lemma Itoa_plain z : plain (Itoa z) = true.
Proof.
  destruct (Z.ltb_spec z 0) as [Hz|Hz].
  - rewrite Itoa_neg by lia. cbn. apply digit_plain, Itoa_digits. lia.
  - apply digit_plain, Itoa_digits. lia.
Qed.

Lemma hex_digit_plain d : 0 <= d < 16 ->
  mark_of (ascii_of_nat (Z.to_nat (if d <? 10 then d + 48 else d + 87))) = Plain.
Proof.
  intros H. assert (Forall (fun d => mark_of (ascii_of_nat (Z.to_nat (if d <? 10 then d + 48 else d + 87))) = Plain)
    (seqZ 0 16)) as Hall by (repeat constructor).
  rewrite Forall_forall in Hall. apply Hall, elem_of_seqZ. lia.
Qed.

Lemma hex_go_plain fuel n acc : 0 <= n -> plain acc = true -> plain (hex_go fuel n acc) = true.
Proof.
  revert n acc. induction fuel as [|fuel IH]; intros n acc Hn Ha; [done|]. cbn [hex_go].
  assert (plain (String (ascii_of_nat (Z.to_nat (if n mod 16 <? 10 then n mod 16 + 48 else n mod 16 + 87))) acc) = true).
  { unfold plain. cbn [str_forall]. rewrite hex_digit_plain by (apply Z.mod_pos_bound; lia). done. }
  destruct (n <? 16); [done|]. apply IH; [|done]. apply Z.div_pos; lia.
Qed.

Lemma Hex_plain z : plain (Hex z) = true.
Proof.
  unfold Hex. assert (H := hex_go_plain (S (Z.to_nat (Z.log2 (Z.abs z)))) (Z.abs z) "" (Z.abs_nonneg z) eq_refl).
  by destruct (z <? 0).
Qed.

Lemma plain_neutral s : plain s = true -> neutral s.
Proof. apply plain_scan. Qed.
#[export] Hint Resolve plain_neutral Itoa_plain Hex_plain : helix.

Lemma scan_fmt_arg verb a st : neutral_arg a -> verb <> "%"%char ->
  scan (fmt_arg verb a) st = scan (String verb "") st.
Proof.
  assert (forall s o, neutral s -> neutral (cat [String.append "(" o; s; ")"%go]) \/ plain o = false) as Hpar.
  { intros s o Hs. destruct (plain o) eqn:Ho; [left|by right]. unfold neutral. cbn [cat].
    rewrite !scan_app. cbn. rewrite (plain_scan _ _ Ho). cbn.
    rewrite scan_app, (neutral_scan _ _ Hs). done. }
  assert (forall c, c = "s"%char \/ c = "d"%char \/ c = "x"%char -> scan (String c "") st = Some st) as Hc.
  { intros c [->|[->| ->]]; done. }
  intros Ha Hv. destruct a as [s|z]; cbn [fmt_arg].
  - destruct (Ascii.eqb_spec verb "s") as [->|]; [by rewrite (neutral_scan _ _ Ha)|].
    change (scan (String verb (cat ["(string="%go; s; ")"%go])) st = scan (String verb "") st).
    rewrite scan_cons. destruct (scan (String verb "") st) as [st'|]; [|done]. cbn.
    destruct (Hpar s "string=" Ha) as [H|H]; [|discriminate]. apply (neutral_scan _ st' H).
  - destruct (Ascii.eqb_spec verb "d") as [->|]; [rewrite Hc by auto; apply plain_scan, Itoa_plain|].
    destruct (Ascii.eqb_spec verb "x") as [->|]; [rewrite Hc by auto; apply plain_scan, Hex_plain|].
    change (scan (String verb (cat ["(int="%go; Itoa z; ")"%go])) st = scan (String verb "") st).
    rewrite scan_cons. destruct (scan (String verb "") st) as [st'|]; [|done]. cbn.
    destruct (Hpar (Itoa z) "int=" (plain_neutral _ (Itoa_plain z))) as [H|H]; [|discriminate].
    apply (neutral_scan _ st' H).
Qed.

(** Formatting neutral operands keeps the brackets of the format string. *)
Lemma scan_sprintf f args st : Forall neutral_arg args -> scan (sprintf f args) st = scan f st.
Proof.
  revert args st. induction (well_founded_ltof _ String.length f) as [f _ IH].
  intros args st Ha. destruct f as [|c f]; [done|].
  assert (forall g a st', (String.length g < S (String.length f))%nat -> Forall neutral_arg a ->
    scan (sprintf g a) st' = scan g st') as IH' by (intros; by apply IH). clear IH.
  destruct (Ascii.eqb_spec c "%") as [->|Hc].
  - destruct f as [|verb f]; [done|].
    rewrite scan_cons. change (scan (String "%" "") st) with (Some st). cbn [option_bind mbind option_ret].
    cbn [sprintf]. destruct (Ascii.eqb_spec verb "%") as [->|Hv].
    { change (scan (sprintf f args) st = scan f st). apply IH'; [cbn; lia|done]. }
    rewrite (scan_cons verb f st). destruct args as [|a args].
    + change (scan (String verb (String.append "(MISSING)" (sprintf f []))) st = scan (String verb "") st ≫= scan f).
      rewrite scan_cons. destruct (scan (String verb "") st) as [st'|]; [|done].
      change (scan (String.append "(MISSING)" (sprintf f [])) st' = scan f st').
      rewrite scan_app, (neutral_scan "(MISSING)" st') by done. apply IH'; [cbn; lia|done].
    + apply Forall_cons in Ha as [Ha Has].
      rewrite scan_app, (scan_fmt_arg verb a st Ha Hv).
      destruct (scan (String verb "") st) as [st'|]; [|done]. apply IH'; [cbn; lia|done].
  - replace (sprintf (String c f) args) with (String c (sprintf f args)).
    + rewrite scan_cons, (scan_cons c f). destruct (scan (String c "") st) as [st'|]; [|done].
      apply IH'; [lia|done].
    + destruct c as [[] [] [] [] [] [] [] []]; try reflexivity. by destruct Hc.
Qed.

(** ** Derived names keep their brackets *)
Definition brackets (s : string) : list ascii :=
  List.filter (fun c => match mark_of c with Plain => false | _ => true end) (String.list_ascii_of_string s).
Fixpoint run (l : list ascii) (st : list bracket) : option (list bracket) :=
  match l with [] => Some st | c :: l' => scan (String c "") st ≫= run l' end.

Lemma scan_run s st : scan s st = run (brackets s) st.
Proof.
  revert st. induction s as [|c s IH]; intros st; [done|].
  rewrite scan_cons. unfold brackets. cbn [String.list_ascii_of_string List.filter].
  destruct (mark_of c) eqn:E; cbn [run].
  - destruct (scan (String c "") st); [apply IH|done].
  - destruct (scan (String c "") st); [apply IH|done].
  - cbn [scan]. rewrite E. apply IH.
Qed.

(** Two texts with the same brackets have the same nesting. *)
Lemma neutral_brackets s t : brackets s = brackets t -> neutral s -> neutral t.
Proof. unfold neutral. rewrite !scan_run. by intros ->. Qed.

Lemma brackets_cons c s : brackets (String c s) = brackets (String c "") ++ brackets s.
Proof. unfold brackets. cbn. by destruct (mark_of c). Qed.

Lemma brackets_app s t : brackets (String.append s t) = brackets s ++ brackets t.
Proof.
  induction s as [|c s IH]; [done|].
  change (String.append (String c s) t) with (String c (String.append s t)).
  rewrite brackets_cons, IH, (brackets_cons c s). by rewrite (assoc_L (++)).
Qed.

Lemma brackets_map f s : (forall c, brackets (String (f c) "") = brackets (String c "")) ->
  brackets (str_map f s) = brackets s.
Proof.
  intros Hf. induction s as [|c s IH]; [done|]. cbn [str_map].
  by rewrite brackets_cons, Hf, IH, <- brackets_cons.
Qed.

Lemma brackets_upper c : brackets (String (upper_char c) "") = brackets (String c "").
Proof. destruct c as [[] [] [] [] [] [] [] []]; reflexivity. Qed.
Lemma brackets_lower c : brackets (String (lower_char c) "") = brackets (String c "").
Proof. destruct c as [[] [] [] [] [] [] [] []]; reflexivity. Qed.

Lemma brackets_ToUpper s : brackets (ToUpper s) = brackets s.
Proof. apply brackets_map, brackets_upper. Qed.
Lemma brackets_ToLower s : brackets (ToLower s) = brackets s.
Proof. apply brackets_map, brackets_lower. Qed.

Lemma brackets_Title s : brackets (Title s) = brackets s.
Proof.
  unfold Title. generalize false. induction s as [|c s IH]; intros p; [done|]. cbn [title_go].
  rewrite brackets_cons, IH, (brackets_cons c s). f_equal. destruct p; [done|]. apply brackets_upper.
Qed.

Lemma brackets_ReplaceAll s a b : mark_of a = Plain -> mark_of b = Plain ->
  brackets (ReplaceAll s a b) = brackets s.
Proof.
  intros Ha Hb. apply brackets_map. intros c. destruct (Ascii.eqb_spec c a) as [->|]; [|done].
  unfold brackets. cbn. by rewrite Ha, Hb.
Qed.

Lemma brackets_Join l : brackets (Join l "") = concat (brackets <$> l).
Proof.
  induction l as [|p l IH]; [done|]. destruct l as [|q l].
  - cbn. by rewrite (right_id_L [] (++)).
  - change (Join (p :: q :: l) "") with (p +:+ Join (q :: l) ""). by rewrite brackets_app, IH.
Qed.

(** The parts of a split at a plain separator, each changed without touching its
    brackets, joined again with nothing between. *)
Lemma brackets_split_join parts s c :
  mark_of c = Plain -> brackets <$> parts = brackets <$> Split s c -> brackets (Join parts "") = brackets s.
Proof.
  intros Hc Hp. rewrite brackets_Join, Hp. clear Hp.
  induction s as [|a s IH]; [done|]. cbn [Split].
  destruct (Ascii.eqb_spec a c) as [->|Hac].
  - cbn [fmap list_fmap concat]. rewrite IH, (brackets_cons c s). unfold brackets. cbn. by rewrite Hc.
  - destruct (Split s c) as [|h t] eqn:E; [by apply Split_nonempty in E|].
    rewrite (brackets_cons a s), <- IH. cbn [fmap list_fmap concat].
    rewrite (brackets_cons a h). by rewrite (assoc_L (++)).
Qed.

(** ** The nesting judgement

    [brk pre s post]: on a stack that starts with [pre], the text [s] succeeds and
    replaces [pre] by [post]. *)
Definition brk (pre : list bracket) (s : text) (post : list bracket) : Prop :=
  forall k, scan s (pre ++ k) = Some (post ++ k).

Lemma brk_lit pre s post : scan s pre = Some post -> brk pre s post.
Proof. intros H k. by apply scan_frame. Qed.

Lemma brk_sprintf pre f args post : scan f pre = Some post -> Forall neutral_arg args -> brk pre (sprintf f args) post.
Proof. intros H Ha k. rewrite scan_sprintf by done. by apply scan_frame. Qed.

Lemma brk_neutral pre s : neutral s -> brk pre s pre.
Proof. intros H k. by apply neutral_scan. Qed.

Lemma brk_frame pre s post k : brk pre s post -> brk (pre ++ k) s (post ++ k).
Proof. intros H k'. rewrite <- !(assoc_L (++)). apply H. Qed.

(** A text that closes a bracket it does not open is not nested on its own. *)
Lemma surplus_fails s b pre : scan s (b :: pre) = Some [] -> scan s [] = None.
Proof.
  intros H. destruct (scan s []) as [st|] eqn:E; [|done].
  apply (scan_frame _ _ _ (b :: pre)) in E. rewrite (left_id_L [] (++)), H in E. by destruct st.
Qed.

Lemma brk_nil pre : brk pre (cat []) pre.
Proof. by intros k. Qed.

Lemma brk_app pre mid post s t : brk pre s mid -> brk mid t post -> brk pre (String.append s t) post.
Proof. intros H1 H2 k. rewrite scan_app, H1. apply H2. Qed.

Lemma brk_cons pre mid post s ps : brk pre s mid -> brk mid (cat ps) post -> brk pre (cat (s :: ps)) post.
Proof. apply brk_app. Qed.

Lemma brk_each {A} pre (l : list A) f : (forall x, x ∈ l -> brk pre (f x) pre) -> brk pre (each l f) pre.
Proof.
  unfold each. induction l as [|x l IH]; intros H; [apply brk_nil|].
  eapply brk_cons; [apply H, list_elem_of_here|]. apply IH. intros y Hy. apply H. by apply list_elem_of_further.
Qed.

Lemma brk_each_i {A} pre (l : list A) f : (forall i x, x ∈ l -> brk pre (f i x) pre) -> brk pre (each_i l f) pre.
Proof.
  unfold each_i. revert f. induction l as [|x l IH]; intros f H; [apply brk_nil|].
  rewrite imap_cons. eapply brk_cons; [apply H, list_elem_of_here|].
  apply (IH (f ∘ S)). intros i y Hy. apply H. by apply list_elem_of_further.
Qed.

(** A loop whose pieces are either neutral or not nested on their own. *)
Lemma scan_each {A} (l : list A) f (good : A -> bool) :
  (forall x, x ∈ l -> if good x then neutral (f x) else scan (f x) [] = None) ->
  scan (each l f) [] = if forallb good l then Some [] else None.
Proof.
  unfold each. induction l as [|x l IH]; intros H; [done|].
  cbn [fmap list_fmap cat forallb]. rewrite scan_app.
  pose proof (H x (list_elem_of_here _ _)) as Hx.
  destruct (good x); cbn [andb].
  - rewrite Hx. apply IH. intros y Hy. apply H. by apply list_elem_of_further.
  - by rewrite Hx.
Qed.

Lemma neutral_brk s : brk [] s [] -> neutral s.
Proof. intros H. exact (H []). Qed.

Create HintDb names.
#[export] Hint Resolve brk_neutral : names.
#[export] Hint Extern 1 (neutral (String _ _)) => reflexivity : names.

(** Runs a generator body from left to right: literals and formats are computed, the
    operands of a format are discharged by the hints on names, branches and loops are
    entered. *)
Ltac nest :=
  cbv zeta beta;
  lazymatch goal with
  | |- brk ?pre (cat []) _ => apply brk_nil
  | |- brk ?pre (cat (_ :: _)) _ => eapply brk_cons; [nest | nest]
  | |- brk ?pre (sprintf ?f _) _ =>
      let r := eval vm_compute in (scan f pre) in
      lazymatch r with Some ?post => refine (brk_sprintf pre f _ post _ _); [vm_cast_no_check (eq_refl r) | nest_args] end
  | |- brk _ (each _ _) _ => apply brk_each; intros ? ?; nest
  | |- brk _ (each_i _ _) _ => apply brk_each_i; intros ? ? ?; nest
  | |- brk _ (match ?x with _ => _ end) _ => destruct x eqn:?; nest
  | |- brk ?pre (String ?c ?s) _ =>
      let r := eval vm_compute in (scan (String c s) pre) in
      lazymatch r with Some ?post => refine (brk_lit pre (String c s) post _); vm_cast_no_check (eq_refl r) end
  | |- brk ?pre EmptyString _ => exact (brk_nil pre)
  | |- _ => solve [eauto 10 with names nocore]
  end
with nest_args :=
  lazymatch goal with
  | |- Forall neutral_arg (_ :: _) => apply Forall_cons; split; [cbn [neutral_arg]; neut | nest_args]
  | |- Forall neutral_arg [] => apply Forall_nil_2
  end
with neut :=
  lazymatch goal with
  | |- True => exact I
  | |- neutral (cat _) => apply neutral_brk; nest
  | |- neutral (sprintf _ _) => apply neutral_brk; nest
  | |- neutral (match ?x with _ => _ end) => destruct x eqn:?; neut
  | |- neutral (String _ _) => vm_compute; reflexivity
  | |- _ => solve [eauto 10 with names nocore]
  end.
