(* ===== verification/GenCommon.v ===== *)
(** * What the code generators share ([compiler/codegen])

    The name conversions more than one generator uses, the layout of the FlatBuffers
    table every generator computes with the same loop, and the condition on a schema
    under which the nesting theorems hold: its names are [neutral] for brackets. *)
From S2P Require Import Prelude GoStrings Ast GoText Wire.
Local Open Scope go_scope.

(** ** Names *)

(** An underscore before every upper-case letter but the first character, then lower
    case: [toLowerSnakeCase] of the C++ and [toSnakeCase] of the Rust generator. *)
Fixpoint snake_go (first : bool) (s : string) : string :=
  match s with
  | EmptyString => EmptyString
  | String c s' =>
      if negb first && is_upper c then String "_" (String c (snake_go false s'))
      else String c (snake_go false s')
  end.
Definition toLowerSnakeCase (s : string) : string := ToLower (snake_go true s).
Definition toSnakeCase (s : string) : string := ToLower (snake_go true s).

(** ** The FlatBuffers table layout: field offsets and table size *)
Definition flat_size (k : Type_) : Z :=
  match k with
  | TypeInt32 | TypeBool => 4
  | TypeInt64 | TypeDouble => 8
  | TypeString | TypeBinary => 4
  | _ => 4
  end.

Fixpoint flat_layout (currentOffset : Z) (fields : list FieldNode) : list Z * Z :=
  match fields with
  | [] => ([], currentOffset)
  | f :: fields' =>
      let size := flat_size (tn_Kind (fn_Type f)) in
      let rem := Z.rem currentOffset size in
      let currentOffset := if negb (rem =? 0) then currentOffset + (size - rem) else currentOffset in
      let '(offsets, tableSize) := flat_layout (currentOffset + size) fields' in
      (currentOffset :: offsets, tableSize)
  end.
(** The offsets start after the four bytes of the vtable offset. *)
Definition flat_offsets (fields : list FieldNode) : list Z := fst (flat_layout 4 fields).
Definition flat_table_size (fields : list FieldNode) : Z := snd (flat_layout 4 fields).

(** ** Schemas whose names keep the brackets of the text nested *)
Fixpoint type_ok (t : TypeNode) : bool :=
  nested (tn_Name t) &&
  match tn_KeyType t with Some k => type_ok k | None => true end &&
  match tn_ValueType t with Some v => type_ok v | None => true end.
Definition field_ok (f : FieldNode) : bool := nested (fn_Name f) && type_ok (fn_Type f).
Definition struct_ok (str : StructNode) : bool := nested (sn_Name str) && forallb field_ok (sn_Fields str).
Definition method_ok (m : MethodNode) : bool :=
  nested (mn_Name m) && nested (mn_InputType m) && nested (mn_OutputType m) &&
  nested (mn_RESTMethod m) && nested (mn_RESTPath m).
Definition service_ok (srv : ServiceNode) : bool := nested (sv_Name srv) && forallb method_ok (sv_Methods srv).
Definition enum_ok (e : EnumNode) : bool :=
  nested (en_Name e) && forallb (fun kv => nested (fst kv)) (map_to_list (en_Values e)).
Definition schema_ok (parsed : AST) : bool :=
  nested (Namespace parsed) && forallb enum_ok (Enums parsed) &&
  forallb struct_ok (Structs parsed) && forallb service_ok (Services parsed).

Lemma nested_neutral s : nested s = true <-> neutral s.
Proof. unfold nested, neutral. apply bool_decide_eq_true. Qed.

Ltac split_ok H :=
  unfold schema_ok, enum_ok, struct_ok, service_ok, method_ok, field_ok in H;
  rewrite ?andb_true_iff in H.

Section ok.
Context (parsed : AST).

Lemma schema_ns : schema_ok parsed = true -> neutral (Namespace parsed).
Proof. intros H. split_ok H. apply nested_neutral. tauto. Qed.
Lemma schema_struct str : str ∈ Structs parsed -> schema_ok parsed = true -> struct_ok str = true.
Proof. intros Hin H. split_ok H. destruct H as [[_ H] _]. by apply (proj1 (forallb_True_iff _ _) H). Qed.
Lemma schema_service srv : srv ∈ Services parsed -> schema_ok parsed = true -> service_ok srv = true.
Proof. intros Hin H. split_ok H. destruct H as [_ H]. by apply (proj1 (forallb_True_iff _ _) H). Qed.
Lemma schema_enum e : e ∈ Enums parsed -> schema_ok parsed = true -> enum_ok e = true.
Proof. intros Hin H. split_ok H. destruct H as [[[_ H] _] _]. by apply (proj1 (forallb_True_iff _ _) H). Qed.

Lemma struct_name str : struct_ok str = true -> neutral (sn_Name str).
Proof. intros H. split_ok H. apply nested_neutral. tauto. Qed.
Lemma struct_field str f : f ∈ sn_Fields str -> struct_ok str = true -> field_ok f = true.
Proof. intros Hin H. split_ok H. destruct H as [_ H]. by apply (proj1 (forallb_True_iff _ _) H). Qed.
Lemma field_name f : field_ok f = true -> neutral (fn_Name f).
Proof. intros H. split_ok H. apply nested_neutral. tauto. Qed.
Lemma field_type f : field_ok f = true -> type_ok (fn_Type f) = true.
Proof. intros H. split_ok H. tauto. Qed.
Lemma type_name t : type_ok t = true -> neutral (tn_Name t).
Proof. destruct t. cbn. rewrite !andb_true_iff. intros H. apply nested_neutral. tauto. Qed.

Lemma service_name srv : service_ok srv = true -> neutral (sv_Name srv).
Proof. intros H. split_ok H. apply nested_neutral. tauto. Qed.
Lemma service_method srv m : m ∈ sv_Methods srv -> service_ok srv = true -> method_ok m = true.
Proof. intros Hin H. split_ok H. destruct H as [_ H]. by apply (proj1 (forallb_True_iff _ _) H). Qed.
Lemma method_names m : method_ok m = true ->
  neutral (mn_Name m) /\ neutral (mn_InputType m) /\ neutral (mn_OutputType m) /\
  neutral (mn_RESTMethod m) /\ neutral (mn_RESTPath m).
Proof. intros H. split_ok H. rewrite !nested_neutral in H. tauto. Qed.
Lemma method_name m : method_ok m = true -> neutral (mn_Name m).
Proof. intros H. apply method_names in H. tauto. Qed.
Lemma method_input m : method_ok m = true -> neutral (mn_InputType m).
Proof. intros H. apply method_names in H. tauto. Qed.
Lemma method_output m : method_ok m = true -> neutral (mn_OutputType m).
Proof. intros H. apply method_names in H. tauto. Qed.
Lemma method_rest m : method_ok m = true -> neutral (mn_RESTMethod m).
Proof. intros H. apply method_names in H. tauto. Qed.
Lemma method_path m : method_ok m = true -> neutral (mn_RESTPath m).
Proof. intros H. apply method_names in H. tauto. Qed.
Lemma enum_name e : enum_ok e = true -> neutral (en_Name e).
Proof. intros H. split_ok H. apply nested_neutral. tauto. Qed.
Lemma enum_value `{MapIter} e site k v : enum_ok e = true -> (k, v) ∈ range_map site (en_Values e) -> neutral k.
Proof.
  intros He Hin. split_ok He. destruct He as [_ He]. rewrite forallb_True_iff in He.
  apply nested_neutral. apply (He (k, v)). by rewrite range_map_perm in Hin.
Qed.

(** Derived names. *)
Lemma neutral_upper s : neutral s -> neutral (ToUpper s).
Proof. apply neutral_brackets. symmetry. apply brackets_ToUpper. Qed.
Lemma neutral_title s : neutral s -> neutral (Title s).
Proof. apply neutral_brackets. symmetry. apply brackets_Title. Qed.
Lemma neutral_replace s a b : mark_of a = Plain -> mark_of b = Plain -> neutral s -> neutral (ReplaceAll s a b).
Proof. intros Ha Hb. apply neutral_brackets. symmetry. by apply brackets_ReplaceAll. Qed.

Lemma neutral_dots s : neutral s -> neutral (ReplaceAll s "." "_").
Proof. by apply neutral_replace. Qed.

Lemma brackets_snake first s : brackets (snake_go first s) = brackets s.
Proof.
  revert first. induction s as [|c s IH]; intros first; [done|]. cbn [snake_go].
  rewrite (brackets_cons c s). destruct (negb first && is_upper c).
  - rewrite brackets_cons, (brackets_cons c (snake_go false s)), IH. done.
  - by rewrite brackets_cons, IH.
Qed.
Lemma neutral_snake s : neutral s -> neutral (toLowerSnakeCase s).
Proof.
  apply neutral_brackets. unfold toLowerSnakeCase. by rewrite brackets_ToLower, brackets_snake.
Qed.

Lemma brackets_capitalize s : brackets (capitalize s) = brackets s.
Proof.
  destruct s as [|c s]; [done|]. unfold capitalize. rewrite brackets_app, brackets_ToUpper.
  by rewrite (brackets_cons c s).
Qed.
Lemma neutral_camel s : neutral s -> neutral (toCamelCase s).
Proof.
  apply neutral_brackets. symmetry. unfold toCamelCase. apply brackets_split_join with "_"%char; [done|].
  rewrite <- list_fmap_compose. apply list_fmap_ext. intros _ p _. cbn.
  case_bool_decide; [by subst|]. apply brackets_capitalize.
Qed.
End ok.

#[export] Hint Resolve schema_ns schema_struct schema_service schema_enum struct_name struct_field field_name
  field_type type_name service_name service_method method_name method_input method_output method_rest method_path
  enum_name neutral_upper neutral_title neutral_dots neutral_snake neutral_camel : names.
