(* ===== verification/FlatBuf.v ===== *)
(** * The generated FlatBuffers codec
      ([compiler/codegen/{go,node,python,rust}_generator.go])

    Four generators write, for every struct, a [marshalFlatBuffers] whose text depends
    only on the field list.  The definitions below are what that code does, with the
    field list as a parameter: the Go encoder and decoder, and the TypeScript, Python and
    Rust encoders.  The table layout ([flat_layout]) is computed at generation time.

    A message is the list of its field values in the order of the field list.  Buffers
    are byte lists and every index is checked: an index out of range is [Panic]. *)
From S2P Require Import Prelude GoStrings GoFloat Ast GoText Wire GenCommon.

(** A kind the codec does not handle has the value [FOther]; a binary field keeps its
    bytes in [FStr]. *)
Inductive fvalue := FInt (z : Z) | FBool (b : bool) | FStr (s : bytes) | FOther.

#[export] Instance fvalue_eq_dec : EqDecision fvalue.
Proof. solve_decision. Defined.

Abbreviation fmessage := (list fvalue).

(** ** Writing *)

(** [for j := 0; j < n; j++ { buf[off+j] = byte(v >> (j * 8)) }] *)
Fixpoint put_le (j n : nat) (buf : bytes) (off : nat) (v : Z) : res wire_error bytes :=
  match n with
  | O => Ok buf
  | S n' => let? buf := put buf (off + j) (Z.shiftr v (8 * Z.of_nat j)) in put_le (S j) n' buf off v
  end.

(** [dynamicSize]: four length bytes and the content of every string or binary that is
    not empty. *)
Definition dynamic_size (f : FieldNode) (v : fvalue) : nat :=
  match tn_Kind (fn_Type f), v with
  | (TypeString | TypeBinary), FStr s => if (0 <? length s)%nat then 4 + length s else 0
  | _, _ => 0
  end.
Definition dynamicSize (fields : list FieldNode) (x : fmessage) : nat :=
  foldr Nat.add 0%nat (zip_with dynamic_size fields x).

(** One field at table offset [off]; the second component is [currentStringOffset]. *)
Definition flat_field (f : FieldNode) (off : nat) (v : fvalue) (buf : bytes) (cur : nat)
  : res wire_error (bytes * nat) :=
  match tn_Kind (fn_Type f), v with
  | TypeInt32, FInt z => let? buf := put_le 0 4 buf (4 + off) (u32 z) in Ok (buf, cur)
  | TypeInt64, FInt z => let? buf := put_le 0 8 buf (4 + off) (u64 z) in Ok (buf, cur)
  | TypeBool, FBool b =>
      if b then let? buf := put buf (4 + off) 1 in Ok (buf, cur) else Ok (buf, cur)
  | TypeString, FStr s =>
      if (0 <? length s)%nat then
        let relOffset := u32 (Z.of_nat cur - Z.of_nat (4 + off)) in
        let? buf := put_le 0 4 buf (4 + off) relOffset in
        let? buf := put_le 0 4 buf cur (u32 (Z.of_nat (length s))) in
        let '(buf, _) := copy_at buf (cur + 4) s in
        Ok (buf, (cur + (4 + length s))%nat)
      else Ok (buf, cur)
  | _, _ => Ok (buf, cur)
  end.

(** The loop over the fields, with their offsets, of all four encoders. *)
Fixpoint walk_fields (step : FieldNode -> nat -> fvalue -> bytes -> nat -> res wire_error (bytes * nat))
  (fields : list FieldNode) (offsets : list nat) (x : fmessage) (buf : bytes) (cur : nat)
  : res wire_error (bytes * nat) :=
  match fields, offsets, x with
  | f :: fields', off :: offsets', v :: x' =>
      let? (buf, cur) := step f off v buf cur in walk_fields step fields' offsets' x' buf cur
  | _, _, _ => Ok (buf, cur)
  end.
Definition flat_fields := walk_fields flat_field.

(** The entries of the vtable, two bytes per field. *)
Fixpoint flat_vtable (idx : nat) (offsets : list nat) (buf : bytes) (vtableStart : nat) : res wire_error bytes :=
  match offsets with
  | [] => Ok buf
  | off :: offsets' =>
      let? buf := put buf (vtableStart + 4 + 2 * idx) (Z.of_nat off) in
      let? buf := put buf (vtableStart + 4 + 2 * idx + 1) (Z.shiftr (Z.of_nat off) 8) in
      flat_vtable (S idx) offsets' buf vtableStart
  end.

Definition flat_offs (fields : list FieldNode) : list nat := Z.to_nat <$> flat_offsets fields.
Definition flat_tsize (fields : list FieldNode) : nat := Z.to_nat (flat_table_size fields).
Definition flat_vsize (fields : list FieldNode) : nat := 4 + 2 * length fields.

Definition MarshalFlatBuffers (fields : list FieldNode) (x : fmessage) : res wire_error bytes :=
  let tableSize := flat_tsize fields in
  let vtableSize := flat_vsize fields in
  let dynamicSize := dynamicSize fields x in
  let totalSize := (4 + tableSize + dynamicSize + vtableSize)%nat in
  let buf := replicate totalSize x00 in
  let? buf := put buf 0 4 in
  let vtableStart := (4 + tableSize + dynamicSize)%nat in
  let vtableOffset := i32 (Z.of_nat vtableStart - 4) in
  let? buf := put_le 0 4 buf 4 vtableOffset in
  let? (buf, _) := flat_fields fields (flat_offs fields) x buf (4 + tableSize) in
  let? buf := put buf vtableStart (Z.of_nat vtableSize) in
  let? buf := put buf (vtableStart + 1) (Z.shiftr (Z.of_nat vtableSize) 8) in
  let? buf := put buf (vtableStart + 2) (Z.of_nat tableSize) in
  let? buf := put buf (vtableStart + 3) (Z.shiftr (Z.of_nat tableSize) 8) in
  flat_vtable 0 (flat_offs fields) buf vtableStart.

(** The emitted Go code converts the sizes and offsets with [byte(<constant>)], which
    the Go compiler refuses for a constant that does not fit a byte.  That they fit is
    necessary for the code to compile, and all the codec needs; it is not sufficient: the
    Go text has other errors ([currentStringOffset] is unused without a string field, the
    Thrift [Read] has a brace too many), which do not change what the codec's statements do. *)
Definition go_constants_fit (fields : list FieldNode) : bool :=
  (flat_vsize fields <=? 255)%nat && (flat_tsize fields <=? 255)%nat.

(** ** Reading *)
Definition get (buf : bytes) (i : Z) : res wire_error Z :=
  if i <? 0 then Err Panic
  else match buf !! Z.to_nat i with Some b => Ok (byte_to_Z b) | None => Err Panic end.

(** [uint(buf[off]) | uint(buf[off+1])<<8 | ...], [n] bytes. *)
Fixpoint get_le (n : nat) (buf : bytes) (off : Z) : res wire_error Z :=
  match n with
  | O => Ok 0
  | S n' =>
      let? b := get buf off in
      let? hi := get_le n' buf (off + 1) in
      Ok (Z.lor b (Z.shiftl hi 8))
  end.

Inductive flat_error := BufferTooSmall | InvalidRootOffset | InvalidVtableOffset | FlatPanic.

Definition lift_panic {A} (r : res wire_error A) : res flat_error A :=
  match r with Ok a => Ok a | Err _ => Err FlatPanic end.

(** What the [case] of the field's kind assigns, if anything. *)
Definition read_value (k : Type_) (buf : bytes) (absOffset : Z) : res flat_error (option fvalue) :=
  let len := Z.of_nat (length buf) in
  match k with
  | TypeInt32 =>
      if absOffset + 4 <=? len then
        let? v := lift_panic (get_le 4 buf absOffset) in Ok (Some (FInt (i32 v)))
      else Ok None
  | TypeInt64 =>
      if absOffset + 8 <=? len then
        let? v := lift_panic (get_le 8 buf absOffset) in Ok (Some (FInt (i64 v)))
      else Ok None
  | TypeBool =>
      if absOffset <? len then
        let? b := lift_panic (get buf absOffset) in Ok (Some (FBool (negb (b =? 0))))
      else Ok None
  | TypeString =>
      if absOffset + 4 <=? len then
        let? relOffset := lift_panic (get_le 4 buf absOffset) in
        let strStart := absOffset + relOffset in
        if strStart + 4 <=? len then
          let? strLen := lift_panic (get_le 4 buf strStart) in
          if strStart + 4 + strLen <=? len then
            let? s := lift_panic (sub_slice buf (strStart + 4) (strStart + 4 + strLen)) in
            Ok (Some (FStr s))
          else Ok None
        else Ok None
      else Ok None
  | _ => Ok None
  end.

Definition read_field (f : FieldNode) (idx : nat) (buf : bytes) (rootOffset vtableStart vtableSize : Z)
  : res flat_error (option fvalue) :=
  let voff := 4 + 2 * Z.of_nat idx in
  if voff + 2 <=? vtableSize then
    let? foffset := lift_panic (get_le 2 buf (vtableStart + voff)) in
    if 0 <? foffset then read_value (tn_Kind (fn_Type f)) buf (rootOffset + foffset) else Ok None
  else Ok None.

Fixpoint read_fields (idx : nat) (fields : list FieldNode) (x : fmessage) (buf : bytes)
  (rootOffset vtableStart vtableSize : Z) : res flat_error fmessage :=
  match fields, x with
  | f :: fields', v :: x' =>
      let? o := read_field f idx buf rootOffset vtableStart vtableSize in
      let? rest := read_fields (S idx) fields' x' buf rootOffset vtableStart vtableSize in
      Ok (default v o :: rest)
  | _, _ => Ok x
  end.

Definition UnmarshalFlatBuffers (fields : list FieldNode) (x : fmessage) (buf : bytes) : res flat_error fmessage :=
  let len := Z.of_nat (length buf) in
  if len <? 8 then Err BufferTooSmall
  else
    let? rootOffset := lift_panic (get_le 4 buf 0) in
    if len <? rootOffset + 4 then Err InvalidRootOffset
    else
      let? vt := lift_panic (get_le 4 buf rootOffset) in
      let vtableStart := rootOffset + i32 vt in
      if (vtableStart <? 0) || (len <? vtableStart + 4) then Err InvalidVtableOffset
      else
        let? vtableSize := lift_panic (get_le 2 buf vtableStart) in
        read_fields 0 fields x buf rootOffset vtableStart vtableSize.

Definition flat_zero (f : FieldNode) : fvalue :=
  match tn_Kind (fn_Type f) with
  | TypeInt32 | TypeInt64 => FInt 0
  | TypeBool => FBool false
  | TypeString | TypeBinary => FStr []
  | _ => FOther
  end.

(** ** The TypeScript encoder

    [DataView] setters write little-endian and throw a [RangeError] past the end of the
    buffer ([Panic] here); numbers are taken modulo the width of the setter.  A field of
    a 64-bit integer is a JS number: what it holds of the integer is the nearest double.
    A string stands for its UTF-8 bytes, which [TextEncoder] gives.
    A field whose value is [undefined] is not modelled: the class initialises all. *)
Definition js_number (z : Z) : Z :=
  let n := Z.abs z in
  if n <=? 2 ^ 53 then z
  else let ulp := 2 ^ (Z.log2 n - 52) in Z.sgn z * (round_half_even n ulp * ulp).

(** The double is the one of [GoFloat]. *)
Example js_number_double :
  Forall (fun z => i64_of_f64 (f64_of_Z z) = js_number z)
    [0; 5; -7; 2 ^ 53; 2 ^ 53 + 1; 2 ^ 53 + 2; 2 ^ 53 + 3; - 2 ^ 53 - 1; 2 ^ 62 + 255; 2 ^ 62 + 257; 1234567890123456789; - 2 ^ 63].
Proof. repeat (apply Forall_cons_2; [vm_compute; reflexivity|]). apply Forall_nil_2. Qed.

Definition node_dynamic (f : FieldNode) (v : fvalue) : nat :=
  match tn_Kind (fn_Type f), v with
  | TypeString, FStr s => if (0 <? length s)%nat then 4 + length s else 0
  | _, _ => 0
  end.

(** [buf.set(src, off)] *)
Definition typed_set (buf : bytes) (off : nat) (src : bytes) : res wire_error bytes :=
  if (off + length src <=? length buf)%nat then Ok (fst (copy_at buf off src)) else Err Panic.

Definition node_field (f : FieldNode) (off : nat) (v : fvalue) (buf : bytes) (cur : nat)
  : res wire_error (bytes * nat) :=
  let bufOffset := (4 + off)%nat in
  match tn_Kind (fn_Type f), v with
  | TypeInt32, FInt z => let? buf := put_le 0 4 buf bufOffset (u32 z) in Ok (buf, cur)
  | TypeInt64, FInt z => let? buf := put_le 0 8 buf bufOffset (u64 (js_number z)) in Ok (buf, cur)
  | TypeBool, FBool b => let? buf := put buf bufOffset (if b then 1 else 0) in Ok (buf, cur)
  | TypeString, FStr s =>
      if (0 <? length s)%nat then
        let relOffset := u32 (Z.of_nat cur - Z.of_nat bufOffset) in
        let? buf := put_le 0 4 buf bufOffset relOffset in
        let? buf := put_le 0 4 buf cur (u32 (Z.of_nat (length s))) in
        let? buf := typed_set buf (cur + 4) s in
        Ok (buf, (cur + (4 + length s))%nat)
      else Ok (buf, cur)
  | _, _ => Ok (buf, cur)
  end.

Definition node_fields := walk_fields node_field.

Fixpoint node_vtable (idx : nat) (offsets : list nat) (buf : bytes) (vtableStart : nat) : res wire_error bytes :=
  match offsets with
  | [] => Ok buf
  | off :: offsets' =>
      let? buf := put_le 0 2 buf (vtableStart + (4 + 2 * idx)) (u16 (Z.of_nat off)) in
      node_vtable (S idx) offsets' buf vtableStart
  end.

Definition node_marshal (fields : list FieldNode) (x : fmessage) : res wire_error bytes :=
  let dynamicSize := foldr Nat.add 0%nat (zip_with node_dynamic fields x) in
  let tableSize := flat_tsize fields in
  let vtableSize := flat_vsize fields in
  let totalSize := (4 + tableSize + dynamicSize + vtableSize)%nat in
  let buf := replicate totalSize x00 in
  let? buf := put_le 0 4 buf 0 4 in
  let vtableStart := (4 + tableSize + dynamicSize)%nat in
  let? buf := put_le 0 4 buf 4 (u32 (Z.of_nat vtableStart - 4)) in
  let? (buf, _) := node_fields fields (flat_offs fields) x buf (4 + tableSize) in
  let? buf := put_le 0 2 buf vtableStart (u16 (Z.of_nat vtableSize)) in
  let? buf := put_le 0 2 buf (vtableStart + 2) (u16 (Z.of_nat tableSize)) in
  node_vtable 0 (flat_offs fields) buf vtableStart.

(** ** The Python encoder

    [struct.pack_into] raises [struct.error] for a number outside the format's range or
    a buffer too short ([Panic] here); [.encode] of a non-empty [bytes] raises
    [AttributeError] ([UnsupportedLazy] stands for it). *)
Definition pack (n : nat) (lo hi : Z) (buf : bytes) (off : nat) (v : Z) : res wire_error bytes :=
  if (lo <=? v) && (v <? hi) then put_le 0 n buf off v else Err Panic.

Fixpoint python_dynamic (fields : list FieldNode) (x : fmessage) : res wire_error nat :=
  match fields, x with
  | f :: fields', v :: x' =>
      let? n :=
        match tn_Kind (fn_Type f), v with
        | TypeString, FStr s => Ok (if (0 <? length s)%nat then 4 + length s else 0)%nat
        | TypeBinary, FStr s => if (0 <? length s)%nat then Err UnsupportedLazy else Ok 0%nat
        | _, _ => Ok 0%nat
        end in
      let? rest := python_dynamic fields' x' in Ok (n + rest)%nat
  | _, _ => Ok 0%nat
  end.

(** [buf[off:off+len(src)] = src]: a slice assignment of equal length; a slice past the
    end would extend the array. *)
Definition slice_assign (buf : bytes) (off : nat) (src : bytes) : bytes :=
  take off buf ++ src ++ drop (off + length src) buf.

Definition python_field (f : FieldNode) (off : nat) (v : fvalue) (buf : bytes) (cur : nat)
  : res wire_error (bytes * nat) :=
  match tn_Kind (fn_Type f), v with
  | TypeInt32, FInt z => let? buf := pack 4 (- 2 ^ 31) (2 ^ 31) buf (4 + off) z in Ok (buf, cur)
  | TypeInt64, FInt z => let? buf := pack 8 (- 2 ^ 63) (2 ^ 63) buf (4 + off) z in Ok (buf, cur)
  | TypeBool, FBool b => let? buf := put buf (4 + off) (if b then 1 else 0) in Ok (buf, cur)
  | TypeString, FStr s =>
      if (0 <? length s)%nat then
        let? buf := pack 4 0 (2 ^ 32) buf (4 + off) (Z.of_nat cur - Z.of_nat (4 + off)) in
        let? buf := pack 4 0 (2 ^ 32) buf cur (Z.of_nat (length s)) in
        Ok (slice_assign buf (cur + 4) s, (cur + (4 + length s))%nat)
      else Ok (buf, cur)
  | _, _ => Ok (buf, cur)
  end.

Definition python_fields := walk_fields python_field.

Fixpoint python_vtable (idx : nat) (offsets : list nat) (buf : bytes) (vtable_start : nat) : res wire_error bytes :=
  match offsets with
  | [] => Ok buf
  | off :: offsets' =>
      let? buf := pack 2 0 (2 ^ 16) buf (vtable_start + 4 + 2 * idx) (Z.of_nat off) in
      python_vtable (S idx) offsets' buf vtable_start
  end.

Definition python_marshal (fields : list FieldNode) (x : fmessage) : res wire_error bytes :=
  let? dynamic_size := python_dynamic fields x in
  let table_size := flat_tsize fields in
  let vtable_size := flat_vsize fields in
  let buf := replicate (4 + table_size + dynamic_size + vtable_size) x00 in
  let? buf := pack 4 0 (2 ^ 32) buf 0 4 in
  let vtable_start := (4 + table_size + dynamic_size)%nat in
  let? buf := pack 4 (- 2 ^ 31) (2 ^ 31) buf 4 (Z.of_nat vtable_start - 4) in
  let? (buf, _) := python_fields fields (flat_offs fields) x buf (4 + table_size) in
  let? buf := pack 2 0 (2 ^ 16) buf vtable_start (Z.of_nat vtable_size) in
  let? buf := pack 2 0 (2 ^ 16) buf (vtable_start + 2) (Z.of_nat table_size) in
  python_vtable 0 (flat_offs fields) buf vtable_start.

(** ** Bytes at an offset *)

(** The [n] bytes from [off] on are the little-endian bytes of [v]. *)
Definition holds (buf : bytes) (off n : nat) (v : Z) : Prop :=
  forall j, (j < n)%nat -> buf !! (off + j)%nat = Some (byte_of_Z (Z.shiftr v (8 * Z.of_nat j))).

(** [buf'] has the length of [buf] and differs at most where [P] holds. *)
Definition changed (P : nat -> Prop) (buf buf' : bytes) : Prop :=
  length buf' = length buf /\ forall p, ~ P p -> buf' !! p = buf !! p.

Definition span (lo n p : nat) : Prop := (lo <= p < lo + n)%nat.

Lemma changed_refl P buf : changed P buf buf.
Proof. by split. Qed.

Lemma changed_trans (P Q : nat -> Prop) a b c :
  changed P a b -> changed Q b c -> changed (fun p => P p \/ Q p) a c.
Proof. intros [L1 H1] [L2 H2]. split; [congruence|]. intros p Hp. rewrite H2, H1; tauto. Qed.

Lemma changed_weaken (P Q : nat -> Prop) a b : (forall p, P p -> Q p) -> changed P a b -> changed Q a b.
Proof. intros HPQ [L H]. split; [done|]. intros p Hp. apply H. auto. Qed.

Lemma holds_changed P buf buf' off n v :
  changed P buf buf' -> (forall p, span off n p -> ~ P p) -> holds buf off n v -> holds buf' off n v.
Proof. intros [_ H] HP Hh j Hj. rewrite H; [by apply Hh|]. apply HP. unfold span. lia. Qed.

Lemma put_spec buf i b : (i < length buf)%nat ->
  exists buf', put buf i b = Ok buf' /\ changed (span i 1) buf buf' /\ buf' !! i = Some (byte_of_Z b).
Proof.
  intros Hi. unfold put. rewrite (proj2 (Nat.ltb_lt _ _) Hi). eexists. split; [done|].
  repeat split.
  - apply length_insert.
  - intros p Hp. apply list_lookup_insert_ne. unfold span in Hp. lia.
  - by apply list_lookup_insert_eq.
Qed.

Lemma put_le_spec j n buf off v : (off + j + n <= length buf)%nat ->
  exists buf', put_le j n buf off v = Ok buf' /\ changed (span (off + j) n) buf buf' /\
    forall i, (j <= i < j + n)%nat -> buf' !! (off + i)%nat = Some (byte_of_Z (Z.shiftr v (8 * Z.of_nat i))).
Proof.
  revert j buf. induction n as [|n IH]; intros j buf Hl.
  { exists buf. split; [done|]. split; [apply changed_refl|]. lia. }
  destruct (put_spec buf (off + j) (Z.shiftr v (8 * Z.of_nat j))) as (b1 & E1 & C1 & L1); [lia|].
  destruct (IH (S j) b1) as (b2 & E2 & C2 & L2); [rewrite (proj1 C1); lia|].
  exists b2. cbn [put_le]. rewrite E1. cbn [res_bind]. split; [done|]. split.
  - eapply changed_weaken; [|exact (changed_trans _ _ _ _ _ C1 C2)]. unfold span. intros p. lia.
  - intros i Hi. destruct (decide (i = j)) as [->|]; [|apply L2; lia].
    rewrite (proj2 C2); [done|]. unfold span. lia.
Qed.

Lemma put_le_holds n buf off v : (off + n <= length buf)%nat ->
  exists buf', put_le 0 n buf off v = Ok buf' /\ changed (span off n) buf buf' /\ holds buf' off n v.
Proof.
  intros Hl. destruct (put_le_spec 0 n buf off v) as (b & E & C & L); [lia|].
  exists b. rewrite Nat.add_0_r in C. split; [done|]. split; [done|]. intros j Hj. apply L. lia.
Qed.

Lemma get_byte buf (i : nat) v : buf !! i = Some (byte_of_Z v) -> get buf (Z.of_nat i) = Ok (u8 v).
Proof.
  intros H. unfold get. rewrite (proj2 (Z.ltb_ge _ _)) by lia. rewrite Nat2Z.id, H. by rewrite byte_to_of_Z.
Qed.

Lemma get_le_holds n buf (off : nat) v : holds buf off n v ->
  get_le n buf (Z.of_nat off) = Ok (wrapU (8 * Z.of_nat n) v).
Proof.
  revert off v. induction n as [|n IH]; intros off v Hh.
  { cbn. unfold wrapU. by rewrite Z.mod_1_r. }
  cbn [get_le]. rewrite (get_byte _ _ v).
  2:{ specialize (Hh 0%nat). rewrite Nat.add_0_r in Hh. rewrite Hh by lia. done. }
  cbn [res_bind]. replace (Z.of_nat off + 1) with (Z.of_nat (S off)) by lia.
  rewrite (IH (S off) (Z.shiftr v 8)).
  2:{ intros j Hj. replace (S off + j)%nat with (off + S j)%nat by lia. rewrite Hh by lia.
      do 2 f_equal. rewrite Z.shiftr_shiftr by lia. f_equal. lia. }
  cbn [res_bind]. f_equal. unfold wrapU at 1. rewrite lor_add by (try apply Z.mod_pos_bound; lia).
  unfold wrapU. rewrite Z.shiftr_div_pow2 by lia.
  replace (8 * Z.of_nat (S n)) with (8 + 8 * Z.of_nat n) by lia.
  rewrite Z.pow_add_r, Z.rem_mul_r by lia. lia.
Qed.

Definition str_at (buf : bytes) (off : nat) (s : bytes) : Prop :=
  forall j, (j < length s)%nat -> buf !! (off + j)%nat = s !! j.

Lemma copy_at_spec buf i s : (i + length s <= length buf)%nat ->
  exists buf', copy_at buf i s = (buf', (i + length s)%nat) /\ changed (span i (length s)) buf buf' /\ str_at buf' i s.
Proof.
  intros Hl. unfold copy_at. rewrite Nat.min_l by lia. rewrite (take_ge s) by lia.
  eexists. split; [done|]. split; [split|].
  - rewrite !length_app, length_take, length_drop. lia.
  - intros p Hp. unfold span in Hp. destruct (decide (p < i)%nat).
    + rewrite lookup_app_l by (rewrite length_take; lia). by apply lookup_take_lt.
    + rewrite lookup_app_r, length_take, Nat.min_l by (rewrite ?length_take; lia).
      rewrite lookup_app_r by lia. rewrite lookup_drop. f_equal. lia.
  - intros j Hj. rewrite lookup_app_r, length_take, Nat.min_l by (rewrite ?length_take; lia).
    replace (i + j - i)%nat with j by lia. by apply lookup_app_l.
Qed.

Lemma str_at_changed P buf buf' off s :
  changed P buf buf' -> (forall p, span off (length s) p -> ~ P p) -> str_at buf off s -> str_at buf' off s.
Proof. intros [_ H] HP Hs j Hj. rewrite H; [by apply Hs|]. apply HP. unfold span. lia. Qed.

Lemma sub_slice_str_at buf (off : nat) s : str_at buf off s -> (off + length s <= length buf)%nat ->
  sub_slice buf (Z.of_nat off) (Z.of_nat off + Z.of_nat (length s)) = Ok s.
Proof.
  intros Hs Hl. unfold sub_slice.
  rewrite (proj2 (Z.leb_le _ _)), (proj2 (Z.leb_le _ _)), (proj2 (Z.leb_le _ _)) by lia. cbn [andb].
  f_equal. replace (Z.to_nat (Z.of_nat off + Z.of_nat (length s) - Z.of_nat off)) with (length s) by lia.
  rewrite Nat2Z.id. apply list_eq. intros j. destruct (decide (j < length s)%nat) as [Hj|Hj].
  - rewrite lookup_take_lt, lookup_drop by done. by apply Hs.
  - rewrite lookup_take_ge by lia. symmetry. apply lookup_ge_None. lia.
Qed.

(** ** One field *)

(** Values a Go struct of these fields can hold. *)
Definition flat_typed (f : FieldNode) (v : fvalue) : Prop :=
  match tn_Kind (fn_Type f), v with
  | TypeInt32, FInt z => in_s 32 z
  | TypeInt64, FInt z => in_s 64 z
  | TypeBool, FBool _ => True
  | (TypeString | TypeBinary), FStr _ => True
  | (TypeInt32 | TypeInt64 | TypeBool | TypeString | TypeBinary), _ => False
  | _, _ => v = FOther
  end.

(** What the encoding keeps of a value: every kind but int32, int64, bool and string is
    dropped. *)
Definition carried (f : FieldNode) (v : fvalue) : fvalue :=
  match tn_Kind (fn_Type f) with
  | TypeInt32 | TypeInt64 | TypeBool | TypeString => v
  | _ => flat_zero f
  end.

Definition fsize (f : FieldNode) : nat := Z.to_nat (flat_size (tn_Kind (fn_Type f))).
(** Bytes the field takes in the string area. *)
Definition sdyn (f : FieldNode) (v : fvalue) : nat :=
  match tn_Kind (fn_Type f), v with
  | TypeString, FStr s => if (0 <? length s)%nat then 4 + length s else 0
  | _, _ => 0
  end.
Definition foot (f : FieldNode) (off cur : nat) (v : fvalue) (p : nat) : Prop :=
  span (4 + off) (fsize f) p \/ span cur (sdyn f v) p.

(** The bytes of one encoded field. *)
Definition field_at (buf : bytes) (f : FieldNode) (off cur : nat) (v : fvalue) : Prop :=
  match tn_Kind (fn_Type f), v with
  | TypeInt32, FInt z => holds buf (4 + off) 4 (u32 z)
  | TypeInt64, FInt z => holds buf (4 + off) 8 (u64 z)
  | TypeBool, FBool b => buf !! (4 + off)%nat = Some (byte_of_Z (if b then 1 else 0))
  | TypeString, FStr [] => holds buf (4 + off) 4 0
  | TypeString, FStr s =>
      holds buf (4 + off) 4 (Z.of_nat (cur - (4 + off))) /\
      holds buf cur 4 (Z.of_nat (length s)) /\ str_at buf (cur + 4) s
  | _, _ => True
  end.

Lemma field_at_changed P buf buf' f off cur v :
  changed P buf buf' -> (forall p, foot f off cur v p -> ~ P p) ->
  field_at buf f off cur v -> field_at buf' f off cur v.
Proof.
  intros C HP. unfold field_at, foot, fsize, sdyn in *.
  destruct (tn_Kind (fn_Type f)); destruct v as [z|b|s|]; try done; cbn [flat_size] in HP.
  - apply (holds_changed _ _ _ _ _ _ C). intros p Hp. apply HP. left. exact Hp.
  - apply (holds_changed _ _ _ _ _ _ C). intros p Hp. apply HP. left. exact Hp.
  - destruct s as [|c s].
    + apply (holds_changed _ _ _ _ _ _ C). intros p Hp. apply HP. left. exact Hp.
    + intros (H1 & H2 & H3). split; [|split].
      * revert H1. apply (holds_changed _ _ _ _ _ _ C). intros p Hp. apply HP. left. exact Hp.
      * revert H2. apply (holds_changed _ _ _ _ _ _ C). intros p Hp. apply HP. right. unfold span in *. cbn in *. lia.
      * revert H3. apply (str_at_changed _ _ _ _ _ C). intros p Hp. apply HP. right. unfold span in *. cbn in *. lia.
  - intros H. rewrite (proj2 C); [done|]. apply HP. left. unfold span. cbn. lia.
Qed.

Lemma u32_nat n : Z.of_nat n < 2 ^ 31 -> u32 (Z.of_nat n) = Z.of_nat n.
Proof. intros H. apply wrapU_id. unfold in_u. lia. Qed.

Lemma flat_field_spec f off cur v buf :
  flat_typed f v -> (4 + off + fsize f <= cur)%nat -> (cur + sdyn f v <= length buf)%nat ->
  Z.of_nat (length buf) < 2 ^ 31 -> holds buf (4 + off) (fsize f) 0 ->
  exists buf', flat_field f off v buf cur = Ok (buf', (cur + sdyn f v)%nat) /\
    changed (foot f off cur v) buf buf' /\ field_at buf' f off cur v.
Proof.
  intros Ht Ho Hc Hl Hz. unfold flat_field, foot, field_at, flat_typed, sdyn, fsize in *.
  destruct (tn_Kind (fn_Type f)); destruct v as [z|b|s|]; try done; cbn [flat_size] in *;
    try (exists buf; rewrite Nat.add_0_r; split; [done|]; split; [apply changed_refl|done]).
  - destruct (put_le_holds 4 buf (4 + off) (u32 z)) as (b & -> & C & H); [lia|].
    exists b. cbn [res_bind]. rewrite Nat.add_0_r. split; [done|]. split; [|done].
    revert C. apply changed_weaken. by left.
  - destruct (put_le_holds 8 buf (4 + off) (u64 z)) as (b & -> & C & H); [lia|].
    exists b. cbn [res_bind]. rewrite Nat.add_0_r. split; [done|]. split; [|done].
    revert C. apply changed_weaken. by left.
  - destruct s as [|c s].
    { exists buf. cbn. rewrite Nat.add_0_r. split; [done|]. split; [apply changed_refl|done]. }
    assert ((0 <? length (c :: s))%nat = true) as Hs by (apply Nat.ltb_lt; cbn; lia). rewrite Hs in *.
    set (n := length (c :: s)) in *.
    replace (u32 (Z.of_nat cur - Z.of_nat (4 + off))) with (Z.of_nat (cur - (4 + off))).
    2:{ rewrite <- (u32_nat (cur - (4 + off))) by lia. f_equal. lia. }
    rewrite (u32_nat n) by lia.
    destruct (put_le_holds 4 buf (4 + off) (Z.of_nat (cur - (4 + off)))) as (b1 & -> & C1 & H1); [lia|].
    cbn [res_bind].
    destruct (put_le_holds 4 b1 cur (Z.of_nat n)) as (b2 & -> & C2 & H2); [rewrite (proj1 C1); lia|].
    cbn [res_bind].
    destruct (copy_at_spec b2 (cur + 4) (c :: s)) as (b3 & -> & C3 & H3).
    { rewrite (proj1 C2), (proj1 C1). fold n. lia. }
    exists b3. split; [done|]. split; [|split; [|split]].
    + eapply changed_weaken; [|exact (changed_trans _ _ _ _ _ (changed_trans _ _ _ _ _ C1 C2) C3)].
      fold n. unfold span. intros p. lia.
    + apply (holds_changed _ _ _ _ _ _ C3); [unfold span; lia|].
      apply (holds_changed _ _ _ _ _ _ C2); [unfold span; lia|done].
    + apply (holds_changed _ _ _ _ _ _ C3); [unfold span; lia|done].
    + done.
  - destruct b.
    + destruct (put_spec buf (4 + off) 1) as (b & -> & C & H); [lia|].
      exists b. cbn [res_bind]. rewrite Nat.add_0_r. split; [done|]. split; [|done].
      revert C. apply changed_weaken. unfold span. intros p. lia.
    + exists buf. rewrite Nat.add_0_r. split; [done|]. split; [apply changed_refl|].
      specialize (Hz 0%nat). rewrite Nat.add_0_r in Hz. apply Hz. lia.
Qed.

(** ** The table layout *)
Fixpoint layout_ok (c : nat) (fields : list FieldNode) (offs : list nat) (T : nat) : Prop :=
  match fields, offs with
  | [], [] => (c <= T)%nat
  | f :: fields', o :: offs' => (c <= o)%nat /\ layout_ok (o + fsize f) fields' offs' T
  | _, _ => False
  end.

Lemma layout_le c fields offs T : layout_ok c fields offs T -> (c <= T)%nat.
Proof.
  revert c offs. induction fields as [|f fields IH]; intros c [|o offs] H; cbn in H; try done.
  destruct H as [H1 H2]. apply IH in H2. lia.
Qed.

Lemma flat_size_pos k : 0 < flat_size k.
Proof. by destruct k. Qed.

(** Fields are placed one after the other, each at or after the end of the last. *)
Lemma flat_layout_ok c fields : 0 <= c ->
  layout_ok (Z.to_nat c) fields (Z.to_nat <$> fst (flat_layout c fields)) (Z.to_nat (snd (flat_layout c fields))).
Proof.
  revert c. induction fields as [|f fields IH]; intros c Hc; cbn [flat_layout].
  { cbn. lia. }
  pose proof (flat_size_pos (tn_Kind (fn_Type f))) as Hs. set (size := flat_size (tn_Kind (fn_Type f))) in *.
  assert (0 <= Z.rem c size < size) as Hr by (rewrite Z.rem_mod_nonneg by lia; apply Z.mod_pos_bound; lia).
  set (c' := if negb (Z.rem c size =? 0) then c + (size - Z.rem c size) else c).
  assert (c <= c') as Hc' by (unfold c'; destruct (negb (Z.rem c size =? 0)); lia).
  specialize (IH (c' + size)). destruct (flat_layout (c' + size) fields) as [offs T] eqn:E.
  cbn [fst snd fmap list_fmap layout_ok] in *. split; [lia|].
  unfold fsize. fold size. rewrite <- Z2Nat.inj_add by lia. apply IH. lia.
Qed.

Lemma flat_offs_ok fields : layout_ok 4 fields (flat_offs fields) (flat_tsize fields).
Proof. exact (flat_layout_ok 4 fields ltac:(lia)). Qed.

Lemma layout_length c fields offs T : layout_ok c fields offs T -> length offs = length fields.
Proof.
  revert c offs. induction fields as [|f fields IH]; intros c [|o offs] H; cbn in H; try done.
  destruct H as [_ H]. cbn. f_equal. by eapply IH.
Qed.

Lemma layout_bounds c fields offs T i o : layout_ok c fields offs T -> offs !! i = Some o ->
  (c <= o < T)%nat.
Proof.
  revert c offs i. induction fields as [|f fields IH]; intros c [|o' offs] i H Hi; cbn in H; try done.
  destruct H as [H1 H2]. destruct i as [|i]; cbn in Hi.
  - simplify_eq. apply layout_le in H2. pose proof (flat_size_pos (tn_Kind (fn_Type f))). unfold fsize in H2. lia.
  - apply (IH _ _ _ H2) in Hi. lia.
Qed.

(** ** All fields *)
Fixpoint sdyns (fields : list FieldNode) (x : fmessage) : nat :=
  match fields, x with f :: fields', v :: x' => sdyn f v + sdyns fields' x' | _, _ => 0 end.
Fixpoint fields_at (buf : bytes) (fields : list FieldNode) (offs : list nat) (cur : nat) (x : fmessage) : Prop :=
  match fields, offs, x with
  | f :: fields', o :: offs', v :: x' =>
      field_at buf f o cur v /\ fields_at buf fields' offs' (cur + sdyn f v) x'
  | _, _, _ => True
  end.

Lemma holds_zero_sub buf lo n lo' n' :
  holds buf lo n 0 -> (lo <= lo')%nat -> (lo' + n' <= lo + n)%nat -> holds buf lo' n' 0.
Proof.
  intros H H1 H2 j Hj. replace (lo' + j)%nat with (lo + (lo' - lo + j))%nat by lia.
  rewrite H by lia. by rewrite !Z.shiftr_0_l.
Qed.

Lemma fields_at_changed P buf buf' c fields offs T cur x :
  changed P buf buf' -> layout_ok c fields offs T -> length fields = length x ->
  (forall p, (4 + c <= p < 4 + T)%nat \/ (cur <= p < cur + sdyns fields x)%nat -> ~ P p) ->
  fields_at buf fields offs cur x -> fields_at buf' fields offs cur x.
Proof.
  intros C. revert c offs cur x. induction fields as [|f fields IH]; intros c [|o offs] cur [|v x] HL Hlen HP; try done.
  cbn [fields_at sdyns layout_ok] in *. destruct HL as [H1 H2]. pose proof (layout_le _ _ _ _ H2).
  intros [Hf Hr]. split.
  - revert Hf. apply (field_at_changed _ _ _ _ _ _ _ C). intros p Hp. apply HP. unfold foot, span in Hp. lia.
  - revert Hr. apply (IH _ _ _ _ H2); [cbn in Hlen; lia|]. intros p Hp. apply HP. lia.
Qed.

Lemma flat_fields_spec c fields offs T cur x buf :
  layout_ok c fields offs T -> Forall2 flat_typed fields x -> (4 + T <= cur)%nat ->
  (cur + sdyns fields x <= length buf)%nat -> Z.of_nat (length buf) < 2 ^ 31 ->
  holds buf (4 + c) (T - c) 0 ->
  exists buf', flat_fields fields offs x buf cur = Ok (buf', (cur + sdyns fields x)%nat) /\
    changed (fun p => (4 + c <= p < 4 + T)%nat \/ (cur <= p < cur + sdyns fields x)%nat) buf buf' /\
    fields_at buf' fields offs cur x.
Proof.
  intros HL HF. revert c offs cur buf HL. induction HF as [|f v fields x Hf HF IH];
    intros c [|o offs] cur buf HL HT Hc Hl Hz; cbn [layout_ok] in HL; try done.
  { exists buf. cbn. rewrite Nat.add_0_r. split; [done|]. split; [apply changed_refl|done]. }
  destruct HL as [H1 H2]. pose proof (layout_le _ _ _ _ H2) as H3.
  unfold flat_fields in *. cbn [sdyns walk_fields fields_at] in *.
  destruct (flat_field_spec f o cur v buf Hf) as (b1 & E1 & C1 & A1); [lia|lia|lia| |].
  { apply (holds_zero_sub _ _ _ _ _ Hz); lia. }
  destruct (IH (o + fsize f)%nat offs (cur + sdyn f v)%nat b1 H2) as (b2 & E2 & C2 & A2).
  - lia.
  - rewrite (proj1 C1). lia.
  - by rewrite (proj1 C1).
  - apply (holds_changed _ _ _ _ _ _ C1); [unfold foot, span; lia|].
    apply (holds_zero_sub _ _ _ _ _ Hz); lia.
  - exists b2. rewrite E1. cbn [res_bind]. rewrite E2, Nat.add_assoc. split; [done|]. split; [|split; [|done]].
    + eapply changed_weaken; [|exact (changed_trans _ _ _ _ _ C1 C2)]. unfold foot, span. intros p. lia.
    + revert A1. apply (field_at_changed _ _ _ _ _ _ _ C2). unfold foot, span. intros p. lia.
Qed.

(** ** The vtable *)
Lemma put2_spec buf p v : (p + 1 < length buf)%nat ->
  exists b1 b2, put buf p v = Ok b1 /\ put b1 (p + 1) (Z.shiftr v 8) = Ok b2 /\
    changed (span p 2) buf b2 /\ holds b2 p 2 v.
Proof.
  intros Hl. destruct (put_le_spec 0 2 buf p v) as (b2 & E & C & L); [lia|].
  cbn [put_le] in E. rewrite Nat.add_0_r in E. change (8 * Z.of_nat 0) with 0 in E. rewrite Z.shiftr_0_r in E.
  destruct (put buf p v) as [b1|] eqn:E1; [|done]. cbn [res_bind] in E.
  change (8 * Z.of_nat 1) with 8 in E. destruct (put b1 (p + 1) (Z.shiftr v 8)) as [b2'|] eqn:E2; [|done].
  cbn in E. injection E as ->. exists b1, b2. rewrite Nat.add_0_r in C. split; [done|]. split; [done|].
  split; [done|]. intros j Hj. apply L. lia.
Qed.

Lemma flat_vtable_spec idx offs buf vs : (vs + 4 + 2 * (idx + length offs) <= length buf)%nat ->
  exists buf', flat_vtable idx offs buf vs = Ok buf' /\
    changed (span (vs + 4 + 2 * idx) (2 * length offs)) buf buf' /\
    forall i o, offs !! i = Some o -> holds buf' (vs + 4 + 2 * (idx + i)) 2 (Z.of_nat o).
Proof.
  revert idx buf. induction offs as [|o offs IH]; intros idx buf Hl.
  { exists buf. split; [done|]. split; [apply changed_refl|done]. }
  cbn [length flat_vtable] in *.
  destruct (put2_spec buf (vs + 4 + 2 * idx) (Z.of_nat o)) as (b1 & b2 & E1 & E2 & C1 & A1); [lia|].
  destruct (IH (S idx) b2) as (b3 & E3 & C3 & A3); [rewrite (proj1 C1); lia|].
  exists b3. rewrite E1. cbn [res_bind]. rewrite E2. cbn [res_bind]. split; [done|]. split.
  - eapply changed_weaken; [|exact (changed_trans _ _ _ _ _ C1 C3)]. unfold span. intros p. lia.
  - intros [|i] o' Hi; cbn in Hi.
    + simplify_eq. rewrite Nat.add_0_r. apply (holds_changed _ _ _ _ _ _ C3); [unfold span; lia|done].
    + replace (vs + 4 + 2 * (idx + S i))%nat with (vs + 4 + 2 * (S idx + i))%nat by lia. by apply A3.
Qed.

(** ** The encoder *)
Record encoded (buf : bytes) (fields : list FieldNode) (x : fmessage) (vs : nat) : Prop := {
  enc_length : length buf = (vs + flat_vsize fields)%nat;
  enc_root : holds buf 0 4 4;
  enc_vtable_offset : holds buf 4 4 (i32 (Z.of_nat vs - 4));
  enc_vtable_size : holds buf vs 2 (Z.of_nat (flat_vsize fields));
  enc_entries : forall i o, flat_offs fields !! i = Some o -> holds buf (vs + 4 + 2 * i) 2 (Z.of_nat o);
  enc_fields : fields_at buf fields (flat_offs fields) (4 + flat_tsize fields) x
}.

Lemma sdyns_le fields x : (sdyns fields x <= dynamicSize fields x)%nat.
Proof.
  unfold dynamicSize. revert x. induction fields as [|f fields IH]; intros [|v x]; cbn; try lia.
  specialize (IH x). assert (sdyn f v <= dynamic_size f v)%nat; [|lia].
  unfold sdyn, dynamic_size. destruct (tn_Kind (fn_Type f)), v; apply Nat.le_0_l || done.
Qed.

Lemma marshal_flat_spec fields x :
  Forall2 flat_typed fields x ->
  let vs := (4 + flat_tsize fields + dynamicSize fields x)%nat in
  Z.of_nat (vs + flat_vsize fields) < 2 ^ 31 ->
  exists buf, MarshalFlatBuffers fields x = Ok buf /\ encoded buf fields x vs.
Proof.
  intros HF vs Hl. unfold MarshalFlatBuffers. fold vs.
  pose proof (flat_offs_ok fields) as HL. pose proof (layout_le _ _ _ _ HL) as HT.
  pose proof (sdyns_le fields x) as HD. pose proof (layout_length _ _ _ _ HL) as Hlen.
  set (T := flat_tsize fields) in *. set (V := flat_vsize fields) in *.
  assert (V = 4 + 2 * length fields)%nat as HV by done.
  assert (vs = 4 + T + dynamicSize fields x)%nat as Hvs by done. clearbody vs.
  set (b0 := replicate (vs + V) x00).
  assert (length b0 = (vs + V)%nat) as L0 by apply length_replicate.
  assert (holds b0 0 (vs + V) 0) as Z0.
  { intros j Hj. unfold b0; rewrite lookup_replicate_2 by lia. by rewrite Z.shiftr_0_l. }
  destruct (put_spec b0 0 4) as (b1 & -> & C1 & A1); [lia|]. cbn [res_bind].
  destruct (put_le_holds 4 b1 4 (i32 (Z.of_nat vs - 4))) as (b2 & -> & C2 & A2); [rewrite (proj1 C1), L0; lia|].
  cbn [res_bind]. pose proof (changed_trans _ _ _ _ _ C1 C2) as C12.
  destruct (flat_fields_spec 4 fields (flat_offs fields) T (4 + T) x b2 HL HF) as (b3 & -> & C3 & A3).
  { lia. } { rewrite (proj1 C12), L0. lia. } { rewrite (proj1 C12), L0. lia. }
  { apply (holds_changed _ _ _ _ _ _ C12); [unfold span; lia|]. apply (holds_zero_sub _ _ _ _ _ Z0); lia. }
  cbn [res_bind]. pose proof (changed_trans _ _ _ _ _ C12 C3) as C13.
  destruct (put2_spec b3 vs (Z.of_nat V)) as (b4 & b5 & -> & E5 & C5 & A5); [rewrite (proj1 C13), L0; lia|].
  cbn [res_bind]. rewrite E5. cbn [res_bind]. pose proof (changed_trans _ _ _ _ _ C13 C5) as C15.
  destruct (put2_spec b5 (vs + 2) (Z.of_nat T)) as (b6 & b7 & -> & E7 & C7 & A7); [rewrite (proj1 C15), L0; lia|].
  cbn [res_bind]. replace (vs + 2 + 1)%nat with (vs + 3)%nat in E7 by lia. rewrite E7. cbn [res_bind].
  pose proof (changed_trans _ _ _ _ _ C15 C7) as C17.
  destruct (flat_vtable_spec 0 (flat_offs fields) b7 vs) as (b8 & E8 & C8 & A8); [rewrite (proj1 C17), L0, Hlen; lia|].
  exists b8. split; [done|]. pose proof (changed_trans _ _ _ _ _ C17 C8) as C18. rewrite Hlen in *.
  split.
  - rewrite (proj1 C18). exact L0.
  - intros [|j] Hj.
    + rewrite (proj2 C8), (proj2 C7), (proj2 C5), (proj2 C3), (proj2 C2) by (unfold span; lia). done.
    + rewrite (proj2 C18) by (unfold span; lia). unfold b0; rewrite lookup_replicate_2 by lia.
      destruct j as [|[|[|j]]]; [done..|lia].
  - apply (holds_changed _ _ _ _ _ _ C8); [unfold span; lia|].
    apply (holds_changed _ _ _ _ _ _ C7); [unfold span; lia|].
    apply (holds_changed _ _ _ _ _ _ C5); [unfold span; lia|].
    apply (holds_changed _ _ _ _ _ _ C3); [unfold span; lia|done].
  - apply (holds_changed _ _ _ _ _ _ C8); [unfold span; lia|].
    apply (holds_changed _ _ _ _ _ _ C7); [unfold span; lia|done].
  - intros i o Hi. exact (A8 i o Hi).
  - apply Forall2_length in HF.
    apply (fields_at_changed _ _ _ _ _ _ _ _ _ C8 HL); [done|unfold span; lia|].
    apply (fields_at_changed _ _ _ _ _ _ _ _ _ C7 HL); [done|unfold span; lia|].
    apply (fields_at_changed _ _ _ _ _ _ _ _ _ C5 HL); [done|unfold span; lia|done].
Qed.

(** ** The decoder *)
Definition seen (f : FieldNode) (v : fvalue) : option fvalue :=
  match tn_Kind (fn_Type f) with
  | TypeInt32 | TypeInt64 | TypeBool | TypeString => Some v
  | _ => None
  end.

Lemma get_le_at n buf (off : nat) v : holds buf off n v -> in_u (8 * Z.of_nat n) v ->
  get_le n buf (Z.of_nat off) = Ok v.
Proof. intros H Hv. rewrite (get_le_holds _ _ _ _ H). by rewrite wrapU_id. Qed.

Lemma in_u_nat w n : Z.of_nat n < 2 ^ w -> in_u w (Z.of_nat n).
Proof. unfold in_u. lia. Qed.

Lemma read_string_at buf (off cur : nat) s :
  field_at buf {| fn_Name := ""; fn_ID := 0; fn_Type := scalar TypeString; fn_Optional := false |} off cur (FStr s) ->
  (4 + off + 4 <= cur)%nat -> (cur + (if (0 <? length s)%nat then 4 + length s else 0) <= length buf)%nat ->
  Z.of_nat (length buf) < 2 ^ 31 ->
  read_value TypeString buf (Z.of_nat (4 + off)) = Ok (Some (FStr s)).
Proof.
  intros Hf Ho Hc Hl. unfold field_at in Hf. cbn [fn_Type scalar tn_Kind] in Hf.
  assert (exists rel : nat, holds buf (4 + off) 4 (Z.of_nat rel) /\ holds buf (4 + off + rel) 4 (Z.of_nat (length s)) /\
    str_at buf (4 + off + rel + 4) s /\ (4 + off + rel + 4 + length s <= length buf)%nat) as (rel & H1 & H2 & H3 & H4).
  { destruct s as [|c s].
    - exists 0%nat. rewrite !Nat.add_0_r. split; [done|]. split; [done|]. split; [|cbn in Hc; lia]. intros j Hj. cbn in Hj. lia.
    - exists (cur - (4 + off))%nat. replace (4 + off + (cur - (4 + off)))%nat with cur by lia.
      destruct Hf as (H1 & H2 & H3). repeat split; [done..|]. cbn [length] in *. cbn in Hc. lia. }
  unfold read_value. rewrite (proj2 (Z.leb_le _ _)) by lia.
  rewrite (get_le_at _ _ _ _ H1) by (apply in_u_nat; lia). cbn [lift_panic res_bind].
  replace (Z.of_nat (4 + off) + Z.of_nat rel) with (Z.of_nat (4 + off + rel)) by lia.
  rewrite (proj2 (Z.leb_le _ _)) by lia.
  rewrite (get_le_at _ _ _ _ H2) by (apply in_u_nat; lia). cbn [lift_panic res_bind].
  rewrite (proj2 (Z.leb_le _ _)) by lia.
  replace (Z.of_nat (4 + off + rel) + 4) with (Z.of_nat (4 + off + rel + 4)) by lia.
  rewrite (sub_slice_str_at _ _ _ H3) by lia. done.
Qed.

Lemma read_value_at f buf (off cur : nat) v :
  flat_typed f v -> field_at buf f off cur v ->
  (4 + off + fsize f <= cur)%nat -> (cur + sdyn f v <= length buf)%nat -> Z.of_nat (length buf) < 2 ^ 31 ->
  read_value (tn_Kind (fn_Type f)) buf (Z.of_nat (4 + off)) = Ok (seen f v).
Proof.
  intros Ht Hf Ho Hc Hl. unfold seen. unfold fsize, sdyn, field_at, flat_typed in *.
  destruct (tn_Kind (fn_Type f)) eqn:K; try done; destruct v as [z|b|s|]; try done; cbn [flat_size] in *.
  - unfold read_value. rewrite (proj2 (Z.leb_le _ _)) by lia.
    rewrite (get_le_at _ _ _ _ Hf) by (apply wrapU_range; lia). cbn [lift_panic res_bind].
    by rewrite wrapS_wrapU, wrapS_id by (done || lia).
  - unfold read_value. rewrite (proj2 (Z.leb_le _ _)) by lia.
    rewrite (get_le_at _ _ _ _ Hf) by (apply wrapU_range; lia). cbn [lift_panic res_bind].
    by rewrite wrapS_wrapU, wrapS_id by (done || lia).
  - apply (read_string_at buf off cur s Hf); [|lia..]. change (Z.to_nat 4) with 4%nat in Ho. done.
  - unfold read_value. rewrite (proj2 (Z.ltb_lt _ _)) by lia.
    rewrite (get_byte _ _ _ Hf). by destruct b.
Qed.

Lemma read_fields_at buf vs (n idx : nat) fields offs T c cur x x0 :
  layout_ok c fields offs T -> Forall2 flat_typed fields x -> fields_at buf fields offs cur x ->
  length x0 = length fields -> (4 + T <= cur)%nat -> (cur + sdyns fields x <= length buf)%nat ->
  Z.of_nat (length buf) < 2 ^ 31 -> Z.of_nat T < 65536 -> (0 < c)%nat -> (idx + length fields <= n)%nat ->
  (forall i o, offs !! i = Some o -> holds buf (vs + 4 + 2 * (idx + i)) 2 (Z.of_nat o)) ->
  read_fields idx fields x0 buf 4 (Z.of_nat vs) (4 + 2 * Z.of_nat n) =
    Ok (zip_with (fun d o => default d o) x0 (zip_with seen fields x)).
Proof.
  intros HL HF. revert idx c offs cur x0 HL. induction HF as [|f v fields x Hf HF IH];
    intros idx c [|o offs] cur [|v0 x0] HL HA Hx0 HT Hc Hl HT2 Hc0 Hn HE; cbn [layout_ok] in HL; try done.
  destruct HL as [H1 H2]. pose proof (layout_le _ _ _ _ H2) as H3.
  cbn [fields_at sdyns] in *. destruct HA as [A1 A2]. cbn [read_fields zip_with].
  unfold read_field at 1. cbn [length] in Hn. rewrite (proj2 (Z.leb_le _ _)) by lia.
  specialize (HE 0%nat o eq_refl) as HE0. rewrite Nat.add_0_r in HE0.
  replace (Z.of_nat vs + (4 + 2 * Z.of_nat idx)) with (Z.of_nat (vs + 4 + 2 * idx)) by lia.
  rewrite (get_le_at _ _ _ _ HE0) by (apply in_u_nat; lia). cbn [lift_panic res_bind].
  rewrite (proj2 (Z.ltb_lt _ _)) by lia.
  replace (4 + Z.of_nat o) with (Z.of_nat (4 + o)) by lia.
  rewrite (read_value_at f buf o cur v Hf A1) by lia. cbn [res_bind].
  rewrite (IH (S idx) (o + fsize f)%nat offs (cur + sdyn f v)%nat x0 H2 A2); [done|cbn in Hx0; lia|lia..|].
  intros i o' Hi. replace (S idx + i)%nat with (idx + S i)%nat by lia. by apply HE.
Qed.

Lemma seen_carried fields x : Forall2 flat_typed fields x ->
  zip_with (fun d o => default d o) (flat_zero <$> fields) (zip_with seen fields x) = zip_with carried fields x.
Proof.
  induction 1 as [|f v fields x Hf _ IH]; [done|]. cbn. rewrite IH. f_equal.
  unfold seen, carried. by destruct (tn_Kind (fn_Type f)).
Qed.

(** ** Agreement of the encoders *)
Lemma byte_of_Z_u8 a b : u8 a = u8 b -> byte_of_Z a = byte_of_Z b.
Proof. intros H. apply byte_to_Z_inj. by rewrite !byte_to_of_Z. Qed.

Lemma shiftr_wrap_byte n v i : (i < n)%nat ->
  byte_of_Z (Z.shiftr (wrapU (8 * Z.of_nat n) v) (8 * Z.of_nat i)) = byte_of_Z (Z.shiftr v (8 * Z.of_nat i)).
Proof.
  intros Hi. apply byte_of_Z_u8. unfold wrapU. apply Z.bits_inj'. intros k Hk.
  destruct (Z.lt_ge_cases k 8).
  - rewrite !Z.mod_pow2_bits_low, !Z.shiftr_spec, Z.mod_pow2_bits_low by lia. done.
  - by rewrite !Z.mod_pow2_bits_high by lia.
Qed.

Lemma put_le_wrap_from m n j buf off v : (j + n <= m)%nat ->
  put_le j n buf off (wrapU (8 * Z.of_nat m) v) = put_le j n buf off v.
Proof.
  revert j buf. induction n as [|n IH]; intros j buf Hj; [done|]. cbn [put_le].
  unfold put. rewrite shiftr_wrap_byte by lia.
  destruct (off + j <? length buf)%nat; [|done]. cbn [res_bind]. apply IH. lia.
Qed.

(** The bytes written depend on the value modulo the width only. *)
Lemma put_le_wrap n buf off v : put_le 0 n buf off (wrapU (8 * Z.of_nat n) v) = put_le 0 n buf off v.
Proof. apply put_le_wrap_from. lia. Qed.

Lemma put_le_mod n buf off v w :
  wrapU (8 * Z.of_nat n) v = wrapU (8 * Z.of_nat n) w -> put_le 0 n buf off v = put_le 0 n buf off w.
Proof. intros H. by rewrite <- put_le_wrap, H, put_le_wrap. Qed.

Lemma pack_ok n lo hi buf off v : lo <= v < hi -> pack n lo hi buf off v = put_le 0 n buf off v.
Proof.
  intros H. unfold pack. rewrite (proj2 (Z.leb_le _ _)), (proj2 (Z.ltb_lt _ _)) by lia. done.
Qed.

Lemma put_zero buf p : buf !! p = Some x00 -> put buf p 0 = Ok buf.
Proof.
  intros H. unfold put. rewrite (proj2 (Nat.ltb_lt _ _)) by (by apply lookup_lt_Some in H).
  f_equal. by apply list_insert_id.
Qed.

Lemma put_root n : (4 <= n)%nat -> put_le 0 4 (replicate n x00) 0 4 = put (replicate n x00) 0 4.
Proof.
  intros Hn. do 4 (destruct n as [|n]; [lia|]). done.
Qed.

Lemma put2_le buf p v : put_le 0 2 buf p v =
  (let? buf := put buf p v in put buf (p + 1) (Z.shiftr v 8)).
Proof.
  cbn [put_le]. rewrite Nat.add_0_r. change (8 * Z.of_nat 0) with 0. rewrite Z.shiftr_0_r.
  destruct (put buf p v) as [b|]; [|done]. cbn [res_bind]. change (8 * Z.of_nat 1) with 8.
  by destruct (put b (p + 1) (Z.shiftr v 8)).
Qed.

Lemma copy_exact buf off s : (off + length s <= length buf)%nat ->
  copy_at buf off s = (slice_assign buf off s, (off + length s)%nat).
Proof.
  intros H. unfold copy_at, slice_assign. rewrite Nat.min_l by lia. by rewrite (take_ge s) by lia.
Qed.

(** A 64-bit integer that is a JS number. *)
Definition js_exact (f : FieldNode) (v : fvalue) : Prop :=
  match tn_Kind (fn_Type f), v with TypeInt64, FInt z => - 2 ^ 53 <= z <= 2 ^ 53 | _, _ => True end.

Lemma js_number_exact z : - 2 ^ 53 <= z <= 2 ^ 53 -> js_number z = z.
Proof. intros Hz. unfold js_number. by rewrite (proj2 (Z.leb_le _ _)) by lia. Qed.

(** The field encoders agree where the buffer has room and the slot is still zero. *)
Lemma field_encoders_agree f off cur v buf :
  flat_typed f v -> (4 + off + fsize f <= cur)%nat -> (cur + sdyn f v <= length buf)%nat ->
  Z.of_nat (length buf) < 2 ^ 31 -> holds buf (4 + off) (fsize f) 0 ->
  (js_exact f v -> node_field f off v buf cur = flat_field f off v buf cur) /\
  python_field f off v buf cur = flat_field f off v buf cur.
Proof.
  intros Ht Ho Hc Hl Hz. unfold node_field, python_field, flat_field, flat_typed, fsize, sdyn, js_exact in *.
  destruct (tn_Kind (fn_Type f)); destruct v as [z|b|s|]; try done; cbn [flat_size] in *.
  - split; [done|]. pose proof (proj1 (in_s32 z) Ht). rewrite pack_ok by lia.
    by rewrite (put_le_wrap 4 buf (4 + off) z : put_le 0 4 buf (4 + off) (u32 z) = _).
  - split; [intros Hz53; by rewrite js_number_exact|]. pose proof (proj1 (in_s64 z) Ht). rewrite pack_ok by lia.
    by rewrite (put_le_wrap 8 buf (4 + off) z : put_le 0 8 buf (4 + off) (u64 z) = _).
  - revert Hc. destruct (0 <? length s)%nat; intros Hc; [|done].
    rewrite pack_ok by lia. rewrite (wrapU_id 32 (Z.of_nat cur - Z.of_nat (4 + off))) by (unfold in_u; lia).
    rewrite u32_nat by lia.
    destruct (put_le_holds 4 buf (4 + off) (Z.of_nat cur - Z.of_nat (4 + off))) as (b1 & -> & C1 & _); [lia|].
    cbn [res_bind]. rewrite pack_ok by lia.
    destruct (put_le_holds 4 b1 cur (Z.of_nat (length s))) as (b2 & -> & C2 & _); [rewrite (proj1 C1); lia|].
    cbn [res_bind]. assert (cur + 4 + length s <= length b2)%nat as Hs by (rewrite (proj1 C2), (proj1 C1); lia).
    unfold typed_set. rewrite (proj2 (Nat.leb_le _ _) Hs), (copy_exact _ _ _ Hs). done.
  - assert (buf !! (4 + off)%nat = Some x00) as H0.
    { specialize (Hz 0%nat). rewrite Nat.add_0_r in Hz. apply Hz. lia. }
    destruct b; [done|]. by rewrite put_zero.
Qed.

Lemma field_loops_agree step (ok : FieldNode -> fvalue -> Prop) c fields offs T cur x buf :
  (forall f off v buf cur, ok f v -> flat_typed f v -> (4 + off + fsize f <= cur)%nat -> (cur + sdyn f v <= length buf)%nat ->
    Z.of_nat (length buf) < 2 ^ 31 -> holds buf (4 + off) (fsize f) 0 ->
    step f off v buf cur = flat_field f off v buf cur) ->
  layout_ok c fields offs T -> Forall2 flat_typed fields x -> Forall2 ok fields x -> (4 + T <= cur)%nat ->
  (cur + sdyns fields x <= length buf)%nat -> Z.of_nat (length buf) < 2 ^ 31 -> holds buf (4 + c) (T - c) 0 ->
  walk_fields step fields offs x buf cur = flat_fields fields offs x buf cur.
Proof.
  intros Hstep HL HF. revert c offs cur buf HL. unfold flat_fields.
  induction HF as [|f v fields x Hf HF IH]; intros c [|o offs] cur buf HL Hok HT Hc Hl Hz; cbn [layout_ok] in HL; try done.
  apply Forall2_cons in Hok as [Hok1 Hok].
  destruct HL as [H1 H2]. pose proof (layout_le _ _ _ _ H2) as H3. cbn [sdyns walk_fields] in *.
  assert (holds buf (4 + o) (fsize f) 0) as Hz' by (apply (holds_zero_sub _ _ _ _ _ Hz); lia).
  rewrite Hstep by (done || lia).
  destruct (flat_field_spec f o cur v buf Hf) as (b1 & -> & C1 & _); [lia|lia|lia|done|].
  cbn [res_bind]. apply (IH (o + fsize f)%nat offs _ _ H2); [done|lia|rewrite (proj1 C1); lia|by rewrite (proj1 C1)|].
  apply (holds_changed _ _ _ _ _ _ C1); [unfold foot, span; lia|]. apply (holds_zero_sub _ _ _ _ _ Hz); lia.
Qed.

Definition no_binary (f : FieldNode) (v : fvalue) : Prop := tn_Kind (fn_Type f) = TypeBinary -> v = FStr [].

Lemma dynamic_sizes_agree fields x : Forall2 flat_typed fields x -> Forall2 no_binary fields x ->
  foldr Nat.add 0%nat (zip_with node_dynamic fields x) = dynamicSize fields x /\
  python_dynamic fields x = Ok (dynamicSize fields x).
Proof.
  intros HF. induction HF as [|f v fields x Hf HF IH]; intros HB; [done|].
  apply Forall2_cons in HB as [HB1 HB2]. destruct (IH HB2) as [IH1 IH2]. unfold dynamicSize in *.
  cbn [zip_with foldr python_dynamic]. rewrite IH1, IH2.
  unfold node_dynamic, dynamic_size, flat_typed, no_binary in *.
  destruct (tn_Kind (fn_Type f)); destruct v; try done; cbn [res_bind]; try by split.
  specialize (HB1 eq_refl). by simplify_eq.
Qed.

Lemma vtables_agree idx offs buf vs : (forall i o, offs !! i = Some o -> Z.of_nat o < 65536) ->
  node_vtable idx offs buf vs = flat_vtable idx offs buf vs /\
  python_vtable idx offs buf vs = flat_vtable idx offs buf vs.
Proof.
  revert idx buf. induction offs as [|o offs IH]; intros idx buf Ho; [done|].
  assert (Z.of_nat o < 65536) as H0 by (by apply (Ho 0%nat)).
  cbn [node_vtable python_vtable flat_vtable]. rewrite Nat.add_assoc, wrapU_id, pack_ok, put2_le by (unfold in_u; lia).
  destruct (put buf (vs + 4 + 2 * idx) (Z.of_nat o)) as [b|]; [|done]. cbn [res_bind].
  destruct (put b (vs + 4 + 2 * idx + 1) _) as [b'|]; [|done]. cbn [res_bind].
  apply IH. intros i. apply (Ho (S i)).
Qed.

(** C18: the three encoders write the same bytes: the layouts the generators compute
    mirror each other.  The Python encoder produces exactly the bytes of the Go encoder for
    every message without a non-empty binary field; the TypeScript encoder does for those
    whose 64-bit integers are at most 2^53 in absolute value, which JS numbers hold exactly
    ([flat_number_rounds] shows one that is not).  A string is its UTF-8 bytes.  Non-empty
    binary fields, where the three differ, are excluded: the Go code counts them
    in the buffer size, the TypeScript code ignores them and the Python code cannot encode
    them. *)
Theorem flat_cross_language (fields : list FieldNode) (x : fmessage) :
  go_constants_fit fields = true -> Forall2 flat_typed fields x -> Forall2 no_binary fields x ->
  Z.of_nat (4 + flat_tsize fields + dynamicSize fields x + flat_vsize fields) < 2 ^ 31 ->
  (Forall2 js_exact fields x -> node_marshal fields x = MarshalFlatBuffers fields x) /\
  python_marshal fields x = MarshalFlatBuffers fields x.
Proof.
  intros Hgo HF HB Hl. unfold node_marshal, python_marshal, MarshalFlatBuffers.
  destruct (dynamic_sizes_agree fields x HF HB) as [-> ->]. cbn [res_bind].
  unfold go_constants_fit in Hgo. apply andb_true_iff in Hgo as [HV HT]. apply Nat.leb_le in HV, HT.
  pose proof (flat_offs_ok fields) as HL. pose proof (layout_le _ _ _ _ HL) as HT4.
  pose proof (sdyns_le fields x) as HD.
  assert (forall i o, flat_offs fields !! i = Some o -> Z.of_nat o < 65536) as Hoff.
  { intros i o Hi. pose proof (layout_bounds _ _ _ _ _ _ HL Hi). lia. }
  set (T := flat_tsize fields) in *. set (V := flat_vsize fields) in *. set (D := dynamicSize fields x) in *.
  rewrite !(pack_ok 4) by lia. rewrite !put_root by lia.
  set (b0 := replicate (4 + T + D + V) x00).
  assert (length b0 = 4 + T + D + V)%nat as L0 by apply length_replicate.
  destruct (put_spec b0 0 4) as (b1 & -> & C1 & _); [lia|]. cbn [res_bind].
  rewrite (put_le_mod 4 b1 4 (u32 (Z.of_nat (4 + T + D) - 4)) (Z.of_nat (4 + T + D) - 4))
    by (rewrite (wrapU_id 32 (Z.of_nat (4 + T + D) - 4)); [done|unfold in_u; lia]).
  rewrite (put_le_mod 4 b1 4 (i32 (Z.of_nat (4 + T + D) - 4)) (Z.of_nat (4 + T + D) - 4))
    by (rewrite (wrapS_id 32 (Z.of_nat (4 + T + D) - 4)); [done|lia|unfold in_s; lia]).
  rewrite (pack_ok 4) by lia.
  destruct (put_le_holds 4 b1 4 (Z.of_nat (4 + T + D) - 4)) as (b2 & -> & C2 & _); [rewrite (proj1 C1), L0; lia|].
  cbn [res_bind]. pose proof (changed_trans _ _ _ _ _ C1 C2) as C12.
  assert (holds b2 (4 + 4) (T - 4) 0) as Z2.
  { apply (holds_changed _ _ _ _ _ _ C12); [unfold span; lia|]. intros j Hj. unfold b0.
    rewrite lookup_replicate_2 by lia. by rewrite Z.shiftr_0_l. }
  assert (length b2 = 4 + T + D + V)%nat as L2 by (by rewrite (proj1 C12)).
  unfold node_fields, python_fields.
  rewrite (field_loops_agree python_field (fun _ _ => True) 4 fields (flat_offs fields) T (4 + T) x b2)
    by (done || lia || (by eapply Forall2_impl; [exact HF|]) || (intros; by apply field_encoders_agree)).
  assert (Forall2 js_exact fields x -> walk_fields node_field fields (flat_offs fields) x b2 (4 + T)
    = flat_fields fields (flat_offs fields) x b2 (4 + T)) as Hnode.
  { intros Hjs. apply (field_loops_agree node_field js_exact 4 fields (flat_offs fields) T (4 + T) x b2);
      done || lia || (intros; by apply field_encoders_agree). }
  split; [intros Hjs; rewrite (Hnode Hjs)|]; clear Hnode.
  all: destruct (flat_fields fields (flat_offs fields) x b2 (4 + T)) as [[b3 cur]|]; [|done]; cbn [res_bind].
  - rewrite !(wrapU_id 16), put2_le by (unfold in_u; lia).
    destruct (put b3 (4 + T + D) _) as [b4|]; [|done]. cbn [res_bind].
    destruct (put b4 (4 + T + D + 1) _) as [b5|]; [|done]. cbn [res_bind]. rewrite put2_le.
    destruct (put b5 (4 + T + D + 2) _) as [b6|]; [|done]. cbn [res_bind].
    replace (4 + T + D + 2 + 1)%nat with (4 + T + D + 3)%nat by lia.
    destruct (put b6 (4 + T + D + 3) _) as [b7|]; [|done]. cbn [res_bind]. by apply vtables_agree.
  - rewrite (pack_ok 2), put2_le by lia.
    destruct (put b3 (4 + T + D) _) as [b4|]; [|done]. cbn [res_bind].
    destruct (put b4 (4 + T + D + 1) _) as [b5|]; [|done]. cbn [res_bind]. rewrite (pack_ok 2), put2_le by lia.
    destruct (put b5 (4 + T + D + 2) _) as [b6|]; [|done]. cbn [res_bind].
    replace (4 + T + D + 2 + 1)%nat with (4 + T + D + 3)%nat by lia.
    destruct (put b6 (4 + T + D + 3) _) as [b7|]; [|done]. cbn [res_bind]. by apply vtables_agree.
Qed.

(** C17: what [UnmarshalFlatBuffers] reads back from the buffer [MarshalFlatBuffers]
    writes is the message itself, field by field, for int32, int64, bool and string
    fields; a field of any other kind comes back as its zero value.  It holds for every
    field list whose sizes and offsets fit a byte, as the Go compiler demands, and every
    message whose encoding is shorter than 2^31 bytes; the encoder does not fail there
    and the buffer has exactly the size it computed. *)
Theorem flat_roundtrip (fields : list FieldNode) (x : fmessage) :
  go_constants_fit fields = true -> Forall2 flat_typed fields x ->
  Z.of_nat (4 + flat_tsize fields + dynamicSize fields x + flat_vsize fields) < 2 ^ 31 ->
  exists buf, MarshalFlatBuffers fields x = Ok buf /\
    length buf = (4 + flat_tsize fields + dynamicSize fields x + flat_vsize fields)%nat /\
    UnmarshalFlatBuffers fields (flat_zero <$> fields) buf = Ok (zip_with carried fields x).
Proof.
  intros Hgo HF Hl. destruct (marshal_flat_spec fields x HF Hl) as (buf & -> & E).
  unfold go_constants_fit in Hgo. apply andb_true_iff in Hgo as [HV HT].
  apply Nat.leb_le in HV, HT. pose proof (flat_offs_ok fields) as HL. pose proof (layout_le _ _ _ _ HL).
  pose proof (sdyns_le fields x) as HD. destruct E as [EL ER EV ES EE EF].
  set (vs := (4 + flat_tsize fields + dynamicSize fields x)%nat) in *.
  assert (flat_vsize fields = 4 + 2 * length fields)%nat as HVs by done.
  exists buf. split; [done|]. split; [done|].
  unfold UnmarshalFlatBuffers. rewrite (proj2 (Z.ltb_ge _ _)) by lia.
  change (get_le 4 buf 0) with (get_le 4 buf (Z.of_nat 0)).
  rewrite (get_le_at 4 buf 0 4 ER) by (unfold in_u; lia). cbn [lift_panic res_bind].
  rewrite (proj2 (Z.ltb_ge _ _)) by lia.
  change (get_le 4 buf 4) with (get_le 4 buf (Z.of_nat 4)).
  rewrite (get_le_holds 4 buf 4 _ EV). cbn [lift_panic res_bind].
  change (8 * Z.of_nat 4) with 32. rewrite wrapS_wrapU, !wrapS_id by (rewrite ?wrapS_id; unfold in_s; lia).
  replace (4 + (Z.of_nat vs - 4)) with (Z.of_nat vs) by lia.
  rewrite (proj2 (Z.ltb_ge _ _)), (proj2 (Z.ltb_ge _ _)) by lia. cbn [orb].
  rewrite (get_le_at 2 buf vs _ ES) by (apply in_u_nat; lia). cbn [lift_panic res_bind].
  replace (Z.of_nat (flat_vsize fields)) with (4 + 2 * Z.of_nat (length fields)) by lia.
  erewrite read_fields_at; [by rewrite seen_carried|exact HL|exact HF|exact EF|by rewrite length_fmap|lia..|].
  intros i o Hi. exact (EE i o Hi).
Qed.

(** *** Concrete messages *)
Definition flat_field_of (id : Z) (k : Type_) : FieldNode :=
  {| fn_Name := "f"; fn_ID := id; fn_Type := scalar k; fn_Optional := false |}.
Definition flat_sample : list FieldNode :=
  [flat_field_of 1 TypeInt32; flat_field_of 2 TypeInt64; flat_field_of 3 TypeString;
   flat_field_of 4 TypeBool; flat_field_of 5 TypeDouble].
Definition flat_sample_message : fmessage :=
  [FInt (-5); FInt (2 ^ 40); FStr (to_bytes "hello"); FBool true; FOther].

Lemma flat_sample_typed : Forall2 flat_typed flat_sample flat_sample_message.
Proof. unfold flat_sample, flat_sample_message. repeat constructor; vm_compute; intros; congruence. Qed.

Lemma flat_roundtrip_witness :
  exists buf, MarshalFlatBuffers flat_sample flat_sample_message = Ok buf /\
    length buf = (4 + flat_tsize flat_sample + dynamicSize flat_sample flat_sample_message + flat_vsize flat_sample)%nat /\
    UnmarshalFlatBuffers flat_sample (flat_zero <$> flat_sample) buf =
      Ok (zip_with carried flat_sample flat_sample_message).
Proof. apply (flat_roundtrip flat_sample flat_sample_message); [reflexivity|apply flat_sample_typed|vm_compute; reflexivity]. Defined.

Lemma flat_cross_language_witness :
  node_marshal flat_sample flat_sample_message = MarshalFlatBuffers flat_sample flat_sample_message /\
  python_marshal flat_sample flat_sample_message = MarshalFlatBuffers flat_sample flat_sample_message.
Proof.
  destruct (flat_cross_language flat_sample flat_sample_message) as [Hn Hp];
    [reflexivity|apply flat_sample_typed|repeat constructor; discriminate|vm_compute; reflexivity|].
  split; [apply Hn|exact Hp]. repeat apply Forall2_cons_2; try apply Forall2_nil_2; vm_compute; first [exact I|split; discriminate].
Defined.

(** The first integer a JS number cannot hold: the TypeScript code writes 2^53, the Go and
    the Python code 2^53 + 1. *)
Theorem flat_number_rounds :
  let fields := [flat_field_of 1 TypeInt64] in
  node_marshal fields [FInt (2 ^ 53 + 1)] = MarshalFlatBuffers fields [FInt (2 ^ 53)] /\
  python_marshal fields [FInt (2 ^ 53 + 1)] = MarshalFlatBuffers fields [FInt (2 ^ 53 + 1)] /\
  node_marshal fields [FInt (2 ^ 53 + 1)] <> MarshalFlatBuffers fields [FInt (2 ^ 53 + 1)].
Proof. split_and!; [vm_compute; reflexivity..|]. vm_compute. discriminate. Qed.

(** A buffer of twelve bytes whose vtable claims to be longer than the buffer: the
    decoder indexes past the end instead of returning an error. *)
Definition long_vtable : bytes := byte_of_Z <$> [4; 0; 0; 0; 4; 0; 0; 0; 100; 0; 0; 0].

Theorem flat_hostile_vtable (f : FieldNode) (fields : list FieldNode) (v : fvalue) (x : fmessage) :
  UnmarshalFlatBuffers (f :: fields) (v :: x) long_vtable = Err FlatPanic.
Proof. reflexivity. Qed.
