(* ===== verification/GenGo.v ===== *)
(** * The Go generator ([compiler/codegen/go_generator.go])

    [GenerateGo] as the text it builds: one definition per part of the function, each
    piece a literal or a format of the source.  What the emitted codec does is modelled
    in [Wire], [WireThrift] and [FlatBuf]; here it is text. *)
From S2P Require Import Prelude GoStrings Ast GoText Wire GenCommon.
Local Open Scope go_scope.

Definition mapGoType (t : TypeNode) : text :=
  match tn_Kind t with
  | TypeInt32 => "int32"
  | TypeInt64 => "int64"
  | TypeString => "string"
  | TypeBinary => "[]byte"
  | TypeBool => "bool"
  | TypeDouble => "float64"
  | TypeStruct => cat ["*"; tn_Name t]
  | _ => "interface{}"
  end.

Definition mapProtoType (t : TypeNode) : text :=
  match tn_Kind t with
  | TypeInt32 => "int32"
  | TypeInt64 => "int64"
  | TypeString => "string"
  | TypeBinary => "bytes"
  | TypeBool => "bool"
  | _ => "string"
  end.

Definition mapThriftTypeConst (t : TypeNode) : text :=
  match tn_Kind t with
  | TypeInt32 => "I32"
  | TypeInt64 => "I64"
  | TypeString => "STRING"
  | TypeBinary => "STRING"
  | TypeBool => "BOOL"
  | TypeStruct => "STRUCT"
  | _ => "STOP"
  end.

Definition go_binder_fields (inputStruct : StructNode) : text :=
  each (sn_Fields inputStruct) (fun f =>
      let capName := toCamelCase (fn_Name f) in
        let jsonTag := fn_Name f in
          cat [
            sprintf "\t\t\tif val, ok := params[\q%s\q]; ok {\n" [GS jsonTag];
            match tn_Kind (fn_Type f) with
            | TypeInt32 =>
                cat [
                  "\t\t\t\tvar id int32\n";
                  "\t\t\t\tif _, err := fmt.Sscanf(val, \q%d\q, &id); err == nil {\n";
                  sprintf "\t\t\t\t\tp.%s = id\n" [GS capName];
                  "\t\t\t\t}\n"]
            | TypeInt64 =>
                cat [
                  "\t\t\t\tvar id int64\n";
                  "\t\t\t\tif _, err := fmt.Sscanf(val, \q%d\q, &id); err == nil {\n";
                  sprintf "\t\t\t\t\tp.%s = id\n" [GS capName];
                  "\t\t\t\t}\n"]
            | TypeString =>
                sprintf "\t\t\t\tp.%s = val\n" [GS capName]
            | TypeBool =>
                cat [
                  "\t\t\t\tvar b bool\n";
                  "\t\t\t\tif _, err := fmt.Sscanf(val, \q%t\q, &b); err == nil {\n";
                  sprintf "\t\t\t\t\tp.%s = b\n" [GS capName];
                  "\t\t\t\t}\n"]
            | _ => ""
            end;
            "\t\t\t}\n"]).

(** The first struct of that name. *)
Definition input_struct (m : MethodNode) (parsed : AST) : option StructNode :=
  List.find (fun str => bool_decide (sn_Name str = mn_InputType m)) (Structs parsed).

Definition generateBinderString (m : MethodNode) (parsed : AST) : text :=
  cat [
    "\t\tBinder: func(req interface{}, params map[string]string) error {\n";
    sprintf "\t\t\tp, ok := req.(\*%s)\n" [GS (mn_InputType m)];
    "\t\t\tif !ok {\n";
    "\t\t\t\treturn fmt.Errorf(\qinvalid request type for binder\q)\n";
    "\t\t\t}\n";
    match input_struct m parsed with
    | Some inputStruct => go_binder_fields inputStruct
    | None => ""
    end;
    "\t\t\treturn nil\n";
    "\t\t},\n"].

Definition go_header (parsed : AST) : text :=
  cat [
    "// Code generated by helix-gen. DO NOT EDIT.\n";
    sprintf "package %s\n\n" [GS (ReplaceAll (Namespace parsed) "."%char "_"%char)];
    "import (\n";
    "\t\qcontext\q\n";
    "\t\qfmt\q\n";
    "\t\qunsafe\q\n";
    "\t\qgithub.com/golang/protobuf/proto\q\n";
    "\t\qgithub.com/apache/thrift/lib/go/thrift\q\n";
    "\truntime \qgithub.com/helix-rpc/helix/runtime-go\q\n";
    ")\n\n";
    "func writeVarint(buf []byte, offset int, v uint64) int {
\tfor v >= 1<<7 {
\t\tbuf[offset] = uint8(v&0x7f | 0x80)
\t\tv >>= 7
\t\toffset++
\t}
\tbuf[offset] = uint8(v)
\treturn offset + 1
}

func readVarint(buf []byte, offset int) (uint64, int, error) {
\tvar v uint64
\tvar shift uint
\tfor {
\t\tif offset >= len(buf) {
\t\t\treturn 0, 0, fmt.Errorf(\qunexpected EOF reading varint\q)
\t\t}
\t\tb := buf[offset]
\t\toffset++
\t\tv |= uint64(b&0x7f) << shift
\t\tif b&0x80 == 0 {
\t\t\tbreak
\t\t}
\t\tshift += 7
\t}
\treturn v, offset, nil
}

func unsafeString(b []byte) string {
\tif len(b) == 0 {
\t\treturn \q\q
\t}
\treturn unsafe.String(&b[0], len(b))
}

func encodeZigZag32(n int32) uint32 {
\treturn uint32((n << 1) ^ (n >> 31))
}

func writeThriftVarint(buf []byte, offset int, v uint64) int {
\tfor {
\t\tif (v & ^uint64(0x7F)) == 0 {
\t\t\tbuf[offset] = byte(v)
\t\t\toffset++
\t\t\tbreak
\t\t} else {
\t\t\tbuf[offset] = byte((v & 0x7F) | 0x80)
\t\t\toffset++
\t\t\tv >>= 7
\t\t}
\t}
\treturn offset
}

func writeThriftI16(buf []byte, offset int, v int16) int {
\tbuf[offset] = byte(v >> 8)
\tbuf[offset+1] = byte(v)
\treturn offset + 2
}

func fastScanField(dAtA []byte, targetFieldNum int32) ([]byte, int, error) {
\tl := len(dAtA)
\tiNdEx := 0
\tfor iNdEx < l {
\t\tvar i uint64
\t\tvar err error
\t\ti, iNdEx, err = readVarint(dAtA, iNdEx)
\t\tif err != nil {
\t\t\treturn nil, 0, err
\t\t}
\t\tfieldNum := int32(i >> 3)
\t\twireType := int(i & 0x7)
\t\tif fieldNum == targetFieldNum {
\t\t\tif wireType == 2 {
\t\t\t\tvar length uint64
\t\t\t\tlength, iNdEx, err = readVarint(dAtA, iNdEx)
\t\t\t\tif err != nil {
\t\t\t\t\treturn nil, 0, err
\t\t\t\t}
\t\t\t\tpostIndex := iNdEx + int(length)
\t\t\t\tif postIndex < 0 || postIndex > l {
\t\t\t\t\treturn nil, 0, fmt.Errorf(\qunexpected EOF\q)
\t\t\t\t}
\t\t\t\treturn dAtA[iNdEx:postIndex], wireType, nil
\t\t\t} else if wireType == 0 {
\t\t\t\tstart := iNdEx
\t\t\t\t_, iNdEx, err = readVarint(dAtA, iNdEx)
\t\t\t\tif err != nil {
\t\t\t\t\treturn nil, 0, err
\t\t\t\t}
\t\t\t\treturn dAtA[start:iNdEx], wireType, nil
\t\t\t}
\t\t\treturn nil, 0, fmt.Errorf(\qunsupported wireType for fast scan\q)
\t\t}
\t\tif wireType == 0 {
\t\t\t_, iNdEx, err = readVarint(dAtA, iNdEx)
\t\t\tif err != nil {
\t\t\t\treturn nil, 0, err
\t\t\t}
\t\t} else if wireType == 2 {
\t\t\tvar length uint64
\t\t\tlength, iNdEx, err = readVarint(dAtA, iNdEx)
\t\t\tif err != nil {
\t\t\t\treturn nil, 0, err
\t\t\t}
\t\t\tiNdEx += int(length)
\t\t} else {
\t\t\treturn nil, 0, fmt.Errorf(\qunhandled wireType in fastScan skip\q)
\t\t}
\t}
\treturn nil, 0, fmt.Errorf(\qfield not found\q)
}
";
    "\n"].

Definition go_decl (str : StructNode) : text :=
  cat [
    sprintf "type %s struct {\n" [GS (sn_Name str)];
    each (sn_Fields str) (fun f =>
      let goType := mapGoType (fn_Type f) in
        let protoTag := sprintf "%s,%d" [GS (mapProtoType (fn_Type f)); GD (fn_ID f)] in
          let thriftTag := sprintf "%s,%d" [GS (fn_Name f); GD (fn_ID f)] in
            sprintf "\t%s %s `thrift:\q%s\q json:\q%s\q proto:\q%s\q`\n" [GS (toCamelCase (fn_Name f)); GS goType; GS thriftTag; GS (fn_Name f); GS protoTag]);
    "}\n\n";
    sprintf "func (x *%s) Reset()         { *x = %s{} }\n" [GS (sn_Name str); GS (sn_Name str)];
    sprintf "func (x *%s) String() string { return proto.CompactTextString(x) }\n" [GS (sn_Name str)];
    sprintf "func (x *%s) ProtoMessage()  {}\n\n" [GS (sn_Name str)]].

Definition go_marshal (str : StructNode) : text :=
  cat [
    sprintf "func (x *%s) Marshal() ([]byte, error) {\n" [GS (sn_Name str)];
    "\tbuf := make([]byte, x.ProtoSize())\n";
    "\t_, err := x.MarshalTo(buf)\n";
    "\treturn buf, err\n";
    "}\n\n";
    sprintf "func (x *%s) ProtoSize() (size int) {\n" [GS (sn_Name str)];
    each (sn_Fields str) (fun f =>
      let capName := toCamelCase (fn_Name f) in
        match tn_Kind (fn_Type f) with
          | TypeInt32 | TypeInt64 =>
              cat [
                sprintf "\tif x.%s != 0 {\n" [GS capName];
                sprintf "\t\tsize += 1 + sizeOfVarint(uint64(x.%s))\n" [GS capName];
                "\t}\n"]
          | TypeString =>
              cat [
                sprintf "\tif len(x.%s) > 0 {\n" [GS capName];
                sprintf "\t\tsize += 1 + sizeOfVarint(uint64(len(x.%s))) + len(x.%s)\n" [GS capName; GS capName];
                "\t}\n"]
          | _ => ""
          end);
    "\treturn size\n";
    "}\n\n"].

Definition go_marshal_to (str : StructNode) : text :=
  cat [
    "func sizeOfVarint(v uint64) int {
\tif v == 0 {
\t\treturn 1
\t}
\tsize := 0
\tfor v > 0 {
\t\tsize++
\t\tv >>= 7
\t}
\treturn size
}

";
    sprintf "func (x *%s) MarshalTo(dAtA []byte) (int, error) {\n" [GS (sn_Name str)];
    "\tvar i int\n";
    each (sn_Fields str) (fun f =>
      let capName := toCamelCase (fn_Name f) in
        let wireType := 0 in
          let wireType := if (bool_decide (tn_Kind (fn_Type f) = TypeString)) || (bool_decide (tn_Kind (fn_Type f) = TypeBinary)) then 2 else wireType in
            let tagVal := Z.lor (i32 (Z.shiftl (fn_ID f) 3)) wireType in
              match tn_Kind (fn_Type f) with
                | TypeInt32 | TypeInt64 =>
                    cat [
                      sprintf "\tif x.%s != 0 {\n" [GS capName];
                      sprintf "\t\tdAtA[i] = 0x%x\n" [GD tagVal];
                      "\t\ti++\n";
                      sprintf "\t\ti = writeVarint(dAtA, i, uint64(x.%s))\n" [GS capName];
                      "\t}\n"]
                | TypeString =>
                    cat [
                      sprintf "\tif len(x.%s) > 0 {\n" [GS capName];
                      sprintf "\t\tdAtA[i] = 0x%x\n" [GD tagVal];
                      "\t\ti++\n";
                      sprintf "\t\ti = writeVarint(dAtA, i, uint64(len(x.%s)))\n" [GS capName];
                      sprintf "\t\ti += copy(dAtA[i:], x.%s)\n" [GS capName];
                      "\t}\n"]
                | _ => ""
                end);
    "\treturn i, nil\n";
    "}\n\n"].

Definition go_unmarshal (str : StructNode) : text :=
  cat [
    sprintf "func (x *%s) Unmarshal(dAtA []byte) error {\n" [GS (sn_Name str)];
    "\tl := len(dAtA)\n";
    "\tiNdEx := 0\n";
    "\tfor iNdEx < l {\n";
    "\t\tpostIndex := 0\n";
    "\t\tvar i uint64\n";
    "\t\tvar err error\n";
    "\t\ti, iNdEx, err = readVarint(dAtA, iNdEx)\n";
    "\t\tif err != nil {\n";
    "\t\t\treturn err\n";
    "\t\t}\n";
    "\t\tfieldNum := int32(i >> 3)\n";
    "\t\twireType := int(i & 0x7)\n";
    "\t\tif wireType == 4 {\n";
    sprintf "\t\t\treturn fmt.Errorf(\qproto: %s: wiretype end group for non-group\q)\n" [GS (sn_Name str)];
    "\t\t}\n";
    "\t\tswitch fieldNum {\n";
    each (sn_Fields str) (fun f =>
      let capName := toCamelCase (fn_Name f) in
        cat [
          sprintf "\t\tcase %d:\n" [GD (fn_ID f)];
          match tn_Kind (fn_Type f) with
          | TypeInt32 | TypeInt64 =>
              cat [
                "\t\t\tif wireType != 0 {\n";
                sprintf "\t\t\t\treturn fmt.Errorf(\qproto: wrong wireType = %%d for field %s\q, wireType)\n" [GS capName];
                "\t\t\t}\n";
                "\t\t\tvar v uint64\n";
                "\t\t\tv, iNdEx, err = readVarint(dAtA, iNdEx)\n";
                "\t\t\tif err != nil {\n";
                "\t\t\t\treturn err\n";
                "\t\t\t}\n";
                if bool_decide (tn_Kind (fn_Type f) = TypeInt32)
                  then sprintf "\t\t\tx.%s = int32(v)\n" [GS capName]
                  else sprintf "\t\t\tx.%s = int64(v)\n" [GS capName]]
          | TypeString =>
              cat [
                "\t\t\tif wireType != 2 {\n";
                sprintf "\t\t\t\treturn fmt.Errorf(\qproto: wrong wireType = %%d for field %s\q, wireType)\n" [GS capName];
                "\t\t\t}\n";
                "\t\t\tvar stringLen uint64\n";
                "\t\t\tstringLen, iNdEx, err = readVarint(dAtA, iNdEx)\n";
                "\t\t\tif err != nil {\n";
                "\t\t\t\treturn err\n";
                "\t\t\t}\n";
                "\t\t\tpostIndex = iNdEx + int(stringLen)\n";
                "\t\t\tif postIndex < 0 || postIndex > l {\n";
                "\t\t\t\treturn fmt.Errorf(\qunexpected EOF\q)\n";
                "\t\t\t}\n";
                sprintf "\t\t\tx.%s = unsafeString(dAtA[iNdEx:postIndex])\n" [GS capName];
                "\t\t\tiNdEx = postIndex\n"]
          | _ => ""
          end]);
    "\t\tdefault:\n";
    "\t\t\tvar v uint64\n";
    "\t\t\tv, iNdEx, err = readVarint(dAtA, iNdEx)\n";
    "\t\t\tif err != nil {\n";
    "\t\t\t\treturn err\n";
    "\t\t\t}\n";
    "\t\t\tif wireType == 0 {\n";
    "\t\t\t\t// already read varint\n";
    "\t\t\t} else if wireType == 2 {\n";
    "\t\t\t\tpostIndex = iNdEx + int(v)\n";
    "\t\t\t\tiNdEx = postIndex\n";
    "\t\t\t} else {\n";
    "\t\t\t\treturn fmt.Errorf(\qunhandled wireType in unmarshal skip\q)\n";
    "\t\t\t}\n";
    "\t\t}\n";
    "\t}\n";
    "\treturn nil\n";
    "}\n\n"].

Definition go_flat_marshal (str : StructNode) (offsets : list Z) (tableSize : Z) (vtableSize : Z) : text :=
  cat [
    sprintf "func (x *%s) MarshalFlatBuffers() []byte {\n" [GS (sn_Name str)];
    "\tdynamicSize := 0\n";
    each (sn_Fields str) (fun f =>
      if (bool_decide (tn_Kind (fn_Type f) = TypeString)) || (bool_decide (tn_Kind (fn_Type f) = TypeBinary))
          then let capName := toCamelCase (fn_Name f) in
            cat [
              sprintf "\tif len(x.%s) > 0 {\n" [GS capName];
              sprintf "\t\tdynamicSize += 4 + len(x.%s)\n" [GS capName];
              "\t}\n"]
          else "");
    sprintf "\ttotalSize := 4 + %d + dynamicSize + %d\n" [GD tableSize; GD vtableSize];
    "\tbuf := make([]byte, totalSize)\n";
    "\t// Root offset pointing to the root table (always 4)\n";
    "\tbuf[0] = 4\n";
    "\t// Table starts at offset 4\n";
    "\t// Write vtable offset at buf[4:8]\n";
    sprintf "\tvtableStart := 4 + %d + dynamicSize\n" [GD tableSize];
    "\tvtableOffset := int32(vtableStart - 4)\n";
    "\tfor j := 0; j < 4; j++ {\n";
    "\t\tbuf[4+j] = byte(vtableOffset >> (j * 8))\n";
    "\t}\n";
    cat ["\tcurrentStringOffset := 4 + "; sprintf "%d\n" [GD tableSize]];
    each_i (sn_Fields str) (fun idx f =>
      let capName := toCamelCase (fn_Name f) in
        let off := nth idx offsets 0 in
          match tn_Kind (fn_Type f) with
            | TypeInt32 =>
                cat [
                  sprintf "\t{\n\t\tv := uint32(x.%s)\n" [GS capName];
                  sprintf "\t\tfor j := 0; j < 4; j++ {\n\t\t\tbuf[4+%d+j] = byte(v >> (j * 8))\n\t\t}\n\t}\n" [GD off]]
            | TypeInt64 =>
                cat [
                  sprintf "\t{\n\t\tv := uint64(x.%s)\n" [GS capName];
                  sprintf "\t\tfor j := 0; j < 8; j++ {\n\t\t\tbuf[4+%d+j] = byte(v >> (j * 8))\n\t\t}\n\t}\n" [GD off]]
            | TypeBool =>
                cat [
                  sprintf "\tif x.%s {\n" [GS capName];
                  sprintf "\t\tbuf[4+%d] = 1\n\t}\n" [GD off]]
            | TypeString =>
                cat [
                  sprintf "\tif len(x.%s) > 0 {\n" [GS capName];
                  sprintf "\t\trelOffset := uint32(currentStringOffset - (4 + %d))\n" [GD off];
                  sprintf "\t\tfor j := 0; j < 4; j++ {\n\t\t\tbuf[4+%d+j] = byte(relOffset >> (j * 8))\n\t\t}\n" [GD off];
                  sprintf "\t\tstrLen := uint32(len(x.%s))\n" [GS capName];
                  "\t\tfor j := 0; j < 4; j++ {\n\t\t\tbuf[currentStringOffset+j] = byte(strLen >> (j * 8))\n\t\t}\n";
                  sprintf "\t\tcopy(buf[currentStringOffset+4:], x.%s)\n" [GS capName];
                  sprintf "\t\tcurrentStringOffset += 4 + len(x.%s)\n" [GS capName];
                  "\t}\n"]
            | _ => ""
            end);
    "\t// Write vtable header\n";
    sprintf "\tbuf[vtableStart] = byte(%d)\n" [GD vtableSize];
    sprintf "\tbuf[vtableStart+1] = byte(%d >> 8)\n" [GD vtableSize];
    sprintf "\tbuf[vtableStart+2] = byte(%d)\n" [GD tableSize];
    sprintf "\tbuf[vtableStart+3] = byte(%d >> 8)\n" [GD tableSize];
    each_i (sn_Fields str) (fun idx _ =>
      let off := nth idx offsets 0 in
        cat [
          sprintf "\tbuf[vtableStart+4+%d] = byte(%d)\n" [GD (2 * Z.of_nat idx); GD off];
          sprintf "\tbuf[vtableStart+4+%d+1] = byte(%d >> 8)\n" [GD (2 * Z.of_nat idx); GD off]]);
    "\treturn buf\n";
    "}\n\n"].

Definition go_flat_unmarshal (str : StructNode) : text :=
  cat [
    sprintf "func (x *%s) UnmarshalFlatBuffers(buf []byte) error {\n" [GS (sn_Name str)];
    "\tif len(buf) < 8 {\n\t\treturn fmt.Errorf(\qflatbuffers: buffer too small\q)\n\t}\n";
    "\trootOffset := uint32(buf[0]) | uint32(buf[1])<<8 | uint32(buf[2])<<16 | uint32(buf[3])<<24\n";
    "\tif int(rootOffset)+4 > len(buf) {\n\t\treturn fmt.Errorf(\qflatbuffers: invalid root offset\q)\n\t}\n";
    "\tvtableOffset := int32(uint32(buf[rootOffset]) | uint32(buf[rootOffset+1])<<8 | uint32(buf[rootOffset+2])<<16 | uint32(buf[rootOffset+3])<<24)\n";
    "\tvtableStart := int(rootOffset) + int(vtableOffset)\n";
    "\tif vtableStart < 0 || vtableStart+4 > len(buf) {\n\t\treturn fmt.Errorf(\qflatbuffers: invalid vtable offset\q)\n\t}\n";
    "\tvtableSize := uint16(buf[vtableStart]) | uint16(buf[vtableStart+1])<<8\n";
    each_i (sn_Fields str) (fun idx f =>
      let capName := toCamelCase (fn_Name f) in
        let voff := 4 + (2 * Z.of_nat idx) in
          cat [
            sprintf "\tif %d+2 <= int(vtableSize) {\n" [GD voff];
            sprintf "\t\tfoffset := uint16(buf[vtableStart+%d]) | uint16(buf[vtableStart+%d+1])<<8\n" [GD voff; GD voff];
            "\t\tif foffset > 0 {\n";
            "\t\t\tabsOffset := int(rootOffset) + int(foffset)\n";
            match tn_Kind (fn_Type f) with
            | TypeInt32 =>
                cat [
                  "\t\t\tif absOffset+4 <= len(buf) {\n";
                  sprintf "\t\t\t\tx.%s = int32(uint32(buf[absOffset]) | uint32(buf[absOffset+1])<<8 | uint32(buf[absOffset+2])<<16 | uint32(buf[absOffset+3])<<24)\n" [GS capName];
                  "\t\t\t}\n"]
            | TypeInt64 =>
                cat [
                  "\t\t\tif absOffset+8 <= len(buf) {\n";
                  sprintf "\t\t\t\tx.%s = int64(uint64(buf[absOffset]) | uint64(buf[absOffset+1])<<8 | uint64(buf[absOffset+2])<<16 | uint64(buf[absOffset+3])<<24 | uint64(buf[absOffset+4])<<32 | uint64(buf[absOffset+5])<<40 | uint64(buf[absOffset+6])<<48 | uint64(buf[absOffset+7])<<56)\n" [GS capName];
                  "\t\t\t}\n"]
            | TypeBool =>
                cat [
                  "\t\t\tif absOffset < len(buf) {\n";
                  sprintf "\t\t\t\tx.%s = buf[absOffset] != 0\n" [GS capName];
                  "\t\t\t}\n"]
            | TypeString =>
                cat [
                  "\t\t\tif absOffset+4 <= len(buf) {\n";
                  "\t\t\t\trelOffset := uint32(buf[absOffset]) | uint32(buf[absOffset+1])<<8 | uint32(buf[absOffset+2])<<16 | uint32(buf[absOffset+3])<<24\n";
                  "\t\t\t\tstrStart := absOffset + int(relOffset)\n";
                  "\t\t\t\tif strStart+4 <= len(buf) {\n";
                  "\t\t\t\t\tstrLen := uint32(buf[strStart]) | uint32(buf[strStart+1])<<8 | uint32(buf[strStart+2])<<16 | uint32(buf[strStart+3])<<24\n";
                  "\t\t\t\t\tif strStart+4+int(strLen) <= len(buf) {\n";
                  sprintf "\t\t\t\t\t\tx.%s = string(buf[strStart+4 : strStart+4+int(strLen)])\n" [GS capName];
                  "\t\t\t\t\t}\n";
                  "\t\t\t\t}\n";
                  "\t\t\t}\n"]
            | _ => ""
            end;
            "\t\t}\n";
            "\t}\n"]);
    "\treturn nil\n";
    "}\n\n"].

Definition go_write_field (f : FieldNode) : text :=
  let capName := toCamelCase (fn_Name f) in
    let thriftType := mapThriftTypeConst (fn_Type f) in
      cat [
        sprintf "\tif err := oprot.WriteFieldBegin(ctx, \q%s\q, thrift.%s, %d); err != nil {\n" [GS (fn_Name f); GS thriftType; GD (fn_ID f)];
        "\t\treturn err\n";
        "\t}\n";
        match tn_Kind (fn_Type f) with
        | TypeInt32 =>
            sprintf "\tif err := oprot.WriteI32(ctx, x.%s); err != nil {\n" [GS capName]
        | TypeInt64 =>
            sprintf "\tif err := oprot.WriteI64(ctx, x.%s); err != nil {\n" [GS capName]
        | TypeString =>
            sprintf "\tif err := oprot.WriteString(ctx, x.%s); err != nil {\n" [GS capName]
        | _ => ""
        end;
        "\t\treturn err\n";
        "\t}\n";
        "\tif err := oprot.WriteFieldEnd(ctx); err != nil {\n";
        "\t\treturn err\n";
        "\t}\n"].

Definition go_write (str : StructNode) : text :=
  cat [
    sprintf "func (x *%s) Write(ctx context.Context, oprot thrift.TProtocol) error {\n" [GS (sn_Name str)];
    sprintf "\tif err := oprot.WriteStructBegin(ctx, \q%s\q); err != nil {\n" [GS (sn_Name str)];
    "\t\treturn err\n";
    "\t}\n";
    each (sn_Fields str) (fun f =>
      go_write_field f);
    "\tif err := oprot.WriteFieldStop(ctx); err != nil {\n";
    "\t\treturn err\n";
    "\t}\n";
    "\treturn oprot.WriteStructEnd(ctx)\n";
    "}\n\n"].

Definition go_read (str : StructNode) : text :=
  cat [
    sprintf "func (x *%s) Read(ctx context.Context, iprot thrift.TProtocol) error {\n" [GS (sn_Name str)];
    "\tif _, err := iprot.ReadStructBegin(ctx); err != nil {\n";
    "\t\treturn err\n";
    "\t}\n";
    "\tfor {\n";
    "\t\t_, fieldTypeId, fieldId, err := iprot.ReadFieldBegin(ctx)\n";
    "\t\tif err != nil {\n";
    "\t\t\treturn err\n";
    "\t\t}\n";
    "\t\tif fieldTypeId == thrift.STOP {\n";
    "\t\t\tbreak\n";
    "\t\t}\n";
    "\t\tswitch fieldId {\n";
    each (sn_Fields str) (fun f =>
      let capName := toCamelCase (fn_Name f) in
        let thriftType := mapThriftTypeConst (fn_Type f) in
          cat [
            sprintf "\t\tcase %d:\n" [GD (fn_ID f)];
            sprintf "\t\t\tif fieldTypeId == thrift.%s {\n" [GS thriftType];
            match tn_Kind (fn_Type f) with
            | TypeInt32 =>
                sprintf "\t\t\t\tif v, err := iprot.ReadI32(ctx); err != nil {\n\t\t\t\t\treturn err\n\t\t\t\t} else {\n\t\t\t\t\tx.%s = v\n\t\t\t\t}\n" [GS capName]
            | TypeInt64 =>
                sprintf "\t\t\t\tif v, err := iprot.ReadI64(ctx); err != nil {\n\t\t\t\t\treturn err\n\t\t\t\t} else {\n\t\t\t\t\tx.%s = v\n\t\t\t\t}\n" [GS capName]
            | TypeString =>
                sprintf "\t\t\t\tif v, err := iprot.ReadString(ctx); err != nil {\n\t\t\t\t\treturn err\n\t\t\t\t} else {\n\t\t\t\t\tx.%s = v\n\t\t\t\t}\n" [GS capName]
            | _ => ""
            end;
            "\t\t\t} else {\n";
            "\t\t\t\tiprot.Skip(ctx, fieldTypeId)\n";
            "\t\t\t}\n"]);
    "\t\tdefault:\n";
    "\t\t\tiprot.Skip(ctx, fieldTypeId)\n";
    "\t\t}\n";
    "\t\t}\n";
    "\t\tif err := iprot.ReadFieldEnd(ctx); err != nil {\n";
    "\t\t\treturn err\n";
    "\t\t}\n";
    "\t}\n";
    "\treturn iprot.ReadStructEnd(ctx)\n";
    "}\n\n"].

Definition go_lazy_fallback (str : StructNode) : text :=
  cat [
    sprintf "type Lazy%s struct {\n\tdecoded *%s\n}\n\n" [GS (sn_Name str); GS (sn_Name str)];
    sprintf "func NewLazy%s(raw []byte) *Lazy%s {\n\tvar decoded %s\n\t_ = decoded.Unmarshal(raw)\n\treturn &Lazy%s{decoded: &decoded}\n}\n\n" [GS (sn_Name str); GS (sn_Name str); GS (sn_Name str); GS (sn_Name str)];
    each (sn_Fields str) (fun f =>
      let capName := toCamelCase (fn_Name f) in
        let goType := mapGoType (fn_Type f) in
          cat [
            sprintf "func (x *Lazy%s) Get%s() (%s, error) {\n" [GS (sn_Name str); GS capName; GS goType];
            sprintf "\treturn x.decoded.%s, nil\n" [GS capName];
            "}\n\n"]);
    sprintf "func (x *%s) TranspileProtobufToThriftCompact(in []byte, out []byte) (int, error) {\n" [GS (sn_Name str)];
    "\treturn 0, fmt.Errorf(\qtranspilation unsupported for complex types\q)\n";
    "}\n\n"].

Definition go_lazy (str : StructNode) : text :=
  cat [
    sprintf "type Lazy%s struct {\n\traw []byte\n}\n\n" [GS (sn_Name str)];
    sprintf "func NewLazy%s(raw []byte) *Lazy%s {\n\treturn &Lazy%s{raw: raw}\n}\n\n" [GS (sn_Name str); GS (sn_Name str); GS (sn_Name str)];
    each (sn_Fields str) (fun f =>
      let capName := toCamelCase (fn_Name f) in
        let goType := mapGoType (fn_Type f) in
          cat [
            sprintf "func (x *Lazy%s) Get%s() (%s, error) {\n" [GS (sn_Name str); GS capName; GS goType];
            sprintf "\tb, _, err := fastScanField(x.raw, %d)\n" [GD (fn_ID f)];
            cat ["\tif err != nil {\n\t\tvar zero "; goType; "\n\t\treturn zero, err\n\t}\n"];
            match tn_Kind (fn_Type f) with
            | TypeInt32 =>
                "\tv, _, err := readVarint(b, 0)\n\tif err != nil {\n\t\treturn 0, err\n\t}\n\treturn int32(v), nil\n"
            | TypeInt64 =>
                "\tv, _, err := readVarint(b, 0)\n\tif err != nil {\n\t\treturn 0, err\n\t}\n\treturn int64(v), nil\n"
            | TypeString =>
                "\treturn unsafeString(b), nil\n"
            | _ =>
                cat ["\tvar zero "; goType; "\n\treturn zero, fmt.Errorf(\qunsupported lazy type\q)\n"]
            end;
            "}\n\n"])].

Definition go_transpiler_field (f : FieldNode) : text :=
  cat [
    sprintf "\t\tcase %d:\n" [GD (fn_ID f)];
    match tn_Kind (fn_Type f) with
    | TypeInt32 =>
        cat [
          "\t\t\tvar rawVal uint64\n";
          "\t\t\trawVal, iNdEx, err = readVarint(in, iNdEx)\n";
          "\t\t\tif err != nil {\n\t\t\t\treturn 0, err\n\t\t\t}\n";
          sprintf "\t\t\tdelta := int16(%d) - lastFieldID\n" [GD (fn_ID f)];
          "\t\t\tif delta > 0 && delta <= 15 {\n";
          sprintf "\t\t\t\tout[outIdx] = byte((delta << 4) | %d)\n" [GD 5];
          "\t\t\t\toutIdx++\n";
          "\t\t\t} else {\n";
          sprintf "\t\t\t\tout[outIdx] = byte(%d)\n" [GD 5];
          "\t\t\t\toutIdx++\n";
          sprintf "\t\t\t\tout[outIdx] = byte(%d >> 8)\n" [GD (fn_ID f)];
          sprintf "\t\t\t\tout[outIdx+1] = byte(%d)\n" [GD (fn_ID f)];
          "\t\t\t\toutIdx += 2\n";
          "\t\t\t}\n";
          "\t\t\tzz := (rawVal << 1) ^ uint64(int64(rawVal)>>63)\n";
          "\t\t\tfor {\n";
          "\t\t\t\tif (zz & ^uint64(0x7F)) == 0 {\n";
          "\t\t\t\t\tout[outIdx] = byte(zz)\n";
          "\t\t\t\t\toutIdx++\n";
          "\t\t\t\t\tbreak\n";
          "\t\t\t\t}\n";
          "\t\t\t\tout[outIdx] = byte((zz & 0x7F) | 0x80)\n";
          "\t\t\t\toutIdx++\n";
          "\t\t\t\tzz >>= 7\n";
          "\t\t\t}\n";
          sprintf "\t\t\tlastFieldID = int16(%d)\n" [GD (fn_ID f)]]
    | TypeInt64 =>
        cat [
          "\t\t\tvar rawVal uint64\n";
          "\t\t\trawVal, iNdEx, err = readVarint(in, iNdEx)\n";
          "\t\t\tif err != nil {\n\t\t\t\treturn 0, err\n\t\t\t}\n";
          sprintf "\t\t\tdelta := int16(%d) - lastFieldID\n" [GD (fn_ID f)];
          "\t\t\tif delta > 0 && delta <= 15 {\n";
          sprintf "\t\t\t\tout[outIdx] = byte((delta << 4) | %d)\n" [GD 6];
          "\t\t\t\toutIdx++\n";
          "\t\t\t} else {\n";
          sprintf "\t\t\t\tout[outIdx] = byte(%d)\n" [GD 6];
          "\t\t\t\toutIdx++\n";
          sprintf "\t\t\t\tout[outIdx] = byte(%d >> 8)\n" [GD (fn_ID f)];
          sprintf "\t\t\t\tout[outIdx+1] = byte(%d)\n" [GD (fn_ID f)];
          "\t\t\t\toutIdx += 2\n";
          "\t\t\t}\n";
          "\t\t\tzz := (rawVal << 1) ^ uint64(int64(rawVal)>>63)\n";
          "\t\t\tfor {\n";
          "\t\t\t\tif (zz & ^uint64(0x7F)) == 0 {\n";
          "\t\t\t\t\tout[outIdx] = byte(zz)\n";
          "\t\t\t\t\toutIdx++\n";
          "\t\t\t\t\tbreak\n";
          "\t\t\t\t}\n";
          "\t\t\t\tout[outIdx] = byte((zz & 0x7F) | 0x80)\n";
          "\t\t\t\toutIdx++\n";
          "\t\t\t\tzz >>= 7\n";
          "\t\t\t}\n";
          sprintf "\t\t\tlastFieldID = int16(%d)\n" [GD (fn_ID f)]]
    | TypeString =>
        cat [
          "\t\t\tvar stringLen uint64\n";
          "\t\t\tstringLen, iNdEx, err = readVarint(in, iNdEx)\n";
          "\t\t\tif err != nil {\n\t\t\t\treturn 0, err\n\t\t\t}\n";
          sprintf "\t\t\tdelta := int16(%d) - lastFieldID\n" [GD (fn_ID f)];
          "\t\t\tif delta > 0 && delta <= 15 {\n";
          sprintf "\t\t\t\tout[outIdx] = byte((delta << 4) | %d)\n" [GD 8];
          "\t\t\t\toutIdx++\n";
          "\t\t\t} else {\n";
          sprintf "\t\t\t\tout[outIdx] = byte(%d)\n" [GD 8];
          "\t\t\t\toutIdx++\n";
          sprintf "\t\t\t\tout[outIdx] = byte(%d >> 8)\n" [GD (fn_ID f)];
          sprintf "\t\t\t\tout[outIdx+1] = byte(%d)\n" [GD (fn_ID f)];
          "\t\t\t\toutIdx += 2\n";
          "\t\t\t}\n";
          "\t\t\tzz := stringLen\n";
          "\t\t\tfor {\n";
          "\t\t\t\tif (zz & ^uint64(0x7F)) == 0 {\n";
          "\t\t\t\t\tout[outIdx] = byte(zz)\n";
          "\t\t\t\t\toutIdx++\n";
          "\t\t\t\t\tbreak\n";
          "\t\t\t\t}\n";
          "\t\t\t\tout[outIdx] = byte((zz & 0x7F) | 0x80)\n";
          "\t\t\t\toutIdx++\n";
          "\t\t\t\tzz >>= 7\n";
          "\t\t\t}\n";
          "\t\t\tcopy(out[outIdx:], in[iNdEx:iNdEx+int(stringLen)])\n";
          "\t\t\toutIdx += int(stringLen)\n";
          "\t\t\tiNdEx += int(stringLen)\n"]
    | _ => ""
    end].

Definition go_transpiler (str : StructNode) : text :=
  cat [
    sprintf "func (x *%s) TranspileProtobufToThriftCompact(in []byte, out []byte) (int, error) {\n" [GS (sn_Name str)];
    "\tl := len(in)\n";
    "\tiNdEx := 0\n";
    "\toutIdx := 0\n";
    "\tvar err error\n";
    "\tlastFieldID := int16(0)\n";
    "\tfor iNdEx < l {\n";
    "\t\tvar i uint64\n";
    "\t\ti, iNdEx, err = readVarint(in, iNdEx)\n";
    "\t\tif err != nil {\n\t\t\treturn 0, err\n\t\t}\n";
    "\t\tfieldNum := int16(i >> 3)\n";
    "\t\twireType := int(i & 0x7)\n";
    "\t\tswitch fieldNum {\n";
    each (sn_Fields str) (fun f =>
      go_transpiler_field f);
    "\t\tdefault:\n";
    "\t\t\tvar v uint64\n";
    "\t\t\tv, iNdEx, err = readVarint(in, iNdEx)\n";
    "\t\t\tif err != nil {\n\t\t\t\treturn 0, err\n\t\t\t}\n";
    "\t\t\tif wireType == 0 {\n";
    "\t\t\t\t// skip\n";
    "\t\t\t} else if wireType == 2 {\n";
    "\t\t\t\tiNdEx += int(v)\n";
    "\t\t\t}\n";
    "\t\t}\n";
    "\t}\n";
    "\tout[outIdx] = 0\n";
    "\toutIdx++\n";
    "\treturn outIdx, nil\n";
    "}\n\n"].

Definition go_struct (str : StructNode) : text :=
  cat [
    go_decl str;
    go_marshal str;
    go_marshal_to str;
    go_unmarshal str;
    let offsets := flat_offsets (sn_Fields str) in
    let tableSize := flat_table_size (sn_Fields str) in
      let vtableSize := 4 + (2 * (Z.of_nat (length (sn_Fields str)))) in
        cat [
          go_flat_marshal str offsets tableSize vtableSize;
          go_flat_unmarshal str;
          go_write str;
          go_read str;
          if sn_HasFallback str
            then go_lazy_fallback str
            else cat [
              go_lazy str;
              go_transpiler str]]].

Definition go_processor (srv : ServiceNode) : text :=
  cat [
    sprintf "type %s interface {\n" [GS (sv_Name srv)];
    each (sv_Methods srv) (fun m =>
      sprintf "\t%s(ctx context.Context, req *%s) (\*%s, error)\n" [GS (mn_Name m); GS (mn_InputType m); GS (mn_OutputType m)]);
    "}\n\n";
    sprintf "type %sProcessor struct {\n" [GS (sv_Name srv)];
    sprintf "\thandler %s\n" [GS (sv_Name srv)];
    "}\n\n";
    sprintf "func New%sProcessor(handler %s) *%sProcessor {\n" [GS (sv_Name srv); GS (sv_Name srv); GS (sv_Name srv)];
    sprintf "\treturn &%sProcessor{handler: handler}\n" [GS (sv_Name srv)];
    "}\n\n";
    sprintf "func (p *%sProcessor) Process(ctx context.Context, iprot, oprot thrift.TProtocol) (bool, thrift.TException) {\n" [GS (sv_Name srv)];
    "\tname, _, seqId, err := iprot.ReadMessageBegin(ctx)\n";
    "\tif err != nil {\n";
    "\t\treturn false, thrift.WrapTException(err)\n";
    "\t}\n";
    "\tswitch name {\n";
    each (sv_Methods srv) (fun m =>
      cat [
        sprintf "\tcase \q%s\q:\n" [GS (mn_Name m)];
        sprintf "\t\targs := &%s{}\n" [GS (mn_InputType m)];
        "\t\tif err := args.Read(ctx, iprot); err != nil {\n";
        "\t\t\treturn false, thrift.WrapTException(err)\n";
        "\t\t}\n";
        "\t\tiprot.ReadMessageEnd(ctx)\n";
        sprintf "\t\tres, err := p.handler.%s(ctx, args)\n" [GS (mn_Name m)];
        "\t\tif err != nil {\n";
        "\t\t\tx := thrift.NewTApplicationException(thrift.INTERNAL_ERROR, err.Error())\n";
        sprintf "\t\t\toprot.WriteMessageBegin(ctx, \q%s\q, thrift.EXCEPTION, seqId)\n" [GS (mn_Name m)];
        "\t\t\tx.Write(ctx, oprot)\n";
        "\t\t\toprot.WriteMessageEnd(ctx)\n";
        "\t\t\toprot.Flush(ctx)\n";
        "\t\t\treturn true, thrift.WrapTException(err)\n";
        "\t\t}\n";
        sprintf "\t\toprot.WriteMessageBegin(ctx, \q%s\q, thrift.REPLY, seqId)\n" [GS (mn_Name m)];
        "\t\tres.Write(ctx, oprot)\n";
        "\t\toprot.WriteMessageEnd(ctx)\n";
        "\t\toprot.Flush(ctx)\n";
        "\t\treturn true, nil\n"]);
    "\tdefault:\n";
    "\t\treturn false, thrift.NewTApplicationException(thrift.UNKNOWN_METHOD, \qunknown method \q+name)\n";
    "\t}\n";
    "}\n\n"].

Definition go_register_method (parsed : AST) (srv : ServiceNode) (m : MethodNode) : text :=
  let packagePrefix := Namespace parsed in
    let packagePrefix := if bool_decide (packagePrefix = "") then "helix_example" else packagePrefix in
      let pathDot := sprintf "/%s.%s/%s" [GS packagePrefix; GS (sv_Name srv); GS (mn_Name m)] in
        let pathUnderscore := sprintf "/%s.%s/%s" [GS (ReplaceAll packagePrefix "."%char "_"%char); GS (sv_Name srv); GS (mn_Name m)] in
          cat [
            if (negb (bool_decide (mn_RESTMethod m = ""))) && (negb (bool_decide (mn_RESTPath m = "")))
              then sprintf "\tserver.RegisterRESTRoute(\q%s\q, \q%s\q, \q%s\q)\n" [GS (mn_RESTMethod m); GS (mn_RESTPath m); GS pathDot]
              else "";
            sprintf "\tserver.RegisterMethod(\q%s\q, runtime.MethodInfo{\n" [GS pathDot];
            sprintf "\t\tDecoder: func(dec func(interface{}) error) (interface{}, error) {\n" [];
            sprintf "\t\t\treq := &%s{}\n" [GS (mn_InputType m)];
            "\t\t\tif err := dec(req); err != nil {\n";
            "\t\t\t\treturn nil, err\n";
            "\t\t\t}\n";
            "\t\t\treturn req, nil\n";
            "\t\t},\n";
            sprintf "\t\tHandler: func(ctx context.Context, req interface{}) (interface{}, error) {\n" [];
            sprintf "\t\t\treturn impl.%s(ctx, req.(\*%s))\n" [GS (mn_Name m); GS (mn_InputType m)];
            "\t\t},\n";
            generateBinderString m parsed;
            "\t})\n";
            if negb (bool_decide (pathDot = pathUnderscore))
              then cat [
                sprintf "\tserver.RegisterMethod(\q%s\q, runtime.MethodInfo{\n" [GS pathUnderscore];
                sprintf "\t\tDecoder: func(dec func(interface{}) error) (interface{}, error) {\n" [];
                sprintf "\t\t\treq := &%s{}\n" [GS (mn_InputType m)];
                "\t\t\tif err := dec(req); err != nil {\n";
                "\t\t\t\treturn nil, err\n";
                "\t\t\t}\n";
                "\t\t\treturn req, nil\n";
                "\t\t},\n";
                sprintf "\t\tHandler: func(ctx context.Context, req interface{}) (interface{}, error) {\n" [];
                sprintf "\t\t\treturn impl.%s(ctx, req.(\*%s))\n" [GS (mn_Name m); GS (mn_InputType m)];
                "\t\t},\n";
                generateBinderString m parsed;
                "\t})\n"]
              else ""].

Definition go_service (parsed : AST) (srv : ServiceNode) : text :=
  cat [
    go_processor srv;
    sprintf "func Register%s(server *runtime.Server, impl %s) {\n" [GS (sv_Name srv); GS (sv_Name srv)];
    each (sv_Methods srv) (fun m =>
      go_register_method parsed srv m);
    "}\n\n"].

Definition GenerateGo (parsed : AST) : text :=
  cat [
    go_header parsed;
    each (Structs parsed) (fun str =>
      go_struct str);
    each (Services parsed) (fun srv =>
      go_service parsed srv)].

(** ** Nesting *)
Lemma mapGoType_neutral t : type_ok t = true -> neutral (mapGoType t).
Proof. intros H. apply type_name in H. unfold mapGoType. destruct (tn_Kind t); try done. apply neutral_brk. nest. Qed.
Lemma mapProtoType_neutral t : neutral (mapProtoType t).
Proof. unfold mapProtoType. by destruct (tn_Kind t). Qed.
Lemma mapThriftTypeConst_neutral t : neutral (mapThriftTypeConst t).
Proof. unfold mapThriftTypeConst. by destruct (tn_Kind t). Qed.
#[export] Hint Resolve mapGoType_neutral mapProtoType_neutral mapThriftTypeConst_neutral : names.

Section struct_nesting.
Context (str : StructNode) (H : struct_ok str = true).

Lemma go_decl_nest : neutral (go_decl str).
Proof using H. apply neutral_brk. unfold go_decl. nest. Qed.
Lemma go_marshal_nest : neutral (go_marshal str).
Proof using H. apply neutral_brk. unfold go_marshal. nest. Qed.
Lemma go_marshal_to_nest : neutral (go_marshal_to str).
Proof using H. apply neutral_brk. unfold go_marshal_to. nest. Qed.
Lemma go_unmarshal_nest : neutral (go_unmarshal str).
Proof using H. apply neutral_brk. unfold go_unmarshal. nest. Qed.
Lemma go_flat_marshal_nest offsets tableSize vtableSize : neutral (go_flat_marshal str offsets tableSize vtableSize).
Proof using H. apply neutral_brk. unfold go_flat_marshal. nest. Qed.
Lemma go_flat_unmarshal_nest : neutral (go_flat_unmarshal str).
Proof using H. apply neutral_brk. unfold go_flat_unmarshal. nest. Qed.
Lemma go_read_nest k : brk (Curly :: k) (go_read str) (k).
Proof using H. apply (brk_frame [Curly] _ []). unfold go_read. nest. Qed.
Lemma go_lazy_fallback_nest : neutral (go_lazy_fallback str).
Proof using H. apply neutral_brk. unfold go_lazy_fallback. nest. Qed.
Lemma go_lazy_nest : neutral (go_lazy str).
Proof using H. apply neutral_brk. unfold go_lazy. nest. Qed.
Lemma go_transpiler_field_nest f : neutral (go_transpiler_field f).
Proof using. apply neutral_brk. unfold go_transpiler_field. nest. Qed.
#[local] Hint Resolve go_transpiler_field_nest : names.
Lemma go_transpiler_nest : neutral (go_transpiler str).
Proof using H. apply neutral_brk. unfold go_transpiler. nest. Qed.

(** [Write] emits the closing brace of an [if] for every field, and the [if] only for
    the kinds it can write. *)
Definition writable (f : FieldNode) : bool :=
  match tn_Kind (fn_Type f) with TypeInt32 | TypeInt64 | TypeString => true | _ => false end.
Definition unwritable (fields : list FieldNode) : nat := length (List.filter (fun f => negb (writable f)) fields).

Lemma go_write_field_nest f k : field_ok f = true ->
  brk ((if writable f then [] else [Curly]) ++ k) (go_write_field f) k.
Proof using.
  intros Hf. apply (brk_frame _ _ []). unfold go_write_field, writable.
  destruct (tn_Kind (fn_Type f)) eqn:?; nest.
Qed.

Lemma go_write_fields_nest fields k : (forall f, f ∈ fields -> field_ok f = true) ->
  brk (replicate (unwritable fields) Curly ++ k) (each fields go_write_field) k.
Proof using.
  unfold each, unwritable. induction fields as [|f fields IH]; intros Hf; [apply brk_nil|].
  cbn [List.filter fmap list_fmap]. eapply brk_cons; [|apply IH; intros g Hg; apply Hf; by apply list_elem_of_further].
  pose proof (go_write_field_nest f (replicate (length (List.filter (fun f => negb (writable f)) fields)) Curly ++ k)
    (Hf f (list_elem_of_here _ _))) as B.
  by destruct (writable f).
Qed.

Lemma go_write_nest k : brk (replicate (unwritable (sn_Fields str)) Curly ++ k) (go_write str) k.
Proof using H.
  unfold go_write.
  pose proof (go_write_fields_nest (sn_Fields str) (Curly :: k) (fun f Hf => struct_field str f Hf H)) as B.
  replace (replicate (unwritable (sn_Fields str)) Curly ++ Curly :: k)
    with (Curly :: (replicate (unwritable (sn_Fields str)) Curly ++ k)) in B
    by (change (Curly :: ?x ++ k) with ((Curly :: x) ++ k); rewrite <- replicate_S, replicate_S_end, <- (assoc_L (++)); done).
  do 2 (eapply brk_cons; [apply (brk_frame [] _ [Curly]); nest|]).
  eapply brk_cons; [by apply brk_neutral|]. eapply brk_cons; [apply (brk_frame [Curly] _ []); nest|].
  eapply brk_cons; [exact B|]. apply (brk_frame [Curly] _ []). nest.
Qed.
#[local] Hint Resolve go_decl_nest go_marshal_nest go_marshal_to_nest go_unmarshal_nest go_flat_marshal_nest go_flat_unmarshal_nest go_read_nest go_lazy_fallback_nest go_lazy_nest go_transpiler_nest : names.

(** One closing brace too many for [Read], and one for every field [Write] cannot write. *)
Lemma go_struct_surplus : scan (go_struct str) [] = None.
Proof using H.
  apply (surplus_fails _ Curly (replicate (unwritable (sn_Fields str)) Curly)).
  enough (brk (replicate (unwritable (sn_Fields str)) Curly ++ [Curly]) (go_struct str) []) as B.
  { rewrite <- replicate_S, replicate_S_end. specialize (B []). by rewrite !(right_id_L [] (++)) in B. }
  unfold go_struct. do 4 (eapply brk_cons; [solve [eauto with names]|]).
  eapply brk_cons; [|apply brk_nil]. cbv zeta.
  do 2 (eapply brk_cons; [solve [eauto with names]|]).
  eapply brk_cons; [apply go_write_nest|]. eapply brk_cons; [apply go_read_nest|]. nest.
Qed.
End struct_nesting.

Section service_nesting.
Context (parsed : AST) (Hp : schema_ok parsed = true).

Lemma go_binder_fields_nest str : struct_ok str = true -> neutral (go_binder_fields str).
Proof using. intros Hs. apply neutral_brk. unfold go_binder_fields. nest. Qed.
#[local] Hint Resolve go_binder_fields_nest : names.

Lemma input_struct_ok m str : input_struct m parsed = Some str -> struct_ok str = true.
Proof using Hp.
  intros E. apply List.find_some in E as [Hin _]. rewrite <- list_elem_of_In in Hin. eauto with names.
Qed.
#[local] Hint Resolve input_struct_ok : names.

Lemma go_binder_nest m : method_ok m = true -> neutral (generateBinderString m parsed).
Proof using Hp. intros Hm. apply neutral_brk. unfold generateBinderString. nest. Qed.
#[local] Hint Resolve go_binder_nest : names.

Lemma go_header_nest : neutral (go_header parsed).
Proof using Hp. apply neutral_brk. unfold go_header. nest. Qed.
Lemma go_processor_nest srv : service_ok srv = true -> neutral (go_processor srv).
Proof using. intros Hs. apply neutral_brk. unfold go_processor. nest. Qed.
Lemma go_register_method_nest srv m : service_ok srv = true -> method_ok m = true ->
  neutral (go_register_method parsed srv m).
Proof using Hp.
  intros Hs Hm. apply neutral_brk. unfold go_register_method. cbv zeta.
  destruct (bool_decide (Namespace parsed = "")).
  all: cbn [negb andb]; nest.
Qed.
#[local] Hint Resolve go_processor_nest go_register_method_nest : names.
Lemma go_service_nest srv : service_ok srv = true -> neutral (go_service parsed srv).
Proof using Hp. intros Hs. apply neutral_brk. unfold go_service. nest. Qed.
#[local] Hint Resolve go_header_nest go_service_nest : names.

(** The text is nested exactly when the schema declares no struct. *)
Lemma go_nested : nested (GenerateGo parsed) = match Structs parsed with [] => true | _ => false end.
Proof using Hp.
  unfold nested, GenerateGo. cbn [cat].
  rewrite scan_app, (neutral_scan _ _ go_header_nest). cbn [option_bind mbind].
  rewrite scan_app, (scan_each _ _ (fun _ => false)).
  - destruct (Structs parsed); [|done]. cbn [forallb option_bind mbind].
    apply bool_decide_eq_true. apply (neutral_brk (cat [_])). nest.
  - intros str Hin. apply go_struct_surplus. eauto with names.
Qed.
End service_nesting.
