(* ===== verification/GenRust.v ===== *)
(** * The Rust generator ([compiler/codegen/rust_generator.go])

    [GenerateRust] as the text it builds: one definition per part of the function, each
    piece a literal or a format of the source. *)
From S2P Require Import Prelude GoStrings Ast GoText Wire GenCommon.
Local Open Scope go_scope.

Definition mapRustType (t : TypeNode) : text :=
  match tn_Kind t with
  | TypeInt32 => "i32"
  | TypeInt64 => "i64"
  | TypeString => "String"
  | TypeBinary => "Vec<u8>"
  | TypeBool => "bool"
  | TypeDouble => "f64"
  | TypeStruct => tn_Name t
  | _ => "String"
  end.

Definition mapProstType (t : TypeNode) : text :=
  match tn_Kind t with
  | TypeInt32 => "int32"
  | TypeInt64 => "int64"
  | TypeString => "string"
  | TypeBinary => "bytes"
  | TypeBool => "bool"
  | _ => "string"
  end.

Definition mapThriftTypeConstRust (t : TypeNode) : text :=
  match tn_Kind t with
  | TypeInt32 => "I32"
  | TypeInt64 => "I64"
  | TypeString => "String"
  | TypeBinary => "String"
  | TypeBool => "Bool"
  | TypeStruct => "Struct"
  | _ => "Stop"
  end.

Definition rust_helpers : text :=
  cat [
    "// Code generated by helix-gen. DO NOT EDIT.\n\n";
    "use std::collections::HashMap;\n";
    "use thrift::protocol::{TInputProtocol, TOutputProtocol, TSerializable, TFieldIdentifier, TStructIdentifier, TType};\n";
    "use thrift::Error as ThriftError;\n\n";
    "
#[inline]
fn read_varint(buf: &[u8], mut idx: usize) -> Result<(u64, usize), String> {
    let mut v: u64 = 0;
    let mut shift: u32 = 0;
    loop {
        if idx >= buf.len() { return Err(\qunexpected EOF reading varint\q.to_string()); }
        let b = buf[idx]; idx += 1;
        v |= ((b & 0x7f) as u64) << shift;
        if b & 0x80 == 0 { break; }
        shift += 7;
    }
    Ok((v, idx))
}

#[inline]
fn write_thrift_varint(out: &mut Vec<u8>, mut v: u64) {
    loop {
        if v & !0x7F == 0 { out.push(v as u8); break; }
        out.push((v as u8 & 0x7F) | 0x80);
        v >>= 7;
    }
}

#[inline]
fn write_thrift_i16(out: &mut Vec<u8>, v: i16) {
    out.push((v >> 8) as u8);
    out.push(v as u8);
}

fn fast_scan_field(buf: &[u8], target: i32) -> Result<(&[u8], u8), String> {
    let mut idx = 0usize;
    while idx < buf.len() {
        let (tag, ni) = read_varint(buf, idx)?;
        idx = ni;
        let field_num = (tag >> 3) as i32;
        let wire_type = (tag & 0x7) as u8;
        if field_num == target {
            if wire_type == 2 {
                let (len, ni) = read_varint(buf, idx)?;
                let end = ni + len as usize;
                if end > buf.len() { return Err(\qunexpected EOF\q.to_string()); }
                return Ok((&buf[ni..end], wire_type));
            } else if wire_type == 0 {
                let start = idx;
                let (_, ni) = read_varint(buf, idx)?;
                return Ok((&buf[start..ni], wire_type));
            }
            return Err(format!(\qunsupported wire_type {} for fast_scan\q, wire_type));
        }
        // Skip unknown field
        if wire_type == 0 { let (_, ni) = read_varint(buf, idx)?; idx = ni; }
        else if wire_type == 2 { let (len, ni) = read_varint(buf, idx)?; idx = ni + len as usize; }
        else { return Err(format!(\qunhandled wire_type {} in fast_scan skip\q, wire_type)); }
    }
    Err(format!(\qfield {} not found\q, target))
}

"].

Definition rust_decl (str : StructNode) : text :=
  cat [
    "#[derive(Clone, PartialEq, ::prost::Message, ::serde::Serialize, ::serde::Deserialize)]\n";
    sprintf "pub struct %s {\n" [GS (sn_Name str)];
    each (sn_Fields str) (fun f =>
      let rustType := mapRustType (fn_Type f) in
        let prostType := mapProstType (fn_Type f) in
          cat [
            sprintf "    #[prost(%s, tag = \q%d\q)]\n" [GS prostType; GD (fn_ID f)];
            sprintf "    pub %s: %s,\n" [GS (fn_Name f); GS rustType]]);
    "}\n\n"].

Definition rust_unsupported (str : StructNode) : text :=
  cat [
    sprintf "impl TSerializable for %s {\n" [GS (sn_Name str)];
    "    fn read_from_in_protocol(_i_prot: &mut dyn TInputProtocol) -> thrift::Result<Self> {\n";
    "        Err(thrift::Error::User(Box::new(std::io::Error::new(std::io::ErrorKind::Other, \qThrift serialization is unsupported for complex fields\q))))\n";
    "    }\n";
    "    fn write_to_out_protocol(&self, _o_prot: &mut dyn TOutputProtocol) -> thrift::Result<()> {\n";
    "        Err(thrift::Error::User(Box::new(std::io::Error::new(std::io::ErrorKind::Other, \qThrift serialization is unsupported for complex fields\q))))\n";
    "    }\n";
    "}\n\n";
    sprintf "impl %s {\n" [GS (sn_Name str)];
    "    pub fn marshal_flatbuffers(&self) -> Vec<u8> {\n";
    "        Vec::new()\n";
    "    }\n";
    "    pub fn unmarshal_flatbuffers(_buf: &[u8]) -> Result<Self, String> {\n";
    "        Err(\qFlatBuffers is unsupported for complex fields\q.to_string())\n";
    "    }\n";
    "}\n\n"].

Definition rust_thrift_read (str : StructNode) : text :=
  cat [
    sprintf "impl TSerializable for %s {\n" [GS (sn_Name str)];
    "    fn read_from_in_protocol(i_prot: &mut dyn TInputProtocol) -> thrift::Result<Self> {\n";
    "        i_prot.read_struct_begin()?;\n";
    each (sn_Fields str) (fun f =>
      sprintf "        let mut var_%s: Option<%s> = None;\n" [GS (fn_Name f); GS (mapRustType (fn_Type f))]);
    "        loop {\n";
    "            let field_ident = i_prot.read_field_begin()?;\n";
    "            if field_ident.field_type == TType::Stop {\n";
    "                break;\n";
    "            }\n";
    "            let field_id = field_ident.id.unwrap_or(0);\n";
    "            match field_id {\n";
    each (sn_Fields str) (fun f =>
      cat [
        sprintf "                %d => {\n" [GD (fn_ID f)];
        match tn_Kind (fn_Type f) with
        | TypeInt32 =>
            cat [
              sprintf "                    let val = i_prot.read_i32()?;\n" [];
              sprintf "                    var_%s = Some(val);\n" [GS (fn_Name f)]]
        | TypeInt64 =>
            cat [
              sprintf "                    let val = i_prot.read_i64()?;\n" [];
              sprintf "                    var_%s = Some(val);\n" [GS (fn_Name f)]]
        | TypeString =>
            cat [
              sprintf "                    let val = i_prot.read_string()?;\n" [];
              sprintf "                    var_%s = Some(val);\n" [GS (fn_Name f)]]
        | _ => ""
        end;
        "                }\n"]);
    "                _ => {\n";
    "                    i_prot.skip(field_ident.field_type)?;\n";
    "                }\n";
    "            }\n";
    "            i_prot.read_field_end()?;\n";
    "        }\n";
    "        i_prot.read_struct_end()?;\n";
    "        Ok(Self {\n";
    each (sn_Fields str) (fun f =>
      sprintf "            %s: var_%s.unwrap_or_default(),\n" [GS (fn_Name f); GS (fn_Name f)]);
    "        })\n";
    "    }\n\n"].

Definition rust_thrift_write (str : StructNode) : text :=
  cat [
    "    fn write_to_out_protocol(&self, o_prot: &mut dyn TOutputProtocol) -> thrift::Result<()> {\n";
    sprintf "        o_prot.write_struct_begin(&TStructIdentifier::new(\q%s\q))?;\n" [GS (sn_Name str)];
    each (sn_Fields str) (fun f =>
      let thriftType := mapThriftTypeConstRust (fn_Type f) in
        cat [
          sprintf "        o_prot.write_field_begin(&TFieldIdentifier::new(\q%s\q, TType::%s, Some(%d)))?;\n" [GS (fn_Name f); GS thriftType; GD (fn_ID f)];
          match tn_Kind (fn_Type f) with
          | TypeInt32 =>
              sprintf "        o_prot.write_i32(self.%s)?;\n" [GS (fn_Name f)]
          | TypeInt64 =>
              sprintf "        o_prot.write_i64(self.%s)?;\n" [GS (fn_Name f)]
          | TypeString =>
              sprintf "        o_prot.write_string(&self.%s)?;\n" [GS (fn_Name f)]
          | _ => ""
          end;
          "        o_prot.write_field_end()?;\n"]);
    "        o_prot.write_field_stop()?;\n";
    "        o_prot.write_struct_end()?;\n";
    "        Ok(())\n";
    "    }\n";
    "}\n\n"].

Definition rust_flat_marshal (str : StructNode) (offsets : list Z) (tableSize : Z) (vtableSize : Z) : text :=
  cat [
    "    pub fn marshal_flatbuffers(&self) -> Vec<u8> {\n";
    "        let mut dynamic_size = 0;\n";
    each (sn_Fields str) (fun f =>
      match tn_Kind (fn_Type f) with
        | TypeString =>
            sprintf "        if !self.%s.is_empty() { dynamic_size += 4 + self.%s.len(); }\n" [GS (fn_Name f); GS (fn_Name f)]
        | TypeBinary =>
            sprintf "        if !self.%s.is_empty() { dynamic_size += 4 + self.%s.len(); }\n" [GS (fn_Name f); GS (fn_Name f)]
        | _ => ""
        end);
    sprintf "        let table_size = %d;\n" [GD tableSize];
    sprintf "        let vtable_size = %d;\n" [GD vtableSize];
    "        let total_size = 4 + table_size + dynamic_size + vtable_size;\n";
    "        let mut buf = vec![0; total_size];\n";
    "        buf[0] = 4; // root offset pointing to the root table (always 4)\n";
    "        let vtable_start = 4 + table_size + dynamic_size;\n";
    "        let vtable_offset = (vtable_start - 4) as i32;\n";
    "        for j in 0..4 { buf[4 + j] = (vtable_offset >> (j * 8)) as u8; }\n";
    "        let mut current_string_offset = 4 + table_size;\n";
    each_i (sn_Fields str) (fun idx f =>
      let off := nth idx offsets 0 in
        match tn_Kind (fn_Type f) with
          | TypeInt32 =>
              cat [
                sprintf "        {\n            let v = self.%s as u32;\n" [GS (fn_Name f)];
                sprintf "            for j in 0..4 { buf[4 + %d + j] = (v >> (j * 8)) as u8; }\n        }\n" [GD off]]
          | TypeInt64 =>
              cat [
                sprintf "        {\n            let v = self.%s as u64;\n" [GS (fn_Name f)];
                sprintf "            for j in 0..8 { buf[4 + %d + j] = (v >> (j * 8)) as u8; }\n        }\n" [GD off]]
          | TypeBool =>
              sprintf "        if self.%s { buf[4 + %d] = 1; }\n" [GS (fn_Name f); GD off]
          | TypeString =>
              cat [
                sprintf "        if !self.%s.is_empty() {\n" [GS (fn_Name f)];
                sprintf "            let rel_offset = (current_string_offset - (4 + %d)) as u32;\n" [GD off];
                sprintf "            for j in 0..4 { buf[4 + %d + j] = (rel_offset >> (j * 8)) as u8; }\n" [GD off];
                sprintf "            let str_len = self.%s.len() as u32;\n" [GS (fn_Name f)];
                "            for j in 0..4 { buf[current_string_offset + j] = (str_len >> (j * 8)) as u8; }\n";
                sprintf "            buf[current_string_offset + 4 .. current_string_offset + 4 + self.%s.len()].copy_from_slice(self.%s.as_bytes());\n" [GS (fn_Name f); GS (fn_Name f)];
                sprintf "            current_string_offset += 4 + self.%s.len();\n" [GS (fn_Name f)];
                "        }\n"]
          | _ => ""
          end);
    "        buf[vtable_start] = vtable_size as u8;\n";
    "        buf[vtable_start+1] = (vtable_size >> 8) as u8;\n";
    "        buf[vtable_start+2] = table_size as u8;\n";
    "        buf[vtable_start+3] = (table_size >> 8) as u8;\n";
    each_i (sn_Fields str) (fun idx _ =>
      let off := nth idx offsets 0 in
        cat [
          sprintf "        buf[vtable_start + 4 + %d] = %d as u8;\n" [GD (2 * Z.of_nat idx); GD off];
          sprintf "        buf[vtable_start + 4 + %d + 1] = (%d >> 8) as u8;\n" [GD (2 * Z.of_nat idx); GD off]]);
    "        buf\n";
    "    }\n\n"].

Definition rust_flat_unmarshal (str : StructNode) : text :=
  cat [
    "    pub fn unmarshal_flatbuffers(buf: &[u8]) -> Result<Self, String> {\n";
    "        if buf.len() < 8 {\n            return Err(\qflatbuffers: buffer too small\q.to_string());\n        }\n";
    "        let root_offset = (buf[0] as u32) | (buf[1] as u32) << 8 | (buf[2] as u32) << 16 | (buf[3] as u32) << 24;\n";
    "        if root_offset as usize + 4 > buf.len() {\n            return Err(\qflatbuffers: invalid root offset\q.to_string());\n        }\n";
    "        let vtable_offset = (buf[root_offset as usize] as u32) |\n";
    "                            (buf[root_offset as usize + 1] as u32) << 8 |\n";
    "                            (buf[root_offset as usize + 2] as u32) << 16 |\n";
    "                            (buf[root_offset as usize + 3] as u32) << 24;\n";
    "        let vtable_start = root_offset as i32 + vtable_offset as i32;\n";
    "        if vtable_start < 0 || vtable_start as usize + 4 > buf.len() {\n            return Err(\qflatbuffers: invalid vtable offset\q.to_string());\n        }\n";
    "        let vtable_size = (buf[vtable_start as usize] as u16) | (buf[vtable_start as usize + 1] as u16) << 8;\n";
    each (sn_Fields str) (fun f =>
      let rustType := mapRustType (fn_Type f) in
        sprintf "        let mut var_%s: %s = Default::default();\n" [GS (fn_Name f); GS rustType]);
    each_i (sn_Fields str) (fun idx f =>
      let voff := 4 + (2 * Z.of_nat idx) in
        cat [
          sprintf "        if %d + 2 <= vtable_size as usize {\n" [GD voff];
          sprintf "            let foffset = (buf[vtable_start as usize + %d] as u16) | (buf[vtable_start as usize + %d + 1] as u16) << 8;\n" [GD voff; GD voff];
          "            if foffset > 0 {\n";
          "                let abs_offset = root_offset as usize + foffset as usize;\n";
          match tn_Kind (fn_Type f) with
          | TypeInt32 =>
              cat [
                "                if abs_offset + 4 <= buf.len() {\n";
                sprintf "                    var_%s = (buf[abs_offset] as u32 | (buf[abs_offset+1] as u32) << 8 | (buf[abs_offset+2] as u32) << 16 | (buf[abs_offset+3] as u32) << 24) as i32;\n" [GS (fn_Name f)];
                "                }\n"]
          | TypeInt64 =>
              cat [
                "                if abs_offset + 8 <= buf.len() {\n";
                sprintf "                    var_%s = (buf[abs_offset] as u64 | (buf[abs_offset+1] as u64) << 8 | (buf[abs_offset+2] as u64) << 16 | (buf[abs_offset+3] as u64) << 24 |\n" [GS (fn_Name f)];
                sprintf "                              (buf[abs_offset+4] as u64) << 32 | (buf[abs_offset+5] as u64) << 40 | (buf[abs_offset+6] as u64) << 48 | (buf[abs_offset+7] as u64) << 56) as i64;\n" [];
                "                }\n"]
          | TypeBool =>
              cat [
                "                if abs_offset < buf.len() {\n";
                sprintf "                    var_%s = buf[abs_offset] != 0;\n" [GS (fn_Name f)];
                "                }\n"]
          | TypeString =>
              cat [
                "                if abs_offset + 4 <= buf.len() {\n";
                "                    let rel_offset = (buf[abs_offset] as u32) | (buf[abs_offset+1] as u32) << 8 | (buf[abs_offset+2] as u32) << 16 | (buf[abs_offset+3] as u32) << 24;\n";
                "                    let str_start = abs_offset + rel_offset as usize;\n";
                "                    if str_start + 4 <= buf.len() {\n";
                "                        let str_len = (buf[str_start] as u32) | (buf[str_start+1] as u32) << 8 | (buf[str_start+2] as u32) << 16 | (buf[str_start+3] as u32) << 24;\n";
                "                        if str_start + 4 + str_len as usize <= buf.len() {\n";
                sprintf "                            if let Ok(s) = std::str::from_utf8(&buf[str_start+4 .. str_start+4+str_len as usize]) {\n" [];
                sprintf "                                var_%s = s.to_string();\n" [GS (fn_Name f)];
                "                            }\n";
                "                        }\n";
                "                    }\n";
                "                }\n"]
          | _ => ""
          end;
          "            }\n";
          "        }\n"]);
    "        Ok(Self {\n";
    each (sn_Fields str) (fun f =>
      match tn_Kind (fn_Type f) with
        | TypeString =>
            sprintf "            %s: std::str::from_utf8(var_%s).map_err(|e| e.to_string())?,\n" [GS (fn_Name f); GS (fn_Name f)]
        | TypeBinary =>
            sprintf "            %s: var_%s,\n" [GS (fn_Name f); GS (fn_Name f)]
        | _ =>
            sprintf "            %s: var_%s,\n" [GS (fn_Name f); GS (fn_Name f)]
        end);
    "        })\n    }\n}\n\n"].

Definition rust_view (str : StructNode) : text :=
  cat [
    sprintf "pub struct %sView<'a> {\n" [GS (sn_Name str)];
    each (sn_Fields str) (fun f =>
      match tn_Kind (fn_Type f) with
        | TypeString =>
            sprintf "    pub %s: &'a str,\n" [GS (fn_Name f)]
        | TypeBinary =>
            sprintf "    pub %s: &'a [u8],\n" [GS (fn_Name f)]
        | _ =>
            sprintf "    pub %s: %s,\n" [GS (fn_Name f); GS (mapRustType (fn_Type f))]
        end);
    "}\n\n";
    sprintf "impl<'a> %sView<'a> {\n" [GS (sn_Name str)];
    "    pub fn parse(buf: &'a [u8]) -> Result<Self, String> {\n";
    "        let mut idx = 0usize;\n";
    each (sn_Fields str) (fun f =>
      match tn_Kind (fn_Type f) with
        | TypeInt32 =>
            sprintf "        let mut var_%s: i32 = 0;\n" [GS (fn_Name f)]
        | TypeInt64 =>
            sprintf "        let mut var_%s: i64 = 0;\n" [GS (fn_Name f)]
        | TypeString | TypeBinary =>
            sprintf "        let mut var_%s: &'a [u8] = &[];\n" [GS (fn_Name f)]
        | _ => ""
        end);
    "        while idx < buf.len() {\n";
    "            let (tag, new_idx) = read_varint(buf, idx)?;\n";
    "            idx = new_idx;\n";
    "            let field_num = (tag >> 3) as i32;\n";
    "            let wire_type = (tag & 0x7) as u8;\n";
    "            match field_num {\n";
    each (sn_Fields str) (fun f =>
      cat [
        sprintf "                %d => {\n" [GD (fn_ID f)];
        match tn_Kind (fn_Type f) with
        | TypeInt32 | TypeInt64 =>
            cat [
              "                    let (v, ni) = read_varint(buf, idx)?; idx = ni;\n";
              if bool_decide (tn_Kind (fn_Type f) = TypeInt32)
                then sprintf "                    var_%s = v as i32;\n" [GS (fn_Name f)]
                else sprintf "                    var_%s = v as i64;\n" [GS (fn_Name f)]]
        | TypeString | TypeBinary =>
            cat [
              "                    let (len, ni) = read_varint(buf, idx)?; idx = ni;\n";
              "                    let end = idx + len as usize;\n";
              "                    if end > buf.len() { return Err(\qunexpected EOF\q.to_string()); }\n";
              sprintf "                    var_%s = &buf[idx..end]; idx = end;\n" [GS (fn_Name f)]]
        | _ => ""
        end;
        "                }\n"]);
    "                _ => {\n";
    "                    if wire_type == 0 { let (_, ni) = read_varint(buf, idx)?; idx = ni; }\n";
    "                    else if wire_type == 2 { let (len, ni) = read_varint(buf, idx)?; idx = ni + len as usize; }\n";
    "                    else { return Err(format!(\qunsupported wire_type {}\q, wire_type)); }\n";
    "                }\n";
    "            }\n";
    "        }\n";
    "        Ok(Self {\n";
    each (sn_Fields str) (fun f =>
      match tn_Kind (fn_Type f) with
        | TypeString =>
            sprintf "            %s: std::str::from_utf8(var_%s).map_err(|e| e.to_string())?,\n" [GS (fn_Name f); GS (fn_Name f)]
        | TypeBinary =>
            sprintf "            %s: var_%s,\n" [GS (fn_Name f); GS (fn_Name f)]
        | _ =>
            sprintf "            %s: var_%s,\n" [GS (fn_Name f); GS (fn_Name f)]
        end);
    "        })\n    }\n}\n\n"].

Definition rust_lazy_fallback (str : StructNode) : text :=
  cat [
    sprintf "pub struct Lazy%s<'a> {\n    decoded: %s,\n    _marker: std::marker::PhantomData<&'a ()>,\n}\n\n" [GS (sn_Name str); GS (sn_Name str)];
    sprintf "impl<'a> Lazy%s<'a> {\n" [GS (sn_Name str)];
    sprintf "    pub fn new(raw: &'a [u8]) -> Self {\n        let mut decoded = %s::default();\n        let _ = prost::Message::merge(&mut decoded, raw);\n        Self { decoded, _marker: std::marker::PhantomData }\n    }\n" [GS (sn_Name str)];
    each (sn_Fields str) (fun f =>
      match tn_Kind (fn_Type f) with
          | TypeInt32 =>
              sprintf "    pub fn get_%s(&self) -> Result<i32, String> { Ok(self.decoded.%s as i32) }\n" [GS (fn_Name f); GS (fn_Name f)]
          | TypeInt64 =>
              sprintf "    pub fn get_%s(&self) -> Result<i64, String> { Ok(self.decoded.%s as i64) }\n" [GS (fn_Name f); GS (fn_Name f)]
          | TypeString =>
              sprintf "    pub fn get_%s(&self) -> Result<&str, String> { Ok(&self.decoded.%s) }\n" [GS (fn_Name f); GS (fn_Name f)]
          | _ =>
              ""
          end);
    "}\n\n";
    sprintf "impl %s {\n" [GS (sn_Name str)];
    "    pub fn transpile_protobuf_to_thrift_compact(_input: &[u8], _output: &mut Vec<u8>) -> Result<(), String> {\n";
    "        Err(\qTranspilation is unsupported for structs with complex fields.\q.to_string())\n";
    "    }\n}\n\n"].

Definition rust_lazy (str : StructNode) : text :=
  cat [
    sprintf "pub struct Lazy%s<'a> {\n    raw: &'a [u8],\n}\n\n" [GS (sn_Name str)];
    sprintf "impl<'a> Lazy%s<'a> {\n" [GS (sn_Name str)];
    sprintf "    pub fn new(raw: &'a [u8]) -> Self { Self { raw } }\n" [];
    each (sn_Fields str) (fun f =>
      match tn_Kind (fn_Type f) with
          | TypeInt32 =>
              cat [
                sprintf "    pub fn get_%s(&self) -> Result<i32, String> {\n" [GS (fn_Name f)];
                sprintf "        let (b, _) = fast_scan_field(self.raw, %d)?;\n" [GD (fn_ID f)];
                "        let (v, _) = read_varint(b, 0)?;\n";
                "        Ok(v as i32)\n    }\n"]
          | TypeInt64 =>
              cat [
                sprintf "    pub fn get_%s(&self) -> Result<i64, String> {\n" [GS (fn_Name f)];
                sprintf "        let (b, _) = fast_scan_field(self.raw, %d)?;\n" [GD (fn_ID f)];
                "        let (v, _) = read_varint(b, 0)?;\n";
                "        Ok(v as i64)\n    }\n"]
          | TypeString =>
              cat [
                sprintf "    pub fn get_%s(&self) -> Result<&str, String> {\n" [GS (fn_Name f)];
                sprintf "        let (b, _) = fast_scan_field(self.raw, %d)?;\n" [GD (fn_ID f)];
                "        std::str::from_utf8(b).map_err(|e| e.to_string())\n    }\n"]
          | _ =>
              ""
          end);
    "}\n\n"].

Definition rust_transpiler (str : StructNode) : text :=
  cat [
    sprintf "impl %s {\n" [GS (sn_Name str)];
    "    pub fn transpile_protobuf_to_thrift_compact(input: &[u8], output: &mut Vec<u8>) -> Result<(), String> {\n";
    "        let mut idx = 0usize;\n";
    "        let mut last_field: i16 = 0;\n";
    "        while idx < input.len() {\n";
    "            let (tag, new_idx) = read_varint(input, idx)?;\n";
    "            idx = new_idx;\n";
    "            let field_num = (tag >> 3) as i16;\n";
    "            let wire_type = (tag & 0x7) as u8;\n";
    "            match field_num {\n";
    each (sn_Fields str) (fun f =>
      cat [
        sprintf "                %d => {\n" [GD (fn_ID f)];
        match tn_Kind (fn_Type f) with
        | TypeInt32 | TypeInt64 =>
            let typeNibble := "0x05u8" in
              let typeNibble := if bool_decide (tn_Kind (fn_Type f) = TypeInt64) then "0x06u8" else typeNibble in
                cat [
                  "                    let (v, ni) = read_varint(input, idx)?; idx = ni;\n";
                  sprintf "                    let delta = field_num - last_field;\n" [];
                  sprintf "                    if delta > 0 && delta <= 15 { output.push(((delta as u8) << 4) | %s); }\n" [GS typeNibble];
                  sprintf "                    else { output.push(%s); write_thrift_i16(output, field_num); }\n" [GS typeNibble];
                  "                    last_field = field_num;\n";
                  if bool_decide (tn_Kind (fn_Type f) = TypeInt32)
                    then "                    let zz = ((v as i32) << 1 ^ (v as i32) >> 31) as u64;\n"
                    else "                    let zz = (v << 1 ^ (v >> 63) as u64) as u64;\n";
                  "                    write_thrift_varint(output, zz);\n"]
        | TypeString =>
            cat [
              "                    let (len, ni) = read_varint(input, idx)?; idx = ni;\n";
              "                    let delta = field_num - last_field;\n";
              "                    if delta > 0 && delta <= 15 { output.push(((delta as u8) << 4) | 0x08u8); }\n";
              "                    else { output.push(0x08u8); write_thrift_i16(output, field_num); }\n";
              "                    last_field = field_num;\n";
              "                    write_thrift_varint(output, len);\n";
              "                    output.extend_from_slice(&input[idx..idx + len as usize]);\n";
              "                    idx += len as usize;\n"]
        | _ => ""
        end;
        "                }\n"]);
    "                _ => {\n";
    "                    if wire_type == 0 { let (_, ni) = read_varint(input, idx)?; idx = ni; }\n";
    "                    else if wire_type == 2 { let (len, ni) = read_varint(input, idx)?; idx = ni + len as usize; }\n";
    "                }\n";
    "            }\n";
    "        }\n";
    "        output.push(0); // Thrift STOP field\n";
    "        Ok(())\n    }\n}\n\n"].

Definition rust_struct (str : StructNode) : text :=
  cat [
    rust_decl str;
    if sn_HasFallback str
      then rust_unsupported str
      else cat [
        rust_thrift_read str;
        rust_thrift_write str;
        let offsets := flat_offsets (sn_Fields str) in
        let tableSize := flat_table_size (sn_Fields str) in
          let vtableSize := 4 + (2 * (Z.of_nat (length (sn_Fields str)))) in
            cat [
              rust_flat_marshal str offsets tableSize vtableSize;
              rust_flat_unmarshal str]];
    if negb (sn_HasFallback str)
      then rust_view str
      else "";
    if sn_HasFallback str
      then rust_lazy_fallback str
      else cat [
        rust_lazy str;
        rust_transpiler str]].

Definition rust_service (srv : ServiceNode) : text :=
  cat [
    "#[async_trait::async_trait]\n";
    sprintf "pub trait %s: Send + Sync + 'static {\n" [GS (sv_Name srv)];
    each (sv_Methods srv) (fun m =>
      sprintf "    async fn %s(&self, req: %s) -> Result<%s, ThriftError>;\n" [GS (toSnakeCase (mn_Name m)); GS (mn_InputType m); GS (mn_OutputType m)]);
    "}\n\n"].

Definition GenerateRust (parsed : AST) : text :=
  cat [
    rust_helpers;
    each (Structs parsed) (fun str =>
      rust_struct str);
    each (Services parsed) (fun srv =>
      rust_service srv)].

(** ** Nesting *)
Lemma mapRustType_neutral t : type_ok t = true -> neutral (mapRustType t).
Proof. intros H. apply type_name in H. unfold mapRustType. by destruct (tn_Kind t). Qed.
Lemma mapProstType_neutral t : neutral (mapProstType t).
Proof. unfold mapProstType. by destruct (tn_Kind t). Qed.
Lemma mapThriftTypeConstRust_neutral t : neutral (mapThriftTypeConstRust t).
Proof. unfold mapThriftTypeConstRust. by destruct (tn_Kind t). Qed.
Lemma toSnakeCase_neutral s : neutral s -> neutral (toSnakeCase s).
Proof. apply neutral_snake. Qed.
#[export] Hint Resolve mapRustType_neutral mapProstType_neutral mapThriftTypeConstRust_neutral toSnakeCase_neutral : names.

Section struct_nesting.
Context (str : StructNode) (H : struct_ok str = true).

Lemma rust_decl_nest : neutral (rust_decl str).
Proof using H. apply neutral_brk. unfold rust_decl. nest. Qed.
Lemma rust_unsupported_nest : neutral (rust_unsupported str).
Proof using H. apply neutral_brk. unfold rust_unsupported. nest. Qed.
Lemma rust_thrift_read_nest k : brk (k) (rust_thrift_read str) (Curly :: k).
Proof using H. apply (brk_frame [] _ [Curly]). unfold rust_thrift_read. nest. Qed.
Lemma rust_thrift_write_nest k : brk (Curly :: k) (rust_thrift_write str) (k).
Proof using H. apply (brk_frame [Curly] _ []). unfold rust_thrift_write. nest. Qed.
Lemma rust_flat_marshal_nest offsets tableSize vtableSize : neutral (rust_flat_marshal str offsets tableSize vtableSize).
Proof using H. apply neutral_brk. unfold rust_flat_marshal. nest. Qed.
Lemma rust_flat_unmarshal_nest k : brk (Curly :: k) (rust_flat_unmarshal str) (k).
Proof using H. apply (brk_frame [Curly] _ []). unfold rust_flat_unmarshal. nest. Qed.
Lemma rust_view_nest : neutral (rust_view str).
Proof using H. apply neutral_brk. unfold rust_view. nest. Qed.
Lemma rust_lazy_fallback_nest : neutral (rust_lazy_fallback str).
Proof using H. apply neutral_brk. unfold rust_lazy_fallback. nest. Qed.
Lemma rust_lazy_nest : neutral (rust_lazy str).
Proof using H. apply neutral_brk. unfold rust_lazy. nest. Qed.
Lemma rust_transpiler_nest : neutral (rust_transpiler str).
Proof using H. apply neutral_brk. unfold rust_transpiler. nest. Qed.

#[local] Hint Resolve rust_decl_nest rust_unsupported_nest rust_thrift_read_nest rust_thrift_write_nest rust_flat_marshal_nest rust_flat_unmarshal_nest rust_view_nest rust_lazy_fallback_nest rust_lazy_nest rust_transpiler_nest : names.

Lemma rust_struct_fallback : sn_HasFallback str = true -> neutral (rust_struct str).
Proof using H. intros E. apply neutral_brk. unfold rust_struct. rewrite !E. nest. Qed.

(** Without the fallback one closing brace too many is emitted: the FlatBuffers methods
    follow the end of the [impl TSerializable] block and no [impl] block is opened for
    them. *)
Lemma rust_struct_surplus : sn_HasFallback str = false -> scan (rust_struct str) [] = None.
Proof using H.
  intros E. apply (surplus_fails _ Curly []).
  enough (brk [Curly] (rust_struct str) []) as B by exact (B []).
  unfold rust_struct. rewrite !E. nest.
Qed.
End struct_nesting.

Lemma rust_service_nest srv : service_ok srv = true -> neutral (rust_service srv).
Proof. intros H. apply neutral_brk. unfold rust_service. nest. Qed.
Lemma rust_helpers_nest : neutral rust_helpers.
Proof. vm_compute. reflexivity. Qed.
#[export] Hint Resolve rust_service_nest rust_helpers_nest : names.

(** The text is nested exactly when every struct took the fallback. *)
Lemma rust_nested (parsed : AST) : schema_ok parsed = true ->
  nested (GenerateRust parsed) = forallb sn_HasFallback (Structs parsed).
Proof.
  intros H. unfold nested, GenerateRust. cbn [cat].
  rewrite scan_app, (neutral_scan _ _ rust_helpers_nest). cbn [option_bind mbind].
  rewrite scan_app, (scan_each _ _ sn_HasFallback).
  - destruct (forallb _ _); [|done]. cbn [option_bind mbind].
    apply bool_decide_eq_true. apply (neutral_brk (cat [_])). nest.
  - intros str Hin. destruct (sn_HasFallback str) eqn:E.
    + apply rust_struct_fallback; eauto with names.
    + apply rust_struct_surplus; eauto with names.
Qed.
