(* ===== verification/GenNode.v ===== *)
(** * The TypeScript generator ([compiler/codegen/node_generator.go])

    [GenerateNode] as the text it builds: one definition per part of the function, each
    piece a literal or a format of the source.  The counter [vOffset] of the vtable loop
    is [4 + 2*idx]. *)
From S2P Require Import Prelude GoStrings Ast GoText Wire GenCommon.
Local Open Scope go_scope.

Definition mapJSType (t : TypeNode) : text :=
  match tn_Kind t with
  | TypeInt32 | TypeInt64 => "number"
  | TypeBool => "boolean"
  | TypeString => "string"
  | _ => "any"
  end.

Definition mapJSDefaultValue (t : TypeNode) : text :=
  match tn_Kind t with
  | TypeInt32 | TypeInt64 => "0"
  | TypeBool => "false"
  | TypeString => "\q\q"
  | _ => "null"
  end.

Definition toJSFieldName (s : string) : string :=
  Join (imap (fun i part => match i with O => part | S _ => Title part end) (Split s "_")) "".

Definition node_helpers : text :=
  cat [
    "// Automatically generated by Helix RPC. DO NOT EDIT.\n\n";
    "function readVarint(buf: Uint8Array, idx: number): [bigint, number] {
    let v = BigInt(0);
    let shift = BigInt(0);
    while (true) {
        if (idx >= buf.length) throw new Error('unexpected EOF reading varint');
        const b = buf[idx++];
        v |= BigInt(b & 0x7f) << shift;
        if ((b & 0x80) === 0) break;
        shift += BigInt(7);
    }
    return [v, idx];
}

function writeThriftVarint(out: number[], v: bigint): void {
    while (true) {
        if ((v & ~BigInt(0x7F)) === BigInt(0)) { out.push(Number(v)); break; }
        out.push(Number(v & BigInt(0x7F)) | 0x80);
        v >>= BigInt(7);
    }
}

function writeThriftI16(out: number[], v: number): void {
    out.push((v >> 8) & 0xFF);
    out.push(v & 0xFF);
}

function fastScanField(buf: Uint8Array, targetFieldNum: number): [Uint8Array, number] {
    let idx = 0;
    while (idx < buf.length) {
        const [tag, ni] = readVarint(buf, idx); idx = ni;
        const fieldNum = Number(tag >> BigInt(3));
        const wireType = Number(tag & BigInt(7));
        if (fieldNum === targetFieldNum) {
            if (wireType === 2) {
                const [len, ni2] = readVarint(buf, idx);
                const end = ni2 + Number(len);
                if (end > buf.length) throw new Error('unexpected EOF');
                return [buf.subarray(ni2, end), wireType];
            } else if (wireType === 0) {
                const start = idx;
                const [, ni2] = readVarint(buf, idx);
                return [buf.subarray(start, ni2), wireType];
            }
            throw new Error(`unsupported wireType ${wireType} for fastScan`);
        }
        if (wireType === 0) { const [, ni2] = readVarint(buf, idx); idx = ni2; }
        else if (wireType === 2) { const [len, ni2] = readVarint(buf, idx); idx = ni2 + Number(len); }
        else throw new Error(`unhandled wireType ${wireType} in fastScan skip`);
    }
    throw new Error(`field ${targetFieldNum} not found`);
}

"].

Definition node_class_head (str : StructNode) : text :=
  cat [
    sprintf "export class %s {\n" [GS (sn_Name str)];
    each (sn_Fields str) (fun f =>
      let jsType := mapJSType (fn_Type f) in
        let defaultVal := mapJSDefaultValue (fn_Type f) in
          sprintf "    public %s: %s = %s;\n" [GS (toJSFieldName (fn_Name f)); GS jsType; GS defaultVal]);
    "\n";
    cat ["    constructor(init?: Partial<"; sn_Name str; ">) {\n"];
    "        if (init) {\n";
    "            Object.assign(this, init);\n";
    "        }\n";
    "    }\n\n"].

Definition node_flat_marshal (str : StructNode) (offsets : list Z) (tableSize : Z) (vtableSize : Z) : text :=
  cat [
    "    public marshalFlatBuffers(): Uint8Array {\n";
    "        const encoder = new TextEncoder();\n";
    "        let dynamicSize = 0;\n";
    each (sn_Fields str) (fun f =>
      if bool_decide (tn_Kind (fn_Type f) = TypeString)
          then let fName := toJSFieldName (fn_Name f) in
            cat [
              sprintf "        const enc_%s = this.%s ? encoder.encode(this.%s) : new Uint8Array(0);\n" [GS fName; GS fName; GS fName];
              sprintf "        if (this.%s) {\n" [GS fName];
              sprintf "            dynamicSize += 4 + enc_%s.length;\n" [GS fName];
              "        }\n"]
          else "");
    sprintf "        const tableSize = %d;\n" [GD tableSize];
    sprintf "        const vtableSize = %d;\n" [GD vtableSize];
    "        const totalSize = 4 + tableSize + dynamicSize + vtableSize;\n";
    "        const buf = new Uint8Array(totalSize);\n";
    "        const view = new DataView(buf.buffer, buf.byteOffset, buf.byteLength);\n";
    "        \n";
    "        // Root offset pointing to root table (always 4)\n";
    "        view.setUint32(0, 4, true);\n";
    "        \n";
    "        // Write vtable offset at buf[4:8]\n";
    "        const vtableStart = 4 + tableSize + dynamicSize;\n";
    "        const vtableOffset = vtableStart - 4;\n";
    "        view.setInt32(4, vtableOffset, true);\n";
    "        \n";
    sprintf "        let currentStringOffset = 4 + %d;\n" [GD tableSize];
    each_i (sn_Fields str) (fun idx f =>
      let fName := toJSFieldName (fn_Name f) in
        let bufOffset := 4 + (nth idx offsets 0) in
          match tn_Kind (fn_Type f) with
            | TypeInt32 =>
                sprintf "        view.setInt32(%d, this.%s || 0, true);\n" [GD bufOffset; GS fName]
            | TypeInt64 =>
                sprintf "        view.setBigInt64(%d, BigInt(this.%s || 0), true);\n" [GD bufOffset; GS fName]
            | TypeBool =>
                sprintf "        view.setUint8(%d, this.%s ? 1 : 0);\n" [GD bufOffset; GS fName]
            | TypeString =>
                cat [
                  sprintf "        if (this.%s) {\n" [GS fName];
                  sprintf "            const relOffset = currentStringOffset - %d;\n" [GD bufOffset];
                  sprintf "            view.setUint32(%d, relOffset, true);\n" [GD bufOffset];
                  sprintf "            view.setUint32(currentStringOffset, enc_%s.length, true);\n" [GS fName];
                  sprintf "            buf.set(enc_%s, currentStringOffset + 4);\n" [GS fName];
                  sprintf "            currentStringOffset += 4 + enc_%s.length;\n" [GS fName];
                  "        }\n"]
            | _ => ""
            end);
    "        // Write vtable\n";
    "        view.setUint16(vtableStart, vtableSize, true);\n";
    "        view.setUint16(vtableStart + 2, tableSize, true);\n";
    each_i (sn_Fields str) (fun idx f =>
      let off := nth idx offsets 0 in
        cat [
          sprintf "        if (this.%s !== undefined) {\n" [GS (toJSFieldName (fn_Name f))];
          sprintf "            view.setUint16(vtableStart + %d, %d, true);\n" [GD (4 + (2 * Z.of_nat idx)); GD off];
          "        }\n"]);
    "        return buf;\n";
    "    }\n\n"].

Definition node_flat_unmarshal (str : StructNode) : text :=
  cat [
    sprintf "    public static unmarshalFlatBuffers(buf: Uint8Array): %s {\n" [GS (sn_Name str)];
    "        const decoder = new TextDecoder();\n";
    "        const view = new DataView(buf.buffer, buf.byteOffset, buf.byteLength);\n";
    "        if (buf.length < 8) {\n";
    "            throw new Error('flatbuffers: buffer too small');\n";
    "        }\n";
    "        const rootOffset = view.getUint32(0, true);\n";
    "        if (rootOffset + 4 > buf.length) {\n";
    "            throw new Error('flatbuffers: invalid root offset');\n";
    "        }\n";
    "        const vtableOffset = view.getInt32(rootOffset, true);\n";
    "        const vtableStart = rootOffset + vtableOffset;\n";
    "        if (vtableStart < 0 || vtableStart + 4 > buf.length) {\n";
    "            throw new Error('flatbuffers: invalid vtable offset');\n";
    "        }\n";
    "        const vtableSize = view.getUint16(vtableStart, true);\n";
    sprintf "        const result = new %s();\n" [GS (sn_Name str)];
    "        \n";
    each_i (sn_Fields str) (fun idx f =>
      let fName := toJSFieldName (fn_Name f) in
        let voff := 4 + (2 * Z.of_nat idx) in
          cat [
            sprintf "        if (%d + 2 <= vtableSize) {\n" [GD voff];
            sprintf "            const foffset = view.getUint16(vtableStart + %d, true);\n" [GD voff];
            "            if (foffset > 0) {\n";
            "                const absOffset = rootOffset + foffset;\n";
            match tn_Kind (fn_Type f) with
            | TypeInt32 =>
                cat [
                  "                if (absOffset + 4 <= buf.length) {\n";
                  sprintf "                    result.%s = view.getInt32(absOffset, true);\n" [GS fName];
                  "                }\n"]
            | TypeInt64 =>
                cat [
                  "                if (absOffset + 8 <= buf.length) {\n";
                  sprintf "                    result.%s = Number(view.getBigInt64(absOffset, true));\n" [GS fName];
                  "                }\n"]
            | TypeBool =>
                cat [
                  "                if (absOffset < buf.length) {\n";
                  sprintf "                    result.%s = view.getUint8(absOffset) !== 0;\n" [GS fName];
                  "                }\n"]
            | TypeString =>
                cat [
                  "                if (absOffset + 4 <= buf.length) {\n";
                  "                    const relOffset = view.getUint32(absOffset, true);\n";
                  "                    const strStart = absOffset + relOffset;\n";
                  "                    if (strStart + 4 <= buf.length) {\n";
                  "                        const strLen = view.getUint32(strStart, true);\n";
                  "                        if (strStart + 4 + strLen <= buf.length) {\n";
                  sprintf "                            result.%s = decoder.decode(buf.subarray(strStart + 4, strStart + 4 + strLen));\n" [GS fName];
                  "                        }\n";
                  "                    }\n";
                  "                }\n"]
            | _ => ""
            end;
            "            }\n";
            "        }\n"]);
    "        return result;\n";
    "    }\n"].

Definition node_fallback (str : StructNode) : text :=
  cat [
    sprintf "\n    public static unmarshalProtobuf(buf: Uint8Array): %s {\n" [GS (sn_Name str)];
    sprintf "        const res = new %s();\n" [GS (sn_Name str)];
    "        let idx = 0;\n";
    "        while (idx < buf.length) {\n";
    "            const [tag, ni] = readVarint(buf, idx); idx = ni;\n";
    "            const fieldNum = Number(tag >> 3n);\n";
    "            const wireType = Number(tag & 7n);\n";
    "            switch (fieldNum) {\n";
    each (sn_Fields str) (fun f =>
      cat [
        sprintf "                case %d:\n" [GD (fn_ID f)];
        match tn_Kind (fn_Type f) with
        | TypeInt32 | TypeInt64 =>
            cat [
              sprintf "                    const [v_%d, ni_%d] = readVarint(buf, idx); idx = ni_%d;\n" [GD (fn_ID f); GD (fn_ID f); GD (fn_ID f)];
              sprintf "                    res.%s = Number(v_%d);\n" [GS (toJSFieldName (fn_Name f)); GD (fn_ID f)]]
        | TypeString =>
            cat [
              sprintf "                    const [len_%d, ni_%d] = readVarint(buf, idx); idx = ni_%d;\n" [GD (fn_ID f); GD (fn_ID f); GD (fn_ID f)];
              sprintf "                    res.%s = new TextDecoder().decode(buf.subarray(idx, idx + Number(len_%d)));\n" [GS (toJSFieldName (fn_Name f)); GD (fn_ID f)];
              sprintf "                    idx += Number(len_%d);\n" [GD (fn_ID f)]]
        | _ => ""
        end;
        "                    break;\n"]);
    "                default:\n";
    "                    if (wireType === 0) { const [, ni2] = readVarint(buf, idx); idx = ni2; }\n";
    "                    else if (wireType === 2) { const [len, ni2] = readVarint(buf, idx); idx = ni2 + Number(len); }\n";
    "                    break;\n";
    "            }\n";
    "        }\n";
    "        return res;\n";
    "    }\n";
    "\n    public static transpileProtobufToThriftCompact(input: Uint8Array): Uint8Array {\n";
    "        throw new Error(\qTranspilation is unsupported for structs with complex fields.\q);\n";
    "    }\n";
    "}\n\n";
    sprintf "export class Lazy%s {\n" [GS (sn_Name str)];
    sprintf "    private readonly decoded: %s;\n" [GS (sn_Name str)];
    sprintf "    constructor(raw: Uint8Array) { this.decoded = %s.unmarshalProtobuf(raw); }\n" [GS (sn_Name str)];
    each (sn_Fields str) (fun f =>
      let fName := toJSFieldName (fn_Name f) in
        let getterName := cat ["get"; Title fName] in
          sprintf "    %s(): any { return this.decoded.%s; }\n" [GS getterName; GS fName]);
    "}\n\n"].

Definition node_transpiler (str : StructNode) : text :=
  cat [
    "\n    public static transpileProtobufToThriftCompact(input: Uint8Array): Uint8Array {\n";
    "        const out: number[] = [];\n";
    "        let idx = 0;\n";
    "        let lastField = 0;\n";
    "        while (idx < input.length) {\n";
    "            const [tag, ni] = readVarint(input, idx); idx = ni;\n";
    "            const fieldNum = Number(tag >> BigInt(3));\n";
    "            const wireType = Number(tag & BigInt(7));\n";
    "            switch (fieldNum) {\n";
    each (sn_Fields str) (fun f =>
      let fieldID := fn_ID f in
        cat [
          sprintf "                case %d: {\n" [GD fieldID];
          match tn_Kind (fn_Type f) with
          | TypeInt64 =>
              cat [
                "                    const [rawVal, ni2] = readVarint(input, idx); idx = ni2;\n";
                sprintf "                    const delta%d = %d - lastField;\n" [GD fieldID; GD fieldID];
                sprintf "                    if (delta%d > 0 && delta%d <= 15) {\n" [GD fieldID; GD fieldID];
                sprintf "                        out.push((delta%d << 4) | 0x06);\n" [GD fieldID];
                "                    } else {\n";
                "                        out.push(0x06);\n";
                sprintf "                        writeThriftI16(out, %d);\n" [GD fieldID];
                "                    }\n";
                "                    const zz = (rawVal << BigInt(1)) ^ (rawVal >> BigInt(63));\n";
                "                    writeThriftVarint(out, zz);\n";
                sprintf "                    lastField = %d;\n" [GD fieldID]]
          | TypeInt32 =>
              cat [
                "                    const [rawVal, ni2] = readVarint(input, idx); idx = ni2;\n";
                sprintf "                    const delta%d = %d - lastField;\n" [GD fieldID; GD fieldID];
                sprintf "                    if (delta%d > 0 && delta%d <= 15) {\n" [GD fieldID; GD fieldID];
                sprintf "                        out.push((delta%d << 4) | 0x05);\n" [GD fieldID];
                "                    } else {\n";
                "                        out.push(0x05);\n";
                sprintf "                        writeThriftI16(out, %d);\n" [GD fieldID];
                "                    }\n";
                "                    const zz = (rawVal << 1) ^ (rawVal >> 31);\n";
                "                    writeThriftVarint(out, BigInt(zz));\n";
                sprintf "                    lastField = %d;\n" [GD fieldID]]
          | TypeString =>
              cat [
                "                    const [len, ni2] = readVarint(input, idx); idx = ni2;\n";
                "                    const strVal = input.subarray(idx, idx + Number(len)); idx += Number(len);\n";
                sprintf "                    const delta%d = %d - lastField;\n" [GD fieldID; GD fieldID];
                sprintf "                    if (delta%d > 0 && delta%d <= 15) {\n" [GD fieldID; GD fieldID];
                sprintf "                        out.push((delta%d << 4) | 0x08);\n" [GD fieldID];
                "                    } else {\n";
                "                        out.push(0x08);\n";
                sprintf "                        writeThriftI16(out, %d);\n" [GD fieldID];
                "                    }\n";
                "                    writeThriftVarint(out, len);\n";
                "                    const strBytes = Array.from(strVal);\n";
                "                    for (let i = 0; i < strBytes.length; i++) out.push(strBytes[i]);\n";
                sprintf "                    lastField = %d;\n" [GD fieldID]]
          | _ =>
              cat [
                "                    if (wireType === 0) { const [, ni2] = readVarint(input, idx); idx = ni2; }\n";
                "                    else if (wireType === 2) { const [l, ni2] = readVarint(input, idx); idx = ni2 + Number(l); }\n"]
          end;
          "                    break;\n";
          "                }\n"]);
    "                default:\n";
    "                    if (wireType === 0) { const [, ni2] = readVarint(input, idx); idx = ni2; }\n";
    "                    else if (wireType === 2) { const [l, ni2] = readVarint(input, idx); idx = ni2 + Number(l); }\n";
    "                    break;\n";
    "            }\n";
    "        }\n";
    "        out.push(0); // Thrift STOP\n";
    "        return new Uint8Array(out);\n";
    "    }\n";
    "}\n\n"].

Definition node_lazy (str : StructNode) : text :=
  cat [
    sprintf "export class Lazy%s {\n" [GS (sn_Name str)];
    "    private readonly raw: Uint8Array;\n";
    "    constructor(raw: Uint8Array) { this.raw = raw; }\n";
    each (sn_Fields str) (fun f =>
      let fName := toJSFieldName (fn_Name f) in
        let getterName := cat ["get"; Title fName] in
          let fieldID := fn_ID f in
            match tn_Kind (fn_Type f) with
              | TypeInt32 | TypeInt64 =>
                  sprintf "    %s(): number { const [b,] = fastScanField(this.raw, %d); const [v,] = readVarint(b, 0); return Number(v); }\n" [GS getterName; GD fieldID]
              | TypeString =>
                  sprintf "    %s(): string { const [b,] = fastScanField(this.raw, %d); return new TextDecoder().decode(b); }\n" [GS getterName; GD fieldID]
              | TypeBool =>
                  sprintf "    %s(): boolean { const [b,] = fastScanField(this.raw, %d); const [v,] = readVarint(b, 0); return Number(v) !== 0; }\n" [GS getterName; GD fieldID]
              | _ =>
                  sprintf "    %s(): Uint8Array { const [b,] = fastScanField(this.raw, %d); return b; }\n" [GS getterName; GD fieldID]
              end);
    "}\n\n"].

Definition node_struct (str : StructNode) : text :=
  let offsets := flat_offsets (sn_Fields str) in
    let tableSize := flat_table_size (sn_Fields str) in
      let vtableSize := 4 + (2 * (Z.of_nat (length (sn_Fields str)))) in
        cat [
          node_class_head str;
          node_flat_marshal str offsets tableSize vtableSize;
          node_flat_unmarshal str;
          if sn_HasFallback str
            then node_fallback str
            else cat [
              node_transpiler str;
              node_lazy str]].

Definition node_config : text :=
  cat [
    "// ---------------------------------------------------------------------------\n";
    "// Helix TypeScript Client & React Hooks\n";
    "// ---------------------------------------------------------------------------\n\n";
    "export interface HelixConfig {\n";
    "    baseUrl: string;\n";
    "    headers?: Record<string, string>;\n";
    "}\n\n"].

Definition node_streaming_call (svc : ServiceNode) (method : MethodNode) : text :=
  cat [
    sprintf "    async *%s(req: %s): AsyncGenerator<%s> {\n" [GS (mn_Name method); GS (mn_InputType method); GS (mn_OutputType method)];
    "        const headers = { 'Content-Type': 'application/json', 'Accept': 'text/event-stream', ...this.config.headers };\n";
    let path := mn_RESTPath method in
    let path := if bool_decide (path = "") then sprintf "/v1.%s/%s" [GS (sv_Name svc); GS (mn_Name method)] else path in
      cat [
        sprintf "        const url = `${this.config.baseUrl}%s`;\n" [GS path];
        "        const res = await fetch(url, {\n";
        "            method: 'POST',\n";
        "            headers,\n";
        "            body: JSON.stringify(req)\n";
        "        });\n";
        "        if (!res.ok) throw new Error(`HTTP error! status: ${res.status}`);\n";
        "        if (!res.body) throw new Error('Response body is null');\n\n";
        "        const reader = res.body.getReader();\n";
        "        const decoder = new TextDecoder('utf-8');\n";
        "        let buffer = '';\n\n";
        "        while (true) {\n";
        "            const { done, value } = await reader.read();\n";
        "            if (done) break;\n";
        "            buffer += decoder.decode(value, { stream: true });\n";
        "            const lines = buffer.split('\\n');\n";
        "            buffer = lines.pop() || '';\n";
        "            for (const line of lines) {\n";
        "                if (line.startsWith('data: ')) {\n";
        "                    const dataStr = line.slice(6).trim();\n";
        "                    if (dataStr === '[DONE]') return;\n";
        "                    try {\n";
        sprintf "                        const data = JSON.parse(dataStr) as Partial<%s>;\n" [GS (mn_OutputType method)];
        sprintf "                        yield new %s(data);\n" [GS (mn_OutputType method)];
        "                    } catch (e) {\n";
        "                        console.error('Error parsing SSE chunk:', e, dataStr);\n";
        "                    }\n";
        "                }\n";
        "            }\n";
        "        }\n";
        "    }\n\n"]].

Definition node_unary_call (svc : ServiceNode) (method : MethodNode) : text :=
  cat [
    sprintf "    async %s(req: %s): Promise<%s> {\n" [GS (mn_Name method); GS (mn_InputType method); GS (mn_OutputType method)];
    "        const headers = { 'Content-Type': 'application/json', ...this.config.headers };\n";
    let path := mn_RESTPath method in
    let path := if bool_decide (path = "") then sprintf "/v1.%s/%s" [GS (sv_Name svc); GS (mn_Name method)] else path in
      cat [
        sprintf "        const url = `${this.config.baseUrl}%s`;\n" [GS path];
        "        const res = await fetch(url, {\n";
        "            method: 'POST',\n";
        "            headers,\n";
        "            body: JSON.stringify(req)\n";
        "        });\n";
        "        if (!res.ok) throw new Error(`HTTP error! status: ${res.status}`);\n";
        "        const data = await res.json();\n";
        sprintf "        return new %s(data);\n" [GS (mn_OutputType method)];
        "    }\n\n"]].

Definition node_client (svc : ServiceNode) : text :=
  cat [
    sprintf "export class %sClient {\n" [GS (sv_Name svc)];
    "    constructor(private config: HelixConfig) {}\n\n";
    each (sv_Methods svc) (fun method =>
      if mn_ServerStreaming method
          then node_streaming_call svc method
          else node_unary_call svc method);
    "}\n\n"].

Definition node_stream_hook (svc : ServiceNode) (method : MethodNode) : text :=
  cat [
    sprintf "export function use%sStream(client: %sClient, req: %s | null) {\n" [GS (mn_Name method); GS (sv_Name svc); GS (mn_InputType method)];
    sprintf "    const [data, setData] = (<any>window).React?.useState<%s[]>([]) || [null, () => {}];\n" [GS (mn_OutputType method)];
    "    const [loading, setLoading] = (<any>window).React?.useState<boolean>(false) || [false, () => {}];\n";
    "    const [error, setError] = (<any>window).React?.useState<Error | null>(null) || [null, () => {}];\n\n";
    "    (<any>window).React?.useEffect(() => {\n";
    "        if (!req) return;\n";
    "        let active = true;\n";
    "        setLoading(true);\n";
    "        setError(null);\n";
    "        setData([]);\n\n";
    "        (async () => {\n";
    "            try {\n";
    sprintf "                for await (const chunk of client.%s(req)) {\n" [GS (mn_Name method)];
    "                    if (!active) break;\n";
    sprintf "                    setData((prev: %s[]) => [...prev, chunk]);\n" [GS (mn_OutputType method)];
    "                }\n";
    "            } catch (err: any) {\n";
    "                if (active) setError(err);\n";
    "            } finally {\n";
    "                if (active) setLoading(false);\n";
    "            }\n";
    "        })();\n\n";
    "        return () => { active = false; };\n";
    "    }, [client, JSON.stringify(req)]);\n\n";
    "    return { data, loading, error };\n";
    "}\n\n"].

Definition node_unary_hook (svc : ServiceNode) (method : MethodNode) : text :=
  cat [
    sprintf "export function use%s(client: %sClient, req: %s | null) {\n" [GS (mn_Name method); GS (sv_Name svc); GS (mn_InputType method)];
    sprintf "    const [data, setData] = (<any>window).React?.useState<%s | null>(null) || [null, () => {}];\n" [GS (mn_OutputType method)];
    "    const [loading, setLoading] = (<any>window).React?.useState<boolean>(false) || [false, () => {}];\n";
    "    const [error, setError] = (<any>window).React?.useState<Error | null>(null) || [null, () => {}];\n\n";
    "    (<any>window).React?.useEffect(() => {\n";
    "        if (!req) return;\n";
    "        let active = true;\n";
    "        setLoading(true);\n";
    "        setError(null);\n\n";
    cat ["        client."; mn_Name method; "(req)\n"];
    "            .then(res => {\n";
    "                if (active) { setData(res); setLoading(false); }\n";
    "            })\n";
    "            .catch(err => {\n";
    "                if (active) { setError(err); setLoading(false); }\n";
    "            });\n\n";
    "        return () => { active = false; };\n";
    "    }, [client, JSON.stringify(req)]);\n\n";
    "    return { data, loading, error };\n";
    "}\n\n"].

Definition node_hooks (svc : ServiceNode) : text :=
  cat [
    "// ---------------------------------------------------------------------------\n";
    "// React Hooks (Usage: import { useState, useEffect } from 'react'; ...)\n";
    "// ---------------------------------------------------------------------------\n";
    each (sv_Methods svc) (fun method =>
      if mn_ServerStreaming method
          then node_stream_hook svc method
          else node_unary_hook svc method)].

Definition GenerateNode (parsed : AST) : text :=
  cat [
    node_helpers;
    each (Structs parsed) (fun str =>
      node_struct str);
    node_config;
    each (Services parsed) (fun svc =>
      cat [
        node_client svc;
        node_hooks svc])].

(** ** Nesting *)
Lemma mapJS_neutral t : neutral (mapJSType t) /\ neutral (mapJSDefaultValue t).
Proof. unfold mapJSType, mapJSDefaultValue. by destruct (tn_Kind t). Qed.

Lemma toJSFieldName_neutral s : neutral s -> neutral (toJSFieldName s).
Proof.
  apply neutral_brackets. symmetry. unfold toJSFieldName. apply brackets_split_join with "_"%char; [done|].
  apply list_eq. intros i. rewrite list_lookup_fmap, list_lookup_imap, list_lookup_fmap.
  destruct (Split s "_" !! i); [|done]. cbn. destruct i; [done|]. f_equal. apply brackets_Title.
Qed.

Lemma mapJSType_neutral t : neutral (mapJSType t).
Proof. apply mapJS_neutral. Qed.
Lemma mapJSDefaultValue_neutral t : neutral (mapJSDefaultValue t).
Proof. apply mapJS_neutral. Qed.
#[export] Hint Resolve mapJSType_neutral mapJSDefaultValue_neutral toJSFieldName_neutral : names.

Section struct_nesting.
Context (str : StructNode) (H : struct_ok str = true).

Lemma node_class_head_nest k : brk (k) (node_class_head str) (Curly :: k).
Proof using H. apply (brk_frame [] _ [Curly]). unfold node_class_head. nest. Qed.
Lemma node_flat_marshal_nest offsets tableSize vtableSize : neutral (node_flat_marshal str offsets tableSize vtableSize).
Proof using H. apply neutral_brk. unfold node_flat_marshal. nest. Qed.
Lemma node_flat_unmarshal_nest : neutral (node_flat_unmarshal str).
Proof using H. apply neutral_brk. unfold node_flat_unmarshal. nest. Qed.
Lemma node_fallback_nest k : brk (Curly :: k) (node_fallback str) (k).
Proof using H. apply (brk_frame [Curly] _ []). unfold node_fallback. nest. Qed.
Lemma node_transpiler_nest k : brk (Curly :: k) (node_transpiler str) (k).
Proof using H. apply (brk_frame [Curly] _ []). unfold node_transpiler. nest. Qed.
Lemma node_lazy_nest : neutral (node_lazy str).
Proof using H. apply neutral_brk. unfold node_lazy. nest. Qed.

#[local] Hint Resolve node_class_head_nest node_flat_marshal_nest node_flat_unmarshal_nest node_fallback_nest node_transpiler_nest node_lazy_nest : names.

Lemma node_struct_nest : neutral (node_struct str).
Proof using H. apply neutral_brk. unfold node_struct. nest. Qed.
End struct_nesting.

Section service_nesting.
Context (svc : ServiceNode) (H : service_ok svc = true).

Lemma node_streaming_call_nest method : method_ok method = true -> neutral (node_streaming_call svc method).
Proof using H. intros Hm. apply neutral_brk. unfold node_streaming_call. nest. Qed.
Lemma node_unary_call_nest method : method_ok method = true -> neutral (node_unary_call svc method).
Proof using H. intros Hm. apply neutral_brk. unfold node_unary_call. nest. Qed.
Lemma node_stream_hook_nest method : method_ok method = true -> neutral (node_stream_hook svc method).
Proof using H. intros Hm. apply neutral_brk. unfold node_stream_hook. nest. Qed.
Lemma node_unary_hook_nest method : method_ok method = true -> neutral (node_unary_hook svc method).
Proof using H. intros Hm. apply neutral_brk. unfold node_unary_hook. nest. Qed.
#[local] Hint Resolve node_streaming_call_nest node_unary_call_nest node_stream_hook_nest node_unary_hook_nest : names.

Lemma node_client_nest : neutral (node_client svc).
Proof using H. apply neutral_brk. unfold node_client. nest. Qed.
Lemma node_hooks_nest : neutral (node_hooks svc).
Proof using H. apply neutral_brk. unfold node_hooks. nest. Qed.
End service_nesting.

Lemma node_static_nest : neutral node_helpers /\ neutral node_config.
Proof. vm_compute. done. Qed.
Lemma node_helpers_nest : neutral node_helpers.
Proof. apply node_static_nest. Qed.
Lemma node_config_nest : neutral node_config.
Proof. apply node_static_nest. Qed.
#[export] Hint Resolve node_struct_nest node_client_nest node_hooks_nest node_helpers_nest node_config_nest : names.

Lemma node_nested (parsed : AST) : schema_ok parsed = true -> nested (GenerateNode parsed) = true.
Proof. intros H. apply nested_neutral, neutral_brk. unfold GenerateNode. nest. Qed.
