(* ===== verification/GenPython.v ===== *)
(** * The Python generator ([compiler/codegen/python_generator.go])

    [GeneratePython] as the text it builds: one definition per part of the function, each
    piece a literal or a format of the source.  Enum values are emitted in the order of
    a [range] over a Go map, an arbitrary one ([MapIter]).  A list or map type whose
    element type is missing makes [mapPythonType] dereference a nil pointer; the
    generator's result is then a panic. *)
From S2P Require Import Prelude GoStrings Ast GoText GenCommon.
Local Open Scope go_scope.

Fixpoint mapPythonType (t : TypeNode) : text :=
  match tn_Kind t with
  | TypeInt32 | TypeInt64 => "int"
  | TypeString => "str"
  | TypeBinary => "bytes"
  | TypeBool => "bool"
  | TypeDouble => "float"
  | TypeStruct | TypeEnum => sprintf "'%s'" [GS (tn_Name t)]
  | TypeList =>
      sprintf "List[%s]" [GS (match tn_ValueType t with Some v => mapPythonType v | None => "" end)]
  | TypeMap =>
      sprintf "Dict[%s, %s]" [
        GS (match tn_KeyType t with Some k => mapPythonType k | None => "" end);
        GS (match tn_ValueType t with Some v => mapPythonType v | None => "" end)]
  | _ => "Any"
  end.

(** The pointers [mapPythonType] follows are set. *)
Fixpoint type_resolved (t : TypeNode) : bool :=
  match tn_Kind t with
  | TypeList => match tn_ValueType t with Some v => type_resolved v | None => false end
  | TypeMap =>
      match tn_KeyType t with Some k => type_resolved k | None => false end &&
      match tn_ValueType t with Some v => type_resolved v | None => false end
  | _ => true
  end.

Definition python_helpers : text :=
  cat [
    "# Code generated by helix-gen. DO NOT EDIT.\n";
    "from dataclasses import dataclass, field\n";
    "from typing import List, Dict, Any, Optional, AsyncIterator\n";
    "from abc import ABC, abstractmethod\n";
    "import struct as _struct\n\n";
    "def _read_varint(buf: memoryview, idx: int):\n";
    "    v, shift = 0, 0\n";
    "    while True:\n";
    "        if idx >= len(buf): raise EOFError('unexpected EOF reading varint')\n";
    "        b = buf[idx]; idx += 1\n";
    "        v |= (b & 0x7f) << shift\n";
    "        if (b & 0x80) == 0: break\n";
    "        shift += 7\n";
    "    return v, idx\n\n";
    "def _write_thrift_varint(out: bytearray, v: int) -> None:\n";
    "    while True:\n";
    "        if (v & ~0x7F) == 0: out.append(v); break\n";
    "        out.append((v & 0x7F) | 0x80); v >>= 7\n\n";
    "def _write_thrift_i16(out: bytearray, v: int) -> None:\n";
    "    out.append((v >> 8) & 0xFF); out.append(v & 0xFF)\n\n";
    "def _fast_scan_field(raw: memoryview, target_field: int):\n";
    "    idx = 0\n";
    "    while idx < len(raw):\n";
    "        tag, idx = _read_varint(raw, idx)\n";
    "        field_num = tag >> 3\n";
    "        wire_type = tag & 0x7\n";
    "        if field_num == target_field:\n";
    "            if wire_type == 2:\n";
    "                length, idx = _read_varint(raw, idx)\n";
    "                return raw[idx:idx+length], wire_type\n";
    "            elif wire_type == 0:\n";
    "                start = idx\n";
    "                _, idx = _read_varint(raw, idx)\n";
    "                return raw[start:idx], wire_type\n";
    "            raise ValueError(f'unsupported wire_type {wire_type}')\n";
    "        if wire_type == 0: _, idx = _read_varint(raw, idx)\n";
    "        elif wire_type == 2:\n";
    "            length, idx = _read_varint(raw, idx)\n";
    "            idx += length\n";
    "        else: raise ValueError(f'unknown wire_type {wire_type}')\n";
    "    raise KeyError(f'field {target_field} not found')\n\n"].

Definition python_enum `{MapIter} (e : EnumNode) : text :=
  cat [
    sprintf "class %s:\n" [GS (en_Name e)];
    each (range_map 0 (en_Values e)) (fun '(k, v) =>
      sprintf "    %s = %d\n" [GS k; GD v]);
    "\n"].

Definition python_dataclass (str : StructNode) : text :=
  cat [
    "@dataclass\n";
    sprintf "class %s:\n" [GS (sn_Name str)];
    if (Z.of_nat (length (sn_Fields str))) =? 0
      then "    pass\n"
      else "";
    each (sn_Fields str) (fun f =>
      let pyType := mapPythonType (fn_Type f) in
        let pyType := if fn_Optional f then sprintf "Optional[%s]" [GS pyType] else pyType in
          sprintf "    %s: %s\n" [GS (fn_Name f); GS pyType]);
    "\n"].

Definition python_flat_marshal (str : StructNode) (offsets : list Z) (tableSize : Z) (vtableSize : Z) : text :=
  cat [
    "    def marshal_flatbuffers(self) -> bytes:\n";
    "        import struct\n";
    "        dynamic_size = 0\n";
    each (sn_Fields str) (fun f =>
      if (bool_decide (tn_Kind (fn_Type f) = TypeString)) || (bool_decide (tn_Kind (fn_Type f) = TypeBinary))
          then cat [
            sprintf "        str_%s = self.%s.encode('utf-8') if self.%s else b''\n" [GS (fn_Name f); GS (fn_Name f); GS (fn_Name f)];
            sprintf "        if str_%s:\n" [GS (fn_Name f)];
            sprintf "            dynamic_size += 4 + len(str_%s)\n" [GS (fn_Name f)]]
          else "");
    sprintf "        table_size = %d\n" [GD tableSize];
    sprintf "        vtable_size = %d\n" [GD vtableSize];
    "        total_size = 4 + table_size + dynamic_size + vtable_size\n";
    "        buf = bytearray(total_size)\n";
    "        struct.pack_into('<I', buf, 0, 4) # root offset\n";
    "        vtable_start = 4 + table_size + dynamic_size\n";
    "        vtable_offset = vtable_start - 4\n";
    "        struct.pack_into('<i', buf, 4, vtable_offset)\n";
    "        current_string_offset = 4 + table_size\n";
    each_i (sn_Fields str) (fun idx f =>
      let off := nth idx offsets 0 in
        match tn_Kind (fn_Type f) with
          | TypeInt32 =>
              sprintf "        struct.pack_into('<i', buf, 4 + %d, self.%s or 0)\n" [GD off; GS (fn_Name f)]
          | TypeInt64 =>
              sprintf "        struct.pack_into('<q', buf, 4 + %d, self.%s or 0)\n" [GD off; GS (fn_Name f)]
          | TypeBool =>
              sprintf "        struct.pack_into('<?', buf, 4 + %d, bool(self.%s))\n" [GD off; GS (fn_Name f)]
          | TypeString =>
              cat [
                sprintf "        if str_%s:\n" [GS (fn_Name f)];
                sprintf "            rel_offset = current_string_offset - (4 + %d)\n" [GD off];
                sprintf "            struct.pack_into('<I', buf, 4 + %d, rel_offset)\n" [GD off];
                sprintf "            struct.pack_into('<I', buf, current_string_offset, len(str_%s))\n" [GS (fn_Name f)];
                sprintf "            buf[current_string_offset+4 : current_string_offset+4+len(str_%s)] = str_%s\n" [GS (fn_Name f); GS (fn_Name f)];
                sprintf "            current_string_offset += 4 + len(str_%s)\n" [GS (fn_Name f)]]
          | _ => ""
          end);
    "        struct.pack_into('<HH', buf, vtable_start, vtable_size, table_size)\n";
    each_i (sn_Fields str) (fun idx _ =>
      let off := nth idx offsets 0 in
        sprintf "        struct.pack_into('<H', buf, vtable_start + 4 + %d, %d)\n" [GD (2 * Z.of_nat idx); GD off]);
    "        return bytes(buf)\n\n"].

Definition python_flat_unmarshal (str : StructNode) : text :=
  cat [
    "    @classmethod\n";
    sprintf "    def unmarshal_flatbuffers(cls, buf: bytes) -> '%s':\n" [GS (sn_Name str)];
    "        import struct\n";
    "        if len(buf) < 8:\n            raise ValueError('flatbuffers: buffer too small')\n";
    "        root_offset = struct.unpack_from('<I', buf, 0)[0]\n";
    "        if root_offset + 4 > len(buf):\n            raise ValueError('flatbuffers: invalid root offset')\n";
    "        vtable_offset = struct.unpack_from('<i', buf, root_offset)[0]\n";
    "        vtable_start = root_offset + vtable_offset\n";
    "        if vtable_start < 0 or vtable_start + 4 > len(buf):\n            raise ValueError('flatbuffers: invalid vtable offset')\n";
    "        vtable_size = struct.unpack_from('<H', buf, vtable_start)[0]\n";
    each (sn_Fields str) (fun f =>
      let defaultValue := "0" in
        let defaultValue := if bool_decide (tn_Kind (fn_Type f) = TypeString) then "\q\q" else if bool_decide (tn_Kind (fn_Type f) = TypeBool) then "False" else defaultValue in
          sprintf "        val_%s = %s\n" [GS (fn_Name f); GS defaultValue]);
    each_i (sn_Fields str) (fun idx f =>
      let voff := 4 + (2 * Z.of_nat idx) in
        cat [
          sprintf "        if %d + 2 <= vtable_size:\n" [GD voff];
          sprintf "            foffset = struct.unpack_from('<H', buf, vtable_start + %d)[0]\n" [GD voff];
          "            if foffset > 0:\n";
          "                abs_offset = root_offset + foffset\n";
          match tn_Kind (fn_Type f) with
          | TypeInt32 =>
              cat [
                "                if abs_offset + 4 <= len(buf):\n";
                sprintf "                    val_%s = struct.unpack_from('<i', buf, abs_offset)[0]\n" [GS (fn_Name f)]]
          | TypeInt64 =>
              cat [
                "                if abs_offset + 8 <= len(buf):\n";
                sprintf "                    val_%s = struct.unpack_from('<q', buf, abs_offset)[0]\n" [GS (fn_Name f)]]
          | TypeBool =>
              cat [
                "                if abs_offset < len(buf):\n";
                sprintf "                    val_%s = struct.unpack_from('<?', buf, abs_offset)[0]\n" [GS (fn_Name f)]]
          | TypeString =>
              cat [
                "                if abs_offset + 4 <= len(buf):\n";
                "                    rel_offset = struct.unpack_from('<I', buf, abs_offset)[0]\n";
                "                    str_start = abs_offset + rel_offset\n";
                "                    if str_start + 4 <= len(buf):\n";
                "                        str_len = struct.unpack_from('<I', buf, str_start)[0]\n";
                "                        if str_start + 4 + str_len <= len(buf):\n";
                sprintf "                            val_%s = buf[str_start+4 : str_start+4+str_len].decode('utf-8')\n" [GS (fn_Name f)]]
          | _ => ""
          end]);
    sprintf "        return cls(\n" [];
    each (sn_Fields str) (fun f =>
      sprintf "            %s=val_%s,\n" [GS (fn_Name f); GS (fn_Name f)]);
    "        )\n\n"].

Definition python_from_proto (str : StructNode) : text :=
  cat [
    "    @classmethod\n";
    sprintf "    def from_proto(cls, buf: bytes) -> '%s':\n" [GS (sn_Name str)];
    "        raw = memoryview(buf)\n";
    each (sn_Fields str) (fun f =>
      let defaultVal := "0" in
        let defaultVal := if bool_decide (tn_Kind (fn_Type f) = TypeString) then "\q\q" else if bool_decide (tn_Kind (fn_Type f) = TypeBool) then "False" else if bool_decide (tn_Kind (fn_Type f) = TypeDouble) then "0.0" else if bool_decide (tn_Kind (fn_Type f) = TypeBinary) then "b\q\q" else defaultVal in
          sprintf "        val_%s = %s\n" [GS (fn_Name f); GS defaultVal]);
    "        idx = 0\n";
    "        while idx < len(raw):\n";
    "            tag, idx = _read_varint(raw, idx)\n";
    "            field_num = tag >> 3\n";
    "            wire_type = tag & 0x7\n";
    each_i (sn_Fields str) (fun fieldIdx f =>
      let protoFieldNum := Z.of_nat fieldIdx + 1 in
        cat [
          if Z.of_nat fieldIdx =? 0
            then sprintf "            if field_num == %d:\n" [GD protoFieldNum]
            else sprintf "            elif field_num == %d:\n" [GD protoFieldNum];
          match tn_Kind (fn_Type f) with
          | TypeInt32 | TypeInt64 =>
              sprintf "                val_%s, idx = _read_varint(raw, idx)\n" [GS (fn_Name f)]
          | TypeBool =>
              sprintf "                _v, idx = _read_varint(raw, idx); val_%s = bool(_v)\n" [GS (fn_Name f)]
          | TypeDouble =>
              sprintf "                val_%s = _struct.unpack_from('<d', bytes(raw[idx:idx+8]))[0]; idx += 8\n" [GS (fn_Name f)]
          | TypeString =>
              sprintf "                _len, idx = _read_varint(raw, idx); val_%s = bytes(raw[idx:idx+_len]).decode('utf-8'); idx += _len\n" [GS (fn_Name f)]
          | TypeBinary =>
              sprintf "                _len, idx = _read_varint(raw, idx); val_%s = bytes(raw[idx:idx+_len]); idx += _len\n" [GS (fn_Name f)]
          | _ =>
              "                _, idx = _read_varint(raw, idx)\n"
          end]);
    "            else:\n";
    "                if wire_type == 0: _, idx = _read_varint(raw, idx)\n";
    "                elif wire_type == 2:\n";
    "                    _l, idx = _read_varint(raw, idx); idx += _l\n";
    "                elif wire_type == 5: idx += 4\n";
    "                elif wire_type == 1: idx += 8\n";
    sprintf "        return cls(\n" [];
    each (sn_Fields str) (fun f =>
      sprintf "            %s=val_%s,\n" [GS (fn_Name f); GS (fn_Name f)]);
    "        )\n\n"].

Definition python_lazy_fallback (str : StructNode) : text :=
  cat [
    sprintf "class Lazy%s:\n" [GS (sn_Name str)];
    "    __slots__ = ('_decoded',)\n";
    "    def __init__(self, raw: bytes) -> None:\n";
    sprintf "        self._decoded = %s.from_proto(raw)\n" [GS (sn_Name str)];
    each (sn_Fields str) (fun f =>
      cat [
        sprintf "    def get_%s(self):\n" [GS (fn_Name f)];
        sprintf "        return self._decoded.%s\n" [GS (fn_Name f)]]);
    "\n";
    "    @classmethod\n";
    "    def transpile_protobuf_to_thrift_compact(cls, data: bytes) -> bytes:\n";
    "        raise NotImplementedError(\qTranspilation is unsupported for structs with complex fields.\q)\n\n"].

Definition python_lazy (str : StructNode) : text :=
  cat [
    sprintf "class Lazy%s:\n" [GS (sn_Name str)];
    "    __slots__ = ('_raw',)\n";
    "    def __init__(self, raw: bytes) -> None:\n";
    "        self._raw = memoryview(raw)\n";
    each_i (sn_Fields str) (fun fieldIdx f =>
      let protoFieldNum := Z.of_nat fieldIdx + 1 in
        match tn_Kind (fn_Type f) with
          | TypeInt32 | TypeInt64 =>
              cat [
                sprintf "    def get_%s(self) -> int:\n" [GS (fn_Name f)];
                sprintf "        b, _ = _fast_scan_field(self._raw, %d)\n" [GD protoFieldNum];
                "        v, _ = _read_varint(b, 0)\n";
                "        return v\n"]
          | TypeString =>
              cat [
                sprintf "    def get_%s(self) -> str:\n" [GS (fn_Name f)];
                sprintf "        b, _ = _fast_scan_field(self._raw, %d)\n" [GD protoFieldNum];
                "        return bytes(b).decode('utf-8')\n"]
          | TypeBinary =>
              cat [
                sprintf "    def get_%s(self) -> bytes:\n" [GS (fn_Name f)];
                sprintf "        b, _ = _fast_scan_field(self._raw, %d)\n" [GD protoFieldNum];
                "        return bytes(b)\n"]
          | TypeBool =>
              cat [
                sprintf "    def get_%s(self) -> bool:\n" [GS (fn_Name f)];
                sprintf "        b, _ = _fast_scan_field(self._raw, %d)\n" [GD protoFieldNum];
                "        v, _ = _read_varint(b, 0)\n";
                "        return v != 0\n"]
          | _ =>
              cat [
                sprintf "    def get_%s(self):\n" [GS (fn_Name f)];
                sprintf "        b, _ = _fast_scan_field(self._raw, %d)\n" [GD protoFieldNum];
                "        return bytes(b)\n"]
          end);
    "\n"].

Definition python_transpiler_read (str : StructNode) : text :=
  cat [
    sprintf "    @classmethod\n" [];
    "    def transpile_protobuf_to_thrift_compact(cls, data: bytes) -> bytes:\n";
    "        raw = memoryview(data)\n";
    "        out = bytearray()\n";
    each (sn_Fields str) (fun f =>
      let defaultVal := "0" in
        let defaultVal := if (bool_decide (tn_Kind (fn_Type f) = TypeString)) || (bool_decide (tn_Kind (fn_Type f) = TypeBinary)) then "None" else if bool_decide (tn_Kind (fn_Type f) = TypeBool) then "False" else if bool_decide (tn_Kind (fn_Type f) = TypeDouble) then "0.0" else defaultVal in
          sprintf "        _f_%s = %s\n" [GS (fn_Name f); GS defaultVal]);
    "        idx = 0\n";
    "        while idx < len(raw):\n";
    "            tag, idx = _read_varint(raw, idx)\n";
    "            field_num = tag >> 3\n";
    "            wire_type = tag & 0x7\n";
    each_i (sn_Fields str) (fun fieldIdx f =>
      let protoFieldNum := Z.of_nat fieldIdx + 1 in
        cat [
          if Z.of_nat fieldIdx =? 0
            then sprintf "            if field_num == %d:\n" [GD protoFieldNum]
            else sprintf "            elif field_num == %d:\n" [GD protoFieldNum];
          match tn_Kind (fn_Type f) with
          | TypeInt32 | TypeInt64 =>
              cat [
                "                v, idx = _read_varint(raw, idx)\n";
                sprintf "                _f_%s = v\n" [GS (fn_Name f)]]
          | TypeString | TypeBinary =>
              cat [
                "                _l, idx = _read_varint(raw, idx)\n";
                sprintf "                _f_%s = bytes(raw[idx:idx+_l])\n" [GS (fn_Name f)];
                "                idx += _l\n";
                if bool_decide (tn_Kind (fn_Type f) = TypeString)
                  then sprintf "                _f_%s = _f_%s.decode('utf-8')\n" [GS (fn_Name f); GS (fn_Name f)]
                  else ""]
          | TypeBool =>
              cat [
                "                v, idx = _read_varint(raw, idx)\n";
                sprintf "                _f_%s = (v != 0)\n" [GS (fn_Name f)]]
          | TypeDouble =>
              cat [
                sprintf "                _f_%s = _struct.unpack('<d', raw[idx:idx+8])[0]\n" [GS (fn_Name f)];
                "                idx += 8\n"]
          | _ => ""
          end]);
    "            else:\n";
    "                if wire_type == 0: _, idx = _read_varint(raw, idx)\n";
    "                elif wire_type == 2:\n";
    "                    _l, idx = _read_varint(raw, idx); idx += _l\n";
    "                elif wire_type == 5: idx += 4\n";
    "                elif wire_type == 1: idx += 8\n"].

Definition python_transpiler_write (str : StructNode) : text :=
  cat [
    "        prev_field = 0\n";
    each_i (sn_Fields str) (fun fieldIdx f =>
      let thriftFieldNum := Z.of_nat fieldIdx + 1 in
        match tn_Kind (fn_Type f) with
          | TypeInt32 | TypeInt64 =>
              cat [
                sprintf "        _delta = %d - prev_field\n" [GD thriftFieldNum];
                let ttype := 5 in
                let ttype := if bool_decide (tn_Kind (fn_Type f) = TypeInt64) then 6 else ttype in
                  cat [
                    sprintf "        if 0 < _delta <= 15: out.append((_delta << 4) | %d)\n" [GD ttype];
                    sprintf "        else: out.append(%d); _write_thrift_i16(out, %d)\n" [GD ttype; GD thriftFieldNum];
                    if bool_decide (tn_Kind (fn_Type f) = TypeInt32)
                      then sprintf "        _zz = (_f_%s << 1) ^ (_f_%s >> 31) if _f_%s < 0 else _f_%s << 1\n" [GS (fn_Name f); GS (fn_Name f); GS (fn_Name f); GS (fn_Name f)]
                      else sprintf "        _zz = (_f_%s << 1) ^ (_f_%s >> 63) if _f_%s < 0 else _f_%s << 1\n" [GS (fn_Name f); GS (fn_Name f); GS (fn_Name f); GS (fn_Name f)];
                    "        _write_thrift_varint(out, _zz)\n";
                    sprintf "        prev_field = %d\n" [GD thriftFieldNum]]]
          | TypeString | TypeBinary =>
              cat [
                sprintf "        if _f_%s is not None:\n" [GS (fn_Name f)];
                sprintf "            _delta = %d - prev_field\n" [GD thriftFieldNum];
                "            if 0 < _delta <= 15: out.append((_delta << 4) | 8)\n";
                sprintf "            else: out.append(8); _write_thrift_i16(out, %d)\n" [GD thriftFieldNum];
                if bool_decide (tn_Kind (fn_Type f) = TypeString)
                  then sprintf "            _enc = _f_%s.encode('utf-8')\n" [GS (fn_Name f)]
                  else sprintf "            _enc = _f_%s\n" [GS (fn_Name f)];
                "            _write_thrift_varint(out, len(_enc))\n";
                "            out.extend(_enc)\n";
                sprintf "            prev_field = %d\n" [GD thriftFieldNum]]
          | TypeBool =>
              cat [
                sprintf "        _delta = %d - prev_field\n" [GD thriftFieldNum];
                sprintf "        _ttype = 1 if _f_%s else 2\n" [GS (fn_Name f)];
                "        if 0 < _delta <= 15: out.append((_delta << 4) | _ttype)\n";
                sprintf "        else: out.append(_ttype); _write_thrift_i16(out, %d)\n" [GD thriftFieldNum];
                sprintf "        prev_field = %d\n" [GD thriftFieldNum]]
          | TypeDouble =>
              cat [
                sprintf "        _delta = %d - prev_field\n" [GD thriftFieldNum];
                "        if 0 < _delta <= 15: out.append((_delta << 4) | 7)\n";
                sprintf "        else: out.append(7); _write_thrift_i16(out, %d)\n" [GD thriftFieldNum];
                sprintf "        out.extend(_struct.pack('<d', _f_%s))\n" [GS (fn_Name f)];
                sprintf "        prev_field = %d\n" [GD thriftFieldNum]]
          | _ => ""
          end);
    "        out.append(0x00)  # Thrift STOP byte\n";
    "        return bytes(out)\n\n"].

Definition python_struct (str : StructNode) : text :=
  cat [
    python_dataclass str;
    let offsets := flat_offsets (sn_Fields str) in
    let tableSize := flat_table_size (sn_Fields str) in
      let vtableSize := 4 + (2 * (Z.of_nat (length (sn_Fields str)))) in
        cat [
          python_flat_marshal str offsets tableSize vtableSize;
          python_flat_unmarshal str;
          python_from_proto str;
          if sn_HasFallback str
            then python_lazy_fallback str
            else cat [
              python_lazy str;
              python_transpiler_read str;
              python_transpiler_write str]]].

Definition python_service (srv : ServiceNode) : text :=
  cat [
    sprintf "class %sBase(ABC):\n" [GS (sv_Name srv)];
    if (Z.of_nat (length (sv_Methods srv))) =? 0
      then "    pass\n"
      else "";
    each (sv_Methods srv) (fun m =>
      cat [
        "    @abstractmethod\n";
        let retType := mn_OutputType m in
        let retType := if mn_ServerStreaming m then sprintf "AsyncIterator['%s']" [GS (mn_OutputType m)] else sprintf "'%s'" [GS (mn_OutputType m)] in
          let inputType := sprintf "'%s'" [GS (mn_InputType m)] in
            let inputType := if mn_ClientStreaming m then sprintf "AsyncIterator['%s']" [GS (mn_InputType m)] else inputType in
              cat [
                sprintf "    async def %s(self, request: %s) -> %s:\n" [GS (mn_Name m); GS inputType; GS retType];
                "        pass\n\n"]])].

Definition python_text `{MapIter} (parsed : AST) : text :=
  cat [
    python_helpers;
    each (Enums parsed) (fun e =>
      python_enum e);
    each (Structs parsed) (fun str =>
      python_struct str);
    each (Services parsed) (fun srv =>
      python_service srv)].

Inductive codegen_panic := NilDeref.

Definition GeneratePython `{MapIter} (parsed : AST) : res codegen_panic text :=
  if forallb (fun str => forallb (fun f => type_resolved (fn_Type f)) (sn_Fields str)) (Structs parsed)
  then Ok (python_text parsed) else Err NilDeref.

(** ** Nesting *)
Lemma mapPythonType_neutral t : type_ok t = true -> neutral (mapPythonType t).
Proof.
  revert t. fix IH 1. intros [kind name key val] H. cbn [type_ok tn_Name tn_KeyType tn_ValueType] in H.
  rewrite !andb_true_iff in H. destruct H as [[Hn Hk] Hv]. apply nested_neutral in Hn.
  assert (neutral (match val with Some v => mapPythonType v | None => "" end)) as Nv
    by (destruct val; [by apply IH|done]).
  assert (neutral (match key with Some k => mapPythonType k | None => "" end)) as Nk
    by (destruct key; [by apply IH|done]).
  clear IH. destruct kind; try done; cbn [mapPythonType tn_Kind tn_Name tn_KeyType tn_ValueType];
    apply neutral_brk; (eapply brk_sprintf; [reflexivity|]); repeat constructor; done.
Qed.
#[export] Hint Resolve mapPythonType_neutral : names.

Section struct_nesting.
Context (str : StructNode) (H : struct_ok str = true).

Lemma python_dataclass_nest : neutral (python_dataclass str).
Proof using H. apply neutral_brk. unfold python_dataclass. nest. Qed.
Lemma python_flat_marshal_nest offsets tableSize vtableSize : neutral (python_flat_marshal str offsets tableSize vtableSize).
Proof using H. apply neutral_brk. unfold python_flat_marshal. nest. Qed.
Lemma python_flat_unmarshal_nest : neutral (python_flat_unmarshal str).
Proof using H. apply neutral_brk. unfold python_flat_unmarshal. nest. Qed.
Lemma python_from_proto_nest : neutral (python_from_proto str).
Proof using H. apply neutral_brk. unfold python_from_proto. nest. Qed.
Lemma python_lazy_fallback_nest : neutral (python_lazy_fallback str).
Proof using H. apply neutral_brk. unfold python_lazy_fallback. nest. Qed.
Lemma python_lazy_nest : neutral (python_lazy str).
Proof using H. apply neutral_brk. unfold python_lazy. nest. Qed.
Lemma python_transpiler_read_nest : neutral (python_transpiler_read str).
Proof using H. apply neutral_brk. unfold python_transpiler_read. nest. Qed.
Lemma python_transpiler_write_nest : neutral (python_transpiler_write str).
Proof using H. apply neutral_brk. unfold python_transpiler_write. nest. Qed.

#[local] Hint Resolve python_dataclass_nest python_flat_marshal_nest python_flat_unmarshal_nest python_from_proto_nest python_lazy_fallback_nest python_lazy_nest python_transpiler_read_nest python_transpiler_write_nest : names.

Lemma python_struct_nest : neutral (python_struct str).
Proof using H. apply neutral_brk. unfold python_struct. nest. Qed.
End struct_nesting.

Lemma python_service_nest srv : service_ok srv = true -> neutral (python_service srv).
Proof. intros H. apply neutral_brk. unfold python_service. nest. Qed.

Lemma python_enum_nest `{MapIter} e : enum_ok e = true -> neutral (python_enum e).
Proof.
  intros He. apply neutral_brk. unfold python_enum.
  eapply brk_cons; [nest|]. eapply brk_cons; [|nest].
  apply brk_each. intros [k v] Hin. apply (enum_value e) in Hin; [|done]. nest.
Qed.

Lemma python_helpers_nest : neutral python_helpers.
Proof. vm_compute. reflexivity. Qed.
#[export] Hint Resolve python_struct_nest python_service_nest python_enum_nest python_helpers_nest : names.

Lemma python_nested `{MapIter} (parsed : AST) : schema_ok parsed = true -> nested (python_text parsed) = true.
Proof. intros Hs. apply nested_neutral, neutral_brk. unfold python_text. nest. Qed.
