(* ===== verification/GenJava.v ===== *)
(** * The Java generator ([compiler/codegen/java_generator.go])

    [GenerateJava] as the text it builds: one definition per part of the function, each
    piece a literal or a format of the source. *)
From S2P Require Import Prelude GoStrings Ast GoText Wire GenCommon.
Local Open Scope go_scope.

Definition getJavaType (t : TypeNode) : text :=
  match tn_Kind t with
  | TypeInt32 => "int"
  | TypeInt64 => "long"
  | TypeString => "String"
  | TypeBinary => "byte[]"
  | TypeBool => "boolean"
  | _ => "String"
  end.

Definition toCamelCaseLC (s : string) : string :=
  match toCamelCase s with
  | EmptyString => EmptyString
  | String c s' => String.append (ToLower (String c EmptyString)) s'
  end.

Definition java_helpers : text :=
  cat [
    "// Automatically generated by Helix RPC. DO NOT EDIT.\n";
    "package io.helixrpc.generated;\n\n";
    "import java.util.List;\n";
    "import java.util.NoSuchElementException;\n";
    "import java.nio.ByteBuffer;\n";
    "import java.nio.charset.StandardCharsets;\n";
    "import java.io.IOException;\n";
    "import java.util.concurrent.CompletableFuture;\n";
    "import java.util.concurrent.Flow;\n\n";
    "import com.google.protobuf.CodedInputStream;\n";
    "import com.google.protobuf.CodedOutputStream;\n";
    "import org.apache.thrift.TBase;\n";
    "import org.apache.thrift.TException;\n";
    "import org.apache.thrift.protocol.TField;\n";
    "import org.apache.thrift.protocol.TProtocol;\n";
    "import org.apache.thrift.protocol.TProtocolUtil;\n";
    "import org.apache.thrift.protocol.TStruct;\n";
    "import org.apache.thrift.protocol.TType;\n\n";
    "class HelixHelpers {
    public static long readVarint(ByteBuffer buf) {
        long v = 0;
        int shift = 0;
        while (true) {
            byte b = buf.get();
            v |= (long)(b & 0x7F) << shift;
            if ((b & 0x80) == 0) break;
            shift += 7;
        }
        return v;
    }

    public static void writeThriftVarint(ByteBuffer buf, long v) {
        while (true) {
            if ((v & ~0x7FL) == 0) {
                buf.put((byte)v);
                break;
            }
            buf.put((byte)((v & 0x7F) | 0x80));
            v >>>= 7;
        }
    }

    public static void writeThriftI16(ByteBuffer buf, int v) {
        buf.put((byte)((v >> 8) & 0xFF));
        buf.put((byte)(v & 0xFF));
    }

    public static ByteBuffer fastScanField(ByteBuffer buf, int targetField, int[] outWireType) {
        ByteBuffer dup = buf.duplicate();
        while (dup.hasRemaining()) {
            long tag = readVarint(dup);
            int fieldNum = (int)(tag >>> 3);
            int wireType = (int)(tag & 0x7);
            if (fieldNum == targetField) {
                outWireType[0] = wireType;
                if (wireType == 2) {
                    long len = readVarint(dup);
                    int start = dup.position();
                    dup.limit(start + (int)len);
                    return dup.slice();
                } else if (wireType == 0) {
                    int start = dup.position();
                    readVarint(dup);
                    int end = dup.position();
                    ByteBuffer slice = dup.duplicate();
                    slice.position(start);
                    slice.limit(end);
                    return slice.slice();
                }
                throw new RuntimeException(\qunsupported wireType: \q + wireType);
            }
            if (wireType == 0) {
                readVarint(dup);
            } else if (wireType == 2) {
                long len = readVarint(dup);
                dup.position(dup.position() + (int)len);
            } else {
                throw new RuntimeException(\qunknown wireType: \q + wireType);
            }
        }
        throw new NoSuchElementException(\qfield not found\q);
    }
}

"].

Definition java_fields (str : StructNode) : text :=
  cat [
    if sn_HasFallback str
      then sprintf "public class %s {\n" [GS (sn_Name str)]
      else sprintf "public class %s implements TBase<%s, %s._Fields> {\n" [GS (sn_Name str); GS (sn_Name str); GS (sn_Name str)];
    each (sn_Fields str) (fun f =>
      let javaType := getJavaType (fn_Type f) in
        sprintf "    public %s %s;\n" [GS javaType; GS (fn_Name f)])].

Definition java_fallback (str : StructNode) : text :=
  cat [
    "\n    public static ByteBuffer transpileProtobufToThriftCompact(ByteBuffer input, ByteBuffer output) {\n";
    "        throw new UnsupportedOperationException(\qTranspilation is unsupported for structs with complex fields.\q);\n";
    "    }\n\n";
    "    public static class Lazy {\n";
    sprintf "        private final %s decoded;\n" [GS (sn_Name str)];
    sprintf "        public Lazy(ByteBuffer raw) {\n            this.decoded = new %s();\n        }\n\n" [GS (sn_Name str)];
    each (sn_Fields str) (fun f =>
      let fNameTitle := toCamelCase (fn_Name f) in
        match tn_Kind (fn_Type f) with
          | TypeInt32 =>
              sprintf "        public int get%s() { return decoded.%s; }\n" [GS fNameTitle; GS (fn_Name f)]
          | TypeInt64 =>
              sprintf "        public long get%s() { return decoded.%s; }\n" [GS fNameTitle; GS (fn_Name f)]
          | TypeString =>
              sprintf "        public String get%s() { return decoded.%s; }\n" [GS fNameTitle; GS (fn_Name f)]
          | _ => ""
          end);
    "    }\n"].

Definition java_transpiler (str : StructNode) : text :=
  cat [
    "\n    public static ByteBuffer transpileProtobufToThriftCompact(ByteBuffer input, ByteBuffer output) {\n";
    "        ByteBuffer out = output.duplicate();\n";
    "        ByteBuffer in = input.duplicate();\n";
    "        int lastField = 0;\n";
    "        while (in.hasRemaining()) {\n";
    "            long tag = HelixHelpers.readVarint(in);\n";
    "            int fieldNum = (int)(tag >>> 3);\n";
    "            int wireType = (int)(tag & 0x7);\n";
    "            int delta = fieldNum - lastField;\n";
    "            switch (fieldNum) {\n";
    each (sn_Fields str) (fun f =>
      cat [
        sprintf "                case %d: {\n" [GD (fn_ID f)];
        match tn_Kind (fn_Type f) with
        | TypeInt64 =>
            cat [
              "                    long val = HelixHelpers.readVarint(in);\n";
              "                    if (delta > 0 && delta <= 15) { out.put((byte)((delta << 4) | 0x06)); }\n";
              sprintf "                    else { out.put((byte)0x06); HelixHelpers.writeThriftI16(out, %d); }\n" [GD (fn_ID f)];
              "                    HelixHelpers.writeThriftVarint(out, (val << 1) ^ (val >> 63));\n";
              "                    lastField = fieldNum;\n"]
        | TypeInt32 =>
            cat [
              "                    long val = HelixHelpers.readVarint(in);\n";
              "                    if (delta > 0 && delta <= 15) { out.put((byte)((delta << 4) | 0x05)); }\n";
              sprintf "                    else { out.put((byte)0x05); HelixHelpers.writeThriftI16(out, %d); }\n" [GD (fn_ID f)];
              "                    HelixHelpers.writeThriftVarint(out, (val << 1) ^ (val >> 31));\n";
              "                    lastField = fieldNum;\n"]
        | TypeString =>
            cat [
              "                    long len = HelixHelpers.readVarint(in);\n";
              "                    if (delta > 0 && delta <= 15) { out.put((byte)((delta << 4) | 0x08)); }\n";
              sprintf "                    else { out.put((byte)0x08); HelixHelpers.writeThriftI16(out, %d); }\n" [GD (fn_ID f)];
              "                    HelixHelpers.writeThriftVarint(out, len);\n";
              "                    byte[] sBytes = new byte[(int)len];\n                    in.get(sBytes);\n                    out.put(sBytes);\n";
              "                    lastField = fieldNum;\n"]
        | _ => ""
        end;
        "                    break;\n";
        "                }\n"]);
    "                default:\n";
    "                    if (wireType == 0) HelixHelpers.readVarint(in);\n";
    "                    else if (wireType == 2) { long len = HelixHelpers.readVarint(in);\n                    in.position(in.position() + (int)len); }\n";
    "                    break;\n";
    "            }\n";
    "        }\n";
    "        out.put((byte)0x00);\n";
    "        out.flip();\n";
    "        return out;\n";
    "    }\n\n"].

Definition java_field_enum (str : StructNode) : text :=
  cat [
    "\n    public enum _Fields implements org.apache.thrift.TFieldIdEnum {\n";
    each_i (sn_Fields str) (fun i f =>
      let comma := "," in
        let comma := if Z.of_nat i =? ((Z.of_nat (length (sn_Fields str))) - 1) then ";" else comma in
          sprintf "        %s((short)%d, \q%s\q)%s\n" [GS (ToUpper (fn_Name f)); GD (fn_ID f); GS (fn_Name f); GS comma]);
    if (Z.of_nat (length (sn_Fields str))) =? 0
      then "        ;\n"
      else "";
    "\n        private final short _thriftId;\n";
    "        private final String _fieldName;\n";
    "        _Fields(short thriftId, String fieldName) {\n";
    "            _thriftId = thriftId;\n";
    "            _fieldName = fieldName;\n";
    "        }\n";
    "        public short getThriftFieldId() { return _thriftId; }\n";
    "        public String getFieldName() { return _fieldName; }\n";
    "    }\n\n"].

Definition java_read (str : StructNode) : text :=
  cat [
    sprintf "    public void read(TProtocol iprot) throws TException {\n" [];
    "        iprot.readStructBegin();\n";
    "        while (true) {\n";
    "            TField field = iprot.readFieldBegin();\n";
    "            if (field.type == TType.STOP) { break; }\n";
    "            switch (field.id) {\n";
    each (sn_Fields str) (fun f =>
      cat [
        sprintf "                case %d: // %s\n" [GD (fn_ID f); GS (fn_Name f)];
        match tn_Kind (fn_Type f) with
        | TypeInt32 =>
            cat [
              "                    if (field.type == TType.I32) {\n";
              sprintf "                        this.%s = iprot.readI32();\n" [GS (fn_Name f)];
              "                    } else { TProtocolUtil.skip(iprot, field.type); }\n"]
        | TypeInt64 =>
            cat [
              "                    if (field.type == TType.I64) {\n";
              sprintf "                        this.%s = iprot.readI64();\n" [GS (fn_Name f)];
              "                    } else { TProtocolUtil.skip(iprot, field.type); }\n"]
        | TypeString =>
            cat [
              "                    if (field.type == TType.STRING) {\n";
              sprintf "                        this.%s = iprot.readString();\n" [GS (fn_Name f)];
              "                    } else { TProtocolUtil.skip(iprot, field.type); }\n"]
        | _ => ""
        end;
        "                    break;\n"]);
    "                default:\n";
    "                    TProtocolUtil.skip(iprot, field.type);\n";
    "            }\n";
    "            iprot.readFieldEnd();\n";
    "        }\n";
    "        iprot.readStructEnd();\n";
    "    }\n\n"].

Definition java_write (str : StructNode) : text :=
  cat [
    sprintf "    public void write(TProtocol oprot) throws TException {\n" [];
    sprintf "        oprot.writeStructBegin(new TStruct(\q%s\q));\n" [GS (sn_Name str)];
    each (sn_Fields str) (fun f =>
      let thriftType := "TType.STRING" in
        let thriftType := if bool_decide (tn_Kind (fn_Type f) = TypeInt32) then "TType.I32" else if bool_decide (tn_Kind (fn_Type f) = TypeInt64) then "TType.I64" else thriftType in
          cat [
            sprintf "        oprot.writeFieldBegin(new TField(\q%s\q, %s, (short)%d));\n" [GS (fn_Name f); GS thriftType; GD (fn_ID f)];
            match tn_Kind (fn_Type f) with
            | TypeInt32 =>
                sprintf "        oprot.writeI32(this.%s);\n" [GS (fn_Name f)]
            | TypeInt64 =>
                sprintf "        oprot.writeI64(this.%s);\n" [GS (fn_Name f)]
            | TypeString =>
                sprintf "        if (this.%s != null) oprot.writeString(this.%s);\n" [GS (fn_Name f); GS (fn_Name f)]
            | _ => ""
            end;
            "        oprot.writeFieldEnd();\n"]);
    "        oprot.writeFieldStop();\n";
    "        oprot.writeStructEnd();\n";
    "    }\n\n"].

Definition java_object (str : StructNode) : text :=
  cat [
    sprintf "    public void clear() {\n" [];
    each (sn_Fields str) (fun f =>
      if bool_decide (tn_Kind (fn_Type f) = TypeString)
          then sprintf "        this.%s = null;\n" [GS (fn_Name f)]
          else sprintf "        this.%s = 0;\n" [GS (fn_Name f)]);
    "    }\n\n";
    sprintf "    public %s deepCopy() {\n" [GS (sn_Name str)];
    sprintf "        %s copy = new %s();\n" [GS (sn_Name str); GS (sn_Name str)];
    each (sn_Fields str) (fun f =>
      sprintf "        copy.%s = this.%s;\n" [GS (fn_Name f); GS (fn_Name f)]);
    "        return copy;\n";
    "    }\n\n";
    sprintf "    public int compareTo(%s other) {\n" [GS (sn_Name str)];
    "        return 0; // Not fully implemented\n";
    "    }\n\n";
    "    public _Fields fieldForId(int fieldId) { return null; }\n";
    "    public boolean isSet(_Fields field) { return true; }\n";
    "    public Object getFieldValue(_Fields field) { return null; }\n";
    "    public void setFieldValue(_Fields field, Object value) {}\n\n"].

Definition java_proto_write (str : StructNode) : text :=
  cat [
    "    public void writeTo(CodedOutputStream output) throws IOException {\n";
    each (sn_Fields str) (fun f =>
      match tn_Kind (fn_Type f) with
        | TypeInt32 =>
            sprintf "        if (this.%s != 0) output.writeInt32(%d, this.%s);\n" [GS (fn_Name f); GD (fn_ID f); GS (fn_Name f)]
        | TypeInt64 =>
            sprintf "        if (this.%s != 0L) output.writeInt64(%d, this.%s);\n" [GS (fn_Name f); GD (fn_ID f); GS (fn_Name f)]
        | TypeString =>
            sprintf "        if (this.%s != null && !this.%s.isEmpty()) output.writeString(%d, this.%s);\n" [GS (fn_Name f); GS (fn_Name f); GD (fn_ID f); GS (fn_Name f)]
        | _ => ""
        end);
    "    }\n\n";
    "    public int getSerializedSize() {\n";
    "        int size = 0;\n";
    each (sn_Fields str) (fun f =>
      match tn_Kind (fn_Type f) with
        | TypeInt32 =>
            sprintf "        if (this.%s != 0) size += CodedOutputStream.computeInt32Size(%d, this.%s);\n" [GS (fn_Name f); GD (fn_ID f); GS (fn_Name f)]
        | TypeInt64 =>
            sprintf "        if (this.%s != 0L) size += CodedOutputStream.computeInt64Size(%d, this.%s);\n" [GS (fn_Name f); GD (fn_ID f); GS (fn_Name f)]
        | TypeString =>
            sprintf "        if (this.%s != null && !this.%s.isEmpty()) size += CodedOutputStream.computeStringSize(%d, this.%s);\n" [GS (fn_Name f); GS (fn_Name f); GD (fn_ID f); GS (fn_Name f)]
        | _ => ""
        end);
    "        return size;\n";
    "    }\n\n"].

Definition java_proto_parse (str : StructNode) : text :=
  cat [
    sprintf "    public static %s parseFrom(byte[] data) throws IOException {\n" [GS (sn_Name str)];
    sprintf "        return parseFrom(CodedInputStream.newInstance(data));\n" [];
    "    }\n\n";
    sprintf "    public static %s parseFrom(CodedInputStream input) throws IOException {\n" [GS (sn_Name str)];
    sprintf "        %s msg = new %s();\n" [GS (sn_Name str); GS (sn_Name str)];
    "        while (true) {\n";
    "            int tag = input.readTag();\n";
    "            if (tag == 0) break;\n";
    "            switch (tag) {\n";
    each (sn_Fields str) (fun f =>
      let wire := 0 in
        let wire := if bool_decide (tn_Kind (fn_Type f) = TypeString) then 2 else wire in
          let tagId := Z.lor (i32 (Z.shiftl (fn_ID f) 3)) wire in
            cat [
              sprintf "                case %d:\n" [GD tagId];
              match tn_Kind (fn_Type f) with
              | TypeInt32 =>
                  sprintf "                    msg.%s = input.readInt32();\n" [GS (fn_Name f)]
              | TypeInt64 =>
                  sprintf "                    msg.%s = input.readInt64();\n" [GS (fn_Name f)]
              | TypeString =>
                  sprintf "                    msg.%s = input.readString();\n" [GS (fn_Name f)]
              | _ => ""
              end;
              "                    break;\n"]);
    "                default:\n";
    "                    input.skipField(tag);\n";
    "            }\n";
    "        }\n";
    "        return msg;\n";
    "    }\n\n"].

Definition java_lazy (str : StructNode) : text :=
  cat [
    "    public static class Lazy {\n";
    "        private final ByteBuffer raw;\n";
    "        public Lazy(ByteBuffer raw) { this.raw = raw; }\n\n";
    each (sn_Fields str) (fun f =>
      let fNameTitle := toCamelCase (fn_Name f) in
        match tn_Kind (fn_Type f) with
          | TypeInt32 =>
              cat [
                sprintf "        public int get%s() {\n" [GS fNameTitle];
                sprintf "            ByteBuffer b = HelixHelpers.fastScanField(raw, %d, new int[1]);\n" [GD (fn_ID f)];
                "            return (int)HelixHelpers.readVarint(b);\n        }\n\n"]
          | TypeInt64 =>
              cat [
                sprintf "        public long get%s() {\n" [GS fNameTitle];
                sprintf "            ByteBuffer b = HelixHelpers.fastScanField(raw, %d, new int[1]);\n" [GD (fn_ID f)];
                "            return HelixHelpers.readVarint(b);\n        }\n\n"]
          | TypeString =>
              cat [
                sprintf "        public String get%s() {\n" [GS fNameTitle];
                sprintf "            ByteBuffer b = HelixHelpers.fastScanField(raw, %d, new int[1]);\n" [GD (fn_ID f)];
                "            byte[] bytes = new byte[b.remaining()];\n            b.get(bytes);\n";
                "            return new String(bytes, StandardCharsets.UTF_8);\n        }\n\n"]
          | _ => ""
          end);
    "    }\n"].

Definition java_struct (str : StructNode) : text :=
  cat [
    java_fields str;
    if sn_HasFallback str
      then java_fallback str
      else cat [
        java_transpiler str;
        if negb (sn_HasFallback str)
          then cat [
            java_field_enum str;
            java_read str;
            java_write str;
            java_object str;
            java_proto_write str;
            java_proto_parse str]
          else "";
        java_lazy str];
    "}\n\n"].

Definition java_service (srv : ServiceNode) : text :=
  cat [
    sprintf "public interface %s {\n" [GS (sv_Name srv)];
    each (sv_Methods srv) (fun m =>
      if (mn_ServerStreaming m) || (mn_ClientStreaming m)
          then sprintf "    Flow.Publisher<%s> %s(Flow.Publisher<%s> request);\n" [GS (mn_OutputType m); GS (toCamelCaseLC (mn_Name m)); GS (mn_InputType m)]
          else sprintf "    CompletableFuture<%s> %s(%s request);\n" [GS (mn_OutputType m); GS (toCamelCaseLC (mn_Name m)); GS (mn_InputType m)]);
    "}\n\n"].

Definition GenerateJava (parsed : AST) : text :=
  cat [
    java_helpers;
    each (Structs parsed) (fun str =>
      java_struct str);
    each (Services parsed) (fun srv =>
      java_service srv)].

(** ** Nesting *)
Lemma getJavaType_neutral t : neutral (getJavaType t).
Proof. unfold getJavaType. by destruct (tn_Kind t). Qed.

Lemma toCamelCaseLC_neutral s : neutral s -> neutral (toCamelCaseLC s).
Proof.
  intros H. apply neutral_camel in H. revert H. unfold toCamelCaseLC.
  destruct (toCamelCase s) as [|c s']; [done|]. apply neutral_brackets.
  by rewrite brackets_app, brackets_ToLower, <- brackets_cons.
Qed.
#[export] Hint Resolve getJavaType_neutral toCamelCaseLC_neutral : names.

Section struct_nesting.
Context (str : StructNode) (H : struct_ok str = true).

Lemma java_fields_nest k : brk (k) (java_fields str) (Curly :: k).
Proof using H. apply (brk_frame [] _ [Curly]). unfold java_fields. nest. Qed.
Lemma java_fallback_nest : neutral (java_fallback str).
Proof using H. apply neutral_brk. unfold java_fallback. nest. Qed.
Lemma java_transpiler_nest : neutral (java_transpiler str).
Proof using H. apply neutral_brk. unfold java_transpiler. nest. Qed.
Lemma java_field_enum_nest : neutral (java_field_enum str).
Proof using H. apply neutral_brk. unfold java_field_enum. nest. Qed.
Lemma java_read_nest : neutral (java_read str).
Proof using H. apply neutral_brk. unfold java_read. nest. Qed.
Lemma java_write_nest : neutral (java_write str).
Proof using H. apply neutral_brk. unfold java_write. nest. Qed.
Lemma java_object_nest : neutral (java_object str).
Proof using H. apply neutral_brk. unfold java_object. nest. Qed.
Lemma java_proto_write_nest : neutral (java_proto_write str).
Proof using H. apply neutral_brk. unfold java_proto_write. nest. Qed.
Lemma java_proto_parse_nest : neutral (java_proto_parse str).
Proof using H. apply neutral_brk. unfold java_proto_parse. nest. Qed.
Lemma java_lazy_nest : neutral (java_lazy str).
Proof using H. apply neutral_brk. unfold java_lazy. nest. Qed.

#[local] Hint Resolve java_fields_nest java_fallback_nest java_transpiler_nest java_field_enum_nest java_read_nest java_write_nest java_object_nest java_proto_write_nest java_proto_parse_nest java_lazy_nest : names.

Lemma java_struct_nest : neutral (java_struct str).
Proof using H. apply neutral_brk. unfold java_struct. nest. Qed.
End struct_nesting.

Lemma java_service_nest srv : service_ok srv = true -> neutral (java_service srv).
Proof. intros H. apply neutral_brk. unfold java_service. nest. Qed.

Lemma java_helpers_nest : neutral java_helpers.
Proof. vm_compute. reflexivity. Qed.
#[export] Hint Resolve java_struct_nest java_service_nest java_helpers_nest : names.

Lemma java_nested (parsed : AST) : schema_ok parsed = true -> nested (GenerateJava parsed) = true.
Proof. intros H. apply nested_neutral, neutral_brk. unfold GenerateJava. nest. Qed.
