(* ===== verification/GenCpp.v ===== *)
(** * The C++ generator ([compiler/codegen/cpp_generator.go])

    [GenerateCPP] as the text it builds: one definition per part of the function, each
    piece a literal or a format of the source. *)
From S2P Require Import Prelude GoStrings Ast GoText GenCommon.
Local Open Scope go_scope.

Definition getCPPType (t : TypeNode) : text :=
  match tn_Kind t with
  | TypeInt32 => "int32_t"
  | TypeInt64 => "int64_t"
  | TypeString => "std::string"
  | TypeBinary => "std::vector<uint8_t>"
  | TypeBool => "bool"
  | _ => "std::string"
  end.

Definition cpp_helpers : text :=
  cat [
    "// Automatically generated by Helix RPC. DO NOT EDIT.\n";
    "#pragma once\n\n";
    "#include <string>\n";
    "#include <vector>\n";
    "#include <string_view>\n";
    "#include <stdexcept>\n";
    "#include <cstdint>\n\n";
    "namespace helix {\n\n";
    "inline uint64_t ReadVarint(const uint8_t* buf, size_t size, size_t& idx) {
    uint64_t v = 0;
    int shift = 0;
    while (true) {
        if (idx >= size) throw std::runtime_error(\qunexpected EOF reading varint\q);
        uint8_t b = buf[idx++];
        v |= static_cast<uint64_t>(b & 0x7f) << shift;
        if ((b & 0x80) == 0) break;
        shift += 7;
    }
    return v;
}

inline void WriteThriftVarint(std::vector<uint8_t>& out, uint64_t v) {
    while (true) {
        if ((v & ~0x7FULL) == 0) {
            out.push_back(static_cast<uint8_t>(v));
            break;
        }
        out.push_back(static_cast<uint8_t>((v & 0x7F) | 0x80));
        v >>= 7;
    }
}

inline void WriteThriftI16(std::vector<uint8_t>& out, uint16_t v) {
    out.push_back(static_cast<uint8_t>((v >> 8) & 0xFF));
    out.push_back(static_cast<uint8_t>(v & 0xFF));
}

inline const uint8_t* FastScanField(const uint8_t* buf, size_t size, int target_field, size_t& out_len, int& out_wire_type) {
    size_t idx = 0;
    while (idx < size) {
        uint64_t tag = ReadVarint(buf, size, idx);
        int field_num = static_cast<int>(tag >> 3);
        int wire_type = static_cast<int>(tag & 0x7);
        if (field_num == target_field) {
            out_wire_type = wire_type;
            if (wire_type == 2) {
                uint64_t len = ReadVarint(buf, size, idx);
                out_len = static_cast<size_t>(len);
                if (idx + out_len > size) throw std::runtime_error(\qunexpected EOF\q);
                return buf + idx;
            } else if (wire_type == 0) {
                size_t start = idx;
                ReadVarint(buf, size, idx);
                out_len = idx - start;
                return buf + start;
            }
            throw std::runtime_error(\qunsupported wire type in fast scan\q);
        }
        if (wire_type == 0) {
            ReadVarint(buf, size, idx);
        } else if (wire_type == 2) {
            uint64_t len = ReadVarint(buf, size, idx);
            idx += static_cast<size_t>(len);
        } else {
            throw std::runtime_error(\qunknown wire type in fast scan skip\q);
        }
    }
    throw std::runtime_error(\qfield not found\q);
}

"].

Definition cpp_fallback (str : StructNode) : text :=
  cat [
    "\n    static std::vector<uint8_t> TranspileProtobufToThriftCompact(const uint8_t* /*input*/, size_t /*size*/) {\n";
    "        throw std::runtime_error(\qTranspilation is unsupported for structs with complex fields.\q);\n";
    "    }\n";
    "};\n\n";
    sprintf "class Lazy%s {\n" [GS (sn_Name str)];
    "public:\n";
    sprintf "    Lazy%s(const uint8_t* /*raw*/, size_t /*size*/) {}\n\n" [GS (sn_Name str)];
    each (sn_Fields str) (fun f =>
      let fName := toLowerSnakeCase (fn_Name f) in
        match tn_Kind (fn_Type f) with
          | TypeInt32 =>
              sprintf "    int32_t get_%s() const { return 0; }\n" [GS fName]
          | TypeInt64 =>
              sprintf "    int64_t get_%s() const { return 0; }\n" [GS fName]
          | TypeString =>
              sprintf "    std::string_view get_%s() const { return \q\q; }\n" [GS fName]
          | _ => ""
          end);
    "};\n\n"].

Definition cpp_transpiler (str : StructNode) : text :=
  cat [
    "\n    static std::vector<uint8_t> TranspileProtobufToThriftCompact(const uint8_t* input, size_t size) {\n";
    "        std::vector<uint8_t> out;\n";
    "        size_t idx = 0;\n";
    "        int last_field = 0;\n";
    "        while (idx < size) {\n";
    "            uint64_t tag = ReadVarint(input, size, idx);\n";
    "            int field_num = static_cast<int>(tag >> 3);\n";
    "            int wire_type = static_cast<int>(tag & 0x7);\n";
    "            int delta = field_num - last_field;\n";
    "            switch (field_num) {\n";
    each (sn_Fields str) (fun f =>
      cat [
        sprintf "                case %d: {\n" [GD (fn_ID f)];
        match tn_Kind (fn_Type f) with
        | TypeInt64 =>
            cat [
              "                    uint64_t val = ReadVarint(input, size, idx);\n";
              "                    if (delta > 0 && delta <= 15) { out.push_back(static_cast<uint8_t>((delta << 4) | 0x06)); }\n";
              sprintf "                    else { out.push_back(0x06); WriteThriftI16(out, %d); }\n" [GD (fn_ID f)];
              "                    WriteThriftVarint(out, (val << 1) ^ (val >> 63));\n";
              "                    last_field = field_num;\n"]
        | TypeInt32 =>
            cat [
              "                    uint64_t val = ReadVarint(input, size, idx);\n";
              "                    if (delta > 0 && delta <= 15) { out.push_back(static_cast<uint8_t>((delta << 4) | 0x05)); }\n";
              sprintf "                    else { out.push_back(0x05); WriteThriftI16(out, %d); }\n" [GD (fn_ID f)];
              "                    WriteThriftVarint(out, (val << 1) ^ (val >> 31));\n";
              "                    last_field = field_num;\n"]
        | TypeString =>
            cat [
              "                    uint64_t len = ReadVarint(input, size, idx);\n";
              "                    if (delta > 0 && delta <= 15) { out.push_back(static_cast<uint8_t>((delta << 4) | 0x08)); }\n";
              sprintf "                    else { out.push_back(0x08); WriteThriftI16(out, %d); }\n" [GD (fn_ID f)];
              "                    WriteThriftVarint(out, len);\n";
              "                    out.insert(out.end(), input + idx, input + idx + len);\n";
              "                    idx += len;\n";
              "                    last_field = field_num;\n"]
        | _ => ""
        end;
        "                    break;\n";
        "                }\n"]);
    "                default:\n";
    "                    if (wire_type == 0) ReadVarint(input, size, idx);\n";
    "                    else if (wire_type == 2) { uint64_t len = ReadVarint(input, size, idx); idx += len; }\n";
    "                    break;\n";
    "            }\n";
    "        }\n";
    "        out.push_back(0x00);\n";
    "        return out;\n";
    "    }\n";
    "};\n\n"].

Definition cpp_lazy (str : StructNode) : text :=
  cat [
    sprintf "class Lazy%s {\n" [GS (sn_Name str)];
    "public:\n";
    sprintf "    Lazy%s(const uint8_t* raw, size_t size) : raw_(raw), size_(size) {}\n\n" [GS (sn_Name str)];
    each (sn_Fields str) (fun f =>
      let fName := toLowerSnakeCase (fn_Name f) in
        match tn_Kind (fn_Type f) with
          | TypeInt32 =>
              cat [
                sprintf "    int32_t get_%s() const {\n" [GS fName];
                sprintf "        size_t len = 0; int wt = 0;\n        const uint8_t* ptr = FastScanField(raw_, size_, %d, len, wt);\n" [GD (fn_ID f)];
                "        size_t idx = 0;\n        return static_cast<int32_t>(ReadVarint(ptr, len, idx));\n    }\n\n"]
          | TypeInt64 =>
              cat [
                sprintf "    int64_t get_%s() const {\n" [GS fName];
                sprintf "        size_t len = 0; int wt = 0;\n        const uint8_t* ptr = FastScanField(raw_, size_, %d, len, wt);\n" [GD (fn_ID f)];
                "        size_t idx = 0;\n        return static_cast<int64_t>(ReadVarint(ptr, len, idx));\n    }\n\n"]
          | TypeString =>
              cat [
                sprintf "    std::string_view get_%s() const {\n" [GS fName];
                sprintf "        size_t len = 0; int wt = 0;\n        const uint8_t* ptr = FastScanField(raw_, size_, %d, len, wt);\n" [GD (fn_ID f)];
                "        return std::string_view(reinterpret_cast<const char*>(ptr), len);\n    }\n\n"]
          | _ => ""
          end);
    "private:\n";
    "    const uint8_t* raw_;\n";
    "    size_t size_;\n";
    "};\n\n"].

Definition cpp_struct (str : StructNode) : text :=
  cat [
    sprintf "struct %s {\n" [GS (sn_Name str)];
    each (sn_Fields str) (fun f =>
      let cppType := getCPPType (fn_Type f) in
        sprintf "    %s %s;\n" [GS cppType; GS (toLowerSnakeCase (fn_Name f))]);
    if sn_HasFallback str
      then cpp_fallback str
      else cat [
        cpp_transpiler str;
        cpp_lazy str]].

Definition GenerateCPP (parsed : AST) : text :=
  cat [
    cpp_helpers;
    each (Structs parsed) (fun str =>
      cpp_struct str);
    "} // namespace helix\n"].

(** ** Nesting *)
Section nesting.
Context (str : StructNode) (Hs : struct_ok str = true).

Lemma getCPPType_neutral t : neutral (getCPPType t).
Proof using. unfold getCPPType. by destruct (tn_Kind t). Qed.
#[local] Hint Resolve getCPPType_neutral : names.

Lemma cpp_fallback_nest : brk [Curly] (cpp_fallback str) [].
Proof using Hs. unfold cpp_fallback. nest. Qed.
Lemma cpp_transpiler_nest : brk [Curly] (cpp_transpiler str) [].
Proof using Hs. unfold cpp_transpiler. nest. Qed.
Lemma cpp_lazy_nest : brk [] (cpp_lazy str) [].
Proof using Hs. unfold cpp_lazy. nest. Qed.
#[local] Hint Resolve cpp_fallback_nest cpp_transpiler_nest cpp_lazy_nest : names.
Lemma cpp_struct_nest pre : brk pre (cpp_struct str) pre.
Proof using Hs.
  apply brk_neutral, neutral_brk. unfold cpp_struct. nest.
Qed.
End nesting.
#[export] Hint Resolve cpp_struct_nest : names.

Lemma cpp_nested (parsed : AST) : schema_ok parsed = true -> nested (GenerateCPP parsed) = true.
Proof. intros H. apply nested_neutral, neutral_brk. unfold GenerateCPP, cpp_helpers. nest. Qed.
