(* ===== verification/OpenApi.v ===== *)
(** * The OpenAPI generator ([compiler/codegen/openapi_generator.go])

    The document is a tree of Go maps with string keys: an object is an association list
    with one entry per key, and [jset] is the assignment [m[k] = v].  [MarshalIndent] is
    [json.MarshalIndent(v, _, "  ")]: keys in byte order, strings escaped. *)
From S2P Require Import Prelude GoStrings Ast ProtoParser Checker GoText GenPython.
Local Open Scope go_scope.

Inductive json :=
| JStr (s : string)
| JBool (b : bool)
| JArr (l : list json)
| JObj (m : list (string * json)).

Fixpoint jset (k : string) (v : json) (m : list (string * json)) : list (string * json) :=
  match m with
  | [] => [(k, v)]
  | (k', v') :: m' => if String.eqb k' k then (k, v) :: m' else (k', v') :: jset k v m'
  end.
Fixpoint jget (k : string) (m : list (string * json)) : option json :=
  match m with
  | [] => None
  | (k', v') :: m' => if String.eqb k' k then Some v' else jget k m'
  end.

(** ** Types *)
Definition schema_ref (name : string) : string := sprintf "#/components/schemas/%s" [GS name].

Fixpoint mapAstTypeToOpenAPI (t : TypeNode) : res codegen_panic json :=
  match tn_Kind t with
  | TypeInt32 => Ok (JObj [("type", JStr "integer"); ("format", JStr "int32")])
  | TypeInt64 => Ok (JObj [("type", JStr "integer"); ("format", JStr "int64")])
  | TypeDouble => Ok (JObj [("type", JStr "number"); ("format", JStr "double")])
  | TypeBool => Ok (JObj [("type", JStr "boolean")])
  | TypeString => Ok (JObj [("type", JStr "string")])
  | TypeBinary => Ok (JObj [("type", JStr "string"); ("format", JStr "byte")])
  | TypeStruct | TypeEnum => Ok (JObj [("$ref", JStr (schema_ref (tn_Name t)))])
  | TypeList =>
      match tn_ValueType t with
      | Some v => let? items := mapAstTypeToOpenAPI v in Ok (JObj [("type", JStr "array"); ("items", items)])
      | None => Err NilDeref
      end
  | TypeMap =>
      match tn_ValueType t with
      | Some v =>
          let? values := mapAstTypeToOpenAPI v in
          Ok (JObj [("type", JStr "object"); ("additionalProperties", values)])
      | None => Err NilDeref
      end
  | TypeVoid => Ok (JObj [("type", JStr "object")])
  end.

(** ** Schemas *)
Fixpoint openapi_props (fields : list FieldNode) (props : list (string * json)) : res codegen_panic (list (string * json)) :=
  match fields with
  | [] => Ok props
  | f :: fields' =>
      let? t := mapAstTypeToOpenAPI (fn_Type f) in
      openapi_props fields' (jset (fn_Name f) t props)
  end.

Fixpoint openapi_structs (structs : list StructNode) (schemas : list (string * json)) : res codegen_panic (list (string * json)) :=
  match structs with
  | [] => Ok schemas
  | str :: structs' =>
      let? props := openapi_props (sn_Fields str) [] in
      openapi_structs structs' (jset (sn_Name str) (JObj [("type", JStr "object"); ("properties", JObj props)]) schemas)
  end.

Definition openapi_enum (schemas : list (string * json)) (e : EnumNode) : list (string * json) :=
  jset (en_Name e) (JObj [("type", JStr "integer"); ("description", JStr (sprintf "Enum %s" [GS (en_Name e)]))]) schemas.

(** ** Paths *)
Definition openapi_path (svc : ServiceNode) (method : MethodNode) : string :=
  if bool_decide (mn_RESTPath method = "") then sprintf "/v1.%s/%s" [GS (sv_Name svc); GS (mn_Name method)]
  else mn_RESTPath method.
Definition openapi_verb (method : MethodNode) : string :=
  if bool_decide (mn_RESTMethod method = "") then "post" else mn_RESTMethod method.

Definition media (mime name : string) : json :=
  JObj [(mime, JObj [("schema", JObj [("$ref", JStr (schema_ref name))])])].

Definition openapi_operation (svc : ServiceNode) (method : MethodNode) : json :=
  let response := [("description"%string, JStr "Successful response"); ("content"%string, media "application/json" (mn_OutputType method))] in
  let operation := [
    ("operationId"%string, JStr (mn_Name method));
    ("tags"%string, JArr [JStr (sv_Name svc)]);
    ("requestBody"%string, JObj [("required", JBool true); ("content", media "application/json" (mn_InputType method))]);
    ("responses"%string, JObj [("200", JObj response)]) ] in
  JObj (if mn_ServerStreaming method then
    jset "responses" (JObj [("200", JObj (jset "content" (media "text/event-stream" (mn_OutputType method)) response))])
      (jset "description" (JStr "Server Streaming (SSE) endpoint") operation)
  else operation).

(** [paths[path][httpMethod] = operation]; the inner map is made on first use. *)
Definition add_path (path httpMethod : string) (operation : json) (paths : list (string * json)) : list (string * json) :=
  let inner := match jget path paths with Some (JObj m) => m | _ => [] end in
  jset path (JObj (jset httpMethod operation inner)) paths.

Definition openapi_service (paths : list (string * json)) (svc : ServiceNode) : list (string * json) :=
  foldl (fun paths method => add_path (openapi_path svc method) (openapi_verb method) (openapi_operation svc method) paths)
    paths (sv_Methods svc).

(** ** The document *)
Definition openapi_doc (parsed : AST) : res codegen_panic json :=
  let? schemas := openapi_structs (Structs parsed) [] in
  Ok (JObj [
    ("openapi", JStr "3.0.0");
    ("info", JObj [("title", JStr "Helix RPC Unified Service"); ("version", JStr "1.0.0");
       ("description", JStr "Auto-generated OpenAPI specification from Helix IDL.")]);
    ("paths", JObj (foldl openapi_service [] (Services parsed)));
    ("components", JObj [("schemas", JObj (foldl openapi_enum schemas (Enums parsed)))]) ]).

(** ** [json.MarshalIndent] *)
Definition cont (lo hi : N) (c : ascii) : bool := (lo <=? N_of_ascii c)%N && (N_of_ascii c <=? hi)%N.

(** The number of bytes of the UTF-8 sequence [s] starts with; 0 when it is malformed. *)
Definition rune_len (s : string) : nat :=
  match s with
  | EmptyString => 0
  | String c s' =>
      let n := N_of_ascii c in
      if (n <? 128)%N then 1
      else match s' with
      | EmptyString => 0
      | String c1 s1 =>
          if cont 194 223 c && cont 128 191 c1 then 2
          else match s1 with
          | EmptyString => 0
          | String c2 s2 =>
              let second := if (n =? 224)%N then cont 160 191 c1 else if (n =? 237)%N then cont 128 159 c1 else cont 128 191 c1 in
              if cont 224 239 c && second && cont 128 191 c2 then 3
              else match s2 with
              | EmptyString => 0
              | String c3 _ =>
                  let second := if (n =? 240)%N then cont 144 191 c1 else if (n =? 244)%N then cont 128 143 c1 else cont 128 191 c1 in
                  if cont 240 244 c && second && cont 128 191 c2 && cont 128 191 c3 then 4 else 0
              end
          end
      end
  end%nat.

Definition hex_digit (n : N) : ascii := ascii_of_N (if (n <? 10)%N then n + 48 else n + 87)%N.
(** An ASCII character, as [appendString] with [escapeHTML] writes it. *)
Definition escape_ascii (c : ascii) : text :=
  let n := N_of_ascii c in
  if (n =? 34)%N then "\\\q" else if (n =? 92)%N then "\\\\"
  else if (n =? 8)%N then "\\b" else if (n =? 12)%N then "\\f"
  else if (n =? 10)%N then "\\n" else if (n =? 13)%N then "\\r" else if (n =? 9)%N then "\\t"
  else if (n <? 32)%N || (n =? 60)%N || (n =? 62)%N || (n =? 38)%N
  then cat ["\\u00"; String (hex_digit (n / 16)) (String (hex_digit (n mod 16)) "")]
  else String c "".

(** [skip] counts the bytes of the current sequence that are still to be copied. *)
Fixpoint escape_go (skip : nat) (s : string) : string :=
  match s with
  | EmptyString => EmptyString
  | String c s' =>
      match skip with
      | S k => String c (escape_go k s')
      | O =>
          if (N_of_ascii c <? 128)%N then String.append (escape_ascii c) (escape_go 0 s')
          else match rune_len s with
          | O => String.append "\\ufffd"%go (escape_go 0 s')
          | S k =>
              if bool_decide (str_take 3 s = String "226" (String "128" (String "168" ""))) then
                String.append "\\u2028"%go (match s' with String _ (String _ s'') => escape_go 0 s'' | _ => "" end)
              else if bool_decide (str_take 3 s = String "226" (String "128" (String "169" ""))) then
                String.append "\\u2029"%go (match s' with String _ (String _ s'') => escape_go 0 s'' | _ => "" end)
              else String c (escape_go k s')
          end
      end
  end.
Definition json_quote (s : string) : string := cat ["\q"; escape_go 0 s; "\q"].

Fixpoint insert_key (kv : string * text) (l : list (string * text)) : list (string * text) :=
  match l with
  | [] => [kv]
  | kv' :: l' => if String.leb (fst kv) (fst kv') then kv :: l else kv' :: insert_key kv l'
  end.
Definition sort_keys (l : list (string * text)) : list (string * text) := foldr insert_key [] l.

Fixpoint spaces (n : nat) : string := match n with O => "" | S n' => String " " (spaces n') end.

(** [n] is the indentation of the line the value starts on. *)
Fixpoint marshal (n : nat) (j : json) : text :=
  match j with
  | JStr s => json_quote s
  | JBool b => if b then "true" else "false"
  | JArr [] => "[]"
  | JArr l =>
      let inner := cat ["\n"; spaces (n + 2)] in
      cat ["["; inner; Join (List.map (marshal (n + 2)) l) (cat [","; inner]); "\n"; spaces n; "]"]
  | JObj [] => "{}"
  | JObj m =>
      let inner := cat ["\n"; spaces (n + 2)] in
      let entries := sort_keys (List.map (fun kv => (fst kv, marshal (n + 2) (snd kv))) m) in
      cat ["{"; inner; Join (List.map (fun kv => cat [json_quote (fst kv); ": "; snd kv]) entries) (cat [","; inner]); "\n"; spaces n; "}"]
  end.
Definition MarshalIndent (j : json) : text := marshal 0 j.

Definition GenerateOpenAPI (parsed : AST) : res codegen_panic text :=
  let? doc := openapi_doc parsed in Ok (MarshalIndent doc).

(** ** What the document promises *)

(** Every reference in a document. *)
Fixpoint refs (j : json) : list string :=
  match j with
  | JArr l => flat_map refs l
  | JObj m =>
      flat_map (fun kv =>
        match snd kv with JStr s => if String.eqb (fst kv) "$ref" then [s] else [] | _ => [] end ++ refs (snd kv)) m
  | _ => []
  end.

(** Following keys from the root. *)
Fixpoint jpath (keys : list string) (j : json) : option json :=
  match keys, j with
  | [], _ => Some j
  | k :: keys', JObj m => jget k m ≫= jpath keys'
  | _, _ => None
  end.

(** Every type a field or a method names is declared. *)
Definition schema_names (a : AST) : list string := (sn_Name <$> Structs a) ++ (en_Name <$> Enums a).
Fixpoint type_closed (names : list string) (t : TypeNode) : bool :=
  match tn_Kind t with
  | TypeStruct | TypeEnum => bool_decide (tn_Name t ∈ names)
  | TypeList | TypeMap => match tn_ValueType t with Some v => type_closed names v | None => true end
  | _ => true
  end.
Definition method_closed (names : list string) (m : MethodNode) : bool :=
  bool_decide (mn_InputType m ∈ names) && bool_decide (mn_OutputType m ∈ names).
Definition schema_closed (a : AST) : bool :=
  forallb (fun str => forallb (fun f => type_closed (schema_names a) (fn_Type f)) (sn_Fields str)) (Structs a) &&
  forallb (fun svc => forallb (method_closed (schema_names a)) (sv_Methods svc)) (Services a).

(** The methods of a schema in order, each with its service. *)
Definition routes (a : AST) : list (ServiceNode * MethodNode) :=
  Services a ≫= fun svc => (fun m => (svc, m)) <$> sv_Methods svc.
Definition at_route (path verb : string) (sm : ServiceNode * MethodNode) : bool :=
  bool_decide (openapi_path (fst sm) (snd sm) = path) && bool_decide (openapi_verb (snd sm) = verb).
Definition last_match {A} (p : A -> bool) (l : list A) : option A := List.find p (rev l).

(** ** Lemmas *)
Lemma jget_jset k k' v m : jget k (jset k' v m) = if bool_decide (k' = k) then Some v else jget k m.
Proof.
  induction m as [|[k1 v1] m IH]; cbn [jset jget].
  { destruct (String.eqb_spec k' k); by case_bool_decide. }
  destruct (String.eqb_spec k1 k') as [->|Hne]; cbn [jget].
  - destruct (String.eqb_spec k' k); by case_bool_decide.
  - rewrite IH. destruct (String.eqb_spec k1 k) as [->|]; [|done]. by rewrite bool_decide_false by done.
Qed.

Section refs.
Context (P : string -> Prop).
Definition refs_in (j : json) : Prop := Forall P (refs j).

Lemma refs_entry k v m : refs_in (JObj ((k, v) :: m)) <-> refs_in (JObj [(k, v)]) /\ refs_in (JObj m).
Proof using. unfold refs_in. cbn [refs flat_map fst snd]. rewrite app_nil_r. apply Forall_app. Qed.

Lemma refs_jset k v m : refs_in (JObj [(k, v)]) -> refs_in (JObj m) -> refs_in (JObj (jset k v m)).
Proof using.
  intros Hv. induction m as [|[k1 v1] m IH]; intros Hm; cbn [jset]; [done|].
  apply refs_entry in Hm as [H1 Hm]. destruct (String.eqb k1 k); apply refs_entry; auto.
Qed.

Lemma refs_sub k v : (forall s, v <> JStr s) -> refs_in (JObj [(k, v)]) <-> refs_in v.
Proof using. intros Hs. unfold refs_in. cbn [refs flat_map fst snd]. rewrite app_nil_r. by destruct v; [destruct (Hs s)|..]. Qed.

Lemma refs_jget k m v : jget k m = Some v -> refs_in (JObj m) -> refs_in v.
Proof using.
  induction m as [|[k1 v1] m IH]; [done|]. cbn [jget]. rewrite refs_entry. intros Hg [H1 Hm].
  destruct (String.eqb k1 k); [|by apply IH]. simplify_eq. destruct v; [by apply Forall_nil|..]; by apply refs_sub in H1.
Qed.

Context (names : list string) (HP : forall n, n ∈ names -> P (schema_ref n)).

Lemma refs_ref n : n ∈ names -> refs_in (JObj [("$ref", JStr (schema_ref n))]).
Proof using HP. intros Hn. apply Forall_singleton. by apply HP. Qed.

Lemma type_doc t : type_resolved t = true -> type_closed names t = true ->
  exists m, mapAstTypeToOpenAPI t = Ok (JObj m) /\ refs_in (JObj m).
Proof using HP.
  induction t as [t IH] using (induction_ltof1 _ type_size). unfold ltof in IH.
  destruct t as [k n kt vt]. cbn [tn_Kind tn_Name tn_KeyType tn_ValueType type_resolved type_closed mapAstTypeToOpenAPI].
  intros Hr Hc. destruct k; try (eexists; split; [reflexivity|by apply Forall_nil]).
  - destruct vt as [v|]; [|by destruct kt as [kt|]; [destruct (type_resolved kt)|]].
    apply andb_true_iff in Hr as [_ Hr]. destruct (IH v) as (m & -> & Hm); [cbn; lia|done|done|].
    eexists. split; [reflexivity|]. apply refs_entry. split; [by apply Forall_nil|]. by apply refs_sub.
  - destruct vt as [v|]; [|done]. destruct (IH v) as (m & -> & Hm); [cbn; lia|done|done|].
    eexists. split; [reflexivity|]. apply refs_entry. split; [by apply Forall_nil|]. by apply refs_sub.
  - apply bool_decide_eq_true in Hc. eexists. split; [reflexivity|]. by apply refs_ref.
  - apply bool_decide_eq_true in Hc. eexists. split; [reflexivity|]. by apply refs_ref.
Qed.

Lemma props_doc fields props : forallb (fun f => type_resolved (fn_Type f)) fields = true ->
  forallb (fun f => type_closed names (fn_Type f)) fields = true -> refs_in (JObj props) ->
  exists m, openapi_props fields props = Ok m /\ refs_in (JObj m).
Proof using HP.
  revert props. induction fields as [|f fields IH]; intros props Hr Hc Hp; cbn [openapi_props]; [by eexists|].
  cbn [forallb] in *. apply andb_true_iff in Hr as [Hr1 Hr], Hc as [Hc1 Hc].
  destruct (type_doc _ Hr1 Hc1) as (m & -> & Hm). cbn [res_bind]. apply IH; [done|done|].
  apply refs_jset; [|done]. by apply refs_sub.
Qed.

Lemma structs_doc structs schemas :
  forallb (fun str => forallb (fun f => type_resolved (fn_Type f)) (sn_Fields str)) structs = true ->
  forallb (fun str => forallb (fun f => type_closed names (fn_Type f)) (sn_Fields str)) structs = true ->
  refs_in (JObj schemas) ->
  exists m, openapi_structs structs schemas = Ok m /\ refs_in (JObj m) /\
    forall n, n ∈ sn_Name <$> structs \/ is_Some (jget n schemas) -> is_Some (jget n m).
Proof using HP.
  revert schemas. induction structs as [|s structs IH]; intros schemas Hr Hc Hs; cbn [openapi_structs].
  { eexists. split; [done|]. split; [done|]. intros n [Hn|Hn]; [by apply elem_of_nil in Hn|done]. }
  cbn [forallb] in *. apply andb_true_iff in Hr as [Hr1 Hr], Hc as [Hc1 Hc].
  destruct (props_doc (sn_Fields s) [] Hr1 Hc1) as (ps & -> & Hps); [by apply Forall_nil|]. cbn [res_bind].
  edestruct IH as (m & Em & Hm & Hk); [done|done| |exists m; split; [exact Em|]; split; [done|]].
  - apply refs_jset; [|done]. apply refs_sub; [done|]. apply refs_entry. split; [by apply Forall_nil|]. by apply refs_sub.
  - intros n Hn. apply Hk. rewrite jget_jset, fmap_cons, elem_of_cons in *. case_bool_decide; [by right|]. naive_solver.
Qed.

Lemma enums_doc enums schemas : refs_in (JObj schemas) ->
  refs_in (JObj (foldl openapi_enum schemas enums)) /\
  forall n, n ∈ en_Name <$> enums \/ is_Some (jget n schemas) -> is_Some (jget n (foldl openapi_enum schemas enums)).
Proof using.
  revert schemas. induction enums as [|e enums IH]; intros schemas Hs; cbn [foldl].
  { split; [done|]. intros n [Hn|Hn]; [by apply elem_of_nil in Hn|done]. }
  destruct (IH (openapi_enum schemas e)) as [Hm Hk].
  { apply refs_jset; [|done]. apply refs_sub; [done|]. by apply Forall_nil. }
  split; [done|]. intros n Hn. apply Hk. unfold openapi_enum. rewrite jget_jset, fmap_cons, elem_of_cons in *.
  case_bool_decide; [by right|]. naive_solver.
Qed.

Lemma operation_doc svc m : method_closed names m = true -> refs_in (openapi_operation svc m).
Proof using HP.
  intros [Hi Ho]%andb_true_iff. apply bool_decide_eq_true in Hi, Ho. unfold openapi_operation, refs_in.
  destruct (mn_ServerStreaming m); repeat constructor; by apply HP.
Qed.

Lemma add_path_doc path verb op paths : refs_in op -> (forall s, op <> JStr s) -> refs_in (JObj paths) ->
  refs_in (JObj (add_path path verb op paths)).
Proof using.
  intros Ho Hs Hp. unfold add_path. apply refs_jset; [|done]. apply refs_sub; [done|].
  apply refs_jset; [by apply refs_sub|]. destruct (jget path paths) as [[]|] eqn:E; try by apply Forall_nil.
  by eapply refs_jget.
Qed.

Lemma paths_doc services paths : forallb (fun svc => forallb (method_closed names) (sv_Methods svc)) services = true ->
  refs_in (JObj paths) -> refs_in (JObj (foldl openapi_service paths services)).
Proof using HP.
  revert paths. induction services as [|svc services IH]; intros paths Hc Hp; cbn [foldl]; [done|].
  cbn [forallb] in Hc. apply andb_true_iff in Hc as [Hm Hc]. apply IH; [done|]. clear IH Hc. unfold openapi_service.
  revert paths Hp. induction (sv_Methods svc) as [|m ms IH]; intros paths Hp; cbn [foldl]; [done|].
  cbn [forallb] in Hm. apply andb_true_iff in Hm as [Hm Hms]. apply IH; [done|].
  apply add_path_doc; [by apply operation_doc|done|done].
Qed.
End refs.

Lemma formatType_resolved t : formatType t <> None -> type_resolved t = true.
Proof.
  induction t as [t IH] using (induction_ltof1 _ type_size). unfold ltof in IH. destruct t as [k n kt vt].
  cbn [tn_Kind tn_Name tn_KeyType tn_ValueType type_resolved formatType]. destruct k; try done.
  - destruct kt as [kt|], vt as [vt|]; try done. intros Hf.
    rewrite !IH; [done|cbn; lia| |cbn; lia|]; destruct (formatType kt), (formatType vt); done.
  - destruct vt as [vt|]; try done. intros Hf. apply IH; [cbn; lia|]. by destruct (formatType vt).
Qed.

Lemma formattable_resolved a : formattable a ->
  forallb (fun str => forallb (fun f => type_resolved (fn_Type f)) (sn_Fields str)) (Structs a) = true.
Proof.
  intros Hf. apply forallb_forall. intros s Hs. apply forallb_forall. intros f Hfs.
  apply formatType_resolved, (Hf s); by apply list_elem_of_In.
Qed.

(** A document is returned whenever the types of the schema can be followed. *)
Lemma type_total t : type_resolved t = true -> exists j, mapAstTypeToOpenAPI t = Ok j.
Proof.
  induction t as [t IH] using (induction_ltof1 _ type_size). unfold ltof in IH. destruct t as [k n kt vt].
  cbn [tn_Kind tn_Name tn_KeyType tn_ValueType type_resolved mapAstTypeToOpenAPI]. intros Hr.
  destruct k; try by eexists.
  - destruct vt as [v|]; [|by destruct kt as [kt|]; [destruct (type_resolved kt)|]]. apply andb_true_iff in Hr as [_ Hr].
    destruct (IH v) as [j ->]; [cbn; lia|done|by eexists].
  - destruct vt as [v|]; [|done]. destruct (IH v) as [j ->]; [cbn; lia|done|by eexists].
Qed.

Lemma openapi_total a : formattable a -> exists doc, openapi_doc a = Ok doc.
Proof.
  intros Hr%formattable_resolved. unfold openapi_doc.
  assert (forall schemas, exists m, openapi_structs (Structs a) schemas = Ok m) as Hs; [|by destruct (Hs []) as [m ->]; eexists].
  induction (Structs a) as [|s structs IH]; intros schemas; cbn [openapi_structs]; [by eexists|].
  cbn [forallb] in Hr. apply andb_true_iff in Hr as [Hf Hr].
  assert (forall props, exists m, openapi_props (sn_Fields s) props = Ok m) as Hp; [|by destruct (Hp []) as [m ->]; apply IH].
  induction (sn_Fields s) as [|f fields IHf]; intros props; cbn [openapi_props]; [by eexists|].
  cbn [forallb] in Hf. apply andb_true_iff in Hf as [Hf1 Hf]. destruct (type_total _ Hf1) as [j ->]. by apply IHf.
Qed.

(** The operations under a path: what was there, unless a later method took the place. *)
Lemma jget_add_path p v path verb op paths :
  (forall q, jget q paths = None \/ exists m, jget q paths = Some (JObj m)) ->
  jpath [p; v] (JObj (add_path path verb op paths))
  = if bool_decide (path = p) && bool_decide (verb = v) then Some op else jpath [p; v] (JObj paths).
Proof.
  intros Hw. unfold add_path. cbn [jpath]. rewrite jget_jset. case_bool_decide as Hp; cbn [andb]; [subst p|done].
  cbn [mbind option_bind jpath]. rewrite jget_jset. case_bool_decide as Hv; [done|].
  destruct (Hw path) as [->|[m ->]]; done.
Qed.

Lemma add_path_wf path verb op paths :
  (forall q, jget q paths = None \/ exists m, jget q paths = Some (JObj m)) ->
  forall q, jget q (add_path path verb op paths) = None \/ exists m, jget q (add_path path verb op paths) = Some (JObj m).
Proof. intros Hw q. unfold add_path. rewrite jget_jset. case_bool_decide; [right; by eexists|apply Hw]. Qed.

Lemma openapi_service_routes services paths :
  foldl openapi_service paths services
  = foldl (fun paths sm => add_path (openapi_path sm.1 sm.2) (openapi_verb sm.2) (openapi_operation sm.1 sm.2) paths) paths
      (services ≫= fun svc => (fun m => (svc, m)) <$> sv_Methods svc).
Proof.
  revert paths. induction services as [|svc services IH]; intros paths; cbn [foldl mbind list_bind]; [done|].
  rewrite IH, foldl_app. f_equal. unfold openapi_service. revert paths.
  induction (sv_Methods svc) as [|m ms IHm]; intros paths; cbn [foldl fmap list_fmap]; [done|]. by rewrite IHm.
Qed.

Lemma last_match_snoc {A} (p : A -> bool) l x : last_match p (l ++ [x]) = if p x then Some x else last_match p l.
Proof. unfold last_match. by rewrite rev_app_distr. Qed.

Lemma paths_last rs path verb :
  let paths := foldl (fun paths (sm : ServiceNode * MethodNode) =>
    add_path (openapi_path sm.1 sm.2) (openapi_verb sm.2) (openapi_operation sm.1 sm.2) paths) [] rs in
  (forall q, jget q paths = None \/ exists m, jget q paths = Some (JObj m)) /\
  jpath [path; verb] (JObj paths)
  = option_map (fun sm => openapi_operation sm.1 sm.2) (last_match (at_route path verb) rs).
Proof.
  induction rs as [|sm rs [IHw IH]] using rev_ind; [split; [by left|done]|].
  rewrite foldl_snoc. split; [by apply add_path_wf|].
  rewrite jget_add_path, last_match_snoc by done. unfold at_route at 1. destruct (_ && _); [done|apply IH].
Qed.

(** ** Properties *)

(** every reference in the generated OpenAPI document resolves.  For a schema either
    parser produces whose field and method types are declared, the generator returns a
    document without a panic, and every [$ref] in it, in a property, a request body or a
    response, is the pointer of a schema under [components/schemas]. *)
Theorem openapi_refs_resolve (a : AST) (Hp : parsed a) (Hc : schema_closed a = true) :
  exists doc, openapi_doc a = Ok doc /\ GenerateOpenAPI a = Ok (MarshalIndent doc) /\
    forall r, r ∈ refs doc -> exists name schema,
      r = schema_ref name /\ jpath ["components"; "schemas"; name] doc = Some schema.
Proof.
  apply andb_true_iff in Hc as [Hs Hm].
  set (P r := exists n, n ∈ schema_names a /\ r = schema_ref n).
  assert (HP : forall n, n ∈ schema_names a -> P (schema_ref n)) by (intros n Hn; by exists n).
  destruct (structs_doc P (schema_names a) HP (Structs a) [] (formattable_resolved a (parsed_formattable a Hp)) Hs)
    as (m & Em & Hm1 & Hk1); [by apply Forall_nil|].
  destruct (enums_doc P (Enums a) m Hm1) as [Hm2 Hk2].
  pose proof (paths_doc P (schema_names a) HP (Services a) [] Hm ltac:(by apply Forall_nil)) as Hm3.
  unfold GenerateOpenAPI, openapi_doc. rewrite Em. cbn [res_bind]. eexists. split; [reflexivity|]. split; [reflexivity|].
  intros r Hr. assert (P r) as (n & Hn & ->).
  { revert r Hr. apply Forall_forall. do 2 (apply refs_entry; split; [by apply Forall_nil|]).
    apply refs_entry. split; [by apply refs_sub|]. apply refs_sub; [done|]. by apply refs_sub. }
  assert (is_Some (jget n (foldl openapi_enum m (Enums a)))) as [sch Hsch].
  { apply Hk2. unfold schema_names in Hn. apply elem_of_app in Hn as [Hn|Hn]; [|by left]. right. apply Hk1. by left. }
  exists n, sch. split; [done|]. cbn. by rewrite Hsch.
Qed.

(** the paths of the OpenAPI document are exactly the methods of the schema.  Under a
    path and a verb stands the operation of the last method declared with that route, and
    nothing when no method has it; two methods with one route leave only the later one. *)
Theorem openapi_paths_exact (a : AST) (doc : json) (Hd : openapi_doc a = Ok doc) (path verb : string) :
  jpath ["paths"; path; verb] doc
  = option_map (fun sm => openapi_operation sm.1 sm.2) (last_match (at_route path verb) (routes a)).
Proof.
  unfold openapi_doc in Hd. destruct (openapi_structs (Structs a) []) as [m|]; [|done]. cbn [res_bind] in Hd.
  simplify_eq. rewrite openapi_service_routes. apply (paths_last (routes a) path verb).
Qed.

Definition shop_text : text :=
  cat ["package shop; message Item { string sku = 1; repeated Tag tags = 2; } message Tag { string t = 1; }";
  " service Shop { rpc Get(Item) returns (Tag); rpc Watch(Tag) returns (stream Item) { option (google.api.http) = { get: \q/watch\q }; } }"].
Definition shop : AST := ast_of shop_text.

Lemma openapi_refs_resolve_witness :
  parsed shop /\ schema_closed shop = true /\
  exists doc, openapi_doc shop = Ok doc /\ GenerateOpenAPI shop = Ok (MarshalIndent doc) /\
    forall r, r ∈ refs doc -> exists name schema,
      r = schema_ref name /\ jpath ["components"; "schemas"; name] doc = Some schema.
Proof.
  assert (parsed shop) as Hp by (exists shop_text; left; vm_compute; reflexivity).
  split; [exact Hp|]. split; [vm_compute; reflexivity|].
  apply openapi_refs_resolve; [exact Hp|vm_compute; reflexivity].
Defined.

Lemma openapi_paths_exact_witness :
  exists doc, openapi_doc shop = Ok doc /\
    jpath ["paths"; "/v1.Shop/Get"; "post"; "operationId"] doc = Some (JStr "Get") /\
    jpath ["paths"; "/v1.Shop/Get"; "get"] doc = None.
Proof.
  eexists. split; [vm_compute; reflexivity|]. split; [vm_compute; reflexivity|].
  rewrite (openapi_paths_exact shop); [vm_compute; reflexivity|vm_compute; reflexivity].
Defined.

(** The verb of a route is the upper-case one of the schema, not the lower-case key an
    OpenAPI path item has; the default is lower case. *)
Theorem openapi_verb_case :
  exists doc op, openapi_doc shop = Ok doc /\
    jpath ["paths"; "/watch"; "GET"] doc = Some op /\ jpath ["paths"; "/watch"; "get"] doc = None.
Proof. do 2 eexists. split; [vm_compute; reflexivity|]. split; vm_compute; reflexivity. Qed.
