(* ===== verification/GoFiles.v ===== *)
(** * Paths and files: [path/filepath], [os] and [io/ioutil]

    The path functions work on strings as the library does.  The file system is a tree
    without links: a path denotes the list of components it resolves to from the working
    directory, [..] taken lexically.  [no_read] and [no_write] say which entries the
    process may not open or create.  [short_write] says which writes fail once the file is
    open and truncated, as on a full disk, and how many bytes get into the file. *)
From S2P Require Import Prelude GoStrings.

(** ** [path/filepath] on Unix *)
Definition is_slash (c : ascii) : bool := Ascii.eqb c "/".
Definition rooted (p : string) : bool := match p with String c _ => is_slash c | _ => false end.

(** Components are pushed on a stack, the last one first. *)
Definition push_component (root : bool) (st : list string) (c : string) : list string :=
  if bool_decide (c = "") || bool_decide (c = ".") then st
  else if bool_decide (c = "..") then
    match st with
    | [] => if root then [] else [".."]
    | d :: st' => if bool_decide (d = "..") then ".." :: st else st'
    end
  else c :: st.
Definition components (root : bool) (base : list string) (p : string) : list string :=
  rev (foldl (push_component root) (rev base) (Split p "/")).

Definition Clean (p : string) : string :=
  match components (rooted p) [] p with
  | [] => if rooted p then "/" else "."
  | cs => (if rooted p then "/" else "") +:+ Join cs "/"
  end.

Fixpoint drop_empty (elem : list string) : list string :=
  match elem with "" :: elem' => drop_empty elem' | _ => elem end.
(** [filepath.Join(elem...)] *)
Definition path_join (elem : list string) : string :=
  match drop_empty elem with [] => "" | elem' => Clean (Join elem' "/") end.

(** The text after the last slash, and the text up to and including it. *)
Fixpoint split_path (p : string) : string * string :=
  match p with
  | "" => ("", "")
  | String c p' =>
      let '(dir, file) := split_path p' in
      if is_slash c then (String c dir, file)
      else match dir with "" => ("", String c file) | _ => (String c dir, file) end
  end.
Definition Dir (p : string) : string := Clean (fst (split_path p)).
Definition Base (p : string) : string :=
  match p with
  | "" => "."
  | _ => match snd (split_path (trim_right is_slash p)) with "" => "/" | file => file end
  end.

Fixpoint last_dot (file : string) : option string :=
  match file with
  | "" => None
  | String c file' =>
      match last_dot file' with
      | Some e => Some e
      | None => if Ascii.eqb c "." then Some file else None
      end
  end.
Definition Ext (p : string) : string := default "" (last_dot (snd (split_path p))).

Example path_examples :
  Clean "a//b/../c/." = "a/c" /\ Clean "/../x" = "/x" /\ Clean "../../x" = "../../x" /\ Clean "" = "." /\
  path_join [""; "svc"; "server"; "main.go"] = "svc/server/main.go" /\
  Dir "out/gen.go" = "out" /\ Dir "gen.go" = "." /\ Dir "/gen.go" = "/" /\
  Base "a/b.proto" = "b.proto" /\ Base "a/b/" = "b" /\ Base "///" = "/" /\
  Ext "a.b/c.proto" = ".proto" /\ Ext "a.b/c" = "" /\ Ext "x.tar.gz" = ".gz".
Proof. repeat split. Qed.

(** ** Files *)
Inductive os_error := ENOENT | EISDIR | ENOTDIR | EACCES | ENOSPC.

Record fsys := {
  cwd : list string;
  files : gmap (list string) string;
  dirs : gset (list string);
  no_read : list string -> bool;
  no_write : list string -> bool;
  short_write : list string -> string -> option nat
}.
Definition set_files (fs : fsys) (m : gmap (list string) string) : fsys :=
  {| cwd := cwd fs; files := m; dirs := dirs fs; no_read := no_read fs; no_write := no_write fs; short_write := short_write fs |}.
Definition set_dirs (fs : fsys) (d : gset (list string)) : fsys :=
  {| cwd := cwd fs; files := files fs; dirs := d; no_read := no_read fs; no_write := no_write fs; short_write := short_write fs |}.

Definition resolve (fs : fsys) (p : string) : list string := components true (if rooted p then [] else cwd fs) p.
Definition is_dir (fs : fsys) (k : list string) : bool := bool_decide (k = []) || bool_decide (k ∈ dirs fs).
(** The path ends in a slash. *)
Definition slash_end (p : string) : bool := bool_decide (last (Split p "/") = Some "").
Definition parent (k : list string) : list string := take (length k - 1) k.

Definition ReadFile (fs : fsys) (p : string) : res os_error string :=
  let k := resolve fs p in
  if bool_decide (p = "") then Err ENOENT
  else if is_dir fs k then Err EISDIR
  else match files fs !! k with
       | None => Err ENOENT
       | Some c => if slash_end p then Err ENOTDIR else if no_read fs k then Err EACCES else Ok c
       end.

(** The file is truncated when it is opened, and then written: a write that falls short
    leaves a prefix. *)
Definition WriteFile (fs : fsys) (p content : string) : fsys * option os_error :=
  let k := resolve fs p in
  if bool_decide (p = "") then (fs, Some ENOENT)
  else if is_dir fs k || slash_end p then (fs, Some EISDIR)
  else if negb (is_dir fs (parent k)) then (fs, Some ENOENT)
  else if no_write fs k then (fs, Some EACCES)
  else match short_write fs k content with
       | Some n => (set_files fs (<[k := str_take n content]> (files fs)), Some ENOSPC)
       | None => (set_files fs (<[k := content]> (files fs)), None)
       end.

(** One directory; those above it are there. *)
Definition mkdir (st : fsys * option os_error) (k : list string) : fsys * option os_error :=
  let '(fs, err) := st in
  match err with
  | Some _ => st
  | None =>
      if is_dir fs k then st
      else if bool_decide (is_Some (files fs !! k)) then (fs, Some ENOTDIR)
      else if no_write fs k then (fs, Some EACCES)
      else (set_dirs fs ({[k]} ∪ dirs fs), None)
  end.
Definition MkdirAll (fs : fsys) (p : string) : fsys * option os_error :=
  if bool_decide (p = "") then (fs, Some ENOENT)
  else let k := resolve fs p in foldl mkdir (fs, None) ((fun n => take n k) <$> seq 1 (length k)).

(** ** Lemmas *)
Lemma set_files_id fs : set_files fs (files fs) = fs.
Proof. by destruct fs. Qed.

(** *** Plain component names *)
Definition plain_name (c : string) : bool :=
  str_forall (fun a => negb (is_slash a)) c &&
  negb (bool_decide (c = "") || bool_decide (c = ".") || bool_decide (c = "..")).

Lemma push_plain root st c : plain_name c = true -> push_component root st c = c :: st.
Proof.
  unfold plain_name, push_component. intros [_ H]%andb_true_iff. apply negb_true_iff in H.
  apply orb_false_iff in H as [H ->]. by rewrite H.
Qed.

Lemma components_plain root base cs : cs <> [] -> forallb plain_name cs = true ->
  components root base (Join cs "/") = base ++ cs.
Proof.
  intros Hne Hp. unfold components. rewrite Split_Join; [|done|].
  - transitivity (rev (rev cs ++ rev base)); [|by rewrite <- rev_app_distr, rev_involutive]. f_equal.
    clear Hne. generalize (rev base) as st. induction cs as [|c cs IH]; intros st; [done|]. cbn [foldl].
    cbn [forallb] in Hp. apply andb_true_iff in Hp as [Hc Hp]. rewrite push_plain, IH by done. cbn [rev].
    by rewrite <- app_assoc.
  - apply Forall_forall. intros c Hc. rewrite forallb_forall in Hp. apply list_elem_of_In, Hp in Hc.
    by apply andb_true_iff in Hc as [Hc _].
Qed.

Lemma rooted_plain c cs : plain_name c = true -> rooted (Join (c :: cs) "/") = false.
Proof.
  unfold plain_name. destruct c as [|a c]; [done|]. intros [H _]%andb_true_iff. cbn in H.
  apply andb_true_iff in H as [H _]. apply negb_true_iff in H. destruct cs; exact H.
Qed.

Lemma path_join_plain c cs : forallb plain_name (c :: cs) = true -> path_join (c :: cs) = Join (c :: cs) "/".
Proof.
  intros Hp. pose proof Hp as Hp'. cbn [forallb] in Hp'. apply andb_true_iff in Hp' as [Hc _].
  assert (drop_empty (c :: cs) = c :: cs) as Hd by (by destruct c).
  unfold path_join. rewrite Hd. unfold Clean. rewrite rooted_plain by done.
  by rewrite components_plain by done.
Qed.

Lemma resolve_plain fs c cs : forallb plain_name (c :: cs) = true ->
  resolve fs (path_join (c :: cs)) = cwd fs ++ c :: cs.
Proof.
  intros Hp. pose proof Hp as Hp'. cbn [forallb] in Hp'. apply andb_true_iff in Hp' as [Hc _].
  rewrite path_join_plain by done. unfold resolve. rewrite rooted_plain by done. by apply components_plain.
Qed.

Lemma slash_end_plain cs : cs <> [] -> forallb plain_name cs = true -> slash_end (Join cs "/") = false.
Proof.
  intros Hne Hp. unfold slash_end. apply bool_decide_eq_false. rewrite forallb_forall in Hp. rewrite Split_Join; [|done|].
  - intros Hl. apply last_Some in Hl as [l ->]. pose proof (Hp "" ltac:(apply in_or_app; right; by left)) as H. by vm_compute in H.
  - apply Forall_forall. intros c Hc. by apply list_elem_of_In, Hp, andb_true_iff in Hc as [Hc _].
Qed.

Lemma path_join_nonempty c cs : forallb plain_name (c :: cs) = true -> path_join (c :: cs) <> "".
Proof.
  intros Hp. rewrite path_join_plain by done. cbn [forallb] in Hp. apply andb_true_iff in Hp as [Hc _].
  destruct c; [done|]. by destruct cs.
Qed.

(** *** Reading and writing *)
Lemma write_inv fs p c fs' : WriteFile fs p c = (fs', None) ->
  fs' = set_files fs (<[resolve fs p := c]> (files fs)).
Proof.
  unfold WriteFile. destruct (bool_decide (p = "")); [done|]. destruct (is_dir fs _ || _); [done|].
  destruct (negb _); [done|]. destruct (no_write fs _); [done|]. destruct (short_write fs _ c); [done|]. by intros [= <-].
Qed.

(** A write that fails leaves the file as it was, or a prefix of the content. *)
Lemma write_fails fs p c fs' e : WriteFile fs p c = (fs', Some e) ->
  fs' = fs \/ exists n, fs' = set_files fs (<[resolve fs p := str_take n c]> (files fs)).
Proof.
  unfold WriteFile. destruct (bool_decide (p = "")); [intros [= <- _]; by left|]. destruct (is_dir fs _ || _); [intros [= <- _]; by left|].
  destruct (negb _); [intros [= <- _]; by left|]. destruct (no_write fs _); [intros [= <- _]; by left|].
  destruct (short_write fs _ c) as [n|]; [|done]. intros [= <- _]. right. by exists n.
Qed.

Lemma read_write fs p c fs' : WriteFile fs p c = (fs', None) -> no_read fs (resolve fs p) = false -> ReadFile fs' p = Ok c.
Proof.
  intros Hw Hr. pose proof (write_inv _ _ _ _ Hw) as ->. unfold WriteFile in Hw. unfold ReadFile.
  change (resolve (set_files fs _) p) with (resolve fs p). change (is_dir (set_files fs _)) with (is_dir fs).
  destruct (bool_decide (p = "")); [done|]. destruct (is_dir fs (resolve fs p)); [done|]. cbn [orb] in Hw.
  destruct (slash_end p); [done|]. cbn [files set_files no_read]. by rewrite lookup_insert_eq, Hr.
Qed.

(** What [MkdirAll] leaves alone. *)
Definition same_files (fs fs' : fsys) : Prop :=
  cwd fs' = cwd fs /\ files fs' = files fs /\ no_read fs' = no_read fs /\ no_write fs' = no_write fs /\
  short_write fs' = short_write fs /\ dirs fs ⊆ dirs fs'.

Lemma mkdir_same ks fs err : same_files fs (fst (foldl mkdir (fs, err) ks)).
Proof.
  revert fs err. induction ks as [|k ks IH]; intros fs err; [by unfold same_files|]. cbn [foldl].
  assert (exists fs1 err1, mkdir (fs, err) k = (fs1, err1) /\ same_files fs fs1) as (fs1 & err1 & -> & H1).
  { unfold mkdir. destruct err; [by eexists _, _|]. destruct (is_dir fs k); [by eexists _, _|].
    destruct (bool_decide _); [by eexists _, _|]. destruct (no_write fs k); [by eexists _, _|].
    eexists _, _. split; [done|]. unfold same_files. cbn. repeat split; set_solver. }
  specialize (IH fs1 err1). unfold same_files in *. destruct_and!. repeat split; try congruence. set_solver.
Qed.

Lemma MkdirAll_same fs p : same_files fs (fst (MkdirAll fs p)).
Proof. unfold MkdirAll. destruct (bool_decide _); [by unfold same_files|]. apply mkdir_same. Qed.

(** *** Directories of plain paths *)
Lemma str_app_nonempty s c t : s +:+ String c t <> "".
Proof. by destruct s. Qed.

Lemma split_path_file f : str_forall (fun a => negb (is_slash a)) f = true -> split_path f = ("", f).
Proof.
  induction f as [|a f IH]; [done|]. cbn [str_forall split_path]. intros [Ha Hf]%andb_true_iff.
  rewrite IH by done. apply negb_true_iff in Ha. by rewrite Ha.
Qed.

Lemma split_path_app d f : str_forall (fun a => negb (is_slash a)) f = true ->
  split_path (d +:+ String "/" f) = (d +:+ "/", f).
Proof.
  intros Hf. induction d as [|a d IH]; cbn [String.append split_path]; [by rewrite split_path_file|].
  rewrite IH. destruct (is_slash a); [done|]. destruct (d +:+ "/") eqn:E; [by apply str_app_nonempty in E|done].
Qed.

Lemma Join_snoc cs f sep : cs <> [] -> Join (cs ++ [f]) sep = Join cs sep +:+ sep +:+ f.
Proof.
  induction cs as [|c cs IH]; [done|]. intros _. destruct cs as [|c2 cs]; [done|].
  change (Join ((c :: c2 :: cs) ++ [f]) sep) with (c +:+ sep +:+ Join ((c2 :: cs) ++ [f]) sep). rewrite IH by done.
  cbn [Join]. by rewrite !str_app_assoc.
Qed.

Lemma plain_no_slash f : plain_name f = true -> str_forall (fun a => negb (is_slash a)) f = true.
Proof. by intros [H _]%andb_true_iff. Qed.

Lemma Dir_plain c cs f : forallb plain_name (c :: cs) = true -> plain_name f = true ->
  Dir (path_join (c :: cs ++ [f])) = path_join (c :: cs).
Proof.
  intros Hp Hf. rewrite path_join_plain by (change (c :: cs ++ [f]) with ((c :: cs) ++ [f]); rewrite forallb_app, Hp; cbn [forallb]; by rewrite Hf).
  rewrite path_join_plain by done. change (c :: cs ++ [f]) with ((c :: cs) ++ [f]). rewrite Join_snoc by done.
  unfold Dir. change ("/" +:+ f) with (String "/" f). rewrite split_path_app by (by apply plain_no_slash). cbn [fst].
  assert (forall s, rooted (s +:+ "/") = match s with "" => true | _ => rooted s end) as Hr by (by intros []).
  pose proof Hp as Hp'. cbn [forallb] in Hp'. apply andb_true_iff in Hp' as [Hc _].
  unfold Clean. rewrite Hr, (rooted_plain c cs Hc).
  destruct (Join (c :: cs) "/") eqn:Ej; [exfalso; by apply (path_join_nonempty c cs Hp); rewrite path_join_plain|].
  rewrite <- Ej. unfold components.
  assert (Split (Join (c :: cs) "/" +:+ "/") "/" = (c :: cs) ++ [""]) as ->.
  { change (Join (c :: cs) "/" +:+ "/") with (Join (c :: cs) "/" +:+ "/" +:+ ""). rewrite <- Join_snoc by done.
    apply Split_Join; [done|]. apply Forall_app. split; [|by repeat constructor].
    apply Forall_forall. intros d Hd. rewrite forallb_forall in Hp. by apply plain_no_slash, Hp, list_elem_of_In. }
  rewrite foldl_snoc. unfold push_component at 1.
  pose proof (components_plain false [] (c :: cs) ltac:(done) Hp) as Hcp. unfold components in Hcp.
  rewrite Split_Join in Hcp; [|done|].
  - change (bool_decide ("" = "") || bool_decide ("" = ".")) with true. cbn iota. rewrite Hcp. done.
  - apply Forall_forall. intros d Hd. rewrite forallb_forall in Hp. by apply plain_no_slash, Hp, list_elem_of_In.
Qed.

Lemma Ext_plain c cs f : forallb plain_name (c :: cs) = true -> plain_name f = true ->
  Ext (path_join (c :: cs ++ [f])) = default "" (last_dot f).
Proof.
  intros Hp Hf. rewrite path_join_plain by (change (c :: cs ++ [f]) with ((c :: cs) ++ [f]); rewrite forallb_app, Hp; cbn [forallb]; by rewrite Hf).
  change (c :: cs ++ [f]) with ((c :: cs) ++ [f]). rewrite Join_snoc by done.
  unfold Ext. change ("/" +:+ f) with (String "/" f). by rewrite split_path_app by (by apply plain_no_slash).
Qed.

Lemma is_dir_add fs k k' : k' <> k -> is_dir (set_dirs fs ({[k]} ∪ dirs fs)) k' = is_dir fs k'.
Proof.
  intros Hne. unfold is_dir. f_equal. apply bool_decide_ext. cbn [dirs set_dirs]. rewrite elem_of_union, elem_of_singleton.
  naive_solver.
Qed.

(** Making one directory that is there or whose place is free. *)
Lemma mkdir_one fs k : no_write fs k = false -> (is_dir fs k = true \/ files fs !! k = None) ->
  exists fs', mkdir (fs, None) k = (fs', None) /\ is_dir fs' k = true /\ same_files fs fs' /\
    forall k', k' <> k -> is_dir fs' k' = is_dir fs k'.
Proof.
  intros Hw Hd. cbn [mkdir]. destruct (is_dir fs k) eqn:E; [exists fs; split; [done|]; by unfold same_files|].
  destruct Hd as [|Hn]; [done|]. rewrite Hn, Hw, bool_decide_false by (by intros []). eexists. split; [reflexivity|].
  split; [|split; [unfold same_files; cbn; repeat split; set_solver|intros k' Hk; by apply is_dir_add]].
  unfold is_dir. apply orb_true_iff. right. apply bool_decide_eq_true. cbn. set_solver.
Qed.

Lemma dir_mono fs fs' k : dirs fs ⊆ dirs fs' -> is_dir fs k = true -> is_dir fs' k = true.
Proof.
  intros Hs. unfold is_dir. rewrite !orb_true_iff, !bool_decide_eq_true. intros [E|E]; [left; exact E|right; exact (Hs _ E)].
Qed.
