(* ===== verification/Mux.v ===== *)
(** * Request multiplexing: what the runtime uses of [http.ServeMux]

    Patterns without host and method: a pattern ending in a slash stands for the subtree
    under it, any other for one path.  The longest matching pattern wins; a path that is
    not clean is redirected to its clean form, and the root of a subtree without its slash
    to the subtree.  Request targets are without escapes and query. *)
From S2P Require Import Prelude GoStrings GoText Errors Http GoFiles.

Definition ServeMux (W : Type) : Type := list (string * HTTPHandler W).

Definition NewServeMux {W} : ServeMux W := [].

(** [mux.Handle]; registering a pattern twice panics ([None]). *)
Definition Handle {W} (pattern : string) (h : HTTPHandler W) (mux : ServeMux W) : option (ServeMux W) :=
  if bool_decide (pattern ∈ fst <$> mux) then None else Some (mux ++ [(pattern, h)]).

Definition is_subtree (pattern : string) : bool := HasSuffix pattern "/".
Definition matches (path pattern : string) : bool :=
  if is_subtree pattern then HasPrefix path pattern else bool_decide (pattern = path).

(** The longest pattern that matches. *)
Definition longer {W} (path : string) (best : option (string * HTTPHandler W)) (e : string * HTTPHandler W) :=
  if matches path (fst e) then
    match best with
    | Some b => if (String.length (fst b) <? String.length (fst e))%nat then Some e else best
    | None => Some e
    end
  else best.
Definition mux_match {W} (mux : ServeMux W) (path : string) : option (string * HTTPHandler W) :=
  foldl (longer path) None mux.

Definition cleanPath (p : string) : string :=
  let p := if rooted p then p else "/" +:+ p in
  let np := Clean p in
  if HasSuffix p "/" && negb (bool_decide (np = "/")) then np +:+ "/" else np.

Definition html_escape_char (c : ascii) : string :=
  if Ascii.eqb c "&" then "&amp;" else if Ascii.eqb c "<" then "&lt;" else if Ascii.eqb c ">" then "&gt;"
  else if Ascii.eqb c "034" then "&#34;" else if Ascii.eqb c "039" then "&#39;" else String c "".
Fixpoint html_escape (s : string) : string :=
  match s with "" => "" | String c s' => html_escape_char c +:+ html_escape s' end.

(** [http.Redirect(w, r, url, 301)] *)
Definition redirect (url method : string) (rw : ResponseWriter) : ResponseWriter :=
  let hadCT := bool_decide (is_Some (rw_header rw !! "Content-Type")) in
  let rw := set_header "Location" url rw in
  let rw := if negb hadCT && (bool_decide (method = "GET") || bool_decide (method = "HEAD"))
            then set_header "Content-Type" "text/html; charset=utf-8" rw else rw in
  let rw := WriteHeader 301 rw in
  if negb hadCT && bool_decide (method = "GET")
  then Write_ (to_bytes (cat ["<a href=\q"%go; html_escape url; "\q>Moved Permanently</a>.\n\n"%go])) rw
  else rw.

Definition NotFound (rw : ResponseWriter) : ResponseWriter := http_Error "404 page not found" 404 rw.

(** Whether the path is the root of a subtree that has no handler of its own. *)
Definition needs_slash {W} (mux : ServeMux W) (path : string) : bool :=
  negb (HasSuffix path "/") && negb (bool_decide (path ∈ fst <$> mux)) && bool_decide (path +:+ "/" ∈ fst <$> mux).

Definition mux_ServeHTTP {W} (mux : ServeMux W) : HTTPHandler W := fun rw r w =>
  let path := if bool_decide (r_method r = "CONNECT") then r_path r else cleanPath (r_path r) in
  if needs_slash mux path then (w, redirect (cleanPath (r_path r) +:+ "/") (r_method r) rw)
  else if negb (bool_decide (path = r_path r)) then (w, redirect path (r_method r) rw)
  else
    match mux_match mux path with
    | Some (_, h) => h rw r w
    | None => (w, NotFound rw)
    end.

(** ** Lemmas *)
Section lemmas.
Context {W : Type}.
Implicit Type mux : ServeMux W.

Lemma Handle_fresh pattern (h : HTTPHandler W) mux :
  pattern ∉ fst <$> mux -> Handle pattern h mux = Some (mux ++ [(pattern, h)]).
Proof. intros Hn. unfold Handle. by rewrite bool_decide_false. Qed.

Lemma matches_length path pattern : matches path pattern = true -> (String.length pattern <= String.length path)%nat.
Proof.
  unfold matches. destruct (is_subtree pattern).
  - intros [r ->]%HasPrefix_iff. rewrite str_length_app. lia.
  - by intros ->%bool_decide_eq_true.
Qed.

Lemma longer_spec path mux best :
  match foldl (longer path) best mux with
  | None => best = None /\ Forall (fun e => matches path (fst e) = false) mux
  | Some e => (best = Some e \/ e ∈ mux /\ matches path (fst e) = true) /\
      Forall (fun e' => matches path (fst e') = true -> (String.length (fst e') <= String.length (fst e))%nat) mux /\
      forall b, best = Some b -> (String.length (fst b) <= String.length (fst e))%nat
  end.
Proof.
  revert best. induction mux as [|e0 mux IH]; intros best; cbn [foldl].
  { destruct best; [|done]. split_and!; [by left|done|]. by intros b [= ->]. }
  specialize (IH (longer path best e0)). destruct (foldl _ _ mux) as [e|].
  - destruct IH as (Hin & Hall & Hb). unfold longer in Hin, Hb.
    destruct (matches path (fst e0)) eqn:E0; [destruct best as [b|]; [destruct (Nat.ltb_spec (String.length (fst b)) (String.length (fst e0)))|]|].
    1,2,3: split_and!; [destruct Hin as [[= ->]|[]]; [right + left|right]; repeat split; try done; by constructor| |].
    all: try (constructor; [|done]; intros Hm; try congruence; pose proof (Hb _ eq_refl); lia).
    all: try (intros b' [= ->]; pose proof (Hb _ eq_refl); lia).
    + split_and!; [|constructor; [congruence|done]|done]. destruct Hin as [|[]]; [by left|right]. split; [by constructor|done].
  - destruct IH as [Hn Hall]. unfold longer in Hn. destruct (matches path (fst e0)) eqn:E0; [by destruct best; repeat case_match|].
    split; [done|]. by constructor.
Qed.

Lemma mux_match_spec mux path :
  match mux_match mux path with
  | None => Forall (fun e => matches path (fst e) = false) mux
  | Some e => e ∈ mux /\ matches path (fst e) = true /\
      Forall (fun e' => matches path (fst e') = true -> (String.length (fst e') <= String.length (fst e))%nat) mux
  end.
Proof.
  unfold mux_match. pose proof (longer_spec path mux None) as H. destruct (foldl _ _ mux) as [e|]; [|by destruct H].
  destruct H as ([|[]] & ? & _); done.
Qed.
End lemmas.

(** ** Handlers mounted on a base path and everything below it *)
Definition under (path base : string) : bool := bool_decide (path = base) || HasPrefix path (base +:+ "/").
Definition mounted {W} (eps : list (string * HTTPHandler W)) : ServeMux W :=
  eps ≫= fun e => [(fst e, snd e); (fst e +:+ "/", snd e)].
(** No base lies below another. *)
Definition separate (bases : list string) : bool :=
  forallb (fun b1 => forallb (fun b2 => bool_decide (b1 = b2) || negb (under b1 b2)) bases) bases.

Lemma under_iff path base : under path base = true <-> exists r, path = base +:+ r /\ (r = "" \/ exists r', r = String "/" r').
Proof.
  unfold under. rewrite orb_true_iff, bool_decide_eq_true, HasPrefix_iff. split.
  - intros [->|[r ->]]; [exists ""; split; [by rewrite str_app_nil_r|by left]|].
    exists (String "/" r). split; [by rewrite str_app_assoc|eauto].
  - intros (r & -> & [->|[r' ->]]); [left; apply str_app_nil_r|right]. exists r'. by rewrite str_app_assoc.
Qed.

Lemma str_app_split (s1 s2 t1 t2 : string) : s1 +:+ t1 = s2 +:+ t2 ->
  (exists u, s2 = s1 +:+ u /\ t1 = u +:+ t2) \/ exists u, s1 = s2 +:+ u /\ t2 = u +:+ t1.
Proof.
  revert s2. induction s1 as [|c s1 IH]; intros [|c2 s2] E; cbn in E.
  - left. by exists "".
  - left. by exists (String c2 s2).
  - right. by exists (String c s1).
  - injection E as -> E. destruct (IH s2 E) as [(u & -> & ->)|(u & -> & ->)]; [left|right]; by exists u.
Qed.

Lemma under_both path b1 b2 : under path b1 = true -> under path b2 = true ->
  b1 = b2 \/ under b1 b2 = true \/ under b2 b1 = true.
Proof.
  rewrite !under_iff. intros (r1 & -> & H1) (r2 & E & H2).
  destruct (str_app_split _ _ _ _ E) as [([|c u] & -> & Hr)|([|c u] & -> & Hr)];
    [left; by rewrite str_app_nil_r| |left; by rewrite str_app_nil_r|].
  - right. right. exists (String c u). split; [done|]. right. destruct H1 as [->|[r' ->]]; [done|]. injection Hr as <- _. eauto.
  - right. left. exists (String c u). split; [done|]. right. destruct H2 as [->|[r' ->]]; [done|]. injection Hr as <- _. eauto.
Qed.

Lemma separate_spec bases b1 b2 path : separate bases = true -> b1 ∈ bases -> b2 ∈ bases ->
  under path b1 = true -> under path b2 = true -> b1 = b2.
Proof.
  unfold separate. intros Hs H1 H2 U1 U2. rewrite forallb_forall in Hs.
  assert (forall x y, x ∈ bases -> y ∈ bases -> under x y = true -> x = y) as Hxy.
  { intros x y Hx Hy Hu. specialize (Hs x (proj1 (list_elem_of_In _ _) Hx)). rewrite forallb_forall in Hs.
    specialize (Hs y (proj1 (list_elem_of_In _ _) Hy)). rewrite Hu in Hs. cbn in Hs. rewrite orb_false_r in Hs. by apply bool_decide_eq_true in Hs. }
  destruct (under_both _ _ _ U1 U2) as [|[|]]; [done|by apply Hxy|symmetry; by apply Hxy].
Qed.

Lemma HasSuffix_app s t : HasSuffix (s +:+ t) t = true.
Proof. unfold HasSuffix. rewrite str_length_app, Nat.add_sub, str_drop_app, bool_decide_true, andb_true_r by done. apply Nat.leb_le. lia. Qed.

Section mounted.
Context {W : Type} (eps : list (string * HTTPHandler W)).
Hypothesis plain_bases : Forall (fun e => is_subtree (fst e) = false) eps.
Hypothesis separate_bases : separate (fst <$> eps) = true.
Hypothesis distinct_bases : NoDup (fst <$> eps).

Lemma mounted_matches path base : is_subtree base = false ->
  under path base = matches path base || matches path (base +:+ "/").
Proof. intros Hb. unfold under, matches, is_subtree in *. rewrite Hb, HasSuffix_app. f_equal. apply bool_decide_ext. done. Qed.

Lemma elem_of_mounted e : e ∈ mounted eps -> exists ep, ep ∈ eps /\ snd e = snd ep /\ (fst e = fst ep \/ fst e = fst ep +:+ "/").
Proof.
  unfold mounted. intros (ep & He & Hep)%list_elem_of_bind. exists ep. split; [done|].
  apply elem_of_cons in He as [->|[->|[]%elem_of_nil]%elem_of_cons]; cbn; auto.
Qed.

Lemma base_unique ep ep' path : ep ∈ eps -> ep' ∈ eps -> under path (fst ep) = true -> under path (fst ep') = true -> ep = ep'.
Proof.
  intros Hep Hep' U U'.
  assert (fst ep = fst ep') as E by (eapply separate_spec; [exact separate_bases|by apply list_elem_of_fmap_2..|done|done]).
  destruct (list_elem_of_lookup_1 _ _ Hep) as [i Hi], (list_elem_of_lookup_1 _ _ Hep') as [j Hj].
  assert (i = j) as ->; [|congruence]. eapply (NoDup_lookup _ i j (fst ep) distinct_bases); rewrite list_lookup_fmap; [by rewrite Hi|].
  by rewrite Hj, E.
Qed.

(** A mounted handler serves its base and everything below it. *)
Lemma mux_mounted path : snd <$> mux_match (mounted eps) path = snd <$> List.find (fun e => under path (fst e)) eps.
Proof.
  pose proof (mux_match_spec (mounted eps) path) as Hm.
  assert (forall ep, ep ∈ eps -> is_subtree (fst ep) = false) as Hp by (intros; by eapply (proj1 (Forall_forall _ _) plain_bases)).
  destruct (List.find (fun e => under path (fst e)) eps) as [ep|] eqn:Ef.
  - apply List.find_some in Ef as [Hep%list_elem_of_In U]. destruct (mux_match (mounted eps) path) as [e|].
    + destruct Hm as (He & Hmatch & _). apply elem_of_mounted in He as (ep' & Hep' & Hsnd & Hfst). cbn. rewrite Hsnd. do 2 f_equal.
      apply (base_unique ep' ep path); [done|done| |done]. rewrite mounted_matches by auto.
      destruct Hfst as [<-|<-]; rewrite Hmatch; [done|apply orb_true_r].
    + exfalso. rewrite mounted_matches in U by auto.
      assert (forall e, e ∈ mounted eps -> matches path (fst e) = false) as Hn by (by apply Forall_forall).
      pose proof (Hn (fst ep, snd ep)) as H1. pose proof (Hn (fst ep +:+ "/", snd ep)) as H2. cbn in H1, H2.
      rewrite H1, H2 in U; [done|..]; apply list_elem_of_bind; exists ep; (split; [|done]); apply elem_of_cons; [right|by left].
      by apply list_elem_of_singleton.
  - destruct (mux_match (mounted eps) path) as [e|]; [|done]. exfalso. destruct Hm as (He & Hmatch & _).
    apply elem_of_mounted in He as (ep & Hep & _ & Hfst).
    pose proof (List.find_none _ _ Ef ep (proj1 (list_elem_of_In _ _) Hep)) as Hn. cbn in Hn.
    rewrite mounted_matches in Hn by auto. apply orb_false_iff in Hn as [? ?]. destruct Hfst as [E|E]; rewrite E in Hmatch; congruence.
Qed.

Lemma mounted_no_redirect path : needs_slash (mounted eps) path = false.
Proof.
  unfold needs_slash. destruct (HasSuffix path "/") eqn:Es; [done|]. cbn.
  case_bool_decide as Hp; [done|]. cbn. apply bool_decide_false. intros Hq. apply Hp.
  apply list_elem_of_fmap in Hq as (e & E & He). apply elem_of_mounted in He as (ep & Hep & _ & [Hf|Hf]).
  - exfalso. pose proof (proj1 (Forall_forall _ _) plain_bases ep Hep) as Hn. cbn in Hn. unfold is_subtree in Hn.
    by rewrite <- Hf, <- E, HasSuffix_app in Hn.
  - assert (path = fst ep) as ->.
    { rewrite Hf in E. clear -E. revert E. generalize (fst ep). induction path as [|c p IH]; intros [|c' q]; cbn; try done.
      - intros [= <- E]. by destruct q.
      - intros [= -> E]. by destruct p.
      - intros [= -> E]. f_equal. by apply IH. }
    apply list_elem_of_fmap. exists (fst ep, snd ep). split; [done|]. apply list_elem_of_bind. exists ep. split; [by apply elem_of_cons; left|done].
Qed.

(** The whole multiplexer on a clean path. *)
Lemma mux_serves rw r w : cleanPath (r_path r) = r_path r ->
  mux_ServeHTTP (mounted eps) rw r w =
  match List.find (fun e => under (r_path r) (fst e)) eps with Some e => snd e rw r w | None => (w, NotFound rw) end.
Proof.
  intros Hc. unfold mux_ServeHTTP. rewrite Hc. assert (forall b : bool, (if b then r_path r else r_path r) = r_path r) as -> by by intros [].
  rewrite mounted_no_redirect, bool_decide_true by done. cbn [negb].
  pose proof (mux_mounted (r_path r)) as E. destruct (mux_match _ _) as [[p h]|], (List.find _ _) as [e|]; cbn in E; try done.
  by injection E as ->.
Qed.
End mounted.
