(* ===== verification/Json.v ===== *)
(** * JSON text ([encoding/json], as the compiler and the runtime use it)

    The decoder as a function from text to values: the grammar of RFC 8259, string
    escapes with surrogate pairs, malformed UTF-8 read as U+FFFD.  Numbers keep their
    literal, as the decoder does until it knows the target type.  The nesting limit of
    the library (10000) is left out.

    [layout] prints values the way [json.Marshal] and [json.MarshalIndent] do, which
    differ in the white space between elements. *)
From S2P Require Import Prelude GoStrings GoFloat GoText Lexer OpenApi.

Inductive jvalue :=
| VNull
| VBool (b : bool)
| VNum (lit : string)
| VString (s : string)
| VArr (l : list jvalue)
| VObj (m : list (string * jvalue)).

(** ** Scanning *)
Definition quote : ascii := "034".
Definition is_ws (c : ascii) : bool :=
  Ascii.eqb c " " || Ascii.eqb c "009" || Ascii.eqb c "010" || Ascii.eqb c "013".
Fixpoint skip_ws (s : string) : string :=
  match s with "" => "" | String c s' => if is_ws c then skip_ws s' else s end.

(** *** Numbers *)
Definition is_num_char (c : ascii) : bool :=
  is_digit c || Ascii.eqb c "-" || Ascii.eqb c "+" || Ascii.eqb c "." || Ascii.eqb c "e" || Ascii.eqb c "E".

Definition exp_ok (s : string) : bool :=
  let digits := snd (strip_sign s) in negb (bool_decide (digits = "")) && str_forall is_digit digits.
Definition is_exp (c : ascii) : bool := Ascii.eqb c "e" || Ascii.eqb c "E".
(** After the integer part. *)
Definition frac_ok (s : string) : bool :=
  match s with
  | "" => true
  | String c s' =>
      if Ascii.eqb c "." then
        let '(digits, rest) := span is_digit s' in
        negb (bool_decide (digits = "")) && match rest with "" => true | String e s'' => is_exp e && exp_ok s'' end
      else is_exp c && exp_ok s'
  end.
Definition number_ok (lit : string) : bool :=
  let s := match lit with String c s' => if Ascii.eqb c "-" then s' else lit | "" => "" end in
  let '(digits, rest) := span is_digit s in
  match digits with
  | "" => false
  | String c more => (negb (Ascii.eqb c "0") || bool_decide (more = "")) && frac_ok rest
  end.

(** *** Strings *)
Definition hex_val (c : ascii) : option N :=
  let n := N_of_ascii c in
  if is_digit c then Some (n - 48)%N
  else if (97 <=? n)%N && (n <=? 102)%N then Some (n - 87)%N
  else if (65 <=? n)%N && (n <=? 70)%N then Some (n - 55)%N else None.
Definition hex4 (a b c d : ascii) : option N :=
  match hex_val a, hex_val b, hex_val c, hex_val d with
  | Some x, Some y, Some z, Some w => Some (x * 4096 + y * 256 + z * 16 + w)%N
  | _, _, _, _ => None
  end.

(** [utf8.EncodeRune] *)
Definition utf8 (r : N) : string :=
  let byte n := ascii_of_N n in
  (if r <? 128 then String (byte r) ""
   else if r <? 2048 then String (byte (192 + r / 64)) (String (byte (128 + r mod 64)) "")
   else if r <? 65536 then
     String (byte (224 + r / 4096)) (String (byte (128 + r / 64 mod 64)) (String (byte (128 + r mod 64)) ""))
   else
     String (byte (240 + r / 262144)) (String (byte (128 + r / 4096 mod 64))
       (String (byte (128 + r / 64 mod 64)) (String (byte (128 + r mod 64)) ""))))%N.
Definition replacement : string := utf8 65533.

Definition simple_escape (c : ascii) : option string :=
  if Ascii.eqb c quote || Ascii.eqb c "\" || Ascii.eqb c "/" then Some (String c "")
  else if Ascii.eqb c "b" then Some (String "008" "")
  else if Ascii.eqb c "f" then Some (String "012" "")
  else if Ascii.eqb c "n" then Some (String "010" "")
  else if Ascii.eqb c "r" then Some (String "013" "")
  else if Ascii.eqb c "t" then Some (String "009" "") else None.

Definition is_high (r : N) : bool := (55296 <=? r)%N && (r <? 56320)%N.
Definition is_low (r : N) : bool := (56320 <=? r)%N && (r <? 57344)%N.

Definition prepend (p : string) (r : option (string * string)) : option (string * string) :=
  match r with Some (s, rest) => Some (p +:+ s, rest) | None => None end.

(** The text of a string after its opening quote, and what follows the closing one.
    [skip] counts the bytes of the current UTF-8 sequence that are still to be copied. *)
Fixpoint parse_string (skip : nat) (s : string) : option (string * string) :=
  match s with
  | "" => None
  | String c s' =>
      match skip with
      | S k => prepend (String c "") (parse_string k s')
      | O =>
          if Ascii.eqb c quote then Some ("", s')
          else if Ascii.eqb c "\" then
            match s' with
            | "" => None
            | String e t =>
                if Ascii.eqb e "u" then
                  match t with
                  | String a (String b (String c (String d t'))) =>
                      match hex4 a b c d with
                      | None => None
                      | Some r =>
                          let single := prepend (if is_high r || is_low r then replacement else utf8 r) (parse_string 0 t') in
                          if is_high r then
                            match t' with
                            | String bs (String u (String a2 (String b2 (String c2 (String d2 t''))))) =>
                                if Ascii.eqb bs "\" && Ascii.eqb u "u" then
                                  match hex4 a2 b2 c2 d2 with
                                  | Some r2 =>
                                      if is_low r2
                                      then prepend (utf8 ((r - 55296) * 1024 + (r2 - 56320) + 65536)%N) (parse_string 0 t'')
                                      else single
                                  | None => None
                                  end
                                else single
                            | _ => single
                            end
                          else single
                      end
                  | _ => None
                  end
                else match simple_escape e with Some p => prepend p (parse_string 0 t) | None => None end
            end
          else if (N_of_ascii c <? 32)%N then None
          else if (N_of_ascii c <? 128)%N then prepend (String c "") (parse_string 0 s')
          else match rune_len s with
               | O => prepend replacement (parse_string 0 s')
               | S k => prepend (String c "") (parse_string k s')
               end
      end
  end.

(** *** Values *)
Definition at_char (c : ascii) (s : string) : option string :=
  match s with String d s' => if Ascii.eqb d c then Some s' else None | "" => None end.

Fixpoint parse_value (fuel : nat) (s : string) : option (jvalue * string) :=
  match fuel with
  | O => None
  | S fuel' =>
      match s with
      | "" => None
      | String c s' =>
          if Ascii.eqb c quote then
            match parse_string 0 s' with Some (x, rest) => Some (VString x, rest) | None => None end
          else if Ascii.eqb c "[" then
            match at_char "]" (skip_ws s') with
            | Some rest => Some (VArr [], rest)
            | None => match parse_elems fuel' (skip_ws s') with Some (l, rest) => Some (VArr l, rest) | None => None end
            end
          else if Ascii.eqb c "{" then
            match at_char "}" (skip_ws s') with
            | Some rest => Some (VObj [], rest)
            | None => match parse_members fuel' (skip_ws s') with Some (m, rest) => Some (VObj m, rest) | None => None end
            end
          else if HasPrefix s "true" then Some (VBool true, str_drop 4 s)
          else if HasPrefix s "false" then Some (VBool false, str_drop 5 s)
          else if HasPrefix s "null" then Some (VNull, str_drop 4 s)
          else
            let '(lit, rest) := span is_num_char s in
            if number_ok lit then Some (VNum lit, rest) else None
      end
  end
(** The elements of an array, up to and with the closing bracket. *)
with parse_elems (fuel : nat) (s : string) : option (list jvalue * string) :=
  match fuel with
  | O => None
  | S fuel' =>
      match parse_value fuel' s with
      | None => None
      | Some (v, rest) =>
          match at_char "," (skip_ws rest) with
          | Some rest' =>
              match parse_elems fuel' (skip_ws rest') with Some (l, rest'') => Some (v :: l, rest'') | None => None end
          | None => match at_char "]" (skip_ws rest) with Some rest' => Some ([v], rest') | None => None end
          end
      end
  end
(** The members of an object, up to and with the closing brace. *)
with parse_members (fuel : nat) (s : string) : option (list (string * jvalue) * string) :=
  match fuel with
  | O => None
  | S fuel' =>
      match at_char quote s with
      | None => None
      | Some s' =>
          match parse_string 0 s' with
          | None => None
          | Some (k, rest) =>
              match at_char ":" (skip_ws rest) with
              | None => None
              | Some rest =>
                  match parse_value fuel' (skip_ws rest) with
                  | None => None
                  | Some (v, rest) =>
                      match at_char "," (skip_ws rest) with
                      | Some rest' =>
                          match parse_members fuel' (skip_ws rest') with
                          | Some (m, rest'') => Some ((k, v) :: m, rest'')
                          | None => None
                          end
                      | None => match at_char "}" (skip_ws rest) with Some rest' => Some ([(k, v)], rest') | None => None end
                      end
                  end
              end
          end
      end
  end.

(** A whole text: one value between white space. *)
Definition parse_json (s : string) : option jvalue :=
  match parse_value (2 * S (String.length s)) (skip_ws s) with
  | Some (v, rest) => if bool_decide (skip_ws rest = "") then Some v else None
  | None => None
  end.

(** ** Printing *)
Fixpoint layout (nl : nat -> string) (sp : string) (n : nat) (v : jvalue) : string :=
  match v with
  | VNull => "null"
  | VBool b => if b then "true" else "false"
  | VNum lit => lit
  | VString s => json_quote s
  | VArr [] => "[]"
  | VArr l => "[" +:+ nl (n + 2)%nat +:+ Join (List.map (layout nl sp (n + 2)) l) ("," +:+ nl (n + 2)%nat) +:+ nl n +:+ "]"
  | VObj [] => "{}"
  | VObj m =>
      "{" +:+ nl (n + 2)%nat +:+
      Join (List.map (fun kv => json_quote (fst kv) +:+ ":" +:+ sp +:+ layout nl sp (n + 2) (snd kv)) m) ("," +:+ nl (n + 2)%nat)
      +:+ nl n +:+ "}"
  end.
(** [json.Marshal] and [json.MarshalIndent(v, _, two blanks)] of a value whose keys are
    in order. *)
Definition marshal_compact : jvalue -> string := layout (fun _ => "") "" 0.
Definition marshal_indent : jvalue -> string := layout (fun n => String "010" (spaces n)) " " 0.

(** ** The text of a value is read back *)
Definition is_ascii (c : ascii) : bool := (N_of_ascii c <? 128)%N.
Abbreviation ascii_text := (str_forall is_ascii).

Fixpoint printable (v : jvalue) : bool :=
  match v with
  | VNull | VBool _ => true
  | VNum lit => str_forall is_num_char lit && number_ok lit
  | VString s => ascii_text s
  | VArr l => forallb printable l
  | VObj m => forallb (fun kv => ascii_text (fst kv) && printable (snd kv)) m
  end.

(** Induction over values. *)
Lemma jvalue_rect' (P : jvalue -> Prop) :
  P VNull -> (forall b, P (VBool b)) -> (forall l, P (VNum l)) -> (forall s, P (VString s)) ->
  (forall l, Forall P l -> P (VArr l)) -> (forall m, Forall (fun kv => P (snd kv)) m -> P (VObj m)) ->
  forall v, P v.
Proof.
  intros H1 H2 H3 H4 H5 H6. fix IH 1. intros [|b|l|s|l|m]; [done|by apply H2|by apply H3|by apply H4| |].
  - apply H5. induction l as [|v l IHl]; constructor; [apply IH|exact IHl].
  - apply H6. induction m as [|[k v] m IHm]; constructor; [apply IH|exact IHm].
Qed.

(** *** Strings *)
Lemma parse_escape c t : is_ascii c = true ->
  parse_string 0 (escape_ascii c +:+ t) = prepend (String c "") (parse_string 0 t).
Proof. destruct c as [[] [] [] [] [] [] [] []]; intros H; try discriminate H; reflexivity. Qed.

Lemma escape_ascii_go s : ascii_text s = true ->
  escape_go 0 s = match s with "" => "" | String c s' => escape_ascii c +:+ escape_go 0 s' end.
Proof. destruct s as [|c s]; [done|]. cbn. intros [Hc _]%andb_true_iff. unfold is_ascii in Hc. by rewrite Hc. Qed.

Lemma parse_string_escape s rest : ascii_text s = true ->
  parse_string 0 (escape_go 0 s +:+ String quote rest) = Some (s, rest).
Proof.
  induction s as [|c s IH]; intros Hs; [reflexivity|]. rewrite escape_ascii_go by done.
  cbn in Hs. apply andb_true_iff in Hs as [Hc Hs].
  rewrite str_app_assoc, parse_escape by done. rewrite IH by done. done.
Qed.

Lemma json_quote_eq s : json_quote s = String quote (escape_go 0 s +:+ String quote "").
Proof. reflexivity. Qed.

(** *** Values *)
Lemma skip_ws_app w s : str_forall is_ws w = true -> skip_ws (w +:+ s) = skip_ws s.
Proof. induction w as [|c w IH]; [done|]. cbn. intros [-> Hw]%andb_true_iff. by apply IH. Qed.

(** What starts a value or ends one is not white space. *)
Definition starts (s : string) : Prop := match s with "" => True | String c _ => is_ws c = false end.
Lemma skip_ws_starts s : starts s -> skip_ws s = s.
Proof. destruct s as [|c s]; [done|]. cbn. by intros ->. Qed.

(** What may follow a value: not the continuation of a number. *)
Definition stops (s : string) : Prop := match s with "" => True | String c _ => is_num_char c = false end.

Lemma HasPrefix_head c s d p : c <> d -> HasPrefix (String c s) (String d p) = false.
Proof.
  intros Hne. apply not_true_iff_false. rewrite HasPrefix_iff. intros [r E]. by injection E.
Qed.

Lemma number_first c rest : is_num_char c = true ->
  is_ws c = false /\ Ascii.eqb c quote = false /\ Ascii.eqb c "[" = false /\ Ascii.eqb c "{" = false /\
  HasPrefix (String c rest) "true" = false /\ HasPrefix (String c rest) "false" = false /\ HasPrefix (String c rest) "null" = false.
Proof.
  intros Hc. rewrite !HasPrefix_head; [|intros ->; discriminate Hc..].
  destruct c as [[] [] [] [] [] [] [] []]; try discriminate Hc; done.
Qed.

Section roundtrip.
Context (nl : nat -> string) (sp : string).
Hypothesis nl_ws : forall n, str_forall is_ws (nl n) = true.
Hypothesis sp_ws : str_forall is_ws sp = true.

Abbreviation lay := (layout nl sp).

Lemma parse_quoted s rest : ascii_text s = true ->
  exists t, json_quote s +:+ rest = String quote t /\ parse_string 0 t = Some (s, rest).
Proof.
  intros Hs. exists (escape_go 0 s +:+ String quote rest). split; [|by apply parse_string_escape].
  rewrite json_quote_eq. cbn [String.append]. by rewrite str_app_assoc.
Qed.

(** A printed value starts with a character that is not white space. *)
Lemma layout_starts v n rest : printable v = true -> starts (lay n v +:+ rest) /\ lay n v <> "".
Proof.
  destruct v as [|[]|lit|s|[|v l]|[|kv m]]; try (cbn; done).
  cbn [printable layout]. intros [Hl Hn]%andb_true_iff. destruct lit as [|c lit]; [done|].
  cbn in Hl. apply andb_true_iff in Hl as [Hc _]. split; [|done]. cbn. by destruct (number_first c "" Hc).
Qed.

Lemma parse_number fuel lit rest : str_forall is_num_char lit = true -> number_ok lit = true -> stops rest ->
  parse_value (S fuel) (lit +:+ rest) = Some (VNum lit, rest).
Proof.
  intros Hl Hn Hr. destruct lit as [|c lit]; [done|].
  assert (Hc := Hl). cbn in Hc. apply andb_true_iff in Hc as [Hc _].
  destruct (number_first c (lit +:+ rest) Hc) as (_ & E1 & E2 & E3 & E4 & E5 & E6).
  change (String c lit +:+ rest) with (String c (lit +:+ rest)).
  cbn [parse_value]. rewrite E1, E2, E3, E4, E5, E6.
  change (String c (lit +:+ rest)) with (String c lit +:+ rest).
  rewrite span_all, Hn; [done|done|]. destruct rest as [|d rest]; [by left|right; eauto].
Qed.

Lemma at_char_here c s : at_char c (String c s) = Some s.
Proof. cbn. by rewrite Ascii.eqb_refl. Qed.

(** The depth of calls a value needs. *)
Fixpoint need (v : jvalue) : nat :=
  match v with
  | VArr l => S (foldr (fun v n => S (Nat.max (need v) n)) 1 l)
  | VObj m => S (foldr (fun kv n => S (Nat.max (need (snd kv)) n)) 1 m)
  | _ => 1
  end%nat.

Definition reads (v : jvalue) : Prop := forall n fuel rest,
  printable v = true -> (need v <= fuel)%nat -> stops rest -> parse_value fuel (lay n v +:+ rest) = Some (v, rest).

(** After an element: the separator and the next elements, or the closing bracket. *)
Lemma elems_ok n v l fuel rest : Forall reads (v :: l) -> forallb printable (v :: l) = true ->
  (foldr (fun v n => S (Nat.max (need v) n)) 1 (v :: l) <= fuel)%nat ->
  parse_elems fuel (Join (List.map (lay (n + 2)) (v :: l)) ("," +:+ nl (n + 2)%nat) +:+ nl n +:+ "]" +:+ rest) = Some (v :: l, rest).
Proof.
  revert v fuel. induction l as [|v' l IH]; intros v fuel HF Hp Hf; apply Forall_cons in HF as [Hv HF];
    cbn [forallb] in Hp; apply andb_true_iff in Hp as [Hpv Hp]; cbn [foldr] in Hf; destruct fuel as [|fuel]; try lia.
  - cbn [List.map Join parse_elems]. rewrite Hv; [|done|lia|].
    + rewrite skip_ws_app by done. cbn. done.
    + pose proof (nl_ws n) as Hw. destruct (nl n) as [|c w]; [done|]. cbn in Hw |- *.
      apply andb_true_iff in Hw as [Hw _]. clear -Hw. by destruct c as [[] [] [] [] [] [] [] []].
  - change (Join (List.map (lay (n + 2)) (v :: v' :: l)) ("," +:+ nl (n + 2)%nat))
      with (lay (n + 2) v +:+ (("," +:+ nl (n + 2)%nat) +:+ Join (List.map (lay (n + 2)) (v' :: l)) ("," +:+ nl (n + 2)%nat))).
    rewrite !str_app_assoc. cbn [parse_elems]. rewrite Hv; [|done|lia|done].
    cbn [String.append skip_ws]. change (is_ws ",") with false. cbn iota. rewrite at_char_here.
    rewrite skip_ws_app by done. rewrite skip_ws_starts.
    + rewrite IH; [done|done|done|]. cbn [foldr] in *. lia.
    + cbn [forallb] in Hp. apply andb_true_iff in Hp as [Hpv' _].
      destruct l; cbn [List.map Join]; rewrite ?str_app_assoc; by apply layout_starts.
Qed.

Abbreviation entry n := (fun kv : string * jvalue => json_quote (fst kv) +:+ ":" +:+ sp +:+ lay (n + 2) (snd kv)).

Lemma members_ok n kv m fuel rest : Forall (fun kv => reads (snd kv)) (kv :: m) ->
  forallb (fun kv => ascii_text (fst kv) && printable (snd kv)) (kv :: m) = true ->
  (foldr (fun kv n => S (Nat.max (need (snd kv)) n)) 1 (kv :: m) <= fuel)%nat ->
  parse_members fuel (Join (List.map (entry n) (kv :: m)) ("," +:+ nl (n + 2)%nat) +:+ nl n +:+ "}" +:+ rest) = Some (kv :: m, rest).
Proof.
  revert kv fuel. induction m as [|kv' m IH]; intros [k v] fuel HF Hp Hf; apply Forall_cons in HF as [Hv HF];
    cbn [forallb] in Hp; apply andb_true_iff in Hp as [[Hk Hpv]%andb_true_iff Hp]; cbn [foldr] in Hf; destruct fuel as [|fuel]; try lia;
    cbn [fst snd] in *.
  - cbn [List.map Join fst snd]. rewrite !str_app_assoc.
    destruct (parse_quoted k (":" +:+ sp +:+ lay (n + 2) v +:+ nl n +:+ "}" +:+ rest) Hk) as (t & -> & Et).
    cbn [parse_members]. rewrite at_char_here, Et. cbn [String.append skip_ws]. change (is_ws ":") with false. cbn iota.
    rewrite at_char_here, skip_ws_app by done. rewrite skip_ws_starts by (by apply layout_starts).
    rewrite Hv; [|done|lia|].
    + rewrite skip_ws_app by done. cbn. done.
    + pose proof (nl_ws n) as Hw. destruct (nl n) as [|c w]; [done|]. cbn in Hw |- *.
      apply andb_true_iff in Hw as [Hw _]. clear -Hw. by destruct c as [[] [] [] [] [] [] [] []].
  - change (Join (List.map (entry n) ((k, v) :: kv' :: m)) ("," +:+ nl (n + 2)%nat))
      with (entry n (k, v) +:+ (("," +:+ nl (n + 2)%nat) +:+ Join (List.map (entry n) (kv' :: m)) ("," +:+ nl (n + 2)%nat))).
    cbn [fst snd]. rewrite !str_app_assoc.
    match goal with |- parse_members _ (json_quote k +:+ ?tl) = _ => destruct (parse_quoted k tl Hk) as (t & -> & Et) end.
    cbn [parse_members]. rewrite at_char_here, Et. cbn [String.append skip_ws]. change (is_ws ":") with false. cbn iota.
    rewrite at_char_here, skip_ws_app by done. rewrite skip_ws_starts by (by apply layout_starts).
    rewrite Hv; [|done|lia|done]. cbn [skip_ws]. change (is_ws ",") with false. cbn iota. rewrite at_char_here.
    rewrite skip_ws_app by done. rewrite skip_ws_starts.
    + change (":" +:+ ?x) with (String ":" x) in IH. rewrite IH; [done|done|done|]. cbn [foldr] in *. lia.
    + destruct m; cbn [List.map Join]; rewrite ?json_quote_eq; cbn; done.
Qed.

(** A printed value does not start with a closing bracket. *)
Lemma layout_no_close c v n t : c = "]"%char \/ c = "}"%char -> printable v = true -> at_char c (lay n v +:+ t) = None.
Proof.
  intros Hc. destruct v as [|[]|lit|s|[|v l]|[|kv m]]; try (destruct Hc as [-> | ->]; done).
  cbn [printable layout]. intros [Hl Hn]%andb_true_iff. destruct lit as [|d lit]; [done|].
  cbn in Hl |- *. apply andb_true_iff in Hl as [Hd _].
  destruct (Ascii.eqb_spec d c) as [->|]; [|done]. destruct Hc as [-> | ->]; discriminate Hd.
Qed.

Lemma HasPrefix_app p s : HasPrefix (p +:+ s) p = true.
Proof. apply HasPrefix_iff. by exists s. Qed.

Lemma layout_reads v : reads v.
Proof.
  induction v as [|b|lit|s|l IH|m IH] using jvalue_rect'; intros n fuel rest Hp Hf Hs; (destruct fuel as [|fuel]; [cbn in Hf; lia|]).
  - cbn [layout]. change ("null" +:+ rest) with (String "n" ("ull" +:+ rest)). cbn [parse_value].
    rewrite 2!HasPrefix_head by done. change (String "n" ("ull" +:+ rest)) with ("null" +:+ rest). by rewrite HasPrefix_app.
  - destruct b; cbn [layout].
    + change ("true" +:+ rest) with (String "t" ("rue" +:+ rest)). cbn [parse_value].
      change (String "t" ("rue" +:+ rest)) with ("true" +:+ rest). by rewrite HasPrefix_app.
    + change ("false" +:+ rest) with (String "f" ("alse" +:+ rest)). cbn [parse_value].
      rewrite HasPrefix_head by done. change (String "f" ("alse" +:+ rest)) with ("false" +:+ rest). by rewrite HasPrefix_app.
  - cbn [printable] in Hp. apply andb_true_iff in Hp as [Hl Hn]. by apply parse_number.
  - cbn [layout printable] in *. destruct (parse_quoted s rest Hp) as (t & -> & Et). cbn [parse_value].
    rewrite Ascii.eqb_refl. by rewrite Et.
  - destruct l as [|v l]; [done|]. cbn [layout need] in *.
    set (body := Join _ _). rewrite !str_app_assoc. cbn [String.append parse_value].
    change (Ascii.eqb "[" quote) with false. change (Ascii.eqb "[" "[") with true. cbn iota.
    assert (exists t, body +:+ nl n +:+ String "]" rest = lay (n + 2) v +:+ t) as [t Et].
    { unfold body. destruct l; cbn [List.map Join]; rewrite ?str_app_assoc; eauto. }
    assert (Hpv : printable v = true) by (cbn in Hp; by apply andb_true_iff in Hp as [? _]).
    rewrite skip_ws_app, skip_ws_starts by (done || (rewrite Et; by apply layout_starts)).
    rewrite Et, layout_no_close, <- Et by auto. change (String "]" rest) with ("]" +:+ rest).
    unfold body. rewrite elems_ok; [done|done|done|lia].
  - destruct m as [|[k v] m]; [done|]. cbn [layout need] in *.
    set (body := Join _ _). rewrite !str_app_assoc. cbn [String.append parse_value].
    change (Ascii.eqb "{" quote) with false. change (Ascii.eqb "{" "[") with false. change (Ascii.eqb "{" "{") with true. cbn iota.
    assert (exists t, body +:+ nl n +:+ String "}" rest = String quote t) as [t Et].
    { unfold body. destruct m; cbn [List.map Join fst snd]; rewrite json_quote_eq; cbn; eauto. }
    rewrite skip_ws_app, skip_ws_starts by (done || (rewrite Et; done)).
    assert (at_char "}" (body +:+ nl n +:+ String "}" rest) = None) as -> by (by rewrite Et).
    change (String "}" rest) with ("}" +:+ rest). unfold body. rewrite members_ok; [done|done|done|lia].
Qed.

Lemma need_join {A} (f : A -> string) (g : A -> nat) l sep :
  (1 <= String.length sep)%nat -> Forall (fun a => (1 <= g a <= 2 * String.length (f a))%nat) l ->
  (foldr (fun a n => S (Nat.max (g a) n)) 1 l <= 2 * String.length (Join (List.map f l) sep) + 1)%nat.
Proof.
  intros Hsep. induction 1 as [|a l Ha _ IH]; [done|]. destruct l as [|b l].
  - cbn in *. lia.
  - change (Join (List.map f (a :: b :: l)) sep) with (f a +:+ (sep +:+ Join (List.map f (b :: l)) sep)).
    rewrite !str_length_app. change (foldr _ _ (a :: b :: l)) with (S (Nat.max (g a) (foldr (fun a n => S (Nat.max (g a) n)) 1%nat (b :: l)))).
    lia.
Qed.

Lemma need_pos v : (1 <= need v)%nat.
Proof. destruct v; cbn; lia. Qed.

(** The fuel of [parse_json] is enough: a value needs at most two calls per character. *)
Lemma need_layout v n : printable v = true -> (need v <= 2 * String.length (lay n v))%nat.
Proof.
  revert n. induction v as [|b|lit|s|l IH|m IH] using jvalue_rect'; intros n Hp.
  - cbn. lia.
  - destruct b; cbn; lia.
  - destruct lit; [done|cbn; lia].
  - cbn [need layout]. rewrite json_quote_eq. cbn. lia.
  - destruct l as [|v l]; [cbn; lia|]. cbn [layout need]. rewrite !str_length_app.
    pose proof (need_join (lay (n + 2)) need (v :: l) ("," +:+ nl (n + 2)%nat) ltac:(cbn; lia)) as HJ.
    cbn [String.length] in *. enough (Forall (fun a => 1 <= need a <= 2 * String.length (lay (n + 2) a))%nat (v :: l)) as HF by (specialize (HJ HF); lia).
    cbn [printable] in Hp. rewrite forallb_True_iff in Hp. rewrite Forall_forall in IH |- *.
    intros a Ha. split; [apply need_pos|]. by apply IH, Hp.
  - destruct m as [|kv m]; [cbn; lia|]. cbn [layout need]. rewrite !str_length_app.
    pose proof (need_join (entry n) (fun kv => need (snd kv)) (kv :: m) ("," +:+ nl (n + 2)%nat) ltac:(cbn; lia)) as HJ.
    cbn [String.length] in *.
    enough (Forall (fun kv => 1 <= need (snd kv) <= 2 * String.length (entry n kv))%nat (kv :: m)) as HF by (specialize (HJ HF); lia).
    cbn [printable] in Hp. rewrite forallb_True_iff in Hp. rewrite Forall_forall in IH |- *.
    intros a Ha. split; [apply need_pos|]. specialize (Hp a Ha). apply andb_true_iff in Hp as [_ Hp].
    specialize (IH a Ha (n + 2)%nat Hp). rewrite !str_length_app. lia.
Qed.

Lemma parse_layout_ws v n ws : printable v = true -> str_forall is_ws ws = true -> parse_json (lay n v +:+ ws) = Some v.
Proof.
  intros Hp Hw. unfold parse_json. destruct (layout_starts v n ws Hp) as [Hs _].
  rewrite skip_ws_starts, layout_reads; [|done| | |done].
  - pose proof (skip_ws_app ws "" Hw) as E. rewrite str_app_nil_r in E. by rewrite E.
  - pose proof (need_layout v n Hp). rewrite str_length_app. lia.
  - destruct ws as [|c ws]; [done|]. cbn in *. apply andb_true_iff in Hw as [Hc _].
    by destruct c as [[] [] [] [] [] [] [] []].
Qed.

Lemma parse_layout v n : printable v = true -> parse_json (lay n v) = Some v.
Proof. intros Hp. rewrite <- (str_app_nil_r (lay n v)). by apply parse_layout_ws. Qed.
End roundtrip.

Lemma spaces_ws n : str_forall is_ws (spaces n) = true.
Proof. by induction n. Qed.

Lemma parse_compact v : printable v = true -> parse_json (marshal_compact v) = Some v.
Proof. by apply parse_layout. Qed.

Lemma parse_indent v : printable v = true -> parse_json (marshal_indent v) = Some v.
Proof. apply parse_layout; [|done]. intros n. cbn. apply spaces_ws. Qed.

(** The encoder ends the text with a newline. *)
Lemma parse_encoded v : printable v = true -> parse_json (marshal_compact v +:+ String "010" "") = Some v.
Proof. intros Hp. by apply parse_layout_ws. Qed.

(** *** Integers *)

(** Decimal numbers have no leading zero. *)
Lemma itoa_go_head fuel n acc : 0 < n < 10 ^ Z.of_nat fuel ->
  exists c s, itoa_go fuel n acc = String c s /\ Ascii.eqb c "0" = false.
Proof.
  revert n acc. induction fuel as [|f IH]; intros n acc [Hn Hf]; [cbn in Hf; lia|]. cbn [itoa_go].
  destruct (Z.ltb_spec n 10).
  - rewrite Z.mod_small by lia. eexists _, _. split; [done|].
    assert (n = 1 \/ n = 2 \/ n = 3 \/ n = 4 \/ n = 5 \/ n = 6 \/ n = 7 \/ n = 8 \/ n = 9) as Hc by lia.
    by destruct Hc as [->|[->|[->|[->|[->|[->|[->|[->| ->]]]]]]]].
  - apply IH. rewrite Nat2Z.inj_succ, Z.pow_succ_r in Hf by lia. split; [apply Z.div_str_pos; lia|].
    apply Z.div_lt_upper_bound; lia.
Qed.

Lemma digits_number_ok s : str_forall is_digit s = true -> (s = "0" \/ exists c s', s = String c s' /\ Ascii.eqb c "0" = false) ->
  number_ok s = true /\ number_ok (String "-" s) = true.
Proof.
  intros Hd Hs.
  assert (span is_digit s = (s, "")) as Hsp.
  { rewrite <- (str_app_nil_r s) at 1. apply span_all; [done|by left]. }
  assert (forall c s', s = String c s' -> Ascii.eqb c "-" = false) as Hm.
  { intros c s' ->. cbn in Hd. apply andb_true_iff in Hd as [Hd _]. by destruct c as [[] [] [] [] [] [] [] []]. }
  split.
  - unfold number_ok. destruct Hs as [->|(c & s' & -> & Hc)]; [done|]. rewrite (Hm c s' eq_refl), Hsp, Hc. done.
  - unfold number_ok. change (Ascii.eqb "-" "-") with true. cbn iota. rewrite Hsp.
    destruct Hs as [->|(c & s' & -> & Hc)]; [done|]. by rewrite Hc.
Qed.

Lemma number_Itoa z : printable (VNum (Itoa z)) = true.
Proof.
  assert (forall n, 0 <= n -> str_forall is_num_char (Itoa n) = true) as Hn.
  { intros n Hn. apply (str_forall_impl is_digit); [|by apply Itoa_digits]. intros c Hc. unfold is_num_char. by rewrite Hc. }
  assert (forall n, 0 <= n -> Itoa n = "0" \/ exists c s', Itoa n = String c s' /\ Ascii.eqb c "0" = false) as Hh.
  { intros n H0. destruct (decide (n = 0)) as [->|]; [by left|right].
    rewrite Itoa_nonneg by done. apply itoa_go_head. split; [lia|]. by apply itoa_fuel. }
  cbn [printable]. apply andb_true_iff. destruct (Z.lt_ge_cases z 0) as [Hz|Hz].
  - rewrite Itoa_neg by done. split; [cbn; by apply Hn; lia|].
    apply (digits_number_ok (Itoa (- z))); [apply Itoa_digits; lia|apply Hh; lia].
  - split; [by apply Hn|]. apply (digits_number_ok (Itoa z)); [by apply Itoa_digits|by apply Hh].
Qed.

(** ** The fuel decides nothing

    Every call consumes input, so with two calls per character the decoder gives its
    final answer: more fuel does not change it. *)
Abbreviation len := String.length.

Lemma skip_ws_len s : (len (skip_ws s) <= len s)%nat.
Proof. induction s as [|c s IH]; [done|]. cbn. destruct (is_ws c); cbn; lia. Qed.
Lemma at_char_len c s t : at_char c s = Some t -> (len s = S (len t))%nat.
Proof. destruct s as [|d s]; [done|]. cbn. destruct (Ascii.eqb d c); intros [= <-]. done. Qed.
Lemma prepend_len p r s rest : prepend p r = Some (s, rest) -> exists s', r = Some (s', rest).
Proof. destruct r as [[s' rest']|]; cbn; [|done]. intros [= _ <-]. eauto. Qed.

Lemma parse_string_len s : forall skip x rest, parse_string skip s = Some (x, rest) -> (len rest < len s)%nat.
Proof.
  assert (forall n s, (len s < n)%nat -> forall skip x rest, parse_string skip s = Some (x, rest) -> (len rest < len s)%nat) as H;
    [|intros skip x rest; apply (H (S (len s)) s); lia].
  intros n. induction n as [|n IH]; intros t Hn skip x rest; [lia|]. destruct t as [|c t]; [done|]. cbn in Hn.
  assert (forall k p x rest t', (len t' <= len t)%nat -> prepend p (parse_string k t') = Some (x, rest) -> (len rest < S (len t))%nat) as HP.
  { intros k p x0 rest0 t' Ht' E. apply prepend_len in E as [s' E]. apply IH in E; lia. }
  cbn [parse_string len]. destruct skip as [|k]; [|by apply HP].
  destruct (Ascii.eqb c quote); [intros [= _ <-]; lia|]. destruct (Ascii.eqb c "\").
  - destruct t as [|e t]; [done|]. destruct (Ascii.eqb e "u").
    + destruct t as [|h1 [|h2 [|h3 [|h4 t']]]]; try done. destruct (hex4 h1 h2 h3 h4) as [r|]; [|done]. cbv zeta.
      destruct (is_high r); [|apply HP; cbn; lia].
      destruct t' as [|bs [|u [|h5 [|h6 [|h7 [|h8 t'']]]]]]; try (apply HP; cbn; lia).
      destruct (_ && _); [|apply HP; cbn; lia]. destruct (hex4 h5 h6 h7 h8) as [r2|]; [|done].
      destruct (is_low r2); apply HP; cbn; lia.
    + destruct (simple_escape e); [apply HP; cbn; lia|done].
  - destruct (_ <? 32)%N; [done|]. destruct (_ <? 128)%N; [by apply HP|]. destruct (rune_len _); by apply HP.
Qed.

Lemma parse_len fuel :
  (forall s v rest, parse_value fuel s = Some (v, rest) -> (len rest < len s)%nat) /\
  (forall s l rest, parse_elems fuel s = Some (l, rest) -> (len rest < len s)%nat) /\
  (forall s m rest, parse_members fuel s = Some (m, rest) -> (len rest < len s)%nat).
Proof.
  induction fuel as [|fuel (IHv & IHe & IHm)]; [done|]. split_and!; intros s x rest; cbn [parse_value parse_elems parse_members].
  - destruct s as [|c s]; [done|]. pose proof (skip_ws_len s) as Hws. cbn [len].
    destruct (Ascii.eqb c quote).
    { destruct (parse_string 0 s) as [[y r]|] eqn:E; [|done]. intros [= _ <-]. apply parse_string_len in E. lia. }
    destruct (Ascii.eqb c "[").
    { destruct (at_char "]" (skip_ws s)) as [r|] eqn:E; [intros [= _ <-]; apply at_char_len in E; lia|].
      destruct (parse_elems fuel (skip_ws s)) as [[y r]|] eqn:E'; [|done]. intros [= _ <-]. apply IHe in E'. lia. }
    destruct (Ascii.eqb c "{").
    { destruct (at_char "}" (skip_ws s)) as [r|] eqn:E; [intros [= _ <-]; apply at_char_len in E; lia|].
      destruct (parse_members fuel (skip_ws s)) as [[y r]|] eqn:E'; [|done]. intros [= _ <-]. apply IHm in E'. lia. }
    assert (forall n v, Some (v, str_drop (S n) (String c s)) = Some (x, rest) -> (len rest < S (len s))%nat) as Hd.
    { intros n v E. assert (rest = str_drop (S n) (String c s)) as -> by congruence. rewrite str_drop_length. cbn. lia. }
    destruct (HasPrefix _ "true"); [apply Hd|].
    destruct (HasPrefix _ "false"); [apply Hd|].
    destruct (HasPrefix _ "null"); [apply Hd|].
    pose proof (span_app is_num_char (String c s)) as Hsp. destruct (span is_num_char (String c s)) as [lit r].
    destruct (number_ok lit) eqn:En; [|done]. intros [= _ <-]. cbn [fst snd] in Hsp.
    apply (f_equal len) in Hsp. rewrite str_length_app in Hsp. cbn [len] in Hsp. destruct lit; [done|]. cbn in Hsp. lia.
  - destruct (parse_value fuel s) as [[v r]|] eqn:E; [|done]. apply IHv in E. pose proof (skip_ws_len r).
    destruct (at_char "," (skip_ws r)) as [r'|] eqn:E1.
    + apply at_char_len in E1. pose proof (skip_ws_len r').
      destruct (parse_elems fuel (skip_ws r')) as [[l r'']|] eqn:E2; [|done]. intros [= _ <-]. apply IHe in E2. lia.
    + destruct (at_char "]" (skip_ws r)) as [r'|] eqn:E2; [|done]. intros [= _ <-]. apply at_char_len in E2. lia.
  - destruct (at_char quote s) as [s1|] eqn:E0; [|done]. apply at_char_len in E0.
    destruct (parse_string 0 s1) as [[k s2]|] eqn:E1; [|done]. apply parse_string_len in E1. pose proof (skip_ws_len s2).
    destruct (at_char ":" (skip_ws s2)) as [s3|] eqn:E2; [|done]. apply at_char_len in E2. pose proof (skip_ws_len s3).
    destruct (parse_value fuel (skip_ws s3)) as [[v r]|] eqn:E; [|done]. apply IHv in E. pose proof (skip_ws_len r).
    destruct (at_char "," (skip_ws r)) as [r'|] eqn:E3.
    + apply at_char_len in E3. pose proof (skip_ws_len r').
      destruct (parse_members fuel (skip_ws r')) as [[l r'']|] eqn:E4; [|done]. intros [= _ <-]. apply IHm in E4. lia.
    + destruct (at_char "}" (skip_ws r)) as [r'|] eqn:E4; [|done]. intros [= _ <-]. apply at_char_len in E4. lia.
Qed.

Lemma parse_fuel fuel : forall fuel',
  (forall s, (2 * len s < fuel)%nat -> (2 * len s < fuel')%nat -> parse_value fuel s = parse_value fuel' s) /\
  (forall s, (2 * len s + 1 < fuel)%nat -> (2 * len s + 1 < fuel')%nat -> parse_elems fuel s = parse_elems fuel' s) /\
  (forall s, (2 * len s + 1 < fuel)%nat -> (2 * len s + 1 < fuel')%nat -> parse_members fuel s = parse_members fuel' s).
Proof.
  induction fuel as [|fuel IH]; intros fuel'; [split_and!; intros; lia|].
  destruct fuel' as [|fuel']; [split_and!; intros; lia|]. destruct (IH fuel') as (IHv & IHe & IHm).
  split_and!; intros s H1 H2; cbn [parse_value parse_elems parse_members].
  - destruct s as [|c s]; [done|]. pose proof (skip_ws_len s) as Hws. cbn [len] in *.
    destruct (Ascii.eqb c quote); [done|]. destruct (Ascii.eqb c "["); [rewrite IHe by lia; done|].
    destruct (Ascii.eqb c "{"); [rewrite IHm by lia; done|]. done.
  - rewrite <- IHv by lia. destruct (parse_value fuel s) as [[v r]|] eqn:E; [|done].
    apply (proj1 (parse_len fuel)) in E. pose proof (skip_ws_len r).
    destruct (at_char "," (skip_ws r)) as [r'|] eqn:E1; [|done]. apply at_char_len in E1. pose proof (skip_ws_len r').
    rewrite IHe by lia. done.
  - destruct (at_char quote s) as [s1|] eqn:E0; [|done]. apply at_char_len in E0.
    destruct (parse_string 0 s1) as [[k s2]|] eqn:E1; [|done]. apply parse_string_len in E1. pose proof (skip_ws_len s2).
    destruct (at_char ":" (skip_ws s2)) as [s3|] eqn:E2; [|done]. apply at_char_len in E2. pose proof (skip_ws_len s3).
    rewrite <- IHv by lia. destruct (parse_value fuel (skip_ws s3)) as [[v r]|] eqn:E; [|done].
    apply (proj1 (parse_len fuel)) in E. pose proof (skip_ws_len r).
    destruct (at_char "," (skip_ws r)) as [r'|] eqn:E3; [|done]. apply at_char_len in E3. pose proof (skip_ws_len r').
    rewrite IHm by lia. done.
Qed.

(** With any larger fuel the decoder gives the same answer. *)
Lemma parse_json_fuel s fuel : (2 * S (len s) <= fuel)%nat ->
  parse_json s = match parse_value fuel (skip_ws s) with
                 | Some (v, rest) => if bool_decide (skip_ws rest = "") then Some v else None
                 | None => None
                 end.
Proof.
  intros Hf. unfold parse_json. pose proof (skip_ws_len s).
  by rewrite (proj1 (parse_fuel (2 * S (len s)) fuel) (skip_ws s)) by lia.
Qed.
