(* ===== verification/OpenApiText.v ===== *)
(** * The text of the OpenAPI document

    [GenerateOpenAPI] prints the document of [OpenApi] as JSON; here its text is read
    with the decoder of [Json], and what stands in it is compared with what the schema
    declares, with the member names written out. *)
From S2P Require Import Prelude GoStrings Ast ProtoParser Checker GoText OpenApi Json.

(** ** OpenAPI documents *)
Fixpoint insert_entry (kv : string * jvalue) (l : list (string * jvalue)) : list (string * jvalue) :=
  match l with
  | [] => [kv]
  | kv' :: l' => if String.leb (fst kv) (fst kv') then kv :: l else kv' :: insert_entry kv l'
  end.
(** A document as it is printed: the keys of every object in byte order. *)
Fixpoint canonical (j : json) : jvalue :=
  match j with
  | JStr s => VString s
  | JBool b => VBool b
  | JArr l => VArr (List.map canonical l)
  | JObj m => VObj (foldr insert_entry [] (List.map (fun kv => (fst kv, canonical (snd kv))) m))
  end.

Fixpoint ascii_doc (j : json) : bool :=
  match j with
  | JStr s => ascii_text s
  | JBool _ => true
  | JArr l => forallb ascii_doc l
  | JObj m => forallb (fun kv => ascii_text (fst kv) && ascii_doc (snd kv)) m
  end.

Lemma json_ind' (P : json -> Prop) :
  (forall s, P (JStr s)) -> (forall b, P (JBool b)) -> (forall l, Forall P l -> P (JArr l)) ->
  (forall m, Forall (fun kv => P (snd kv)) m -> P (JObj m)) -> forall j, P j.
Proof.
  intros H1 H2 H3 H4. fix IH 1. intros [s|b|l|m]; [done|done| |].
  - apply H3. induction l as [|v l IHl]; constructor; [apply IH|exact IHl].
  - apply H4. induction m as [|[k v] m IHm]; constructor; [apply IH|exact IHm].
Qed.

Section sorting.
Context (g : jvalue -> text).
Abbreviation named := (fun kv : string * jvalue => (fst kv, g (snd kv))).
Lemma insert_entry_map kv l : List.map named (insert_entry kv l) = insert_key (named kv) (List.map named l).
Proof. induction l as [|kv' l IH]; [done|]. cbn. destruct (String.leb _ _); [done|]. cbn. by rewrite IH. Qed.
Lemma sort_entries_map l : List.map named (foldr insert_entry [] l) = sort_keys (List.map named l).
Proof. induction l as [|kv l IH]; [done|]. cbn [foldr List.map]. rewrite insert_entry_map, IH. done. Qed.
End sorting.

Lemma elem_of_insert_entry kv kv' l : kv ∈ insert_entry kv' l <-> kv = kv' \/ kv ∈ l.
Proof.
  induction l as [|kv0 l IH]; cbn; [set_solver|]. destruct (String.leb _ _); [set_solver|].
  rewrite elem_of_cons, IH, elem_of_cons. naive_solver.
Qed.
Lemma elem_of_sorted kv l : kv ∈ foldr insert_entry [] l <-> kv ∈ l.
Proof. induction l as [|kv' l IH]; [done|]. cbn. rewrite elem_of_insert_entry, IH, elem_of_cons. done. Qed.

(** The printer of the generator is the indented layout of the canonical document. *)
Lemma marshal_layout j n : marshal n j = layout (fun n => String "010" (spaces n)) " " n (canonical j).
Proof.
  revert n. induction j as [s|b|l IH|m IH] using json_ind'; intros n; [done|done| |].
  - destruct l as [|j l]; [done|]. cbn [marshal canonical List.map]. cbn [layout].
    assert (List.map (marshal (n + 2)) (j :: l)
      = List.map (layout (fun n => String "010" (spaces n)) " " (n + 2)) (canonical j :: List.map canonical l)) as E.
    { change (canonical j :: List.map canonical l) with (List.map canonical (j :: l)). rewrite List.map_map.
      apply List.map_ext_in. intros a Ha. rewrite Forall_forall in IH. apply IH. by apply list_elem_of_In. }
    rewrite <- E. cbn [cat]. rewrite !str_app_nil_r. done.
  - destruct m as [|kv m]; [done|]. cbn [marshal canonical].
    set (lay := layout _ _). set (m' := kv :: m) in *.
    set (sorted := foldr insert_entry [] _).
    assert (sort_keys (List.map (fun kv => (fst kv, marshal (n + 2) (snd kv))) m') =
      List.map (fun kv => (fst kv, lay (n + 2)%nat (snd kv))) sorted) as ->.
    { unfold sorted. rewrite (sort_entries_map (lay (n + 2)%nat)). f_equal. rewrite List.map_map.
      apply List.map_ext_in. intros a Ha. cbn. f_equal. rewrite Forall_forall in IH. apply IH. by apply list_elem_of_In. }
    rewrite List.map_map.
    assert (sorted <> []) as Hne.
    { intros E. assert ((fst kv, canonical (snd kv)) ∈ sorted) as Hin by (apply elem_of_sorted; cbn; set_solver).
      rewrite E in Hin. by apply elem_of_nil in Hin. }
    destruct sorted as [|e sorted]; [done|]. unfold lay. cbn [layout]. cbn [cat]. rewrite !str_app_nil_r.
    do 3 f_equal. f_equal. apply List.map_ext. intros [k v]. cbn [fst snd cat]. by rewrite str_app_nil_r.
Qed.

Lemma canonical_printable j : ascii_doc j = true -> printable (canonical j) = true.
Proof.
  induction j as [s|b|l IH|m IH] using json_ind'; cbn [ascii_doc canonical printable]; [done|done| |];
    rewrite !forallb_True_iff; intros Hj x Hx; rewrite Forall_forall in IH.
  - apply list_elem_of_fmap in Hx as (y & -> & Hy). auto.
  - apply elem_of_sorted, list_elem_of_fmap in Hx as (y & -> & Hy). cbn.
    specialize (Hj y Hy). apply andb_true_iff in Hj as [-> Hj]. by apply IH.
Qed.

Lemma parse_MarshalIndent j : ascii_doc j = true -> parse_json (MarshalIndent j) = Some (canonical j).
Proof. intros Hj. unfold MarshalIndent. rewrite marshal_layout. by apply parse_indent, canonical_printable. Qed.

(** *** The documents of ASCII schemas *)
Fixpoint ascii_type (t : TypeNode) : bool :=
  ascii_text (tn_Name t) && match tn_ValueType t with Some v => ascii_type v | None => true end.
Definition ascii_method (m : MethodNode) : bool :=
  ascii_text (mn_Name m) && ascii_text (mn_InputType m) && ascii_text (mn_OutputType m) &&
  ascii_text (mn_RESTMethod m) && ascii_text (mn_RESTPath m).
Definition ascii_schema (a : AST) : bool :=
  forallb (fun s => ascii_text (sn_Name s) && forallb (fun f => ascii_text (fn_Name f) && ascii_type (fn_Type f)) (sn_Fields s)) (Structs a) &&
  forallb (fun e => ascii_text (en_Name e)) (Enums a) &&
  forallb (fun svc => ascii_text (sv_Name svc) && forallb ascii_method (sv_Methods svc)) (Services a).

Abbreviation ascii_entries := (forallb (fun kv : string * json => ascii_text (fst kv) && ascii_doc (snd kv))).

Lemma ascii_jset k v m : ascii_text k = true -> ascii_doc v = true -> ascii_entries m = true -> ascii_entries (jset k v m) = true.
Proof.
  intros Hk Hv. induction m as [|[k' v'] m IH]; cbn; [by rewrite Hk, Hv|].
  intros [H1 H2]%andb_true_iff. destruct (String.eqb k' k); cbn; [by rewrite Hk, Hv|]. by rewrite H1, IH.
Qed.
Lemma ascii_jget k m v : jget k m = Some v -> ascii_entries m = true -> ascii_doc v = true.
Proof.
  induction m as [|[k' v'] m IH]; cbn; [done|]. destruct (String.eqb k' k).
  - intros [= <-] [[_ H]%andb_true_iff _]%andb_true_iff. done.
  - intros Hg [_ H]%andb_true_iff. by apply IH.
Qed.

Lemma ascii_app s t : ascii_text s = true -> ascii_text t = true -> ascii_text (s +:+ t) = true.
Proof. intros Hs Ht. by rewrite str_forall_app, Hs, Ht. Qed.

Lemma ascii_ref n : ascii_text n = true -> ascii_text (schema_ref n) = true.
Proof.
  intros Hn. change (schema_ref n) with ("#/components/schemas/" +:+ (n +:+ "")).
  by rewrite str_app_nil_r, str_forall_app, Hn.
Qed.

Lemma ascii_type_doc t doc : ascii_type t = true -> mapAstTypeToOpenAPI t = Ok doc -> ascii_doc doc = true.
Proof.
  revert doc. induction t as [t IH] using (induction_ltof1 _ type_size). unfold ltof in IH.
  destruct t as [k n kt vt]. intros doc Ht. cbn in Ht. apply andb_true_iff in Ht as [Hn Hv].
  cbn [mapAstTypeToOpenAPI tn_Kind tn_Name tn_ValueType].
  destruct k; try (intros [= <-]; reflexivity);
    try (intros E; assert (doc = JObj [("$ref", JStr (schema_ref n))]) as -> by congruence;
         cbn [ascii_doc forallb fst snd]; rewrite ascii_ref by done; reflexivity);
    (destruct vt as [v|]; [|done]); (destruct (mapAstTypeToOpenAPI v) as [dv|] eqn:E; [|done]);
    intros [= <-]; cbn; by rewrite (IH v) by (done || (cbn; lia)).
Qed.

Lemma ascii_props fields props m :
  forallb (fun f => ascii_text (fn_Name f) && ascii_type (fn_Type f)) fields = true -> ascii_entries props = true ->
  openapi_props fields props = Ok m -> ascii_entries m = true.
Proof.
  revert props. induction fields as [|f fields IH]; intros props Hf Hp; cbn; [by intros [= <-]|].
  cbn in Hf. apply andb_true_iff in Hf as [[Hn Ht]%andb_true_iff Hf].
  destruct (mapAstTypeToOpenAPI (fn_Type f)) as [d|] eqn:E; [|done]. cbn. apply IH; [done|].
  apply ascii_jset; [done| |done]. by eapply ascii_type_doc.
Qed.

Lemma ascii_structs structs schemas m :
  forallb (fun s => ascii_text (sn_Name s) && forallb (fun f => ascii_text (fn_Name f) && ascii_type (fn_Type f)) (sn_Fields s)) structs = true ->
  ascii_entries schemas = true -> openapi_structs structs schemas = Ok m -> ascii_entries m = true.
Proof.
  revert schemas. induction structs as [|s structs IH]; intros schemas Hs Hp; cbn; [by intros [= <-]|].
  cbn in Hs. apply andb_true_iff in Hs as [[Hn Hf]%andb_true_iff Hs].
  destruct (openapi_props (sn_Fields s) []) as [props|] eqn:E; [|done]. cbn. apply IH; [done|].
  apply ascii_jset; [done| |done]. cbn. rewrite (ascii_props _ [] _ Hf eq_refl E). done.
Qed.

Lemma ascii_enums enums schemas : forallb (fun e => ascii_text (en_Name e)) enums = true -> ascii_entries schemas = true ->
  ascii_entries (foldl openapi_enum schemas enums) = true.
Proof.
  revert schemas. induction enums as [|e enums IH]; intros schemas He Hs; cbn; [done|].
  cbn in He. apply andb_true_iff in He as [Hn He]. apply IH; [done|]. apply ascii_jset; [done| |done].
  cbn [ascii_doc forallb fst snd]. change (sprintf "Enum %s" [GS (en_Name e)]) with ("Enum " +:+ (en_Name e +:+ "")).
  by rewrite str_app_nil_r, (ascii_app "Enum " _ eq_refl Hn).
Qed.

Lemma ascii_operation svc m : ascii_text (sv_Name svc) = true -> ascii_method m = true -> ascii_doc (openapi_operation svc m) = true.
Proof.
  unfold ascii_method. intros Hs [[[[Hn Hi]%andb_true_iff Ho]%andb_true_iff _]%andb_true_iff _]%andb_true_iff.
  unfold openapi_operation. destruct (mn_ServerStreaming m); cbn -[schema_ref]; by rewrite ?Hn, ?Hs, !ascii_ref by done.
Qed.

Lemma ascii_path svc m : ascii_text (sv_Name svc) = true -> ascii_method m = true -> ascii_text (openapi_path svc m) = true.
Proof.
  unfold ascii_method. intros Hs [[[[Hn Hi]%andb_true_iff Ho]%andb_true_iff _]%andb_true_iff Hp]%andb_true_iff.
  unfold openapi_path. case_bool_decide; [|done].
  change (sprintf "/v1.%s/%s" [GS (sv_Name svc); GS (mn_Name m)]) with ("/v1." +:+ (sv_Name svc +:+ ("/" +:+ (mn_Name m +:+ "")))).
  rewrite str_app_nil_r. repeat apply ascii_app; done.
Qed.

Lemma ascii_paths services paths :
  forallb (fun svc => ascii_text (sv_Name svc) && forallb ascii_method (sv_Methods svc)) services = true ->
  ascii_entries paths = true -> ascii_entries (foldl openapi_service paths services) = true.
Proof.
  revert paths. induction services as [|svc services IH]; intros paths Hs Hp; cbn; [done|].
  cbn in Hs. apply andb_true_iff in Hs as [[Hn Hm]%andb_true_iff Hs]. apply IH; [done|]. clear IH Hs. unfold openapi_service.
  revert paths Hp. induction (sv_Methods svc) as [|m ms IH]; intros paths Hp; cbn [foldl]; [done|].
  cbn in Hm. apply andb_true_iff in Hm as [Hm Hms]. apply IH; [done|]. unfold add_path.
  apply ascii_jset; [by apply ascii_path| |done]. cbn [ascii_doc]. apply ascii_jset; [|by apply ascii_operation|].
  - unfold openapi_verb. case_bool_decide; [done|]. unfold ascii_method in Hm. by repeat (apply andb_true_iff in Hm as [Hm ?]).
  - destruct (jget (openapi_path svc m) paths) as [[]|] eqn:E; try done. by apply (ascii_jget _ _ _ E).
Qed.

(** ** Reading a document *)

(** The member of an object, and the value under a path of keys. *)
Fixpoint member (k : string) (m : list (string * jvalue)) : option jvalue :=
  match m with
  | [] => None
  | (k', v) :: m' => if String.eqb k' k then Some v else member k m'
  end.
Fixpoint value_at (keys : list string) (v : jvalue) : option jvalue :=
  match keys, v with
  | [], _ => Some v
  | k :: keys', VObj m => member k m ≫= value_at keys'
  | _, _ => None
  end.

Lemma String_eqb_bool s t : String.eqb s t = bool_decide (s = t).
Proof. destruct (String.eqb_spec s t); by case_bool_decide. Qed.

Lemma leb_refl s : String.leb s s = true.
Proof.
  unfold String.leb. induction s as [|c s IH]; [done|]. cbn.
  unfold Ascii.compare. by rewrite N.compare_refl.
Qed.

Lemma member_insert k kv l : member k (insert_entry kv l) = if String.eqb (fst kv) k then Some (snd kv) else member k l.
Proof.
  destruct kv as [k1 v1]. induction l as [|[k2 v2] l IH]; [done|]. cbn in *.
  destruct (String.leb k1 k2) eqn:El; [done|]. cbn. rewrite IH.
  destruct (String.eqb_spec k2 k) as [->|]; [|done]. destruct (String.eqb_spec k1 k) as [->|]; [|done].
  by rewrite leb_refl in El.
Qed.

Lemma member_canonical k m :
  member k (foldr insert_entry [] (List.map (fun kv => (fst kv, canonical (snd kv))) m)) = canonical <$> jget k m.
Proof.
  induction m as [|[k1 v1] m IH]; [done|]. cbn [List.map foldr jget fst snd]. rewrite member_insert. cbn [fst snd].
  by destruct (String.eqb k1 k).
Qed.

Lemma value_at_canonical keys j : value_at keys (canonical j) = canonical <$> jpath keys j.
Proof.
  revert j. induction keys as [|k keys IH]; intros j; [by destruct j|]. destruct j as [| | |m]; try done.
  cbn [canonical value_at jpath]. rewrite member_canonical. destruct (jget k m) as [j|]; [|done]. apply IH.
Qed.

(** ** What the document says *)

(** The route of a method: the declared one, or the path of the gRPC method under [post]. *)
Definition declared_path (svc : ServiceNode) (m : MethodNode) : string :=
  if String.eqb (mn_RESTPath m) "" then "/v1." +:+ sv_Name svc +:+ "/" +:+ mn_Name m else mn_RESTPath m.
Definition declared_verb (m : MethodNode) : string :=
  if String.eqb (mn_RESTMethod m) "" then "post" else mn_RESTMethod m.
Definition declared_at (path verb : string) (sm : ServiceNode * MethodNode) : bool :=
  String.eqb (declared_path sm.1 sm.2) path && String.eqb (declared_verb sm.2) verb.

Definition reference (name : string) : jvalue := VObj [("$ref", VString ("#/components/schemas/" +:+ name))].
Definition content (mime name : string) : string * jvalue :=
  ("content", VObj [(mime, VObj [("schema", reference name)])]).

(** The operation of a method, member for member: it takes the request message and answers
    the response message, as a stream of events when the method is declared so. *)
Definition operation_object (svc : ServiceNode) (m : MethodNode) : jvalue :=
  VObj ((if mn_ServerStreaming m then [("description"%string, VString "Server Streaming (SSE) endpoint")] else []) ++ [
    ("operationId"%string, VString (mn_Name m));
    ("requestBody"%string, VObj [content "application/json" (mn_InputType m); ("required", VBool true)]);
    ("responses"%string, VObj [("200", VObj [
       content (if mn_ServerStreaming m then "text/event-stream" else "application/json") (mn_OutputType m);
       ("description", VString "Successful response")])]);
    ("tags"%string, VArr [VString (sv_Name svc)])]).

(** The schema of a type; a map is described by its values only. *)
Fixpoint schema_object (t : TypeNode) : option jvalue :=
  match tn_Kind t with
  | TypeInt32 => Some (VObj [("format", VString "int32"); ("type", VString "integer")])
  | TypeInt64 => Some (VObj [("format", VString "int64"); ("type", VString "integer")])
  | TypeDouble => Some (VObj [("format", VString "double"); ("type", VString "number")])
  | TypeBool => Some (VObj [("type", VString "boolean")])
  | TypeString => Some (VObj [("type", VString "string")])
  | TypeBinary => Some (VObj [("format", VString "byte"); ("type", VString "string")])
  | TypeStruct | TypeEnum => Some (reference (tn_Name t))
  | TypeList =>
      match tn_ValueType t with
      | Some v => items ← schema_object v; Some (VObj [("items", items); ("type", VString "array")])
      | None => None
      end
  | TypeMap =>
      match tn_ValueType t with
      | Some v => values ← schema_object v; Some (VObj [("additionalProperties", values); ("type", VString "object")])
      | None => None
      end
  | TypeVoid => Some (VObj [("type", VString "object")])
  end.

(** The declaration that wins where several carry one name: the last. *)
Definition declared {A} (name : A -> string) (n : string) (l : list A) : option A :=
  last_match (fun x => String.eqb (name x) n) l.

Lemma last_match_cons {A} (p : A -> bool) x l :
  last_match p (x :: l) = match last_match p l with Some y => Some y | None => if p x then Some x else None end.
Proof.
  unfold last_match. cbn [rev]. induction (rev l) as [|y l' IH]; [done|]. cbn. by destruct (p y).
Qed.

Lemma canonical_ref n : canonical (JObj [("$ref", JStr (schema_ref n))]) = reference n.
Proof.
  change (schema_ref n) with ("#/components/schemas/" +:+ (n +:+ "")). by rewrite str_app_nil_r.
Qed.

Lemma canonical_type t doc : mapAstTypeToOpenAPI t = Ok doc -> schema_object t = Some (canonical doc).
Proof.
  revert doc. induction t as [t IH] using (induction_ltof1 _ type_size). unfold ltof in IH.
  destruct t as [k n kt vt]. intros doc. cbn [mapAstTypeToOpenAPI schema_object tn_Kind tn_Name tn_ValueType].
  destruct k; try (intros [= <-]; reflexivity);
    try (intros E; assert (doc = JObj [("$ref", JStr (schema_ref n))]) as -> by congruence; by rewrite canonical_ref);
    (destruct vt as [v|]; [|done]); (destruct (mapAstTypeToOpenAPI v) as [dv|] eqn:E; [|done]);
    intros [= <-]; by rewrite (IH v ltac:(cbn; lia) dv E).
Qed.

Lemma canonical_operation svc m : canonical (openapi_operation svc m) = operation_object svc m.
Proof.
  unfold openapi_operation, operation_object, media, content. rewrite <- !canonical_ref.
  by destruct (mn_ServerStreaming m).
Qed.

Lemma at_route_declared path verb sm : at_route path verb sm = declared_at path verb sm.
Proof.
  unfold at_route, declared_at, openapi_path, declared_path, openapi_verb, declared_verb.
  change (sprintf "/v1.%s/%s" [GS (sv_Name sm.1); GS (mn_Name sm.2)])
    with ("/v1." +:+ (sv_Name sm.1 +:+ ("/" +:+ (mn_Name sm.2 +:+ "")))). rewrite str_app_nil_r.
  by rewrite !String_eqb_bool.
Qed.

Lemma last_match_ext {A} (p q : A -> bool) l : (forall x, p x = q x) -> last_match p l = last_match q l.
Proof. intros E. unfold last_match. induction (rev l) as [|x l' IH]; [done|]. cbn. by rewrite E, IH. Qed.

Lemma props_declared fields props m n : openapi_props fields props = Ok m ->
  match declared fn_Name n fields with
  | Some f => exists doc, mapAstTypeToOpenAPI (fn_Type f) = Ok doc /\ jget n m = Some doc
  | None => jget n m = jget n props
  end.
Proof.
  unfold declared. revert props. induction fields as [|f fields IH]; intros props; [by intros [= ->]|]. cbn [openapi_props].
  destruct (mapAstTypeToOpenAPI (fn_Type f)) as [doc|] eqn:E; [|done]. cbn [res_bind]. intros Hm.
  specialize (IH _ Hm). rewrite last_match_cons. destruct (last_match _ fields); [done|].
  rewrite jget_jset in IH. rewrite String_eqb_bool. case_bool_decide; [by exists doc|done].
Qed.

Lemma structs_declared structs schemas m n : openapi_structs structs schemas = Ok m ->
  match declared sn_Name n structs with
  | Some s => exists props, openapi_props (sn_Fields s) [] = Ok props /\
      jget n m = Some (JObj [("type", JStr "object"); ("properties", JObj props)])
  | None => jget n m = jget n schemas
  end.
Proof.
  unfold declared. revert schemas. induction structs as [|s structs IH]; intros schemas; [by intros [= ->]|]. cbn [openapi_structs].
  destruct (openapi_props (sn_Fields s) []) as [props|] eqn:E; [|done]. cbn [res_bind]. intros Hm.
  specialize (IH _ Hm). rewrite last_match_cons. destruct (last_match _ structs); [done|].
  rewrite jget_jset in IH. rewrite String_eqb_bool. case_bool_decide; [by exists props|done].
Qed.

Lemma enums_declared enums schemas n :
  jget n (foldl openapi_enum schemas enums) =
  match declared en_Name n enums with
  | Some e => Some (JObj [("type", JStr "integer"); ("description", JStr ("Enum " +:+ en_Name e))])
  | None => jget n schemas
  end.
Proof.
  unfold declared. revert schemas. induction enums as [|e enums IH]; intros schemas; [done|]. cbn [foldl].
  rewrite IH, last_match_cons. destruct (last_match _ enums); [done|]. unfold openapi_enum.
  change (sprintf "Enum %s" [GS (en_Name e)]) with ("Enum " +:+ (en_Name e +:+ "")). rewrite str_app_nil_r.
  rewrite jget_jset, String_eqb_bool. by case_bool_decide.
Qed.

Lemma ascii_openapi_doc a doc : ascii_schema a = true -> openapi_doc a = Ok doc -> ascii_doc doc = true.
Proof.
  unfold ascii_schema, openapi_doc. intros [[Hs He]%andb_true_iff Hv]%andb_true_iff.
  destruct (openapi_structs (Structs a) []) as [schemas|] eqn:E; [|done]. intros [= <-].
  cbn [ascii_doc forallb fst snd]. rewrite (ascii_paths (Services a) [] Hv eq_refl).
  by rewrite (ascii_enums (Enums a) schemas He (ascii_structs _ [] _ Hs eq_refl E)).
Qed.

(** ** Properties *)

Section document.
Context (a : AST) (schemas : list (string * json)) (Hs : openapi_structs (Structs a) [] = Ok schemas).

Lemma document : exists doc, openapi_doc a = Ok doc /\
  (forall path verb, jpath ["paths"; path; verb] doc
     = (fun sm => openapi_operation sm.1 sm.2) <$> last_match (declared_at path verb) (routes a)) /\
  (forall n, jpath ["components"; "schemas"; n] doc = jget n (foldl openapi_enum schemas (Enums a))).
Proof using Hs.
  unfold openapi_doc. rewrite Hs. cbn [res_bind]. eexists. split; [reflexivity|]. split.
  - intros path verb. rewrite openapi_service_routes. rewrite <- (last_match_ext (at_route path verb)) by apply at_route_declared.
    apply (paths_last (routes a) path verb).
  - intros n. cbn. by destruct (jget n _).
Qed.
End document.

(** C29: the OpenAPI text says what the schema declares.  For every parsed schema whose
    names are ASCII the generator returns a text that a JSON decoder reads, and the value
    read has, under a path and a verb, the operation of the last method declared with that
    route and nothing when there is none: its name, its service as the tag, the request
    message as the required body, the response message as the answer, an event stream when
    the method is streaming.  Under [components/schemas] it has every enum, and every
    message with the schema of each field's type. *)
Theorem openapi_text_valid (a : AST) (Hp : parsed a) (Ha : ascii_schema a = true) :
  exists text v, GenerateOpenAPI a = Ok text /\ parse_json text = Some v /\
    (forall path verb, value_at ["paths"; path; verb] v
       = (fun sm => operation_object sm.1 sm.2) <$> last_match (declared_at path verb) (routes a)) /\
    (forall n, match declared en_Name n (Enums a), declared sn_Name n (Structs a) with
       | Some e, _ => value_at ["components"; "schemas"; n] v
           = Some (VObj [("description", VString ("Enum " +:+ en_Name e)); ("type", VString "integer")])
       | None, Some s => exists props, value_at ["components"; "schemas"; n] v
           = Some (VObj [("properties", VObj props); ("type", VString "object")]) /\
           forall f, member f props = declared fn_Name f (sn_Fields s) ≫= fun fd => schema_object (fn_Type fd)
       | None, None => value_at ["components"; "schemas"; n] v = None
       end).
Proof.
  destruct (openapi_structs (Structs a) []) as [schemas|] eqn:Es.
  2: { destruct (openapi_total a) as [doc Hd]; [by apply parsed_formattable|]. unfold openapi_doc in Hd. by rewrite Es in Hd. }
  destruct (document a schemas Es) as (doc & Hd & Hpaths & Hschemas).
  exists (MarshalIndent doc), (canonical doc). unfold GenerateOpenAPI. rewrite Hd. cbn [res_bind].
  split; [done|]. split; [by apply parse_MarshalIndent, (ascii_openapi_doc a)|]. split.
  - intros path verb. rewrite value_at_canonical, Hpaths. destruct (last_match _ _) as [sm|]; [|done].
    apply (f_equal Some), canonical_operation.
  - intros n. rewrite value_at_canonical, Hschemas, enums_declared. destruct (declared en_Name n (Enums a)); [done|].
    pose proof (structs_declared _ _ _ n Es) as Hn. destruct (declared sn_Name n (Structs a)) as [s|]; [|by rewrite Hn].
    destruct Hn as (props & Ep & ->). eexists. split; [reflexivity|]. intros f. rewrite member_canonical.
    pose proof (props_declared _ _ _ f Ep) as Hf. destruct (declared fn_Name f (sn_Fields s)) as [fd|]; [|by rewrite Hf].
    destruct Hf as (fdoc & Ef & ->). symmetry. by apply canonical_type.
Qed.

Lemma openapi_text_valid_witness :
  parsed shop /\ ascii_schema shop = true /\
  exists text v, GenerateOpenAPI shop = Ok text /\ parse_json text = Some v /\
    value_at ["paths"; "/watch"; "GET"] v = Some (VObj [
      ("description", VString "Server Streaming (SSE) endpoint");
      ("operationId", VString "Watch");
      ("requestBody", VObj [
         ("content", VObj [("application/json", VObj [("schema", VObj [("$ref", VString "#/components/schemas/Tag")])])]);
         ("required", VBool true)]);
      ("responses", VObj [("200", VObj [
         ("content", VObj [("text/event-stream", VObj [("schema", VObj [("$ref", VString "#/components/schemas/Item")])])]);
         ("description", VString "Successful response")])]);
      ("tags", VArr [VString "Shop"])]) /\
    value_at ["paths"; "/v1.Shop/Get"; "get"] v = None.
Proof.
  assert (parsed shop) as Hp by (exists shop_text; left; vm_compute; reflexivity).
  assert (ascii_schema shop = true) as Ha by (vm_compute; reflexivity).
  split; [exact Hp|]. split; [exact Ha|].
  destruct (openapi_text_valid shop Hp Ha) as (text & v & Ht & Hv & Hpaths & _).
  exists text, v. split; [exact Ht|]. split; [exact Hv|].
  split; rewrite Hpaths; vm_compute; reflexivity.
Defined.
