(* ===== verification/Cli.v ===== *)
(** * The compiler command line ([compiler/main.go])

    A command runs in a world of files, printed lines and answers typed at the terminal,
    and stops with an exit code, a panic of a called function, or the signal that ends
    the watch loop.  Printed text is kept as the values it formats.

    The shell commands [scaffold] runs last ([go mod tidy], [cargo check],
    [npm install]) are a parameter, [tool]: what running it in a directory does to the
    files.  Standard flags are parsed as the [flag] package does. *)
From S2P Require Import Prelude GoStrings Ast Lexer ProtoParser ThriftParser Checker Linter Transpiler GoText GenCommon GenGo GenRust GenNode GenPython GenJava GenCpp OpenApi GoFiles Scaffold.

(** ** The world of a process *)
Inductive fault :=
| UnknownSubcommand (s : string)
| CannotRead (p : string) (e : os_error)
| UnsupportedExtension (ext : string)
| ParseFailed (file : string) (e : parse_error)
| UnsupportedLanguage (lang : string)
| CannotCreateDir (e : os_error)
| CannotWrite (p : string) (e : os_error)
| CannotParse (p : string) (f : fault)
| ServiceNameRequired
| TranspileReadFailed (e : os_error)
| TranspileWriteFailed (e : os_error).

Inductive msg :=
| MBanner
| MVersion
| MUsage (subcommand : string)
| MError (f : fault)
| MStyleWarnings (file : string) (vs : list lint)
| MGenerated (lang out : string)
| MWatching (p : string)
| MChanged (out : string)
| MRegenerated (out : string)
| MPrompt (n : nat)
| MScaffolded (name lang : string)
| MReport (r : CompatReport) (oldBase newBase : string)
| MViolations (file : string) (vs : list lint)
| MLintOk (file : string)
| MTranspiled (i o : string).

Record world := { w_fs : fsys; w_out : list msg; w_in : list string }.
Inductive stop := Exit (code : Z) | Panicked | Interrupted.

Definition cmd (A : Type) : Type := world -> world * (stop + A).
#[export] Instance cmd_ret : MRet cmd := fun A a w => (w, inr a).
#[export] Instance cmd_bind : MBind cmd := fun A B k c w =>
  match c w with (w', inl s) => (w', inl s) | (w', inr a) => k a w' end.

Definition halt {A} (s : stop) : cmd A := fun w => (w, inl s).
Definition exit {A} (code : Z) : cmd A := halt (Exit code).
Definition print (m : msg) : cmd unit := fun w =>
  ({| w_fs := w_fs w; w_out := w_out w ++ [m]; w_in := w_in w |}, inr ()).
Definition set_fs (fs : fsys) (w : world) : world := {| w_fs := fs; w_out := w_out w; w_in := w_in w |}.
Definition on_files (f : fsys -> fsys) : cmd unit := fun w => (set_fs (f (w_fs w)) w, inr ()).
Definition read_file (p : string) : cmd (res os_error string) := fun w => (w, inr (ReadFile (w_fs w) p)).
Definition write_file (p content : string) : cmd (option os_error) := fun w =>
  let '(fs', err) := WriteFile (w_fs w) p content in (set_fs fs' w, inr err).
Definition mkdir_all (p : string) : cmd (option os_error) := fun w =>
  let '(fs', err) := MkdirAll (w_fs w) p in (set_fs fs' w, inr err).
(** [fmt.Scanln(&s)]: the next answer, nothing at the end of the input. *)
Definition scanln : cmd string := fun w =>
  match w_in w with
  | [] => (w, inr "")
  | s :: rest => ({| w_fs := w_fs w; w_out := w_out w; w_in := rest |}, inr s)
  end.
(** A call that may panic. *)
Definition may_panic {A} (o : option A) : cmd A := match o with Some a => mret a | None => halt Panicked end.

(** How the process ends: [main] returning is exit code 0. *)
Definition run (c : cmd ()) (w : world) : world * stop :=
  match c w with (w', inl s) => (w', s) | (w', inr _) => (w', Exit 0) end.

(** ** The [flag] package *)
Inductive flag_kind := FString | FBool.
Inductive flag_stop := FlagHelp | FlagError.

Definition ParseBool (s : string) : option bool :=
  if bool_decide (s ∈ ["1"; "t"; "T"; "TRUE"; "true"; "True"]) then Some true
  else if bool_decide (s ∈ ["0"; "f"; "F"; "FALSE"; "false"; "False"]) then Some false
  else None.

(** The name and, after an equals sign, the value of an argument; [None] for an argument
    that is not a flag, an empty name for a flag of bad syntax. *)
Definition flag_name (s : string) : option (string * option string) :=
  match s with
  | String "-" (String c rest) =>
      let name := if Ascii.eqb c "-" then rest else String c rest in
      match name with
      | "" => Some ("", None)
      | String c _ =>
          if Ascii.eqb c "-" || Ascii.eqb c "=" then Some ("", None)
          else match cut_at name "=" with Some (n, v) => Some (n, Some v) | None => Some (name, None) end
      end
  | _ => None
  end.

Definition flag_lookup (spec : list (string * flag_kind)) (name : string) : option flag_kind :=
  snd <$> List.find (fun f => bool_decide (fst f = name)) spec.

Fixpoint parse_flags (spec : list (string * flag_kind)) (vals : gmap string string) (args : list string)
  : res flag_stop (gmap string string) :=
  match args with
  | [] => Ok vals
  | s :: args =>
      if bool_decide (s = "--") then Ok vals
      else match flag_name s with
      | None => Ok vals
      | Some ("", _) => Err FlagError
      | Some (name, value) =>
          match flag_lookup spec name with
          | None => Err (if bool_decide (name ∈ ["help"; "h"]) then FlagHelp else FlagError)
          | Some FBool =>
              match value with
              | None => parse_flags spec (<[name := "true"]> vals) args
              | Some v =>
                  match ParseBool v with
                  | Some b => parse_flags spec (<[name := fmt_bool b]> vals) args
                  | None => Err FlagError
                  end
              end
          | Some FString =>
              match value, args with
              | Some v, _ => parse_flags spec (<[name := v]> vals) args
              | None, v :: args => parse_flags spec (<[name := v]> vals) args
              | None, [] => Err FlagError
              end
          end
      end
  end.

(** [fs.Parse(args)] under [flag.ExitOnError]. *)
Definition flag_parse (subcommand : string) (spec : list (string * flag_kind)) (args : list string) : cmd (gmap string string) :=
  match parse_flags spec ∅ args with
  | Ok vals => mret vals
  | Err FlagHelp => print (MUsage subcommand);; exit 0
  | Err FlagError => print (MUsage subcommand);; exit 2
  end.
Definition flag_string (vals : gmap string string) (name dflt : string) : string := default dflt (vals !! name).
Definition flag_bool (vals : gmap string string) (name : string) : bool := bool_decide (vals !! name = Some "true").

(** ** Reading schemas *)
Definition parse_ext (ext content : string) : option (res parse_error AST) :=
  if bool_decide (ext = ".proto") then Some (ParseProto content)
  else if bool_decide (ext = ".thrift") then Some (ParseThrift content)
  else None.

Definition parseIDL (path : string) : cmd (res fault AST) :=
  r ← read_file path;
  mret (match r with
  | Err e => Err (CannotRead path e)
  | Ok content =>
      match parse_ext (Ext path) content with
      | None => Err (UnsupportedExtension (Ext path))
      | Some (Err e) => Err (ParseFailed path e)
      | Some (Ok a) => Ok a
      end
  end).

Section cli.
Context `{MapIter}.

(** ** [generate] *)
Definition codegen (lang : string) (parsed : AST) : option (res codegen_panic text) :=
  if bool_decide (lang = "go") then Some (Ok (GenerateGo parsed))
  else if bool_decide (lang = "rust") then Some (Ok (GenerateRust parsed))
  else if bool_decide (lang = "python") then Some (GeneratePython parsed)
  else if bool_decide (lang = "node") || bool_decide (lang = "typescript") then Some (Ok (GenerateNode parsed))
  else if bool_decide (lang = "cpp") then Some (Ok (GenerateCPP parsed))
  else if bool_decide (lang = "java") then Some (Ok (GenerateJava parsed))
  else if bool_decide (lang = "openapi") then Some (GenerateOpenAPI parsed)
  else None.

Definition fail_with (f : fault) : cmd (option fault) := print (MError f);; mret (Some f).

Definition generate (idlPath lang outPath : string) : cmd (option fault) :=
  r ← read_file idlPath;
  match r with
  | Err e => fail_with (CannotRead idlPath e)
  | Ok content =>
      match parse_ext (Ext idlPath) content with
      | None => fail_with (UnsupportedExtension (Ext idlPath))
      | Some (Err e) => fail_with (ParseFailed (Base idlPath) e)
      | Some (Ok parsed) =>
          let violations := Lint parsed in
          (if bool_decide (violations = []) then mret () else print (MStyleWarnings (Base idlPath) violations));;
          match codegen lang parsed with
          | None => fail_with (UnsupportedLanguage lang)
          | Some (Err NilDeref) => halt Panicked
          | Some (Ok generated) =>
              err ← mkdir_all (Dir outPath);
              match err with
              | Some e => fail_with (CannotCreateDir e)
              | None =>
                  err ← write_file outPath generated;
                  match err with
                  | Some e => fail_with (CannotWrite outPath e)
                  | None => print (MGenerated lang outPath);; mret None
                  end
              end
          end
      end
  end.

(** One round of the watch loop: what happens to the files during the pause, and the
    modification time [os.Stat] then sees, if any. *)
Definition round : Type := (fsys -> fsys) * option Z.

Fixpoint watch (idlPath lang outPath : string) (rounds : list round) (last : Z) : cmd () :=
  match rounds with
  | [] => halt Interrupted
  | (pause, info) :: rounds =>
      on_files pause;;
      match info with
      | None => watch idlPath lang outPath rounds last
      | Some modTime =>
          if last <? modTime then
            print (MChanged outPath);;
            err ← generate idlPath lang outPath;
            (match err with None => print (MRegenerated outPath) | Some _ => mret () end);;
            watch idlPath lang outPath rounds modTime
          else watch idlPath lang outPath rounds last
      end
  end.

(** [now] is the time the watch starts. *)
Definition runGenerate (now : Z) (rounds : list round) (args : list string) : cmd () :=
  vals ← flag_parse "generate" [("idl", FString); ("lang", FString); ("out", FString); ("watch", FBool)] args;
  let idlPath := flag_string vals "idl" "" in
  let lang := flag_string vals "lang" "go" in
  let outPath := flag_string vals "out" "" in
  if bool_decide (idlPath = "") || bool_decide (outPath = "") then print (MUsage "generate");; exit 1
  else
    err ← generate idlPath lang outPath;
    match err with
    | Some _ => exit 1
    | None =>
        if flag_bool vals "watch" then print (MWatching idlPath);; watch idlPath lang outPath rounds now
        else mret ()
    end.

(** ** [diff], [lint] and [transpile-schema] *)
Definition runDiff (args : list string) : cmd () :=
  match args with
  | oldPath :: newPath :: _ =>
      oldAST ← parseIDL oldPath;
      match oldAST with
      | Err f => print (MError (CannotParse oldPath f));; exit 1
      | Ok oldAST =>
          newAST ← parseIDL newPath;
          match newAST with
          | Err f => print (MError (CannotParse newPath f));; exit 1
          | Ok newAST =>
              report ← may_panic (DiffASTs oldAST newAST);
              print (MReport report (Base oldPath) (Base newPath));;
              if cr_HasBreaking report then exit 2 else mret ()
          end
      end
  | _ => print (MUsage "diff");; exit 1
  end.

Definition runLint (args : list string) : cmd () :=
  match args with
  | [] => print (MUsage "lint");; exit 1
  | path :: _ =>
      parsed ← parseIDL path;
      match parsed with
      | Err f => print (MError (CannotParse path f));; exit 1
      | Ok parsed =>
          let errors := Lint parsed in
          if bool_decide (errors = []) then print (MLintOk (Base path))
          else print (MViolations (Base path) errors);; exit 1
      end
  end.

Definition TranspileFile (inPath outPath : string) : cmd (option fault) :=
  data ← read_file inPath;
  match data with
  | Err e => mret (Some (TranspileReadFailed e))
  | Ok data =>
      err ← write_file outPath (TranspileThriftToProto data);
      mret (TranspileWriteFailed <$> err)
  end.

Definition runTranspileSchema (args : list string) : cmd () :=
  vals ← flag_parse "transpile-schema" [("in", FString); ("out", FString)] args;
  let inPath := flag_string vals "in" "" in
  let outPath := flag_string vals "out" "" in
  if bool_decide (inPath = "") || bool_decide (outPath = "") then print (MUsage "transpile-schema");; exit 1
  else
    err ← TranspileFile inPath outPath;
    match err with
    | Some f => print (MError f);; exit 1
    | None => print (MTranspiled inPath outPath)
    end.

(** ** [init] *)
Definition takes_value (s : string) : bool := bool_decide (s ∈ ["-lang"; "--lang"; "-db"; "--db"]).

(** The loop that takes the service name out of the arguments. *)
Fixpoint split_args (args : list string) (serviceName : string) (flagArgs : list string) : string * list string :=
  match args with
  | [] => (serviceName, flagArgs)
  | a :: args =>
      if HasPrefix a "-" then
        match takes_value a, args with
        | true, v :: args => split_args args serviceName (flagArgs ++ [a; v])
        | _, _ => split_args args serviceName (flagArgs ++ [a])
        end
      else if bool_decide (serviceName = "") then split_args args a flagArgs
      else split_args args serviceName (flagArgs ++ [a])
  end.

(** [writeFile] ends the process when the file cannot be written. *)
Definition writeFile (path content : string) : cmd () :=
  err ← write_file path content;
  match err with Some e => print (MError (CannotWrite path e));; exit 1 | None => mret () end.
(** [os.MkdirAll(path, 0755)] with the error ignored. *)
Definition mkdirs (path : string) : cmd () := _ ← mkdir_all path; mret ().

Definition mysql (dbType : string) : bool := bool_decide (dbType = "mysql").
Definition nosql (dbType : string) : bool := bool_decide (dbType = "nosql").
(** The two database variants of a file, or none. *)
Definition database_file (dbType path mysqlText nosqlText : string) : cmd () :=
  if mysql dbType then writeFile path mysqlText else if nosql dbType then writeFile path nosqlText else mret ().
Definition deps (dbType always mysqlDep nosqlDep : string) : string :=
  always +:+ (if mysql dbType then mysqlDep else if nosql dbType then nosqlDep else "").

Definition goModDeps (dbType : string) : string :=
  deps dbType "require github.com/helix-rpc/helix/runtime-go v0.2.0\n"%go
    "require github.com/go-sql-driver/mysql v1.8.1\n"%go "require github.com/redis/go-redis/v9 v9.7.0\n"%go.
Definition rustDeps (dbType : string) : string :=
  deps dbType
    "helix-rt = \q0.1.0\q\ntokio = { version = \q1.0\q, features = [\qfull\q] }\nserde_json = \q1.0\q\nserde = { version = \q1.0\q, features = [\qderive\q] }\n"%go
    "sqlx = { version = \q0.7\q, features = [\qruntime-tokio-native-tls\q, \qmysql\q] }\n"%go "redis = \q0.25\q\n"%go.
Definition nodeDeps (dbType : string) : string :=
  deps dbType "\qhelix-rt-node\q: \qfile:../../runtimes/node\q"%go
    ",\n    \qmysql2\q: \q^3.9.0\q"%go ",\n    \qioredis\q: \q^5.3.2\q"%go.

Definition scaffold_go (base name dbType : string) : cmd () :=
  mkdirs (path_join [base; "server"]);;
  mkdirs (path_join [base; "generated"]);;
  database_file dbType (path_join [base; "server"; "database.go"]) database_go_mysql database_go_nosql;;
  writeFile (path_join [base; "go.mod"]) (go_mod name (goModDeps dbType));;
  writeFile (path_join [base; "server"; "main.go"]) (server_main_go name).

Definition scaffold_python (base name dbType : string) : cmd () :=
  mkdirs (path_join [base; "generated"]);;
  database_file dbType (path_join [base; "database.py"]) database_py_mysql database_py_nosql;;
  writeFile (path_join [base; "server.py"]) (server_py name).

Definition scaffold_rust (base name dbType : string) : cmd () :=
  mkdirs (path_join [base; "src"]);;
  mkdirs (path_join [base; "generated"]);;
  database_file dbType (path_join [base; "src"; "database.rs"]) database_rs_mysql database_rs_nosql;;
  writeFile (path_join [base; "Cargo.toml"]) (cargo_toml name (rustDeps dbType));;
  writeFile (path_join [base; "src"; "main.rs"]) (main_rs name).

Definition scaffold_node (base name dbType : string) : cmd () :=
  mkdirs (path_join [base; "src"]);;
  mkdirs (path_join [base; "generated"]);;
  database_file dbType (path_join [base; "src"; "database.ts"]) database_ts_mysql database_ts_nosql;;
  writeFile (path_join [base; "package.json"]) (package_json name (nodeDeps dbType));;
  writeFile (path_join [base; "tsconfig.json"]) tsconfig_json;;
  writeFile (path_join [base; "src"; "server.ts"]) server_ts.

Context (tool : list string -> string -> fsys -> fsys).

Definition scaffold (name lang dbType : string) (disableMetrics disableHealth disableGzip disableDeadline : bool)
  : cmd (option os_error) :=
  let base := name in
  err ← mkdir_all base;
  match err with
  | Some e => mret (Some e)
  | None =>
      writeFile (path_join [base; "schema.proto"]) (schema_proto name);;
      writeFile (path_join [base; "Makefile"]) (makefile name lang);;
      writeFile (path_join [base; "README.md"]) (readme name);;
      writeFile (path_join [base; "helix.json"]) (helix_json disableMetrics disableHealth disableGzip disableDeadline);;
      (if mysql dbType then
         let migrationsDir := path_join [base; "migrations"] in
         mkdirs migrationsDir;; writeFile (path_join [migrationsDir; "0001_init.sql"]) init_sql
       else mret ());;
      (if bool_decide (lang = "go") then scaffold_go base name dbType
       else if bool_decide (lang = "python") then scaffold_python base name dbType
       else if bool_decide (lang = "rust") then scaffold_rust base name dbType
       else if bool_decide (lang = "node") || bool_decide (lang = "typescript") then scaffold_node base name dbType
       else mret ());;
      print (MScaffolded name lang);;
      (if bool_decide (lang = "go") then on_files (tool ["go"; "mod"; "tidy"] base)
       else if bool_decide (lang = "rust") then on_files (tool ["cargo"; "check"] base)
       else if bool_decide (lang = "node") then on_files (tool ["npm"; "install"] base)
       else mret ());;
      mret None
  end.

(** The questions of the wizard: name, language, database. *)
Definition wizard : cmd (string * string * string) :=
  print (MPrompt 0);;
  serviceName ← scanln;
  if bool_decide (TrimSpace serviceName = "") then print (MError ServiceNameRequired);; exit 1
  else
    print (MPrompt 1);;
    l ← scanln;
    print (MPrompt 2);;
    d ← scanln;
    mret (TrimSpace serviceName, TrimSpace l, TrimSpace d).

Definition runInit (args : list string) : cmd () :=
  let '(serviceName, flagArgs) := split_args args "" [] in
  vals ← flag_parse "init" [("lang", FString); ("db", FString); ("disable-metrics", FBool); ("disable-health", FBool);
    ("disable-gzip", FBool); ("disable-deadline", FBool)] flagArgs;
  let lang := flag_string vals "lang" "go" in
  let db := flag_string vals "db" "none" in
  '(serviceName, lang, db) ←
    (if bool_decide (serviceName = "") && bool_decide (flagArgs = []) then
       '(s, l, d) ← wizard;
       mret (s, if bool_decide (l = "") then lang else l, if bool_decide (d = "") then db else d)
     else mret (serviceName, lang, db));
  if bool_decide (serviceName = "") then print (MUsage "init");; print (MError ServiceNameRequired);; exit 1
  else
    err ← scaffold serviceName lang db (flag_bool vals "disable-metrics") (flag_bool vals "disable-health")
            (flag_bool vals "disable-gzip") (flag_bool vals "disable-deadline");
    match err with Some e => print (MError (CannotCreateDir e));; exit 1 | None => mret () end.

(** ** [main] *)
Definition main (now : Z) (rounds : list round) (osArgs : list string) : cmd () :=
  match osArgs with
  | _ :: sub :: args =>
      if bool_decide (sub ∈ ["generate"; "gen"]) then runGenerate now rounds args
      else if bool_decide (sub = "init") then runInit args
      else if bool_decide (sub = "diff") then runDiff args
      else if bool_decide (sub = "lint") then runLint args
      else if bool_decide (sub = "transpile-schema") then runTranspileSchema args
      else if bool_decide (sub ∈ ["version"; "--version"; "-v"]) then print MVersion
      else if bool_decide (sub ∈ ["help"; "--help"; "-h"]) then print MBanner
      else if HasPrefix sub "-" then runGenerate now rounds (sub :: args)
      else print (MError (UnknownSubcommand sub));; print MBanner;; exit 1
  | _ => print MBanner;; exit 0
  end.
End cli.

(** ** What the commands promise *)

(** The schema a path names, and the text [generate] is to write, without effects. *)
Definition load (fs : fsys) (path : string) : res fault AST :=
  match ReadFile fs path with
  | Err e => Err (CannotRead path e)
  | Ok content =>
      match parse_ext (Ext path) content with
      | None => Err (UnsupportedExtension (Ext path))
      | Some (Err e) => Err (ParseFailed path e)
      | Some (Ok a) => Ok a
      end
  end.

Definition compile `{MapIter} (fs : fsys) (idlPath lang : string) : res fault text :=
  match load fs idlPath with
  | Err (ParseFailed path e) => Err (ParseFailed (Base path) e)
  | Err f => Err f
  | Ok a =>
      match codegen lang a with
      | Some (Ok txt) => Ok txt
      | _ => Err (UnsupportedLanguage lang)
      end
  end.

(** ** Lemmas *)
Lemma parseIDL_load path w : parseIDL path w = (w, inr (load (w_fs w) path)).
Proof. done. Qed.

Lemma load_parsed fs path a : load fs path = Ok a -> parsed a.
Proof.
  unfold load, parse_ext. destruct (ReadFile fs path) as [c|]; [|done]. destruct (bool_decide _).
  - destruct (ParseProto c) eqn:E; [|done]. intros [= <-]. exists c. by left.
  - destruct (bool_decide _); [|done]. destruct (ParseThrift c) eqn:E; [|done]. intros [= <-]. exists c. by right.
Qed.

Lemma codegen_total `{MapIter} lang a : parsed a -> codegen lang a = None \/ exists txt, codegen lang a = Some (Ok txt).
Proof.
  intros Hp%parsed_formattable. unfold codegen, GeneratePython, GenerateOpenAPI.
  rewrite (formattable_resolved a Hp). destruct (openapi_total a Hp) as [doc ->]. cbn [res_bind].
  repeat (case_match; [right; by eexists|]). by left.
Qed.

Section contracts.
Context `{MapIter}.

(** C20: [generate] writes the generated text or returns an error.  On every world it
    returns (no panic, no exit): when the schema cannot be read or parsed, its extension
    or the language is not supported, it returns that error and the file system is
    unchanged; otherwise it writes exactly the generator's text to the output path
    and changes no other file, or returns the error of creating the directory, with no file
    changed, or returns the error of writing the file: then every other file is unchanged,
    and the output file is as it was or, when the write failed after the file was opened and
    truncated, holds a prefix of the text. *)
Theorem generate_contract (idlPath lang outPath : string) (w : world) :
  exists w' r, generate idlPath lang outPath w = (w', inr r) /\
    match compile (w_fs w) idlPath lang with
    | Err f => r = Some f /\ w_fs w' = w_fs w
    | Ok txt =>
        let out := resolve (w_fs w) outPath in
        (r = None /\ files (w_fs w') = <[out := txt]> (files (w_fs w))) \/
        (exists e, r = Some (CannotCreateDir e) /\ files (w_fs w') = files (w_fs w)) \/
        (exists e, r = Some (CannotWrite outPath e) /\
           (files (w_fs w') = files (w_fs w) \/ exists n, files (w_fs w') = <[out := str_take n txt]> (files (w_fs w))))
    end.
Proof using.
  unfold generate, compile, load. unfold mbind, cmd_bind at 1. cbn [read_file].
  destruct (ReadFile (w_fs w) idlPath) as [c|e] eqn:Er; [|by eexists _, _].
  destruct (parse_ext (Ext idlPath) c) as [[a|e]|] eqn:Ep; [|by eexists _, _..].
  assert (parsed a) as Hp by (apply (load_parsed (w_fs w) idlPath); unfold load; by rewrite Er, Ep).
  set (pre := if bool_decide (Lint a = []) then _ else _).
  assert (exists w1, pre w = (w1, inr ()) /\ w_fs w1 = w_fs w) as (w1 & E1 & Hfs).
  { unfold pre. case_bool_decide; by eexists. }
  unfold mbind, cmd_bind at 1. rewrite E1. clearbody pre.
  destruct (codegen_total lang a Hp) as [->|[txt ->]]; [by eexists _, _|].
  unfold mbind, cmd_bind, mkdir_all, write_file. rewrite Hfs.
  pose proof (MkdirAll_same (w_fs w) (Dir outPath)) as Hs. destruct (MkdirAll (w_fs w) (Dir outPath)) as [fs1 [e|]].
  - eexists _, _. split; [reflexivity|]. right. left. exists e. split; [done|]. apply Hs.
  - destruct Hs as (Hcwd & Hf & _). cbn [fst] in Hcwd, Hf. cbn [w_fs set_fs].
    destruct (WriteFile fs1 outPath txt) as [fs2 [e|]] eqn:Ew.
    + eexists _, _. split; [reflexivity|]. right. right. exists e. split; [done|]. cbn [w_fs set_fs fail_with print fst].
      apply write_fails in Ew as [->|[n ->]]; [by left|right; exists n]. cbn. unfold resolve. by rewrite Hcwd, Hf.
    + eexists _, _. split; [reflexivity|]. left. split; [done|]. apply write_inv in Ew as ->. cbn.
      unfold resolve. by rewrite Hcwd, Hf.
Qed.

Context (tool : list string -> string -> fsys -> fsys).

(** C19: the [diff] command is a sound and complete gate.  Run on two schema files it
    terminates without a panic and changes no file; it exits with 0 exactly when both
    parse and the new schema is backward compatible with the old one, with 2 exactly when
    both parse and it is not, and with 1 when a file cannot be read or parsed. *)
Theorem diff_gate (now : Z) (rounds : list round) (prog oldPath newPath : string) (rest : list string) (w : world) :
  exists w' code, run (main tool now rounds (prog :: "diff" :: oldPath :: newPath :: rest)) w = (w', Exit code) /\
    w_fs w' = w_fs w /\
    match load (w_fs w) oldPath, load (w_fs w) newPath with
    | Ok old, Ok new => (code = 0 /\ compatible old new) \/ (code = 2 /\ ~ compatible old new)
    | _, _ => code = 1
    end.
Proof using.
  unfold run. change (main tool now rounds (prog :: "diff" :: oldPath :: newPath :: rest)) with (runDiff (oldPath :: newPath :: rest)).
  unfold runDiff, mbind, cmd_bind. rewrite parseIDL_load.
  destruct (load (w_fs w) oldPath) as [old|f] eqn:Eo; [|by eexists _, _].
  rewrite parseIDL_load. destruct (load (w_fs w) newPath) as [new|f] eqn:En; [|by eexists _, _].
  destruct (diff_decides old new) as (r & -> & _ & Hd);
    [by eapply parsed_formattable, load_parsed..|].
  unfold may_panic, print, mret, cmd_ret. cbv iota beta. destruct (cr_HasBreaking r) eqn:Eb; (eexists _, _; split; [reflexivity|]; split; [reflexivity|]).
  - right. split; [done|]. intros Hc%Hd. congruence.
  - left. split; [done|]. by apply Hd.
Qed.

(** The [lint] command exits with 0 exactly on schemas without violations. *)
Lemma lint_gate (path : string) (w : world) :
  exists w' code, run (runLint [path]) w = (w', Exit code) /\ w_fs w' = w_fs w /\
    (code = 0 <-> exists a, load (w_fs w) path = Ok a /\ Lint a = []) /\ (code = 0 \/ code = 1).
Proof using.
  unfold run, runLint, mbind, cmd_bind. rewrite parseIDL_load.
  destruct (load (w_fs w) path) as [a|f]; [|eexists _, _; split; [reflexivity|]; naive_solver].
  destruct (bool_decide_reflect (Lint a = [])); eexists _, _; (split; [reflexivity|]); naive_solver.
Qed.
(** C27: the generated TypeScript, Java, C++ and Python is well bracketed.  For every schema
    whose names contain no unbalanced bracket (identifiers in particular), in the text
    these generators write every parenthesis, square bracket and brace is closed by its
    match and in order, whatever structs, fields, enums and services the schema has. *)
Theorem generated_text_nested (lang : string) (a : AST) (txt : text) :
  schema_ok a = true -> lang ∈ ["node"; "typescript"; "java"; "cpp"; "python"] ->
  codegen lang a = Some (Ok txt) -> nested txt = true.
Proof using.
  intros Ha Hl. repeat (apply elem_of_cons in Hl as [->|Hl]); [..|by apply elem_of_nil in Hl]; cbn; intros [= Ht].
  - rewrite <- Ht. by apply node_nested.
  - rewrite <- Ht. by apply node_nested.
  - rewrite <- Ht. by apply java_nested.
  - rewrite <- Ht. by apply cpp_nested.
  - unfold GeneratePython in Ht. destruct (forallb _ _); [|done]. simplify_eq. by apply python_nested.
Qed.

(** The Go text is unbalanced as soon as the schema has a struct, the Rust text as soon as
    it has one without an unsupported field. *)
Theorem go_rust_text_unbalanced (a : AST) : schema_ok a = true ->
  nested (GenerateGo a) = bool_decide (Structs a = []) /\
  nested (GenerateRust a) = forallb sn_HasFallback (Structs a).
Proof using.
  intros Ha. split; [|by apply rust_nested]. rewrite go_nested by done. by destruct (Structs a).
Qed.
End contracts.

Lemma generated_text_nested_witness :
  schema_ok shop = true /\ codegen "java" shop = Some (Ok (GenerateJava shop)) /\ nested (GenerateJava shop) = true.
Proof.
  split; [vm_compute; reflexivity|]. split; [reflexivity|].
  apply (generated_text_nested "java" shop); [vm_compute; reflexivity|do 2 right; left|reflexivity].
Defined.
