(* ===== verification/Terminal.v ===== *)
(** * What the compiler prints ([compiler/main.go], with the messages of
    [compiler/compat/checker.go] and [compiler/linter/linter.go])

    [Cli] keeps printed lines as the values they format; here is their text.  The text of
    an error of the operating system or of a parser is a parameter. *)
From S2P Require Import Prelude GoStrings Ast Lexer ProtoParser Checker Linter GoText GoFiles Scaffold Cli.
Local Open Scope go_scope.

Abbreviation q := Quote.

(** ** Messages *)
Definition message_text (m : message) : text :=
  match m with
  | REMOVED_struct s => cat ["REMOVED struct "; q s]
  | REMOVED_field s f => cat ["REMOVED field "; q s; "."; q f]
  | CHANGED_tag s f old new => cat ["CHANGED tag ID of field "; q s; "."; q f; ": "; Itoa old; " → "; Itoa new]
  | CHANGED_type s f old new => cat ["CHANGED type of field "; q s; "."; q f; ": "; old; " → "; new]
  | CHANGED_to_required s f => cat ["CHANGED optional field "; q s; "."; q f; " to REQUIRED"]
  | ADDED_required_field s f => cat ["ADDED REQUIRED field "; q s; "."; q f]
  | ADDED_optional_field s f => cat ["ADDED optional field "; q s; "."; q f; " (backward compatible)"]
  | ADDED_struct s => cat ["ADDED struct "; q s; " (backward compatible)"]
  | REMOVED_enum e => cat ["REMOVED enum "; q e]
  | REMOVED_enum_value e v => cat ["REMOVED enum value "; q e; "."; q v]
  | CHANGED_enum_value e v old new => cat ["CHANGED enum integer mapping of "; q e; "."; q v; ": "; Itoa old; " → "; Itoa new]
  | ADDED_enum_value e v => cat ["ADDED enum value "; q e; "."; q v; " (backward compatible)"]
  | ADDED_enum e => cat ["ADDED enum "; q e; " (backward compatible)"]
  | REMOVED_service s => cat ["REMOVED service "; q s]
  | REMOVED_method s m => cat ["REMOVED method "; q s; "."; q m]
  | CHANGED_input s m old new => cat ["CHANGED input type of method "; q s; "."; q m; ": "; q old; " → "; q new]
  | CHANGED_output s m old new => cat ["CHANGED output type of method "; q s; "."; q m; ": "; q old; " → "; q new]
  | CHANGED_client_streaming s m => cat ["CHANGED client streaming of method "; q s; "."; q m]
  | CHANGED_server_streaming s m => cat ["CHANGED server streaming of method "; q s; "."; q m]
  | ADDED_method s m => cat ["ADDED method "; q s; "."; q m; " (backward compatible)"]
  | ADDED_service s => cat ["ADDED service "; q s; " (backward compatible)"]
  end.

Definition lint_text (l : lint) : text :=
  match l with
  | EnumCase e => cat ["Enum "; q e; " should be PascalCase"]
  | EnumValueCase v e => cat ["Enum value "; q v; " in "; q e; " should be PascalCase or snake_case"]
  | StructCase s => cat ["Struct "; q s; " should be PascalCase"]
  | FieldCase f s => cat ["Field "; q f; " in Struct "; q s; " should be snake_case"]
  | FieldID f s id => cat ["Field "; q f; " in Struct "; q s; " has invalid ID "; Itoa id; " (must be > 0)"]
  | ServiceCase s => cat ["Service "; q s; " should be PascalCase"]
  | ServiceSuffix s => cat ["Service "; q s; " should end with 'Service' suffix"]
  | MethodCase m s => cat ["Method "; q m; " in Service "; q s; " should be PascalCase"]
  end.

(** ** Reports *)
Definition no_changes : text := "  ✅ No schema changes detected.\n".
Definition breaking_verdict : text :=
  "  ⚠️  Schema has BREAKING changes. Clients must be updated before deploying.\n\n".
Definition safe_verdict : text := "  ✅ Schema is BACKWARD COMPATIBLE. Safe to deploy.\n\n".

Definition printCompatReport (r : CompatReport) (oldBase newBase : string) : text :=
  cat ["\n📋 Helix Schema Compatibility Report\n";
       cat ["   "; oldBase; " → "; newBase; "\n\n"];
       match cr_Safe r, cr_Breaking r with
       | [], [] => no_changes
       | safe, breaking =>
           cat [each safe (fun s => cat ["  ✅ "; message_text s; "\n"]);
                each breaking (fun b => cat ["  ✗  BREAKING: "; message_text b; "\n"]);
                "\n";
                if cr_HasBreaking r then breaking_verdict else safe_verdict]
       end].

Definition printViolations (file : string) (errors : list lint) : text :=
  cat [cat ["\n📋 Helix Linter Style Violations in "; file; ":\n"]; each errors (fun e => cat ["  ✗  "; lint_text e; "\n"]); "\n"].
Definition printWarnings (file : string) (violations : list lint) : text :=
  cat [cat ["⚠️  Style warnings in "; file; ":\n"]; each violations (fun v => cat ["    - "; lint_text v; "\n"])].

Definition printError (msg : text) : text := cat ["\n✗ helix-gen: "; msg; "\n\n"].

(** The text a message puts on the standard output; [None] for usage texts, prompts and
    what goes to the standard error. *)
Definition stdout_text (m : msg) : option text :=
  match m with
  | MVersion => Some "helix-gen 0.2.0\n"
  | MStyleWarnings file vs => Some (printWarnings file vs)
  | MGenerated lang out => Some (cat ["✅ Generated "; lang; " → "; out; "\n"])
  | MWatching p => Some (cat ["👀 Watching "; p; " for changes (Ctrl+C to stop)...\n"])
  | MChanged out => Some (cat ["🔄 Schema changed — regenerating "; out; "...\n"])
  | MRegenerated out => Some (cat ["✅ Generated "; out; "\n"])
  | MReport r oldBase newBase => Some (printCompatReport r oldBase newBase)
  | MViolations file vs => Some (printViolations file vs)
  | MLintOk file => Some (cat ["✅ Schema "; file; " matches Helix style guidelines!\n"])
  | MTranspiled i o => Some (cat ["✅ Transpiled schema: "; i; " -> "; o; " successfully!\n"])
  | _ => None
  end.
Definition stdout (out : list msg) : text := cat (omap stdout_text out).

(** ** Lemmas *)
Lemma str_drop_plus a n x : str_drop (String.length a + n) (String.append a x) = str_drop n x.
Proof. induction a as [|c a IH]; [done|]. exact IH. Qed.

(** A suffix that is at most as long as a piece at the end ends that piece. *)
Lemma suffix_piece (a x p t : string) : (String.length t <= String.length x)%nat ->
  HasSuffix (String.append a x) (String.append p t) = true -> HasSuffix x t = true.
Proof.
  intros Hl [r E]%HasSuffix_iff. unfold HasSuffix. rewrite andb_true_iff, Nat.leb_le, bool_decide_eq_true. split; [done|].
  pose proof (f_equal String.length E) as El. rewrite !str_length_app in El.
  pose proof (str_drop_plus a (String.length x - String.length t) x) as Hd. rewrite <- Hd, E, <- str_app_assoc.
  replace (String.length a + (String.length x - String.length t))%nat with (String.length (String.append r p))
    by (rewrite str_length_app; lia).
  apply str_drop_app.
Qed.

(** The report ends with the verdict. *)
Lemma report_verdict (r : CompatReport) oldBase newBase : (cr_HasBreaking r = true <-> cr_Breaking r <> []) ->
  HasSuffix (printCompatReport r oldBase newBase) breaking_verdict = cr_HasBreaking r.
Proof.
  intros Hb. unfold printCompatReport.
  set (tail := match cr_Safe r with [] => _ | _ => _ end).
  assert (exists pre, tail = String.append pre (if cr_HasBreaking r then breaking_verdict else
    if bool_decide (cr_Safe r = [] /\ cr_Breaking r = []) then no_changes else safe_verdict)) as [pre ->].
  { unfold tail. destruct (cr_Safe r) as [|s safe] eqn:Es, (cr_Breaking r) as [|b breaking] eqn:Eb.
    - destruct (cr_HasBreaking r); [by destruct (proj1 Hb eq_refl)|]. exists EmptyString. done.
    - rewrite (proj2 Hb) by done. eexists. cbn [cat]. rewrite <- !str_app_assoc, str_app_nil_r. reflexivity.
    - destruct (cr_HasBreaking r); [by destruct (proj1 Hb eq_refl)|]. rewrite bool_decide_false by naive_solver.
      eexists. cbn [cat]. rewrite <- !str_app_assoc, str_app_nil_r. reflexivity.
    - rewrite (proj2 Hb) by done. eexists. cbn [cat]. rewrite <- !str_app_assoc, str_app_nil_r. reflexivity. }
  assert (forall a b c d, cat [a; b; String.append c d] = String.append (cat [a; b; c]) d) as ->.
  { intros. cbn [cat]. by rewrite !str_app_nil_r, !str_app_assoc. }
  destruct (cr_HasBreaking r); [apply HasSuffix_iff; by eexists|].
  destruct (HasSuffix _ breaking_verdict) eqn:E; [|done].
  change breaking_verdict with (String.append "  ⚠️  Schema has BREAKING changes. Clients must be updated before "%go "deploying.\n\n"%go) in E.
  case_bool_decide; apply suffix_piece in E; try (vm_compute; lia); vm_compute in E; discriminate E.
Qed.

(** ** Properties *)

(** the report of [diff] tells the truth.  Run on two schemas that parse, the command
    prints one report; its last line announces breaking changes exactly when the new
    schema is not backward compatible with the old one, which is exactly when the exit
    code is 2. *)
Theorem diff_report_verdict `{MapIter} (tool : list string -> string -> fsys -> fsys) (now : Z) (rounds : list round)
    (prog oldPath newPath : string) (rest : list string) (w : world) (old new : AST) :
  load (w_fs w) oldPath = Ok old -> load (w_fs w) newPath = Ok new ->
  exists w' code txt, run (main tool now rounds (prog :: "diff" :: oldPath :: newPath :: rest)) w = (w', Exit code) /\
    stdout (w_out w') = cat [stdout (w_out w); txt] /\
    (HasSuffix txt breaking_verdict = true <-> ~ compatible old new) /\ (code = 2 <-> ~ compatible old new).
Proof.
  intros Ho Hn. unfold run.
  change (main tool now rounds (prog :: "diff" :: oldPath :: newPath :: rest)) with (runDiff (oldPath :: newPath :: rest)).
  unfold runDiff, mbind, cmd_bind. rewrite !parseIDL_load, Ho. rewrite parseIDL_load, Hn.
  destruct (diff_decides old new) as (r & -> & Hbr & Hd); [by eapply parsed_formattable, load_parsed..|].
  unfold may_panic, print, mret, cmd_ret. cbv iota beta.
  assert (cr_HasBreaking r = true <-> ~ compatible old new) as Hc by (destruct (cr_HasBreaking r); naive_solver).
  assert (stdout (w_out w ++ [MReport r (Base oldPath) (Base newPath)])
    = cat [stdout (w_out w); printCompatReport r (Base oldPath) (Base newPath)]) as Hout.
  { unfold stdout. rewrite omap_app. cbn [omap list_omap stdout_text].
    generalize (omap stdout_text (w_out w)). intros l. induction l as [|x l IH]; [done|]. cbn [cat app] in *. by rewrite IH, str_app_assoc. }
  exists {| w_fs := w_fs w; w_out := w_out w ++ [MReport r (Base oldPath) (Base newPath)]; w_in := w_in w |},
    (if cr_HasBreaking r then 2 else 0), (printCompatReport r (Base oldPath) (Base newPath)).
  split; [by destruct (cr_HasBreaking r)|]. split; [exact Hout|]. rewrite report_verdict by done. rewrite <- Hc.
  split; [done|]. by destruct (cr_HasBreaking r).
Qed.

(** Two schemas that differ in a field number. *)
Definition two_files : world := {|
  w_fs := {| cwd := []; files := {[["a.proto"] := "syntax = \qproto3\q; message A { int32 x = 1; }"%go;
                                   ["b.proto"] := "syntax = \qproto3\q; message A { int32 x = 2; }"%go]};
             dirs := {[ [] ]}; no_read := fun _ => false; no_write := fun _ => false; short_write := fun _ _ => None |};
  w_out := []; w_in := [] |}.

Lemma diff_report_verdict_witness :
  exists w' code txt, run (main (fun _ _ fs => fs) 0 [] ["helix-gen"; "diff"; "a.proto"; "b.proto"]) two_files = (w', Exit code) /\
    stdout (w_out w') = cat [""; txt] /\ HasSuffix txt breaking_verdict = true /\ code = 2.
Proof.
  destruct (load (w_fs two_files) "a.proto") as [old|e] eqn:Eo; [|vm_compute in Eo; discriminate Eo].
  destruct (load (w_fs two_files) "b.proto") as [new|e] eqn:En; [|vm_compute in En; discriminate En].
  destruct (diff_report_verdict (fun _ _ fs => fs) 0 [] "helix-gen" "a.proto" "b.proto" [] two_files old new Eo En)
    as (w' & code & txt & Hrun & Hout & Hv & Hc).
  exists w', code, txt. split; [exact Hrun|]. split; [exact Hout|].
  assert (code = 2) as H2 by (vm_compute in Hrun; injection Hrun as _ <-; reflexivity).
  split; [apply Hv, Hc, H2|exact H2].
Defined.
