(* ===== verification/Project.v ===== *)
(** * Scaffolded projects ([helix-gen init], then [helix-gen generate])

    A small program logic for commands, [ok P c Q]: from files satisfying [P], [c] returns
    (it neither exits nor panics) with a result and files satisfying [Q].  With it, the
    files [scaffold] leaves are such that the generator runs on them. *)
From S2P Require Import Prelude GoStrings Ast Lexer ProtoParser GoText GenPython OpenApi GoFiles Scaffold Cli.

(** ** The schema template parses *)
Lemma nextToken_one n s t rest : nextToken 1 s = (t, rest) -> t <> TokEOF -> nextToken (S n) s = (t, rest).
Proof.
  cbn [nextToken]. destruct (skipWhitespace s) as [|c s']; [by intros [= <- _]|].
  destruct (is_ident_start c); [done|]. destruct (is_digit c || Ascii.eqb c "-"); [done|].
  destruct (is_quote c); [done|]. destruct s' as [|c2 s'']; [done|].
  destruct (Ascii.eqb c "/" && Ascii.eqb c2 "/"); [by intros [= <- _]|done].
Qed.

Lemma tokens_step s t rest : nextToken 1 s = (t, rest) -> t <> TokEOF -> tokens_of s = t :: tokens_of rest.
Proof.
  intros Hn Ht. pose proof (nextToken_consumes _ _ _ _ Hn Ht) as Hl. unfold tokens_of at 1. cbn [lex].
  rewrite (nextToken_one _ _ _ _ Hn Ht), (lex_fuel (String.length s) (S (String.length rest)) rest) by lia. by destruct t.
Qed.

Lemma tokens_ident name c rest : valid_token (TokIdent name) = true -> is_ident_char c = false ->
  tokens_of (String " " (name +:+ String c rest)) = TokIdent name :: tokens_of (String c rest).
Proof.
  intros Hv Hc. apply tokens_step; [|done]. destruct name as [|a name]; [done|]. cbn [valid_token] in Hv.
  apply andb_true_iff in Hv as [Ha Hn]. destruct (char_classes a) as (Hw & _ & Hic & _).
  cbn [nextToken String.append]. unfold skipWhitespace. cbn [span]. change (is_ws " ") with true. cbn iota.
  rewrite (Hw Ha). cbn [snd]. rewrite Ha. cbn [span]. rewrite (Hic Ha). rewrite span_all; [done|done|]. right. by eexists _, _.
Qed.

Definition one_string (struct field : string) : StructNode :=
  {| sn_Name := struct; sn_HasFallback := false;
     sn_Fields := [{| fn_Name := field; fn_ID := 1; fn_Type := scalar TypeString; fn_Optional := false |}] |}.
Definition project_ast (name : string) : AST := {|
  Namespace := name; Enums := [];
  Structs := [one_string "PredictRequest" "prompt"; one_string "PredictResponse" "completion"];
  Services := [{| sv_Name := "ModelService"; sv_Methods := [
    {| mn_Name := "Predict"; mn_InputType := "PredictRequest"; mn_OutputType := "PredictResponse";
       mn_ClientStreaming := false; mn_ServerStreaming := false; mn_RESTMethod := ""; mn_RESTPath := "" |}] |}] |}.

(** The template after the package name. *)
Definition schema_tail : text := str_drop 29 (schema_proto "").
Lemma schema_split name : schema_proto name = "syntax = \qproto3\q;\n\npackage"%go +:+ String " " (name +:+ String ";" schema_tail).
Proof. reflexivity. Qed.

Lemma schema_parses name : valid_token (TokIdent name) = true -> ParseProto (schema_proto name) = Ok (project_ast name).
Proof.
  intros Hv. unfold ParseProto. rewrite schema_split.
  do 5 (erewrite tokens_step; [|reflexivity|done]).
  rewrite tokens_ident by done. vm_compute. reflexivity.
Qed.

(** ** Commands that return *)
Definition ok {A} (P : fsys -> Prop) (c : cmd A) (Q : A -> fsys -> Prop) : Prop :=
  forall w, P (w_fs w) -> exists w' a, c w = (w', inr a) /\ Q a (w_fs w').

Lemma ok_ret {A} (P : fsys -> Prop) (a : A) : ok P (mret a) (fun b fs => b = a /\ P fs).
Proof. intros w HP. by eexists _, _. Qed.
Lemma ok_print P m : ok P (print m) (fun _ => P).
Proof. intros w HP. by eexists _, _. Qed.
Lemma ok_bind {A B} P (c : cmd A) Q (k : A -> cmd B) R :
  ok P c Q -> (forall a, ok (Q a) (k a) R) -> ok P (c ≫= k) R.
Proof.
  intros Hc Hk w HP. destruct (Hc w HP) as (w1 & a & E1 & HQ). destruct (Hk a w1 HQ) as (w2 & b & E2 & HR).
  exists w2, b. split; [|done]. unfold mbind, cmd_bind. by rewrite E1.
Qed.
Lemma ok_seq {B} P (c : cmd ()) Q (k : cmd B) R : ok P c (fun _ => Q) -> ok Q k R -> ok P (c;; k) R.
Proof. intros Hc Hk. eapply ok_bind; [done|]. by intros []. Qed.
Lemma ok_if {A} P (b : bool) (c d : cmd A) Q : ok P c Q -> ok P d Q -> ok P (if b then c else d) Q.
Proof. by destruct b. Qed.
Lemma ok_pure {A} (φ : Prop) P (c : cmd A) Q : (φ -> ok P c Q) -> ok (fun fs => φ /\ P fs) c Q.
Proof. intros Hc w [Hφ HP]. by apply Hc. Qed.
Lemma ok_skip (P : fsys -> Prop) : ok P (mret ()) (fun _ => P).
Proof. intros w HP. by eexists _, _. Qed.

(** ** A project under construction *)
Section project.
Context (name : string) (Hname : valid_token (TokIdent name) = true) (cw : list string).

Lemma name_plain : plain_name name = true.
Proof using Hname.
  destruct name as [|a n]; [done|]. cbn [valid_token] in Hname. apply andb_true_iff in Hname as [Ha Hn].
  assert (forall c, is_ident_char c = true -> negb (is_slash c) = true) as Hs.
  { intros c. destruct c as [[] [] [] [] [] [] [] []]; vm_compute; done. }
  assert (a <> "."%char) as Hd by (by intros ->).
  unfold plain_name. apply andb_true_iff. split.
  - cbn [str_forall]. apply andb_true_iff. split; [apply Hs; by apply (char_classes a)|].
    by apply (str_forall_impl is_ident_char).
  - apply negb_true_iff. rewrite !orb_false_iff, !bool_decide_eq_false. repeat split; congruence.
Qed.

(** The names of the directories of a project. *)
Definition reserved : list (list string) := [["migrations"]; ["server"]; ["generated"]; ["src"]].
Definition at_ (cs : list string) : list string := cw ++ name :: cs.

(** The project has directories [D] and no others, the content [schema] in schema.proto,
    and no file in the place of a directory; nothing is denied, and the disk has room. *)
Record building (schema : option string) (D : list (list string)) (fs : fsys) : Prop := {
  b_cwd : cwd fs = cw;
  b_above : forall n, is_dir fs (take n cw) = true;
  b_read : forall k, no_read fs k = false;
  b_write : forall k, no_write fs k = false;
  b_room : forall k c, short_write fs k c = None;
  b_dirs : forall cs, is_dir fs (at_ cs) = bool_decide (cs ∈ D);
  b_schema : files fs !! at_ ["schema.proto"] = schema;
  b_free : forall cs, cs ∈ [] :: reserved -> files fs !! at_ cs = None
}.

Lemma at_inj cs cs' : at_ cs = at_ cs' -> cs = cs'.
Proof using. unfold at_. intros H%app_inv_head. congruence. Qed.

Lemma mkdir_dirs fs ks : Forall (fun k => is_dir fs k = true) ks -> foldl mkdir (fs, None) ks = (fs, None).
Proof using. induction 1 as [|k ks Hk _ IH]; [done|]. cbn [foldl mkdir]. by rewrite Hk. Qed.

(** The directories above the project are there. *)
Lemma MkdirAll_above fs cs : cwd fs = cw -> (forall n, is_dir fs (take n cw) = true) -> forallb plain_name cs = true ->
  MkdirAll fs (path_join (name :: cs)) = foldl mkdir (fs, None) ((fun n => at_ (take n cs)) <$> seq 0 (S (length cs))).
Proof using Hname.
  intros Hcwd Habove Hcs. assert (forallb plain_name (name :: cs) = true) as Hp by (cbn [forallb]; by rewrite name_plain).
  unfold MkdirAll. rewrite bool_decide_false by (by apply path_join_nonempty). rewrite resolve_plain, Hcwd by done.
  rewrite length_app. cbn [length]. rewrite seq_app, fmap_app, foldl_app. rewrite mkdir_dirs.
  - f_equal. rewrite <- (Nat.add_0_r (1 + length cw)), <- fmap_add_seq, <- list_fmap_compose.
    apply list_fmap_ext. intros _ n _. unfold compose, at_. replace (1 + length cw + n)%nat with (length cw + S n)%nat by lia.
    by rewrite take_app_add.
  - apply Forall_fmap, Forall_forall. intros n [_ Hn]%elem_of_seq. unfold compose.
    rewrite take_app_le by lia. apply Habove.
Qed.

Lemma mkdir_building schema D fs cs : building schema D fs -> cs ∈ [] :: reserved -> exists fs', mkdir (fs, None) (at_ cs) = (fs', None) /\
  building schema (if bool_decide (cs ∈ D) then D else cs :: D) fs'.
Proof using Hname.
  intros Hb Hr. cbn [mkdir]. rewrite (b_dirs _ _ _ Hb). case_bool_decide as Hd; [by eexists|].
  rewrite (b_free _ _ _ Hb cs Hr), (b_write _ _ _ Hb). rewrite bool_decide_false by (by intros []).
  eexists. split; [reflexivity|]. destruct Hb as [H1 H2 H3 H4 HR H5 H6 H7].
  split; try done.
  - intros n. apply (dir_mono fs); [cbn; set_solver|apply H2].
  - intros cs'. destruct (decide (cs' = cs)) as [->|Hne].
    + rewrite (bool_decide_true (cs ∈ cs :: D)) by (by left). unfold is_dir. apply orb_true_iff. right. apply bool_decide_eq_true. cbn. set_solver.
    + rewrite is_dir_add by (by intros ?%at_inj). rewrite H5. apply bool_decide_ext. rewrite elem_of_cons. naive_solver.
Qed.

Definition add_dir (cs : list string) (D : list (list string)) : list (list string) :=
  if bool_decide (cs ∈ D) then D else cs :: D.

Lemma MkdirAll_dir schema D fs d : building schema D fs -> [] ∈ D -> [d] ∈ reserved -> plain_name d = true ->
  exists fs', MkdirAll fs (path_join [name; d]) = (fs', None) /\ building schema (add_dir [d] D) fs'.
Proof using Hname.
  intros Hb Hroot Hd Hp. rewrite MkdirAll_above by (apply Hb || (cbn; by rewrite Hp)).
  cbn [length seq fmap list_fmap foldl take].
  destruct (mkdir_building schema D fs [] Hb ltac:(by left)) as (fs1 & -> & Hb1). rewrite bool_decide_true in Hb1 by done.
  apply mkdir_building; [done|by right].
Qed.

(** Writing a file of the project; [schema.proto] is the file the contents of which matter. *)
Lemma write_building schema D fs cs f c : building schema D fs -> cs ∈ D -> cs ++ [f] ∉ D ->
  forallb plain_name cs = true -> plain_name f = true -> cs ++ [f] ∉ [] :: reserved ->
  exists fs', WriteFile fs (path_join (name :: cs ++ [f])) c = (fs', None) /\
    files fs' = <[at_ (cs ++ [f]) := c]> (files fs) /\
    building (if bool_decide (cs ++ [f] = ["schema.proto"]) then Some c else schema) D fs'.
Proof using Hname.
  intros Hb Hdir Hnew Hcs Hf Hres.
  assert (forallb plain_name (name :: cs ++ [f]) = true) as Hp.
  { cbn [forallb]. rewrite forallb_app, name_plain, Hcs. cbn. by rewrite Hf. }
  unfold WriteFile. rewrite bool_decide_false by (by apply path_join_nonempty). rewrite resolve_plain by done.
  rewrite (b_cwd _ _ _ Hb). fold (at_ (cs ++ [f])). rewrite (b_dirs _ _ _ Hb), bool_decide_false by done.
  rewrite path_join_plain, slash_end_plain by done. cbn [orb].
  assert (parent (at_ (cs ++ [f])) = at_ cs) as ->.
  { unfold parent, at_. change (cw ++ name :: cs ++ [f]) with (cw ++ (name :: cs) ++ [f]). rewrite app_assoc, length_app, Nat.add_sub. apply take_app_length. }
  rewrite (b_dirs _ _ _ Hb), bool_decide_true, (b_write _ _ _ Hb) by done. cbn [negb]. rewrite (b_room _ _ _ Hb).
  eexists. split; [reflexivity|]. split; [reflexivity|]. destruct Hb as [H1 H2 H3 H4 HR H5 H6 H7].
  split; try done; cbn [files set_files].
  - case_bool_decide as Hs; [rewrite Hs; apply lookup_insert_eq|]. rewrite lookup_insert_ne; [done|]. by intros E%at_inj.
  - intros cs' Hc. rewrite lookup_insert_ne; [by apply H7|]. intros E%at_inj. congruence.
Qed.

(** A project with at least the directories [D]. *)
Definition site (schema : option string) (D : list (list string)) (fs : fsys) : Prop :=
  exists D', [] ∈ D' /\ D ⊆ D' /\ D' ⊆ [] :: reserved /\ building schema D' fs.

Lemma ok_weaken {A} schema D D' P (c : cmd A) : D' ⊆ D -> ok P c (fun _ => site schema D) -> ok P c (fun _ => site schema D').
Proof using Hname.
  intros Hsub Hc w HP. destruct (Hc w HP) as (w' & a & E & D1 & H1 & H2 & H3). exists w', a. split; [done|].
  exists D1. split; [done|]. split; [set_solver|done].
Qed.

Lemma ok_mkdirs schema D d : [d] ∈ reserved -> plain_name d = true ->
  ok (site schema D) (mkdirs (path_join [name; d])) (fun _ => site schema ([d] :: D)).
Proof using Hname.
  intros Hd Hp w (D' & H1 & H2 & H3 & Hb). destruct (MkdirAll_dir schema D' (w_fs w) d Hb H1 Hd Hp) as (fs' & E & Hb').
  unfold mkdirs, mbind, cmd_bind, mkdir_all. rewrite E. eexists _, _. split; [reflexivity|].
  exists (add_dir [d] D'). unfold add_dir in *. case_bool_decide; (split; [set_solver|]; split; [set_solver|]; split; [set_solver|done]).
Qed.

Lemma ok_writeFile schema D cs f c : cs ∈ [] :: D -> forallb plain_name cs = true -> plain_name f = true ->
  cs ++ [f] ∉ [] :: reserved ->
  ok (site schema D) (writeFile (path_join (name :: cs ++ [f])) c)
    (fun _ => site (if bool_decide (cs ++ [f] = ["schema.proto"]) then Some c else schema) D).
Proof using Hname.
  intros Hdir Hcs Hf Hres w (D' & H1 & H2 & H3 & Hb).
  destruct (write_building schema D' (w_fs w) cs f c Hb) as (fs' & E & _ & Hb'); try done; [set_solver..|].
  unfold writeFile, mbind, cmd_bind, write_file. rewrite E. eexists _, _. split; [reflexivity|]. by exists D'.
Qed.

(** The same for a path given by its parts. *)
Lemma ok_write schema D cs c : removelast cs ∈ [] :: D -> cs <> [] -> forallb plain_name cs = true ->
  cs ∉ [["schema.proto"]] ++ [] :: reserved ->
  ok (site schema D) (writeFile (path_join (name :: cs)) c) (fun _ => site schema D).
Proof using Hname.
  intros Hdir Hne Hp Hres. destruct cs as [|f cs _] using rev_ind; [done|].
  rewrite removelast_last in Hdir. rewrite forallb_app in Hp. apply andb_true_iff in Hp as [Hcs Hf]. cbn in Hf.
  rewrite andb_true_r in Hf. pose proof (ok_writeFile schema D cs f c Hdir Hcs Hf) as Hok.
  rewrite bool_decide_false in Hok by set_solver. apply Hok. set_solver.
Qed.

Ltac closed := apply (bool_decide_unpack _); vm_compute; exact I.
Ltac wr := apply ok_write; [closed|done|done|closed].
Ltac md := apply ok_mkdirs; [closed|done].
Ltac db := unfold database_file; apply ok_if; [wr|apply ok_if; [wr|apply ok_skip]].

Lemma ok_go schema dbType : ok (site schema []) (scaffold_go name name dbType) (fun _ => site schema []).
Proof using Hname.
  apply ok_weaken with (D := [["generated"]; ["server"]]); [closed|].
  eapply ok_seq; [md|]. eapply ok_seq; [md|]. eapply ok_seq; [db|]. eapply ok_seq; [wr|]. wr.
Qed.
Lemma ok_python schema dbType : ok (site schema []) (scaffold_python name name dbType) (fun _ => site schema []).
Proof using Hname.
  apply ok_weaken with (D := [["generated"]]); [closed|]. eapply ok_seq; [md|]. eapply ok_seq; [db|]. wr.
Qed.
Lemma ok_rust schema dbType : ok (site schema []) (scaffold_rust name name dbType) (fun _ => site schema []).
Proof using Hname.
  apply ok_weaken with (D := [["generated"]; ["src"]]); [closed|].
  eapply ok_seq; [md|]. eapply ok_seq; [md|]. eapply ok_seq; [db|]. eapply ok_seq; [wr|]. wr.
Qed.
Lemma ok_node schema dbType : ok (site schema []) (scaffold_node name name dbType) (fun _ => site schema []).
Proof using Hname.
  apply ok_weaken with (D := [["generated"]; ["src"]]); [closed|].
  eapply ok_seq; [md|]. eapply ok_seq; [md|]. eapply ok_seq; [db|]. eapply ok_seq; [wr|]. eapply ok_seq; [wr|]. wr.
Qed.

Lemma path_join_name : path_join [name] = name.
Proof using Hname. rewrite path_join_plain; [done|]. cbn [forallb]. by rewrite name_plain. Qed.

Lemma path_join_nested cs f : forallb plain_name cs = true -> plain_name f = true ->
  path_join [path_join (name :: cs); f] = path_join (name :: cs ++ [f]).
Proof using Hname.
  intros Hcs Hf. assert (forallb plain_name (name :: cs) = true) as Hp by (cbn [forallb]; by rewrite name_plain).
  assert (drop_empty [path_join (name :: cs); f] = [path_join (name :: cs); f]) as Hd.
  { pose proof (path_join_nonempty name cs Hp). by destruct (path_join (name :: cs)). }
  unfold path_join at 1. rewrite Hd. rewrite path_join_plain by done. cbn [Join].
  change (name :: cs ++ [f]) with ((name :: cs) ++ [f]). unfold path_join.
  assert (drop_empty ((name :: cs) ++ [f]) = (name :: cs) ++ [f]) as ->.
  { pose proof name_plain as Hn. cbn [app]. by destruct name. }
  pose proof (Join_snoc (name :: cs) f "/" ltac:(done)) as Hj. cbn [app Join] in Hj |- *. by rewrite Hj.
Qed.

Lemma ok_mkdir_base : ok (building None []) (mkdir_all name) (fun err fs => err = None /\ site None [] fs).
Proof using Hname.
  intros w Hb. rewrite <- path_join_name. unfold mkdir_all. rewrite MkdirAll_above by (apply Hb || done).
  cbn [length seq fmap list_fmap foldl take].
  destruct (mkdir_building None [] (w_fs w) [] Hb ltac:(by left)) as (fs1 & -> & Hb1). rewrite bool_decide_false in Hb1 by set_solver.
  eexists _, _. split; [reflexivity|]. split; [done|]. exists [[]]. split; [by left|]. split; [set_solver|]. split; [set_solver|done].
Qed.

Lemma ok_migrations schema dbType :
  ok (site schema []) (if mysql dbType then mkdirs (path_join [name; "migrations"]);;
         writeFile (path_join [path_join [name; "migrations"]; "0001_init.sql"]) init_sql else mret ())
    (fun _ => site schema []).
Proof using Hname.
  apply ok_if; [|apply ok_skip]. apply ok_weaken with (D := [["migrations"]]); [closed|].
  rewrite path_join_nested by done. eapply ok_seq; [md|]. apply (ok_write _ _ ["migrations"; "0001_init.sql"]); [closed|done|done|closed].
Qed.

Context (tool : list string -> string -> fsys -> fsys).
Definition schema_text : option string := Some (schema_proto name).

(** The files [scaffold] leaves, before and after the dependency command. *)
Definition scaffolded (fs : fsys) : Prop :=
  exists fs0, site schema_text [] fs0 /\ (fs = fs0 \/ exists argv, fs = tool argv name fs0).

Lemma ok_tool argv : ok (site schema_text []) (on_files (tool argv name)) (fun _ => scaffolded).
Proof using. intros w Hs. eexists _, _. split; [reflexivity|]. eexists. split; [done|]. right. by eexists. Qed.
Lemma ok_no_tool : ok (site schema_text []) (mret ()) (fun _ => scaffolded).
Proof using. intros w Hs. eexists _, _. split; [reflexivity|]. eexists. split; [done|]. by left. Qed.

Lemma ok_scaffold lang dbType b1 b2 b3 b4 :
  ok (building None []) (scaffold tool name lang dbType b1 b2 b3 b4) (fun err fs => err = None /\ scaffolded fs).
Proof using Hname.
  eapply ok_bind; [apply ok_mkdir_base|]. intros err. apply ok_pure. intros ->.
  eapply ok_seq.
  { apply (ok_writeFile None [] [] "schema.proto" (schema_proto name)); [by left|done|done|closed]. }
  rewrite bool_decide_true by done. fold schema_text.
  do 3 (eapply ok_seq; [wr|]).
  eapply ok_seq; [apply ok_migrations|].
  eapply ok_seq; [repeat (apply ok_if; [apply ok_go || apply ok_python || apply ok_rust || apply ok_node|]); apply ok_skip|].
  eapply ok_seq; [apply ok_print|].
  eapply ok_seq; [repeat (apply ok_if; [apply ok_tool|]); apply ok_no_tool|].
  intros w Hs. by eexists _, _.
Qed.

(** What the dependency command leaves alone: the schema, the output path and its directory. *)
Definition untouched (file : string) (fs fs' : fsys) : Prop :=
  cwd fs' = cwd fs /\ no_read fs' = no_read fs /\ no_write fs' = no_write fs /\ short_write fs' = short_write fs /\ dirs fs ⊆ dirs fs' /\
  forall cs, cs ∈ [["schema.proto"]; ["generated"]; ["generated"; file]] ->
    files fs' !! at_ cs = files fs !! at_ cs /\ is_dir fs' (at_ cs) = is_dir fs (at_ cs).

(** All [generate] needs. *)
Record usable (file : string) (fs : fsys) : Prop := {
  u_cwd : cwd fs = cw;
  u_above : forall n, is_dir fs (take n cw) = true;
  u_root : is_dir fs (at_ []) = true;
  u_read : forall k, no_read fs k = false;
  u_write : forall k, no_write fs k = false;
  u_room : forall k c, short_write fs k c = None;
  u_schema : files fs !! at_ ["schema.proto"] = schema_text;
  u_file : is_dir fs (at_ ["schema.proto"]) = false;
  u_gen : is_dir fs (at_ ["generated"]) = true \/ files fs !! at_ ["generated"] = None;
  u_out : is_dir fs (at_ ["generated"; file]) = false
}.

Lemma site_usable file fs : site schema_text [] fs -> usable file fs.
Proof using.
  intros (D & Hroot & _ & Hsub & [H1 H2 H3 H4 HR H5 H6 H7]). split; try done.
  - by rewrite H5, bool_decide_true.
  - rewrite H5. apply bool_decide_eq_false. intros Hin. apply Hsub in Hin. revert Hin. closed.
  - right. apply H7. right. closed.
  - rewrite H5. apply bool_decide_eq_false. intros Hin. apply Hsub in Hin. repeat (apply elem_of_cons in Hin as [Hin|Hin]; [done|]).
    by apply elem_of_nil in Hin.
Qed.

Lemma untouched_usable file fs fs' : untouched file fs fs' -> usable file fs -> usable file fs'.
Proof using.
  intros (E1 & E2 & E3 & ER & E4 & E5) [H1 H2 H3 H4 H5 HR H6 H7 H8 H9].
  destruct (E5 ["schema.proto"]) as [Fs Ds]; [left|]. destruct (E5 ["generated"]) as [Fg Dg]; [right; left|].
  destruct (E5 ["generated"; file]) as [Fo Do]; [right; right; left|].
  split; [congruence|intros n; exact (dir_mono _ _ _ E4 (H2 n))|exact (dir_mono _ _ _ E4 H3)|intros k; by rewrite E2
    |intros k; by rewrite E3|intros k c; by rewrite ER|congruence|congruence| |congruence].
  destruct H8; [left|right]; congruence.
Qed.

Lemma scaffolded_usable file fs : (forall argv fs, untouched file fs (tool argv name fs)) -> scaffolded fs -> usable file fs.
Proof using.
  intros Ht (fs0 & Hs & [->|[argv ->]]); [by apply site_usable|].
  by apply (untouched_usable file fs0), site_usable.
Qed.

(** [generate] on such a project. *)
Lemma generate_usable `{MapIter} file lang txt w : usable file (w_fs w) -> plain_name file = true ->
  codegen lang (project_ast name) = Some (Ok txt) ->
  exists w', generate (path_join [name; "schema.proto"]) lang (path_join [name; "generated"; file]) w = (w', inr None) /\
    files (w_fs w') !! at_ ["generated"; file] = Some txt.
Proof using Hname.
  intros [H1 H2 H3 H4 H5 HR H6 H7 H8 H9] Hf Hgen. set (fs := w_fs w) in *.
  assert (forallb plain_name [name; "schema.proto"] = true) as Hp1 by (cbn [forallb]; by rewrite name_plain).
  assert (forallb plain_name [name; "generated"; file] = true) as Hp2 by (cbn [forallb]; by rewrite name_plain, Hf).
  assert (ReadFile fs (path_join [name; "schema.proto"]) = Ok (schema_proto name)) as Hread.
  { unfold ReadFile. rewrite bool_decide_false by (by apply path_join_nonempty). rewrite resolve_plain, H1 by done.
    fold (at_ ["schema.proto"]). rewrite H7, H6, H4. by rewrite path_join_plain, slash_end_plain. }
  assert (exists fs1, MkdirAll fs (path_join [name; "generated"]) = (fs1, None) /\
    is_dir fs1 (at_ ["generated"]) = true /\ is_dir fs1 (at_ ["generated"; file]) = false /\ same_files fs fs1) as (fs1 & Hmk & Hd1 & Ho1 & Hs1).
  { rewrite MkdirAll_above by done. cbn [length seq fmap list_fmap foldl take]. unfold mkdir at 2. rewrite H3.
    destruct (mkdir_one fs (at_ ["generated"]) (H5 _) H8) as (fs1 & E & Hd & Hs & Hk). exists fs1.
    split; [exact E|]. split; [done|]. split; [|done]. rewrite Hk; [done|]. by intros ?%at_inj. }
  destruct Hs1 as (Hc1 & Hf1 & _ & Hw1 & Hr1 & _).
  assert (exists fs2, WriteFile fs1 (path_join [name; "generated"; file]) txt = (fs2, None)) as [fs2 Hwr].
  { eexists. unfold WriteFile. rewrite bool_decide_false by (by apply path_join_nonempty). rewrite resolve_plain, Hc1, H1 by done.
    fold (at_ ["generated"; file]). rewrite Ho1. rewrite path_join_plain, slash_end_plain by done. cbn [orb].
    assert (parent (at_ ["generated"; file]) = at_ ["generated"]) as ->.
    { unfold parent, at_. change (cw ++ [name; "generated"; file]) with (cw ++ [name; "generated"] ++ [file]).
      rewrite app_assoc, length_app, Nat.add_sub. apply take_app_length. }
    rewrite Hd1, Hw1, H5, Hr1, HR. reflexivity. }
  unfold generate, mbind, cmd_bind. cbn [read_file]. fold fs. rewrite Hread.
  change [name; "schema.proto"] with (name :: [] ++ ["schema.proto"]).
  rewrite Ext_plain by (cbn [forallb]; by rewrite ?name_plain). change (default "" (last_dot "schema.proto")) with ".proto".
  unfold parse_ext. rewrite bool_decide_true, schema_parses by done. rewrite Hgen.
  assert (Dir (path_join [name; "generated"; file]) = path_join [name; "generated"]) as ->.
  { apply (Dir_plain name ["generated"] file); [cbn [forallb]; by rewrite name_plain|done]. }
  set (pre := if bool_decide (Linter.Lint _ = []) then _ else _).
  assert (exists w1, pre w = (w1, inr ()) /\ w_fs w1 = fs) as (w1 & -> & Hfs) by (unfold pre; case_bool_decide; eexists; split; reflexivity).
  unfold mkdir_all, write_file. rewrite Hfs, Hmk. cbn [w_fs set_fs]. rewrite Hwr. eexists. split; [reflexivity|].
  apply write_inv in Hwr as ->. cbn [w_fs set_fs print fst files set_files]. rewrite resolve_plain, Hc1, H1 by done.
  apply lookup_insert_eq.
Qed.
End project.

(** ** Properties *)

(** A place for a new project: the working directory is there, nothing under the name of
    the project is, the process may read and write everywhere, and the disk has room. *)
Definition fresh (name : string) (fs : fsys) : Prop :=
  (forall n, is_dir fs (take n (cwd fs)) = true) /\ (forall k, no_read fs k = false) /\ (forall k, no_write fs k = false) /\
  (forall k c, short_write fs k c = None) /\
  (forall cs, is_dir fs (cwd fs ++ name :: cs) = false) /\ (forall cs, files fs !! (cwd fs ++ name :: cs) = None).

Lemma fresh_building name fs : fresh name fs -> building name (cwd fs) None [] fs.
Proof.
  intros (H1 & H2 & H3 & HR & H4 & H5). split; [done|done|done|done|done| |apply H5|intros cs _; apply H5].
  intros cs. unfold at_. rewrite H4. symmetry. apply bool_decide_eq_false, not_elem_of_nil.
Qed.

Section cli_project.
Context `{MapIter} (tool : list string -> string -> fsys -> fsys).

Lemma ident_arg name : valid_token (TokIdent name) = true -> HasPrefix name "-" = false /\ name <> "".
Proof using.
  destruct name as [|a n]; [done|]. cbn [valid_token]. intros [Ha _]%andb_true_iff. split; [|done].
  destruct (HasPrefix (String a n) "-") eqn:E; [|done]. apply bool_decide_eq_true in E. cbn in E. injection E as ->. by vm_compute in Ha.
Qed.

Lemma run_init name lang w : valid_token (TokIdent name) = true -> fresh name (w_fs w) ->
  exists w', runInit tool [name; "--lang"; lang] w = (w', inr ()) /\ scaffolded name (cwd (w_fs w)) tool (w_fs w').
Proof using.
  intros Hv Hf. destruct (ident_arg name Hv) as [Hd Hne].
  assert (split_args [name; "--lang"; lang] "" [] = (name, ["--lang"; lang])) as Hs by (cbn [split_args]; by rewrite Hd).
  unfold runInit. rewrite Hs.
  assert (forall spec, flag_parse "init" (("lang", FString) :: spec) ["--lang"; lang] = mret (<["lang" := lang]> ∅)) as -> by done.
  rewrite (bool_decide_false (name = "")) by done. cbn [andb].
  destruct (ok_scaffold name Hv (cwd (w_fs w)) tool lang "none" false false false false w (fresh_building _ _ Hf))
    as (w' & err & E & -> & Hsc).
  exists w'. split; [|done]. unfold mbind, cmd_bind, mret, cmd_ret. unfold flag_string. rewrite lookup_insert_eq.
  rewrite (lookup_insert_ne _ "lang" "db") by done. cbn [default]. unfold flag_bool.
  rewrite !(lookup_insert_ne _ "lang") by done. rewrite !lookup_empty. cbn. rewrite bool_decide_false by done.
  change (bool_decide (None = Some "true")) with false. by rewrite E.
Qed.

(** C28: a scaffolded project generates.  For every service name that is an identifier of
    the schema language, in any place that is free on a disk with room ([fresh]), [init name --lang lang] exits with 0
    for whatever language is asked for, and [generate] on the schema it wrote then exits
    with 0 for every language of the generator and leaves exactly that generator's text
    for the template schema in the output file; the dependency command that [init] runs
    in between is only assumed to leave the schema and the output path alone. *)
Theorem init_then_generate (now : Z) (rounds : list round) (prog name lang genLang file : string) (txt : text) (w : world) :
  valid_token (TokIdent name) = true -> fresh name (w_fs w) -> plain_name file = true ->
  (forall argv fs, untouched name (cwd (w_fs w)) file fs (tool argv name fs)) ->
  codegen genLang (project_ast name) = Some (Ok txt) ->
  exists w1 w2, run (main tool now rounds [prog; "init"; name; "--lang"; lang]) w = (w1, Exit 0) /\
    run (main tool now rounds [prog; "generate"; "-idl"; path_join [name; "schema.proto"]; "-lang"; genLang;
           "-out"; path_join [name; "generated"; file]]) w1 = (w2, Exit 0) /\
    files (w_fs w2) !! (cwd (w_fs w) ++ [name; "generated"; file]) = Some txt.
Proof using.
  intros Hv Hf Hp Ht Hg. destruct (run_init name lang w Hv Hf) as (w1 & E1 & Hs). exists w1.
  pose proof (scaffolded_usable name (cwd (w_fs w)) tool file (w_fs w1) Ht Hs) as Hu.
  destruct (generate_usable name Hv (cwd (w_fs w)) file genLang txt w1 Hu Hp Hg) as (w2 & E2 & Hw2). exists w2.
  assert (forallb plain_name [name; "schema.proto"] = true) as Hp1 by (cbn [forallb]; by rewrite name_plain).
  assert (forallb plain_name [name; "generated"; file] = true) as Hp2 by (cbn [forallb]; by rewrite name_plain, ?Hp).
  apply path_join_nonempty in Hp1, Hp2.
  set (p1 := path_join [name; "schema.proto"]) in *. set (p2 := path_join [name; "generated"; file]) in *. clearbody p1 p2.
  split; [|split; [|exact Hw2]].
  - unfold run. change (main tool now rounds [prog; "init"; name; "--lang"; lang]) with (runInit tool [name; "--lang"; lang]). by rewrite E1.
  - unfold run. change (main tool now rounds _) with (runGenerate now rounds ["-idl"; p1; "-lang"; genLang; "-out"; p2]).
    unfold runGenerate. unfold flag_parse.
    assert (forall spec vals, parse_flags (("idl", FString) :: ("lang", FString) :: ("out", FString) :: spec) vals ["-idl"; p1; "-lang"; genLang; "-out"; p2]
      = Ok (<["out" := p2]> (<["lang" := genLang]> (<["idl" := p1]> vals)))) as -> by done.
    unfold mbind, cmd_bind, mret, cmd_ret, flag_string.
    rewrite lookup_insert_eq, (lookup_insert_ne _ "out" "lang"), (lookup_insert_ne _ "out" "idl"), lookup_insert_eq,
      (lookup_insert_ne _ "lang" "idl"), lookup_insert_eq by done. cbn [default].
    rewrite !bool_decide_false by done. cbn [orb]. unfold id. rewrite E2.
    unfold flag_bool. by rewrite !lookup_insert_ne by done.
Qed.
End cli_project.

(** An empty home directory. *)
Definition home : fsys := {| cwd := ["home"]; files := ∅; dirs := {[["home"]]}; no_read := fun _ => false; no_write := fun _ => false; short_write := fun _ _ => None |}.
Definition start : world := {| w_fs := home; w_out := []; w_in := [] |}.

Lemma home_fresh name : fresh name home.
Proof.
  split; [by intros [|[|n]]|]. split; [done|]. split; [done|]. split; [done|]. split; [|done].
  intros cs. unfold is_dir. cbn [dirs cwd home app]. rewrite !bool_decide_false; [done| |done]. set_solver.
Qed.

Lemma init_then_generate_witness :
  exists w1 w2, run (main (fun _ _ fs => fs) 0 [] ["helix-gen"; "init"; "shop"; "--lang"; "go"]) start = (w1, Exit 0) /\
    run (main (fun _ _ fs => fs) 0 [] ["helix-gen"; "generate"; "-idl"; "shop/schema.proto"; "-lang"; "go"; "-out"; "shop/generated/generated.go"]) w1
      = (w2, Exit 0) /\
    files (w_fs w2) !! ["home"; "shop"; "generated"; "generated.go"] = Some (GenGo.GenerateGo (project_ast "shop")).
Proof.
  exact (init_then_generate (fun _ _ fs => fs) 0 [] "helix-gen" "shop" "go" "go" "generated.go" _ start
    ltac:(reflexivity) (home_fresh "shop") ltac:(reflexivity)
    ltac:(intros; unfold untouched; split_and!; done) ltac:(reflexivity)).
Defined.

(** The name of the documentation, [my-service], is not an identifier: [init] exits with 0
    and [generate] on the schema it wrote exits with 1. *)
Theorem documented_name_fails :
  exists w1 w2, run (main (fun _ _ fs => fs) 0 [] ["helix-gen"; "init"; "my-service"; "--lang"; "go"]) start = (w1, Exit 0) /\
    run (main (fun _ _ fs => fs) 0 [] ["helix-gen"; "generate"; "-idl"; "my-service/schema.proto"; "-lang"; "go"; "-out"; "my-service/generated/generated.go"]) w1
      = (w2, Exit 1).
Proof.
  set (r := run _ start). destruct r as [w1 s1] eqn:E1. exists w1. set (r2 := run _ w1). destruct r2 as [w2 s2] eqn:E2. exists w2.
  assert (s1 = Exit 0) as -> by (change s1 with (snd (w1, s1)); rewrite <- E1; vm_compute; reflexivity).
  assert (s2 = Exit 1) as ->; [|split; reflexivity].
  change s2 with (snd (w2, s2)). rewrite <- E2. unfold r2. assert (w1 = fst r) as -> by (by rewrite E1). vm_compute. reflexivity.
Qed.
