(* ===== verification/SchemaController.v ===== *)
(** * The schema controller ([compiler/k8s/controller.go])

    Watch events go through a channel of 100 places to a background loop, which compiles
    the schema of each.  [Start] and [Stop] run against a context; every start makes a
    loop of its own with a cancel function.  The system is a step relation: publishers,
    the owner calling [Start] and [Stop], the cancellation of a parent context, and the
    loops, whose [select] takes either ready case.

    The compiler behind [CompilerInterface] is a parameter. *)
From S2P Require Import Prelude GoStrings GoFiles.

Record HelixSchemaSpec := { IDLContent : string; Language : string; OutputDirectory : string }.
Record HelixSchema := { hs_Name : string; hs_Namespace : string; hs_Spec : HelixSchemaSpec }.
Inductive EventType := EventAdded | EventUpdated | EventDeleted | EventOther (s : string).
Record SchemaEvent := { ev_Type : EventType; ev_Object : HelixSchema }.

(** What the logger is told. *)
Inductive log_line :=
| LStarted (namespace name : string)
| LFailed (name : string)
| LCompiled (namespace name : string)
| LDeleted (namespace name : string).

Section controller.
(** [Compile(idlPath, language, outDir)]: the files afterwards and whether it failed. *)
Context (compile : string -> string -> string -> fsys -> fsys * bool).

(** [os.RemoveAll] *)
Definition under (k k' : list string) : bool := bool_decide (take (length k) k' = k).
Definition RemoveAll (k : list string) (fs : fsys) : fsys :=
  set_dirs (set_files fs (filter (fun kv => under k (fst kv) = false) (files fs)))
    (filter (fun k' => under k k' = false) (dirs fs)).

(** [os.MkdirTemp]: a directory under the system's one with a fresh name, which is
    given; [None] when it cannot be made. *)
Definition temp_path (fresh : string) : string := path_join ["/tmp"; String.append "helix-k8s-" fresh].
Definition MkdirTemp (fresh : string) (fs : fsys) : option fsys :=
  let k := resolve fs (temp_path fresh) in
  if is_dir fs k || bool_decide (is_Some (files fs !! k)) then None
  else match mkdir (fs, None) k with (fs', None) => Some fs' | _ => None end.

Definition reconcile (fresh : string) (schema : HelixSchema) (fs : fsys) : fsys * bool :=
  match MkdirTemp fresh fs with
  | None => (fs, false)
  | Some fs =>
      let tempDir := temp_path fresh in
      let clean := RemoveAll (resolve fs tempDir) in
      let idlFile := path_join [tempDir; "schema.proto"] in
      match WriteFile fs idlFile (IDLContent (hs_Spec schema)) with
      | (fs, Some _) => (clean fs, false)
      | (fs, None) =>
          let '(fs, failed) := compile idlFile (Language (hs_Spec schema)) (OutputDirectory (hs_Spec schema)) fs in
          (clean fs, negb failed)
      end
  end.

Definition processEvent (fresh : string) (event : SchemaEvent) (fs : fsys) : fsys * list log_line :=
  let obj := ev_Object event in
  match ev_Type event with
  | EventAdded | EventUpdated =>
      let '(fs, ok) := reconcile fresh obj fs in
      (fs, [LStarted (hs_Namespace obj) (hs_Name obj);
            if ok then LCompiled (hs_Namespace obj) (hs_Name obj) else LFailed (hs_Name obj)])
  | EventDeleted => (fs, [LDeleted (hs_Namespace obj) (hs_Name obj)])
  | EventOther _ => (fs, [])
  end.

(** ** The running system *)

(** A loop with the state of its context: cancelled by [Stop], or by the parent. *)
Record loop := { l_cancelled : bool; l_done : bool }.
Record SchemaController := {
  running : bool;
  eventsChan : list SchemaEvent;   (* oldest first *)
  loops : list loop;               (* the last one is the one [cancel] is for *)
  received : list SchemaEvent;     (* in the order the loops took them *)
  published : list SchemaEvent
}.
Definition NewSchemaController : SchemaController :=
  {| running := false; eventsChan := []; loops := []; received := []; published := [] |}.

Definition cancel_last (ls : list loop) : list loop :=
  match rev ls with
  | [] => []
  | l :: r => rev ({| l_cancelled := true; l_done := l_done l |} :: r)
  end.

Definition Start (parent_done : bool) (c : SchemaController) : SchemaController :=
  if running c then c
  else {| running := true; eventsChan := eventsChan c;
          loops := loops c ++ [{| l_cancelled := parent_done; l_done := false |}];
          received := received c; published := published c |}.

Definition Stop (c : SchemaController) : SchemaController :=
  if negb (running c) then c
  else {| running := false; eventsChan := eventsChan c; loops := cancel_last (loops c);
          received := received c; published := published c |}.

(** [c.eventsChan <- event]: [None] while the channel is full. *)
Definition PublishEvent (event : SchemaEvent) (c : SchemaController) : option SchemaController :=
  if (length (eventsChan c) <? 100)%nat then
    Some {| running := running c; eventsChan := eventsChan c ++ [event]; loops := loops c;
            received := received c; published := published c ++ [event] |}
  else None.

Definition set_loops (ls : list loop) (c : SchemaController) : SchemaController :=
  {| running := running c; eventsChan := eventsChan c; loops := ls; received := received c; published := published c |}.

Inductive ctl_step : SchemaController -> SchemaController -> Prop :=
| step_start d c : ctl_step c (Start d c)
| step_stop c : ctl_step c (Stop c)
| step_publish e c c' : PublishEvent e c = Some c' -> ctl_step c c'
| step_parent i l c : loops c !! i = Some l ->
    ctl_step c (set_loops (<[i := {| l_cancelled := true; l_done := l_done l |}]> (loops c)) c)
| step_exit i l c : loops c !! i = Some l -> l_done l = false -> l_cancelled l = true ->
    ctl_step c (set_loops (<[i := {| l_cancelled := true; l_done := true |}]> (loops c)) c)
| step_receive i l e q c : loops c !! i = Some l -> l_done l = false -> eventsChan c = e :: q ->
    ctl_step c {| running := running c; eventsChan := q; loops := loops c;
                  received := received c ++ [e]; published := published c |}.

(** ** Lemmas *)
Lemma under_spec k k' : under k k' = true <-> exists r, k' = k ++ r.
Proof using.
  unfold under. rewrite bool_decide_eq_true. split.
  - intros E. exists (drop (length k) k'). by rewrite <- E at 1; rewrite take_drop.
  - intros [r ->]. apply take_app_length.
Qed.

Lemma RemoveAll_files k fs k' : files (RemoveAll k fs) !! k' = if under k k' then None else files fs !! k'.
Proof using.
  cbn [RemoveAll set_dirs set_files files]. destruct (under k k') eqn:E.
  - apply map_lookup_filter_None. right. intros x _. cbn. congruence.
  - destruct (files fs !! k') as [x|] eqn:Ef.
    + apply map_lookup_filter_Some. by split.
    + apply map_lookup_filter_None. by left.
Qed.

Definition ctl_inv (c : SchemaController) : Prop :=
  received c ++ eventsChan c = published c /\ (length (eventsChan c) <= 100)%nat.

Lemma ctl_inv_step c c' : ctl_step c c' -> ctl_inv c -> ctl_inv c'.
Proof using.
  intros Hs [H1 H2]. destruct Hs as [d c|c|e c c' Hp|i l c Hl|i l c Hl Hd Hc|i l e q c Hl Hd Hq].
  - unfold Start. by destruct (running c).
  - unfold Stop. by destruct (running c).
  - unfold PublishEvent in Hp. destruct (Nat.ltb_spec (length (eventsChan c)) 100) as [Hlt|]; [|done]. simplify_eq.
    split; cbn; [by rewrite app_assoc, H1|rewrite length_app; cbn; lia].
  - done.
  - done.
  - split; cbn; [by rewrite <- H1, Hq, <- app_assoc|]. rewrite Hq in H2. cbn in H2. lia.
Qed.

(** *** The temporary directory *)
Lemma rooted_components x rest : plain_name x = true -> forallb plain_name rest = true ->
  components true [] (String "/" (Join ("tmp" :: x :: rest) "/")) = "tmp" :: x :: rest.
Proof using.
  intros Hx Hr. pose proof (components_plain true [] ("tmp" :: x :: rest) ltac:(done)) as H.
  unfold components in *. cbn [forallb] in H. rewrite Hx, Hr in H. cbn [Split]. change (Ascii.eqb "/" "/") with true. cbn iota.
  cbn [foldl rev app]. change (push_component true [] "") with (@nil string). by apply H.
Qed.

Lemma rooted_join x rest : plain_name x = true -> forallb plain_name rest = true ->
  path_join ("/tmp" :: x :: rest) = String "/" (Join ("tmp" :: x :: rest) "/").
Proof using.
  intros Hx Hr. cbn [path_join drop_empty]. change (Join ("/tmp" :: x :: rest) "/") with (String "/" (Join ("tmp" :: x :: rest) "/")).
  unfold Clean. change (rooted (String "/" _)) with true. rewrite rooted_components by done. done.
Qed.

Lemma temp_file x f : plain_name x = true -> plain_name f = true ->
  path_join [path_join ["/tmp"; x]; f] = path_join ["/tmp"; x; f].
Proof using.
  intros Hx Hf. rewrite !rooted_join by (try done; cbn; by rewrite Hf).
  cbn [path_join drop_empty]. change (Join [String "/" (Join ["tmp"; x] "/"); f] "/") with (String "/" (("tmp/" +:+ x) +:+ "/" +:+ f)).
  rewrite str_app_assoc. change (String "/" ("tmp/" +:+ x +:+ "/" +:+ f)) with (String "/" (Join ["tmp"; x; f] "/")).
  unfold Clean. change (rooted (String "/" _)) with true. rewrite rooted_components by (try done; cbn; by rewrite Hf). done.
Qed.

Lemma rooted_resolve fs x rest : plain_name x = true -> forallb plain_name rest = true ->
  resolve fs (path_join ("/tmp" :: x :: rest)) = "tmp" :: x :: rest.
Proof using. intros Hx Hr. rewrite rooted_join by done. unfold resolve. change (rooted (String "/" _)) with true. by apply rooted_components. Qed.

(** ** Properties *)

(** every published event is taken exactly once and in order.  In every run of
    publishers, starts, stops, cancelled contexts and loops, the events the loops have
    taken, in the order they took them, followed by the ones in the channel, are exactly
    the events published so far, and the channel never holds more than 100. *)
Theorem controller_fifo_once (c : SchemaController) : rtc ctl_step NewSchemaController c ->
  received c ++ eventsChan c = published c /\ (length (eventsChan c) <= 100)%nat.
Proof using.
  intros Hrun. apply (rtc_invariant ctl_step ctl_inv NewSchemaController c Hrun); [by split; [|cbn; lia]|].
  intros x y Hx Hxy. by eapply ctl_inv_step.
Qed.

(** a context that is cancelled leaves the controller dead.  After the context given to
    [Start] is cancelled and the loop has ended, [running] is still set, so a new [Start]
    makes no loop: no event is ever taken again, and publishers block once 100 are waiting. *)
Theorem cancelled_context_is_final (d : bool) (c : SchemaController) :
  running c = true -> Forall (fun l => l_done l = true) (loops c) ->
  Start d c = c /\ forall c', ctl_step c c' -> received c' = received c.
Proof using.
  intros Hr Hd. split; [unfold Start; by rewrite Hr|]. intros c' Hs.
  destruct Hs as [d' c|c|e c c' Hp|i l c Hl|i l c Hl Hl1 Hl2|i l e q c Hl Hl1 Hq]; try done.
  - unfold Start. by rewrite Hr.
  - unfold Stop. by rewrite Hr.
  - unfold PublishEvent in Hp. destruct (_ <? _)%nat; by simplify_eq.
  - eapply Forall_lookup_1 in Hl; [|exact Hd]. cbn in Hl. congruence.
Qed.

(** a schema is compiled from its own text, and nothing temporary is left.  With a
    temporary directory that can be made and written, and room on the disk, [reconcile] calls the compiler once,
    on files in which the IDL file reads back as the content of the resource, reports a
    failure exactly when the compiler does, keeps what the compiler wrote elsewhere, and
    leaves no file under the temporary directory. *)
Theorem reconcile_temporary (fresh : string) (schema : HelixSchema) (fs fs1 : fsys) :
  plain_name (String.append "helix-k8s-" fresh) = true -> (forall k, no_write fs k = false) -> (forall k c, short_write fs k c = None) -> (forall k, no_read fs k = false) ->
  (forall d, d ∈ dirs fs -> is_dir fs (parent d) = true) -> MkdirTemp fresh fs = Some fs1 ->
  let k := ["tmp"; String.append "helix-k8s-" fresh] in
  let idl := path_join ["/tmp"; String.append "helix-k8s-" fresh; "schema.proto"] in
  exists fs2, ReadFile fs2 idl = Ok (IDLContent (hs_Spec schema)) /\
    let '(fs3, failed) := compile idl (Language (hs_Spec schema)) (OutputDirectory (hs_Spec schema)) fs2 in
    snd (reconcile fresh schema fs) = negb failed /\
    forall k', files (fst (reconcile fresh schema fs)) !! k' = if under k k' then None else files fs3 !! k'.
Proof using.
  intros Hx Hw Hsw Hr Htree Hm k idl. unfold reconcile. rewrite Hm. set (x := String.append "helix-k8s-" fresh) in *.
  unfold MkdirTemp, temp_path in Hm. fold x in Hm. rewrite (rooted_resolve fs x []) in Hm by done.
  destruct (is_dir fs ["tmp"; x]) eqn:Ed; [done|]. destruct (bool_decide _) eqn:Ef; [done|]. cbn [orb mkdir] in Hm.
  rewrite Ed, Ef, Hw in Hm. simplify_eq. set (fs1 := set_dirs fs _).
  unfold temp_path. fold x. rewrite temp_file by done. fold idl. rewrite (rooted_resolve fs1 x []) by done. fold k.
  assert (Hres : forall fs0, resolve fs0 idl = ["tmp"; x; "schema.proto"]) by (intros; by apply rooted_resolve).
  assert (exists fs2, WriteFile fs1 idl (IDLContent (hs_Spec schema)) = (fs2, None)) as [fs2 E2].
  { eexists. unfold WriteFile. rewrite Hres. unfold idl. rewrite rooted_join by done.
    rewrite (bool_decide_false (String "/" _ = "")) by done.
    assert (is_dir fs1 ["tmp"; x; "schema.proto"] = false) as ->.
    { unfold fs1. rewrite is_dir_add by done. destruct (is_dir fs ["tmp"; x; "schema.proto"]) eqn:E; [|done].
      unfold is_dir in E. cbn in E. apply bool_decide_eq_true, Htree in E. change (parent _) with ["tmp"; x] in E. congruence. }
    assert (slash_end (String "/" (Join ["tmp"; x; "schema.proto"] "/")) = false) as ->.
    { pose proof (slash_end_plain ["tmp"; x; "schema.proto"] ltac:(done)) as H. unfold slash_end in *. cbn [forallb] in H. rewrite Hx in H.
      cbn [Split]. change (Ascii.eqb "/" "/") with true. cbn iota. rewrite last_cons. specialize (H eq_refl).
      destruct (last (Split _ _)) eqn:E; [exact H|]. apply last_None in E. by apply Split_nonempty in E. }
    change (parent ["tmp"; x; "schema.proto"]) with k. assert (is_dir fs1 k = true) as ->.
    { unfold is_dir, fs1. cbn. apply bool_decide_eq_true. set_solver. }
    cbn [orb negb]. unfold fs1. cbn [no_write short_write set_dirs]. rewrite Hw, Hsw. reflexivity. }
  rewrite E2. exists fs2. split; [eapply read_write; [exact E2|apply Hr]|].
  destruct (compile idl _ _ fs2) as [fs3 failed]. cbn [fst snd]. split; [done|]. intros k'. apply RemoveAll_files.
Qed.
End controller.

(** ** Witnesses *)
Definition demo_schema : HelixSchema :=
  {| hs_Name := "test"; hs_Namespace := "default"; hs_Spec := {| IDLContent := "message Ping {}"; Language := "go"; OutputDirectory := "/out" |} |}.
Definition demo_event : SchemaEvent := {| ev_Type := EventAdded; ev_Object := demo_schema |}.

Lemma controller_fifo_once_witness : exists c, rtc ctl_step NewSchemaController c /\ received c = [demo_event] /\
  received c ++ eventsChan c = published c /\ (length (eventsChan c) <= 100)%nat.
Proof.
  assert (exists c, rtc ctl_step NewSchemaController c /\ received c = [demo_event]) as (c & Hr & Hc).
  { eexists. split; [eapply rtc_l; [apply (step_start false)|]; eapply rtc_l; [by apply (step_publish demo_event)|];
      eapply rtc_l; [by apply (step_receive 0 {| l_cancelled := false; l_done := false |} demo_event [])|apply rtc_refl]|reflexivity]. }
  exists c. split; [exact Hr|]. split; [exact Hc|]. exact (controller_fifo_once c Hr).
Defined.

Lemma cancelled_context_is_final_witness :
  let c := {| running := true; eventsChan := [demo_event]; loops := [{| l_cancelled := true; l_done := true |}]; received := []; published := [demo_event] |} in
  Start false c = c /\ forall c', ctl_step c c' -> received c' = [].
Proof. intros c. apply (cancelled_context_is_final false c); [reflexivity|by repeat constructor]. Defined.

Definition tmp_fs : fsys :=
  {| cwd := []; files := ∅; dirs := {[["tmp"]]}; no_read := fun _ => false; no_write := fun _ => false; short_write := fun _ _ => None |}.
Lemma reconcile_temporary_witness :
  snd (reconcile (fun _ _ _ fs => (fs, false)) "1" demo_schema tmp_fs) = true /\
  files (fst (reconcile (fun _ _ _ fs => (fs, false)) "1" demo_schema tmp_fs)) !! ["tmp"; "helix-k8s-1"; "schema.proto"] = None.
Proof.
  destruct (reconcile_temporary (fun _ _ _ fs => (fs, false)) "1" demo_schema tmp_fs _ eq_refl (fun _ => eq_refl) (fun _ _ => eq_refl) (fun _ => eq_refl)
    ltac:(intros d Hd; change (d ∈ ({[["tmp"]]} : gset (list string))) in Hd; apply elem_of_singleton in Hd as ->; reflexivity) eq_refl) as (fs2 & _ & Hs & Hf).
  split; [exact Hs|]. rewrite Hf. reflexivity.
Defined.
