(* ===== verification/WireThrift.v ===== *)
(** * The generated protobuf to Thrift compact transcoder
    ([compiler/codegen/go_generator.go], [TranspileProtobufToThriftCompact])

    As for the codec, the definitions are what the generated code does, with the
    struct's fields as a parameter.  The output buffer is the caller's: every write is
    bounds-checked.

    Two versions of the generator are in the repository: the current one prints no
    assignment to [lastFieldID] in the case of a string (go_generator.go, lines 619-648); the
    committed output of an older one, [tests/go/generated/test.pb.go], which the tests run,
    has it (line 564).  The flag [remembers] says which; everything else is the same. *)
From S2P Require Import Prelude GoStrings Ast Wire.

Record tstate := { ts_iNdEx : Z; ts_out : bytes; ts_outIdx : nat; ts_last : Z }.

(** The emitted loop [for { if zz & ^0x7F == 0 ... }] *)
Fixpoint write_thrift_varint (fuel : nat) (out : bytes) (outIdx : nat) (zz : Z) : res wire_error (bytes * nat) :=
  match fuel with
  | O => Err OutOfFuel
  | S fuel' =>
      if Z.land zz (Z.lnot 127) =? 0 then let? out := put out outIdx zz in Ok (out, S outIdx)
      else
        let? out := put out outIdx (Z.lor (Z.land zz 127) 128) in
        write_thrift_varint fuel' out (S outIdx) (Z.shiftr zz 7)
  end.
Definition writeThriftVarint := write_thrift_varint 10.

(** The field header: the difference to the last field number in the high nibble, or the
    number itself in two bytes. *)
Definition thrift_header (id ty : Z) (out : bytes) (outIdx : nat) (last : Z) : res wire_error (bytes * nat) :=
  let delta := i16 (id - last) in
  if (0 <? delta) && (delta <=? 15) then
    let? out := put out outIdx (Z.lor (Z.shiftl delta 4) ty) in Ok (out, S outIdx)
  else
    let? out := put out outIdx ty in
    let? out := put out (S outIdx) (Z.shiftr id 8) in
    let? out := put out (S (S outIdx)) id in
    Ok (out, S (S (S outIdx))).

Definition zigzag64 (raw : Z) : Z := Z.lxor (u64 (Z.shiftl raw 1)) (u64 (Z.shiftr (i64 raw) 63)).

Definition transpile_int (ty : Z) (f : FieldNode) (inp : bytes) (s : tstate) : res wire_error tstate :=
  let? (rawVal, iNdEx) := readVarint inp (ts_iNdEx s) in
  let? (out, outIdx) := thrift_header (fn_ID f) ty (ts_out s) (ts_outIdx s) (ts_last s) in
  let? (out, outIdx) := writeThriftVarint out outIdx (zigzag64 rawVal) in
  Ok {| ts_iNdEx := iNdEx; ts_out := out; ts_outIdx := outIdx; ts_last := i16 (fn_ID f) |}.

Definition transpile_string (remembers : bool) (f : FieldNode) (inp : bytes) (s : tstate) : res wire_error tstate :=
  let? (stringLen, iNdEx) := readVarint inp (ts_iNdEx s) in
  let? (out, outIdx) := thrift_header (fn_ID f) 8 (ts_out s) (ts_outIdx s) (ts_last s) in
  let? (out, outIdx) := writeThriftVarint out outIdx stringLen in
  let? body := sub_slice inp iNdEx (advance iNdEx stringLen) in
  if (length out <? outIdx)%nat then Err Panic
  else
    let '(out, _) := copy_at out outIdx body in
    Ok {| ts_iNdEx := advance iNdEx stringLen; ts_out := out;
          ts_outIdx := (outIdx + length body)%nat; ts_last := if remembers then i16 (fn_ID f) else ts_last s |}.

Definition transpile_step (remembers : bool) (fields : list FieldNode) (inp : bytes) (s : tstate) : res wire_error tstate :=
  let? (i, iNdEx) := readVarint inp (ts_iNdEx s) in
  let fieldNum := i16 (Z.shiftr i 3) in
  let wireType := Z.land i 7 in
  let s := {| ts_iNdEx := iNdEx; ts_out := ts_out s; ts_outIdx := ts_outIdx s; ts_last := ts_last s |} in
  match field_index fields fieldNum with
  | Some (_, f) =>
      match tn_Kind (fn_Type f) with
      | TypeInt32 => transpile_int 5 f inp s
      | TypeInt64 => transpile_int 6 f inp s
      | TypeString => transpile_string remembers f inp s
      | _ => Ok s
      end
  | None =>
      let? (v, iNdEx) := readVarint inp (ts_iNdEx s) in
      let iNdEx := if wireType =? 2 then advance iNdEx v else iNdEx in
      Ok {| ts_iNdEx := iNdEx; ts_out := ts_out s; ts_outIdx := ts_outIdx s; ts_last := ts_last s |}
  end.

Fixpoint transpile_loop (remembers : bool) (fuel : nat) (fields : list FieldNode) (inp : bytes) (s : tstate) : res wire_error tstate :=
  if Z.of_nat (length inp) <=? ts_iNdEx s then Ok s
  else
    match fuel with
    | O => Err OutOfFuel
    | S fuel' => let? s := transpile_step remembers fields inp s in transpile_loop remembers fuel' fields inp s
    end.

Definition transpile (remembers : bool) (fields : list FieldNode) (inp out : bytes) : res wire_error (nat * bytes) :=
  let? s := transpile_loop remembers (length inp) fields inp {| ts_iNdEx := 0; ts_out := out; ts_outIdx := 0; ts_last := 0 |} in
  let? out := put (ts_out s) (ts_outIdx s) 0 in
  Ok (S (ts_outIdx s), out).

(** The method the generator prints for a struct: only an error for one with a map or a oneof. *)
Definition TranspileProtobufToThriftCompact (str : StructNode) (inp out : bytes) : res wire_error (nat * bytes) :=
  if sn_HasFallback str then Err UnsupportedTranspile else transpile false (sn_Fields str) inp out.

(** ** The Thrift compact format: what a reader sees

    A field starts with a byte whose high nibble is the difference to the previous field
    number and whose low nibble is the type (5 and 6 are integers, 8 is a string); 0
    ends the struct.  Only the short form of headers is read here. *)
Fixpoint compact_read (fuel : nat) (b : bytes) (last : Z) : option (list (Z * value)) :=
  match fuel, b with
  | S fuel', h :: b' =>
      let h := byte_to_Z h in
      let ty := h mod 16 in
      let id := last + h / 16 in
      if h =? 0 then Some []
      else if h / 16 =? 0 then None
      else if (ty =? 5) || (ty =? 6) then
        match read_varint b' 0 0 0 with
        | Ok (zz, n) =>
            let z := if Z.even zz then zz / 2 else - ((zz + 1) / 2) in
            option_map (cons (id, VInt z)) (compact_read fuel' (drop (Z.to_nat n) b') id)
        | Err _ => None
        end
      else if ty =? 8 then
        match read_varint b' 0 0 0 with
        | Ok (len, n) =>
            let body := drop (Z.to_nat n) b' in
            option_map (cons (id, VStr (take (Z.to_nat len) body)))
              (compact_read fuel' (drop (Z.to_nat len) body) id)
        | Err _ => None
        end
      else None
  | _, _ => None
  end.

Definition transcoded (fields : list FieldNode) (x : message) : option (list (Z * value)) :=
  match Marshal fields x with
  | Ok data =>
      match transpile false fields data (replicate 64 x00) with
      | Ok (n, out) => compact_read 64 (take n out) 0
      | Err _ => None
      end
  | Err _ => None
  end.

(** ** Properties *)

(** the transcoder forgets to record the number of a string field, so every field
    after a string gets a wrong number: the int32 field 2 after the string field 1 is read
    back as field 3.  Integer fields alone are numbered correctly. *)
Theorem transcoder_renumbers_after_string :
  transcoded [int_field 1 TypeString; int_field 2 TypeInt32] [VStr (to_bytes "a"); VInt (-7)]
  = Some [(1, VStr (to_bytes "a")); (3, VInt (-7))] /\
  transcoded [int_field 1 TypeInt64; int_field 2 TypeInt32] [VInt 300; VInt (-7)]
  = Some [(1, VInt 300); (2, VInt (-7))].
Proof. split; vm_compute; reflexivity. Qed.
