(* ===== verification/Transcode.v ===== *)
(** * The transcoder to Thrift compact, exactly
      ([compiler/codegen/go_generator.go], [TranspileProtobufToThriftCompact])

    The writer side of [WireThrift] against its reader: the bytes the transcoder produces
    for a message the generated codec encoded are those of [thrift_bytes], and reading
    them as Thrift compact gives the fields that are set, under numbers that are right
    exactly when nothing follows a string.  For the committed output of an older generator,
    whose transcoder remembers the number of a string, they are always right. *)
From S2P Require Import Prelude GoStrings Ast Wire WireThrift.

(** Thrift's zigzag of a signed integer. *)
Definition zigzag (z : Z) : Z := if 0 <=? z then 2 * z else - 2 * z - 1.
Definition compact_type (f : FieldNode) : Z := match tn_Kind (fn_Type f) with TypeInt32 => 5 | TypeString => 8 | _ => 6 end.
Definition is_int (f : FieldNode) : Prop := tn_Kind (fn_Type f) = TypeInt32 \/ tn_Kind (fn_Type f) = TypeInt64.
Definition is_string (f : FieldNode) : Prop := tn_Kind (fn_Type f) = TypeString.
Definition transcodable (f : FieldNode) : Prop := is_int f \/ is_string f.

(** Zero values are not on the wire. *)
Definition is_zero (v : value) : bool := match v with VInt z => z =? 0 | VStr s => (length s =? 0)%nat | VOther => true end.
Definition compact_value (v : value) : bytes :=
  match v with VInt z => varint (zigzag z) | VStr s => varint (u64 (Z.of_nat (length s))) ++ s | VOther => [] end.
(** The number the transcoder remembers after a field: a string leaves it as it was, unless
    the code [remembers] strings. *)
Definition next_last (remembers : bool) (f : FieldNode) (last : Z) : Z :=
  match tn_Kind (fn_Type f) with TypeString => if remembers then fn_ID f else last | _ => fn_ID f end.

(** The compact encoding with the remembered number [last]. *)
Fixpoint thrift_bytes (remembers : bool) (last : Z) (fields : list FieldNode) (x : message) : bytes :=
  match fields, x with
  | f :: fields', v :: x' =>
      if is_zero v then thrift_bytes remembers last fields' x'
      else byte_of_Z ((fn_ID f - last) * 16 + compact_type f) :: compact_value v ++ thrift_bytes remembers (next_last remembers f last) fields' x'
  | _, _ => []
  end.
(** What a reader sees whose own last number is [seen]. *)
Fixpoint seen_fields (remembers : bool) (last seen : Z) (fields : list FieldNode) (x : message) : list (Z * value) :=
  match fields, x with
  | f :: fields', v :: x' =>
      if is_zero v then seen_fields remembers last seen fields' x'
      else (seen + (fn_ID f - last), v) :: seen_fields remembers (next_last remembers f last) (seen + (fn_ID f - last)) fields' x'
  | _, _ => []
  end.
(** The fields of a message that are set. *)
Fixpoint set_fields (fields : list FieldNode) (x : message) : list (Z * value) :=
  match fields, x with
  | f :: fields', v :: x' => if is_zero v then set_fields fields' x' else (fn_ID f, v) :: set_fields fields' x'
  | _, _ => []
  end.
(** No field that is set follows a string that is set. *)
Fixpoint strings_last (fields : list FieldNode) (x : message) : Prop :=
  match fields, x with
  | f :: fields', v :: x' => (is_zero v = false -> is_string f -> set_fields fields' x' = []) /\ strings_last fields' x'
  | _, _ => True
  end.
(** Field numbers grow, starting above [last]. *)
Fixpoint ascending (last : Z) (fields : list FieldNode) : Prop :=
  match fields with [] => True | f :: fields' => last < fn_ID f /\ ascending (fn_ID f) fields' end.

(** ** Zigzag *)
Lemma lxor_ones a n : 0 <= n -> 0 <= a < 2 ^ n -> Z.lxor a (Z.ones n) = Z.ones n - a.
Proof.
  intros Hn Ha. assert (Z.land a (Z.lxor a (Z.ones n)) = 0) as E.
  { apply Z.bits_inj'. intros m Hm. rewrite Z.land_spec, Z.lxor_spec, Z.bits_0.
    destruct (Z.lt_ge_cases m n).
    - rewrite Z.ones_spec_low by lia. by destruct (Z.testbit a m).
    - rewrite <- (Z.mod_small a (2 ^ n)), Z.mod_pow2_bits_high by lia. done. }
  apply Z.add_nocarry_lxor in E. rewrite <- Z.lxor_assoc, Z.lxor_nilpotent, Z.lxor_0_l in E. by apply Z.add_move_l.
Qed.

Lemma zigzag64_ok z : in_s 64 z -> zigzag64 (u64 z) = zigzag z.
Proof.
  intros Hz. unfold zigzag64, zigzag. rewrite wrapS_wrapU, wrapS_id by (done || lia).
  change (- 9223372036854775808 <= z < 9223372036854775808) in Hz.
  rewrite Z.shiftl_mul_pow2, Z.shiftr_div_pow2 by lia. change (2 ^ 1) with 2. change (2 ^ 63) with 9223372036854775808.
  destruct (Z.leb_spec 0 z).
  - rewrite Z.div_small by lia. change (u64 0) with 0. rewrite Z.lxor_0_r, (wrapU_id 64 z) by (apply in_u64; lia).
    rewrite wrapU_id by (apply in_u64; lia). lia.
  - replace (z / 9223372036854775808) with (-1) by (apply (Z.div_unique_pos _ _ _ (z + 9223372036854775808)); lia).
    change (u64 (-1)) with (Z.ones 64).
    assert (u64 (u64 z * 2) = 2 * z + 18446744073709551616) as ->.
    { unfold wrapU. change (2 ^ 64) with 18446744073709551616. rewrite Zmult_mod_idemp_l.
      symmetry. apply (Z.mod_unique_pos _ _ (-1)); lia. }
    rewrite lxor_ones; [change (Z.ones 64) with 18446744073709551615; lia|lia|].
    change (2 ^ 64) with 18446744073709551616. lia.
Qed.

Lemma zigzag_range z : in_s 64 z -> in_u 64 (zigzag z).
Proof.
  intros Hz. change (- 9223372036854775808 <= z < 9223372036854775808) in Hz. apply in_u64. unfold zigzag. destruct (Z.leb_spec 0 z); lia. Qed.

Lemma unzigzag z : (if Z.even (zigzag z) then zigzag z / 2 else - ((zigzag z + 1) / 2)) = z.
Proof.
  unfold zigzag. destruct (Z.leb_spec 0 z).
  - rewrite Z.even_mul. cbn [orb]. change (Z.even 2) with true. cbn [orb]. rewrite Z.mul_comm, Z.div_mul by lia. done.
  - replace (- 2 * z - 1) with (2 * (- z - 1) + 1) by lia. rewrite Z.even_add, Z.even_mul. change (Z.even 2) with true.
    cbn. replace (2 * (- z - 1) + 1 + 1) with ((- z) * 2) by lia. rewrite Z.div_mul by lia. lia.
Qed.

(** ** Writing *)
Lemma land_lnot_127 v : 0 <= v -> (Z.land v (Z.lnot 127) =? 0) = (v <? 128).
Proof.
  intros Hv. rewrite <- Z.ldiff_land. change 127 with (Z.ones 7). rewrite Z.ldiff_ones_r by lia.
  rewrite Z.shiftl_mul_pow2, Z.shiftr_div_pow2 by lia. change (2 ^ 7) with 128.
  destruct (Z.ltb_spec v 128).
  - rewrite Z.div_small by lia. done.
  - apply Z.eqb_neq. pose proof (Z.div_str_pos v 128 ltac:(lia)). lia.
Qed.

Lemma write_thrift_varint_same fuel out idx v : 0 <= v -> write_thrift_varint fuel out idx v = write_varint fuel out idx v.
Proof.
  revert out idx v. induction fuel as [|fuel IH]; intros out idx v Hv; [done|]. cbn [write_thrift_varint write_varint].
  rewrite land_lnot_127 by done. destruct (Z.ltb_spec v 128), (Z.leb_spec 128 v); try lia; [done|].
  destruct (put out idx _); [|done]. cbn [res_bind]. apply IH. by apply Z.shiftr_nonneg.
Qed.

Lemma thrift_header_ok id ty last pre h post : 0 <= last < id -> id <= 15 -> 0 <= ty < 16 ->
  thrift_header id ty (pre ++ h :: post) (length pre) last
  = Ok (pre ++ byte_of_Z ((id - last) * 16 + ty) :: post, S (length pre)).
Proof.
  intros Hl Hi Ht. unfold thrift_header. rewrite wrapS_id; [|lia|unfold in_s; change (2 ^ (16 - 1)) with 32768; lia].
  rewrite (proj2 (Z.ltb_lt _ _)), (proj2 (Z.leb_le _ _)) by lia. cbn [andb].
  assert (Z.lor (Z.shiftl (id - last) 4) ty = (id - last) * 16 + ty) as ->; [|by rewrite put_ok].
  rewrite Z.lor_comm, lor_add by (cbn; lia). change (2 ^ 4) with 16. lia.
Qed.

(** The number that is written as a varint after a header. *)
Lemma write_after_header pre t hole post v : in_u 64 v -> length hole = length (varint v) ->
  writeThriftVarint (pre ++ t :: hole ++ post) (S (length pre)) v = Ok (pre ++ t :: varint v ++ post, S (length pre + length (varint v))).
Proof.
  intros Hv Hl. unfold writeThriftVarint. rewrite write_thrift_varint_same by (destruct Hv; lia).
  fold (writeVarint (pre ++ t :: hole ++ post) (S (length pre)) v).
  pose proof (writeVarint_tag pre t hole post v) as Hw. rewrite (wrapU_id 64 v) in Hw by done. by apply Hw.
Qed.

Lemma compact_type_range f : 5 <= compact_type f < 9.
Proof. unfold compact_type. destruct (tn_Kind (fn_Type f)); lia. Qed.

Lemma transpile_int_ok f z pin post opre h hole opost last :
  in_s 64 z -> 0 <= last < fn_ID f -> fn_ID f <= 15 ->
  length hole = length (varint (zigzag z)) ->
  transpile_int (compact_type f) f (pin ++ byte_of_Z (tagVal f) :: varint (u64 z) ++ post)
    {| ts_iNdEx := Z.of_nat (S (length pin)); ts_out := opre ++ h :: hole ++ opost; ts_outIdx := length opre; ts_last := last |}
  = Ok {| ts_iNdEx := Z.of_nat (S (length pin) + length (varint (u64 z)));
          ts_out := opre ++ byte_of_Z ((fn_ID f - last) * 16 + compact_type f) :: varint (zigzag z) ++ opost;
          ts_outIdx := (length opre + S (length (varint (zigzag z))))%nat; ts_last := fn_ID f |}.
Proof.
  intros Hz Hl Hid Hh. unfold transpile_int. cbn [ts_iNdEx ts_out ts_outIdx ts_last]. pose proof (compact_type_range f).
  rewrite readVarint_after. cbn [res_bind]. rewrite thrift_header_ok by lia. cbn [res_bind].
  rewrite zigzag64_ok, write_after_header by (done || by apply zigzag_range). cbn [res_bind]. f_equal. f_equal; [lia|].
  apply wrapS_id; [lia|]. unfold in_s. change (2 ^ (16 - 1)) with 32768. lia.
Qed.

Lemma transpile_string_ok remembers f s pin post opre h hole opost last :
  compact_type f = 8 -> 0 <= last < fn_ID f -> fn_ID f <= 15 ->
  Z.of_nat (length (pin ++ byte_of_Z (tagVal f) :: (varint (u64 (Z.of_nat (length s))) ++ s) ++ post)) < 2 ^ 63 ->
  length hole = length (compact_value (VStr s)) ->
  transpile_string remembers f (pin ++ byte_of_Z (tagVal f) :: (varint (u64 (Z.of_nat (length s))) ++ s) ++ post)
    {| ts_iNdEx := Z.of_nat (S (length pin)); ts_out := opre ++ h :: hole ++ opost; ts_outIdx := length opre; ts_last := last |}
  = Ok {| ts_iNdEx := Z.of_nat (S (length pin) + length (varint (u64 (Z.of_nat (length s))) ++ s));
          ts_out := opre ++ byte_of_Z ((fn_ID f - last) * 16 + compact_type f) :: compact_value (VStr s) ++ opost;
          ts_outIdx := (length opre + S (length (compact_value (VStr s))))%nat; ts_last := if remembers then fn_ID f else last |}.
Proof.
  intros Ht Hl Hid Hsz Hh. cbn [compact_value] in *. set (n := Z.of_nat (length s)) in *. set (vn := varint (u64 n)) in *.
  rewrite length_app in Hh. destruct (split_hole _ _ hole Hh) as (h1 & h2 & -> & Hh1 & Hh2).
  unfold transpile_string. cbn [ts_iNdEx ts_out ts_outIdx ts_last]. rewrite <- !app_assoc.
  unfold vn at 1. rewrite readVarint_after. fold vn. cbn [res_bind]. rewrite Ht, thrift_header_ok by lia. cbn [res_bind].
  rewrite write_after_header by (done || apply wrapU_range; lia). fold vn. cbn [res_bind].
  rewrite !length_app in Hsz. cbn [length] in Hsz. rewrite !length_app in Hsz.
  rewrite (advance_ok (Z.of_nat (S (length pin) + length vn)) n) by lia.
  pose proof (sub_slice_ok (pin ++ byte_of_Z (tagVal f) :: vn) s post) as Hs.
  rewrite <- app_assoc, length_app in Hs. cbn [app length] in Hs.
  replace (Z.of_nat (S (length pin) + length vn)) with (Z.of_nat (length pin + S (length vn))) by lia.
  replace (Z.of_nat (length pin + S (length vn)) + n) with (Z.of_nat (length pin + S (length vn) + length s)) by lia.
  rewrite Hs. cbn [res_bind]. set (hd := byte_of_Z ((fn_ID f - last) * 16 + 8)).
  pose proof (copy_at_ok (opre ++ hd :: vn) h2 opost s Hh2) as Hcp. rewrite <- !app_assoc, length_app in Hcp. cbn [app length] in Hcp.
  replace (S (length opre + length vn)) with (length opre + S (length vn))%nat by lia. rewrite Hcp.
  rewrite (proj2 (Nat.ltb_ge _ _)) by (rewrite length_app; cbn [length]; rewrite !length_app; lia).
  rewrite !length_app. f_equal. f_equal; [lia|lia|]. destruct remembers; [|done].
  apply wrapS_id; [lia|]. unfold in_s. change (2 ^ (16 - 1)) with 32768. lia.
Qed.

Lemma field_num f : 1 <= fn_ID f <= 15 -> i16 (Z.shiftr (tagVal f) 3) = fn_ID f.
Proof.
  intros Hid. destruct (tag_value f Hid) as (_ & Ht & E & _).
  assert (0 <= Z.shiftr (tagVal f) 3 < 16) as Hr.
  { rewrite Z.shiftr_div_pow2 by lia. change (2 ^ 3) with 8. split; [apply Z.div_pos|apply Z.div_lt_upper_bound]; lia. }
  rewrite wrapS_id in E; [|lia|unfold in_s; change (2 ^ (32 - 1)) with 2147483648; lia].
  rewrite wrapS_id; [done|lia|]. unfold in_s. change (2 ^ (16 - 1)) with 32768. lia.
Qed.

(** A field that is set. *)
Lemma encode_set f v : transcodable f -> value_fits f v -> is_zero v = false ->
  (exists z, v = VInt z /\ is_int f /\ in_s 64 z /\ encode_field f v = byte_of_Z (tagVal f) :: varint (u64 z)) \/
  (exists s, v = VStr s /\ is_string f /\ encode_field f v = byte_of_Z (tagVal f) :: varint (u64 (Z.of_nat (length s))) ++ s).
Proof.
  intros [Hi|Hi] Hv Hz; [left|right].
  - unfold value_fits, encode_field in *. destruct Hi as [E|E]; rewrite E in *; destruct v as [z|s|]; try done; cbn in Hz; exists z; rewrite Hz;
      (split; [done|]); (split; [by (left + right)|]); (split; [|done]); [|done].
    change (- 2147483648 <= z < 2147483648) in Hv. change (- 9223372036854775808 <= z < 9223372036854775808). lia.
  - unfold value_fits, encode_field, is_string in *. rewrite Hi in *. destruct v as [z|s|]; try done. exists s. split; [done|]. split; [done|].
    cbn in Hz. by rewrite (proj2 (Nat.ltb_lt _ _)) by (apply Nat.eqb_neq in Hz; lia).
Qed.

Lemma encode_unset f v : transcodable f -> value_fits f v -> is_zero v = true -> encode_field f v = [].
Proof.
  unfold value_fits, encode_field. intros [[E|E]|E] Hv Hz; rewrite E in *; destruct v as [z|s|]; try done; cbn in Hz; rewrite ?Hz; try done.
  apply Nat.eqb_eq in Hz. by rewrite Hz.
Qed.

Lemma transpile_step_ok remembers fs1 f fs2 v pin post opre h hole opost last :
  wf_fields (fs1 ++ f :: fs2) -> transcodable f -> value_fits f v -> is_zero v = false -> 0 <= last < fn_ID f ->
  Z.of_nat (length (pin ++ encode_field f v ++ post)) < 2 ^ 63 -> length hole = length (compact_value v) ->
  transpile_step remembers (fs1 ++ f :: fs2) (pin ++ encode_field f v ++ post)
    {| ts_iNdEx := Z.of_nat (length pin); ts_out := opre ++ h :: hole ++ opost; ts_outIdx := length opre; ts_last := last |}
  = Ok {| ts_iNdEx := Z.of_nat (length pin + length (encode_field f v));
          ts_out := opre ++ byte_of_Z ((fn_ID f - last) * 16 + compact_type f) :: compact_value v ++ opost;
          ts_outIdx := (length opre + S (length (compact_value v)))%nat; ts_last := next_last remembers f last |}.
Proof.
  intros [Hnd Hids] Ht Hv Hz Hl Hsz Hh. assert (1 <= fn_ID f <= 15) as Hid by (rewrite Forall_app, Forall_cons in Hids; tauto).
  destruct (encode_set f v Ht Hv Hz) as [(z & -> & Hi & Hz64 & E)|(s & -> & Hi & E)]; rewrite E in *; cbn [app length] in *;
    unfold transpile_step; cbn [ts_iNdEx ts_out ts_outIdx ts_last]; rewrite read_tag by done; cbn [res_bind];
    rewrite field_num, field_index_ok by done.
  - pose proof (transpile_int_ok f z pin post opre h hole opost last Hz64 Hl ltac:(lia) Hh) as Hok.
    rewrite Nat.add_succ_r, <- Nat.add_succ_l. unfold compact_type, next_last in *. destruct Hi as [Ek|Ek]; rewrite Ek in *; exact Hok.
  - assert (compact_type f = 8) as H8 by (unfold compact_type; by rewrite Hi).
    pose proof (transpile_string_ok remembers f s pin post opre h hole opost last H8 Hl ltac:(lia) Hsz Hh) as Hok.
    rewrite Nat.add_succ_r, <- Nat.add_succ_l. unfold next_last, is_string in *. rewrite Hi. exact Hok.
Qed.

Lemma ascending_skip last f fields : last < fn_ID f -> ascending (fn_ID f) fields -> ascending last fields.
Proof. intros Hl. destruct fields; [done|]. intros [? ?]. split; [lia|done]. Qed.

Lemma next_last_ascending remembers last f fields : last < fn_ID f -> ascending (fn_ID f) fields -> ascending (next_last remembers f last) fields.
Proof. intros Hl Ha. unfold next_last. destruct (tn_Kind (fn_Type f)), remembers; try done. by apply (ascending_skip last f). Qed.

Lemma next_last_bounds remembers last f : 0 <= last < fn_ID f -> 0 <= next_last remembers f last <= fn_ID f.
Proof. unfold next_last. destruct (tn_Kind (fn_Type f)), remembers; lia. Qed.

Lemma transpile_loop_ok remembers fuel fs1 fs2 x1 x2 opre hole opost last :
  wf_fields (fs1 ++ fs2) -> Forall transcodable fs2 -> ascending last fs2 -> 0 <= last ->
  Forall2 value_fits fs1 x1 -> Forall2 value_fits fs2 x2 -> (length (encode fs2 x2) <= fuel)%nat ->
  Z.of_nat (length (encode fs1 x1 ++ encode fs2 x2)) < 2 ^ 63 ->
  length hole = length (thrift_bytes remembers last fs2 x2) ->
  exists last', transpile_loop remembers fuel (fs1 ++ fs2) (encode fs1 x1 ++ encode fs2 x2)
    {| ts_iNdEx := Z.of_nat (length (encode fs1 x1)); ts_out := opre ++ hole ++ opost; ts_outIdx := length opre; ts_last := last |}
  = Ok {| ts_iNdEx := Z.of_nat (length (encode fs1 x1 ++ encode fs2 x2));
          ts_out := opre ++ thrift_bytes remembers last fs2 x2 ++ opost;
          ts_outIdx := (length opre + length (thrift_bytes remembers last fs2 x2))%nat; ts_last := last' |}.
Proof.
  revert fuel fs1 x1 x2 opre hole last. induction fs2 as [|f fs2 IH]; intros fuel fs1 x1 x2 opre hole last Hwf Ht Ha Hl H1 H2 Hfuel Hsz Hh.
  { apply Forall2_nil_inv_l in H2 as ->. exists last. cbn [thrift_bytes length] in *. apply nil_length_inv in Hh as ->. cbn [app]. change (encode [] []) with (@nil byte).
    rewrite ?app_nil_r, Nat.add_0_r. destruct fuel; cbn [transpile_loop ts_iNdEx]; by rewrite (proj2 (Z.leb_le _ _)) by lia. }
  apply Forall2_cons_inv_l in H2 as (v & x2' & Hv & H2 & ->). rename x2' into x2. apply Forall_cons in Ht as [Htf Ht].
  destruct Ha as [Haf Ha].
  assert (Hsnoc : encode (fs1 ++ [f]) (x1 ++ [v]) = encode fs1 x1 ++ encode_field f v)
    by (apply encode_snoc; by eapply Forall2_length).
  assert (H1' : Forall2 value_fits (fs1 ++ [f]) (x1 ++ [v])) by (apply Forall2_app; [done|by repeat constructor]).
  rewrite (encode_cons f fs2 v x2) in *. cbn [thrift_bytes] in *. destruct (is_zero v) eqn:Hz.
  - specialize (IH fuel (fs1 ++ [f]) (x1 ++ [v]) x2 opre hole last). rewrite Hsnoc, (encode_unset f v Htf Hv Hz), app_nil_r, <- app_assoc in IH.
    rewrite (encode_unset f v Htf Hv Hz) in *. cbn [app] in *. apply IH; try done. by apply (ascending_skip last f).
  - assert (0 < length (encode_field f v))%nat as Hpos by (destruct (encode_set f v Htf Hv Hz) as [(? & _ & _ & _ & ->)|(? & _ & _ & ->)]; cbn; lia).
    rewrite length_app in Hfuel. destruct fuel as [|fuel]; [lia|].
    cbn [transpile_loop ts_iNdEx]. rewrite (proj2 (Z.leb_gt _ _)) by (rewrite !length_app; lia).
    destruct hole as [|h hole]; [done|]. cbn [length] in Hh. rewrite length_app in Hh. injection Hh as Hh.
    destruct (split_hole _ _ hole Hh) as (h1 & h2 & -> & Hh1 & Hh2). cbn [app]. rewrite <- !app_assoc.
    rewrite (transpile_step_ok remembers fs1 f fs2 v _ _ _ _ h1) by (done || lia).
    cbn [res_bind]. set (hd := byte_of_Z ((fn_ID f - last) * 16 + compact_type f)).
    specialize (IH fuel (fs1 ++ [f]) (x1 ++ [v]) x2 (opre ++ hd :: compact_value v) h2 (next_last remembers f last)).
    pose proof (next_last_bounds remembers last f ltac:(lia)).
    rewrite Hsnoc in IH. rewrite <- !app_assoc in IH. cbn [app] in IH.
    destruct IH as [last' IH]; try done; [by apply next_last_ascending|lia|lia|].
    exists last'. clear Hh. rewrite !length_app in *. cbn [length] in *. rewrite IH, !length_app. f_equal. f_equal; lia.
Qed.

(** ** Reading *)
Lemma header_byte d ty : 1 <= d <= 15 -> 5 <= ty < 9 ->
  let h := byte_to_Z (byte_of_Z (d * 16 + ty)) in h mod 16 = ty /\ h / 16 = d /\ (h =? 0) = false.
Proof.
  intros Hd Ht. cbn zeta. rewrite byte_to_of_Z, u8_small by lia. split_and!.
  - symmetry. apply (Z.mod_unique_pos _ _ d); lia.
  - symmetry. apply (Z.div_unique_pos _ _ _ ty); lia.
  - apply Z.eqb_neq. lia.
Qed.

Lemma read_compact_varint v rest : in_u 64 v -> read_varint (varint v ++ rest) 0 0 0 = Ok (v, Z.of_nat (length (varint v))).
Proof.
  intros Hv. rewrite read_varint_ok; [|rewrite <- (wrapU_id 64 v) by done; apply u64_fits|lia|lia|cbn; lia|destruct Hv; change (2 ^ 0) with 1; lia].
  by rewrite Z.add_0_l, Z.mul_1_r, Z.add_0_l.
Qed.

Lemma compact_read_ok remembers fuel last seen fs x post :
  Forall transcodable fs -> ascending last fs -> 0 <= last -> Forall (fun f => 1 <= fn_ID f <= 15) fs ->
  Forall2 value_fits fs x -> (length fs < fuel)%nat -> Forall (fun v => match v with VStr s => Z.of_nat (length s) < 2 ^ 63 | _ => True end) x ->
  compact_read fuel (thrift_bytes remembers last fs x ++ x00 :: post) seen = Some (seen_fields remembers last seen fs x).
Proof.
  revert fuel last seen x. induction fs as [|f fs IH]; intros fuel last seen x Ht Ha Hl Hid Hf Hfuel Hs.
  { apply Forall2_nil_inv_l in Hf as ->. by destruct fuel; [cbn in Hfuel; lia|]. }
  apply Forall2_cons_inv_l in Hf as (v & x' & Hv & Hf & ->). apply Forall_cons in Ht as [Htf Ht], Hid as [Hidf Hid], Hs as [Hsv Hs].
  destruct Ha as [Haf Ha]. cbn [thrift_bytes seen_fields length] in *. destruct (is_zero v) eqn:Hz.
  { apply IH; try done; [|lia]. by apply (ascending_skip last f). }
  destruct fuel as [|fuel]; [lia|]. cbn [app compact_read]. pose proof (next_last_bounds remembers last f ltac:(lia)).
  destruct (header_byte (fn_ID f - last) (compact_type f) ltac:(lia) (compact_type_range f)) as (Hm & Hd & H0). cbn zeta in Hm, Hd, H0. rewrite H0, Hm, Hd.
  rewrite (proj2 (Z.eqb_neq _ 0)) by lia.
  specialize (IH fuel (next_last remembers f last) (seen + (fn_ID f - last)) x' Ht (next_last_ascending _ _ _ _ Haf Ha) ltac:(lia) Hid Hf ltac:(lia) Hs).
  destruct (encode_set f v Htf Hv Hz) as [(z & -> & Hi & Hz64 & _)|(s & -> & Hi & _)]; cbn [compact_value]; rewrite <- !app_assoc.
  - assert ((compact_type f =? 5) || (compact_type f =? 6) = true) as -> by (unfold compact_type; by destruct Hi as [-> | ->]).
    rewrite read_compact_varint by (by apply zigzag_range). cbv beta iota zeta. rewrite Nat2Z.id, drop_app_length, unzigzag. by rewrite IH.
  - assert (compact_type f = 8) as -> by (unfold compact_type, is_string in *; by rewrite Hi). cbn [Z.eqb Pos.eqb orb].
    rewrite wrapU_id by (apply in_u64; lia). rewrite read_compact_varint by (apply in_u64; lia). cbv beta iota zeta.
    rewrite !Nat2Z.id, drop_app_length, take_app_length, drop_app_length. by rewrite IH.
Qed.

Lemma strings_bounded fs x n : Forall transcodable fs -> Forall2 value_fits fs x -> Z.of_nat (length (encode fs x)) < n ->
  Forall (fun v => match v with VStr s => Z.of_nat (length s) < n | _ => True end) x.
Proof.
  intros Ht Hf. revert Ht. induction Hf as [|f v fs x Hv Hf IH]; intros Ht Hn; [done|]. apply Forall_cons in Ht as [Htf Ht].
  rewrite encode_cons, length_app in Hn. constructor; [|apply IH; [done|lia]].
  destruct (is_zero v) eqn:Hz; [destruct v as [|s|]; try done; cbn in Hz; apply Nat.eqb_eq in Hz; rewrite Hz; lia|].
  destruct (encode_set f v Htf Hv Hz) as [(z & -> & _)|(s & -> & _ & E)]; [done|]. rewrite E in Hn. cbn [length] in Hn. rewrite length_app in Hn. lia.
Qed.

(** ** Field numbers *)
Lemma set_fields_nil remembers last seen fs x : set_fields fs x = [] -> seen_fields remembers last seen fs x = [] /\ strings_last fs x.
Proof.
  revert x. induction fs as [|f fs IH]; intros [|v x] E; try done. cbn in *. destruct (is_zero v); [|done].
  destruct (IH x E). by split_and!.
Qed.

Lemma seen_ahead remembers last seen fs x : last < seen -> seen_fields remembers last seen fs x = set_fields fs x -> set_fields fs x = [].
Proof.
  intros Hlt. revert x. induction fs as [|f fs IH]; intros [|v x] E; try done. cbn in *. destruct (is_zero v); [by apply IH|].
  injection E as E _. lia.
Qed.

Lemma seen_right last fs x : ascending last fs -> seen_fields false last last fs x = set_fields fs x <-> strings_last fs x.
Proof.
  revert last x. induction fs as [|f fs IH]; intros last [|v x] Ha; try done. destruct Ha as [Hf Ha]. cbn [seen_fields set_fields strings_last].
  destruct (is_zero v) eqn:Hz.
  { rewrite IH by (by apply (ascending_skip last f)). split; [by intros|by intros [_ ?]]. }
  replace (last + (fn_ID f - last)) with (fn_ID f) by lia. unfold next_last, is_string.
  assert (forall l l' : list (Z * value), (fn_ID f, v) :: l = (fn_ID f, v) :: l' <-> l = l') as Hcons by (intros; split; [by intros [= ->]|by intros ->]).
  rewrite Hcons. destruct (decide (tn_Kind (fn_Type f) = TypeString)) as [E|E].
  - rewrite E. split.
    + intros Heq. pose proof (seen_ahead false last (fn_ID f) fs x Hf Heq) as Hn. by destruct (set_fields_nil false 0 0 fs x Hn).
    + intros [Hn _]. specialize (Hn eq_refl eq_refl). by rewrite (proj1 (set_fields_nil _ _ _ fs x Hn)), Hn.
  - assert (match tn_Kind (fn_Type f) with TypeString => last | _ => fn_ID f end = fn_ID f) as -> by (by destruct (tn_Kind (fn_Type f))).
    rewrite IH by done. split; [by intros|by intros [_ ?]].
Qed.

(** Code that remembers strings is right about every number. *)
Lemma seen_remembered last fs x : Forall transcodable fs -> ascending last fs -> seen_fields true last last fs x = set_fields fs x.
Proof.
  intros Ht. revert last x. induction Ht as [|f fs Hf _ IH]; intros last [|v x] Ha; try done. destruct Ha as [Hl Ha]. cbn [seen_fields set_fields].
  destruct (is_zero v); [apply IH; by apply (ascending_skip last f)|].
  replace (last + (fn_ID f - last)) with (fn_ID f) by lia. assert (next_last true f last = fn_ID f) as -> by (unfold next_last; by destruct (tn_Kind (fn_Type f))).
  by rewrite IH.
Qed.

(** ** Properties *)

Lemma transcode_read (remembers : bool) (fields : list FieldNode) (x : message) (out : bytes) :
  Forall transcodable fields -> ascending 0 fields -> wf_fields fields -> Forall2 value_fits fields x ->
  Z.of_nat (length (encode fields x)) < 2 ^ 63 -> (length (thrift_bytes remembers 0 fields x) < length out)%nat ->
  exists data n out', Marshal fields x = Ok data /\
    transpile remembers fields data out = Ok (n, out') /\
    compact_read (S (length fields)) (take n out') 0 = Some (seen_fields remembers 0 0 fields x).
Proof.
  intros Ht Ha Hwf Hf Hsz Hroom. exists (encode fields x). set (tb := thrift_bytes remembers 0 fields x) in *.
  destruct (split_hole (length tb) (length out - length tb) out ltac:(lia)) as (h1 & h2 & -> & Hh1 & Hh2).
  destruct h2 as [|h h2]; [rewrite length_app in *; cbn in *; lia|].
  destruct (transpile_loop_ok remembers (length (encode fields x)) [] fields [] x [] h1 (h :: h2) 0 Hwf Ht Ha ltac:(lia)
    (Forall2_nil_2 _ _ _) Hf ltac:(lia) Hsz Hh1) as (last' & E).
  change (encode [] []) with (@nil byte) in E. cbn [app length] in E. change (Z.of_nat 0) with 0 in E. rewrite Nat.add_0_l in E.
  exists (S (length tb)), (tb ++ byte_of_Z 0 :: h2). split; [apply Marshal_encode|]. split.
  - unfold transpile. rewrite E. cbn [res_bind ts_out ts_outIdx]. fold tb. by rewrite put_ok.
  - replace (S (length tb)) with (length (tb ++ [byte_of_Z 0])) by (rewrite length_app; cbn; lia).
    change (tb ++ byte_of_Z 0 :: h2) with (tb ++ [byte_of_Z 0] ++ h2). rewrite app_assoc, take_app_length.
    change (byte_of_Z 0) with x00. destruct Hwf as [_ Hid]. apply compact_read_ok; try done; try lia. by apply (strings_bounded fields).
Qed.

Lemma integers_last fields x : Forall is_int fields -> strings_last fields x.
Proof.
  intros Hi. revert x. induction Hi as [|f fields Hi _ IH]; intros [|v x]; try done. split; [|apply IH].
  intros _ Hs. unfold is_string in Hs. by destruct Hi; congruence.
Qed.

(** C34: exactly what the transcoder to Thrift compact the generator prints gets right.  For
    a struct with a map or a oneof it returns an error.  For any other struct of int32,
    int64 and string fields with growing field numbers up to 15 and any message of it,
    transcoding the bytes the generated codec writes, into an output buffer with room,
    succeeds, and a Thrift compact reader of the output sees every field that is set, in
    order and with its value, under the numbers [seen_fields] computes; these are the
    numbers of the schema if and only if no field that is set follows a string that is set
    (the printed code does not remember the number of a string), so always when the struct
    has integers only.  The code the tests
    run is the committed output of an older generator, which does remember it and is right
    for every message: [ProfileGen.profile_transcoder]. *)
Theorem transcoder_exact (str : StructNode) (x : message) (out : bytes) :
  let fields := sn_Fields str in
  Forall transcodable fields -> ascending 0 fields -> wf_fields fields -> Forall2 value_fits fields x ->
  Z.of_nat (length (encode fields x)) < 2 ^ 63 -> (length (thrift_bytes false 0 fields x) < length out)%nat ->
  (sn_HasFallback str = true -> forall data, TranspileProtobufToThriftCompact str data out = Err UnsupportedTranspile) /\
  (sn_HasFallback str = false -> exists data n out', Marshal fields x = Ok data /\
    TranspileProtobufToThriftCompact str data out = Ok (n, out') /\
    compact_read (S (length fields)) (take n out') 0 = Some (seen_fields false 0 0 fields x)) /\
  (seen_fields false 0 0 fields x).*2 = (set_fields fields x).*2 /\
  (seen_fields false 0 0 fields x = set_fields fields x <-> strings_last fields x) /\
  (Forall is_int fields -> strings_last fields x).
Proof.
  intros fields Ht Ha Hwf Hf Hsz Hroom. split_and!.
  - unfold TranspileProtobufToThriftCompact. by intros ->.
  - unfold TranspileProtobufToThriftCompact. intros ->. by apply transcode_read.
  - clear. generalize 0 at 1 as last. generalize 0 as seen. revert x. induction fields as [|f fields IH]; intros [|v x] seen last; try done.
    cbn. destruct (is_zero v); [done|]. cbn. by f_equal.
  - by apply seen_right.
  - apply integers_last.
Qed.

(** A struct with a field after a string. *)
Definition after_string : StructNode :=
  {| sn_Name := "T"; sn_Fields := [int_field 1 TypeInt64; int_field 4 TypeString; int_field 9 TypeInt64]; sn_HasFallback := false |}.

Lemma transcoder_exact_witness :
  let x := [VInt (-300); VStr (to_bytes "ada"); VInt 5] in
  exists data n out', Marshal (sn_Fields after_string) x = Ok data /\
    TranspileProtobufToThriftCompact after_string data (replicate 20 x00) = Ok (n, out') /\
    compact_read 4 (take n out') 0 = Some [(1, VInt (-300)); (4, VStr (to_bytes "ada")); (12, VInt 5)] /\
    ~ strings_last (sn_Fields after_string) x.
Proof.
  destruct (transcoder_exact after_string [VInt (-300); VStr (to_bytes "ada"); VInt 5] (replicate 20 x00)) as (_ & Hok & _ & Hiff & _).
  - constructor; [left; by right|]. constructor; [by right|]. constructor; [left; by right|constructor].
  - cbn. lia.
  - split; [apply (bool_decide_unpack (NoDup _)); vm_compute; exact I|]. repeat constructor; cbn; lia.
  - repeat constructor; cbn; words.
  - vm_compute. reflexivity.
  - vm_compute. lia.
  - destruct (Hok eq_refl) as (data & n & out' & Hm & Ht & Hr). exists data, n, out'. split_and!; [exact Hm|exact Ht|exact Hr|].
    intros Hs. apply Hiff in Hs. vm_compute in Hs. discriminate Hs.
Defined.
