(* ===== verification/Service.v ===== *)
(** * Generated Go services ([compiler/codegen/go_generator.go], service stubs)

    For every service the generator prints an interface, and [Register<Service>], which
    registers its methods with the server: one handler per path, the decoder, the
    binder of path parameters, and the REST routes.  The definitions are what that code
    does, with the schema as a parameter, on top of the generated codecs ([Wire],
    [FlatBuf]) and the request handler ([GrpcHandler]). *)
From S2P Require Import Prelude GoStrings Errors Context Http Compression Streams Routing GrpcHandler.
From S2P Require Import Ast Wire FlatBuf GoText GenGo.

(** ** [fmt.Sscanf] with one verb, on ASCII text *)

(** Blanks before the operand; a newline is an error ([None]). *)
Fixpoint skip_blanks (s : string) : option string :=
  match s with
  | "" => Some ""
  | String c s' =>
      if Ascii.eqb c "013" then
        match s' with
        | String c' s'' => if Ascii.eqb c' "010" then skip_blanks s'' else skip_blanks s'
        | "" => Some ""
        end
      else if Ascii.eqb c "010" then None
      else if is_space c then skip_blanks s' else Some s
  end.

Fixpoint digits_prefix (s : string) : string :=
  match s with "" => "" | String c s' => if is_digit c then String c (digits_prefix s') else "" end.

(** ["%d"] into a signed integer of [bits] bits: the text after the digits is not
    looked at. *)
Definition Sscanf_d (bits : Z) (s : string) : option Z :=
  match skip_blanks s with
  | None => None
  | Some s =>
      let '(neg, rest) := strip_sign s in
      match digits_prefix rest with
      | "" => None
      | digits =>
          match ParseInt (if neg then String "-" digits else digits) with
          | (i, None) => if wrapS bits i =? i then Some i else None
          | (_, Some _) => None
          end
      end
  end.

(** One rune of the set is consumed if it is next. *)
Definition accept (lo hi : ascii) (s : string) : option string :=
  match s with String c s' => if Ascii.eqb c lo || Ascii.eqb c hi then Some s' else None | "" => None end.

(** ["%t"]: after [t] or [f] the rest of the word must follow once its second letter
    does; any other first character reads as false, without an error. *)
Definition Sscanf_t (s : string) : option bool :=
  match skip_blanks s with
  | None | Some "" => None
  | Some (String c rest) =>
      if Ascii.eqb c "1" then Some true
      else if Ascii.eqb c "t" || Ascii.eqb c "T" then
        match accept "r" "R" rest with
        | None => Some true
        | Some rest => match accept "u" "U" rest with
                       | None => None
                       | Some rest => match accept "e" "E" rest with None => None | Some _ => Some true end
                       end
        end
      else if Ascii.eqb c "f" || Ascii.eqb c "F" then
        match accept "a" "A" rest with
        | None => Some false
        | Some rest =>
            match accept "l" "L" rest with
            | None => None
            | Some rest => match accept "s" "S" rest with
                           | None => None
                           | Some rest => match accept "e" "E" rest with None => None | Some _ => Some false end
                           end
            end
        end
      else Some false
  end.

(** ** Values of generated struct types

    A pointer to a struct: its type and the values of its fields.  The methods of the
    generated types do not return errors where they would panic; a panic ends the
    request, and is the error [panicked] here. *)
Record object := { o_type : string; o_fields : fmessage }.

Definition panicked : error := ErrorString "panic".

Definition struct_named (a : AST) (name : string) : option StructNode :=
  List.find (fun str => bool_decide (sn_Name str = name)) (Structs a).
Definition struct_fields (a : AST) (name : string) : list FieldNode :=
  match struct_named a name with Some str => sn_Fields str | None => [] end.

(** [&T{}] *)
Definition new_object (a : AST) (T : string) : object :=
  {| o_type := T; o_fields := flat_zero <$> struct_fields a T |}.

(** The fields the protobuf codec sees, and the fields after it has set some of them. *)
Definition to_wire (f : FieldNode) (v : fvalue) : value :=
  match tn_Kind (fn_Type f), v with
  | (TypeInt32 | TypeInt64), FInt z => VInt z
  | TypeString, FStr s => VStr s
  | _, _ => VOther
  end.
Definition from_wire (old : fvalue) (v : value) : fvalue :=
  match v with VInt z => FInt z | VStr s => FStr s | VOther => old end.

Definition wire_err (T : string) (e : wire_error) : error :=
  match e with
  | UnexpectedEOF => ErrorString "unexpected EOF"
  | WrongWireType w f => ErrorString ("proto: wrong wireType = " +:+ Itoa w +:+ " for field " +:+ f)
  | EndGroup => ErrorString ("proto: " +:+ T +:+ ": wiretype end group for non-group")
  | UnhandledWireType => ErrorString "unhandled wireType in unmarshal skip"
  | _ => panicked
  end.

Section generated.
Context (a : AST).

Definition object_Marshal (o : object) : res error bytes :=
  let fields := struct_fields a (o_type o) in
  match Marshal fields (zip_with to_wire fields (o_fields o)) with
  | Ok data => Ok data
  | Err e => Err (wire_err (o_type o) e)
  end.

Definition object_Unmarshal (o : object) (data : bytes) : res error object :=
  let fields := struct_fields a (o_type o) in
  match Unmarshal fields (zip_with to_wire fields (o_fields o)) data with
  | Ok x => Ok {| o_type := o_type o; o_fields := zip_with from_wire (o_fields o) x |}
  | Err e => Err (wire_err (o_type o) e)
  end.

Definition object_MarshalFlatBuffers (o : object) : bytes :=
  match MarshalFlatBuffers (struct_fields a (o_type o)) (o_fields o) with Ok data => data | Err _ => [] end.

Definition flat_err (e : flat_error) : error :=
  match e with
  | BufferTooSmall => ErrorString "flatbuffers: buffer too small"
  | InvalidRootOffset => ErrorString "flatbuffers: invalid root offset"
  | InvalidVtableOffset => ErrorString "flatbuffers: invalid vtable offset"
  | FlatPanic => panicked
  end.
Definition object_UnmarshalFlatBuffers (o : object) (data : bytes) : res error object :=
  match UnmarshalFlatBuffers (struct_fields a (o_type o)) (o_fields o) data with
  | Ok x => Ok {| o_type := o_type o; o_fields := x |}
  | Err e => Err (flat_err e)
  end.

(** The JSON libraries work by reflection on the struct tags. *)
Record json_lib := {
  sonic_Unmarshal : bytes -> object -> res error object;
  sonic_Encode : object -> res error bytes;
  encjson_Unmarshal : bytes -> object -> res error object;
  encjson_Marshal : object -> res error bytes
}.

(** Every generated type implements all four codec interfaces. *)
#[local] Instance object_message (j : json_lib) : Message object := {|
  as_ProtoMarshaler o := Some (object_Marshal o);
  as_ProtoUnmarshaler o := Some (object_Unmarshal o);
  as_FlatBuffersMarshaler o := Some (object_MarshalFlatBuffers o);
  as_FlatBuffersUnmarshaler o := Some (object_UnmarshalFlatBuffers o);
  json_Unmarshal := sonic_Unmarshal j;
  json_Encode := sonic_Encode j;
  stdjson_Unmarshal := encjson_Unmarshal j;
  stdjson_Marshal := encjson_Marshal j
|}.

(** ** The binder of path parameters *)
Definition bind_field (params : gmap string string) (f : FieldNode) (v : fvalue) : fvalue :=
  match params !! fn_Name f with
  | None => v
  | Some val =>
      match tn_Kind (fn_Type f) with
      | TypeInt32 => match Sscanf_d 32 val with Some id => FInt id | None => v end
      | TypeInt64 => match Sscanf_d 64 val with Some id => FInt id | None => v end
      | TypeString => FStr (to_bytes val)
      | TypeBool => match Sscanf_t val with Some b => FBool b | None => v end
      | _ => v
      end
  end.

Definition Binder (m : MethodNode) (req : object) (params : gmap string string) : res error object :=
  if bool_decide (o_type req = mn_InputType m) then
    match input_struct m a with
    | Some str => Ok {| o_type := o_type req; o_fields := zip_with (bind_field params) (sn_Fields str) (o_fields req) |}
    | None => Ok req
    end
  else Err (ErrorString "invalid request type for binder").

(** ** Registration

    The implementation of a service: one function per method name, from the fields of
    the request struct to those of the response struct (not a nil pointer) or an
    error. *)
Context {W : Type}.
Definition service := string -> context -> fmessage -> W -> W * res error fmessage.

Definition packagePrefix : string := if bool_decide (Namespace a = "") then "helix_example" else Namespace a.
Definition method_path (prefix : string) (srv : ServiceNode) (m : MethodNode) : string :=
  "/" +:+ prefix +:+ "." +:+ sv_Name srv +:+ "/" +:+ mn_Name m.
Definition pathDot (srv : ServiceNode) (m : MethodNode) : string := method_path packagePrefix srv m.
Definition pathUnderscore (srv : ServiceNode) (m : MethodNode) : string :=
  method_path (ReplaceAll packagePrefix "." "_") srv m.

(** [impl.M(ctx, req.( *In))]: the type assertion panics for another type. *)
Definition method_handler (impl : service) (m : MethodNode) : UnaryHandler W object := fun ctx req w =>
  if bool_decide (o_type req = mn_InputType m) then
    match impl (mn_Name m) ctx (o_fields req) w with
    | (w, Ok y) => (w, Ok {| o_type := mn_OutputType m; o_fields := y |})
    | (w, Err e) => (w, Err e)
    end
  else (w, Err panicked).

Definition method_info (impl : service) (m : MethodNode) : MethodInfo W object := {|
  mi_Decoder := fun dec b => dec (new_object a (mn_InputType m)) b;
  mi_Handler := method_handler impl m;
  mi_Binder := Some (Binder m);
  mi_IsStreaming := false;
  mi_StreamHandler := fun _ => SReturn (Some panicked)   (* a nil function *)
|}.

Definition has_route (m : MethodNode) : bool :=
  negb (bool_decide (mn_RESTMethod m = "")) && negb (bool_decide (mn_RESTPath m = "")).

Definition register_method (impl : service) (srv : ServiceNode) (h : GRPCHandler W object) (m : MethodNode)
  : GRPCHandler W object :=
  let h := if has_route m then RegisterRESTRoute (mn_RESTMethod m) (mn_RESTPath m) (pathDot srv m) h else h in
  let h := RegisterMethod (pathDot srv m) (method_info impl m) h in
  if negb (bool_decide (pathDot srv m = pathUnderscore srv m))
  then RegisterMethod (pathUnderscore srv m) (method_info impl m) h else h.

Definition RegisterService (impl : service) (srv : ServiceNode) (h : GRPCHandler W object)
  : GRPCHandler W object := foldl (register_method impl srv) h (sv_Methods srv).
End generated.

(** ** Lemmas *)
Lemma str_app_inj s1 s2 t1 t2 :
  String.length s1 = String.length s2 -> s1 +:+ t1 = s2 +:+ t2 -> s1 = s2 /\ t1 = t2.
Proof.
  revert s2. induction s1 as [|c s1 IH]; intros [|c' s2]; cbn; try done. intros [= Hl] [= -> E].
  destruct (IH s2 Hl E) as [-> ->]. done.
Qed.

Lemma str_map_length f s : String.length (str_map f s) = String.length s.
Proof. induction s; cbn; congruence. Qed.

(** What the protobuf codec transports: a value of the field's type, and nothing for a
    kind it does not know. *)
Definition proto_value (f : FieldNode) (v : fvalue) : Prop :=
  match tn_Kind (fn_Type f), v with
  | TypeInt32, FInt z => in_s 32 z
  | TypeInt64, FInt z => in_s 64 z
  | TypeString, FStr _ => True
  | (TypeInt32 | TypeInt64 | TypeString), _ => False
  | _, v => v = flat_zero f
  end.

Section lemmas.
Context (a : AST).

Definition codable (T : string) (x : fmessage) : Prop :=
  wf_fields (struct_fields a T) /\ Forall2 proto_value (struct_fields a T) x /\
  ProtoSize (struct_fields a T) (zip_with to_wire (struct_fields a T) x) < 2 ^ 63.

Lemma proto_value_fits fields x : Forall2 proto_value fields x ->
  Forall2 value_fits fields (zip_with to_wire fields x) /\
  zip_with from_wire (flat_zero <$> fields) (zip_with to_wire fields x) = x.
Proof.
  induction 1 as [|f v fields x Hv _ [IH1 IH2]]; [done|]. cbn. rewrite IH2.
  split; [constructor; [|done]|f_equal]; clear -Hv; unfold proto_value, value_fits, to_wire, flat_zero in *;
    destruct (tn_Kind (fn_Type f)), v; naive_solver.
Qed.

Lemma to_wire_zero fields : zip_with to_wire fields (flat_zero <$> fields) = Reset fields.
Proof.
  unfold Reset. induction fields as [|f fields IH]; [done|]. cbn. rewrite IH. f_equal.
  unfold to_wire, flat_zero, zero_value. by destruct (tn_Kind (fn_Type f)).
Qed.

(** The codec of a generated type. *)
Lemma object_roundtrip T x : codable T x ->
  exists data, object_Marshal a {| o_type := T; o_fields := x |} = Ok data /\
    object_Unmarshal a (new_object a T) data = Ok {| o_type := T; o_fields := x |}.
Proof.
  intros (Hwf & Hx & Hlen). destruct (proto_value_fits _ _ Hx) as [Hf Hback].
  unfold object_Marshal, object_Unmarshal, new_object. cbn [o_type o_fields].
  set (fields := struct_fields a T) in *. eexists. rewrite Marshal_encode. split; [done|].
  rewrite to_wire_zero. rewrite ProtoSize_length in Hlen.
  assert (Unmarshal fields (Reset fields) (encode fields (zip_with to_wire fields x)) = Ok (zip_with to_wire fields x))
    as -> by (apply (unmarshal_loop_ok _ [] fields [] (zip_with to_wire fields x)); [done|constructor|done|lia|done]).
  by rewrite Hback.
Qed.

Context {W : Type} (impl : service (W := W)) (srv : ServiceNode).

Definition is_path (m : MethodNode) (p : string) : Prop := p = pathDot a srv m \/ p = pathUnderscore a srv m.

Lemma path_name m m' p : is_path m p -> is_path m' p -> mn_Name m = mn_Name m'.
Proof.
  assert (forall p1 p2, String.length p1 = String.length p2 ->
    method_path p1 srv m = method_path p2 srv m' -> mn_Name m = mn_Name m') as H.
  { intros p1 p2 Hl [= E]. apply str_app_inj in E as [_ E]; [|done]. injection E as E.
    apply str_app_inj in E as [_ E]; [|done]. by injection E. }
  unfold is_path, pathDot, pathUnderscore. intros [-> | ->] [E|E]; apply H in E; try done;
    unfold ReplaceAll; by rewrite str_map_length.
Qed.

Lemma register_method_lookup h m p :
  (is_path m p -> gh_methods (register_method a impl srv h m) !! p = Some (method_info a impl m)) /\
  (~ is_path m p -> gh_methods (register_method a impl srv h m) !! p = gh_methods h !! p).
Proof.
  unfold is_path, register_method.
  assert (forall h' : GRPCHandler W object, gh_methods h' = gh_methods h ->
    gh_methods (RegisterMethod (pathDot a srv m) (method_info a impl m) h') =
    <[pathDot a srv m := method_info a impl m]> (gh_methods h)) as Hm by (intros h' E; cbn; by rewrite E).
  set (h1 := if has_route m then _ else _).
  assert (gh_methods h1 = gh_methods h) as E1 by (unfold h1; by destruct (has_route m)).
  case_bool_decide as Hsame; cbn [negb]; rewrite ?(Hm _ E1).
  - split; [intros [->| ->]; rewrite ?Hsame; apply lookup_insert_eq|].
    intros Hn. apply lookup_insert_ne. naive_solver.
  - cbn [gh_methods RegisterMethod]. rewrite E1. split; intros Hp.
    + destruct (decide (p = pathUnderscore a srv m)) as [->|]; [apply lookup_insert_eq|].
      rewrite lookup_insert_ne by done. destruct Hp as [-> |]; [apply lookup_insert_eq|done].
    + rewrite !lookup_insert_ne; [done|naive_solver..].
Qed.

Lemma register_lookup ms h m p :
  m ∈ ms -> NoDup (mn_Name <$> ms) -> is_path m p ->
  gh_methods (foldl (register_method a impl srv) h ms) !! p = Some (method_info a impl m).
Proof.
  revert h. induction ms as [|m' ms IH] using rev_ind; intros h Hin Hnd Hp; [by apply elem_of_nil in Hin|].
  rewrite foldl_app. cbn [foldl]. rewrite fmap_app, NoDup_app in Hnd. destruct Hnd as (Hnd & Hdis & _).
  apply elem_of_app in Hin as [Hin|Hin].
  - rewrite (proj2 (register_method_lookup _ m' p)); [by apply IH|].
    intros Hp'. apply (Hdis (mn_Name m)); [by apply list_elem_of_fmap_2|].
    cbn. rewrite (path_name m m' p Hp Hp'). apply list_elem_of_here.
  - apply list_elem_of_singleton in Hin as ->. by apply register_method_lookup.
Qed.

(** The routes of a list of methods, in order. *)
Definition rest_route (m : MethodNode) : option RESTRoute :=
  if has_route m then Some (newRESTRoute (mn_RESTMethod m) (mn_RESTPath m) (pathDot a srv m)) else None.

Lemma register_routes ms h :
  gh_restRoutes (foldl (register_method a impl srv) h ms) = gh_restRoutes h ++ omap rest_route ms /\
  gh_chained (foldl (register_method a impl srv) h ms) = gh_chained h /\
  gh_debugMux (foldl (register_method a impl srv) h ms) = gh_debugMux h.
Proof.
  revert h. induction ms as [|m ms IH]; intros h; cbn [foldl].
  { cbn. by rewrite app_nil_r. }
  destruct (IH (register_method a impl srv h m)) as (-> & -> & ->). clear IH.
  unfold rest_route, register_method. cbn [omap list_omap].
  destruct (has_route m); case_bool_decide; cbn; by rewrite <- ?app_assoc.
Qed.
End lemmas.

(** *** Scanning what was printed *)
Lemma digits_prefix_all s : str_forall is_digit s = true -> digits_prefix s = s.
Proof. induction s as [|c s IH]; [done|]. cbn. intros [-> Hs]%andb_true_iff. by rewrite IH. Qed.

Lemma digit_blank c : is_digit c = true ->
  Ascii.eqb c "013" = false /\ Ascii.eqb c "010" = false /\ is_space c = false.
Proof. by destruct c as [[] [] [] [] [] [] [] []]. Qed.

Lemma skip_blanks_digits s : str_forall is_digit s = true -> skip_blanks s = Some s.
Proof.
  destruct s as [|c s]; [done|]. cbn. intros [Hc _]%andb_true_iff.
  by destruct (digit_blank c Hc) as (-> & -> & ->).
Qed.

Lemma Sscanf_d_Itoa bits z : 0 < bits -> in_s bits z -> in_s 64 z -> Sscanf_d bits (Itoa z) = Some z.
Proof.
  intros Hb Hz H64. assert (Hwrap : (wrapS bits z =? z) = true) by (apply Z.eqb_eq; by apply wrapS_id).
  pose proof (ParseInt_Itoa z H64) as HP. unfold Sscanf_d. destruct (Z.le_gt_cases 0 z) as [H0|H0].
  - pose proof (Itoa_digits z H0) as Hd. pose proof (Itoa_nonempty z H0) as Hne.
    rewrite skip_blanks_digits, digits_head_nosign by done. rewrite digits_prefix_all by done.
    destruct (Itoa z); [done|]. by rewrite HP, Hwrap.
  - pose proof (Itoa_digits (- z) ltac:(lia)) as Hd. pose proof (Itoa_nonempty (- z) ltac:(lia)) as Hne.
    rewrite (Itoa_neg z) in * by lia.
    change (skip_blanks (String "-" (Itoa (- z)))) with (Some (String "-" (Itoa (- z)))). cbn iota.
    change (strip_sign (String "-" (Itoa (- z)))) with (true, Itoa (- z)). cbn iota.
    rewrite digits_prefix_all by done. destruct (Itoa (- z)); [done|]. by rewrite HP, Hwrap.
Qed.

(** The text of a field's value in a path. *)
Definition render (v : fvalue) : string :=
  match v with FInt z => Itoa z | FBool b => if b then "true" else "false" | FStr s => of_bytes s | FOther => "" end.

Definition bindable (f : FieldNode) (v : fvalue) : Prop :=
  match tn_Kind (fn_Type f), v with
  | TypeInt32, FInt z => in_s 32 z
  | TypeInt64, FInt z => in_s 64 z
  | TypeString, FStr _ | TypeBool, FBool _ => True
  | _, _ => False
  end.

Lemma bind_render params f v v0 :
  bindable f v -> params !! fn_Name f = Some (render v) -> bind_field params f v0 = v.
Proof.
  unfold bind_field, bindable. intros Hb ->.
  destruct (tn_Kind (fn_Type f)), v as [z|b|s|]; try done; cbn [render].
  - rewrite Sscanf_d_Itoa; [done|lia|done|words].
  - rewrite Sscanf_d_Itoa; [done|lia|done|done].
  - by rewrite to_of_bytes.
  - by destruct b.
Qed.

(** The values a client puts into the path: those of the fields of a message. *)
Definition path_env (fields : list FieldNode) (x : fmessage) (name : string) : string :=
  default "" ((list_to_map (zip_with (fun f v => (fn_Name f, render v)) fields x) : gmap string string) !! name).

(** The message with the fields that are named in the path, and zero values elsewhere. *)
Definition picked (names : list string) (f : FieldNode) (v : fvalue) : fvalue :=
  if bool_decide (fn_Name f ∈ names) then v else flat_zero f.

Lemma path_env_field fields x i f v : NoDup (fn_Name <$> fields) ->
  fields !! i = Some f -> x !! i = Some v -> path_env fields x (fn_Name f) = render v.
Proof.
  intros Hnd Hf Hv. unfold path_env.
  rewrite (elem_of_list_to_map_1 _ (fn_Name f) (render v)); [done| |].
  - clear -Hnd. revert x Hnd. induction fields as [|f fields IH]; intros [|v x] Hnd; try apply NoDup_nil_2.
    cbn in *. apply NoDup_cons in Hnd as [Hn Hnd]. apply NoDup_cons. split; [|by apply IH].
    intros Hin. apply Hn. apply list_elem_of_fmap in Hin as ([n r] & -> & Hin). cbn.
    apply elem_of_lookup_zip_with in Hin as (j & f' & v' & [= -> ->] & Hj & _).
    apply list_elem_of_fmap_2. by eapply list_elem_of_lookup_2.
  - apply elem_of_lookup_zip_with. by exists i, f, v.
Qed.

Lemma zip_with_fields {A B} (g h : FieldNode -> A -> B) fields xs :
  (forall i f v, fields !! i = Some f -> xs !! i = Some v -> g f v = h f v) ->
  zip_with g fields xs = zip_with h fields xs.
Proof.
  revert xs. induction fields as [|f fields IH]; intros [|v xs] H; try done. cbn. f_equal.
  - apply (H 0%nat); done.
  - apply IH. intros i. apply (H (S i)).
Qed.

(** *** Requests to a generated service *)
Section calls.
Context (a : AST) (j : json_lib) {W C : Type} `{MapIter} `{HasClock W}.
Context (reg : registry) (ws : websocket C) (ws_respond : C -> ResponseWriter -> ResponseWriter).
Context (json_error : string -> string) (impl : service (W := W)) (srv : ServiceNode).

(** The handler of a method behind the interceptors of [h0]. *)
Definition intercepted (h0 : GRPCHandler W object) (path : string) (m : MethodNode) : UnaryHandler W object :=
  foldr (nest {| FullMethod := path |}) (method_handler impl m) (gh_interceptors h0).

Lemma chain_nest {V} (ics : list (UnaryServerInterceptor W V)) info (k : UnaryHandler W V) ctx req w :
  match chainInterceptors ics with Some c => c ctx req info k w | None => k ctx req w end
  = foldr (nest info) k ics ctx req w.
Proof.
  unfold chainInterceptors. destruct ics as [|i0 [|i1 rest]]; [done|done|].
  rewrite chain_from by (cbn; lia). done.
Qed.

Lemma call_registered h0 path m ctx req w :
  gh_chained h0 = chainInterceptors (gh_interceptors h0) ->
  call_chain (RegisterService a impl srv h0) path (method_info a impl m) ctx req w
  = intercepted h0 path m ctx req w.
Proof.
  intros Hc. unfold call_chain, RegisterService, intercepted.
  rewrite (proj1 (proj2 (register_routes a impl srv (sv_Methods srv) h0))), Hc. apply chain_nest.
Qed.
End calls.

(** A client of the generated code: the request it frames for a message. *)
Definition client_frame (reg : registry) (enc : string) (payload : bytes) : bytes :=
  let '(flag, data) := compress_response reg enc payload in frame flag data.

Definition frame_fits (reg : registry) (enc : string) (payload : bytes) : Prop :=
  in_u 32 (Z.of_nat (length (snd (compress_response reg enc payload)))).

(** A request to a REST route without a body. *)
Definition rest_request (method path : string) : Request := {|
  r_method := method; r_path := path; r_query := ∅; r_header := ∅; r_remote := ""; r_ctx := Background;
  r_body := {| b_data := []; b_end := None |} |}.

(** ** Properties *)

(** C1: a gRPC call to a generated service, end to end.  A client marshals a request
    with the generated codec, frames it (compressed when a codec is registered for the
    encoding) and posts it to the dotted or the underscore path of a method; then the
    implementation runs, behind the server's interceptors in order, on exactly the
    message the client encoded, and when it answers, the client decodes exactly that
    answer from a response with status 200 and [grpc-status: 0].  It holds for every
    schema, every method of a service whose method names differ, and all messages of
    int32, int64 and string fields numbered up to 15. *)
Theorem generated_grpc_call {W C} `{MapIter} `{HasClock W} (a : AST) (j : json_lib)
    (reg : registry) (ws : websocket C) (ws_respond : C -> ResponseWriter -> ResponseWriter)
    (json_error : string -> string) (impl : service) (srv : ServiceNode) (m : MethodNode)
    (h0 : GRPCHandler W object) (path enc : string) (x y : fmessage) (payload out : bytes) (w w' : W) :
  m ∈ sv_Methods srv -> NoDup (mn_Name <$> sv_Methods srv) -> is_path a srv m path ->
  gh_chained h0 = chainInterceptors (gh_interceptors h0) ->
  is_debug_path path = false ->
  matchREST "POST" path (gh_restRoutes (RegisterService a impl srv h0)) = None ->
  (forall c, getCompressor reg enc = Some c -> lossless c) ->
  codable a (mn_InputType m) x -> codable a (mn_OutputType m) y ->
  object_Marshal a {| o_type := mn_InputType m; o_fields := x |} = Ok payload ->
  object_Marshal a {| o_type := mn_OutputType m; o_fields := y |} = Ok out ->
  frame_fits reg enc payload -> frame_fits reg enc out ->
  intercepted impl h0 path m (request_context (now_of w) (grpc_request path enc (client_frame reg enc payload)))
    {| o_type := mn_InputType m; o_fields := x |} w = (w', Ok {| o_type := mn_OutputType m; o_fields := y |}) ->
  exists rw,
    @ServeHTTP W object C _ (object_message a j) _ reg ws ws_respond json_error (RegisterService a impl srv h0) new_writer
      (grpc_request path enc (client_frame reg enc payload)) w = (w', rw) /\
    fst (fst (response rw)) = 200 /\ Header_Get (snd (fst (response rw))) "grpc-status" = "0" /\
    snd (@unary_dec object (object_message a j) reg "proto" enc (new_object a (mn_OutputType m))
           {| b_data := snd (response rw); b_end := None |})
      = Ok {| o_type := mn_OutputType m; o_fields := y |}.
Proof.
  intros Hin Hnd Hp Hch Hdbg Hrest Hl Hx Hy Ep Eo Hfp Hfo Hcall.
  destruct (object_roundtrip a _ _ Hx) as (payload' & Ep' & Eu). rewrite Ep in Ep'. injection Ep' as <-.
  destruct (object_roundtrip a _ _ Hy) as (out' & Eo' & Eu'). rewrite Eo in Eo'. injection Eo' as <-.
  unfold client_frame, frame_fits in *. rewrite <- Eu'.
  destruct (compress_response reg enc payload) as [flag data] eqn:Cp.
  destruct (compress_response reg enc out) as [flag' data'] eqn:Co.
  eapply (@grpc_unary_call W object C _ (object_message a j)); try done.
  - by apply register_lookup.
  - done.
  - done.
  - done.
  - by rewrite call_registered.
  - cbn. by rewrite Eo.
Qed.

Lemma match_routes_skip method req routes routes' :
  match_routes method req routes = None -> match_routes method req (routes ++ routes') = match_routes method req routes'.
Proof. induction routes as [|r routes IH]; [done|]. cbn. destruct (match_route method req r); [done|]. exact IH. Qed.

Lemma binder_empty a m : is_Some (struct_named a (mn_InputType m)) ->
  Binder a m (new_object a (mn_InputType m)) ∅ = Ok (new_object a (mn_InputType m)).
Proof.
  intros [str Es]. unfold Binder, new_object. cbn [o_type o_fields]. rewrite bool_decide_true by done.
  unfold struct_fields. change (input_struct m a) with (struct_named a (mn_InputType m)). rewrite Es. do 2 f_equal.
  generalize (sn_Fields str). intros fields. induction fields as [|f fields IH]; [done|]. cbn. by rewrite IH.
Qed.

(** The binder on a fresh request: the fields named in the path. *)
Lemma binder_picks a m x names params :
  is_Some (struct_named a (mn_InputType m)) ->
  (forall i f v, struct_fields a (mn_InputType m) !! i = Some f -> x !! i = Some v -> fn_Name f ∈ names ->
     bindable f v /\ params !! fn_Name f = Some (render v)) ->
  (forall i f v, struct_fields a (mn_InputType m) !! i = Some f -> x !! i = Some v -> fn_Name f ∉ names ->
     params !! fn_Name f = None) ->
  length x = length (struct_fields a (mn_InputType m)) ->
  Binder a m (new_object a (mn_InputType m)) params
  = Ok {| o_type := mn_InputType m; o_fields := zip_with (picked names) (struct_fields a (mn_InputType m)) x |}.
Proof.
  intros [str Es] Hin Hout Hlen. unfold Binder, new_object. cbn [o_type o_fields].
  rewrite bool_decide_true by done. unfold struct_fields in *.
  change (input_struct m a) with (struct_named a (mn_InputType m)). rewrite Es in *. do 2 f_equal.
  revert x Hin Hout Hlen. generalize (sn_Fields str). clear. intros fields.
  induction fields as [|f fields IH]; intros [|v x] Hin Hout Hlen; try done. cbn. f_equal.
  - unfold picked. case_bool_decide as Hn.
    + destruct (Hin 0%nat f v) as [Hb Hp]; try done. by apply bind_render.
    + unfold bind_field. by rewrite (Hout 0%nat f v).
  - apply IH; [intros i; apply (Hin (S i))|intros i; apply (Hout (S i))|by injection Hlen].
Qed.

(** A request without headers to a unary method is served as JSON. *)
Lemma serve_plain {W V C} `{MapIter} `{Message V} `{HasClock W} reg ws ws_respond json_error
    (h : GRPCHandler W V) r path params m rw (w : W) :
  is_debug_path (r_path r) = false -> resolve h r = (path, params) -> gh_methods h !! path = Some m ->
  mi_IsStreaming m = false -> r_header r = ∅ ->
  @ServeHTTP W V C _ _ _ reg ws ws_respond json_error h rw r w
  = serve_json h path m params (request_context (now_of w) r) (r_body r) rw w.
Proof.
  intros Hd Hr Hm Hs Hh. unfold ServeHTTP. rewrite Hd, Hr, Hm, Hs, Hh, andb_false_r. reflexivity.
Qed.

(** C6: a REST call to a generated service, end to end.  A client fills the pattern of
    a method's route with the values of fields of a message and sends the request
    without a body; then the implementation runs, behind the interceptors, on the
    message that has those values in the fields named in the pattern and zero values
    elsewhere, and its answer is returned as JSON.  It holds for every schema with
    distinct method and field names, for all int32, int64, bool and string values whose
    text is a path segment, when no earlier route matches. *)
Theorem generated_rest_call {W C} `{MapIter} `{HasClock W} (a : AST) (j : json_lib)
    (reg : registry) (ws : websocket C) (ws_respond : C -> ResponseWriter -> ResponseWriter)
    (json_error : string -> string) (impl : service) (srv : ServiceNode) (m : MethodNode)
    (before after : list MethodNode) (h0 : GRPCHandler W object) (x : fmessage) (resp : object)
    (out : bytes) (w w' : W) :
  let In := mn_InputType m in
  let fields := struct_fields a In in
  let parts := splitPath (mn_RESTPath m) in
  let names := omap param_name parts in
  let r := rest_request (mn_RESTMethod m) (expand (path_env fields x) parts) in
  sv_Methods srv = before ++ m :: after -> NoDup (mn_Name <$> sv_Methods srv) -> has_route m = true ->
  gh_chained h0 = chainInterceptors (gh_interceptors h0) ->
  matchREST (r_method r) (r_path r) (gh_restRoutes h0 ++ omap (rest_route a srv) before) = None ->
  is_debug_path (r_path r) = false ->
  is_Some (struct_named a In) -> NoDup (fn_Name <$> fields) -> length x = length fields ->
  (forall i f v, fields !! i = Some f -> x !! i = Some v -> fn_Name f ∈ names -> bindable f v) ->
  parts <> [] -> Forall segment (expand_part (path_env fields x) <$> parts) ->
  (forall o, sonic_Unmarshal j (to_bytes "{}") o = Ok o) ->
  intercepted impl h0 (pathDot a srv m) m (request_context (now_of w) r)
    {| o_type := In; o_fields := zip_with (picked names) fields x |} w = (w', Ok resp) ->
  sonic_Encode j resp = Ok out ->
  exists rw,
    @ServeHTTP W object C _ (object_message a j) _ reg ws ws_respond json_error (RegisterService a impl srv h0) new_writer r w
      = (w', rw) /\
    fst (fst (response rw)) = 200 /\ Header_Get (snd (fst (response rw))) "Content-Type" = "application/json" /\
    snd (response rw) = out.
Proof.
  intros In fields parts names r Hms Hnd Hroute Hch Hno Hdbg Hstr Hnames Hlen Hbind Hne Hseg Hjson Hcall Henc.
  destruct (match_parts_expand (path_env fields x) parts ∅) as (params & Hmatch & Hin & Hout).
  assert (Hres : resolve (RegisterService a impl srv h0) r = (pathDot a srv m, params)).
  { unfold resolve, RegisterService. rewrite (proj1 (register_routes a impl srv _ h0)), Hms.
    rewrite omap_app, app_assoc. cbn [omap list_omap]. unfold rest_route at 2. rewrite Hroute.
    unfold matchREST in *. cbn [r_method r_path r rest_request r_query] in *.
    rewrite match_routes_skip by done. cbn [match_routes]. unfold match_route.
    unfold expand. rewrite splitPath_Join; [|by destruct parts|done].
    cbn [newRESTRoute rt_Method rt_PathParts]. fold parts.
    rewrite bool_decide_true by done. rewrite length_fmap, Nat.eqb_refl. cbn [andb]. rewrite Hmatch.
    rewrite range_map_empty. done. }
  assert (Hb : Binder a m (new_object a In) params = Ok {| o_type := In; o_fields := zip_with (picked names) fields x |}).
  { apply binder_picks; try done.
    - intros i f v Hf Hv Hn. split; [by eapply Hbind|]. rewrite Hin by done. f_equal. by eapply path_env_field.
    - intros i f v Hf Hv Hn. rewrite Hout by done. done. }
  rewrite (@serve_plain W object C _ (object_message a j) _ reg ws ws_respond json_error _ r (pathDot a srv m) params
    (method_info a impl m)); try done; [|by apply register_lookup; [rewrite Hms; set_solver|done|left]].
  unfold serve_json. change (mi_Decoder (method_info a impl m) json_dec (r_body r))
    with ({| b_data := []; b_end := None |}, sonic_Unmarshal j (to_bytes "{}") (new_object a In)).
  rewrite Hjson. cbn [mi_Binder method_info].
  match goal with |- context [match ?bound with Ok _ => _ | Err _ => _ end] =>
    assert (bound = Ok {| o_type := In; o_fields := zip_with (picked names) fields x |}) as -> end.
  { case_bool_decide as Hp; [|done]. rewrite <- Hb, Hp. symmetry. by apply binder_empty. }
  rewrite call_registered by done. rewrite Hcall. change (json_Encode resp) with (sonic_Encode j resp). rewrite Henc.
  eexists. split; [done|]. done.
Qed.

(** *** A concrete service *)
Definition user_field (name : string) (id : Z) (k : Type_) : FieldNode :=
  {| fn_Name := name; fn_ID := id; fn_Type := scalar k; fn_Optional := false |}.
Definition user_struct : StructNode :=
  {| sn_Name := "User"; sn_HasFallback := false;
     sn_Fields := [user_field "user_id" 1 TypeInt64; user_field "name" 2 TypeString] |}.
Definition get_user : MethodNode :=
  {| mn_Name := "Get"; mn_InputType := "User"; mn_OutputType := "User"; mn_ClientStreaming := false;
     mn_ServerStreaming := false; mn_RESTMethod := "GET"; mn_RESTPath := "/v1/users/{user_id}" |}.
Definition users : ServiceNode := {| sv_Name := "Users"; sv_Methods := [get_user] |}.
Definition users_ast : AST :=
  {| Namespace := "acme.api"; Enums := []; Structs := [user_struct]; Services := [users] |}.

(** The implementation greets; the world counts the calls. *)
Definition greet : service (W := Z) := fun _ _ x w =>
  match x with
  | [FInt id; FStr name] => (w + 1, Ok [FInt id; FStr (name ++ to_bytes "!")])
  | _ => (w, Err ErrClosed)
  end.

(** A JSON library good enough for one message. *)
Definition id_json : json_lib := {|
  sonic_Unmarshal _ o := Ok o;
  sonic_Encode o := Ok (concat ((fun v => to_bytes (render v)) <$> o_fields o));
  encjson_Unmarshal _ o := Ok o;
  encjson_Marshal o := Ok []
|}.

#[local] Instance users_clock : HasClock Z := {| now_of w := w |}.

Definition bare_handler : GRPCHandler Z object := NewGRPCHandler (fun rw _ w => (w, rw)).

Lemma codable_ada : codable users_ast "User" [FInt 42; FStr (to_bytes "ada")].
Proof.
  split_and!; [|repeat constructor; done|vm_compute; reflexivity].
  split; [apply (bool_decide_unpack (NoDup _)); vm_compute; exact I|repeat constructor; cbn; lia].
Qed.
Lemma codable_ada_reply : codable users_ast "User" [FInt 42; FStr (to_bytes "ada!")].
Proof.
  split_and!; [|repeat constructor; done|vm_compute; reflexivity].
  split; [apply (bool_decide_unpack (NoDup _)); vm_compute; exact I|repeat constructor; cbn; lia].
Qed.

Lemma generated_grpc_call_witness :
  let reg := compressorRegistry stored_codec in
  let data := client_frame reg "gzip" (x08 :: x2a :: x12 :: x03 :: to_bytes "ada") in
  exists rw,
    @ServeHTTP Z object unit _ (object_message users_ast id_json) _ reg no_websocket (fun _ rw => rw) (fun s => s)
      (RegisterService users_ast greet users bare_handler) new_writer
      (grpc_request "/acme_api.Users/Get" "gzip" data) 5 = (6, rw) /\
    fst (fst (response rw)) = 200 /\ Header_Get (snd (fst (response rw))) "grpc-status" = "0" /\
    snd (@unary_dec object (object_message users_ast id_json) reg "proto" "gzip" (new_object users_ast "User")
           {| b_data := snd (response rw); b_end := None |})
      = Ok {| o_type := "User"; o_fields := [FInt 42; FStr (to_bytes "ada!")] |}.
Proof.
  apply (generated_grpc_call users_ast id_json (compressorRegistry stored_codec) no_websocket (fun _ rw => rw) (fun s => s)
    greet users get_user bare_handler "/acme_api.Users/Get" "gzip" [FInt 42; FStr (to_bytes "ada")]
    [FInt 42; FStr (to_bytes "ada!")] (x08 :: x2a :: x12 :: x03 :: to_bytes "ada")
    (x08 :: x2a :: x12 :: x04 :: to_bytes "ada!") 5 6); try reflexivity.
  - apply list_elem_of_here.
  - apply NoDup_singleton.
  - right. reflexivity.
  - intros c. cbn. intros [= <-]. apply GzipCompressor_lossless, stored_codec_sound.
  - apply codable_ada.
  - apply codable_ada_reply.
  - by vm_compute.
  - by vm_compute.
Defined.

Lemma generated_rest_call_witness :
  exists rw,
    @ServeHTTP Z object unit _ (object_message users_ast id_json) _ ∅ no_websocket (fun _ rw => rw) (fun s => s)
      (RegisterService users_ast greet users bare_handler) new_writer (rest_request "GET" "/v1/users/42") 5 = (6, rw) /\
    fst (fst (response rw)) = 200 /\ Header_Get (snd (fst (response rw))) "Content-Type" = "application/json" /\
    snd (response rw) = to_bytes "42!".
Proof.
  apply (generated_rest_call users_ast id_json ∅ no_websocket (fun _ rw => rw) (fun s => s)
    greet users get_user [] [] bare_handler [FInt 42; FStr (to_bytes "ada")]
    {| o_type := "User"; o_fields := [FInt 42; FStr (to_bytes "!")] |} (to_bytes "42!") 5 6); try reflexivity.
  - apply NoDup_singleton.
  - by exists user_struct.
  - apply (bool_decide_unpack (NoDup _)). vm_compute. exact I.
  - intros [|[|i]] f v; cbn; intros [= <-] [= <-] Hn; [by vm_compute|done].
  - discriminate.
  - vm_compute. repeat constructor; discriminate.
Defined.

(** the text after the digits of a number in a path is ignored, and a bool that is
    not one of the known words reads as false: a request for user [42abc] is served as
    one for user 42. *)
Theorem binder_accepts_trailing_text :
  bind_field {["user_id" := "42abc"]} (user_field "user_id" 1 TypeInt64) (FInt 0) = FInt 42 /\
  bind_field {["ok" := "yes"]} (user_field "ok" 1 TypeBool) (FBool true) = FBool false.
Proof. split; reflexivity. Qed.

(** a FlatBuffers client does not get a FlatBuffers answer.  Whatever codec the request
    was decoded with, the response payload is the protobuf encoding of the result. *)
Theorem flatbuffers_reply_is_protobuf {W V} `{Message V} (reg : registry) (h : GRPCHandler W V) (path : string)
    (m : MethodInfo W V) (ctx : context) (b b' : body) (req resp : V) (data : bytes) (w w' : W) :
  mi_Decoder m (unary_dec reg "flatbuffers" "") b = (b', Ok req) ->
  call_chain h path m ctx req w = (w', Ok resp) -> as_ProtoMarshaler resp = Some (Ok data) ->
  snd (response (snd (serve_unary reg h path m "flatbuffers" "" false false ctx b new_writer w))) = frame 0 data.
Proof. intros Hd Hc Hm. unfold serve_unary. rewrite Hd, Hc, Hm. reflexivity. Qed.

Lemma flatbuffers_reply_is_protobuf_witness :
  snd (response (snd (@serve_unary Z object (object_message users_ast id_json) ∅
    (RegisterService users_ast greet users bare_handler) "/acme.api.Users/Get" (method_info users_ast greet get_user)
    "flatbuffers" "" false false Background
    {| b_data := frame 0 (object_MarshalFlatBuffers users_ast {| o_type := "User"; o_fields := [FInt 7; FStr (to_bytes "x")] |});
       b_end := None |} new_writer 0))) = frame 0 (x08 :: x07 :: x12 :: x02 :: to_bytes "x!").
Proof.
  apply (@flatbuffers_reply_is_protobuf Z object (object_message users_ast id_json) ∅
    (RegisterService users_ast greet users bare_handler) "/acme.api.Users/Get" (method_info users_ast greet get_user)
    Background _ {| b_data := []; b_end := None |}
    {| o_type := "User"; o_fields := [FInt 7; FStr (to_bytes "x")] |}
    {| o_type := "User"; o_fields := [FInt 7; FStr (to_bytes "x!")] |} (x08 :: x07 :: x12 :: x02 :: to_bytes "x!") 0 1);
    vm_compute; reflexivity.
Defined.

(** a REST route of two parameters takes over the gRPC calls: with a route
    [POST /{a}/{b}] registered, a gRPC call to any method is dispatched to the route's
    method. *)
Theorem wildcard_route_shadows_grpc {W V} `{MapIter} (h : GRPCHandler W V) (srv name enc handlerPath : string) (data : bytes) :
  segment srv -> segment name ->
  gh_restRoutes h = [newRESTRoute "POST" "/{a}/{b}" handlerPath] ->
  fst (resolve h (grpc_request ("/" +:+ srv +:+ "/" +:+ name) enc data)) = handlerPath.
Proof.
  intros Hs Hn Hr. unfold resolve, matchREST. cbn [r_method r_path grpc_request]. rewrite Hr.
  change ("/" +:+ srv +:+ "/" +:+ name) with ("/" +:+ Join [srv; name] "/").
  rewrite splitPath_Join by (done || (constructor; [done|by constructor])). reflexivity.
Qed.

Lemma wildcard_route_shadows_grpc_witness :
  fst (resolve (RegisterRESTRoute "POST" "/{a}/{b}" "/other.Svc/Do" bare_handler)
    (grpc_request "/acme.api.Users/Get" "" [])) = "/other.Svc/Do".
Proof.
  apply (wildcard_route_shadows_grpc (RegisterRESTRoute "POST" "/{a}/{b}" "/other.Svc/Do" bare_handler)
    "acme.api.Users" "Get"); [by split|by split|reflexivity].
Defined.
