(* ===== verification/NodeClient.v ===== *)
(** * The generated TypeScript client ([compiler/codegen/node_generator.go]) and the server

    What the printed client class does: the request of a method, the unary call, and the
    loop that reads server-sent events, on top of the Go server ([GrpcHandler],
    [Service]).  [baseUrl] is the origin of the server and [config.headers] is empty.

    The pieces of a response body are texts: the streaming [TextDecoder] returns pieces
    of the decoded text, cut anywhere.  [trim] and the indices of a string are modelled on
    ASCII text. *)
From S2P Require Import Prelude GoStrings Errors Context Http Compression Streams Routing GrpcHandler.
From S2P Require Import Ast Wire FlatBuf GoText GenGo GenNode OpenApi Json Service.

(** ** Requests *)
Definition client_path (svc : ServiceNode) (method : MethodNode) : string :=
  if bool_decide (mn_RESTPath method = "") then "/v1." +:+ sv_Name svc +:+ "/" +:+ mn_Name method
  else mn_RESTPath method.

Definition client_headers (streaming : bool) : Header :=
  (if streaming then <["Accept" := ["text/event-stream"]]> else id) {["Content-Type" := ["application/json"]]}.

Definition client_request (svc : ServiceNode) (method : MethodNode) (req : bytes) : Request := {|
  r_method := "POST"; r_path := client_path svc method; r_query := ∅;
  r_header := client_headers (mn_ServerStreaming method); r_remote := ""; r_ctx := Background;
  r_body := {| b_data := req; b_end := None |} |}.

(** ** The classes of the messages *)

(** An object of a generated class: the values of its own properties. *)
Abbreviation js_object := (gmap string jvalue).

Definition js_default (f : FieldNode) : jvalue :=
  match tn_Kind (fn_Type f) with
  | TypeInt32 | TypeInt64 => VNum "0"
  | TypeBool => VBool false
  | TypeString => VString ""
  | _ => VNull
  end.

(** The enumerable members [Object.assign] copies from a value that [if (init)] lets
    through; a string has one for each character, other scalars have none. *)
Definition members (init : jvalue) : list (string * jvalue) :=
  match init with
  | VObj m => m
  | VArr l => imap (fun i v => (Itoa (Z.of_nat i), v)) l
  | VString s => imap (fun i c => (Itoa (Z.of_nat i), VString (String c ""))) (String.list_ascii_of_string s)
  | _ => []
  end.

(** [Object.assign(this, init)]; a member [__proto__] sets the prototype and no property. *)
Definition assign (props : js_object) (init : list (string * jvalue)) : js_object :=
  foldl (fun props '(k, v) => if bool_decide (k = "__proto__") then props else <[k := v]> props) props init.

(** [new T(init)] for a class with these fields: the declared properties with their
    defaults, then the members of [init]. *)
Definition new_T (fields : list FieldNode) (init : jvalue) : js_object :=
  assign (list_to_map (reverse ((fun f => (toJSFieldName (fn_Name f), js_default f)) <$> fields))) (members init).

(** The class of a name: the fields of the struct the file was generated from. *)
Definition class_of (a : AST) (name : string) : option (list FieldNode) := sn_Fields <$> struct_named a name.

(** ** Responses *)

(** [!res.ok], [await res.json()] and the name of a class that is not declared reject the
    promise. *)
Inductive promise := Resolved (data : js_object) | HTTPError (status : Z) | SyntaxError | ReferenceError.

Definition is_ok_status (status : Z) : bool := (200 <=? status) && (status <=? 299).

Definition unary_result (class : option (list FieldNode)) (resp : Z * Header * bytes) : promise :=
  let '(status, _, body) := resp in
  if negb (is_ok_status status) then HTTPError status
  else match parse_json (of_bytes body) with
       | Some data => match class with Some fields => Resolved (new_T fields data) | None => ReferenceError end
       | None => SyntaxError
       end.

(** An iteration of the reader yields a message, or logs a line it cannot make one of. *)
Inductive event := Yield (data : js_object) | Logged (dataStr : string).

(** The body of [try]. *)
Definition parse_chunk (class : option (list FieldNode)) (dataStr : string) : event :=
  match parse_json dataStr, class with
  | Some data, Some fields => Yield (new_T fields data)
  | _, _ => Logged dataStr
  end.

Definition newline : ascii := "010".

(** [for (const line of lines)]; the flag tells that the function returned. *)
Fixpoint on_lines (class : option (list FieldNode)) (lines : list string) : list event * bool :=
  match lines with
  | [] => ([], false)
  | line :: lines =>
      if HasPrefix line "data: " then
        let dataStr := TrimSpace (str_drop 6 line) in
        if bool_decide (dataStr = "[DONE]") then ([], true)
        else
          let e := parse_chunk class dataStr in
          let '(es, stop) := on_lines class lines in (e :: es, stop)
      else on_lines class lines
  end.

(** [while (true)], over the pieces the reader returns until it is done. *)
Fixpoint read_loop (class : option (list FieldNode)) (buffer : string) (pieces : list string) : list event :=
  match pieces with
  | [] => []
  | value :: pieces =>
      let lines := Split (buffer +:+ value) newline in
      let '(es, stop) := on_lines class (removelast lines) in
      if stop then es else es ++ read_loop class (List.last lines "") pieces
  end.

(** The async generator: an error, or the events. *)
Definition stream_result (class : option (list FieldNode)) (resp : Z * Header * bytes) (pieces : list string) : res Z (list event) :=
  let '(status, _, _) := resp in
  if negb (is_ok_status status) then Err status else Ok (read_loop class "" pieces).

(** ** Lemmas: lines *)
Abbreviation no_newline := (str_forall (fun c => negb (Ascii.eqb c newline))).

Lemma Split_cons_last s c : exists front back, Split s c = front ++ [back] /\
  str_forall (fun a => negb (Ascii.eqb a c)) back = true /\ forall t, Split (s +:+ t) c = front ++ Split (back +:+ t) c.
Proof.
  induction s as [|a s IH]; cbn [Split String.append]; [exists [], ""; done|].
  destruct IH as (front & back & E & Hb & Ht). destruct (Ascii.eqb a c) eqn:Ea.
  - exists ("" :: front), back. split; [by rewrite E|]. split; [done|]. intros t. by rewrite Ht.
  - destruct front as [|f front].
    + exists [], (String a back). rewrite E. split; [done|]. split; [cbn; by rewrite Ea, Hb|].
      intros t. rewrite Ht. cbn [app String.append Split]. by rewrite Ea.
    + exists (String a f :: front), back. rewrite E. split; [done|]. split; [done|]. intros t. by rewrite Ht.
Qed.

Lemma on_lines_app class l1 l2 : on_lines class (l1 ++ l2) =
  let '(e1, s1) := on_lines class l1 in if s1 then (e1, true) else let '(e2, s2) := on_lines class l2 in (e1 ++ e2, s2).
Proof.
  induction l1 as [|l l1 IH]; cbn [on_lines app]; [by destruct (on_lines class l2)|].
  destruct (HasPrefix l "data: "); [|exact IH]. case_bool_decide; [done|]. rewrite IH.
  destruct (on_lines class l1) as [e1 []]; [done|]. by destruct (on_lines class l2).
Qed.

(** However the body is cut into pieces, the reader sees its complete lines. *)
Lemma read_loop_lines class pieces buffer : no_newline buffer = true ->
  read_loop class buffer pieces = fst (on_lines class (removelast (Split (buffer +:+ String.concat "" pieces) newline))).
Proof.
  revert buffer. induction pieces as [|value pieces IH]; intros buffer Hb.
  - cbn [read_loop String.concat]. by rewrite str_app_nil_r, Split_no_sep.
  - cbn [read_loop]. assert (String.concat "" (value :: pieces) = value +:+ String.concat "" pieces) as ->.
    { destruct pieces; cbn; [by rewrite str_app_nil_r|done]. }
    rewrite <- str_app_assoc. destruct (Split_cons_last (buffer +:+ value) newline) as (front & back & E & Hback & Ht).
    rewrite Ht, E, removelast_last, last_last.
    assert (removelast (front ++ Split (back +:+ String.concat "" pieces) newline)
      = front ++ removelast (Split (back +:+ String.concat "" pieces) newline)) as ->.
    { apply removelast_app. apply Split_nonempty. }
    rewrite on_lines_app. destruct (on_lines class front) as [es []]; [done|]. rewrite IH by done.
    by destruct (on_lines class (removelast _)).
Qed.

(** ** Lemmas: printed JSON is one line without white space around it *)
Lemma join_forall (p : ascii -> bool) l sep : str_forall p sep = true -> Forall (fun s => str_forall p s = true) l ->
  str_forall p (Join l sep) = true.
Proof.
  intros Hs. induction 1 as [|x l Hx Hl IH]; [done|]. destruct l as [|y l]; [done|].
  change (Join (x :: y :: l) sep) with (x +:+ sep +:+ Join (y :: l) sep). by rewrite !str_forall_app, Hx, Hs, IH.
Qed.

Lemma quoted_line s : ascii_text s = true -> no_newline (json_quote s) = true.
Proof.
  intros Hs. rewrite json_quote_eq. cbn. rewrite str_forall_app, andb_true_r.
  induction s as [|c s IH]; [done|]. rewrite escape_ascii_go by done. cbn in Hs. apply andb_true_iff in Hs as [Hc Hs].
  rewrite str_forall_app, IH by done. rewrite andb_true_r. clear -Hc. by destruct c as [[] [] [] [] [] [] [] []].
Qed.

Lemma compact_line v n : printable v = true -> no_newline (layout (fun _ => "") "" n v) = true.
Proof.
  revert n. induction v as [|b|lit|s|l IH|m IH] using jvalue_rect'; intros n Hp; cbn [layout printable] in *.
  - done.
  - by destruct b.
  - apply andb_true_iff in Hp as [Hp _]. revert Hp. apply str_forall_impl. intros c. by destruct c as [[] [] [] [] [] [] [] []].
  - by apply quoted_line.
  - destruct l as [|v l]; [done|]. rewrite !str_forall_app. cbn [str_forall andb]. rewrite join_forall; [done|done|].
    apply Forall_forall. intros s Hs%list_elem_of_In. apply in_map_iff in Hs as (x & <- & Hx%list_elem_of_In).
    apply (proj1 (Forall_forall _ _) IH x Hx). eapply forallb_forall in Hp; [exact Hp|by apply list_elem_of_In].
  - destruct m as [|kv m]; [done|]. rewrite !str_forall_app. cbn [str_forall andb]. rewrite join_forall; [done|done|].
    apply Forall_forall. intros s Hs%list_elem_of_In. apply in_map_iff in Hs as (x & <- & Hx%list_elem_of_In).
    eapply forallb_forall in Hp; [|by apply list_elem_of_In]. apply andb_true_iff in Hp as [Hk Hv].
    rewrite !str_forall_app, quoted_line by done. apply (proj1 (Forall_forall _ _) IH x Hx _ Hv).
Qed.

Lemma number_not_space c : is_num_char c = true -> is_space c = false.
Proof. by destruct c as [[] [] [] [] [] [] [] []]. Qed.

(** The first and the last character. *)
Lemma compact_ends v : printable v = true ->
  (exists c s, marshal_compact v = String c s /\ is_space c = false) /\
  (exists s c, marshal_compact v = s +:+ String c "" /\ is_space c = false).
Proof.
  unfold marshal_compact. destruct v as [|b|lit|s|l|m]; intros Hp; cbn [layout].
  - split; [by eexists _, _|by exists "nul", "l"%char].
  - destruct b; (split; [by eexists _, _|]); [by exists "tru", "e"%char|by exists "fals", "e"%char].
  - cbn in Hp. apply andb_true_iff in Hp as [Hl Hn]. destruct lit as [|c lit]; [done|]. cbn in Hl.
    apply andb_true_iff in Hl as [Hc Hl]. split; [eexists _, _; split; [done|by apply number_not_space]|].
    clear Hn. revert c Hc. induction lit as [|d lit IH]; intros c Hc.
    { exists "", c. split; [done|by apply number_not_space]. }
    cbn in Hl. apply andb_true_iff in Hl as [Hd Hl]. destruct (IH Hl d Hd) as (s & e & E & He). exists (String c s), e. by rewrite E.
  - rewrite json_quote_eq. split; [by eexists _, _|]. by exists (String quote (escape_go 0 s)), quote.
  - destruct l as [|v l]; [split; [by eexists _, _|by exists "[", "]"%char]|]. split; [by eexists _, _|].
    eexists _, "]"%char. split; [|done]. rewrite <- !str_app_assoc. done.
  - destruct m as [|v m]; [split; [by eexists _, _|by exists "{", "}"%char]|]. split; [by eexists _, _|].
    eexists _, "}"%char. split; [|done]. rewrite <- !str_app_assoc. done.
Qed.

Lemma trim_compact v : printable v = true -> TrimSpace (marshal_compact v) = marshal_compact v.
Proof.
  intros Hp. destruct (compact_ends v Hp) as [(c & s & E & Hc) (s' & c' & E' & Hc')]. unfold TrimSpace.
  assert (trim_left is_space (marshal_compact v) = marshal_compact v) as -> by (rewrite E; cbn; by rewrite Hc).
  rewrite E'. apply trim_right_app; [|done]. cbn. by rewrite Hc'.
Qed.

(** ** Lemmas: events *)
Definition sse_event (s : string) : string := "data: " +:+ s +:+ String newline (String newline "").

Lemma split_event s t : no_newline s = true -> Split (sse_event s +:+ t) newline = ("data: " +:+ s) :: "" :: Split t newline.
Proof.
  intros Hs. unfold sse_event.
  assert (("data: " +:+ s +:+ String newline (String newline "")) +:+ t = ("data: " +:+ s) +:+ String newline ("" +:+ String newline t)) as ->.
  { by rewrite !str_app_assoc. }
  rewrite !Split_app; [done|done|by rewrite str_forall_app, Hs].
Qed.

Lemma on_data class s rest : on_lines class (("data: " +:+ s) :: "" :: rest) =
  if bool_decide (TrimSpace s = "[DONE]") then ([], true)
  else let '(es, stop) := on_lines class rest in (parse_chunk class (TrimSpace s) :: es, stop).
Proof.
  cbn [on_lines]. rewrite HasPrefix_app. change 6%nat with (String.length "data: "). rewrite str_drop_app. done.
Qed.

Lemma on_value fields v rest : printable v = true ->
  on_lines (Some fields) (("data: " +:+ marshal_compact v) :: "" :: rest)
  = let '(es, stop) := on_lines (Some fields) rest in (Yield (new_T fields v) :: es, stop).
Proof.
  intros Hp. rewrite on_data, trim_compact by done. unfold parse_chunk.
  rewrite bool_decide_false; [by rewrite parse_compact|].
  intros E. pose proof (parse_compact v Hp) as H. rewrite E in H. vm_compute in H. discriminate H.
Qed.

Definition events_text (vs : list jvalue) : string := String.concat "" ((fun v => sse_event (marshal_compact v)) <$> vs).

Lemma string_concat_cons s l : String.concat "" (s :: l) = s +:+ String.concat "" l.
Proof. destruct l; cbn; [by rewrite str_app_nil_r|done]. Qed.

(** A body of events and the end mark is read back, however it is cut. *)
Lemma read_events fields vs pieces : Forall (fun v => printable v = true) vs ->
  String.concat "" pieces = events_text vs +:+ sse_event "[DONE]" -> read_loop (Some fields) "" pieces = (fun v => Yield (new_T fields v)) <$> vs.
Proof.
  intros Hvs E. rewrite read_loop_lines by done. cbn [String.append]. rewrite E. clear E.
  induction Hvs as [|v vs Hv _ IH]; [reflexivity|]. unfold events_text. rewrite fmap_cons, string_concat_cons. fold (events_text vs).
  rewrite str_app_assoc, split_event by (by apply compact_line).
  change (?a :: ?b :: Split ?x newline) with ([a; b] ++ Split x newline).
  rewrite removelast_app by apply Split_nonempty. cbn [app]. rewrite on_value by done.
  destruct (on_lines _ _) as [es stop]; cbn [fst] in *. by rewrite IH.
Qed.

(** ** Lemmas: the server side of a stream *)
Section stream.
Context {W V C : Type} `{MapIter} `{Message V} `{HasClock W}.
Context (reg : registry) (ws : websocket C) (ws_respond : C -> ResponseWriter -> ResponseWriter).
Context (json_error : string -> string) (J : V -> jvalue).

(** What a handler does with one JSON request when every send succeeds: the messages it
    sends, the world it leaves and the error it returns. *)
Fixpoint trace (p : stream_prog W V) (payload : bytes) (read : bool) (w : W) : list V * W * option error :=
  match p with
  | SReturn err => ([], w, err)
  | SRecv v k => trace (k (if read then Err ErrEOF else json_Unmarshal payload v)) payload true w
  | SSend v k => let '(vs, w, err) := trace (k None) payload read w in (v :: vs, w, err)
  | SGet k => trace (k w) payload read w
  | SPut w k => trace k payload read w
  end.

(** The JSON library prints the value [J v] on a line. *)
Definition encodes (v : V) : Prop :=
  printable (J v) = true /\ json_Encode v = Ok (to_bytes (marshal_compact (J v) +:+ String newline "")).

(** A writer that has sent its header and still has a peer. *)
Definition open_writer (rw : ResponseWriter) (sent : Z * Header) (body : bytes) : Prop :=
  rw_sent rw = Some sent /\ rw_fail rw = None /\ rw_body rw = body.

Lemma open_write rw sent body data : open_writer rw sent body ->
  exists rw', Write data rw = (rw', None) /\ open_writer rw' sent (body ++ data).
Proof.
  intros (Hs & Hf & <-). unfold Write, WriteHeader. rewrite Hs, Hf. eexists. split; [reflexivity|]. by split_and!.
Qed.

Lemma cut_newline_line s : cut_newline (to_bytes (s +:+ String newline "")) = to_bytes s.
Proof.
  rewrite to_bytes_app. unfold cut_newline. change (to_bytes (String newline "")) with [x0a].
  rewrite last_snoc, length_app. cbn [length]. change (byte_to_Z x0a =? 10) with true. cbv iota.
  replace (length (to_bytes s) + 1 - 1)%nat with (length (to_bytes s)) by lia. apply take_app_length.
Qed.

Lemma sse_send_event v s sent body : encodes v -> open_writer (sse_w s) sent body ->
  exists rw, sse_Send v s = (sse_with s rw, None) /\ open_writer rw sent (body ++ to_bytes (sse_event (marshal_compact (J v)))).
Proof.
  intros [_ He] Ho. unfold sse_Send. rewrite He, cut_newline_line.
  destruct (open_write _ _ _ (to_bytes "data: ") Ho) as (rw1 & -> & Ho1).
  destruct (open_write _ _ _ (to_bytes (marshal_compact (J v))) Ho1) as (rw2 & -> & Ho2).
  destruct (open_write _ _ _ [x0a; x0a] Ho2) as (rw3 & -> & Ho3). exists rw3. split; [done|].
  unfold sse_event. rewrite !to_bytes_app, !(assoc_L (++)). exact Ho3.
Qed.

Lemma sse_run p s w sent body vs w' err : open_writer (sse_w s) sent body ->
  trace p (sse_payload s) (sse_read s) w = (vs, w', err) -> Forall encodes vs ->
  exists s', run_stream p s w = (s', w', err) /\ open_writer (sse_w s') sent (body ++ to_bytes (events_text (J <$> vs))).
Proof.
  revert s w body vs. induction p as [err'|v k IH|v k IH|k IH|w0 k IH]; intros s w body vs Ho; cbn [trace run_stream].
  - intros [= <- <- <-] _. exists s. split; [done|]. by rewrite app_nil_r.
  - intros Ht Hv. change (Recv v s) with (sse_Recv v s). unfold sse_Recv.
    destruct (sse_read s) eqn:Er; [rewrite <- Er in Ht|]; (eapply IH; [exact Ho| |exact Hv]); cbn [sse_payload sse_read]; congruence.
  - destruct (trace (k None) (sse_payload s) (sse_read s) w) as [[vs' w1] err1] eqn:Et. intros [= <- -> ->] Hv.
    apply Forall_cons in Hv as [Hv1 Hv]. change (Send v s) with (sse_Send v s).
    destruct (sse_send_event v s sent body Hv1 Ho) as (rw & -> & Ho1).
    destruct (IH None (sse_with s rw) w _ vs' Ho1 Et Hv) as (s' & -> & Hs'). exists s'. split; [done|].
    unfold events_text in *. rewrite fmap_cons, fmap_cons, string_concat_cons, to_bytes_app, (assoc_L (++)). exact Hs'.
  - intros Ht Hv. by eapply IH.
  - intros Ht Hv. by eapply IH.
Qed.

(** What the client makes of an error of the handler. *)
Definition error_event (err : option error) : list jvalue :=
  match err with Some e => [VObj [("error", VString (Error e))]] | None => [] end.

Lemma serve_sse_events m ctx data w vs w' err :
  (forall e, err = Some e -> json_error (Error e) = marshal_compact (VObj [("error", VString (Error e))])) ->
  trace (mi_StreamHandler m ctx) (json_payload data) false w = (vs, w', err) -> Forall encodes vs ->
  exists rw h, serve_sse json_error m ctx {| b_data := data; b_end := None |} new_writer w = (w', rw) /\
    open_writer rw (200, h) (to_bytes (events_text ((J <$> vs) ++ error_event err) +:+ sse_event "[DONE]")).
Proof.
  intros Hj Ht Hv. unfold serve_sse. cbn [ReadAll b_data b_end]. cbv iota.
  set (rw0 := WriteHeader 200 _). set (s0 := {| sse_w := rw0; sse_payload := json_payload data; sse_read := false |}).
  assert (exists h, open_writer rw0 (200, h) []) as [h Ho] by (by eexists).
  destruct (sse_run _ s0 w _ _ vs w' err Ho Ht Hv) as (s' & -> & Ho'). cbn [app] in Ho'.
  assert (exists rw1, match err with Some e => Write_ (to_bytes ("data: " +:+ json_error (Error e)) ++ [x0a; x0a]) (sse_w s') | None => sse_w s' end = rw1 /\
    open_writer rw1 (200, h) (to_bytes (events_text ((J <$> vs) ++ error_event err)))) as (rw1 & -> & Ho1).
  { destruct err as [e|]; (eexists; split; [reflexivity|]); [|by rewrite app_nil_r].
    rewrite (Hj e eq_refl). unfold Write_. destruct (open_write _ _ _ (to_bytes ("data: " +:+ marshal_compact (VObj [("error", VString (Error e))])) ++ [x0a; x0a]) Ho') as (rw1 & -> & Ho1).
    cbn [fst]. enough (events_text ((J <$> vs) ++ error_event (Some e)) = events_text (J <$> vs) +:+ sse_event (marshal_compact (VObj [("error", VString (Error e))]))) as ->.
    { rewrite to_bytes_app. unfold sse_event at 1. rewrite <- str_app_assoc, to_bytes_app. exact Ho1. }
    unfold events_text. rewrite fmap_app. generalize ((fun v => sse_event (marshal_compact v)) <$> (J <$> vs)). intros l.
    induction l as [|x l IH]; [done|]. cbn [app]. by rewrite !string_concat_cons, IH, str_app_assoc. }
  unfold Write_. destruct (open_write _ _ _ (to_bytes "data: [DONE]" ++ [x0a; x0a]) Ho1) as (rw2 & -> & Ho2).
  exists rw2, h. split; [done|]. by rewrite to_bytes_app.
Qed.
End stream.

(** ** Lemmas: how the server takes the client's requests *)
Lemma client_content_type b : Header_Get (client_headers b) "Content-Type" = "application/json".
Proof. by destruct b. Qed.

Lemma serve_client {W V C} `{MapIter} `{Message V} `{HasClock W} reg (ws : websocket C) ws_respond json_error
    (h : GRPCHandler W V) svc method data path params m rw (w : W) :
  let r := client_request svc method data in
  is_debug_path (client_path svc method) = false -> ws_IsUpgrade ws r = false ->
  resolve h r = (path, params) -> gh_methods h !! path = Some m ->
  ServeHTTP reg ws ws_respond json_error h rw r w
  = if mi_IsStreaming m then serve_sse json_error m (request_context (now_of w) r) (r_body r) rw w
    else serve_json h path m params (request_context (now_of w) r) (r_body r) rw w.
Proof.
  intros r Hd Hu Hr Hm. unfold ServeHTTP. change (r_path r) with (client_path svc method). rewrite Hd, Hr, Hm, Hu.
  change (r_header r) with (client_headers (mn_ServerStreaming method)). rewrite client_content_type.
  cbn [andb]. change (Contains "application/json" "application/grpc-web-text") with false.
  rewrite bool_decide_false by done. change (Contains "application/json" "application/json") with true.
  rewrite orb_true_r. by destruct (mi_IsStreaming m).
Qed.

Lemma unknown_client {W V C} `{MapIter} `{Message V} `{HasClock W} reg (ws : websocket C) ws_respond json_error
    (h : GRPCHandler W V) svc method data (w : W) :
  let r := client_request svc method data in
  is_debug_path (client_path svc method) = false -> gh_methods h !! fst (resolve h r) = None ->
  exists rw, ServeHTTP reg ws ws_respond json_error h new_writer r w = (w, rw) /\
    fst (fst (response rw)) = 200 /\ snd (response rw) = [].
Proof.
  intros r Hd Hm. unfold ServeHTTP. change (r_path r) with (client_path svc method). rewrite Hd.
  destruct (resolve h r) as [path params]. cbn [fst] in Hm. rewrite Hm. eexists. split; [reflexivity|]. done.
Qed.

(** *** The generated server *)
Lemma slash_split s t s' t' : str_forall (fun c => negb (Ascii.eqb c "/")) s = true ->
  str_forall (fun c => negb (Ascii.eqb c "/")) s' = true -> s +:+ String "/" t = s' +:+ String "/" t' -> s = s' /\ t = t'.
Proof.
  revert s'. induction s as [|c s IH]; intros [|c' s'] Hs Hs'; cbn in *.
  - intros [= ->]. done.
  - intros [= <- _]. done.
  - intros [= -> _]. done.
  - intros [= -> E]. apply andb_true_iff in Hs as [_ Hs]. apply andb_true_iff in Hs' as [_ Hs'].
    destruct (IH s' Hs Hs' E) as [-> ->]. done.
Qed.

Lemma dotted_prefix p q s : p +:+ "." +:+ s = q +:+ "." +:+ s -> p = q.
Proof.
  intros E. assert (String.length p = String.length q) as El.
  { apply (f_equal String.length) in E. rewrite !str_length_app in E. lia. }
  by destruct (str_app_inj _ _ _ _ El E).
Qed.

Lemma underscore_v1 s : ReplaceAll s "." "_" = "v1" -> s = "v1".
Proof.
  unfold ReplaceAll. destruct s as [|c [|d [|e s]]]; cbn; intros [=]; repeat case_match; try done. by subst.
Qed.

Lemma underscore_no_slash s : str_forall (fun c => negb (Ascii.eqb c "/")) s = true ->
  str_forall (fun c => negb (Ascii.eqb c "/")) (ReplaceAll s "." "_") = true.
Proof.
  unfold ReplaceAll. induction s as [|c s IH]; [done|]. cbn. intros [Hc Hs]%andb_true_iff.
  rewrite IH by done. rewrite andb_true_r. by case_match.
Qed.

Lemma client_path_registered a srv m m' p : mn_RESTPath m = "" ->
  str_forall (fun c => negb (Ascii.eqb c "/")) (packagePrefix a) = true ->
  str_forall (fun c => negb (Ascii.eqb c "/")) (sv_Name srv) = true ->
  p = client_path srv m -> is_path a srv m' p -> packagePrefix a = "v1".
Proof.
  intros Hr Hp Hs -> Hpath. unfold client_path in Hpath. rewrite bool_decide_true in Hpath by done.
  assert (forall q, str_forall (fun c => negb (Ascii.eqb c "/")) q = true ->
    "/v1." +:+ sv_Name srv +:+ "/" +:+ mn_Name m = method_path q srv m' -> q = "v1") as Hq.
  { intros q Hq [= E]. assert (("v1." +:+ sv_Name srv) +:+ String "/" (mn_Name m) = (q +:+ "." +:+ sv_Name srv) +:+ String "/" (mn_Name m')) as E'.
    { rewrite !str_app_assoc. cbn [String.append]. rewrite E. done. }
    apply slash_split in E' as [E' _]; [|by rewrite str_forall_app, Hs|by rewrite !str_forall_app, Hq, Hs].
    symmetry. by apply (dotted_prefix "v1" q (sv_Name srv)). }
  destruct Hpath as [E|E]; [by apply Hq|]. apply underscore_v1, Hq; [by apply underscore_no_slash|done].
Qed.

Lemma register_other {W} a (impl : service (W := W)) srv p ms h : Forall (fun m => ~ is_path a srv m p) ms ->
  gh_methods (foldl (register_method a impl srv) h ms) !! p = gh_methods h !! p.
Proof.
  intros Hms. revert h. induction Hms as [|m ms Hm _ IH]; intros h; [done|]. cbn [foldl]. rewrite IH.
  by apply register_method_lookup.
Qed.

Lemma client_not_debug srv m : mn_RESTPath m = "" -> is_debug_path (client_path srv m) = false.
Proof.
  intros Hr. unfold client_path. rewrite bool_decide_true by done. unfold is_debug_path.
  rewrite !bool_decide_false by done. rewrite !orb_false_r. destruct (HasPrefix _ _) eqn:E; [|done].
  apply HasPrefix_iff in E as [r E]. discriminate E.
Qed.

(** A JSON answer contains no event. *)
Lemma compact_not_data v s : printable v = true -> HasPrefix (marshal_compact v +:+ s) "data: " = false.
Proof.
  intros Hp. destruct (HasPrefix _ _) eqn:E; [|done]. apply HasPrefix_iff in E as [r E]. exfalso. revert E. unfold marshal_compact.
  destruct v as [|[]|lit|t|[|v l]|[|kv m]]; try done. cbn in Hp. apply andb_true_iff in Hp as [Hl Hn].
  destruct lit as [|c lit]; [done|]. cbn in Hl. apply andb_true_iff in Hl as [Hc _]. cbn. intros [= -> _]. discriminate Hc.
Qed.

Lemma read_json class v pieces : printable v = true ->
  String.concat "" pieces = marshal_compact v +:+ String newline "" -> read_loop class "" pieces = [].
Proof.
  intros Hp E. rewrite read_loop_lines by done. cbn [String.append]. rewrite E.
  rewrite Split_app by (by apply compact_line). cbn [Split removelast on_lines].
  pose proof (compact_not_data v "" Hp) as H. rewrite str_app_nil_r in H. by rewrite H.
Qed.

(** *** Field names *)
Abbreviation no_underscore := (str_forall (fun c => negb (Ascii.eqb c "_"))).

Lemma title_length prev s : String.length (title_go prev s) = String.length s.
Proof. revert prev. induction s as [|c s IH]; intros prev; cbn; [done|]. by rewrite IH. Qed.

Lemma split_lengths s c : (list_sum (String.length <$> Split s c) + length (Split s c) = S (String.length s))%nat.
Proof.
  induction s as [|a s IH]; [done|]. cbn [Split String.length]. destruct (Ascii.eqb a c).
  - rewrite fmap_cons. change (list_sum (?x :: ?l)) with (x + list_sum l)%nat. cbn [length String.length]. lia.
  - pose proof (Split_nonempty s c). destruct (Split s c) as [|x l]; [done|]. rewrite fmap_cons in *.
    change (list_sum (?x :: ?l)) with (x + list_sum l)%nat in *. cbn [length String.length] in *. lia.
Qed.

Lemma join_length l : String.length (Join l "") = list_sum (String.length <$> l).
Proof.
  induction l as [|x l IH]; [done|]. destruct l as [|y l]; [cbn; lia|].
  change (Join (x :: y :: l) "") with (x +:+ Join (y :: l) ""). rewrite str_length_app, IH. done.
Qed.

(** The property of a field has the field's name exactly when there is no underscore. *)
Lemma js_name_fixed s : toJSFieldName s = s <-> no_underscore s = true.
Proof.
  split.
  - intros E. assert (String.length (toJSFieldName s) = list_sum (String.length <$> Split s "_")) as El.
    { unfold toJSFieldName. rewrite join_length, fmap_imap. f_equal. generalize (Split s "_"). intros l.
      rewrite <- (imap_const String.length). apply imap_ext. intros [|i] x _; cbn; [done|apply title_length]. }
    rewrite E in El. pose proof (split_lengths s "_") as Hs.
    assert (length (Split s "_") = 1)%nat as H1 by lia. clear -H1. induction s as [|c s IH]; [done|]. cbn in *.
    destruct (Ascii.eqb c "_"); cbn in H1; [pose proof (Split_nonempty s "_"); destruct (Split s "_"); [done|cbn in H1; lia]|].
    cbn [negb andb]. apply IH. pose proof (Split_nonempty s "_"). by destruct (Split s "_").
  - intros Hs. unfold toJSFieldName. rewrite Split_no_sep by done. done.
Qed.

Lemma assign_absent init props k : k ∉ init.*1 -> assign props init !! k = props !! k.
Proof.
  revert props. induction init as [|[k' v] init IH]; intros props Hk; [done|]. cbn [assign foldl] in *. case_bool_decide.
  - apply IH. set_solver.
  - fold (assign (<[k' := v]> props) init). rewrite IH by set_solver. apply lookup_insert_ne. set_solver.
Qed.
Lemma assign_present init props k v : k <> "__proto__" -> NoDup init.*1 -> (k, v) ∈ init -> assign props init !! k = Some v.
Proof.
  intros Hp. revert props. induction init as [|[k' v'] init IH]; intros props Hnd Hk; [by apply elem_of_nil in Hk|].
  cbn in Hnd. apply NoDup_cons in Hnd as [Hn Hnd].
  change (assign props ((k', v') :: init)) with (assign (if bool_decide (k' = "__proto__") then props else <[k' := v']> props) init).
  apply elem_of_cons in Hk as [[= <- <-]|Hk]; [|by apply IH]. rewrite assign_absent, bool_decide_false by done. apply lookup_insert_eq.
Qed.

(** ** Properties *)

(** C8: server-sent events reach the generated client, end to end.  Let the TypeScript
    client call a streaming method of the Go server whose output type is a struct of the
    client's schema, and let the JSON library print each message sent as one line of ASCII
    JSON ([encodes]).  Then whatever the stream handler does (receiving, sending, changing
    the world), and however the network cuts the response into pieces, the client's
    generator yields one object of the output class for each message the handler sent, in
    order, made of the class's defaults and the members of the message's JSON, and then
    ends; an error the handler returns arrives as one more object, the defaults with a
    member [error]. *)
Theorem stream_client_roundtrip {W V C} `{MapIter} `{Message V} `{HasClock W} (reg : registry) (ws : websocket C)
    (ws_respond : C -> ResponseWriter -> ResponseWriter) (json_error : string -> string) (J : V -> jvalue)
    (h : GRPCHandler W V) (a : AST) (output : StructNode) (svc : ServiceNode) (method : MethodNode) (data : bytes)
    (path : string) (params : gmap string string) (m : MethodInfo W V) (w w' : W) (vs : list V) (err : option error) :
  let r := client_request svc method data in
  struct_named a (mn_OutputType method) = Some output ->
  is_debug_path (client_path svc method) = false -> ws_IsUpgrade ws r = false ->
  resolve h r = (path, params) -> gh_methods h !! path = Some m -> mi_IsStreaming m = true ->
  trace (mi_StreamHandler m (request_context (now_of w) r)) (json_payload data) false w = (vs, w', err) ->
  Forall (encodes J) vs ->
  (forall e, err = Some e -> ascii_text (Error e) = true /\
     json_error (Error e) = marshal_compact (VObj [("error", VString (Error e))])) ->
  exists rw, ServeHTTP reg ws ws_respond json_error h new_writer r w = (w', rw) /\
    forall pieces, String.concat "" pieces = of_bytes (snd (response rw)) ->
      stream_result (class_of a (mn_OutputType method)) (response rw) pieces
      = Ok ((fun v => Yield (new_T (sn_Fields output) v)) <$> (J <$> vs) ++ error_event err).
Proof.
  intros r Hout Hd Hu Hr Hm Hs Ht Hv He.
  destruct (serve_sse_events json_error J m (request_context (now_of w) r) data w vs w' err (fun e E => proj2 (He e E)) Ht Hv)
    as (rw & hd & Hrun & Hsent & _ & Hbody).
  exists rw. split; [by rewrite (serve_client reg ws ws_respond json_error h svc method data path params m), Hs|].
  intros pieces Hp. unfold response in *. rewrite Hsent in *. cbn [snd] in Hp. rewrite Hbody, of_to_bytes in Hp.
  unfold stream_result, class_of. rewrite Hout. change (negb (is_ok_status 200)) with false. cbv iota. f_equal.
  apply read_events; [|done].
  apply Forall_app. split.
  - apply Forall_fmap. eapply Forall_impl; [exact Hv|]. by intros v [Hp' _].
  - destruct err as [e|]; [|constructor]. constructor; [|constructor]. cbn. by rewrite (proj1 (He e eq_refl)).
Qed.

(** C9: which generated methods the generated client reaches.  A unary method without an
    HTTP rule (a server-streaming one is the subject of [generated_stream_silent]) is called
    at [/v1.Service/Method], and the Go code of the same schema serves it
    there exactly when the package of the schema is [v1]: then the implementation runs on
    what the server decoded, behind the interceptors, and the promise resolves with an
    object of the output class, the class's defaults and the members of the answer's JSON;
    for any other package the call changes nothing, is answered with an empty
    response of status 200, and the promise is rejected. *)
Theorem generated_client_path {W C} `{MapIter} `{HasClock W} (a : AST) (j : json_lib) (reg : registry) (ws : websocket C)
    (ws_respond : C -> ResponseWriter -> ResponseWriter) (json_error : string -> string) (J : object -> jvalue)
    (impl : service) (srv : ServiceNode) (m : MethodNode) (h0 : GRPCHandler W object) (data : bytes)
    (req resp : object) (output : StructNode) (w w' : W) :
  let r := client_request srv m data in
  let h := RegisterService a impl srv h0 in
  m ∈ sv_Methods srv -> NoDup (mn_Name <$> sv_Methods srv) -> mn_RESTPath m = "" -> mn_ServerStreaming m = false ->
  str_forall (fun c => negb (Ascii.eqb c "/")) (packagePrefix a) = true ->
  str_forall (fun c => negb (Ascii.eqb c "/")) (sv_Name srv) = true ->
  gh_chained h0 = chainInterceptors (gh_interceptors h0) -> gh_methods h0 !! client_path srv m = None ->
  matchREST "POST" (client_path srv m) (gh_restRoutes h) = None -> ws_IsUpgrade ws r = false ->
  (packagePrefix a = "v1" ->
     struct_named a (mn_OutputType m) = Some output ->
     sonic_Unmarshal j (json_payload data) (new_object a (mn_InputType m)) = Ok req ->
     intercepted impl h0 (client_path srv m) m (request_context (now_of w) r) req w = (w', Ok resp) ->
     @encodes object (object_message a j) J resp ->
     exists rw, @ServeHTTP W object C _ (object_message a j) _ reg ws ws_respond json_error h new_writer r w = (w', rw) /\
       unary_result (class_of a (mn_OutputType m)) (response rw) = Resolved (new_T (sn_Fields output) (J resp))) /\
  (packagePrefix a <> "v1" ->
     exists rw, @ServeHTTP W object C _ (object_message a j) _ reg ws ws_respond json_error h new_writer r w = (w, rw) /\
       unary_result (class_of a (mn_OutputType m)) (response rw) = SyntaxError).
Proof.
  intros r h Hin Hnd Hpath Huna Hpp Hsv Hch Hm0 Hrest Hu.
  assert (resolve h r = (client_path srv m, ∅)) as Hres.
  { unfold resolve. cbn [r_method r_path r client_request]. by rewrite Hrest. }
  split.
  - intros Hv1 Hout Hdec Hcall [Hp Henc].
    assert (is_path a srv m (client_path srv m)) as Hi.
    { left. unfold client_path, pathDot, method_path. rewrite bool_decide_true, Hv1 by done. done. }
    rewrite (@serve_client W object C _ (object_message a j) _ reg ws ws_respond json_error h srv m data (client_path srv m) ∅ (method_info a impl m));
      [|by apply client_not_debug|done|done|by apply register_lookup].
    fold r. cbn [mi_IsStreaming method_info]. unfold serve_json.
    change (mi_Decoder (method_info a impl m) json_dec (r_body r))
      with ({| b_data := []; b_end := None |}, sonic_Unmarshal j (json_payload data) (new_object a (mn_InputType m))).
    rewrite Hdec. cbn [mi_Binder method_info]. rewrite bool_decide_true by done.
    unfold h. rewrite call_registered by done. rewrite Hcall, Henc.
    eexists. split; [reflexivity|]. unfold unary_result, response. cbn [rw_sent rw_body Write_ Write fst WriteHeader set_header new_writer rw_fail app].
    change (negb (is_ok_status 200)) with false. cbv iota. unfold class_of. by rewrite of_to_bytes, parse_encoded, Hout.
  - intros Hv1. destruct (@unknown_client W object C _ (object_message a j) _ reg ws ws_respond json_error h srv m data w)
      as (rw & Hrun & Hs & Hb); [by apply client_not_debug| |].
    { fold r. rewrite Hres. cbn [fst]. unfold h, RegisterService. rewrite register_other; [done|].
      apply Forall_forall. intros m' _ Hp. apply Hv1. by eapply client_path_registered. }
    exists rw. split; [exact Hrun|]. unfold unary_result. destruct (response rw) as [[st hd] b]. cbn in Hs, Hb. subst. reflexivity.
Qed.

(** Streaming methods are silent: the generated Go code registers every method as a unary
    one, so the generated client's generator for a server-streaming method never yields
    a message, whatever the implementation answers; it ends at once or throws. *)
Theorem generated_stream_silent {W C} `{MapIter} `{HasClock W} (a : AST) (j : json_lib) (reg : registry) (ws : websocket C)
    (ws_respond : C -> ResponseWriter -> ResponseWriter) (json_error : string -> string)
    (impl : service) (srv : ServiceNode) (m : MethodNode) (h : GRPCHandler W object) (data : bytes)
    (path : string) (params : gmap string string) (w : W) :
  let r := client_request srv m data in
  is_debug_path (client_path srv m) = false -> ws_IsUpgrade ws r = false ->
  resolve h r = (path, params) -> gh_methods h !! path = Some (method_info a impl m) ->
  (forall o out, sonic_Encode j o = Ok out -> exists v, printable v = true /\ out = to_bytes (marshal_compact v +:+ String newline "")) ->
  exists w' rw, @ServeHTTP W object C _ (object_message a j) _ reg ws ws_respond json_error h new_writer r w = (w', rw) /\
    forall pieces, String.concat "" pieces = of_bytes (snd (response rw)) ->
      let result := stream_result (class_of a (mn_OutputType m)) (response rw) pieces in
      result = Ok [] \/ exists status, result = Err status.
Proof.
  intros r Hd Hu Hr Hm Henc.
  rewrite (@serve_client W object C _ (object_message a j) _ reg ws ws_respond json_error h srv m data path params (method_info a impl m)) by done.
  cbn [mi_IsStreaming method_info]. unfold serve_json.
  destruct (mi_Decoder _ _ _) as [b [req|e]]; [|by eexists _, _; split; [reflexivity|]; right; eexists].
  cbv zeta. destruct (match mi_Binder _ with Some _ => _ | None => _ end) as [bound|e]; [|by eexists _, _; split; [reflexivity|]; right; eexists].
  destruct (call_chain _ _ _ _ _ _) as [w' [resp|e]]; [|by eexists _, _; split; [reflexivity|]; right; eexists].
  change (@json_Encode object (object_message a j) resp) with (sonic_Encode j resp).
  destruct (sonic_Encode j resp) as [out|e] eqn:E; [|by eexists _, _; split; [reflexivity|]; right; eexists].
  destruct (Henc resp out E) as (v & Hv & ->). eexists _, _. split; [reflexivity|]. intros pieces Hp. left.
  cbn [response rw_sent rw_body Write_ Write fst snd WriteHeader set_header new_writer rw_fail app] in Hp.
  rewrite of_to_bytes in Hp. unfold stream_result. cbn -[class_of]. f_equal. by eapply read_json.
Qed.

(** What the client's objects are made of.  The Go server names the members of a message
    after the fields of the schema; a class declares a property per field, named in camel
    case.  The value of a field arrives in its property exactly when the name of the field
    has no underscore; otherwise the property keeps its default. *)
Theorem client_field_values (fields : list FieldNode) (val : FieldNode -> jvalue) (f : FieldNode) :
  f ∈ fields -> NoDup (fn_Name <$> fields) -> NoDup ((fun f => toJSFieldName (fn_Name f)) <$> fields) ->
  let o := new_T fields (VObj ((fun f => (fn_Name f, val f)) <$> fields)) in
  (no_underscore (fn_Name f) = true -> o !! toJSFieldName (fn_Name f) = Some (val f)) /\
  (no_underscore (fn_Name f) = false -> toJSFieldName (fn_Name f) ∉ fn_Name <$> fields ->
     o !! toJSFieldName (fn_Name f) = Some (js_default f)).
Proof.
  intros Hf Hn Hjs o. unfold o, new_T. cbn [members]. split.
  - intros Hu. rewrite (proj2 (js_name_fixed _) Hu). apply assign_present.
    + intros E. rewrite E in Hu. discriminate Hu.
    + rewrite <- list_fmap_compose. exact Hn.
    + apply list_elem_of_fmap. by exists f.
  - intros Hu Hout. rewrite assign_absent by (rewrite <- list_fmap_compose; exact Hout). apply elem_of_list_to_map_1.
    + rewrite fmap_reverse, reverse_Permutation, <- list_fmap_compose. exact Hjs.
    + rewrite elem_of_reverse. apply list_elem_of_fmap. by exists f.
Qed.

(** *** Concrete calls *)
#[local] Instance count_clock : HasClock Z := {| now_of w := w |}.

(** Messages that are JSON values. *)
#[local] Instance json_message : Message jvalue := {|
  as_ProtoMarshaler _ := None; as_ProtoUnmarshaler _ := None;
  as_FlatBuffersMarshaler _ := None; as_FlatBuffersUnmarshaler _ := None;
  json_Unmarshal data _ := match parse_json (of_bytes data) with Some v => Ok v | None => Err ErrUnexpectedEOF end;
  json_Encode v := Ok (to_bytes (marshal_compact v +:+ String newline ""));
  stdjson_Unmarshal _ v := Ok v; stdjson_Marshal _ := Ok []
|}.

Definition watch_method : MethodNode :=
  {| mn_Name := "Watch"; mn_InputType := "User"; mn_OutputType := "User"; mn_ClientStreaming := false;
     mn_ServerStreaming := true; mn_RESTMethod := ""; mn_RESTPath := "" |}.
Definition feed : ServiceNode := {| sv_Name := "Feed"; sv_Methods := [watch_method] |}.
Definition feed_ast : AST := {| Namespace := "v1"; Enums := []; Structs := [user_struct]; Services := [feed] |}.

(** It sends the request back twice, counts and fails. *)
Definition watch_info : MethodInfo Z jvalue := {|
  mi_Decoder := fun dec b => dec VNull b;
  mi_Handler := fun ctx req w => (w, Err ErrClosed);
  mi_Binder := None; mi_IsStreaming := true;
  mi_StreamHandler := fun _ => SRecv VNull (fun r =>
    match r with
    | Ok v => SSend v (fun _ => SGet (fun w => SPut (w + 1) (SSend (VNum (Itoa w)) (fun _ => SReturn (Some (ErrorString "gone"))))))
    | Err e => SReturn (Some e)
    end) |}.
Definition watch_handler : GRPCHandler Z jvalue :=
  RegisterMethod "/v1.Feed/Watch" watch_info (NewGRPCHandler (fun rw _ w => (w, rw))).
Definition error_object (msg : string) : string := marshal_compact (VObj [("error", VString msg)]).

Lemma stream_client_roundtrip_witness :
  exists rw, ServeHTTP (∅ : registry) no_websocket (fun _ rw => rw) error_object watch_handler new_writer
      (client_request feed watch_method (to_bytes "{}")) 7 = (8, rw) /\
    forall pieces, String.concat "" pieces = of_bytes (snd (response rw)) ->
      stream_result (class_of feed_ast "User") (response rw) pieces
      = Ok (Yield <$> [new_T (sn_Fields user_struct) (VObj []); new_T (sn_Fields user_struct) (VNum "7");
                       new_T (sn_Fields user_struct) (VObj [("error", VString "gone")])]).
Proof.
  apply (stream_client_roundtrip ∅ no_websocket (fun _ rw => rw) error_object (fun v => v) watch_handler feed_ast user_struct feed watch_method (to_bytes "{}")
    "/v1.Feed/Watch" ∅ watch_info 7 8 [VObj []; VNum "7"] (Some (ErrorString "gone"))); try reflexivity.
  - repeat constructor.
  - intros e [= <-]. split; reflexivity.
Defined.

(** The JSON of a user. *)
Definition user_value (o : object) : jvalue :=
  match o_fields o with
  | [FInt id; FStr name] => VObj [("user_id", VNum (Itoa id)); ("name", VString (of_bytes name))]
  | _ => VNull
  end.
Definition user_json : json_lib := {|
  sonic_Unmarshal data o :=
    match parse_json (of_bytes data) with
    | Some (VObj [("name", VString s)]) => Ok {| o_type := o_type o; o_fields := [FInt 0; FStr (to_bytes s)] |}
    | _ => Ok o
    end;
  sonic_Encode o :=
    if printable (user_value o) then Ok (to_bytes (marshal_compact (user_value o) +:+ String newline "")) else Err ErrClosed;
  encjson_Unmarshal _ o := Ok o;
  encjson_Marshal o := Ok []
|}.
Definition plain_get : MethodNode :=
  {| mn_Name := "Get"; mn_InputType := "User"; mn_OutputType := "User"; mn_ClientStreaming := false;
     mn_ServerStreaming := false; mn_RESTMethod := ""; mn_RESTPath := "" |}.
Definition plain_users : ServiceNode := {| sv_Name := "Users"; sv_Methods := [plain_get] |}.
Definition plain_ast (package : string) : AST :=
  {| Namespace := package; Enums := []; Structs := [user_struct]; Services := [plain_users] |}.
Definition call_users (package : string) : Z * ResponseWriter :=
  @ServeHTTP Z object unit _ (object_message (plain_ast package) user_json) _ ∅ no_websocket (fun _ rw => rw) (fun s => s)
    (RegisterService (plain_ast package) greet plain_users bare_handler) new_writer
    (client_request plain_users plain_get (to_bytes (marshal_compact (VObj [("name", VString "ada")])))) 5.

Lemma generated_client_path_witness :
  (exists rw, call_users "v1" = (6, rw) /\
     unary_result (class_of (plain_ast "v1") "User") (response rw)
     = Resolved (<["userId" := VNum "0"]> (<["user_id" := VNum "0"]> {["name" := VString "ada!"]}))) /\
  (exists rw, call_users "acme" = (5, rw) /\ unary_result (class_of (plain_ast "acme") "User") (response rw) = SyntaxError).
Proof.
  split.
  - refine (proj1 (generated_client_path (plain_ast "v1") user_json ∅ no_websocket (fun _ rw => rw) (fun s => s) user_value
      greet plain_users plain_get bare_handler (to_bytes (marshal_compact (VObj [("name", VString "ada")])))
      {| o_type := "User"; o_fields := [FInt 0; FStr (to_bytes "ada")] |}
      {| o_type := "User"; o_fields := [FInt 0; FStr (to_bytes "ada!")] |} user_struct 5 6 _ _ _ _ _ _ _ _ _ _) _ _ _ _ _);
      [apply list_elem_of_here|apply NoDup_singleton|reflexivity..|split; reflexivity].
  - refine (proj2 (generated_client_path (plain_ast "acme") user_json ∅ no_websocket (fun _ rw => rw) (fun s => s) user_value
      greet plain_users plain_get bare_handler (to_bytes (marshal_compact (VObj [("name", VString "ada")])))
      (new_object (plain_ast "acme") "User") (new_object (plain_ast "acme") "User") user_struct 5 6 _ _ _ _ _ _ _ _ _ _) _);
      [apply list_elem_of_here|apply NoDup_singleton|reflexivity..|discriminate].
Defined.

Lemma generated_stream_silent_witness :
  exists w' rw, @ServeHTTP Z object unit _ (object_message (plain_ast "v1") user_json) _ ∅ no_websocket (fun _ rw => rw) (fun s => s)
      (RegisterService (plain_ast "v1") greet feed bare_handler) new_writer (client_request feed watch_method []) 5 = (w', rw) /\
    forall pieces, String.concat "" pieces = of_bytes (snd (response rw)) ->
      let result := stream_result (class_of (plain_ast "v1") "User") (response rw) pieces in
      result = Ok [] \/ exists status, result = Err status.
Proof.
  apply (generated_stream_silent (plain_ast "v1") user_json ∅ no_websocket (fun _ rw => rw) (fun s => s) greet feed watch_method _ []
    "/v1.Feed/Watch" ∅ 5); try reflexivity.
  intros o out. cbn [sonic_Encode user_json]. destruct (printable (user_value o)) eqn:E; [|discriminate].
  intros [= <-]. by exists (user_value o).
Defined.

Lemma client_field_values_witness :
  let o := new_T (sn_Fields user_struct) (VObj ((fun f => (fn_Name f, VNum "42")) <$> sn_Fields user_struct)) in
  o !! "name" = Some (VNum "42") /\ o !! "userId" = Some (VNum "0").
Proof.
  split.
  - refine (proj1 (client_field_values (sn_Fields user_struct) (fun _ => VNum "42") (user_field "name" 2 TypeString) _ _ _) _);
      [set_solver|apply (bool_decide_unpack (NoDup _)); vm_compute; exact I..|reflexivity].
  - refine (proj2 (client_field_values (sn_Fields user_struct) (fun _ => VNum "42") (user_field "user_id" 1 TypeInt64) _ _ _) _ _);
      [set_solver|apply (bool_decide_unpack (NoDup _)); vm_compute; exact I..|reflexivity|].
    apply (bool_decide_unpack (_ ∉ _)). vm_compute. exact I.
Defined.
