(* ===== verification/ThriftRpc.v ===== *)
(** * Thrift structs and services over the protocol interface

    The Thrift library is outside the repository: its [TProtocol] interface is a
    class of operations, and what the generated code relies on is a class of laws, which
    the binary protocol discharges at the end of the file.

    The methods go_generator.go prints for a struct and a service follow one pattern for
    every list of fields, written here once: [struct_Write], [struct_Read], [Process] and
    the connection loop of [runtimes/go/thrift_handler.go] around it, for int32, int64 and
    string fields, the only ones [Write] has code for.  The current generator prints [Read]
    with a closing brace too many, and its output does not compile
    ([Cli.go_rust_text_unbalanced]); the pattern of the reading half is the one of the
    committed output of the generator, [tests/go/generated/test.pb.go], which is translated
    method by method in [ProfileGen] and shown to follow it. *)
From S2P Require Import Prelude GoStrings Errors Context Http Ast Wire FlatBuf Server Service.

(** ** The interface of the library *)
Definition STOP : Z := 0.
Definition BOOL : Z := 2.
Definition I32 : Z := 8.
Definition I64 : Z := 10.
Definition STRING : Z := 11.
Definition STRUCT : Z := 12.
Definition CALL : Z := 1.
Definition REPLY : Z := 2.
Definition EXCEPTION : Z := 3.
Definition INTERNAL_ERROR : Z := 6.

(** [P] is a protocol with its transport; [RemainingBytes] bounds what can still be read. *)
Class TProtocol (P : Type) := {
  WriteMessageBegin : string -> Z -> Z -> P -> P * option error;
  WriteMessageEnd : P -> P * option error;
  WriteStructBegin : string -> P -> P * option error;
  WriteStructEnd : P -> P * option error;
  WriteFieldBegin : string -> Z -> Z -> P -> P * option error;
  WriteFieldEnd : P -> P * option error;
  WriteFieldStop : P -> P * option error;
  WriteI32 : Z -> P -> P * option error;
  WriteI64 : Z -> P -> P * option error;
  WriteString : bytes -> P -> P * option error;
  Flush : P -> P * option error;
  ReadMessageBegin : P -> P * res error (string * Z * Z);
  ReadMessageEnd : P -> P * option error;
  ReadStructBegin : P -> P * option error;
  ReadStructEnd : P -> P * option error;
  ReadFieldBegin : P -> P * res error (Z * Z);
  ReadFieldEnd : P -> P * option error;
  ReadI32 : P -> P * res error Z;
  ReadI64 : P -> P * res error Z;
  ReadString : P -> P * res error bytes;
  Skip : Z -> P -> P * option error;
  RemainingBytes : P -> nat
}.

(** [if err := ...; err != nil { return err }] *)
Definition and_then {P} (c k : P -> P * option error) : P -> P * option error := fun p =>
  match c p with (p, Some e) => (p, Some e) | (p, None) => k p end.
Notation "c >> k" := (and_then c k) (at level 62, right associativity) : helix_scope.
(** A call whose error is dropped. *)
Definition ignore {P} (c : P -> P * option error) (p : P) : P := fst (c p).

(** ** The generated methods *)
Definition thrift_type (f : FieldNode) : Z :=
  match tn_Kind (fn_Type f) with
  | TypeInt32 => I32
  | TypeInt64 => I64
  | TypeString | TypeBinary => STRING
  | TypeBool => BOOL
  | TypeStruct => STRUCT
  | _ => STOP
  end.

Section generated.
Context {P : Type} `{TProtocol P}.

(** The text for another kind has a [return err] with no call before it and does not compile. *)
Definition no_code : error := ErrorString "no code for this type".

Definition thrift_write_value (f : FieldNode) (v : fvalue) : P -> P * option error :=
  match tn_Kind (fn_Type f), v with
  | TypeInt32, FInt z => WriteI32 z
  | TypeInt64, FInt z => WriteI64 z
  | TypeString, FStr s => WriteString s
  | _, _ => fun p => (p, Some no_code)
  end.

Fixpoint thrift_write_fields (fields : list FieldNode) (x : fmessage) : P -> P * option error :=
  match fields, x with
  | f :: fields, v :: x =>
      WriteFieldBegin (fn_Name f) (thrift_type f) (fn_ID f) >> thrift_write_value f v >> WriteFieldEnd >> thrift_write_fields fields x
  | _, _ => fun p => (p, None)
  end.

Definition struct_Write (name : string) (fields : list FieldNode) (x : fmessage) : P -> P * option error :=
  WriteStructBegin name >> thrift_write_fields fields x >> WriteFieldStop >> WriteStructEnd.

(** A kind without code has an empty branch: nothing is read. *)
Definition thrift_read_value (f : FieldNode) (p : P) : P * res error (option fvalue) :=
  match tn_Kind (fn_Type f) with
  | TypeInt32 => let '(p, r) := ReadI32 p in (p, let? z := r in Ok (Some (FInt z)))
  | TypeInt64 => let '(p, r) := ReadI64 p in (p, let? z := r in Ok (Some (FInt z)))
  | TypeString => let '(p, r) := ReadString p in (p, let? s := r in Ok (Some (FStr s)))
  | _ => (p, Ok None)
  end.

(** [switch fieldId]: the case of a field, or the default. *)
Definition read_case (fields : list FieldNode) (x : fmessage) (fieldTypeId fieldId : Z) (p : P) : P * res error fmessage :=
  match list_find (fun f => fn_ID f = fieldId) fields with
  | Some (i, f) =>
      if fieldTypeId =? thrift_type f then
        let '(p, r) := thrift_read_value f p in
        (p, let? v := r in Ok (match v with Some v => <[i := v]> x | None => x end))
      else (ignore (Skip fieldTypeId) p, Ok x)
  | None => (ignore (Skip fieldTypeId) p, Ok x)
  end.

(** A loop that has read more fields than there were bytes is at the end of the input. *)
Fixpoint thrift_read_fields (fuel : nat) (fields : list FieldNode) (x : fmessage) (p : P) : P * res error fmessage :=
  match fuel with
  | O => (p, Err ErrEOF)
  | S fuel =>
      match ReadFieldBegin p with
      | (p, Err e) => (p, Err e)
      | (p, Ok (fieldTypeId, fieldId)) =>
          if fieldTypeId =? STOP then (p, Ok x)
          else match read_case fields x fieldTypeId fieldId p with
               | (p, Err e) => (p, Err e)
               | (p, Ok x) =>
                   match ReadFieldEnd p with
                   | (p, Some e) => (p, Err e)
                   | (p, None) => thrift_read_fields fuel fields x p
                   end
               end
      end
  end.

Definition struct_Read (fields : list FieldNode) (x : fmessage) (p : P) : P * res error fmessage :=
  match ReadStructBegin p with
  | (p, Some e) => (p, Err e)
  | (p, None) =>
      match thrift_read_fields (S (RemainingBytes p)) fields x p with
      | (p, Err e) => (p, Err e)
      | (p, Ok x) => match ReadStructEnd p with (p, Some e) => (p, Err e) | (p, None) => (p, Ok x) end
      end
  end.

(** [Process]: [write_exception] is the [Write] method of the library's exceptions.
    [WrapTException] is left out: it keeps the error. *)
Context {W : Type} (write_exception : Z -> string -> P -> P * option error).

Record thrift_conn := { iprot : P; oprot : P; world : W }.

Definition Process (a : AST) (impl : service (W := W)) (srv : ServiceNode) (c : thrift_conn) : thrift_conn * (bool * option error) :=
  match ReadMessageBegin (iprot c) with
  | (i, Err e) => ({| iprot := i; oprot := oprot c; world := world c |}, (false, Some e))
  | (i, Ok (name, _, seqId)) =>
      match List.find (fun m => bool_decide (mn_Name m = name)) (sv_Methods srv) with
      | None => ({| iprot := i; oprot := oprot c; world := world c |}, (false, Some (ErrorString ("unknown method " +:+ name))))
      | Some m =>
          match struct_Read (struct_fields a (mn_InputType m)) (o_fields (new_object a (mn_InputType m))) i with
          | (i, Err e) => ({| iprot := i; oprot := oprot c; world := world c |}, (false, Some e))
          | (i, Ok args) =>
              let i := ignore ReadMessageEnd i in
              match impl (mn_Name m) Background args (world c) with
              | (w, Err e) =>
                  let o := ignore (WriteMessageBegin (mn_Name m) EXCEPTION seqId) (oprot c) in
                  let o := ignore (write_exception INTERNAL_ERROR (Error e)) o in
                  let o := ignore Flush (ignore WriteMessageEnd o) in
                  ({| iprot := i; oprot := o; world := w |}, (true, Some e))
              | (w, Ok res) =>
                  let o := ignore (WriteMessageBegin (mn_Name m) REPLY seqId) (oprot c) in
                  let o := ignore (struct_Write (mn_OutputType m) (struct_fields a (mn_OutputType m)) res) o in
                  let o := ignore Flush (ignore WriteMessageEnd o) in
                  ({| iprot := i; oprot := o; world := w |}, (true, None))
              end
          end
      end
  end.
End generated.
Arguments thrift_conn : clear implicits.

(** ** What the generated code relies on

    A protocol holds a sequence of items: a write adds one at the end, a read takes the
    first.  Begin and end marks of structs and fields hold nothing. *)
Inductive item := IMessage (name : string) (kind seqId : Z) | IField (fieldType id : Z) | IStop | IInt32 (z : Z) | IInt64 (z : Z) | IStr (s : bytes).

Definition item_ok (i : item) : Prop :=
  match i with
  | IMessage name kind seqId => in_s 32 (Z.of_nat (length (to_bytes name))) /\ in_s 8 kind /\ in_s 32 seqId
  | IField t id => 0 < t < 128 /\ in_s 16 id
  | IStop => True
  | IInt32 z => in_s 32 z
  | IInt64 z => in_s 64 z
  | IStr s => in_s 32 (Z.of_nat (length s))
  end.

(** The type of a value. *)
Definition item_type (i : item) : option Z :=
  match i with IInt32 _ => Some I32 | IInt64 _ => Some I64 | IStr _ => Some STRING | _ => None end.

Definition adds_items {P} (holds : P -> list item -> Prop) (c : P -> P * option error) (l' : list item) : Prop :=
  forall p l, holds p l -> exists p', c p = (p', None) /\ holds p' (l ++ l').
Definition takes_items {P A} (holds : P -> list item -> Prop) (c : P -> P * A) (l' : list item) (a : A) : Prop :=
  forall p l, holds p (l' ++ l) -> exists p', c p = (p', a) /\ holds p' l.

Class ProtocolLaws (P : Type) `{TProtocol P} := {
  holds : P -> list item -> Prop;
  write_message name kind seqId : item_ok (IMessage name kind seqId) -> adds_items holds (WriteMessageBegin name kind seqId) [IMessage name kind seqId];
  write_message_end : adds_items holds WriteMessageEnd [];
  write_struct name : adds_items holds (WriteStructBegin name) [];
  write_struct_end : adds_items holds WriteStructEnd [];
  write_field name t id : item_ok (IField t id) -> adds_items holds (WriteFieldBegin name t id) [IField t id];
  write_field_end : adds_items holds WriteFieldEnd [];
  write_stop : adds_items holds WriteFieldStop [IStop];
  write_i32 z : item_ok (IInt32 z) -> adds_items holds (WriteI32 z) [IInt32 z];
  write_i64 z : item_ok (IInt64 z) -> adds_items holds (WriteI64 z) [IInt64 z];
  write_string s : item_ok (IStr s) -> adds_items holds (WriteString s) [IStr s];
  write_flush : adds_items holds Flush [];
  read_message name kind seqId : item_ok (IMessage name kind seqId) ->
    takes_items holds ReadMessageBegin [IMessage name kind seqId] (Ok (name, kind, seqId));
  read_message_end : takes_items holds ReadMessageEnd [] None;
  read_struct : takes_items holds ReadStructBegin [] None;
  read_struct_end : takes_items holds ReadStructEnd [] None;
  read_field t id : item_ok (IField t id) -> takes_items holds ReadFieldBegin [IField t id] (Ok (t, id));
  read_stop : takes_items holds ReadFieldBegin [IStop] (Ok (STOP, 0));
  read_field_end : takes_items holds ReadFieldEnd [] None;
  read_i32 z : item_ok (IInt32 z) -> takes_items holds ReadI32 [IInt32 z] (Ok z);
  read_i64 z : item_ok (IInt64 z) -> takes_items holds ReadI64 [IInt64 z] (Ok z);
  read_string s : item_ok (IStr s) -> takes_items holds ReadString [IStr s] (Ok s);
  read_skip i t : item_ok i -> item_type i = Some t -> takes_items holds (Skip t) [i] None;
  remaining p l : holds p l -> (length l <= RemainingBytes p)%nat;
  read_end p : holds p [] -> exists p' e, ReadMessageBegin p = (p', Err e) /\ holds p' []
}.

(** Values of the fields that have code. *)
Definition thrift_value (f : FieldNode) (v : fvalue) : Prop :=
  in_s 16 (fn_ID f) /\
  match tn_Kind (fn_Type f), v with
  | TypeInt32, FInt z => in_s 32 z
  | TypeInt64, FInt z => in_s 64 z
  | TypeString, FStr s => in_s 32 (Z.of_nat (length s))
  | _, _ => False
  end.
Definition has_code (f : FieldNode) : Prop :=
  in_s 16 (fn_ID f) /\ match tn_Kind (fn_Type f) with TypeInt32 | TypeInt64 | TypeString => True | _ => False end.

Definition value_item (f : FieldNode) (v : fvalue) : item :=
  match tn_Kind (fn_Type f), v with
  | TypeInt32, FInt z => IInt32 z
  | TypeInt64, FInt z => IInt64 z
  | _, FStr s => IStr s
  | _, _ => IStop
  end.
Definition field_items (fields : list FieldNode) (x : fmessage) : list item :=
  concat (zip_with (fun f v => [IField (thrift_type f) (fn_ID f); value_item f v]) fields x).
Definition struct_items (fields : list FieldNode) (x : fmessage) : list item := field_items fields x ++ [IStop].

(** What a reader with other fields gets: the value that was written under the number and
    the type of its field, and otherwise what it had. *)
Definition written_for (g f : FieldNode) : bool := (fn_ID f =? fn_ID g) && (thrift_type f =? thrift_type g).
Definition received_value (fields : list FieldNode) (x : fmessage) (g : FieldNode) (v0 : fvalue) : fvalue :=
  match List.find (fun fv => written_for g (fst fv)) (zip fields x) with Some (_, v) => v | None => v0 end.

(** ** Lemmas *)
Lemma writes_then {P} (hold : P -> list item -> Prop) c k l1 l2 : adds_items hold c l1 -> adds_items hold k l2 -> adds_items hold (c >> k) (l1 ++ l2).
Proof.
  intros Hc Hk p l Hp. destruct (Hc p l Hp) as (p1 & E1 & H1). destruct (Hk p1 _ H1) as (p2 & E2 & H2).
  exists p2. unfold and_then. by rewrite E1, E2, (assoc_L (++)).
Qed.

Lemma value_type f v : thrift_value f v -> item_ok (value_item f v) /\ item_type (value_item f v) = Some (thrift_type f) /\
  item_ok (IField (thrift_type f) (fn_ID f)).
Proof.
  intros [Hid Hv]. unfold value_item, thrift_type. destruct (tn_Kind (fn_Type f)), v; try done; by split_and!.
Qed.

(** A field that was written for another one has its values. *)
Lemma same_code f g v : has_code g -> fn_ID f = fn_ID g -> thrift_type f = thrift_type g -> thrift_value f v ->
  thrift_value g v /\ value_item g v = value_item f v.
Proof.
  unfold thrift_value, value_item, thrift_type, has_code. intros [Hid Hc] -> Et [_ Hv].
  destruct (tn_Kind (fn_Type f)), (tn_Kind (fn_Type g)), v; try done; by destruct Hv.
Qed.

Lemma received_typed fields x gs y : Forall has_code gs -> Forall2 thrift_value fields x -> Forall2 thrift_value gs y ->
  Forall2 thrift_value gs (zip_with (received_value fields x) gs y).
Proof.
  intros Hc Hx. induction 1 as [|g o gs y Ho _ IH]; [done|]. apply Forall_cons in Hc as [Hg Hc]. cbn [zip_with]. constructor; [|by apply IH].
  unfold received_value. destruct (List.find _ _) as [[f v]|] eqn:E; [|done]. apply List.find_some in E as [Hin E]. cbn in E.
  apply andb_true_iff in E as [E1 E2]. apply Z.eqb_eq in E1, E2. apply (same_code f g v); try done.
  apply list_elem_of_In, list_elem_of_lookup in Hin as [i Hi]. apply lookup_zip_with_Some in Hi as (f' & v' & [= <- <-] & Hf & Hv).
  by apply (Forall2_lookup_lr _ _ _ _ _ _ Hx Hf Hv).
Qed.

Lemma zero_typed gs : Forall has_code gs -> Forall2 thrift_value gs (flat_zero <$> gs).
Proof.
  induction 1 as [|g gs [Hid Hg] _ IH]; [constructor|]. constructor; [|done]. split; [done|]. unfold flat_zero. by destruct (tn_Kind (fn_Type g)).
Qed.

Section laws.
Context {P : Type} `{ProtocolLaws P}.

Lemma write_value_ok f v : thrift_value f v -> adds_items holds (thrift_write_value f v) [value_item f v].
Proof.
  intros [_ Hv]. unfold thrift_write_value, value_item. destruct (tn_Kind (fn_Type f)), v; try done;
    [by apply write_i32|by apply write_i64|by apply write_string].
Qed.

Lemma write_fields_ok fields x : Forall2 thrift_value fields x -> adds_items holds (thrift_write_fields fields x) (field_items fields x).
Proof.
  induction 1 as [|f v fields x Hv _ IH]; cbn [thrift_write_fields].
  { intros p l Hp. exists p. by rewrite app_nil_r. }
  change (field_items (f :: fields) (v :: x)) with ([IField (thrift_type f) (fn_ID f)] ++ [value_item f v] ++ [] ++ field_items fields x).
  apply writes_then; [by apply write_field, value_type with v|]. apply writes_then; [by apply write_value_ok|].
  apply writes_then; [apply write_field_end|done].
Qed.

Lemma struct_Write_ok name fields x : Forall2 thrift_value fields x -> adds_items holds (struct_Write name fields x) (struct_items fields x).
Proof.
  intros Hx. change (struct_items fields x) with ([] ++ field_items fields x ++ [IStop] ++ []).
  unfold struct_Write. apply writes_then; [apply write_struct|]. apply writes_then; [by apply write_fields_ok|].
  apply writes_then; [apply write_stop|apply write_struct_end].
Qed.

Lemma read_value_ok f v : thrift_value f v -> takes_items holds (thrift_read_value f) [value_item f v] (Ok (Some v)).
Proof.
  intros [_ Hv] p l Hp. unfold thrift_read_value. unfold value_item in Hp. destruct (tn_Kind (fn_Type f)), v; try done.
  - destruct (read_i32 _ Hv p l Hp) as (p' & -> & Hp'). by exists p'.
  - destruct (read_i64 _ Hv p l Hp) as (p' & -> & Hp'). by exists p'.
  - destruct (read_string _ Hv p l Hp) as (p' & -> & Hp'). by exists p'.
Qed.

(** One field of the input, for a reader with the fields [gs]. *)
Definition take_field (gs : list FieldNode) (f : FieldNode) (v : fvalue) (y : fmessage) : fmessage :=
  zip_with (fun g old => if written_for g f then v else old) gs y.

Lemma insert_take gs f g v y i : NoDup (fn_ID <$> gs) -> length y = length gs ->
  list_find (fun g => fn_ID g = fn_ID f) gs = Some (i, g) -> thrift_type f = thrift_type g -> <[i := v]> y = take_field gs f v y.
Proof.
  intros Hnd Hl Hf Ht. apply list_find_Some in Hf as (Hi & Eg & _). unfold take_field. apply list_eq. intros j.
  rewrite lookup_zip_with. destruct (decide (i = j)) as [<-|Hne].
  - assert (i < length y)%nat by (rewrite Hl; by eapply lookup_lt_Some). rewrite list_lookup_insert_eq by done. rewrite Hi. cbn.
    destruct (lookup_lt_is_Some_2 y i) as [o ->]; [done|]. cbn. unfold written_for. by rewrite Eg, Ht, !Z.eqb_refl.
  - rewrite list_lookup_insert_ne by done. destruct (gs !! j) as [g'|] eqn:Ej; cbn.
    + destruct (y !! j) as [o|]; [|done]. cbn. unfold written_for. destruct (Z.eqb_spec (fn_ID f) (fn_ID g')) as [E|]; [|done].
      destruct Hne. eapply (NoDup_lookup _ _ _ (fn_ID f) Hnd); rewrite list_lookup_fmap; [rewrite Hi|rewrite Ej]; cbn; congruence.
    + apply lookup_ge_None in Ej. apply lookup_ge_None. lia.
Qed.

Lemma keep_take gs f v y : length y = length gs -> Forall (fun g => written_for g f = false) gs -> take_field gs f v y = y.
Proof.
  intros Hl Hg. unfold take_field. revert y Hl. induction Hg as [|g gs Hg _ IH]; intros [|o y] Hl; try done. cbn. rewrite Hg. f_equal. apply IH. by injection Hl.
Qed.

Lemma read_case_ok gs y f v : NoDup (fn_ID <$> gs) -> length y = length gs -> Forall has_code gs -> thrift_value f v ->
  takes_items holds (read_case gs y (thrift_type f) (fn_ID f)) [value_item f v] (Ok (take_field gs f v y)).
Proof.
  intros Hnd Hl Hc Hv p l Hp. destruct (value_type f v Hv) as (Hok & Ht & _). unfold read_case.
  destruct (list_find _ gs) as [[i g]|] eqn:Ef; [destruct (Z.eqb_spec (thrift_type f) (thrift_type g)) as [Et|Et]|].
  - apply list_find_Some in Ef as Hg. destruct Hg as (Hi & Eg & _).
    assert (thrift_value g v /\ value_item g v = value_item f v) as [Hgv Ei].
    { apply same_code; try done. by apply (Forall_lookup_1 _ _ _ _ Hc Hi). }
    rewrite <- Ei in Hp. destruct (read_value_ok g v Hgv p l Hp) as (p' & -> & Hp'). exists p'. split; [|done]. cbn.
    by rewrite (insert_take gs f g v y i).
  - destruct (read_skip _ _ Hok Ht p l Hp) as (p' & E & Hp'). exists p'. unfold ignore. rewrite E. split; [|done]. cbn.
    rewrite keep_take; [done|done|]. apply Forall_lookup. intros j g' Hj. unfold written_for.
    destruct (Z.eqb_spec (fn_ID f) (fn_ID g')) as [E'|]; [|done]. cbn. apply Z.eqb_neq. intros Et'. apply Et.
    apply list_find_Some in Ef as (Hi & Eg & _). assert (i = j) as <-; [|congruence].
    eapply (NoDup_lookup _ _ _ (fn_ID f) Hnd); rewrite list_lookup_fmap; [rewrite Hi|rewrite Hj]; cbn; congruence.
  - destruct (read_skip _ _ Hok Ht p l Hp) as (p' & E & Hp'). exists p'. unfold ignore. rewrite E. split; [|done]. cbn.
    rewrite keep_take; [done|done|]. apply list_find_None in Ef. eapply Forall_impl; [exact Ef|]. intros g Hg. cbn in Hg. unfold written_for.
    destruct (Z.eqb_spec (fn_ID f) (fn_ID g)); [congruence|done].
Qed.

(** The whole input, from left to right. *)
Definition take_fields (gs : list FieldNode) (fields : list FieldNode) (x : fmessage) (y : fmessage) : fmessage :=
  foldl (fun y fv => take_field gs (fst fv) (snd fv) y) y (zip fields x).

Lemma take_field_length gs f v y : length y = length gs -> length (take_field gs f v y) = length gs.
Proof. intros Hl. unfold take_field. rewrite length_zip_with. lia. Qed.

Lemma read_fields_ok gs fields x : NoDup (fn_ID <$> gs) -> Forall has_code gs -> Forall2 thrift_value fields x ->
  forall fuel y, (length fields < fuel)%nat -> length y = length gs ->
  takes_items holds (thrift_read_fields fuel gs y) (struct_items fields x) (Ok (take_fields gs fields x y)).
Proof.
  intros Hnd Hc. induction 1 as [|f v fields x Hv Hx IH]; intros [|fuel] y Hf Hl p l Hp; cbn [length] in Hf; try lia; cbn [thrift_read_fields].
  - destruct (read_stop p l Hp) as (p' & -> & Hp'). by exists p'.
  - destruct (value_type f v Hv) as (_ & _ & Hok).
    destruct (read_field _ _ Hok p _ Hp) as (p1 & -> & H1).
    assert ((thrift_type f =? STOP) = false) as -> by (apply Z.eqb_neq; unfold STOP; destruct Hok; lia).
    destruct (read_case_ok gs y f v Hnd Hl Hc Hv p1 _ H1) as (p2 & -> & H2).
    destruct (read_field_end p2 _ H2) as (p3 & -> & H3).
    by apply (IH fuel _ ltac:(lia) (take_field_length gs f v y Hl)).
Qed.

Lemma take_fields_received gs fields x y : NoDup (fn_ID <$> fields) -> length x = length fields -> length y = length gs ->
  take_fields gs fields x y = zip_with (received_value fields x) gs y.
Proof.
  unfold take_fields. revert x y. induction fields as [|f fields IH]; intros [|v x] y Hnd Hx Hl; try done; cbn [zip zip_with foldl fst snd].
  - revert y Hl. induction gs as [|g gs IHg]; intros [|o y] Hl; try done. cbn. f_equal. apply IHg. by injection Hl.
  - apply NoDup_cons in Hnd as [Hf Hnd]. rewrite IH; [|done|by injection Hx|by apply take_field_length].
    unfold take_field. clear IH. revert y Hl. induction gs as [|g gs IHg]; intros [|o y] Hl; try done. cbn [zip_with]. f_equal; [|apply IHg; by injection Hl].
    unfold received_value. cbn [zip zip_with List.find fst]. destruct (written_for g f) eqn:Eg; [|done].
    destruct (List.find _ (zip fields x)) as [[f' v']|] eqn:E; [|done]. exfalso. apply Hf.
    apply List.find_some in E as [Hin E]. cbn in E. unfold written_for in *. apply andb_true_iff in Eg as [Eg _]. apply andb_true_iff in E as [E _].
    apply Z.eqb_eq in Eg, E. apply list_elem_of_In, elem_of_zip_l in Hin. rewrite Eg, <- E. by apply list_elem_of_fmap_2.
Qed.

Lemma field_items_length fields x : length x = length fields -> (length fields <= length (field_items fields x))%nat.
Proof.
  unfold field_items. revert x. induction fields as [|f fields IH]; intros [|v x] Hl; try done; cbn in *. specialize (IH x ltac:(lia)). lia.
Qed.

Lemma struct_Read_ok gs fields x y : NoDup (fn_ID <$> gs) -> Forall has_code gs -> NoDup (fn_ID <$> fields) -> Forall2 thrift_value fields x ->
  length y = length gs -> takes_items holds (struct_Read gs y) (struct_items fields x) (Ok (zip_with (received_value fields x) gs y)).
Proof.
  intros Hg Hc Hf Hx Hl p l Hp. pose proof (Forall2_length _ _ _ Hx) as Hlx. unfold struct_Read.
  destruct (read_struct p _ Hp) as (p1 & -> & H1).
  assert (length fields < S (RemainingBytes p1))%nat as Hfuel.
  { pose proof (remaining p1 _ H1) as Hr. pose proof (field_items_length fields x ltac:(lia)). unfold struct_items in Hr. rewrite !length_app in Hr. lia. }
  destruct (read_fields_ok gs fields x Hg Hc Hx _ y Hfuel Hl p1 l H1) as (p2 & -> & H2).
  destruct (read_struct_end p2 l H2) as (p3 & -> & H3). exists p3. split; [|done]. by rewrite take_fields_received.
Qed.

(** A reader with the same fields gets the message back. *)
Lemma received_same fields x y : NoDup (fn_ID <$> fields) -> length x = length fields -> length y = length fields ->
  zip_with (received_value fields x) fields y = x.
Proof.
  revert x y. induction fields as [|f fields IH]; intros [|v x] [|o y] Hnd Hx Hy; try done. apply NoDup_cons in Hnd as [Hf Hnd].
  cbn [zip_with]. f_equal.
  - unfold received_value. cbn [zip zip_with List.find fst]. unfold written_for. by rewrite !Z.eqb_refl.
  - rewrite <- (IH x y) at 2; [|done|by injection Hx|by injection Hy]. clear IH. cbn in Hf.
    assert (forall gs ys, (forall g, g ∈ gs -> g ∈ fields) -> zip_with (received_value (f :: fields) (v :: x)) gs ys = zip_with (received_value fields x) gs ys) as Hz.
    { intros gs. induction gs as [|g gs IHg]; intros [|z ys] Hsub; try done. cbn [zip_with]. f_equal; [|apply IHg; set_solver].
      unfold received_value. cbn [zip zip_with List.find fst]. unfold written_for at 1.
      destruct (Z.eqb_spec (fn_ID f) (fn_ID g)) as [E|]; [|done]. destruct Hf. rewrite E. apply list_elem_of_fmap_2. set_solver. }
    by apply Hz.
Qed.
End laws.

(** ** Calls on a connection *)
Record thrift_call := { cl_name : string; cl_seq : Z; cl_fields : list FieldNode; cl_args : fmessage }.

Definition call_ok (c : thrift_call) : Prop :=
  in_s 32 (Z.of_nat (length (to_bytes (cl_name c)))) /\ in_s 32 (cl_seq c) /\ NoDup (fn_ID <$> cl_fields c) /\
  Forall2 thrift_value (cl_fields c) (cl_args c).

(** The items of a call, and of an answer. *)
Definition call_items (c : thrift_call) : list item := IMessage (cl_name c) CALL (cl_seq c) :: struct_items (cl_fields c) (cl_args c).
Definition reply_items (a : AST) (m : MethodNode) (seqId : Z) (y : fmessage) : list item :=
  IMessage (mn_Name m) REPLY seqId :: struct_items (struct_fields a (mn_OutputType m)) y.

(** [TApplicationException]: the message is its field 1, the type its field 2. *)
Definition exception_items (kind : Z) (msg : string) : list item :=
  [IField STRING 1; IStr (to_bytes msg); IField I32 2; IInt32 kind; IStop].

Definition find_method (srv : ServiceNode) (name : string) : option MethodNode :=
  List.find (fun m => bool_decide (mn_Name m = name)) (sv_Methods srv).

(** The arguments the handler gets. *)
Definition call_args (a : AST) (m : MethodNode) (c : thrift_call) : fmessage :=
  zip_with (received_value (cl_fields c) (cl_args c)) (struct_fields a (mn_InputType m)) (o_fields (new_object a (mn_InputType m))).

(** The conversation a client sees: each call is answered in order, until one fails. *)
Fixpoint conversation {W} (a : AST) (impl : service (W := W)) (srv : ServiceNode) (calls : list thrift_call) (w : W) : W * list item * option error :=
  match calls with
  | [] => (w, [], None)
  | c :: calls =>
      match find_method srv (cl_name c) with
      | None => (w, [], Some (ErrorString ("unknown method " +:+ cl_name c)))
      | Some m =>
          match impl (mn_Name m) Background (call_args a m c) w with
          | (w, Err e) => (w, IMessage (mn_Name m) EXCEPTION (cl_seq c) :: exception_items INTERNAL_ERROR (Error e), Some e)
          | (w, Ok y) => let '(w, l, e) := conversation a impl srv calls w in (w, reply_items a m (cl_seq c) y ++ l, e)
          end
      end
  end.

(** What the AST and the handler owe to the generated code. *)
Record thrift_service {W} (a : AST) (impl : service (W := W)) (srv : ServiceNode) : Prop := {
  inputs_ok m : m ∈ sv_Methods srv -> NoDup (fn_ID <$> struct_fields a (mn_InputType m)) /\ Forall has_code (struct_fields a (mn_InputType m));
  answers_ok m args w w' y : m ∈ sv_Methods srv -> Forall2 thrift_value (struct_fields a (mn_InputType m)) args -> impl (mn_Name m) Background args w = (w', Ok y) ->
    Forall2 thrift_value (struct_fields a (mn_OutputType m)) y;
  errors_ok m args w w' e : m ∈ sv_Methods srv -> Forall2 thrift_value (struct_fields a (mn_InputType m)) args -> impl (mn_Name m) Background args w = (w', Err e) -> in_s 32 (Z.of_nat (length (to_bytes (Error e))))
}.

Lemma find_method_spec srv name m : find_method srv name = Some m -> m ∈ sv_Methods srv /\ mn_Name m = name.
Proof. intros E. apply List.find_some in E as [Hin E]. apply bool_decide_eq_true in E. by rewrite list_elem_of_In. Qed.

Lemma ignore_writes {P} (hold : P -> list item -> Prop) c l' p l : adds_items hold c l' -> hold p l -> hold (ignore c p) (l ++ l').
Proof. intros Hc Hp. destruct (Hc p l Hp) as (p' & E & Hp'). unfold ignore. by rewrite E. Qed.

Lemma ignore_reads {P} (hold : P -> list item -> Prop) c l' (r : option error) p l : takes_items hold c l' r -> hold p (l' ++ l) -> hold (ignore c p) l.
Proof. intros Hc Hp. destruct (Hc p l Hp) as (p' & E & Hp'). unfold ignore. by rewrite E. Qed.

Section connection.
Context {P : Type} `{ProtocolLaws P} {W : Type}.
Context (write_exception : Z -> string -> P -> P * option error).
Hypothesis exception_law : forall kind msg, in_s 32 kind -> in_s 32 (Z.of_nat (length (to_bytes msg))) ->
  adds_items holds (write_exception kind msg) (exception_items kind msg).
Context (a : AST) (impl : service (W := W)) (srv : ServiceNode) (Hsrv : thrift_service a impl srv).

Lemma message_written name kind seqId p l out (c : P -> P * option error) :
  item_ok (IMessage name kind seqId) -> adds_items holds c out -> holds p l ->
  holds (ignore Flush (ignore WriteMessageEnd (ignore c (ignore (WriteMessageBegin name kind seqId) p)))) (l ++ IMessage name kind seqId :: out).
Proof.
  intros Hm Hc Hp. pose proof (ignore_writes _ _ _ _ _ (write_message _ _ _ Hm) Hp) as H1.
  pose proof (ignore_writes _ _ _ _ _ Hc H1) as H2. pose proof (ignore_writes _ _ _ _ _ write_message_end H2) as H3.
  pose proof (ignore_writes _ _ _ _ _ write_flush H3) as H4. by rewrite !app_nil_r, <- (assoc_L (++)) in H4.
Qed.

(** One call: the answer, its exception, or nothing for an unknown method. *)
Lemma Process_call cl c rest out : call_ok cl -> holds (iprot c) (call_items cl ++ rest) -> holds (oprot c) out ->
  match find_method srv (cl_name cl) with
  | None => exists i, Process write_exception a impl srv c =
      ({| iprot := i; oprot := oprot c; world := world c |}, (false, Some (ErrorString ("unknown method " +:+ cl_name cl))))
  | Some m => exists i o, holds i rest /\
      match impl (mn_Name m) Background (call_args a m cl) (world c) with
      | (w, Err e) => holds o (out ++ IMessage (mn_Name m) EXCEPTION (cl_seq cl) :: exception_items INTERNAL_ERROR (Error e)) /\
          Process write_exception a impl srv c = ({| iprot := i; oprot := o; world := w |}, (true, Some e))
      | (w, Ok y) => holds o (out ++ reply_items a m (cl_seq cl) y) /\
          Process write_exception a impl srv c = ({| iprot := i; oprot := o; world := w |}, (true, None))
      end
  end.
Proof.
  intros (Hn & Hseq & Hnd & Hx) Hi Ho. unfold Process.
  assert (forall k, in_s 8 k -> item_ok (IMessage (cl_name cl) k (cl_seq cl))) as Hm by done.
  destruct (read_message _ _ _ (Hm CALL ltac:(done)) (iprot c) _ Hi) as (i1 & -> & H1).
  change (List.find _ (sv_Methods srv)) with (find_method srv (cl_name cl)).
  destruct (find_method srv (cl_name cl)) as [m|] eqn:Ef; [|by exists i1].
  apply find_method_spec in Ef as [Hin En]. rewrite <- En in Hm. destruct (inputs_ok _ _ _ Hsrv m Hin) as [Hg Hc].
  destruct (struct_Read_ok _ _ _ (o_fields (new_object a (mn_InputType m))) Hg Hc Hnd Hx (length_fmap _ _) i1 rest H1) as (i2 & -> & H2).
  pose proof (ignore_reads _ _ [] _ i2 rest read_message_end H2) as H3.
  change (zip_with _ _ _) with (call_args a m cl).
  assert (Forall2 thrift_value (struct_fields a (mn_InputType m)) (call_args a m cl)) as Hargs by (apply received_typed; [done..|by apply zero_typed]).
  destruct (impl (mn_Name m) Background (call_args a m cl) (world c)) as [w [y|e]] eqn:Ei; eexists _, _; (split; [exact H3|split; [|reflexivity]]).
  - apply message_written; [by apply Hm| |done]. eapply struct_Write_ok, answers_ok; eauto.
  - apply message_written; [by apply Hm| |done]. apply exception_law; [done|]. by eapply (errors_ok _ _ _ Hsrv).
Qed.

Lemma connection_conversation calls : Forall call_ok calls -> forall c out, holds (iprot c) (concat (call_items <$> calls)) -> holds (oprot c) out ->
  exists c' e, thrift_loop (Process write_exception a impl srv) (S (length calls)) c = Some (c', ThriftError e) /\
    let '(w, l, failure) := conversation a impl srv calls (world c) in
    world c' = w /\ holds (oprot c') (out ++ l) /\ (forall e', failure = Some e' -> e = e').
Proof.
  induction 1 as [|cl calls Hcl _ IH]; intros c out Hi Ho.
  - destruct (read_end _ Hi) as (i & e & E & _). eexists _, e. cbn. unfold Process. rewrite E. split; [done|]. by rewrite app_nil_r.
  - pose proof (Process_call cl c _ out Hcl Hi Ho) as Hp. cbn [conversation length]. remember (S (length calls)) as fuel eqn:Ef. cbn [thrift_loop].
    destruct (find_method srv (cl_name cl)) as [m|].
    + destruct Hp as (i & o & Hi' & Hp). destruct (impl (mn_Name m) Background (call_args a m cl) (world c)) as [w [y|e]]; destruct Hp as [Ho' ->].
      * destruct (IH {| iprot := i; oprot := o; world := w |} _ Hi' Ho') as (c' & e & E & Hc). rewrite E. exists c', e. split; [done|].
        cbn [world] in Hc. destruct (conversation a impl srv calls w) as [[w' l] r]. by rewrite <- (assoc_L (++)) in Hc.
      * eexists _, e. split; [done|]. split_and!; [done|done|]. intros ? E. by injection E.
    + destruct Hp as (i & ->). eexists _, _. split; [done|]. rewrite app_nil_r. split_and!; [done|done|]. intros ? E. by injection E.
Qed.
End connection.

(** ** A protocol with these laws: big-endian words over a buffer of bytes *)
Module Binary.
Fixpoint be (n : nat) (z : Z) : bytes := match n with O => [] | S n => be n (z / 256) ++ [byte_of_Z z] end.
Definition un_be (l : bytes) : Z := foldl (fun z b => z * 256 + byte_to_Z b) 0 l.

Definition read_word (n : nat) (p : bytes) : bytes * res error Z :=
  if (length p <? n)%nat then ([], Err ErrEOF) else (drop n p, Ok (wrapS (8 * Z.of_nat n) (un_be (take n p)))).
Definition read_block (p : bytes) : bytes * res error bytes :=
  match read_word 4 p with
  | (p, Err e) => (p, Err e)
  | (p, Ok n) => if (length p <? Z.to_nat n)%nat then ([], Err ErrEOF) else (drop (Z.to_nat n) p, Ok (take (Z.to_nat n) p))
  end.

Definition encode_item (i : item) : bytes :=
  match i with
  | IMessage name kind seqId => be 4 (Z.of_nat (length (to_bytes name))) ++ to_bytes name ++ be 1 kind ++ be 4 seqId
  | IField t id => be 1 t ++ be 2 id
  | IStop => be 1 STOP
  | IInt32 z => be 4 z
  | IInt64 z => be 8 z
  | IStr s => be 4 (Z.of_nat (length s)) ++ s
  end.

Definition put_item (i : item) (p : bytes) : bytes * option error := (p ++ encode_item i, None).
Definition nothing (p : bytes) : bytes * option error := (p, None).
Definition no_value {A} (r : bytes * res error A) : bytes * option error := (fst r, match snd r with Ok _ => None | Err e => Some e end).

#[export] Instance protocol : TProtocol bytes := {
  WriteMessageBegin name kind seqId := put_item (IMessage name kind seqId);
  WriteMessageEnd := nothing;
  WriteStructBegin _ := nothing;
  WriteStructEnd := nothing;
  WriteFieldBegin _ t id := put_item (IField t id);
  WriteFieldEnd := nothing;
  WriteFieldStop := put_item IStop;
  WriteI32 z := put_item (IInt32 z);
  WriteI64 z := put_item (IInt64 z);
  WriteString s := put_item (IStr s);
  Flush := nothing;
  ReadMessageBegin p :=
    match read_block p with
    | (p, Err e) => (p, Err e)
    | (p, Ok name) =>
        match read_word 1 p with
        | (p, Err e) => (p, Err e)
        | (p, Ok kind) => let '(p, r) := read_word 4 p in (p, let? seqId := r in Ok (of_bytes name, kind, seqId))
        end
    end;
  ReadMessageEnd := nothing;
  ReadStructBegin := nothing;
  ReadStructEnd := nothing;
  ReadFieldBegin p :=
    match read_word 1 p with
    | (p, Err e) => (p, Err e)
    | (p, Ok t) => if t =? STOP then (p, Ok (STOP, 0)) else let '(p, r) := read_word 2 p in (p, let? id := r in Ok (t, id))
    end;
  ReadFieldEnd := nothing;
  ReadI32 := read_word 4;
  ReadI64 := read_word 8;
  ReadString := read_block;
  Skip t p := if t =? I32 then no_value (read_word 4 p) else if t =? I64 then no_value (read_word 8 p)
              else if t =? STRING then no_value (read_block p) else (p, Some no_code);
  RemainingBytes := length
}.

Definition write_exception (kind : Z) (msg : string) : bytes -> bytes * option error :=
  put_item (IField STRING 1) >> put_item (IStr (to_bytes msg)) >> put_item (IField I32 2) >> put_item (IInt32 kind) >> put_item IStop.

Lemma be_length n z : length (be n z) = n.
Proof. revert z. induction n as [|n IH]; intros z; [done|]. cbn. rewrite length_app, IH. cbn. lia. Qed.

Lemma un_be_be n z : un_be (be n z) = z mod 2 ^ (8 * Z.of_nat n).
Proof.
  unfold un_be. revert z. induction n as [|n IH]; intros z; [by rewrite Z.mod_1_r|]. cbn [be]. rewrite foldl_app, IH. cbn [foldl].
  rewrite byte_to_of_Z. unfold wrapU. replace (8 * Z.of_nat (S n)) with (8 * Z.of_nat n + 8) by lia.
  rewrite Z.pow_add_r, (Z.mul_comm (2 ^ _)) by lia. rewrite Z.rem_mul_r by (cbn; lia). change (2 ^ 8) with 256. lia.
Qed.

Lemma word_be n z p : in_s (8 * Z.of_nat n) z -> (0 < n)%nat -> read_word n (be n z ++ p) = (p, Ok z).
Proof.
  intros Hz Hn. unfold read_word. rewrite length_app, be_length. destruct (Nat.ltb_spec (n + length p) n); [lia|].
  rewrite drop_app_length', take_app_length' by (by rewrite be_length). rewrite un_be_be.
  change (z mod 2 ^ (8 * Z.of_nat n)) with (wrapU (8 * Z.of_nat n) z). by rewrite wrapS_wrapU, wrapS_id by (done || lia).
Qed.

Lemma block_be s p : in_s 32 (Z.of_nat (length s)) -> read_block ((be 4 (Z.of_nat (length s)) ++ s) ++ p) = (p, Ok s).
Proof.
  intros Hs. unfold read_block. rewrite <- (assoc_L (++)), word_be by (done || lia). rewrite Nat2Z.id.
  destruct (Nat.ltb_spec (length (s ++ p)) (length s)) as [Hlt|_]; [rewrite length_app in Hlt; lia|].
  by rewrite drop_app_length, take_app_length.
Qed.

Definition binary_holds (p : bytes) (l : list item) : Prop := p = concat (encode_item <$> l).

Lemma put_writes i : adds_items binary_holds (put_item i) [i].
Proof. intros p l ->. eexists. split; [done|]. unfold binary_holds. by rewrite fmap_app, concat_app; cbn; rewrite app_nil_r. Qed.
Lemma nothing_writes : adds_items binary_holds nothing [].
Proof. intros p l Hp. exists p. by rewrite app_nil_r. Qed.
Lemma nothing_reads : takes_items binary_holds nothing [] None.
Proof. intros p l Hp. by exists p. Qed.
Lemma take_reads {A} (c : bytes -> bytes * A) i r : (forall p, c (encode_item i ++ p) = (p, r)) -> takes_items binary_holds c [i] r.
Proof. intros Hc p l ->. exists (concat (encode_item <$> l)). by cbn; rewrite Hc. Qed.

Lemma read_message_binary name kind seqId p : item_ok (IMessage name kind seqId) ->
  ReadMessageBegin (encode_item (IMessage name kind seqId) ++ p) = (p, Ok (name, kind, seqId)).
Proof.
  intros (Hn & Hk & Hs). cbn [ReadMessageBegin protocol encode_item]. rewrite (assoc_L (++) (be 4 _)), <- (assoc_L (++) (be 4 _ ++ _)), block_be by done.
  rewrite <- (assoc_L (++)), word_be by (done || lia). rewrite word_be by (done || lia). cbn. by rewrite of_to_bytes.
Qed.

Lemma read_field_binary t id p : item_ok (IField t id) -> ReadFieldBegin (encode_item (IField t id) ++ p) = (p, Ok (t, id)).
Proof.
  intros (Ht & Hid). cbn [ReadFieldBegin protocol encode_item]. rewrite <- (assoc_L (++)), word_be by (unfold in_s; cbn; lia).
  rewrite (proj2 (Z.eqb_neq t STOP)) by (unfold STOP; lia). by rewrite word_be by (done || lia).
Qed.

Lemma encode_item_length i : (1 <= length (encode_item i))%nat.
Proof. destruct i; cbn [encode_item]; rewrite ?length_app, !be_length; lia. Qed.

#[export] Instance laws : ProtocolLaws bytes.
Proof.
  refine {| holds := binary_holds |}.
  all: try (intros; first [apply put_writes|apply nothing_writes|apply nothing_reads]).
  - intros. apply take_reads. intros p. by apply read_message_binary.
  - intros. apply take_reads. intros p. by apply read_field_binary.
  - apply take_reads. done.
  - intros. apply take_reads. intros p. apply word_be; [done|lia].
  - intros. apply take_reads. intros p. apply word_be; [done|lia].
  - intros. apply take_reads. intros p. by apply block_be.
  - intros i t Hok Ht. apply take_reads. intros p. destruct i; try done; injection Ht as <-; cbn -[be read_word read_block].
    + rewrite (word_be 4) by (done || lia). done.
    + rewrite (word_be 8) by (done || lia). done.
    + rewrite block_be by done. done.
  - intros p l ->. induction l as [|i l IH]; [done|]. cbn. rewrite length_app. pose proof (encode_item_length i). cbn in IH. lia.
  - intros p ->. by eexists [], _.
Defined.
End Binary.

#[local] Existing Instances Binary.protocol Binary.laws.

Lemma binary_exception kind msg : in_s 32 kind -> in_s 32 (Z.of_nat (length (to_bytes msg))) ->
  adds_items holds (Binary.write_exception kind msg) (exception_items kind msg).
Proof. intros _ _. repeat (apply (writes_then _ _ _ [_]); [apply Binary.put_writes|]). apply Binary.put_writes. Qed.
