(* ===== verification/PyCodec.v ===== *)
(** * The generated Python protobuf decoder
      ([compiler/codegen/python_generator.go])

    What the emitted [_read_varint] and [from_proto] do, with the struct's fields as a parameter.
    Python integers are unbounded, slices are cut at the end of the buffer, and the
    field numbers the decoder compares with are the positions of the fields in the
    struct, from 1.

    [utf8 b] says whether [b.decode('utf-8')] succeeds; the codec is the interpreter's. *)
From S2P Require Import Prelude GoStrings Ast Wire WireThrift.

Inductive py_error := EOFError | UnicodeDecodeError | StructError | PyOutOfFuel.

(** Attribute values.  A float keeps the eight bytes it was unpacked from. *)
Inductive pvalue := PInt (z : Z) | PBool (b : bool) | PFloat (raw : bytes) | PStr (s : bytes) | PBytes (s : bytes).

#[export] Instance pvalue_eq_dec : EqDecision pvalue.
Proof. solve_decision. Defined.

Fixpoint py_read (rest : bytes) (idx shift v : Z) : res py_error (Z * Z) :=
  match rest with
  | [] => Err EOFError
  | b :: rest' =>
      let b := byte_to_Z b in
      let v := Z.lor v (Z.shiftl (Z.land b 127) shift) in
      if Z.land b 128 =? 0 then Ok (v, idx + 1) else py_read rest' (idx + 1) (shift + 7) v
  end.
Definition py_read_varint (buf : bytes) (idx : Z) : res py_error (Z * Z) :=
  py_read (drop (Z.to_nat idx) buf) idx 0 0.

(** [raw[idx:idx+n]] *)
Definition py_slice (buf : bytes) (idx n : Z) : bytes := take (Z.to_nat n) (drop (Z.to_nat idx) buf).

(** [if field_num == 1: ... elif field_num == 2: ...], by position. *)
Definition py_field (fields : list FieldNode) (field_num : Z) : option (nat * FieldNode) :=
  if 1 <=? field_num then
    match fields !! Z.to_nat (field_num - 1) with
    | Some f => Some (Z.to_nat (field_num - 1), f)
    | None => None
    end
  else None.

Definition py_skip (buf : bytes) (wire_type idx : Z) : res py_error Z :=
  if wire_type =? 0 then let? (_, idx) := py_read_varint buf idx in Ok idx
  else if wire_type =? 2 then let? (l, idx) := py_read_varint buf idx in Ok (idx + l)
  else if wire_type =? 5 then Ok (idx + 4)
  else if wire_type =? 1 then Ok (idx + 8)
  else Ok idx.

(** ** [from_proto] *)
Definition py_default (f : FieldNode) : pvalue :=
  match tn_Kind (fn_Type f) with
  | TypeString => PStr []
  | TypeBool => PBool false
  | TypeDouble => PFloat (replicate 8 x00)
  | TypeBinary => PBytes []
  | _ => PInt 0
  end.

Section decoder.
Context (utf8 : bytes -> bool).

(** The branch of a known field; [None] keeps the default. *)
Definition py_known (buf : bytes) (f : FieldNode) (idx : Z) : res py_error (option pvalue * Z) :=
  match tn_Kind (fn_Type f) with
  | TypeInt32 | TypeInt64 => let? (v, idx) := py_read_varint buf idx in Ok (Some (PInt v), idx)
  | TypeBool => let? (v, idx) := py_read_varint buf idx in Ok (Some (PBool (negb (v =? 0))), idx)
  | TypeDouble =>
      let raw := py_slice buf idx 8 in
      if (length raw =? 8)%nat then Ok (Some (PFloat raw), idx + 8) else Err StructError
  | TypeString =>
      let? (len, idx) := py_read_varint buf idx in
      let s := py_slice buf idx len in
      if utf8 s then Ok (Some (PStr s), idx + len) else Err UnicodeDecodeError
  | TypeBinary =>
      let? (len, idx) := py_read_varint buf idx in Ok (Some (PBytes (py_slice buf idx len)), idx + len)
  | _ => let? (_, idx) := py_read_varint buf idx in Ok (None, idx)
  end.

Definition py_step (fields : list FieldNode) (buf : bytes) (x : list pvalue) (idx : Z)
  : res py_error (list pvalue * Z) :=
  let? (tag, idx) := py_read_varint buf idx in
  let field_num := Z.shiftr tag 3 in
  let wire_type := Z.land tag 7 in
  match py_field fields field_num with
  | Some (n, f) =>
      let? (o, idx) := py_known buf f idx in
      Ok (match o with Some v => <[n := v]> x | None => x end, idx)
  | None => let? idx := py_skip buf wire_type idx in Ok (x, idx)
  end.

Fixpoint py_loop (fuel : nat) (fields : list FieldNode) (buf : bytes) (x : list pvalue) (idx : Z)
  : res py_error (list pvalue) :=
  if Z.of_nat (length buf) <=? idx then Ok x
  else
    match fuel with
    | O => Err PyOutOfFuel
    | S fuel' => let? (x, idx) := py_step fields buf x idx in py_loop fuel' fields buf x idx
    end.

(** As many rounds as bytes: [from_proto_terminates] shows they are enough. *)
Definition from_proto (fields : list FieldNode) (buf : bytes) : res py_error (list pvalue) :=
  py_loop (length buf) fields buf (py_default <$> fields) 0.

(** ** Progress *)
Lemma py_read_progress rest idx shift v v' idx' : 0 <= v -> 0 <= shift ->
  py_read rest idx shift v = Ok (v', idx') -> idx < idx' /\ 0 <= v'.
Proof using.
  revert idx shift v. induction rest as [|b rest IH]; intros idx shift v Hv Hs; cbn [py_read]; [done|].
  assert (0 <= Z.lor v (Z.shiftl (Z.land (byte_to_Z b) 127) shift)) as Hv'.
  { apply Z.lor_nonneg. split; [done|]. apply Z.shiftl_nonneg, Z.land_nonneg. right. lia. }
  destruct (Z.land (byte_to_Z b) 128 =? 0).
  - intros [= <- <-]. split; [lia|done].
  - intros E. apply IH in E; [|done|lia]. lia.
Qed.

Lemma py_read_varint_progress buf idx v idx' : py_read_varint buf idx = Ok (v, idx') -> idx < idx' /\ 0 <= v.
Proof using. by apply py_read_progress. Qed.

Ltac py_bind :=
  repeat match goal with
  | H : (let? _ := ?c in _) = Ok _ |- _ =>
      let E := fresh "E" in destruct c as [[? ?]|] eqn:E; [cbn [res_bind] in H|discriminate H];
      try apply py_read_varint_progress in E
  end.

Lemma py_known_progress buf f idx o idx' : py_known buf f idx = Ok (o, idx') -> idx < idx'.
Proof using.
  unfold py_known. intros H. destruct (tn_Kind (fn_Type f)); py_bind; try (simplify_eq; lia).
  - destruct (utf8 _); simplify_eq. lia.
  - destruct (length _ =? 8)%nat; simplify_eq. lia.
Qed.

Lemma py_skip_progress buf w idx idx' : py_skip buf w idx = Ok idx' -> idx <= idx'.
Proof using.
  unfold py_skip. intros H. destruct (w =? 0); [py_bind; simplify_eq; lia|].
  destruct (w =? 2); [py_bind; simplify_eq; lia|].
  destruct (w =? 5); [simplify_eq; lia|]. destruct (w =? 1); simplify_eq; lia.
Qed.

Lemma py_step_progress fields buf x idx x' idx' : py_step fields buf x idx = Ok (x', idx') -> idx < idx'.
Proof using.
  unfold py_step. intros H. destruct (py_read_varint buf idx) as [[tag idx1]|] eqn:E; [|done].
  cbn [res_bind] in H. apply py_read_varint_progress in E.
  destruct (py_field fields _) as [[n f]|].
  - destruct (py_known buf f idx1) as [[o idx2]|] eqn:E2; [|done]. cbn [res_bind] in H.
    apply py_known_progress in E2. simplify_eq. lia.
  - destruct (py_skip buf _ idx1) as [idx2|] eqn:E2; [|done]. cbn [res_bind] in H.
    apply py_skip_progress in E2. simplify_eq. lia.
Qed.

Lemma py_read_varint_fuel buf idx : py_read_varint buf idx <> Err PyOutOfFuel.
Proof using.
  assert (forall rest i s v, py_read rest i s v <> Err PyOutOfFuel) as H; [|apply H].
  induction rest as [|b rest IH]; intros i s v; cbn [py_read]; [done|]. destruct (_ =? 0); [done|apply IH].
Qed.

Lemma bind_fuel {A B} (c : res py_error A) (k : A -> res py_error B) :
  c <> Err PyOutOfFuel -> (forall a, c = Ok a -> k a <> Err PyOutOfFuel) -> (let? x := c in k x) <> Err PyOutOfFuel.
Proof using. intros Hc Hk. destruct c as [a|e]; cbn [res_bind]; [by apply Hk|]. intros [= ->]. done. Qed.

Lemma py_known_fuel buf f idx : py_known buf f idx <> Err PyOutOfFuel.
Proof using.
  unfold py_known. destruct (tn_Kind (fn_Type f));
    try (apply bind_fuel; [apply py_read_varint_fuel|intros [? ?] _; try done]).
  - by destruct (utf8 _).
  - by destruct (length _ =? 8)%nat.
Qed.

Lemma py_skip_fuel buf w idx : py_skip buf w idx <> Err PyOutOfFuel.
Proof using.
  unfold py_skip. destruct (w =? 0); [apply bind_fuel; [apply py_read_varint_fuel|by intros [? ?] _]|].
  destruct (w =? 2); [apply bind_fuel; [apply py_read_varint_fuel|by intros [? ?] _]|].
  destruct (w =? 5); [done|]. by destruct (w =? 1).
Qed.

Lemma py_step_fuel fields buf x idx : py_step fields buf x idx <> Err PyOutOfFuel.
Proof using.
  unfold py_step. apply bind_fuel; [apply py_read_varint_fuel|]. intros [tag idx1] _.
  destruct (py_field fields _) as [[n f]|]; (apply bind_fuel; [apply py_known_fuel || apply py_skip_fuel|]).
  - by intros [? ?] _.
  - done.
Qed.

Lemma py_loop_fuel fuel fields buf x idx : Z.of_nat (length buf) <= idx + Z.of_nat fuel ->
  py_loop fuel fields buf x idx <> Err PyOutOfFuel.
Proof using.
  revert x idx. induction fuel as [|fuel IH]; intros x idx Hf; cbn [py_loop].
  { by rewrite (proj2 (Z.leb_le _ _)) by lia. }
  destruct (Z.of_nat (length buf) <=? idx); [done|].
  destruct (py_step fields buf x idx) as [[x' idx']|e] eqn:E; cbn [res_bind].
  - apply py_step_progress in E. apply IH. lia.
  - intros [= ->]. by apply py_step_fuel in E.
Qed.

(** the decoder returns on every input: each round moves forward, whatever
    lengths the input claims, so a buffer of [n] bytes takes at most [n] rounds. *)
Theorem from_proto_terminates (fields : list FieldNode) (buf : bytes) :
  from_proto fields buf <> Err PyOutOfFuel.
Proof using. apply py_loop_fuel. lia. Qed.

(** ** Reading what the Go codec writes *)
Lemma py_read_ok fuel v post idx shift acc :
  0 <= v < 2 ^ (7 * Z.of_nat fuel) -> (0 < fuel)%nat -> 0 <= shift -> 0 <= acc < 2 ^ shift ->
  py_read (varint_bytes fuel v ++ post) idx shift acc
  = Ok (acc + v * 2 ^ shift, idx + Z.of_nat (length (varint_bytes fuel v))).
Proof using.
  revert v idx shift acc. induction fuel as [|fuel IH]; intros v idx shift acc Hv Hf Hs Ha; [lia|].
  assert (Hp : 0 < 2 ^ shift) by (apply Z.pow_pos_nonneg; lia).
  assert (Hstep : forall d, Z.lor acc (Z.shiftl d shift) = acc + d * 2 ^ shift) by (intros d; by apply lor_add).
  cbn [varint_bytes]. destruct (Z.leb_spec 128 v) as [Hv'|Hv']; cbn [app py_read].
  - pose proof (Z.mod_pos_bound v 128 ltac:(lia)) as Hm. pose proof (Z.div_mod v 128 ltac:(lia)) as Hdm.
    destruct (byte_cont (byte_of_Z (v mod 128 + 128))) as [-> ->]. rewrite byte_to_of_Z, u8_small by lia.
    rewrite (proj2 (Z.ltb_ge _ _)) by lia.
    replace ((v mod 128 + 128) mod 128) with (v mod 128) by (apply (Z.mod_unique_pos _ _ 1); lia).
    assert (0 < fuel)%nat. { destruct fuel; [|lia]. change (7 * Z.of_nat 1) with 7 in Hv. lia. }
    rewrite Hstep. rewrite IH; [|..].
    + f_equal. f_equal; [|cbn [length]; lia]. rewrite Z.pow_add_r by lia. change (2 ^ 7) with 128. nia.
    + split; [apply Z.div_pos; lia|]. apply Z.div_lt_upper_bound; [lia|].
      replace (7 * Z.of_nat (S fuel)) with (7 + 7 * Z.of_nat fuel) in Hv by lia.
      rewrite Z.pow_add_r in Hv by lia. lia.
    + done.
    + lia.
    + rewrite Z.pow_add_r by lia. change (2 ^ 7) with 128. nia.
  - destruct (byte_cont (byte_of_Z v)) as [-> ->]. rewrite byte_to_of_Z, u8_small by lia.
    rewrite (proj2 (Z.ltb_lt _ _)) by lia. rewrite Z.mod_small by lia. rewrite Hstep. cbn. f_equal.
Qed.

Lemma py_read_varint_ok pre v post : in_u 64 v ->
  py_read_varint (pre ++ varint v ++ post) (Z.of_nat (length pre)) = Ok (v, Z.of_nat (length pre + length (varint v))).
Proof using.
  intros Hv. unfold py_read_varint. rewrite Nat2Z.id, drop_app_length.
  rewrite py_read_ok; [do 2 f_equal; lia|..|lia|lia|cbn; lia].
  rewrite <- (wrapU_id 64 v) by done. apply u64_fits.
Qed.

Lemma py_read_after pre t v rest :
  py_read_varint (pre ++ t :: varint (u64 v) ++ rest) (Z.of_nat (S (length pre)))
  = Ok (u64 v, Z.of_nat (S (length pre) + length (varint (u64 v)))).
Proof using.
  pose proof (py_read_varint_ok (pre ++ [t]) (u64 v) rest (wrapU_range 64 v ltac:(lia))) as H.
  rewrite <- app_assoc, length_app in H. cbn [app length] in H.
  by replace (length pre + 1)%nat with (S (length pre)) in H by lia.
Qed.

Lemma py_read_tag f pre rest : 1 <= fn_ID f <= 15 ->
  py_read_varint (pre ++ byte_of_Z (tagVal f) :: rest) (Z.of_nat (length pre)) = Ok (tagVal f, Z.of_nat (S (length pre))).
Proof using.
  intros Hid. pose proof (py_read_varint_ok pre (tagVal f) rest) as H. rewrite tag_varint in H by done. cbn [app length] in H.
  rewrite H; [do 2 f_equal; lia|]. destruct (tag_value f Hid) as (_ & Ht & _). split; [lia|].
  change (2 ^ 64) with 18446744073709551616. lia.
Qed.

(** What Python sees of a value: integers modulo 2^64, as the wire carries them. *)
Definition py_view (f : FieldNode) (v : value) : pvalue :=
  match tn_Kind (fn_Type f), v with
  | (TypeInt32 | TypeInt64), VInt z => PInt (u64 z)
  | TypeString, VStr s => PStr s
  | _, _ => py_default f
  end.
Definition py_decodable (f : FieldNode) (v : value) : Prop :=
  match v with VStr s => utf8 s = true | _ => True end.

Lemma py_known_ok f v pre post :
  value_fits f v -> py_decodable f v -> encode_field f v <> [] ->
  Z.of_nat (length (pre ++ encode_field f v ++ post)) < 2 ^ 63 ->
  py_known (pre ++ encode_field f v ++ post) f (Z.of_nat (S (length pre)))
  = Ok (Some (py_view f v), Z.of_nat (length pre + length (encode_field f v))).
Proof using.
  intros Hfit Hutf Hne Hlen. unfold py_known, py_view, value_fits, encode_field in *.
  destruct (tn_Kind (fn_Type f)) eqn:Ek, v as [z|s|]; try done;
    try (destruct (z =? 0); [done|]; cbn [app]; rewrite py_read_after; cbn [res_bind length]; do 2 f_equal; lia).
  destruct (Nat.ltb_spec 0 (length s)); [|done]. cbn [app] in *. rewrite <- app_assoc in *.
  rewrite py_read_after. cbn [res_bind].
  assert (u64 (Z.of_nat (length s)) = Z.of_nat (length s)) as Hu.
  { apply wrapU_id. unfold in_u. rewrite !length_app in Hlen. cbn [length] in Hlen. rewrite !length_app in Hlen.
    change (2 ^ 63) with 9223372036854775808 in Hlen. change (2 ^ 64) with 18446744073709551616. lia. }
  rewrite Hu. set (vs := varint (Z.of_nat (length s))).
  assert (py_slice (pre ++ byte_of_Z (tagVal f) :: vs ++ s ++ post)
    (Z.of_nat (S (length pre) + length vs)) (Z.of_nat (length s)) = s) as ->.
  { unfold py_slice. rewrite !Nat2Z.id.
    replace (pre ++ byte_of_Z (tagVal f) :: vs ++ s ++ post) with ((pre ++ byte_of_Z (tagVal f) :: vs) ++ s ++ post)
      by (by rewrite <- app_assoc).
    replace (S (length pre) + length vs)%nat with (length (pre ++ byte_of_Z (tagVal f) :: vs))
      by (rewrite length_app; cbn; lia).
    by rewrite drop_app_length, take_app_length. }
  cbn in Hutf. rewrite Hutf. do 2 f_equal. cbn [length]. rewrite length_app. lia.
Qed.

(** The field numbers are the positions, from 1. *)
Definition sequential (fields : list FieldNode) : Prop :=
  forall n f, fields !! n = Some f -> fn_ID f = Z.of_nat n + 1.

Lemma py_field_ok fs1 f fs2 : sequential (fs1 ++ f :: fs2) ->
  py_field (fs1 ++ f :: fs2) (fn_ID f) = Some (length fs1, f).
Proof using.
  intros Hs. assert ((fs1 ++ f :: fs2) !! length fs1 = Some f) as Hl by (by apply list_lookup_middle).
  rewrite (Hs _ _ Hl).
  unfold py_field. rewrite (proj2 (Z.leb_le _ _)) by lia.
  replace (Z.to_nat (Z.of_nat (length fs1) + 1 - 1)) with (length fs1) by lia.
  by rewrite Hl.
Qed.

Lemma py_step_ok fs1 f fs2 v x pre post :
  sequential (fs1 ++ f :: fs2) -> 1 <= fn_ID f <= 15 -> value_fits f v -> py_decodable f v -> encode_field f v <> [] ->
  Z.of_nat (length (pre ++ encode_field f v ++ post)) < 2 ^ 63 ->
  py_step (fs1 ++ f :: fs2) (pre ++ encode_field f v ++ post) x (Z.of_nat (length pre))
  = Ok (<[length fs1 := py_view f v]> x, Z.of_nat (length pre + length (encode_field f v))).
Proof using.
  intros Hix Hid Hfit Hutf Hne Hlen. pose proof (py_known_ok f v pre post Hfit Hutf Hne Hlen) as Hk.
  destruct (encode_field_tag f v Hne) as [rest Hr].
  unfold py_step. rewrite Hr in *. cbn [app] in *. rewrite py_read_tag by done. cbn [res_bind].
  assert (Z.shiftr (tagVal f) 3 = fn_ID f) as ->.
  { destruct (tag_value f Hid) as (-> & _ & _ & _). rewrite Z.shiftr_div_pow2 by lia. change (2 ^ 3) with 8.
    rewrite Z.div_add_l, Z.div_small; [lia| |lia]. unfold wire_type. destruct (tn_Kind (fn_Type f)); lia. }
  rewrite py_field_ok by done. rewrite Hk. done.
Qed.

Lemma py_view_zero f v : value_fits f v -> encode_field f v = [] -> py_view f v = py_default f.
Proof using.
  unfold value_fits, encode_field, py_view, py_default. destruct (tn_Kind (fn_Type f)), v as [z|s|]; try done;
    try (destruct (Z.eqb_spec z 0) as [->|]; done). by destruct s.
Qed.

Lemma py_loop_ok fuel fs1 fs2 x1 x2 :
  sequential (fs1 ++ fs2) -> Forall (fun f => 1 <= fn_ID f <= 15) fs2 ->
  Forall2 value_fits fs1 x1 -> Forall2 value_fits fs2 x2 -> Forall2 py_decodable fs2 x2 ->
  (length (encode fs2 x2) <= fuel)%nat ->
  Z.of_nat (length (encode fs1 x1 ++ encode fs2 x2)) < 2 ^ 63 ->
  py_loop fuel (fs1 ++ fs2) (encode fs1 x1 ++ encode fs2 x2) (zip_with py_view fs1 x1 ++ (py_default <$> fs2))
    (Z.of_nat (length (encode fs1 x1)))
  = Ok (zip_with py_view fs1 x1 ++ zip_with py_view fs2 x2).
Proof using.
  revert fuel fs1 x1 x2. induction fs2 as [|f fs2 IH]; intros fuel fs1 x1 x2 Hseq Hids H1 H2 Hu Hfuel Hlen.
  { apply Forall2_nil_inv_l in H2 as ->. destruct fuel; cbn; rewrite app_nil_r, (proj2 (Z.leb_le _ _)) by lia; done. }
  apply Forall2_cons_inv_l in H2 as (v & x2' & Hv & H2 & ->). rename x2' into x2.
  apply Forall2_cons in Hu as [Hd Hu]. apply Forall_cons in Hids as [Hid Hids].
  pose proof (Forall2_length _ _ _ H1) as Hl1.
  assert (Hsnoc : encode (fs1 ++ [f]) (x1 ++ [v]) = encode fs1 x1 ++ encode_field f v) by (by apply encode_snoc).
  assert (Hzip : zip_with py_view (fs1 ++ [f]) (x1 ++ [v]) = zip_with py_view fs1 x1 ++ [py_view f v])
    by (by rewrite zip_with_app by done).
  assert (Forall2 value_fits (fs1 ++ [f]) (x1 ++ [v])) as H1' by (apply Forall2_app; [done|by repeat constructor]).
  rewrite (encode_cons f fs2 v x2) in *. cbn [fmap list_fmap zip_with].
  destruct (decide (encode_field f v = [])) as [Enil|Hne].
  - specialize (IH fuel (fs1 ++ [f]) (x1 ++ [v]) x2).
    rewrite Hsnoc, Hzip, Enil, !app_nil_r in IH. rewrite Enil in *. cbn [app] in *.
    rewrite <- !app_assoc in IH. cbn [app] in IH.
    rewrite <- (py_view_zero f v Hv Enil). by apply IH.
  - destruct (encode_field_tag f v Hne) as [r Hr].
    destruct fuel as [|fuel]; [rewrite Hr in Hfuel; cbn in Hfuel; lia|].
    cbn [py_loop]. rewrite (proj2 (Z.leb_gt _ _)) by (rewrite !length_app, Hr; cbn; lia).
    rewrite (py_step_ok fs1 f fs2 v) by done. cbn [res_bind].
    assert (length (zip_with py_view fs1 x1) = length fs1) as Hz by (rewrite length_zip_with; lia).
    rewrite insert_app_r_alt, Hz, Nat.sub_diag by lia. cbn [list_insert insert].
    specialize (IH fuel (fs1 ++ [f]) (x1 ++ [v]) x2).
    rewrite Hsnoc, Hzip, <- !app_assoc in IH. cbn [app] in IH. rewrite <- length_app.
    apply IH; try done. rewrite length_app, Hr in Hfuel. cbn in Hfuel. lia.
Qed.

(** C30: a message the Go code encodes is decoded by the Python code field by field,
    when the field numbers are the positions 1, 2, 3, ... (up to 15) and the strings are
    UTF-8: strings arrive unchanged and an integer arrives modulo 2^64, so
    non-negative ones arrive unchanged and a negative one as the value plus 2^64. *)
Theorem python_reads_go (fields : list FieldNode) (x : message) :
  sequential fields -> wf_fields fields -> Forall2 value_fits fields x -> Forall2 py_decodable fields x ->
  Z.of_nat (length (encode fields x)) < 2 ^ 63 ->
  exists dAtA, Marshal fields x = Ok dAtA /\ from_proto fields dAtA = Ok (zip_with py_view fields x).
Proof using.
  intros Hseq [_ Hids] Hfit Hu Hlen. exists (encode fields x). split; [apply Marshal_encode|].
  exact (py_loop_ok (length (encode fields x)) [] fields [] x Hseq Hids (Forall2_nil_2 _ _ _) Hfit Hu (le_n _) Hlen).
Qed.
End decoder.

Definition py_fields : list FieldNode := [
  {| fn_Name := "user_id"; fn_ID := 1; fn_Type := scalar TypeInt64; fn_Optional := false |};
  {| fn_Name := "name"; fn_ID := 2; fn_Type := scalar TypeString; fn_Optional := false |};
  {| fn_Name := "delta"; fn_ID := 3; fn_Type := scalar TypeInt32; fn_Optional := false |} ].

Lemma py_fields_sequential : sequential py_fields.
Proof. intros [|[|[|n]]] f [= <-]; done. Qed.
Lemma py_fields_wf : wf_fields py_fields.
Proof. split; [apply (bool_decide_unpack (NoDup _)); vm_compute; exact I|]. repeat constructor; cbn; lia. Qed.
Lemma py_fields_fit : Forall2 value_fits py_fields sample_message.
Proof. repeat constructor; cbn; words. Qed.

Lemma python_reads_go_witness :
  exists dAtA, Marshal py_fields sample_message = Ok dAtA /\
    from_proto (fun _ => true) py_fields dAtA = Ok [PInt 300; PStr (to_bytes "ada"); PInt (2 ^ 64 - 1)].
Proof.
  exact (python_reads_go (fun _ => true) py_fields sample_message py_fields_sequential py_fields_wf py_fields_fit
    ltac:(repeat constructor) ltac:(vm_compute; reflexivity)).
Defined.

(** A struct whose field numbers are not the positions is misread: with fields 2 and 1 in
    that order, a message the Go code writes comes back with the two values exchanged, and
    with numbers past the last position it comes back with every field at its default. *)
Definition int_field (name : string) (id : Z) : FieldNode :=
  {| fn_Name := name; fn_ID := id; fn_Type := scalar TypeInt64; fn_Optional := false |}.
Theorem python_reads_by_position :
  (exists dAtA, Marshal [int_field "a" 2; int_field "b" 1] [VInt 7; VInt 9] = Ok dAtA /\
     from_proto (fun _ => true) [int_field "a" 2; int_field "b" 1] dAtA = Ok [PInt 9; PInt 7]) /\
  (exists dAtA, Marshal [int_field "a" 10; int_field "b" 11] [VInt 7; VInt 9] = Ok dAtA /\
     from_proto (fun _ => true) [int_field "a" 10; int_field "b" 11] dAtA = Ok [PInt 0; PInt 0]).
Proof. split; eexists; (split; [vm_compute; reflexivity|vm_compute; reflexivity]). Qed.
