(* ===== verification/Resolver.v ===== *)
(** * Service discovery ([runtimes/go/resolver.go], [resolver_dns.go], [resolver_consul.go])

    [Resolver] is the interface; the DNS and HTTP lookups are parameters.  The last
    part composes a resolver with any balancer, as a client does. *)
From S2P Require Import Prelude GoStrings Errors Balancer.

Class Resolver (R : Type) := { Resolve : string -> R -> res error (list string) }.

(** ** Static table *)
Record StaticResolver := { sr_targets : gmap string (list string) }.

Definition NewStaticResolver : StaticResolver := {| sr_targets := ∅ |}.

Definition sr_Register (serviceName : string) (addresses : list string) (r : StaticResolver) : StaticResolver :=
  {| sr_targets := <[serviceName := addresses]> (sr_targets r) |}.

Definition sr_Resolve (serviceName : string) (r : StaticResolver) : res error (list string) :=
  match sr_targets r !! serviceName with
  | Some addrs => Ok addrs
  | None => Err (ErrorString ("service " +:+ serviceName +:+ " not found in resolver targets"))
  end.

#[export] Instance static_resolver : Resolver StaticResolver := {| Resolve := sr_Resolve |}.

(** ** DNS *)
Record CoreDNSResolver := { cd_Namespace : string }.
Record DNSResolver := mkDNSResolver {}.

Section dns.
(** [net.LookupHost] and [net.Resolver.LookupSRV] (targets and ports). *)
Variable LookupHost : string -> res error (list string).
Variable LookupSRV : string -> res error (list (string * Z)).

Definition fqdn (serviceName : string) (k : CoreDNSResolver) : string :=
  if bool_decide (cd_Namespace k <> "")
  then serviceName +:+ "." +:+ cd_Namespace k +:+ ".svc.cluster.local" else serviceName.

Definition cd_Resolve (serviceName : string) (k : CoreDNSResolver) : res error (list string) :=
  LookupHost (fqdn serviceName k).

Definition dns_Resolve (target : string) (r : DNSResolver) : res error (list string) :=
  match LookupSRV target with
  | Ok ((_ :: _) as srvs) => Ok ((fun '(host, port) => host +:+ ":" +:+ Itoa port) <$> srvs)
  | _ => LookupHost target
  end.
End dns.

(** ** Consul *)
Record consulServiceEntry := { ce_Address : string; ce_ServiceAddress : string; ce_ServicePort : Z }.
Record ConsulResolver := { cr_address : string }.

Section consul.
(** [http.Client.Get] with the JSON decoder: the status code and the decoded body. *)
Variable http_Get : string -> res error (Z * res error (list consulServiceEntry)).
(** [%q] *)
Variable Quote : string -> string.

Definition entry_addr (e : consulServiceEntry) : list string :=
  let addr := if bool_decide (ce_ServiceAddress e = "") then ce_Address e else ce_ServiceAddress e in
  if bool_decide (addr <> "") then [addr +:+ ":" +:+ Itoa (ce_ServicePort e)] else [].

Definition consul_Resolve (serviceName : string) (r : ConsulResolver) : res error (list string) :=
  match http_Get (cr_address r +:+ "/v1/catalog/service/" +:+ serviceName) with
  | Err e => Err e
  | Ok (status, body) =>
      if negb (status =? 200) then Err (ErrorString ("consul catalog API returned status " +:+ Itoa status))
      else
        match body with
        | Err e => Err e
        | Ok entries =>
            match entries ≫= entry_addr with
            | [] => Err (ErrorString ("no active instances discovered for service " +:+ Quote serviceName))
            | addrs => Ok addrs
            end
        end
  end.
End consul.

(** ** A client: resolve, then choose *)
Definition pick {R B} `{Resolver R} `{Balancer B} (serviceName : string) (r : R) (b : B) : B * res error string :=
  match Resolve serviceName r with
  | Err e => (b, Err e)
  | Ok targets => Next targets b
  end.

(** ** Properties *)

(** Whatever the resolver and the balancer, a client that resolves and chooses gets one
    of the resolved addresses, the resolver's own error, or, for an empty list of
    addresses, the balancer's error; it never gets an address that was not resolved. *)
Theorem pick_is_resolved {R B} `{Resolver R} `{Balancer B} (serviceName : string) (r : R) (b : B) :
  bal_ok b ->
  match Resolve serviceName r with
  | Err e => pick serviceName r b = (b, Err e)
  | Ok [] => pick serviceName r b = (b, Err ErrNoTargets)
  | Ok (t :: ts) => exists s, snd (pick serviceName r b) = Ok s /\ s ∈ t :: ts
  end.
Proof.
  intros Hb. unfold pick. destruct (Resolve serviceName r) as [[|t ts]|e]; [apply Next_empty| |done].
  by apply balancer_member.
Qed.

(** With Consul an empty answer is an error of the resolver, and every resolved address
    is the service address of a catalog entry (the node address when the entry has
    none) and its port. *)
Theorem consul_addresses http_Get Quote (serviceName : string) (r : ConsulResolver) (addrs : list string) :
  consul_Resolve http_Get Quote serviceName r = Ok addrs ->
  addrs <> [] /\ exists entries,
    http_Get (cr_address r +:+ "/v1/catalog/service/" +:+ serviceName) = Ok (200, Ok entries) /\
    forall a, a ∈ addrs -> exists e host, e ∈ entries /\ host <> "" /\ a = host +:+ ":" +:+ Itoa (ce_ServicePort e) /\
      (host = ce_ServiceAddress e \/ (ce_ServiceAddress e = "" /\ host = ce_Address e)).
Proof.
  unfold consul_Resolve. destruct (http_Get _) as [[status body]|e]; [|done].
  destruct (Z.eqb_spec status 200) as [->|]; [|done]. cbn [negb]. destruct body as [entries|]; [|done].
  destruct (entries ≫= entry_addr) as [|a0 rest] eqn:E; [done|]. intros [= <-]. split; [done|].
  exists entries. split; [done|]. intros a Ha. rewrite <- E in Ha. apply list_elem_of_bind in Ha as (e & Ha & He).
  unfold entry_addr in Ha. case_bool_decide as Hs; case_bool_decide as Hn; (apply list_elem_of_singleton in Ha as -> || by apply elem_of_nil in Ha).
  - exists e, (ce_Address e). split_and!; auto.
  - exists e, (ce_ServiceAddress e). split_and!; auto.
Qed.
