(* ===== verification/Debug.v ===== *)
(** * Debug endpoints ([runtimes/go/debug.go])

    The registry of per-method counters: the map holds pointers, modelled by positions in
    a list of cells, so that goroutines holding the same counter share it.
    [RecordRequest] is a sequence of instructions, one per lock section or atomic
    addition, that goroutines interleave.  Then the HTTP handler, which reads the
    registry, the balancer and the breaker, and forces the breaker.

    The average latency is kept as the fraction that is formatted; floating-point
    formatting is left out. *)
From S2P Require Import Prelude GoStrings Interleave Breaker Balancer.

Record methodCounter := { requests : Z; errors : Z; latencyNs : Z }.
Record debugRegistry := { counters : gmap string nat; cells : list methodCounter }.
Definition new_registry : debugRegistry := {| counters := ∅; cells := [] |}.

(** ** [RecordRequest] *)
Record call := { c_method : string; c_latency : Z; c_failed : bool }.

Inductive rec_pc :=
| RLookup (c : call)              (* under the read lock *)
| RCreate (c : call)              (* under the write lock *)
| RRequests (p : nat) (c : call)  (* requests.Add(1) *)
| RLatency (p : nat) (c : call)   (* latencyNs.Add(latency) *)
| RErrors (p : nat) (c : call)    (* errors.Add(1) *)
| RDone (c : call).

Definition add_requests (x : methodCounter) : methodCounter :=
  {| requests := i64 (requests x + 1); errors := errors x; latencyNs := latencyNs x |}.
Definition add_latency (d : Z) (x : methodCounter) : methodCounter :=
  {| requests := requests x; errors := errors x; latencyNs := i64 (latencyNs x + d) |}.
Definition add_error (x : methodCounter) : methodCounter :=
  {| requests := requests x; errors := i64 (errors x + 1); latencyNs := latencyNs x |}.
Definition on_cell (f : methodCounter -> methodCounter) (p : nat) (r : debugRegistry) : debugRegistry :=
  {| counters := counters r; cells := alter f p (cells r) |}.

Definition rec_micro (now : Z) (r : debugRegistry) (pc : rec_pc) : debugRegistry * rec_pc :=
  match pc with
  | RLookup c =>
      (r, match counters r !! c_method c with Some p => RRequests p c | None => RCreate c end)
  | RCreate c =>
      match counters r !! c_method c with
      | Some p => (r, RRequests p c)
      | None =>
          let p := length (cells r) in
          ({| counters := <[c_method c := p]> (counters r);
              cells := cells r ++ [{| requests := 0; errors := 0; latencyNs := 0 |}] |}, RRequests p c)
      end
  | RRequests p c => (on_cell add_requests p r, RLatency p c)
  | RLatency p c => (on_cell (add_latency (c_latency c)) p r, if c_failed c then RErrors p c else RDone c)
  | RErrors p c => (on_cell add_error p r, RDone c)
  | RDone c => (r, RDone c)
  end.
Definition rec_step := sys_step rec_micro.

(** Alone, as one call. *)
Definition RecordRequest (method : string) (latency : Z) (failed : bool) (r : debugRegistry) : debugRegistry :=
  fst (run_alone rec_micro 5 0 r (RLookup {| c_method := method; c_latency := latency; c_failed := failed |})).

(** ** The snapshot *)
Record methodSnapshot := { ms_Method : string; ms_Requests : Z; ms_Errors : Z; ms_Latency : Z }.
Record backendSnapshot := { bs_Addr : string; bs_ActiveConns : Z }.
Record circuitSnapshot := { cs_State : string; cs_Failures : Z }.
Record debugSnapshot := {
  Methods : list methodSnapshot;
  Backends : list backendSnapshot;
  Circuit : option circuitSnapshot
}.

(** What the handler uses of the server; [None] is a nil pointer. *)
Record debugServer := { balancer : option LeastConnBalancer; balancerTargets : list string; debugBreaker : option CircuitBreaker }.

Fixpoint insert_string (s : string) (l : list string) : list string :=
  match l with [] => [s] | t :: l' => if String.leb s t then s :: l else t :: insert_string s l' end.
(** [sort.Strings] *)
Definition sort_strings (l : list string) : list string := foldr insert_string [] l.

(** Latencies divided by requests, or nothing to divide. *)
Definition method_snapshot (r : debugRegistry) (m : string) : methodSnapshot :=
  let c := default {| requests := 0; errors := 0; latencyNs := 0 |} (counters r !! m ≫= fun p => cells r !! p) in
  {| ms_Method := m; ms_Requests := requests c; ms_Errors := errors c; ms_Latency := latencyNs c |}.

Definition buildSnapshot `{MapIter} (r : debugRegistry) (server : option debugServer) : debugSnapshot := {|
  Methods := method_snapshot r <$> sort_strings (fst <$> range_map 0 (counters r));
  Backends :=
    match server with
    | Some srv =>
        match balancer srv with
        | Some b => (fun addr => {| bs_Addr := addr; bs_ActiveConns := ActiveConns addr b |}) <$> balancerTargets srv
        | None => []
        end
    | None => []
    end;
  Circuit :=
    match server ≫= debugBreaker with
    | Some cb => Some {| cs_State := CircuitState_String (cb_state cb); cs_Failures := failures cb |}
    | None => None
    end
|}.

(** ** The handler *)
Inductive debug_reply := DebugOptions | DebugForcedOpen | DebugForcedClosed | DebugSnapshot (s : debugSnapshot).

Definition on_breaker (f : CircuitBreaker -> CircuitBreaker) (srv : debugServer) : debugServer :=
  {| balancer := balancer srv; balancerTargets := balancerTargets srv; debugBreaker := f <$> debugBreaker srv |}.

(** The handler is mounted with a server, so the pointer is set. *)
Definition debugHandler `{MapIter} (now : Z) (r : debugRegistry) (server : debugServer) (method path : string)
  : debugServer * debug_reply :=
  if bool_decide (method = "OPTIONS") then (server, DebugOptions)
  else if bool_decide (method = "POST") && HasSuffix path "/circuit/open" then
    (on_breaker (ForceOpen now) server, DebugForcedOpen)
  else if bool_decide (method = "POST") && HasSuffix path "/circuit/close" then
    (on_breaker ForceClose server, DebugForcedClosed)
  else (server, DebugSnapshot (buildSnapshot r (Some server))).

(** ** Lemmas *)
Variant counted := CRequests | CErrors | CLatency.
Definition field (k : counted) (x : methodCounter) : Z :=
  match k with CRequests => requests x | CErrors => errors x | CLatency => latencyNs x end.
(** A counter of a method; a method that was never recorded counts as zero. *)
Definition stat (k : counted) (r : debugRegistry) (m : string) : Z :=
  match counters r !! m ≫= fun p => cells r !! p with Some c => field k c | None => 0 end.

(** What a call adds to the counter, and what of it is still to be added. *)
Definition amount (k : counted) (m : string) (c : call) : Z :=
  if bool_decide (c_method c = m)
  then match k with CRequests => 1 | CErrors => if c_failed c then 1 else 0 | CLatency => c_latency c end
  else 0.
Definition pending (k : counted) (m : string) (pc : rec_pc) : Z :=
  match pc with
  | RLookup c | RCreate c | RRequests _ c => amount k m c
  | RLatency _ c => match k with CRequests => 0 | _ => amount k m c end
  | RErrors _ c => match k with CErrors => amount k m c | _ => 0 end
  | RDone c => 0
  end.
Definition pc_call (pc : rec_pc) : call :=
  match pc with RLookup c | RCreate c | RRequests _ c | RLatency _ c | RErrors _ c | RDone c => c end.
Definition total (k : counted) (m : string) (calls : list call) : Z := sum_weights (amount k m) calls.

Definition cell_ok (x : methodCounter) : Prop := forall k, in_s 64 (field k x).
(** Pointers are to cells, different methods have different ones. *)
Definition reg_ok (r : debugRegistry) : Prop :=
  (forall m p, counters r !! m = Some p -> (p < length (cells r))%nat) /\
  (forall m m' p, counters r !! m = Some p -> counters r !! m' = Some p -> m = m') /\ Forall cell_ok (cells r).
Definition holds_counter (r : debugRegistry) (pc : rec_pc) : Prop :=
  match pc with
  | RRequests p c | RLatency p c => counters r !! c_method c = Some p
  | RErrors p c => counters r !! c_method c = Some p /\ c_failed c = true
  | _ => True
  end.

Definition rec_inv (goal : counted -> string -> Z) (r : debugRegistry) (th : list rec_pc) : Prop :=
  reg_ok r /\ Forall (holds_counter r) th /\
  forall k m, u64 (stat k r m + sum_weights (pending k m) th) = u64 (goal k m).

Lemma u64_add a b c : u64 a = u64 b -> u64 (a + c) = u64 (b + c).
Proof. unfold wrapU. intros E. by rewrite <- Zplus_mod_idemp_l, E, Zplus_mod_idemp_l. Qed.

Lemma stat_cell k r m p x : counters r !! m = Some p -> cells r !! p = Some x -> stat k r m = field k x.
Proof. intros Hm Hp. unfold stat. by rewrite Hm; cbn; rewrite Hp. Qed.

(** An atomic addition moves an amount from a goroutine to the counter it holds. *)
Lemma on_cell_ok f p r : (forall x, cell_ok x -> cell_ok (f x)) -> reg_ok r -> reg_ok (on_cell f p r).
Proof.
  intros Hf (H1 & H2 & H3). split; [|split].
  - intros m q Hq. cbn [cells on_cell]. rewrite length_alter. by apply (H1 m).
  - exact H2.
  - cbn [cells on_cell]. apply Forall_alter; [done|]. intros x _ Hx. by apply Hf.
Qed.

Lemma stat_on_cell f (delta : counted -> Z) m0 p r k m :
  (forall x, u64 (field k (f x)) = u64 (field k x + delta k)) -> reg_ok r -> counters r !! m0 = Some p ->
  u64 (stat k (on_cell f p r) m) = u64 (stat k r m + if bool_decide (m0 = m) then delta k else 0).
Proof.
  intros Hf (H1 & H2 & _) Hm0. destruct (lookup_lt_is_Some_2 (cells r) p (H1 _ _ Hm0)) as [x Hx].
  case_bool_decide as Hm.
  - subst m. rewrite (stat_cell k r m0 p x Hm0 Hx).
    rewrite (stat_cell k (on_cell f p r) m0 p (f x)); [apply Hf|done|]. cbn [cells on_cell]. by rewrite list_lookup_alter_eq, Hx.
  - rewrite Z.add_0_r. unfold stat. cbn [counters on_cell cells]. destruct (counters r !! m) as [q|] eqn:Hq; [|done].
    cbn [mbind option_bind]. rewrite list_lookup_alter_ne; [done|]. intros ->. by apply Hm, (H2 m0 m q).
Qed.

Lemma u64_i64 z : u64 (i64 z) = u64 z.
Proof. by apply wrapU_wrapS. Qed.

Lemma cell_add f : (forall x k, field k (f x) = field k x \/ exists z, field k (f x) = i64 z) ->
  forall x, cell_ok x -> cell_ok (f x).
Proof. intros Hf x Hx k. destruct (Hf x k) as [->|[z ->]]; [apply Hx|by apply wrapS_range]. Qed.

Lemma rec_inv_move goal f delta r th i pc pc' p :
  rec_inv goal r th -> th !! i = Some pc -> holds_counter r pc -> counters r !! c_method (pc_call pc) = Some p ->
  (forall x, cell_ok x -> cell_ok (f x)) ->
  (forall x k, u64 (field k (f x)) = u64 (field k x + delta k)) ->
  (forall k m, pending k m pc = pending k m pc' + if bool_decide (c_method (pc_call pc) = m) then delta k else 0) ->
  holds_counter r pc' -> rec_inv goal (on_cell f p r) (<[i := pc']> th).
Proof.
  intros (Hr & Hh & Hs) Hi Hpc Hp Hok Hf Hmove Hpc'. split; [by apply on_cell_ok|]. split.
  - apply Forall_insert_lookup; [|by destruct pc']. eapply Forall_impl; [exact Hh|]. by intros [].
  - intros k m. rewrite <- (Hs k m), (sum_weights_insert _ _ _ pc) by done.
    rewrite (u64_add _ (stat k r m + if bool_decide (c_method (pc_call pc) = m) then delta k else 0)) by (by eapply stat_on_cell).
    f_equal. rewrite (Hmove k m). lia.
Qed.

(** A step that only moves on. *)
Lemma rec_inv_skip goal r th i pc pc' : rec_inv goal r th -> th !! i = Some pc ->
  (forall k m, pending k m pc' = pending k m pc) -> holds_counter r pc' -> rec_inv goal r (<[i := pc']> th).
Proof.
  intros (Hr & Hh & Hs) Hi Hp Hpc'. split; [done|]. split; [by apply Forall_insert_lookup|].
  intros k m. rewrite <- (Hs k m), (sum_weights_insert _ _ _ pc) by done. f_equal. rewrite Hp. lia.
Qed.

Lemma rec_inv_create goal r th m0 : counters r !! m0 = None -> rec_inv goal r th ->
  rec_inv goal {| counters := <[m0 := length (cells r)]> (counters r);
                  cells := cells r ++ [{| requests := 0; errors := 0; latencyNs := 0 |}] |} th.
Proof.
  intros Hn ((H1 & H2 & H3) & Hh & Hs). split; [split; [|split]|split].
  - intros m p. cbn [counters cells]. rewrite length_app. cbn. destruct (decide (m0 = m)) as [->|].
    + rewrite lookup_insert_eq. intros [= <-]. lia.
    + rewrite lookup_insert_ne by done. intros Hm%H1. lia.
  - intros m m' p. cbn [counters].
    assert (forall m1, counters r !! m1 <> Some (length (cells r))) as Hl by (intros m1 Hm1%H1; lia).
    destruct (decide (m0 = m)) as [<-|], (decide (m0 = m')) as [<-|]; [done|..];
      rewrite ?lookup_insert_eq, ?lookup_insert_ne by done; naive_solver.
  - cbn [cells]. apply Forall_app. split; [done|]. apply Forall_singleton. by intros [].
  - eapply Forall_impl; [exact Hh|]. intros []; cbn; try done; (destruct (decide (m0 = c_method c)) as [<-|];
      [naive_solver|by rewrite lookup_insert_ne]).
  - intros k m. rewrite <- (Hs k m). f_equal. f_equal. unfold stat. cbn [counters cells].
    destruct (decide (m0 = m)) as [->|].
    + rewrite lookup_insert_eq, Hn. cbn. rewrite lookup_app_r, Nat.sub_diag by lia. by destruct k.
    + rewrite lookup_insert_ne by done. destruct (counters r !! m) as [p|] eqn:E; [|done]. cbn.
      by rewrite lookup_app_l by (by eapply H1).
Qed.

Ltac add_fields := intros x []; cbn [field add_requests add_latency add_error requests errors latencyNs]; rewrite ?u64_i64; f_equal; lia.

Lemma rec_inv_step goal r th i pc r' pc' now :
  rec_inv goal r th -> th !! i = Some pc -> rec_micro now r pc = (r', pc') -> rec_inv goal r' (<[i := pc']> th).
Proof.
  intros Hinv Hi Hm. assert (holds_counter r pc) as Hpc by (destruct Hinv as (_ & Hh & _); by eapply Forall_lookup_1).
  destruct pc as [c|c|p c|p c|p c|c]; cbn [rec_micro] in Hm.
  - destruct (counters r !! c_method c) as [p|] eqn:E; simplify_eq; by eapply rec_inv_skip.
  - destruct (counters r !! c_method c) as [p|] eqn:E; simplify_eq; [by eapply rec_inv_skip|].
    eapply rec_inv_skip; [by apply rec_inv_create|done|done|]. cbn. apply lookup_insert_eq.
  - simplify_eq. eapply (rec_inv_move _ _ (fun k => match k with CRequests => 1 | _ => 0 end)); [done..| |add_fields| |done].
    + apply cell_add. intros x []; [right; by eexists|by left|by left].
    + intros k m. cbn [pc_call pending]. unfold amount. case_bool_decide; destruct k; lia.
  - simplify_eq. eapply (rec_inv_move _ _ (fun k => match k with CLatency => c_latency c | _ => 0 end)); [done..| |add_fields| |].
    + apply cell_add. intros x []; [by left|by left|right; by eexists].
    + intros k m. cbn [pc_call]. destruct (c_failed c) eqn:Ef; cbn [pending]; unfold amount; case_bool_decide; destruct k; rewrite ?Ef; lia.
    + by destruct (c_failed c) eqn:Ef.
  - destruct Hpc as [Hp Hf]. simplify_eq.
    eapply (rec_inv_move _ _ (fun k => match k with CErrors => 1 | _ => 0 end)); [done|done|done|done| |add_fields| |done].
    + apply cell_add. intros x []; [by left|right; by eexists|by left].
    + intros k m. cbn [pc_call pending]. unfold amount. rewrite Hf. case_bool_decide; destruct k; lia.
  - simplify_eq. by eapply rec_inv_skip.
Qed.

Lemma pending_start k m calls : sum_weights (pending k m) (RLookup <$> calls) = total k m calls.
Proof. unfold total. induction calls as [|c calls IH]; [done|]. cbn. by rewrite IH. Qed.
Lemma pending_done k m th : Forall (fun pc => exists c, pc = RDone c) th -> sum_weights (pending k m) th = 0.
Proof. induction 1 as [|pc th [c ->] _ IH]; [done|]. cbn. by rewrite IH. Qed.

Lemma stat_range k r m : reg_ok r -> in_s 64 (stat k r m).
Proof.
  intros (_ & _ & Hc). unfold stat. destruct (counters r !! m) as [p|]; [|done]. cbn.
  destruct (cells r !! p) as [x|] eqn:E; [|done]. eapply Forall_lookup_1 in E; [|exact Hc]. apply E.
Qed.

(** ** Properties *)

(** C31: no request is lost.  However many goroutines record requests at once, in every
    interleaving of their lock sections and atomic additions in which all of them return,
    the request, error and latency counters of every method have grown by exactly the
    number of calls, the number of failed calls and the sum of the latencies of that
    method, modulo 2^64: two first requests for a method never get two counters, and
    calls for other methods do not show. *)
Theorem record_requests_exact (r : debugRegistry) (calls : list call) (t : Z) (final : system debugRegistry rec_pc)
    (k : counted) (m : string) :
  reg_ok r -> rtc rec_step (Sys r (RLookup <$> calls) t) final ->
  Forall (fun pc => exists c, pc = RDone c) (threads final) ->
  stat k (shared final) m = i64 (stat k r m + total k m calls).
Proof.
  intros Hr Hrun Hdone.
  assert (rec_inv (fun k m => stat k r m + total k m calls) (shared final) (threads final)) as (Hok & _ & Hs).
  { apply (sys_invariant rec_micro (fun s th _ => rec_inv _ s th) _ _ Hrun).
    - intros; by eapply rec_inv_step.
    - cbn [shared threads]. split; [done|]. split; [by apply Forall_fmap, Forall_true|]. intros k' m'. by rewrite pending_start. }
  specialize (Hs k m). rewrite pending_done, Z.add_0_r in Hs by done.
  rewrite <- (wrapS_id 64 (stat k (shared final) m)) by (done || by apply stat_range).
  rewrite <- wrapS_wrapU, Hs by done. by apply wrapS_wrapU.
Qed.

(** Two first requests for one method, interleaved. *)
Lemma record_requests_exact_witness :
  exists r2, rtc rec_step (Sys new_registry (RLookup <$> [{| c_method := "/m"; c_latency := 5; c_failed := false |};
      {| c_method := "/m"; c_latency := 7; c_failed := true |}]) 0) r2 /\
    stat CRequests (shared r2) "/m" = 2 /\ stat CErrors (shared r2) "/m" = 1 /\ stat CLatency (shared r2) "/m" = 12.
Proof.
  set (calls := [_; _]).
  assert (reg_ok new_registry) as Hr by (split_and!; [done|done|constructor]).
  assert (exists r2, rtc rec_step (Sys new_registry (RLookup <$> calls) 0) r2 /\
    Forall (fun pc => exists c, pc = RDone c) (threads r2)) as (r2 & Hrun & Hd).
  { eexists. split; [|shelve].
    do 2 (eapply rtc_l; [eapply (sys_step_now _ _ _ 0%nat); reflexivity|eapply rtc_l; [eapply (sys_step_now _ _ _ 1%nat); reflexivity|]]).
    do 2 (eapply rtc_l; [eapply (sys_step_now _ _ _ 1%nat); reflexivity|eapply rtc_l; [eapply (sys_step_now _ _ _ 0%nat); reflexivity|]]).
    eapply rtc_l; [eapply (sys_step_now _ _ _ 1%nat); reflexivity|]. apply rtc_refl.
    Unshelve. repeat constructor; by eexists. }
  exists r2. split; [exact Hrun|].
  rewrite !(record_requests_exact new_registry calls 0 r2 _ _ Hr Hrun Hd). split_and!; reflexivity.
Defined.

(** the debug endpoint controls the breaker.  A POST to a path ending in
    [/circuit/open] makes the breaker refuse every request until its timeout has passed
    since then, one to [/circuit/close] makes it let requests through at once and resets
    its failure count, whoever sends it; an OPTIONS or any other request changes neither the
    breaker nor the balancer. *)
Theorem debug_forces_breaker `{MapIter} (now : Z) (r : debugRegistry) (server : debugServer) (cb : CircuitBreaker)
    (method path : string) :
  debugBreaker server = Some cb ->
  let '(server', reply) := debugHandler now r server method path in
  balancer server' = balancer server /\
  match reply with
  | DebugForcedOpen => exists cb', debugBreaker server' = Some cb' /\
      forall later, now <= later -> later - now < OpenTimeout cb -> later - now < 2 ^ 63 -> snd (Allow later cb') = false
  | DebugForcedClosed => exists cb', debugBreaker server' = Some cb' /\ failures cb' = 0 /\
      forall later, snd (Allow later cb') = true
  | _ => server' = server
  end.
Proof.
  intros Hb. unfold debugHandler. destruct (bool_decide (method = "OPTIONS")); [done|].
  destruct (_ && HasSuffix path "/circuit/open"); [|destruct (_ && HasSuffix path "/circuit/close")]; [..|done].
  - split; [done|]. cbn [on_breaker debugBreaker]. rewrite Hb. eexists. split; [reflexivity|].
    intros later Hl Ht Hw. unfold Allow, ForceOpen. cbn. rewrite (proj2 (Z.leb_gt _ _)); [done|]. unfold Since. lia.
  - split; [done|]. cbn [on_breaker debugBreaker]. rewrite Hb. eexists. by split.
Qed.

Lemma debug_forces_breaker_witness :
  let server := {| balancer := None; balancerTargets := []; debugBreaker := Some (NewCircuitBreaker 5 1000 1) |} in
  exists cb', debugBreaker (fst (debugHandler 10 new_registry server "POST" "/__helix/debug/circuit/open")) = Some cb' /\
    snd (Allow 500 cb') = false.
Proof.
  intros server.
  destruct (debug_forces_breaker 10 new_registry server _ "POST" "/__helix/debug/circuit/open" eq_refl) as (_ & cb' & E & Hr).
  exists cb'. split; [exact E|]. apply Hr; [lia|cbn; lia|lia].
Defined.

(** ** The snapshot lists every method once, in order *)
Lemma insert_string_perm s l : insert_string s l ≡ₚ s :: l.
Proof. induction l as [|t l IH]; [done|]. cbn. destruct (String.leb s t); [done|]. rewrite IH. constructor. Qed.
Lemma sort_strings_perm l : sort_strings l ≡ₚ l.
Proof. induction l as [|s l IH]; [done|]. cbn. by rewrite insert_string_perm, IH. Qed.

Abbreviation string_le := (fun s t => String.leb s t = true).

Lemma insert_string_sorted s l : Sorted string_le l -> Sorted string_le (insert_string s l).
Proof.
  induction 1 as [|t l Hl IH Hd]; [repeat constructor|]. cbn. destruct (String.leb s t) eqn:E; [by repeat constructor|].
  constructor; [done|]. destruct (String.leb_total s t) as [|Hts]; [congruence|].
  destruct Hd as [|u l Hu]; cbn; [by constructor|]. destruct (String.leb s u); by constructor.
Qed.
Lemma sort_strings_sorted l : Sorted string_le (sort_strings l).
Proof. induction l as [|s l IH]; [constructor|]. by apply insert_string_sorted. Qed.

Lemma snapshot_methods `{MapIter} (r : debugRegistry) (server : option debugServer) (m : string) :
  NoDup (ms_Method <$> Methods (buildSnapshot r server)) /\
  (m ∈ ms_Method <$> Methods (buildSnapshot r server) <-> is_Some (counters r !! m)) /\
  (forall s, s ∈ Methods (buildSnapshot r server) -> ms_Requests s = stat CRequests r (ms_Method s) /\
     ms_Errors s = stat CErrors r (ms_Method s) /\ ms_Latency s = stat CLatency r (ms_Method s)).
Proof.
  assert (ms_Method <$> Methods (buildSnapshot r server) = sort_strings (fst <$> range_map 0 (counters r))) as E.
  { cbn [Methods buildSnapshot]. rewrite <- list_fmap_compose. apply list_fmap_id. }
  rewrite E, sort_strings_perm, range_map_perm. split; [apply NoDup_fst_map_to_list|]. split.
  - rewrite list_elem_of_fmap. split.
    + intros ([m' p] & -> & Hp%elem_of_map_to_list). by eexists.
    + intros [p Hp]. exists (m, p). split; [done|]. by apply elem_of_map_to_list.
  - intros s. cbn [Methods buildSnapshot]. intros (m' & -> & _)%list_elem_of_fmap. unfold method_snapshot, stat. cbn.
    by destruct (counters r !! m' ≫= _).
Qed.
