(* ===== verification/Helpers.v ===== *)
(** * Caching, keys, configuration and connection helpers
      ([runtimes/go/cache.go], [crypto/vault.go], [config.go], [db_helpers.go], [ebpf.go])

    Thin layers over clients and system calls, which are parameters: the hash, the
    Memcached client, what a read of Vault returns, the decoder of a configuration file,
    address resolution.  What the layers add is modelled in full. *)
From S2P Require Import Prelude GoStrings.

(** ** Response cache *)
Module Cache.
(** [hex.EncodeToString] *)
Definition hex_char (n : Z) : ascii := ascii_of_nat (Z.to_nat (if n <? 10 then n + 48 else n + 87)).
Fixpoint EncodeToString (b : bytes) : string :=
  match b with
  | [] => ""
  | x :: b' => String (hex_char (byte_to_Z x / 16)) (String (hex_char (byte_to_Z x mod 16)) (EncodeToString b'))
  end.

Section cache.
Context (sha256 : bytes -> bytes).
(** The Memcached client: a state, a read that finds nothing or fails as [None], and a
    write that may fail. *)
Context {client : Type} (mc_Get : client -> string -> option bytes) (mc_Set : client -> string -> bytes -> Z -> client).

Record CacheInterceptor := { ci_client : client; ttl : Z }.
Definition NewCacheInterceptor (c : client) (ttlSeconds : Z) : CacheInterceptor := {| ci_client := c; ttl := ttlSeconds |}.

(** The two writes to the hash are one input. *)
Definition GenerateCacheKey (method : string) (payload : bytes) : string :=
  EncodeToString (sha256 (to_bytes method ++ payload)).
Definition Get (c : CacheInterceptor) (key : string) : option bytes := mc_Get (ci_client c) key.
(** Once the goroutine [Set] starts has run. *)
Definition Set_ (c : CacheInterceptor) (key : string) (payload : bytes) : CacheInterceptor :=
  {| ci_client := mc_Set (ci_client c) key payload (ttl c); ttl := ttl c |}.

(** requests of different methods share cache entries.  Whatever the hash, moving
    bytes from the end of the method name to the start of the payload gives the same key,
    so with a client that returns what was set, the response cached for one method is
    returned for another whose name is a prefix of it. *)
Theorem cache_key_not_separated (c : CacheInterceptor) (method suffix : string) (payload response : bytes) :
  (forall cl k v t, mc_Get (mc_Set cl k v t) k = Some v) ->
  Get (Set_ c (GenerateCacheKey (method +:+ suffix) payload) response)
      (GenerateCacheKey method (to_bytes suffix ++ payload)) = Some response.
Proof using.
  intros Hc. assert (GenerateCacheKey (method +:+ suffix) payload = GenerateCacheKey method (to_bytes suffix ++ payload)) as ->.
  { unfold GenerateCacheKey. by rewrite to_bytes_app, app_assoc. }
  apply Hc.
Qed.
End cache.

(** Requests of one method share an entry only when the hash collides. *)
Lemma hex_char_inj a b : 0 <= a < 16 -> 0 <= b < 16 -> hex_char a = hex_char b -> a = b.
Proof.
  intros Ha Hb. unfold hex_char. intros H%(f_equal nat_of_ascii).
  rewrite !nat_ascii_embedding in H by (repeat case_match; lia). repeat case_match; lia.
Qed.
Lemma EncodeToString_inj b b' : EncodeToString b = EncodeToString b' -> b = b'.
Proof.
  revert b'. induction b as [|x b IH]; intros [|y b']; try done. cbn [EncodeToString]. intros [= H1 H2 H3].
  pose proof (byte_to_Z_range x) as Hx. pose proof (byte_to_Z_range y) as Hy.
  assert (forall z, 0 <= z < 256 -> 0 <= z / 16 < 16) as Hd by (intros z Hz; split; [apply Z.div_pos|apply Z.div_lt_upper_bound]; lia).
  apply hex_char_inj in H1; [|by apply Hd..]. apply hex_char_inj in H2; [|apply Z.mod_pos_bound; lia..].
  f_equal; [|by apply IH]. apply byte_to_Z_inj. rewrite (Z.div_mod (byte_to_Z x) 16), (Z.div_mod (byte_to_Z y) 16) by lia. congruence.
Qed.
Lemma cache_key_same_method sha256 method p p' :
  GenerateCacheKey sha256 method p = GenerateCacheKey sha256 method p' ->
  sha256 (to_bytes method ++ p) = sha256 (to_bytes method ++ p').
Proof. apply EncodeToString_inj. Qed.

Lemma cache_key_not_separated_witness :
  Get (fun cl k => cl !! k) (Set_ (fun cl k v _ => <[k := v]> cl)
      {| ci_client := ∅ : gmap string bytes; ttl := 60 |} (GenerateCacheKey id "/v1.Shop/GetAll" [x01]) [x07])
    (GenerateCacheKey id "/v1.Shop/Get" (to_bytes "All" ++ [x01])) = Some [x07].
Proof.
  apply (cache_key_not_separated id (fun cl k => cl !! k) (fun cl k v _ => <[k := v]> cl)
    {| ci_client := ∅ : gmap string bytes; ttl := 60 |} "/v1.Shop/Get" "All").
  intros cl k v _. apply lookup_insert_eq.
Defined.
End Cache.

(** ** Keys from Vault *)
Module Vault.
(** A field of a secret; only strings are keys. *)
Inductive secret_value := SStr (s : string) | SOther.
Inductive vault_read := VError | VEmpty | VData (data : gmap string secret_value).

(** [stopped]: the stop channel is closed; [exited]: the polling goroutine has seen it. *)
Record HelixVault := { keys : gmap string string; stopped : bool; exited : bool }.
Definition NewHelixVault : HelixVault := {| keys := ∅; stopped := false; exited := false |}.

Definition reloadKeys (r : vault_read) (h : HelixVault) : HelixVault :=
  match r with
  | VError | VEmpty => h
  | VData data => {| keys := omap (fun v => match v with SStr s => Some s | SOther => None end) data;
                    stopped := stopped h; exited := exited h |}
  end.
Definition GetKey (h : HelixVault) (keyName : string) : option string := keys h !! keyName.

(** The events after the start: the goroutine takes a tick and Vault answers, the owner
    calls [StopPolling], or the goroutine takes the stop signal; between the last two it
    may still take ticks.  [None] when [StopPolling] closes a closed channel. *)
Inductive vault_event := Tick (r : vault_read) | StopPolling | LoopExit.
Definition vault_step (h : HelixVault) (e : vault_event) : option HelixVault :=
  match e with
  | Tick r => Some (if exited h then h else reloadKeys r h)
  | StopPolling => if stopped h then None else Some {| keys := keys h; stopped := true; exited := exited h |}
  | LoopExit => Some (if stopped h then {| keys := keys h; stopped := true; exited := true |} else h)
  end.
(** [StartPolling]: a first load, then the events. *)
Definition poll (first : vault_read) (events : list vault_event) : option HelixVault :=
  foldl (fun h e => h ≫= fun h => vault_step h e) (Some (reloadKeys first NewHelixVault)) events.

(** The data of the last successful read. *)
Fixpoint last_data (d : gmap string secret_value) (events : list vault_event) : gmap string secret_value :=
  match events with
  | [] => d
  | Tick (VData d') :: events' => last_data d' events'
  | _ :: events' => last_data d events'
  end.
Definition first_data (r : vault_read) : gmap string secret_value := match r with VData d => d | _ => ∅ end.
Definition strings_of (d : gmap string secret_value) : gmap string string :=
  omap (fun v => match v with SStr s => Some s | SOther => None end) d.

Lemma poll_from h events d : keys h = strings_of d -> stopped h = false -> exited h = false -> StopPolling ∉ events ->
  exists h', foldl (fun h e => h ≫= fun h => vault_step h e) (Some h) events = Some h' /\
    keys h' = strings_of (last_data d events) /\ stopped h' = false.
Proof.
  revert h d. induction events as [|e events IH]; intros h d Hk Hs Hx Hn; [by exists h|]. cbn [foldl mbind option_bind].
  apply not_elem_of_cons in Hn as [He Hn]. destruct e as [r| |]; [|done|]; cbn [vault_step last_data]; rewrite ?Hs, ?Hx; [|by apply IH].
  destruct r as [| |d']; by apply IH.
Qed.

(** the key cache follows Vault.  After any number of polls, a lookup gives exactly
    the string fields of the last secret that could be read: reads that fail or are empty
    keep the keys, and a key that was withdrawn from the secret is gone after the next
    successful read. *)
Theorem vault_keys_current (first : vault_read) (events : list vault_event) (k : string) : StopPolling ∉ events ->
  exists h, poll first events = Some h /\
    GetKey h k = strings_of (last_data (first_data first) events) !! k.
Proof.
  intros Hn. destruct (poll_from (reloadKeys first NewHelixVault) events (first_data first)) as (h & E & Hk & _);
    [by destruct first..|done|].
  exists h. split; [exact E|]. unfold GetKey. by rewrite Hk.
Qed.

Lemma vault_keys_current_witness :
  exists h, poll (VData {[ "a" := SStr "1" ]}) [Tick VError; Tick (VData {[ "b" := SStr "2" ]}); Tick VEmpty] = Some h /\
    GetKey h "a" = None.
Proof.
  destruct (vault_keys_current (VData {[ "a" := SStr "1" ]}) [Tick VError; Tick (VData {[ "b" := SStr "2" ]}); Tick VEmpty] "a") as (h & E & Hk).
  - intros Hin. repeat (apply elem_of_cons in Hin as [Hin|Hin]; [done|]). by apply elem_of_nil in Hin.
  - exists h. split; [exact E|]. rewrite Hk. vm_compute. reflexivity.
Defined.

(** Stopping twice panics. *)
Theorem vault_stop_twice (first : vault_read) (events : list vault_event) :
  StopPolling ∉ events -> poll first (events ++ [StopPolling; StopPolling]) = None.
Proof.
  intros Hn. destruct (poll_from (reloadKeys first NewHelixVault) events (first_data first)) as (h & E & _ & Hs);
    [by destruct first..|done|].
  unfold poll. rewrite foldl_app, E. cbn. by rewrite Hs.
Qed.
End Vault.

(** ** Configuration reload *)
Module ConfigFile.
Section config.
(** [LoadConfig] of a file: [None] when it cannot be read or decoded. *)
Context {Config : Type}.

(** A round of the loop: the modification time [os.Stat] sees, if any, and what
    [LoadConfig] would return. *)
Definition round : Type := option Z * option Config.

(** The configurations handed to [onChange], in order. *)
Fixpoint watch (rounds : list round) (lastMod : option Z) : list Config :=
  match rounds with
  | [] => []
  | (None, _) :: rounds' => watch rounds' lastMod
  | (Some modTime, loaded) :: rounds' =>
      if match lastMod with Some t => t <? modTime | None => true end then
        match loaded with Some cfg => [cfg] | None => [] end ++ watch rounds' (Some modTime)
      else watch rounds' lastMod
  end.
(** [WatchConfig]: the time of the file at the start, if it is there.  The zero time of
    Go is before every file time. *)
Definition WatchConfig (start : option Z) (rounds : list round) : list Config := watch rounds start.

(** A file that is complete only after its time was seen is not loaded: when the first look at a new
    modification time finds a file that does not decode, later looks at the same time do
    not load it again. *)
Theorem config_partial_write_lost (t0 t : Z) (cfg : Config) (n : nat) : t0 < t ->
  WatchConfig (Some t0) ((Some t, None) :: replicate n (Some t, Some cfg)) = [].
Proof using.
  intros Ht. unfold WatchConfig. cbn [watch]. rewrite (proj2 (Z.ltb_lt _ _)) by done. cbn [app].
  induction n as [|n IH]; [done|]. cbn [replicate watch]. by rewrite Z.ltb_irrefl.
Qed.

(** The configurations at which the time grows past every time before. *)
Fixpoint increasing (rounds : list (Z * Config)) (lastMod : Z) : list Config :=
  match rounds with
  | [] => []
  | (t, cfg) :: rounds' => if lastMod <? t then cfg :: increasing rounds' (Z.max lastMod t) else increasing rounds' (Z.max lastMod t)
  end.
(** A change of the configuration is applied once.  As long as every look at a new
    time finds a file that decodes, [onChange] gets exactly the configurations of the
    looks at which the time had grown past every time seen before. *)
Theorem config_applied_once (rounds : list (Z * Config)) (t0 : Z) :
  WatchConfig (Some t0) ((fun r => (Some (fst r), Some (snd r))) <$> rounds) = increasing rounds t0.
Proof using.
  unfold WatchConfig. revert t0. induction rounds as [|[t cfg] rounds IH]; intros t0; [done|]. cbn.
  destruct (Z.ltb_spec t0 t); cbn; rewrite IH; do 2 f_equal; lia.
Qed.
End config.
End ConfigFile.

(** ** Database pool settings *)
Module Database.
Record DBConfig := { MaxOpenConns : Z; MaxIdleConns : Z; ConnMaxLifetime : Z }.
Record pool := { p_open : Z; p_idle : Z; p_lifetime : Z; p_closed : bool }.
Inductive db_error := OpenError | PingError.

(** [opened] and [reachable]: whether [sql.Open] and the ping within five seconds succeed. *)
Definition ConnectDatabase (cfg : DBConfig) (opened reachable : bool) : option pool * option db_error :=
  if negb opened then (None, Some OpenError)
  else
    let db := {| p_open := if 0 <? MaxOpenConns cfg then MaxOpenConns cfg else 100;
                 p_idle := if 0 <? MaxIdleConns cfg then MaxIdleConns cfg else 10;
                 p_lifetime := if 0 <? ConnMaxLifetime cfg then ConnMaxLifetime cfg else 3600000000000;
                 p_closed := false |} in
    if reachable then (Some db, None) else (None, Some PingError).

(** Every pool handed out has positive limits. *)
Lemma pool_limits cfg opened reachable db err : ConnectDatabase cfg opened reachable = (Some db, err) ->
  0 < p_open db /\ 0 < p_idle db /\ 0 < p_lifetime db /\ p_closed db = false /\ err = None.
Proof.
  unfold ConnectDatabase. destruct opened, reachable; cbn; intros [= <- <-]; cbn.
  destruct (Z.ltb_spec 0 (MaxOpenConns cfg)), (Z.ltb_spec 0 (MaxIdleConns cfg)), (Z.ltb_spec 0 (ConnMaxLifetime cfg)); repeat split; lia.
Qed.
End Database.

(** ** Socket bypass *)
Module Ebpf.
Inductive bpf_error := NonLinux | NotRoot | BadAddress | NotLocal.

(** [goos], [uid]: the platform; [resolved]: the address, whether it is loopback and its
    text, when it resolves. *)
Definition LoadBpfSockmap (goos : string) (uid : Z) (resolved : option (bool * string)) : option bpf_error :=
  if negb (bool_decide (goos = "linux")) then Some NonLinux
  else if negb (uid =? 0) then Some NotRoot
  else match resolved with
       | None => Some BadAddress
       | Some (loopback, ip) =>
           if negb loopback && negb (bool_decide (ip = "127.0.0.1")) && negb (bool_decide (ip = "::1")) then Some NotLocal else None
       end.

Definition hasUnixPrefix (addr : string) : bool :=
  (7 <=? String.length addr)%nat && bool_decide (str_take 7 addr = "unix://").
Definition stripUnixPrefix (addr : string) : string := if hasUnixPrefix addr then str_drop 7 addr else addr.

Lemma strip_unix path : stripUnixPrefix ("unix://" +:+ path) = path.
Proof. unfold stripUnixPrefix, hasUnixPrefix. cbn. by destruct path. Qed.
End Ebpf.
