(* ===== verification/Config.v ===== *)
(** * The configuration file ([runtimes/go/config.go])

    [LoadConfig] reads the file and decodes it with [encoding/json] into the struct: the
    text must be one JSON value; members are matched to the struct's keys ignoring case
    (on ASCII letters), unknown members are skipped, [null] leaves a field as it is, and a
    value of the wrong type is an error.  The reload loop is in [Helpers.ConfigFile]. *)
From S2P Require Import Prelude GoStrings GoFloat GoText Lexer GoFiles Json Scaffold Helpers.
From Stdlib Require Import Floats.SpecFloat.

Record Config := {
  Host : string;
  Port : Z;
  DisableMetrics : bool;
  DisableHealth : bool;
  DisableGzip : bool;
  DisableDeadline : bool;
  RateLimitRate : f64;
  RateLimitBurst : Z;
  EnableJWTAuth : bool;
  JWTSecret : string;
  EnableApiKeyAuth : bool;
  ApiKey : string
}.

(** [var cfg Config] *)
Definition zero_config : Config := {|
  Host := ""; Port := 0; DisableMetrics := false; DisableHealth := false; DisableGzip := false; DisableDeadline := false; RateLimitRate := S754_zero false; RateLimitBurst := 0; EnableJWTAuth := false; JWTSecret := ""; EnableApiKeyAuth := false; ApiKey := "" |}.

(** ** Numbers *)

(** [n * 10^e] rounded to the nearest float, ties to even. *)
Definition f64_decimal (n : positive) (e : Z) : f64 :=
  if 0 <=? e then binary_normalize 53 1024 (Z.pos n * 10 ^ e) 0 false
  else SFdiv 53 1024 (S754_finite false n 0) (S754_finite false (Z.to_pos (10 ^ (- e))) 0).

Fixpoint digits_value (acc : Z) (s : string) : Z :=
  match s with "" => acc | String c s' => digits_value (acc * 10 + default 0 (digit_val c)) s' end.

(** The exponent part: its value, or 0 when there is none. *)
Definition exp_value (s : string) : Z :=
  match s with
  | "" => 0
  | String _ s' => let '(neg, digits) := strip_sign s' in if neg then - digits_value 0 digits else digits_value 0 digits
  end.

(** [strconv.ParseFloat(lit, 64)] of a JSON number; [None] is a range error. *)
Definition ParseFloat (lit : string) : option f64 :=
  let '(neg, s) := match lit with String c s' => if Ascii.eqb c "-" then (true, s') else (false, lit) | "" => (false, "") end in
  let '(ip, rest) := span is_digit s in
  let '(fp, rest) := match rest with
                     | String c s' => if Ascii.eqb c "." then span is_digit s' else ("", rest)
                     | "" => ("", "")
                     end in
  let x := match digits_value 0 (ip +:+ fp) with
           | Z.pos n => f64_decimal n (exp_value rest - Z.of_nat (String.length fp))
           | _ => S754_zero false
           end in
  match x with
  | S754_infinity _ | S754_nan => None
  | _ => Some (if neg then SFopp x else x)
  end.

(** ** Decoding *)
Inductive config_error := ReadError (e : os_error) | SyntaxError | UnmarshalTypeError.

Inductive cfield := FHost | FPort | FDisableMetrics | FDisableHealth | FDisableGzip | FDisableDeadline | FRateLimitRate | FRateLimitBurst | FEnableJWTAuth | FJWTSecret | FEnableApiKeyAuth | FApiKey.
#[export] Instance cfield_eq_dec : EqDecision cfield.
Proof. solve_decision. Defined.
Definition cfields : list cfield :=
  [FHost; FPort; FDisableMetrics; FDisableHealth; FDisableGzip; FDisableDeadline; FRateLimitRate; FRateLimitBurst; FEnableJWTAuth; FJWTSecret; FEnableApiKeyAuth; FApiKey].
(** The key of a field, from its struct tag. *)
Definition cfield_key (f : cfield) : string :=
  match f with
  | FHost => "host"
  | FPort => "port"
  | FDisableMetrics => "disable_metrics"
  | FDisableHealth => "disable_health"
  | FDisableGzip => "disable_gzip"
  | FDisableDeadline => "disable_deadline"
  | FRateLimitRate => "rate_limit_rate"
  | FRateLimitBurst => "rate_limit_burst"
  | FEnableJWTAuth => "enable_jwt_auth"
  | FJWTSecret => "jwt_secret"
  | FEnableApiKeyAuth => "enable_api_key_auth"
  | FApiKey => "api_key"
  end.

Definition field_of (key : string) : option cfield := List.find (fun f => EqualFold key (cfield_key f)) cfields.

Inductive ctype := CString | CBool | CInt | CFloat.
Definition cfield_type (f : cfield) : ctype :=
  match f with
  | FHost | FJWTSecret | FApiKey => CString
  | FDisableMetrics | FDisableHealth | FDisableGzip | FDisableDeadline | FEnableJWTAuth | FEnableApiKeyAuth => CBool
  | FPort | FRateLimitBurst => CInt
  | FRateLimitRate => CFloat
  end.

(** A decoded value; [Keep] is what [null] does. *)
Inductive cvalue := CStr (s : string) | CBit (b : bool) | CNum (z : Z) | CReal (x : f64) | Keep.

(** The value for a field of a type; [None] is a value of another type. *)
Definition decode_value (t : ctype) (v : jvalue) : option cvalue :=
  match t, v with
  | _, VNull => Some Keep
  | CString, VString s => Some (CStr s)
  | CBool, VBool b => Some (CBit b)
  | CInt, VNum lit => match ParseInt lit with (z, None) => Some (CNum z) | _ => None end
  | CFloat, VNum lit => match ParseFloat lit with Some x => Some (CReal x) | None => None end
  | _, _ => None
  end.

Definition set_field (f : cfield) (v : cvalue) (c : Config) : Config :=
  match f, v with
  | FHost, CStr v => {| Host := v; Port := Port c; DisableMetrics := DisableMetrics c; DisableHealth := DisableHealth c; DisableGzip := DisableGzip c; DisableDeadline := DisableDeadline c; RateLimitRate := RateLimitRate c; RateLimitBurst := RateLimitBurst c; EnableJWTAuth := EnableJWTAuth c; JWTSecret := JWTSecret c; EnableApiKeyAuth := EnableApiKeyAuth c; ApiKey := ApiKey c |}
  | FPort, CNum v => {| Host := Host c; Port := v; DisableMetrics := DisableMetrics c; DisableHealth := DisableHealth c; DisableGzip := DisableGzip c; DisableDeadline := DisableDeadline c; RateLimitRate := RateLimitRate c; RateLimitBurst := RateLimitBurst c; EnableJWTAuth := EnableJWTAuth c; JWTSecret := JWTSecret c; EnableApiKeyAuth := EnableApiKeyAuth c; ApiKey := ApiKey c |}
  | FDisableMetrics, CBit v => {| Host := Host c; Port := Port c; DisableMetrics := v; DisableHealth := DisableHealth c; DisableGzip := DisableGzip c; DisableDeadline := DisableDeadline c; RateLimitRate := RateLimitRate c; RateLimitBurst := RateLimitBurst c; EnableJWTAuth := EnableJWTAuth c; JWTSecret := JWTSecret c; EnableApiKeyAuth := EnableApiKeyAuth c; ApiKey := ApiKey c |}
  | FDisableHealth, CBit v => {| Host := Host c; Port := Port c; DisableMetrics := DisableMetrics c; DisableHealth := v; DisableGzip := DisableGzip c; DisableDeadline := DisableDeadline c; RateLimitRate := RateLimitRate c; RateLimitBurst := RateLimitBurst c; EnableJWTAuth := EnableJWTAuth c; JWTSecret := JWTSecret c; EnableApiKeyAuth := EnableApiKeyAuth c; ApiKey := ApiKey c |}
  | FDisableGzip, CBit v => {| Host := Host c; Port := Port c; DisableMetrics := DisableMetrics c; DisableHealth := DisableHealth c; DisableGzip := v; DisableDeadline := DisableDeadline c; RateLimitRate := RateLimitRate c; RateLimitBurst := RateLimitBurst c; EnableJWTAuth := EnableJWTAuth c; JWTSecret := JWTSecret c; EnableApiKeyAuth := EnableApiKeyAuth c; ApiKey := ApiKey c |}
  | FDisableDeadline, CBit v => {| Host := Host c; Port := Port c; DisableMetrics := DisableMetrics c; DisableHealth := DisableHealth c; DisableGzip := DisableGzip c; DisableDeadline := v; RateLimitRate := RateLimitRate c; RateLimitBurst := RateLimitBurst c; EnableJWTAuth := EnableJWTAuth c; JWTSecret := JWTSecret c; EnableApiKeyAuth := EnableApiKeyAuth c; ApiKey := ApiKey c |}
  | FRateLimitRate, CReal v => {| Host := Host c; Port := Port c; DisableMetrics := DisableMetrics c; DisableHealth := DisableHealth c; DisableGzip := DisableGzip c; DisableDeadline := DisableDeadline c; RateLimitRate := v; RateLimitBurst := RateLimitBurst c; EnableJWTAuth := EnableJWTAuth c; JWTSecret := JWTSecret c; EnableApiKeyAuth := EnableApiKeyAuth c; ApiKey := ApiKey c |}
  | FRateLimitBurst, CNum v => {| Host := Host c; Port := Port c; DisableMetrics := DisableMetrics c; DisableHealth := DisableHealth c; DisableGzip := DisableGzip c; DisableDeadline := DisableDeadline c; RateLimitRate := RateLimitRate c; RateLimitBurst := v; EnableJWTAuth := EnableJWTAuth c; JWTSecret := JWTSecret c; EnableApiKeyAuth := EnableApiKeyAuth c; ApiKey := ApiKey c |}
  | FEnableJWTAuth, CBit v => {| Host := Host c; Port := Port c; DisableMetrics := DisableMetrics c; DisableHealth := DisableHealth c; DisableGzip := DisableGzip c; DisableDeadline := DisableDeadline c; RateLimitRate := RateLimitRate c; RateLimitBurst := RateLimitBurst c; EnableJWTAuth := v; JWTSecret := JWTSecret c; EnableApiKeyAuth := EnableApiKeyAuth c; ApiKey := ApiKey c |}
  | FJWTSecret, CStr v => {| Host := Host c; Port := Port c; DisableMetrics := DisableMetrics c; DisableHealth := DisableHealth c; DisableGzip := DisableGzip c; DisableDeadline := DisableDeadline c; RateLimitRate := RateLimitRate c; RateLimitBurst := RateLimitBurst c; EnableJWTAuth := EnableJWTAuth c; JWTSecret := v; EnableApiKeyAuth := EnableApiKeyAuth c; ApiKey := ApiKey c |}
  | FEnableApiKeyAuth, CBit v => {| Host := Host c; Port := Port c; DisableMetrics := DisableMetrics c; DisableHealth := DisableHealth c; DisableGzip := DisableGzip c; DisableDeadline := DisableDeadline c; RateLimitRate := RateLimitRate c; RateLimitBurst := RateLimitBurst c; EnableJWTAuth := EnableJWTAuth c; JWTSecret := JWTSecret c; EnableApiKeyAuth := v; ApiKey := ApiKey c |}
  | FApiKey, CStr v => {| Host := Host c; Port := Port c; DisableMetrics := DisableMetrics c; DisableHealth := DisableHealth c; DisableGzip := DisableGzip c; DisableDeadline := DisableDeadline c; RateLimitRate := RateLimitRate c; RateLimitBurst := RateLimitBurst c; EnableJWTAuth := EnableJWTAuth c; JWTSecret := JWTSecret c; EnableApiKeyAuth := EnableApiKeyAuth c; ApiKey := v |}
  | _, _ => c
  end.

(** The members in order; after an error decoding goes on, and the first error is
    returned at the end. *)
Definition member (acc : Config * bool) (kv : string * jvalue) : Config * bool :=
  let '(c, failed) := acc in
  match field_of (fst kv) with
  | None => (c, failed)
  | Some f =>
      match decode_value (cfield_type f) (snd kv) with Some v => (set_field f v c, failed) | None => (c, true) end
  end.

Definition json_Unmarshal_config (data : string) (c : Config) : res config_error Config :=
  match parse_json data with
  | None => Err SyntaxError
  | Some VNull => Ok c
  | Some (VObj m) => let '(c, failed) := foldl member (c, false) m in if failed then Err UnmarshalTypeError else Ok c
  | Some _ => Err UnmarshalTypeError
  end.

Definition LoadConfig (fs : fsys) (path : string) : res config_error Config :=
  match ReadFile fs path with
  | Err e => Err (ReadError e)
  | Ok data => json_Unmarshal_config data zero_config
  end.

(** ** Lemmas *)
Lemma set_field_comm f1 f2 v1 v2 c : f1 <> f2 -> set_field f1 v1 (set_field f2 v2 c) = set_field f2 v2 (set_field f1 v1 c).
Proof. intros Hne. destruct f1, v1; try done; destruct f2, v2; done. Qed.

(** Members of different fields can be stored in either order. *)
Lemma member_comm acc kv1 kv2 :
  (forall f, field_of (fst kv1) = Some f -> field_of (fst kv2) = Some f -> False) ->
  member (member acc kv1) kv2 = member (member acc kv2) kv1.
Proof.
  intros Hne. unfold member. destruct acc as [c failed].
  destruct (field_of (fst kv1)) as [f1|] eqn:E1, (field_of (fst kv2)) as [f2|] eqn:E2; rewrite ?E1, ?E2;
    repeat match goal with |- context [match decode_value ?t ?v with _ => _ end] => destruct (decode_value t v) eqn:? end;
    rewrite ?E1, ?E2; repeat case_match; simplify_eq; try done.
  rewrite set_field_comm; [done|]. intros Hf. apply (Hne f1); congruence.
Qed.

(** The members of an object, one per field. *)
Definition distinct_fields (m : list (string * jvalue)) : Prop :=
  forall i j kv1 kv2 f, i <> j -> m !! i = Some kv1 -> m !! j = Some kv2 ->
    field_of (fst kv1) = Some f -> field_of (fst kv2) = Some f -> False.

Lemma member_perm acc m m' : distinct_fields m -> m ≡ₚ m' -> foldl member acc m = foldl member acc m'.
Proof.
  intros Hd Hp.
  assert (forall l, foldl member acc l = foldr (flip member) acc (reverse l)) as Hrev.
  { intros l. induction l as [|kv l IH] using rev_ind; [done|]. rewrite foldl_app, reverse_app. cbn. by rewrite IH. }
  rewrite !Hrev. refine (foldr_permutation (=) (flip member) acc (reverse m) (reverse m') _ _);
    [|by rewrite (reverse_Permutation m), (reverse_Permutation m')].
  intros j1 kv1 j2 kv2 b Hj H1 H2. unfold flip. apply member_comm. intros f Hf2 Hf1.
  pose proof (lookup_lt_Some _ _ _ H1) as L1. pose proof (lookup_lt_Some _ _ _ H2) as L2. rewrite length_reverse in L1, L2.
  rewrite reverse_lookup in H1, H2 by done. eapply (Hd _ _ kv1 kv2 f); [|exact H1|exact H2|done|done]. lia.
Qed.

(** The file of a configuration under the documented keys, the rate as a given literal. *)
Definition config_members (c : Config) (rate : string) : list (string * jvalue) := [
  ("host", VString (Host c)); ("port", VNum (Itoa (Port c)));
  ("disable_metrics", VBool (DisableMetrics c)); ("disable_health", VBool (DisableHealth c));
  ("disable_gzip", VBool (DisableGzip c)); ("disable_deadline", VBool (DisableDeadline c));
  ("rate_limit_rate", VNum rate); ("rate_limit_burst", VNum (Itoa (RateLimitBurst c)));
  ("enable_jwt_auth", VBool (EnableJWTAuth c)); ("jwt_secret", VString (JWTSecret c));
  ("enable_api_key_auth", VBool (EnableApiKeyAuth c)); ("api_key", VString (ApiKey c)) ].
Definition config_keys : list string :=
  ["host"; "port"; "disable_metrics"; "disable_health"; "disable_gzip"; "disable_deadline"; "rate_limit_rate"; "rate_limit_burst";
   "enable_jwt_auth"; "jwt_secret"; "enable_api_key_auth"; "api_key"].
Definition unknown_key (key : string) : Prop := Forall (fun k => EqualFold key k = false) config_keys.

(** The same by the fields of the struct. *)
Definition config_value (c : Config) (rate : string) (f : cfield) : jvalue :=
  match f with
  | FHost => VString (Host c)
  | FPort => VNum (Itoa (Port c))
  | FDisableMetrics => VBool (DisableMetrics c)
  | FDisableHealth => VBool (DisableHealth c)
  | FDisableGzip => VBool (DisableGzip c)
  | FDisableDeadline => VBool (DisableDeadline c)
  | FRateLimitRate => VNum rate
  | FRateLimitBurst => VNum (Itoa (RateLimitBurst c))
  | FEnableJWTAuth => VBool (EnableJWTAuth c)
  | FJWTSecret => VString (JWTSecret c)
  | FEnableApiKeyAuth => VBool (EnableApiKeyAuth c)
  | FApiKey => VString (ApiKey c)
  end.
Lemma config_members_fields c rate : config_members c rate = (fun f => (cfield_key f, config_value c rate f)) <$> cfields.
Proof. reflexivity. Qed.

Record config_ok (c : Config) (rate : string) : Prop := {
  co_host : ascii_text (Host c) = true;
  co_port : in_s 64 (Port c);
  co_rate : printable (VNum rate) = true /\ ParseFloat rate = Some (RateLimitRate c);
  co_burst : in_s 64 (RateLimitBurst c);
  co_secret : ascii_text (JWTSecret c) = true;
  co_key : ascii_text (ApiKey c) = true
}.

Lemma field_of_key f : field_of (cfield_key f) = Some f.
Proof. by destruct f. Qed.

Lemma unknown_field key : unknown_key key -> field_of key = None.
Proof.
  intros Hk. destruct (field_of key) as [f|] eqn:E; [|done]. apply List.find_some in E as [_ E]. unfold unknown_key in Hk.
  rewrite Forall_forall in Hk. rewrite Hk in E; [done|]. destruct f; unfold config_keys; cbn [cfield_key]; set_solver.
Qed.

Lemma member_key c b f v : member (c, b) (cfield_key f, v) =
  match decode_value (cfield_type f) v with Some v => (set_field f v c, b) | None => (c, true) end.
Proof. unfold member. cbn [fst snd]. by rewrite field_of_key. Qed.

Lemma members_load c rate : config_ok c rate -> foldl member (zero_config, false) (config_members c rate) = (c, false).
Proof.
  intros [H1 H2 [H3 H3'] H4 H5 H6]. rewrite config_members_fields. unfold cfields. cbn [fmap list_fmap foldl].
  repeat (rewrite member_key; cbn [cfield_type config_value decode_value]; rewrite ?ParseInt_Itoa, ?H3' by done).
  destruct c. reflexivity.
Qed.

Lemma config_printable c rate : config_ok c rate -> printable (VObj (config_members c rate)) = true.
Proof.
  intros [H1 H2 [H3 H3'] H4 H5 H6]. rewrite config_members_fields. cbn [printable]. apply forallb_True_iff. intros kv Hin.
  apply list_elem_of_fmap in Hin as (f & -> & _). cbn [fst snd]. apply andb_true_iff. split; [by destruct f|].
  destruct f; cbn [config_value]; apply number_Itoa || done.
Qed.

Lemma distinct_members c rate extra : Forall (fun kv => field_of (fst kv) = None) extra ->
  distinct_fields (config_members c rate ++ extra).
Proof.
  intros Hx i j kv1 kv2 f Hne H1 H2 E1 E2.
  assert (forall i kv, (config_members c rate ++ extra) !! i = Some kv -> field_of (fst kv) = Some f -> cfields !! i = Some f) as Hi.
  { intros k kv Hk E. apply lookup_app_Some in Hk as [Hk|[_ Hk]].
    - rewrite config_members_fields, list_lookup_fmap in Hk. destruct (cfields !! k) as [g|]; [|done].
      cbn in Hk. injection Hk as <-. cbn [fst] in E. rewrite field_of_key in E. congruence.
    - rewrite Forall_forall in Hx. rewrite (Hx kv) in E; [done|]. by eapply list_elem_of_lookup_2. }
  apply Hne. apply (NoDup_lookup cfields i j f); [|by eapply Hi|by eapply Hi].
  apply (bool_decide_unpack _). vm_compute. exact I.
Qed.

(** ** Properties *)

(** C40: a configuration file is read as the configuration it spells out under the
    documented keys ([config_members]: "host", "port" and so on).  The members may
    stand in any order, between members whose keys are none of these in any case, and the
    text may be compact or indented; [LoadConfig] gives exactly the configuration, for every host, secret and key
    in ASCII, all 64-bit integers and every rate with its decimal text. *)
Theorem config_file_roundtrip (fs : fsys) (path rate : string) (c : Config) (extra m : list (string * jvalue)) (indented : bool) :
  config_ok c rate -> Forall (fun kv => unknown_key (fst kv)) extra -> printable (VObj extra) = true ->
  m ≡ₚ config_members c rate ++ extra ->
  ReadFile fs path = Ok ((if indented then marshal_indent else marshal_compact) (VObj m)) ->
  LoadConfig fs path = Ok c.
Proof.
  intros Hc Hu Hp Hm Hr.
  assert (Forall (fun kv => field_of (fst kv) = None) extra) as Hx by (eapply Forall_impl; [exact Hu|intros kv; apply unknown_field]).
  unfold LoadConfig. rewrite Hr. unfold json_Unmarshal_config.
  assert (printable (VObj m) = true) as Hpm.
  { pose proof (config_printable c rate Hc) as Hq. cbn [printable] in *. rewrite forallb_True_iff in *.
    intros kv Hkv. rewrite Hm, elem_of_app in Hkv. naive_solver. }
  assert (parse_json ((if indented then marshal_indent else marshal_compact) (VObj m)) = Some (VObj m)) as ->.
  { destruct indented; [by apply parse_indent|by apply parse_compact]. }
  rewrite <- (member_perm _ _ m (distinct_members c rate extra Hx) (symmetry Hm)).
  rewrite foldl_app, members_load by done.
  assert (foldl member (c, false) extra = (c, false)) as ->; [|done].
  clear -Hx. induction Hx as [|kv extra Hkv _ IH]; [done|]. cbn [foldl]. unfold member at 2. by rewrite Hkv.
Qed.

(** A member of a known key with a value of another type makes the whole file fail,
    wherever it stands; nothing of it is applied. *)
Lemma member_failed m c : snd (foldl member (c, true) m) = true.
Proof.
  revert c. induction m as [|kv m IH]; intros c; [done|]. cbn [foldl]. unfold member at 2.
  destruct (field_of _); [|apply IH]. destruct (decode_value _ _); apply IH.
Qed.
Theorem config_wrong_type (before after : list (string * jvalue)) (k : string) (v : jvalue) (f : cfield) (c : Config) :
  printable (VObj (before ++ (k, v) :: after)) = true -> field_of k = Some f -> decode_value (cfield_type f) v = None ->
  json_Unmarshal_config (marshal_compact (VObj (before ++ (k, v) :: after))) c = Err UnmarshalTypeError.
Proof.
  intros Hp Hk Hv. unfold json_Unmarshal_config. rewrite parse_compact by done.
  rewrite foldl_app. cbn [foldl]. destruct (foldl member (c, false) before) as [c1 b1].
  unfold member at 2. cbn [fst snd]. rewrite Hk, Hv. pose proof (member_failed after c1) as Hf.
  destruct (foldl member (c1, true) after) as [c2 b2]. cbn in Hf. by subst.
Qed.

(** The file [init] writes is read as the options it was given. *)
Theorem scaffolded_config_loads (m h g d : bool) :
  json_Unmarshal_config (helix_json m h g d) zero_config = Ok {|
    Host := "127.0.0.1"; Port := 8080; DisableMetrics := m; DisableHealth := h; DisableGzip := g; DisableDeadline := d;
    RateLimitRate := f64_of_Z 100; RateLimitBurst := 10; EnableJWTAuth := false; JWTSecret := "default-secret-key";
    EnableApiKeyAuth := false; ApiKey := "default-api-key" |}.
Proof. destruct m, h, g, d; vm_compute; reflexivity. Qed.

(** *** A concrete file *)
Definition sample_config : Config := {|
  Host := "0.0.0.0"; Port := 9000; DisableMetrics := true; DisableHealth := false; DisableGzip := false; DisableDeadline := true;
  RateLimitRate := f64_const 5 2; RateLimitBurst := 20; EnableJWTAuth := true; JWTSecret := "a<b"; EnableApiKeyAuth := false;
  ApiKey := "" |}.
Definition sample_members : list (string * jvalue) :=
  ("comment", VArr [VNull; VNum "-1e3"]) :: reverse (config_members sample_config "2.5").
Definition sample_fs : fsys := {|
  cwd := ["srv"]; files := {[["srv"; "helix.json"] := marshal_indent (VObj sample_members)]}; dirs := {[["srv"]]};
  no_read := fun _ => false; no_write := fun _ => false; short_write := fun _ _ => None |}.

Lemma config_file_roundtrip_witness : LoadConfig sample_fs "helix.json" = Ok sample_config.
Proof.
  apply (config_file_roundtrip sample_fs "helix.json" "2.5" sample_config [("comment", VArr [VNull; VNum "-1e3"])] sample_members true).
  - by constructor.
  - constructor; [by repeat constructor|constructor].
  - reflexivity.
  - unfold sample_members. rewrite reverse_Permutation. apply Permutation_cons_append.
  - vm_compute. reflexivity.
Defined.

Lemma config_wrong_type_witness :
  json_Unmarshal_config (marshal_compact (VObj [("host", VString "h"); ("Port", VString "80")])) zero_config = Err UnmarshalTypeError.
Proof. apply (config_wrong_type [("host", VString "h")] [] "Port" (VString "80") FPort); reflexivity. Defined.
