(* ===== verification/Messaging.v ===== *)
(** * Messaging and edge integrations ([runtimes/go/rabbitmq.go], [runtimes/go/crypto/kms.go],
    [integrations/kafka-bridge/main.go], [integrations/kong-plugin/main.go])

    The clients of the broker, of the key service and of the gateway are parameters: what
    they answer is an input, what is asked of them is recorded. *)
From S2P Require Import Prelude GoStrings GoFloat Errors GoText Json Config.

(** ** The RabbitMQ sink *)
Module Rabbit.
Inductive call :=
| Dial (uri : string)
| OpenChannel
| ExchangeDeclare (name kind : string) (durable autoDelete internal noWait : bool)
| Publish (exchange key : string) (mandatory immediate : bool) (contentType : string) (persistent : bool) (body : bytes)
| CloseChannel
| CloseConn.

(** The answers of the broker to the three calls of the constructor. *)
Record answers := { a_dial : option error; a_channel : option error; a_declare : option error }.

(** The pointers of a sink are nil in a zero value. *)
Record RabbitMQAsyncSink := { conn : bool; channel : bool; exchange : string }.

Definition NewRabbitMQAsyncSink (amqpURI exchange : string) (a : answers) : list call * res error RabbitMQAsyncSink :=
  match a_dial a with
  | Some e => ([Dial amqpURI], Err (WrapError "failed to connect to RabbitMQ: " e))
  | None =>
      match a_channel a with
      | Some e => ([Dial amqpURI; OpenChannel; CloseConn], Err (WrapError "failed to open a channel: " e))
      | None =>
          let calls := [Dial amqpURI; OpenChannel; ExchangeDeclare exchange "topic" true false false false] in
          match a_declare a with
          | Some e => (calls ++ [CloseChannel; CloseConn], Err (WrapError "failed to declare an exchange: " e))
          | None => (calls, Ok {| conn := true; channel := true; exchange := exchange |})
          end
      end
  end.

(** [published] is the client's answer. *)
Definition PublishAsync (s : RabbitMQAsyncSink) (routingKey : string) (payload : bytes) (published : option error)
  : list call * option error :=
  ([Publish (exchange s) routingKey false false "application/octet-stream" true payload], published).

Definition Close (s : RabbitMQAsyncSink) (closed : option error) : list call * option error :=
  let calls := if channel s then [CloseChannel] else [] in
  if conn s then (calls ++ [CloseConn], closed) else (calls, None).

(** Connections and channels that the calls opened and did not close. *)
Definition opens (a : answers) (c : call) : Z :=
  match c with
  | Dial _ => match a_dial a with None => 1 | _ => 0 end
  | OpenChannel => match a_channel a with None => 1 | _ => 0 end
  | CloseChannel | CloseConn => -1
  | _ => 0
  end.
Definition open_resources (a : answers) (calls : list call) : Z := foldr (fun c n => opens a c + n) 0 calls.

(** no connection leaks.  A constructor that fails has closed everything it opened and
    returns the wrapped error of the failing call; one that succeeds holds a connection
    and a channel on a declared durable topic exchange, which [Close] releases both. *)
Theorem sink_no_leak (uri ex : string) (a : answers) (closed : option error) :
  let '(calls, result) := NewRabbitMQAsyncSink uri ex a in
  match result with
  | Err e => open_resources a calls = 0 /\
      exists p e', e = WrapError p e' /\ (a_dial a = Some e' \/ a_channel a = Some e' \/ a_declare a = Some e')
  | Ok s => open_resources a calls = 2 /\ ExchangeDeclare ex "topic" true false false false ∈ calls /\
      open_resources a (calls ++ fst (Close s closed)) = 0 /\ snd (Close s closed) = closed /\
      forall key body err, PublishAsync s key body err = ([Publish ex key false false "application/octet-stream" true body], err)
  end.
Proof.
  unfold NewRabbitMQAsyncSink. destruct (a_dial a) as [e|] eqn:Ed; cbn.
  { rewrite Ed. split; [done|]. eexists _, _. eauto. }
  destruct (a_channel a) as [e|] eqn:Ec; cbn.
  { rewrite Ed, Ec. split; [done|]. eexists _, _. eauto. }
  destruct (a_declare a) as [e|] eqn:Ex; cbn; rewrite Ed, Ec.
  { split; [done|]. eexists _, _. eauto. }
  split; [done|]. split; [set_solver|]. done.
Qed.
End Rabbit.

(** ** Envelope encryption with the key service *)
Module Kms.
Section kms.
(** [client.Encrypt] and [client.Decrypt] with a key id. *)
Context (Encrypt Decrypt : string -> bytes -> res error bytes).

Record HelixKMS := { keyID : string }.
Definition NewHelixKMS (keyID : string) : HelixKMS := {| keyID := keyID |}.
Definition EncryptPayload (h : HelixKMS) (payload : bytes) : res error bytes := Encrypt (keyID h) payload.
Definition DecryptPayload (h : HelixKMS) (ciphertext : bytes) : res error bytes := Decrypt (keyID h) ciphertext.
End kms.
End Kms.

(** ** The Kong plugin *)
Module Kong.
Record Config := { EnableJWT : bool; JWTSecret : string; RateLimitRate : f64; RateLimitBurst : Z; EnableTelemetry : bool }.
Definition New : Config :=
  {| EnableJWT := false; JWTSecret := ""; RateLimitRate := f64_of_Z 0; RateLimitBurst := 0; EnableTelemetry := false |}.

Inductive action := SetHeader (key value : string) | Exit (status : Z) (body : string) (headers : list (string * list string)).

(** [header] is what [GetHeader] answers; [Access] as the actions on the response. *)
Definition Access (conf : Config) (header : string -> res error string) : list action :=
  let upgrade := match header "upgrade" with
                 | Ok v => if bool_decide (v = "websocket") then [SetHeader "x-helix-edge-protocol" "websocket"] else []
                 | Err _ => [] end in
  let protocol := match header "content-type" with
                  | Ok v =>
                      if bool_decide (v = "application/grpc") then [SetHeader "x-helix-edge-protocol" "grpc"]
                      else if bool_decide (v = "application/x-flatbuffers") then [SetHeader "x-helix-edge-protocol" "flatbuffers"]
                      else if bool_decide (v = "application/json") then [SetHeader "x-helix-edge-protocol" "json"] else []
                  | Err _ => [] end in
  let telemetry := if EnableTelemetry conf then [SetHeader "x-helix-edge-telemetry" "enabled"] else [] in
  let refused := EnableJWT conf &&
    match header "authorization" with Ok v => bool_decide (v = "") | Err _ => true end in
  upgrade ++ protocol ++ if refused then [Exit 401 "Unauthorized: Missing JWT" [("Content-Type", ["text/plain"])]] else telemetry.

Definition exits (a : action) : bool := match a with Exit _ _ _ => true | _ => false end.

(** the plugin refuses exactly requests without an authorization header, and only when
    it is told to; a refusal is the last thing it does. *)
Theorem access_refuses (conf : Config) (header : string -> res error string) :
  (existsb exits (Access conf header) = true <->
   EnableJWT conf = true /\ forall v, header "authorization" = Ok v -> v = "") /\
  forall pre a post, Access conf header = pre ++ a :: post -> exits a = true -> post = [].
Proof.
  assert (exists pre, Forall (fun a => exits a = false) pre /\ Access conf header = pre ++
    (if EnableJWT conf && match header "authorization" with Ok v => bool_decide (v = "") | Err _ => true end
     then [Exit 401 "Unauthorized: Missing JWT" [("Content-Type", ["text/plain"])]] else if EnableTelemetry conf then [SetHeader "x-helix-edge-telemetry" "enabled"] else []))
    as (pre & Hpre & ->).
  { unfold Access. rewrite app_assoc. eexists. split; [|reflexivity]. apply Forall_app.
    split; repeat case_match; repeat constructor. }
  assert (existsb exits pre = false) as Hn by (induction Hpre as [|a l Ha _ IH]; [done|]; cbn; by rewrite Ha).
  rewrite existsb_app, Hn. cbn [orb]. split.
  - destruct (EnableJWT conf); cbn [andb]; [|destruct (EnableTelemetry conf); cbn; naive_solver].
    destruct (header "authorization") as [v|e]; [case_bool_decide|]; cbn; [naive_solver| |naive_solver].
    destruct (EnableTelemetry conf); cbn; naive_solver.
  - intros p a post E Ha.
    assert (forall l, Forall (fun a => exits a = false) l -> forall t, l ++ t = p ++ a :: post -> exists p', t = p' ++ a :: post) as Hskip.
    { clear -Ha. intros l Hl. revert p. induction Hl as [|x l Hx Hl IH]; intros p t E; [by exists p|].
      destruct p as [|y p]; injection E as -> E; [congruence|]. by apply (IH p). }
    destruct (Hskip pre Hpre _ E) as [p' E']. apply (f_equal length) in E'. rewrite length_app in E'. cbn [length] in E'.
    destruct post; [done|]. cbn [length] in E'. repeat case_match; cbn [length] in E'; lia.
Qed.

(** neither the secret nor the limits are used: any non-empty authorization header
    passes, whatever the configuration. *)
Theorem access_ignores_secret (conf : Config) (header : string -> res error string) (v : string) :
  header "authorization" = Ok v -> v <> "" -> existsb exits (Access conf header) = false.
Proof.
  intros Hv Hne. destruct (existsb _ _) eqn:E; [|done]. apply access_refuses in E as [_ E]. by apply E in Hv.
Qed.

Lemma access_ignores_secret_witness :
  existsb exits (Access {| EnableJWT := true; JWTSecret := "s3cret"; RateLimitRate := f64_of_Z 1; RateLimitBurst := 1; EnableTelemetry := false |}
    (fun h => if bool_decide (h = "authorization") then Ok "nonsense" else Err ErrClosed)) = false.
Proof. refine (access_ignores_secret _ _ "nonsense" _ _); [reflexivity|discriminate]. Defined.
End Kong.

(** ** The Kafka bridge

    Every record becomes a CloudEvent.  [float_text] is how [encoding/json] prints a
    [float64]; [time_text] how it prints a time, which fails outside years 0 to 9999. *)
Module Kafka.
Record message := { m_Key : bytes; m_Value : bytes; m_Time : Z }.

Record CloudEvent := {
  SpecVersion : string;
  ID : string;
  Source : string;
  Type_ : string;
  Subject : string;
  DataContentType : string;
  Time : Z;
  Data : jvalue
}.

Section bridge.
Context (float_text : f64 -> string) (time_text : Z -> res error string).

(** A member of a map, which is printed in key order; a key that comes again replaces the
    value. *)
Fixpoint set_member (k : string) (v : jvalue) (m : list (string * jvalue)) : list (string * jvalue) :=
  match m with
  | [] => [(k, v)]
  | (k', v') :: m' =>
      if bool_decide (k = k') then (k, v) :: m'
      else if String.leb k k' then (k, v) :: m else (k', v') :: set_member k v m'
  end.

(** A value decoded into [interface{}] and encoded again; [None]: a number out of range. *)
Fixpoint through_any (v : jvalue) : option jvalue :=
  match v with
  | VNum lit => x ← ParseFloat lit; Some (VNum (float_text x))
  | VArr l =>
      (fix go l := match l with
                   | [] => Some []
                   | v :: l => v ← through_any v; l ← go l; Some (v :: l)
                   end) l ≫= fun l => Some (VArr l)
  | VObj m =>
      (fix go m acc := match m with
                       | [] => Some acc
                       | (k, v) :: m => v ← through_any v; go m (set_member k v acc)
                       end) m [] ≫= fun m => Some (VObj m)
  | _ => Some v
  end.

(** [rawData]: the value, or the text of one that cannot be decoded. *)
Definition raw_data (value : bytes) : jvalue :=
  match parse_json (of_bytes value) ≫= through_any with Some v => v | None => VString (of_bytes value) end.

Definition event_of (m : message) : CloudEvent := {|
  SpecVersion := "1.0"; ID := of_bytes (m_Key m); Source := "helix/kafka-bridge"; Type_ := "io.helixrpc.kafka.event";
  Subject := "helix-events"; DataContentType := "application/json"; Time := m_Time m; Data := raw_data (m_Value m) |}.

Definition omitempty (k s : string) : list (string * jvalue) := if bool_decide (s = "") then [] else [(k, VString s)].
Definition event_json (e : CloudEvent) : res error jvalue :=
  let? t := time_text (Time e) in
  Ok (VObj ([("specversion", VString (SpecVersion e)); ("id", VString (ID e)); ("source", VString (Source e)); ("type", VString (Type_ e))]
            ++ omitempty "subject" (Subject e) ++ omitempty "datacontenttype" (DataContentType e)
            ++ [("time", VString t); ("data", Data e)])).

(** The loop, on what the reader returns: the texts broadcast.  A read error ends the
    process ([log.Fatalf]); an event that cannot be encoded is skipped. *)
Fixpoint main (reads : list (res error message)) : list string * option error :=
  match reads with
  | [] => ([], None)
  | Err e :: _ => ([], Some e)
  | Ok m :: reads =>
      let '(out, fatal) := main reads in
      match event_json (event_of m) with
      | Ok j => (marshal_compact j :: out, fatal)
      | Err _ => (out, fatal)
      end
  end.

(** What a consumer of the broadcast reads. *)
Definition received (m : message) (text : string) : Prop :=
  exists t, time_text (m_Time m) = Ok t /\
  parse_json text = Some (VObj [("specversion", VString "1.0"); ("id", VString (of_bytes (m_Key m)));
    ("source", VString "helix/kafka-bridge"); ("type", VString "io.helixrpc.kafka.event"); ("subject", VString "helix-events");
    ("datacontenttype", VString "application/json"); ("time", VString t); ("data", raw_data (m_Value m))]).

Definition encodable (m : message) : Prop :=
  ascii_text (of_bytes (m_Key m)) = true /\ printable (raw_data (m_Value m)) = true /\
  exists t, time_text (m_Time m) = Ok t /\ ascii_text t = true.

Lemma event_received m : encodable m -> exists j, event_json (event_of m) = Ok j /\ received m (marshal_compact j).
Proof.
  intros (Hk & Hv & t & Ht & Ha). unfold event_json. cbn [Time event_of]. rewrite Ht. cbn [res_bind].
  eexists. split; [reflexivity|]. exists t. split; [done|]. apply parse_compact.
  cbn -[str_forall of_bytes raw_data]. by rewrite Hk, Ha, Hv.
Qed.

(** the bridge broadcasts every record once and in order.  Until the reader fails each
    record becomes one JSON text that decodes to its CloudEvent: the key as the id, the
    time, and the payload, or the payload's text when it is not JSON; at a read error the
    process ends with that error.  For keys and payloads in ASCII and times in the years
    that can be printed. *)
Theorem bridge_broadcasts (msgs : list message) (e : error) (rest : list (res error message)) :
  Forall encodable msgs ->
  exists out, main ((Ok <$> msgs) ++ Err e :: rest) = (out, Some e) /\ Forall2 received msgs out.
Proof.
  induction 1 as [|m msgs Hm _ (out & Hout & Hall)]; [by exists []|].
  destruct (event_received m Hm) as (j & Hj & Hr). exists (marshal_compact j :: out). cbn. rewrite Hout, Hj.
  split; [done|by constructor].
Qed.

(** A payload without numbers whose objects have their keys in order goes through
    unchanged. *)
Fixpoint ordered (v : jvalue) : Prop :=
  match v with
  | VNum _ => False
  | VArr l => foldr (fun v P => ordered v /\ P) True l
  | VObj m => foldl (fun acc kv => set_member (fst kv) (snd kv) acc) [] m = m /\ foldr (fun kv P => ordered (snd kv) /\ P) True m
  | _ => True
  end.

Lemma through_any_ordered v : ordered v -> through_any v = Some v.
Proof.
  induction v as [| | | |l IH|m IH] using jvalue_rect'; try done.
  - cbn. intros Hl. assert ((fix go l := match l with [] => Some [] | v :: l => v ← through_any v; l ← go l; Some (v :: l) end) l = Some l) as ->; [|done].
    induction IH as [|v l Hv _ IHl]; [done|]. destruct Hl as [H1 H2]. rewrite (Hv H1). cbn. by rewrite (IHl H2).
  - cbn. intros [Hs Hl].
    assert (forall acc, (fix go m acc := match m with [] => Some acc | (k, v) :: m => v ← through_any v; go m (set_member k v acc) end) m acc
      = Some (foldl (fun acc kv => set_member (fst kv) (snd kv) acc) acc m)) as Hgo; [|by rewrite Hgo, Hs].
    clear Hs. induction IH as [|[k v] m Hv _ IHm]; intros acc; [done|]. destruct Hl as [H1 H2].
    cbn in Hv. rewrite (Hv H1). cbn. by apply IHm.
Qed.

Lemma raw_data_json v : printable v = true -> ordered v -> raw_data (to_bytes (marshal_compact v)) = v.
Proof. intros Hp Ho. unfold raw_data. rewrite of_to_bytes, parse_compact by done. cbn. by rewrite through_any_ordered. Qed.
End bridge.

(** numbers are not preserved: a payload is decoded into floats, so integers beyond 2^53
    that differ are broadcast as the same number. *)
Theorem bridge_conflates_numbers (float_text : f64 -> string) :
  raw_data float_text (to_bytes "9007199254740993") = raw_data float_text (to_bytes "9007199254740992").
Proof. reflexivity. Qed.

Definition order_message : message := {|
  m_Key := to_bytes "order-1"; m_Value := to_bytes (marshal_compact (VObj [("item", VString "book"); ("paid", VBool true)])); m_Time := 0 |}.
Definition text_message : message := {| m_Key := to_bytes "order-2"; m_Value := to_bytes "not json"; m_Time := 1 |}.

Lemma bridge_broadcasts_witness :
  exists o1 o2, main (fun _ => "0") (fun _ => Ok "1970-01-01T00:00:00Z") ((Ok <$> [order_message; text_message]) ++ [Err ErrEOF]) = ([o1; o2], Some ErrEOF) /\
    received (fun _ => "0") (fun _ => Ok "1970-01-01T00:00:00Z") order_message o1.
Proof.
  destruct (bridge_broadcasts (fun _ => "0") (fun _ => Ok "1970-01-01T00:00:00Z") [order_message; text_message] ErrEOF []) as (out & Hout & Hall).
  { repeat constructor; try (by eexists); vm_compute; reflexivity. }
  inversion Hall as [|? o1 ? l H1 Hl]; subst. inversion Hl as [|? o2 ? l2 H2 Hl2]; subst. inversion Hl2; subst.
  exists o1, o2. split; [exact Hout|exact H1].
Defined.
End Kafka.
