(* ===== verification/Examples.v ===== *)
(** * The example servers ([examples/go-resilience/main.go], [examples/go-dynamic-batcher/main.go],
    [benchmarks/grpc_gateway_server.go])

    Programs that put the library together: their handlers, on the models of the components
    they use. *)
From S2P Require Import Prelude GoStrings GoFloat Errors Context Http Breaker HedgeBucket Retry Balancer.
From S2P Require Import ClientBucket RateLimit Auth GoText Json Mux.
From Stdlib Require Import Floats.SpecFloat.

(** ** The resilience example *)
Module Resilience.
Definition backends : list string := ["gpu-node-1:9090"; "gpu-node-2:9090"; "gpu-node-3:9090"].

Definition policy (now : Z) : RetryPolicy := {|
  MaxAttempts := 3;
  InitialBackoff := 50 * 1000000;
  MaxBackoff := 1000000000;
  BackoffMultiplier := f64_of_Z 2;
  RetryableErrors := None;
  HedgeDelay := 100 * 1000000;
  HedgeBucket := Some (NewHedgingTokenBucket now 5 (f64_of_Z 10));
  Breaker := Some (NewCircuitBreaker 5 (30 * 1000000000) 2)
|}.

(** The draws of the random source, and the error of the context if it ends before the
    latency has passed. *)
Record draw := { d_float : f64; d_int : Z; d_done : option error }.

Definition callBackend (d : draw) (target : string) : res error text :=
  if f64_ltb (d_float d) (f64_const 1 10) then Err (ErrorString ("backend " +:+ target +:+ ": transient error"))
  else match d_done d with
       | Some e => Err e
       | None => Ok (cat ["{\qcompletion\q:\qResponse from "%go; target; "\q,\qlatency_ms\q:"%go; Itoa (d_int d + 10); "}"%go])
       end.

Section handlers.
Context `{MapIter} {W : Type} `{HasClock W} `{Has W LeastConnBalancer} `{Has W RateLimiter}.
(** The next draw of the world. *)
Context (draws : W -> W * draw).

Definition balancer : LeastConnBalancer := Register backends NewLeastConnBalancer.

Definition on_balancer (f : LeastConnBalancer -> LeastConnBalancer) (w : W) : W := put (f (get w)) w.

Definition routeHandler : HTTPHandler W := fun rw r w =>
  match lc_Next backends (get w) with
  | (b, Err e) => (put b w, http_Error (Error e) 503 rw)
  | (b, Ok target) =>
      let w := put b w in
      let '(w, d) := draws w in
      let '(w, rw) :=
        match callBackend d target with
        | Err e => (w, http_Error (Error e) 502 rw)
        | Ok result =>
            let rw := set_header "X-Backend" target rw in
            let rw := set_header "X-Active-Conns" (Itoa (ActiveConns target (get w))) rw in
            let rw := set_header "Content-Type" "application/json" rw in
            (w, Write_ (to_bytes result) rw)
        end in
      (on_balancer (Done target) w, rw)       (* deferred *)
  end.

(** The operation that is retried and hedged. *)
Definition resilient_operation (w : W) : W * (text * option error) :=
  match lc_Next backends (get w) with
  | (b, Err e) => (put b w, (""%go, Some e))
  | (b, Ok target) =>
      let '(w, d) := draws (put b w) in
      match callBackend d target with
      | Err e => (on_balancer (Done target) w, (""%go, Some e))
      | Ok result => (on_balancer (Done target) w, (result, None))
      end
  end.

(** The answer for what [ExecuteWithRetry] returned. *)
Definition resilient_respond (result : text) (err : option error) (rw : ResponseWriter) : ResponseWriter :=
  match err with
  | Some e => http_Error (cat ["{\qerror\q:\q"%go; Error e; "\q}"%go]) 502 rw
  | None => Write_ (to_bytes result) (set_header "Content-Type" "application/json" rw)
  end.

Definition breaker_number (s : CircuitState) : Z := match s with CircuitClosed => 0 | CircuitOpen => 1 | CircuitHalfOpen => 2 end.

(** The state of the breaker is encoded as its number. *)
Definition status_json (b : LeastConnBalancer) (cb : CircuitBreaker) : jvalue :=
  VObj [("balancer", VObj ((fun t => (t, VNum (Itoa (ActiveConns t b)))) <$> backends)); ("circuit", VNum (Itoa (breaker_number (cb_state cb))))].
Definition statusHandler (cb : CircuitBreaker) : HTTPHandler W := fun rw _ w =>
  (w, Write_ (to_bytes (marshal_compact (status_json (get w) cb) +:+ String "010" "")) rw).

Definition limits : RateLimitConfig := {| RequestsPerSecond := f64_of_Z 10; BurstSize := 5; KeyFunc := None; ErrorMessage := "" |}.
Definition authCfg : JWTAuthConfig := {|
  SecretKey := to_bytes "example-secret-key-that-is-long-enough"; PublicKeyPEM := []; Algorithms := []; RequiredClaims := []; TokenExtractor := None |}.

(** [main]: the routes.  [resilient] is the handler behind the middlewares. *)
Context (jwt_Parse : string -> Keyfunc -> list parser_option -> W * ResponseWriter -> res jwt_error Token).
Context (parseRSA parseEC : bytes -> res error jwt_key).
Definition routes (resilient : HTTPHandler W) (cb : CircuitBreaker) : option (ServeMux W) :=
  mux ← Handle "/route" routeHandler NewServeMux;
  mux ← Handle "/resilient" (NewJWTMiddleware jwt_Parse parseRSA parseEC authCfg (rl_HTTPMiddleware resilient)) mux;
  Handle "/status" (statusHandler cb) mux.

(** *** Lemmas *)
Definition balanced (w w' : W) : Prop :=
  lc_ok (get w) -> (forall t, in_s 64 (ActiveConns t (get w))) ->
  lc_ok (get w') /\ forall t, ActiveConns t (get w') = ActiveConns t (get w).

Lemma balanced_trans w1 w2 w3 : balanced w1 w2 -> balanced w2 w3 -> balanced w1 w3.
Proof.
  intros Ha Hb Hok Hr. destruct (Ha Hok Hr) as [Hok2 E2]. destruct (Hb Hok2) as [Hok3 E3]; [intros t; by rewrite E2|].
  split; [done|]. intros t. by rewrite E3, E2.
Qed.

Lemma next_done (b : LeastConnBalancer) : lc_ok b -> (forall t, in_s 64 (ActiveConns t b)) ->
  exists s b1, lc_Next backends b = (b1, Ok s) /\ s ∈ backends /\ lc_ok (Done s b1) /\
    (forall t, ActiveConns t (Done s b1) = ActiveConns t b) /\ ActiveConns s b1 = i64 (ActiveConns s b + 1).
Proof.
  intros Hb Hr. unfold backends. rewrite lc_Next_step. cbn zeta. fold backends.
  destruct (register_missing_spec backends b Hb) as (Hok & Hact & Hreg).
  set (b' := register_missing backends b) in *.
  assert (fst (lc_pick b' backends) ∈ backends) as Hs by (by apply lc_pick_in).
  set (s := fst (lc_pick b' backends)) in *. exists s, (add_active 1 s b'). split; [done|]. split; [done|].
  assert (is_Some (lc_index (add_active 1 s b') !! s)) as Hi by (cbn; apply Hreg; by left).
  assert (Done s (add_active 1 s b') = add_active (-1) s (add_active 1 s b')) as -> by (unfold Done; by destruct Hi as [i ->]).
  assert (is_Some (lc_index b' !! s)) as Hi' by (apply Hreg; by left).
  split; [by apply add_active_ok, add_active_ok|]. split.
  - intros t. rewrite ActiveConns_add; [|by apply add_active_ok|done].
    rewrite !ActiveConns_add by done. destruct (decide (t = s)) as [->|]; [|apply Hact].
    rewrite decide_True by done. rewrite Hact. transitivity (i64 (ActiveConns s b)); [|by apply wrapS_id].
    replace (i64 (ActiveConns s b)) with (i64 ((ActiveConns s b + 1) + -1)) by (f_equal; lia).
    rewrite <- (wrapS_wrapU 64 (i64 (ActiveConns s b + 1) + -1)), <- (wrapS_wrapU 64 (ActiveConns s b + 1 + -1)) by done. f_equal.
    unfold wrapU. rewrite Zplus_mod. symmetry. rewrite Zplus_mod. symmetry. do 2 f_equal. by apply wrapU_wrapS.
  - rewrite ActiveConns_add by done. rewrite decide_True by done. by rewrite Hact.
Qed.

Lemma retry_preserves {T} (R : W -> W -> Prop) (zero : T) (env : retry_env W T) pol left backoff lastErr w br :
  (forall w, R w w) -> (forall w1 w2 w3, R w1 w2 -> R w2 w3 -> R w1 w3) ->
  (forall w, R w (fst (operation env w))) -> (forall w n, R w (fst (rand_Int63n env w n))) -> (forall w d, R w (fst (sleep_or_done env w d))) ->
  R w (rr_world (retry_loop zero env pol left backoff lastErr w br)).
Proof.
  intros Hrefl Htrans Hop Hrand Hsleep. revert backoff lastErr w br.
  induction left as [|left IH]; intros backoff lastErr w br; cbn [retry_loop]; [apply Hrefl|].
  specialize (Hop w). destruct (operation env w) as [w1 [result [e|]]]; cbn in Hop; [|done]. cbn zeta.
  destruct (match RetryableErrors pol with Some f => _ | None => _ end); [done|].
  destruct (left =? 0)%nat; [done|]. destruct (backoff <=? 0); [done|].
  specialize (Hrand w1 backoff). destruct (rand_Int63n env w1 backoff) as [w2 jitter].
  specialize (Hsleep w2 jitter). destruct (sleep_or_done env w2 jitter) as [w3 [ce|]]; cbn in *; [by eapply Htrans; [|eapply Htrans]|].
  eapply Htrans; [exact Hop|]. eapply Htrans; [exact Hrand|]. eapply Htrans; [exact Hsleep|]. apply IH.
Qed.

Hypothesis draws_balanced : forall w, get (fst (draws w)) = (get w : LeastConnBalancer).

(** the balancer's counts return: whatever the backends answer, after a request has been
    routed every backend has the count it had before. *)
Theorem route_restores (rw : ResponseWriter) (r : Request) (w : W) : balanced w (fst (routeHandler rw r w)).
Proof.
  intros Hok Hr. destruct (next_done (get w) Hok Hr) as (s & b1 & E & Hs & Hok1 & Hc & _).
  unfold routeHandler. rewrite E. pose proof (draws_balanced (put b1 w)) as Hd. rewrite get_put in Hd.
  destruct (draws (put b1 w)) as [w1 d]. cbn in Hd.
  assert (get (on_balancer (Done s) w1) = Done s b1) as Hg by (unfold on_balancer; by rewrite get_put, Hd).
  destruct (callBackend d s); cbn [fst]; rewrite Hg; done.
Qed.

Lemma operation_restores (w : W) : balanced w (fst (resilient_operation w)).
Proof.
  intros Hok Hr. destruct (next_done (get w) Hok Hr) as (s & b1 & E & Hs & Hok1 & Hc & _).
  unfold resilient_operation. rewrite E. pose proof (draws_balanced (put b1 w)) as Hd. rewrite get_put in Hd.
  destruct (draws (put b1 w)) as [w1 d]. cbn in Hd.
  assert (get (on_balancer (Done s) w1) = Done s b1) as Hg by (unfold on_balancer; by rewrite get_put, Hd).
  destruct (callBackend d s); cbn [fst]; rewrite Hg; done.
Qed.

(** retries leak no connection.  However often the retry loop runs the operation, and
    however it ends, every backend's count is what it was before. *)
Theorem retries_restore (env : retry_env W text) (pol : RetryPolicy) (w : W) (br : option CircuitBreaker) :
  operation env = resilient_operation ->
  (forall w n, get (fst (rand_Int63n env w n)) = (get w : LeastConnBalancer)) ->
  (forall w d, get (fst (sleep_or_done env w d)) = (get w : LeastConnBalancer)) ->
  balanced w (rr_world (executeRetriesOnly (""%go : text) env pol w br)).
Proof.
  intros Hop Hrand Hsleep. unfold executeRetriesOnly. apply retry_preserves.
  - intros w0 Hok _. done.
  - apply balanced_trans.
  - intros w0. rewrite Hop. apply operation_restores.
  - intros w0 n Hok _. by rewrite Hrand.
  - intros w0 d Hok _. by rewrite Hsleep.
Qed.

(** the protected route is closed to everyone: its middleware reads the token from the
    metadata of the context, which a plain HTTP server does not fill, so every request is
    answered 401, with any token, and is not even counted by the limiter. *)
Theorem resilient_unreachable (resilient : HTTPHandler W) (cb : CircuitBreaker) (r : Request) (w : W) :
  r_path r = "/resilient" -> r_method r <> "CONNECT" -> ctx_md (r_ctx r) = None ->
  exists mux rw, routes resilient cb = Some mux /\ mux_ServeHTTP mux new_writer r w = (w, rw) /\ fst (fst (response rw)) = 401.
Proof.
  intros Hp Hm Hc.
  destruct (jwt_middleware_rejects_all jwt_Parse parseRSA parseEC authCfg (rl_HTTPMiddleware resilient) r w eq_refl Hc) as (rw & Hrun & Hs).
  eexists _, rw. split; [reflexivity|]. split; [|done]. unfold mux_ServeHTTP. rewrite Hp, bool_decide_false by done. exact Hrun.
Qed.
End handlers.
End Resilience.

(** ** The dynamic batching example *)
Module Batcher.
(** The dynamic types a request can have: what [%v] prints of another value is given. *)
Inductive request := PtrRequest (Prompt : string) | ValRequest (Prompt : string) | MapRequest (m : gmap string jvalue) | OtherRequest (printed : string).
Record PredictResponse := { Completion : string }.

(** The prompt of a request; [None]: the type assertion panics. *)
Definition prompt_of (r : request) : option string :=
  match r with
  | PtrRequest p => Some p
  | MapRequest m => match m !! "prompt" with Some (VString p) => Some p | _ => None end
  | ValRequest p => Some ("{" +:+ p +:+ "}")
  | OtherRequest s => Some s
  end.

Definition PredictBatch (reqs : list request) : option (list PredictResponse) :=
  mapM (fun r => p ← prompt_of r; Some {| Completion := "AI Response to: " +:+ p |}) reqs.

(** The decoder of the registered method fills a local variable and returns its value. *)
Definition Decoder (decoded : res error string) : res error request :=
  match decoded with Ok p => Ok (ValRequest p) | Err e => Err e end.

(** the model answers in braces.  The decoder returns the struct itself while the model
    looks for a pointer, so every prompt that goes through the server is printed as a
    struct: the batch is answered completely and in order, each answer to the prompt in
    braces. *)
Theorem batch_prompts_braced (prompts : list string) :
  exists reqs, mapM (fun p => match Decoder (Ok p) with Ok r => Some r | Err _ => None end) prompts = Some reqs /\
    PredictBatch reqs = Some ((fun p => {| Completion := "AI Response to: {" +:+ p +:+ "}" |}) <$> prompts).
Proof.
  exists (ValRequest <$> prompts). unfold PredictBatch. split.
  - induction prompts as [|p l IH]; [done|]. cbn in *. by rewrite IH.
  - induction prompts as [|p l IH]; [done|]. cbn in *. by rewrite IH.
Qed.
End Batcher.

(** ** The gateway of the benchmarks *)
Module Gateway.
Definition user_json (userID : Z) : jvalue :=
  VObj [("user_id", VNum (Itoa userID)); ("username", VString ("user-" +:+ Itoa userID +:+ "-grpc-gateway"));
        ("email", VString ("user-" +:+ Itoa userID +:+ "@grpc-gateway.com"))].

Definition handleGetUser {W} : HTTPHandler W := fun rw r w =>
  match Split (r_path r) "/" !! 3%nat with
  | None => (w, http_Error "not found" 404 rw)
  | Some part =>
      match ParseInt part with
      | (_, Some _) => (w, http_Error "invalid user_id" 400 rw)
      | (userID, None) =>
          (w, Write_ (to_bytes (marshal_compact (user_json userID) +:+ String "010" "")) (set_header "Content-Type" "application/json" rw))
      end
  end.

Definition get_user (path : string) : Request := {|
  r_method := "GET"; r_path := path; r_query := ∅; r_header := ∅; r_remote := ""; r_ctx := Background;
  r_body := {| b_data := []; b_end := None |} |}.

Lemma user_printable z : printable (user_json z) = true.
Proof.
  pose proof (number_Itoa z) as Hn. cbn [printable user_json forallb fst snd] in *. rewrite Hn.
  assert (ascii_text (Itoa z) = true) as Ha.
  { apply andb_true_iff in Hn as [Hc _]. revert Hc. apply str_forall_impl. intros c. by destruct c as [[] [] [] [] [] [] [] []]. }
  rewrite !str_forall_app, Ha. done.
Qed.

Lemma user_path z : Split ("/v1/users/" +:+ Itoa z) "/" = [""; "v1"; "users"; Itoa z].
Proof.
  assert (Split (Itoa z) "/" = [Itoa z]) as E.
  { apply Split_no_sep. pose proof (number_Itoa z) as Hn. cbn [printable] in Hn. apply andb_true_iff in Hn as [Hc _].
    revert Hc. apply str_forall_impl. intros c. by destruct c as [[] [] [] [] [] [] [] []]. }
  pose proof (Split_Join [""; "v1"; "users"; Itoa z] "/") as H. cbn in H |- *. by rewrite E.
Qed.

(** the gateway's route: the path of a user answers that user as JSON, a path whose part
    is not a number is refused with 400, and one without that part with 404. *)
Theorem gateway_user {W} (z : Z) (part path : string) (w : W) :
  in_s 64 z ->
  (let '(w', rw) := handleGetUser new_writer (get_user ("/v1/users/" +:+ Itoa z)) w in
   w' = w /\ fst (fst (response rw)) = 200 /\ parse_json (of_bytes (snd (response rw))) = Some (user_json z)) /\
  (Split path "/" !! 3%nat = Some part -> snd (ParseInt part) <> None -> fst (fst (response (snd (handleGetUser new_writer (get_user path) w)))) = 400) /\
  ((length (Split path "/") <= 3)%nat -> fst (fst (response (snd (handleGetUser new_writer (get_user path) w)))) = 404).
Proof.
  intros Hz. split; [|split].
  - unfold handleGetUser. cbn [r_path get_user]. rewrite user_path. cbn [lookup list_lookup]. rewrite ParseInt_Itoa by done.
    split; [done|]. split; [done|]. unfold response. cbn [rw_sent rw_body Write_ fst Write WriteHeader set_header new_writer rw_fail app snd].
    rewrite of_to_bytes. apply parse_encoded, user_printable.
  - intros Hp Hn. unfold handleGetUser. cbn [r_path get_user]. rewrite Hp. destruct (ParseInt part) as [n [e|]]; [done|]. by destruct Hn.
  - intros Hl. unfold handleGetUser. cbn [r_path get_user]. by rewrite (lookup_ge_None_2 (Split path "/")).
Qed.

Lemma gateway_user_witness :
  let '(_, rw) := handleGetUser new_writer (get_user ("/v1/users/" +:+ Itoa 42)) 0%nat in
  parse_json (of_bytes (snd (response rw))) = Some (user_json 42).
Proof. refine (proj2 (proj2 (proj1 (gateway_user 42 "" "" 0%nat _)))). vm_compute. split; [discriminate|reflexivity]. Defined.
End Gateway.
