(* ===== verification/DashboardPage.v ===== *)
(** * The dashboard page ([runtimes/go/debug_ui.go], the constant [dashboardHTML])

    The text the UI handler serves, by parts of the document.  What the script does with
    the answers of the debug endpoint is in [Dashboard]. *)
From S2P Require Import Prelude GoStrings GoText.
Local Open Scope go_scope.

Definition page_head : text :=
  cat [
    "<!DOCTYPE html>\n";
    "<html lang=\qen\q>\n";
    "<head>\n";
    "    <meta charset=\qUTF-8\q>\n";
    "    <meta name=\qviewport\q content=\qwidth=device-width, initial-scale=1.0\q>\n";
    "    <title>Helix Dev Dashboard</title>\n";
    "    <link href=\qhttps://fonts.googleapis.com/css2?family=Outfit:wght@300;400;600;800&family=JetBrains+Mono:wght@400;700&display=swap\q rel=\qstylesheet\q>\n" ].

Definition page_style_layout : text :=
  cat [
    "    <style>\n";
    "        :root {\n";
    "            --bg-color: #0d0f14;\n";
    "            --card-bg: #151922;\n";
    "            --accent: #ff4a5a;\n";
    "            --accent-green: #00e676;\n";
    "            --accent-yellow: #ffd600;\n";
    "            --text-main: #f5f6f9;\n";
    "            --text-muted: #8b949e;\n";
    "            --border-color: #21262d;\n";
    "        }\n";
    "\n";
    "        * {\n";
    "            box-sizing: border-box;\n";
    "            margin: 0;\n";
    "            padding: 0;\n";
    "        }\n";
    "\n";
    "        body {\n";
    "            background-color: var(--bg-color);\n";
    "            color: var(--text-main);\n";
    "            font-family: 'Outfit', sans-serif;\n";
    "            padding: 2rem;\n";
    "            min-height: 100vh;\n";
    "        }\n";
    "\n";
    "        header {\n";
    "            display: flex;\n";
    "            justify-content: space-between;\n";
    "            align-items: center;\n";
    "            margin-bottom: 2rem;\n";
    "            border-bottom: 1px solid var(--border-color);\n";
    "            padding-bottom: 1.5rem;\n";
    "        }\n";
    "\n";
    "        .logo {\n";
    "            font-size: 2rem;\n";
    "            font-weight: 800;\n";
    "            background: linear-gradient(135deg, var(--accent), #ff8a80);\n";
    "            -webkit-background-clip: text;\n";
    "            -webkit-text-fill-color: transparent;\n";
    "            display: flex;\n";
    "            align-items: center;\n";
    "            gap: 0.5rem;\n";
    "        }\n";
    "\n";
    "        .badge {\n";
    "            font-family: 'JetBrains Mono', monospace;\n";
    "            background-color: rgba(255, 74, 90, 0.15);\n";
    "            color: var(--accent);\n";
    "            border: 1px solid var(--accent);\n";
    "            padding: 0.25rem 0.5rem;\n";
    "            border-radius: 4px;\n";
    "            font-size: 0.8rem;\n";
    "        }\n";
    "\n";
    "        .stats-grid {\n";
    "            display: grid;\n";
    "            grid-template-columns: repeat(auto-fit, minmax(280px, 1fr));\n";
    "            gap: 1.5rem;\n";
    "            margin-bottom: 2rem;\n";
    "        }\n";
    "\n";
    "        .card {\n";
    "            background-color: var(--card-bg);\n";
    "            border: 1px solid var(--border-color);\n";
    "            border-radius: 12px;\n";
    "            padding: 1.5rem;\n";
    "            position: relative;\n";
    "            overflow: hidden;\n";
    "            transition: transform 0.2s, border-color 0.2s;\n";
    "        }\n";
    "\n";
    "        .card:hover {\n";
    "            transform: translateY(-2px);\n";
    "            border-color: rgba(255, 74, 90, 0.4);\n";
    "        }\n";
    "\n";
    "        .card::before {\n";
    "            content: '';\n";
    "            position: absolute;\n";
    "            top: 0;\n";
    "            left: 0;\n";
    "            width: 4px;\n";
    "            height: 100%;\n";
    "            background-color: var(--accent);\n" ].

Definition page_style_tables : text :=
  cat [
    "        }\n";
    "\n";
    "        .card.green::before { background-color: var(--accent-green); }\n";
    "        .card.yellow::before { background-color: var(--accent-yellow); }\n";
    "\n";
    "        .card-title {\n";
    "            font-size: 0.9rem;\n";
    "            text-transform: uppercase;\n";
    "            letter-spacing: 0.05em;\n";
    "            color: var(--text-muted);\n";
    "            margin-bottom: 0.5rem;\n";
    "        }\n";
    "\n";
    "        .card-value {\n";
    "            font-size: 2.2rem;\n";
    "            font-weight: 800;\n";
    "            font-family: 'JetBrains Mono', monospace;\n";
    "        }\n";
    "\n";
    "        .section-title {\n";
    "            font-size: 1.3rem;\n";
    "            font-weight: 600;\n";
    "            margin-bottom: 1rem;\n";
    "            color: var(--text-main);\n";
    "        }\n";
    "\n";
    "        table {\n";
    "            width: 100%;\n";
    "            border-collapse: collapse;\n";
    "            margin-bottom: 2rem;\n";
    "            background-color: var(--card-bg);\n";
    "            border: 1px solid var(--border-color);\n";
    "            border-radius: 8px;\n";
    "            overflow: hidden;\n";
    "        }\n";
    "\n";
    "        th, td {\n";
    "            padding: 1rem;\n";
    "            text-align: left;\n";
    "            border-bottom: 1px solid var(--border-color);\n";
    "        }\n";
    "\n";
    "        th {\n";
    "            background-color: rgba(255, 255, 255, 0.02);\n";
    "            color: var(--text-muted);\n";
    "            font-weight: 600;\n";
    "            text-transform: uppercase;\n";
    "            font-size: 0.8rem;\n";
    "        }\n";
    "\n";
    "        tr:last-child td {\n";
    "            border-bottom: none;\n";
    "        }\n";
    "\n";
    "        .mono {\n";
    "            font-family: 'JetBrains Mono', monospace;\n";
    "        }\n";
    "\n";
    "        .status-dot {\n";
    "            display: inline-block;\n";
    "            width: 8px;\n";
    "            height: 8px;\n";
    "            border-radius: 50%;\n";
    "            background-color: var(--accent-green);\n";
    "            margin-right: 0.5rem;\n";
    "        }\n";
    "\n";
    "        .status-dot.open {\n";
    "            background-color: var(--accent);\n";
    "            box-shadow: 0 0 8px var(--accent);\n";
    "        }\n";
    "        .btn {\n";
    "            font-family: 'Outfit', sans-serif;\n";
    "            font-weight: 600;\n";
    "            font-size: 0.8rem;\n";
    "            padding: 0.4rem 0.8rem;\n";
    "            border: none;\n";
    "            border-radius: 6px;\n";
    "            cursor: pointer;\n";
    "            transition: background-color 0.2s, transform 0.1s;\n";
    "        }\n";
    "        .btn:active {\n";
    "            transform: scale(0.95);\n";
    "        }\n";
    "        .btn-danger {\n";
    "            background-color: var(--accent);\n";
    "            color: white;\n";
    "        }\n";
    "        .btn-danger:hover {\n";
    "            background-color: #ff3344;\n";
    "        }\n";
    "        .btn-success {\n";
    "            background-color: var(--accent-green);\n";
    "            color: #0d0f14;\n";
    "        }\n";
    "        .btn-success:hover {\n";
    "            background-color: #00c853;\n";
    "        }\n";
    "    </style>\n";
    "</head>\n" ].

Definition page_body : text :=
  cat [
    "<body>\n";
    "    <header>\n";
    "        <div class=\qlogo\q>🧬 HELIX <span class=\qbadge\q>DEV PANEL</span></div>\n";
    "        <div class=\qmono\q id=\quptime\q>Uptime: 0s</div>\n";
    "    </header>\n";
    "\n";
    "    <div class=\qstats-grid\q>\n";
    "        <div class=\qcard\q id=\qversion-card\q>\n";
    "            <div class=\qcard-title\q>Version</div>\n";
    "            <div class=\qcard-value\q id=\qversion-val\q>0.2.0</div>\n";
    "        </div>\n";
    "        <div class=\qcard green\q id=\qcircuit-card\q>\n";
    "            <div class=\qcard-title\q>Circuit Breaker</div>\n";
    "            <div class=\qcard-value\q id=\qcircuit-val\q>CLOSED</div>\n";
    "            <div style=\qmargin-top: 1rem; display: flex; gap: 0.5rem;\q>\n";
    "                <button class=\qbtn btn-danger\q onclick=\qtriggerCircuit('open')\q>Force Open</button>\n";
    "                <button class=\qbtn btn-success\q onclick=\qtriggerCircuit('close')\q>Force Close</button>\n";
    "            </div>\n";
    "        </div>\n";
    "        <div class=\qcard yellow\q id=\qgo-version-card\q>\n";
    "            <div class=\qcard-title\q>Go Version</div>\n";
    "            <div class=\qcard-value\q style=\qfont-size: 1.5rem; margin-top: 0.5rem;\q id=\qgo-val\q>unknown</div>\n";
    "        </div>\n";
    "    </div>\n";
    "\n";
    "    <div class=\qsection-title\q>Registered RPC Methods</div>\n";
    "    <table>\n";
    "        <thead>\n";
    "            <tr>\n";
    "                <th>RPC Method / Path</th>\n";
    "                <th>Total Requests</th>\n";
    "                <th>Errors</th>\n";
    "                <th>Avg Latency</th>\n";
    "            </tr>\n";
    "        </thead>\n";
    "        <tbody id=\qmethods-body\q>\n";
    "            <tr>\n";
    "                <td colspan=\q4\q style=\qtext-align: center; color: var(--text-muted);\q>Waiting for metrics...</td>\n";
    "            </tr>\n";
    "        </tbody>\n";
    "    </table>\n";
    "\n";
    "    <div class=\qsection-title\q>Backend Pool Status</div>\n";
    "    <table>\n";
    "        <thead>\n";
    "            <tr>\n";
    "                <th>Backend Target</th>\n";
    "                <th>Active Connections</th>\n";
    "            </tr>\n";
    "        </thead>\n";
    "        <tbody id=\qbackends-body\q>\n";
    "            <tr>\n";
    "                <td colspan=\q2\q style=\qtext-align: center; color: var(--text-muted);\q>No backends monitored.</td>\n";
    "            </tr>\n";
    "        </tbody>\n";
    "    </table>\n";
    "\n" ].

Definition page_script : text :=
  cat [
    "    <script>\n";
    "        async function updateDashboard() {\n";
    "            try {\n";
    "                const res = await fetch('/__helix/debug');\n";
    "                if (!res.ok) return;\n";
    "                const data = await res.json();\n";
    "\n";
    "                document.getElementById('uptime').textContent = 'Uptime: ' + data.uptime;\n";
    "                document.getElementById('version-val').textContent = data.helix_version || '0.2.0';\n";
    "                document.getElementById('go-val').textContent = data.go_version || 'unknown';\n";
    "\n";
    "                // Update Circuit State\n";
    "                const circuitVal = document.getElementById('circuit-val');\n";
    "                const circuitCard = document.getElementById('circuit-card');\n";
    "                if (data.circuit_breaker) {\n";
    "                    circuitVal.textContent = data.circuit_breaker.state;\n";
    "                    if (data.circuit_breaker.state === 'OPEN') {\n";
    "                        circuitCard.className = 'card';\n";
    "                        circuitVal.style.color = 'var(--accent)';\n";
    "                    } else if (data.circuit_breaker.state === 'HALF-OPEN') {\n";
    "                        circuitCard.className = 'card yellow';\n";
    "                        circuitVal.style.color = 'var(--accent-yellow)';\n";
    "                    } else {\n";
    "                        circuitCard.className = 'card green';\n";
    "                        circuitVal.style.color = 'var(--accent-green)';\n";
    "                    }\n";
    "                } else {\n";
    "                    circuitVal.textContent = 'N/A';\n";
    "                }\n";
    "\n";
    "                // Update Methods Table\n";
    "                const methodsBody = document.getElementById('methods-body');\n";
    "                if (data.methods && data.methods.length > 0) {\n";
    "                    methodsBody.innerHTML = data.methods.map(m => \n";
    "                        '<tr>' +\n";
    "                            '<td class=\qmono\q>' + m.method + '</td>' +\n";
    "                            '<td>' + m.requests_total + '</td>' +\n";
    "                            '<td>' + m.errors_total + '</td>' +\n";
    "                            '<td class=\qmono\q>' + m.avg_latency_ms + 'ms</td>' +\n";
    "                        '</tr>'\n";
    "                    ).join('');\n";
    "                } else {\n";
    "                    methodsBody.innerHTML = '<tr><td colspan=\q4\q style=\qtext-align: center; color: var(--text-muted);\q>No requests recorded yet.</td></tr>';\n";
    "                }\n";
    "\n";
    "                // Update Backends Table\n";
    "                const backendsBody = document.getElementById('backends-body');\n";
    "                if (data.backends && data.backends.length > 0) {\n";
    "                    backendsBody.innerHTML = data.backends.map(b => \n";
    "                        '<tr>' +\n";
    "                            '<td class=\qmono\q>' + b.addr + '</td>' +\n";
    "                            '<td>' + b.active_conns + '</td>' +\n";
    "                        '</tr>'\n";
    "                    ).join('');\n";
    "                } else {\n";
    "                    backendsBody.innerHTML = '<tr><td colspan=\q2\q style=\qtext-align: center; color: var(--text-muted);\q>No backends monitored.</td></tr>';\n";
    "                }\n";
    "\n";
    "            } catch (err) {\n";
    "                console.error('Failed to fetch dashboard metrics:', err);\n";
    "            }\n";
    "        }\n";
    "\n";
    "        async function triggerCircuit(action) {\n";
    "            try {\n";
    "                await fetch('/__helix/debug/circuit/' + action, { method: 'POST' });\n";
    "                updateDashboard();\n";
    "            } catch (err) {\n";
    "                console.error('Failed to trigger circuit action:', err);\n";
    "            }\n";
    "        }\n";
    "\n";
    "        setInterval(updateDashboard, 1000);\n";
    "        updateDashboard();\n";
    "    </script>\n" ].

Definition page_end : text :=
  cat [
    "</body>\n";
    "</html>\n" ].

Definition dashboardHTML : text :=
  cat [page_head; page_style_layout; page_style_tables; page_body; page_script; page_end].
