(* ===== verification/Dashboard.v ===== *)
(** * The debug endpoints over HTTP and the dashboard
    ([runtimes/go/debug.go], [runtimes/go/debug_ui.go])

    [Debug] has the counters and the decisions of the handler; here are its responses, the
    JSON of a snapshot as [encoding/json] writes it, the UI handler, the mounting of all of
    them, and the script of the page as a function on the elements it updates.

    The script reads what the endpoint sends: an object with those members.  A JavaScript
    number is kept as the literal it was decoded from; how a number prints is the
    parameter [number_text]. *)
From S2P Require Import Prelude GoStrings GoFloat GoText Errors Context Http Breaker Balancer.
From S2P Require Import GoFiles Json Mux Debug DashboardPage.
From Stdlib Require Import Floats.SpecFloat.

(** ** The JSON of a snapshot *)

(** [d.Seconds()] *)
Definition Seconds (d : Z) : f64 :=
  f64_add (f64_of_Z (Z.quot d Second)) (f64_div (f64_of_Z (Z.rem d Second)) (f64_of_Z 1000000000)).

Definition uptime (startTime now : Z) : string := fmt_f 0 (Seconds (Since now startTime)) +:+ "s".

Definition AvgLatency (m : methodSnapshot) : string :=
  fmt_f 2 (if 0 <? ms_Requests m
           then f64_div (f64_div (f64_of_Z (ms_Latency m)) (f64_of_Z (ms_Requests m))) (f64_of_Z 1000000)
           else S754_zero false).

Definition method_json (m : methodSnapshot) : jvalue :=
  VObj [("method", VString (ms_Method m)); ("requests_total", VNum (Itoa (ms_Requests m)));
        ("errors_total", VNum (Itoa (ms_Errors m))); ("avg_latency_ms", VString (AvgLatency m))].
Definition backend_json (b : backendSnapshot) : jvalue :=
  VObj [("addr", VString (bs_Addr b)); ("active_conns", VNum (Itoa (bs_ActiveConns b)))].
Definition circuit_json (c : circuitSnapshot) : jvalue :=
  VObj [("state", VString (cs_State c)); ("consecutive_failures", VNum (Itoa (cs_Failures c)))].

(** A nil slice is [null]; [omitempty] leaves out empty slices and nil pointers. *)
Definition snapshot_json (up goVer : string) (s : debugSnapshot) : jvalue :=
  VObj ([("helix_version", VString "0.2.0"); ("uptime", VString up); ("go_version", VString goVer);
         ("methods", match Methods s with [] => VNull | l => VArr (method_json <$> l) end)]
        ++ match Backends s with [] => [] | l => [("backends", VArr (backend_json <$> l))] end
        ++ match Circuit s with None => [] | Some c => [("circuit_breaker", circuit_json c)] end).

(** ** The handlers

    [build_info] is the Go version of [debug.ReadBuildInfo], if there is one; [prometheus]
    is the handler of the Prometheus library. *)
Section handlers.
Context `{MapIter} {W : Type} `{HasClock W} `{Has W debugRegistry} `{Has W debugServer}.
Context (startTime : Z) (build_info : option string) (prometheus : HTTPHandler W).

Definition forced (msg : text) (rw : ResponseWriter) : ResponseWriter :=
  Write_ (to_bytes msg) (set_header "Content-Type" "application/json" rw).

Definition debug_handler : HTTPHandler W := fun rw r w =>
  let rw := set_header "Access-Control-Allow-Origin" "*" rw in
  let rw := set_header "Access-Control-Allow-Methods" "GET, POST, OPTIONS" rw in
  let '(srv, reply) := debugHandler (now_of w) (get w) (get w) (r_method r) (r_path r) in
  match reply with
  | DebugOptions => (w, WriteHeader 200 rw)
  | DebugForcedOpen => (put srv w, forced "{\qstatus\q:\qsuccess\q,\qmessage\q:\qcircuit forced open\q}" rw)
  | DebugForcedClosed => (put srv w, forced "{\qstatus\q:\qsuccess\q,\qmessage\q:\qcircuit forced closed\q}" rw)
  | DebugSnapshot s =>
      let body := marshal_compact (snapshot_json (uptime startTime (now_of w)) (default "unknown" build_info) s) in
      (w, Write_ (to_bytes (body +:+ String "010" "")) (set_header "Content-Type" "application/json" rw))
  end.

Definition uiHandler : HTTPHandler W := fun rw _ w =>
  (w, Write_ (to_bytes dashboardHTML) (set_header "Content-Type" "text/html; charset=utf-8" rw)).

Definition MountDebugHandler (mux : ServeMux W) : option (ServeMux W) :=
  mux ← Handle "/__helix/debug" debug_handler mux;
  Handle "/__helix/debug/" debug_handler mux.

Definition MountDebugUI (mux : ServeMux W) : option (ServeMux W) :=
  mux ← Handle "/__helix/ui" uiHandler mux;
  Handle "/__helix/ui/" uiHandler mux.

Definition MountMetricsHandler (mux : ServeMux W) : option (ServeMux W) :=
  mux ← Handle "/metrics" prometheus mux;
  mux ← Handle "/metrics/" prometheus mux;
  mux ← Handle "/__helix/metrics" prometheus mux;
  Handle "/__helix/metrics/" prometheus mux.
End handlers.

(** ** The script *)
Record method_row := { mr_method : string; mr_requests : string; mr_errors : string; mr_latency : string }.
Record backend_row := { br_addr : string; br_conns : string }.
Record page_data := {
  pd_uptime : string;
  pd_version : string;
  pd_go : string;
  pd_methods : list method_row;
  pd_backends : list backend_row;
  pd_circuit : option string
}.

(** [await res.json()], for an answer of the endpoint's shape. *)
Definition prop (k : string) (v : jvalue) : option jvalue :=
  match v with VObj m => snd <$> List.find (fun kv => bool_decide (fst kv = k)) (rev m) | _ => None end.
Definition str_prop (k : string) (v : jvalue) : option string :=
  match prop k v with Some (VString s) => Some s | _ => None end.
Definition num_prop (k : string) (v : jvalue) : option string :=
  match prop k v with Some (VNum s) => Some s | _ => None end.
Definition list_prop {A} (f : jvalue -> option A) (k : string) (v : jvalue) : option (list A) :=
  match prop k v with Some (VArr l) => mapM f l | Some VNull | None => Some [] | _ => None end.

Definition read_method (v : jvalue) : option method_row :=
  m ← str_prop "method" v; r ← num_prop "requests_total" v; e ← num_prop "errors_total" v;
  a ← str_prop "avg_latency_ms" v;
  Some {| mr_method := m; mr_requests := r; mr_errors := e; mr_latency := a |}.
Definition read_backend (v : jvalue) : option backend_row :=
  a ← str_prop "addr" v; c ← num_prop "active_conns" v; Some {| br_addr := a; br_conns := c |}.
Definition read_data (v : jvalue) : option page_data :=
  up ← str_prop "uptime" v; ver ← str_prop "helix_version" v; go ← str_prop "go_version" v;
  ms ← list_prop read_method "methods" v; bs ← list_prop read_backend "backends" v;
  Some {| pd_uptime := up; pd_version := ver; pd_go := go; pd_methods := ms; pd_backends := bs;
          pd_circuit := prop "circuit_breaker" v ≫= str_prop "state" |}.

(** What the script changes on the page. *)
Record dom := {
  dom_uptime : text;
  dom_version : text;
  dom_go : text;
  dom_circuit : text;
  dom_circuit_class : text;
  dom_circuit_color : text;
  dom_methods : text;
  dom_backends : text
}.

Section script.
Context (number_text : string -> string).

Definition js_or (a b : text) : text := if bool_decide (a = "") then b else a.

Definition method_html (m : method_row) : text :=
  cat ["<tr>"; "<td class=\qmono\q>"; mr_method m; "</td>"; "<td>"; number_text (mr_requests m); "</td>"; "<td>"; number_text (mr_errors m); "</td>"; "<td class=\qmono\q>"; mr_latency m; "ms</td>"; "</tr>"]%go.
Definition backend_html (b : backend_row) : text :=
  cat ["<tr>"; "<td class=\qmono\q>"; br_addr b; "</td>"; "<td>"; number_text (br_conns b); "</td>"; "</tr>"]%go.

Definition no_methods : text := "<tr><td colspan=\q4\q style=\qtext-align: center; color: var(--text-muted);\q>No requests recorded yet.</td></tr>".
Definition no_backends : text := "<tr><td colspan=\q2\q style=\qtext-align: center; color: var(--text-muted);\q>No backends monitored.</td></tr>".

(** The class of the card and the colour of the state. *)
Definition circuit_look (state : string) : text * text :=
  if bool_decide (state = "OPEN") then ("card", "var(--accent)")%go
  else if bool_decide (state = "HALF-OPEN") then ("card yellow", "var(--accent-yellow)")%go
  else ("card green", "var(--accent-green)")%go.

Definition update (data : page_data) (d : dom) : dom := {|
  dom_uptime := cat ["Uptime: "%go; pd_uptime data];
  dom_version := js_or (pd_version data) "0.2.0";
  dom_go := js_or (pd_go data) "unknown";
  dom_circuit := match pd_circuit data with Some state => state | None => "N/A"%go end;
  dom_circuit_class := match pd_circuit data with Some state => fst (circuit_look state) | None => dom_circuit_class d end;
  dom_circuit_color := match pd_circuit data with Some state => snd (circuit_look state) | None => dom_circuit_color d end;
  dom_methods := match pd_methods data with [] => no_methods | ms => cat (method_html <$> ms) end;
  dom_backends := match pd_backends data with [] => no_backends | bs => cat (backend_html <$> bs) end
|}.

(** [fetch('/__helix/debug')] answered [rw]: an answer that is not 2xx, or not JSON, leaves
    the page as it is. *)
Definition updateDashboard (rw : ResponseWriter) (d : dom) : dom :=
  let '(status, _, body) := response rw in
  if (200 <=? status) && (status <=? 299) then
    match parse_json (of_bytes body) ≫= read_data with Some data => update data d | None => d end
  else d.
End script.

(** [triggerCircuit(action)]: the path it posts to. *)
Definition triggerCircuit (action : text) : text := cat ["/__helix/debug/circuit/"%go; action].

(** ** Lemmas *)
Lemma digit_ascii c : is_digit c = true -> is_ascii c = true.
Proof. by destruct c as [[] [] [] [] [] [] [] []]. Qed.
Lemma ascii_Itoa z : ascii_text (Itoa z) = true.
Proof.
  assert (forall n, 0 <= n -> ascii_text (Itoa n) = true) as Hn.
  { intros n Hn. apply (str_forall_impl is_digit); [apply digit_ascii|by apply Itoa_digits]. }
  destruct (Z.lt_ge_cases z 0); [|by apply Hn]. rewrite Itoa_neg by done. cbn. apply Hn. lia.
Qed.
Lemma ascii_pad n s : ascii_text s = true -> ascii_text (pad_zeros n s) = true.
Proof. induction n; [done|]. intros Hs. cbn. by apply IHn. Qed.
Lemma ascii_fmt_f n x : ascii_text (fmt_f n x) = true.
Proof.
  destruct x as [[]|[]| |[] m e]; cbn [fmt_f]; try done; destruct (n =? 0)%nat; cbn zeta;
    rewrite ?str_forall_app, ?ascii_Itoa; cbn [str_forall]; rewrite ?ascii_pad, ?ascii_Itoa by (done || apply ascii_Itoa); done.
Qed.

(** What is shown for a method and for a backend. *)
Definition counts (r : debugRegistry) (m : string) : method_row := {|
  mr_method := m; mr_requests := Itoa (stat CRequests r m); mr_errors := Itoa (stat CErrors r m);
  mr_latency := AvgLatency {| ms_Method := m; ms_Requests := stat CRequests r m; ms_Errors := stat CErrors r m; ms_Latency := stat CLatency r m |}
|}.
Definition load (b : LeastConnBalancer) (addr : string) : backend_row :=
  {| br_addr := addr; br_conns := Itoa (ActiveConns addr b) |}.

Definition countable (z : Z) : Prop := 0 <= z <= 2 ^ 53.
Definition registry_shown (r : debugRegistry) : Prop := forall m, is_Some (counters r !! m) ->
  ascii_text m = true /\ countable (stat CRequests r m) /\ countable (stat CErrors r m).
Definition backends_shown (srv : debugServer) : Prop := forall b addr, balancer srv = Some b ->
  addr ∈ balancerTargets srv -> ascii_text addr = true /\ countable (ActiveConns addr b).

(** The rows of a snapshot. *)
Definition row_of (m : methodSnapshot) : method_row :=
  {| mr_method := ms_Method m; mr_requests := Itoa (ms_Requests m); mr_errors := Itoa (ms_Errors m); mr_latency := AvgLatency m |}.
Definition backend_of (b : backendSnapshot) : backend_row :=
  {| br_addr := bs_Addr b; br_conns := Itoa (bs_ActiveConns b) |}.

Lemma mapM_rows {A B} (f : A -> jvalue) (g : jvalue -> option B) (h : A -> B) l :
  (forall x, g (f x) = Some (h x)) -> mapM g (f <$> l) = Some (h <$> l).
Proof. intros Hg. apply mapM_Some_2. induction l as [|x l IH]; [constructor|]. cbn. by constructor. Qed.

(** The page decodes what the endpoint encoded. *)
Lemma read_snapshot up goVer s : read_data (snapshot_json up goVer s) = Some {|
  pd_uptime := up; pd_version := "0.2.0"; pd_go := goVer; pd_methods := row_of <$> Methods s;
  pd_backends := backend_of <$> Backends s; pd_circuit := cs_State <$> Circuit s |}.
Proof.
  assert (list_prop read_method "methods" (snapshot_json up goVer s) = Some (row_of <$> Methods s)) as Hm.
  { unfold list_prop. replace (prop "methods" (snapshot_json up goVer s))
      with (Some match Methods s with [] => VNull | l => VArr (method_json <$> l) end)
      by (unfold snapshot_json; by destruct (Backends s), (Circuit s)).
    destruct (Methods s) as [|m ms]; [done|]. by apply mapM_rows. }
  assert (list_prop read_backend "backends" (snapshot_json up goVer s) = Some (backend_of <$> Backends s)) as Hb.
  { unfold list_prop. replace (prop "backends" (snapshot_json up goVer s))
      with (match Backends s with [] => None | l => Some (VArr (backend_json <$> l)) end)
      by (unfold snapshot_json; by destruct (Backends s), (Circuit s)).
    destruct (Backends s) as [|b bs]; [done|]. by apply mapM_rows. }
  unfold read_data. rewrite Hm, Hb. unfold snapshot_json. by destruct (Backends s), (Circuit s).
Qed.

Lemma printable_rows {A} (P : A -> Prop) (f : A -> jvalue) l :
  Forall P l -> (forall x, P x -> printable (f x) = true) -> forallb printable (f <$> l) = true.
Proof. intros Hl Hf. induction Hl as [|x l Hx _ IH]; [done|]. cbn. by rewrite Hf. Qed.

Lemma snapshot_printable up goVer s :
  ascii_text up = true -> ascii_text goVer = true ->
  Forall (fun m => ascii_text (ms_Method m) = true) (Methods s) ->
  Forall (fun b => ascii_text (bs_Addr b) = true) (Backends s) ->
  (forall c, Circuit s = Some c -> ascii_text (cs_State c) = true) ->
  printable (snapshot_json up goVer s) = true.
Proof.
  intros Hu Hg Hm Hb Hc. pose proof number_Itoa as HI. cbn [printable] in HI.
  assert (forallb printable (method_json <$> Methods s) = true) as Hms.
  { eapply printable_rows; [exact Hm|]. intros m Hm'. cbn -[str_forall Itoa]. rewrite Hm', !HI. unfold AvgLatency. by rewrite ascii_fmt_f. }
  assert (forallb printable (backend_json <$> Backends s) = true) as Hbs.
  { eapply printable_rows; [exact Hb|]. intros m Hm'. cbn -[str_forall Itoa]. by rewrite Hm', !HI. }
  unfold snapshot_json. cbn [printable]. rewrite !forallb_app.
  assert (forall c, Circuit s = Some c -> printable (circuit_json c) = true) as Hcs.
  { intros c E. cbn -[str_forall Itoa]. by rewrite (Hc c E), HI. }
  apply andb_true_iff. split; [|apply andb_true_iff; split].
  - cbn -[str_forall fmap printable]. cbn [printable]. rewrite Hu, Hg. destruct (Methods s); [done|]. cbn [printable]. by rewrite Hms.
  - destruct (Backends s); [done|]. cbn -[str_forall fmap printable]. cbn [printable]. by rewrite Hbs.
  - destruct (Circuit s) as [c|]; [|done]. cbn -[str_forall circuit_json printable]. by rewrite (Hcs c eq_refl).
Qed.

Definition circuit_card (s : CircuitState) : text * text :=
  match s with
  | CircuitClosed => ("card green", "var(--accent-green)")%go
  | CircuitOpen => ("card", "var(--accent)")%go
  | CircuitHalfOpen => ("card yellow", "var(--accent-yellow)")%go
  end.

(** What the page is to show: the counters of the methods named, the load of the
    backends, the state of the breaker. *)
Definition shown (names : list string) (reg : debugRegistry) (srv : debugServer) (up goVer : string) (d : dom) : dom := {|
  dom_uptime := cat ["Uptime: "%go; up];
  dom_version := "0.2.0";
  dom_go := js_or goVer "unknown";
  dom_circuit := match debugBreaker srv with Some cb => CircuitState_String (cb_state cb) | None => "N/A"%go end;
  dom_circuit_class := match debugBreaker srv with Some cb => fst (circuit_card (cb_state cb)) | None => dom_circuit_class d end;
  dom_circuit_color := match debugBreaker srv with Some cb => snd (circuit_card (cb_state cb)) | None => dom_circuit_color d end;
  dom_methods := match names with [] => no_methods | _ => cat ((fun m => method_html id (counts reg m)) <$> names) end;
  dom_backends :=
    match balancer srv, balancerTargets srv with
    | Some b, (_ :: _) as l => cat ((fun a => backend_html id (load b a)) <$> l)
    | _, _ => no_backends
    end
|}.

Lemma update_dom number_text data d d' :
  dom_uptime (update number_text data d) = dom_uptime d' -> dom_version (update number_text data d) = dom_version d' ->
  dom_go (update number_text data d) = dom_go d' -> dom_circuit (update number_text data d) = dom_circuit d' ->
  dom_circuit_class (update number_text data d) = dom_circuit_class d' ->
  dom_circuit_color (update number_text data d) = dom_circuit_color d' ->
  dom_methods (update number_text data d) = dom_methods d' -> dom_backends (update number_text data d) = dom_backends d' ->
  update number_text data d = d'.
Proof. destruct d'. cbn. intros; subst. done. Qed.

Section dashboard.
Context `{MapIter} {W : Type} `{HasClock W} `{Has W debugRegistry} `{Has W debugServer}.
Context (startTime : Z) (build_info : option string) (number_text : string -> string).

Abbreviation names_of reg := (sort_strings (fst <$> range_map 0 (counters reg))).

Lemma names_of_spec (reg : debugRegistry) : Sorted string_le (names_of reg) /\ NoDup (names_of reg) /\
  forall m, m ∈ names_of reg <-> is_Some (counters reg !! m).
Proof.
  split; [apply sort_strings_sorted|].
  assert (ms_Method <$> Methods (buildSnapshot reg None) = names_of reg) as E.
  { cbn [Methods buildSnapshot]. rewrite <- list_fmap_compose. apply list_fmap_id. }
  rewrite <- E. split; [apply (snapshot_methods reg None "")|]. intros m. apply (snapshot_methods reg None m).
Qed.

Lemma method_snapshot_stat reg m : method_snapshot reg m =
  {| ms_Method := m; ms_Requests := stat CRequests reg m; ms_Errors := stat CErrors reg m; ms_Latency := stat CLatency reg m |}.
Proof. unfold method_snapshot, stat. by destruct (counters reg !! m ≫= _). Qed.

(** The page after an update with a snapshot. *)
Lemma update_snapshot (reg : debugRegistry) (srv : debugServer) up goVer d :
  registry_shown reg -> backends_shown srv -> (forall z, countable z -> number_text (Itoa z) = Itoa z) ->
  let s := buildSnapshot reg (Some srv) in
  update number_text {| pd_uptime := up; pd_version := "0.2.0"; pd_go := goVer; pd_methods := row_of <$> Methods s;
    pd_backends := backend_of <$> Backends s; pd_circuit := cs_State <$> Circuit s |} d
  = shown (names_of reg) reg srv up goVer d.
Proof.
  intros Hreg Hsrv Hnum. destruct (names_of_spec reg) as (_ & _ & Hin). cbn zeta.
  apply update_dom; cbn [update shown dom_uptime dom_version dom_go dom_circuit dom_circuit_class dom_circuit_color
    dom_methods dom_backends pd_uptime pd_version pd_go pd_methods pd_backends pd_circuit Methods Backends Circuit buildSnapshot mbind option_bind]; try done.
  - by destruct (debugBreaker srv).
  - destruct (debugBreaker srv) as [cb|]; [|done]. cbn. by destruct (cb_state cb).
  - destruct (debugBreaker srv) as [cb|]; [|done]. cbn. by destruct (cb_state cb).
  - rewrite <- list_fmap_compose.
    assert (method_html number_text <$> (row_of ∘ method_snapshot reg <$> names_of reg) =
            (fun m => method_html id (counts reg m)) <$> names_of reg) as E.
    { rewrite <- list_fmap_compose. apply list_fmap_ext. intros i m Hm. unfold compose. rewrite method_snapshot_stat.
      destruct (Hreg m) as (_ & Hr & He); [apply Hin; by eapply list_elem_of_lookup_2|].
      unfold method_html. cbn [row_of counts mr_method mr_requests mr_errors mr_latency ms_Method ms_Requests ms_Errors]. by rewrite !Hnum. }
    rewrite <- E. by destruct (names_of reg).
  - destruct (balancer srv) as [b|] eqn:Eb; [|done].
    assert (backend_html number_text <$> (backend_of <$> ((fun addr => {| bs_Addr := addr; bs_ActiveConns := ActiveConns addr b |}) <$> balancerTargets srv)) =
            (fun a => backend_html id (load b a)) <$> balancerTargets srv) as E.
    { rewrite <- !list_fmap_compose. apply list_fmap_ext. intros i a Ha. unfold compose.
      destruct (Hsrv b a Eb) as (_ & Hc); [by eapply list_elem_of_lookup_2|]. unfold backend_html.
      cbn [backend_of load br_addr br_conns bs_Addr bs_ActiveConns]. by rewrite Hnum. }
    destruct (balancerTargets srv) as [|a l]; [done|]. exact (f_equal cat E).
Qed.

(** C22: the dashboard shows the registry.  When the page refreshes, a GET of the debug
    endpoint, encoded as JSON by the server and decoded by the page, leaves the server as
    it is and sets the page to one row per recorded method, in order of the names, with
    exactly its request and error counts and its average latency, one row per backend with
    its load, and the state of the breaker; for method and backend names in ASCII and
    counts up to 2^53, which JavaScript numbers represent exactly. *)
Theorem dashboard_shows_registry (r : Request) (w : W) (d : dom) :
  registry_shown (get w) -> backends_shown (get w) -> ascii_text (default "unknown" build_info) = true ->
  (forall z, countable z -> number_text (Itoa z) = Itoa z) -> r_method r = "GET" ->
  exists names rw, Sorted string_le names /\ NoDup names /\
    (forall m, m ∈ names <-> is_Some (counters (get w) !! m)) /\
    debug_handler startTime build_info new_writer r w = (w, rw) /\
    updateDashboard number_text rw d = shown names (get w) (get w) (uptime startTime (now_of w)) (default "unknown" build_info) d.
Proof.
  intros Hreg Hsrv Hgo Hnum Hr. exists (names_of (get w)). destruct (names_of_spec (get w)) as (Hs & Hnd & Hin).
  unfold debug_handler, debugHandler. rewrite Hr. change (bool_decide ("GET" = "OPTIONS")) with false.
  change (bool_decide ("GET" = "POST")) with false. cbn [andb]. cbn zeta.
  eexists. split; [done|]. split; [done|]. split; [done|]. split; [reflexivity|].
  rewrite <- update_snapshot by done. unfold updateDashboard, response. cbn [rw_sent rw_body Write_ fst Write WriteHeader set_header new_writer rw_fail app].
  change ((200 <=? 200) && (200 <=? 299)) with true. cbn iota. rewrite of_to_bytes, parse_encoded.
  - cbn [mbind option_bind]. by rewrite read_snapshot.
  - apply snapshot_printable; [|done| | |].
    + unfold uptime. by rewrite str_forall_app, ascii_fmt_f.
    + cbn [Methods buildSnapshot]. apply Forall_fmap, Forall_forall. intros m Hm%Hin. cbn. by apply Hreg.
    + cbn [Backends buildSnapshot]. destruct (balancer (get w)) as [b|] eqn:Eb; [|constructor].
      apply Forall_fmap, Forall_forall. intros a Ha. cbn. by apply (Hsrv b a).
    + intros c. cbn. destruct (debugBreaker (get w)) as [cb|]; [|done]. intros [= <-]. cbn. by destruct (cb_state cb).
Qed.
End dashboard.

(** ** A run *)
Definition busy_registry : debugRegistry :=
  RecordRequest "/b.S/Get" 2000000 true (RecordRequest "/a.S/Put" 1000000 false (RecordRequest "/b.S/Get" 3000000 false new_registry)).
Definition guarded_server : debugServer := {|
  balancer := Some (Register ["10.0.0.1:80"] NewLeastConnBalancer); balancerTargets := ["10.0.0.1:80"];
  debugBreaker := Some (ForceOpen 5 (NewCircuitBreaker 3 1000 1)) |}.

#[local] Instance pair_clock : HasClock (debugRegistry * debugServer) := {| now_of _ := 90000000000 |}.
#[local] Instance has_registry : Has (debugRegistry * debugServer) debugRegistry.
Proof. refine {| get := fst; put r w := (r, snd w) |}; done. Defined.
#[local] Instance has_server : Has (debugRegistry * debugServer) debugServer.
Proof. refine {| get := snd; put s w := (fst w, s) |}; done. Defined.

Definition get_debug (method path : string) : Request := {|
  r_method := method; r_path := path; r_query := ∅; r_header := ∅; r_remote := ""; r_ctx := Background;
  r_body := {| b_data := []; b_end := None |} |}.
Definition blank_dom : dom := {|
  dom_uptime := ""; dom_version := ""; dom_go := ""; dom_circuit := ""; dom_circuit_class := ""; dom_circuit_color := "";
  dom_methods := ""; dom_backends := "" |}.

Lemma busy_methods m : is_Some (counters busy_registry !! m) <-> m ∈ ["/a.S/Put"; "/b.S/Get"].
Proof.
  assert (counters busy_registry = list_to_map [("/a.S/Put", 1%nat); ("/b.S/Get", 0%nat)]) as -> by reflexivity.
  rewrite elem_of_cons, list_elem_of_singleton. cbn [list_to_map foldr]. split.
  - intros [p Hp]. apply lookup_insert_Some in Hp as [[<- _]|[_ Hp]]; [by left|right].
    apply lookup_insert_Some in Hp as [[<- _]|[_ Hp]]; [done|]. by rewrite lookup_empty in Hp.
  - intros [->| ->]; [rewrite lookup_insert_eq|rewrite lookup_insert_ne, lookup_insert_eq by done]; by eexists.
Qed.

Lemma busy_shown : registry_shown busy_registry.
Proof.
  intros m [->|[->|[]%elem_of_nil]%elem_of_cons]%busy_methods%elem_of_cons;
    (split; [reflexivity|split; vm_compute; split; discriminate]).
Qed.

Lemma dashboard_shows_registry_witness :
  let w := (busy_registry, guarded_server) in
  exists rw, debug_handler 0 (Some "go1.25.0") new_writer (get_debug "GET" "/__helix/debug") w = (w, rw) /\
    dom_circuit (updateDashboard id rw blank_dom) = "OPEN" /\
    dom_methods (updateDashboard id rw blank_dom) =
      cat ["<tr><td class=\qmono\q>/a.S/Put</td><td>1</td><td>0</td><td class=\qmono\q>1.00ms</td></tr>";
           "<tr><td class=\qmono\q>/b.S/Get</td><td>2</td><td>1</td><td class=\qmono\q>2.50ms</td></tr>"]%go.
Proof.
  intros w.
  destruct (dashboard_shows_registry 0 (Some "go1.25.0") id (get_debug "GET" "/__helix/debug") w blank_dom)
    as (names & rw & Hs & Hnd & Hin & Hrun & E); [exact busy_shown| |reflexivity|done|reflexivity|].
  { intros b a [= <-] Ha%list_elem_of_singleton. subst a. split; [reflexivity|vm_compute; split; discriminate]. }
  exists rw. split; [exact Hrun|].
  assert (names = ["/a.S/Put"; "/b.S/Get"]) as ->.
  { assert (["/a.S/Put"; "/b.S/Get"] ≡ₚ names) as Hp.
    { apply NoDup_Permutation; [apply (bool_decide_unpack _); exact I|done|]. intros m. rewrite Hin. symmetry. apply busy_methods. }
    apply Permutation_length_2_inv in Hp as [->|E2]; [done|]. rewrite E2 in Hs.
    apply Sorted_inv in Hs as [_ Hd]. by apply HdRel_inv in Hd. }
  rewrite E. split; reflexivity.
Defined.

(** ** The page's own references *)
Fixpoint until (q : ascii) (s : string) : string :=
  match s with "" => "" | String c s' => if Ascii.eqb c q then "" else String c (until q s') end.
(** The text between every occurrence of the opening and the closing character. *)
Fixpoint quoted_after (opening : text) (q : ascii) (s : string) : list string :=
  match s with
  | "" => []
  | String _ s' =>
      if HasPrefix s opening then until q (str_drop (String.length opening) s) :: quoted_after opening q s'
      else quoted_after opening q s'
  end.

(** the page is consistent: every element the script looks up is declared once, the
    script fetches the debug endpoint and posts below it, and its buttons post the two
    paths the handler knows. *)
Theorem page_consistent :
  let declared := quoted_after " id=\q" "034" dashboardHTML in
  let used := quoted_after "getElementById('" "'" dashboardHTML in
  NoDup declared /\ Forall (fun e => e ∈ declared) used /\
  quoted_after "fetch('" "'" dashboardHTML = ["/__helix/debug"; triggerCircuit ""] /\
  quoted_after "onclick=\qtriggerCircuit('" "'" dashboardHTML = ["open"; "close"].
Proof.
  assert (quoted_after " id=\q" "034" dashboardHTML =
    ["uptime"; "version-card"; "version-val"; "circuit-card"; "circuit-val"; "go-version-card"; "go-val"; "methods-body"; "backends-body"]) as ->
    by (vm_compute; reflexivity).
  assert (quoted_after "getElementById('" "'" dashboardHTML =
    ["uptime"; "version-val"; "go-val"; "circuit-val"; "circuit-card"; "methods-body"; "backends-body"]) as -> by (vm_compute; reflexivity).
  split; [apply (bool_decide_unpack _); exact I|]. split; [apply (bool_decide_unpack _); exact I|].
  split; vm_compute; reflexivity.
Qed.

(** names reach the page as markup: the script assigns rows to [innerHTML] without
    escaping, so a method name with tags in it becomes elements of the page. *)
Theorem dashboard_injects_markup :
  let evil := "<img src=x onerror=alert(1)>" in
  let reg := RecordRequest evil 0 false new_registry in
  let w := (reg, {| balancer := None; balancerTargets := []; debugBreaker := None |}) in
  let '(_, rw) := debug_handler 0 None new_writer (get_debug "GET" "/__helix/debug") w in
  Contains (dom_methods (updateDashboard id rw blank_dom)) evil = true.
Proof. vm_compute. reflexivity. Qed.
