(* ===== verification/ServerRun.v ===== *)
(** * The server ([runtimes/go/grpc_handler.go], [Server]; [runtimes/go/sniffer.go], the
    accept loop; [runtimes/go/batching.go], [RegisterBatchMethod])

    Construction from a configuration, registration, [Start] with the dispatch of accepted
    connections, and [Shutdown].  The components it is made of are those of [GrpcHandler],
    [Health], [Dashboard], [Sniffer] and [Server]; the operating system's answers are
    inputs.  The health checker and the fields the debug handler reads live in the world. *)
From S2P Require Import Prelude GoStrings Errors Context Http Compression Streams Routing GrpcHandler.
From S2P Require Import Health Sniffer Server Mux Debug Dashboard DashboardPage Breaker Helpers.

(** ** Construction *)
Record ServerConfig := {
  sc_SniffTimeout : Z;
  sc_DisableHealth : bool;
  sc_DisableMetrics : bool;
  sc_DisableDebugUI : bool;
  sc_TLSConfig : option (conn -> option conn)   (* the handshake *)
}.
Definition zero_ServerConfig : ServerConfig := {|
  sc_SniffTimeout := 0; sc_DisableHealth := false; sc_DisableMetrics := false; sc_DisableDebugUI := false; sc_TLSConfig := None |}.

Record Server (W V : Type) := {
  s_Addr : string;
  s_SniffTimeout : Z;
  s_Health : bool;              (* a health checker, in the world *)
  s_TLSConfig : option (conn -> option conn);
  s_grpcHandler : GRPCHandler W V;
  s_thriftProcessors : list nat
}.
Arguments s_Addr {W V} s.
Arguments s_SniffTimeout {W V} s.
Arguments s_Health {W V} s.
Arguments s_TLSConfig {W V} s.
Arguments s_grpcHandler {W V} s.
Arguments s_thriftProcessors {W V} s.

(** The fields of a new server that the debug handler reads. *)
Definition no_debug : debugServer := {| balancer := None; balancerTargets := []; debugBreaker := None |}.

Section construction.
Context `{MapIter} {W V : Type} `{HasClock W} `{Has W debugRegistry} `{Has W debugServer} `{Has W HealthChecker}.
Context `{HealthMessages V}.
Context (startTime : Z) (build_info : option string) (prometheus : HTTPHandler W).

Definition when {A} (b : bool) (f : A -> option A) (x : A) : option A := if b then f x else Some x.

(** The handler holds a pointer to its mux, so what is mounted later is served as well. *)
Definition NewServerWithConfig (addr : string) (config : ServerConfig) (w : W) : option (W * Server W V) :=
  let w := if sc_DisableHealth config then w else put NewHealthChecker w in
  let w := put no_debug w in
  mux ← when (negb (sc_DisableDebugUI config) || negb (sc_DisableMetrics config)) (MountDebugHandler startTime build_info) NewServeMux;
  mux ← when (negb (sc_DisableMetrics config)) (MountMetricsHandler prometheus) mux;
  mux ← when (negb (sc_DisableDebugUI config)) MountDebugUI mux;
  let handler := NewGRPCHandler (mux_ServeHTTP mux) in
  let handler := if sc_DisableHealth config then handler else RegisterHealthMethods handler in
  Some (w, {| s_Addr := addr; s_SniffTimeout := sc_SniffTimeout config; s_Health := negb (sc_DisableHealth config);
              s_TLSConfig := sc_TLSConfig config; s_grpcHandler := handler; s_thriftProcessors := [] |}).

Definition NewServer (addr : string) (w : W) : option (W * Server W V) := NewServerWithConfig addr zero_ServerConfig w.
End construction.

(** ** Registration *)
Section registration.
Context {W V : Type}.
Implicit Type s : Server W V.

Definition on_handler (f : GRPCHandler W V -> GRPCHandler W V) s : Server W V := {|
  s_Addr := s_Addr s; s_SniffTimeout := s_SniffTimeout s; s_Health := s_Health s; s_TLSConfig := s_TLSConfig s;
  s_grpcHandler := f (s_grpcHandler s); s_thriftProcessors := s_thriftProcessors s |}.

Definition server_RegisterMethod (path : string) (m : MethodInfo W V) : Server W V -> Server W V := on_handler (RegisterMethod path m).
Definition server_RegisterRESTRoute (method pattern handlerPath : string) : Server W V -> Server W V :=
  on_handler (RegisterRESTRoute method pattern handlerPath).
Definition server_AddInterceptor (i : UnaryServerInterceptor W V) : Server W V -> Server W V := on_handler (AddInterceptor i).

(** [invoke] is the method [Invoke] of the new scheduler. *)
Definition RegisterBatchMethod (path : string) (m : MethodInfo W V) (invoke : UnaryHandler W V) : Server W V -> Server W V :=
  server_RegisterMethod path {| mi_Decoder := mi_Decoder m; mi_Handler := invoke; mi_Binder := mi_Binder m;
    mi_IsStreaming := mi_IsStreaming m; mi_StreamHandler := mi_StreamHandler m |}.

Definition RegisterThriftProcessor (tp : nat) s : Server W V := {|
  s_Addr := s_Addr s; s_SniffTimeout := s_SniffTimeout s; s_Health := s_Health s; s_TLSConfig := s_TLSConfig s;
  s_grpcHandler := s_grpcHandler s; s_thriftProcessors := s_thriftProcessors s ++ [tp] |}.

Inductive registration :=
| RMethod (path : string) (m : MethodInfo W V)
| RRoute (method pattern handlerPath : string)
| RInterceptor (i : UnaryServerInterceptor W V)
| RBatch (path : string) (m : MethodInfo W V) (invoke : UnaryHandler W V)
| RThrift (tp : nat).
Definition register (s : Server W V) (op : registration) : Server W V :=
  match op with
  | RMethod path m => server_RegisterMethod path m s
  | RRoute method pattern handlerPath => server_RegisterRESTRoute method pattern handlerPath s
  | RInterceptor i => server_AddInterceptor i s
  | RBatch path m invoke => RegisterBatchMethod path m invoke s
  | RThrift tp => RegisterThriftProcessor tp s
  end.
End registration.

(** ** Starting

    What [Start] does to the operating system, in order. *)
Inductive os_call := OsRemove (path : string) | OsListen (network addr : string) | OsChmod (path : string) (mode : Z) | OsCloseListener.

Record os_answers := { os_listen : option error; os_chmod : option error }.

Definition chmod_error (e : error) : error := WrapError "failed to chmod UDS: " e.

Record SniffingListener := { sl_SniffTimeout : Z; sl_TLSConfig : option (conn -> option conn) }.
Definition NewSniffingListener : SniffingListener := {| sl_SniffTimeout := 100 * 1000000; sl_TLSConfig := None |}.

(** The set-up: the calls made and, if it succeeds, the sniffing listener that is started. *)
Definition Start {W V} (s : Server W V) (os : os_answers) : list os_call * res error SniffingListener :=
  let unix := Ebpf.hasUnixPrefix (s_Addr s) in
  let network := if unix then "unix" else "tcp" in
  let addr := if unix then Ebpf.stripUnixPrefix (s_Addr s) else s_Addr s in
  let calls := (if unix then [OsRemove addr] else []) ++ [OsListen network addr] in
  match os_listen os with
  | Some e => (calls, Err e)
  | None =>
      match (if unix then os_chmod os else None) with
      | Some e => (calls ++ [OsChmod addr 384; OsCloseListener], Err (chmod_error e))
      | None =>
          let sniffer := NewSniffingListener in
          (calls ++ (if unix then [OsChmod addr 384] else []),
           Ok {| sl_SniffTimeout := if 0 <? s_SniffTimeout s then s_SniffTimeout s else sl_SniffTimeout sniffer;
                 sl_TLSConfig := s_TLSConfig s |})
      end
  end.

(** What becomes of an accepted connection: queued for the HTTP server, read by one
    goroutine per processor, or closed. *)
Inductive fate := Queued (stream : bytes) | Processed (readers : list nat) (stream : bytes) (isCompact : bool) | FateClosed.

Definition dispatch {W V} (s : Server W V) (inShutdown : bool) (depth : nat) (c : conn) : fate :=
  match sniffAndRoute (s_TLSConfig s) depth c with
  | ToGRPC stream => Queued stream
  | ToThrift stream isCompact => if inShutdown then FateClosed else Processed (s_thriftProcessors s) stream isCompact
  | Closed => FateClosed
  end.

(** The accept loop: each accepted connection gets its own goroutine, which sees the flag
    as it is then; the first error of [Accept] ends the loop.  Keep-alive options of the
    socket are left out. *)
Fixpoint accept_loop {W V} (s : Server W V) (depth : nat) (accepts : list (res error (conn * bool))) : list fate :=
  match accepts with
  | Ok (c, flag) :: rest => dispatch s flag depth c :: accept_loop s depth rest
  | _ => []
  end.

(** ** The life cycle

    The listener, the queue and the HTTP server exist once [Start] has succeeded. *)
Record life := { lf_inShutdown : bool; lf_listener : option bool (* open *); lf_channel : option ChannelListener; lf_http : option bool (* serving *) }.
Definition new_life : life := {| lf_inShutdown := false; lf_listener := None; lf_channel := None; lf_http := None |}.

Definition started (l : life) : life := {|
  lf_inShutdown := lf_inShutdown l; lf_listener := Some true; lf_channel := Some NewChannelListener; lf_http := Some true |}.
Definition life_Start {W V} (s : Server W V) (os : os_answers) (l : life) : life * option error :=
  match snd (Start s os) with Ok _ => (started l, None) | Err e => (l, Some e) end.

(** Closing the listener and the HTTP server may fail; [sd_context]: the context ended
    before the connections did. *)
Record shutdown_answers := { sd_close : option error; sd_http : option error; sd_context : option error }.

Definition Shutdown (ans : shutdown_answers) (l : life) : life * option error :=
  if lf_inShutdown l then (l, None)
  else
    let err := match lf_listener l with Some _ => sd_close ans | None => None end in
    let err := match lf_http l, sd_http ans with Some _, Some e => Some e | _, _ => err end in
    ({| lf_inShutdown := true; lf_listener := (fun _ => false) <$> lf_listener l; lf_channel := cl_Close <$> lf_channel l;
        lf_http := (fun _ => false) <$> lf_http l |},
     match sd_context ans with Some e => Some e | None => err end).

(** ** Lemmas *)
Section lemmas.
Context `{MapIter} {W V : Type} `{HasClock W} `{Has W debugRegistry} `{Has W debugServer} `{Has W HealthChecker}.
Context `{HealthMessages V}.
Context (startTime : Z) (build_info : option string) (prometheus : HTTPHandler W).

(** The endpoints of a configuration: each base path with everything below it. *)
Definition endpoints (config : ServerConfig) : list (string * HTTPHandler W) :=
  (if negb (sc_DisableDebugUI config) || negb (sc_DisableMetrics config) then [("/__helix/debug", debug_handler startTime build_info)] else []) ++
  (if negb (sc_DisableMetrics config) then [("/metrics", prometheus); ("/__helix/metrics", prometheus)] else []) ++
  (if negb (sc_DisableDebugUI config) then [("/__helix/ui", uiHandler)] else []).

Definition new_handler (config : ServerConfig) : GRPCHandler W V :=
  let handler := NewGRPCHandler (mux_ServeHTTP (mounted (endpoints config))) in
  if sc_DisableHealth config then handler else RegisterHealthMethods handler.

(** Construction never panics, and mounts those endpoints. *)
Lemma new_server addr config w :
  NewServerWithConfig startTime build_info prometheus addr config w =
  Some (put no_debug (if sc_DisableHealth config then w else put NewHealthChecker w),
        {| s_Addr := addr; s_SniffTimeout := sc_SniffTimeout config; s_Health := negb (sc_DisableHealth config);
           s_TLSConfig := sc_TLSConfig config; s_grpcHandler := new_handler config; s_thriftProcessors := [] |}).
Proof. unfold NewServerWithConfig, new_handler, endpoints. by destruct (sc_DisableDebugUI config), (sc_DisableMetrics config). Qed.

Lemma endpoints_ok config : Forall (fun e => is_subtree (fst e) = false) (endpoints config) /\
  separate (fst <$> endpoints config) = true /\ NoDup (fst <$> endpoints config).
Proof.
  unfold endpoints. destruct (sc_DisableDebugUI config), (sc_DisableMetrics config); cbn [negb orb app fmap list_fmap fst];
    (split; [repeat constructor|split; [reflexivity|apply (bool_decide_unpack _); exact I]]).
Qed.

Lemma register_mux (s : Server W V) ops : gh_debugMux (s_grpcHandler (foldl register s ops)) = gh_debugMux (s_grpcHandler s).
Proof. revert s. induction ops as [|op ops IH]; intros s; [done|]. cbn [foldl]. rewrite IH. by destruct op. Qed.
End lemmas.

(** ** Properties *)

(** C21: a server serves exactly the endpoints its configuration enables.  A server is
    built from every configuration; whatever methods, REST routes, interceptors and Thrift
    processors the application registers afterwards, a request for a clean path below
    [/__helix/], or for [/metrics], is answered by the debug handler, the Prometheus
    handler or the dashboard if its endpoint is enabled, and by 404 otherwise: no
    registration can take such a path over, and no disabled endpoint is reachable. *)
Theorem server_endpoints {W V C} `{MapIter} `{HasClock W} `{Has W debugRegistry} `{Has W debugServer} `{Has W HealthChecker}
    `{HealthMessages V} (startTime : Z) (build_info : option string) (prometheus : HTTPHandler W)
    (reg : registry) (ws : websocket C) (ws_respond : C -> ResponseWriter -> ResponseWriter) (json_error : string -> string)
    (addr : string) (config : ServerConfig) (w0 : W) :
  exists w1 s, NewServerWithConfig startTime build_info prometheus addr config w0 = Some (w1, s) /\
    forall (ops : list registration) (rw : ResponseWriter) (r : Request) (w : W),
    is_debug_path (r_path r) = true -> cleanPath (r_path r) = r_path r ->
    ServeHTTP reg ws ws_respond json_error (s_grpcHandler (foldl register s ops)) rw r w =
    (if (negb (sc_DisableDebugUI config) || negb (sc_DisableMetrics config)) && under (r_path r) "/__helix/debug"
     then debug_handler startTime build_info rw r w
     else if negb (sc_DisableMetrics config) && (under (r_path r) "/metrics" || under (r_path r) "/__helix/metrics")
     then prometheus rw r w
     else if negb (sc_DisableDebugUI config) && under (r_path r) "/__helix/ui" then uiHandler rw r w
     else (w, NotFound rw)).
Proof.
  eexists _, _. split; [apply new_server|]. intros ops rw r w Hd Hc.
  unfold ServeHTTP. rewrite Hd, register_mux. cbn [s_grpcHandler]. unfold new_handler.
  assert (gh_debugMux (if sc_DisableHealth config then NewGRPCHandler (mux_ServeHTTP (mounted (endpoints startTime build_info prometheus config)))
    else RegisterHealthMethods (NewGRPCHandler (mux_ServeHTTP (mounted (endpoints startTime build_info prometheus config))))) =
    mux_ServeHTTP (mounted (endpoints startTime build_info prometheus config))) as -> by by destruct (sc_DisableHealth config).
  destruct (endpoints_ok startTime build_info prometheus config) as (Hplain & Hsep & Hnd). rewrite mux_serves by done.
  unfold endpoints. destruct (sc_DisableDebugUI config), (sc_DisableMetrics config); cbn [negb orb andb app List.find fst];
    repeat match goal with |- context [under ?p ?b] => destruct (under p b) end; reflexivity.
Qed.

(** *** A world for concrete runs *)
Definition world : Type := debugRegistry * debugServer * HealthChecker.
#[local] Instance world_clock : HasClock world := {| now_of _ := 0 |}.
#[local] Instance world_registry : Has world debugRegistry.
Proof. refine {| get w := fst (fst w); put r w := (r, snd (fst w), snd w) |}; done. Defined.
#[local] Instance world_server : Has world debugServer.
Proof. refine {| get w := snd (fst w); put s w := (fst (fst w), s, snd w) |}; done. Defined.
#[local] Instance world_health : Has world HealthChecker.
Proof. refine {| get w := snd w; put h w := (fst w, h) |}; done. Defined.
#[local] Instance no_json : health_json := {| hj_Unmarshal _ v := Ok v; hj_Marshal _ := Ok (to_bytes "{}") |}.
Definition blank_world : world := (new_registry, no_debug, NewHealthChecker).
Definition no_prometheus : HTTPHandler world := fun rw _ w => (w, rw).
Definition quiet_config : ServerConfig := {|
  sc_SniffTimeout := 0; sc_DisableHealth := false; sc_DisableMetrics := true; sc_DisableDebugUI := true; sc_TLSConfig := None |}.

(** With everything disabled a route on the path of the dashboard is not reached. *)
Lemma server_endpoints_witness :
  exists w1 (s : Server world health_msg), NewServerWithConfig 0 None no_prometheus ":8080" quiet_config blank_world = Some (w1, s) /\
    fst (fst (response (snd (ServeHTTP ∅ no_websocket (fun _ rw => rw) (fun s => s)
      (s_grpcHandler (foldl register s [RRoute "GET" "/__helix/ui" "/page"; RMethod "/page" health_method])) new_writer
      (get_debug "GET" "/__helix/ui") w1)))) = 404.
Proof.
  destruct (server_endpoints (V := health_msg) 0 None no_prometheus ∅ no_websocket (fun _ rw => rw) (fun s => s) ":8080" quiet_config blank_world)
    as (w1 & s & Hs & Hrun).
  exists w1, s. split; [exact Hs|]. rewrite Hrun by reflexivity. reflexivity.
Defined.

(** the health service.  A new server answers health checks unless they are disabled,
    and then reports the path as unknown: any service starts unknown, the server itself
    ([""]) as serving. *)
Theorem server_health {W V C} `{MapIter} `{HasClock W} `{Has W debugRegistry} `{Has W debugServer} `{Has W HealthChecker}
    `{HealthMessages V} (startTime : Z) (build_info : option string) (prometheus : HTTPHandler W)
    (reg : registry) (ws : websocket C) (ws_respond : C -> ResponseWriter -> ResponseWriter) (json_error : string -> string)
    (addr : string) (config : ServerConfig) (w0 w : W) (service : string) :
  (length (to_bytes service) < 128)%nat ->
  exists w1 s rw, NewServerWithConfig startTime build_info prometheus addr config w0 = Some (w1, s) /\
    ServeHTTP reg ws ws_respond json_error (s_grpcHandler s) new_writer
      (grpc_request health_path "" (frame 0 (proto_health_request service))) w = (w, rw) /\
    if sc_DisableHealth config then rw = write_grpc_status "12" ("path " +:+ health_path +:+ " not found") new_writer
    else snd (response rw) = frame 0 (health_Marshal (Check service (get w))).
Proof.
  intros Hl. rewrite new_server. unfold new_handler. destruct (sc_DisableHealth config).
  - eexists _, _, _. split; [reflexivity|]. split; reflexivity.
  - destruct (serve_health reg ws ws_respond json_error (RegisterHealthMethods (NewGRPCHandler
      (mux_ServeHTTP (mounted (endpoints startTime build_info prometheus config))))) service w) as (rw & Hrun & Hr);
      [done|done|apply lookup_insert_eq|done|].
    eexists _, _, rw. split; [reflexivity|]. split; [exact Hrun|]. by rewrite Hr.
Qed.

Lemma server_health_witness :
  exists w1 (s : Server world health_msg) rw, NewServerWithConfig 0 None no_prometheus ":8080" zero_ServerConfig blank_world = Some (w1, s) /\
    ServeHTTP ∅ no_websocket (fun _ rw => rw) (fun s => s) (s_grpcHandler s) new_writer
      (grpc_request health_path "" (frame 0 (proto_health_request "db"))) blank_world = (blank_world, rw) /\
    snd (response rw) = frame 0 [].
Proof.
  exact (server_health (V := health_msg) 0 None no_prometheus ∅ no_websocket (fun _ rw => rw) (fun s => s) ":8080" zero_ServerConfig
    blank_world blank_world "db" ltac:(cbn; lia)).
Defined.

(** the buttons of the dashboard do nothing.  A server never has a breaker for the debug
    handler: what the page posts is answered with success, and no breaker is opened or
    closed, before or after. *)
Theorem force_has_no_effect {W} `{MapIter} `{HasClock W} `{Has W debugRegistry} `{Has W debugServer}
    (startTime : Z) (build_info : option string) (action : string) (w : W) :
  get w = no_debug -> action = "open" \/ action = "close" ->
  let '(w', rw) := debug_handler startTime build_info new_writer (get_debug "POST" (triggerCircuit action)) w in
  get w' = no_debug /\ fst (fst (response rw)) = 200 /\ Contains (of_bytes (snd (response rw))) "success" = true.
Proof.
  intros Hw [->| ->]; unfold debug_handler; cbn [r_method r_path get_debug]; unfold debugHandler;
    change (bool_decide ("POST" = "OPTIONS")) with false; change (bool_decide ("POST" = "POST")) with true; cbn [andb];
    [change (HasSuffix (triggerCircuit "open") "/circuit/open") with true
    |change (HasSuffix (triggerCircuit "close") "/circuit/open") with false; change (HasSuffix (triggerCircuit "close") "/circuit/close") with true];
    cbn iota; rewrite get_put, Hw; split_and!; reflexivity.
Qed.

Lemma force_has_no_effect_witness :
  let '(w', rw) := debug_handler 0 None new_writer (get_debug "POST" "/__helix/debug/circuit/open") blank_world in
  get w' = no_debug /\ fst (fst (response rw)) = 200.
Proof.
  destruct (force_has_no_effect (W := world) 0 None "open" blank_world) as (H1 & H2 & _); [reflexivity|by left|].
  split; [exact H1|exact H2].
Defined.

(** *** Start *)
Definition is_open (os : os_answers) (c : os_call) : Z :=
  match c with OsListen _ _ => match os_listen os with Some _ => 0 | None => 1 end | OsCloseListener => -1 | _ => 0 end.
(** Listeners opened and not closed. *)
Definition open_listeners (os : os_answers) (calls : list os_call) : Z := foldr (fun c n => is_open os c + n) 0 calls.

(** a failed start leaves nothing open.  Exactly a start that succeeds has its listener
    open; a Unix socket is bound to the path without its prefix and is restricted to the
    owner before any connection is accepted; the error is the one of the failing call. *)
Theorem start_outcome {W V} (s : Server W V) (os : os_answers) :
  let '(calls, result) := Start s os in
  open_listeners os calls = (if is_ok result then 1 else 0) /\
  match result with
  | Ok sl => os_listen os = None /\ 0 < sl_SniffTimeout sl /\
      forall path, s_Addr s = "unix://" +:+ path -> calls = [OsRemove path; OsListen "unix" path; OsChmod path 384]
  | Err e => os_listen os = Some e \/ exists e', os_chmod os = Some e' /\ e = chmod_error e'
  end.
Proof.
  unfold Start. destruct (Ebpf.hasUnixPrefix (s_Addr s)) eqn:Eu.
  - destruct (os_listen os) as [e|] eqn:El; cbn -[Ebpf.stripUnixPrefix]; rewrite ?El; [split; [done|by left]|].
    destruct (os_chmod os) as [e|] eqn:Ec; cbn -[Ebpf.stripUnixPrefix]; rewrite El; [split; [done|right; by eexists]|].
    split; [done|]. split; [done|]. split; [destruct (Z.ltb_spec 0 (s_SniffTimeout s)); lia|].
    intros path Ep.
    by replace (Ebpf.stripUnixPrefix (s_Addr s)) with path by (rewrite Ep; symmetry; apply Ebpf.strip_unix).
  - destruct (os_listen os) as [e|] eqn:El; cbn -[Ebpf.stripUnixPrefix]; rewrite ?El; [split; [done|by left]|].
    split; [done|]. split; [done|]. split; [destruct (Z.ltb_spec 0 (s_SniffTimeout s)); lia|].
    intros path Ep. rewrite Ep in Eu. unfold Ebpf.hasUnixPrefix in Eu. cbn in Eu. by destruct path.
Qed.

(** every connection accepted before the first error has one fate, its own, whatever the
    others do. *)
Lemma accept_loop_each {W V} (s : Server W V) (depth : nat) (accepted : list (conn * bool)) (e : error) rest :
  accept_loop s depth ((Ok <$> accepted) ++ Err e :: rest) = (fun cf => dispatch s (snd cf) depth (fst cf)) <$> accepted.
Proof. induction accepted as [|[c f] l IH]; [done|]. cbn. f_equal. exact IH. Qed.

(** Thrift connections and processors: every registered processor gets a goroutine that
    reads the same connection, so with two of them each sees a part of the stream, and with
    none the connection is neither read nor closed. *)
Theorem thrift_readers {W V} (s : Server W V) (depth : nat) (c : conn) (stream : bytes) (compact : bool) :
  sniffAndRoute (s_TLSConfig s) depth c = ToThrift stream compact ->
  dispatch s false depth c = Processed (s_thriftProcessors s) stream compact /\ dispatch s true depth c = FateClosed.
Proof. intros E. unfold dispatch. by rewrite E. Qed.

Lemma thrift_readers_witness :
  let s : Server world health_msg := {| s_Addr := ""; s_SniffTimeout := 0; s_Health := false; s_TLSConfig := None;
    s_grpcHandler := NewGRPCHandler no_prometheus; s_thriftProcessors := [] |} in
  dispatch s false 0 {| c_early := 8; c_stream := [x82; x21; x00; x00; x00; x00; x00; x00] |}
  = Processed [] [x82; x21; x00; x00; x00; x00; x00; x00] true.
Proof. intros s. exact (proj1 (thrift_readers s 0 {| c_early := 8; c_stream := [x82; x21; x00; x00; x00; x00; x00; x00] |} _ true eq_refl)). Defined.

(** *** The life cycle *)

(** shutdown stops a server that was started.  The listener and the queue are closed, the
    HTTP server is shut down, and the answer is the error of the context if it ended first,
    else of the HTTP server, else of the listener; another shutdown does nothing more. *)
Theorem shutdown_stops {W V} (s : Server W V) (os : os_answers) (ans ans' : shutdown_answers) (l1 : life) :
  life_Start s os new_life = (l1, None) ->
  let '(l2, err) := Shutdown ans l1 in
  lf_listener l2 = Some false /\ cl_closed <$> lf_channel l2 = Some true /\ lf_http l2 = Some false /\
  err = match sd_context ans, sd_http ans with Some e, _ => Some e | None, Some e => Some e | None, None => sd_close ans end /\
  Shutdown ans' l2 = (l2, None).
Proof.
  unfold life_Start. destruct (snd (Start s os)); [|done]. intros [= <-]. cbn.
  by destruct (sd_context ans), (sd_http ans).
Qed.

Lemma shutdown_stops_witness :
  let s : Server world health_msg := {| s_Addr := ":1"; s_SniffTimeout := 0; s_Health := false; s_TLSConfig := None;
    s_grpcHandler := NewGRPCHandler no_prometheus; s_thriftProcessors := [] |} in
  snd (Shutdown {| sd_close := Some ErrClosed; sd_http := Some ErrCanceled; sd_context := None |} (started new_life)) = Some ErrCanceled.
Proof.
  intros s. refine (proj1 (proj2 (proj2 (proj2 (shutdown_stops s {| os_listen := None; os_chmod := None |}
    {| sd_close := Some ErrClosed; sd_http := Some ErrCanceled; sd_context := None |}
    {| sd_close := None; sd_http := None; sd_context := None |} (started new_life) _))))). reflexivity.
Defined.

(** a server that is shut down before it starts cannot be stopped: [Start] does not look
    at the flag and listens, and every later shutdown returns at once without an error. *)
Theorem early_shutdown_unstoppable {W V} (s : Server W V) (os : os_answers) (ans : shutdown_answers) (later : list shutdown_answers) (l2 : life) :
  life_Start s os (fst (Shutdown ans new_life)) = (l2, None) ->
  let l3 := foldl (fun l a => fst (Shutdown a l)) l2 later in
  lf_listener l3 = Some true /\ lf_http l3 = Some true.
Proof.
  unfold life_Start. destruct (snd (Start s os)); [|done]. intros [= <-]. cbn zeta.
  induction later as [|x later IH]; [done|]. exact IH.
Qed.

Lemma early_shutdown_unstoppable_witness :
  let s : Server world health_msg := {| s_Addr := ":1"; s_SniffTimeout := 0; s_Health := false; s_TLSConfig := None;
    s_grpcHandler := NewGRPCHandler no_prometheus; s_thriftProcessors := [] |} in
  let ok := {| sd_close := None; sd_http := None; sd_context := None |} in
  lf_listener (fst (Shutdown ok (fst (life_Start s {| os_listen := None; os_chmod := None |} (fst (Shutdown ok new_life)))))) = Some true.
Proof.
  intros s ok. exact (proj1 (early_shutdown_unstoppable s {| os_listen := None; os_chmod := None |} ok [ok] _ eq_refl)).
Defined.

(** connections still in the queue when the server shuts down are dropped: the closed
    queue may answer the HTTP server with an error while a connection is in it, and nothing
    closes that connection. *)
Theorem shutdown_drops_queued (ans : shutdown_answers) (c : nat) (l : life) (cl : ChannelListener) :
  lf_inShutdown l = false -> lf_channel l = Some cl -> cl_conns cl = [c] ->
  exists cl', lf_channel (fst (Shutdown ans l)) = Some cl' /\ cl_conns cl' = [c] /\ cl_Accept true cl' = Some (cl', Err ErrClosed).
Proof.
  intros Hi Hc Hq. unfold Shutdown. rewrite Hi. cbn. rewrite Hc. cbn. eexists. split; [done|].
  unfold cl_Close, cl_Accept. destruct (cl_closed cl) eqn:E; cbn; rewrite Hq; [by rewrite E|done].
Qed.

Lemma shutdown_drops_queued_witness :
  let l := {| lf_inShutdown := false; lf_listener := Some true; lf_channel := Some {| cl_conns := [7%nat]; cl_closed := false |}; lf_http := Some true |} in
  exists cl', lf_channel (fst (Shutdown {| sd_close := None; sd_http := None; sd_context := None |} l)) = Some cl' /\ cl_conns cl' = [7%nat].
Proof.
  intros l. destruct (shutdown_drops_queued {| sd_close := None; sd_http := None; sd_context := None |} 7 l _ eq_refl eq_refl eq_refl)
    as (cl' & H1 & H2 & _). by exists cl'.
Defined.
