(* ===== verification/BenchServer.v ===== *)
(** * The benchmark server ([benchmarks/helix_server.go])

    A whole program: the schema of [tests/schema/test.proto] through the parser, the
    service registered as the generated [Register] function does
    ([tests/go/generated/test.pb.go]), a server of [ServerRun] around it, and a request. *)
From S2P Require Import Prelude GoStrings Errors Context Http Compression Streams Routing Ast Wire FlatBuf ProtoParser GrpcHandler.
From S2P Require Import Health Sniffer Mux Json Debug ServerRun Service.

Definition tab : string := String "009" "".
Definition eol : string := String "010" "".
(** [tests/schema/test.proto] *)
Definition test_proto : string :=
  Join [ "syntax = " +:+ String "034" ("proto3" +:+ String "034" ";"); "package helix.example;"; "";
         "message UserProfile {"; tab +:+ "int64 user_id = 1;"; tab +:+ "string username = 2;"; tab +:+ "string email = 3;"; "}"; "";
         "service UserProfileService {"; tab +:+ "rpc GetUserProfile (UserProfile) returns (UserProfile);"; "}"; "" ] eol.

(** What the parser makes of it. *)
Definition profile_field (name : string) (id : Z) (k : Type_) : FieldNode :=
  {| fn_Name := name; fn_ID := id; fn_Type := scalar k; fn_Optional := false |}.
Definition profile_method : MethodNode :=
  {| mn_Name := "GetUserProfile"; mn_InputType := "UserProfile"; mn_OutputType := "UserProfile"; mn_ClientStreaming := false;
     mn_ServerStreaming := false; mn_RESTMethod := ""; mn_RESTPath := "" |}.
Definition profile_service : ServiceNode := {| sv_Name := "UserProfileService"; sv_Methods := [profile_method] |}.
Definition profile_ast : AST :=
  {| Namespace := "helix.example"; Enums := [];
     Structs := [{| sn_Name := "UserProfile"; sn_HasFallback := false;
       sn_Fields := [profile_field "user_id" 1 TypeInt64; profile_field "username" 2 TypeString; profile_field "email" 3 TypeString] |}];
     Services := [profile_service] |}.

Lemma test_schema : ParseProto test_proto = Ok profile_ast.
Proof. vm_compute. reflexivity. Qed.

(** ** Values of several Go types

    The handler works on [interface{}]: here a generated struct or a health message. *)
Definition any : Type := object + health_msg.

Section any.
Context (a : AST) (j : json_lib) `{health_json}.

Definition on_any {A} (f : object -> A) (g : health_msg -> A) (v : any) : A := match v with inl o => f o | inr m => g m end.
Definition left_res (r : res error object) : res error any := let? o := r in Ok (inl o).
Definition right_res (r : res error health_msg) : res error any := let? m := r in Ok (inr m).
#[local] Existing Instance object_message.

#[export] Instance any_message : Message any := {|
  as_ProtoMarshaler := on_any (as_ProtoMarshaler (Message := object_message a j)) as_ProtoMarshaler;
  as_ProtoUnmarshaler := on_any (fun o => option_map (fun f data => left_res (f data)) (as_ProtoUnmarshaler (Message := object_message a j) o))
    (fun m => option_map (fun f data => right_res (f data)) (as_ProtoUnmarshaler m));
  as_FlatBuffersMarshaler := on_any (as_FlatBuffersMarshaler (Message := object_message a j)) as_FlatBuffersMarshaler;
  as_FlatBuffersUnmarshaler := on_any (fun o => option_map (fun f data => left_res (f data)) (as_FlatBuffersUnmarshaler (Message := object_message a j) o))
    (fun m => option_map (fun f data => right_res (f data)) (as_FlatBuffersUnmarshaler m));
  json_Unmarshal data := on_any (fun o => left_res (sonic_Unmarshal j data o)) (fun m => right_res (json_Unmarshal data m));
  json_Encode := on_any (sonic_Encode j) json_Encode;
  stdjson_Unmarshal data := on_any (fun o => left_res (encjson_Unmarshal j data o)) (fun m => right_res (stdjson_Unmarshal data m));
  stdjson_Marshal := on_any (encjson_Marshal j) stdjson_Marshal
|}.

#[export] Instance any_health : HealthMessages any.
Proof. refine {| hm_in m := inr m; hm_out v := on_any (fun _ => None) Some v |}; done. Defined.

(** A generated method among them: [dec] fills the struct it is given. *)
Definition any_method {W} (m : MethodInfo W object) : MethodInfo W any := {|
  mi_Decoder dec b :=
    let fill := fun o b => match dec (inl o) b with
                           | (b, Ok (inl o)) => (b, Ok o)
                           | (b, Ok (inr _)) => (b, Err panicked)
                           | (b, Err e) => (b, Err e)
                           end in
    let '(b, r) := mi_Decoder m fill b in (b, left_res r);
  mi_Handler ctx req w := match req with
                          | inl o => let '(w, r) := mi_Handler m ctx o w in (w, left_res r)
                          | inr _ => (w, Err panicked)
                          end;
  mi_Binder := option_map (fun bind req params => match req with
                                                  | inl o => left_res (bind o params)
                                                  | inr _ => Err (ErrorString "invalid request type for binder")
                                                  end) (mi_Binder m);
  mi_IsStreaming := false;
  mi_StreamHandler := fun _ => SReturn (Some panicked)
|}.
End any.

(** ** The program *)
(** [(s *myUserProfileService) GetUserProfile] *)
Definition user_name (id : Z) : string := "user-" +:+ Itoa id +:+ "-helix".
Definition user_email (id : Z) : string := "user-" +:+ Itoa id +:+ "@helix.com".
Definition profile (id : Z) : fmessage := [FInt id; FStr (to_bytes (user_name id)); FStr (to_bytes (user_email id))].
Definition GetUserProfile (req : fmessage) : res error fmessage :=
  match req with
  | FInt id :: _ => Ok (profile id)
  | _ => Err panicked
  end.

Section program.
Context `{MapIter} {W : Type} `{HasClock W} `{Has W debugRegistry} `{Has W debugServer} `{Has W HealthChecker}.
Context (j : json_lib) `{health_json}.
Context (startTime : Z) (build_info : option string) (prometheus : HTTPHandler W).
#[local] Instance messages : Message any := any_message profile_ast j.

Definition serviceImpl : service (W := W) := fun _ _ req w => (w, GetUserProfile req).

Definition RegisterUserProfileService (impl : service (W := W)) (s : Server W any) : Server W any :=
  let info := any_method (method_info profile_ast impl profile_method) in
  let s := server_RegisterMethod "/helix.example.UserProfileService/GetUserProfile" info s in
  server_RegisterMethod "/helix_example.UserProfileService/GetUserProfile" info s.

Record outcome := { oc_server : Server W any; oc_world : W; oc_calls : list os_call; oc_printed : list string; oc_exit : option Z }.

Definition main (os : os_answers) (w : W) : option outcome :=
  '(w, server) ← NewServer startTime build_info prometheus "127.0.0.1:8002" w;
  let server := server_RegisterRESTRoute "GET" "/v1/users/{user_id}" "/helix_example.UserProfileService/GetUserProfile" server in
  let server := RegisterUserProfileService serviceImpl server in
  let printed := ["Helix server listening on 127.0.0.1:8002"] in
  let '(calls, r) := Start server os in
  Some match r with
       | Err e => {| oc_server := server; oc_world := w; oc_calls := calls; oc_printed := printed ++ ["failed to start server: " +:+ Error e]; oc_exit := Some 1 |}
       | Ok _ => {| oc_server := server; oc_world := w; oc_calls := calls; oc_printed := printed; oc_exit := None |}
       end.

(** The registration is the one the generator describes. *)
Lemma registered_as_generated (impl : service (W := W)) (h : GRPCHandler W object) :
  let info := method_info profile_ast impl profile_method in
  RegisterService profile_ast impl profile_service h =
  RegisterMethod "/helix_example.UserProfileService/GetUserProfile" info
    (RegisterMethod "/helix.example.UserProfileService/GetUserProfile" info h).
Proof. reflexivity. Qed.

Definition profile_path (id : Z) : string := "/v1/users/" +:+ Itoa id.

Lemma Itoa_segment id : segment (Itoa id).
Proof.
  split; [destruct (Z.lt_ge_cases id 0); [by rewrite Itoa_neg|by apply Itoa_nonempty]|].
  pose proof (number_Itoa id) as Hn. cbn [printable] in Hn. apply andb_true_iff in Hn as [Hc _].
  revert Hc. apply str_forall_impl. intros c. by destruct c as [[] [] [] [] [] [] [] []].
Qed.

Lemma split_profile_path id : splitPath (profile_path id) = ["v1"; "users"; Itoa id].
Proof.
  change (profile_path id) with ("/" +:+ Join ["v1"; "users"; Itoa id] "/"). apply splitPath_Join; [done|].
  repeat constructor; try done; apply Itoa_segment.
Qed.

(** The handler of the program: a new one with one route and two paths of one method. *)
Definition profile_handler : GRPCHandler W any :=
  let info := any_method (method_info profile_ast serviceImpl profile_method) in
  RegisterMethod "/helix_example.UserProfileService/GetUserProfile" info
    (RegisterMethod "/helix.example.UserProfileService/GetUserProfile" info
      (RegisterRESTRoute "GET" "/v1/users/{user_id}" "/helix_example.UserProfileService/GetUserProfile"
        (new_handler startTime build_info prometheus zero_ServerConfig))).

Lemma main_outcome os w0 : exists oc, main os w0 = Some oc /\ s_grpcHandler (oc_server oc) = profile_handler /\
  oc_calls oc = [OsListen "tcp" "127.0.0.1:8002"] /\
  oc_exit oc = match os_listen os with None => None | Some _ => Some 1 end /\
  oc_printed oc = "Helix server listening on 127.0.0.1:8002" :: match os_listen os with None => [] | Some e => ["failed to start server: " +:+ Error e] end.
Proof.
  unfold main, NewServer. rewrite new_server. cbn [mbind option_bind]. unfold Start. cbn -[new_handler any_method profile_handler].
  destruct (os_listen os) as [e|]; eexists; (split; [reflexivity|]); done.
Qed.

Lemma bind_profile id : in_s 64 id ->
  Binder profile_ast profile_method (new_object profile_ast "UserProfile") {["user_id" := Itoa id]}
  = Ok {| o_type := "UserProfile"; o_fields := [FInt id; FStr []; FStr []] |}.
Proof.
  intros Hid. apply (binder_picks profile_ast profile_method [FInt id; FStr []; FStr []] ["user_id"]); [by eexists| | |done].
  - intros [|[|[|i]]] f v; cbn; intros [= <-] [= <-] Hn; try (exfalso; revert Hn; apply (bool_decide_unpack (_ ∉ _)); vm_compute; exact I).
    split; [done|apply lookup_singleton_eq].
  - intros [|[|[|i]]] f v; cbn; intros [= <-] [= <-] Hn; [by destruct Hn; left|by apply lookup_singleton_ne..].
Qed.

Lemma resolve_profile id : resolve profile_handler (rest_request "GET" (profile_path id)) =
  ("/helix_example.UserProfileService/GetUserProfile", {["user_id" := Itoa id]}).
Proof.
  unfold resolve, matchREST. cbn [r_method r_path rest_request]. rewrite split_profile_path.
  change (gh_restRoutes profile_handler) with [newRESTRoute "GET" "/v1/users/{user_id}" "/helix_example.UserProfileService/GetUserProfile"].
  cbn [r_query rest_request]. rewrite range_map_empty. reflexivity.
Qed.

Lemma serve_profile {C} (reg : registry) (ws : websocket C) ws_respond json_error id out w : in_s 64 id ->
  (forall o, sonic_Unmarshal j (to_bytes "{}") o = Ok o) ->
  sonic_Encode j {| o_type := "UserProfile"; o_fields := profile id |} = Ok out ->
  exists rw, ServeHTTP reg ws ws_respond json_error profile_handler new_writer (rest_request "GET" (profile_path id)) w = (w, rw) /\
    fst (fst (response rw)) = 200 /\ Header_Get (snd (fst (response rw))) "Content-Type" = "application/json" /\ snd (response rw) = out.
Proof.
  intros Hid Hj Hout.
  rewrite (serve_plain reg ws ws_respond json_error _ _ "/helix_example.UserProfileService/GetUserProfile" {["user_id" := Itoa id]}
    (any_method (method_info profile_ast serviceImpl profile_method))); [|done|apply resolve_profile|apply lookup_insert_eq|done|done].
  unfold serve_json.
  change (mi_Decoder (any_method (method_info profile_ast serviceImpl profile_method)) json_dec (r_body (rest_request "GET" (profile_path id))))
    with (let '(b, r) := match left_res (sonic_Unmarshal j (to_bytes "{}") (new_object profile_ast "UserProfile")) with
                         | Ok (inl o) => ({| b_data := []; b_end := None |}, Ok o)
                         | Ok (inr _) => ({| b_data := []; b_end := None |}, Err panicked)
                         | Err e => ({| b_data := []; b_end := None |}, Err e)
                         end in (b, left_res r) : body * res error any).
  rewrite Hj. cbn [left_res res_bind]. change (mi_Binder _) with (Some (fun (req : any) params => match req with
    | inl o => left_res (Binder profile_ast profile_method o params)
    | inr _ => Err (ErrorString "invalid request type for binder") end)). cbn iota beta.
  rewrite bool_decide_false by (apply map_non_empty_singleton). rewrite bind_profile by done. cbn [left_res res_bind].
  unfold call_chain. change (gh_chained profile_handler) with (@None (UnaryServerInterceptor W any)). cbn -[new_writer profile]. unfold method_handler. rewrite bool_decide_true by done. cbn -[new_writer profile]. rewrite Hout.
  eexists. split; [reflexivity|]. done.
Qed.
End program.

(** ** Theorems *)

(** C7: The benchmark server, from its schema to its answers.  The schema file parses to the
    AST the service was generated from; the program starts on every world, opens one
    listener, and exits with 1 exactly when that fails, saying why; and for every 64-bit
    number [id] a GET of [/v1/users/id] is answered with 200 and the JSON of the profile of
    user [id], at any later time.  The JSON library leaves a message alone on [{}] and
    encodes the answer. *)
Theorem benchmark_serves {W C} `{MapIter} `{HasClock W} `{Has W debugRegistry} `{Has W debugServer} `{Has W HealthChecker}
    (j : json_lib) `{health_json} (startTime : Z) (build_info : option string) (prometheus : HTTPHandler W)
    (reg : registry) (ws : websocket C) (ws_respond : C -> ResponseWriter -> ResponseWriter) (json_error : string -> string)
    (os : os_answers) (w0 : W) :
  (forall o, sonic_Unmarshal j (to_bytes "{}") o = Ok o) ->
  ParseProto test_proto = Ok profile_ast /\
  exists oc, main j startTime build_info prometheus os w0 = Some oc /\
    oc_calls oc = [OsListen "tcp" "127.0.0.1:8002"] /\
    oc_exit oc = match os_listen os with None => None | Some _ => Some 1 end /\
    oc_printed oc = "Helix server listening on 127.0.0.1:8002" :: match os_listen os with None => [] | Some e => ["failed to start server: " +:+ Error e] end /\
    forall id out w, in_s 64 id -> sonic_Encode j {| o_type := "UserProfile"; o_fields := profile id |} = Ok out ->
    exists rw, @ServeHTTP W any C _ (any_message profile_ast j) _ reg ws ws_respond json_error (s_grpcHandler (oc_server oc)) new_writer
        (rest_request "GET" (profile_path id)) w = (w, rw) /\
      fst (fst (response rw)) = 200 /\ Header_Get (snd (fst (response rw))) "Content-Type" = "application/json" /\ snd (response rw) = out.
Proof.
  intros Hj. split; [apply test_schema|]. destruct (main_outcome j startTime build_info prometheus os w0) as (oc & Em & Eh & Hoc).
  exists oc. split; [done|]. destruct Hoc as (Hc & He & Hp). split_and!; [done..|]. intros id out w Hid Hout. rewrite Eh. by apply serve_profile.
Qed.

(** *** An instance *)
#[local] Instance bench_clock : HasClock world := {| now_of _ := 0 |}.
#[local] Instance bench_registry : Has world debugRegistry.
Proof. refine {| Http.get w := fst (fst w); Http.put r w := (r, snd (fst w), snd w) |}; done. Defined.
#[local] Instance bench_debug : Has world debugServer.
Proof. refine {| Http.get w := snd (fst w); Http.put s w := (fst (fst w), s, snd w) |}; done. Defined.
#[local] Instance bench_health : Has world HealthChecker.
Proof. refine {| Http.get w := snd w; Http.put h w := (fst w, h) |}; done. Defined.
#[local] Instance bench_json : health_json := {| hj_Unmarshal _ v := Ok v; hj_Marshal _ := Ok (to_bytes "{}") |}.

(** A JSON library that writes profiles. *)
Definition profile_json : json_lib := {|
  sonic_Unmarshal _ o := Ok o;
  sonic_Encode o := match o_fields o with
                    | [FInt id; FStr name; FStr email] =>
                        Ok (to_bytes (marshal_compact (VObj [("user_id", VNum (Itoa id)); ("username", VString (of_bytes name)); ("email", VString (of_bytes email))])))
                    | _ => Err panicked
                    end;
  encjson_Unmarshal _ o := Ok o;
  encjson_Marshal o := Ok []
|}.

Lemma benchmark_serves_witness :
  exists oc rw, main profile_json 0 None no_prometheus {| os_listen := None; os_chmod := None |} blank_world = Some oc /\ oc_exit oc = None /\
    @ServeHTTP world any unit _ (any_message profile_ast profile_json) _ ∅ no_websocket (fun _ rw => rw) (fun s => s) (s_grpcHandler (oc_server oc)) new_writer
      (rest_request "GET" "/v1/users/-42") blank_world = (blank_world, rw) /\
    fst (fst (response rw)) = 200 /\
    parse_json (of_bytes (snd (response rw))) =
      Some (VObj [("user_id", VNum "-42"); ("username", VString "user--42-helix"); ("email", VString "user--42@helix.com")]).
Proof.
  destruct (benchmark_serves profile_json 0 None no_prometheus ∅ no_websocket (fun _ rw => rw) (fun s => s)
    {| os_listen := None; os_chmod := None |} blank_world (fun o => eq_refl)) as (_ & oc & Em & _ & He & _ & Hrun).
  destruct (Hrun (-42) _ blank_world ltac:(unfold in_s; cbn; lia) eq_refl) as (rw & Er & Hc & _ & Hb).
  exists oc, rw. split_and!; [exact Em|exact He|exact Er|exact Hc|]. rewrite Hb. vm_compute. reflexivity.
Defined.
