(* ===== verification/ProfileGen.v ===== *)
(** * The committed generated code ([tests/go/generated/test.pb.go])

    The Thrift half of the Go file generated from [tests/schema/test.proto], the code the
    end-to-end test serves: [Read] and [Write] of [UserProfile] and the processor of
    [UserProfileService], statement by statement, and the connection loop of
    [runtimes/go/thrift_handler.go] around it.  Each method is shown to be the pattern of
    [ThriftRpc] at the fields of the struct, whose lemmas carry the proofs.  The transcoder
    to Thrift compact of the same file is [WireThrift]'s, with the number of a string
    remembered. *)
From S2P Require Import Prelude GoStrings Errors Context Http Ast Wire WireThrift Transcode FlatBuf Server Service ThriftRpc BenchServer.

(** ** The struct *)
Record UserProfile := { UserID : Z; Username : bytes; Email : bytes }.
Definition new_profile : UserProfile := {| UserID := 0; Username := []; Email := [] |}.
Definition set_UserID (v : Z) (x : UserProfile) : UserProfile := {| UserID := v; Username := Username x; Email := Email x |}.
Definition set_Username (v : bytes) (x : UserProfile) : UserProfile := {| UserID := UserID x; Username := v; Email := Email x |}.
Definition set_Email (v : bytes) (x : UserProfile) : UserProfile := {| UserID := UserID x; Username := Username x; Email := v |}.

Section committed.
Context {P : Type} `{TProtocol P}.

Definition UserProfile_Write (x : UserProfile) : P -> P * option error :=
  WriteStructBegin "UserProfile" >>
  WriteFieldBegin "user_id" I64 1 >> WriteI64 (UserID x) >> WriteFieldEnd >>
  WriteFieldBegin "username" STRING 2 >> WriteString (Username x) >> WriteFieldEnd >>
  WriteFieldBegin "email" STRING 3 >> WriteString (Email x) >> WriteFieldEnd >>
  WriteFieldStop >> WriteStructEnd.

(** [if v, err := iprot.ReadT(ctx); err != nil { return err } else { x.F = v }] *)
Definition read_to {A} (read : P -> P * res error A) (store : A -> UserProfile) (p : P) : P * res error UserProfile :=
  let '(p, r) := read p in (p, let? v := r in Ok (store v)).
(** [iprot.Skip(ctx, fieldTypeId)], its error dropped. *)
Definition skip (fieldTypeId : Z) (x : UserProfile) (p : P) : P * res error UserProfile := (ignore (Skip fieldTypeId) p, Ok x).

(** [switch fieldId] *)
Definition UserProfile_case (x : UserProfile) (fieldTypeId fieldId : Z) : P -> P * res error UserProfile :=
  match fieldId with
  | 1 => if fieldTypeId =? I64 then read_to ReadI64 (fun v => set_UserID v x) else skip fieldTypeId x
  | 2 => if fieldTypeId =? STRING then read_to ReadString (fun v => set_Username v x) else skip fieldTypeId x
  | 3 => if fieldTypeId =? STRING then read_to ReadString (fun v => set_Email v x) else skip fieldTypeId x
  | _ => skip fieldTypeId x
  end.

(** The loop; it takes a field in each round, of which there is at most one for each byte. *)
Fixpoint UserProfile_fields (fuel : nat) (x : UserProfile) (p : P) : P * res error UserProfile :=
  match fuel with
  | O => (p, Err ErrEOF)
  | S fuel =>
      match ReadFieldBegin p with
      | (p, Err err) => (p, Err err)
      | (p, Ok (fieldTypeId, fieldId)) =>
          if fieldTypeId =? STOP then (p, Ok x)
          else match UserProfile_case x fieldTypeId fieldId p with
               | (p, Err err) => (p, Err err)
               | (p, Ok x) =>
                   match ReadFieldEnd p with
                   | (p, Some err) => (p, Err err)
                   | (p, None) => UserProfile_fields fuel x p
                   end
               end
      end
  end.

Definition UserProfile_Read (x : UserProfile) (p : P) : P * res error UserProfile :=
  match ReadStructBegin p with
  | (p, Some err) => (p, Err err)
  | (p, None) =>
      match UserProfile_fields (S (RemainingBytes p)) x p with
      | (p, Err err) => (p, Err err)
      | (p, Ok x) => match ReadStructEnd p with (p, Some err) => (p, Err err) | (p, None) => (p, Ok x) end
      end
  end.

(** ** The processor: [write_exception] is the [Write] method of the library's exceptions.
    [WrapTException] keeps the error. *)
Context {W : Type} (write_exception : Z -> string -> P -> P * option error).

Definition profile_handler : Type := context -> UserProfile -> W -> W * res error UserProfile.

Definition Processor_Process (GetUserProfile : profile_handler) (c : thrift_conn P W) : thrift_conn P W * (bool * option error) :=
  match ReadMessageBegin (iprot c) with
  | (i, Err err) => ({| iprot := i; oprot := oprot c; world := world c |}, (false, Some err))
  | (i, Ok (name, _, seqId)) =>
      if bool_decide (name = "GetUserProfile") then
        match UserProfile_Read new_profile i with
        | (i, Err err) => ({| iprot := i; oprot := oprot c; world := world c |}, (false, Some err))
        | (i, Ok args) =>
            let i := ignore ReadMessageEnd i in
            match GetUserProfile Background args (world c) with
            | (w, Err err) =>
                let o := ignore (WriteMessageBegin "GetUserProfile" EXCEPTION seqId) (oprot c) in
                let o := ignore (write_exception INTERNAL_ERROR (Error err)) o in
                let o := ignore Flush (ignore WriteMessageEnd o) in
                ({| iprot := i; oprot := o; world := w |}, (true, Some err))
            | (w, Ok res) =>
                let o := ignore (WriteMessageBegin "GetUserProfile" REPLY seqId) (oprot c) in
                let o := ignore (UserProfile_Write res) o in
                let o := ignore Flush (ignore WriteMessageEnd o) in
                ({| iprot := i; oprot := o; world := w |}, (true, None))
            end
        end
      else ({| iprot := i; oprot := oprot c; world := world c |}, (false, Some (ErrorString ("unknown method " +:+ name))))
  end.
End committed.
Arguments profile_handler : clear implicits.

(** ** The profile as the fields of its struct *)
Definition profile_fields : list FieldNode := struct_fields profile_ast "UserProfile".
Definition of_profile (x : UserProfile) : fmessage := [FInt (UserID x); FStr (Username x); FStr (Email x)].
Definition to_profile (x : fmessage) : UserProfile :=
  match x with [FInt id; FStr name; FStr mail] => {| UserID := id; Username := name; Email := mail |} | _ => new_profile end.

(** What Go's types give: 64 bits, and lengths below 2^31. *)
Definition profile_fits (x : UserProfile) : Prop :=
  in_s 64 (UserID x) /\ in_s 32 (Z.of_nat (length (Username x))) /\ in_s 32 (Z.of_nat (length (Email x))).

(** What a reader gets from a peer that sent the values [y] of the fields [fields]: for each
    field the value under its number and type, or what it had. *)
Definition received_profile (fields : list FieldNode) (y : fmessage) (x : UserProfile) : UserProfile :=
  to_profile (zip_with (received_value fields y) profile_fields (of_profile x)).

(** The handler as an implementation of the service of the schema. *)
Definition as_service {W} (GetUserProfile : profile_handler W) : service (W := W) := fun _ ctx x w =>
  let '(w, r) := GetUserProfile ctx (to_profile x) w in (w, let? y := r in Ok (of_profile y)).

(** The conversation a client sees: each call is answered in order, until one fails. *)
Fixpoint profile_conversation {W} (GetUserProfile : profile_handler W) (calls : list thrift_call) (w : W) : W * list item * option error :=
  match calls with
  | [] => (w, [], None)
  | c :: calls =>
      if bool_decide (cl_name c = "GetUserProfile") then
        match GetUserProfile Background (received_profile (cl_fields c) (cl_args c) new_profile) w with
        | (w, Err e) => (w, IMessage "GetUserProfile" EXCEPTION (cl_seq c) :: exception_items INTERNAL_ERROR (Error e), Some e)
        | (w, Ok y) =>
            let '(w, l, e) := profile_conversation GetUserProfile calls w in
            (w, IMessage "GetUserProfile" REPLY (cl_seq c) :: struct_items profile_fields (of_profile y) ++ l, e)
        end
      else (w, [], Some (ErrorString ("unknown method " +:+ cl_name c)))
  end.

(** What a handler may return: values Go's types hold, and messages shorter than 2^31. *)
Definition handler_fits {W} (GetUserProfile : profile_handler W) : Prop :=
  forall x w, profile_fits x -> match GetUserProfile Background x w with
    | (_, Ok y) => profile_fits y
    | (_, Err e) => in_s 32 (Z.of_nat (length (to_bytes (Error e))))
    end.

(** ** Lemmas *)
Lemma to_of_profile x : to_profile (of_profile x) = x.
Proof. by destruct x. Qed.

Lemma profile_fields_eq :
  profile_fields = [profile_field "user_id" 1 TypeInt64; profile_field "username" 2 TypeString; profile_field "email" 3 TypeString].
Proof. vm_compute. reflexivity. Qed.

Lemma profile_typed x : profile_fits x -> Forall2 thrift_value profile_fields (of_profile x).
Proof. intros (Hi & Hn & Hm). rewrite profile_fields_eq. repeat apply Forall2_cons_2; try apply Forall2_nil_2; done. Qed.

Lemma typed_profile l : Forall2 thrift_value profile_fields l -> exists x, l = of_profile x /\ profile_fits x.
Proof.
  rewrite profile_fields_eq. intros Hl.
  apply Forall2_cons_inv_l in Hl as (v1 & l1 & [_ H1] & Hl & ->). apply Forall2_cons_inv_l in Hl as (v2 & l2 & [_ H2] & Hl & ->).
  apply Forall2_cons_inv_l in Hl as (v3 & l3 & [_ H3] & Hl & ->). apply Forall2_nil_inv_l in Hl as ->.
  destruct v1 as [id| | |], v2 as [| |name|], v3 as [| |mail|]; cbn in H1, H2, H3; try done.
  by exists {| UserID := id; Username := name; Email := mail |}.
Qed.

Lemma profile_ids : NoDup (fn_ID <$> profile_fields).
Proof. apply (bool_decide_unpack (NoDup _)). vm_compute. exact I. Qed.
Lemma profile_code : Forall has_code profile_fields.
Proof. repeat constructor; done. Qed.

Lemma received_profile_fits fields y x : Forall2 thrift_value fields y -> profile_fits x ->
  profile_fits (received_profile fields y x) /\
  zip_with (received_value fields y) profile_fields (of_profile x) = of_profile (received_profile fields y x).
Proof.
  intros Hy Hx. pose proof (received_typed _ _ _ _ profile_code Hy (profile_typed x Hx)) as Ht.
  apply typed_profile in Ht as (z & E & Hz). unfold received_profile. rewrite E, to_of_profile. done.
Qed.

(** A result of the committed code as one of the pattern. *)
Definition as_fields {P} (r : P * res error UserProfile) : P * res error fmessage := (fst r, let? x := snd r in Ok (of_profile x)).

Section pattern.
Context {P : Type} `{TProtocol P}.

Lemma Write_pattern x p : UserProfile_Write x p = struct_Write "UserProfile" profile_fields (of_profile x) p.
Proof.
  rewrite profile_fields_eq. unfold UserProfile_Write, struct_Write, of_profile.
  cbn [thrift_write_fields thrift_write_value fn_Name fn_ID fn_Type tn_Kind scalar profile_field]. unfold and_then.
  change (thrift_type (profile_field _ _ TypeInt64)) with I64. change (thrift_type (profile_field _ _ TypeString)) with STRING.
  repeat match goal with
  | |- context [match ?c with (_, _) => _ end] =>
      lazymatch c with context [match _ with _ => _ end] => fail | _ => destruct c as [? [?|]]; [reflexivity|] end
  end.
  reflexivity.
Qed.

Lemma case_pattern x t i p : read_case profile_fields (of_profile x) t i p = as_fields (UserProfile_case x t i p).
Proof.
  rewrite profile_fields_eq. unfold read_case, UserProfile_case. cbn [list_find fn_ID profile_field].
  destruct (decide (1 = i)) as [<-|H1]; [|destruct (decide (2 = i)) as [<-|H2]; [|destruct (decide (3 = i)) as [<-|H3]]].
  - cbn [fmap option_fmap option_map prod_map fst snd]. change (thrift_type _) with I64. destruct (t =? I64); [|done].
    unfold thrift_read_value, read_to. cbn [fn_Type tn_Kind scalar profile_field]. by destruct (ReadI64 p) as [p' []].
  - cbn [fmap option_fmap option_map prod_map fst snd]. change (thrift_type _) with STRING. destruct (t =? STRING); [|done].
    unfold thrift_read_value, read_to. cbn [fn_Type tn_Kind scalar profile_field]. by destruct (ReadString p) as [p' []].
  - cbn [fmap option_fmap option_map prod_map fst snd]. change (thrift_type _) with STRING. destruct (t =? STRING); [|done].
    unfold thrift_read_value, read_to. cbn [fn_Type tn_Kind scalar profile_field]. by destruct (ReadString p) as [p' []].
  - cbn [fmap option_fmap option_map]. assert (i <> 1 /\ i <> 2 /\ i <> 3) as (N1 & N2 & N3) by done.
    destruct i as [|[[q|q|]|[q|q|]|]|q]; done.
Qed.

Lemma fields_pattern fuel x p : thrift_read_fields fuel profile_fields (of_profile x) p = as_fields (UserProfile_fields fuel x p).
Proof.
  revert x p. induction fuel as [|fuel IH]; intros x p; [done|]. cbn [thrift_read_fields UserProfile_fields].
  destruct (ReadFieldBegin p) as [p1 [[t i]|e]]; [|done]. destruct (t =? STOP); [done|]. rewrite case_pattern.
  destruct (UserProfile_case x t i p1) as [p2 [y|e]]; [|done]. cbn [as_fields fst snd res_bind].
  destruct (ReadFieldEnd p2) as [p3 [e|]]; [done|]. apply IH.
Qed.

Lemma Read_pattern x p : struct_Read profile_fields (of_profile x) p = as_fields (UserProfile_Read x p).
Proof.
  unfold struct_Read, UserProfile_Read. destruct (ReadStructBegin p) as [p1 [e|]]; [done|]. rewrite fields_pattern.
  destruct (UserProfile_fields _ x p1) as [p2 [y|e]]; [|done]. cbn. by destruct (ReadStructEnd p2) as [p3 [e|]].
Qed.

Lemma Process_pattern {W} write_exception (GetUserProfile : profile_handler W) c :
  Process write_exception profile_ast (as_service GetUserProfile) profile_service c
  = Processor_Process write_exception GetUserProfile c.
Proof.
  unfold Process, Processor_Process. destruct (ReadMessageBegin (iprot c)) as [i [[[name k] q]|e]]; [|done].
  cbn [List.find sv_Methods profile_service mn_Name profile_method mn_InputType mn_OutputType].
  case_bool_decide as En; [rewrite bool_decide_true by done|by rewrite bool_decide_false by done].
  change (mn_Name profile_method) with "GetUserProfile". change (mn_InputType profile_method) with "UserProfile".
  change (mn_OutputType profile_method) with "UserProfile".
  change (o_fields (new_object profile_ast "UserProfile")) with (of_profile new_profile).
  change (struct_fields profile_ast "UserProfile") with profile_fields. rewrite Read_pattern.
  destruct (UserProfile_Read new_profile i) as [i1 [args|e]]; [|done]. cbn [as_fields fst snd res_bind].
  unfold as_service. rewrite to_of_profile. destruct (GetUserProfile Background args (world c)) as [w [res|e]]; [|done].
  cbn [res_bind]. unfold ignore. by rewrite Write_pattern.
Qed.
End pattern.

(** The handler owes to the service of the schema what it owes to Go. *)
Lemma handler_lawful {W} (GetUserProfile : profile_handler W) : handler_fits GetUserProfile ->
  thrift_service profile_ast (as_service GetUserProfile) profile_service.
Proof.
  intros Hh. constructor; intros m.
  - intros Hm. apply list_elem_of_singleton in Hm as ->. split; [apply profile_ids|apply profile_code].
  - intros args w w' y Hm Hargs. apply list_elem_of_singleton in Hm as ->. apply typed_profile in Hargs as (x & -> & Hx).
    unfold as_service. rewrite to_of_profile. specialize (Hh x w Hx). destruct (GetUserProfile Background x w) as [w1 [z|e]]; [|done].
    intros [= <- <-]. by apply profile_typed.
  - intros args w w' e Hm Hargs. apply list_elem_of_singleton in Hm as ->. apply typed_profile in Hargs as (x & -> & Hx).
    unfold as_service. rewrite to_of_profile. specialize (Hh x w Hx). destruct (GetUserProfile Background x w) as [w1 [z|e1]]; [done|].
    by intros [= <- <-].
Qed.

Lemma conversation_profile {W} (GetUserProfile : profile_handler W) calls w : Forall call_ok calls ->
  conversation profile_ast (as_service GetUserProfile) profile_service calls w = profile_conversation GetUserProfile calls w.
Proof.
  intros Hc. revert w. induction Hc as [|c calls (_ & _ & _ & Hx) _ IH]; intros w; [done|]. cbn [conversation profile_conversation].
  unfold find_method. cbn [List.find sv_Methods profile_service]. change (mn_Name profile_method) with "GetUserProfile".
  case_bool_decide as En; [rewrite bool_decide_true by done|by rewrite bool_decide_false by done].
  assert (call_args profile_ast profile_method c = of_profile (received_profile (cl_fields c) (cl_args c) new_profile)) as ->
    by (apply (received_profile_fits (cl_fields c) (cl_args c) new_profile Hx); done).
  unfold as_service at 1. rewrite to_of_profile. destruct (GetUserProfile Background _ w) as [w1 [y|e]]; [|done]. cbn [res_bind]. rewrite IH.
  by destruct (profile_conversation GetUserProfile calls w1) as [[w2 l] r].
Qed.

Lemma loop_pattern {P} `{TProtocol P} {W} write_exception (GetUserProfile : profile_handler W) fuel c :
  thrift_loop (Process write_exception profile_ast (as_service GetUserProfile) profile_service) fuel c
  = thrift_loop (Processor_Process write_exception GetUserProfile) fuel c.
Proof.
  revert c. induction fuel as [|fuel IH]; intros c; [done|]. cbn [thrift_loop]. rewrite Process_pattern.
  destruct (Processor_Process write_exception GetUserProfile c) as [c' [[] [e|]]]; [done|apply IH|done|done].
Qed.

(** ** Theorems *)

(** C11: The committed struct reads what its peers write.  Over every protocol that keeps
    the laws, [Write] of a profile succeeds and adds exactly the items of its three fields;
    [Read], into any profile, of what a peer with any version of the struct wrote (fields of
    type int32, int64 and string under distinct numbers) takes exactly those items: a field
    gets the value that was written under its number and type, every other value is skipped,
    and the other fields keep what they had.  In particular [Read] returns what [Write] wrote. *)
Theorem thrift_versions {P} `{ProtocolLaws P} (x x0 : UserProfile) (fields : list FieldNode) (y : fmessage) (p : P) l rest :
  profile_fits x -> profile_fits x0 -> NoDup (fn_ID <$> fields) -> Forall2 thrift_value fields y -> holds p l ->
  (exists p1, UserProfile_Write x p = (p1, None) /\ holds p1 (l ++ struct_items profile_fields (of_profile x))) /\
  (forall q, holds q (struct_items fields y ++ rest) ->
    exists q', UserProfile_Read x0 q = (q', Ok (received_profile fields y x0)) /\ holds q' rest) /\
  (forall q, holds q (struct_items profile_fields (of_profile x) ++ rest) ->
    exists q', UserProfile_Read x0 q = (q', Ok x) /\ holds q' rest).
Proof.
  intros Hx Hx0 Hids Hy Hp.
  assert (forall gs z q, NoDup (fn_ID <$> gs) -> Forall2 thrift_value gs z -> holds q (struct_items gs z ++ rest) ->
    exists q', UserProfile_Read x0 q = (q', Ok (received_profile gs z x0)) /\ holds q' rest) as Hread.
  { intros gs z q Hgs Hz Hq. destruct (struct_Read_ok profile_fields gs z (of_profile x0) profile_ids profile_code Hgs Hz eq_refl q rest Hq) as (q' & E & Hq').
    exists q'. split; [|done]. rewrite (proj2 (received_profile_fits gs z x0 Hz Hx0)), Read_pattern in E.
    destruct (UserProfile_Read x0 q) as [q1 [r|e]]; [|done]. apply pair_equal_spec in E as [Eq Er]. cbn in Eq, Er.
    assert (of_profile r = of_profile (received_profile gs z x0)) as Ef by congruence.
    apply (f_equal to_profile) in Ef. rewrite !to_of_profile in Ef. by rewrite Eq, Ef. }
  split_and!.
  - rewrite Write_pattern. by apply struct_Write_ok; [apply profile_typed|].
  - intros q Hq. by apply Hread.
  - intros q Hq. destruct (Hread profile_fields (of_profile x) q profile_ids (profile_typed x Hx) Hq) as (q' & E & Hq').
    exists q'. split; [|done]. rewrite E. unfold received_profile. by rewrite received_same, to_of_profile by (done || apply profile_ids).
Qed.

(** C10: A Thrift connection to the committed service is a conversation.  Over every protocol
    that keeps the laws, for any handler and any sequence of well-formed calls on the input,
    [HandleThriftConnection] around the generated [Process] terminates, one pass per call
    and one for the end of the input, and
    leaves on the output exactly the conversation's items: each call of [GetUserProfile], in
    order, is answered with a REPLY under its sequence number, holding the handler's
    answer to the profile the client sent (whatever version of the struct it has), up to
    the first call that fails; a handler error is answered by an INTERNAL_ERROR exception,
    an unknown method by nothing, and both end the connection with that error. *)
Theorem thrift_connection {P} `{ProtocolLaws P} {W} (write_exception : Z -> string -> P -> P * option error)
    (GetUserProfile : profile_handler W) calls (c : thrift_conn P W) out :
  (forall kind msg, in_s 32 kind -> in_s 32 (Z.of_nat (length (to_bytes msg))) ->
    adds_items holds (write_exception kind msg) (exception_items kind msg)) ->
  handler_fits GetUserProfile -> Forall call_ok calls ->
  holds (iprot c) (concat (call_items <$> calls)) -> holds (oprot c) out ->
  exists c' e, thrift_loop (Processor_Process write_exception GetUserProfile) (S (length calls)) c = Some (c', ThriftError e) /\
    let '(w, l, failure) := profile_conversation GetUserProfile calls (world c) in
    world c' = w /\ holds (oprot c') (out ++ l) /\ (forall e', failure = Some e' -> e = e').
Proof.
  intros He Hh Hc Hi Ho. rewrite <- conversation_profile by done. setoid_rewrite <- loop_pattern.
  by apply connection_conversation; [|apply handler_lawful| | |].
Qed.

(** The transcoder of the committed file. *)
Definition UserProfile_Transpile (inp out : bytes) : res wire_error (nat * bytes) := transpile true profile_fields inp out.
Definition wire_profile (x : UserProfile) : message := [VInt (UserID x); VStr (Username x); VStr (Email x)].

(** The committed transcoder is exact: for every profile, transcoding its protobuf bytes
    into a buffer with room succeeds, and a Thrift compact reader of the output sees the
    fields that are set, each with its own number and value, also after a string. *)
Theorem profile_transcoder (x : UserProfile) (out : bytes) :
  in_s 64 (UserID x) -> Z.of_nat (length (encode profile_fields (wire_profile x))) < 2 ^ 63 ->
  (length (thrift_bytes true 0 profile_fields (wire_profile x)) < length out)%nat ->
  exists data n out', Marshal profile_fields (wire_profile x) = Ok data /\ UserProfile_Transpile data out = Ok (n, out') /\
    compact_read 4 (take n out') 0 = Some (set_fields profile_fields (wire_profile x)).
Proof.
  intros Hi Hsz Hroom.
  assert (Forall transcodable profile_fields /\ ascending 0 profile_fields) as [Ht Ha].
  { rewrite profile_fields_eq. split; [|cbn; lia]. constructor; [left; by right|]. by repeat constructor; right. }
  destruct (transcode_read true profile_fields (wire_profile x) out) as (data & n & out' & Hm & Hn & Hr); try done.
  - split; [apply profile_ids|]. rewrite profile_fields_eq. repeat constructor; cbn; lia.
  - rewrite profile_fields_eq. repeat apply Forall2_cons_2; try apply Forall2_nil_2; done.
  - exists data, n, out'. split_and!; [done..|]. rewrite seen_remembered in Hr by done. exact Hr.
Qed.

(** *** Instances: the binary protocol *)
#[local] Existing Instances Binary.protocol Binary.laws.

Definition ada : UserProfile := {| UserID := 42; Username := to_bytes "ada"; Email := to_bytes "ada@example.com" |}.
(** Another version of the struct: no number, no address, and an age. *)
Definition profile_v2 : list FieldNode := [profile_field "username" 2 TypeString; profile_field "age" 4 TypeInt32].

Lemma thrift_versions_witness :
  (exists p1, UserProfile_Write ada [] = (p1, None) /\ holds (P := bytes) p1 ([] ++ struct_items profile_fields (of_profile ada))) /\
  (forall q, holds (P := bytes) q (struct_items profile_v2 [FStr (to_bytes "eve"); FInt 30] ++ []) ->
    exists q', UserProfile_Read ada q = (q', Ok (set_Username (to_bytes "eve") ada)) /\ holds (P := bytes) q' []) /\
  (forall q, holds (P := bytes) q (struct_items profile_fields (of_profile ada) ++ []) ->
    exists q', UserProfile_Read ada q = (q', Ok ada) /\ holds (P := bytes) q' []).
Proof.
  apply (thrift_versions (P := bytes) ada ada profile_v2 [FStr (to_bytes "eve"); FInt 30] [] [] []).
  - split_and!; done.
  - split_and!; done.
  - apply (bool_decide_unpack (NoDup _)). vm_compute. exact I.
  - repeat apply Forall2_cons_2; [split; done..|apply Forall2_nil_2].
  - reflexivity.
Defined.

Lemma profile_transcoder_witness :
  exists data n out', Marshal profile_fields (wire_profile ada) = Ok data /\ UserProfile_Transpile data (replicate 64 x00) = Ok (n, out') /\
    compact_read 4 (take n out') 0 = Some [(1, VInt 42); (2, VStr (to_bytes "ada")); (3, VStr (to_bytes "ada@example.com"))].
Proof. apply (profile_transcoder ada); [done|vm_compute; reflexivity|vm_compute; lia]. Defined.

(** A handler that returns its argument, and fails once it has answered two calls. *)
Definition echo_twice : profile_handler Z := fun _ x w => if w <? 2 then (w + 1, Ok x) else (w, Err ErrClosed).
Definition get_call (seqId : Z) : thrift_call :=
  {| cl_name := "GetUserProfile"; cl_seq := seqId; cl_fields := profile_v2; cl_args := [FStr (to_bytes "eve"); FInt 30] |}.
Definition calls_conn (n : Z) (calls : list thrift_call) : thrift_conn bytes Z :=
  {| iprot := concat (Binary.encode_item <$> concat (call_items <$> calls)); oprot := []; world := n |}.
Definition eve : UserProfile := set_Username (to_bytes "eve") new_profile.

Lemma thrift_connection_witness :
  exists c' e, thrift_loop (Processor_Process Binary.write_exception echo_twice) 3 (calls_conn 0 [get_call 7; get_call 8]) = Some (c', ThriftError e) /\
    world c' = 2 /\
    holds (P := bytes) (oprot c') (IMessage "GetUserProfile" REPLY 7 :: struct_items profile_fields (of_profile eve) ++
      IMessage "GetUserProfile" REPLY 8 :: struct_items profile_fields (of_profile eve) ++ []) /\
    (forall e', None = Some e' -> e = e').
Proof.
  apply (thrift_connection (P := bytes) Binary.write_exception echo_twice [get_call 7; get_call 8] (calls_conn 0 [get_call 7; get_call 8]) []).
  - apply binary_exception.
  - intros x w Hx. unfold echo_twice. by destruct (w <? 2).
  - repeat apply Forall_cons_2; [| |done]; (split_and!; [done|done| |]).
    1, 3: apply (bool_decide_unpack (NoDup _)); vm_compute; exact I.
    all: repeat apply Forall2_cons_2; [split; done..|apply Forall2_nil_2].
  - reflexivity.
  - reflexivity.
Defined.

(** A failed call takes the connection with it: of three calls the second fails, gets its
    exception, and the third, though already sent, is never read. *)
Theorem thrift_failure_closes :
  exists c', thrift_loop (Processor_Process Binary.write_exception echo_twice) 4 (calls_conn 1 [get_call 7; get_call 8; get_call 9]) =
      Some (c', ThriftError ErrClosed) /\
    Binary.binary_holds (oprot c') ((IMessage "GetUserProfile" REPLY 7 :: struct_items profile_fields (of_profile eve)) ++
      IMessage "GetUserProfile" EXCEPTION 8 :: exception_items INTERNAL_ERROR (Error ErrClosed)) /\
    Binary.binary_holds (iprot c') (call_items (get_call 9)).
Proof. eexists. by split_and!; vm_compute. Qed.

(** A client that calls a method the service does not have gets no answer. *)
Theorem thrift_unknown_silent :
  let c := {| cl_name := "Put"; cl_seq := 7; cl_fields := profile_v2; cl_args := [FStr []; FInt 0] |} in
  exists c', thrift_loop (Processor_Process Binary.write_exception echo_twice) 2 (calls_conn 0 [c]) =
      Some (c', ThriftError (ErrorString "unknown method Put")) /\ oprot c' = [].
Proof. eexists. by split; vm_compute. Qed.
