(* ===== verification/Operator.v ===== *)
(** * The Kubernetes operator's reconcile loop
    ([integrations/helix-operator/internal/controller/helixservice_controller.go])

    The cluster is what the API server stores: the custom resources and the
    deployments, by namespace and name.  Every API call may fail; which calls fail is
    a parameter. *)
From S2P Require Import Prelude GoStrings Errors.

Record HelixServiceSpec := {
  hs_Replicas : option Z;
  hs_Image : string;
  hs_EnableEBPFBypass : bool;
  hs_RateLimit : Z;
  hs_VaultSecretPath : string
}.
Record HelixService := { hs_Name : string; hs_Namespace : string; hs_Spec : HelixServiceSpec }.

(** The parts of a deployment the controller sets. *)
Record Deployment := {
  dep_Name : string;
  dep_Namespace : string;
  dep_Owner : option string;
  dep_Replicas : Z;
  dep_Selector : gmap string string;
  dep_Labels : gmap string string;
  dep_Annotations : gmap string string;
  dep_Image : string;
  dep_ContainerName : string;
  dep_Port : Z;
  dep_Privileged : bool;
  dep_VolumeMounts : list (string * string);
  dep_Volumes : list (string * string)
}.

Definition labelsForHelix (name : string) : gmap string string :=
  {["app" := "helix-service"; "helix_cr" := name]}.

Definition vault_annotations (path : string) : gmap string string :=
  if bool_decide (path <> "") then
    {["vault.hashicorp.com/agent-inject" := "true";
      "vault.hashicorp.com/role" := "helix-role";
      "vault.hashicorp.com/agent-inject-secret-helix-secrets.json" := path]}
  else ∅.

Definition deploymentForHelix (m : HelixService) : Deployment :=
  let s := hs_Spec m in
  let bpf := if hs_EnableEBPFBypass s then [("sys-fs-bpf", "/sys/fs/bpf")] else [] in {|
  dep_Name := hs_Name m; dep_Namespace := hs_Namespace m; dep_Owner := None;
  dep_Replicas := default 1 (hs_Replicas s);
  dep_Selector := labelsForHelix (hs_Name m); dep_Labels := labelsForHelix (hs_Name m);
  dep_Annotations := vault_annotations (hs_VaultSecretPath s);
  dep_Image := hs_Image s; dep_ContainerName := "helix-runtime"; dep_Port := 8080;
  dep_Privileged := hs_EnableEBPFBypass s; dep_VolumeMounts := bpf; dep_Volumes := bpf |}.

(** [ctrl.SetControllerReference] *)
Definition owned_by (m : HelixService) (d : Deployment) : Deployment :=
  {| dep_Name := dep_Name d; dep_Namespace := dep_Namespace d; dep_Owner := Some (hs_Name m);
     dep_Replicas := dep_Replicas d; dep_Selector := dep_Selector d; dep_Labels := dep_Labels d;
     dep_Annotations := dep_Annotations d; dep_Image := dep_Image d; dep_ContainerName := dep_ContainerName d;
     dep_Port := dep_Port d; dep_Privileged := dep_Privileged d; dep_VolumeMounts := dep_VolumeMounts d;
     dep_Volumes := dep_Volumes d |}.

Definition hasEBPFMount (d : Deployment) : bool :=
  existsb (fun v => bool_decide (fst v = "sys-fs-bpf")) (dep_Volumes d).

Abbreviation key := (string * string)%type.   (* namespace and name *)
Record cluster := { services : gmap key HelixService; deployments : gmap key Deployment }.

Inductive api_call := GetService | SetReference | GetDeployment | CreateDeployment | UpdateDeployment.

Definition store (k : key) (d : Deployment) (c : cluster) : cluster :=
  {| services := services c; deployments := <[k := d]> (deployments c) |}.

(** [Reconcile]: the new cluster, and whether to requeue or an error. *)
Definition Reconcile (fails : api_call -> option error) (req : key) (c : cluster) : cluster * res error bool :=
  match fails GetService with
  | Some e => (c, Err e)
  | None =>
      match services c !! req with
      | None => (c, Ok false)
      | Some helix =>
          match fails SetReference with
          | Some e => (c, Err e)
          | None =>
              let dep := owned_by helix (deploymentForHelix helix) in
              let k := (dep_Namespace dep, dep_Name dep) in
              match fails GetDeployment with
              | Some e => (c, Err e)
              | None =>
                  match deployments c !! k with
                  | None =>
                      match fails CreateDeployment with
                      | Some e => (c, Err e)
                      | None => (store k dep c, Ok true)
                      end
                  | Some found =>
                      if hs_EnableEBPFBypass (hs_Spec helix) && negb (hasEBPFMount found) then
                        match fails UpdateDeployment with
                        | Some e => (c, Err e)
                        | None => (store k dep c, Ok false)
                        end
                      else (c, Ok false)
                  end
              end
          end
      end
  end.

Definition healthy : api_call -> option error := fun _ => None.
Definition desired (helix : HelixService) : Deployment := owned_by helix (deploymentForHelix helix).
Definition dep_key (helix : HelixService) : key := (hs_Namespace helix, hs_Name helix).

(** ** Lemmas *)
Lemma desired_mount helix : hs_EnableEBPFBypass (hs_Spec helix) = true -> hasEBPFMount (desired helix) = true.
Proof. intros H. unfold hasEBPFMount, desired. cbn. by rewrite H. Qed.

Lemma Reconcile_healthy req c helix :
  services c !! req = Some helix ->
  Reconcile healthy req c =
    match deployments c !! dep_key helix with
    | None => (store (dep_key helix) (desired helix) c, Ok true)
    | Some found =>
        if hs_EnableEBPFBypass (hs_Spec helix) && negb (hasEBPFMount found)
        then (store (dep_key helix) (desired helix) c, Ok false) else (c, Ok false)
    end.
Proof. intros H. unfold Reconcile, healthy. rewrite H. done. Qed.

(** ** Properties *)

(** C37: Reconciliation converges: with a working API server, after one run for a service a
    second run changes nothing and asks for no requeue, the deployment exists, and it has
    the eBPF mount if the service asks for it; if there was no deployment before, it is
    the one the specification describes.  Other deployments are never touched. *)
Theorem reconcile_converges (req : key) (c : cluster) (helix : HelixService) :
  services c !! req = Some helix ->
  let c1 := fst (Reconcile healthy req c) in
  Reconcile healthy req c1 = (c1, Ok false) /\
  (exists d, deployments c1 !! dep_key helix = Some d /\
     (hs_EnableEBPFBypass (hs_Spec helix) = true -> hasEBPFMount d = true) /\
     (deployments c !! dep_key helix = None -> d = desired helix)) /\
  (forall k, k <> dep_key helix -> deployments c1 !! k = deployments c !! k).
Proof.
  intros Hs. cbn zeta.
  assert (Hdesired : let c1 := store (dep_key helix) (desired helix) c in
    Reconcile healthy req c1 = (c1, Ok false)).
  { cbn zeta. rewrite (Reconcile_healthy req _ helix) by done. cbn. rewrite lookup_insert_eq.
    destruct (hs_EnableEBPFBypass (hs_Spec helix)) eqn:E; [|done]. by rewrite desired_mount. }
  rewrite (Reconcile_healthy req c helix Hs).
  destruct (deployments c !! dep_key helix) as [found|] eqn:Ed; [destruct (_ && _) eqn:Eb|]; cbn [fst].
  - split; [done|]. split.
    + exists (desired helix). cbn. rewrite lookup_insert_eq. split_and!; [done|apply desired_mount|done].
    + intros k Hk. cbn. by rewrite lookup_insert_ne.
  - split; [rewrite (Reconcile_healthy req c helix Hs), Ed, Eb; done|]. split; [|done].
    exists found. split_and!; [done| |done]. intros E. rewrite E in Eb. cbn in Eb. by apply negb_false_iff in Eb.
  - split; [done|]. split.
    + exists (desired helix). cbn. rewrite lookup_insert_eq. split_and!; [done|apply desired_mount|done].
    + intros k Hk. cbn. by rewrite lookup_insert_ne.
Qed.

(** A change of the specification is not applied to an existing deployment: unless the
    eBPF mount is newly requested, reconciling leaves the deployment as it is, whatever
    image, replica count or secret path the service now has, and also when the bypass was
    switched off, so the container stays privileged. *)
Theorem spec_changes_ignored (fails : api_call -> option error) (req : key) (c : cluster) (helix : HelixService) (found : Deployment) :
  services c !! req = Some helix -> deployments c !! dep_key helix = Some found ->
  hs_EnableEBPFBypass (hs_Spec helix) = false \/ hasEBPFMount found = true ->
  fst (Reconcile fails req c) = c.
Proof.
  intros Hs Hd Hm. unfold Reconcile. rewrite Hs. fold (desired helix).
  change (deployments c !! (dep_Namespace (desired helix), dep_Name (desired helix))) with (deployments c !! dep_key helix).
  rewrite Hd. destruct (fails GetService), (fails SetReference), (fails GetDeployment); try done.
  destruct Hm as [-> | ->]; [done|]. by rewrite andb_false_r.
Qed.

(** A service whose image and replica count changed after its deployment was created. *)
Definition shop_v2 : HelixService := {| hs_Name := "shop"; hs_Namespace := "prod";
  hs_Spec := {| hs_Replicas := Some 5; hs_Image := "shop:2"; hs_EnableEBPFBypass := false; hs_RateLimit := 200;
                hs_VaultSecretPath := "" |} |}.
Definition shop_v1 : HelixService := {| hs_Name := "shop"; hs_Namespace := "prod";
  hs_Spec := {| hs_Replicas := None; hs_Image := "shop:1"; hs_EnableEBPFBypass := true; hs_RateLimit := 200;
                hs_VaultSecretPath := "" |} |}.
Definition upgraded : cluster := {|
  services := {[("prod", "shop") := shop_v2]}; deployments := {[("prod", "shop") := desired shop_v1]} |}.

Lemma reconcile_converges_witness :
  services upgraded !! ("prod", "shop") = Some shop_v2 /\
  (let c1 := fst (Reconcile healthy ("prod", "shop") upgraded) in
   Reconcile healthy ("prod", "shop") c1 = (c1, Ok false) /\
   (exists d, deployments c1 !! dep_key shop_v2 = Some d /\
      (hs_EnableEBPFBypass (hs_Spec shop_v2) = true -> hasEBPFMount d = true) /\
      (deployments upgraded !! dep_key shop_v2 = None -> d = desired shop_v2)) /\
   (forall k, k <> dep_key shop_v2 -> deployments c1 !! k = deployments upgraded !! k)).
Proof. split; [vm_compute; reflexivity|]. apply reconcile_converges. vm_compute. reflexivity. Defined.

Example upgrade_has_no_effect :
  Reconcile healthy ("prod", "shop") upgraded = (upgraded, Ok false) /\
  option_map (fun d => (dep_Image d, dep_Replicas d, dep_Privileged d)) (deployments upgraded !! ("prod", "shop"))
  = Some ("shop:1", 1, true).
Proof. split; vm_compute; reflexivity. Qed.
