(* ===== verification/OperatorTypes.v ===== *)
(** * The operator's generated deep copies ([api/v1alpha1/zz_generated.deepcopy.go]) and its
    types ([api/v1alpha1/helixservice_types.go])

    Pointers and slices are locations of a heap, so that sharing between an object and its
    copy can be seen.  The metadata of an object belongs to the API machinery: its type,
    its references and its deep copy are parameters (one type for objects and lists), with the contract of every
    [DeepCopyInto] as the hypothesis.  A condition consists of plain values. *)
From S2P Require Import Prelude GoStrings.

Abbreviation loc := nat.

Section types.
Context {Meta Condition : Type}.

Record HelixServiceSpec := {
  Replicas : option loc;     (* nil or a pointer to an int32 *)
  Image : string;
  EnableEBPFBypass : bool;
  RateLimit : Z;
  VaultSecretPath : string
}.
Record HelixServiceStatus := { Conditions : option loc  (* nil or the array of a slice *) }.
Record TypeMeta := { Kind : string; APIVersion : string }.
Record HelixService := { tm : TypeMeta; ObjectMeta : Meta; Spec : HelixServiceSpec; Status : HelixServiceStatus }.
Record HelixServiceList := { ltm : TypeMeta; ListMeta : Meta; Items : option loc }.

Inductive cell := CInt (z : Z) | CConditions (l : list Condition) | CItems (l : list HelixService).
Abbreviation heap := (gmap loc cell).

Definition alloc (c : cell) (h : heap) : heap * loc := let l := fresh (dom h) in (<[l := c]> h, l).

(** A copy refers only to memory that is allocated for it, and leaves the rest alone. *)
Definition grown (h h' : heap) (refs : gset loc) : Prop := h ⊆ h' /\ refs ## dom h /\ refs ⊆ dom h'.

Lemma grown_refl h : grown h h ∅.
Proof. split; [done|]. set_solver. Qed.
Lemma grown_trans h1 h2 h3 r1 r2 : grown h1 h2 r1 -> grown h2 h3 r2 -> grown h1 h3 (r1 ∪ r2).
Proof.
  intros (S1 & D1 & A1) (S2 & D2 & A2). pose proof (subseteq_dom _ _ S1). pose proof (subseteq_dom _ _ S2).
  split; [by etrans|]. set_solver.
Qed.
Lemma alloc_grown c h h' l : alloc c h = (h', l) -> grown h h' {[l]} /\ h' !! l = Some c.
Proof.
  intros [= <- <-]. assert (fresh (dom h) ∉ dom h) as Hf by apply is_fresh. split; [|apply lookup_insert_eq].
  split; [apply insert_subseteq; by apply not_elem_of_dom|]. rewrite dom_insert_L. set_solver.
Qed.

Lemma at_frame (h h' : heap) (l : loc) (c : cell) : h ⊆ h' -> h !! l = Some c -> h' !! l = Some c.
Proof. intros Hs Hl. by eapply lookup_weaken. Qed.

Lemma opt_frame (h h' : heap) (o : option loc) : h ⊆ h' -> (forall l, o = Some l -> is_Some (h !! l)) ->
  (h' !!.) <$> o = (h !!.) <$> o.
Proof. intros Hs Ho. destruct o as [l|]; [|done]. cbn. destruct (Ho l eq_refl) as [c Hc]. by rewrite Hc, (at_frame h h' l c). Qed.

Context (meta_copy : heap -> Meta -> heap * Meta).

(** ** The generated functions, [*out] as the result *)
Definition Spec_DeepCopyInto (h : heap) (i : HelixServiceSpec) : heap * HelixServiceSpec :=
  match Replicas i with
  | None => (h, i)
  | Some p =>
      let v := match h !! p with Some (CInt v) => v | _ => 0 end in
      let '(h, l) := alloc (CInt v) h in
      (h, {| Replicas := Some l; Image := Image i; EnableEBPFBypass := EnableEBPFBypass i; RateLimit := RateLimit i; VaultSecretPath := VaultSecretPath i |})
  end.

Definition Status_DeepCopyInto (h : heap) (i : HelixServiceStatus) : heap * HelixServiceStatus :=
  match Conditions i with
  | None => (h, i)
  | Some p =>
      let v := match h !! p with Some (CConditions v) => v | _ => [] end in
      let '(h, l) := alloc (CConditions v) h in (h, {| Conditions := Some l |})
  end.

Definition Service_DeepCopyInto (h : heap) (i : HelixService) : heap * HelixService :=
  let '(h, m) := meta_copy h (ObjectMeta i) in
  let '(h, sp) := Spec_DeepCopyInto h (Spec i) in
  let '(h, st) := Status_DeepCopyInto h (Status i) in
  (h, {| tm := tm i; ObjectMeta := m; Spec := sp; Status := st |}).

(** The loop over the items. *)
Fixpoint copy_items (h : heap) (l : list HelixService) : heap * list HelixService :=
  match l with
  | [] => (h, [])
  | x :: l => let '(h, x) := Service_DeepCopyInto h x in let '(h, l) := copy_items h l in (h, x :: l)
  end.

Definition List_DeepCopyInto (h : heap) (i : HelixServiceList) : heap * HelixServiceList :=
  let '(h, m) := meta_copy h (ListMeta i) in
  match Items i with
  | None => (h, {| ltm := ltm i; ListMeta := m; Items := None |})
  | Some p =>
      let v := match h !! p with Some (CItems v) => v | _ => [] end in
      let '(h, v) := copy_items h v in
      let '(h, l) := alloc (CItems v) h in
      (h, {| ltm := ltm i; ListMeta := m; Items := Some l |})
  end.

(** [DeepCopy] of a pointer: nil for nil. *)
Definition DeepCopy {T} (into : heap -> T -> heap * T) (h : heap) (i : option T) : heap * option T :=
  match i with None => (h, None) | Some i => let '(h, o) := into h i in (h, Some o) end.
Definition Service_DeepCopy := DeepCopy Service_DeepCopyInto.
Definition List_DeepCopy := DeepCopy List_DeepCopyInto.
Definition Spec_DeepCopy := DeepCopy Spec_DeepCopyInto.
Definition Status_DeepCopy := DeepCopy Status_DeepCopyInto.

(** [DeepCopyObject]: an interface that is nil when the copy is. *)
Inductive Object := OService (s : HelixService) | OList (l : HelixServiceList).
Definition Service_DeepCopyObject (h : heap) (i : option HelixService) : heap * option Object :=
  let '(h, c) := Service_DeepCopy h i in (h, OService <$> c).
Definition List_DeepCopyObject (h : heap) (i : option HelixServiceList) : heap * option Object :=
  let '(h, c) := List_DeepCopy h i in (h, OList <$> c).

(** ** What an object is worth, and what it refers to *)
Context (meta_refs : Meta -> gset loc) {MetaValue : Type} (meta_value : heap -> Meta -> MetaValue) (meta_wf : heap -> Meta -> Prop).

Definition refs_opt (o : option loc) : gset loc := match o with Some l => {[l]} | None => ∅ end.
Definition service_refs (s : HelixService) : gset loc :=
  meta_refs (ObjectMeta s) ∪ refs_opt (Replicas (Spec s)) ∪ refs_opt (Conditions (Status s)).
Definition service_value (h : heap) (s : HelixService) :=
  (tm s, meta_value h (ObjectMeta s), (h !!.) <$> Replicas (Spec s), (Image (Spec s), EnableEBPFBypass (Spec s), RateLimit (Spec s), VaultSecretPath (Spec s)),
   (h !!.) <$> Conditions (Status s)).
Definition int_at (h : heap) (l : loc) : Prop := exists z, h !! l = Some (CInt z).
Definition conditions_at (h : heap) (l : loc) : Prop := exists c, h !! l = Some (CConditions c).
Definition service_wf (h : heap) (s : HelixService) : Prop :=
  meta_wf h (ObjectMeta s) /\ (forall l, Replicas (Spec s) = Some l -> int_at h l) /\
  (forall l, Conditions (Status s) = Some l -> conditions_at h l).

Definition items (h : heap) (l : HelixServiceList) : list HelixService :=
  match Items l with Some p => match h !! p with Some (CItems v) => v | _ => [] end | None => [] end.
Definition list_refs (h : heap) (l : HelixServiceList) : gset loc :=
  meta_refs (ListMeta l) ∪ refs_opt (Items l) ∪ ⋃ (service_refs <$> items h l).
Definition list_value (h : heap) (l : HelixServiceList) :=
  (ltm l, meta_value h (ListMeta l), bool_decide (is_Some (Items l)), service_value h <$> items h l).
Definition list_wf (h : heap) (l : HelixServiceList) : Prop :=
  meta_wf h (ListMeta l) /\ (forall p, Items l = Some p -> exists v, h !! p = Some (CItems v)) /\ Forall (service_wf h) (items h l).

(** The contract of a deep copy, for the metadata of the API machinery. *)
Hypothesis meta_copy_ok : forall h m h' m', meta_wf h m -> meta_copy h m = (h', m') ->
  grown h h' (meta_refs m') /\ meta_wf h' m' /\ meta_value h' m' = meta_value h m.
Hypothesis meta_mono : forall h h' m, meta_wf h m -> h ⊆ h' -> meta_wf h' m.
Hypothesis meta_local : forall h h' m, (forall l, l ∈ meta_refs m -> h' !! l = h !! l) -> meta_value h' m = meta_value h m.
Hypothesis meta_wf_refs : forall h m, meta_wf h m -> meta_refs m ⊆ dom h.

(** ** Lemmas *)
Lemma meta_frame (h h' : heap) m : meta_wf h m -> h ⊆ h' -> meta_wf h' m /\ meta_value h' m = meta_value h m.
Proof.
  intros Hm Hs. split; [by eapply meta_mono|]. apply meta_local. intros l Hl. apply (meta_wf_refs h m Hm), elem_of_dom in Hl as [c Hc].
  rewrite Hc. by eapply lookup_weaken.
Qed.

Lemma spec_copy_ok h i h' o : (forall l, Replicas i = Some l -> int_at h l) -> Spec_DeepCopyInto h i = (h', o) ->
  grown h h' (refs_opt (Replicas o)) /\ (forall l, Replicas o = Some l -> int_at h' l) /\
  (h' !!.) <$> Replicas o = (h !!.) <$> Replicas i /\
  (Image o, EnableEBPFBypass o, RateLimit o, VaultSecretPath o) = (Image i, EnableEBPFBypass i, RateLimit i, VaultSecretPath i).
Proof.
  intros Hwf. unfold Spec_DeepCopyInto. destruct (Replicas i) as [p|] eqn:E.
  - destruct (Hwf p eq_refl) as [z Hz]. rewrite Hz. destruct (alloc (CInt z) h) as [h1 l] eqn:Ea. intros [= <- <-].
    apply alloc_grown in Ea as [Hg Hl]. cbn. split; [done|]. split; [|by rewrite Hl, Hz]. intros ? [= <-]. by exists z.
  - intros [= <- <-]. rewrite E. split; [apply grown_refl|]. done.
Qed.

Lemma status_copy_ok h i h' o : (forall l, Conditions i = Some l -> conditions_at h l) -> Status_DeepCopyInto h i = (h', o) ->
  grown h h' (refs_opt (Conditions o)) /\ (forall l, Conditions o = Some l -> conditions_at h' l) /\
  (h' !!.) <$> Conditions o = (h !!.) <$> Conditions i.
Proof.
  intros Hwf. unfold Status_DeepCopyInto. destruct (Conditions i) as [p|] eqn:E.
  - destruct (Hwf p eq_refl) as [z Hz]. rewrite Hz. destruct (alloc (CConditions z) h) as [h1 l] eqn:Ea. intros [= <- <-].
    apply alloc_grown in Ea as [Hg Hl]. cbn. split; [done|]. split; [|by rewrite Hl, Hz]. intros ? [= <-]. by exists z.
  - intros [= <- <-]. rewrite E. split; [apply grown_refl|]. done.
Qed.

(** Growing the heap changes neither the worth nor the shape of what was there. *)
Lemma service_frame h h' s : service_wf h s -> h ⊆ h' -> service_wf h' s /\ service_value h' s = service_value h s.
Proof.
  intros (Hm & Hr & Hc) Hs. destruct (meta_frame h h' _ Hm Hs) as [Hm' Hv]. split.
  - split; [done|]. split; intros l Hl; [destruct (Hr l Hl) as [z Hz]|destruct (Hc l Hl) as [z Hz]]; exists z; by eapply at_frame.
  - unfold service_value. rewrite Hv. rewrite (opt_frame h h' (Replicas (Spec s))), (opt_frame h h' (Conditions (Status s))); try done.
    + intros l Hl. destruct (Hc l Hl) as [z Hz]. by rewrite Hz.
    + intros l Hl. destruct (Hr l Hl) as [z Hz]. by rewrite Hz.
Qed.

Lemma service_copy_ok h s h' s' : service_wf h s -> Service_DeepCopyInto h s = (h', s') ->
  grown h h' (service_refs s') /\ service_wf h' s' /\ service_value h' s' = service_value h s.
Proof.
  intros Hwf. pose proof Hwf as (Hm & Hr & Hc). unfold Service_DeepCopyInto.
  destruct (meta_copy h (ObjectMeta s)) as [h1 m] eqn:E1. destruct (meta_copy_ok h _ h1 m Hm E1) as (G1 & W1 & V1).
  destruct (service_frame h h1 s Hwf (proj1 G1)) as [(Hm1 & Hr1 & Hc1) HV1].
  destruct (Spec_DeepCopyInto h1 (Spec s)) as [h2 sp] eqn:E2. destruct (spec_copy_ok h1 _ h2 sp Hr1 E2) as (G2 & W2 & V2 & P2).
  destruct (service_frame h1 h2 s) as [(Hm2 & Hr2 & Hc2) HV2]; [done|apply G2|].
  destruct (Status_DeepCopyInto h2 (Status s)) as [h3 st] eqn:E3. destruct (status_copy_ok h2 _ h3 st Hc2 E3) as (G3 & W3 & V3).
  intros [= <- <-].
  destruct (meta_frame h1 h3 m W1) as [W1' V1']; [etrans; [apply G2|apply G3]|].
  assert (forall l, Replicas sp = Some l -> int_at h3 l) as W2' by (intros l Hl; destruct (W2 l Hl) as [z Hz]; exists z; eapply at_frame; [apply G3|done]).
  assert ((h3 !!.) <$> Replicas sp = (h2 !!.) <$> Replicas sp) as F2.
  { apply opt_frame; [apply G3|]. intros l Hl. destruct (W2 l Hl) as [z ->]. by eexists. }
  split; [|split; [by split_and!|]].
  - unfold service_refs. cbn. rewrite <- (assoc_L (∪)). eapply grown_trans; [exact G1|]. by eapply grown_trans.
  - rewrite <- HV1, <- HV2 in *. unfold service_value in *. cbn [tm ObjectMeta Spec Status] in *. injection HV2 as E4 E5 E6. injection HV1 as E7 E8 E9. congruence.
Qed.

Lemma service_refs_dom h s : service_wf h s -> service_refs s ⊆ dom h.
Proof.
  intros (Hm & Hr & Hc). unfold service_refs. pose proof (meta_wf_refs _ _ Hm).
  assert (forall l, Replicas (Spec s) = Some l -> l ∈ dom h) by (intros l [z Hz]%Hr; by eapply elem_of_dom_2).
  assert (forall l, Conditions (Status s) = Some l -> l ∈ dom h) by (intros l [z Hz]%Hc; by eapply elem_of_dom_2).
  unfold refs_opt. destruct (Replicas (Spec s)), (Conditions (Status s)); set_solver.
Qed.

Lemma items_copy_ok h l h' l' : Forall (service_wf h) l -> copy_items h l = (h', l') ->
  grown h h' (⋃ (service_refs <$> l')) /\ Forall (service_wf h') l' /\ service_value h' <$> l' = service_value h <$> l.
Proof.
  revert h l'. induction l as [|s l IH]; intros h l' Hwf; cbn [copy_items].
  { intros [= <- <-]. split; [apply grown_refl|]. split; [constructor|done]. }
  apply Forall_cons in Hwf as [Hs Hl].
  destruct (Service_DeepCopyInto h s) as [h1 s1] eqn:E1. destruct (service_copy_ok h s h1 s1 Hs E1) as (G1 & W1 & V1).
  destruct (copy_items h1 l) as [h2 l2] eqn:E2. intros [= <- <-].
  assert (Forall (service_wf h1) l) as Hl1 by (eapply Forall_impl; [exact Hl|]; intros x Hx; by apply (service_frame h h1 x Hx (proj1 G1))).
  destruct (IH h1 l2 Hl1 E2) as (G2 & W2 & V2). destruct (service_frame h1 h2 s1 W1 (proj1 G2)) as [W1' V1'].
  split; [|split].
  - cbn. by eapply grown_trans.
  - by constructor.
  - rewrite !fmap_cons, V1', V1, V2. f_equal. apply list_fmap_ext. intros i x Hx.
    apply (service_frame h h1 x); [|apply G1]. by eapply Forall_lookup_1.
Qed.

Lemma items_dom h l : list_wf h l -> list_refs h l ⊆ dom h.
Proof.
  intros (Hm & Hi & Hs). unfold list_refs. pose proof (meta_wf_refs _ _ Hm).
  assert (forall p, Items l = Some p -> p ∈ dom h) by (intros p [v Hv]%Hi; by eapply elem_of_dom_2).
  assert (⋃ (service_refs <$> items h l) ⊆ dom h).
  { revert Hs. generalize (items h l). intros its Hs. induction Hs as [|s ss Hs _ IH]; cbn; [set_solver|]. apply service_refs_dom in Hs. set_solver. }
  unfold refs_opt. destruct (Items l); set_solver.
Qed.

(** A value is decided by the memory it refers to. *)
Lemma service_local (h h' : heap) s : (forall l, l ∈ service_refs s -> h' !! l = h !! l) -> service_value h' s = service_value h s.
Proof.
  intros Hl. unfold service_value, service_refs, refs_opt in *. rewrite (meta_local h h') by set_solver.
  destruct (Replicas (Spec s)) as [p|], (Conditions (Status s)) as [q|]; cbn; rewrite ?(Hl p), ?(Hl q) by set_solver; done.
Qed.

Lemma list_local (h h' : heap) l : (forall p, p ∈ list_refs h l -> h' !! p = h !! p) -> list_value h' l = list_value h l.
Proof.
  intros Hl. unfold list_value. rewrite (meta_local h h') by (unfold list_refs in Hl; set_solver).
  assert (items h' l = items h l) as ->.
  { unfold items, list_refs in *. destruct (Items l) as [p|]; [|done]. rewrite Hl; [done|]. cbn. set_solver. }
  f_equal. apply list_fmap_ext. intros i s Hs. apply service_local. intros p Hp. apply Hl. unfold list_refs.
  apply elem_of_union_r. apply elem_of_union_list. exists (service_refs s). split; [|done]. apply list_elem_of_fmap. exists s. split; [done|]. by eapply list_elem_of_lookup_2.
Qed.

(** C38: the deep copy of a list is equal to it and independent of it.  The copy has the
    same metadata, the same items with the same specifications and the same conditions;
    everything it refers to was allocated for it; whatever is then written through either
    of the two, the other keeps its value. *)
Theorem deep_copy_independent (h h' : heap) (l l' : HelixServiceList) :
  list_wf h l -> List_DeepCopyObject h (Some l) = (h', Some (OList l')) ->
  list_value h' l' = list_value h l /\ list_refs h' l' ## dom h /\
  (forall h2, (forall p, p ∉ list_refs h' l' -> h2 !! p = h' !! p) -> list_value h2 l = list_value h l) /\
  (forall h2, (forall p, p ∉ list_refs h l -> h2 !! p = h' !! p) -> list_value h2 l' = list_value h l).
Proof.
  intros Hwf. unfold List_DeepCopyObject, List_DeepCopy, DeepCopy.
  destruct (List_DeepCopyInto h l) as [h0 l0] eqn:E. intros [= -> ->].
  pose proof (items_dom _ _ Hwf) as Hd. pose proof Hwf as (Hm & Hi & Hs). revert E. unfold List_DeepCopyInto.
  destruct (meta_copy h (ListMeta l)) as [h1 m] eqn:E1. destruct (meta_copy_ok h _ h1 m Hm E1) as (G1 & W1 & V1).
  assert (list_value h' l' = list_value h l /\ grown h h' (list_refs h' l') -> list_value h' l' = list_value h l /\ list_refs h' l' ## dom h /\
    (forall h2, (forall p, p ∉ list_refs h' l' -> h2 !! p = h' !! p) -> list_value h2 l = list_value h l) /\
    (forall h2, (forall p, p ∉ list_refs h l -> h2 !! p = h' !! p) -> list_value h2 l' = list_value h l)) as Hmain.
  { intros [HV (Hsub & Hdis & Hin)]. split_and!; [done|done| |].
    - intros h2 Hh2. apply list_local. intros p Hp. assert (p ∈ dom h) as [c Hc]%elem_of_dom by set_solver.
      rewrite Hh2 by (set_solver). rewrite Hc. by eapply lookup_weaken.
    - intros h2 Hh2. rewrite <- HV. apply list_local. intros p Hp. apply Hh2. set_solver. }
  destruct (Items l) as [p|] eqn:Ep.
  - destruct (Hi p eq_refl) as [v Hv].
    assert (items h l = v) as Ev by (unfold items; by rewrite Ep, Hv). rewrite Ev in Hs.
    rewrite (at_frame h h1 p _ (proj1 G1) Hv). destruct (copy_items h1 v) as [h2 v2] eqn:E2.
    assert (Forall (service_wf h1) v) as Hs1 by (eapply Forall_impl; [exact Hs|]; intros x Hx; by apply (service_frame h h1 x Hx (proj1 G1))).
    destruct (items_copy_ok h1 v h2 v2 Hs1 E2) as (G2 & W2 & V2).
    destruct (alloc (CItems v2) h2) as [h3 q] eqn:E3. apply alloc_grown in E3 as [G3 Hq]. intros [= <- <-]. apply Hmain.
    assert (items h3 {| ltm := ltm l; ListMeta := m; Items := Some q |} = v2) as Ev3 by (unfold items; cbn; by rewrite Hq).
    destruct (meta_frame h1 h3 m W1) as [_ Vm]; [etrans; [apply G2|apply G3]|]. split.
    + unfold list_value. rewrite Ev3, Ev, Ep. cbn [ltm ListMeta Items]. rewrite Vm, V1. f_equal.
      transitivity (service_value h2 <$> v2).
      { apply list_fmap_ext. intros i x Hx. apply (service_frame h2 h3 x); [by eapply Forall_lookup_1|apply G3]. }
      rewrite V2. apply list_fmap_ext. intros i x Hx. apply (service_frame h h1 x); [by eapply Forall_lookup_1|apply G1].
    + unfold list_refs. rewrite Ev3. cbn [ListMeta Items refs_opt].
      replace (meta_refs m ∪ {[q]} ∪ ⋃ (service_refs <$> v2)) with (meta_refs m ∪ (⋃ (service_refs <$> v2) ∪ {[q]})) by set_solver.
      eapply grown_trans; [exact G1|]. by eapply grown_trans.
  - intros [= <- <-]. apply Hmain. split.
    + unfold list_value, items. cbn. rewrite Ep, V1. done.
    + unfold list_refs, items. cbn. by rewrite !union_empty_r_L.
Qed.
End types.

(** ** A list in memory

    Metadata with one pointer, as the grace period of a deletion. *)
Definition pointer_copy {Condition} (h : gmap loc (cell (Meta := option loc) (Condition := Condition))) (m : option loc)
  : gmap loc (cell (Meta := option loc) (Condition := Condition)) * option loc :=
  match m with
  | None => (h, None)
  | Some p => let '(h, l) := alloc (CInt match h !! p with Some (CInt v) => v | _ => 0 end) h in (h, Some l)
  end.

Lemma pointer_copy_ok {Condition} (h : gmap loc (cell (Meta := option loc) (Condition := Condition))) m h' m' :
  (forall l, m = Some l -> int_at h l) -> pointer_copy h m = (h', m') ->
  grown h h' (refs_opt m') /\ (forall l, m' = Some l -> int_at h' l) /\ (h' !!.) <$> m' = (h !!.) <$> m.
Proof.
  intros Hwf. unfold pointer_copy. destruct m as [p|].
  - destruct (Hwf p eq_refl) as [z Hz]. rewrite Hz. destruct (alloc (CInt z) h) as [h1 l] eqn:Ea. intros [= <- <-].
    apply alloc_grown in Ea as [Hg Hl]. cbn. split; [done|]. split; [|by rewrite Hl, Hz]. intros ? [= <-]. by exists z.
  - intros [= <- <-]. split; [apply grown_refl|done].
Qed.

Definition sample_heap : gmap loc (cell (Meta := option loc) (Condition := string)) :=
  {[0%nat := CInt 30; 1%nat := CInt 3; 2%nat := CConditions ["Available"];
    3%nat := CItems [{| tm := {| Kind := "HelixService"; APIVersion := "v1alpha1" |}; ObjectMeta := Some 0%nat;
      Spec := {| Replicas := Some 1%nat; Image := "svc:1"; EnableEBPFBypass := true; RateLimit := 200; VaultSecretPath := "" |};
      Status := {| Conditions := Some 2%nat |} |}]]}.
Definition sample_list : HelixServiceList (Meta := option loc) :=
  {| ltm := {| Kind := "HelixServiceList"; APIVersion := "v1alpha1" |}; ListMeta := None; Items := Some 3%nat |}.

(** Scaling the copy does not scale the original. *)
Lemma deep_copy_independent_witness :
  let '(h', l') := List_DeepCopyInto pointer_copy sample_heap sample_list in
  List_DeepCopyObject pointer_copy sample_heap (Some sample_list) = (h', Some (OList l')) /\
  list_value (fun (h : gmap loc _) m => (h !!.) <$> m) h' l' = list_value (fun (h : gmap loc _) m => (h !!.) <$> m) sample_heap sample_list /\
  list_value (fun (h : gmap loc _) m => (h !!.) <$> m) (<[5%nat := CInt 9]> h') sample_list
    = list_value (fun (h : gmap loc _) m => (h !!.) <$> m) sample_heap sample_list.
Proof.
  destruct (List_DeepCopyInto pointer_copy sample_heap sample_list) as [h' l'] eqn:E.
  destruct (deep_copy_independent (Meta := option loc) (Condition := string) pointer_copy refs_opt (fun (h : gmap loc _) m => (h !!.) <$> m)
    (fun h m => forall l, m = Some l -> int_at h l)) with (h := sample_heap) (h' := h') (l := sample_list) (l' := l') as (H1 & H2 & H3 & _).
  - intros. by apply pointer_copy_ok.
  - intros h h2 m Hm Hs l Hl. destruct (Hm l Hl) as [z Hz]. exists z. by eapply lookup_weaken.
  - intros h h2 m Hl. destruct m as [p|]; [|done]. cbn. by rewrite Hl by (cbn; set_solver).
  - intros h m Hm. destruct m as [p|]; [|set_solver]. destruct (Hm p eq_refl) as [z Hz]. cbn. apply elem_of_dom_2 in Hz. set_solver.
  - split; [done|]. split; [intros p [= <-]; by eexists|]. repeat constructor; try (by intros ? [= <-]; eexists).
  - unfold List_DeepCopyObject, List_DeepCopy, DeepCopy. rewrite E. reflexivity.
  - split; [unfold List_DeepCopyObject, List_DeepCopy, DeepCopy; rewrite E; reflexivity|]. split; [exact H1|]. apply H3. intros p Hp. apply lookup_insert_ne. intros <-. apply Hp. revert E. vm_compute. intros [= <- <-]. reflexivity.
Defined.
