(* ===== verification/OperatorMain.v ===== *)
(** * Start-up of the operator ([integrations/helix-operator/cmd/main.go],
    [api/v1alpha1/groupversion_info.go])

    From the command line to the options of the manager, and the stages of [main] with
    their exit codes.  The flags the imported libraries register are a parameter, and so
    are the answers of the manager. *)
From S2P Require Import Prelude GoStrings GoText Cli.

(** ** The group and its types *)
Record GroupVersion := { Group : string; Version : string }.
Definition SchemeGroupVersion : GroupVersion := {| Group := "orchestration.helixrpc.io"; Version := "v1alpha1" |}.
(** The scheme as the kinds it knows.  [SchemeBuilder] first adds the kinds every group has
    ([metav1.AddToGroupVersion], a parameter), then those that were registered with it. *)
Definition scheme : Type := gset (string * string * string).
Definition kind_of (gv : GroupVersion) (kind : string) : string * string * string := (Group gv, Version gv, kind).
Definition register_types (s : scheme) : scheme :=
  {[kind_of SchemeGroupVersion "HelixService"; kind_of SchemeGroupVersion "HelixServiceList"]} ∪ s.
Definition AddToScheme (AddToGroupVersion : GroupVersion -> scheme -> scheme) (s : scheme) : scheme :=
  register_types (AddToGroupVersion SchemeGroupVersion s).
(** The scheme of the process after [init]; [None]: the client library's types do not
    register, and [Must] panics. *)
Definition init_scheme (AddToGroupVersion : GroupVersion -> scheme -> scheme) (clientgo_AddToScheme : scheme -> option scheme)
  : option scheme := AddToScheme AddToGroupVersion <$> clientgo_AddToScheme ∅.

(** ** Options *)
Record tls_Config := { NextProtos : list string }.
Definition disableHTTP2 (c : tls_Config) : tls_Config := {| NextProtos := ["http/1.1"] |}.

Record cert_options := { CertDir : string; CertName : string; KeyName : string }.
Record metrics_options := {
  BindAddress : string;
  SecureServing : bool;
  m_TLSOpts : list (tls_Config -> tls_Config);
  FilterProvider : bool;           (* authentication and authorisation *)
  m_certs : cert_options
}.
Record webhook_options := { w_TLSOpts : list (tls_Config -> tls_Config); w_certs : cert_options }.
Record manager_options := {
  Scheme : scheme;
  Metrics : metrics_options;
  WebhookServer : webhook_options;
  HealthProbeBindAddress : string;
  LeaderElection : bool;
  LeaderElectionID : string
}.

Definition operator_flags : list (string * flag_kind) :=
  [("metrics-bind-address", FString); ("health-probe-bind-address", FString); ("leader-elect", FBool); ("metrics-secure", FBool);
   ("webhook-cert-path", FString); ("webhook-cert-name", FString); ("webhook-cert-key", FString);
   ("metrics-cert-path", FString); ("metrics-cert-name", FString); ("metrics-cert-key", FString); ("enable-http2", FBool)].

(** Certificates are set when a directory is given. *)
Definition certs (path name key : string) : cert_options :=
  if bool_decide (path = "") then {| CertDir := ""; CertName := ""; KeyName := "" |} else {| CertDir := path; CertName := name; KeyName := key |}.

Definition options (sch : scheme) (vals : gmap string string) : manager_options :=
  let secureMetrics := negb (bool_decide (vals !! "metrics-secure" = Some "false")) in
  let tlsOpts := if flag_bool vals "enable-http2" then [] else [disableHTTP2] in
  {| Scheme := sch;
     Metrics := {| BindAddress := flag_string vals "metrics-bind-address" "0"; SecureServing := secureMetrics; m_TLSOpts := tlsOpts;
       FilterProvider := secureMetrics;
       m_certs := certs (flag_string vals "metrics-cert-path" "") (flag_string vals "metrics-cert-name" "tls.crt") (flag_string vals "metrics-cert-key" "tls.key") |};
     WebhookServer := {| w_TLSOpts := tlsOpts;
       w_certs := certs (flag_string vals "webhook-cert-path" "") (flag_string vals "webhook-cert-name" "tls.crt") (flag_string vals "webhook-cert-key" "tls.key") |};
     HealthProbeBindAddress := flag_string vals "health-probe-bind-address" ":8081";
     LeaderElection := flag_bool vals "leader-elect";
     LeaderElectionID := "e22b572d.helixrpc.io" |}.

(** ** The stages *)
Inductive stage := GetConfig | NewManager | SetupController | AddHealthz | AddReadyz | StartManager.
#[export] Instance stage_eq_dec : EqDecision stage.
Proof. solve_decision. Defined.
Definition stages : list stage := [GetConfig; NewManager; SetupController; AddHealthz; AddReadyz; StartManager].

(** The stages are tried in order until one fails, which ends the process. *)
Fixpoint run_stages (ok : stage -> bool) (l : list stage) : list stage * Z :=
  match l with
  | [] => ([], 0)
  | s :: l => if ok s then let '(ran, code) := run_stages ok l in (s :: ran, code) else ([s], 1)
  end.

(** [library_flags]: those of the logger and of the client configuration; [sch]: what
    [init] left.  The result is
    the options given to the manager, the stages that were tried and the exit code. *)
Definition main (library_flags : list (string * flag_kind)) (sch : scheme) (ok : stage -> bool) (args : list string)
  : option manager_options * list stage * Z :=
  match parse_flags (operator_flags ++ library_flags) ∅ args with
  | Err FlagHelp => (None, [], 0)
  | Err FlagError => (None, [], 2)
  | Ok vals => let '(ran, code) := run_stages ok stages in (Some (options sch vals), ran, code)
  end.

(** ** Lemmas *)
Definition mentions (name : string) (arg : string) : Prop := exists v, flag_name arg = Some (name, v).

(** A flag no argument mentions keeps its value. *)
Lemma parse_flags_untouched spec name args vals vals' : name <> "" ->
  Forall (fun a => ~ mentions name a) args -> parse_flags spec vals args = Ok vals' -> vals' !! name = vals !! name.
Proof.
  intros Hne. remember (length args) as n eqn:En. revert args vals En.
  induction n as [n IH] using lt_wf_ind. intros args vals En Hargs. destruct args as [|a args]; [by intros [= <-]|].
  apply Forall_cons in Hargs as [Ha Hargs]. cbn [parse_flags]. case_bool_decide; [by intros [= <-]|].
  destruct (flag_name a) as [[nm v]|] eqn:Ef; [|by intros [= <-]].
  destruct nm as [|c nm]; [done|]. set (nm' := String c nm) in *.
  assert (nm' <> name) as Hnm by (intros <-; apply Ha; by exists v).
  assert (forall x rest, (length rest < n)%nat -> Forall (fun a => ~ mentions name a) rest ->
    parse_flags spec (<[nm' := x]> vals) rest = Ok vals' -> vals' !! name = vals !! name) as Hrec.
  { intros x rest Hlt Hrest Hp. rewrite (IH _ Hlt rest _ eq_refl Hrest Hp). by apply lookup_insert_ne. }
  cbn [length] in En. destruct (flag_lookup spec nm') as [[]|]; [|destruct v as [v|]|done].
  - destruct v as [v|]; [apply Hrec; [lia|done]|]. destruct args as [|v args]; [done|]. cbn [length] in En.
    apply Forall_cons in Hargs as [_ Hargs]. apply Hrec; [lia|done].
  - destruct (ParseBool v); [|done]. apply Hrec; [lia|done].
  - apply Hrec; [lia|done].
Qed.

Lemma run_stages_ok ok l : let '(ran, code) := run_stages ok l in
  (code = 0 /\ ran = l /\ Forall (fun s => ok s = true) l) \/
  (code = 1 /\ exists pre s post, l = pre ++ s :: post /\ ran = pre ++ [s] /\ ok s = false /\ Forall (fun s => ok s = true) pre).
Proof.
  induction l as [|s l IH]; cbn; [left; by split_and!|]. destruct (ok s) eqn:E.
  - destruct (run_stages ok l) as [ran code]. destruct IH as [(-> & -> & Hall)|(-> & pre & s' & post & -> & -> & Hs & Hall)].
    + left. split_and!; [done|done|by constructor].
    + right. split; [done|]. exists (s :: pre), s', post. split_and!; [done|done|done|by constructor].
  - right. split; [done|]. exists [], s, l. by split_and!.
Qed.

(** The protocols a server offers, from those of a fresh TLS configuration. *)
Definition protocols (opts : list (tls_Config -> tls_Config)) (start : tls_Config) : list string := NextProtos (foldl (fun c f => f c) start opts).

(** ** Properties *)

(** the operator is secure by default.  Neither server offers HTTP/2 unless
    [--enable-http2] is given, whatever else is; metrics are served over TLS behind
    authentication and authorisation unless [--metrics-secure] is given, and not at all
    without an address for them. *)
Theorem secure_by_default (lib : list (string * flag_kind)) (sch : scheme) (ok : stage -> bool) (args : list string)
    (o : manager_options) (ran : list stage) (code : Z) (start : tls_Config) :
  main lib sch ok args = (Some o, ran, code) ->
  (Forall (fun a => ~ mentions "enable-http2" a) args ->
     protocols (m_TLSOpts (Metrics o)) start = ["http/1.1"] /\ protocols (w_TLSOpts (WebhookServer o)) start = ["http/1.1"]) /\
  (Forall (fun a => ~ mentions "metrics-secure" a) args -> SecureServing (Metrics o) = true /\ FilterProvider (Metrics o) = true) /\
  (Forall (fun a => ~ mentions "metrics-bind-address" a) args -> BindAddress (Metrics o) = "0").
Proof.
  unfold main. destruct (parse_flags _ ∅ args) as [vals|[]] eqn:Ep; [|done|done].
  destruct (run_stages ok stages). intros [= <- _ _]. unfold options, protocols.
  cbn [Metrics WebhookServer m_TLSOpts w_TLSOpts SecureServing FilterProvider BindAddress].
  split_and!; intros Ha.
  - pose proof (parse_flags_untouched _ "enable-http2" args ∅ vals ltac:(done) Ha Ep) as Hv. rewrite lookup_empty in Hv.
    unfold flag_bool. by rewrite Hv.
  - pose proof (parse_flags_untouched _ "metrics-secure" args ∅ vals ltac:(done) Ha Ep) as Hv. rewrite lookup_empty in Hv. by rewrite Hv.
  - pose proof (parse_flags_untouched _ "metrics-bind-address" args ∅ vals ltac:(done) Ha Ep) as Hv. rewrite lookup_empty in Hv.
    unfold flag_string. by rewrite Hv.
Qed.

(** the manager knows the operator's own kinds, whatever the libraries register. *)
Theorem scheme_knows_kinds (agv : GroupVersion -> scheme -> scheme) (client : scheme -> option scheme) (sch : scheme)
    (lib : list (string * flag_kind)) (ok : stage -> bool) (args : list string) (o : manager_options) (ran : list stage) (code : Z) :
  init_scheme agv client = Some sch -> main lib sch ok args = (Some o, ran, code) ->
  kind_of SchemeGroupVersion "HelixService" ∈ Scheme o /\ kind_of SchemeGroupVersion "HelixServiceList" ∈ Scheme o.
Proof.
  unfold init_scheme. destruct (client ∅) as [s|]; [|done]. intros [= <-]. unfold main.
  destruct (parse_flags _ ∅ args) as [vals|[]]; [|done|done]. destruct (run_stages ok stages). intros [= <- _ _].
  unfold options, AddToScheme, register_types. cbn [Scheme]. set_solver.
Qed.

(** the operator stops at the first stage that fails: it exits with 0 exactly when every
    stage succeeded, with 1 right after the first one that did not, and with 2 on flags it
    does not know, before any stage. *)
Theorem main_exit (lib : list (string * flag_kind)) (sch : scheme) (ok : stage -> bool) (args : list string) :
  let '(o, ran, code) := main lib sch ok args in
  match o with
  | None => ran = [] /\ (code = 0 \/ code = 2)
  | Some _ =>
      (code = 0 /\ ran = stages /\ forall s, ok s = true) \/
      (code = 1 /\ exists pre s, prefix (pre ++ [s]) stages /\ ran = pre ++ [s] /\ ok s = false /\ Forall (fun s => ok s = true) pre)
  end.
Proof.
  unfold main. destruct (parse_flags _ ∅ args) as [vals|[]]; [|auto|auto].
  pose proof (run_stages_ok ok stages) as H. destruct (run_stages ok stages) as [ran code].
  destruct H as [(-> & -> & Hall)|(-> & pre & s & post & E & -> & Hs & Hall)]; [left|right].
  - split_and!; [done|done|]. intros s. eapply (proj1 (Forall_forall _ _) Hall). destruct s; set_solver.
  - split; [done|]. exists pre, s. split_and!; [|done|done|done]. exists post. rewrite E, <- app_assoc. done.
Qed.

Lemma secure_by_default_witness :
  let '(o, _, code) := main [] ∅ (fun _ => true) ["--metrics-bind-address"; ":8443"] in
  code = 0 /\ exists o', o = Some o' /\ protocols (m_TLSOpts (Metrics o')) {| NextProtos := ["h2"; "http/1.1"] |} = ["http/1.1"] /\ BindAddress (Metrics o') = ":8443".
Proof.
  destruct (main [] ∅ (fun _ => true) ["--metrics-bind-address"; ":8443"]) as [[o ran] code] eqn:E.
  assert (exists o', o = Some o' /\ code = 0 /\ BindAddress (Metrics o') = ":8443") as (o' & -> & -> & Hb).
  { revert E. vm_compute. intros [= <- _ <-]. eexists. split; [reflexivity|]. done. }
  split; [reflexivity|]. exists o'. split; [reflexivity|]. split; [|exact Hb].
  refine (proj1 (proj1 (secure_by_default [] ∅ (fun _ => true) _ o' ran 0 {| NextProtos := ["h2"; "http/1.1"] |} E) _)).
  repeat constructor; intros [v Hv]; vm_compute in Hv; discriminate Hv.
Defined.
